(* ===== verification/_CoqProject ===== *)
-Q . S2P
Prelude.v
NgUtil.v
TaskBuf.v
NgTypes.v
DciRing.v
DciSink.v
UeTracker.v
UeList.v
StatusRelay.v
DciLog.v
Phich.v
SearchSpace.v
DciTree.v
DciSearch.v
DciFilter.v
Log2f.v
PhyCommon.v
RaTables.v
Ra.v
DciBits.v
DciFormat.v
DciPack.v
DciRoundtrip.v
RaAlloc.v
RaDl.v
Pdsch.v
DlGrant.v
Crc.v
ConvCode.v
Trellis.v
Viterbi.v
Sequence.v
Regs.v
RegsInit.v
Modem.v
Pcfich.v
Pdcch.v
RaUl.v
DciDecode.v
Receive.v
AsnArrays.v
BitRef.v
PerCodec.v
PerTypes.v
PerExt.v
