(* ===== verification/Prelude.v ===== *)
(** * Verification of NG-Scope: overview and prelude

    NG-Scope listens to the control channel of LTE cells. Every millisecond it receives a
    subframe, searches its control region for DCI messages, decodes them to grants, orders
    the grants of the cells in time, keeps counters of the active UEs, writes logs and sends
    the messages of one target UE to remote clients. The program is the NG-Scope library
    ([ngscope/src/dciLib]) on top of a modified copy of srsRAN ([lib/src/phy], [lib/src/asn1]).

    ** The parts and how they interact

    A subframe passes through the following parts, each modelled by the files on its right.

      reception, scheduling      task_scheduler.c, task_sf_ring_buffer.c, skip_tti.c     TaskBuf
      control region             regs.c                                           Regs, RegsInit
      candidate locations        ngscope_search_space.c, ue_dl.c                         SearchSpace
      channel coding             crc.c, convcoder.c, parity.c, rm_conv.c              Crc, ConvCode
      decoding of a candidate    viterbi.c, viterbi37_port.c, pdcch.c        Trellis, Viterbi, Pdcch
      DCI payload                bit.c, dci.c            DciBits, DciFormat, DciPack, DciRoundtrip
      resource allocation        ra.c, tbs_tables.h, phy_common.c        PhyCommon, RaTables, Ra
      assignments and grants     ra_dl.c, ra_ul.c                     RaAlloc, RaDl, DlGrant, RaUl
      resource elements          pdsch.c, prb_dl.c, pusch.c                          Pdsch, RaUl
      messages to grants         ngscope_dci.c, ue_dl.c                                 DciDecode
      scrambling                 sequence.c, sequences.c                                 Sequence
      coding to grant in one     pdcch.c, ngscope_dci.c                                   Receive
      blind search               ngscope.c, ngscope_tree.c, ngscope_dci.c     DciTree, DciSearch
      filtering                  dci_decoder.c, ue_tracker.c                UeTracker, DciFilter
      PHICH acknowledgements     phich_decoder.c                                           Phich
      hand-over between threads  dci_decoder.c, status_tracker.c, cell_status.c      StatusRelay
      ordering in time           dci_ring_buffer.c, ngscope_util.c, ngscope_st.c
                                                                    NgUtil, NgTypes, DciRing
      counters and logs          ue_list.c, dci_log.c                            UeList, DciLog
      remote clients             dci_sink_*.c                                          DciSink
      system information         asn1_utils.h, asn1_utils.cc
                                      AsnArrays, BitRef, PerCodec, PerTypes, PerExt

    [Prelude] holds what all files share: integers of a width with their wrap-around ([uwrap],
    [swrap]), arrays as lists whose accesses outside are [None] ([zget], [zset]), loops
    ([foldM], [for_range]) with an invariant rule, finite checks, rings. [Log2f] holds the
    binary32 logarithms of srsRAN, executable on integers.

    ** How the code is modelled

    A C struct is a [Record], an enumeration an [Inductive] or its number, a function a
    [Definition] or [Fixpoint] of the same name. A function that writes through pointers takes
    and returns the objects they point to. An undefined access, shift or division of the code
    is [None], so that a theorem that concludes [Some] shows that there is none. Return codes
    are values; the early return of a loop is a flag of its state. What the code reads before
    it is written (uninitialised locals, the memory outside an array) is a parameter of the
    model. Threads that share a buffer are a step relation over their critical sections.
    Functions that are not under [src/] (the JSON text of a number, clocks, sockets) and the
    signal processing (the symbols of a subframe, correlations, the PHICH detector) are
    parameters. The blind search ([DciSearch]) takes the decoder of a candidate as a parameter,
    so that its theorems hold for any; [Pdcch] and [Receive] are about the decoder of the code.
    A float is a value of [SpecFloat] of its width, and every operation rounds to the nearest.
    Allocation succeeds in the objects of the control channel, and what new memory
    holds is a parameter.

    ** What the theorems show

    - Ring buffers refine their specifications: a bounded FIFO ([TaskBuf]), a reorder buffer
      with timeout ([DciRing.put_refines_reorder]), the sequence of decoded subframes under all
      interleavings of the threads ([StatusRelay.threads_refine_sequence]).
    - The candidate locations are those of the standard ([SearchSpace]); the search ends,
      stays in its arrays and accepts messages on pairwise disjoint locations ([DciSearch]);
      the filter keeps that ([DciFilter]).
    - The control region of a cell is divided without overlap among its channels, in the order
      of the standard ([RegsInit.control_region_divided]), and the symbols that the channels
      put on the grid are got back ([RegsInit.control_channels_kept]).
    - The checksum is the remainder of the division by the generator and detects bursts
      ([Crc]); rate matching and its inverse give the sum of the copies of each bit
      ([ConvCode]); the Viterbi decoder finds the nearest codeword among those it can answer
      with and recovers a frame from symbols that are not too weak ([Viterbi]).
    - What the transmitter of a DCI sends to a user, the receiver of NG-Scope takes, with its
      RNTI, and the figure it reports is the share of the soft bits that agree with what it
      decoded ([Pdcch]). An assignment of format 1A, packed, coded and sent, is reported with
      the blocks and the size that were assigned ([Receive.ngscope_receives_1A]).
    - DCI messages: the sizes of the formats are unambiguous ([DciFormat]), what a format
      carries survives packing and unpacking ([DciRoundtrip]), resource indication values are
      in bijection with ranges of blocks ([Ra]).
    - Grants: a DCI marks exactly the blocks of the standard ([RaAlloc]) and becomes a grant
      with the sizes of the tables, or is refused for a listed reason ([DlGrant], [RaUl]).
      Decoding any bits stays in the arrays, and what a base station assigns in format 1A or 0
      is what NG-Scope reports ([DciDecode]).
    - The elements of a grant are those its mapping copies, and what is put on the grid is got
      back ([Pdsch], [RaUl]).
    - The scrambling sequences are those of the standard, however they are computed, and
      scrambling twice gives the input back ([Sequence]).
    - Counters and tables of UEs are consistent after every update ([UeTracker], [UeList]).
    - Log files are always one closed JSON array of the entries logged so far ([DciLog]).
    - Remote clients receive every DCI once and in order ([DciSink]); a datagram cut short
      makes their parser loop for ever.
    - The PER codec: every encoder is inverted by its decoder, where the code has no bug
      ([PerCodec], [PerTypes], [PerExt]); where it has one, an example shows it.

    ** Bounds and fuel

    Loops with a counter are [for_range]. The others take fuel: the search loop over blocks
    ([DciSearch.search_fuel], one block more than the 12 of 180 locations), the timeout loop of
    the ring (its size), the scans of a DCI payload and the padding loops (the 128 cells of the
    payload), the parse loop of a datagram (its theorems hold for all fuel), the numbering of
    the groups of the control region (three places for every symbol of every block, which is
    where all groups lie), the walk of the rate matching along its buffer (a turn of the buffer
    meets at least one bit), the count of the ones of a byte (8). Running out is [None] or, in
    the parse loop, a result of its own, and the theorems show that it does not occur.

    ** Not modelled

    - Radio, sampling, synchronisation, FFT, channel estimation, demodulation, turbo decoder:
      floating-point signal processing. The results they give are parameters. Vector
      instructions ([LV_HAVE_SSE]) stand for the loops beside them, which are modelled; the
      vector forms of the Viterbi decoder are files of their own and are not.
    - The soft bits of the control region ([srsran_pdcch_extract_llr]: equalisation,
      demodulation) and the correlation of a message with what was received.
    - Threads and sockets as such, signal handlers, the plots, the configuration and argument
      parsers, the text written for debugging.
    - The RRC, S1AP and NGAP messages of [lib/src/asn1]: generated code, a sequence of calls to
      the codec that is modelled.
    - srsue, srsenb, srsepc, srsgnb and the upper layers of srsRAN, which NG-Scope does not run.
    - TDD in the round trips of DCI messages: the code unpacks fields there that it never packs.

    ** Conventions of this file

    The rest of this file is the shared prelude. *)

From stdpp Require Export base list list_numbers gmap numbers option sorting.
From Stdlib Require Export ZArith Lia.

#[global] Open Scope Z_scope.

(** [lia] sees quotients and remainders through their defining equations. *)
Ltac Zify.zify_post_hook ::= Z.to_euclidean_division_equations.

(** ** Fixed-width integers

    A C/C++ integer of [w] bits is a [Z]; the wrap-around of an unsigned
    assignment is written out with [uwrap], the conversion to a signed type
    (two's complement, as the compilers the project supports define it) with
    [swrap]. *)

Definition uwrap (w z : Z) : Z := z mod 2 ^ w.
Definition swrap (w z : Z) : Z := (z + 2 ^ (w - 1)) mod 2 ^ w - 2 ^ (w - 1).

Abbreviation u8 := (uwrap 8).
Abbreviation u16 := (uwrap 16).
Abbreviation u32 := (uwrap 32).
Abbreviation u64 := (uwrap 64).
Abbreviation s8 := (swrap 8).
Abbreviation s32 := (swrap 32).

(** [z] is a value of the unsigned type of [w] bits. *)
Definition is_uint (w z : Z) : Prop := 0 <= z < 2 ^ w.

#[export] Instance is_uint_dec w z : Decision (is_uint w z).
Proof. unfold is_uint. solve_decision. Defined.

Lemma uwrap_is_uint w z : 0 <= w -> is_uint w (uwrap w z).
Proof. intros Hw. apply Z.mod_pos_bound, Z.pow_pos_nonneg; lia. Qed.

Lemma uwrap_small w z : is_uint w z -> uwrap w z = z.
Proof. apply Z.mod_small. Qed.

Lemma uwrap_idemp w z : uwrap w (uwrap w z) = uwrap w z.
Proof. apply Zmod_mod. Qed.

Lemma uwrap_add_l w a b : uwrap w (uwrap w a + b) = uwrap w (a + b).
Proof. apply Zplus_mod_idemp_l. Qed.

Lemma uwrap_add_r w a b : uwrap w (a + uwrap w b) = uwrap w (a + b).
Proof. apply Zplus_mod_idemp_r. Qed.

Lemma swrap_small w z : 0 < w -> - 2 ^ (w - 1) <= z < 2 ^ (w - 1) -> swrap w z = z.
Proof.
  intros Hw Hz. unfold swrap.
  assert (2 ^ w = 2 * 2 ^ (w - 1)) as E.
  { rewrite <- Z.pow_succ_r by lia. f_equal. lia. }
  rewrite Z.mod_small; lia.
Qed.

Lemma swrap_range w z : 0 < w -> - 2 ^ (w - 1) <= swrap w z < 2 ^ (w - 1).
Proof.
  intros Hw. unfold swrap.
  assert (2 ^ w = 2 * 2 ^ (w - 1)) as E.
  { rewrite <- Z.pow_succ_r by lia. f_equal. lia. }
  pose proof (Z.mod_pos_bound (z + 2 ^ (w - 1)) (2 ^ w)).
  pose proof (Z.pow_pos_nonneg 2 (w - 1)). lia.
Qed.

(** Truncation to [w] bits forgets a wrap at [v >= w] bits. *)
Lemma uwrap_swrap_add w v x y :
  0 <= w <= v -> uwrap w (swrap v x + y) = uwrap w (x + y).
Proof.
  intros Hw. unfold uwrap, swrap. set (h := 2 ^ (v - 1)).
  rewrite (Z.mod_eq (x + h)) by (pose proof (Z.pow_pos_nonneg 2 v); lia).
  replace (2 ^ v) with (2 ^ (v - w) * 2 ^ w)
    by (rewrite <- Z.pow_add_r by lia; f_equal; lia).
  set (k := (x + h) / (2 ^ (v - w) * 2 ^ w)).
  replace (x + h - 2 ^ (v - w) * 2 ^ w * k - h + y)
    with (x + y + (- (2 ^ (v - w) * k)) * 2 ^ w) by ring.
  apply Z_mod_plus_full.
Qed.

(** ** Arrays

    A C array (or a [std::array]) is a list. An access outside it has no
    defined result in the source language, so reads and writes return
    [option], and an operation of the model is [None] exactly when the code
    would leave the array. *)

Section arrays.
Context {A : Type}.
Implicit Types (l : list A) (i j : Z) (x : A).

Definition zlen l : Z := Z.of_nat (length l).

Definition in_range l i : Prop := 0 <= i < zlen l.

#[global] Instance in_range_dec l i : Decision (in_range l i).
Proof. unfold in_range. solve_decision. Defined.

Definition zget l i : option A :=
  if 0 <=? i then l !! Z.to_nat i else None.

Definition zset l i x : option (list A) :=
  if bool_decide (in_range l i) then Some (<[Z.to_nat i := x]> l) else None.

Lemma zget_some l i : in_range l i -> exists x, zget l i = Some x.
Proof.
  unfold in_range, zget, zlen. intros Hi.
  destruct (Z.leb_spec 0 i); [| lia].
  apply lookup_lt_is_Some. lia.
Qed.

Lemma zget_inv l i x : zget l i = Some x -> in_range l i.
Proof.
  unfold in_range, zget, zlen. destruct (Z.leb_spec 0 i); [| done].
  intros Hl%lookup_lt_Some. lia.
Qed.

Lemma zget_none l i : ~ in_range l i -> zget l i = None.
Proof.
  intros Hn. destruct (zget l i) eqn:E; [| done].
  by apply zget_inv in E.
Qed.

Lemma zset_in l i x : in_range l i -> zset l i x = Some (<[Z.to_nat i := x]> l).
Proof. intros Hi. unfold zset. by rewrite bool_decide_true. Qed.

Lemma zset_inv l i x l' :
  zset l i x = Some l' -> in_range l i /\ l' = <[Z.to_nat i := x]> l.
Proof. unfold zset. case_bool_decide; naive_solver. Qed.

Lemma zset_none l i x : ~ in_range l i -> zset l i x = None.
Proof. intros Hi. unfold zset. by rewrite bool_decide_false. Qed.

Lemma zset_len l i x l' : zset l i x = Some l' -> zlen l' = zlen l.
Proof. intros [_ ->]%zset_inv. unfold zlen. by rewrite length_insert. Qed.

Lemma zget_insert_eq l i x :
  in_range l i -> zget (<[Z.to_nat i := x]> l) i = Some x.
Proof.
  unfold in_range, zget, zlen. intros Hi.
  destruct (Z.leb_spec 0 i); [| lia].
  apply list_lookup_insert_eq. lia.
Qed.

Lemma zget_insert_ne l i j x :
  0 <= i -> i <> j -> zget (<[Z.to_nat i := x]> l) j = zget l j.
Proof.
  intros Hi Hij. unfold zget. destruct (Z.leb_spec 0 j); [| done].
  apply list_lookup_insert_ne. lia.
Qed.

Lemma zget_zset_eq l i x l' : zset l i x = Some l' -> zget l' i = Some x.
Proof. intros [Hi ->]%zset_inv. by apply zget_insert_eq. Qed.

Lemma zget_zset_ne l i j x l' : zset l i x = Some l' -> i <> j -> zget l' j = zget l j.
Proof. intros [Hi ->]%zset_inv Hij. apply zget_insert_ne; [apply Hi | done]. Qed.
End arrays.

(** ** Loops

    [for (i = a; i < b; i++) body] over a state is a fold of the body over
    the indices, in the error monad of the body ([option] for undefined
    accesses). *)

Fixpoint foldM {A S : Type} (f : S -> A -> option S) (s : S) (l : list A) : option S :=
  match l with
  | [] => Some s
  | x :: l' => match f s x with Some s' => foldM f s' l' | None => None end
  end.

Definition for_range {S : Type} (a b : Z) (f : S -> Z -> option S) (s : S) : option S :=
  foldM f s (seqZ a (b - a)).

Lemma foldM_app {A S} (f : S -> A -> option S) s l1 l2 :
  foldM f s (l1 ++ l2) = foldM f s l1 ≫= fun s' => foldM f s' l2.
Proof.
  revert s. induction l1 as [| x l1 IH]; intros s; [done |].
  simpl. destruct (f s x); [apply IH | done].
Qed.

(** An invariant indexed by the loop counter is established at the end. *)
Lemma for_range_inv {S} (I : Z -> S -> Prop) a b f (s : S) :
  a <= b -> I a s ->
  (forall i s, a <= i < b -> I i s -> exists s', f s i = Some s' /\ I (i + 1) s') ->
  exists s', for_range a b f s = Some s' /\ I b s'.
Proof.
  unfold for_range. intros Hab Ha Hstep.
  remember (Z.to_nat (b - a)) as n eqn:En.
  revert a s Hab Ha Hstep En. induction n as [| n IH]; intros a s Hab Ha Hstep En.
  - assert (a = b) as <- by lia. rewrite Z.sub_diag. by exists s.
  - rewrite seqZ_cons by lia. simpl.
    destruct (Hstep a s) as (s' & -> & Hs'); [lia | done |].
    replace (Z.pred (b - a)) with (b - Z.succ a) by lia.
    apply IH; [lia | by rewrite <- Z.add_1_r | | lia].
    intros i t Hi. apply Hstep. lia.
Qed.

(** [loop_inv I as pat]: reason about the loop in the goal with invariant [I];
    the continuation comes last, after the side goals (bounds, entry, step). *)
Tactic Notation "loop_inv" uconstr(I) "as" simple_intropattern(pat) :=
  match goal with
  | |- context [for_range ?a ?b ?f ?s] =>
      destruct (for_range_inv I a b f s) as pat; cbv beta in *
  end.

(** An in-place update of every element is a map. *)
Lemma for_range_map {A} (f : A -> A) (l : list A) :
  for_range 0 (zlen l) (fun arr i => x ← zget arr i; zset arr i (f x)) l = Some (f <$> l).
Proof.
  destruct (for_range_inv
    (fun i arr => arr = (f <$> take (Z.to_nat i) l) ++ drop (Z.to_nat i) l)
    0 (zlen l) (fun arr i => x ← zget arr i; zset arr i (f x)) l) as (l' & -> & ->).
  - unfold zlen; lia.
  - by rewrite take_0, drop_0.
  - intros i arr Hi ->. unfold zlen in Hi.
    destruct (lookup_lt_is_Some_2 l (Z.to_nat i)) as [x Hx]; [lia |].
    assert (length (f <$> take (Z.to_nat i) l) = Z.to_nat i) as Hlen
      by (rewrite length_fmap, length_take; lia).
    rewrite (drop_S l x (Z.to_nat i)) by done.
    unfold zget. destruct (Z.leb_spec 0 i); [| lia].
    rewrite lookup_app_r, Hlen, Nat.sub_diag by lia. simpl.
    rewrite zset_in.
    2:{ unfold in_range, zlen. rewrite length_app, Hlen. simpl. lia. }
    eexists; split; [done |].
    rewrite insert_app_r_alt, Hlen, Nat.sub_diag by lia. simpl.
    replace (Z.to_nat (i + 1)) with (S (Z.to_nat i)) by lia.
    rewrite (take_S_r l _ x) by done. by rewrite fmap_app, <- app_assoc.
  - unfold zlen. rewrite Nat2Z.id, take_ge, drop_ge, app_nil_r by lia. done.
Qed.

(** The counters of a loop, one iteration longer. *)
Lemma seqZ_snoc i : 0 <= i -> seqZ 0 (i + 1) = seqZ 0 i ++ [i].
Proof. intros Hi. replace (i + 1) with (Z.of_nat (S (Z.to_nat i))) by lia. by rewrite seqZ_S, Z2Nat.id, Z.add_0_l by lia. Qed.

(** ** Finite checks

    A property of the first [n] indices holds when it holds at each of them; for a
    boolean test, when the test evaluates to [true] over the list of indices. *)

Lemma forall_below (n : Z) (P : Z -> Prop) : Forall P (seqZ 0 n) -> forall x, 0 <= x < n -> P x.
Proof. intros H x Hx. rewrite Forall_forall in H. apply H, elem_of_seqZ. lia. Qed.

Lemma forallb_below (n : Z) (f : Z -> bool) :
  forallb f (seqZ 0 n) = true -> forall x, 0 <= x < n -> f x = true.
Proof.
  intros H. apply forall_below. apply Forall_forall. intros x Hx. rewrite forallb_forall in H.
  by apply H, list_elem_of_In.
Qed.

(** [each_below n]: prove a goal [forall x, 0 <= x < n -> P x] at each [x]. *)
Ltac each_below n :=
  refine (forall_below n _ _); cbv beta;
  let l := eval vm_compute in (seqZ 0 n) in change (seqZ 0 n) with l;
  repeat apply Forall_cons_2; [.. | apply Forall_nil_2].

(** Reading a known position. *)
Lemma zget_lookup {A} (l : list A) (i : Z) : 0 <= i -> zget l i = l !! Z.to_nat i.
Proof. intros Hi. unfold zget. by destruct (Z.leb_spec 0 i); [| lia]. Qed.

Lemma zget_app_mid {A} (l1 l2 : list A) x i :
  i = zlen l1 -> zget (l1 ++ x :: l2) i = Some x.
Proof.
  intros ->. unfold zlen. rewrite zget_lookup by lia.
  rewrite Nat2Z.id. by apply list_lookup_middle.
Qed.

Lemma zset_app_mid {A} (l1 l2 : list A) x y i :
  i = zlen l1 -> zset (l1 ++ x :: l2) i y = Some (l1 ++ y :: l2).
Proof.
  intros ->. rewrite zset_in.
  - unfold zlen. rewrite Nat2Z.id, insert_app_r_alt, Nat.sub_diag by lia. done.
  - unfold in_range, zlen. rewrite length_app. simpl. lia.
Qed.

(** Every array splits around a position of it. *)
Lemma zsplit {A} (l : list A) i :
  in_range l i -> exists l1 x l2, l = l1 ++ x :: l2 /\ zlen l1 = i.
Proof.
  unfold in_range, zlen. intros Hi.
  destruct (lookup_lt_is_Some_2 l (Z.to_nat i)) as [x Hx]; [lia |].
  exists (take (Z.to_nat i) l), x, (drop (S (Z.to_nat i)) l). split.
  - by rewrite take_drop_middle.
  - rewrite length_take. lia.
Qed.

Lemma zlen_nonneg {A} (l : list A) : 0 <= zlen l.
Proof. unfold zlen. lia. Qed.

Lemma zlen_app {A} (l1 l2 : list A) : zlen (l1 ++ l2) = zlen l1 + zlen l2.
Proof. unfold zlen. rewrite length_app. lia. Qed.

Lemma zlen_cons {A} (x : A) l : zlen (x :: l) = 1 + zlen l.
Proof. unfold zlen. simpl. lia. Qed.

Lemma zlen_insert {A} (l : list A) (n : nat) x : zlen (<[n := x]> l) = zlen l.
Proof. unfold zlen. by rewrite length_insert. Qed.

Lemma zlen_fmap {A B} (f : A -> B) (l : list A) : zlen (f <$> l) = zlen l.
Proof. unfold zlen. by rewrite length_fmap. Qed.

Lemma zlen_nil {A} : zlen (@nil A) = 0.
Proof. done. Qed.

(** Arithmetic on the lengths of concrete list expressions. *)
Ltac zlen_lia :=
  unfold in_range, zlen in *;
  rewrite ?length_app, ?length_take, ?length_drop, ?length_insert, ?length_fmap, ?length_replicate in *;
  simpl length in *; rewrite ?length_app; simpl length; lia.

(** Case analysis on a chain of monadic binds that returned a value. *)
Ltac bind_inv :=
  repeat match goal with
  | H : ?o ≫= _ = Some _ |- _ =>
      let E := fresh "E" in destruct o eqn:E; simpl in H; [| discriminate H]
  | H : Some _ = Some _ |- _ => injection H as H; subst
  end.

(** C's [%] on non-negative operands inside an index computation. *)
Lemma rem_add_mod a k n : 0 <= a -> 0 < n -> (Z.rem a n + k) mod n = (a + k) mod n.
Proof. intros Ha Hn. rewrite Z.rem_mod_nonneg by done. apply Zplus_mod_idemp_l. Qed.

Lemma rem_range a n : 0 <= a -> 0 < n -> 0 <= Z.rem a n < n.
Proof. intros Ha Hn. rewrite Z.rem_mod_nonneg by done. by apply Z.mod_pos_bound. Qed.

(** Split a boolean comparison in the goal into its two arithmetic cases. *)
Ltac zcase :=
  match goal with
  | |- context [Z.ltb ?a ?b] => destruct (Z.ltb_spec a b)
  | |- context [Z.leb ?a ?b] => destruct (Z.leb_spec a b)
  | |- context [Z.eqb ?a ?b] => destruct (Z.eqb_spec a b)
  end.

(** Remove the wraps of unsigned expressions that stay in range, innermost first. *)
Ltac u32s :=
  repeat match goal with
  | |- context [uwrap ?w ?x] =>
      lazymatch x with
      | context [uwrap] => fail
      | _ => rewrite (uwrap_small w x) by (unfold is_uint; nia)
      end
  end.

Create HintDb ngs discriminated.
#[export] Hint Resolve uwrap_is_uint : ngs.
#[export] Hint Extern 1 (_ <= _) => lia : ngs.
#[export] Hint Extern 1 (_ < _) => lia : ngs.

Create Rewrite HintDb arr.
#[export] Hint Rewrite @length_insert @uwrap_idemp uwrap_add_l uwrap_add_r : arr.

(** A loop that only reads the array in order is a left fold of its prefix. *)
Lemma foldM_pure {A St} (f : St -> A -> St) (l : list A) (s : St) :
  foldM (fun acc x => Some (f acc x)) s l = Some (foldl f s l).
Proof. revert s. induction l as [| x l IH]; intros s; [done | apply IH]. Qed.

Lemma for_range_foldl {A St} (f : St -> A -> St) (l : list A) (n : Z) (s : St) :
  n <= zlen l ->
  for_range 0 n (fun acc i => x ← zget l i; Some (f acc x)) s
    = Some (foldl f s (take (Z.to_nat n) l)).
Proof.
  intros Hn. destruct (Z.le_gt_cases n 0) as [H0 | H0].
  { unfold for_range. replace (Z.to_nat n) with 0%nat by lia.
    rewrite seqZ_nil by lia. done. }
  loop_inv (fun i acc => acc = foldl f s (take (Z.to_nat i) l)) as (s' & -> & ->); try done; [lia |].
  intros i acc Hi ->. unfold zlen in Hn.
  destruct (lookup_lt_is_Some_2 l (Z.to_nat i)) as [x Hx]; [lia |].
  rewrite zget_lookup, Hx by lia. eexists; split; [done |].
  replace (Z.to_nat (i + 1)) with (S (Z.to_nat i)) by lia.
  rewrite (take_S_r _ _ x) by done. by rewrite foldl_app.
Qed.

Lemma foldM_ext {A St} (f g : St -> A -> option St) (l : list A) (s : St) :
  (forall s x, f s x = g s x) -> foldM f s l = foldM g s l.
Proof.
  intros H. revert s. induction l as [| x l IH]; intros s; simpl; [done |].
  rewrite H. by destruct (g s x).
Qed.

Lemma foldM_ext_in {A St} (f g : St -> A -> option St) (l : list A) (s : St) :
  (forall s x, x ∈ l -> f s x = g s x) -> foldM f s l = foldM g s l.
Proof.
  revert s. induction l as [| x l IH]; intros s H; simpl; [done |].
  rewrite (H s x) by apply list_elem_of_here. destruct (g s x); [| done].
  apply IH. intros t y Hy. apply H. by right.
Qed.

Lemma for_range_ext {S} a b (f g : S -> Z -> option S) s :
  (forall i s, a <= i < b -> f s i = g s i) -> for_range a b f s = for_range a b g s.
Proof. intros H. apply foldM_ext_in. intros x s' Hx. apply H. apply elem_of_seqZ in Hx. lia. Qed.

Lemma foldM_fmap {A B S} (h : A -> B) (f : S -> B -> option S) l s :
  foldM f s (h <$> l) = foldM (fun s x => f s (h x)) s l.
Proof. revert s. induction l as [| x l IH]; intros s; [done |]. cbn. by destruct (f s (h x)). Qed.

(** A loop that starts at [c] counts from 0 with the offset [c]. *)
Lemma for_range_shift {S} c n (f : S -> Z -> option S) s :
  for_range c (c + n) f s = for_range 0 n (fun s i => f s (c + i)) s.
Proof.
  unfold for_range. replace (c + n - c) with n by lia. rewrite Z.sub_0_r.
  rewrite <- (foldM_fmap (fun i => c + i) f). f_equal. symmetry. rewrite fmap_add_seqZ. by rewrite Z.add_0_r.
Qed.

(** A fold that remembers the last element satisfying a test. *)
Lemma foldl_last_filter {A B} (P : A -> Prop) `{forall x, Decision (P x)} (g : A -> B) (b : B) l :
  foldl (fun acc m => if decide (P m) then g m else acc) b l
    = from_option g b (last (filter P l)).
Proof.
  induction l as [| x l IH] using rev_ind; [done |].
  rewrite foldl_app, filter_app. simpl. rewrite filter_cons, filter_nil.
  destruct (decide (P x)); [by rewrite last_snoc | by rewrite app_nil_r].
Qed.

Lemma filter_ext_in {A} (P Q : A -> Prop) `{forall x, Decision (P x), forall x, Decision (Q x)} (l : list A) :
  (forall x, x ∈ l -> P x <-> Q x) -> filter P l = filter Q l.
Proof.
  intros HPQ. induction l as [| x l IH]; [done |]. rewrite !filter_cons.
  rewrite IH by (intros y Hy; apply HPQ; by right).
  pose proof (HPQ x (list_elem_of_here x l)).
  destruct (decide (P x)), (decide (Q x)); tauto.
Qed.

(** A traversal that succeeds on every element succeeds. *)
Lemma mapM_total {A B} (f : A -> option B) (l : list A) :
  (forall x, x ∈ l -> exists y, f x = Some y) -> exists ys, mapM f l = Some ys /\ zlen ys = zlen l.
Proof.
  intros Hf. destruct (mapM f l) as [ys |] eqn:E.
  - exists ys. split; [done |]. unfold zlen. f_equal. symmetry. by eapply length_mapM.
  - exfalso. apply mapM_None in E. apply Exists_exists in E as (x & Hx & Hn).
    destruct (Hf x Hx) as [y Hy]. congruence.
Qed.

(** ** Ring positions

    A position of a ring of [n] cells is [x mod n] for an unbounded index [x];
    within a window of [n] indices positions are distinct. *)

Lemma ring_inj n a x y :
  0 < n -> a <= x < a + n -> a <= y < a + n -> x mod n = y mod n -> x = y.
Proof.
  intros Hn Hx Hy E. assert ((x - y) mod n = 0) as E0.
  { rewrite Zminus_mod, E, Z.sub_diag. apply Zmod_0_l. }
  apply Z.mod_divide in E0 as [q Hq]; [| lia]. clear E.
  assert (q = 0) as -> by nia. lia.
Qed.

Lemma ring_turn n a : (a + n) mod n = a mod n.
Proof. rewrite <- (Z_mod_plus_full a 1 n). f_equal. lia. Qed.

Lemma ring_next n a : 0 < n -> Z.rem (a mod n + 1) n = (a + 1) mod n.
Proof.
  intros Hn. pose proof (Z.mod_pos_bound a n).
  rewrite Z.rem_mod_nonneg by lia. apply Zplus_mod_idemp_l.
Qed.

(** Every cell is the position of one index of the window. *)
Lemma ring_cover n a i : 0 < n -> 0 <= i < n -> exists x, a <= x < a + n /\ x mod n = i.
Proof.
  intros Hn Hi. exists (a + (i - a) mod n). pose proof (Z.mod_pos_bound (i - a) n).
  split; [lia |]. rewrite Zplus_mod_idemp_r. replace (a + (i - a)) with i by lia.
  by apply Z.mod_small.
Qed.

Lemma ring_dist n a r : 0 < n -> 0 <= r - a < n -> Z.rem (r mod n - a mod n + n) n = r - a.
Proof.
  intros Hn Hd. pose proof (Z.mod_pos_bound a n). pose proof (Z.mod_pos_bound r n).
  rewrite Z.rem_mod_nonneg by lia.
  replace (r mod n - a mod n + n) with (r mod n - a mod n + 1 * n) by lia.
  rewrite Z_mod_plus_full, <- Zminus_mod. by apply Z.mod_small.
Qed.

Lemma ring_range {A} (l : list A) n x : 0 < n -> zlen l = n -> in_range l (x mod n).
Proof. intros Hn Hl. unfold in_range. rewrite Hl. by apply Z.mod_pos_bound. Qed.

(** Reading one past the old end. *)
Lemma zget_snoc {A} (l : list A) x i y :
  zget (l ++ [x]) i = Some y -> (i = zlen l /\ y = x) \/ (i < zlen l /\ zget l i = Some y).
Proof.
  intros Hi. pose proof (zget_inv _ _ _ Hi) as Hr. unfold in_range in Hr.
  rewrite zlen_app in Hr. change (zlen [x]) with 1 in Hr.
  destruct (decide (i = zlen l)) as [-> | Hne].
  - left. rewrite zget_app_mid in Hi by done. by injection Hi as ->.
  - right. split; [lia |]. rewrite !zget_lookup in * by lia.
    by rewrite lookup_app_l in Hi by (unfold zlen in *; lia).
Qed.

(** A ring of [n] cells that has been written [h], one cell after the other
    from position 0: the header is the next position, and the last [n] elements
    are there. *)
Record ring_holds {A} (n : Z) (h slots : list A) (header : Z) : Prop := RingHolds {
  rh_len : zlen slots = n;
  rh_header : header = zlen h mod n;
  rh_at : forall i x, zlen h - n <= i -> zget h i = Some x -> zget slots (i mod n) = Some x
}.

Lemma ring_holds_nil {A} (slots : list A) n : zlen slots = n -> 0 < n -> ring_holds n [] slots 0.
Proof.
  intros Hl Hn. split; [done | done |]. intros i x _ Hi%zget_inv. unfold in_range in Hi.
  change (zlen []) with 0 in Hi. lia.
Qed.

Lemma ring_holds_range {A} n (h slots : list A) header :
  0 < n -> ring_holds n h slots header -> in_range slots header.
Proof. intros Hn [Hl -> _]. by apply ring_range. Qed.

Lemma ring_holds_push {A} n (h slots : list A) header x :
  0 < n -> ring_holds n h slots header ->
  zset slots header x = Some (<[Z.to_nat header := x]> slots) /\
  ring_holds n (h ++ [x]) (<[Z.to_nat header := x]> slots) (Z.rem (header + 1) n).
Proof.
  intros Hn Hr. pose proof (ring_holds_range _ _ _ _ Hn Hr) as Hin. destruct Hr as [Hl Hh Ha].
  split; [by apply zset_in |]. split.
  - by rewrite zlen_insert.
  - rewrite Hh, ring_next by done. by rewrite zlen_app.
  - intros i y Hi Hy. rewrite zlen_app in Hi. change (zlen [x]) with 1 in Hi.
    destruct (zget_snoc _ _ _ _ Hy) as [[-> ->] | [Hlt Hy']].
    + rewrite Hh in Hin |- *. by apply zget_insert_eq.
    + rewrite zget_insert_ne; [apply Ha; [lia | done] | apply Hin |].
      rewrite Hh. intros E%(ring_inj n (zlen h - n + 1)); lia.
Qed.

(** ** Bits of integers, iteration, loops that write *)

Lemma testbit_uwrap w v k : 0 <= w -> 0 <= k -> Z.testbit (uwrap w v) k = (k <? w) && Z.testbit v k.
Proof. intros Hw Hk. unfold uwrap. rewrite Z.testbit_mod_pow2 by done. done. Qed.

Lemma below_pow2 s n : 0 <= n -> 0 <= s < 2 ^ n <-> 0 <= s /\ forall i, n <= i -> Z.testbit s i = false.
Proof.
  intros Hn. split.
  - intros Hs. split; [lia |]. intros i Hi. rewrite <- (uwrap_small n s) by done. rewrite testbit_uwrap by lia. zcase; [lia | done].
  - intros [Hs Hb]. assert (uwrap n s = s) as <-; [| by apply (uwrap_is_uint n)].
    apply Z.bits_inj'. intros i Hi. rewrite testbit_uwrap by done. zcase; [done | symmetry; apply Hb; lia].
Qed.

Lemma testbit_mask n i : 0 <= n -> 0 <= i -> Z.testbit (Z.shiftl 1 n - 1) i = (i <? n).
Proof. intros Hn Hi. rewrite Z.shiftl_1_l, Z.sub_1_r, <- Z.ones_equiv, Z.testbit_ones_nonneg by done. done. Qed.

Lemma iter_lxor (step : Z -> Z) m a b : (forall a b, step (Z.lxor a b) = Z.lxor (step a) (step b)) ->
  Nat.iter m step (Z.lxor a b) = Z.lxor (Nat.iter m step a) (Nat.iter m step b).
Proof. intros Hl. induction m as [| m IH]; [done |]. by rewrite !Nat.iter_succ, IH, Hl. Qed.

Lemma for_range_done {S} a b (f : S -> Z -> option S) s : b <= a -> for_range a b f s = Some s.
Proof. intros H. unfold for_range. by rewrite seqZ_nil by lia. Qed.

Lemma for_range_step {S} a b (f : S -> Z -> option S) s : a < b -> for_range a b f s = f s a ≫= for_range (a + 1) b f.
Proof.
  intros H. unfold for_range. rewrite seqZ_cons by lia. cbn [foldM]. replace (Z.pred (b - a)) with (b - (a + 1)) by lia.
  rewrite <- Z.add_1_r. by destruct (f s a).
Qed.

Lemma for_range_split {S} a m b (f : S -> Z -> option S) s : a <= m <= b ->
  for_range a b f s = for_range a m f s ≫= for_range m b f.
Proof.
  intros H. unfold for_range. replace (b - a) with ((m - a) + (b - m)) by lia. rewrite seqZ_app, foldM_app by lia.
  by replace (a + (m - a)) with m by lia.
Qed.

(** An array written up to an index, and the next write. *)
Definition upto {A} (h : Z -> A) (n : Z) (out : list A) : list A := (h <$> seqZ 0 n) ++ drop (Z.to_nat n) out.

Lemma zset_upto {A} (h : Z -> A) n (out : list A) : 0 <= n < zlen out ->
  zset (upto h n out) n (h n) = Some (upto h (n + 1) out).
Proof.
  intros Hi. unfold zlen, upto in *. destruct (lookup_lt_is_Some_2 out (Z.to_nat n)) as [x Hx]; [lia |].
  assert (length (h <$> seqZ 0 n) = Z.to_nat n) as Hl by (by rewrite length_fmap, length_seqZ).
  rewrite (drop_S out x) by done. rewrite zset_in by (unfold in_range, zlen; rewrite length_app, Hl; simpl; lia).
  rewrite insert_app_r_alt, Hl, Nat.sub_diag by lia. cbn [insert list_insert].
  rewrite seqZ_snoc, fmap_app, <- app_assoc by lia. replace (Z.to_nat (n + 1)) with (S (Z.to_nat n)) by lia. done.
Qed.

Lemma zlen_upto {A} (h : Z -> A) n (out : list A) : 0 <= n <= zlen out -> zlen (upto h n out) = zlen out.
Proof. intros Hn. unfold zlen, upto in *. rewrite length_app, length_fmap, length_seqZ, length_drop. lia. Qed.

Lemma zget_upto {A} (h : Z -> A) n (out : list A) k : 0 <= k < n -> zget (upto h n out) k = Some (h k).
Proof.
  intros Hk. unfold upto. rewrite zget_lookup, lookup_app_l by (rewrite ?length_fmap, ?length_seqZ; lia).
  rewrite list_lookup_fmap, lookup_seqZ_lt by lia. cbn. do 2 f_equal. lia.
Qed.

Lemma zget_upto_ge {A} (h : Z -> A) n (out : list A) k : 0 <= n <= k -> zget (upto h n out) k = zget out k.
Proof.
  intros Hn. unfold upto. rewrite !zget_lookup by lia. destruct (decide (n <= zlen out)) as [Hl | Hl].
  - rewrite lookup_app_r by (rewrite length_fmap, length_seqZ; lia). rewrite lookup_drop, length_fmap, length_seqZ. f_equal. lia.
  - unfold zlen in Hl. rewrite lookup_app_r by (rewrite length_fmap, length_seqZ; lia). rewrite lookup_drop, length_fmap, length_seqZ. f_equal. lia.
Qed.

(** A loop that writes one value at each index. *)
Lemma for_range_write {A} (h : Z -> A) len (out : list A) : 0 <= len <= zlen out ->
  for_range 0 len (fun out i => zset out i (h i)) out = Some ((h <$> seqZ 0 len) ++ drop (Z.to_nat len) out).
Proof.
  intros Hlen. loop_inv (fun i t => t = upto h i out) as (t & -> & ->); [lia | done | | done].
  intros i t Hi ->. eexists. split; [apply zset_upto; lia | done].
Qed.

(** Writing to distinct positions, one element after the other. *)
Lemma put_distinct {A} (symbols : list A) (idx : list Z) (grid : list A) :
  NoDup idx -> Forall (fun p => in_range grid p) idx -> zlen idx <= zlen symbols ->
  exists grid', for_range 0 (zlen idx) (fun grid i => x ← zget symbols i; p ← zget idx i; zset grid p x) grid = Some grid' /\
    zlen grid' = zlen grid /\
    (forall i p, zget idx i = Some p -> zget grid' p = zget symbols i) /\
    (forall p, p ∉ idx -> zget grid' p = zget grid p).
Proof.
  intros Hd Hr Hl.
  loop_inv (fun i t => zlen t = zlen grid /\ (forall j p, j < i -> zget idx j = Some p -> zget t p = zget symbols j) /\
    (forall p, p ∉ take (Z.to_nat i) idx -> zget t p = zget grid p)) as (t & -> & Hlen & Hin & Hout).
  - apply zlen_nonneg.
  - split_and!; [done | | done]. intros j p Hj Hp%zget_inv. unfold in_range in Hp. lia.
  - intros i t Hi (Hlen & Hin & Hout). destruct (zget_some symbols i) as [x Hx]; [unfold in_range; lia |].
    destruct (zget_some idx i) as [p Hp]; [unfold in_range; lia |]. rewrite Hx, Hp. cbn [mbind option_bind].
    assert (idx !! Z.to_nat i = Some p) as Hp' by (by rewrite zget_lookup in Hp by lia).
    assert (in_range grid p) as Hpr by (rewrite Forall_forall in Hr; by apply Hr, (list_elem_of_lookup_2 _ (Z.to_nat i))).
    assert (in_range t p) as Hpt by (unfold in_range in *; lia). rewrite zset_in by done. eexists. split; [done |]. split_and!.
    + by rewrite zlen_insert.
    + intros j q Hj Hq. destruct (Z.eq_dec j i) as [-> |].
      * rewrite Hp in Hq. injection Hq as <-. by rewrite zget_insert_eq, Hx.
      * rewrite zget_insert_ne; [by apply Hin; [lia |] | apply Hpt |]. intros ->. pose proof (zget_inv _ _ _ Hq) as Hjr.
        unfold in_range in Hjr. rewrite zget_lookup in Hq by lia. pose proof (NoDup_lookup _ _ _ _ Hd Hp' Hq). lia.
    + intros q Hq. replace (Z.to_nat (i + 1)) with (S (Z.to_nat i)) in Hq by lia. rewrite (take_S_r _ _ p) in Hq by done.
      rewrite zget_insert_ne; [apply Hout; set_solver | apply Hpt | intros ->; set_solver].
  - exists t. split_and!; [done | done | | ].
    + intros i p Hp. apply Hin; [| done]. apply zget_inv in Hp. unfold in_range in Hp. lia.
    + intros p Hp. apply Hout. unfold zlen. rewrite Nat2Z.id, take_ge by lia. done.
Qed.
