(* ===== verification/NgUtil.v ===== *)
(** * Utilities of the DCI library ([ngscope/src/dciLib/ngscope_util.c])

    Arithmetic on TTIs (subframe counters modulo 10240), array minima, maxima,
    means and searches, and the in-place shift and swap of the small sorted
    arrays of the UE tracker. Arrays are [list Z]; the functions keep the C
    signature (array and size), and an access outside the array is [None]. *)

From S2P Require Import Prelude.

Definition MAX_TTI : Z := 10240.

(** ** Comparators and sorting *)

(** [int cmpfunc_uint64(a, b)]: the 64-bit difference is truncated to [int]. *)
Definition cmpfunc_uint64 (a b : Z) : Z := s32 (u64 (a - b)).

(** [int cmpfunc_uint16(a, b)]: the operands are promoted to [int] first. *)
Definition cmpfunc_uint16 (a b : Z) : Z := a - b.

(** The order [qsort] sorts by when the comparator is [cmpfunc_uint16]. *)
Definition cmp16_le (a b : Z) : Prop := cmpfunc_uint16 a b <= 0.

#[export] Instance cmp16_le_dec a b : Decision (cmp16_le a b).
Proof. unfold cmp16_le. solve_decision. Defined.

(** [qsort] with a comparator that is a total order: the sorted permutation. *)
Definition quick_sort_uint16 (array : list Z) (array_size : Z) : list Z :=
  merge_sort cmp16_le (take (Z.to_nat array_size) array) ++ drop (Z.to_nat array_size) array.

(** ** Sums and means *)

Definition sum_array (w : Z) (array : list Z) (array_size : Z) : option Z :=
  for_range 0 array_size (fun sum i => x ← zget array i; Some (uwrap w (sum + x))) 0.

Definition sum_array_uint16 := sum_array 16.
Definition sum_array_uint64 := sum_array 64.

(** Division by [array_size]: signed [int] division for 16-bit sums, unsigned
    64-bit division for 64-bit ones; division by zero has no result. *)
Definition mean_array_uint16 (array : list Z) (array_size : Z) : option Z :=
  s ← sum_array_uint16 array array_size;
  if array_size =? 0 then None else Some (u16 (Z.quot s array_size)).

Definition mean_array_uint64 (array : list Z) (array_size : Z) : option Z :=
  s ← sum_array_uint64 array array_size;
  if array_size =? 0 then None else Some (Z.div s (u64 array_size)).

(** ** Minimum and maximum *)

(** The loop keeps the best value and its index; [better x b] is the test of
    the [if]. *)
Definition best_in_array (better : Z -> Z -> bool) (array : list Z) (array_size : Z)
  : option (Z * Z) :=
  v0 ← zget array 0;
  for_range 0 array_size
    (fun b i => x ← zget array i; Some (if better x b.1 then (x, i) else b)) (v0, 0).

Definition min_in_array_vi (array : list Z) (array_size : Z) : option (Z * Z) :=
  best_in_array Z.ltb array array_size.
Definition max_in_array_vi (array : list Z) (array_size : Z) : option (Z * Z) :=
  best_in_array (fun x b => b <? x) array array_size.

Definition min_in_array_uint64_vi := min_in_array_vi.
Definition max_in_array_uint64_vi := max_in_array_vi.
Definition min_in_array_uint16_vi := min_in_array_vi.
Definition max_in_array_uint16_vi := max_in_array_vi.

Definition min_in_array_uint64_v (array : list Z) (n : Z) : option Z := fst <$> min_in_array_vi array n.
Definition max_in_array_uint64_v (array : list Z) (n : Z) : option Z := fst <$> max_in_array_vi array n.
Definition min_in_array_uint16_v (array : list Z) (n : Z) : option Z := fst <$> min_in_array_vi array n.
Definition max_in_array_uint16_v (array : list Z) (n : Z) : option Z := fst <$> max_in_array_vi array n.

(** ** Search *)

(** First index in [i, i+fuel) holding [ele], or -1; the early [return] of the
    loop is the structural recursion. *)
Fixpoint find_from (array : list Z) (ele i : Z) (fuel : nat) : option Z :=
  match fuel with
  | O => Some (-1)
  | S n => x ← zget array i; if ele =? x then Some i else find_from array ele (i + 1) n
  end.

Definition find_element_in_array_uint16 (array : list Z) (array_size ele : Z) : option Z :=
  find_from array ele 0 (Z.to_nat array_size).
Definition find_element_in_array_uint64 (array : list Z) (array_size ele : Z) : option Z :=
  find_from array ele 0 (Z.to_nat array_size).

(** ** TTI arithmetic *)

Definition wrap_tti (tti : Z) : Z := tti mod MAX_TTI.

(** The element an entry [x] is replaced by, given the largest raw TTI. *)
Definition unwrap_one (max_tti x : Z) : Z :=
  if Z.abs (max_tti - (x + MAX_TTI)) <? Z.abs (max_tti - x) then u16 (x + MAX_TTI) else x.

Definition unwrap_tti_array (array : list Z) (array_size : Z) : option (list Z) :=
  if array_size =? 1 then Some array
  else
    max_tti ← max_in_array_uint16_v array array_size;
    for_range 0 array_size
      (fun arr i => x ← zget arr i; zset arr i (unwrap_one max_tti x)) array.

(** Returns the result and the array as the call leaves it. *)
Definition max_tti_in_array (array : list Z) (array_size : Z) : option (Z * list Z) :=
  if array_size =? 1 then r ← zget array 0; Some (r, array)
  else if array_size <=? 0 then Some (0, array)
  else
    arr ← unwrap_tti_array array array_size;
    let arr := quick_sort_uint16 arr array_size in
    max_tti ← max_in_array_uint16_v arr array_size;
    Some (wrap_tti max_tti, arr).

Definition tti_distance (start end_ : Z) : Z :=
  if start <? end_ then end_ - start + 1 else end_ + MAX_TTI - start + 1.

(** The comparisons first unwrap the pair; [uint16_t] parameters truncate
    wider arguments. *)
Definition tti_pair (a b : Z) : option (Z * Z) :=
  arr ← unwrap_tti_array [u16 a; u16 b] 2;
  x ← zget arr 0; y ← zget arr 1; Some (x, y).

Definition tti_difference (a b : Z) : option Z :=
  '(x, y) ← tti_pair a b; Some (Z.abs (x - y)).
Definition tti_a_l_b (a b : Z) : option bool := '(x, y) ← tti_pair a b; Some (y <? x).
Definition tti_a_le_b (a b : Z) : option bool := '(x, y) ← tti_pair a b; Some (y <=? x).
Definition tti_a_s_b (a b : Z) : option bool := '(x, y) ← tti_pair a b; Some (x <? y).
Definition tti_a_se_b (a b : Z) : option bool := '(x, y) ← tti_pair a b; Some (x <=? y).

(** ** Nearest neighbours *)

(** [abs] is the [int] function of <stdlib.h>: a [long] argument is truncated
    to 32 bits, and the absolute value of [INT_MIN] has no result. *)
Definition c_abs (x : Z) : option Z :=
  let y := s32 x in if y =? - 2 ^ 31 then None else Some (Z.abs y).

(** Distance minimum and its index over the array, [offset] added to each
    element; the first element always initialises the minimum. *)
Definition nearest_scan (array : list Z) (array_size num offset : Z) : option (Z * Z) :=
  for_range 0 array_size
    (fun b i =>
       x ← zget array i;
       d ← c_abs (swrap 64 x + offset - swrap 64 num);
       Some (if (i =? 0) || (d <? b.1) then (d, i) else b))
    (0, 0).

Definition nearest_neighbour (array : list Z) (array_size num : Z) : option Z :=
  b ← nearest_scan array array_size num 0; zget array b.2.
Definition nearest_neighbour_index (array : list Z) (array_size num : Z) : option Z :=
  b ← nearest_scan array array_size num 0; Some b.2.
Definition nearest_neighbour_w_offset (array : list Z) (array_size num offset : Z) : option Z :=
  b ← nearest_scan array array_size num offset; zget array b.2.
Definition nearest_neighbour_dist_w_offset (array : list Z) (array_size num offset : Z) : option Z :=
  b ← nearest_scan array array_size num offset; Some b.1.

Definition correlate_2_vec (array1 array2 : list Z) (size1 size2 : Z) : option Z :=
  for_range 0 size1
    (fun dist i =>
       x ← zget array1 i;
       element ← nearest_neighbour array2 size2 x;
       d ← c_abs (swrap 64 element - swrap 64 x);
       Some (swrap 64 (dist + d))) 0.

Definition correlate_2_vec_w_offset (array1 array2 : list Z) (size1 size2 offset : Z) : option Z :=
  for_range 0 size1
    (fun dist i =>
       x ← zget array1 i;
       d ← nearest_neighbour_dist_w_offset array2 size2 x offset;
       Some (swrap 64 (dist + d))) 0.

Definition shift_vec_w_offset (array : list Z) (array_size offset : Z) : option (list Z) :=
  for_range 0 array_size
    (fun new i => x ← zget array i; Some (new ++ [u64 (x + offset)])) [].

(** ** In-place shifts and swaps *)

(** [for (i = index; i < size-1; i++) { tmp1 = array[i+1]; array[i+1] = tmp; tmp = tmp1; }] *)
Definition shift_array_right (array : list Z) (size index : Z) : option (list Z) :=
  if size <=? index then Some array
  else
    tmp ← zget array index;
    if index =? size - 1 then Some array
    else
      fst <$> for_range index (size - 1)
        (fun '(arr, tmp) i =>
           tmp1 ← zget arr (i + 1);
           arr ← zset arr (i + 1) tmp; Some (arr, tmp1)) (array, tmp).

Definition shift_array_left (array : list Z) (size index : Z) : option (list Z) :=
  if size <=? index then Some array
  else if index =? size - 1 then Some array
  else for_range index (size - 1) (fun arr i => x ← zget arr (i + 1); zset arr i x) array.

Definition swap_array (array : list Z) (size idx1 idx2 : Z) : option (list Z) :=
  if (size <=? idx1) || (size <=? idx2) then Some array
  else
    tmp ← zget array idx2;
    x ← zget array idx1;
    arr ← zset array idx2 x;
    zset arr idx1 tmp.

Definition shift_array_uint16_right := shift_array_right.
Definition shift_array_uint16_left := shift_array_left.
Definition shift_array_uint32_right := shift_array_right.
Definition shift_array_uint32_left := shift_array_left.
Definition swap_array_uint16 := swap_array.
Definition swap_array_uint32 := swap_array.

(** ** Facts about minima and maxima *)

(** Both scans keep an element of largest [key]: the identity for the
    maximum, the opposite for the minimum. *)
Lemma best_in_array_spec (better : Z -> Z -> bool) (key : Z -> Z) (l : list Z) :
  (forall x b, better x b = (key b <? key x)) -> l <> [] ->
  exists m i, best_in_array better l (zlen l) = Some (m, i) /\
    m ∈ l /\ forall x, x ∈ l -> key x <= key m.
Proof.
  intros Hb Hl. unfold best_in_array.
  destruct l as [| v0 l0] eqn:El; [done |]. rewrite <- El in *. clear Hl.
  assert (zget l 0 = Some v0) as -> by (subst; done). simpl.
  edestruct (for_range_inv
    (fun i (b : Z * Z) => b.1 ∈ l /\ forall j x, 0 <= j < i -> zget l j = Some x -> key x <= key b.1)
    0 (zlen l)) as ([m k] & Hr & Hm & Hmax); last first.
  - exists m, k. split; [exact Hr |]. split; [done |].
    intros x [j Hj]%list_elem_of_lookup.
    apply (Hmax (Z.of_nat j)).
    + unfold zlen. pose proof (lookup_lt_Some _ _ _ Hj). lia.
    + rewrite zget_lookup by lia. by rewrite Nat2Z.id.
  - intros i [m k] Hi [Hm Hmax]; simpl in *.
    destruct (zget_some l i) as [x Hx]; [done |]. rewrite Hx; simpl.
    assert (x ∈ l) as Hin.
    { rewrite zget_lookup in Hx by lia. by apply list_elem_of_lookup_2 in Hx. }
    eexists; split; [done |]. rewrite Hb. destruct (Z.ltb_spec (key m) (key x)); simpl; (split; [done |]);
      intros j y Hj Hy; (destruct (decide (j = i)) as [-> | Hne];
        [rewrite Hx in Hy; injection Hy as <-; lia
        | assert (key y <= key m) by (apply (Hmax j); [lia | done]); lia]).
  - split; [subst; simpl; set_solver | intros j x Hj; lia].
  - apply zlen_nonneg.
Qed.

Lemma max16_spec (l : list Z) :
  l <> [] -> exists m, max_in_array_uint16_v l (zlen l) = Some m /\
    m ∈ l /\ forall x, x ∈ l -> x <= m.
Proof.
  intros Hl. destruct (best_in_array_spec (fun x b => b <? x) id l (fun _ _ => eq_refl) Hl) as (m & i & E & H).
  exists m. unfold max_in_array_uint16_v, max_in_array_vi. by rewrite E.
Qed.

Lemma min16_spec (l : list Z) :
  l <> [] -> exists m, min_in_array_uint16_v l (zlen l) = Some m /\
    m ∈ l /\ forall x, x ∈ l -> m <= x.
Proof.
  intros Hl. destruct (best_in_array_spec Z.ltb Z.opp l) as (m & i & E & Hm & H); [| done |].
  { intros x b. repeat zcase; lia. }
  exists m. unfold min_in_array_uint16_v, min_in_array_vi. rewrite E.
  split; [done |]. split; [done |]. intros x Hx%H. lia.
Qed.

Lemma unwrap_tti_array_spec (l : list Z) m :
  max_in_array_uint16_v l (zlen l) = Some m -> zlen l <> 1 ->
  unwrap_tti_array l (zlen l) = Some (unwrap_one m <$> l).
Proof.
  intros Hm Hl. unfold unwrap_tti_array. rewrite (proj2 (Z.eqb_neq _ _) Hl), Hm. simpl.
  apply for_range_map.
Qed.

(** Unwrapping a non-empty array never fails and keeps its length. *)
Lemma unwrap_tti_array_len (l : list Z) :
  l <> [] -> exists l', unwrap_tti_array l (zlen l) = Some l' /\ zlen l' = zlen l.
Proof.
  intros Hl. destruct (decide (zlen l = 1)) as [E | E].
  - exists l. unfold unwrap_tti_array. by rewrite E.
  - destruct (max16_spec l Hl) as (m & Hm & _). exists (unwrap_one m <$> l).
    by rewrite (unwrap_tti_array_spec l m), zlen_fmap.
Qed.

Lemma mean_array_uint64_spec (l : list Z) :
  l <> [] -> mean_array_uint64 l (zlen l) = Some (foldl (fun s x => u64 (s + x)) 0 l / u64 (zlen l)).
Proof.
  intros Hl. unfold mean_array_uint64, sum_array_uint64, sum_array.
  rewrite for_range_foldl by lia. unfold zlen. rewrite Nat2Z.id, take_ge by done. simpl.
  destruct (Z.eqb_spec (Z.of_nat (length l)) 0); [| done]. destruct l; [done | simpl in *; lia].
Qed.

(** The unwrapped pair: the smaller TTI moves up one period when the two are
    more than half a period apart. *)
Lemma tti_pair_spec a b :
  0 <= a < MAX_TTI -> 0 <= b < MAX_TTI ->
  tti_pair a b = Some (if b - a >? 5120 then a + MAX_TTI else a,
                       if a - b >? 5120 then b + MAX_TTI else b).
Proof.
  unfold MAX_TTI. intros Ha Hb. unfold tti_pair.
  rewrite !uwrap_small by (unfold is_uint; lia).
  assert (max_in_array_uint16_v [a; b] (zlen [a; b]) = Some (Z.max a b)) as Hm.
  { destruct (max16_spec [a; b]) as (m & -> & Hm & Hmax); [done |]. f_equal.
    assert (m = a \/ m = b) by set_solver.
    assert (a <= m) by (apply Hmax; set_solver).
    assert (b <= m) by (apply Hmax; set_solver). lia. }
  change 2 with (zlen [a; b]). rewrite (unwrap_tti_array_spec _ _ Hm) by done.
  simpl. unfold unwrap_one, MAX_TTI, uwrap.
  rewrite !Z.gtb_ltb. repeat f_equal; repeat zcase; try lia; apply Z.mod_small; lia.
Qed.

Lemma quick_sort_uint16_perm (l : list Z) : quick_sort_uint16 l (zlen l) ≡ₚ l.
Proof.
  unfold quick_sort_uint16, zlen. rewrite Nat2Z.id, take_ge, drop_ge, app_nil_r by lia.
  apply merge_sort_Permutation.
Qed.

Lemma unwrap_window base m os :
  0 <= base < MAX_TTI -> Forall (fun o => 0 <= o < 5120) os ->
  m ∈ ((fun o => (base + o) mod MAX_TTI) <$> os) ->
  (forall x, x ∈ ((fun o => (base + o) mod MAX_TTI) <$> os) -> x <= m) ->
  exists c, (c = 0 \/ c = - MAX_TTI) /\
    unwrap_one m <$> ((fun o => (base + o) mod MAX_TTI) <$> os) = (fun o => base + o + c) <$> os.
Proof.
  unfold MAX_TTI. intros Hb Hos (o' & -> & Ho')%list_elem_of_fmap Hmax.
  rewrite Forall_forall in Hos. pose proof (Hos _ Ho') as Ho'b.
  exists (if base + o' <? 10240 then 0 else -10240). split; [zcase; lia |].
  rewrite <- list_fmap_compose. apply list_fmap_ext. intros i o Hi. simpl.
  apply list_elem_of_lookup_2 in Hi. pose proof (Hos _ Hi).
  assert ((base + o) mod 10240 <= (base + o') mod 10240) as Hle
    by (apply Hmax, list_elem_of_fmap; eauto).
  unfold unwrap_one, MAX_TTI, uwrap. repeat zcase; lia.
Qed.

(** The loop of a right shift, started at the position of [x]. *)
Lemma shift_array_right_spec l1 x l2 :
  shift_array_right (l1 ++ x :: l2) (zlen (l1 ++ x :: l2)) (zlen l1)
  = Some (l1 ++ x :: take (length l2) (x :: l2)).
Proof.
  unfold shift_array_right. rewrite zlen_app, zlen_cons.
  pose proof (zlen_nonneg l1). pose proof (zlen_nonneg l2).
  destruct (Z.leb_spec (zlen l1 + (1 + zlen l2)) (zlen l1)); [lia |].
  rewrite (zget_app_mid l1 l2 x) by done. simpl.
  destruct (Z.eqb_spec (zlen l1) (zlen l1 + (1 + zlen l2) - 1)) as [E | _].
  { assert (l2 = []) as -> by (apply length_zero_iff_nil; unfold zlen in *; lia). done. }
  loop_inv (fun i (st : list Z * Z) =>
       let n := Z.to_nat (i - zlen l1) in
       st.1 = (l1 ++ x :: take n (x :: l2)) ++ drop n l2 /\ (x :: l2) !! n = Some st.2)
    as ([arr tmp] & -> & Harr & _); simpl in *; subst.
  - lia.
  - rewrite Z.sub_diag. simpl.
    by rewrite <- app_assoc.
  - intros i [arr tmp] Hi. cbv zeta. intros [Harr Htmp]. simpl in Harr, Htmp. subst arr.
    set (n := Z.to_nat (i - zlen l1)) in *.
    destruct (lookup_lt_is_Some_2 l2 n) as [y Hy]; [unfold n, zlen in *; lia |].
    assert (zlen (l1 ++ x :: take n (x :: l2)) = i + 1) as Hlen.
    { rewrite zlen_app, zlen_cons. unfold zlen at 2. rewrite length_take. simpl.
      pose proof (lookup_lt_Some _ _ _ Hy). unfold n, zlen in *. lia. }
    rewrite (drop_S l2 y n) by done.
    rewrite zget_app_mid by done. simpl. rewrite zset_app_mid by done. simpl.
    eexists; split; [done |]. simpl.
    replace (Z.to_nat (i + 1 - zlen l1)) with (S n) by (unfold n, zlen in *; lia). split; [| done].
    rewrite (take_S_r (x :: l2) n tmp) by done.
    by rewrite <- !app_assoc, <- !app_comm_cons, <- app_assoc.
  - rewrite (drop_ge l2), app_nil_r by (unfold zlen; lia).
    do 3 f_equal. f_equal. unfold zlen. lia.
Qed.

(** A left shift closes the gap at [x] and leaves the last cell to be filled. *)
Lemma shift_array_left_spec l1 x l2 :
  exists y, shift_array_left (l1 ++ x :: l2) (zlen (l1 ++ x :: l2)) (zlen l1)
    = Some ((l1 ++ l2) ++ [y]).
Proof.
  unfold shift_array_left. rewrite zlen_app, zlen_cons.
  pose proof (zlen_nonneg l1). pose proof (zlen_nonneg l2).
  destruct (Z.leb_spec (zlen l1 + (1 + zlen l2)) (zlen l1)); [lia |].
  destruct (Z.eqb_spec (zlen l1) (zlen l1 + (1 + zlen l2) - 1)) as [E | _].
  { assert (l2 = []) as -> by (apply length_zero_iff_nil; unfold zlen in *; lia).
    exists x. by rewrite app_nil_r. }
  loop_inv (fun i arr => let n := Z.to_nat (i - zlen l1) in
       exists y, arr = (l1 ++ take n l2) ++ y :: drop n l2)
    as (arr & -> & y & ->).
  - lia.
  - exists x. rewrite Z.sub_diag. simpl. by rewrite app_nil_r.
  - intros i arr Hi. cbv zeta. intros [y ->].
    set (n := Z.to_nat (i - zlen l1)) in *.
    destruct (lookup_lt_is_Some_2 l2 n) as [z Hz]; [unfold n, zlen in *; lia |].
    assert (zlen (l1 ++ take n l2) = i) as Hlen.
    { rewrite zlen_app. unfold zlen at 2. rewrite length_take.
      pose proof (lookup_lt_Some _ _ _ Hz). unfold n, zlen in *. lia. }
    rewrite (drop_S l2 z n) by done.
    assert ((l1 ++ take n l2) ++ y :: z :: drop (S n) l2
            = ((l1 ++ take n l2) ++ [y]) ++ z :: drop (S n) l2) as E
      by by rewrite <- !app_assoc.
    assert (zget ((l1 ++ take n l2) ++ y :: z :: drop (S n) l2) (i + 1) = Some z) as Hg
      by (rewrite E; apply zget_app_mid; rewrite zlen_app, Hlen; done).
    rewrite Hg. simpl. rewrite zset_app_mid by done.
    eexists; split; [done |]. exists z.
    replace (Z.to_nat (i + 1 - zlen l1)) with (S n) by (unfold n, zlen in *; lia).
    rewrite (take_S_r l2 n z) by done. by rewrite <- !app_assoc.
  - exists y. rewrite (take_ge l2), (drop_ge l2) by (unfold zlen; lia).
    by rewrite <- app_assoc.
Qed.

(** Insertion and deletion, as the UE tracker composes them from a shift and a
    store. *)
Lemma shift_right_set l1 x l2 v :
  let l := l1 ++ x :: l2 in
  (shift_array_right l (zlen l) (zlen l1) ≫= (fun arr => zset arr (zlen l1) v))
    = Some (take (length l) (l1 ++ v :: x :: l2)).
Proof.
  intros l. unfold l. rewrite shift_array_right_spec. simpl. rewrite zset_app_mid by done. f_equal.
  rewrite length_app, take_app, (take_ge l1) by (simpl; lia). f_equal.
  replace (length l1 + length (x :: l2) - length l1)%nat with (S (length l2)) by (simpl; lia).
  done.
Qed.

Lemma shift_left_set l1 x l2 v :
  let l := l1 ++ x :: l2 in
  (shift_array_left l (zlen l) (zlen l1) ≫= (fun arr => zset arr (zlen l - 1) v))
    = Some (l1 ++ l2 ++ [v]).
Proof.
  intros l. unfold l. destruct (shift_array_left_spec l1 x l2) as [y ->]. simpl.
  rewrite zset_app_mid; [by rewrite <- app_assoc |].
  zlen_lia.
Qed.

(** Swapping two positions of a split array. *)
Lemma swap_array_spec l1 x l2 y l3 :
  let l := l1 ++ x :: l2 ++ y :: l3 in
  swap_array l (zlen l) (zlen l1) (zlen l1 + 1 + zlen l2) = Some (l1 ++ y :: l2 ++ x :: l3).
Proof.
  intros l. unfold swap_array.
  assert (zlen l = zlen l1 + 1 + zlen l2 + 1 + zlen l3) as Hl.
  { unfold l. rewrite zlen_app, zlen_cons, zlen_app, zlen_cons. lia. }
  pose proof (zlen_nonneg l1). pose proof (zlen_nonneg l2). pose proof (zlen_nonneg l3).
  destruct (Z.leb_spec (zlen l) (zlen l1)); [lia |].
  destruct (Z.leb_spec (zlen l) (zlen l1 + 1 + zlen l2)); [lia |]. cbn [orb].
  assert (forall z, l1 ++ z :: l2 ++ y :: l3 = (l1 ++ z :: l2) ++ y :: l3) as E
    by (intros z; by rewrite <- app_assoc).
  assert (zlen (l1 ++ x :: l2) = zlen l1 + 1 + zlen l2) as Hl1 by (rewrite zlen_app, zlen_cons; lia).
  unfold l. rewrite E at 1. rewrite zget_app_mid by done. cbn [mbind option_bind].
  rewrite zget_app_mid by done. cbn [mbind option_bind].
  rewrite E, zset_app_mid by done. cbn [mbind option_bind].
  rewrite <- app_assoc. rewrite <- app_comm_cons. by rewrite zset_app_mid.
Qed.

(** The search loop finds the first position. *)
Lemma find_from_spec (l : list Z) e i fuel :
  0 <= i -> i + Z.of_nat fuel <= zlen l ->
  find_from l e i fuel =
  match list_find (eq e) (take fuel (drop (Z.to_nat i) l)) with
  | Some (k, _) => Some (i + Z.of_nat k)
  | None => Some (-1)
  end.
Proof.
  revert i. induction fuel as [| fuel IH]; intros i Hi Hf; [done |].
  destruct (zget_some l i) as [x Hx]; [unfold in_range; lia |].
  cbn [find_from]. rewrite Hx. cbn [mbind option_bind].
  rewrite zget_lookup in Hx by done. rewrite (drop_S _ x) by done. cbn [take list_find].
  destruct (Z.eqb_spec e x) as [E | E].
  - rewrite decide_True by done. f_equal. lia.
  - rewrite decide_False by done. rewrite IH by lia.
    replace (Z.to_nat (i + 1)) with (S (Z.to_nat i)) by lia.
    destruct (list_find _ _) as [[k y] |]; [simpl; f_equal; lia | done].
Qed.

(** Circular distance of two TTIs. *)
Definition tti_dist (a b : Z) : Z := Z.min ((a - b) mod MAX_TTI) ((b - a) mod MAX_TTI).

Lemma tti_difference_dist a b :
  0 <= a < MAX_TTI -> 0 <= b < MAX_TTI -> tti_difference a b = Some (tti_dist a b).
Proof.
  intros Ha Hb. unfold tti_difference. rewrite tti_pair_spec by done. simpl. f_equal.
  unfold tti_dist, MAX_TTI in *. rewrite !Z.gtb_ltb. repeat zcase; lia.
Qed.

(** ** Theorems *)

(** [tti_difference] is the circular distance on the 10240-cycle of
    subframe numbers: the shorter of the two ways round. *)
Theorem tti_difference_circular a b :
  0 <= a < MAX_TTI -> 0 <= b < MAX_TTI ->
  tti_difference a b = Some (Z.min ((a - b) mod MAX_TTI) ((b - a) mod MAX_TTI)).
Proof.
  apply tti_difference_dist.
Qed.

Lemma tti_difference_circular_witness :
  tti_difference 3 10238 = Some (Z.min ((3 - 10238) mod MAX_TTI) ((10238 - 3) mod MAX_TTI)).
Proof. apply (tti_difference_circular 3 10238); unfold MAX_TTI; lia. Defined.

(** For TTIs that lie within half a period of each other, starting
    anywhere on the cycle (so possibly straddling the wrap from 10239 to 0),
    [max_tti_in_array] returns the most recent one: the base advanced by the
    largest offset. *)
Theorem max_tti_in_array_window base os :
  0 <= base < MAX_TTI -> os <> [] -> Forall (fun o => 0 <= o < 5120) os ->
  exists m arr,
    max_tti_in_array ((fun o => (base + o) mod MAX_TTI) <$> os) (zlen os)
      = Some ((base + m) mod MAX_TTI, arr)
    /\ m ∈ os /\ forall o, o ∈ os -> o <= m.
Proof.
  intros Hb Hne Hos. set (l := (fun o => (base + o) mod MAX_TTI) <$> os).
  assert (zlen os = zlen l) as -> by (unfold zlen, l; by rewrite length_fmap).
  unfold max_tti_in_array. destruct (Z.eqb_spec (zlen l) 1) as [E1 | E1].
  { destruct os as [| o [| o2 os']]; [done | | unfold zlen in E1; simpl in E1; lia].
    exists o, l. split; [done |]. split; [set_solver |].
    intros o' ->%list_elem_of_singleton. lia. }
  assert (l <> []) as Hl by (unfold l; by destruct os).
  destruct (Z.leb_spec (zlen l) 0) as [E0 | E0].
  { exfalso. apply Hl, length_zero_iff_nil. unfold zlen in E0. lia. }
  destruct (max16_spec l Hl) as (M & HM & Hin & Hmax).
  rewrite (unwrap_tti_array_spec l M) by done. simpl.
  destruct (unwrap_window base M os Hb Hos Hin Hmax) as (c & Hc & Hmap).
  fold l in Hmap. rewrite Hmap. set (l' := (fun o => base + o + c) <$> os).
  assert (zlen l = zlen l') as -> by (unfold zlen, l, l'; by rewrite !length_fmap).
  pose proof (quick_sort_uint16_perm l') as Hp.
  set (s := quick_sort_uint16 l' (zlen l')) in *.
  assert (zlen l' = zlen s) as -> by (unfold zlen; by rewrite Hp).
  assert (s <> []) as Hs.
  { intros Hs. rewrite Hs in Hp. apply Permutation_nil_l in Hp. unfold l' in Hp. by destruct os. }
  destruct (max16_spec s Hs) as (m' & -> & Hm' & Hmax'). simpl.
  rewrite Hp in Hm'. unfold l' in Hm'. apply list_elem_of_fmap in Hm' as (m & -> & Hm).
  exists m, s. split; [| split; [done |]].
  - do 2 f_equal. unfold wrap_tti, MAX_TTI in *. lia.
  - intros o Ho. assert (base + o + c <= base + m + c); [| lia].
    apply Hmax'. rewrite Hp. unfold l'. apply list_elem_of_fmap. eauto.
Qed.

Lemma max_tti_in_array_window_witness :
  exists m arr,
    max_tti_in_array ((fun o => (10235 + o) mod MAX_TTI) <$> [4; 8; 0]) (zlen [4; 8; 0])
      = Some ((10235 + m) mod MAX_TTI, arr)
    /\ m ∈ [4; 8; 0] /\ forall o, o ∈ [4; 8; 0] -> o <= m.
Proof.
  apply (max_tti_in_array_window 10235 [4; 8; 0]);
    [unfold MAX_TTI; lia | done | repeat constructor; lia].
Defined.

(** shifting right at [i] and then storing [v] there, as the UE
    tracker does to insert into its sorted array, inserts [v] at position [i]
    and drops the last element; shifting left and storing [v] in the last
    cell, as it does to remove, deletes position [i] and appends [v]. *)
Theorem shift_then_set l1 x l2 v :
  let l := l1 ++ x :: l2 in
  (shift_array_right l (zlen l) (zlen l1) ≫= (fun arr => zset arr (zlen l1) v))
    = Some (take (length l) (l1 ++ v :: x :: l2)) /\
  (shift_array_left l (zlen l) (zlen l1) ≫= (fun arr => zset arr (zlen l - 1) v))
    = Some (l1 ++ l2 ++ [v]).
Proof.
  intros l. split; [apply shift_right_set | apply shift_left_set].
Qed.

(** [abs] on a 64-bit difference: the scan for the nearest neighbour compares
    distances truncated to 32 bits, and picks an element 2^32 away over one
    at distance 5. *)
Example nearest_neighbour_truncates : nearest_neighbour [2 ^ 32; 5] 2 0 = Some (2 ^ 32).
Proof. reflexivity. Qed.

(** The 64-bit comparator is not even antisymmetric: it says 2^31 < 0. *)
Example cmpfunc_uint64_overflows : cmpfunc_uint64 (2 ^ 31) 0 < 0 /\ cmpfunc_uint64 0 (2 ^ 31) < 0.
Proof. split; reflexivity. Qed.
