(* ===== verification/TaskBuf.v ===== *)
(** * Subframe buffering of the task scheduler

    [ngscope/src/dciLib/task_sf_ring_buffer.c] (the ring of subframes that
    found no idle decoder), [skip_tti.c] (the stack of subframes that found the
    ring full) and the decoder tokens, buffer hand-over and temporary-buffer
    thread of [task_scheduler.c]. *)

From S2P Require Import Prelude.

Definition MAX_TMP_BUFFER : Z := 15.
Definition MAX_NOF_SKIP_TTI : Z := 200.
Definition SRSRAN_MAX_PORTS : Z := 4.

(** ** The subframe ring *)

Module SfRing.
Section sf_ring.
(** Complex baseband samples; only copied. *)
Context {cf_t : Type}.

Record task_tmp_sf_buffer_t := Sf {
  sf_idx : Z;
  sfn : Z;
  IQ_buffer : list (list cf_t)
}.

Record task_tmp_buffer_t := TmpBuf {
  sf_buf : list task_tmp_sf_buffer_t;
  header : Z;
  tail : Z;
  len : Z;
  full : bool
}.

(** [memcpy(dst, src, n * sizeof(cf_t))] between allocations of known size. *)
Definition memcpy_cf (dst src : list cf_t) (n : Z) : option (list cf_t) :=
  if (0 <=? n) && (n <=? zlen dst) && (n <=? zlen src)
  then Some (take (Z.to_nat n) src ++ drop (Z.to_nat n) dst) else None.

(** [fresh] is the content of the memory [srsran_vec_cf_malloc] returns; the
    subframe numbers of the slots are not initialised and keep [q]'s. *)
Definition task_sf_ring_buffer_init (q : task_tmp_buffer_t) (fresh : list cf_t)
  : task_tmp_buffer_t :=
  TmpBuf ((fun s => Sf (sf_idx s) (sfn s) (replicate (Z.to_nat SRSRAN_MAX_PORTS) fresh))
            <$> sf_buf q) 0 0 0 false.

Definition task_sf_ring_buffer_put (q : task_tmp_buffer_t) (buffers : list (list cf_t))
    (sfn sf_idx rf_nof_rx_ant max_num_samples : Z) : option (Z * task_tmp_buffer_t) :=
  if full q then Some (0, q)
  else
    slot ← zget (sf_buf q) (header q);
    iq ← for_range 0 rf_nof_rx_ant
           (fun iq p =>
              dst ← zget iq p; src ← zget buffers p;
              dst' ← memcpy_cf dst src max_num_samples;
              zset iq p dst') (IQ_buffer slot);
    buf ← zset (sf_buf q) (header q) (Sf sf_idx sfn iq);
    let len' := len q + 1 in
    Some (1, TmpBuf buf (Z.rem (header q + 1) MAX_TMP_BUFFER) (tail q) len'
               (if len' =? MAX_TMP_BUFFER then true else full q)).

Definition task_sf_ring_buffer_get (q : task_tmp_buffer_t) : Z * task_tmp_buffer_t :=
  let len' := len q - 1 in
  (0, TmpBuf (sf_buf q) (header q) (Z.rem (tail q + 1) MAX_TMP_BUFFER) len'
        (if len' <? MAX_TMP_BUFFER then false else full q)).

Definition task_sf_ring_buffer_full (q : task_tmp_buffer_t) : bool := full q.
Definition task_sf_ring_buffer_empty (q : task_tmp_buffer_t) : bool :=
  if 0 <? len q then false else true.
Definition task_sf_ring_buffer_len (q : task_tmp_buffer_t) : Z := len q.

(** [while (idx != header) { cnt++; idx = (idx+1) % MAX; }]; one turn of the
    ring bounds the loop. *)
Fixpoint count_until (idx hd cnt : Z) (fuel : nat) : option Z :=
  if idx =? hd then Some cnt
  else match fuel with
       | O => None
       | S n => count_until (Z.rem (idx + 1) MAX_TMP_BUFFER) hd (cnt + 1) n
       end.

Definition get_nof_buffered_sf (q : task_tmp_buffer_t) : option Z :=
  if negb (header q =? tail q)
  then count_until (tail q) (header q) 0 (Z.to_nat MAX_TMP_BUFFER)
  else Some 0.

(** *** Specification: the ring holds the queue [l], oldest first *)

Record repr (q : task_tmp_buffer_t) (l : list task_tmp_sf_buffer_t) : Prop := Repr {
  repr_slots : zlen (sf_buf q) = MAX_TMP_BUFFER;
  repr_len : len q = zlen l;
  repr_cap : zlen l <= MAX_TMP_BUFFER;
  repr_tail : 0 <= tail q < MAX_TMP_BUFFER;
  repr_header : header q = (tail q + zlen l) mod MAX_TMP_BUFFER;
  repr_full : full q = bool_decide (zlen l = MAX_TMP_BUFFER);
  repr_cells : forall k, 0 <= k < zlen l ->
    zget (sf_buf q) ((tail q + k) mod MAX_TMP_BUFFER) = zget l k
}.

(** The samples a caller hands over are large enough for the copy. *)
Definition iq_fits (nrx nsamp : Z) (iq : list (list cf_t)) : Prop :=
  0 <= nrx <= zlen iq /\ Forall (fun a => nsamp <= zlen a) iq.

Lemma put_full q l b s i r n :
  repr q l -> zlen l = MAX_TMP_BUFFER -> task_sf_ring_buffer_put q b s i r n = Some (0, q).
Proof.
  intros H Hl. unfold task_sf_ring_buffer_put.
  rewrite (repr_full _ _ H), bool_decide_true; done.
Qed.

Lemma memcpy_cf_some dst src n :
  0 <= n <= zlen dst -> n <= zlen src ->
  memcpy_cf dst src n = Some (take (Z.to_nat n) src ++ drop (Z.to_nat n) dst).
Proof.
  intros Hd Hs. unfold memcpy_cf.
  repeat match goal with |- context [Z.leb ?a ?b] => destruct (Z.leb_spec a b); [| lia] end.
  done.
Qed.

(** The copy loop leaves the first [n] samples of each receive port equal to
    the caller's. *)
Lemma copy_loop_spec iq b r n :
  0 <= n -> iq_fits r n iq -> iq_fits r n b ->
  exists iq',
    for_range 0 r
      (fun iq p => dst ← zget iq p; src ← zget b p; dst' ← memcpy_cf dst src n; zset iq p dst')
      iq = Some iq' /\ zlen iq' = zlen iq /\
    Forall (fun a => n <= zlen a) iq' /\
    forall p, 0 <= p < r -> (take (Z.to_nat n) <$> zget iq' p) = (take (Z.to_nat n) <$> zget b p).
Proof.
  intros Hn [Hr Hiq] [Hrb Hb].
  loop_inv (fun i iq' => zlen iq' = zlen iq /\ Forall (fun a => n <= zlen a) iq' /\
     forall p, 0 <= p < i -> (take (Z.to_nat n) <$> zget iq' p) = (take (Z.to_nat n) <$> zget b p))
    as (iq' & -> & Hl & Hf & Hp); eauto; try lia.
  - split_and!; [done | done | lia].
  - intros i t Hi (Hlen & Hft & Hpre).
    destruct (zget_some t i) as [dst Hdst]; [unfold in_range; lia |].
    destruct (zget_some b i) as [src Hsrc]; [unfold in_range; lia |].
    assert (n <= zlen dst /\ n <= zlen src) as [? ?].
    { rewrite Forall_lookup in Hft, Hb.
      rewrite zget_lookup in Hdst, Hsrc by lia. eauto. }
    rewrite Hdst, Hsrc; simpl. rewrite memcpy_cf_some by lia; simpl.
    rewrite zset_in by (unfold in_range; lia).
    eexists; split; [done |]. split_and!.
    + by rewrite zlen_insert.
    + apply Forall_insert; [done |].
      unfold zlen. rewrite length_app, length_take, length_drop. unfold zlen in *. lia.
    + intros p Hp. destruct (decide (p = i)) as [-> | Hne].
      * rewrite zget_insert_eq, Hsrc by (unfold in_range; lia). simpl. f_equal.
        rewrite take_app_le by (rewrite length_take; unfold zlen in *; lia).
        rewrite take_take. f_equal. lia.
      * rewrite zget_insert_ne by lia. apply Hpre. lia.
Qed.

Definition slots_fit (r n : Z) (q : task_tmp_buffer_t) : Prop :=
  Forall (fun s => iq_fits r n (IQ_buffer s)) (sf_buf q).

(** The queue entry [e] carries subframe [s].[i] and the samples of [b]. *)
Definition carries (e : task_tmp_sf_buffer_t) (b : list (list cf_t)) (s i r n : Z) : Prop :=
  sfn e = s /\ sf_idx e = i /\
  forall p, 0 <= p < r ->
    (take (Z.to_nat n) <$> zget (IQ_buffer e) p) = (take (Z.to_nat n) <$> zget b p).

Lemma put_room q l b s i r n :
  repr q l -> slots_fit r n q -> iq_fits r n b -> 0 <= n -> zlen l < MAX_TMP_BUFFER ->
  exists e q', task_sf_ring_buffer_put q b s i r n = Some (1, q') /\
    repr q' (l ++ [e]) /\ slots_fit r n q' /\ carries e b s i r n.
Proof.
  intros H Hfit Hb Hn Hl. unfold task_sf_ring_buffer_put.
  rewrite (repr_full _ _ H), bool_decide_false by lia.
  pose proof (zlen_nonneg l). pose proof (repr_slots _ _ H) as Hs.
  pose proof (repr_tail _ _ H). pose proof (repr_header _ _ H) as Hh. unfold MAX_TMP_BUFFER in *.
  assert (in_range (sf_buf q) (header q)) as Hin by (unfold in_range; lia).
  destruct (zget_some _ _ Hin) as [slot Hslot]. rewrite Hslot; simpl.
  assert (iq_fits r n (IQ_buffer slot)) as Hsf.
  { unfold slots_fit in Hfit. rewrite Forall_lookup in Hfit.
    rewrite zget_lookup in Hslot by lia. eauto. }
  destruct (copy_loop_spec (IQ_buffer slot) b r n) as (iq & -> & Hlen & Hf & Hc); auto. simpl.
  rewrite zset_in by done. simpl.
  exists (Sf i s iq). eexists; split; [done |]. split_and!.
  - split; simpl; rewrite ?zlen_insert, ?zlen_app, ?(repr_len _ _ H); unfold MAX_TMP_BUFFER;
      rewrite ?zlen_cons, ?zlen_nil; try lia.
    + destruct (Z.eqb_spec (zlen l + 1) 15); symmetry;
        [apply bool_decide_true; lia |].
      apply bool_decide_false. lia.
    + intros k Hk. assert (0 <= k <= zlen l) by zlen_lia. destruct (decide (k = zlen l)) as [-> | Hne].
      * rewrite <- Hh, zget_insert_eq by done. symmetry. by apply zget_app_mid.
      * rewrite zget_insert_ne by lia.
        pose proof (repr_cells _ _ H k) as Hcell. unfold MAX_TMP_BUFFER in Hcell.
        rewrite Hcell by lia.
        rewrite !zget_lookup, lookup_app_l by (unfold zlen in *; lia). done.
  - apply Forall_insert; [done |]. split; [| done]. destruct Hsf as [? _]. simpl. lia.
  - done.
Qed.

Lemma get_pops q e l :
  repr q (e :: l) -> repr (task_sf_ring_buffer_get q).2 l.
Proof.
  intros H. pose proof (zlen_nonneg l). pose proof (zlen_cons e l) as Hc.
  pose proof (repr_tail _ _ H). pose proof (repr_header _ _ H) as Hh.
  pose proof (repr_cap _ _ H). pose proof (repr_len _ _ H).
  unfold task_sf_ring_buffer_get. unfold MAX_TMP_BUFFER in *. simpl.
  split; simpl; unfold MAX_TMP_BUFFER; try lia.
  - apply (repr_slots _ _ H).
  - destruct (Z.ltb_spec (len q - 1) 15); [| lia]. symmetry. apply bool_decide_false. lia.
  - intros k Hk. pose proof (repr_cells _ _ H (k + 1)) as Hcell.
    rewrite rem_add_mod by lia. replace (tail q + 1 + k) with (tail q + (k + 1)) by lia.
    unfold MAX_TMP_BUFFER in Hcell. rewrite Hcell by lia.
    rewrite !zget_lookup by lia. by replace (Z.to_nat (k + 1)) with (S (Z.to_nat k)) by lia.
Qed.

Lemma repr_empty q l : repr q l -> task_sf_ring_buffer_empty q = bool_decide (l = []).
Proof.
  intros H. unfold task_sf_ring_buffer_empty. rewrite (repr_len _ _ H).
  destruct l as [| e l]; [done |]. rewrite zlen_cons.
  destruct (Z.ltb_spec 0 (1 + zlen l)); [done | pose proof (zlen_nonneg l); lia].
Qed.

Lemma repr_init q fresh : zlen (sf_buf q) = MAX_TMP_BUFFER -> repr (task_sf_ring_buffer_init q fresh) [].
Proof.
  intros Hq. split; simpl; try done; try (unfold MAX_TMP_BUFFER; lia).
  - unfold zlen in *. by rewrite length_fmap.
  - intros k Hk. unfold zlen in Hk. simpl in Hk. lia.
Qed.

Lemma count_until_spec fuel idx d cnt :
  0 <= idx < MAX_TMP_BUFFER -> 0 <= d < MAX_TMP_BUFFER -> (Z.to_nat d <= fuel)%nat ->
  count_until idx ((idx + d) mod MAX_TMP_BUFFER) cnt fuel = Some (cnt + d).
Proof.
  unfold MAX_TMP_BUFFER. revert idx d cnt. induction fuel as [| fuel IH]; intros idx d cnt Hi Hd Hf; simpl.
  - assert (d = 0) as -> by lia. destruct (Z.eqb_spec idx ((idx + 0) mod 15)); [f_equal; lia | lia].
  - destruct (Z.eqb_spec idx ((idx + d) mod 15)) as [E | E]; [f_equal; lia |].
    assert (d <> 0) as Hd0 by (intros ->; apply E; rewrite Z.add_0_r, Z.mod_small; lia).
    clear E. unfold MAX_TMP_BUFFER.
    replace (idx + d) with (idx + 1 + (d - 1)) by lia. rewrite <- rem_add_mod by lia.
    pose proof (rem_range (idx + 1) 15).
    rewrite IH by lia. f_equal. lia.
Qed.


(** the occupancy the scheduler logs counts slots from the tail to
    the header, and terminates within one turn of the ring; it is the length
    of the queue except for a full ring, where header and tail coincide and
    it reports 0. *)
Theorem get_nof_buffered_sf_spec q l :
  repr q l ->
  get_nof_buffered_sf q = Some (if zlen l =? MAX_TMP_BUFFER then 0 else zlen l).
Proof.
  intros H. unfold get_nof_buffered_sf.
  pose proof (zlen_nonneg l). pose proof (repr_cap _ _ H). pose proof (repr_tail _ _ H).
  rewrite (repr_header _ _ H). unfold MAX_TMP_BUFFER in *.
  destruct (Z.eqb_spec (zlen l) 15) as [E | E].
  - destruct (Z.eqb_spec ((tail q + zlen l) mod 15) (tail q)); [done | lia].
  - destruct (Z.eqb_spec ((tail q + zlen l) mod 15) (tail q)); cbn [negb].
    + f_equal. lia.
    + change 15 with MAX_TMP_BUFFER.
      rewrite count_until_spec by (unfold MAX_TMP_BUFFER; lia). done.
Qed.
End sf_ring.

(** A ring as [task_sf_ring_buffer_init] leaves it, with two-sample buffers. *)
Definition ex_ring : @task_tmp_buffer_t Z :=
task_sf_ring_buffer_init (TmpBuf (replicate 15 (Sf 0 0 [])) 3 4 5 true) [0; 0].

Lemma ex_ring_repr : repr ex_ring [].
Proof. apply repr_init. vm_compute. done. Qed.


Lemma get_nof_buffered_sf_spec_witness : get_nof_buffered_sf ex_ring = Some 0.
Proof. apply (get_nof_buffered_sf_spec ex_ring [] ex_ring_repr). Defined.

Arguments task_tmp_sf_buffer_t : clear implicits.
Arguments task_tmp_buffer_t : clear implicits.
End SfRing.

(** ** The stack of skipped subframes ([skip_tti.c]) *)

Module Skip.
Record task_skip_tti_t := SkipTti { sf : list Z; sf_idx : list Z; nof_tti : Z }.

Definition skip_tti_init : task_skip_tti_t :=
  SkipTti (replicate (Z.to_nat MAX_NOF_SKIP_TTI) 0) (replicate (Z.to_nat MAX_NOF_SKIP_TTI) 0) 0.

Definition skip_tti_put (q : task_skip_tti_t) (s i : Z) : option (Z * task_skip_tti_t) :=
  if nof_tti q =? MAX_NOF_SKIP_TTI then Some (0, q)
  else
    sf' ← zset (sf q) (nof_tti q) s;
    idx' ← zset (sf_idx q) (nof_tti q) i;
    Some (1, SkipTti sf' idx' (nof_tti q + 1)).

Definition skip_tti_get (q : task_skip_tti_t) : option (Z * task_skip_tti_t) :=
  if nof_tti q =? 0 then Some (0, q)
  else
    s ← zget (sf q) (nof_tti q - 1);
    i ← zget (sf_idx q) (nof_tti q - 1);
    sf' ← zset (sf q) (nof_tti q - 1) 0;
    idx' ← zset (sf_idx q) (nof_tti q - 1) 0;
    Some (u32 (s * 10 + i), SkipTti sf' idx' (nof_tti q - 1)).

Definition skip_tti_empty (q : task_skip_tti_t) : bool := nof_tti q =? 0.

(** The stack [l] of (sfn, sf_idx) pairs, bottom first; the cells above are 0. *)
Definition repr (q : task_skip_tti_t) (l : list (Z * Z)) : Prop :=
  zlen l <= MAX_NOF_SKIP_TTI /\ nof_tti q = zlen l /\
  let pad := replicate (Z.to_nat (MAX_NOF_SKIP_TTI - zlen l)) 0 in
  sf q = (fst <$> l) ++ pad /\ sf_idx q = (snd <$> l) ++ pad.

Lemma init_repr : repr skip_tti_init [].
Proof. split; [vm_compute; done |]. split; done. Qed.

Lemma pad_split (l : list (Z * Z)) (p : Z * Z) :
  zlen l < MAX_NOF_SKIP_TTI ->
  replicate (Z.to_nat (MAX_NOF_SKIP_TTI - zlen l)) 0
  = 0 :: replicate (Z.to_nat (MAX_NOF_SKIP_TTI - zlen (l ++ [p]))) 0.
Proof.
  intros Hl.
  replace (Z.to_nat (MAX_NOF_SKIP_TTI - zlen l))
    with (S (Z.to_nat (MAX_NOF_SKIP_TTI - zlen (l ++ [p])))) by zlen_lia.
  done.
Qed.

Lemma put_repr q l s i :
  repr q l ->
  exists q', skip_tti_put q s i
    = Some (if zlen l =? MAX_NOF_SKIP_TTI then 0 else 1, q') /\
    if zlen l =? MAX_NOF_SKIP_TTI then q' = q else repr q' (l ++ [(s, i)]).
Proof.
  intros (Hcap & Hn & Hsf & Hidx). unfold skip_tti_put. rewrite Hn.
  destruct (Z.eqb_spec (zlen l) MAX_NOF_SKIP_TTI) as [E | E]; [by eauto |].
  rewrite Hsf, Hidx, (pad_split l (s, i)) by lia.
  rewrite zset_app_mid by (by rewrite zlen_fmap). simpl.
  rewrite zset_app_mid by (by rewrite zlen_fmap). simpl.
  eexists; split; [done |]. split; [zlen_lia |]. split; [simpl; zlen_lia |]. simpl.
  by rewrite !fmap_app, <- !app_assoc.
Qed.

Lemma get_repr q l s i :
  repr q (l ++ [(s, i)]) ->
  exists q', skip_tti_get q = Some (u32 (s * 10 + i), q') /\ repr q' l.
Proof.
  intros (Hcap & Hn & Hsf & Hidx). unfold skip_tti_get.
  assert (zlen (l ++ [(s, i)]) = zlen l + 1) as Hl by zlen_lia. rewrite Hl in *.
  pose proof (zlen_nonneg l). rewrite Hn.
  destruct (Z.eqb_spec (zlen l + 1) 0); [lia |].
  replace (zlen l + 1 - 1) with (zlen l) by lia.
  rewrite Hsf, Hidx, !fmap_app, <- !app_assoc. simpl.
  rewrite !zget_app_mid by (by rewrite zlen_fmap). simpl.
  rewrite !zset_app_mid by (by rewrite zlen_fmap). simpl.
  eexists; split; [done |]. split; [lia |]. split; [done |]. simpl.
  rewrite (pad_split l (s, i)), Hl by lia. done.
Qed.

(** Skipped subframes form a stack of at most 200 entries: a put is
    refused exactly on a full stack, and a put that is accepted is undone by
    the next get, which returns the subframe's TTI; splitting that TTI as the
    handler does recovers the frame and subframe numbers. *)
Theorem skip_put_get q l s i :
  repr q l -> zlen l < MAX_NOF_SKIP_TTI -> 0 <= s < 1024 -> 0 <= i < 10 ->
  exists q1 q2 tti, skip_tti_put q s i = Some (1, q1) /\ repr q1 (l ++ [(s, i)]) /\
    skip_tti_get q1 = Some (tti, q2) /\ repr q2 l /\ tti / 10 = s /\ tti mod 10 = i.
Proof.
  intros H Hl Hs Hi. destruct (put_repr q l s i H) as (q1 & Hput & H1).
  destruct (Z.eqb_spec (zlen l) MAX_NOF_SKIP_TTI); [lia |].
  destruct (get_repr q1 l s i H1) as (q2 & Hget & H2).
  exists q1, q2, (u32 (s * 10 + i)).
  rewrite (uwrap_small 32) in * by (unfold is_uint; lia). split_and!; auto; lia.
Qed.

Lemma skip_put_get_witness :
  exists q1 q2 tti, skip_tti_put skip_tti_init 700 9 = Some (1, q1) /\ repr q1 ([] ++ [(700, 9)]) /\
    skip_tti_get q1 = Some (tti, q2) /\ repr q2 [] /\ tti / 10 = 700 /\ tti mod 10 = 9.
Proof.
  apply (skip_put_get skip_tti_init [] 700 9); [apply init_repr | vm_compute; done | lia | lia].
Defined.
End Skip.

(** ** Decoder tokens and task hand-over ([task_scheduler.c]) *)

Module Sched.
Import SfRing.
Section sched.
Context {cf_t : Type}.

(** One decoder's input slot ([ngscope_sf_buffer_t]). *)
Record ngscope_sf_buffer_t := SfBuffer {
  empty_sf : bool;
  b_sf_idx : Z;
  b_sfn : Z;
  b_IQ : list (list cf_t)
}.

(** The shared state of one RF device. *)
Record sched_t := MkSched {
  tmp_buffer : @task_tmp_buffer_t cf_t;
  skip : Skip.task_skip_tti_t;
  sf_token : list bool;
  sf_buffer : list ngscope_sf_buffer_t
}.

Fixpoint find_idle_from (tokens : list bool) (i : Z) (fuel : nat) : option (Z * list bool) :=
  match fuel with
  | O => Some (-1, tokens)
  | S n =>
      t ← zget tokens i;
      if negb t then tokens' ← zset tokens i true; Some (i, tokens')
      else find_idle_from tokens (i + 1) n
  end.

(** Index of the first idle decoder, whose token is taken, or -1. *)
Definition find_idle_decoder (st : sched_t) (nof_decoder : Z) : option (Z * sched_t) :=
  '(idx, tokens) ← find_idle_from (sf_token st) 0 (Z.to_nat nof_decoder);
  Some (idx, MkSched (tmp_buffer st) (skip st) tokens (sf_buffer st)).

Definition assign_task_to_decoder (st : sched_t) (idle_idx rf_nof_rx_ant sf_idx sfn nsamp : Z)
    (IQ : list (list cf_t)) : option sched_t :=
  tokens ← zset (sf_token st) idle_idx true;
  slot ← zget (sf_buffer st) idle_idx;
  iq ← for_range 0 rf_nof_rx_ant
         (fun iq p =>
            dst ← zget iq p; src ← zget IQ p;
            dst' ← memcpy_cf dst src nsamp;
            zset iq p dst') (b_IQ slot);
  buf ← zset (sf_buffer st) idle_idx (SfBuffer false sf_idx sfn iq);
  Some (MkSched (tmp_buffer st) (skip st) tokens buf).

Definition assign_empty_task_to_decoder (st : sched_t) (idle_idx sf_idx sfn : Z) : option sched_t :=
  tokens ← zset (sf_token st) idle_idx true;
  slot ← zget (sf_buffer st) idle_idx;
  buf ← zset (sf_buffer st) idle_idx (SfBuffer true sf_idx sfn (b_IQ slot));
  Some (MkSched (tmp_buffer st) (skip st) tokens buf).

(** What a pass hands out: decoder index, frame, subframe, empty flag. *)
Definition assignment : Type := (Z * Z * Z * bool).

(** First inner loop of [handle_tmp_buffer_thread]: skipped subframes are
    handed out as empty tasks. Every iteration takes a token, so
    [nof_decoder + 1] iterations suffice; [go_exit] stays false during a
    pass. *)
Fixpoint drain_skip (nof_decoder : Z) (st : sched_t) (out : list assignment) (fuel : nat)
  : option (sched_t * list assignment) :=
  match fuel with
  | O => None
  | S n =>
      '(idle_idx, st) ← find_idle_decoder st nof_decoder;
      if idle_idx <? 0 then Some (st, out)
      else
        '(tti, sk) ← Skip.skip_tti_get (skip st);
        let sfn := tti / 10 in
        let sf_idx := tti mod 10 in
        st ← assign_empty_task_to_decoder
               (MkSched (tmp_buffer st) sk (sf_token st) (sf_buffer st)) idle_idx sf_idx sfn;
        let out := out ++ [(idle_idx, sfn, sf_idx, true)] in
        if Skip.skip_tti_empty (skip st) then Some (st, out)
        else drain_skip nof_decoder st out n
  end.

(** Second inner loop: buffered subframes are handed out from the tail. *)
Fixpoint drain_tmp (nof_decoder rf_nof_rx_ant nsamp : Z) (st : sched_t) (out : list assignment)
    (fuel : nat) : option (sched_t * list assignment) :=
  match fuel with
  | O => None
  | S n =>
      '(idle_idx, st) ← find_idle_decoder st nof_decoder;
      if idle_idx <? 0 then Some (st, out)
      else
        e ← zget (sf_buf (tmp_buffer st)) (tail (tmp_buffer st));
        st ← assign_task_to_decoder st idle_idx rf_nof_rx_ant (sf_idx e) (sfn e) nsamp (IQ_buffer e);
        let q := (task_sf_ring_buffer_get (tmp_buffer st)).2 in
        let st := MkSched q (skip st) (sf_token st) (sf_buffer st) in
        let out := out ++ [(idle_idx, sfn e, sf_idx e, false)] in
        if task_sf_ring_buffer_empty q then Some (st, out)
        else drain_tmp nof_decoder rf_nof_rx_ant nsamp st out n
  end.

(** One pass of the loop body of [handle_tmp_buffer_thread]. *)
Definition handle_tmp_buffer_pass (nof_decoder rf_nof_rx_ant nsamp : Z) (st : sched_t)
  : option (sched_t * list assignment) :=
  r ← (if Skip.skip_tti_empty (skip st) then Some (st, [])
       else drain_skip nof_decoder st [] (S (Z.to_nat nof_decoder)));
  let st := r.1 in
  let out := r.2 in
  if task_sf_ring_buffer_empty (tmp_buffer st) then Some (st, out)
  else drain_tmp nof_decoder rf_nof_rx_ant nsamp st out (S (Z.to_nat nof_decoder)).

(** [task_scheduler_thread] on one synchronised subframe. *)
Definition schedule_subframe (nof_decoder rf_nof_rx_ant nsamp sfn sf_idx : Z)
    (buffers : list (list cf_t)) (st : sched_t) : option (sched_t * list assignment) :=
  '(idle_idx, st) ← find_idle_decoder st nof_decoder;
  if idle_idx <? 0 then
    '(ret, q) ← task_sf_ring_buffer_put (tmp_buffer st) buffers sfn sf_idx rf_nof_rx_ant nsamp;
    let st := MkSched q (skip st) (sf_token st) (sf_buffer st) in
    if ret =? 0 then
      '(_, sk) ← Skip.skip_tti_put (skip st) sfn sf_idx;
      Some (MkSched q sk (sf_token st) (sf_buffer st), [])
    else Some (st, [])
  else
    st ← assign_task_to_decoder st idle_idx rf_nof_rx_ant sf_idx sfn nsamp buffers;
    Some (st, [(idle_idx, sfn, sf_idx, false)]).

(** The decoder's release of its token before it waits for work. *)
Definition release_token (st : sched_t) (decoder_idx : Z) : option sched_t :=
  t ← zget (sf_token st) decoder_idx;
  if (t : bool) then
    tokens ← zset (sf_token st) decoder_idx false;
    Some (MkSched (tmp_buffer st) (skip st) tokens (sf_buffer st))
  else Some st.

(** *** Which decoders a pass uses *)

(** The idle decoders, in the order [find_idle_decoder] takes them. *)
Definition idle (tokens : list bool) (nof_decoder : Z) : list Z :=
  filter (fun i => zget tokens i = Some false) (seqZ 0 nof_decoder).

Lemma find_idle_from_filter tokens i fuel :
  0 <= i -> i + Z.of_nat fuel <= zlen tokens ->
  find_idle_from tokens i fuel =
  match filter (fun i => zget tokens i = Some false) (seqZ i (Z.of_nat fuel)) with
  | [] => Some (-1, tokens)
  | j :: _ => Some (j, <[Z.to_nat j := true]> tokens)
  end.
Proof.
  revert i. induction fuel as [| fuel IH]; intros i Hi Hf; [done |].
  rewrite seqZ_cons by lia. cbn [find_idle_from].
  destruct (zget_some tokens i) as [t Ht]; [unfold in_range; lia |].
  rewrite Ht. cbn [mbind option_bind]. rewrite filter_cons, Ht. destruct t; cbn [negb].
  - rewrite decide_False by done. replace (Z.pred (Z.of_nat (S fuel))) with (Z.of_nat fuel) by lia.
    rewrite <- Z.add_1_r. apply IH; lia.
  - rewrite decide_True by done. rewrite zset_in by (unfold in_range; lia). done.
Qed.

Lemma filter_drop_head (P Q : Z -> Prop) `{forall x, Decision (P x), forall x, Decision (Q x)} L j rest :
  NoDup L -> filter P L = j :: rest -> (forall x, Q x <-> P x /\ x <> j) -> filter Q L = rest.
Proof.
  intros Hnd Hf HQ. revert Hf. induction L as [| y L IH]; [done |].
  apply NoDup_cons in Hnd as [Hy Hnd]. rewrite !filter_cons. case_decide as HP.
  - intros [= -> Hrest]. rewrite decide_False by (rewrite HQ; tauto). rewrite <- Hrest.
    clear -HQ Hy. induction L as [| z L IHL]; [done |]. rewrite !filter_cons.
    apply not_elem_of_cons in Hy as [Hz Hy]. rewrite (IHL Hy).
    assert (Q z <-> P z) by (rewrite HQ; naive_solver).
    destruct (decide (P z)); [rewrite decide_True | rewrite decide_False]; naive_solver.
  - intros Hf. rewrite decide_False by (rewrite HQ; tauto). by apply IH.
Qed.

Lemma find_idle_decoder_spec st nof :
  0 <= nof <= zlen (sf_token st) ->
  match idle (sf_token st) nof with
  | [] => find_idle_decoder st nof = Some (-1, st)
  | j :: rest =>
      let tokens := <[Z.to_nat j := true]> (sf_token st) in
      find_idle_decoder st nof
        = Some (j, MkSched (tmp_buffer st) (skip st) tokens (sf_buffer st)) /\
      0 <= j < nof /\ idle tokens nof = rest
  end.
Proof.
  intros Hn. unfold find_idle_decoder.
  rewrite find_idle_from_filter by lia. rewrite Z2Nat.id by lia.
  fold (idle (sf_token st) nof). destruct (idle (sf_token st) nof) as [| j rest] eqn:E.
  - by destruct st.
  - assert (0 <= j < nof /\ zget (sf_token st) j = Some false) as [Hj Ht].
    { assert (j ∈ idle (sf_token st) nof) as [? ?%elem_of_seqZ]%list_elem_of_filter
        by (rewrite E; set_solver). split; [lia | done]. }
    split; [done |]. split; [done |].
    eapply filter_drop_head; [apply NoDup_seqZ | exact E |].
    intros x. destruct (decide (x = j)) as [-> | Hne].
    + rewrite zget_insert_eq by (unfold in_range; lia). naive_solver.
    + rewrite zget_insert_ne by lia. naive_solver.
Qed.

(** Shapes of the shared arrays that the loops rely on: a token and a buffer
    per decoder, every buffer large enough for a subframe. *)
Definition shaped (nof r n : Z) (st : sched_t) : Prop :=
  0 <= nof <= zlen (sf_token st) /\ nof <= zlen (sf_buffer st) /\
  Forall (fun b => iq_fits r n (b_IQ b)) (sf_buffer st).

Lemma assign_spec st j r n s i IQ nof :
  shaped nof r n st -> 0 <= j < nof -> 0 <= n -> iq_fits r n IQ ->
  exists st' b, assign_task_to_decoder st j r i s n IQ = Some st' /\
    shaped nof r n st' /\ tmp_buffer st' = tmp_buffer st /\ skip st' = skip st /\
    sf_token st' = <[Z.to_nat j := true]> (sf_token st) /\
    zget (sf_buffer st') j = Some b /\ empty_sf b = false /\ b_sfn b = s /\ b_sf_idx b = i /\
    forall p, 0 <= p < r -> (take (Z.to_nat n) <$> zget (b_IQ b) p) = (take (Z.to_nat n) <$> zget IQ p).
Proof.
  intros (Hn1 & Hn2 & Hb) Hj Hn HIQ. unfold assign_task_to_decoder.
  rewrite zset_in by (unfold in_range; lia). cbn [mbind option_bind].
  destruct (zget_some (sf_buffer st) j) as [slot Hslot]; [unfold in_range; lia |].
  rewrite Hslot. cbn [mbind option_bind].
  assert (iq_fits r n (b_IQ slot)) as Hs.
  { rewrite Forall_lookup in Hb. rewrite zget_lookup in Hslot by lia. eauto. }
  destruct (copy_loop_spec (b_IQ slot) IQ r n) as (iq & -> & Hlen & Hf & Hc); auto.
  cbn [mbind option_bind]. rewrite zset_in by (unfold in_range; lia). cbn [mbind option_bind].
  eexists _, _. split; [done |]. simpl. split_and!; auto.
  - split; [simpl; rewrite zlen_insert; done |]. simpl. rewrite zlen_insert. split; [done |].
    apply Forall_insert; [done |]. split; [| done]. destruct Hs as [? _]. simpl. lia.
  - apply zget_insert_eq. unfold in_range. lia.
  - done.
  - done.
  - done.
  - done.
Qed.

Lemma insert_same_token (tokens : list bool) j :
  <[Z.to_nat j := true]> (<[Z.to_nat j := true]> tokens) = <[Z.to_nat j := true]> tokens.
Proof. apply list_insert_insert_eq. Qed.


(** What happens to a synchronised subframe. With an idle decoder it
    goes to the first one and the two buffers are untouched; with none it is
    appended to the ring, or, when the ring is full, pushed on the skip stack;
    it is dropped only when the ring holds 15 and the stack 200 entries. *)
Theorem schedule_subframe_cases nof r n s i b st l sl :
  shaped nof r n st -> 0 <= n -> iq_fits r n b ->
  repr (tmp_buffer st) l -> slots_fit r n (tmp_buffer st) -> Skip.repr (skip st) sl ->
  match idle (sf_token st) nof with
  | j :: rest => exists st', schedule_subframe nof r n s i b st = Some (st', [(j, s, i, false)]) /\
      tmp_buffer st' = tmp_buffer st /\ skip st' = skip st /\ idle (sf_token st') nof = rest /\
      exists slot, zget (sf_buffer st') j = Some slot /\ empty_sf slot = false /\
        b_sfn slot = s /\ b_sf_idx slot = i
  | [] => exists st', schedule_subframe nof r n s i b st = Some (st', []) /\
      if zlen l =? MAX_TMP_BUFFER then
        tmp_buffer st' = tmp_buffer st /\
        if zlen sl =? MAX_NOF_SKIP_TTI then skip st' = skip st
        else Skip.repr (skip st') (sl ++ [(s, i)])
      else skip st' = skip st /\
        exists e, repr (tmp_buffer st') (l ++ [e]) /\ carries e b s i r n
  end.
Proof.
  intros Hsh Hn Hb Hrep Hfit Hskip. unfold schedule_subframe.
  pose proof (find_idle_decoder_spec st nof (proj1 Hsh)) as Hfind.
  destruct (idle (sf_token st) nof) as [| j rest].
  - rewrite Hfind. cbn [mbind option_bind Z.ltb Z.compare].
    destruct (Z.eqb_spec (zlen l) MAX_TMP_BUFFER) as [E | E].
    + rewrite (put_full _ l) by done. cbn [mbind option_bind Z.eqb skip].
      destruct (Skip.put_repr _ _ s i Hskip) as (q' & -> & Hq'). cbn [mbind option_bind].
      eexists; split; [done |]. split; [done |]. by destruct (zlen sl =? MAX_NOF_SKIP_TTI).
    + pose proof (repr_cap _ _ Hrep).
      destruct (put_room _ l b s i r n Hrep Hfit Hb Hn) as (e & q' & -> & Hq' & _ & Hc); [lia |].
      cbn [mbind option_bind Z.eqb]. eexists; split; [done |]. split; [done |]. eauto.
  - destruct Hfind as (-> & Hj & Hrest). cbn [mbind option_bind].
    destruct (Z.ltb_spec j 0); [lia |].
    destruct (assign_spec (MkSched (tmp_buffer st) (skip st) (<[Z.to_nat j:=true]> (sf_token st)) (sf_buffer st))
                j r n s i b nof) as (st1 & slot & -> & _ & Ht & Hs & Htok & Hslot); auto.
    { destruct Hsh as (? & ? & ?). split; [simpl; by rewrite zlen_insert | done]. }
    cbn [mbind option_bind tmp_buffer sf_token skip] in *.
    rewrite insert_same_token in Htok. exists st1. rewrite Htok.
    split_and!; auto. exists slot. naive_solver.
Qed.
End sched.

(** Two decoders, the first busy, and one subframe (sfn 5, index 3) buffered. *)
Definition ex_sched : @sched_t Z :=
MkSched
  (TmpBuf (Sf 3 5 [[7; 8]; [0; 0]; [0; 0]; [0; 0]] :: replicate 14 (Sf 0 0 (replicate 4 [0; 0])))
     1 0 1 false)
  Skip.skip_tti_init [true; false]
  (replicate 2 (SfBuffer false 0 0 (replicate 4 [0; 0]))).

Lemma ex_sched_repr : repr (tmp_buffer ex_sched) [Sf 3 5 [[7; 8]; [0; 0]; [0; 0]; [0; 0]]].
Proof.
split; try done; try (vm_compute; split; congruence).
intros k Hk. unfold zlen in Hk. simpl in Hk. by replace k with 0 by lia.
Qed.

Lemma ex_sched_shaped : shaped 2 1 2 ex_sched.
Proof. repeat split; try (vm_compute; congruence). repeat constructor; vm_compute; congruence. Qed.

Lemma ex_sched_fits : slots_fit 1 2 (tmp_buffer ex_sched).
Proof. repeat constructor; vm_compute; congruence. Qed.


Lemma schedule_subframe_cases_witness :
exists st', schedule_subframe 2 1 2 6 4 [[1; 2]] ex_sched = Some (st', [(1, 6, 4, false)]) /\
  tmp_buffer st' = tmp_buffer ex_sched /\ skip st' = skip ex_sched /\
  idle (sf_token st') 2 = [] /\
  exists slot, zget (sf_buffer st') 1 = Some slot /\ empty_sf slot = false /\
    b_sfn slot = 6 /\ b_sf_idx slot = 4.
Proof.
apply (schedule_subframe_cases 2 1 2 6 4 [[1; 2]] ex_sched
         [Sf 3 5 [[7; 8]; [0; 0]; [0; 0]; [0; 0]]] []).
- apply ex_sched_shaped.
- lia.
- repeat constructor; vm_compute; congruence.
- apply ex_sched_repr.
- apply ex_sched_fits.
- apply Skip.init_repr.
Defined.
End Sched.
