(* ===== verification/NgTypes.v ===== *)
(** * DCI messages of a subframe ([lib/src/phy/ue/ngscope_st.c] and its header)

    The records NG-Scope passes between the decoder, the status tracker and the
    DCI ring buffers, and the operations on the messages of one subframe. *)

From Stdlib Require Export SpecFloat.
From S2P Require Export Prelude.

(** C's [float] is IEEE binary32. *)
Definition float32 : Type := spec_float.

Definition MAX_CANDIDATES_ALL : Z := 180.
Definition MAX_NOF_FORMAT : Z := 4.
Definition MAX_DCI_PER_SUB : Z := 10.

Inductive srsran_dci_format_t :=
  | SRSRAN_DCI_FORMAT0 | SRSRAN_DCI_FORMAT1 | SRSRAN_DCI_FORMAT1A | SRSRAN_DCI_FORMAT1B
  | SRSRAN_DCI_FORMAT1C | SRSRAN_DCI_FORMAT1D | SRSRAN_DCI_FORMAT2 | SRSRAN_DCI_FORMAT2A
  | SRSRAN_DCI_FORMAT2B | SRSRAN_DCI_FORMATN0 | SRSRAN_DCI_FORMATN1 | SRSRAN_DCI_FORMATN2
  | SRSRAN_DCI_FORMAT_RAR | SRSRAN_DCI_NOF_FORMATS.

#[export] Instance srsran_dci_format_t_eq_dec : EqDecision srsran_dci_format_t.
Proof. solve_decision. Defined.

Record ngscope_dci_tb_t := DciTb { mcs : Z; tbs : Z; rv : Z; ndi : bool }.

Record ngscope_dci_phich_t := DciPhich { n_dmrs : Z; n_prb_tilde : Z; freq_hopping : Z }.

Record srsran_dci_location_t := DciLoc {
  loc_L : Z; loc_ncce : Z; loc_checked : bool; loc_mean_llr : float32
}.

(** [tb0] and [tb1] are [tb[0]] and [tb[1]]. *)
Record ngscope_dci_msg_t := DciMsg {
  rnti : Z; prb : Z; harq : Z; nof_tb : Z; dl : bool;
  decode_prob : float32; corr : float32;
  format : srsran_dci_format_t;
  tb0 : ngscope_dci_tb_t; tb1 : ngscope_dci_tb_t;
  phich : ngscope_dci_phich_t;
  loc : srsran_dci_location_t
}.

Record ngscope_dci_per_sub_t := PerSub {
  dl_msg : list ngscope_dci_msg_t; nof_dl_dci : Z;
  ul_msg : list ngscope_dci_msg_t; nof_ul_dci : Z;
  timestamp : Z
}.

(** The status-buffer entry a decoder hands to the status tracker ([ngscope_def.h]). *)
Record ngscope_status_buffer_t := StatusBuffer {
  dci_per_sub : ngscope_dci_per_sub_t;
  sb_tti : Z;
  sb_cell_idx : Z
}.

(** The all-zero message of a [calloc]ed or [memset] buffer. *)
Definition zero_tb : ngscope_dci_tb_t := DciTb 0 0 0 false.
Definition zero_msg : ngscope_dci_msg_t :=
  DciMsg 0 0 0 0 false (S754_zero false) (S754_zero false) SRSRAN_DCI_FORMAT0 zero_tb zero_tb
    (DciPhich 0 0 0) (DciLoc 0 0 false (S754_zero false)).

(** ** Operations *)

Definition ngscope_format_to_index (f : srsran_dci_format_t) : Z :=
  match f with
  | SRSRAN_DCI_FORMAT0 => 0
  | SRSRAN_DCI_FORMAT1 => 1
  | SRSRAN_DCI_FORMAT1A => 2
  | SRSRAN_DCI_FORMAT1C => 3
  | SRSRAN_DCI_FORMAT2 => 4
  | _ => -1
  end.

Definition ngscope_index_to_format (index : Z) : srsran_dci_format_t :=
  match index with
  | 0 => SRSRAN_DCI_FORMAT0
  | 1 => SRSRAN_DCI_FORMAT1
  | 2 => SRSRAN_DCI_FORMAT1A
  | 3 => SRSRAN_DCI_FORMAT1C
  | 4 => SRSRAN_DCI_FORMAT2
  | _ => SRSRAN_DCI_FORMAT0
  end.

(** The return value, always 0, and the updated subframe. *)
Definition ngscope_push_dci_to_per_sub (q : ngscope_dci_per_sub_t) (msg : ngscope_dci_msg_t)
  : option (Z * ngscope_dci_per_sub_t) :=
  if dl msg then
    if nof_dl_dci q <? MAX_DCI_PER_SUB then
      dls ← zset (dl_msg q) (nof_dl_dci q) msg;
      Some (0, PerSub dls (nof_dl_dci q + 1) (ul_msg q) (nof_ul_dci q) (timestamp q))
    else Some (0, q)
  else
    if nof_ul_dci q <? MAX_DCI_PER_SUB then
      uls ← zset (ul_msg q) (nof_ul_dci q) msg;
      Some (0, PerSub (dl_msg q) (nof_dl_dci q) uls (nof_ul_dci q + 1) (timestamp q))
    else Some (0, q).

(** The binary32 constants 100 and 1. *)
Definition f32_100 : float32 := S754_finite false 13107200 (-17).
Definition f32_1 : float32 := S754_finite false 8388608 (-23).

(** The message of a non-adaptive uplink retransmission. The C local variable
    is not initialised: its second transport block and its PHICH and location
    fields are those of the stack content [stack]. *)
Definition reTx_msg (stack : ngscope_dci_msg_t) (targetRNTI : Z) : ngscope_dci_msg_t :=
  DciMsg targetRNTI 0 0 1 false f32_100 f32_1 SRSRAN_DCI_FORMAT0
    (DciTb 0 0 4 false) (tb1 stack) (phich stack) (loc stack).

Definition ngscope_enqueue_ul_reTx_dci_msg (stack : ngscope_dci_msg_t)
    (q : ngscope_dci_per_sub_t) (targetRNTI : Z) : option (Z * ngscope_dci_per_sub_t) :=
  '(_, q) ← ngscope_push_dci_to_per_sub q (reTx_msg stack targetRNTI); Some (0, q).

(** The search loop with its early return. *)
Fixpoint find_rnti (msgs : list ngscope_dci_msg_t) (target i : Z) (fuel : nat) : option Z :=
  match fuel with
  | O => Some (-1)
  | S n =>
      m ← zget msgs i;
      if rnti m =? target then Some i else find_rnti msgs target (i + 1) n
  end.

Definition ngscope_rnti_inside_dci_per_sub_dl (q : ngscope_dci_per_sub_t) (targetRNTI : Z) : option Z :=
  if 0 <? nof_dl_dci q then find_rnti (dl_msg q) targetRNTI 0 (Z.to_nat (nof_dl_dci q)) else Some (-1).

Definition ngscope_rnti_inside_dci_per_sub_ul (q : ngscope_dci_per_sub_t) (targetRNTI : Z) : option Z :=
  if 0 <? nof_ul_dci q then find_rnti (ul_msg q) targetRNTI 0 (Z.to_nat (nof_ul_dci q)) else Some (-1).

(** ** Well-formed subframes and the lists they hold *)

Record per_sub_wf (q : ngscope_dci_per_sub_t) : Prop := PerSubWf {
  wf_dl_len : zlen (dl_msg q) = MAX_DCI_PER_SUB;
  wf_ul_len : zlen (ul_msg q) = MAX_DCI_PER_SUB;
  wf_nof_dl : 0 <= nof_dl_dci q <= MAX_DCI_PER_SUB;
  wf_nof_ul : 0 <= nof_ul_dci q <= MAX_DCI_PER_SUB
}.

Definition dl_list (q : ngscope_dci_per_sub_t) : list ngscope_dci_msg_t :=
  take (Z.to_nat (nof_dl_dci q)) (dl_msg q).
Definition ul_list (q : ngscope_dci_per_sub_t) : list ngscope_dci_msg_t :=
  take (Z.to_nat (nof_ul_dci q)) (ul_msg q).

(** Storing at the fill level appends to the held prefix. *)
Lemma take_insert_next {A} (l : list A) n x :
  0 <= n < zlen l ->
  take (Z.to_nat (n + 1)) (<[Z.to_nat n := x]> l) = take (Z.to_nat n) l ++ [x].
Proof.
  intros Hn. unfold zlen in Hn. replace (Z.to_nat (n + 1)) with (S (Z.to_nat n)) by lia.
  rewrite (take_S_r _ _ x) by (apply list_lookup_insert_eq; lia).
  by rewrite take_insert_ge by lia.
Qed.

Lemma find_rnti_spec msgs target i fuel :
  0 <= i -> i + Z.of_nat fuel <= zlen msgs ->
  find_rnti msgs target i fuel =
  match list_find (fun m => rnti m = target) (take fuel (drop (Z.to_nat i) msgs)) with
  | Some (k, _) => Some (i + Z.of_nat k)
  | None => Some (-1)
  end.
Proof.
  revert i. induction fuel as [| fuel IH]; intros i Hi Hf; [done |].
  destruct (zget_some msgs i) as [m Hm]; [unfold in_range; lia |].
  cbn [find_rnti]. rewrite Hm. cbn [mbind option_bind].
  rewrite zget_lookup in Hm by done. rewrite (drop_S _ m) by done. cbn [take list_find].
  destruct (Z.eqb_spec (rnti m) target) as [E | E].
  - rewrite decide_True by done. f_equal. lia.
  - rewrite decide_False by done. rewrite IH by lia.
    replace (Z.to_nat (i + 1)) with (S (Z.to_nat i)) by lia.
    destruct (list_find _ _) as [[k x] |]; [simpl; f_equal; lia | done].
Qed.

Lemma push_dci_spec q msg :
  per_sub_wf q ->
  exists q', ngscope_push_dci_to_per_sub q msg = Some (0, q') /\ per_sub_wf q' /\
    timestamp q' = timestamp q /\
    dl_list q' = (if dl msg && (nof_dl_dci q <? MAX_DCI_PER_SUB) then dl_list q ++ [msg] else dl_list q) /\
    ul_list q' = (if negb (dl msg) && (nof_ul_dci q <? MAX_DCI_PER_SUB) then ul_list q ++ [msg]
                  else ul_list q).
Proof.
  intros [Hd Hu Hnd Hnu]. unfold ngscope_push_dci_to_per_sub, dl_list, ul_list.
  destruct (dl msg); cbn [negb andb]; zcase; try by eexists.
  - rewrite zset_in by (unfold in_range; lia). eexists; split; [done |]. simpl.
    rewrite take_insert_next by lia. split_and!; try done. split; simpl; rewrite ?zlen_insert; lia.
  - rewrite zset_in by (unfold in_range; lia). eexists; split; [done |]. simpl.
    rewrite take_insert_next by lia. split_and!; try done. split; simpl; rewrite ?zlen_insert; lia.
Qed.

(** pushing a message appends it to the list of its direction and
    leaves the other direction alone; the eleventh message of a direction is
    dropped, and the return value does not tell. *)
Theorem push_dci_appends q msg :
  per_sub_wf q ->
  exists q', ngscope_push_dci_to_per_sub q msg = Some (0, q') /\ per_sub_wf q' /\
    timestamp q' = timestamp q /\
    dl_list q' = (if dl msg && (nof_dl_dci q <? MAX_DCI_PER_SUB) then dl_list q ++ [msg] else dl_list q) /\
    ul_list q' = (if negb (dl msg) && (nof_ul_dci q <? MAX_DCI_PER_SUB) then ul_list q ++ [msg]
                  else ul_list q).
Proof. apply push_dci_spec. Qed.

Definition empty_per_sub : ngscope_dci_per_sub_t :=
  PerSub (replicate 10 zero_msg) 0 (replicate 10 zero_msg) 0 0.

Lemma empty_per_sub_wf : per_sub_wf empty_per_sub.
Proof. by split. Qed.

Lemma push_dci_appends_witness :
  exists q', ngscope_push_dci_to_per_sub empty_per_sub zero_msg = Some (0, q') /\ per_sub_wf q' /\
    timestamp q' = 0 /\ dl_list q' = [] /\ ul_list q' = [zero_msg].
Proof. apply (push_dci_appends empty_per_sub zero_msg), empty_per_sub_wf. Defined.

(** the search for a RNTI among the uplink messages returns the index
    of the first message that carries it, or -1; and once a retransmission has
    been enqueued in a subframe with room, the search finds its RNTI. *)
Theorem rnti_inside_ul_spec q target :
  per_sub_wf q ->
  ngscope_rnti_inside_dci_per_sub_ul q target
    = Some (from_option (fun p => Z.of_nat p.1) (-1) (list_find (fun m => rnti m = target) (ul_list q))) /\
  forall stack q', nof_ul_dci q < MAX_DCI_PER_SUB ->
    ngscope_enqueue_ul_reTx_dci_msg stack q target = Some (0, q') ->
    exists i m, ngscope_rnti_inside_dci_per_sub_ul q' target = Some i /\
      zget (ul_list q') i = Some m /\ rnti m = target.
Proof.
  assert (forall q, per_sub_wf q -> ngscope_rnti_inside_dci_per_sub_ul q target
    = Some (from_option (fun p => Z.of_nat p.1) (-1) (list_find (fun m => rnti m = target) (ul_list q))))
    as Hspec.
  { clear q. intros q [_ Hu _ Hnu]. unfold ngscope_rnti_inside_dci_per_sub_ul, ul_list.
    destruct (Z.ltb_spec 0 (nof_ul_dci q)).
    - rewrite find_rnti_spec by lia. cbn [drop]. by destruct (list_find _ _) as [[k x] |].
    - by replace (nof_ul_dci q) with 0 by lia. }
  intros Hwf. split; [by apply Hspec |]. intros stack q' Hroom Henq.
  unfold ngscope_enqueue_ul_reTx_dci_msg in Henq.
  destruct (push_dci_appends q (reTx_msg stack target) Hwf) as (q1 & Hp & Hwf1 & _ & _ & Hul).
  rewrite Hp in Henq. injection Henq as <-. cbn [dl reTx_msg negb andb] in Hul.
  destruct (Z.ltb_spec (nof_ul_dci q) MAX_DCI_PER_SUB); [| lia].
  rewrite (Hspec q1 Hwf1).
  destruct (list_find (fun m => rnti m = target) (ul_list q1)) as [[k m] |] eqn:E.
  - apply list_find_Some in E as (Hk & Hm & _). exists (Z.of_nat k), m.
    rewrite zget_lookup, Nat2Z.id by lia. done.
  - apply list_find_None in E. rewrite Hul, Forall_app in E. destruct E as [_ E].
    rewrite Forall_singleton in E. by destruct E.
Qed.

Lemma rnti_inside_ul_spec_witness :
  ngscope_rnti_inside_dci_per_sub_ul empty_per_sub 61 = Some (-1) /\
  forall stack q', nof_ul_dci empty_per_sub < MAX_DCI_PER_SUB ->
    ngscope_enqueue_ul_reTx_dci_msg stack empty_per_sub 61 = Some (0, q') ->
    exists i m, ngscope_rnti_inside_dci_per_sub_ul q' 61 = Some i /\
      zget (ul_list q') i = Some m /\ rnti m = 61.
Proof. apply (rnti_inside_ul_spec empty_per_sub 61), empty_per_sub_wf. Defined.

(** The five formats the decoder searches for round-trip through their index. *)
Lemma format_index_roundtrip i :
  0 <= i <= MAX_NOF_FORMAT -> ngscope_format_to_index (ngscope_index_to_format i) = i.
Proof.
  unfold MAX_NOF_FORMAT. intros Hi.
  assert (i = 0 \/ i = 1 \/ i = 2 \/ i = 3 \/ i = 4) as H by lia.
  destruct H as [-> | [-> | [-> | [-> | ->]]]]; done.
Qed.
