(* ===== verification/DciRing.v ===== *)
(** * The DCI ring buffer of a cell ([ngscope/src/dciLib/dci_ring_buffer.c])

    Decoders finish subframes out of order. The ring of a cell stores each
    subframe at its TTI modulo the ring size, and its header moves over the
    subframes that are complete, or overdue by more than
    [DCI_DECODE_TIMEOUT] subframes, sending one [ue_dci_t] per position. *)

From S2P Require Import Prelude NgTypes.

Definition MAX_NOF_RF_DEV : Z := 4.
Definition CELL_STATUS_RING_BUF_SIZE : Z := 320.
Definition DCI_DECODE_TIMEOUT : Z := 30.

(** ** Data *)

Record sf_status_t := SfStatus {
  tti : Z; filled : bool;
  cell_dl_prb : Z; cell_ul_prb : Z;
  ue_dl_prb : Z; ue_ul_prb : Z;
  nof_dl_msg : Z; nof_ul_msg : Z;
  timestamp_us : Z;
  sf_dl_msg : list ngscope_dci_msg_t;
  sf_ul_msg : list ngscope_dci_msg_t
}.

(** The slot [calloc] returns. *)
Definition zero_sf : sf_status_t :=
  SfStatus 0 false 0 0 0 0 0 0 0
    (replicate (Z.to_nat MAX_DCI_PER_SUB) zero_msg) (replicate (Z.to_nat MAX_DCI_PER_SUB) zero_msg).

Definition set_filled (s : sf_status_t) (b : bool) : sf_status_t :=
  SfStatus (tti s) b (cell_dl_prb s) (cell_ul_prb s) (ue_dl_prb s) (ue_ul_prb s)
    (nof_dl_msg s) (nof_ul_msg s) (timestamp_us s) (sf_dl_msg s) (sf_ul_msg s).

Record ngscope_cell_dci_ring_buffer_t := CellRing {
  cell_header : Z; targetRNTI : Z; cell_idx : Z; cell_ready : bool; cell_prb : Z;
  nof_logged_dci : Z; most_recent_sf : Z; buf_size : Z;
  sub_stat : list sf_status_t
}.

Record CA_status_t := CaStatus {
  ca_targetRNTI : Z; ca_buf_size : Z; ca_nof_cell : Z; ca_header : Z;
  ca_cell_prb : list Z; all_cell_ready : bool
}.

(** What is sent to the DCI sink ([dci_sink_def.h]). *)
Record ue_dci_t := UeDci {
  ue_cell_idx : Z; ue_time_stamp : Z; ue_tti : Z; ue_rnti : Z;
  dl_tbs : Z; dl_reTx : Z; dl_rv_flag : bool;
  ul_tbs : Z; ul_reTx : Z; ul_rv_flag : bool
}.

(** ** Carrier aggregation *)

Definition a_larger_than_b (a b size : Z) : bool :=
  if 0 <=? a - b then true
  else (Z.abs (size - b) <? Z.quot size 8) && (a <? Z.quot size 8).

Definition CA_status_init (size rnti nof_cell : Z) (prb : list Z) : CA_status_t :=
  CaStatus rnti size nof_cell 0 (take (Z.to_nat MAX_NOF_RF_DEV) prb) false.

Definition find_CA_header (headers : list Z) (nof_cell size : Z) : option Z :=
  h0 ← zget headers 0;
  for_range 1 nof_cell
    (fun m i => h ← zget headers i; Some (if a_larger_than_b m h size then h else m)) h0.

Definition CA_status_update_header (q : CA_status_t) (p : list ngscope_cell_dci_ring_buffer_t)
  : option CA_status_t :=
  if all_cell_ready q then Some q
  else
    '(ready, headers) ← for_range 0 (ca_nof_cell q)
      (fun '(ready, headers) i =>
         c ← zget p i;
         headers ← zset headers i (cell_header c);
         Some (if cell_ready c then ready else false, headers))
      (true, replicate (Z.to_nat MAX_NOF_RF_DEV) 0);
    if ready : bool then
      h ← find_CA_header headers (ca_nof_cell q) (ca_buf_size q);
      Some (CaStatus (ca_targetRNTI q) (ca_buf_size q) (ca_nof_cell q) h (ca_cell_prb q) true)
    else Some q.

(** ** One subframe *)

(** The accounting loop over the messages of a direction: the [int] sum of
    their PRBs and the [uint8_t] PRBs of the last message of the target. *)
Definition count_prb (msgs : list ngscope_dci_msg_t) (n target : Z) : option (Z * Z) :=
  for_range 0 n
    (fun '(cell, ue) i =>
       m ← zget msgs i;
       Some (s32 (cell + prb m), if rnti m =? target then u8 (prb m) else ue))
    (0, 0).

(** The two copies of [nof] bytes that start the function are overwritten by
    the copies of the whole arrays. The PRB fields of a direction without
    messages keep their previous cell total. *)
Definition enqueue_dci_sf (q : sf_status_t) (target : Z) (b : ngscope_status_buffer_t)
  : option sf_status_t :=
  let d := dci_per_sub b in
  let ndl := u8 (nof_dl_dci d) in
  let nul := u8 (nof_ul_dci d) in
  '(cdl, udl) ← (if 0 <? ndl then '(c, u) ← count_prb (dl_msg d) ndl target; Some (u8 c, u)
                 else Some (cell_dl_prb q, 0));
  '(cul, uul) ← (if 0 <? nul then '(c, u) ← count_prb (ul_msg d) nul target; Some (u8 c, u)
                 else Some (cell_ul_prb q, 0));
  Some (SfStatus (u16 (sb_tti b)) true cdl cul udl uul ndl nul (timestamp d) (dl_msg d) (ul_msg d)).

(** Transport block size and retransmission flag of the last message of the
    target in one direction. *)
Definition scan_target (msgs : list ngscope_dci_msg_t) (n target : Z) : option (Z * Z) :=
  for_range 0 n
    (fun acc i =>
       m ← zget msgs i;
       Some (if rnti m =? target
             then (u32 (tbs (tb0 m) + tbs (tb1 m)),
                   if (0 <? rv (tb0 m)) || (0 <? rv (tb1 m)) then 1 else 0)
             else acc))
    (0, 0).

(** The return value and the DCIs handed to [sock_send_single_dci]. *)
Definition push_dci_to_remote (q : sf_status_t) (cell target remote_sock : Z)
  : option (Z * list ue_dci_t) :=
  if remote_sock <=? 0 then Some (-1, [])
  else
    '(dtbs, dre) ← scan_target (sf_dl_msg q) (nof_dl_msg q) target;
    '(utbs, ure) ← scan_target (sf_ul_msg q) (nof_ul_msg q) target;
    Some (1, [UeDci (u8 cell) (timestamp_us q) (tti q) target dtbs dre false utbs ure false]).

(** ** The header of a cell *)

(** [while (header != recent_sf)]: a turn of the ring bounds the loop. *)
Fixpoint timeout_loop (size recent header : Z) (subs : list sf_status_t) (fuel : nat)
  : option (list sf_status_t) :=
  if header =? recent then Some subs
  else match fuel with
  | O => None
  | S n =>
      s ← zget subs header;
      subs ← (if negb (filled s) && (DCI_DECODE_TIMEOUT <? Z.rem (recent - header + size) size)
              then zset subs header (set_filled s true) else Some subs);
      timeout_loop size recent (Z.rem (header + 1) size) subs n
  end.

Definition check_dci_decoding_timeout (q : ngscope_cell_dci_ring_buffer_t)
  : option ngscope_cell_dci_ring_buffer_t :=
  subs ← timeout_loop (buf_size q) (most_recent_sf q) (Z.rem (cell_header q + 1) (buf_size q))
           (sub_stat q) (Z.to_nat (buf_size q));
  Some (CellRing (cell_header q) (targetRNTI q) (cell_idx q) (cell_ready q) (cell_prb q)
          (nof_logged_dci q) (most_recent_sf q) (buf_size q) subs).

(** [while (sub_stat[index].filled)]: every iteration clears a flag. *)
Fixpoint header_loop (size cell target sock header index : Z) (subs : list sf_status_t)
    (out : list ue_dci_t) (fuel : nat) : option (Z * list sf_status_t * list ue_dci_t) :=
  s ← zget subs index;
  if filled s then
    match fuel with
    | O => None
    | S n =>
        subs ← zset subs index (set_filled s false);
        '(_, sent) ← push_dci_to_remote (set_filled s false) cell target sock;
        header_loop size cell target sock (u16 index) (Z.rem (index + 1) size) subs (out ++ sent) n
    end
  else Some (header, subs, out).

Definition update_cell_status_header (q : ngscope_cell_dci_ring_buffer_t) (remote_sock : Z)
  : option (ngscope_cell_dci_ring_buffer_t * list ue_dci_t) :=
  if nof_logged_dci q <? Z.quot (buf_size q) 8 then Some (q, [])
  else
    q ← check_dci_decoding_timeout q;
    '(header, subs, out) ←
      header_loop (buf_size q) (cell_idx q) (targetRNTI q) remote_sock (cell_header q)
        (Z.rem (cell_header q + 1) (buf_size q)) (sub_stat q) [] (Z.to_nat (buf_size q));
    Some (CellRing header (targetRNTI q) (cell_idx q) (cell_ready q) (cell_prb q)
            (nof_logged_dci q) (most_recent_sf q) (buf_size q) subs, out).

Definition update_most_recent_sf (size recent index : Z) : Z :=
  if recent <? index then
    if Z.abs (index - recent) <? Z.quot size 8 then index else recent
  else if index <? recent then
    if Z.quot (6 * size) 8 <? Z.abs (index - recent) then index else recent
  else recent.

(** ** Operations *)

Definition dci_ring_buffer_init (rnti prb cell size : Z) : ngscope_cell_dci_ring_buffer_t :=
  CellRing 0 rnti cell false prb 0 0 size (replicate (Z.to_nat size) zero_sf).

(** The loop counter is not used: the flag of slot [cell_idx] is cleared
    [buf_size] times. *)
Definition dci_ring_buffer_clear_cell_fill_flag (q : ngscope_cell_dci_ring_buffer_t) (idx : Z)
  : option ngscope_cell_dci_ring_buffer_t :=
  subs ← for_range 0 (buf_size q)
    (fun subs _ => s ← zget subs idx; zset subs idx (set_filled s false)) (sub_stat q);
  Some (CellRing (cell_header q) (targetRNTI q) (cell_idx q) (cell_ready q) (cell_prb q)
          (nof_logged_dci q) (most_recent_sf q) (buf_size q) subs).

Definition dci_ring_buffer_put_dci (q : ngscope_cell_dci_ring_buffer_t) (b : ngscope_status_buffer_t)
    (remote_sock : Z) : option (ngscope_cell_dci_ring_buffer_t * list ue_dci_t) :=
  let size := buf_size q in
  let index := Z.rem (sb_tti b) size in
  let header0 := if cell_ready q then cell_header q else u16 (Z.rem (index - 1 + size) size) in
  let recent0 := if cell_ready q then most_recent_sf q else header0 in
  slot ← zget (sub_stat q) index;
  slot ← enqueue_dci_sf slot (targetRNTI q) b;
  subs ← zset (sub_stat q) index slot;
  let logged := if nof_logged_dci q <? size then nof_logged_dci q + 1 else nof_logged_dci q in
  update_cell_status_header
    (CellRing header0 (targetRNTI q) (cell_idx q) true (cell_prb q) logged
       (update_most_recent_sf size recent0 index) size subs) remote_sock.

(** ** Subframes: accounting and what is sent *)

(** The last message for the target among the first [n], as the accounting and
    sending loops find it. *)
Definition target_msg (msgs : list ngscope_dci_msg_t) (n target : Z) : option ngscope_dci_msg_t :=
  last (filter (fun m => rnti m = target) (take (Z.to_nat n) msgs)).

Definition msg_tbs (m : ngscope_dci_msg_t) : Z := u32 (tbs (tb0 m) + tbs (tb1 m)).
Definition msg_reTx (m : ngscope_dci_msg_t) : Z :=
  if (0 <? rv (tb0 m)) || (0 <? rv (tb1 m)) then 1 else 0.

Lemma foldl_target {B} (g : ngscope_dci_msg_t -> B) b target l :
  foldl (fun acc m => if rnti m =? target then g m else acc) b l
    = from_option g b (last (filter (fun m => rnti m = target) l)).
Proof.
  rewrite <- (foldl_last_filter (fun m => rnti m = target)).
  revert b. induction l as [| m l IH]; intros b; [done |]. cbn [foldl]. rewrite IH.
  by destruct (Z.eqb_spec (rnti m) target); case_decide.
Qed.

Lemma scan_target_spec msgs n target :
  n <= zlen msgs ->
  scan_target msgs n target
    = Some (from_option (fun m => (msg_tbs m, msg_reTx m)) (0, 0) (target_msg msgs n target)).
Proof.
  intros Hn. unfold scan_target, target_msg. rewrite <- foldl_target.
  by rewrite <- for_range_foldl.
Qed.

(** The total PRBs of the first [n] messages. *)
Definition total_prb (msgs : list ngscope_dci_msg_t) (n : Z) : Z :=
  foldr Z.add 0 (prb <$> take (Z.to_nat n) msgs).

Lemma count_prb_spec msgs n target :
  n <= zlen msgs ->
  exists c, count_prb msgs n target
    = Some (c, from_option (fun m => u8 (prb m)) 0 (target_msg msgs n target)) /\
    u8 c = u8 (total_prb msgs n).
Proof.
  intros Hn. unfold count_prb, target_msg, total_prb.
  assert (for_range 0 n (fun '(cell, ue) i => m ← zget msgs i;
      Some (s32 (cell + prb m), if rnti m =? target then u8 (prb m) else ue)) (0, 0)
    = Some (foldl (fun (a : Z * Z) m => (s32 (a.1 + prb m), if rnti m =? target then u8 (prb m) else a.2))
        (0, 0) (take (Z.to_nat n) msgs))) as ->.
  { rewrite <- for_range_foldl by done. unfold for_range. apply foldM_ext.
    by intros [a b] i. }
  rewrite <- foldl_target. set (l := take (Z.to_nat n) msgs). clearbody l.
  assert (forall l c u, exists c', foldl (fun (a : Z * Z) m =>
       (s32 (a.1 + prb m), if rnti m =? target then u8 (prb m) else a.2)) (c, u) l
     = (c', foldl (fun acc m => if rnti m =? target then u8 (prb m) else acc) u l) /\
     u8 c' = u8 (c + foldr Z.add 0 (prb <$> l))) as H.
  { clear. intros l. induction l as [| m l IH]; intros c u.
    - exists c. split; [done |]. simpl. by rewrite Z.add_0_r.
    - rewrite fmap_cons. cbn [foldl foldr fst snd]. destruct (IH (s32 (c + prb m)) (if rnti m =? target then u8 (prb m) else u)) as (c' & -> & E).
      exists c'. split; [done |]. rewrite E, uwrap_swrap_add by lia.
      f_equal. lia. }
  destruct (H l 0 0) as (c & -> & E). by exists c.
Qed.

(** The message [push_dci_to_remote] sends for a slot. *)
Definition ue_dci_of (s : sf_status_t) (cell target : Z) : ue_dci_t :=
  let d := target_msg (sf_dl_msg s) (nof_dl_msg s) target in
  let u := target_msg (sf_ul_msg s) (nof_ul_msg s) target in
  UeDci (u8 cell) (timestamp_us s) (tti s) target
    (from_option msg_tbs 0 d) (from_option msg_reTx 0 d) false
    (from_option msg_tbs 0 u) (from_option msg_reTx 0 u) false.

(** Message counts stay inside the message arrays. *)
Definition slot_ok (s : sf_status_t) : Prop :=
  nof_dl_msg s <= zlen (sf_dl_msg s) /\ nof_ul_msg s <= zlen (sf_ul_msg s).

Definition sent_for (s : sf_status_t) (cell target sock : Z) : list ue_dci_t :=
  if sock <=? 0 then [] else [ue_dci_of s cell target].

Lemma push_dci_to_remote_spec s cell target sock :
  slot_ok s -> exists r, push_dci_to_remote s cell target sock = Some (r, sent_for s cell target sock).
Proof.
  intros [Hd Hu]. unfold push_dci_to_remote, sent_for. destruct (sock <=? 0); [by eexists |].
  rewrite !scan_target_spec by done. eexists. unfold ue_dci_of.
  by destruct (target_msg (sf_dl_msg s) _ _), (target_msg (sf_ul_msg s) _ _).
Qed.

Lemma sent_for_set_filled s b cell target sock :
  sent_for (set_filled s b) cell target sock = sent_for s cell target sock.
Proof. done. Qed.

(** A subframe the decoders hand over. *)
Definition buffer_ok (b : ngscope_status_buffer_t) : Prop :=
  per_sub_wf (dci_per_sub b) /\ 0 <= sb_tti b.

(** The slot that holds subframe [b], whatever it held before. *)
Definition holds (target : Z) (s : sf_status_t) (b : ngscope_status_buffer_t) : Prop :=
  tti s = u16 (sb_tti b) /\ timestamp_us s = timestamp (dci_per_sub b) /\
  nof_dl_msg s = nof_dl_dci (dci_per_sub b) /\ nof_ul_msg s = nof_ul_dci (dci_per_sub b) /\
  sf_dl_msg s = dl_msg (dci_per_sub b) /\ sf_ul_msg s = ul_msg (dci_per_sub b).

Lemma enqueue_dci_sf_some q target b :
  buffer_ok b ->
  let d := dci_per_sub b in
  let m := target_msg (dl_msg d) (nof_dl_dci d) target in
  let u := target_msg (ul_msg d) (nof_ul_dci d) target in
  exists s, enqueue_dci_sf q target b = Some s /\ filled s = true /\ slot_ok s /\ holds target s b /\
    ue_dl_prb s = from_option (fun m => u8 (prb m)) 0 m /\
    ue_ul_prb s = from_option (fun m => u8 (prb m)) 0 u /\
    cell_dl_prb s = (if 0 <? nof_dl_dci d then u8 (total_prb (dl_msg d) (nof_dl_dci d)) else cell_dl_prb q) /\
    cell_ul_prb s = (if 0 <? nof_ul_dci d then u8 (total_prb (ul_msg d) (nof_ul_dci d)) else cell_ul_prb q).
Proof.
  intros [[Hd Hu Hnd Hnu] Ht]. cbv zeta. unfold MAX_DCI_PER_SUB in *. unfold enqueue_dci_sf.
  rewrite (uwrap_small 8 (nof_dl_dci _)), (uwrap_small 8 (nof_ul_dci _)) by (unfold is_uint; lia).
  destruct (count_prb_spec (dl_msg (dci_per_sub b)) (nof_dl_dci (dci_per_sub b)) target) as (c & -> & Ec); [lia |].
  destruct (count_prb_spec (ul_msg (dci_per_sub b)) (nof_ul_dci (dci_per_sub b)) target) as (c' & -> & Ec'); [lia |].
  assert (forall msgs n, n <= 0 -> target_msg msgs n target = None) as H0.
  { intros msgs n Hn. unfold target_msg. by replace (Z.to_nat n) with 0%nat by lia. }
  destruct (Z.ltb_spec 0 (nof_dl_dci (dci_per_sub b)));
    destruct (Z.ltb_spec 0 (nof_ul_dci (dci_per_sub b)));
    cbn [mbind option_bind]; eexists; (split; [done |]);
    unfold slot_ok, holds; cbn -[zlen Z.ltb uwrap total_prb target_msg];
    rewrite ?Ec, ?Ec', ?(H0 (dl_msg _)), ?(H0 (ul_msg _)) by lia; split_and!; done || lia.
Qed.

(** ** The two loops over the ring

    Both are described over unbounded indices: cell [x mod size] for [x] in a
    window of [size] indices that starts at the loop's first position. *)

Section loops.
Context (size : Z) (Hsize : 0 < size).

Lemma set_filled_id s b : filled s = b -> set_filled s b = s.
Proof. intros <-. by destruct s. Qed.

(** Writing cell [a mod size] is seen at index [a] only. *)
Lemma ring_write (subs : list sf_status_t) a x s :
  zlen subs = size -> a <= x < a + size ->
  zget (<[Z.to_nat (a mod size) := s]> subs) (x mod size)
    = if x =? a then Some s else zget subs (x mod size).
Proof.
  intros Hl Hx. pose proof (Z.mod_pos_bound a size Hsize).
  destruct (Z.eqb_spec x a) as [-> | Hne].
  - by apply zget_insert_eq, ring_range.
  - apply zget_insert_ne; [lia |]. intros E. apply Hne. symmetry. apply (ring_inj size a); done || lia.
Qed.

Lemma ring_read (subs : list sf_status_t) a :
  zlen subs = size -> exists s, zget subs (a mod size) = Some s.
Proof. intros Hl. by apply zget_some, ring_range. Qed.

(** Which flags the timeout check sets. *)
Definition overdue (r x : Z) : bool := (x <? r) && (DCI_DECODE_TIMEOUT <? r - x).

Lemma timeout_loop_spec r a subs fuel :
  zlen subs = size -> a <= r < a + size -> (Z.to_nat (r - a) <= fuel)%nat ->
  exists subs' : list sf_status_t, timeout_loop size (r mod size) (a mod size) subs fuel = Some subs' /\
    zlen subs' = size /\
    forall x, a <= x < a + size ->
      zget subs' (x mod size)
        = (fun s : sf_status_t => if overdue r x then set_filled s true else s) <$> zget subs (x mod size).
Proof.
  revert a subs. induction fuel as [| fuel IH]; intros a subs Hl Har Hf.
  - assert (a = r) as -> by lia. cbn [timeout_loop]. rewrite Z.eqb_refl.
    exists subs. split_and!; [done.. |]. intros x Hx. unfold overdue.
    destruct (Z.ltb_spec x r); [lia |]. by destruct (zget subs _).
  - cbn [timeout_loop]. destruct (Z.eqb_spec (a mod size) (r mod size)) as [E | E].
    { assert (a = r) as -> by (apply (ring_inj size a); done || lia).
      exists subs. split_and!; [done.. |]. intros x Hx. unfold overdue.
      destruct (Z.ltb_spec x r); [lia |]. by destruct (zget subs _). }
    assert (a <> r) as Hne by (by intros ->).
    destruct (ring_read subs a Hl) as [s Hs]. rewrite Hs. cbn [mbind option_bind].
    rewrite ring_dist by lia. rewrite zset_in by (by apply ring_range).
    rewrite ring_next by done.
    set (subs1 := if negb (filled s) && (DCI_DECODE_TIMEOUT <? r - a)
                  then <[Z.to_nat (a mod size) := set_filled s true]> subs else subs).
    assert ((if negb (filled s) && (DCI_DECODE_TIMEOUT <? r - a)
             then Some (<[Z.to_nat (a mod size) := set_filled s true]> subs) else Some subs)
            = Some subs1) as -> by (unfold subs1; by destruct (_ && _)).
    cbn [mbind option_bind].
    assert (zlen subs1 = size) as Hl1 by (unfold subs1; destruct (_ && _); [by rewrite zlen_insert | done]).
    destruct (IH (a + 1) subs1 Hl1) as (subs' & -> & Hl' & Hcell); [lia.. |].
    exists subs'. split_and!; [done.. |]. intros x Hx.
    assert (forall y, a <= y < a + size -> y <> a -> zget subs1 (y mod size) = zget subs (y mod size)) as Hother.
    { intros y Hy Hya. unfold subs1. destruct (_ && _); [| done].
      rewrite ring_write by done. by destruct (Z.eqb_spec y a). }
    destruct (Z.eq_dec x a) as [-> | Hxa].
    + rewrite <- (ring_turn size a), Hcell, (ring_turn size a) by lia.
      unfold overdue at 1. destruct (Z.ltb_spec (a + size) r); [lia |]. cbn [andb].
      unfold overdue. destruct (Z.ltb_spec a r); [| lia]. cbn [andb]. rewrite Hs. unfold subs1.
      destruct (DCI_DECODE_TIMEOUT <? r - a), (filled s) eqn:Ef; cbn [negb andb];
        rewrite ?ring_write, ?Z.eqb_refl, ?Hs by lia; simpl; try done.
      by rewrite set_filled_id.
    + rewrite Hcell by lia. by rewrite Hother by done.
Qed.

(** The header loop moves over the maximal run of filled cells, clears their
    flags and sends one message for each. *)
Definition n_filled (subs : list sf_status_t) : nat := length (filter (fun s => filled s = true) subs).

Lemma n_filled_clear subs i s :
  zget subs i = Some s -> filled s = true ->
  S (n_filled (<[Z.to_nat i := set_filled s false]> subs)) = n_filled subs.
Proof.
  intros Hs Hf. assert (0 <= i) as Hi by (apply zget_inv in Hs; apply Hs).
  rewrite zget_lookup in Hs by done. unfold n_filled.
  rewrite insert_take_drop by (by eapply lookup_lt_Some).
  rewrite <- (take_drop_middle subs (Z.to_nat i) s Hs) at 3.
  rewrite !filter_app, !filter_cons, Hf. rewrite decide_False by done. rewrite decide_True by done.
  rewrite !length_app. simpl. lia.
Qed.

Lemma n_filled_le subs : Z.of_nat (n_filled subs) <= zlen subs.
Proof. unfold n_filled, zlen. pose proof (length_filter (fun s => filled s = true) subs). lia. Qed.

Definition sent_run (cell target sock a k : Z) (subs : list sf_status_t) : list ue_dci_t :=
  concat ((fun x => from_option (fun s => sent_for s cell target sock) [] (zget subs (x mod size)))
    <$> seqZ a k).

Lemma sent_run_ext cell target sock a k (subs subs' : list sf_status_t) :
  (forall x, a <= x < a + k -> zget subs (x mod size) = zget subs' (x mod size)) ->
  sent_run cell target sock a k subs = sent_run cell target sock a k subs'.
Proof.
  intros H. unfold sent_run. f_equal. apply list_fmap_ext. intros i x Hx.
  apply lookup_seqZ in Hx. by rewrite H by lia.
Qed.

Lemma header_loop_spec cell target sock fuel : forall header a subs out,
  size <= 65536 -> zlen subs = size -> Forall slot_ok subs -> (n_filled subs <= fuel)%nat ->
  exists k (subs' : list sf_status_t), header_loop size cell target sock header (a mod size) subs out fuel
      = Some (if k =? 0 then header else (a + k - 1) mod size, subs',
              out ++ sent_run cell target sock a k subs) /\
    0 <= k <= size /\ zlen subs' = size /\ Forall slot_ok subs' /\
    (forall x, a <= x < a + k -> filled <$> zget subs (x mod size) = Some true) /\
    (filled <$> zget subs' ((a + k) mod size) = Some false) /\
    (forall x, a <= x < a + size -> zget subs' (x mod size)
       = (fun s : sf_status_t => if x <? a + k then set_filled s false else s) <$> zget subs (x mod size)).
Proof.
  induction fuel as [| fuel IH]; intros header a subs out H16 Hl Hok Hfuel;
    destruct (ring_read subs a Hl) as [s Hs]; cbn [header_loop]; rewrite Hs; cbn [mbind option_bind].
  all: destruct (filled s) eqn:Ef.
  1: pose proof (n_filled_clear _ _ _ Hs Ef); lia.
  2: set (subs1 := <[Z.to_nat (a mod size) := set_filled s false]> subs).
  1, 3: exists 0, subs; rewrite app_nil_r, Z.add_0_r, Hs; simpl; rewrite Ef;
    split_and!; try done; try lia; intros x Hx; try lia; destruct (Z.ltb_spec x a); try lia;
    by destruct (zget subs (x mod size)).
  pose proof (Z.mod_pos_bound a size Hsize).
  rewrite zset_in by (by apply ring_range). fold subs1. cbn [mbind option_bind].
  assert (slot_ok s) as Hoks.
  { rewrite Forall_lookup in Hok. rewrite zget_lookup in Hs by lia. eauto. }
  destruct (push_dci_to_remote_spec (set_filled s false) cell target sock Hoks) as [r ->].
  cbn [mbind option_bind]. rewrite sent_for_set_filled, ring_next, (uwrap_small 16) by (done || unfold is_uint; lia).
  assert (zlen subs1 = size) as Hl1 by (unfold subs1; by rewrite zlen_insert).
  assert (Forall slot_ok subs1) as Hok1 by (by apply Forall_insert).
  destruct (IH (a mod size) (a + 1) subs1 (out ++ sent_for s cell target sock) H16 Hl1 Hok1)
    as (k & subs' & -> & Hk & Hl' & Hok' & Hrun & Hstop & Hcell).
  { pose proof (n_filled_clear _ _ _ Hs Ef). unfold subs1. lia. }
  assert (forall x, a <= x < a + size -> x <> a -> zget subs1 (x mod size) = zget subs (x mod size)) as Hother.
  { intros x Hx Hxa. unfold subs1. rewrite ring_write by done. by destruct (Z.eqb_spec x a). }
  assert (k < size) as Hk'.
  { destruct (Z.eq_dec k size) as [-> |]; [| lia]. pose proof (Hrun (a + size)) as Hc.
    rewrite ring_turn in Hc.
    unfold subs1 in Hc. rewrite ring_write, Z.eqb_refl in Hc by (done || lia).
    specialize (Hc ltac:(lia)). by destruct s. }
  exists (k + 1), subs'. split.
  { do 2 f_equal.
    - f_equal. destruct (Z.eqb_spec (k + 1) 0); [lia |].
      destruct (Z.eqb_spec k 0) as [-> |]; f_equal; lia.
    - rewrite <- app_assoc. f_equal.
      rewrite (sent_run_ext _ _ _ (a + 1) k subs1 subs) by (intros; apply Hother; lia).
      unfold sent_run. rewrite (seqZ_cons a (k + 1)) by lia.
      rewrite fmap_cons, <- Z.add_1_r, Hs. by replace (Z.pred (k + 1)) with k by lia. }
  split; [lia |]. split; [done |]. split; [done |]. split.
  { intros x Hx. destruct (Z.eq_dec x a) as [-> | Hne]; [by rewrite Hs; simpl; rewrite Ef |].
    rewrite <- Hother by lia. apply Hrun. lia. }
  split; [by replace (a + (k + 1)) with (a + 1 + k) by lia |].
  intros x Hx. replace (a + (k + 1)) with (a + 1 + k) by lia.
  destruct (Z.eq_dec x a) as [-> | Hne].
  - destruct (Z.ltb_spec a (a + 1 + k)); [| lia].
    pose proof (Hcell (a + size)) as Hc.
    rewrite ring_turn in Hc.
    rewrite Hc by lia. destruct (Z.ltb_spec (a + size) (a + 1 + k)); [lia |].
    unfold subs1. rewrite ring_write, Z.eqb_refl by (done || lia). by rewrite Hs.
  - rewrite Hcell by lia. by rewrite Hother.
Qed.
End loops.

(** ** One header update *)

Record ring_wf (q : ngscope_cell_dci_ring_buffer_t) : Prop := RingWf {
  wf_size : 8 <= buf_size q <= 65536;
  wf_len : zlen (sub_stat q) = buf_size q;
  wf_header : 0 <= cell_header q < buf_size q;
  wf_recent : 0 <= most_recent_sf q < buf_size q;
  wf_logged : 0 <= nof_logged_dci q <= buf_size q;
  wf_slots : Forall slot_ok (sub_stat q)
}.

(** [q] with a header and slots of its own. *)
Definition with_slots (q : ngscope_cell_dci_ring_buffer_t) (h : Z) (subs : list sf_status_t)
  : ngscope_cell_dci_ring_buffer_t :=
  CellRing h (targetRNTI q) (cell_idx q) (cell_ready q) (cell_prb q) (nof_logged_dci q)
    (most_recent_sf q) (buf_size q) subs.

(** Cell [x] has been delivered, or would be at the next update. *)
Definition due (q : ngscope_cell_dci_ring_buffer_t) (r x : Z) : Prop :=
  filled <$> zget (sub_stat q) (x mod buf_size q) = Some true \/ overdue r x = true.

Lemma filled_overdue r x (s : sf_status_t) :
  filled (if overdue r x then set_filled s true else s) = filled s || overdue r x.
Proof. destruct (overdue r x), s; simpl; by rewrite ?orb_true_r, ?orb_false_r. Qed.

Lemma update_header_spec q sock a r :
  ring_wf q -> cell_header q = (a - 1) mod buf_size q -> most_recent_sf q = r mod buf_size q ->
  a <= r < a + buf_size q -> Z.quot (buf_size q) 8 <= nof_logged_dci q ->
  exists k subs, update_cell_status_header q sock
      = Some (with_slots q ((a + k - 1) mod buf_size q) subs,
              sent_run (buf_size q) (cell_idx q) (targetRNTI q) sock a k (sub_stat q)) /\
    0 <= k <= buf_size q /\ zlen subs = buf_size q /\ Forall slot_ok subs /\
    (forall x, a <= x < a + k -> due q r x) /\
    (k < buf_size q -> ~ due q r (a + k)) /\
    (forall x, a <= x < a + buf_size q -> exists s, zget (sub_stat q) (x mod buf_size q) = Some s /\
       zget subs (x mod buf_size q)
         = Some (set_filled s (if x <? a + k then false else filled s || overdue r x))).
Proof.
  intros [Hsz Hlen Hh Hr Hlog Hok] Ha Hrec Har Hstart. set (N := buf_size q) in *.
  unfold update_cell_status_header. fold N. destruct (Z.ltb_spec (nof_logged_dci q) (Z.quot N 8)); [lia |].
  unfold check_dci_decoding_timeout. fold N. rewrite Ha, Hrec, ring_next by lia.
  replace (a - 1 + 1) with a by lia.
  destruct (timeout_loop_spec N ltac:(lia) r a (sub_stat q) (Z.to_nat N)) as (subs1 & -> & Hl1 & Hc1);
    [done | lia | lia |].
  cbn [mbind option_bind buf_size cell_idx targetRNTI cell_header sub_stat]. fold N.
  rewrite ring_next by lia. replace (a - 1 + 1) with a by lia.
  assert (Forall slot_ok subs1) as Hok1.
  { apply Forall_lookup. intros i s Hi. destruct (ring_cover N a (Z.of_nat i)) as (x & Hx & Ex).
    { lia. }
    { pose proof (lookup_lt_Some _ _ _ Hi). unfold zlen in Hl1. lia. }
    pose proof (Hc1 x Hx) as Hcx. rewrite Ex, !zget_lookup, Nat2Z.id, Hi in Hcx by lia.
    destruct (sub_stat q !! i) as [s0 |] eqn:E0; [| done]. injection Hcx as ->.
    rewrite Forall_lookup in Hok. pose proof (Hok _ _ E0). by destruct (overdue r x). }
  pose proof (n_filled_le subs1).
  destruct (header_loop_spec N ltac:(lia) (cell_idx q) (targetRNTI q) sock (Z.to_nat N)
              ((a - 1) mod N) a subs1 []) as (k & subs & -> & Hk & Hl & Hoks & Hrun & Hstop & Hc);
    [lia | done | done | lia |].
  cbn [mbind option_bind]. exists k, subs. split.
  { do 2 f_equal.
    - unfold with_slots. cbn [most_recent_sf]. rewrite Hrec. f_equal.
      destruct (Z.eqb_spec k 0); f_equal; lia.
    - rewrite app_nil_l. unfold sent_run. f_equal. apply list_fmap_ext. intros i x Hx.
      apply lookup_seqZ in Hx. rewrite Hc1 by lia.
      destruct (zget (sub_stat q) _); [| done]. simpl. by destruct (overdue r x). }
  assert (forall x, a <= x < a + N -> exists s, zget (sub_stat q) (x mod N) = Some s /\
     zget subs1 (x mod N) = Some (set_filled s (filled s || overdue r x))) as Hcell1.
  { intros x Hx. destruct (ring_read N ltac:(lia) (sub_stat q) x Hlen) as [s Hs]. exists s.
    split; [done |]. rewrite Hc1, Hs by lia. simpl. f_equal.
    destruct (overdue r x); [by rewrite orb_true_r | by rewrite orb_false_r, set_filled_id]. }
  split; [done |]. split; [done |]. split; [done |]. split; [| split].
  - intros x Hx. destruct (Hcell1 x) as (s & Hs & Hs1); [lia |]. unfold due. fold N. rewrite Hs.
    pose proof (Hrun x Hx) as Hf. rewrite Hs1 in Hf. simpl in Hf. injection Hf as Hf.
    apply orb_prop in Hf as [E | E]; [left; simpl; by rewrite E | by right].
  - intros Hkn. destruct (Hcell1 (a + k)) as (s & Hs & Hs1); [lia |]. unfold due. fold N. rewrite Hs.
    rewrite Hc, Hs1 in Hstop by lia. destruct (Z.ltb_spec (a + k) (a + k)); [lia |].
    simpl in Hstop. injection Hstop as Hf. apply orb_false_iff in Hf as [E ->]. simpl. rewrite E. by intros [|].
  - intros x Hx. destruct (Hcell1 x) as (s & Hs & Hs1); [lia |]. exists s. split; [done |].
    rewrite Hc, Hs1 by lia. simpl. by destruct (x <? a + k).
Qed.

(** ** Putting a subframe *)

(** The ring after subframe [s] is stored at [index], before the header moves. *)
Definition stored (q : ngscope_cell_dci_ring_buffer_t) (index : Z) (s : sf_status_t)
  : ngscope_cell_dci_ring_buffer_t :=
  let N := buf_size q in
  let h0 := if cell_ready q then cell_header q else (index - 1) mod N in
  CellRing h0 (targetRNTI q) (cell_idx q) true (cell_prb q)
    (if nof_logged_dci q <? N then nof_logged_dci q + 1 else nof_logged_dci q)
    (update_most_recent_sf N (if cell_ready q then most_recent_sf q else h0) index) N
    (<[Z.to_nat index := s]> (sub_stat q)).

Lemma update_most_recent_cases N r i :
  update_most_recent_sf N r i = r \/ update_most_recent_sf N r i = i.
Proof. unfold update_most_recent_sf. repeat case_match; auto. Qed.

Lemma put_stores q b sock :
  ring_wf q -> buffer_ok b ->
  let index := sb_tti b mod buf_size q in
  exists s, filled s = true /\ slot_ok s /\ holds (targetRNTI q) s b /\
    dci_ring_buffer_put_dci q b sock = update_cell_status_header (stored q index s) sock /\
    ring_wf (stored q index s).
Proof.
  intros [Hsz Hlen Hh Hr Hlog Hok] Hb. unfold dci_ring_buffer_put_dci, stored. cbv zeta.
  set (N := buf_size q) in *. rewrite (Z.rem_mod_nonneg (sb_tti b)) by (apply Hb || lia).
  pose proof (Z.mod_pos_bound (sb_tti b) N ltac:(lia)) as Hi.
  set (index := sb_tti b mod N) in *.
  destruct (zget_some (sub_stat q) index) as [old Hold]; [unfold in_range; lia |].
  rewrite Hold. cbn [mbind option_bind].
  destruct (enqueue_dci_sf_some old (targetRNTI q) b Hb) as (s & -> & Hf & Hs & Hh1 & _).
  cbn [mbind option_bind]. rewrite zset_in by (unfold in_range; lia). cbn [mbind option_bind].
  pose proof (Z.mod_pos_bound (index - 1) N ltac:(lia)) as Hi1.
  assert (u16 (Z.rem (index - 1 + N) N) = (index - 1) mod N) as E.
  { rewrite Z.rem_mod_nonneg, ring_turn by lia. apply uwrap_small. unfold is_uint. lia. }
  rewrite E. exists s. split_and!; try done.
  pose proof (update_most_recent_cases N (if cell_ready q then most_recent_sf q else (index - 1) mod N) index).
  split; cbn [buf_size sub_stat cell_header most_recent_sf nof_logged_dci]; fold N;
    rewrite ?zlen_insert; try done.
  - destruct (cell_ready q); lia.
  - destruct (cell_ready q); lia.
  - zcase; lia.
  - by apply Forall_insert.
Qed.

Lemma sent_run_zlen N cell target sock a k subs :
  0 < N -> 0 <= k -> zlen subs = N ->
  zlen (sent_run N cell target sock a k subs) = if sock <=? 0 then 0 else k.
Proof.
  intros HN Hk Hl. unfold sent_run.
  assert (forall l : list Z, zlen (concat ((fun x => from_option
     (fun s => sent_for s cell target sock) [] (zget subs (x mod N))) <$> l)) = if sock <=? 0 then 0 else zlen l) as H.
  { induction l as [| x l IH]; [by destruct (sock <=? 0) |]. rewrite fmap_cons. cbn [concat]. rewrite zlen_app, IH, zlen_cons.
    destruct (ring_read N HN subs x Hl) as [s ->]. simpl. unfold sent_for.
    by destruct (sock <=? 0). }
  rewrite H. destruct (sock <=? 0); [done |]. unfold zlen. rewrite length_seqZ. lia.
Qed.

Lemma sent_run_length N cell target sock a k subs :
  0 < N -> 0 <= k -> 0 < sock -> zlen subs = N -> zlen (sent_run N cell target sock a k subs) = k.
Proof.
  intros HN Hk Hsock Hl. rewrite sent_run_zlen by done. by rewrite (proj2 (Z.leb_gt _ _) Hsock).
Qed.

(** A put moves the header by [k] and keeps the ring well-formed, with or
    without a client to send to. *)
Lemma put_dci_moves q b sock :
  ring_wf q -> buffer_ok b ->
  let N := buf_size q in
  let h0 := if cell_ready q then cell_header q else (sb_tti b - 1) mod N in
  exists q' out k, dci_ring_buffer_put_dci q b sock = Some (q', out) /\ ring_wf q' /\
    cell_header q' = (h0 + k) mod N /\ 0 <= k <= N /\ zlen out = (if sock <=? 0 then 0 else k) /\
    (nof_logged_dci q' < Z.quot N 8 -> k = 0) /\
    (Z.quot N 8 <= nof_logged_dci q' ->
       (most_recent_sf q' - (h0 + 1)) mod N - k <= DCI_DECODE_TIMEOUT) /\
    buf_size q' = N /\ cell_idx q' = cell_idx q /\ targetRNTI q' = targetRNTI q /\ cell_ready q' = true.
Proof.
  intros Hwf Hb. cbv zeta.
  destruct (put_stores q b sock Hwf Hb) as (s & _ & _ & _ & -> & Hwf1).
  set (q1 := stored q (sb_tti b mod buf_size q) s) in *.
  assert (buf_size q1 = buf_size q) as HN by done. assert (cell_idx q1 = cell_idx q) as Hci by done.
  assert (targetRNTI q1 = targetRNTI q) as Htr by done. assert (cell_ready q1 = true) as Hcr by done.
  set (h0 := if cell_ready q then cell_header q else (sb_tti b - 1) mod buf_size q).
  assert (cell_header q1 = h0) as Hh0.
  { unfold q1, stored, h0. simpl. destruct (cell_ready q); [done |].
    by rewrite Zminus_mod_idemp_l. }
  rewrite <- Hh0, <- Hci, <- Htr. clear h0 Hh0 Hci Htr. pose proof (wf_size _ Hwf1) as Hsz. rewrite <- HN. clear HN.
  clearbody q1. clear Hwf Hb q b s. rename q1 into q.
  pose proof (wf_header _ Hwf1). pose proof (wf_recent _ Hwf1).
  destruct (Z.lt_ge_cases (nof_logged_dci q) (Z.quot (buf_size q) 8)) as [Hs | Hs].
  - unfold update_cell_status_header. rewrite (proj2 (Z.ltb_lt _ _) Hs).
    exists q, [], 0. rewrite Z.add_0_r, Z.mod_small by done.
    split_and!; try done; try lia. by destruct (sock <=? 0).
  - set (a := cell_header q + 1). set (e := (most_recent_sf q - a) mod buf_size q).
    pose proof (Z.mod_pos_bound (most_recent_sf q - a) (buf_size q) ltac:(lia)) as He. fold e in He.
    destruct (update_header_spec q sock a (a + e) Hwf1) as (k & subs & -> & Hk & Hl & Hok & _ & Hstop & _).
    { unfold a. replace (cell_header q + 1 - 1) with (cell_header q) by lia.
      by rewrite Z.mod_small. }
    { unfold e. rewrite Zplus_mod_idemp_r. replace (a + (most_recent_sf q - a)) with (most_recent_sf q) by lia.
      by rewrite Z.mod_small. }
    { lia. }
    { done. }
    eexists _, _, k. split; [done |]. destruct Hwf1 as [? ? ? ? ? ?].
    split; [split; cbn [with_slots buf_size sub_stat cell_header most_recent_sf nof_logged_dci]; try done;
      apply Z.mod_pos_bound; lia |].
    split; [cbn [with_slots cell_header]; f_equal; lia |]. split; [lia |].
    split; [apply sent_run_zlen; lia || done |].
    cbn [with_slots nof_logged_dci most_recent_sf buf_size cell_idx targetRNTI cell_ready]. split; [lia |].
    split; [| done]. intros _. change (e - k <= DCI_DECODE_TIMEOUT). unfold DCI_DECODE_TIMEOUT.
    destruct (Z.le_gt_cases (e - k) 30) as [| Hgt]; [done |]. exfalso.
    apply Hstop; [lia |]. right. unfold overdue, DCI_DECODE_TIMEOUT.
    apply andb_true_intro. split; apply Z.ltb_lt; lia.
Qed.

(** C7: [dci_ring_buffer_put_dci] is total on every subframe: all
    accesses are in range, both loops stop within one turn of the ring, and the
    ring stays well-formed. The header moves forward by exactly the number [k]
    of messages sent. Nothing is sent until an eighth of the ring has been
    logged; from then on the first position not yet delivered is never more
    than [DCI_DECODE_TIMEOUT] subframes behind the most recent one. *)
Theorem put_dci_safe q b sock :
  ring_wf q -> buffer_ok b -> 0 < sock ->
  let N := buf_size q in
  let h0 := if cell_ready q then cell_header q else (sb_tti b - 1) mod N in
  exists q' out, dci_ring_buffer_put_dci q b sock = Some (q', out) /\ ring_wf q' /\
    cell_header q' = (h0 + zlen out) mod N /\ zlen out <= N /\
    (nof_logged_dci q' < Z.quot N 8 -> out = []) /\
    (Z.quot N 8 <= nof_logged_dci q' ->
       (most_recent_sf q' - (h0 + 1)) mod N - zlen out <= DCI_DECODE_TIMEOUT).
Proof.
  intros Hwf Hb Hsock. cbv zeta.
  destruct (put_dci_moves q b sock Hwf Hb) as (q' & out & k & E & Hwf' & Hh & Hk & Hl & H1 & H2 & _).
  rewrite (proj2 (Z.leb_gt _ _) Hsock) in Hl. subst k. exists q', out. split_and!; try done; [lia |].
  intros Hs%H1. by apply length_zero_iff_nil, Nat2Z.inj.
Qed.

(** ** Refinement of a reorder buffer

    Subframes carry unbounded sequence numbers (the TTI without its wraps).
    The specification keeps the next number to deliver, the largest number
    seen and the subframes that wait. *)

Record reorder := Reorder {
  nxt : Z; rcnt : Z; pend : gmap Z ngscope_status_buffer_t
}.

(** The message a stored subframe is sent as. *)
Definition dci_of_buffer (cell target : Z) (b : ngscope_status_buffer_t) : ue_dci_t :=
  let p := dci_per_sub b in
  let d := target_msg (dl_msg p) (nof_dl_dci p) target in
  let u := target_msg (ul_msg p) (nof_ul_dci p) target in
  UeDci (u8 cell) (timestamp p) (u16 (sb_tti b)) target
    (from_option msg_tbs 0 d) (from_option msg_reTx 0 d) false
    (from_option msg_tbs 0 u) (from_option msg_reTx 0 u) false.

Lemma holds_dci cell target s b : holds target s b -> ue_dci_of s cell target = dci_of_buffer cell target b.
Proof. intros (Ht & Hts & Hd & Hu & Hdm & Hum). unfold ue_dci_of. by rewrite Ht, Hts, Hd, Hu, Hdm, Hum. Qed.

(** What the cell of sequence number [x] contains. *)
Definition cell_agrees (target : Z) (s : sf_status_t) (o : option ngscope_status_buffer_t) : Prop :=
  match o with
  | Some b => filled s = true /\ holds target s b
  | None => filled s = false
  end.

Record refines (q : ngscope_cell_dci_ring_buffer_t) (a : reorder) : Prop := Refines {
  rf_wf : ring_wf q;
  rf_ready : cell_ready q = true;
  rf_header : cell_header q = (nxt a - 1) mod buf_size q;
  rf_recent : most_recent_sf q = rcnt a mod buf_size q;
  rf_window : nxt a - 1 <= rcnt a < nxt a + Z.quot (buf_size q) 2;
  rf_dom : forall x b, pend a !! x = Some b -> nxt a <= x <= rcnt a;
  rf_cells : forall x, nxt a <= x < nxt a + buf_size q ->
    exists s, zget (sub_stat q) (x mod buf_size q) = Some s /\ cell_agrees (targetRNTI q) s (pend a !! x)
}.

(** The specification's step: subframe [b] with number [s] arrives and the next
    [k] numbers are delivered. *)
Definition arrive (a : reorder) (s : Z) (b : ngscope_status_buffer_t) : reorder :=
  Reorder (nxt a) (Z.max (rcnt a) s) (<[s := b]> (pend a)).
Definition deliver (a : reorder) (k : Z) : reorder :=
  Reorder (nxt a + k) (rcnt a) (filter (fun p => nxt a + k <= p.1) (pend a)).
Definition releasable (a : reorder) (x : Z) : Prop :=
  is_Some (pend a !! x) \/ DCI_DECODE_TIMEOUT < rcnt a - x.

Lemma mod_split N r s :
  0 < N -> - N < s - r < N -> exists c, (c = -1 \/ c = 0 \/ c = 1) /\
    s mod N - r mod N = s - r - c * N /\ 0 <= s mod N < N /\ 0 <= r mod N < N.
Proof.
  intros HN Hd. pose proof (Z.mod_pos_bound s N HN). pose proof (Z.mod_pos_bound r N HN).
  pose proof (Z_div_mod_eq_full s N) as Es. pose proof (Z_div_mod_eq_full r N) as Er.
  set (ms := s mod N) in *. set (mr := r mod N) in *. clearbody ms mr.
  set (qs := s / N) in *. set (qr := r / N) in *. clearbody qs qr.
  exists (qs - qr). split; [nia |]. split; [nia | lia].
Qed.

Lemma update_most_recent_window N r s :
  8 <= N -> s < r + Z.quot N 8 -> r - s <= Z.quot N 2 ->
  update_most_recent_sf N (r mod N) (s mod N) = Z.max r s mod N.
Proof.
  intros HN Hs Hr. destruct (mod_split N r s) as (c & Hc & E & Bs & Br); [lia | lia |].
  assert (Z.max r s = s /\ 0 <= s - r \/ Z.max r s = r /\ s - r < 0) as Hmax by lia.
  set (ms := s mod N) in *. set (mr := r mod N) in *.
  unfold update_most_recent_sf.
  destruct Hmax as [[-> Hd] | [-> Hd]]; fold ms; fold mr; clearbody ms mr;
    destruct Hc as [-> | [-> | ->]]; repeat zcase; lia.
Qed.

Lemma stored_refines q a s b sock :
  refines q a -> buffer_ok b -> sb_tti b mod buf_size q = s mod buf_size q ->
  nxt a <= s < rcnt a + Z.quot (buf_size q) 8 -> s < nxt a + Z.quot (buf_size q) 2 ->
  exists q1, refines q1 (arrive a s b) /\
    buf_size q1 = buf_size q /\ targetRNTI q1 = targetRNTI q /\ cell_idx q1 = cell_idx q /\
    dci_ring_buffer_put_dci q b sock = update_cell_status_header q1 sock.
Proof.
  intros [Hwf Hrdy Hh Hrec Hwin Hdom Hcells] Hb Htti Hs1 Hs2.
  destruct (put_stores q b sock Hwf Hb) as (slot & Hf & _ & Hholds & -> & Hwf1).
  rewrite Htti in *. exists (stored q (s mod buf_size q) slot). split; [| done].
  pose proof (wf_size _ Hwf). pose proof (wf_len _ Hwf).
  split; try done; unfold stored, arrive;
    cbn [nxt rcnt pend buf_size cell_header most_recent_sf sub_stat targetRNTI cell_ready]; rewrite ?Hrdy.
  - done.
  - rewrite Hrec. apply update_most_recent_window; lia.
  - lia.
  - intros x b'. rewrite lookup_insert_Some. intros [[<- <-] | [Hne Hx]]; [lia |].
    pose proof (Hdom _ _ Hx). lia.
  - intros x Hx. destruct (Z.eq_dec x s) as [-> | Hne].
    + exists slot. rewrite lookup_insert_eq. split; [| done]. apply zget_insert_eq, ring_range; lia.
    + rewrite lookup_insert_ne by done. destruct (Hcells x Hx) as (s0 & Hs0 & Hag). exists s0.
      split; [| done]. rewrite <- Hs0. pose proof (Z.mod_pos_bound s (buf_size q) ltac:(lia)).
      apply zget_insert_ne; [lia |]. intros E. apply Hne. symmetry.
      apply (ring_inj (buf_size q) (nxt a)); done || lia.
Qed.

Lemma releasable_due q a x :
  refines q a -> nxt a <= x < nxt a + buf_size q -> due q (rcnt a) x <-> releasable a x.
Proof.
  intros [Hwf _ _ _ Hwin Hdom Hcells] Hx. destruct (Hcells x Hx) as (s & Hs & Hag).
  unfold due, releasable, overdue. rewrite Hs. simpl.
  rewrite andb_true_iff, !Z.ltb_lt. unfold DCI_DECODE_TIMEOUT.
  destruct (pend a !! x) as [b |]; simpl in Hag; [destruct Hag as [Hag _] |]; rewrite Hag.
  - split; [by left; eauto | by left].
  - split; [intros [[=] |]; lia | intros [[? [=]] |]; right; lia].
Qed.

(** Delivering [k] numbers keeps the refinement. *)
Lemma delivered_refines q a k subs :
  refines q a -> 0 <= k -> zlen subs = buf_size q -> Forall slot_ok subs ->
  (forall x, nxt a <= x < nxt a + k -> releasable a x) -> ~ releasable a (nxt a + k) ->
  (forall x, nxt a <= x < nxt a + buf_size q -> exists s, zget (sub_stat q) (x mod buf_size q) = Some s /\
     zget subs (x mod buf_size q)
       = Some (set_filled s (if x <? nxt a + k then false else filled s || overdue (rcnt a) x))) ->
  refines (with_slots q ((nxt a + k - 1) mod buf_size q) subs) (deliver a k) /\ nxt a + k - 1 <= rcnt a.
Proof.
  intros [Hwf Hrdy Hh Hrec Hwin Hdom Hcells] Hk Hl Hok Hrel Hstop Hnew.
  pose proof (wf_size _ Hwf).
  assert (nxt a + k - 1 <= rcnt a) as Hkr.
  { destruct (Z.eq_dec k 0) as [-> | Hk0]; [lia |].
    destruct (Hrel (nxt a + k - 1)) as [[b Hb] | Hlag]; [lia | apply Hdom in Hb; lia |].
    unfold DCI_DECODE_TIMEOUT in Hlag. lia. }
  split; [| done].
  assert (forall x, nxt a + k <= x -> overdue (rcnt a) x = false) as Hnot.
  { intros x Hx. destruct (overdue (rcnt a) x) eqn:E; [| done]. exfalso. apply Hstop. right.
    apply andb_true_iff in E as [_ E%Z.ltb_lt]. lia. }
  destruct Hwf as [? ? ? ? ? ?].
  split; unfold with_slots, deliver;
    cbn [nxt rcnt pend buf_size cell_header most_recent_sf sub_stat targetRNTI cell_ready nof_logged_dci].
  - split; cbn [buf_size cell_header most_recent_sf sub_stat nof_logged_dci]; try done.
    apply Z.mod_pos_bound; lia.
  - done.
  - done.
  - done.
  - lia.
  - intros x b. rewrite map_lookup_filter_Some. simpl. intros [Hx Hb]. apply Hdom in Hx. lia.
  - intros x Hx. destruct (Z.lt_ge_cases x (nxt a + buf_size q)) as [Hlo | Hhi].
    + destruct (Hnew x) as (s & Hs & Hs'); [lia |]. eexists; split; [exact Hs' |].
      destruct (Z.ltb_spec x (nxt a + k)); [lia |]. rewrite Hnot, orb_false_r, set_filled_id by done.
      destruct (Hcells x) as (s0 & Hs0 & Hag); [lia |]. rewrite Hs in Hs0. injection Hs0 as <-.
      unfold cell_agrees in *. destruct (filter _ (pend a) !! x) as [b |] eqn:E.
      * apply map_lookup_filter_Some in E as [E _]. by rewrite E in Hag.
      * destruct (pend a !! x) as [b |] eqn:E'; [| done]. exfalso.
        rewrite map_lookup_filter_None in E. destruct E as [E | E]; [congruence |].
        by apply (E b).
    + destruct (Hnew (x - buf_size q)) as (s & Hs & Hs'); [lia |].
      rewrite <- (ring_turn (buf_size q)) in Hs'. replace (x - buf_size q + buf_size q) with x in Hs' by lia.
      eexists; split; [exact Hs' |].
      destruct (Z.ltb_spec (x - buf_size q) (nxt a + k)); [| lia].
      destruct (filter _ (pend a) !! x) as [b |] eqn:E; [| done].
      apply map_lookup_filter_Some in E as [E _]. apply Hdom in E. lia.
Qed.

Lemma sent_run_lookup N cell target sock a k subs j s :
  0 < N -> 0 < sock -> zlen subs = N -> 0 <= j < k -> zget subs ((a + j) mod N) = Some s ->
  zget (sent_run N cell target sock a k subs) j = Some (ue_dci_of s cell target).
Proof.
  intros HN Hsock Hl Hj Hs.
  assert (sent_run N cell target sock a k subs
    = sent_run N cell target sock a j subs ++ [ue_dci_of s cell target]
      ++ sent_run N cell target sock (a + j + 1) (k - j - 1) subs) as ->.
  { unfold sent_run. replace k with (j + (1 + (k - j - 1))) at 1 by lia.
    rewrite !seqZ_app by lia. rewrite !fmap_app, !concat_app. f_equal. f_equal.
    replace (seqZ (a + j) 1) with [a + j] by done. simpl. rewrite Hs. simpl. unfold sent_for.
    destruct (Z.leb_spec sock 0); [lia | done]. }
  rewrite zget_lookup by lia.
  pose proof (sent_run_length N cell target sock a j subs HN (proj1 Hj) Hsock Hl) as Hlen.
  unfold zlen in Hlen. rewrite lookup_app_r by lia.
  by replace (Z.to_nat j - _)%nat with 0%nat by lia.
Qed.

(** C1: the ring refines the reorder buffer. Subframes may arrive in any
    order, as long as none arrives after its number was delivered, or an eighth
    of the ring ahead of the newest, or half a ring ahead of the oldest missing
    one. Then a put delivers the next [k] numbers in order, and the message of
    each subframe that arrived is the one built from that subframe; [k] is the
    length of the longest run of numbers that have arrived or are more than
    [DCI_DECODE_TIMEOUT] behind the newest (no number is skipped otherwise), and
    0 while less than an eighth of the ring has been logged. *)
Theorem put_refines_reorder q a s b sock :
  refines q a -> buffer_ok b -> 0 < sock -> sb_tti b mod buf_size q = s mod buf_size q ->
  nxt a <= s < rcnt a + Z.quot (buf_size q) 8 -> s < nxt a + Z.quot (buf_size q) 2 ->
  exists q' out, dci_ring_buffer_put_dci q b sock = Some (q', out) /\
    let k := zlen out in
    let a1 := arrive a s b in
    refines q' (deliver a1 k) /\
    (forall j b', 0 <= j < k -> pend a1 !! (nxt a + j) = Some b' ->
       zget out j = Some (dci_of_buffer (cell_idx q) (targetRNTI q) b')) /\
    (forall x, nxt a <= x < nxt a + k -> releasable a1 x) /\
    (if nof_logged_dci q' <? Z.quot (buf_size q) 8 then k = 0 else ~ releasable a1 (nxt a + k)).
Proof.
  intros Href Hb Hsock Htti Hs1 Hs2.
  destruct (stored_refines q a s b sock Href Hb Htti Hs1 Hs2) as (q1 & Href1 & EN & Et & Ec & ->).
  assert (nxt (arrive a s b) <= rcnt (arrive a s b)) as Hle by (simpl; lia).
  change (nxt a) with (nxt (arrive a s b)). remember (arrive a s b) as a1 eqn:Ea1. cbv zeta.
  rewrite <- EN, <- Et, <- Ec. clear - Href1 Hle Hsock. rename q1 into q, a1 into a.
  pose proof (rf_wf _ _ Href1) as Hwf. pose proof (wf_size _ Hwf).
  pose proof (rf_window _ _ Href1) as Hwin.
  destruct (Z.lt_ge_cases (nof_logged_dci q) (Z.quot (buf_size q) 8)) as [Hs | Hs].
  - unfold update_cell_status_header. rewrite (proj2 (Z.ltb_lt _ _) Hs).
    exists q, []. rewrite zlen_nil. split; [done |]. rewrite (proj2 (Z.ltb_lt _ _) Hs).
    split; [| split_and!; done || lia].
    unfold deliver. rewrite Z.add_0_r. destruct a as [n r p]. cbn [nxt rcnt pend] in *.
    rewrite map_filter_id; [done |]. intros x b Hx. apply (rf_dom _ _ Href1) in Hx. apply Hx.
  - destruct (update_header_spec q sock (nxt a) (rcnt a) Hwf) as (k & subs & -> & Hk & Hl & Hok & Hdue & Hstop & Hc);
      [apply Href1 | apply Href1 | lia | done |].
    assert (forall x, nxt a <= x < nxt a + k -> releasable a x) as Hrel.
    { intros x Hx. rewrite <- releasable_due by (exact Href1 || lia). by apply Hdue. }
    assert (k < buf_size q) as HkN.
    { destruct (Z.lt_ge_cases k (buf_size q)) as [| HkN]; [done |].
      destruct (Hrel (nxt a + buf_size q - 1)) as [[b Hb] | Hlag]; [lia | |].
      - apply (rf_dom _ _ Href1) in Hb. lia.
      - unfold DCI_DECODE_TIMEOUT in Hlag. lia. }
    assert (~ releasable a (nxt a + k)) as Hnr.
    { rewrite <- releasable_due by (exact Href1 || lia). by apply Hstop. }
    destruct (delivered_refines q a k subs Href1 (proj1 Hk) Hl Hok Hrel Hnr Hc) as [Href' _].
    eexists _, _. split; [done |].
    rewrite sent_run_length by (lia || apply (wf_len _ Hwf)). cbn [with_slots nof_logged_dci].
    split; [done |]. split; [| split; [done |]].
    + intros j b Hj Hb. destruct (rf_cells _ _ Href1 (nxt a + j)) as (s & Hcell & Hag); [lia |].
      rewrite Hb in Hag. destruct Hag as [_ Hag]. rewrite <- (holds_dci _ _ _ _ Hag).
      apply sent_run_lookup; [lia | done | apply (wf_len _ Hwf) | lia | done].
    + destruct (Z.ltb_spec (nof_logged_dci q) (Z.quot (buf_size q) 8)); [lia | done].
Qed.

(** A ring with empty slots that has caught up with number [s - 1]. *)
Definition idle_ring (rnti prb cell size logged s : Z) : ngscope_cell_dci_ring_buffer_t :=
  CellRing ((s - 1) mod size) rnti cell true prb logged ((s - 1) mod size) size
    (replicate (Z.to_nat size) zero_sf).

Lemma idle_refines rnti prb cell size logged s :
  8 <= size <= 65536 -> 0 <= logged <= size ->
  refines (idle_ring rnti prb cell size logged s) (Reorder s (s - 1) ∅).
Proof.
  intros Hsz Hlog. assert (zlen (replicate (Z.to_nat size) zero_sf) = size) as Hl
    by (unfold zlen; rewrite length_replicate; lia).
  pose proof (Z.mod_pos_bound (s - 1) size ltac:(lia)).
  split; cbn [nxt rcnt pend buf_size cell_header most_recent_sf sub_stat cell_ready idle_ring]; try done.
  - split; cbn [buf_size cell_header most_recent_sf sub_stat nof_logged_dci idle_ring]; try done.
    by apply Forall_replicate.
  - lia.
  - intros x Hx. rewrite lookup_empty. pose proof (Z.mod_pos_bound x size ltac:(lia)).
    exists zero_sf. split; [| done]. rewrite zget_lookup by lia. apply lookup_replicate. split; [done | lia].
Qed.

(** The first subframe finds a fresh ring, which starts its numbering there. *)
Lemma init_put rnti prb cell size s b sock :
  8 <= size <= 65536 -> 0 <= sb_tti b -> sb_tti b mod size = s mod size ->
  dci_ring_buffer_put_dci (dci_ring_buffer_init rnti prb cell size) b sock
    = dci_ring_buffer_put_dci (idle_ring rnti prb cell size 0 s) b sock.
Proof.
  intros Hsz Hb E. unfold dci_ring_buffer_put_dci, dci_ring_buffer_init, idle_ring.
  cbn [buf_size cell_header most_recent_sf sub_stat cell_ready nof_logged_dci targetRNTI cell_idx cell_prb].
  rewrite (Z.rem_mod_nonneg (sb_tti b)), E by lia.
  pose proof (Z.mod_pos_bound s size ltac:(lia)).
  rewrite (Z.rem_mod_nonneg (s mod size - 1 + size)), ring_turn, Zminus_mod_idemp_l by lia.
  pose proof (Z.mod_pos_bound (s - 1) size ltac:(lia)).
  by rewrite (uwrap_small 16) by (unfold is_uint; lia).
Qed.



(** clearing the fill flags of a cell clears one flag only, that of
    the slot whose index is the cell's. *)
Theorem clear_cell_fill_flag_one q idx :
  ring_wf q -> in_range (sub_stat q) idx ->
  exists s q', zget (sub_stat q) idx = Some s /\
    dci_ring_buffer_clear_cell_fill_flag q idx = Some q' /\
    zget (sub_stat q') idx = Some (set_filled s false) /\
    forall j, j <> idx -> zget (sub_stat q') j = zget (sub_stat q) j.
Proof.
  intros Hwf Hidx. destruct (zget_some _ _ Hidx) as [s Hs].
  pose proof (wf_size _ Hwf). unfold dci_ring_buffer_clear_cell_fill_flag.
  loop_inv (fun i subs => zlen subs = zlen (sub_stat q) /\
      zget subs idx = Some (if i =? 0 then s else set_filled s false) /\
      forall j, j <> idx -> zget subs j = zget (sub_stat q) j) as (subs & -> & _ & Hset & Hother).
  - lia.
  - done.
  - intros i subs Hi (Hl & Hg & Ho). rewrite Hg. cbn [mbind option_bind].
    rewrite zset_in by (unfold in_range in *; lia). eexists; split; [done |].
    split; [by rewrite zlen_insert |]. split.
    + rewrite zget_insert_eq by (unfold in_range in *; lia).
      destruct (Z.eqb_spec (i + 1) 0); [lia |]. by destruct (i =? 0).
    + intros j Hj. rewrite zget_insert_ne by (apply Hidx || done). by apply Ho.
  - cbn [mbind option_bind]. eexists _, _. split; [done |]. split; [done |]. split; [| done].
    cbn [sub_stat]. destruct (Z.eqb_spec (buf_size q) 0); [lia | done].
Qed.

(** ** Witnesses *)

(** Subframe [t] with one downlink message of 25 PRBs for RNTI 61. *)
Definition ex_buf (t : Z) : ngscope_status_buffer_t :=
  StatusBuffer
    (PerSub (DciMsg 61 25 0 1 true f32_100 f32_1 SRSRAN_DCI_FORMAT1 (DciTb 9 4008 0 true) zero_tb
               (DciPhich 0 0 0) (DciLoc 2 8 false f32_1) :: replicate 9 zero_msg) 1
       (replicate 10 zero_msg) 0 (1000 * t))
    t 0.

Lemma ex_buf_ok t : 0 <= t -> buffer_ok (ex_buf t).
Proof. intros Ht. split; [by split | done]. Qed.

Definition ex_ring : ngscope_cell_dci_ring_buffer_t := dci_ring_buffer_init 61 100 0 320.

Lemma ex_ring_wf : ring_wf ex_ring.
Proof.
  split; try done; try (vm_compute; split; congruence). unfold ex_ring, dci_ring_buffer_init.
  cbn [sub_stat]. by apply Forall_replicate.
Qed.

Lemma put_dci_safe_witness :
  let N := buf_size ex_ring in
  let h0 := if cell_ready ex_ring then cell_header ex_ring else (sb_tti (ex_buf 10239) - 1) mod N in
  exists q' out, dci_ring_buffer_put_dci ex_ring (ex_buf 10239) 3 = Some (q', out) /\ ring_wf q' /\
    cell_header q' = (h0 + zlen out) mod N /\ zlen out <= N /\
    (nof_logged_dci q' < Z.quot N 8 -> out = []) /\
    (Z.quot N 8 <= nof_logged_dci q' ->
       (most_recent_sf q' - (h0 + 1)) mod N - zlen out <= DCI_DECODE_TIMEOUT).
Proof. apply (put_dci_safe ex_ring (ex_buf 10239) 3); [apply ex_ring_wf | by apply ex_buf_ok | lia]. Defined.

Definition ex_idle : ngscope_cell_dci_ring_buffer_t := idle_ring 61 100 0 320 100 500.

Lemma put_refines_reorder_witness :
  exists q' out, dci_ring_buffer_put_dci ex_idle (ex_buf 502) 3 = Some (q', out) /\
    let k := zlen out in
    let a1 := arrive (Reorder 500 499 ∅) 502 (ex_buf 502) in
    refines q' (deliver a1 k) /\
    (forall j b', 0 <= j < k -> pend a1 !! (nxt (Reorder 500 499 ∅) + j) = Some b' ->
       zget out j = Some (dci_of_buffer (cell_idx ex_idle) (targetRNTI ex_idle) b')) /\
    (forall x, nxt (Reorder 500 499 ∅) <= x < nxt (Reorder 500 499 ∅) + k -> releasable a1 x) /\
    (if nof_logged_dci q' <? Z.quot (buf_size ex_idle) 8 then k = 0
     else ~ releasable a1 (nxt (Reorder 500 499 ∅) + k)).
Proof.
  apply (put_refines_reorder ex_idle (Reorder 500 499 ∅) 502 (ex_buf 502) 3).
  - apply idle_refines; lia.
  - by apply ex_buf_ok.
  - lia.
  - done.
  - cbn. lia.
  - cbn. lia.
Defined.



Lemma clear_cell_fill_flag_one_witness :
  exists s q', zget (sub_stat ex_ring) 2 = Some s /\
    dci_ring_buffer_clear_cell_fill_flag ex_ring 2 = Some q' /\
    zget (sub_stat q') 2 = Some (set_filled s false) /\
    forall j, j <> 2 -> zget (sub_stat q') j = zget (sub_stat ex_ring) j.
Proof. apply (clear_cell_fill_flag_one ex_ring 2); [apply ex_ring_wf | by split]. Defined.
