(* ===== verification/DciSink.v ===== *)
(** * The DCI sink: from NG-Scope to its applications
      ([dci_sink_sock.c], [dci_sink_serv.c], [dci_sink_recv_dci.c],
       [dci_sink_ring_buffer.c], [dci_sink_client.c])

    NG-Scope sends each [ue_dci_t] of the target UE, and the configuration of
    the cells, in UDP datagrams to the clients that have registered. A client
    parses the datagrams and keeps the last 1000 DCIs of every cell. The
    [memcpy] of a C struct into a message is its little-endian layout with
    unspecified padding. *)

From S2P Require Import Prelude NgUtil NgTypes DciRing.

Definition MAX_NOF_CELL : Z := 4.
Definition NOF_LOG_DCI : Z := 1000.
Definition MAX_CLIENT : Z := 5.

(** ** Messages *)

Record cell_config_t := CellConfig { cfg_nof_cell : Z; cfg_cell_prb : list Z; cfg_rnti : Z }.

(** The bytes of an unsigned field of [n] bytes, and back. *)
Definition le (n v : Z) : list Z := Z_to_little_endian n 8 v.
#[global] Arguments le : simpl never.
Definition field (bs : list Z) (off n : Z) : Z :=
  little_endian_to_Z 8 (take (Z.to_nat n) (drop (Z.to_nat off) bs)).

(** The padding of [ue_dci_t]: after [cell_idx], after [dl_rv_flag] and at the
    end of the 40 bytes. *)
Record ue_padding := UePadding { pad_a : list Z; pad_b : list Z; pad_c : list Z }.

Definition sizeof_ue_dci : Z := 40.

Definition bytes_of_ue_dci (p : ue_padding) (d : ue_dci_t) : list Z :=
  concat [le 1 (ue_cell_idx d); pad_a p; le 8 (ue_time_stamp d); le 2 (ue_tti d); le 2 (ue_rnti d);
    le 4 (dl_tbs d); le 1 (dl_reTx d); le 1 (Z.b2z (dl_rv_flag d)); pad_b p;
    le 4 (ul_tbs d); le 1 (ul_reTx d); le 1 (Z.b2z (ul_rv_flag d)); pad_c p].

Definition ue_dci_of_bytes (bs : list Z) : ue_dci_t :=
  UeDci (field bs 0 1) (field bs 8 8) (field bs 16 2) (field bs 18 2)
    (field bs 20 4) (field bs 24 1) (negb (field bs 25 1 =? 0))
    (field bs 28 4) (field bs 32 1) (negb (field bs 33 1 =? 0)).

(** [cell_config_t]: 12 bytes with one byte of padding after [nof_cell]. *)
Definition sizeof_cell_config : Z := 12.

Definition bytes_of_cell_config (pad : Z) (c : cell_config_t) : list Z :=
  concat ([le 1 (cfg_nof_cell c); [pad]] ++ (le 2 <$> cfg_cell_prb c) ++ [le 2 (cfg_rnti c)]).

Definition cell_config_of_bytes (bs : list Z) : cell_config_t :=
  CellConfig (field bs 0 1) [field bs 2 2; field bs 4 2; field bs 6 2; field bs 8 2] (field bs 10 2).

(** ** The clients of the server *)

Record sockaddr_in := SockAddr { sin_family : Z; sin_port : Z; sin_addr : Z; sin_zero : list Z }.

#[export] Instance sockaddr_in_eq_dec : EqDecision sockaddr_in.
Proof. solve_decision. Defined.

Definition sock_same_sock_addr (a b : sockaddr_in) : option bool :=
  if (sin_family a =? sin_family b) && (sin_port a =? sin_port b) && (sin_addr a =? sin_addr b) then
    for_range 0 8
      (fun m i => x ← zget (sin_zero a) i; y ← zget (sin_zero b) i; Some (m && (x =? y))) true
  else Some false.

(** The search loop with its early return. *)
Fixpoint client_known (l : list sockaddr_in) (addr : sockaddr_in) (i : Z) (fuel : nat) : option bool :=
  match fuel with
  | O => Some false
  | S n =>
      a ← zget l i;
      same ← sock_same_sock_addr a addr;
      if same : bool then Some true else client_known l addr (i + 1) n
  end.

(** The new count and array. *)
Definition push_client_to_vec (client_addr : list sockaddr_in) (addr : sockaddr_in) (nof_client : Z)
  : option (Z * list sockaddr_in) :=
  if MAX_CLIENT <=? nof_client then Some (nof_client, client_addr)
  else
    known ← client_known client_addr addr 0 (Z.to_nat nof_client);
    if known : bool then Some (nof_client, client_addr)
    else l ← zset client_addr nof_client addr; Some (nof_client + 1, l).

Record client_list_t := ClientList { client_addr : list sockaddr_in; nof_client : Z }.

Definition zero_addr : sockaddr_in := SockAddr 0 0 0 (replicate 8 0).

Definition sock_init_client_list : client_list_t :=
  ClientList (replicate (Z.to_nat MAX_CLIENT) zero_addr) 0.

Definition sock_update_client_list_addr (q : client_list_t) (addr : sockaddr_in) : option client_list_t :=
  if MAX_CLIENT <=? nof_client q then Some q
  else
    known ← client_known (client_addr q) addr 0 (Z.to_nat (nof_client q));
    if known : bool then Some q
    else l ← zset (client_addr q) (nof_client q) addr; Some (ClientList l (nof_client q + 1)).

(** One [sendto] per client, in order. *)
Definition send_all (q : client_list_t) (msg : list Z) : option (list (sockaddr_in * list Z)) :=
  for_range 0 (nof_client q)
    (fun out i => a ← zget (client_addr q) i; Some (out ++ [(a, msg)])) [].

Definition dci_message (p : ue_padding) (d : ue_dci_t) (proto_v : Z) : list Z :=
  [0xAA; 0xAA; 0xAA; 0xAA] ++ [u8 proto_v] ++ bytes_of_ue_dci p d.

#[global] Arguments dci_message : simpl never.

Definition sock_send_single_dci (q : client_list_t) (p : ue_padding) (d : ue_dci_t) (proto_v : Z)
  : option (list (sockaddr_in * list Z)) := send_all q (dci_message p d proto_v).

Definition config_message (pad : Z) (c : cell_config_t) : list Z :=
  [0xBB; 0xBB; 0xBB; 0xBB] ++ bytes_of_cell_config pad c.

Definition sock_send_config (q : client_list_t) (pad : Z) (c : cell_config_t)
  : option (list (sockaddr_in * list Z)) := send_all q (config_message pad c).

(** [recvBuf[i..i+3]] against four bytes [b], with the short circuit of [&&]. *)
Fixpoint preamble (b : Z) (buf : list Z) (i : Z) (n : nat) : option bool :=
  match n with
  | O => Some true
  | S n => x ← zget buf i; if x =? b then preamble b buf (i + 1) n else Some false
  end.

(** The server thread: its own list, the shared list, and what it sends. *)
Record server_t := Server { sv_addr : list sockaddr_in; sv_nof : Z; sv_list : client_list_t }.

(** One datagram of [n > 0] bytes from [addr] in [recvBuf]; the request to
    close the connection is not handled. *)
Definition dci_sink_server_recv (s : server_t) (pad : Z) (cfg : cell_config_t) (buf : list Z)
    (addr : sockaddr_in) : option (server_t * list (sockaddr_in * list Z)) :=
  req ← preamble 0xCC buf 0 4;
  if req : bool then
    '(new_client, l) ← push_client_to_vec (sv_addr s) addr (sv_nof s);
    if sv_nof s <? new_client then
      cl ← sock_update_client_list_addr (sv_list s) addr;
      out ← sock_send_config cl pad cfg;
      let ack := (addr, [0xAA; 0xAA; 0xAA; 0xAA]) in
      Some (Server l new_client cl, ack :: ack :: out)
    else Some (Server l (sv_nof s) (sv_list s), [])
  else Some (s, []).

(** ** The ring buffers of a client *)

Record sink_cell_t := SinkCell {
  k_cell_prb : Z; k_header : Z; k_nof_logged : Z;
  k_dl_reTx_t_us : Z; k_ul_reTx_t_us : Z; k_dl_reTx_tti : Z; k_ul_reTx_tti : Z;
  k_dci : list ue_dci_t
}.

Record sink_CA_t := SinkCA {
  q_ready : bool; q_header : Z; q_tail : Z; q_nof_cell : Z; q_curr_time : Z; q_rnti : Z;
  q_cells : list sink_cell_t
}.

Definition zero_ue_dci : ue_dci_t := UeDci 0 0 0 0 0 0 false 0 0 false.

Definition ngscope_dci_sink_cell_init : sink_cell_t :=
  SinkCell 50 0 0 0 0 0 0 (replicate (Z.to_nat NOF_LOG_DCI) zero_ue_dci).

(** [rnti] keeps the value it has. *)
Definition ngscope_dciSink_ringBuf_init (rnti : Z) : sink_CA_t :=
  SinkCA false 0 0 1 0 rnti (replicate (Z.to_nat MAX_NOF_CELL) ngscope_dci_sink_cell_init).

Definition find_dci_cell_tail (q : sink_cell_t) : option Z :=
  d ← zget (k_dci q) (Z.rem (k_header q - k_nof_logged q + NOF_LOG_DCI) NOF_LOG_DCI);
  Some (ue_tti d).

Definition set_prb (c : sink_cell_t) (prb : Z) : sink_cell_t :=
  SinkCell prb (k_header c) (k_nof_logged c) (k_dl_reTx_t_us c) (k_ul_reTx_t_us c)
    (k_dl_reTx_tti c) (k_ul_reTx_tti c) (k_dci c).

Definition set_cells (q : sink_CA_t) (cells : list sink_cell_t) : sink_CA_t :=
  SinkCA (q_ready q) (q_header q) (q_tail q) (q_nof_cell q) (q_curr_time q) (q_rnti q) cells.

Definition ngscope_dciSink_ringBuf_update_config (q : sink_CA_t) (cfg : cell_config_t) : option sink_CA_t :=
  cells ← for_range 0 (cfg_nof_cell cfg)
    (fun cells i => p ← zget (cfg_cell_prb cfg) i; c ← zget cells i; zset cells i (set_prb c p))
    (q_cells q);
  Some (SinkCA (q_ready q) (q_header q) (q_tail q) (cfg_nof_cell cfg) (q_curr_time q) (cfg_rnti cfg) cells).

(** [memcpy] of a received DCI into the ring of its cell. *)
Definition log_dci (c : sink_cell_t) (d : ue_dci_t) : option sink_cell_t :=
  '_ ← zget (k_dci c) (Z.rem (k_header c - 1 + NOF_LOG_DCI) NOF_LOG_DCI);
  dcis ← zset (k_dci c) (k_header c) d;
  Some (SinkCell (k_cell_prb c) (Z.rem (k_header c + 1) NOF_LOG_DCI)
    (if k_nof_logged c <? NOF_LOG_DCI then k_nof_logged c + 1 else k_nof_logged c)
    (if dl_reTx d =? 1 then ue_time_stamp d else k_dl_reTx_t_us c)
    (if ul_reTx d =? 1 then ue_time_stamp d else k_ul_reTx_t_us c)
    (if dl_reTx d =? 1 then ue_tti d else k_dl_reTx_tti c)
    (if ul_reTx d =? 1 then ue_tti d else k_ul_reTx_tti c)
    dcis).

Section stray.
(** [(header - 1) % NOF_LOG_DCI] is -1 for a cell whose header is 0: C leaves
    the read of [dci[-1]] undefined. [stray] is what it returns. *)
Variable stray : sink_cell_t -> ue_dci_t.

Definition dci_before_header (c : sink_cell_t) : option ue_dci_t :=
  let cell_header := Z.rem (k_header c - 1) NOF_LOG_DCI in
  if cell_header =? -1 then Some (stray c) else zget (k_dci c) cell_header.

(** One iteration of the loop: last TTI, first TTI, last time stamp, started. *)
Definition ca_scan (c : sink_cell_t) : option (Z * Z * Z * bool) :=
  d ← dci_before_header c;
  t ← find_dci_cell_tail c;
  Some (ue_tti d, t, ue_time_stamp d, negb (k_header c =? 0)).

Definition ca_update_header (q : sink_CA_t) : option sink_CA_t :=
  let n := q_nof_cell q in
  rows ← mapM (fun i => c ← zget (q_cells q) i; ca_scan c) (seqZ 0 n);
  let header_vec := (fun r => r.1.1.1) <$> rows in
  let tail_vec := (fun r => r.1.1.2) <$> rows in
  let curr_time := (fun r => r.1.2) <$> rows in
  if q_ready q then
    header_vec ← unwrap_tti_array header_vec n;
    min_tti ← min_in_array_uint16_v header_vec n;
    max_tti ← max_in_array_uint16_v tail_vec n;
    time ← mean_array_uint64 curr_time n;
    Some (SinkCA true (wrap_tti min_tti) (wrap_tti (u16 (max_tti + 1))) n time (q_rnti q) (q_cells q))
  else
    Some (SinkCA (forallb (fun r => r.2) rows) (q_header q) (q_tail q) n (q_curr_time q) (q_rnti q) (q_cells q)).

Definition insert_single_dci (q : sink_CA_t) (d : ue_dci_t) : option sink_CA_t :=
  c ← zget (q_cells q) (ue_cell_idx d);
  c ← log_dci c d;
  cells ← zset (q_cells q) (ue_cell_idx d) c;
  ca_update_header (set_cells q cells).

(** ** Reception *)

(** [memcpy(dst, &recvBuf[i], n)] *)
Definition slice (buf : list Z) (i n : Z) : option (list Z) :=
  if (0 <=? i) && (i + n <=? zlen buf) then Some (take (Z.to_nat n) (drop (Z.to_nat i) buf)) else None.

(** [junk] is the content of the uninitialised local variable the message is
    copied to. *)
Definition recv_dci (buf : list Z) (junk : ue_dci_t) (buf_idx recvLen : Z) : option (Z * ue_dci_t) :=
  if recvLen <=? buf_idx + 1 then Some (buf_idx, junk)
  else
    proto_v ← zget buf buf_idx;
    let buf_idx := buf_idx + 1 in
    if proto_v =? 0 then
      if recvLen <? buf_idx + sizeof_ue_dci then Some (0, junk)
      else
        bs ← slice buf buf_idx sizeof_ue_dci;
        Some (buf_idx + sizeof_ue_dci, ue_dci_of_bytes bs)
    else Some (buf_idx, junk).

Definition recv_config (buf : list Z) (junk : cell_config_t) (buf_idx recvLen : Z) : option (Z * cell_config_t) :=
  if recvLen <? buf_idx + sizeof_cell_config then Some (buf_idx, junk)
  else
    bs ← slice buf buf_idx sizeof_cell_config;
    let cfg := cell_config_of_bytes bs in
    '_ ← for_range 0 (cfg_nof_cell cfg) (fun _ i => '_ ← zget (cfg_cell_prb cfg) i; Some tt) tt;
    Some (buf_idx + sizeof_cell_config, cfg).

Section uninitialised.
Variables (junk : ue_dci_t) (junk_cfg : cell_config_t).

Definition ngscope_dci_sink_recv_buffer (q : sink_CA_t) (buf : list Z) (idx recvLen : Z)
  : option (Z * sink_CA_t) :=
  is_dci ← preamble 0xAA buf idx 4;
  if is_dci : bool then
    '(buf_idx, d) ← recv_dci buf junk (idx + 4) recvLen;
    if idx + 4 =? buf_idx then Some (-1, q)
    else q ← insert_single_dci q d; Some (buf_idx, q)
  else
    is_cfg ← preamble 0xBB buf idx 4;
    if is_cfg : bool then
      '(buf_idx, cfg) ← recv_config buf junk_cfg (idx + 4) recvLen;
      if idx + 4 =? buf_idx then Some (-1, q)
      else q ← ngscope_dciSink_ringBuf_update_config q cfg; Some (buf_idx, q)
    else
      is_exit ← preamble 0xFF buf idx 4;
      if is_exit : bool then Some (-999, q) else Some (-1, q).

(** The parse loop over one datagram, while [go_exit] is false. [Parsing] is
    the state in which the fuel of the model ran out. *)
Inductive parse_result :=
  | Parsed (q : sink_CA_t)
  | Parsing (q : sink_CA_t) (buf_idx : Z).

Fixpoint client_loop (fuel : nat) (q : sink_CA_t) (buf : list Z) (buf_idx recvLen : Z) : option parse_result :=
  match fuel with
  | O => Some (Parsing q buf_idx)
  | S n =>
      '(ret, q) ← ngscope_dci_sink_recv_buffer q buf buf_idx recvLen;
      if ret <? 0 then Some (Parsed q)
      else if ret =? recvLen then Some (Parsed q)
      else client_loop n q buf ret recvLen
  end.

(** One [recvfrom] of at most 1400 bytes: the datagram replaces the front of
    the buffer. *)
Definition client_receive (fuel : nat) (q : sink_CA_t) (buf datagram : list Z)
  : option (parse_result * list Z) :=
  let buf := datagram ++ drop (length datagram) buf in
  if 0 <? zlen datagram then
    r ← client_loop fuel q buf 0 (zlen datagram); Some (r, buf)
  else Some (Parsed q, buf).

(** The receiving thread over the datagrams it gets; no result when the
    parse of one of them has not ended. *)
Definition dci_sink_client_run (fuel : nat) (q : sink_CA_t) (buf : list Z) (datagrams : list (list Z))
  : option (sink_CA_t * list Z) :=
  foldM (fun '(q, buf) dg =>
    '(r, buf) ← client_receive fuel q buf dg;
    match r with Parsed q => Some (q, buf) | Parsing _ _ => None end) (q, buf) datagrams.
End uninitialised.
End stray.

(** ** The message format *)

Record ue_dci_ok (d : ue_dci_t) : Prop := UeDciOk {
  ok_cell : is_uint 8 (ue_cell_idx d); ok_time : is_uint 64 (ue_time_stamp d);
  ok_tti : is_uint 16 (ue_tti d); ok_rnti : is_uint 16 (ue_rnti d);
  ok_dl_tbs : is_uint 32 (dl_tbs d); ok_dl_reTx : is_uint 8 (dl_reTx d);
  ok_ul_tbs : is_uint 32 (ul_tbs d); ok_ul_reTx : is_uint 8 (ul_reTx d)
}.

Record padding_ok (p : ue_padding) : Prop := PaddingOk {
  ok_pad_a : zlen (pad_a p) = 7; ok_pad_b : zlen (pad_b p) = 2; ok_pad_c : zlen (pad_c p) = 6
}.

Lemma zlen_le n v : 0 <= n -> zlen (le n v) = n.
Proof. intros Hn. unfold zlen, le. by apply length_Z_to_little_endian. Qed.

Lemma take_zlen {A} (l k : list A) : take (Z.to_nat (zlen l)) (l ++ k) = l.
Proof. unfold zlen. rewrite Nat2Z.id. apply take_app_length. Qed.

Lemma drop_zlen {A} (l k : list A) : drop (Z.to_nat (zlen l)) (l ++ k) = k.
Proof. unfold zlen. rewrite Nat2Z.id. apply drop_app_length. Qed.

(** A field of a message laid out from its parts. *)
Lemma field_concat (parts : list (list Z)) k n v off :
  parts !! k = Some (le n v) -> off = zlen (concat (take k parts)) -> 0 <= n -> is_uint (n * 8) v ->
  field (concat parts) off n = v.
Proof.
  intros Hk -> Hn Hv. rewrite <- (take_drop_middle parts k _ Hk) at 1.
  rewrite concat_app. unfold field. rewrite drop_zlen. simpl concat.
  rewrite <- (zlen_le n v) at 1 by done. rewrite take_zlen.
  unfold le. rewrite little_endian_to_Z_to_little_endian by lia. by apply Z.mod_small.
Qed.

Ltac byte_len :=
  cbn [concat take]; rewrite ?app_nil_r, ?zlen_app, ?zlen_le by lia;
  rewrite ?ok_pad_a, ?ok_pad_b, ?ok_pad_c by done; reflexivity.

Lemma b2z_byte b : is_uint (1 * 8) (Z.b2z b).
Proof. by destruct b. Qed.

Lemma bool_byte b : negb (Z.b2z b =? 0) = b.
Proof. by destruct b. Qed.

Lemma zlen_ue_dci p d : padding_ok p -> zlen (bytes_of_ue_dci p d) = sizeof_ue_dci.
Proof. intros Hp. unfold bytes_of_ue_dci. byte_len. Qed.

Ltac read_field k v :=
  rewrite (field_concat _ k _ v); [| reflexivity | byte_len | lia | assumption || apply b2z_byte].

Lemma ue_dci_bytes p d : padding_ok p -> ue_dci_ok d -> ue_dci_of_bytes (bytes_of_ue_dci p d) = d.
Proof.
  intros Hp [Hc Ht Hi Hr Hdt Hdr Hut Hur]. unfold ue_dci_of_bytes, bytes_of_ue_dci.
  read_field 0%nat (ue_cell_idx d). read_field 2%nat (ue_time_stamp d). read_field 3%nat (ue_tti d).
  read_field 4%nat (ue_rnti d). read_field 5%nat (dl_tbs d). read_field 6%nat (dl_reTx d).
  read_field 7%nat (Z.b2z (dl_rv_flag d)). read_field 9%nat (ul_tbs d). read_field 10%nat (ul_reTx d).
  read_field 11%nat (Z.b2z (ul_rv_flag d)). rewrite !bool_byte. by destruct d.
Qed.

Record cell_config_ok (c : cell_config_t) : Prop := CellConfigOk {
  ok_nof_cell : is_uint 8 (cfg_nof_cell c); ok_prbs : zlen (cfg_cell_prb c) = MAX_NOF_CELL;
  ok_prb : Forall (is_uint 16) (cfg_cell_prb c); ok_cfg_rnti : is_uint 16 (cfg_rnti c)
}.

Lemma cell_config_bytes pad c : cell_config_ok c -> cell_config_of_bytes (bytes_of_cell_config pad c) = c.
Proof.
  intros [Hn Hl Hp Hr]. destruct c as [n prbs r]; simpl in *.
  destruct prbs as [| p0 [| p1 [| p2 [| p3 [| ]]]]]; try (rewrite ?zlen_cons, ?zlen_nil in Hl; unfold MAX_NOF_CELL, zlen in Hl; simpl in Hl; lia).
  inversion_clear Hp as [| ? ? P0 Q0]. inversion_clear Q0 as [| ? ? P1 Q1].
  inversion_clear Q1 as [| ? ? P2 Q2]. inversion_clear Q2 as [| ? ? P3 _].
  unfold cell_config_of_bytes, bytes_of_cell_config. simpl app.
  read_field 0%nat n. read_field 2%nat p0. read_field 3%nat p1. read_field 4%nat p2.
  read_field 5%nat p3. read_field 6%nat r. done.
Qed.

Lemma zlen_cell_config pad c : cell_config_ok c -> zlen (bytes_of_cell_config pad c) = sizeof_cell_config.
Proof.
  intros [Hn Hl Hp Hr]. destruct c as [n prbs r]; simpl in *. clear Hp.
  destruct prbs as [| p0 [| p1 [| p2 [| p3 [| ]]]]]; try (unfold MAX_NOF_CELL, zlen in Hl; simpl in Hl; lia).
  unfold bytes_of_cell_config. simpl app. byte_len.
Qed.

(** ** The ring of a cell keeps the last [NOF_LOG_DCI] DCIs *)

Record logs (h : list ue_dci_t) (c : sink_cell_t) : Prop := Logs {
  lg_ring : ring_holds NOF_LOG_DCI h (k_dci c) (k_header c);
  lg_nof : k_nof_logged c = Z.min (zlen h) NOF_LOG_DCI;
  lg_dl : (k_dl_reTx_t_us c, k_dl_reTx_tti c)
    = from_option (fun d => (ue_time_stamp d, ue_tti d)) (0, 0) (last (filter (fun d => dl_reTx d = 1) h));
  lg_ul : (k_ul_reTx_t_us c, k_ul_reTx_tti c)
    = from_option (fun d => (ue_time_stamp d, ue_tti d)) (0, 0) (last (filter (fun d => ul_reTx d = 1) h))
}.

Lemma logs_init : logs [] ngscope_dci_sink_cell_init.
Proof. split; try done. by apply ring_holds_nil. Qed.

Lemma logs_header h c : logs h c ->
  zlen (k_dci c) = NOF_LOG_DCI /\ k_header c = zlen h mod NOF_LOG_DCI /\ 0 <= k_header c < NOF_LOG_DCI.
Proof.
  intros [[Hl Hh _] _ _ _]. rewrite Hh. split_and!; try done; by apply Z.mod_pos_bound.
Qed.

(** Remembering the last element that satisfies a test, one element later. *)
Lemma last_filter_snoc {A B} (P : A -> Prop) `{forall x, Decision (P x)} (g : A -> B) (b : B) l x :
  from_option g b (last (filter P (l ++ [x])))
    = if decide (P x) then g x else from_option g b (last (filter P l)).
Proof.
  rewrite filter_app, filter_cons, filter_nil.
  destruct (decide (P x)); [by rewrite last_snoc | by rewrite app_nil_r].
Qed.

Lemma log_dci_logs h c d : logs h c -> exists c', log_dci c d = Some c' /\ logs (h ++ [d]) c'.
Proof.
  intros Hc. destruct (logs_header h c Hc) as (Hl & _ & Hr). destruct Hc as [Hring Hn Hd Hu].
  unfold log_dci.
  destruct (zget_some (k_dci c) (Z.rem (k_header c - 1 + NOF_LOG_DCI) NOF_LOG_DCI)) as [x ->].
  { unfold in_range. rewrite Hl. unfold NOF_LOG_DCI in *. apply rem_range; lia. }
  destruct (ring_holds_push _ _ _ _ d (eq_refl : 0 < NOF_LOG_DCI) Hring) as [-> Hring'].
  cbn [mbind option_bind]. eexists; split; [reflexivity |]. split; simpl; [done | | |].
  - rewrite Hn, zlen_app. change (zlen [d]) with 1. pose proof (zlen_nonneg h). unfold NOF_LOG_DCI. zcase; lia.
  - rewrite last_filter_snoc. destruct (Z.eqb_spec (dl_reTx d) 1), (decide (dl_reTx d = 1)); done.
  - rewrite last_filter_snoc. destruct (Z.eqb_spec (ul_reTx d) 1), (decide (ul_reTx d = 1)); done.
Qed.

Lemma logs_set_prb h c prb : logs h c -> logs h (set_prb c prb).
Proof. intros []. by split. Qed.

(** ** All cells *)

Record tracks (h : Z -> list ue_dci_t) (q : sink_CA_t) : Prop := Tracks {
  tr_cells : zlen (q_cells q) = MAX_NOF_CELL;
  tr_nof : 1 <= q_nof_cell q <= MAX_NOF_CELL;
  tr_logs : forall i c, zget (q_cells q) i = Some c -> logs (h i) c
}.

Lemma tracks_init rnti : tracks (fun _ => []) (ngscope_dciSink_ringBuf_init rnti).
Proof.
  split; [done | done |]. intros i c Hc.
  pose proof (zget_inv _ _ _ Hc) as [H0 _]. rewrite zget_lookup in Hc by done.
  unfold ngscope_dciSink_ringBuf_init in Hc. cbn [q_cells] in Hc. apply lookup_replicate in Hc as [-> _]. apply logs_init.
Qed.

Section reading.
Variable stray : sink_cell_t -> ue_dci_t.

(** Reading a cell for the CA header stays inside the model. *)
Lemma ca_scan_some h c : logs h c -> exists r, ca_scan stray c = Some r.
Proof.
  intros Hc. destruct (logs_header h c Hc) as (Hl & Hh & Hr). pose proof (lg_nof _ _ Hc) as Hn.
  pose proof (zlen_nonneg h) as H0.
  assert (exists d, dci_before_header stray c = Some d) as [d Hd].
  { unfold dci_before_header. zcase; [eauto |]. apply zget_some. unfold in_range. rewrite Hl.
    unfold NOF_LOG_DCI in *. destruct (decide (k_header c = 0)) as [E | E]; [by rewrite E in * |].
    rewrite Z.rem_small; lia. }
  unfold ca_scan, find_dci_cell_tail. rewrite Hd. cbn [mbind option_bind].
  destruct (zget_some (k_dci c) (Z.rem (k_header c - k_nof_logged c + NOF_LOG_DCI) NOF_LOG_DCI)) as [t ->].
  { unfold in_range. rewrite Hl. unfold NOF_LOG_DCI in *. apply rem_range; lia. }
  by eexists.
Qed.

(** The CA header is recomputed without touching the cells. *)
Lemma ca_update_header_total h q :
  tracks h q -> exists q', ca_update_header stray q = Some q' /\
    q_cells q' = q_cells q /\ q_nof_cell q' = q_nof_cell q.
Proof.
  intros [Hc Hn Hl]. unfold ca_update_header.
  assert (exists rows, mapM (fun i => c ← zget (q_cells q) i; ca_scan stray c) (seqZ 0 (q_nof_cell q)) = Some rows
    /\ zlen rows = q_nof_cell q) as (rows & -> & Hr).
  { edestruct (mapM_total (fun i => c ← zget (q_cells q) i; ca_scan stray c)) as (rows & Hrows & Hlen);
      [| exists rows; split; [exact Hrows | rewrite Hlen; unfold zlen; rewrite length_seqZ; lia]].
    intros i Hi%elem_of_seqZ. destruct (zget_some (q_cells q) i) as [c Ec]; [unfold in_range; lia |].
    simpl. rewrite Ec. eapply ca_scan_some, Hl, Ec. }
  cbn [mbind option_bind]. destruct (q_ready q); [| by eexists].
  rewrite <- Hr. assert (rows <> []) as Hne by (intros ->; unfold zlen in Hr; simpl in Hr; lia).
  destruct (unwrap_tti_array_len ((fun r => r.1.1.1) <$> rows)) as (hv & Hu & Hlen); [by destruct rows |].
  rewrite zlen_fmap in Hu, Hlen. rewrite Hu. cbn [mbind option_bind].
  destruct (min16_spec hv) as (m & Hm & _); [intros ->; unfold zlen in Hlen; destruct rows; done |].
  rewrite Hlen in Hm. rewrite Hm. cbn [mbind option_bind].
  destruct (max16_spec ((fun r => r.1.1.2) <$> rows)) as (m' & Hm' & _); [by destruct rows |].
  rewrite zlen_fmap in Hm'. rewrite Hm'. cbn [mbind option_bind].
  pose proof (mean_array_uint64_spec ((fun r => r.1.2) <$> rows)) as Ht. rewrite zlen_fmap in Ht.
  rewrite Ht by (by destruct rows). by eexists.
Qed.
(** One more DCI in the history of its cell. *)
Definition record_dci (h : Z -> list ue_dci_t) (d : ue_dci_t) (i : Z) : list ue_dci_t :=
  if i =? ue_cell_idx d then h i ++ [d] else h i.

Lemma insert_tracks h q d :
  tracks h q -> 0 <= ue_cell_idx d < MAX_NOF_CELL ->
  exists q', insert_single_dci stray q d = Some q' /\ tracks (record_dci h d) q'.
Proof.
  intros Ht Hd. pose proof Ht as [Hc Hn Hl]. unfold insert_single_dci.
  assert (in_range (q_cells q) (ue_cell_idx d)) as Hin by (unfold in_range; lia).
  destruct (zget_some _ _ Hin) as [c Ec]. rewrite Ec. cbn [mbind option_bind].
  destruct (log_dci_logs (h (ue_cell_idx d)) c d (Hl _ _ Ec)) as (c' & -> & Hc').
  cbn [mbind option_bind]. rewrite zset_in by done. cbn [mbind option_bind].
  assert (tracks (record_dci h d) (set_cells q (<[Z.to_nat (ue_cell_idx d) := c']> (q_cells q)))) as Ht'.
  { split; [unfold set_cells; cbn [q_cells]; by rewrite zlen_insert | exact Hn |].
    unfold set_cells. cbn [q_cells]. intros i x Hx. unfold record_dci.
    destruct (Z.eqb_spec i (ue_cell_idx d)) as [-> | Hne].
    - rewrite zget_insert_eq in Hx by done. by injection Hx as <-.
    - rewrite zget_insert_ne in Hx by (destruct Hin; congruence). by apply Hl. }
  destruct (ca_update_header_total _ _ Ht') as (q' & Hq & Hcells & Hnof).
  exists q'. split; [exact Hq |]. destruct Ht' as [H1 H2 H3]. split; [by rewrite Hcells | by rewrite Hnof | by rewrite Hcells].
Qed.

(** The history after several DCIs, and the subsequence a cell gets of them. *)
Lemma record_all h ds i :
  foldl record_dci h ds i = h i ++ filter (fun d => ue_cell_idx d = i) ds.
Proof.
  revert h. induction ds as [| d ds IH]; intros h; simpl; [by rewrite app_nil_r |].
  rewrite IH, filter_cons. unfold record_dci.
  destruct (Z.eqb_spec i (ue_cell_idx d)), (decide (ue_cell_idx d = i)); try congruence.
  by rewrite <- app_assoc.
Qed.

Definition cell_known (d : ue_dci_t) : Prop := 0 <= ue_cell_idx d < MAX_NOF_CELL.

Lemma insert_all_tracks h q ds :
  tracks h q -> Forall cell_known ds ->
  exists q', foldM (insert_single_dci stray) q ds = Some q' /\ tracks (foldl record_dci h ds) q'.
Proof.
  intros Ht Hds. revert h q Ht. induction Hds as [| d ds Hd _ IH]; intros h q Ht; [by exists q |].
  destruct (insert_tracks h q d Ht Hd) as (q1 & E1 & Ht1). simpl. rewrite E1. by apply IH.
Qed.

End reading.

Lemma config_tracks h q cfg :
  tracks h q -> 1 <= cfg_nof_cell cfg <= MAX_NOF_CELL -> zlen (cfg_cell_prb cfg) = MAX_NOF_CELL ->
  exists q', ngscope_dciSink_ringBuf_update_config q cfg = Some q' /\ tracks h q' /\
    q_nof_cell q' = cfg_nof_cell cfg /\ q_rnti q' = cfg_rnti cfg.
Proof.
  intros [Hc Hn Hl] Hcfg Hp. unfold ngscope_dciSink_ringBuf_update_config.
  loop_inv (fun _ cells => zlen cells = MAX_NOF_CELL /\ forall i c, zget cells i = Some c -> logs (h i) c)
    as (cells & -> & Hlen & Hlogs); [lia | by split | |].
  2:{ eexists; split; [reflexivity |]. by split. }
  intros i cells Hi [Hlen Hlogs].
  destruct (zget_some (cfg_cell_prb cfg) i) as [p ->]; [unfold in_range; lia |].
  destruct (zget_some cells i) as [c Ec]; [unfold in_range; lia |]. simpl. rewrite Ec. simpl.
  rewrite zset_in by (unfold in_range; lia). eexists; split; [done |]. rewrite zlen_insert. split; [done |].
  intros j x Hx. destruct (decide (i = j)) as [<- | Hne].
  - rewrite zget_insert_eq in Hx by (unfold in_range; lia). injection Hx as <-. by apply logs_set_prb, Hlogs.
  - rewrite zget_insert_ne in Hx by (done || unfold in_range; lia). by apply Hlogs.
Qed.

(** ** Parsing *)

Lemma preamble_app b pre post n :
  preamble b (pre ++ replicate n b ++ post) (zlen pre) n = Some true.
Proof.
  revert pre. induction n as [| n IH]; intros pre; [done |]. simpl.
  rewrite zget_app_mid by done. simpl. rewrite Z.eqb_refl.
  specialize (IH (pre ++ [b])). rewrite <- app_assoc, zlen_app in IH. exact IH.
Qed.

Lemma preamble_first b x pre post n :
  x <> b -> preamble b (pre ++ x :: post) (zlen pre) (S n) = Some false.
Proof. intros Hx. simpl. rewrite zget_app_mid by done. simpl. by rewrite (proj2 (Z.eqb_neq _ _) Hx). Qed.

Lemma slice_mid pre x post n : n = zlen x -> slice (pre ++ x ++ post) (zlen pre) n = Some x.
Proof.
  intros ->. unfold slice. pose proof (zlen_nonneg pre). pose proof (zlen_nonneg post).
  rewrite !zlen_app. zcase; [| lia]. zcase; [| lia]. simpl. by rewrite drop_zlen, take_zlen.
Qed.

Lemma zlen_dci_message p d v : padding_ok p -> zlen (dci_message p d v) = 45.
Proof. intros Hp. unfold dci_message. by rewrite !zlen_app, zlen_ue_dci. Qed.

Definition mark : list Z := [0xAA; 0xAA; 0xAA; 0xAA].

Section client.
Variables (stray : sink_cell_t -> ue_dci_t) (junk : ue_dci_t) (junk_cfg : cell_config_t).

Lemma recv_dci_complete pre p d post len :
  padding_ok p -> ue_dci_ok d -> zlen pre + 41 <= len ->
  recv_dci (pre ++ [0] ++ bytes_of_ue_dci p d ++ post) junk (zlen pre) len = Some (zlen pre + 41, d).
Proof.
  intros Hp Hd Hlen. unfold recv_dci. destruct (Z.leb_spec len (zlen pre + 1)); [lia |].
  change ([0] ++ bytes_of_ue_dci p d ++ post) with (0 :: bytes_of_ue_dci p d ++ post).
  rewrite zget_app_mid by done. cbn [mbind option_bind]. rewrite Z.eqb_refl.
  unfold sizeof_ue_dci. destruct (Z.ltb_spec len (zlen pre + 1 + 40)); [lia |].
  replace (zlen pre + 1) with (zlen (pre ++ [0])) by (by rewrite zlen_app).
  change (pre ++ 0 :: bytes_of_ue_dci p d ++ post) with (pre ++ [0] ++ bytes_of_ue_dci p d ++ post).
  rewrite (app_assoc pre).
  rewrite slice_mid by (by rewrite zlen_ue_dci). cbn [mbind option_bind].
  rewrite ue_dci_bytes by done. rewrite zlen_app. f_equal. f_equal. change (zlen [0]) with 1. lia.
Qed.

(** A DCI cut short makes the parser return 0, not an error. *)
Lemma recv_dci_short pre rest len :
  zlen pre + 1 < len -> len < zlen pre + 41 ->
  recv_dci (pre ++ 0 :: rest) junk (zlen pre) len = Some (0, junk).
Proof.
  intros H1 H2. unfold recv_dci. destruct (Z.leb_spec len (zlen pre + 1)); [lia |].
  rewrite zget_app_mid by done. cbn [mbind option_bind]. rewrite Z.eqb_refl.
  unfold sizeof_ue_dci. zcase; [done | lia].
Qed.

Lemma recv_marked q pre post len i d :
  recv_dci ((pre ++ mark) ++ post) junk (zlen (pre ++ mark)) len = Some (i, d) ->
  i <> zlen pre + 4 ->
  ngscope_dci_sink_recv_buffer stray junk junk_cfg q (pre ++ mark ++ post) (zlen pre) len
    = (q ← insert_single_dci stray q d; Some (i, q)).
Proof.
  rewrite <- app_assoc, zlen_app. change (zlen mark) with 4. intros Hr Hi.
  unfold ngscope_dci_sink_recv_buffer. change mark with (replicate 4 0xAA) in *. rewrite preamble_app. cbn [mbind option_bind].
  rewrite Hr. cbn [mbind option_bind]. zcase; [lia |]. done.
Qed.

Lemma recv_message q pre p d post len :
  padding_ok p -> ue_dci_ok d -> zlen pre + 45 <= len ->
  ngscope_dci_sink_recv_buffer stray junk junk_cfg q (pre ++ dci_message p d 0 ++ post) (zlen pre) len
    = (q ← insert_single_dci stray q d; Some (zlen pre + 45, q)).
Proof.
  intros Hp Hd Hlen. unfold dci_message. change (u8 0) with 0. rewrite <- !app_assoc.
  assert (zlen (pre ++ mark) = zlen pre + 4) as Hm by (by rewrite zlen_app).
  rewrite <- (recv_marked q pre ([0] ++ bytes_of_ue_dci p d ++ post) len (zlen pre + 45) d); [done | | lia].
  rewrite recv_dci_complete by (done || lia). rewrite Hm. do 2 f_equal. lia.
Qed.

Lemma recv_cut q pre rest post len :
  zlen pre + 5 < len -> len < zlen pre + 45 ->
  ngscope_dci_sink_recv_buffer stray junk junk_cfg q (pre ++ mark ++ 0 :: rest ++ post) (zlen pre) len
    = (q ← insert_single_dci stray q junk; Some (0, q)).
Proof.
  intros H1 H2. assert (zlen (pre ++ mark) = zlen pre + 4) as Hm by (by rewrite zlen_app).
  pose proof (zlen_nonneg pre). apply recv_marked; [| lia]. apply recv_dci_short; lia.
Qed.

(** The loop over complete messages [ms] that follow the prefix [pre]. *)
Definition messages (ms : list (ue_padding * ue_dci_t)) : list Z :=
  concat ((fun m => dci_message m.1 m.2 0) <$> ms).

Definition message_ok (m : ue_padding * ue_dci_t) : Prop :=
  padding_ok m.1 /\ ue_dci_ok m.2 /\ cell_known m.2.

Lemma messages_cons m ms : messages (m :: ms) = dci_message m.1 m.2 0 ++ messages ms.
Proof. done. Qed.

Lemma zlen_messages ms : Forall message_ok ms -> zlen (messages ms) = 45 * zlen ms.
Proof.
  induction 1 as [| m ms Hm _ IH]; [done |].
  rewrite messages_cons, zlen_app, zlen_cons, IH. destruct Hm as (Hp & _). rewrite zlen_dci_message by done. lia.
Qed.

Lemma client_loop_step fuel q q' pre m post len :
  message_ok m -> insert_single_dci stray q m.2 = Some q' -> zlen pre + 45 < len ->
  client_loop stray junk junk_cfg (S fuel) q (pre ++ dci_message m.1 m.2 0 ++ post) (zlen pre) len
    = client_loop stray junk junk_cfg fuel q' (pre ++ dci_message m.1 m.2 0 ++ post) (zlen pre + 45) len.
Proof.
  intros (Hp & Hd & _) Hq Hlen. cbn [client_loop]. rewrite recv_message by (done || lia).
  rewrite Hq. cbn [mbind option_bind]. pose proof (zlen_nonneg pre). zcase; [lia |]. zcase; [lia | done].
Qed.

Lemma client_loop_messages fuel q pre ms post :
  Forall message_ok ms -> ms <> [] -> (length ms <= fuel)%nat ->
  foldM (insert_single_dci stray) q (snd <$> ms) <> None ->
  client_loop stray junk junk_cfg fuel q (pre ++ messages ms ++ post) (zlen pre) (zlen pre + zlen (messages ms))
    = Parsed <$> foldM (insert_single_dci stray) q (snd <$> ms).
Proof.
  intros Hms. revert fuel q pre. induction Hms as [| m ms Hm Hms IH]; intros fuel q pre Hne Hf Hq; [done |].
  destruct fuel as [| fuel]; [simpl in Hf; lia |].
  rewrite messages_cons, fmap_cons in *. cbn [foldM] in *.
  destruct (insert_single_dci stray q m.2) as [q1 |] eqn:E; [| done].
  pose proof (zlen_nonneg pre). pose proof Hm as (Hp & Hd & _).
  rewrite zlen_app, zlen_dci_message by done. rewrite <- app_assoc.
  destruct ms as [| m2 ms].
  - change (zlen (messages [])) with 0. cbn [client_loop]. rewrite recv_message by (done || lia).
    rewrite E. cbn [mbind option_bind]. zcase; [lia |]. zcase; [done | lia].
  - assert (zlen (messages (m2 :: ms)) = 45 * zlen (m2 :: ms)) as Hz by by apply zlen_messages.
    rewrite zlen_cons in Hz. pose proof (zlen_nonneg ms).
    rewrite (client_loop_step fuel q q1) by (done || lia).
    specialize (IH fuel q1 (pre ++ dci_message m.1 m.2 0)).
    rewrite <- app_assoc, zlen_app, zlen_dci_message in IH by done.
    rewrite <- IH; [f_equal; lia | done | simpl in *; lia | done].
Qed.

(** Messages followed by one cut short: the parser goes back to the start of
    the datagram, again and again. *)
Lemma client_loop_cut fuel ms rest post : forall ms1 ms2 h q,
  1 <= zlen rest < 40 -> cell_known junk -> Forall message_ok ms -> ms = ms1 ++ ms2 -> tracks h q ->
  exists q' i, client_loop stray junk junk_cfg fuel q (messages ms ++ mark ++ 0 :: rest ++ post)
    (zlen (messages ms1)) (zlen (messages ms) + 5 + zlen rest) = Some (Parsing q' i).
Proof.
  induction fuel as [| fuel IH]; intros ms1 ms2 h q Hr Hj Hms E Ht; [by eexists _, _ |].
  pose proof Hms as Hms12. rewrite E in Hms12. apply Forall_app in Hms12 as [Hms1 Hms2].
  pose proof (zlen_nonneg (messages ms)) as H0. pose proof (zlen_nonneg ms2) as H2.
  assert (zlen (messages ms) = zlen (messages ms1) + zlen (messages ms2)) as Hsum.
  { subst ms. unfold messages. by rewrite fmap_app, concat_app, zlen_app. }
  cbn [client_loop]. destruct ms2 as [| m ms2].
  - rewrite app_nil_r in E. subst ms1. rewrite recv_cut by lia.
    destruct (insert_tracks stray h q junk Ht Hj) as (q1 & -> & Ht1). cbn [mbind option_bind].
    zcase; [lia |]. zcase; [lia |]. apply (IH [] ms _ _ Hr Hj Hms eq_refl Ht1).
  - pose proof (Forall_inv Hms2) as (Hp & Hd & Hk). rewrite messages_cons, zlen_app, zlen_dci_message in Hsum by done.
    pose proof (zlen_nonneg (messages ms2)). pose proof (zlen_nonneg (messages ms1)).
    assert (messages ms ++ mark ++ 0 :: rest ++ post
      = messages ms1 ++ dci_message m.1 m.2 0 ++ messages ms2 ++ mark ++ 0 :: rest ++ post) as Eb.
    { subst ms. unfold messages. rewrite fmap_app, concat_app, fmap_cons, <- app_assoc. f_equal.
      cbn [concat]. by rewrite <- app_assoc. }
    rewrite Eb. rewrite recv_message by (done || lia). rewrite <- Eb.
    destruct (insert_tracks stray h q m.2 Ht Hk) as (q1 & -> & Ht1). cbn [mbind option_bind].
    zcase; [lia |]. zcase; [lia |].
    destruct (IH (ms1 ++ [m]) ms2 (record_dci h m.2) q1 Hr Hj Hms) as (q' & i & Hq); [by rewrite <- app_assoc | exact Ht1 |].
    replace (zlen (messages ms1) + 45) with (zlen (messages (ms1 ++ [m]))); [by exists q', i |].
    assert (Forall message_ok (ms1 ++ [m])) by (apply Forall_app; split; [done | apply Forall_singleton, (Forall_inv Hms2)]).
    rewrite !zlen_messages, zlen_app by done. change (zlen [m]) with 1. lia.
Qed.
End client.

(** ** The list of clients *)

Record addr_ok (a : sockaddr_in) : Prop := AddrOk { ok_zero : zlen (sin_zero a) = 8 }.

Lemma sock_same_spec a b : addr_ok a -> addr_ok b -> sock_same_sock_addr a b = Some (bool_decide (a = b)).
Proof.
  intros [Ha] [Hb]. destruct a as [af ap aa za], b as [bf bp ba zb]. unfold sock_same_sock_addr. simpl in *.
  destruct ((af =? bf) && (ap =? bp) && (aa =? ba)) eqn:E.
  - rewrite !andb_true_iff, !Z.eqb_eq in E. destruct E as [[-> ->] ->].
    loop_inv (fun i m => m = bool_decide (take (Z.to_nat i) za = take (Z.to_nat i) zb)) as (m & -> & ->); [lia | done | |].
    + intros i m Hi ->. destruct (zget_some za i) as [x Hx]; [unfold in_range; lia |].
      destruct (zget_some zb i) as [y Hy]; [unfold in_range; lia |]. rewrite Hx, Hy. simpl.
      eexists; split; [done |]. rewrite zget_lookup in Hx, Hy by lia.
      replace (Z.to_nat (i + 1)) with (S (Z.to_nat i)) by lia.
      rewrite (take_S_r za _ x), (take_S_r zb _ y) by done.
      destruct (Z.eqb_spec x y) as [-> | Hne]; rewrite ?andb_true_r, ?andb_false_r.
      * apply bool_decide_ext. split; [by intros -> | by intros [? _]%app_inj_tail].
      * symmetry. apply bool_decide_eq_false. by intros [_ ?]%app_inj_tail.
    + f_equal. apply bool_decide_ext. unfold zlen in *. rewrite !take_ge by lia. split; [by intros -> | by intros [=]].
  - f_equal. symmetry. apply bool_decide_eq_false. intros [= -> -> -> ->].
    by rewrite !Z.eqb_refl in E.
Qed.

Lemma client_known_spec l a i fuel :
  addr_ok a -> Forall addr_ok l -> 0 <= i -> i + Z.of_nat fuel <= zlen l ->
  client_known l a i fuel = Some (bool_decide (a ∈ take fuel (drop (Z.to_nat i) l))).
Proof.
  intros Ha Hl. revert i. induction fuel as [| fuel IH]; intros i Hi Hf; simpl.
  { done. }
  destruct (zget_some l i) as [x Hx]; [unfold in_range; lia |]. rewrite Hx. simpl.
  rewrite zget_lookup in Hx by done.
  rewrite sock_same_spec by (done || (rewrite Forall_lookup in Hl; eauto)). simpl.
  rewrite (drop_S l x) by done. simpl. rewrite IH by lia.
  replace (Z.to_nat (i + 1)) with (S (Z.to_nat i)) by lia.
  case_bool_decide as E; [subst |]; f_equal; [symmetry; apply bool_decide_eq_true; left |].
  apply bool_decide_ext. rewrite elem_of_cons. naive_solver.
Qed.

Definition clients (q : client_list_t) : list sockaddr_in := take (Z.to_nat (nof_client q)) (client_addr q).

Record clients_ok (q : client_list_t) : Prop := ClientsOk {
  cl_len : zlen (client_addr q) = MAX_CLIENT;
  cl_nof : 0 <= nof_client q <= MAX_CLIENT;
  cl_addr : Forall addr_ok (client_addr q);
  cl_nodup : NoDup (clients q)
}.

Lemma clients_init : clients_ok sock_init_client_list.
Proof. split; [done | done | by repeat constructor | apply NoDup_nil_2]. Qed.

Lemma zlen_clients q : clients_ok q -> zlen (clients q) = nof_client q.
Proof. intros [Hl Hn _ _]. unfold clients, zlen in *. rewrite length_take. lia. Qed.

(** What registering an address does to a list. *)
Definition register (cs : list sockaddr_in) (a : sockaddr_in) : list sockaddr_in :=
  if bool_decide (a ∈ cs) || (MAX_CLIENT <=? zlen cs) then cs else cs ++ [a].

Lemma push_client_spec q a :
  clients_ok q -> addr_ok a ->
  exists q', push_client_to_vec (client_addr q) a (nof_client q) = Some (nof_client q', client_addr q') /\
    sock_update_client_list_addr q a = Some q' /\ clients_ok q' /\ clients q' = register (clients q) a.
Proof.
  intros Hq Ha. pose proof (zlen_clients q Hq) as Hz. pose proof Hq as [Hl Hn Hall Hnd].
  unfold push_client_to_vec, sock_update_client_list_addr, register. rewrite Hz.
  destruct (Z.leb_spec MAX_CLIENT (nof_client q)) as [Hf | Hf].
  { exists q. rewrite orb_true_r. do 2 (split; [done |]). done. }
  rewrite orb_false_r. rewrite client_known_spec by (done || lia). simpl. rewrite drop_0. fold (clients q).
  case_bool_decide as Hin; [exists q; do 2 (split; [done |]); done |].
  rewrite zset_in by (unfold in_range; lia). simpl.
  exists (ClientList (<[Z.to_nat (nof_client q) := a]> (client_addr q)) (nof_client q + 1)). simpl.
  assert (clients (ClientList (<[Z.to_nat (nof_client q) := a]> (client_addr q)) (nof_client q + 1)) = clients q ++ [a]) as Ec.
  { unfold clients. simpl. apply take_insert_next. lia. }
  do 2 (split; [done |]). split; [| done]. split; simpl.
  - by rewrite zlen_insert.
  - lia.
  - by apply Forall_insert.
  - rewrite Ec. apply NoDup_app. split; [done |]. split; [| apply NoDup_singleton].
    intros x Hx ->%list_elem_of_singleton. done.
Qed.

Lemma send_all_spec q msg : clients_ok q -> send_all q msg = Some ((fun a => (a, msg)) <$> clients q).
Proof.
  intros [Hl Hn _ _]. unfold send_all, clients.
  rewrite (for_range_foldl (fun out a => out ++ [(a, msg)])) by lia. f_equal.
  generalize (take (Z.to_nat (nof_client q)) (client_addr q)). intros l.
  induction l as [| x l IH] using rev_ind; [done |]. by rewrite foldl_app, fmap_app, IH.
Qed.

(** What a client gets of the datagrams sent. *)
Definition datagrams_to (a : sockaddr_in) (out : list (sockaddr_in * list Z)) : list (list Z) :=
  snd <$> filter (fun m => m.1 = a) out.

Lemma datagrams_once cs a msg : NoDup cs -> a ∈ cs -> datagrams_to a ((fun c => (c, msg)) <$> cs) = [msg].
Proof.
  unfold datagrams_to. induction 1 as [| c cs Hc _ IH]; intros Ha; [by apply not_elem_of_nil in Ha |].
  rewrite fmap_cons, filter_cons. simpl. apply elem_of_cons in Ha as [-> | Ha].
  - rewrite decide_True by done. simpl. f_equal.
    assert (filter (fun m : sockaddr_in * list Z => m.1 = c) ((fun c => (c, msg)) <$> cs) = []) as ->; [| done].
    clear IH. induction cs as [| x cs IH]; [done |]. rewrite fmap_cons, filter_cons. simpl.
    rewrite decide_False by set_solver. apply IH. set_solver.
  - rewrite decide_False by set_solver. by apply IH.
Qed.

Lemma datagrams_app a out1 out2 : datagrams_to a (out1 ++ out2) = datagrams_to a out1 ++ datagrams_to a out2.
Proof. unfold datagrams_to. by rewrite filter_app, fmap_app. Qed.

Section delivery.
Variables (stray : sink_cell_t -> ue_dci_t) (junk : ue_dci_t) (junk_cfg : cell_config_t).
Abbreviation run := (dci_sink_client_run stray junk junk_cfg 1).

(** A datagram of complete messages. *)
Lemma receive_messages fuel q q' buf ms :
  Forall message_ok ms -> ms <> [] -> (length ms <= fuel)%nat ->
  foldM (insert_single_dci stray) q (snd <$> ms) = Some q' ->
  client_receive stray junk junk_cfg fuel q buf (messages ms)
    = Some (Parsed q', messages ms ++ drop (length (messages ms)) buf).
Proof.
  intros Hms Hne Hf Hq. unfold client_receive.
  pose proof (client_loop_messages stray junk junk_cfg fuel q [] ms (drop (length (messages ms)) buf) Hms Hne Hf) as H.
  rewrite Hq in H. specialize (H ltac:(done)).
  change (zlen []) with 0 in H. rewrite Z.add_0_l, app_nil_l in H. rewrite H. cbn [mbind option_bind fmap option_fmap option_map].
  pose proof (zlen_messages ms Hms) as Hz. destruct ms as [| m ms]; [done |].
  rewrite zlen_cons in Hz. pose proof (zlen_nonneg ms). zcase; [done | lia].
Qed.

Lemma run_messages h q buf ms :
  Forall message_ok ms -> tracks h q ->
  exists q' buf', run q buf ((fun m => dci_message m.1 m.2 0) <$> ms) = Some (q', buf') /\
    tracks (foldl record_dci h (snd <$> ms)) q'.
Proof.
  intros Hms. revert h q buf. induction Hms as [| m ms Hm _ IH]; intros h q buf Ht; [by exists q, buf |].
  pose proof Hm as (_ & _ & Hk). destruct (insert_tracks stray h q m.2 Ht Hk) as (q1 & Hq1 & Ht1).
  rewrite !fmap_cons. unfold dci_sink_client_run. cbn [foldM foldl].
  pose proof (receive_messages 1 q q1 buf [m]) as Hr. rewrite messages_cons, app_nil_r in Hr.
  rewrite Hr; [| by apply Forall_singleton | done | simpl; lia | simpl; by rewrite Hq1].
  cbn [mbind option_bind]. apply IH, Ht1.
Qed.

Lemma tracks_ext h h' q : (forall i, h i = h' i) -> tracks h q -> tracks h' q.
Proof. intros E [H1 H2 H3]. split; [done | done |]. intros i c Hc. rewrite <- E. by apply H3. Qed.



(** The datagrams of a new registration, parsed by the client. *)
Lemma receive_mark q buf :
  client_receive stray junk junk_cfg 1 q buf mark = Some (Parsed q, mark ++ drop 4 buf).
Proof. reflexivity. Qed.

Lemma receive_config h q buf pad cfg :
  tracks h q -> cell_config_ok cfg -> 1 <= cfg_nof_cell cfg <= MAX_NOF_CELL ->
  exists q' buf', client_receive stray junk junk_cfg 1 q buf (config_message pad cfg) = Some (Parsed q', buf') /\
    tracks h q' /\ q_nof_cell q' = cfg_nof_cell cfg /\ q_rnti q' = cfg_rnti cfg.
Proof.
  intros Ht Hcfg Hn. destruct (config_tracks h q cfg Ht Hn (ok_prbs _ Hcfg)) as (q' & Hq & Ht').
  assert (zlen (config_message pad cfg) = 16) as Hz by (unfold config_message; by rewrite zlen_app, zlen_cell_config).
  unfold client_receive. rewrite Hz. cbn [Z.ltb Z.compare client_loop].
  generalize (drop (length (config_message pad cfg)) buf) as post. intros post.
  unfold ngscope_dci_sink_recv_buffer, config_message. rewrite <- app_assoc.
  pose proof (preamble_app 0xBB [] (bytes_of_cell_config pad cfg ++ post) 4) as Hp.
  cbn [app] in *. change (zlen []) with 0 in Hp. change (replicate 4 187) with [187; 187; 187; 187] in Hp. cbn [app] in Hp.
  rewrite Hp. change (preamble 170 _ 0 4) with (Some false). cbn [mbind option_bind].
  unfold recv_config, sizeof_cell_config. cbn [Z.add Z.ltb Z.compare].
  rewrite (slice_mid [187; 187; 187; 187] (bytes_of_cell_config pad cfg) post 12 ltac:(by rewrite zlen_cell_config) : slice (187 :: _) (0 + 4) 12 = _).
  cbn [mbind option_bind]. rewrite cell_config_bytes by done.
  pose proof (ok_prbs _ Hcfg) as Hl.
  loop_inv (fun (_ : Z) (_ : unit) => True) as (u & -> & _); [lia | done | |].
  { intros i s Hi _. destruct (zget_some (cfg_cell_prb cfg) i) as [p ->]; [unfold in_range; lia |]. by exists tt. }
  change (16 <? 0 + 4 + 12) with false. cbn [mbind option_bind]. change (0 + 4 =? 0 + 4 + 12) with false.
  rewrite Hq. cbn [mbind option_bind].
  by eexists _, _.
Qed.

(** The server's own list and the shared one stay the same. *)
Record server_ok (s : server_t) : Prop := ServerOk {
  sv_own_ok : clients_ok (ClientList (sv_addr s) (sv_nof s));
  sv_list_ok : clients_ok (sv_list s);
  sv_same : clients (ClientList (sv_addr s) (sv_nof s)) = clients (sv_list s)
}.

Definition server_init : server_t :=
  Server (client_addr sock_init_client_list) 0 sock_init_client_list.

Lemma register_len cs a : zlen (register cs a) = zlen cs \/ zlen (register cs a) = zlen cs + 1 /\ register cs a = cs ++ [a].
Proof. unfold register. destruct (_ || _); [by left | right]. by rewrite zlen_app. Qed.

Lemma server_recv_spec s pad cfg rest a :
  server_ok s -> addr_ok a ->
  let cs := clients (sv_list s) in
  exists s', dci_sink_server_recv s pad cfg ([0xCC; 0xCC; 0xCC; 0xCC] ++ rest) a
      = Some (s', if bool_decide (register cs a = cs) then []
                  else (a, mark) :: (a, mark) :: ((fun c => (c, config_message pad cfg)) <$> register cs a)) /\
    server_ok s' /\ clients (sv_list s') = register cs a.
Proof.
  intros [Hown Hlist Hsame] Ha cs.
  destruct (push_client_spec _ a Hown Ha) as (own & Hpush & _ & Hown' & Ec).
  destruct (push_client_spec _ a Hlist Ha) as (cl & _ & Hup & Hcl & Ecl).
  pose proof (zlen_clients _ Hown) as Hz. pose proof (zlen_clients _ Hown') as Hz'.
  rewrite Hsame in Hz, Ec. fold cs in Hz, Ec, Ecl. simpl in Hz, Hpush. rewrite Ec in Hz'.
  unfold dci_sink_server_recv. change (preamble 204 _ 0 4) with (Some true). cbn [mbind option_bind].
  rewrite Hpush. cbn [mbind option_bind]. rewrite <- Hz, <- Hz', Hup.
  destruct (register_len cs a) as [El | [El Er]].
  - assert (register cs a = cs) as Er.
    { unfold register in *. destruct (_ || _); [done |]. rewrite zlen_app in El. change (zlen [a]) with 1 in El. lia. }
    rewrite bool_decide_true by done. rewrite Er in Ec, Ecl, Hz' |- *. rewrite Z.ltb_irrefl.
    eexists; split; [reflexivity |]. cbn [sv_list]. split; [| done].
    split; cbn [sv_addr sv_nof sv_list]; [| done |].
    + rewrite Hz'. by destruct own.
    + rewrite Hz'. destruct own. exact Ec.
  - rewrite bool_decide_false by (intros E; rewrite E in El; lia).
    rewrite El. zcase; [| lia]. cbn [mbind option_bind]. unfold sock_send_config. rewrite send_all_spec by done.
    cbn [mbind option_bind]. rewrite Ecl. eexists; split; [reflexivity |]. cbn [sv_list]. split; [| done].
    rewrite El in Hz'. rewrite Hz'. split; cbn [sv_addr sv_nof sv_list]; [by destruct own | done |].
    rewrite Ecl, <- Ec. by destruct own.
Qed.

(** A connection request registers its address unless it is
    known or five clients are; the lists of the server stay bounded, without
    duplicates and equal. Only a new client is answered: with two
    acknowledgements and, like every client, the configuration, which makes the
    client's ring buffers follow it. *)
Theorem registration_configures s pad cfg rest a h q buf :
  server_ok s -> addr_ok a -> cell_config_ok cfg -> 1 <= cfg_nof_cell cfg <= MAX_NOF_CELL -> tracks h q ->
  exists s' out,
    dci_sink_server_recv s pad cfg ([0xCC; 0xCC; 0xCC; 0xCC] ++ rest) a = Some (s', out) /\
    server_ok s' /\ clients (sv_list s') = register (clients (sv_list s)) a /\
    (a ∈ clients (sv_list s) \/ zlen (clients (sv_list s)) = MAX_CLIENT -> out = []) /\
    (a ∉ clients (sv_list s) -> zlen (clients (sv_list s)) < MAX_CLIENT ->
     exists q' buf', run q buf (datagrams_to a out) = Some (q', buf') /\
       tracks h q' /\ q_nof_cell q' = cfg_nof_cell cfg /\ q_rnti q' = cfg_rnti cfg).
Proof.
  intros Hs Ha Hcfg Hn Ht. destruct (server_recv_spec s pad cfg rest a Hs Ha) as (s' & Hr & Hs' & Hc).
  eexists s', _. split; [exact Hr |]. split; [done |]. split; [done |]. split.
  - intros Hk. rewrite bool_decide_true; [done |]. unfold register.
    destruct Hk as [Hk | Hk]; [by rewrite bool_decide_true |]. rewrite Hk. by rewrite orb_true_r.
  - intros Hk Hf. rewrite bool_decide_false.
    2:{ unfold register. rewrite bool_decide_false by done. zcase; [lia |]. simpl.
        intros E%(f_equal zlen). rewrite zlen_app in E. change (zlen [a]) with 1 in E. lia. }
    unfold datagrams_to. rewrite !filter_cons. cbn [fst]. rewrite !decide_True by done.
    rewrite !fmap_cons. fold (datagrams_to a ((fun c => (c, config_message pad cfg)) <$> register (clients (sv_list s)) a)).
    rewrite datagrams_once.
    2:{ rewrite <- Hc. apply Hs'. }
    2:{ unfold register. rewrite bool_decide_false by done. zcase; [lia |]. simpl. set_solver. }
    unfold dci_sink_client_run. cbn [foldM snd]. rewrite receive_mark. cbn [mbind option_bind].
    rewrite receive_mark. cbn [mbind option_bind].
    destruct (receive_config h q (mark ++ drop 4 (mark ++ drop 4 buf)) pad cfg Ht Hcfg Hn) as (q' & buf' & -> & H).
    by exists q', buf'.
Qed.
End delivery.

(** ** The CA header *)

Section header.
Variable stray : sink_cell_t -> ue_dci_t.

(** Away from position 0 the scan of a cell reads its last DCI. *)
Lemma ca_scan_last h c d :
  logs h c -> last h = Some d -> k_header c <> 0 ->
  exists t s, ca_scan stray c = Some (ue_tti d, t, s, true) /\ s = ue_time_stamp d.
Proof.
  intros Hl Hd Hne. destruct (ca_scan_some stray h c Hl) as [r Hr]. destruct (logs_header h c Hl) as (Hlen & Hh & Hb).
  pose proof (rh_at _ _ _ _ (lg_ring _ _ Hl)) as Ha.
  assert (dci_before_header stray c = Some d) as Ed.
  { unfold dci_before_header. unfold NOF_LOG_DCI in *. rewrite Z.rem_small by lia. zcase; [lia |].
    rewrite last_lookup in Hd.
    assert (0 < zlen h) as Hpos by (destruct h; [done | rewrite zlen_cons; pose proof (zlen_nonneg h); lia]).
    rewrite <- (Ha (zlen h - 1) d); [f_equal; lia | lia |].
    rewrite zget_lookup by lia. rewrite <- Hd. f_equal. unfold zlen. lia. }
  unfold ca_scan in *. rewrite Ed in *. cbn [mbind option_bind] in *.
  destruct (find_dci_cell_tail c); [| done]. cbn [mbind option_bind] in *.
  rewrite (proj2 (Z.eqb_neq _ _) Hne). by eexists _, _.
Qed.

(** The earliest TTI of a window, through the unwrapping of the array. *)
Lemma min_tti_window base os :
  0 <= base < MAX_TTI -> os <> [] -> Forall (fun o => 0 <= o < 5120) os ->
  exists l t m, unwrap_tti_array ((fun o => (base + o) mod MAX_TTI) <$> os) (zlen os) = Some l /\
    min_in_array_uint16_v l (zlen os) = Some t /\ wrap_tti t = (base + m) mod MAX_TTI /\
    m ∈ os /\ forall o, o ∈ os -> m <= o.
Proof.
  intros Hb Hne Hos. set (l := (fun o => (base + o) mod MAX_TTI) <$> os).
  assert (zlen os = zlen l) as El by (unfold l; by rewrite zlen_fmap).
  assert (l <> []) as Hl by (unfold l; by destruct os).
  destruct (decide (zlen l = 1)) as [E1 | E1].
  - destruct os as [| o [| o2 os']]; [done | | rewrite El, E1 in *; unfold zlen in El; simpl in El; lia].
    destruct (min16_spec l Hl) as (t & Ht & ->%list_elem_of_singleton & _). rewrite E1 in Ht.
    exists l, ((base + o) mod MAX_TTI), o. rewrite El, E1. split; [done |]. split; [exact Ht |].
    split; [apply Zmod_mod |]. split; [apply list_elem_of_here |].
    intros o' ->%list_elem_of_singleton. lia.
  - destruct (max16_spec l Hl) as (M & HM & Hin & Hmax). rewrite El.
    rewrite (unwrap_tti_array_spec l M) by done.
    destruct (unwrap_window base M os Hb Hos Hin Hmax) as (c & Hc & Hmap). fold l in Hmap. rewrite Hmap.
    destruct (min16_spec ((fun o => base + o + c) <$> os)) as (t & Ht & Htin & Htmin); [by destruct os |].
    rewrite zlen_fmap, El in Ht. apply list_elem_of_fmap in Htin as (m & -> & Hm).
    exists ((fun o => base + o + c) <$> os), (base + m + c), m.
    split; [done |]. split; [done |]. split; [unfold wrap_tti, MAX_TTI in *; lia |]. split; [done |].
    intros o Ho. assert (base + m + c <= base + o + c); [| lia]. apply Htmin, list_elem_of_fmap. eauto.
Qed.

(** Once all cells have started, and while none of their rings is
    at position 0, the CA header is the subframe that every cell has reached:
    the earliest of the cells' last TTIs, counted through the wrap at 10240,
    for cells less than half a period apart. *)
Theorem ca_header_earliest h q base os :
  tracks h q -> q_ready q = true -> zlen os = q_nof_cell q ->
  0 <= base < MAX_TTI -> Forall (fun o => 0 <= o < 5120) os ->
  (forall i o, zget os i = Some o ->
    zlen (h i) mod NOF_LOG_DCI <> 0 /\ ue_tti <$> last (h i) = Some ((base + o) mod MAX_TTI)) ->
  exists q' m, ca_update_header stray q = Some q' /\
    q_header q' = (base + m) mod MAX_TTI /\ m ∈ os /\ (forall o, o ∈ os -> m <= o) /\
    q_ready q' = true /\ q_cells q' = q_cells q.
Proof.
  intros Ht Hr Hos Hb Hw Hlast. destruct (ca_update_header_total stray h q Ht) as (q' & Hq & Hc & Hn).
  destruct Ht as [Hcells Hnof Hlogs]. pose proof Hq as Hq0. unfold ca_update_header in Hq. rewrite Hr in Hq.
  destruct (mapM (fun i => c ← zget (q_cells q) i; ca_scan stray c) (seqZ 0 (q_nof_cell q))) as [rows |] eqn:E; [| done].
  assert (zlen rows = zlen os) as Hlen.
  { apply length_mapM in E. rewrite length_seqZ in E. unfold zlen in *. lia. }
  assert ((fun r => r.1.1.1) <$> rows = (fun o => (base + o) mod MAX_TTI) <$> os) as Erows.
  { apply mapM_Some in E. apply (list_eq_same_length _ _ (length os));
      [by rewrite length_fmap | rewrite length_fmap; unfold zlen in Hlen; lia |].
    intros i x y Hi. rewrite !list_lookup_fmap. intros (r & Er & ->)%fmap_Some (o & Eo & ->)%fmap_Some.
    destruct (Forall2_lookup_r _ _ _ _ _ E Er) as (z & Ez & Hz). apply lookup_seqZ in Ez as [-> Hi'].
    destruct (zget (q_cells q) (0 + Z.of_nat i)) as [c |] eqn:Ec; [| done]. cbn [mbind option_bind] in Hz.
    destruct (Hlast (0 + Z.of_nat i) o) as [Hne Hd]; [rewrite zget_lookup by lia; by rewrite Z.add_0_l, Nat2Z.id |].
    apply fmap_Some in Hd as (d & Hd & Et). pose proof (Hlogs _ _ Ec) as Hl.
    destruct (ca_scan_last _ c d Hl Hd) as (t & s & Hs & _); [by rewrite (rh_header _ _ _ _ (lg_ring _ _ Hl)) |].
    rewrite Hs in Hz. injection Hz as <-. by rewrite Et. }
  assert (os <> []) as Hne by (intros ->; unfold zlen in Hos; simpl in Hos; lia).
  destruct (min_tti_window base os Hb Hne Hw) as (l & t & m & Hu & Hmin & Hwrap & Hm & Hleast).
  cbn [mbind option_bind] in Hq. rewrite Erows, <- Hos, Hu in Hq. cbn [mbind option_bind] in Hq.
  rewrite Hmin in Hq. exists q', m. split; [exact Hq0 |]. clear Hq0. bind_inv. by repeat split.
Qed.

End header.

(** A cell whose ring is at position 0 makes the CA header, and the time, those
    of the memory before its ring. *)
Lemma header_zero_reads_stray stray q c :
  q_ready q = true -> q_nof_cell q = 1 -> zget (q_cells q) 0 = Some c -> k_header c = 0 ->
  zlen (k_dci c) = NOF_LOG_DCI -> 0 <= k_nof_logged c <= NOF_LOG_DCI ->
  exists q', ca_update_header stray q = Some q' /\
    q_header q' = wrap_tti (ue_tti (stray c)) /\ q_curr_time q' = u64 (ue_time_stamp (stray c)).
Proof.
  intros Hr Hn Hc Hh Hl Hnof. unfold ca_update_header. rewrite Hn, Hr. change (seqZ 0 1) with [0].
  cbn [mapM]. rewrite Hc. cbn [mbind option_bind].
  destruct (zget_some (k_dci c) (Z.rem (0 - k_nof_logged c + NOF_LOG_DCI) NOF_LOG_DCI)) as [t Et].
  { unfold in_range. rewrite Hl. unfold NOF_LOG_DCI in *. apply rem_range; lia. }
  unfold ca_scan, dci_before_header, find_dci_cell_tail. rewrite Hh, Et.
  change (Z.rem (0 - 1) NOF_LOG_DCI =? -1) with true. cbn [mbind option_bind].
  cbn [fmap list_fmap fst snd mret option_ret mbind option_bind].
  change (unwrap_tti_array [ue_tti (stray c)] 1) with (Some [ue_tti (stray c)]). cbn [mbind option_bind].
  destruct (min16_spec [ue_tti (stray c)]) as (m & Hm & ->%list_elem_of_singleton & _); [done |].
  change (zlen [_]) with 1 in Hm. rewrite Hm. cbn [mbind option_bind].
  destruct (max16_spec [ue_tti t]) as (m & Hm' & _); [done |].
  change (zlen [_]) with 1 in Hm'. rewrite Hm'. cbn [mbind option_bind].
  pose proof (mean_array_uint64_spec [ue_time_stamp (stray c)]) as Ht. change (zlen [_]) with 1 in Ht.
  rewrite Ht by done. cbn [mbind option_bind]. eexists; split; [reflexivity |]. cbn [q_header q_curr_time].
  split; [done |]. cbn [foldl]. rewrite Z.add_0_l. change (u64 1) with 1. apply Z.div_1_r.
Qed.

(** ** Witnesses *)

Definition ex_dci (c t : Z) : ue_dci_t := UeDci c (1000 * t) t 61 1000 0 false 0 1 false.
Definition ex_pad : ue_padding := UePadding [1; 2; 3; 4; 5; 6; 7] [8; 9] [0; 0; 0; 0; 0; 0].
Definition ex_addr : sockaddr_in := SockAddr 2 6767 16777343 (replicate 8 0).
Definition ex_clients : client_list_t := ClientList (ex_addr :: replicate 4 zero_addr) 1.
Definition ex_stray (_ : sink_cell_t) : ue_dci_t := zero_ue_dci.
Definition ex_cfg : cell_config_t := CellConfig 2 [50; 100; 0; 0] 61.
Definition ex_ms : list (ue_padding * ue_dci_t) := [(ex_pad, ex_dci 0 5); (ex_pad, ex_dci 1 5); (ex_pad, ex_dci 0 6)].

Lemma ex_clients_ok : clients_ok ex_clients.
Proof. split; [done | done | by repeat constructor | apply NoDup_singleton]. Qed.

Lemma ex_ms_ok : Forall message_ok ex_ms.
Proof. repeat constructor; simpl; lia. Qed.

Lemma server_init_ok : server_ok server_init.
Proof. split; [apply clients_init | apply clients_init | done]. Qed.



Lemma registration_configures_witness :
  exists s' out,
    dci_sink_server_recv server_init 0 ex_cfg ([0xCC; 0xCC; 0xCC; 0xCC] ++ replicate 1396 0) ex_addr = Some (s', out) /\
    server_ok s' /\ clients (sv_list s') = register (clients (sv_list server_init)) ex_addr /\
    (ex_addr ∈ clients (sv_list server_init) \/ zlen (clients (sv_list server_init)) = MAX_CLIENT -> out = []) /\
    (ex_addr ∉ clients (sv_list server_init) -> zlen (clients (sv_list server_init)) < MAX_CLIENT ->
     exists q' buf', dci_sink_client_run ex_stray zero_ue_dci ex_cfg 1 (ngscope_dciSink_ringBuf_init 61)
         (replicate 1400 0) (datagrams_to ex_addr out) = Some (q', buf') /\
       tracks (fun _ => []) q' /\ q_nof_cell q' = cfg_nof_cell ex_cfg /\ q_rnti q' = cfg_rnti ex_cfg).
Proof.
  apply (registration_configures ex_stray zero_ue_dci ex_cfg server_init 0 ex_cfg (replicate 1396 0) ex_addr (fun _ => []));
    [apply server_init_ok | done | by repeat constructor | unfold MAX_NOF_CELL; simpl; lia | apply tracks_init].
Defined.

(** Two started cells, the second a subframe behind across the wrap. *)
Definition ex_cell (d : ue_dci_t) : sink_cell_t := default ngscope_dci_sink_cell_init (log_dci ngscope_dci_sink_cell_init d).
Definition ex_sink : sink_CA_t :=
  SinkCA true 0 0 2 0 61 [ex_cell (ex_dci 0 3); ex_cell (ex_dci 1 10239); ngscope_dci_sink_cell_init; ngscope_dci_sink_cell_init].
Definition ex_hist (i : Z) : list ue_dci_t :=
  match i with 0 => [ex_dci 0 3] | 1 => [ex_dci 1 10239] | _ => [] end.

Lemma ex_cell_logs d : logs [d] (ex_cell d).
Proof.
  destruct (log_dci_logs [] _ d logs_init) as (c & Hc & Hl). unfold ex_cell. by rewrite Hc.
Qed.

Lemma ex_sink_tracks : tracks ex_hist ex_sink.
Proof.
  split; [done | done |]. intros i c Hc. pose proof (zget_inv _ _ _ Hc) as [H0 H1].
  unfold zlen in H1. simpl length in H1.
  assert (i = 0 \/ i = 1 \/ i = 2 \/ i = 3) as [-> | [-> | [-> | ->]]] by lia;
    cbn in Hc; injection Hc as <-; apply ex_cell_logs || apply logs_init.
Qed.

Lemma ca_header_earliest_witness :
  exists q' m, ca_update_header ex_stray ex_sink = Some q' /\
    q_header q' = (10239 + m) mod MAX_TTI /\ m ∈ [4; 0] /\ (forall o, o ∈ [4; 0] -> m <= o) /\
    q_ready q' = true /\ q_cells q' = q_cells ex_sink.
Proof.
  apply (ca_header_earliest ex_stray ex_hist ex_sink 10239 [4; 0]);
    [apply ex_sink_tracks | done | done | unfold MAX_TTI; lia | repeat constructor; lia |].
  intros i o Ho. pose proof (zget_inv _ _ _ Ho) as [H0 H1]. unfold zlen in H1. simpl length in H1.
  assert (i = 0 \/ i = 1) as [-> | ->] by lia; cbn in Ho; injection Ho as <-; done.
Defined.

(** The tail is not unwrapped: with first TTIs 10239 and 0 it is one past
    10239, a subframe neither cell has logged as its latest start. *)
Example tail_not_unwrapped :
  q_tail <$> ca_update_header ex_stray
    (SinkCA true 0 0 2 0 61 [ex_cell (ex_dci 0 10239); ex_cell (ex_dci 1 1); ngscope_dci_sink_cell_init; ngscope_dci_sink_cell_init])
    = Some 0.
Proof. vm_compute. reflexivity. Qed.

(** A message of an unknown protocol version inserts the uninitialised variable. *)
Example unknown_version_inserts :
  (fun r => (r.1, k_nof_logged <$> zget (q_cells r.2) 2))
    <$> ngscope_dci_sink_recv_buffer ex_stray (ex_dci 2 77) ex_cfg (ngscope_dciSink_ringBuf_init 61)
          (dci_message ex_pad (ex_dci 0 5) 1 ++ replicate 100 0) 0 45
  = Some (5, Some 1).
Proof. vm_compute. reflexivity. Qed.

(** A cell index from the network outside the four rings, and a configuration
    of five cells: the code writes outside its arrays. *)
Example cell_index_out_of_range :
  ngscope_dci_sink_recv_buffer ex_stray zero_ue_dci ex_cfg (ngscope_dciSink_ringBuf_init 61)
    (dci_message ex_pad (ex_dci 4 5) 0 ++ replicate 100 0) 0 45 = None.
Proof. vm_compute. reflexivity. Qed.

Example nof_cell_out_of_range :
  ngscope_dciSink_ringBuf_update_config (ngscope_dciSink_ringBuf_init 61) (CellConfig 5 [50; 50; 50; 50] 61) = None.
Proof. vm_compute. reflexivity. Qed.
