(* ===== verification/UeTracker.v ===== *)
(** * Active UE tracking ([ngscope/src/dciLib/ue_tracker.c])

    Per-RNTI counters and the table of the ten most frequently observed RNTIs,
    kept sorted by in-place shifts and swaps. The 65536-entry arrays are
    indexed by a [uint16_t] and so never left; they are finite maps with
    default 0 (the array of flags is the set of RNTIs it marks). The table is
    a pair of C arrays. *)

From S2P Require Import Prelude NgUtil.

Definition TOPN : Z := 10.
Definition ACTIVE_TTI_T : Z := 20.
Definition ACTIVE_UE_CNT_THD : Z := 50.
Definition ACTIVE_UE_THD_T : Z := 5000.
Definition INACTIVE_UE_THD_T : Z := 500.

Record ngscope_ue_tracker_t := UeTracker {
  active_ue_list : gset Z;
  ue_cnt : gmap Z Z; ue_dl_cnt : gmap Z Z; ue_ul_cnt : gmap Z Z;
  ue_last_active : gmap Z Z; ue_enter_time : gmap Z Z;
  top_N_ue_rnti : list Z; top_N_ue_freq : list Z;
  max_freq_ue : Z; max_dl_freq_ue : Z; max_ul_freq_ue : Z; nof_active_ue : Z
}.

(** Array read. *)
Definition aget (m : gmap Z Z) (i : Z) : Z := default 0 (m !! i).

Lemma aget_eq m i v : aget (<[i := v]> m) i = v.
Proof. unfold aget. by rewrite lookup_insert_eq. Qed.

Lemma aget_ne m i j v : i <> j -> aget (<[i := v]> m) j = aget m j.
Proof. intros H. unfold aget. by rewrite lookup_insert_ne. Qed.

Definition with_top (q : ngscope_ue_tracker_t) (rn fr : list Z) : ngscope_ue_tracker_t :=
  UeTracker (active_ue_list q) (ue_cnt q) (ue_dl_cnt q) (ue_ul_cnt q) (ue_last_active q) (ue_enter_time q)
    rn fr (max_freq_ue q) (max_dl_freq_ue q) (max_ul_freq_ue q) (nof_active_ue q).

(** ** Operations *)

(** The loop stops before index 65535, whose entries keep their value. *)
Definition ngscope_ue_tracker_init (q : ngscope_ue_tracker_t) : ngscope_ue_tracker_t :=
  let keep (m : gmap Z Z) := filter (fun p => p.1 = 65535) m in
  UeTracker (active_ue_list q ∩ {[65535]}) (keep (ue_cnt q)) (keep (ue_dl_cnt q)) (keep (ue_ul_cnt q))
    (keep (ue_last_active q)) (keep (ue_enter_time q))
    (replicate (Z.to_nat TOPN) 0) (replicate (Z.to_nat TOPN) 0) 0 0 0 0.

(** One iteration of the search for the most frequent active RNTI below the
    table. *)
Definition top_n_step (q : ngscope_ue_tracker_t) (max_freq : Z) (acc : Z * Z) (i : Z) : Z * Z :=
  let c := aget (ue_cnt q) i in
  if (c <? max_freq) && (acc.2 <? c) && bool_decide (i ∈ active_ue_list q) then (i, c) else acc.

Definition find_top_n_ue (q : ngscope_ue_tracker_t) (top_n : Z) : option Z :=
  max_freq ← zget (top_N_ue_freq q) (top_n - 1);
  Some (foldl (top_n_step q max_freq) (0, 0) (seqZ 0 65536)).1.

Definition clear_ue (q : ngscope_ue_tracker_t) (rnti : Z) : ngscope_ue_tracker_t :=
  UeTracker (active_ue_list q ∖ {[rnti]}) (<[rnti := 0]> (ue_cnt q)) (<[rnti := 0]> (ue_dl_cnt q))
    (<[rnti := 0]> (ue_ul_cnt q)) (<[rnti := 0]> (ue_last_active q)) (<[rnti := 0]> (ue_enter_time q))
    (top_N_ue_rnti q) (top_N_ue_freq q) (max_freq_ue q) (max_dl_freq_ue q) (max_ul_freq_ue q) (nof_active_ue q).

Definition remove_ue_from_list (q : ngscope_ue_tracker_t) (rnti : Z) : option ngscope_ue_tracker_t :=
  let q := clear_ue q rnti in
  i ← find_from (top_N_ue_rnti q) rnti 0 (Z.to_nat TOPN);
  if i <? 0 then Some q
  else
    rn ← shift_array_uint16_left (top_N_ue_rnti q) TOPN i;
    fr ← shift_array_uint32_left (top_N_ue_freq q) TOPN i;
    rn ← zset rn (TOPN - 1) 0;
    fr ← zset fr (TOPN - 1) 0;
    let q := with_top q rn fr in
    index ← find_top_n_ue q (TOPN - 1);
    if 0 <? index then
      rn ← zset rn (TOPN - 1) (u16 index);
      fr ← zset fr (TOPN - 1) (aget (ue_cnt q) index);
      Some (with_top q rn fr)
    else Some q.

(** First index of the table whose frequency is below [v], or -1; the table
    loops stop there. *)
Fixpoint first_below (fr : list Z) (v i : Z) (fuel : nat) : option Z :=
  match fuel with
  | O => Some (-1)
  | S n => f ← zget fr i; if f <? v then Some i else first_below fr v (i + 1) n
  end.

Definition update_ue_tracker_topN (q : ngscope_ue_tracker_t) (rnti : Z)
  : option (bool * ngscope_ue_tracker_t) :=
  let cnt := aget (ue_cnt q) rnti in
  idx ← find_from (top_N_ue_rnti q) rnti 0 (Z.to_nat TOPN);
  if 0 <=? idx then
    fr ← zset (top_N_ue_freq q) idx cnt;
    i ← first_below fr cnt 0 (Z.to_nat TOPN);
    if (0 <=? i) && (i <? idx) then
      rn ← swap_array_uint16 (top_N_ue_rnti q) TOPN i idx;
      fr ← swap_array_uint32 fr TOPN i idx;
      Some (true, with_top q rn fr)
    else Some (false, with_top q (top_N_ue_rnti q) fr)
  else if bool_decide (rnti ∈ active_ue_list q) then
    i ← first_below (top_N_ue_freq q) cnt 0 (Z.to_nat TOPN);
    if 0 <=? i then
      fr ← shift_array_uint32_right (top_N_ue_freq q) TOPN i;
      fr ← zset fr i cnt;
      rn ← shift_array_uint16_right (top_N_ue_rnti q) TOPN i;
      rn ← zset rn i rnti;
      Some (true, with_top q rn fr)
    else Some (false, q)
  else Some (false, q).

(** The test of one RNTI; an RNTI that was not observed is left alone in both
    branches of the C code. *)
Definition kick_ue (tti : Z) (q : ngscope_ue_tracker_t) (i : Z) : option ngscope_ue_tracker_t :=
  if aget (ue_cnt q) i =? 0 then Some q
  else
    t_diff ← tti_difference (aget (ue_last_active q) i) tti;
    let thd := if bool_decide (i ∈ active_ue_list q) then ACTIVE_UE_THD_T else INACTIVE_UE_THD_T in
    if thd <=? t_diff then remove_ue_from_list q i else Some q.

Definition kick_inactive_ue (q : ngscope_ue_tracker_t) (tti : Z) : option (ngscope_ue_tracker_t * Z) :=
  for_range 0 65536
    (fun '(q, active_ue) i =>
       q ← kick_ue tti q i;
       Some (q, if bool_decide (i ∈ active_ue_list q) then active_ue + 1 else active_ue)) (q, 0).

Definition ngscope_ue_tracker_enqueue_ue_rnti (q : ngscope_ue_tracker_t) (tti rnti : Z) (dl : bool)
  : option ngscope_ue_tracker_t :=
  let enter := if aget (ue_cnt q) rnti =? 0 then <[rnti := tti]> (ue_enter_time q) else ue_enter_time q in
  let cnt := <[rnti := u32 (aget (ue_cnt q) rnti + 1)]> (ue_cnt q) in
  let dlc := if dl then <[rnti := u32 (aget (ue_dl_cnt q) rnti + 1)]> (ue_dl_cnt q) else ue_dl_cnt q in
  let ulc := if dl then ue_ul_cnt q else <[rnti := u32 (aget (ue_ul_cnt q) rnti + 1)]> (ue_ul_cnt q) in
  d ← tti_difference (aget (ue_last_active q) rnti) tti;
  let act := if (d <? ACTIVE_TTI_T) || (ACTIVE_UE_CNT_THD <? aget cnt rnti)
             then {[rnti]} ∪ active_ue_list q else active_ue_list q in
  snd <$> update_ue_tracker_topN
    (UeTracker act cnt dlc ulc (<[rnti := tti]> (ue_last_active q)) enter
       (top_N_ue_rnti q) (top_N_ue_freq q) (max_freq_ue q) (max_dl_freq_ue q) (max_ul_freq_ue q)
       (nof_active_ue q)) rnti.

Definition ngscope_ue_tracker_update_per_tti (q : ngscope_ue_tracker_t) (tti : Z)
  : option ngscope_ue_tracker_t :=
  '(q, n) ← kick_inactive_ue q tti;
  Some (UeTracker (active_ue_list q) (ue_cnt q) (ue_dl_cnt q) (ue_ul_cnt q) (ue_last_active q)
          (ue_enter_time q) (top_N_ue_rnti q) (top_N_ue_freq q) (max_freq_ue q) (max_dl_freq_ue q)
          (max_ul_freq_ue q) (u16 n)).

(** ** The table invariant

    The table is a list [L] of (RNTI, frequency) pairs, most frequent first;
    unused entries are (0, 0), used ones carry the RNTI's counter. *)

Definition entry_ok (cnt : gmap Z Z) (p : Z * Z) : Prop :=
  p = (0, 0) \/ (p.1 <> 0 /\ p.2 = aget cnt p.1 /\ 0 < p.2).

Definition desc : list Z -> Prop := StronglySorted (fun x y => y <= x).

Record table (cnt : gmap Z Z) (L : list (Z * Z)) : Prop := Table {
  tb_len : zlen L = TOPN;
  tb_sorted : desc (snd <$> L);
  tb_entries : Forall (entry_ok cnt) L;
  tb_nodup : NoDup (filter (fun r => r <> 0) (fst <$> L))
}.

Definition top_inv (q : ngscope_ue_tracker_t) : Prop :=
  exists L, top_N_ue_rnti q = fst <$> L /\ top_N_ue_freq q = snd <$> L /\ table (ue_cnt q) L.

(** Every active RNTI outside the table is at most as frequent as all of it. *)
Definition top_complete (q : ngscope_ue_tracker_t) : Prop :=
  forall r, r <> 0 -> r ∈ active_ue_list q -> r ∉ top_N_ue_rnti q ->
    Forall (fun f => aget (ue_cnt q) r <= f) (top_N_ue_freq q).

Lemma desc_app l1 l2 :
  desc (l1 ++ l2) <-> desc l1 /\ desc l2 /\ forall x y, x ∈ l1 -> y ∈ l2 -> y <= x.
Proof. unfold desc. rewrite StronglySorted_app. naive_solver. Qed.

Lemma desc_cons x l : desc (x :: l) <-> desc l /\ forall y, y ∈ l -> y <= x.
Proof. unfold desc. rewrite StronglySorted_cons, Forall_forall. naive_solver. Qed.

(** A search of the table stops at the first entry. *)
Lemma find_from_hit (l1 : list Z) e l2 n :
  e ∉ l1 -> n = length (l1 ++ e :: l2) ->
  find_from (l1 ++ e :: l2) e 0 n = Some (zlen l1).
Proof.
  intros Hno ->. rewrite find_from_spec by (unfold zlen; lia).
  change (Z.to_nat 0) with 0%nat. rewrite drop_0, firstn_all.
  assert (list_find (eq e) (l1 ++ e :: l2) = Some (length l1, e)) as ->; [| done].
  apply list_find_Some. split_and!; [by apply list_lookup_middle | done |].
  intros j y Hj Hlt <-. rewrite lookup_app_l in Hj by done. by apply Hno, (list_elem_of_lookup_2 _ j).
Qed.

Lemma find_from_miss (l : list Z) e n :
  e ∉ l -> n = length l -> find_from l e 0 n = Some (-1).
Proof.
  intros Hno ->. rewrite find_from_spec by (unfold zlen; lia).
  change (Z.to_nat 0) with 0%nat. rewrite drop_0, firstn_all.
  assert (list_find (eq e) l = None) as ->; [| done].
  apply list_find_None, Forall_forall. by intros x Hx <-.
Qed.

Lemma first_below_cases (l : list Z) v n :
  n = length l ->
  (first_below l v 0 n = Some (-1) /\ Forall (fun f => v <= f) l) \/
  exists l1 f l2, l = l1 ++ f :: l2 /\ Forall (fun f => v <= f) l1 /\ f < v /\
    first_below l v 0 n = Some (zlen l1).
Proof.
  intros ->.
  assert (forall l i pre, zlen pre = i ->
    (first_below (pre ++ l) v i (length l) = Some (-1) /\ Forall (fun f => v <= f) l) \/
    exists l1 f l2, l = l1 ++ f :: l2 /\ Forall (fun f => v <= f) l1 /\ f < v /\
      first_below (pre ++ l) v i (length l) = Some (i + zlen l1)) as H.
  { clear. induction l as [| x l IH]; intros i pre Hi; [by left |].
    cbn [length first_below]. rewrite zget_app_mid by done. cbn [mbind option_bind].
    destruct (Z.ltb_spec x v) as [Hx | Hx].
    - right. exists [], x, l. split_and!; [done | constructor | done | f_equal; unfold zlen; simpl; lia].
    - destruct (IH (i + 1) (pre ++ [x])) as [[E F] | (l1 & f & l2 & -> & F & Hf & E)];
        [rewrite zlen_app; unfold zlen at 2; simpl; lia | |]; rewrite <- app_assoc in E; simpl in E.
      + left. split; [done | by constructor].
      + right. exists (x :: l1), f, l2. split_and!; [done | by constructor | done |].
        rewrite E. f_equal. rewrite zlen_cons. lia. }
  destruct (H l 0 []) as [? | ?]; [done | by left | by right].
Qed.

(** Entries of the table do not depend on the counters of other RNTIs. *)
Lemma entries_other cnt (L : list (Z * Z)) r v :
  Forall (entry_ok cnt) L -> r <> 0 -> r ∉ fst <$> L -> Forall (entry_ok (<[r := v]> cnt)) L.
Proof.
  intros H Hr0 Hr. rewrite Forall_forall in *. intros p Hp.
  destruct (H p Hp) as [-> | (H0 & Hc & Hpos)]; [by left | right].
  rewrite aget_ne; [done |]. intros ->. apply Hr. apply list_elem_of_fmap. eauto.
Qed.

Lemma nodup_split r c (L1 L2 : list (Z * Z)) :
  r <> 0 -> NoDup (filter (fun r => r <> 0) (fst <$> (L1 ++ (r, c) :: L2))) ->
  r ∉ fst <$> (L1 ++ L2) /\ NoDup (filter (fun r => r <> 0) (fst <$> (L1 ++ L2))).
Proof.
  intros Hr. rewrite !fmap_app, fmap_cons, !filter_app, filter_cons. cbn [fst].
  rewrite decide_True by done. rewrite <- Permutation_middle, NoDup_cons.
  intros [Hn H]. split; [| done]. rewrite elem_of_app in Hn |- *. rewrite !list_elem_of_filter in Hn.
  naive_solver.
Qed.

Lemma nodup_insert r c (L1 L2 : list (Z * Z)) :
  r ∉ fst <$> (L1 ++ L2) -> NoDup (filter (fun r => r <> 0) (fst <$> (L1 ++ L2))) ->
  NoDup (filter (fun r => r <> 0) (fst <$> (L1 ++ (r, c) :: L2))).
Proof.
  rewrite !fmap_app, fmap_cons, !filter_app, filter_cons. cbn [fst]. intros Hr H.
  case_decide; [| done]. rewrite <- Permutation_middle. apply NoDup_cons. split; [| done].
  rewrite elem_of_app in Hr |- *. rewrite !list_elem_of_filter. naive_solver.
Qed.

(** The counter of a listed RNTI grows by one: it moves before the entries that
    had the same count, by a swap with the first of them. *)
Lemma table_bump cnt La r c Lb :
  table cnt (La ++ (r, c) :: Lb) -> r <> 0 ->
  (Forall (fun f => c + 1 <= f) (snd <$> La) -> table (<[r := c + 1]> cnt) (La ++ (r, c + 1) :: Lb)) /\
  forall L1 p L2, La = L1 ++ p :: L2 -> Forall (fun f => c + 1 <= f) (snd <$> L1) -> p.2 < c + 1 ->
    table (<[r := c + 1]> cnt) (L1 ++ (r, c + 1) :: L2 ++ p :: Lb).
Proof.
  intros [Hlen Hs He Hn] Hr. destruct (nodup_split r c La Lb Hr Hn) as [Hrn Hn'].
  apply Forall_app in He as [HeA [Her HeB]%Forall_cons].
  assert (Forall (entry_ok (<[r:=c + 1]> cnt)) La /\ Forall (entry_ok (<[r:=c + 1]> cnt)) Lb) as [HA HB].
  { rewrite fmap_app, not_elem_of_app in Hrn. split; apply entries_other; tauto. }
  assert (entry_ok (<[r:=c + 1]> cnt) (r, c + 1)) as Her'.
  { right. cbn [fst snd]. rewrite aget_eq. split_and!; [done | done |].
    destruct Her as [[=] | (_ & _ & ?)]; [done | cbn [snd] in *; lia]. }
  rewrite fmap_app, fmap_cons in Hs. apply desc_app in Hs as (HsA & [HsB HBc]%desc_cons & HAB). cbn [snd] in *.
  split.
  - intros HF. split.
    + rewrite zlen_app, zlen_cons in *. lia.
    + rewrite fmap_app, fmap_cons. apply desc_app. split_and!; [done | apply desc_cons; split; [done |] |].
      * intros y Hy. apply HBc in Hy. cbn [snd]. lia.
      * rewrite Forall_forall in HF. cbn [snd]. intros x y Hx Hy.
        apply elem_of_cons in Hy as [-> | Hy]; [auto |]. apply HAB; [done | by right].
    + apply Forall_app. auto.
    + by apply nodup_insert.
  - intros L1 p L2 -> HF Hp. rewrite Forall_forall in HF.
    rewrite fmap_app, fmap_cons in HsA, HAB.
    apply desc_app in HsA as (Hs1 & [Hs2 Hp2]%desc_cons & H12).
    assert (forall y, y ∈ snd <$> L2 -> y = c) as HL2.
    { intros y Hy. assert (y <= p.2) by auto.
      assert (c <= y) by (apply HAB; [rewrite elem_of_app, elem_of_cons; auto | by left]). lia. }
    assert (p.2 = c) as Hpc.
    { assert (c <= p.2) by (apply HAB; [rewrite elem_of_app, elem_of_cons; auto | by left]). lia. }
    split.
    + rewrite ?zlen_app, ?zlen_cons, ?zlen_app, ?zlen_cons in *. lia.
    + rewrite fmap_app, fmap_cons, fmap_app, fmap_cons. cbn [snd].
      apply desc_app. split_and!; [done | apply desc_cons; split; [apply desc_app; split_and! |] |].
      * done.
      * apply desc_cons. split; [done |]. intros y Hy. apply HBc in Hy. lia.
      * intros x y Hx Hy. apply HL2 in Hx. apply elem_of_cons in Hy as [-> | Hy]; [lia |].
        apply HBc in Hy. lia.
      * intros y. rewrite elem_of_app, elem_of_cons. intros [Hy | [-> | Hy]]; [apply HL2 in Hy; lia | lia |].
        apply HBc in Hy. lia.
      * intros x y Hx. apply HF in Hx. rewrite elem_of_cons, elem_of_app, elem_of_cons.
        intros [-> | [Hy | [-> | Hy]]]; [lia | apply HL2 in Hy; lia | lia | apply HBc in Hy; lia].
    + apply Forall_app in HA as [? [? ?]%Forall_cons]. rewrite Forall_app, Forall_cons, Forall_app, Forall_cons. auto.
    + assert (L1 ++ (r, c + 1) :: L2 ++ p :: Lb ≡ₚ (L1 ++ p :: L2) ++ (r, c + 1) :: Lb) as ->.
      { rewrite <- !app_assoc, <- !app_comm_cons. solve_Permutation. }
      by apply nodup_insert.
Qed.

(** A new RNTI enters before the less frequent entries; the last entry leaves
    the table. *)
Lemma table_insert cnt (L1 N : list (Z * Z)) z r c :
  table cnt (L1 ++ N ++ [z]) -> r <> 0 -> r ∉ fst <$> (L1 ++ N ++ [z]) -> 0 < c -> aget cnt r = c ->
  Forall (fun f => c <= f) (snd <$> L1) -> Forall (fun f => f < c) (snd <$> N) ->
  table cnt (L1 ++ (r, c) :: N).
Proof.
  intros [Hlen Hs He Hn] Hr Hrn Hc Hcnt HF HN. rewrite app_assoc in *.
  rewrite fmap_app in Hs, Hn, Hrn. apply desc_app in Hs as (Hs & _ & _).
  rewrite filter_app in Hn. apply NoDup_app in Hn as (Hn & _ & _).
  apply not_elem_of_app in Hrn as [Hrn _]. apply Forall_app in He as [He _].
  rewrite Forall_forall in HF, HN. split.
  - rewrite zlen_app, ?zlen_cons, ?zlen_app in *. unfold zlen in *. simpl in *. lia.
  - rewrite fmap_app, fmap_cons in *. apply desc_app in Hs as (Hs1 & Hs2 & H12). cbn [snd].
    apply desc_app. split_and!; [done | apply desc_cons; split; [done |] |].
    + intros y Hy%HN. lia.
    + intros x y Hx [-> | Hy]%elem_of_cons; [auto |]. by apply H12.
  - apply Forall_app in He as [He1 He2]. apply Forall_app. split; [done |].
    constructor; [| done]. right. cbn [fst snd]. auto.
  - by apply nodup_insert.
Qed.

Lemma take_shifted {A} (l1 n : list A) v z :
  take (length (l1 ++ n ++ [z])) (l1 ++ v :: n ++ [z]) = l1 ++ v :: n.
Proof.
  assert (l1 ++ v :: n ++ [z] = (l1 ++ v :: n) ++ [z]) as -> by (by rewrite <- app_assoc).
  rewrite take_app_le, take_ge; [done | |]; rewrite !length_app; simpl; rewrite ?length_app; simpl; lia.
Qed.

(** ** The search for the entry that fills the table up *)

Lemma find_top_n_spec q top_n m :
  zget (top_N_ue_freq q) (top_n - 1) = Some m ->
  exists r, find_top_n_ue q top_n = Some r /\
    (r = 0 \/ (0 < r <= 65535 /\ r ∈ active_ue_list q /\ 0 < aget (ue_cnt q) r < m)).
Proof.
  intros Hm. unfold find_top_n_ue. rewrite Hm. cbn [mbind option_bind].
  assert (forall l (acc : Z * Z), Forall (fun i => 0 <= i <= 65535) l -> 0 <= acc.2 ->
    (acc.1 = 0 \/ (0 < acc.1 <= 65535 /\ acc.1 ∈ active_ue_list q /\ 0 < aget (ue_cnt q) acc.1 < m)) ->
    let a := foldl (top_n_step q m) acc l in
    a.1 = 0 \/ (0 < a.1 <= 65535 /\ a.1 ∈ active_ue_list q /\ 0 < aget (ue_cnt q) a.1 < m)) as H.
  { clear. induction l as [| i l IH]; intros acc Hl Hacc Hinv; [done |].
    apply Forall_cons in Hl as [Hi Hl]. cbn [foldl]. apply IH; [done | |]; unfold top_n_step;
      destruct (Z.ltb_spec (aget (ue_cnt q) i) m); try done;
      destruct (Z.ltb_spec acc.2 (aget (ue_cnt q) i)); try done;
      case_bool_decide; try done; cbn [fst snd andb]; [lia |].
    destruct (Z.eq_dec i 0); [by left | right; split_and!; done || lia]. }
  eexists. split; [done |]. apply H; [| done | by left].
  apply Forall_forall. intros i Hi%elem_of_seqZ. lia.
Qed.

(** ** Preservation *)

Lemma top_inv_sizes q L : top_N_ue_rnti q = fst <$> L -> top_N_ue_freq q = snd <$> L ->
  zlen L = TOPN -> TOPN = zlen (top_N_ue_rnti q) /\ TOPN = zlen (top_N_ue_freq q) /\
  Z.to_nat TOPN = length (top_N_ue_rnti q) /\ Z.to_nat TOPN = length (top_N_ue_freq q).
Proof.
  intros -> -> Hl. rewrite !zlen_fmap, !length_fmap, Hl. unfold zlen in Hl.
  split_and!; try done; lia.
Qed.

Lemma fmap_snd_inv (L : list (Z * Z)) l1 f l2 :
  snd <$> L = l1 ++ f :: l2 -> exists L1 r L2, L = L1 ++ (r, f) :: L2 /\ snd <$> L1 = l1 /\ snd <$> L2 = l2.
Proof.
  intros (L1 & L2' & -> & E & ->)%fmap_app_inv. symmetry in E.
  apply fmap_cons_inv in E as (p & L2 & -> & -> & ->). destruct p as [r f]. by exists L1, r, L2.
Qed.

Lemma fmap_fst_inv (L : list (Z * Z)) l1 r l2 :
  fst <$> L = l1 ++ r :: l2 -> exists L1 f L2, L = L1 ++ (r, f) :: L2 /\ fst <$> L1 = l1 /\ fst <$> L2 = l2.
Proof.
  intros (L1 & L2' & -> & E & ->)%fmap_app_inv. symmetry in E.
  apply fmap_cons_inv in E as (p & L2 & -> & -> & ->). destruct p as [r f]. by exists L1, f, L2.
Qed.

(** How an update changes the table: no frequency falls below the old minimum,
    and an RNTI that leaves it was one of the least frequent. *)
Definition grows (cnt : gmap Z Z) (L L' : list (Z * Z)) : Prop :=
  (forall f, f ∈ snd <$> L' -> exists f0, f0 ∈ snd <$> L /\ f0 <= f) /\
  (forall x, x <> 0 -> x ∈ fst <$> L -> x ∈ fst <$> L' \/ Forall (fun f => aget cnt x <= f) (snd <$> L)).

(** The update of the table after RNTI [r] was counted once more: [q] is the
    tracker with its new counters, [cnt] the old ones. First the case of a
    listed RNTI, whose frequency is bumped. *)
Lemma update_topN_listed q r cnt La c Lb :
  let L := La ++ (r, c) :: Lb in
  top_N_ue_rnti q = fst <$> L -> top_N_ue_freq q = snd <$> L -> table cnt L ->
  r <> 0 -> r ∉ fst <$> La -> ue_cnt q = <[r := c + 1]> cnt ->
  exists b L', update_ue_tracker_topN q r = Some (b, with_top q (fst <$> L') (snd <$> L')) /\
    table (ue_cnt q) L' /\ grows cnt L L' /\ r ∈ fst <$> L'.
Proof.
  intros L Hrn Hfr Ht Hr HrA Hcnt. unfold update_ue_tracker_topN.
  destruct (top_inv_sizes q L Hrn Hfr (tb_len _ _ Ht)) as (Z1 & Z2 & N1 & N2).
  rewrite Hcnt, aget_eq, Hrn, Hfr. unfold L. rewrite !fmap_app, !fmap_cons. cbn [fst snd].
  rewrite (find_from_hit _ _ _ _ HrA) by (rewrite N1, Hrn; unfold L; by rewrite fmap_app, fmap_cons).
  cbn [mbind option_bind]. rewrite zlen_fmap. pose proof (zlen_nonneg La).
  destruct (Z.leb_spec 0 (zlen La)); [| lia].
  rewrite zset_app_mid by (by rewrite zlen_fmap). cbn [mbind option_bind].
  destruct (table_bump cnt La r c Lb Ht Hr) as [Hstay Hswap].
  assert (Hnew : forall L', (forall f, f ∈ snd <$> L' -> f = c + 1 \/ f ∈ snd <$> L) ->
     (forall x, x ∈ fst <$> L -> x ∈ fst <$> L') -> grows cnt L L').
  { intros L' Hf Hx. split; [| by auto]. intros f [-> | Hin]%Hf; [| by eauto with lia].
    exists c. split; [| lia]. unfold L. rewrite fmap_app. set_solver. }
  destruct (first_below_cases ((snd <$> La) ++ (c + 1) :: (snd <$> Lb)) (c + 1) (Z.to_nat TOPN))
    as [[-> HF] | (l1 & f & l2 & E & HF & Hf & ->)].
  { rewrite N2, Hfr. unfold L. rewrite fmap_app, fmap_cons, !length_app. done. }
  - cbn [mbind option_bind Z.leb Z.compare andb].
    exists false, (La ++ (r, c + 1) :: Lb). rewrite !fmap_app, !fmap_cons. split; [done |].
    apply Forall_app in HF as [HF _]. split; [by apply Hstay |].
    split; [| set_solver]. apply Hnew; unfold L; rewrite !fmap_app, !fmap_cons; cbn [fst snd]; set_solver.
  - cbn [mbind option_bind]. pose proof (zlen_nonneg l1). destruct (Z.leb_spec 0 (zlen l1)); [| lia].
    cbn [andb]. destruct (Z.ltb_spec (zlen l1) (zlen La)) as [Hlt | Hge].
    + destruct (zsplit La (zlen l1)) as (L1 & [x f'] & L2 & -> & HL1); [by split |].
      rewrite fmap_app, fmap_cons, <- app_assoc in E. apply app_inj_1 in E as [<- [= -> <-]].
      2:{ rewrite length_fmap. unfold zlen in HL1. lia. }
      rewrite !fmap_app, !fmap_cons, <- !app_assoc. cbn [fst snd app].
      assert (zlen (L1 ++ (x, f) :: L2) = zlen L1 + 1 + zlen L2) as Hz by (rewrite zlen_app, zlen_cons; lia).
      rewrite Hz, zlen_fmap.
      assert (forall l : list Z, length l = length (snd <$> L) -> TOPN = zlen l) as Hall.
      { intros l Hl. rewrite Z2, Hfr. unfold zlen. by rewrite Hl. }
      unfold swap_array_uint16, swap_array_uint32.
      pose proof (swap_array_spec (fst <$> L1) x (fst <$> L2) r (fst <$> Lb)) as Hs1.
      pose proof (swap_array_spec (snd <$> L1) f (snd <$> L2) (c + 1) (snd <$> Lb)) as Hs2.
      cbv zeta in Hs1, Hs2. rewrite !zlen_fmap in Hs1, Hs2.
      rewrite <- Hall in Hs1, Hs2 by (unfold L; rewrite ?fmap_app, ?fmap_cons, ?length_app; simpl;
        rewrite ?length_app; simpl; rewrite !length_fmap; rewrite ?length_app; simpl; lia).
      rewrite Hs1. cbn [mbind option_bind]. rewrite Hs2. cbn [mbind option_bind].
      exists true, (L1 ++ (r, c + 1) :: L2 ++ (x, f) :: Lb).
      rewrite !fmap_app, !fmap_cons, !fmap_app, !fmap_cons. split; [done |].
      split; [by apply (Hswap L1 (x, f) L2) |]. split; [| cbn [fst]; set_solver].
      assert (grows cnt L (L1 ++ (r, c + 1) :: L2 ++ (x, f) :: Lb)) as HG.
      { apply Hnew; unfold L; rewrite !fmap_app, !fmap_cons, !fmap_app, !fmap_cons; cbn [fst snd];
          intros ?; rewrite !elem_of_app, !elem_of_cons, !elem_of_app, !elem_of_cons; naive_solver. }
      unfold L in HG. by rewrite <- app_assoc in HG.
    + exists false, (La ++ (r, c + 1) :: Lb). rewrite !fmap_app, !fmap_cons. split; [done |].
      split; [apply Hstay | split; [| set_solver]].
      * apply Forall_lookup. intros j g Hj. rewrite Forall_lookup in HF. apply (HF j).
        pose proof (lookup_lt_Some _ _ _ Hj) as Hjl. rewrite length_fmap in Hjl.
        assert (((snd <$> La) ++ (c + 1) :: (snd <$> Lb)) !! j = Some g) as Hj' by (by apply lookup_app_l_Some).
        rewrite E, lookup_app_l in Hj' by (unfold zlen in Hge; lia). done.
      * apply Hnew; unfold L; rewrite !fmap_app, !fmap_cons; cbn [fst snd]; set_solver.
Qed.

(** The case of an RNTI outside the table. *)
Lemma update_topN_unlisted q r cnt L :
  top_N_ue_rnti q = fst <$> L -> top_N_ue_freq q = snd <$> L -> table cnt L ->
  r <> 0 -> r ∉ fst <$> L -> ue_cnt q = <[r := aget cnt r + 1]> cnt -> 0 <= aget cnt r ->
  exists b L', update_ue_tracker_topN q r = Some (b, with_top q (fst <$> L') (snd <$> L')) /\
    table (ue_cnt q) L' /\ grows cnt L L' /\
    (r ∈ active_ue_list q -> r ∈ fst <$> L' \/ Forall (fun f => aget (ue_cnt q) r <= f) (snd <$> L')).
Proof.
  intros Hrn Hfr Ht Hr Hno Hcnt Hpos. unfold update_ue_tracker_topN.
  destruct (top_inv_sizes q L Hrn Hfr (tb_len _ _ Ht)) as (Z1 & Z2 & N1 & N2).
  assert (table (ue_cnt q) L) as Ht'.
  { destruct Ht. split; try done. rewrite Hcnt. by apply entries_other. }
  assert (grows cnt L L) as Hsame by (split; [eauto with lia | auto]).
  assert (with_top q (fst <$> L) (snd <$> L) = q) as Hq by (rewrite <- Hrn, <- Hfr; by destruct q).
  rewrite find_from_miss by (done || by rewrite Hrn). cbn [mbind option_bind Z.leb Z.compare].
  case_bool_decide as Hact.
  2:{ exists false, L. rewrite Hq. by do 3 (split; [done |]). }
  set (c := aget cnt r + 1) in *. assert (aget (ue_cnt q) r = c) as Hc by (by rewrite Hcnt, aget_eq).
  rewrite Hc. destruct (first_below_cases (top_N_ue_freq q) c (Z.to_nat TOPN) N2)
    as [[-> HF] | (l1 & f & l2 & E & HF & Hf & ->)].
  { cbn [mbind option_bind Z.leb Z.compare]. exists false, L. rewrite Hq, <- Hfr.
    do 3 (split; [done |]). by right. }
  cbn [mbind option_bind]. pose proof (zlen_nonneg l1). destruct (Z.leb_spec 0 (zlen l1)); [| lia].
  rewrite Hfr in E. apply fmap_snd_inv in E as (L1 & x & L2 & -> & <- & <-).
  destruct (exists_last (l := (x, f) :: L2)) as (N & z & EN); [done |].
  unfold shift_array_uint16_right, shift_array_uint32_right.
  pose proof (shift_right_set (snd <$> L1) f (snd <$> L2) c) as Hs2.
  pose proof (shift_right_set (fst <$> L1) x (fst <$> L2) r) as Hs1. cbv zeta in Hs1, Hs2.
  assert (forall g : Z * Z -> Z, (g <$> L1) ++ g (x, f) :: (g <$> L2) = g <$> (L1 ++ (x, f) :: L2)) as Hg
    by (intros g; by rewrite fmap_app, fmap_cons).
  pose proof (Hg fst) as Hg1. pose proof (Hg snd) as Hg2. cbn [fst snd] in Hg1, Hg2.
  rewrite Hg1, <- Hrn, <- Z1 in Hs1. rewrite Hg2, <- Hfr, <- Z2 in Hs2. rewrite zlen_fmap in Hs1, Hs2 |- *.
  destruct (shift_array_right (top_N_ue_freq q) TOPN (zlen L1)) as [fr |]; [| done].
  destruct (shift_array_right (top_N_ue_rnti q) TOPN (zlen L1)) as [rn |]; [| done].
  cbn [mbind option_bind] in *. rewrite Hs2. cbn [mbind option_bind]. rewrite Hs1. cbn [mbind option_bind].
  rewrite Hrn, Hfr. rewrite EN in *.
  assert (forall (g : Z * Z -> Z) (a b : Z), g (x, f) = a -> take (length (g <$> (L1 ++ N ++ [z])))
     ((g <$> L1) ++ b :: a :: (g <$> L2)) = (g <$> L1) ++ b :: (g <$> N)) as Htake.
  { intros g a b <-. rewrite <- fmap_cons, EN, !fmap_app. apply take_shifted. }
  rewrite (Htake snd f c), (Htake fst x r) by done.
  exists true, (L1 ++ (r, c) :: N). rewrite !fmap_app, !fmap_cons. split; [done |].
  assert (desc (snd <$> (x, f) :: L2)) as [_ Hmax]%desc_cons.
  { rewrite EN. destruct Ht as [_ Hs _ _]. rewrite fmap_app in Hs. by apply desc_app in Hs as (_ & ? & _). }
  assert (forall y, y ∈ snd <$> (N ++ [z]) -> y < c) as HN.
  { intros y. rewrite <- EN, fmap_cons. intros [-> | Hy]%elem_of_cons; [done |].
    apply Hmax in Hy. cbn [snd] in Hy. lia. }
  rewrite fmap_app in HN. split_and!.
  - apply (table_insert _ L1 N z); try done; [lia | apply Forall_forall; set_solver].
  - split.
    + intros y. rewrite fmap_app, fmap_cons, elem_of_app, elem_of_cons. cbn [snd].
      rewrite !fmap_app. intros [Hy | [-> | Hy]].
      * exists y. split; [set_solver | lia].
      * exists z.2. split; [set_solver |]. assert (z.2 < c) by (apply HN; set_solver). lia.
      * exists y. split; [set_solver | lia].
    + intros y Hy0 Hy. destruct (decide (y ∈ fst <$> (L1 ++ (r, c) :: N))) as [| Hn]; [by left | right].
      rewrite fmap_app, fmap_cons in Hn. rewrite !fmap_app in Hy. cbn [fst] in Hn.
      assert (y = z.1) as -> by set_solver. destruct Ht as [_ Hs He _].
      rewrite !Forall_app, Forall_singleton in He. destruct He as (_ & _ & [-> | (_ & Ez & _)]); [done |].
      rewrite <- Ez, app_assoc, fmap_app in *. apply desc_app in Hs as (_ & _ & Hlast).
      apply Forall_forall. intros g. rewrite elem_of_app. intros [Hg' | Hg']; [apply Hlast; set_solver |].
      assert (g = z.2) by set_solver. lia.
  - intros _. left. cbn [fst]. set_solver.
Qed.

(** Removing a listed RNTI closes the gap; the last entry is then free, or
    filled with a less frequent RNTI. *)
Lemma table_remove cnt La r c Lb x f :
  table cnt (La ++ (r, c) :: Lb) -> r <> 0 ->
  entry_ok (<[r := 0]> cnt) (x, f) ->
  (x <> 0 -> x <> r /\ Forall (fun g => f < g) (snd <$> (La ++ Lb))) -> (x = 0 -> f = 0) ->
  table (<[r := 0]> cnt) (La ++ Lb ++ [(x, f)]) /\ r ∉ fst <$> (La ++ Lb).
Proof.
  intros [Hlen Hs He Hn] Hr Hx Hx1 Hx0. destruct (nodup_split r c La Lb Hr Hn) as [Hrn Hn'].
  split; [| done]. apply Forall_app in He as [HeA [_ HeB]%Forall_cons].
  assert (Forall (entry_ok cnt) (La ++ Lb)) as He by (by apply Forall_app).
  rewrite app_assoc. rewrite fmap_app, fmap_cons in Hs.
  apply desc_app in Hs as (HsA & [HsB HBc]%desc_cons & HAB).
  assert (forall g, g ∈ snd <$> (La ++ Lb) -> f <= g) as Hmin.
  { intros g Hg. destruct (Z.eq_dec x 0) as [E | E].
    - rewrite (Hx0 E). apply list_elem_of_fmap in Hg as (p & -> & Hp).
      rewrite Forall_forall in He. destruct (He p Hp) as [-> | (_ & _ & ?)]; simpl; lia.
    - destruct (Hx1 E) as [_ HF]. rewrite Forall_forall in HF. apply HF in Hg. lia. }
  split.
  - unfold zlen in *. rewrite !length_app in *. simpl in *. lia.
  - rewrite fmap_app. apply desc_app. split_and!.
    + rewrite fmap_app. apply desc_app. split_and!; [done | done |].
      intros y z Hy Hz. apply HAB; [done | by right].
    + apply desc_cons. split; [constructor | intros y Hy; by apply elem_of_nil in Hy].
    + intros y z Hy ->%list_elem_of_singleton. by apply Hmin.
  - apply Forall_app. split; [by apply entries_other | by apply Forall_singleton].
  - rewrite fmap_app, filter_app. cbn [fmap list_fmap fst]. rewrite filter_cons, filter_nil. case_decide as Ex.
    + destruct (Hx1 Ex) as [_ HF]. rewrite Forall_forall in HF.
      apply NoDup_app. split; [done |]. split; [| apply NoDup_singleton].
      intros y [_ Hy]%list_elem_of_filter ->%list_elem_of_singleton.
      apply list_elem_of_fmap in Hy as (p & -> & Hp). rewrite Forall_forall in He.
      assert (f < p.2) by (apply HF, list_elem_of_fmap; eauto).
      destruct (He p Hp) as [-> | (_ & Ep & ?)]; [done |].
      destruct Hx as [[=] | (_ & Ef & _)]; [done |]. cbn [fst snd] in Ef.
      destruct (Hx1 Ex) as [Hpr _]. rewrite aget_ne in Ef by done. lia.
    + by rewrite app_nil_r.
Qed.

Lemma removed_entries (q : ngscope_ue_tracker_t) r i :
  i <> r -> aget (ue_cnt (clear_ue q r)) i = aget (ue_cnt q) i /\
  aget (ue_last_active (clear_ue q r)) i = aget (ue_last_active q) i.
Proof. intros H. simpl. by rewrite !aget_ne. Qed.

Lemma remove_ue_spec q r :
  top_inv q -> r <> 0 ->
  exists L', remove_ue_from_list q r = Some (with_top (clear_ue q r) (fst <$> L') (snd <$> L')) /\
    table (ue_cnt (clear_ue q r)) L' /\ r ∉ fst <$> L'.
Proof.
  intros (L & Hrn & Hfr & Ht) Hr. unfold remove_ue_from_list.
  destruct (top_inv_sizes q L Hrn Hfr (tb_len _ _ Ht)) as (Z1 & Z2 & N1 & N2).
  cbn [clear_ue top_N_ue_rnti top_N_ue_freq].
  destruct (decide (r ∈ fst <$> L)) as [Hin | Hno].
  2:{ rewrite find_from_miss by (done || by rewrite Hrn). cbn [mbind option_bind Z.ltb Z.compare].
      exists L. rewrite <- Hrn, <- Hfr. split; [done |]. split; [| by rewrite Hrn].
      destruct Ht. split; try done. by apply entries_other. }
  apply list_elem_of_split_l in Hin as (l1 & l2 & E & Hl1).
  apply fmap_fst_inv in E as (La & c & Lb & -> & <- & <-).
  rewrite fmap_app, fmap_cons in Hrn, Hfr. cbn [fst snd] in Hrn, Hfr.
  assert (find_from (top_N_ue_rnti q) r 0 (Z.to_nat TOPN) = Some (zlen La)) as ->.
  { rewrite N1, Hrn, find_from_hit by done. by rewrite zlen_fmap. }
  cbn [mbind option_bind]. pose proof (zlen_nonneg La). destruct (Z.ltb_spec (zlen La) 0); [lia |].
  unfold shift_array_uint16_left, shift_array_uint32_left.
  pose proof (shift_left_set (fst <$> La) r (fst <$> Lb) 0) as Hs1.
  pose proof (shift_left_set (snd <$> La) c (snd <$> Lb) 0) as Hs2. cbv zeta in Hs1, Hs2.
  rewrite <- Hrn, <- Z1, zlen_fmap in Hs1. rewrite <- Hfr, <- Z2, zlen_fmap in Hs2.
  destruct (shift_array_left (top_N_ue_rnti q) TOPN (zlen La)) as [rn |]; [| done].
  destruct (shift_array_left (top_N_ue_freq q) TOPN (zlen La)) as [fr |]; [| done].
  cbn [mbind option_bind] in *. rewrite Hs1. cbn [mbind option_bind]. rewrite Hs2. cbn [mbind option_bind].
  assert (zlen (La ++ Lb) = TOPN - 1) as Hlab.
  { pose proof (tb_len _ _ Ht) as Hl. unfold zlen in *. rewrite length_app in *. simpl in *. lia. }
  assert (exists L0 p, La ++ Lb = L0 ++ [p]) as (L0 & p & EL).
  { destruct (exists_last (l := La ++ Lb)) as (L0 & p & EL); [| by eauto].
    intros E. rewrite E in Hlab. discriminate Hlab. }
  set (q1 := with_top (clear_ue q r) _ _).
  assert (zget (top_N_ue_freq q1) (TOPN - 1 - 1) = Some p.2) as Hm.
  { cbn [q1 with_top top_N_ue_freq]. rewrite app_assoc, <- fmap_app, EL, fmap_app, <- app_assoc.
    apply zget_app_mid. rewrite zlen_fmap. rewrite EL, zlen_app in Hlab. unfold zlen in *. simpl in *. lia. }
  destruct (find_top_n_spec q1 (TOPN - 1) p.2 Hm) as (x & -> & Hx). cbn [mbind option_bind].
  destruct (table_remove (ue_cnt q) La r c Lb 0 0 Ht Hr) as [Ht0 Hr0]; [by left | done | done |].
  rewrite fmap_app, not_elem_of_app in Hr0.
  destruct (Z.ltb_spec 0 x) as [Hpos | Hnp].
  - destruct Hx as [-> | (Hx16 & Hact & Hc)]; [lia |].
    rewrite (uwrap_small 16) by (unfold is_uint; lia).
    cbn [q1 with_top top_N_ue_rnti top_N_ue_freq]. rewrite !app_assoc, <- !fmap_app.
    rewrite zset_app_mid by (by rewrite zlen_fmap). cbn [mbind option_bind].
    rewrite zset_app_mid by (by rewrite zlen_fmap). cbn [mbind option_bind].
    exists (La ++ Lb ++ [(x, aget (ue_cnt q1) x)]). rewrite !app_assoc, !fmap_app, <- !app_assoc.
    split; [done |]. assert (x <> r) as Hxr.
    { intros ->. cbn [q1 with_top clear_ue active_ue_list] in Hact. set_solver. }
    split; [| cbn [fmap list_fmap fst]; set_solver].
    apply (table_remove (ue_cnt q) La r c Lb); try done; [| | lia].
    + right. cbn [fst snd]. cbn [q1 with_top clear_ue ue_cnt] in *. lia.
    + intros _. split; [done |]. apply Forall_forall. intros g.
      assert (desc (snd <$> (La ++ Lb))) as Hd.
      { destruct Ht0 as [_ Hs _ _]. rewrite app_assoc, fmap_app in Hs. by apply desc_app in Hs as (? & _ & _). }
      rewrite EL, fmap_app in *. apply desc_app in Hd as (_ & _ & Hlast).
      rewrite elem_of_app. intros [Hg | Hg].
      * assert (p.2 <= g) by (apply Hlast; [done | by left]). lia.
      * assert (g = p.2) by set_solver. lia.
  - exists (La ++ Lb ++ [(0, 0)]). rewrite !fmap_app. split; [done |]. split; [done |]. set_solver.
Qed.

(** ** Theorems *)

(** Counting an RNTI, with the entries it changes. *)
Lemma enqueue_top_aux q tti r dl :
  top_inv q -> 0 < r <= 65535 -> 0 <= tti < MAX_TTI -> 0 <= aget (ue_last_active q) r < MAX_TTI ->
  0 <= aget (ue_cnt q) r < 2 ^ 32 - 1 ->
  exists q', ngscope_ue_tracker_enqueue_ue_rnti q tti r dl = Some q' /\ top_inv q' /\
    ue_cnt q' = <[r := aget (ue_cnt q) r + 1]> (ue_cnt q) /\
    ue_last_active q' = <[r := tti]> (ue_last_active q) /\
    (top_complete q -> top_complete q').
Proof.
  intros (L & Hrn & Hfr & Ht) Hr Htti Hlast Hcnt. unfold ngscope_ue_tracker_enqueue_ue_rnti.
  rewrite tti_difference_dist by done. cbn [mbind option_bind].
  rewrite (uwrap_small 32 (aget (ue_cnt q) r + 1)) by (unfold is_uint; lia).
  set (act := if _ || _ then _ else active_ue_list q).
  assert (forall x, x <> r -> x ∈ act -> x ∈ active_ue_list q) as Hact.
  { intros x Hx. unfold act. destruct (_ || _); set_solver. }
  clearbody act. set (q1 := UeTracker act _ _ _ _ _ _ _ _ _ _ _).
  assert (exists b L', update_ue_tracker_topN q1 r = Some (b, with_top q1 (fst <$> L') (snd <$> L')) /\
    table (ue_cnt q1) L' /\ grows (ue_cnt q) L L' /\
    (r ∈ active_ue_list q1 -> r ∈ fst <$> L' \/ Forall (fun f => aget (ue_cnt q1) r <= f) (snd <$> L')))
    as (b & L' & -> & Ht' & [Hg1 Hg2] & Hr').
  { destruct (decide (r ∈ fst <$> L)) as [Hin | Hno].
    - apply list_elem_of_split_l in Hin as (l1 & l2 & E & Hl1).
      apply fmap_fst_inv in E as (La & c & Lb & -> & <- & <-).
      assert (c = aget (ue_cnt q) r) as ->.
      { destruct Ht as [_ _ He _]. apply Forall_app in He as [_ [He _]%Forall_cons].
        destruct He as [[=] | (_ & ? & _)]; [lia | done]. }
      destruct (update_topN_listed q1 r (ue_cnt q) La (aget (ue_cnt q) r) Lb) as (b & L' & ? & ? & ? & ?);
        try done; [lia |]. exists b, L'. auto.
    - apply (update_topN_unlisted q1 r (ue_cnt q) L); done || lia. }
  cbn [fmap option_fmap option_map snd]. eexists. split; [done |]. split; [by exists L' |]. split; [done |]. split; [done |].
  intros Hc x Hx0 Hxa Hxt. cbn [q1 with_top active_ue_list top_N_ue_rnti top_N_ue_freq ue_cnt] in *.
  destruct (decide (x = r)) as [-> | Hxr]; [by destruct (Hr' Hxa) |].
  rewrite aget_ne by done.
  assert (Forall (fun f => aget (ue_cnt q) x <= f) (snd <$> L)) as Hold.
  { destruct (decide (x ∈ fst <$> L)) as [Hin | Hno]; [by destruct (Hg2 x Hx0 Hin) |].
    rewrite <- Hfr. apply Hc; [done | by apply Hact | by rewrite Hrn]. }
  rewrite Forall_forall in Hold. apply Forall_forall. intros f (f0 & Hf0 & Hle)%Hg1.
  apply Hold in Hf0. lia.
Qed.

(** C30: counting an observation of RNTI [r] always succeeds, counts it
    once, and keeps the table of the ten most frequent RNTIs correct: sorted by
    decreasing frequency, without duplicates, every used entry carrying its
    RNTI's counter. It also keeps the table complete: an active RNTI outside the
    table is never more frequent than an RNTI inside. *)
Theorem enqueue_keeps_top q tti r dl :
  top_inv q -> 0 < r <= 65535 -> 0 <= tti < MAX_TTI -> 0 <= aget (ue_last_active q) r < MAX_TTI ->
  0 <= aget (ue_cnt q) r < 2 ^ 32 - 1 ->
  exists q', ngscope_ue_tracker_enqueue_ue_rnti q tti r dl = Some q' /\ top_inv q' /\
    ue_cnt q' = <[r := aget (ue_cnt q) r + 1]> (ue_cnt q) /\
    (top_complete q -> top_complete q').
Proof.
  intros Ht Hr Htti Hla Hc. destruct (enqueue_top_aux q tti r dl) as (q' & E & Ht' & Hcnt & _ & Hco); [done.. |].
  by exists q'.
Qed.

(** The UEs [kick_inactive_ue] removes: observed, and last seen at least the
    threshold of their class ago. *)
Definition expired (q : ngscope_ue_tracker_t) (tti j : Z) : bool :=
  negb (aget (ue_cnt q) j =? 0) &&
  ((if bool_decide (j ∈ active_ue_list q) then ACTIVE_UE_THD_T else INACTIVE_UE_THD_T)
     <=? tti_dist (aget (ue_last_active q) j) tti).

(** The state of UE [j] after the pass. *)
Definition kicked (q q' : ngscope_ue_tracker_t) (tti j : Z) : Prop :=
  aget (ue_cnt q') j = (if expired q tti j then 0 else aget (ue_cnt q) j) /\
  (j ∈ active_ue_list q' <-> j ∈ active_ue_list q /\ expired q tti j = false).

Lemma remove_other q r j L' :
  j <> r -> let q' := with_top (clear_ue q r) (fst <$> L') (snd <$> L') in
  aget (ue_cnt q') j = aget (ue_cnt q) j /\ aget (ue_last_active q') j = aget (ue_last_active q) j /\
  (j ∈ active_ue_list q' <-> j ∈ active_ue_list q).
Proof. intros H. simpl. rewrite !aget_ne by done. set_solver. Qed.

Lemma kick_ue_spec q tti i :
  top_inv q -> 0 <= tti < MAX_TTI -> 0 <= aget (ue_last_active q) i < MAX_TTI ->
  (i = 0 -> aget (ue_cnt q) 0 = 0) ->
  exists q', kick_ue tti q i = Some q' /\ top_inv q' /\ kicked q q' tti i /\
    forall j, j <> i -> aget (ue_cnt q') j = aget (ue_cnt q) j /\
      aget (ue_last_active q') j = aget (ue_last_active q) j /\
      (j ∈ active_ue_list q' <-> j ∈ active_ue_list q).
Proof.
  intros Ht Htti Hlast H0. unfold kick_ue, kicked, expired.
  destruct (Z.eqb_spec (aget (ue_cnt q) i) 0) as [E | E].
  - exists q. split; [done |]. split; [done |]. cbn [negb andb]. split; [| done]. split; [done | tauto].
  - rewrite tti_difference_dist by done. cbn [mbind option_bind negb andb]. cbv zeta.
    destruct (_ <=? _).
    + assert (i <> 0) as Hi0 by (intros ->; auto).
      destruct (remove_ue_spec q i Ht Hi0) as (L' & -> & HL & Hno).
      eexists. split; [done |]. split; [by exists L' |]. split.
      * simpl. rewrite aget_eq. split; [done | set_solver].
      * intros j Hj. by apply remove_other.
    + exists q. split; [done |]. split; [done |]. split; [| done]. split; [done | tauto].
Qed.

(** [kicked] only looks at the counters, times and flags of its UE. *)
Lemma kicked_agree q p q1 p1 tti j :
  kicked p p1 tti j ->
  aget (ue_cnt p) j = aget (ue_cnt q) j -> aget (ue_last_active p) j = aget (ue_last_active q) j ->
  (j ∈ active_ue_list p <-> j ∈ active_ue_list q) ->
  aget (ue_cnt q1) j = aget (ue_cnt p1) j -> (j ∈ active_ue_list q1 <-> j ∈ active_ue_list p1) ->
  kicked q q1 tti j.
Proof.
  intros [H1 H2] Ec El Ea Ec1 Ea1. unfold kicked.
  assert (expired p tti j = expired q tti j) as Ee.
  { unfold expired. rewrite Ec, El. do 2 f_equal. by rewrite (bool_decide_ext _ _ Ea). }
  rewrite <- Ee, <- Ec, Ec1, Ea1. tauto.
Qed.

(** The inactivity pass over all 65536 RNTIs removes exactly the
    expired UEs: observed UEs last seen at least 5000 subframes ago when active,
    500 when not, by circular distance. The others keep their counters and
    flags, the table stays correct, and the result is the number of UEs that
    are still active. *)
Theorem kick_inactive_ue_spec q tti :
  top_inv q -> 0 <= tti < MAX_TTI -> aget (ue_cnt q) 0 = 0 ->
  (forall j, 0 <= aget (ue_last_active q) j < MAX_TTI) ->
  exists q' n, kick_inactive_ue q tti = Some (q', n) /\ top_inv q' /\
    (forall j, 0 <= j < 65536 -> kicked q q' tti j) /\
    n = zlen (filter (fun j => j ∈ active_ue_list q') (seqZ 0 65536)).
Proof.
  intros Htop Htti H0 Hlast. unfold kick_inactive_ue.
  loop_inv (fun i (a : ngscope_ue_tracker_t * Z) => top_inv a.1 /\
      (forall j, 0 <= j < i -> kicked q a.1 tti j) /\
      (forall j, i <= j -> aget (ue_cnt a.1) j = aget (ue_cnt q) j /\
         aget (ue_last_active a.1) j = aget (ue_last_active q) j /\
         (j ∈ active_ue_list a.1 <-> j ∈ active_ue_list q)) /\
      a.2 = zlen (filter (fun j => j ∈ active_ue_list a.1) (seqZ 0 i)))
    as ([q' n] & -> & Ht & Hk & _ & Hn).
  - lia.
  - by split_and!; [| lia | |].
  - intros i [p n] Hi (Ht & Hk & Hrest & Hn). cbn [fst snd] in *.
    destruct (Hrest i ltac:(lia)) as (Ec & El & Ea).
    destruct (kick_ue_spec p tti i) as (p' & -> & Htp & Hkp & Hother); [done | done | by rewrite El | |].
    { intros ->. by rewrite Ec. }
    cbn [mbind option_bind]. eexists. split; [done |]. cbn [fst snd]. split; [done |]. split; [| split].
    + intros j Hj. destruct (decide (j = i)) as [-> | Hne]; [by apply (kicked_agree q p p' p') |].
      destruct (Hother j Hne) as (Ho1 & Ho2 & Ho3).
      by apply (kicked_agree q q p' p); [apply Hk; lia | ..].
    + intros j Hj. destruct (Hother j ltac:(lia)) as (Ho1 & Ho2 & Ho3).
      destruct (Hrest j ltac:(lia)) as (Hr1 & Hr2 & Hr3). by rewrite Ho1, Ho2, Ho3.
    + rewrite (seqZ_app 0 i 1) by lia. rewrite filter_app, zlen_app, Z.add_0_l.
      rewrite (filter_ext_in _ (fun j => j ∈ active_ue_list p) (seqZ 0 i))
        by (intros j Hj%elem_of_seqZ; apply Hother; lia).
      rewrite <- Hn. rewrite (seqZ_cons i 1), seqZ_nil, filter_cons, filter_nil by lia.
      repeat case_decide; case_bool_decide; try done; unfold zlen; simpl; lia.
  - by exists q', n.
Qed.

(** Removing an RNTI always succeeds, clears its counters and flag,
    takes it out of the table and keeps the table correct (the gap is closed
    and the last place filled with the most frequent active RNTI below the
    rest, if any); the other RNTIs keep their counters and flags. *)
Theorem remove_ue_keeps_top q r :
  top_inv q -> r <> 0 ->
  exists q', remove_ue_from_list q r = Some q' /\ top_inv q' /\ r ∉ top_N_ue_rnti q' /\
    aget (ue_cnt q') r = 0 /\ r ∉ active_ue_list q' /\
    forall j, j <> r -> aget (ue_cnt q') j = aget (ue_cnt q) j /\
      (j ∈ active_ue_list q' <-> j ∈ active_ue_list q).
Proof.
  intros Ht Hr. destruct (remove_ue_spec q r Ht Hr) as (L' & -> & HL & Hno).
  eexists. split; [done |]. split; [by exists L' |]. split; [done |]. simpl. rewrite aget_eq.
  split; [done |]. split; [set_solver |]. intros j Hj. rewrite aget_ne by done. set_solver.
Qed.

(** ** Witnesses *)

Definition ex_tracker : ngscope_ue_tracker_t :=
  UeTracker ∅ ∅ ∅ ∅ ∅ ∅ (replicate 10 0) (replicate 10 0) 0 0 0 0.

Lemma ex_tracker_top : top_inv ex_tracker.
Proof.
  exists (replicate 10 (0, 0)). split; [done |]. split; [done |]. split.
  - done.
  - repeat (apply desc_cons; split; [| intros y Hy; set_solver]). constructor.
  - apply Forall_replicate. by left.
  - apply NoDup_nil_2.
Qed.

Lemma enqueue_keeps_top_witness :
  exists q', ngscope_ue_tracker_enqueue_ue_rnti ex_tracker 5 61 true = Some q' /\ top_inv q' /\
    ue_cnt q' = <[61 := aget (ue_cnt ex_tracker) 61 + 1]> (ue_cnt ex_tracker) /\
    (top_complete ex_tracker -> top_complete q').
Proof.
  apply (enqueue_keeps_top ex_tracker 5 61 true); [apply ex_tracker_top | lia | unfold MAX_TTI; lia | |];
    vm_compute; split; congruence.
Defined.

Lemma kick_inactive_ue_spec_witness :
  exists q' n, kick_inactive_ue ex_tracker 7 = Some (q', n) /\ top_inv q' /\
    (forall j, 0 <= j < 65536 -> kicked ex_tracker q' 7 j) /\
    n = zlen (filter (fun j => j ∈ active_ue_list q') (seqZ 0 65536)).
Proof.
  apply (kick_inactive_ue_spec ex_tracker 7); [apply ex_tracker_top | unfold MAX_TTI; lia | done |].
  intros j. unfold aget. simpl. rewrite lookup_empty. simpl. unfold MAX_TTI. lia.
Defined.

Lemma remove_ue_keeps_top_witness :
  exists q', remove_ue_from_list ex_tracker 61 = Some q' /\ top_inv q' /\ 61 ∉ top_N_ue_rnti q' /\
    aget (ue_cnt q') 61 = 0 /\ 61 ∉ active_ue_list q' /\
    forall j, j <> 61 -> aget (ue_cnt q') j = aget (ue_cnt ex_tracker) j /\
      (j ∈ active_ue_list q' <-> j ∈ active_ue_list ex_tracker).
Proof. apply (remove_ue_keeps_top ex_tracker 61); [apply ex_tracker_top | done]. Defined.
