(* ===== verification/UeList.v ===== *)
(** * Message counters per RNTI ([ngscope/src/dciLib/ue_list.c])

    The cell-status thread counts the messages of every RNTI of a cell and
    reports the most frequent one when the program ends. *)

From S2P Require Import Prelude NgUtil NgTypes DciRing UeTracker.

Record ngscope_ue_list_t := UeList {
  l_cnt : gmap Z Z; l_dl_cnt : gmap Z Z; l_ul_cnt : gmap Z Z;
  l_last_active : gmap Z Z; l_enter_time : gmap Z Z;
  l_max_freq_ue : Z; l_max_dl_freq_ue : Z; l_max_ul_freq_ue : Z
}.

Definition zero_ue_list : ngscope_ue_list_t := UeList ∅ ∅ ∅ ∅ ∅ 0 0 0.

Definition enqueue_ue_list_per_rnti (q : ngscope_ue_list_t) (tti rnti : Z) (dl : bool) : ngscope_ue_list_t :=
  let enter := if aget (l_cnt q) rnti =? 0 then <[rnti := tti]> (l_enter_time q) else l_enter_time q in
  UeList (<[rnti := u32 (aget (l_cnt q) rnti + 1)]> (l_cnt q))
    (if dl then <[rnti := u32 (aget (l_dl_cnt q) rnti + 1)]> (l_dl_cnt q) else l_dl_cnt q)
    (if dl then l_ul_cnt q else <[rnti := u32 (aget (l_ul_cnt q) rnti + 1)]> (l_ul_cnt q))
    (<[rnti := tti]> (l_last_active q)) enter
    (l_max_freq_ue q) (l_max_dl_freq_ue q) (l_max_ul_freq_ue q).

Definition enqueue_messages (qs : list ngscope_ue_list_t) (cell tti : Z) (msgs : list ngscope_dci_msg_t)
    (n : Z) (dl : bool) : option (list ngscope_ue_list_t) :=
  for_range 0 n
    (fun qs j =>
       m ← zget msgs j;
       q ← zget qs cell;
       zset qs cell (enqueue_ue_list_per_rnti q tti (rnti m) dl)) qs.

Definition ngscope_ue_list_enqueue_rnti_per_sf_per_cell (qs : list ngscope_ue_list_t)
    (b : ngscope_status_buffer_t) : option (list ngscope_ue_list_t) :=
  let d := dci_per_sub b in
  qs ← enqueue_messages qs (sb_cell_idx b) (sb_tti b) (dl_msg d) (nof_dl_dci d) true;
  enqueue_messages qs (sb_cell_idx b) (sb_tti b) (ul_msg d) (nof_ul_dci d) false.

(** One iteration of a search for the largest counter: index and count. *)
Definition max_step (cnt : gmap Z Z) (acc : Z * Z) (i : Z) : Z * Z :=
  if acc.2 <? aget cnt i then (i, aget cnt i) else acc.

Definition max_freq (cnt : gmap Z Z) : Z := (foldl (max_step cnt) (0, 0) (seqZ 10 65514)).1.

Definition find_max_freq_ue (q : ngscope_ue_list_t) : ngscope_ue_list_t :=
  UeList (l_cnt q) (l_dl_cnt q) (l_ul_cnt q) (l_last_active q) (l_enter_time q)
    (max_freq (l_cnt q)) (max_freq (l_dl_cnt q)) (max_freq (l_ul_cnt q)).

(** ** What is counted *)

(** The messages of a subframe in the order they are counted. *)
Definition observations (b : ngscope_status_buffer_t) : list (Z * Z * bool) :=
  ((fun m => (sb_tti b, rnti m, true)) <$> dl_list (dci_per_sub b))
  ++ ((fun m => (sb_tti b, rnti m, false)) <$> ul_list (dci_per_sub b)).

Definition observe (q : ngscope_ue_list_t) (o : Z * Z * bool) : ngscope_ue_list_t :=
  enqueue_ue_list_per_rnti q o.1.1 o.1.2 o.2.

(** An update of one element of an array, many times. *)
Lemma for_range_one {A} (l : list A) (f : A -> ngscope_dci_msg_t -> A) (c : Z) x (msgs : list ngscope_dci_msg_t) n :
  zget l c = Some x -> n <= zlen msgs ->
  for_range 0 n (fun l j => m ← zget msgs j; y ← zget l c; zset l c (f y m)) l
    = Some (<[Z.to_nat c := foldl f x (take (Z.to_nat n) msgs)]> l).
Proof.
  intros Hx Hn. pose proof (zget_inv _ _ _ Hx) as Hin.
  destruct (Z.le_gt_cases n 0) as [H0 | H0].
  { unfold for_range. rewrite seqZ_nil by lia. replace (Z.to_nat n) with 0%nat by lia. simpl. f_equal.
    symmetry. apply list_insert_id. rewrite zget_lookup in Hx by apply Hin. done. }
  loop_inv (fun i l' => l' = <[Z.to_nat c := foldl f x (take (Z.to_nat i) msgs)]> l) as (l' & -> & ->); [lia | | | done].
  - symmetry. apply list_insert_id. rewrite zget_lookup in Hx by apply Hin. done.
  - intros i l' Hi ->. destruct (zget_some msgs i) as [m Hm]; [unfold in_range; lia |]. rewrite Hm. cbn [mbind option_bind].
    rewrite zget_insert_eq by done. cbn [mbind option_bind]. rewrite zset_in by (unfold in_range in *; by rewrite zlen_insert).
    eexists; split; [done |]. rewrite list_insert_insert_eq. f_equal.
    rewrite zget_lookup in Hm by lia. replace (Z.to_nat (i + 1)) with (S (Z.to_nat i)) by lia.
    rewrite (take_S_r _ _ m) by done. by rewrite foldl_app.
Qed.

Lemma foldl_observe dl tti l q :
  foldl (fun q m => enqueue_ue_list_per_rnti q tti (rnti m) dl) q l
    = foldl observe q ((fun m => (tti, rnti m, dl)) <$> l).
Proof. revert q. induction l as [| m l IH]; intros q; [done |]. rewrite fmap_cons. simpl. by rewrite IH. Qed.

Lemma enqueue_sf_spec qs b q :
  per_sub_wf (dci_per_sub b) -> zget qs (sb_cell_idx b) = Some q ->
  ngscope_ue_list_enqueue_rnti_per_sf_per_cell qs b
    = Some (<[Z.to_nat (sb_cell_idx b) := foldl observe q (observations b)]> qs).
Proof.
  intros [Hd Hu Hnd Hnu] Hq. pose proof (zget_inv _ _ _ Hq) as Hin.
  unfold ngscope_ue_list_enqueue_rnti_per_sf_per_cell, enqueue_messages. cbv zeta.
  rewrite (for_range_one qs (fun q m => enqueue_ue_list_per_rnti q (sb_tti b) (rnti m) true) _ q) by (done || lia).
  cbn [mbind option_bind].
  rewrite (for_range_one _ (fun q m => enqueue_ue_list_per_rnti q (sb_tti b) (rnti m) false) _ _ _ _
    (zget_insert_eq _ _ _ Hin)) by lia.
  rewrite list_insert_insert_eq, !foldl_observe, <- foldl_app. done.
Qed.

(** The counters of a list that has observed [os]. *)
Definition seen (r : Z) (os : list (Z * Z * bool)) : Z := zlen (filter (fun o => o.1.2 = r) os).
Definition seen_dl (r : Z) (dl : bool) (os : list (Z * Z * bool)) : Z :=
  zlen (filter (fun o => o.1.2 = r /\ o.2 = dl) os).

Record counts (os : list (Z * Z * bool)) (q : ngscope_ue_list_t) : Prop := Counts {
  ct_all : forall r, aget (l_cnt q) r = u32 (seen r os);
  ct_dl : forall r, aget (l_dl_cnt q) r = u32 (seen_dl r true os);
  ct_ul : forall r, aget (l_ul_cnt q) r = u32 (seen_dl r false os);
  ct_last : forall r, aget (l_last_active q) r = from_option (fun o => o.1.1) 0 (last (filter (fun o => o.1.2 = r) os))
}.

Lemma counts_zero : counts [] zero_ue_list.
Proof. split; intros r; cbn; unfold aget; by rewrite lookup_empty. Qed.

Lemma zlen_filter_snoc {A} (P : A -> Prop) `{forall x, Decision (P x)} l x :
  zlen (filter P (l ++ [x])) = zlen (filter P l) + (if decide (P x) then 1 else 0).
Proof.
  rewrite filter_app, filter_cons, filter_nil, zlen_app. by destruct (decide (P x)).
Qed.

Lemma observe_counts os q o : counts os q -> counts (os ++ [o]) (observe q o).
Proof.
  intros [Ha Hd Hu Hl]. destruct o as [[t r] dl].
  split; intros r'; unfold observe, seen, seen_dl; rewrite ?zlen_filter_snoc; simpl.
  - destruct (decide (r = r')) as [<- | Hne]; [rewrite aget_eq, Ha; apply uwrap_add_l |].
    rewrite aget_ne, Ha by done. by rewrite Z.add_0_r.
  - destruct dl.
    + destruct (decide (r = r')) as [<- | Hne].
      * rewrite aget_eq, Hd, decide_True by done. apply uwrap_add_l.
      * rewrite aget_ne, Hd, decide_False by naive_solver. by rewrite Z.add_0_r.
    + rewrite decide_False by naive_solver. by rewrite Hd, Z.add_0_r.
  - destruct dl.
    + rewrite decide_False by naive_solver. by rewrite Hu, Z.add_0_r.
    + destruct (decide (r = r')) as [<- | Hne].
      * rewrite aget_eq, Hu, decide_True by done. apply uwrap_add_l.
      * rewrite aget_ne, Hu, decide_False by naive_solver. by rewrite Z.add_0_r.
  - rewrite filter_app, filter_cons, filter_nil. simpl.
    destruct (decide (r = r')) as [<- | Hne]; [by rewrite aget_eq, last_snoc |].
    by rewrite aget_ne, Hl, app_nil_r.
Qed.

Lemma observe_all_counts os os' q : counts os q -> counts (os ++ os') (foldl observe q os').
Proof.
  revert os q. induction os' as [| o os' IH]; intros os q H; [by rewrite app_nil_r |].
  simpl. replace (os ++ o :: os') with ((os ++ [o]) ++ os') by (by rewrite <- app_assoc).
  by apply IH, observe_counts.
Qed.

(** The search keeps the first index of the largest count. *)
Lemma max_scan cnt n a :
  forall m c, foldl (max_step cnt) (0, 0) (seqZ a (Z.of_nat n)) = (m, c) ->
  (forall i, 0 <= aget cnt i) ->
  (c = 0 -> m = 0 /\ forall i, a <= i < a + Z.of_nat n -> aget cnt i = 0) /\
  (c <> 0 -> a <= m < a + Z.of_nat n /\ aget cnt m = c) /\
  (forall i, a <= i < a + Z.of_nat n -> aget cnt i <= c) /\
  (forall i, a <= i < m -> i < a + Z.of_nat n -> aget cnt i < c \/ c = 0) /\ 0 <= c.
Proof.
  intros m c H Hpos. revert m c H. induction n as [| n IH]; intros m c H.
  { injection H as <- <-. repeat split; intros; lia. }
  rewrite Nat2Z.inj_succ, <- Z.add_1_r, seqZ_app, foldl_app in H by lia.
  change (seqZ (a + Z.of_nat n) 1) with [0 + (a + Z.of_nat n)] in H. rewrite Z.add_0_l in H. cbn [foldl] in H.
  destruct (foldl (max_step cnt) (0, 0) (seqZ a (Z.of_nat n))) as [m0 c0] eqn:E.
  destruct (IH m0 c0 eq_refl) as (H1 & H2 & H3 & H4 & H5). unfold max_step in H. cbn [snd] in H.
  rewrite Nat2Z.inj_succ.
  destruct (Z.ltb_spec c0 (aget cnt (a + Z.of_nat n))) as [Hlt | Hge]; injection H as <- <-.
  - split; [lia |]. split; [intros _; lia |]. split; [| split; [| lia]].
    + intros i Hi. destruct (decide (i = a + Z.of_nat n)) as [-> | Hne]; [lia |].
      assert (aget cnt i <= c0) by (apply H3; lia). lia.
    + intros i Hi _. left. assert (aget cnt i <= c0) by (apply H3; lia). lia.
  - split; [intros Hc; destruct (H1 Hc) as [-> Hz]; split; [done |]; intros i Hi;
      (destruct (decide (i = a + Z.of_nat n)) as [-> | Hne]; [pose proof (Hpos (a + Z.of_nat n)); lia | apply Hz; lia]) |].
    split; [intros Hc; destruct (H2 Hc); lia |]. split; [| split; [| done]].
    + intros i Hi. destruct (decide (i = a + Z.of_nat n)) as [-> | Hne]; [lia | apply H3; lia].
    + intros i Hi Hi'. destruct (decide (c0 = 0)) as [Hc | Hc]; [by right |]. destruct (H2 Hc) as [Hm _].
      apply H4; lia.
Qed.

Lemma max_scan_Z cnt n a m c :
  0 <= n -> foldl (max_step cnt) (0, 0) (seqZ a n) = (m, c) -> (forall i, 0 <= aget cnt i) ->
  (c = 0 /\ m = 0 /\ forall i, a <= i < a + n -> aget cnt i = 0) \/
  (0 < c /\ a <= m < a + n /\ aget cnt m = c /\
   forall i, a <= i < a + n -> aget cnt i <= c /\ (i < m -> aget cnt i < c)).
Proof.
  intros Hn H Hpos. rewrite <- (Z2Nat.id n) in H |- * by done.
  destruct (max_scan cnt (Z.to_nat n) a m c H Hpos) as (H1 & H2 & H3 & H4 & H5).
  destruct (decide (c = 0)) as [Hc | Hc]; [left | right].
  - destruct (H1 Hc) as [? ?]. by repeat split.
  - destruct (H2 Hc) as [? ?]. split; [lia |]. split; [done |]. split; [done |].
    intros i Hi. split; [by apply H3 |]. intros Hm. destruct (H4 i ltac:(lia) ltac:(lia)); lia.
Qed.

(** [m] is the first of the C-RNTIs with the largest [f], or 0 when [f] is 0
    on all of them. *)
Definition most_frequent (f : Z -> Z) (m : Z) : Prop :=
  (m = 0 /\ forall r, 10 <= r < 65524 -> f r = 0) \/
  (10 <= m < 65524 /\ 0 < f m /\ forall r, 10 <= r < 65524 -> f r <= f m /\ (r < m -> f r < f m)).

Lemma max_freq_spec cnt f :
  (forall r, aget cnt r = u32 (f r)) -> (forall r, is_uint 32 (f r)) -> most_frequent f (max_freq cnt).
Proof.
  intros Hf Hu. assert (forall r, aget cnt r = f r) as E by (intros r; by rewrite Hf, uwrap_small).
  unfold max_freq. destruct (foldl (max_step cnt) (0, 0) (seqZ 10 65514)) as [m c] eqn:Em. cbn [fst].
  destruct (max_scan_Z cnt 65514 10 m c ltac:(lia) Em) as [(-> & -> & H) | (Hc & Hm & <- & H)].
  - intros i. rewrite E. apply Hu.
  - left. split; [done |]. intros r Hr. rewrite <- E. apply H. lia.
  - right. split; [lia |]. rewrite E in *. split; [done |]. intros r Hr. rewrite <- !E. rewrite <- E in H. apply H. lia.
Qed.

Lemma zlen_filter_le {A} (P : A -> Prop) `{forall x, Decision (P x)} (l : list A) : 0 <= zlen (filter P l) <= zlen l.
Proof. pose proof (length_filter P l). unfold zlen. lia. Qed.

Lemma counted_most_frequent os q :
  counts os q -> zlen os < 2 ^ 32 ->
  most_frequent (fun r => seen r os) (l_max_freq_ue (find_max_freq_ue q)) /\
  most_frequent (fun r => seen_dl r true os) (l_max_dl_freq_ue (find_max_freq_ue q)) /\
  most_frequent (fun r => seen_dl r false os) (l_max_ul_freq_ue (find_max_freq_ue q)).
Proof.
  intros [Ha Hd Hu _] Hlen. split_and!; apply max_freq_spec; try done; intros r; unfold is_uint, seen, seen_dl;
    match goal with |- context [zlen (@filter ?A _ _ ?P ?D os)] => pose proof (zlen_filter_le P os) end; lia.
Qed.

(** The observations of a cell among subframes of all cells. *)
Definition cell_observations (c : Z) (bs : list ngscope_status_buffer_t) : list (Z * Z * bool) :=
  concat (observations <$> filter (fun b => sb_cell_idx b = c) bs).

Lemma enqueue_all_spec bs : forall qs (os : Z -> list (Z * Z * bool)),
  Forall (fun b => per_sub_wf (dci_per_sub b) /\ 0 <= sb_cell_idx b < zlen qs) bs ->
  (forall c q, zget qs c = Some q -> counts (os c) q) ->
  exists qs', foldM ngscope_ue_list_enqueue_rnti_per_sf_per_cell qs bs = Some qs' /\ zlen qs' = zlen qs /\
    forall c q, zget qs' c = Some q -> counts (os c ++ cell_observations c bs) q.
Proof.
  induction bs as [| b bs IH]; intros qs os Hbs Hc.
  { exists qs. split; [done |]. split; [done |]. intros c q Hq. rewrite app_nil_r. by apply Hc. }
  inversion_clear Hbs as [| ? ? [Hwf Hr] Hbs']. destruct (zget_some qs (sb_cell_idx b)) as [q0 Hq0]; [done |].
  cbn [foldM]. rewrite (enqueue_sf_spec qs b q0) by done.
  destruct (IH (<[Z.to_nat (sb_cell_idx b) := foldl observe q0 (observations b)]> qs)
    (fun c => os c ++ if decide (sb_cell_idx b = c) then observations b else [])) as (qs' & E & Hl & H).
  - by rewrite zlen_insert.
  - intros c q Hq. destruct (decide (sb_cell_idx b = c)) as [<- | Hne].
    + rewrite zget_insert_eq in Hq by done. injection Hq as <-. by apply observe_all_counts, Hc.
    + rewrite zget_insert_ne in Hq by (done || lia). rewrite app_nil_r. by apply Hc.
  - rewrite zlen_insert in Hl. exists qs'. split; [done |]. split; [done |]. intros c q Hq. specialize (H c q Hq).
    unfold cell_observations in *. rewrite filter_cons. destruct (decide (sb_cell_idx b = c)).
    + rewrite fmap_cons. cbn [concat]. by rewrite app_assoc.
    + by rewrite app_nil_r in H.
Qed.

(** The counters of every cell are those of the messages enqueued for
    it, and the RNTI reported as most frequent, in total, downlink and uplink,
    is the first C-RNTI (10 to 65523) with the most messages, or 0 if there
    was none. *)
Theorem ue_list_reports bs :
  Forall (fun b => per_sub_wf (dci_per_sub b) /\ 0 <= sb_cell_idx b < MAX_NOF_RF_DEV) bs ->
  exists qs', foldM ngscope_ue_list_enqueue_rnti_per_sf_per_cell
      (replicate (Z.to_nat MAX_NOF_RF_DEV) zero_ue_list) bs = Some qs' /\ zlen qs' = MAX_NOF_RF_DEV /\
    forall c q, zget qs' c = Some q ->
      let os := cell_observations c bs in
      counts os q /\
      (zlen os < 2 ^ 32 ->
       most_frequent (fun r => seen r os) (l_max_freq_ue (find_max_freq_ue q)) /\
       most_frequent (fun r => seen_dl r true os) (l_max_dl_freq_ue (find_max_freq_ue q)) /\
       most_frequent (fun r => seen_dl r false os) (l_max_ul_freq_ue (find_max_freq_ue q))).
Proof.
  intros Hbs. destruct (enqueue_all_spec bs (replicate 4 zero_ue_list) (fun _ => []) Hbs) as (qs' & E & Hl & H).
  { intros c q Hq. pose proof (zget_inv _ _ _ Hq) as [H0 _]. rewrite zget_lookup in Hq by done.
    apply lookup_replicate in Hq as [-> _]. apply counts_zero. }
  exists qs'. split; [exact E |]. split; [exact Hl |]. intros c q Hq os.
  split; [exact (H c q Hq) |]. intros Hlen. by apply counted_most_frequent, Hlen; apply (H c q Hq).
Qed.

Definition ex_msg (r : Z) (d : bool) : ngscope_dci_msg_t :=
  DciMsg r 5 0 1 d f32_1 f32_1 SRSRAN_DCI_FORMAT0 zero_tb zero_tb (DciPhich 0 0 0) (DciLoc 0 0 false f32_1).
Definition ex_subframe (t c : Z) (rs : list Z) : ngscope_status_buffer_t :=
  StatusBuffer (PerSub (take 10 (((fun r => ex_msg r true) <$> rs) ++ replicate 10 zero_msg)) (zlen rs)
    (replicate 10 zero_msg) 0 0) t c.

Definition ex_subframes : list ngscope_status_buffer_t :=
  [ex_subframe 5 1 [61; 70]; ex_subframe 6 0 [99]; ex_subframe 7 1 [70]].

Lemma ue_list_reports_witness :
  exists qs', foldM ngscope_ue_list_enqueue_rnti_per_sf_per_cell
      (replicate (Z.to_nat MAX_NOF_RF_DEV) zero_ue_list) ex_subframes = Some qs' /\ zlen qs' = MAX_NOF_RF_DEV /\
    forall c q, zget qs' c = Some q ->
      let os := cell_observations c ex_subframes in
      counts os q /\
      (zlen os < 2 ^ 32 ->
       most_frequent (fun r => seen r os) (l_max_freq_ue (find_max_freq_ue q)) /\
       most_frequent (fun r => seen_dl r true os) (l_max_dl_freq_ue (find_max_freq_ue q)) /\
       most_frequent (fun r => seen_dl r false os) (l_max_ul_freq_ue (find_max_freq_ue q))).
Proof.
  apply (ue_list_reports ex_subframes). unfold ex_subframes, MAX_NOF_RF_DEV.
  repeat (apply Forall_cons; split; [split; [split; vm_compute; by repeat split | simpl; lia] |]).
  apply Forall_nil; done.
Defined.
