(* ===== verification/StatusRelay.v ===== *)
(** * From the decoders to the cell status and the log
      ([dci_decoder.c], [status_tracker.c], [cell_status.c], [dci_log.c])

    Decoded subframes pass three shared buffers of 30 entries, each protected
    by a mutex: decoders -> status tracker -> cell-status thread, and status
    tracker -> DCI logger. The threads interleave at the critical sections;
    the state machine has one step for each. *)

From S2P Require Import Prelude NgUtil NgTypes DciRing UeTracker UeList.

Definition MAX_DCI_BUFFER : Z := 30.

(** ** A shared buffer: the entries and its [dci_ready_t] *)

Record relay := Relay { rl_buffer : list ngscope_status_buffer_t; rl_header : Z; rl_nof_dci : Z }.

Definition zero_sb : ngscope_status_buffer_t :=
  StatusBuffer (PerSub (replicate 10 zero_msg) 0 (replicate 10 zero_msg) 0 0) 0 0.

Definition relay_init : relay := Relay (replicate (Z.to_nat MAX_DCI_BUFFER) zero_sb) 0 0.

(** One entry put by a decoder or by the status tracker. *)
Definition relay_put (r : relay) (b : ngscope_status_buffer_t) : option relay :=
  l ← zset (rl_buffer r) (rl_header r) b;
  Some (Relay l (Z.rem (rl_header r + 1) MAX_DCI_BUFFER)
    (if rl_nof_dci r <? MAX_DCI_BUFFER then rl_nof_dci r + 1 else rl_nof_dci r)).

(** The loop of the status tracker over its queue. *)
Definition relay_put_all (r : relay) (bs : list ngscope_status_buffer_t) : option relay := foldM relay_put r bs.

(** The consumer waits while the buffer is empty, copies the first [nof_dci]
    entries, zeroes them and resets the buffer; [None] while it waits. *)
Definition relay_drain (r : relay) : option (list ngscope_status_buffer_t * relay) :=
  if rl_nof_dci r <=? 0 then None
  else
    let n := Z.to_nat (rl_nof_dci r) in
    Some (take n (rl_buffer r), Relay (replicate n zero_sb ++ drop n (rl_buffer r)) 0 0).

(** What was put since the last drain. *)
Record pending (bs : list ngscope_status_buffer_t) (r : relay) : Prop := Pending {
  pd_ring : ring_holds MAX_DCI_BUFFER bs (rl_buffer r) (rl_header r);
  pd_nof : rl_nof_dci r = Z.min (zlen bs) MAX_DCI_BUFFER
}.

Lemma pending_init : pending [] relay_init.
Proof. split; [by apply ring_holds_nil | done]. Qed.

Lemma relay_put_pending bs r b : pending bs r -> exists r', relay_put r b = Some r' /\ pending (bs ++ [b]) r'.
Proof.
  intros [Hr Hn]. unfold relay_put.
  destruct (ring_holds_push _ _ _ _ b (eq_refl : 0 < MAX_DCI_BUFFER) Hr) as [-> Hr']. cbn [mbind option_bind].
  eexists; split; [reflexivity |]. split; [exact Hr' |]. simpl. rewrite Hn, zlen_app. change (zlen [b]) with 1.
  unfold MAX_DCI_BUFFER. zcase; lia.
Qed.

Lemma relay_put_all_pending bs' : forall bs r, pending bs r ->
  exists r', relay_put_all r bs' = Some r' /\ pending (bs ++ bs') r'.
Proof.
  induction bs' as [| b bs' IH]; intros bs r H; [exists r; by rewrite app_nil_r |].
  destruct (relay_put_pending bs r b H) as (r1 & E & H1). unfold relay_put_all. cbn [foldM]. rewrite E.
  destruct (IH _ _ H1) as (r' & E' & H'). exists r'. split; [exact E' |]. by rewrite <- app_assoc in H'.
Qed.

(** A drain gives exactly what is pending as long as it fits. *)
Lemma relay_drain_pending bs r :
  pending bs r -> 0 < zlen bs <= MAX_DCI_BUFFER ->
  exists r', relay_drain r = Some (bs, r') /\ pending [] r'.
Proof.
  intros [[Hl Hh Ha] Hn] Hb. unfold relay_drain. rewrite Z.min_l in Hn by lia. rewrite Hn.
  zcase; [lia |]. unfold zlen at 1. rewrite Nat2Z.id. eexists. split.
  - do 2 f_equal. apply (list_eq_same_length _ _ (length bs)); [done | rewrite length_take; unfold zlen in *; lia |].
    intros i x y Hi Hx Hy. rewrite lookup_take_lt in Hx by done.
    assert (zget (rl_buffer r) (Z.of_nat i mod MAX_DCI_BUFFER) = Some y) as Hy'.
    { apply Ha; [lia |]. by rewrite zget_lookup, Nat2Z.id by lia. }
    rewrite Z.mod_small, zget_lookup, Nat2Z.id in Hy' by (unfold zlen in *; lia). congruence.
  - split; [| done]. simpl. apply ring_holds_nil; [| done].
    rewrite zlen_app. unfold zlen in *. rewrite length_replicate, length_drop, Nat2Z.id. lia.
Qed.

(** More than 30 entries between two drains: the oldest are lost, and the rest
    comes rotated, the newest first. *)
Lemma relay_drain_overflow bs r :
  pending bs r -> MAX_DCI_BUFFER <= zlen bs <= 2 * MAX_DCI_BUFFER ->
  exists r', relay_drain r
    = Some (drop 30 bs ++ drop (Z.to_nat (zlen bs - 30)) (take 30 bs), r') /\ pending [] r'.
Proof.
  intros [[Hl Hh Ha] Hn] Hb. unfold MAX_DCI_BUFFER in Hb, Hn, Hl. unfold relay_drain.
  rewrite Z.min_r in Hn by lia. rewrite Hn. cbn [Z.leb Z.compare]. eexists. split.
  - do 2 f_equal. apply (list_eq_same_length _ _ 30).
    + rewrite length_app, !length_drop, length_take. unfold zlen in *. lia.
    + rewrite length_take. unfold zlen in *. lia.
    + intros i x y Hi Hx Hy. rewrite lookup_take_lt in Hx by lia.
      assert (exists k, zlen bs - 30 <= k /\ zget bs k = Some y /\ k mod MAX_DCI_BUFFER = Z.of_nat i) as (k & Hk & Hky & Hm).
      { unfold MAX_DCI_BUFFER. apply lookup_app_Some in Hy as [Hy | [Hge Hy]].
        - rewrite lookup_drop in Hy. exists (Z.of_nat (30 + i)). pose proof (lookup_lt_Some _ _ _ Hy).
          rewrite zget_lookup, Nat2Z.id by lia. split; [unfold zlen in *; lia |]. split; [done | lia].
        - rewrite length_drop in Hge, Hy. rewrite lookup_drop in Hy.
          rewrite lookup_take_lt in Hy by (unfold zlen in *; lia). exists (Z.of_nat i).
          rewrite zget_lookup, Nat2Z.id by lia. split; [unfold zlen in *; lia |]. split; [| lia].
          rewrite <- Hy. f_equal. unfold zlen in *. lia. }
      pose proof (Ha k y Hk Hky) as Hy'. rewrite Hm, zget_lookup, Nat2Z.id in Hy' by lia. congruence.
  - split; [| done]. cbn [rl_buffer rl_header]. apply ring_holds_nil; [| done].
    rewrite zlen_app. unfold zlen in *. rewrite length_replicate, length_drop. unfold MAX_DCI_BUFFER. lia.
Qed.

(** ** The threads *)

(** Where the status tracker is in its loop. *)
Inductive tracker_pc :=
  | Waiting
  | ToCell (bs : list ngscope_status_buffer_t)
  | ToLog (bs : list ngscope_status_buffer_t).

Record pipeline := Pipeline { p_dec : relay; p_tracker : tracker_pc; p_cell : relay; p_log : relay }.

Definition pipeline_init : pipeline := Pipeline relay_init Waiting relay_init relay_init.

(** The critical sections. *)
Inductive event :=
  | Decoded (b : ngscope_status_buffer_t)
  | Taken (bs : list ngscope_status_buffer_t)
  | PutCell
  | PutLog
  | CellBatch (bs : list ngscope_status_buffer_t)
  | LogBatch (bs : list ngscope_status_buffer_t).

Inductive step : pipeline -> event -> pipeline -> Prop :=
  | step_decoder d pc c l b d' :
      relay_put d b = Some d' -> step (Pipeline d pc c l) (Decoded b) (Pipeline d' pc c l)
  | step_take d c l bs d' :
      relay_drain d = Some (bs, d') -> step (Pipeline d Waiting c l) (Taken bs) (Pipeline d' (ToCell bs) c l)
  | step_put_cell d c l bs c' :
      relay_put_all c bs = Some c' -> step (Pipeline d (ToCell bs) c l) PutCell (Pipeline d (ToLog bs) c' l)
  | step_put_log d c l bs l' :
      relay_put_all l bs = Some l' -> step (Pipeline d (ToLog bs) c l) PutLog (Pipeline d Waiting c l')
  | step_cell_thread d pc c l bs c' :
      relay_drain c = Some (bs, c') -> step (Pipeline d pc c l) (CellBatch bs) (Pipeline d pc c' l)
  | step_log_thread d pc c l bs l' :
      relay_drain l = Some (bs, l') -> step (Pipeline d pc c l) (LogBatch bs) (Pipeline d pc c l').

(** The executions whose steps satisfy [P]. *)
Inductive run (P : pipeline -> event -> Prop) : list event -> pipeline -> Prop :=
  | run_init : run P [] pipeline_init
  | run_step es s e s' : run P es s -> P s e -> step s e s' -> run P (es ++ [e]) s'.

(** A put finds room for what it puts. *)
Definition room (r : relay) (n : Z) : Prop := rl_nof_dci r + n <= MAX_DCI_BUFFER.

Definition step_fits (s : pipeline) (e : event) : Prop :=
  match e, p_tracker s with
  | Decoded _, _ => room (p_dec s) 1
  | PutCell, ToCell bs => room (p_cell s) (zlen bs)
  | PutLog, ToLog bs => room (p_log s) (zlen bs)
  | _, _ => True
  end.

(** What the events say was decoded and handed over. *)
Definition decoded : list event -> list ngscope_status_buffer_t :=
  omap (fun e => match e with Decoded b => Some b | _ => None end).
Definition cell_batches : list event -> list (list ngscope_status_buffer_t) :=
  omap (fun e => match e with CellBatch bs => Some bs | _ => None end).
Definition log_batches : list event -> list (list ngscope_status_buffer_t) :=
  omap (fun e => match e with LogBatch bs => Some bs | _ => None end).

(** What the tracker still owes to each buffer. *)
Definition owed_cell (pc : tracker_pc) : list ngscope_status_buffer_t := match pc with ToCell bs => bs | _ => [] end.
Definition owed_log (pc : tracker_pc) : list ngscope_status_buffer_t :=
  match pc with ToCell bs | ToLog bs => bs | Waiting => [] end.

Definition fresh (bs : list ngscope_status_buffer_t) (r : relay) : Prop :=
  pending bs r /\ zlen bs <= MAX_DCI_BUFFER.

Record in_order (es : list event) (s : pipeline) : Prop := InOrder {
  io_rest : exists pd pc pl, fresh pd (p_dec s) /\ fresh pc (p_cell s) /\ fresh pl (p_log s) /\
    decoded es = concat (cell_batches es) ++ pc ++ owed_cell (p_tracker s) ++ pd /\
    decoded es = concat (log_batches es) ++ pl ++ owed_log (p_tracker s) ++ pd
}.

Lemma fresh_put bs r b r' : fresh bs r -> room r 1 -> relay_put r b = Some r' -> fresh (bs ++ [b]) r'.
Proof.
  intros [Hp Hl] Hr E. destruct (relay_put_pending bs r b Hp) as (r1 & E1 & H1).
  rewrite E in E1. injection E1 as <-. split; [done |]. destruct Hp as [_ Hn]. unfold room in Hr.
  rewrite zlen_app. change (zlen [b]) with 1. lia.
Qed.

Lemma fresh_put_all bs r bs' r' : fresh bs r -> room r (zlen bs') -> relay_put_all r bs' = Some r' -> fresh (bs ++ bs') r'.
Proof.
  intros [Hp Hl] Hr E. destruct (relay_put_all_pending bs' bs r Hp) as (r1 & E1 & H1).
  rewrite E in E1. injection E1 as <-. split; [done |]. destruct Hp as [_ Hn]. unfold room in Hr.
  rewrite zlen_app. lia.
Qed.

Lemma fresh_drain bs r bs' r' : fresh bs r -> relay_drain r = Some (bs', r') -> bs' = bs /\ fresh [] r'.
Proof.
  intros [Hp Hl] E. pose proof (zlen_nonneg bs). destruct (decide (zlen bs = 0)) as [Hz | Hz].
  - destruct Hp as [_ Hn]. unfold relay_drain in E. rewrite Hn, Hz in E. done.
  - destruct (relay_drain_pending bs r Hp) as (r1 & E1 & H1); [lia |].
    rewrite E in E1. injection E1 as -> ->. split; [done |]. by split.
Qed.

Lemma fresh_init : fresh [] relay_init.
Proof. split; [apply pending_init | done]. Qed.

Lemma omap_snoc {A B} (f : A -> option B) l x : omap f (l ++ [x]) = omap f l ++ option_list (f x).
Proof. rewrite omap_app. simpl. by destruct (f x). Qed.

Lemma step_in_order es s e s' : in_order es s -> step_fits s e -> step s e s' -> in_order (es ++ [e]) s'.
Proof.
  intros [(pd & pc & pl & Hd & Hc & Hl & Ec & El)] Hf Hs.
  split. unfold decoded, cell_batches, log_batches in *. rewrite !omap_snoc.
  destruct Hs as [d pcs c l b d' E | d c l bs d' E | d c l bs c' E | d c l bs l' E | d pcs c l bs c' E | d pcs c l bs l' E];
    cbn [p_dec p_tracker p_cell p_log step_fits owed_cell owed_log option_list] in *; rewrite ?app_nil_r in *.
  - exists (pd ++ [b]), pc, pl. split; [by eapply fresh_put |]. do 2 (split; [done |]).
    split; [rewrite Ec | rewrite El]; by rewrite <- !app_assoc.
  - destruct (fresh_drain _ _ _ _ Hd E) as [-> Hd']. exists [], pc, pl. rewrite !app_nil_r. by split_and!.
  - exists pd, (pc ++ bs), pl. split; [done |]. split; [by eapply fresh_put_all |]. split; [done |].
    split; [by rewrite Ec, <- app_assoc | done].
  - exists pd, pc, (pl ++ bs). do 2 (split; [done |]). split; [by eapply fresh_put_all |].
    split; [done | by rewrite El, <- app_assoc].
  - destruct (fresh_drain _ _ _ _ Hc E) as [-> Hc']. exists pd, [], pl. split_and!; try done.
    rewrite concat_app. cbn. by rewrite app_nil_r, <- app_assoc.
  - destruct (fresh_drain _ _ _ _ Hl E) as [-> Hl']. exists pd, pc, []. split_and!; try done.
    rewrite concat_app. cbn. by rewrite app_nil_r, <- app_assoc.
Qed.

Lemma run_in_order es s : run step_fits es s -> in_order es s.
Proof.
  induction 1 as [| es s e s' _ IH Hf Hs]; [| by eapply step_in_order].
  split. exists [], [], []. split_and!; try apply fresh_init; done.
Qed.

(** A scheduler for the threads: each choice runs one critical section. *)
Inductive action :=
  | DecodeOne (b : ngscope_status_buffer_t) | TakeAll | PutToCell | PutToLog | CellDrains | LogDrains.

Definition do_action (s : pipeline) (a : action) : option (event * pipeline) :=
  match a with
  | DecodeOne b => d ← relay_put (p_dec s) b; Some (Decoded b, Pipeline d (p_tracker s) (p_cell s) (p_log s))
  | TakeAll =>
      match p_tracker s with
      | Waiting => '(bs, d) ← relay_drain (p_dec s); Some (Taken bs, Pipeline d (ToCell bs) (p_cell s) (p_log s))
      | _ => None
      end
  | PutToCell =>
      match p_tracker s with
      | ToCell bs => c ← relay_put_all (p_cell s) bs; Some (PutCell, Pipeline (p_dec s) (ToLog bs) c (p_log s))
      | _ => None
      end
  | PutToLog =>
      match p_tracker s with
      | ToLog bs => l ← relay_put_all (p_log s) bs; Some (PutLog, Pipeline (p_dec s) Waiting (p_cell s) l)
      | _ => None
      end
  | CellDrains => '(bs, c) ← relay_drain (p_cell s); Some (CellBatch bs, Pipeline (p_dec s) (p_tracker s) c (p_log s))
  | LogDrains => '(bs, l) ← relay_drain (p_log s); Some (LogBatch bs, Pipeline (p_dec s) (p_tracker s) (p_cell s) l)
  end.

Lemma do_action_step s a e s' : do_action s a = Some (e, s') -> step s e s'.
Proof.
  destruct s as [d pc c l], a; cbn [do_action p_dec p_tracker p_cell p_log]; intros H;
    try (destruct pc; [..]; try done);
    match type of H with (?o ≫= _ = _) => destruct o as [x |] eqn:E; [| done]; try destruct x; simpl in H end;
    injection H as <- <-; by constructor.
Qed.

#[export] Instance step_fits_dec s e : Decision (step_fits s e).
Proof. destruct e, (p_tracker s) eqn:E; unfold step_fits, room; rewrite ?E; apply _. Defined.

Definition execute (acts : list action) : option (list event * pipeline) :=
  foldM (fun '(es, s) a =>
    '(e, s') ← do_action s a;
    if decide (step_fits s e) then Some (es ++ [e], s') else None) ([], pipeline_init) acts.

Lemma execute_run acts es s : execute acts = Some (es, s) -> run step_fits es s.
Proof.
  unfold execute. revert es s. induction acts as [| a acts IH] using rev_ind; intros es s H.
  { injection H as <- <-. apply run_init. }
  rewrite foldM_app in H. destruct (foldM _ _ acts) as [[es1 s1] |]; [| done]. cbn [mbind option_bind foldM] in H.
  destruct (do_action s1 a) as [[e s2] |] eqn:E; [| done]. cbn [mbind option_bind] in H.
  destruct (decide (step_fits s1 e)); [| done]. injection H as <- <-.
  eapply run_step; [by apply IH | done | by eapply do_action_step].
Qed.

(** ** The cell-status thread *)

Record cell_thread := CellThread {
  ct_rings : list ngscope_cell_dci_ring_buffer_t; ct_ca : CA_status_t; ct_ues : list ngscope_ue_list_t
}.

(** The puts of one batch into the rings of their cells, and what they send. *)
Definition put_batch (sock : Z) (rings : list ngscope_cell_dci_ring_buffer_t)
    (bs : list ngscope_status_buffer_t) : option (list ngscope_cell_dci_ring_buffer_t * list ue_dci_t) :=
  foldM (fun '(rings, out) b =>
    r ← zget rings (sb_cell_idx b);
    '(r, sent) ← dci_ring_buffer_put_dci r b sock;
    rings ← zset rings (sb_cell_idx b) r;
    Some (rings, out ++ sent)) (rings, []) bs.

(** One iteration of the thread. *)
Definition cell_status_batch (sock : Z) (s : cell_thread) (bs : list ngscope_status_buffer_t)
  : option (cell_thread * list ue_dci_t) :=
  '(rings, out) ← put_batch sock (ct_rings s) bs;
  ca ← CA_status_update_header (ct_ca s) rings;
  ues ← foldM ngscope_ue_list_enqueue_rnti_per_sf_per_cell (ct_ues s) bs;
  Some (CellThread rings ca ues, out).

Definition cell_status_run (sock : Z) (s : cell_thread) (batches : list (list ngscope_status_buffer_t))
  : option (cell_thread * list ue_dci_t) :=
  foldM (fun '(s, out) bs => '(s, sent) ← cell_status_batch sock s bs; Some (s, out ++ sent)) (s, []) batches.

(** The same subframes put into one ring, one after the other. *)
Definition put_seq (sock : Z) (q : ngscope_cell_dci_ring_buffer_t) (bs : list ngscope_status_buffer_t)
  : option ngscope_cell_dci_ring_buffer_t :=
  foldM (fun q b => fst <$> dci_ring_buffer_put_dci q b sock) q bs.

Definition of_cell (c : Z) (bs : list ngscope_status_buffer_t) : list ngscope_status_buffer_t :=
  filter (fun b => sb_cell_idx b = c) bs.

Lemma of_cell_app c bs1 bs2 : of_cell c (bs1 ++ bs2) = of_cell c bs1 ++ of_cell c bs2.
Proof. apply filter_app. Qed.

(** Subframes the decoders of [n] cells produce. *)
Definition from_cells (n : Z) (b : ngscope_status_buffer_t) : Prop :=
  buffer_ok b /\ 0 <= sb_cell_idx b < n.

(** Every ring has received its subframes [bs] in order. *)
Definition rings_after (sock : Z) (rings rings' : list ngscope_cell_dci_ring_buffer_t)
    (bs : list ngscope_status_buffer_t) : Prop :=
  zlen rings' = zlen rings /\
  forall c r, zget rings c = Some r -> exists r', put_seq sock r (of_cell c bs) = Some r' /\
    zget rings' c = Some r' /\ ring_wf r'.

Lemma rings_after_trans sock r1 r2 r3 bs1 bs2 :
  rings_after sock r1 r2 bs1 -> rings_after sock r2 r3 bs2 -> rings_after sock r1 r3 (bs1 ++ bs2).
Proof.
  intros [L1 H1] [L2 H2]. split; [congruence |]. intros c r Hr.
  destruct (H1 c r Hr) as (r' & E1 & Hr' & _). destruct (H2 c r' Hr') as (r'' & E2 & Hr'' & Hwf).
  exists r''. split; [| done]. unfold put_seq in *. rewrite of_cell_app, foldM_app, E1. exact E2.
Qed.

Definition rings_wf (rings : list ngscope_cell_dci_ring_buffer_t) : Prop :=
  forall c r, zget rings c = Some r -> ring_wf r.

Lemma rings_after_refl sock rings : rings_wf rings -> rings_after sock rings rings [].
Proof. intros H. split; [done |]. intros c r Hr. exists r. split; [done |]. split; [done | by apply (H c)]. Qed.

Lemma rings_after_wf sock rings rings' bs : rings_after sock rings rings' bs -> rings_wf rings'.
Proof.
  intros [Hl H] c r' Hr'. destruct (zget_some rings c) as [r Hr].
  { apply zget_inv in Hr'. unfold in_range in *. lia. }
  destruct (H c r Hr) as (r'' & _ & E & Hwf). congruence.
Qed.

Lemma put_one_after sock rings b :
  rings_wf rings -> from_cells (zlen rings) b ->
  exists r r' sent rings', zget rings (sb_cell_idx b) = Some r /\
    dci_ring_buffer_put_dci r b sock = Some (r', sent) /\
    zset rings (sb_cell_idx b) r' = Some rings' /\ rings_after sock rings rings' [b].
Proof.
  intros Hwf [Hb Hc]. destruct (zget_some rings (sb_cell_idx b)) as [r Hr]; [done |].
  destruct (put_dci_moves r b sock (Hwf _ _ Hr) Hb) as (r' & sent & k & E & Hwf' & _).
  exists r, r', sent, (<[Z.to_nat (sb_cell_idx b) := r']> rings). split; [done |]. split; [done |].
  split; [by apply zset_in |]. split; [by rewrite zlen_insert |]. intros c x Hx.
  unfold of_cell. rewrite filter_cons, filter_nil. destruct (decide (sb_cell_idx b = c)) as [<- | Hne].
  - exists r'. rewrite Hr in Hx. injection Hx as <-. unfold put_seq. cbn [foldM]. rewrite E.
    split; [done |]. split; [by apply zget_insert_eq | done].
  - exists x. split; [done |]. rewrite zget_insert_ne by (done || lia). split; [done | by apply (Hwf c)].
Qed.

Lemma put_batch_after sock bs : forall rings out,
  rings_wf rings -> Forall (from_cells (zlen rings)) bs ->
  exists rings' out', foldM (fun '(rings, out) b =>
      r ← zget rings (sb_cell_idx b);
      '(r, sent) ← dci_ring_buffer_put_dci r b sock;
      rings ← zset rings (sb_cell_idx b) r;
      Some (rings, out ++ sent)) (rings, out) bs = Some (rings', out') /\ rings_after sock rings rings' bs.
Proof.
  induction bs as [| b bs IH]; intros rings out Hwf Hbs.
  { exists rings, out. split; [done |]. by apply rings_after_refl. }
  inversion_clear Hbs as [| ? ? Hb Hbs'].
  destruct (put_one_after sock rings b Hwf Hb) as (r & r' & sent & rings1 & Hr & E & Es & H1).
  cbn [foldM]. rewrite Hr. cbn [mbind option_bind]. rewrite E. cbn [mbind option_bind]. rewrite Es. cbn [mbind option_bind].
  destruct (IH rings1 (out ++ sent)) as (rings' & out' & E' & H'); [by eapply rings_after_wf | by rewrite (proj1 H1) |].
  exists rings', out'. split; [exact E' |]. by apply (rings_after_trans sock rings rings1 rings' [b]).
Qed.

(** The CA header of at most four cells can always be computed. *)
Lemma CA_update_total ca rings :
  1 <= ca_nof_cell ca <= MAX_NOF_RF_DEV -> ca_nof_cell ca <= zlen rings ->
  exists ca', CA_status_update_header ca rings = Some ca' /\ ca_nof_cell ca' = ca_nof_cell ca.
Proof.
  intros Hn Hl. unfold CA_status_update_header. destruct (all_cell_ready ca); [by exists ca |].
  loop_inv (fun (_ : Z) (s : bool * list Z) => zlen s.2 = MAX_NOF_RF_DEV) as ([ready headers] & -> & Hh); [lia | done | |].
  { intros i [ready headers] Hi Hh. simpl in Hh. destruct (zget_some rings i) as [c ->]; [unfold in_range; lia |].
    simpl. rewrite zset_in by (unfold in_range; lia). eexists; split; [reflexivity |]. simpl. by rewrite zlen_insert. }
  simpl in Hh. cbn [mbind option_bind]. destruct ready; [| by exists ca].
  unfold find_CA_header. destruct (zget_some headers 0) as [h0 ->]; [unfold in_range, MAX_NOF_RF_DEV in *; lia |].
  cbn [mbind option_bind].
  loop_inv (fun (_ _ : Z) => True) as (h & -> & _); [lia | done | | by eexists].
  intros i m Hi _. destruct (zget_some headers i) as [h ->]; [unfold in_range; lia |]. by eexists.
Qed.

Record thread_ok (os : Z -> list (Z * Z * bool)) (s : cell_thread) : Prop := ThreadOk {
  to_rings : rings_wf (ct_rings s);
  to_nof : 1 <= ca_nof_cell (ct_ca s) <= MAX_NOF_RF_DEV;
  to_cells : ca_nof_cell (ct_ca s) = zlen (ct_rings s);
  to_ues : zlen (ct_ues s) = MAX_NOF_RF_DEV;
  to_counts : forall c q, zget (ct_ues s) c = Some q -> counts (os c) q
}.

Lemma cell_status_batch_ok sock os s bs :
  thread_ok os s -> Forall (from_cells (zlen (ct_rings s))) bs ->
  exists s' out, cell_status_batch sock s bs = Some (s', out) /\
    thread_ok (fun c => os c ++ cell_observations c bs) s' /\
    rings_after sock (ct_rings s) (ct_rings s') bs.
Proof.
  intros [Hr Hn Hc Hu Ht] Hbs. unfold cell_status_batch, put_batch.
  destruct (put_batch_after sock bs (ct_rings s) [] Hr Hbs) as (rings' & out & -> & Hafter). cbn [mbind option_bind].
  destruct (CA_update_total (ct_ca s) rings') as (ca' & -> & Hca); [done | destruct Hafter; lia |].
  cbn [mbind option_bind]. destruct (enqueue_all_spec bs (ct_ues s) os) as (ues' & -> & Hlu & Hcu); [| done |].
  { eapply Forall_impl; [exact Hbs |]. intros b [[Hb _] Hi]. simpl. split; [done |]. lia. }
  cbn [mbind option_bind]. eexists _, out. split; [reflexivity |]. split; [| done].
  split; cbn [ct_rings ct_ca ct_ues]; try done.
  - by eapply rings_after_wf.
  - by rewrite Hca.
  - destruct Hafter. lia.
  - by rewrite Hlu.
Qed.

Lemma cell_observations_app c bs1 bs2 :
  cell_observations c (bs1 ++ bs2) = cell_observations c bs1 ++ cell_observations c bs2.
Proof. unfold cell_observations. by rewrite filter_app, fmap_app, concat_app. Qed.

Lemma cell_status_run_ok sock batches : forall os s out,
  thread_ok os s -> Forall (from_cells (zlen (ct_rings s))) (concat batches) ->
  exists s' out', foldM (fun '(s, out) bs => '(s, sent) ← cell_status_batch sock s bs; Some (s, out ++ sent)) (s, out) batches
      = Some (s', out') /\
    rings_after sock (ct_rings s) (ct_rings s') (concat batches) /\
    forall c q, zget (ct_ues s') c = Some q -> counts (os c ++ cell_observations c (concat batches)) q.
Proof.
  induction batches as [| bs batches IH]; intros os s out Hs Hbs.
  { exists s, out. split; [done |]. split; [apply rings_after_refl, Hs |]. intros c q Hq.
    cbn [concat]. rewrite app_nil_r. by apply Hs. }
  cbn [concat] in *. apply Forall_app in Hbs as [Hb Hbs].
  destruct (cell_status_batch_ok sock os s bs Hs Hb) as (s1 & sent & E & Hs1 & H1).
  destruct (IH _ s1 (out ++ sent) Hs1) as (s' & out' & E' & H' & Hc); [by rewrite (proj1 H1) |].
  cbn [foldM]. rewrite E. cbn [mbind option_bind]. exists s', out'. split; [exact E' |].
  split; [by eapply rings_after_trans |]. intros c q Hq. rewrite cell_observations_app, app_assoc. by apply Hc.
Qed.

(** C18: in every interleaving of the decoders, the status tracker, the
    cell-status thread and the logger in which no put finds its buffer full,
    the subframes the cell-status thread has taken, and those the logger has
    taken, are prefixes of the sequence decoded; and the cell-status thread
    ends in the state in which the ring of each cell received its subframes of
    that prefix one by one in decoding order, and each UE list counted them. *)
Theorem threads_refine_sequence sock s0 es s :
  run step_fits es s -> thread_ok (fun _ => []) s0 -> Forall (from_cells (zlen (ct_rings s0))) (decoded es) ->
  exists k m s' out,
    concat (cell_batches es) = take k (decoded es) /\ concat (log_batches es) = take m (decoded es) /\
    cell_status_run sock s0 (cell_batches es) = Some (s', out) /\
    rings_after sock (ct_rings s0) (ct_rings s') (take k (decoded es)) /\
    (forall c q, zget (ct_ues s') c = Some q -> counts (cell_observations c (take k (decoded es))) q).
Proof.
  intros Hrun Hs0 Hdec. destruct (run_in_order es s Hrun) as [(pd & pc & pl & _ & _ & _ & Ec & El)].
  exists (length (concat (cell_batches es))), (length (concat (log_batches es))).
  assert (take (length (concat (cell_batches es))) (decoded es) = concat (cell_batches es)) as Tc
    by (rewrite Ec at 1; apply take_app_length).
  assert (take (length (concat (log_batches es))) (decoded es) = concat (log_batches es)) as Tl
    by (rewrite El at 1; apply take_app_length).
  rewrite Tc, Tl. destruct (cell_status_run_ok sock (cell_batches es) (fun _ => []) s0 [] Hs0) as (s' & out & E & H & Hc).
  { rewrite Ec in Hdec. by apply Forall_app in Hdec as [? _]. }
  exists s', out. by split_and!.
Qed.

(** Between 30 and 60 subframes put into a buffer without a drain
    overwrite the oldest; the consumer then gets the newest [n - 30] first,
    followed by the remaining older ones: it sees the subframes out of order. *)
Theorem relay_overflow_rotates bs :
  MAX_DCI_BUFFER <= zlen bs <= 2 * MAX_DCI_BUFFER ->
  exists r r', relay_put_all relay_init bs = Some r /\
    relay_drain r = Some (drop 30 bs ++ drop (Z.to_nat (zlen bs - 30)) (take 30 bs), r') /\ pending [] r'.
Proof.
  intros Hb. destruct (relay_put_all_pending bs [] relay_init pending_init) as (r & E & Hp).
  destruct (relay_drain_overflow bs r Hp Hb) as (r' & E' & Hp'). by exists r, r'.
Qed.

(** ** Witnesses *)

Definition ex_sb (t c : Z) : ngscope_status_buffer_t := ex_subframe t c [61].

Lemma relay_overflow_rotates_witness :
  exists r r', relay_put_all relay_init ((fun t => ex_sb t 0) <$> seqZ 0 32) = Some r /\
    relay_drain r = Some (drop 30 ((fun t => ex_sb t 0) <$> seqZ 0 32)
      ++ drop (Z.to_nat (zlen ((fun t => ex_sb t 0) <$> seqZ 0 32) - 30)) (take 30 ((fun t => ex_sb t 0) <$> seqZ 0 32)), r') /\
    pending [] r'.
Proof.
  apply (relay_overflow_rotates ((fun t => ex_sb t 0) <$> seqZ 0 32)).
  rewrite zlen_fmap. unfold zlen, MAX_DCI_BUFFER. rewrite length_seqZ. lia.
Defined.

Definition ex_thread : cell_thread :=
  CellThread [dci_ring_buffer_init 61 50 0 320; dci_ring_buffer_init 61 50 1 320]
    (CA_status_init 320 61 2 [50; 50; 0; 0]) (replicate 4 zero_ue_list).

(** Two cells decode; the second subframe arrives while the tracker is busy. *)
Definition ex_actions : list action :=
  [DecodeOne (ex_sb 5 0); TakeAll; DecodeOne (ex_sb 5 1); PutToCell; CellDrains; PutToLog].
Definition ex_run : list event * pipeline := default ([], pipeline_init) (execute ex_actions).

Lemma init_wf rnti prb cell size : 8 <= size <= 65536 -> ring_wf (dci_ring_buffer_init rnti prb cell size).
Proof.
  intros Hs. split; cbn [dci_ring_buffer_init buf_size sub_stat cell_header most_recent_sf nof_logged_dci]; try lia.
  - unfold zlen. rewrite length_replicate. lia.
  - apply Forall_replicate. split; done.
Qed.

Lemma ex_thread_ok : thread_ok (fun _ => []) ex_thread.
Proof.
  split; cbn [ex_thread ct_rings ct_ca ct_ues]; try done.
  - intros c r Hr. pose proof (zget_inv _ _ _ Hr) as [H0 H1]. unfold zlen in H1. simpl length in H1.
    assert (c = 0 \/ c = 1) as [-> | ->] by lia; cbn [zget Z.leb Z.compare Z.to_nat lookup list_lookup] in Hr;
      injection Hr as <-; by apply init_wf.
  - intros c q Hq. pose proof (zget_inv _ _ _ Hq) as [H0 _]. rewrite zget_lookup in Hq by done.
    apply lookup_replicate in Hq as [-> _]. apply counts_zero.
Qed.


Lemma threads_refine_sequence_witness :
  exists k m s' out,
    concat (cell_batches ex_run.1) = take k (decoded ex_run.1) /\ concat (log_batches ex_run.1) = take m (decoded ex_run.1) /\
    cell_status_run 1 ex_thread (cell_batches ex_run.1) = Some (s', out) /\
    rings_after 1 (ct_rings ex_thread) (ct_rings s') (take k (decoded ex_run.1)) /\
    (forall c q, zget (ct_ues s') c = Some q -> counts (cell_observations c (take k (decoded ex_run.1))) q).
Proof.
  apply (threads_refine_sequence 1 ex_thread ex_run.1 ex_run.2).
  - apply (execute_run ex_actions). vm_compute. reflexivity.
  - apply ex_thread_ok.
  - assert (decoded ex_run.1 = [ex_sb 5 0; ex_sb 5 1]) as -> by (vm_compute; reflexivity).
    repeat (apply Forall_cons; split; [split; [split; [split; vm_compute; by repeat split | simpl; lia] | vm_compute; by repeat split] |]).
    apply Forall_nil; done.
Defined.
