(* ===== verification/DciLog.v ===== *)
(** * The DCI logger ([ngscope/src/dciLib/dci_log.c])

    The logger keeps rings of its own, fed like those of the cell-status
    thread, and writes the subframes between two positions of a ring's header
    to a downlink, an uplink and a PHICH file per cell. Each file is a JSON
    array that is closed again after every subframe. *)

From stdpp Require Import strings pretty.
From S2P Require Import Prelude NgUtil NgTypes DciRing StatusRelay.

(** ** JSON text *)

Definition dquote : string := String (Ascii.ascii_of_nat 34) EmptyString.
Definition newline : string := String (Ascii.ascii_of_nat 10) EmptyString.

Fixpoint join (sep : string) (l : list string) : string :=
  match l with
  | [] => EmptyString
  | [x] => x
  | x :: l' => x +:+ sep +:+ join sep l'
  end.

(** All values are printed as decimal numbers between quotes. *)
Definition json_field (f : string * Z) : string :=
  dquote +:+ f.1 +:+ dquote +:+ ": " +:+ dquote +:+ pretty f.2 +:+ dquote.

(** The text of an entry without the comma that separates it from the last. *)
Definition json_object (fs : list (string * Z)) : string :=
  "{" +:+ newline +:+ join ("," +:+ newline) (json_field <$> fs) +:+ newline +:+ "}".

Definition tb_fields (n : string) (tb : option ngscope_dci_tb_t) : list (string * Z) :=
  [(n +:+ "_mcs", from_option mcs 0 tb); (n +:+ "_rv", from_option rv 0 tb);
   (n +:+ "_tbs", from_option tbs 0 tb); (n +:+ "_ndi", from_option (fun t => Z.b2z (ndi t)) 0 tb)].

Definition second_tb (m : ngscope_dci_msg_t) : option ngscope_dci_tb_t :=
  if 1 <? nof_tb m then Some (tb1 m) else None.

(** The loop over the messages of a direction, which reads the first [n]. *)
Definition message_items (msgs : list ngscope_dci_msg_t) (n : Z) (item : ngscope_dci_msg_t -> list string)
  : option (list string) :=
  for_range 0 n (fun out i => m ← zget msgs i; Some (out ++ item m)) [].

Definition dl_item (q : sf_status_t) (m : option ngscope_dci_msg_t) : string :=
  json_object
    ([("tti", tti q); ("rnti", from_option rnti 0 m);
      ("cell_dl_prb", from_option (fun _ => cell_dl_prb q) 0 m); ("prb", from_option prb 0 m);
      ("harq", from_option harq 0 m); ("timestamp_us", timestamp_us q)]
     ++ tb_fields "TB1" (tb0 <$> m) ++ tb_fields "TB2" (m ≫= second_tb)).

Definition dl_items (q : sf_status_t) : option (list string) :=
  if 0 <? nof_dl_msg q then message_items (sf_dl_msg q) (nof_dl_msg q) (fun m => [dl_item q (Some m)])
  else Some [dl_item q None].

Definition ul_item (q : sf_status_t) (m : option ngscope_dci_msg_t) : string :=
  json_object
    ([("tti", tti q); ("rnti", from_option rnti 0 m);
      ("cell_ul_prb", from_option (fun _ => cell_ul_prb q) 0 m); ("prb", from_option prb 0 m);
      ("timestamp_us", timestamp_us q)]
     ++ tb_fields "TB1" (tb0 <$> m) ++ tb_fields "TB2" (m ≫= second_tb)).

Definition ul_items (q : sf_status_t) : option (list string) :=
  if 0 <? nof_ul_msg q then message_items (sf_ul_msg q) (nof_ul_msg q) (fun m => [ul_item q (Some m)])
  else Some [ul_item q None].

Definition phich_item (q : sf_status_t) (m : option ngscope_dci_msg_t) : string :=
  json_object [("tti", tti q); ("rnti", from_option rnti 0 m);
    ("rv", from_option (fun m => rv (tb0 m)) 0 m); ("timestamp_us", timestamp_us q)].

(** [rv = 4] marks a retransmission asked for on the PHICH. *)
Definition phich_items (q : sf_status_t) : option (list string) :=
  items ← (if 0 <? nof_ul_msg q
           then message_items (sf_ul_msg q) (nof_ul_msg q)
                  (fun m => if rv (tb0 m) =? 4 then [phich_item q (Some m)] else [])
           else Some []);
  Some (if bool_decide (items = []) then [phich_item q None] else items).

(** ** A log file

    The text written so far; the file position is its end. *)

(** [fseek(fd, -1, SEEK_END)]: the next write replaces the last character. *)
Fixpoint drop_last (s : string) : string :=
  match s with
  | EmptyString | String _ EmptyString => EmptyString
  | String a s' => String a (drop_last s')
  end.

Definition write_item (s : bool * string) (item : string) : bool * string :=
  (false, s.2 +:+ (if s.1 then EmptyString else ",") +:+ item).

(** [isFirstCall] is a static variable, shared by the files of all cells. *)
Definition log_entries (isFirstCall : bool) (text : string) (items : list string) : bool * string :=
  let first := if (String.length text =? 0)%nat then true else isFirstCall in
  let text := if first then text +:+ "[" +:+ newline +:+ "]" else text in
  let '(first, text) := foldl write_item (first, drop_last text) items in
  (first, text +:+ "]").

Definition log_dl_subframe (q : sf_status_t) (s : bool * string) : option (bool * string) :=
  items ← dl_items q; Some (log_entries s.1 s.2 items).
Definition log_ul_subframe (q : sf_status_t) (s : bool * string) : option (bool * string) :=
  items ← ul_items q; Some (log_entries s.1 s.2 items).
Definition log_phich_subframe (q : sf_status_t) (s : bool * string) : option (bool * string) :=
  items ← phich_items q; Some (log_entries s.1 s.2 items).

(** ** The logger *)

(** The files of one kind: which cells log, their texts, and the flag. *)
Record log_files := LogFiles { lf_log : list bool; lf_text : list string; lf_first : bool }.

Record ngscope_dci_log_config_t := LogConfig {
  lc_nof_cell : Z; lc_dl : log_files; lc_ul : log_files; lc_phich : log_files;
  lc_curr_header : list Z; lc_cell_ready : list bool
}.

(** One file of one cell. *)
Definition log_to (f : sf_status_t -> bool * string -> option (bool * string)) (q : sf_status_t)
    (fs : log_files) (cell : Z) : option log_files :=
  on ← zget (lf_log fs) cell;
  if on : bool then
    text ← zget (lf_text fs) cell;
    '(first, text) ← f q (lf_first fs, text);
    texts ← zset (lf_text fs) cell text;
    Some (LogFiles (lf_log fs) texts first)
  else Some fs.

Definition log_per_subframe (q : sf_status_t) (c : ngscope_dci_log_config_t) (cell : Z)
  : option ngscope_dci_log_config_t :=
  dl ← log_to log_dl_subframe q (lc_dl c) cell;
  ul ← log_to log_ul_subframe q (lc_ul c) cell;
  ph ← log_to log_phich_subframe q (lc_phich c) cell;
  Some (LogConfig (lc_nof_cell c) dl ul ph (lc_curr_header c) (lc_cell_ready c)).

(** While the program runs ([go_exit] is false). *)
Definition log_per_cell (q : ngscope_cell_dci_ring_buffer_t) (c : ngscope_dci_log_config_t) (cell : Z)
  : option ngscope_dci_log_config_t :=
  start_idx ← zget (lc_curr_header c) cell;
  let end_idx := cell_header q in
  if cell_ready q then
    if start_idx =? end_idx then Some c
    else
      let end_idx := if end_idx <? start_idx then end_idx + buf_size q else end_idx in
      for_range (start_idx + 1) (end_idx + 1)
        (fun c i => s ← zget (sub_stat q) (Z.rem i (buf_size q)); log_per_subframe s c cell) c
  else Some c.

Definition set_curr_header (c : ngscope_dci_log_config_t) (l : list Z) : ngscope_dci_log_config_t :=
  LogConfig (lc_nof_cell c) (lc_dl c) (lc_ul c) (lc_phich c) l (lc_cell_ready c).
Definition set_cell_ready (c : ngscope_dci_log_config_t) (l : list bool) : ngscope_dci_log_config_t :=
  LogConfig (lc_nof_cell c) (lc_dl c) (lc_ul c) (lc_phich c) (lc_curr_header c) l.

(** One iteration of [log_multi_cell]. The caller passes the array of rings
    also as the single ring [q], so the fill flag cleared when a cell starts is
    in the ring of cell 0. *)
Definition log_cell (rings : list ngscope_cell_dci_ring_buffer_t) (c : ngscope_dci_log_config_t) (i : Z)
  : option (list ngscope_cell_dci_ring_buffer_t * ngscope_dci_log_config_t) :=
  r ← zget rings i;
  if cell_ready r then
    started ← zget (lc_cell_ready c) i;
    if negb started then
      hs ← zset (lc_curr_header c) i (cell_header r);
      rs ← zset (lc_cell_ready c) i true;
      q ← zget rings 0;
      q ← dci_ring_buffer_clear_cell_fill_flag q i;
      rings ← zset rings 0 q;
      Some (rings, set_cell_ready (set_curr_header c hs) rs)
    else
      c ← log_per_cell r c i;
      hs ← zset (lc_curr_header c) i (cell_header r);
      Some (rings, set_curr_header c hs)
  else Some (rings, c).

Definition log_multi_cell (rings : list ngscope_cell_dci_ring_buffer_t) (c : ngscope_dci_log_config_t)
    (ca : CA_status_t) : option (list ngscope_cell_dci_ring_buffer_t * ngscope_dci_log_config_t) :=
  if all_cell_ready ca then
    for_range 0 (lc_nof_cell c) (fun '(rings, c) i => log_cell rings c i) (rings, c)
  else Some (rings, c).

(** [fopen(.., "w+")] for the cells that log; the paths are not modelled. *)
Definition reopen (fs : log_files) : log_files :=
  LogFiles (lf_log fs) (zip_with (fun (on : bool) t => if on then EmptyString else t) (lf_log fs) (lf_text fs)) (lf_first fs).

Definition fill_file_descriptor (c : ngscope_dci_log_config_t) : ngscope_dci_log_config_t :=
  LogConfig (lc_nof_cell c) (reopen (lc_dl c)) (reopen (lc_ul c)) (reopen (lc_phich c)) (lc_curr_header c) (lc_cell_ready c).

Definition fill_dci_log_config (log_dl log_ul log_phich : list bool) (nof_cell : Z) : ngscope_dci_log_config_t :=
  let files l := LogFiles l (replicate (length l) EmptyString) true in
  LogConfig nof_cell (files log_dl) (files log_ul) (files log_phich)
    (replicate (Z.to_nat nof_cell) 0) (replicate (Z.to_nat nof_cell) false).

(** One iteration of the thread; [expired] tells whether the log interval has
    passed. *)
Definition dci_log_batch (rings : list ngscope_cell_dci_ring_buffer_t) (c : ngscope_dci_log_config_t)
    (ca : CA_status_t) (bs : list ngscope_status_buffer_t) (expired : bool)
  : option (list ngscope_cell_dci_ring_buffer_t * ngscope_dci_log_config_t * CA_status_t) :=
  '(rings, _) ← put_batch 0 rings bs;
  ca ← CA_status_update_header ca rings;
  '(rings, c) ← log_multi_cell rings c ca;
  Some (rings, if expired then fill_file_descriptor c else c, ca).

(** ** A file is always a closed JSON array *)

Definition array (items : list string) : string := "[" +:+ newline +:+ join "," items +:+ "]".

Lemma app_assoc_str (a b c : string) : (a +:+ b) +:+ c = a +:+ (b +:+ c).
Proof. induction a as [| x a IH]; [done |]. exact (f_equal (String x) IH). Qed.

Lemma app_empty_r (a : string) : a +:+ EmptyString = a.
Proof. induction a as [| x a IH]; [done |]. exact (f_equal (String x) IH). Qed.

Lemma drop_last_app s a : drop_last (s +:+ String a EmptyString) = s.
Proof.
  induction s as [| x s IH]; [done |]. transitivity (String x (drop_last (s +:+ String a EmptyString))); [by destruct s |].
  exact (f_equal (String x) IH).
Qed.

Lemma write_more xs : forall pre, foldl write_item (false, pre) xs
  = (false, pre +:+ foldr (fun x s => "," +:+ x +:+ s) EmptyString xs).
Proof.
  induction xs as [| x xs IH]; intros pre; [by rewrite app_empty_r |].
  cbn [foldl foldr]. unfold write_item at 2. cbn [fst snd]. rewrite IH. f_equal.
  by rewrite !app_assoc_str.
Qed.

Lemma join_cons x xs : join "," (x :: xs) = x +:+ foldr (fun x s => "," +:+ x +:+ s) EmptyString xs.
Proof.
  revert x. induction xs as [| y xs IH]; intros x; [by rewrite app_empty_r |].
  cbn [foldr]. rewrite <- IH. done.
Qed.

Lemma join_app xs ys : xs <> [] -> join "," (xs ++ ys) = join "," xs +:+ foldr (fun x s => "," +:+ x +:+ s) EmptyString ys.
Proof.
  destruct xs as [| x xs]; [done |]. intros _. cbn [app]. rewrite !join_cons, app_assoc_str. f_equal.
  induction xs as [| y xs IH]; [done |]. cbn [app foldr]. rewrite IH. by rewrite !app_assoc_str.
Qed.

Lemma array_length items : (String.length (array items) =? 0)%nat = false.
Proof. done. Qed.

(** What a file holds after [items] were logged to it. *)
Definition holds_items (text : string) (items : list string) : Prop :=
  text = if bool_decide (items = []) then EmptyString else array items.

Lemma log_entries_holds first text old new :
  holds_items text old -> new <> [] -> (first = true -> old = []) ->
  exists text', log_entries first text new = (false, text') /\ holds_items text' (old ++ new).
Proof.
  unfold holds_items. intros -> Hn Hf. destruct new as [| x new]; [done |].
  rewrite (bool_decide_false (old ++ x :: new = [])) by (by destruct old).
  case_bool_decide as Ho.
  - subst old. unfold log_entries. cbn [String.length Nat.eqb app]. eexists; split; [| reflexivity].
    change (drop_last _) with ("[" +:+ newline). cbn [foldl]. unfold write_item at 2. cbn [fst snd].
    rewrite write_more. unfold array. rewrite join_cons. by rewrite !app_assoc_str.
  - unfold log_entries. rewrite array_length. destruct first; [by destruct (Ho (Hf eq_refl)) |].
    eexists; split; [| reflexivity]. unfold array at 1.
    replace (drop_last _) with ("[" +:+ newline +:+ join "," old).
    2:{ rewrite <- !app_assoc_str. symmetry. apply drop_last_app. }
    rewrite write_more. unfold array. rewrite join_app by done. by rewrite !app_assoc_str.
Qed.

(** ** The entries of a subframe *)

Definition dl_entries (q : sf_status_t) : list string :=
  if 0 <? nof_dl_msg q then (fun m => dl_item q (Some m)) <$> take (Z.to_nat (nof_dl_msg q)) (sf_dl_msg q)
  else [dl_item q None].
Definition ul_entries (q : sf_status_t) : list string :=
  if 0 <? nof_ul_msg q then (fun m => ul_item q (Some m)) <$> take (Z.to_nat (nof_ul_msg q)) (sf_ul_msg q)
  else [ul_item q None].
Definition phich_entries (q : sf_status_t) : list string :=
  match filter (fun m => rv (tb0 m) = 4) (take (Z.to_nat (nof_ul_msg q)) (sf_ul_msg q)) with
  | [] => [phich_item q None]
  | ms => (fun m => phich_item q (Some m)) <$> ms
  end.

Lemma message_items_spec msgs n item :
  n <= zlen msgs -> message_items msgs n item = Some (concat (item <$> take (Z.to_nat n) msgs)).
Proof.
  intros Hn. unfold message_items. rewrite (for_range_foldl (fun out m => out ++ item m)) by done. f_equal.
  generalize (take (Z.to_nat n) msgs). intros l.
  induction l as [| m l IH] using rev_ind; [done |].
  rewrite foldl_app, fmap_app, concat_app, IH. cbn. by rewrite app_nil_r.
Qed.

Lemma concat_singletons {A B} (f : A -> B) l : concat ((fun x => [f x]) <$> l) = f <$> l.
Proof. induction l as [| x l IH]; [done |]. rewrite !fmap_cons. cbn [concat app]. by rewrite IH. Qed.

Lemma take_nonempty {A} (l : list A) n : 0 < n <= zlen l -> take (Z.to_nat n) l <> [].
Proof. intros Hn E%(f_equal length). rewrite length_take in E. unfold zlen in Hn. simpl in E. lia. Qed.

Lemma dl_items_entries q : slot_ok q -> dl_items q = Some (dl_entries q) /\ dl_entries q <> [].
Proof.
  intros [Hd _]. unfold dl_items, dl_entries. zcase; [| done].
  rewrite message_items_spec, concat_singletons by done. split; [done |].
  intros E%fmap_nil_inv. by apply take_nonempty in E.
Qed.

Lemma ul_items_entries q : slot_ok q -> ul_items q = Some (ul_entries q) /\ ul_entries q <> [].
Proof.
  intros [_ Hu]. unfold ul_items, ul_entries. zcase; [| done].
  rewrite message_items_spec, concat_singletons by done. split; [done |].
  intros E%fmap_nil_inv. by apply take_nonempty in E.
Qed.

Lemma concat_filter {A B} (P : A -> Prop) `{forall x, Decision (P x)} (p : A -> bool) (f : A -> B) l :
  (forall x, p x = bool_decide (P x)) ->
  concat ((fun x => if p x then [f x] else []) <$> l) = f <$> filter P l.
Proof.
  intros Hp. induction l as [| x l IH]; [done |]. rewrite fmap_cons, filter_cons. cbn [concat].
  rewrite IH, Hp. case_bool_decide; [by rewrite decide_True | by rewrite decide_False].
Qed.

Lemma phich_items_entries q : slot_ok q -> phich_items q = Some (phich_entries q) /\ phich_entries q <> [].
Proof.
  intros [_ Hu]. unfold phich_items, phich_entries.
  set (l := filter _ _).
  assert ((if 0 <? nof_ul_msg q then message_items (sf_ul_msg q) (nof_ul_msg q)
      (fun m => if rv (tb0 m) =? 4 then [phich_item q (Some m)] else []) else Some [])
    = Some ((fun m => phich_item q (Some m)) <$> l)) as ->.
  { unfold l. zcase.
    - rewrite message_items_spec by done. f_equal. apply concat_filter. intros m.
      destruct (Z.eqb_spec (rv (tb0 m)) 4); [by rewrite bool_decide_true | by rewrite bool_decide_false].
    - by replace (Z.to_nat (nof_ul_msg q)) with 0%nat by lia. }
  cbn [mbind option_bind]. by destruct l.
Qed.

(** ** The files of all cells *)

(** [items i] is what was logged to the file of cell [i]. *)
Record files_ok (n : Z) (log : list bool) (items : Z -> list string) (fs : log_files) : Prop := FilesOk {
  fo_log : lf_log fs = log; fo_len : zlen log = n; fo_texts : zlen (lf_text fs) = n;
  fo_text : forall i t, zget (lf_text fs) i = Some t -> holds_items t (items i);
  fo_first : lf_first fs = true -> forall i, 0 <= i < n -> items i = []
}.

(** Entries appended to the file of [cell], if it logs. *)
Definition upd (log : list bool) (cell : Z) (items : Z -> list string) (es : list string) (i : Z) : list string :=
  if (i =? cell) && bool_decide (zget log cell = Some true) then items i ++ es else items i.

Lemma log_to_ok n log items fs cell (f : sf_status_t -> bool * string -> option (bool * string)) q es :
  files_ok n log items fs -> 0 <= cell < n -> es <> [] ->
  (forall s, f q s = Some (log_entries s.1 s.2 es)) ->
  exists fs', log_to f q fs cell = Some fs' /\ files_ok n log (upd log cell items es) fs'.
Proof.
  intros Hok Hc Hes Hf. pose proof Hok as [Hl Hn Hts Htext Hfirst]. unfold log_to, upd. rewrite Hl.
  destruct (zget_some log cell) as [on Hon]; [unfold in_range; lia |]. rewrite Hon. cbn [mbind option_bind].
  destruct on.
  - destruct (zget_some (lf_text fs) cell) as [t Ht]; [unfold in_range; lia |]. rewrite Ht. cbn [mbind option_bind].
    rewrite Hf. cbn [mbind option_bind fst snd].
    destruct (log_entries_holds (lf_first fs) t (items cell) es) as (t' & -> & Ht'); [by apply Htext | done | by intros H; apply Hfirst |].
    rewrite zset_in by (unfold in_range; lia). cbn [mbind option_bind]. eexists; split; [reflexivity |].
    split; cbn [lf_log lf_text lf_first]; [done | done | by rewrite zlen_insert | | done].
    intros i x Hx. destruct (Z.eqb_spec i cell) as [-> | Hne]; cbn [andb].
    + rewrite zget_insert_eq in Hx by (unfold in_range; lia). injection Hx as <-. by rewrite bool_decide_true.
    + rewrite zget_insert_ne in Hx by (done || lia). by apply Htext.
  - exists fs. split; [done |]. split; try done.
    + intros i x Hx. rewrite bool_decide_false, andb_false_r by done. by apply Htext.
    + intros Hff i Hi. rewrite bool_decide_false, andb_false_r by done. by apply Hfirst.
Qed.

Record logger_ok (n : Z) (ld lu lp : list bool) (D U P : Z -> list string) (c : ngscope_dci_log_config_t) : Prop := LoggerOk {
  go_nof : lc_nof_cell c = n;
  go_dl : files_ok n ld D (lc_dl c); go_ul : files_ok n lu U (lc_ul c); go_ph : files_ok n lp P (lc_phich c);
  go_headers : zlen (lc_curr_header c) = n; go_ready : zlen (lc_cell_ready c) = n
}.

Section logger.
Variables (n : Z) (ld lu lp : list bool).
Abbreviation ok := (logger_ok n ld lu lp).

Lemma log_per_subframe_ok D U P c s cell :
  ok D U P c -> slot_ok s -> 0 <= cell < n ->
  exists c', log_per_subframe s c cell = Some c' /\
    ok (upd ld cell D (dl_entries s)) (upd lu cell U (ul_entries s)) (upd lp cell P (phich_entries s)) c' /\
    lc_curr_header c' = lc_curr_header c /\ lc_cell_ready c' = lc_cell_ready c.
Proof.
  intros [Hn Hd Hu Hp Hh Hr] Hs Hc. unfold log_per_subframe.
  destruct (dl_items_entries s Hs) as [Ed Nd]. destruct (ul_items_entries s Hs) as [Eu Nu].
  destruct (phich_items_entries s Hs) as [Ep Np].
  destruct (log_to_ok n ld D _ cell log_dl_subframe s _ Hd Hc Nd) as (fd & -> & Hd'); [intros x; unfold log_dl_subframe; by rewrite Ed |].
  destruct (log_to_ok n lu U _ cell log_ul_subframe s _ Hu Hc Nu) as (fu & -> & Hu'); [intros x; unfold log_ul_subframe; by rewrite Eu |].
  destruct (log_to_ok n lp P _ cell log_phich_subframe s _ Hp Hc Np) as (fp & -> & Hp'); [intros x; unfold log_phich_subframe; by rewrite Ep |].
  cbn [mbind option_bind]. eexists; split; [reflexivity |]. by split.
Qed.

Lemma files_ok_ext log items items' fs : (forall i, items i = items' i) -> files_ok n log items fs -> files_ok n log items' fs.
Proof.
  intros E [H1 H2 H3 H4 H5]. split; try done.
  - intros i t Ht. rewrite <- E. by apply H4.
  - intros Hf i Hi. rewrite <- E. by apply H5.
Qed.

Lemma ok_ext D U P D' U' P' c :
  (forall i, D i = D' i) -> (forall i, U i = U' i) -> (forall i, P i = P' i) -> ok D U P c -> ok D' U' P' c.
Proof. intros E1 E2 E3 []. split; try done; by eapply files_ok_ext. Qed.

Lemma upd_nil log cell items i : upd log cell items [] i = items i.
Proof. unfold upd. case_match; [apply app_nil_r | done]. Qed.

Lemma upd_upd log cell items es es' i : upd log cell (upd log cell items es) es' i = upd log cell items (es ++ es') i.
Proof. unfold upd. case_match; [by rewrite app_assoc | done]. Qed.

(** The slots between the last logged position and the header of a ring. *)
Definition new_slots (q : ngscope_cell_dci_ring_buffer_t) (start : Z) : list sf_status_t :=
  omap (fun x => zget (sub_stat q) (x mod buf_size q)) (seqZ (start + 1) ((cell_header q - start) mod buf_size q)).

Definition all_entries (f : sf_status_t -> list string) (ss : list sf_status_t) : list string := concat (f <$> ss).

Lemma all_entries_snoc f ss s : all_entries f (ss ++ [s]) = all_entries f ss ++ f s.
Proof. unfold all_entries. rewrite fmap_app, concat_app. cbn. by rewrite app_nil_r. Qed.

(** The loop over positions [a .. a+k-1] of a ring. *)
Lemma log_walk q a k cell D U P c :
  ring_wf q -> 0 <= a -> 0 <= k -> 0 <= cell < n -> ok D U P c ->
  let ss := omap (fun x => zget (sub_stat q) (x mod buf_size q)) (seqZ a k) in
  exists c', for_range a (a + k)
      (fun c i => s ← zget (sub_stat q) (Z.rem i (buf_size q)); log_per_subframe s c cell) c = Some c' /\
    ok (upd ld cell D (all_entries dl_entries ss)) (upd lu cell U (all_entries ul_entries ss))
       (upd lp cell P (all_entries phich_entries ss)) c' /\
    lc_curr_header c' = lc_curr_header c /\ lc_cell_ready c' = lc_cell_ready c.
Proof.
  intros Hwf Ha Hk Hcell Hc. pose proof (wf_size _ Hwf) as Hsz. pose proof (wf_len _ Hwf) as Hlen.
  assert (forall j : nat, Z.of_nat j <= k ->
    let ss := omap (fun x => zget (sub_stat q) (x mod buf_size q)) (seqZ a (Z.of_nat j)) in
    exists c', for_range a (a + Z.of_nat j)
      (fun c i => s ← zget (sub_stat q) (Z.rem i (buf_size q)); log_per_subframe s c cell) c = Some c' /\
    ok (upd ld cell D (all_entries dl_entries ss)) (upd lu cell U (all_entries ul_entries ss))
       (upd lp cell P (all_entries phich_entries ss)) c' /\
    lc_curr_header c' = lc_curr_header c /\ lc_cell_ready c' = lc_cell_ready c) as H.
  2:{ specialize (H (Z.to_nat k)). rewrite Z2Nat.id in H by done. by apply H. }
  unfold for_range. induction j as [| j IH]; intros Hj.
  - exists c. rewrite Z.add_simpl_l. split; [done |]. split; [| done].
    eapply ok_ext; [| | | exact Hc]; intros i; symmetry; apply upd_nil.
  - destruct IH as (c1 & E1 & Hc1 & Hh1 & Hr1); [lia |]. cbv zeta. rewrite Z.add_simpl_l in *.
    rewrite Nat2Z.inj_succ, <- Z.add_1_r, seqZ_app by lia. rewrite foldM_app, E1. cbn [mbind option_bind].
    change (seqZ (a + Z.of_nat j) 1) with [0 + (a + Z.of_nat j)]. rewrite Z.add_0_l. cbn [foldM].
    destruct (ring_read (buf_size q) ltac:(lia) (sub_stat q) (a + Z.of_nat j) Hlen) as [s Es].
    rewrite Z.rem_mod_nonneg, Es by lia. cbn [mbind option_bind].
    assert (slot_ok s) as Hs.
    { pose proof (wf_slots _ Hwf) as Hf. rewrite Forall_lookup in Hf. rewrite zget_lookup in Es by (apply Z.mod_pos_bound; lia). by eapply Hf. }
    destruct (log_per_subframe_ok _ _ _ c1 s cell Hc1 Hs Hcell) as (c2 & -> & Hc2 & Hh2 & Hr2).
    exists c2. split; [done |]. split; [| by rewrite Hh2, Hr2].
    rewrite omap_app. cbn [omap list_omap]. rewrite Es. rewrite !all_entries_snoc.
    eapply ok_ext; [| | | exact Hc2]; intros i; apply upd_upd.
Qed.

Lemma log_per_cell_ok q cell start D U P c :
  ring_wf q -> cell_ready q = true -> zget (lc_curr_header c) cell = Some start -> 0 <= start < buf_size q ->
  0 <= cell < n -> ok D U P c ->
  exists c', log_per_cell q c cell = Some c' /\
    ok (upd ld cell D (all_entries dl_entries (new_slots q start)))
       (upd lu cell U (all_entries ul_entries (new_slots q start)))
       (upd lp cell P (all_entries phich_entries (new_slots q start))) c' /\
    lc_curr_header c' = lc_curr_header c /\ lc_cell_ready c' = lc_cell_ready c.
Proof.
  intros Hwf Hrdy Hst Hs Hcell Hc. pose proof (wf_header _ Hwf) as Hh. unfold log_per_cell, new_slots.
  rewrite Hst. cbn [mbind option_bind]. rewrite Hrdy.
  destruct (log_walk q (start + 1) ((cell_header q - start) mod buf_size q) cell D U P c Hwf) as (c' & E & H);
    [lia | apply Z.mod_pos_bound; lia | done | done |].
  destruct (Z.eqb_spec start (cell_header q)) as [-> | Hne].
  - exists c'. rewrite Z.sub_diag, Zmod_0_l in *. unfold for_range in E. rewrite seqZ_nil in E by lia. by split.
  - exists c'. split; [| done]. rewrite <- E. f_equal.
    destruct (Z.ltb_spec (cell_header q) start).
    + rewrite <- (ring_turn (buf_size q)), Z.mod_small; lia.
    + rewrite Z.mod_small; lia.
Qed.

(** A round over started cells. *)
Definition started (rings : list ngscope_cell_dci_ring_buffer_t) (c : ngscope_dci_log_config_t)
    (starts : Z -> Z) : Prop :=
  forall i, 0 <= i < n -> exists r, zget rings i = Some r /\ ring_wf r /\ cell_ready r = true /\
    zget (lc_cell_ready c) i = Some true /\ zget (lc_curr_header c) i = Some (starts i) /\ 0 <= starts i < buf_size r.

(** What a round appends to file [i] of one kind. *)
Definition appended (log : list bool) (f : sf_status_t -> list string)
    (rings : list ngscope_cell_dci_ring_buffer_t) (starts : Z -> Z) (i : Z) : list string :=
  if bool_decide (zget log i = Some true) then
    from_option (fun r => all_entries f (new_slots r (starts i))) [] (zget rings i)
  else [].

Lemma log_multi_cell_ok rings c ca D U P starts :
  all_cell_ready ca = true -> 0 <= n -> ok D U P c -> started rings c starts ->
  exists c', log_multi_cell rings c ca = Some (rings, c') /\
    ok (fun i => D i ++ (if (0 <=? i) && (i <? n) then appended ld dl_entries rings starts i else []))
       (fun i => U i ++ (if (0 <=? i) && (i <? n) then appended lu ul_entries rings starts i else []))
       (fun i => P i ++ (if (0 <=? i) && (i <? n) then appended lp phich_entries rings starts i else [])) c' /\
    lc_cell_ready c' = lc_cell_ready c /\
    forall i r, 0 <= i < n -> zget rings i = Some r -> zget (lc_curr_header c') i = Some (cell_header r).
Proof.
  intros Hca Hn Hok Hst. unfold log_multi_cell. rewrite Hca, (go_nof _ _ _ _ _ _ _ _ Hok).
  loop_inv (fun k (s : list ngscope_cell_dci_ring_buffer_t * ngscope_dci_log_config_t) => s.1 = rings /\
    ok (fun i => D i ++ (if (0 <=? i) && (i <? k) then appended ld dl_entries rings starts i else []))
       (fun i => U i ++ (if (0 <=? i) && (i <? k) then appended lu ul_entries rings starts i else []))
       (fun i => P i ++ (if (0 <=? i) && (i <? k) then appended lp phich_entries rings starts i else [])) s.2 /\
    lc_cell_ready s.2 = lc_cell_ready c /\
    (forall i r, 0 <= i < k -> zget rings i = Some r -> zget (lc_curr_header s.2) i = Some (cell_header r)) /\
    (forall i, k <= i < n -> zget (lc_curr_header s.2) i = zget (lc_curr_header c) i))
    as ([rings' c'] & -> & Hr & Hok' & Hrd & Hhd & _); [done | | |].
  - cbn [fst snd]. split; [done |]. split.
    { eapply ok_ext; [| | | exact Hok]; intros i; (destruct (Z.leb_spec 0 i), (Z.ltb_spec i 0); try lia; by rewrite app_nil_r). }
    split; [done |]. split; [intros; lia | done].
  - intros k [rings1 c1] Hk (Hr1 & Hok1 & Hrd1 & Hhd1 & Hold1). cbn [fst snd] in *. subst rings1.
    destruct (Hst k Hk) as (r & Er & Hwf & Hrdy & Es & Eh & Hb).
    unfold log_cell. rewrite Er. cbn [mbind option_bind]. rewrite Hrdy, Hrd1, Es. cbn [mbind option_bind negb].
    assert (zget (lc_curr_header c1) k = Some (starts k)) as Eh1 by (rewrite Hold1; [done | lia]).
    destruct (log_per_cell_ok r k (starts k) _ _ _ c1 Hwf Hrdy Eh1 Hb Hk Hok1) as (c2 & -> & Hok2 & Hh2 & Hr2).
    cbn [mbind option_bind]. rewrite zset_in by (unfold in_range; rewrite (go_headers _ _ _ _ _ _ _ _ Hok2); lia).
    eexists; split; [reflexivity |]. cbn [fst snd]. split; [done |]. split; [| split; [| split]].
    + assert (forall log f (X : Z -> list string) i,
        upd log k (fun i => X i ++ (if (0 <=? i) && (i <? k) then appended log f rings starts i else []))
          (all_entries f (new_slots r (starts k))) i
        = X i ++ (if (0 <=? i) && (i <? k + 1) then appended log f rings starts i else [])) as Hu.
      { intros log f X i. unfold upd, appended. destruct (Z.eqb_spec i k) as [-> | Hne]; cbn [andb].
        - rewrite Er. simpl. destruct (Z.leb_spec 0 k), (Z.ltb_spec k k), (Z.ltb_spec k (k + 1)); try lia.
          cbn [andb]. case_bool_decide; by rewrite ?app_nil_r.
        - do 2 f_equal. destruct (Z.ltb_spec i k), (Z.ltb_spec i (k + 1)); try done; lia. }
      destruct Hok2 as [H1 H2 H3 H4 H5 H6]. split; cbn; try done; [.. | by rewrite zlen_insert];
        (eapply files_ok_ext; [apply Hu | done]).
    + cbn. by rewrite Hr2, Hrd1.
    + intros i r' Hi Er'. cbn. destruct (decide (k = i)) as [<- | Hne].
      * rewrite zget_insert_eq by (unfold in_range; rewrite (go_headers _ _ _ _ _ _ _ _ Hok2); lia). congruence.
      * rewrite zget_insert_ne by (done || lia). rewrite Hh2. apply Hhd1; [lia | done].
    + intros i Hi. cbn. rewrite zget_insert_ne by lia. rewrite Hh2. apply Hold1. lia.
  - cbn [fst snd] in *. subst rings'. exists c'. by split_and!.
Qed.
End logger.

(** ** One iteration of the thread *)

Lemma put_seq_keeps sock bs : forall r r',
  ring_wf r -> Forall buffer_ok bs -> put_seq sock r bs = Some r' ->
  buf_size r' = buf_size r /\ (cell_ready r = true -> cell_ready r' = true).
Proof.
  induction bs as [| b bs IH]; intros r r' Hwf Hbs E; [by injection E as <- |].
  inversion_clear Hbs as [| ? ? Hb Hbs']. unfold put_seq in E. cbn [foldM] in E.
  destruct (put_dci_moves r b sock Hwf Hb) as (r1 & out & k & E1 & Hwf1 & _ & _ & _ & _ & _ & Hs & _ & _ & Hrdy).
  rewrite E1 in E. destruct (IH r1 r' Hwf1 Hbs' E) as [H1 H2]. split; [congruence | auto].
Qed.

Lemma reopen_ok n log items fs :
  files_ok n log items fs ->
  files_ok n log (fun i => if bool_decide (zget log i = Some true) then [] else items i) (reopen fs).
Proof.
  intros [Hl Hn Ht Htext Hf]. split; cbn [reopen lf_log lf_text lf_first]; try done.
  - rewrite Hl. unfold zlen in *. rewrite length_zip_with. lia.
  - intros i t Hi. pose proof (zget_inv _ _ _ Hi) as [H0 _]. rewrite Hl, zget_lookup in Hi by done.
    apply lookup_zip_with_Some in Hi as (on & t0 & -> & Hon & Ht0). rewrite zget_lookup, Hon by done.
    assert (holds_items t0 (items i)) by (apply Htext; by rewrite zget_lookup).
    destruct on; [by rewrite bool_decide_true | by rewrite bool_decide_false].
  - intros Hff i Hi. rewrite (Hf Hff i Hi). by case_bool_decide.
Qed.

(** A file after a round: extended by the new entries, or new and empty. *)
Definition round (log : list bool) (f : sf_status_t -> list string) (expired : bool)
    (rings : list ngscope_cell_dci_ring_buffer_t) (n : Z) (starts : Z -> Z) (X : Z -> list string) (i : Z) : list string :=
  if expired && bool_decide (zget log i = Some true) then []
  else X i ++ (if (0 <=? i) && (i <? n) then appended log f rings starts i else []).

Lemma fill_file_descriptor_ok n ld lu lp D U P c :
  logger_ok n ld lu lp D U P c ->
  logger_ok n ld lu lp (fun i => if bool_decide (zget ld i = Some true) then [] else D i)
    (fun i => if bool_decide (zget lu i = Some true) then [] else U i)
    (fun i => if bool_decide (zget lp i = Some true) then [] else P i) (fill_file_descriptor c).
Proof. intros []. split; cbn; try done; by apply reopen_ok. Qed.

(** C29: an iteration of a started logger puts its batch into the rings and
    appends to every log file of a cell, in order, the entries of exactly the
    subframes between the position last logged and the header of the cell's
    ring; each file stays one closed JSON array of all entries logged to it,
    whichever cells share the first-call flags, and the next iteration starts
    at the new headers. When the log interval has expired the files start
    empty again. *)
Theorem logger_iteration n ld lu lp D U P rings c ca bs expired starts :
  0 < n -> zlen rings = n -> rings_wf rings -> logger_ok n ld lu lp D U P c -> started n rings c starts ->
  all_cell_ready ca = true -> Forall (from_cells n) bs ->
  exists rings' c', dci_log_batch rings c ca bs expired = Some (rings', c', ca) /\
    rings_after 0 rings rings' bs /\
    logger_ok n ld lu lp (round ld dl_entries expired rings' n starts D)
      (round lu ul_entries expired rings' n starts U) (round lp phich_entries expired rings' n starts P) c' /\
    started n rings' c' (fun i => from_option cell_header 0 (zget rings' i)).
Proof.
  intros Hn Hl Hwf Hok Hst Hca Hbs. unfold dci_log_batch, put_batch.
  destruct (put_batch_after 0 bs rings [] Hwf) as (rings' & out & -> & Hafter); [by rewrite Hl |].
  cbn [mbind option_bind]. unfold CA_status_update_header. rewrite Hca. cbn [mbind option_bind].
  assert (started n rings' c starts) as Hst'.
  { intros i Hi. destruct (Hst i Hi) as (r & Er & Hr & Hrdy & Hs & Hh & Hb).
    destruct Hafter as [_ Hafter]. destruct (Hafter i r Er) as (r' & Eseq & Er' & Hwf').
    assert (Forall buffer_ok (of_cell i bs)) as Hbi.
    { apply Forall_forall. intros b [_ Hb']%list_elem_of_filter. rewrite Forall_forall in Hbs. by apply Hbs. }
    destruct (put_seq_keeps 0 _ r r' Hr Hbi Eseq) as [Hsz Hrdy'].
    exists r'. rewrite Hsz. split_and!; auto; apply Hb. }
  destruct (log_multi_cell_ok n ld lu lp rings' c ca D U P starts Hca ltac:(lia) Hok Hst')
    as (c' & -> & Hok' & Hrd & Hhd). cbn [mbind option_bind].
  eexists rings', _. split; [reflexivity |]. split; [done |]. split.
  - destruct expired; [| exact Hok'].
    eapply ok_ext; [| | | exact (fill_file_descriptor_ok _ _ _ _ _ _ _ _ Hok')]; intros i; unfold round; cbn [andb]; by case_bool_decide.
  - intros i Hi. destruct (Hst' i Hi) as (r & Er & Hr & Hrdy & Hs & _ & _). exists r. rewrite Er. simpl.
    assert (forall c0, lc_cell_ready (if expired then fill_file_descriptor c0 else c0) = lc_cell_ready c0) as E1 by by destruct expired.
    assert (forall c0, lc_curr_header (if expired then fill_file_descriptor c0 else c0) = lc_curr_header c0) as E2 by by destruct expired.
    rewrite E1, E2, Hrd. pose proof (wf_header _ Hr). split_and!; try done; [by apply Hhd | lia | lia].
Qed.

(** ** Witness and examples *)

(** A logger of one cell that has caught up with subframe 499. *)
Definition ex_log_config : ngscope_dci_log_config_t :=
  set_cell_ready (set_curr_header (fill_dci_log_config [true] [false] [true] 1) [499 mod 320]) [true].
Definition ex_ca : CA_status_t := CaStatus 61 320 1 0 [100; 0; 0; 0] true.

Lemma ex_log_ok : logger_ok 1 [true] [false] [true] (fun _ => []) (fun _ => []) (fun _ => []) ex_log_config.
Proof.
  assert (forall on, files_ok 1 [on] (fun _ => []) (LogFiles [on] [EmptyString] true)) as H.
  { intros on. split; try done. intros i t Hi. pose proof (zget_inv _ _ _ Hi) as [H0 H1]. unfold zlen in H1. simpl in H1.
    assert (i = 0) as -> by lia. by injection Hi as <-. }
  split; try done; apply H.
Qed.

Lemma ex_started : started 1 [ex_idle] ex_log_config (fun _ => 499 mod 320).
Proof.
  intros i Hi. assert (i = 0) as -> by lia. exists ex_idle. split_and!; try done.
  apply (rf_wf _ _ (idle_refines 61 100 0 320 100 500 ltac:(lia) ltac:(lia))).
Qed.

Lemma logger_iteration_witness :
  exists rings' c', dci_log_batch [ex_idle] ex_log_config ex_ca [ex_buf 500] false = Some (rings', c', ex_ca) /\
    rings_after 0 [ex_idle] rings' [ex_buf 500] /\
    logger_ok 1 [true] [false] [true] (round [true] dl_entries false rings' 1 (fun _ => 499 mod 320) (fun _ => []))
      (round [false] ul_entries false rings' 1 (fun _ => 499 mod 320) (fun _ => []))
      (round [true] phich_entries false rings' 1 (fun _ => 499 mod 320) (fun _ => [])) c' /\
    started 1 rings' c' (fun i => from_option cell_header 0 (zget rings' i)).
Proof.
  apply (logger_iteration 1 [true] [false] [true] (fun _ => []) (fun _ => []) (fun _ => []) [ex_idle] ex_log_config ex_ca
    [ex_buf 500] false (fun _ => 499 mod 320)).
  - lia.
  - done.
  - intros c r Hr. pose proof (zget_inv _ _ _ Hr) as [H0 H1]. unfold zlen in H1. simpl in H1.
    assert (c = 0) as -> by lia. injection Hr as <-.
    apply (rf_wf _ _ (idle_refines 61 100 0 320 100 500 ltac:(lia) ltac:(lia))).
  - apply ex_log_ok.
  - apply ex_started.
  - done.
  - apply Forall_singleton. split; [apply ex_buf_ok; lia | simpl; lia].
Defined.

(** The subframe of the witness is written: an empty PHICH entry in an array. *)
Example phich_file_text :
  (fun x => lf_text (lc_phich x.1.2)) <$> dci_log_batch [ex_idle] ex_log_config ex_ca [ex_buf 500] false
    = Some [array [json_object [("tti", 500); ("rnti", 0); ("rv", 0); ("timestamp_us", 500000)]]].
Proof. vm_compute. reflexivity. Qed.

(** Starting cell 1 clears a flag in the ring of cell 0: slot 1, a subframe of
    cell 0 that has arrived and waits, is marked as missing. *)
Example start_clears_other_ring :
  (fun x => filled <$> (r ← zget x.1 0; zget (sub_stat r) 1))
    <$> log_cell [with_slots ex_idle (499 mod 320) (<[1%nat := set_filled zero_sf true]> (sub_stat ex_idle)); ex_idle]
          (LogConfig 2 (lc_dl ex_log_config) (lc_ul ex_log_config) (lc_phich ex_log_config) [0; 0] [true; false]) 1
  = Some (Some false).
Proof. vm_compute. reflexivity. Qed.
