(* ===== verification/Phich.v ===== *)
(** * Pending PHICH acknowledgements ([ngscope/src/dciLib/phich_decoder.c])

    After an uplink grant for the target UE the decoder expects a PHICH
    acknowledgement at a later TTI; the expectation is stored in a ring of 100
    entries, renewed on a NACK and dropped on an ACK. The module also models
    the caller [dci_decoder_phich_decode] of [dci_decoder.c]. The PHY decoder
    [srsran_ue_dl_decode_phich] is a parameter. *)

From S2P Require Import Prelude NgTypes.

Definition HARQ_DELAY_MS : Z := 4.
Definition TTIMOD_SZ : Z := 100.
Definition TTI_RX (tti : Z) : Z :=
  if HARQ_DELAY_MS <? tti then (tti - HARQ_DELAY_MS) mod 10240 else u32 (10240 + tti - HARQ_DELAY_MS).
Definition TTI_TX (tti : Z) : Z := u32 (tti + HARQ_DELAY_MS) mod 10240.
Definition TTI_RX_ACK (tti : Z) : Z := u32 (tti + 2 * HARQ_DELAY_MS) mod 10240.
Definition UL_PIDOF (tti : Z) : Z := tti mod (2 * HARQ_DELAY_MS).
Definition TTIMOD (tti : Z) : Z := tti mod TTIMOD_SZ.

Inductive frame_type := SRSRAN_FDD | SRSRAN_TDD.

Record pending_ack_element := PendAck { enabled : bool; I_lowest : Z; pa_n_dmrs : Z }.

(** The array [pending_ack] of a [pend_ack_list]. *)
Definition pend_ack_list : Type := list pending_ack_element.

(** TS 36.213 tables 9.1.2-1 and 8-2. *)
Definition k_phich : list (list Z) :=
  [[0; 0; 4; 7; 6; 0; 0; 4; 7; 6];
   [0; 0; 4; 6; 0; 0; 0; 4; 6; 0];
   [0; 0; 6; 0; 0; 0; 0; 6; 0; 0];
   [0; 0; 6; 6; 6; 0; 0; 0; 0; 0];
   [0; 0; 6; 6; 0; 0; 0; 0; 0; 0];
   [0; 0; 6; 0; 0; 0; 0; 0; 0; 0];
   [0; 0; 4; 6; 6; 0; 0; 4; 7; 0]].

Definition k_pusch : list (list Z) :=
  [[4; 6; 0; 0; 0; 4; 6; 0; 0; 0];
   [0; 6; 0; 0; 4; 0; 6; 0; 0; 4];
   [0; 0; 0; 4; 0; 0; 0; 0; 4; 0];
   [4; 0; 0; 0; 0; 0; 0; 0; 4; 4];
   [0; 0; 0; 0; 0; 0; 0; 0; 4; 4];
   [0; 0; 0; 0; 0; 0; 0; 0; 4; 0];
   [7; 7; 0; 0; 0; 7; 7; 0; 0; 5]].

(** [t[sf_config][tti % 10]] *)
Definition table_at (t : list (list Z)) (sf_config tti : Z) : option Z :=
  row ← zget t sf_config; zget row (tti mod 10).

Definition subframe_is_ulgrant_tdd (tti sf_config : Z) : option bool :=
  k ← table_at k_pusch sf_config tti; Some (negb (k =? 0)).

Definition get_phich_tti_tdd (tti sf_config : Z) : option Z :=
  k ← table_at k_pusch sf_config tti;
  let tti_pusch := u32 (tti + k) mod 10240 in
  k' ← table_at k_phich sf_config tti_pusch;
  Some (u32 (tti_pusch + k') mod 10240).

(** ** The list of pending acknowledgements *)

Definition init_pending_ack (l : pend_ack_list) : option pend_ack_list :=
  for_range 0 TTIMOD_SZ (fun l i => zset l i (PendAck false 0 0)) l.

Definition phich_reset_pending_ack (l : pend_ack_list) (tti : Z) : option pend_ack_list :=
  e ← zget l (TTIMOD tti); zset l (TTIMOD tti) (PendAck false (I_lowest e) (pa_n_dmrs e)).

Definition phich_set_pending_ack (l : pend_ack_list) (tti i_lowest n_dmrs : Z) : option pend_ack_list :=
  zset l (TTIMOD tti) (PendAck true i_lowest n_dmrs).

(** The flag and the two values a caller may ask for. *)
Definition phich_get_pending_ack (l : pend_ack_list) (tti : Z) : option (bool * Z * Z) :=
  e ← zget l (TTIMOD tti); Some (enabled e, I_lowest e, pa_n_dmrs e).

Definition phich_is_ack_enabled (l : pend_ack_list) (tti : Z) : option bool :=
  '(b, _, _) ← phich_get_pending_ack l tti; Some b.

Fixpoint any_enabled_from (l : pend_ack_list) (i : Z) (fuel : nat) : option bool :=
  match fuel with
  | O => Some false
  | S n => e ← zget l i; if enabled e then Some true else any_enabled_from l (i + 1) n
  end.
Definition phich_is_any_pending_ack (l : pend_ack_list) : option bool :=
  any_enabled_from l 0 (Z.to_nat TTIMOD_SZ).

Section decoder.
(** [srsran_ue_dl_decode_phich] on the current subframe: return code and
    acknowledgement value, given the grant's lowest PRB, DMRS shift and
    [I_phich]. *)
Context (srsran_ue_dl_decode_phich : Z -> Z -> Z -> Z * bool).

(** The result, the list, and the acknowledgement value if one was decoded. *)
Definition decode_phich (tti : Z) (ft : frame_type) (sf_config : Z) (l : pend_ack_list)
  : option (bool * pend_ack_list * option bool) :=
  '(pending, i_lowest, n_dmrs) ← phich_get_pending_ack l tti;
  if pending : bool then
    let '(ret, ack) := srsran_ue_dl_decode_phich i_lowest n_dmrs 0 in
    if negb (ret =? 0) then
      l ← phich_reset_pending_ack l tti; Some (false, l, None)
    else
      l ← (if ack then Some l
           else
             tti_phich ← match ft with
                         | SRSRAN_FDD => Some (TTI_RX_ACK tti)
                         | SRSRAN_TDD => get_phich_tti_tdd tti sf_config
                         end;
             phich_set_pending_ack l tti_phich i_lowest n_dmrs);
      l ← phich_reset_pending_ack l tti;
      Some (true, l, Some ack)
  else Some (false, l, None).

Definition get_target_dci (msgs : list ngscope_dci_msg_t) (nof_msg target : Z) : option Z :=
  find_rnti msgs target 0 (Z.to_nat nof_msg).

Definition dci_decoder_phich_decode (target tti dl_sf_tti : Z) (ft : frame_type) (sf_config : Z)
    (d : ngscope_dci_per_sub_t) (l : pend_ack_list) : option (bool * pend_ack_list * option bool) :=
  if 0 <? target then
    l ← (if 0 <? nof_ul_dci d then
           idx ← get_target_dci (ul_msg d) (nof_ul_dci d) target;
           if 0 <=? idx then
             m ← zget (ul_msg d) idx;
             tti_phich ← match ft with
                         | SRSRAN_FDD => Some (TTI_RX_ACK tti)
                         | SRSRAN_TDD => get_phich_tti_tdd tti sf_config
                         end;
             l ← phich_set_pending_ack l tti_phich (n_prb_tilde (phich m)) (n_dmrs (phich m));
             phich_reset_pending_ack l tti
           else Some l
         else Some l);
    decode_phich dl_sf_tti ft sf_config l
  else Some (false, l, None).

End decoder.

(** ** Properties *)

(** What the list expects at a TTI: the entry, if it is enabled. *)
Definition expects (l : pend_ack_list) (tti : Z) : option (Z * Z) :=
  e ← zget l (TTIMOD tti); if enabled e then Some (I_lowest e, pa_n_dmrs e) else None.

Lemma ttimod_range (l : pend_ack_list) tti : zlen l = TTIMOD_SZ -> in_range l (TTIMOD tti).
Proof. intros Hl. unfold in_range, TTIMOD. rewrite Hl. by apply Z.mod_pos_bound. Qed.

Lemma set_expects (l : pend_ack_list) tti i n :
  zlen l = TTIMOD_SZ -> exists l', phich_set_pending_ack l tti i n = Some l' /\ zlen l' = TTIMOD_SZ /\
    expects l' tti = Some (i, n) /\
    forall t, TTIMOD t <> TTIMOD tti -> expects l' t = expects l t.
Proof.
  intros Hl. pose proof (ttimod_range l tti Hl) as Hr. unfold phich_set_pending_ack.
  rewrite zset_in by done. eexists. split; [done |]. split; [by rewrite zlen_insert |].
  unfold expects. rewrite zget_insert_eq by done. split; [done |].
  intros t Ht. rewrite zget_insert_ne by (apply Hr || congruence). done.
Qed.

Lemma reset_expects (l : pend_ack_list) tti :
  zlen l = TTIMOD_SZ -> exists l', phich_reset_pending_ack l tti = Some l' /\ zlen l' = TTIMOD_SZ /\
    expects l' tti = None /\
    forall t, TTIMOD t <> TTIMOD tti -> expects l' t = expects l t.
Proof.
  intros Hl. pose proof (ttimod_range l tti Hl) as Hr. unfold phich_reset_pending_ack.
  destruct (zget_some l (TTIMOD tti) Hr) as [e ->]. cbn [mbind option_bind].
  rewrite zset_in by done. eexists. split; [done |]. split; [by rewrite zlen_insert |].
  unfold expects. rewrite zget_insert_eq by done. split; [done |].
  intros t Ht. rewrite zget_insert_ne by (apply Hr || congruence). done.
Qed.

Lemma get_expects (l : pend_ack_list) tti :
  zlen l = TTIMOD_SZ ->
  exists b i n, phich_get_pending_ack l tti = Some (b, i, n) /\
    expects l tti = if b : bool then Some (i, n) else None.
Proof.
  intros Hl. unfold phich_get_pending_ack, expects.
  destruct (zget_some l (TTIMOD tti) (ttimod_range l tti Hl)) as [e ->]. cbn [mbind option_bind].
  eexists _, _, _. split; [done |]. by destruct (enabled e).
Qed.

(** The TTI at which a retransmission is acknowledged. *)
Definition next_phich (ft : frame_type) (sf_config tti : Z) : option Z :=
  match ft with
  | SRSRAN_FDD => Some (TTI_RX_ACK tti)
  | SRSRAN_TDD => get_phich_tti_tdd tti sf_config
  end.

(** A later TTI less than 15 subframes ahead has its own entry, also across the
    wrap at 10240. *)
Lemma ttimod_ahead tti d :
  0 <= tti < 10240 -> 0 < d < 15 -> TTIMOD ((tti + d) mod 10240) <> TTIMOD tti.
Proof. unfold TTIMOD, TTIMOD_SZ. intros Ht Hd. lia. Qed.

Lemma fdd_next tti : 0 <= tti < 10240 -> TTI_RX_ACK tti = (tti + 8) mod 10240.
Proof. intros Ht. unfold TTI_RX_ACK, HARQ_DELAY_MS. rewrite uwrap_small; [done | unfold is_uint; lia]. Qed.

Lemma table_at_mod t c x y : x mod 10 = y mod 10 -> table_at t c x = table_at t c y.
Proof. intros E. unfold table_at. by rewrite E. Qed.

(** The check of one configuration and subframe, evaluated on both tables. *)
Definition closed_at (c r : Z) : bool :=
  match table_at k_pusch c r with
  | Some k =>
      if k =? 0 then true
      else match table_at k_phich c (r + k) with
           | Some k' => (10 <=? k + k') && (k + k' <=? 14) && (0 <=? k) && (0 <=? k') &&
               bool_decide (subframe_is_ulgrant_tdd (r + (k + k')) c = Some true)
           | None => false
           end
  | None => false
  end.

Lemma tables_closed : forallb (fun c => forallb (closed_at c) (seqZ 0 10)) (seqZ 0 7) = true.
Proof. vm_compute. reflexivity. Qed.

Lemma closed_at_all c r : 0 <= c <= 6 -> 0 <= r < 10 -> closed_at c r = true.
Proof.
  intros Hc Hr. pose proof tables_closed as H. rewrite forallb_forall in H.
  assert (c ∈ seqZ 0 7) as Hin by (apply elem_of_seqZ; lia). apply list_elem_of_In, H in Hin.
  rewrite forallb_forall in Hin. apply Hin, list_elem_of_In, elem_of_seqZ. lia.
Qed.

(** The acknowledgement of a TDD uplink grant falls into a subframe that can
    itself carry a grant, 10 to 14 subframes later. *)
Lemma tdd_next_closed c tti :
  0 <= c <= 6 -> 0 <= tti < 10240 -> subframe_is_ulgrant_tdd tti c = Some true ->
  exists d, 10 <= d <= 14 /\ get_phich_tti_tdd tti c = Some ((tti + d) mod 10240) /\
    subframe_is_ulgrant_tdd ((tti + d) mod 10240) c = Some true.
Proof.
  intros Hc Ht Hg. set (r := tti mod 10).
  assert (forall k, 0 <= k -> ((tti + k) mod 10240) mod 10 = (r + k) mod 10) as Hmod by (intros k; lia).
  assert (0 <= r < 10) as Hr by (unfold r; lia).
  pose proof (closed_at_all c r Hc Hr) as Hcl. unfold closed_at in Hcl.
  unfold subframe_is_ulgrant_tdd in Hg. unfold get_phich_tti_tdd.
  rewrite (table_at_mod k_pusch c tti r) in Hg |- * by (unfold r; lia).
  destruct (table_at k_pusch c r) as [k |]; [| done]. cbn [mbind option_bind] in *.
  destruct (k =? 0); [done |]. destruct (table_at k_phich c (r + k)) as [k' |] eqn:E2; [| done].
  rewrite !andb_true_iff, !Z.leb_le, bool_decide_eq_true in Hcl. destruct Hcl as ((((? & ?) & ?) & ?) & E3).
  exists (k + k'). split; [done |]. rewrite (uwrap_small 32 (tti + k)) by (unfold is_uint; lia).
  rewrite (table_at_mod k_phich c _ (r + k)) by (by apply Hmod). rewrite E2. cbn [mbind option_bind].
  rewrite (uwrap_small 32) by (unfold is_uint; lia).
  split; [f_equal; lia |]. unfold subframe_is_ulgrant_tdd in *.
  by rewrite (table_at_mod k_pusch c _ (r + (k + k'))) by (apply Hmod; lia).
Qed.

(** The PHICH timing tables are closed: in every TDD configuration, the
    acknowledgement of an uplink grant is expected 10 to 14 subframes later, in
    a subframe that can carry a grant, so that a retransmission of it has a
    PHICH TTI again; and its entry of the ring is not the grant's own. *)
Theorem tdd_phich_closed c tti :
  0 <= c <= 6 -> 0 <= tti < 10240 -> subframe_is_ulgrant_tdd tti c = Some true ->
  exists t, get_phich_tti_tdd tti c = Some t /\ 10 <= (t - tti) mod 10240 <= 14 /\
    subframe_is_ulgrant_tdd t c = Some true /\ TTIMOD t <> TTIMOD tti.
Proof.
  intros Hc Ht Hg. destruct (tdd_next_closed c tti Hc Ht Hg) as (d & Hd & E & Hg').
  exists ((tti + d) mod 10240). split; [done |]. split; [lia |]. split; [done |]. apply ttimod_ahead; lia.
Qed.

(** Subframes in which the target can be granted or acknowledged. *)
Definition grant_subframe (ft : frame_type) (c tti : Z) : Prop :=
  match ft with
  | SRSRAN_FDD => True
  | SRSRAN_TDD => 0 <= c <= 6 /\ subframe_is_ulgrant_tdd tti c = Some true
  end.

Lemma next_phich_some ft c tti :
  0 <= tti < 10240 -> grant_subframe ft c tti ->
  exists t, next_phich ft c tti = Some t /\ TTIMOD t <> TTIMOD tti.
Proof.
  intros Ht Hg. destruct ft; simpl.
  - eexists. split; [done |]. rewrite fdd_next by done. apply ttimod_ahead; lia.
  - destruct Hg as [Hc Hg]. destruct (tdd_next_closed c tti Hc Ht Hg) as (d & Hd & E & _).
    eexists. split; [done |]. apply ttimod_ahead; lia.
Qed.

Section properties.
Context (phy : Z -> Z -> Z -> Z * bool).

(** C36: decoding the PHICH of a subframe. Without an expectation nothing
    happens. With one, the PHY decoder is asked with the stored parameters, the
    expectation is consumed in every case, and on a NACK it is set again, with
    the same parameters, at the TTI at which the retransmission is
    acknowledged. No other entry changes. *)
Theorem decode_phich_spec tti ft c l :
  zlen l = TTIMOD_SZ -> 0 <= tti < 10240 -> grant_subframe ft c tti ->
  exists res l' ack next, decode_phich phy tti ft c l = Some (res, l', ack) /\ zlen l' = TTIMOD_SZ /\
    next_phich ft c tti = Some next /\
    match expects l tti with
    | None => res = false /\ ack = None /\ l' = l
    | Some (i, n) =>
        let '(ret, a) := phy i n 0 in
        res = bool_decide (ret = 0) /\ ack = (if decide (ret = 0) then Some a else None) /\
        expects l' tti = None /\
        expects l' next = (if decide (ret = 0 /\ a = false) then Some (i, n) else expects l next) /\
        forall t, TTIMOD t <> TTIMOD tti -> TTIMOD t <> TTIMOD next -> expects l' t = expects l t
    end.
Proof.
  intros Hl Ht Hg. destruct (next_phich_some ft c tti Ht Hg) as (next & En & Hne).
  destruct (get_expects l tti Hl) as (b & i & n & Hget & ->). unfold decode_phich. rewrite Hget.
  cbn [mbind option_bind]. destruct b.
  2:{ exists false, l, None, next. by split_and!. }
  destruct (phy i n 0) as [ret a]. destruct (Z.eqb_spec ret 0) as [-> | Hret]; cbn [negb].
  - destruct a; cbn [mbind option_bind].
    + destruct (reset_expects l tti Hl) as (l' & -> & Hl' & He & Ho).
      exists true, l', (Some true), next. cbn. split_and!; auto.
    + change (match ft with SRSRAN_FDD => Some (TTI_RX_ACK tti) | SRSRAN_TDD => get_phich_tti_tdd tti c end)
        with (next_phich ft c tti). rewrite En. cbn [mbind option_bind].
      destruct (set_expects l next i n Hl) as (l1 & -> & Hl1 & He1 & Ho1). cbn [mbind option_bind].
      destruct (reset_expects l1 tti Hl1) as (l' & -> & Hl' & He & Ho).
      exists true, l', (Some false), next. cbn. split_and!; auto.
      * by rewrite Ho.
      * intros t Hta Htb. by rewrite Ho, Ho1.
  - destruct (reset_expects l tti Hl) as (l' & -> & Hl' & He & Ho). cbn [mbind option_bind].
    exists false, l', None, next. rewrite bool_decide_false by done. rewrite !decide_False by tauto.
    split_and!; auto.
Qed.

(** An uplink grant for the target at [tti] makes the list expect its
    acknowledgement, with the grant's PRB and DMRS parameters, at the PHICH
    TTI; the expectation that was due at [tti] itself is dropped, so no PHICH
    is decoded in that subframe. *)
Theorem phich_grant_spec target tti ft c d l idx m :
  zlen l = TTIMOD_SZ -> 0 <= tti < 10240 -> grant_subframe ft c tti -> 0 < target -> per_sub_wf d ->
  list_find (fun m => rnti m = target) (ul_list d) = Some (idx, m) ->
  exists l' next, dci_decoder_phich_decode phy target tti tti ft c d l = Some (false, l', None) /\
    next_phich ft c tti = Some next /\ expects l' tti = None /\
    expects l' next = Some (n_prb_tilde (phich m), n_dmrs (phich m)) /\
    forall t, TTIMOD t <> TTIMOD tti -> TTIMOD t <> TTIMOD next -> expects l' t = expects l t.
Proof.
  intros Hl Ht Hg Htar [_ Hu _ Hnu] Hfind. destruct (next_phich_some ft c tti Ht Hg) as (next & En & Hne).
  unfold dci_decoder_phich_decode, get_target_dci. destruct (Z.ltb_spec 0 target); [| lia].
  pose proof Hfind as Hf. apply list_find_Some in Hf as (Hidx & Hm & _). unfold ul_list in Hfind, Hidx.
  pose proof (lookup_lt_Some _ _ _ Hidx) as Hlt. rewrite length_take in Hlt.
  destruct (Z.ltb_spec 0 (nof_ul_dci d)); [| lia].
  rewrite find_rnti_spec by lia. change (Z.to_nat 0) with 0%nat. rewrite drop_0, Hfind.
  cbn [mbind option_bind]. rewrite Z.add_0_l. destruct (Z.leb_spec 0 (Z.of_nat idx)); [| lia].
  rewrite zget_lookup, Nat2Z.id by lia. apply lookup_take_Some in Hidx as [-> _]. cbn [mbind option_bind].
  change (match ft with SRSRAN_FDD => Some (TTI_RX_ACK tti) | SRSRAN_TDD => get_phich_tti_tdd tti c end)
    with (next_phich ft c tti). rewrite En. cbn [mbind option_bind].
  destruct (set_expects l next (n_prb_tilde (phich m)) (n_dmrs (phich m)) Hl) as (l1 & -> & Hl1 & He1 & Ho1).
  cbn [mbind option_bind]. destruct (reset_expects l1 tti Hl1) as (l' & -> & Hl' & He & Ho).
  cbn [mbind option_bind]. unfold decode_phich.
  destruct (get_expects l' tti Hl') as (b & i & n & -> & Hb). rewrite He in Hb.
  destruct b; [done |]. cbn [mbind option_bind].
  exists l', next. split_and!; try done.
  - by rewrite Ho.
  - intros t Hta Htb. by rewrite Ho, Ho1.
Qed.
End properties.

(** ** Witnesses *)

Definition ex_pend : pend_ack_list := <[42%nat := PendAck true 7 3]> (replicate 100 (PendAck false 0 0)).

Lemma tdd_phich_closed_witness :
  exists t, get_phich_tti_tdd 10236 6 = Some t /\ 10 <= (t - 10236) mod 10240 <= 14 /\
    subframe_is_ulgrant_tdd t 6 = Some true /\ TTIMOD t <> TTIMOD 10236.
Proof. apply (tdd_phich_closed 6 10236); [lia | lia | reflexivity]. Defined.

Lemma decode_phich_spec_witness :
  exists res l' ack next, decode_phich (fun _ _ _ => (0, false)) 142 SRSRAN_FDD 0 ex_pend = Some (res, l', ack) /\
    zlen l' = TTIMOD_SZ /\ next_phich SRSRAN_FDD 0 142 = Some next /\
    match expects ex_pend 142 with
    | None => res = false /\ ack = None /\ l' = ex_pend
    | Some (i, n) =>
        let '(ret, a) := (0, false) in
        res = bool_decide (ret = 0) /\ ack = (if decide (ret = 0) then Some a else None) /\
        expects l' 142 = None /\
        expects l' next = (if decide (ret = 0 /\ a = false) then Some (i, n) else expects ex_pend next) /\
        forall t, TTIMOD t <> TTIMOD 142 -> TTIMOD t <> TTIMOD next -> expects l' t = expects ex_pend t
    end.
Proof. apply (decode_phich_spec (fun _ _ _ => (0, false)) 142 SRSRAN_FDD 0 ex_pend); [done | lia | done]. Defined.

(** A subframe with one uplink grant for RNTI 61. *)
Definition ex_grant : ngscope_dci_msg_t :=
  DciMsg 61 4 0 1 false f32_100 f32_1 SRSRAN_DCI_FORMAT0 zero_tb zero_tb (DciPhich 5 12 0)
    (DciLoc 0 0 false (S754_zero false)).
Definition ex_ul : ngscope_dci_per_sub_t :=
  PerSub (replicate 10 zero_msg) 0 (ex_grant :: replicate 9 zero_msg) 1 0.

Lemma phich_grant_spec_witness :
  exists l' next, dci_decoder_phich_decode (fun _ _ _ => (0, true)) 61 142 142 SRSRAN_FDD 0 ex_ul ex_pend
      = Some (false, l', None) /\
    next_phich SRSRAN_FDD 0 142 = Some next /\ expects l' 142 = None /\
    expects l' next = Some (n_prb_tilde (phich ex_grant), n_dmrs (phich ex_grant)) /\
    forall t, TTIMOD t <> TTIMOD 142 -> TTIMOD t <> TTIMOD next -> expects l' t = expects ex_pend t.
Proof.
  apply (phich_grant_spec (fun _ _ _ => (0, true)) 61 142 SRSRAN_FDD 0 ex_ul ex_pend 0 ex_grant);
    [done | lia | done | lia | by split | reflexivity].
Defined.
