(* ===== verification/SearchSpace.v ===== *)
(** * PDCCH search space ([lib/src/phy/ue/ngscope_search_space.c], [ue_dl.c])

    The control region of a subframe is cut into blocks of 8 CCEs; a block is a
    complete binary tree of 15 candidate locations (one of 8 CCEs, two of 4, four
    of 2, eight of 1) stored in heap order. The second part decides whether a
    decoded RNTI may use a location at all (TS 36.213 section 9.1.1). *)

From S2P Require Import Prelude NgTypes.

(** ** Binary32 arithmetic *)

Definition f32_add (a b : float32) : float32 := SFadd 24 128 a b.
Definition f32_mul (a b : float32) : float32 := SFmul 24 128 a b.
Definition f32_div (a b : float32) : float32 := SFdiv 24 128 a b.
Definition f32_abs (a : float32) : float32 := SFabs a.
Definition f32_lt (a b : float32) : bool := SFltb a b.
Definition f32_le (a b : float32) : bool := SFleb a b.
Definition f32_eq (a b : float32) : bool := SFeqb a b.
Definition f32_of_int (n : Z) : float32 := binary_normalize 24 128 n 0 false.
Definition f32_0 : float32 := S754_zero false.

(** The conversion to binary64, which is exact. *)
Definition f64_of_f32 (x : float32) : spec_float :=
  match x with
  | S754_finite s m e => binary_normalize 53 1024 (if s then Zneg m else Zpos m) e s
  | _ => x
  end.

(** [isnormal]: a finite number whose significand has all its 24 bits. *)
Definition f32_isnormal (x : float32) : bool :=
  match x with S754_finite _ m _ => 2 ^ 23 <=? Zpos m | _ => false end.

(** [0.3f], the binary32 number nearest to 3/10. *)
Definition LLR_RATIO : float32 := S754_finite false 10066330 (-25).

Definition PDCCH_FORMAT_NOF_BITS (i : Z) : Z := Z.shiftl 1 i * 72.

(** The PDCCH fields the search uses: CCEs per CFI and the soft bits. *)
Record srsran_pdcch_t := Pdcch { pdcch_nof_cce : list Z; pdcch_llr : list float32 }.

(** ** Candidate locations *)

Definition srsran_pdcch_get_nof_location_yx (q : srsran_pdcch_t) (cfi : Z) : option Z :=
  if (0 <? cfi) && (cfi <? 4) then zget (pdcch_nof_cce q) (cfi - 1) else Some 0.

(** [c[k].L = l; c[k].ncce = ncce;] *)
Definition set_L_ncce (c : list srsran_dci_location_t) (k l ncce : Z) : option (list srsran_dci_location_t) :=
  x ← zget c k; zset c k (DciLoc l ncce (loc_checked x) (loc_mean_llr x)).

Definition set_checked (c : list srsran_dci_location_t) (k : Z) (b : bool) : option (list srsran_dci_location_t) :=
  x ← zget c k; zset c k (DciLoc (loc_L x) (loc_ncce x) b (loc_mean_llr x)).

Definition set_mean_llr (c : list srsran_dci_location_t) (k : Z) (m : float32) : option (list srsran_dci_location_t) :=
  x ← zget c k; zset c k (DciLoc (loc_L x) (loc_ncce x) (loc_checked x) m).

(** All candidates of all levels, largest first. *)
Definition srsran_ngscope_search_space_all_yx (q : srsran_pdcch_t) (cfi : Z) (c : list srsran_dci_location_t)
  : option (Z * list srsran_dci_location_t) :=
  n ← srsran_pdcch_get_nof_location_yx q cfi;
  foldM (fun '(k, c) l =>
           let L := Z.shiftl 1 l in
           for_range 0 (Z.quot n L)
             (fun '(k, c) i =>
                c ← set_L_ncce c k l (L * (i mod (Z.quot n L))); Some (k + 1, c)) (k, c))
    (0, c) [3; 2; 1; 0].

Definition mean_llr (q : srsran_pdcch_t) (ncce l : Z) : option float32 :=
  sum ← for_range 0 (PDCCH_FORMAT_NOF_BITS l)
    (fun mean j => x ← zget (pdcch_llr q) (ncce * 72 + j); Some (f32_add mean (f32_abs x))) f32_0;
  Some (f32_div sum (f32_of_int (PDCCH_FORMAT_NOF_BITS l))).

(** One location of a block: level, first CCE, mean LLR. *)
Definition set_location (q : srsran_pdcch_t) (c : list srsran_dci_location_t) (k l ncce : Z)
  : option (list srsran_dci_location_t) :=
  c ← set_L_ncce c k l ncce; m ← mean_llr q ncce l; set_mean_llr c k m.

(** A parent location is unusable when one of its children is. *)
Definition check_from_children (loc_idx idx : Z) (c : list srsran_dci_location_t)
  : option (list srsran_dci_location_t) :=
  l ← zget c (loc_idx + 2 * idx + 1);
  r ← zget c (loc_idx + 2 * idx + 2);
  set_checked c (loc_idx + idx) (if negb (loc_checked l) && negb (loc_checked r) then false else true).

(** The tree of each block; a last block that is cut off has the locations that
    stick out marked as checked, so that the search skips them. The rounding up
    of [nof_location / 8] through [double] is exact. *)
Definition srsran_ngscope_search_space_block_yx (q : srsran_pdcch_t) (cfi : Z) (c : list srsran_dci_location_t)
  : option (Z * list srsran_dci_location_t) :=
  n ← srsran_pdcch_get_nof_location_yx q cfi;
  let nof_L3 := n / 8 in
  let nof_blk := (n + 7) / 8 in
  c ← for_range 0 nof_blk
    (fun c i =>
       c ← set_location q c (i * 15) 3 (8 * i);
       c ← for_range 0 2 (fun c j => set_location q c (i * 15 + j + 1) 2 (8 * i + 4 * j)) c;
       c ← for_range 0 4 (fun c j => set_location q c (i * 15 + j + 3) 1 (8 * i + 2 * j)) c;
       for_range 0 8 (fun c j => set_location q c (i * 15 + j + 7) 0 (8 * i + j)) c) c;
  c ← for_range 0 (nof_blk * 15) (fun c i => set_checked c i false) c;
  let rem := n mod 8 in
  let loc_idx := nof_L3 * 15 in
  c ← (if negb (rem =? 0) then
         c ← set_checked c loc_idx true;
         c ← for_range 0 8 (fun c i =>
               x ← zget c (loc_idx + 7 + i);
               if n <=? loc_ncce x then set_checked c (loc_idx + 7 + i) true else Some c) c;
         c ← for_range 0 4 (fun c i => check_from_children loc_idx (3 + i) c) c;
         for_range 0 2 (fun c i => check_from_children loc_idx (1 + i) c) c
       else Some c);
  Some (nof_blk * 15, c).

(** Not called by the search. The children are those of the index in the whole
    array, not in the block. *)
Definition check_pair (c : list srsran_dci_location_t) (idx : Z) : option (list srsran_dci_location_t) :=
  l ← zget c (2 * idx + 1);
  r ← zget c (2 * idx + 2);
  if loc_checked l || loc_checked r then set_checked c idx true else Some c.

Definition check_node_based_on_llr (c : list srsran_dci_location_t) (nof_location : Z)
  : option (list srsran_dci_location_t) :=
  for_range 0 (Z.quot nof_location 15)
    (fun c i =>
       let start_idx := i * 15 in
       c ← for_range 7 15 (fun c j =>
             x ← zget c (start_idx + j);
             if f32_lt (loc_mean_llr x) LLR_RATIO then set_checked c (start_idx + j) true else Some c) c;
       c ← for_range 3 7 (fun c j => check_pair c (start_idx + j)) c;
       c ← for_range 1 3 (fun c j => check_pair c (start_idx + j)) c;
       check_pair c start_idx) c.

(** ** Which RNTI may use which location *)

Definition nof_candidates : list Z := [6; 6; 2; 2].

(** [for (m = 0; m < nsubframe+1; m++) Yk = (39827 * Yk) % 65537;] *)
Definition Yk_of (rnti nsubframe : Z) : Z :=
  foldl (fun Yk _ => u32 (39827 * Yk) mod 65537) rnti (seqZ 0 (u32 (nsubframe + 1))).

(** The first candidate that starts at [this_ncce] returns 1. *)
Definition srsran_ngscope_ue_locations_ncce_check_ue_specific (nof_cce nsubframe rnti this_ncce : Z) : Z :=
  let Yk := Yk_of rnti nsubframe in
  if existsb (fun l =>
       let L := Z.shiftl 1 l in
       existsb (fun i =>
         (L <=? nof_cce) &&
         (let ncce := u32 (L * (u32 (Yk + i) mod (nof_cce / L))) in
          (u32 (ncce + L) <=? nof_cce) && (ncce =? this_ncce)))
         (seqZ 0 (default 0 (zget nof_candidates l)))) [3; 2; 1; 0]
  then 1 else 0.

Definition srsran_ngscope_ue_locations_ncce_check_common (nof_cce nsubframe rnti this_ncce : Z) : Z :=
  if existsb (fun l =>
       let L := Z.shiftl 1 l in
       existsb (fun i =>
         let ncce := u32 (L * (i mod (nof_cce / L))) in
         (u32 (ncce + L) <=? nof_cce) && (ncce =? this_ncce))
         (seqZ 0 (Z.min nof_cce 16 / L))) [3; 2]
  then 1 else 0.

Definition srsran_ngscope_is_common_space (f : srsran_dci_format_t) : Z :=
  match f with
  | SRSRAN_DCI_FORMAT0 | SRSRAN_DCI_FORMAT1A => 0
  | SRSRAN_DCI_FORMAT1 | SRSRAN_DCI_FORMAT1B | SRSRAN_DCI_FORMAT1D
  | SRSRAN_DCI_FORMAT2 | SRSRAN_DCI_FORMAT2A | SRSRAN_DCI_FORMAT2B => 1
  | SRSRAN_DCI_FORMAT1C => 2
  | _ => 3
  end.

Definition srsran_ngscope_space_match_yx (rnti nof_cce sf_idx ncce : Z) (f : srsran_dci_format_t) : bool :=
  let ue_specific := srsran_ngscope_ue_locations_ncce_check_ue_specific nof_cce sf_idx rnti ncce in
  let common_space := srsran_ngscope_ue_locations_ncce_check_common nof_cce sf_idx rnti ncce in
  let is_common := srsran_ngscope_is_common_space f in
  if (is_common =? 0) && ((ue_specific =? 0) && (common_space =? 0)) then false
  else if (is_common =? 1) && negb ((ue_specific =? 1) && (common_space =? 0)) then false
  else if (is_common =? 2) && negb ((ue_specific =? 0) && (common_space =? 1)) then false
  else true.

(** ** The block layout *)

(** A loop whose iteration [i] stores at [base + i]. *)
Lemma for_range_fill {A} (P : Z -> A -> Prop) (base a b : Z) (f : list A -> Z -> option (list A)) (c : list A) :
  a <= b ->
  (forall i s, a <= i < b -> zlen s = zlen c ->
     (forall j, j < base + a \/ base + i <= j -> zget s j = zget c j) ->
     exists x, f s i = zset s (base + i) x /\ in_range s (base + i) /\ P i x) ->
  exists c', for_range a b f c = Some c' /\ zlen c' = zlen c /\
    (forall i, a <= i < b -> exists x, zget c' (base + i) = Some x /\ P i x) /\
    (forall j, j < base + a \/ base + b <= j -> zget c' j = zget c j).
Proof.
  intros Hab Hstep.
  loop_inv (fun i s => zlen s = zlen c /\
    (forall k, a <= k < i -> exists x, zget s (base + k) = Some x /\ P k x) /\
    (forall j, j < base + a \/ base + i <= j -> zget s j = zget c j)) as (s' & E & H).
  - done.
  - split_and!; [done | intros; lia | done].
  - intros i s Hi (Hl & HP & Ho). destruct (Hstep i s Hi Hl Ho) as (x & -> & Hr & Hx).
    destruct (zset s (base + i) x) as [s' |] eqn:Es; [| by rewrite zset_in in Es].
    exists s'. split; [done |]. split_and!.
    + by rewrite (zset_len _ _ _ _ Es).
    + intros k Hk. destruct (Z.eq_dec k i) as [-> | Hne].
      * exists x. by rewrite (zget_zset_eq _ _ _ _ Es).
      * rewrite (zget_zset_ne _ _ _ _ _ Es) by lia. apply HP. lia.
    + intros j Hj. rewrite (zget_zset_ne _ _ _ _ _ Es) by lia. apply Ho. lia.
  - exists s'. done.
Qed.

(** Level and first CCE of node [k] of the tree of block [b]. *)
Definition node_L (k : Z) : Z := 3 - Z.log2 (k + 1).
Definition node_off (k : Z) : Z := (k + 1 - 2 ^ Z.log2 (k + 1)) * 2 ^ node_L k.
Definition node_cce (b k : Z) : Z := 8 * b + node_off k.

(** Every number below a small bound, one by one. *)
Ltac zenum k n :=
  let H := fresh in
  assert (k ∈ seqZ 0 n) as H by (apply elem_of_seqZ; lia);
  let l := eval vm_compute in (seqZ 0 n) in change (seqZ 0 n) with l in H;
  repeat (apply elem_of_cons in H as [-> | H]); [.. | by apply not_elem_of_nil in H].

Lemma mean_llr_total q ncce l :
  0 <= ncce -> 0 <= l -> ncce * 72 + 2 ^ l * 72 <= zlen (pdcch_llr q) -> exists m, mean_llr q ncce l = Some m.
Proof.
  intros Hn Hl Hlen. unfold mean_llr, PDCCH_FORMAT_NOF_BITS. rewrite Z.shiftl_mul_pow2, Z.mul_1_l by done.
  pose proof (Z.pow_pos_nonneg 2 l).
  loop_inv (fun (_ : Z) (_ : float32) => True) as (s & -> & _); [lia | done | | by eexists].
  intros i s Hi _. destruct (zget_some (pdcch_llr q) (ncce * 72 + i)) as [x ->]; [unfold in_range; lia |].
  by eexists.
Qed.

Lemma set_location_step q c k l ncce :
  in_range c k -> 0 <= ncce -> 0 <= l -> ncce * 72 + 2 ^ l * 72 <= zlen (pdcch_llr q) ->
  exists x, set_location q c k l ncce = zset c k x /\ loc_L x = l /\ loc_ncce x = ncce.
Proof.
  intros Hk Hn Hl Hlen. destruct (mean_llr_total q ncce l) as [m Em]; [done.. |].
  destruct (zget_some c k Hk) as [x Ex].
  unfold set_location, set_L_ncce, set_mean_llr. rewrite Ex. cbn [mbind option_bind].
  rewrite zset_in by done. cbn [mbind option_bind]. rewrite Em. cbn [mbind option_bind].
  rewrite zget_insert_eq by done. cbn [mbind option_bind].
  eexists. split; [rewrite !zset_in; [by rewrite list_insert_insert_eq | done | zlen_lia] | done].
Qed.

(** The locations of one level of a block: [w] nodes from node [k0]. *)
Lemma level_fill q b k0 w l (c : list srsran_dci_location_t) :
  0 <= b -> 0 <= k0 -> 0 < w -> 0 <= l -> w * 2 ^ l = 8 -> k0 + w <= 15 -> 15 * b + 15 <= zlen c ->
  (8 * b + 8) * 72 <= zlen (pdcch_llr q) ->
  exists c', for_range 0 w (fun c j => set_location q c (b * 15 + j + k0) l (8 * b + 2 ^ l * j)) c = Some c'
    /\ zlen c' = zlen c
    /\ (forall i, 0 <= i < w -> exists x, zget c' (b * 15 + k0 + i) = Some x /\ loc_L x = l /\ loc_ncce x = 8 * b + 2 ^ l * i)
    /\ (forall j, j < b * 15 + k0 \/ b * 15 + k0 + w <= j -> zget c' j = zget c j).
Proof.
  intros Hb Hk0 Hw Hl Hwl Hkw Hc Hq.
  destruct (for_range_fill (fun i x => loc_L x = l /\ loc_ncce x = 8 * b + 2 ^ l * i) (b * 15 + k0) 0 w
    (fun c j => set_location q c (b * 15 + j + k0) l (8 * b + 2 ^ l * j)) c) as (c' & E & El & HP & Ho); [lia | |].
  - intros i s Hi Els _.
    assert (in_range s (b * 15 + k0 + i)) as Hr by (unfold in_range; lia).
    pose proof (Z.pow_pos_nonneg 2 l).
    assert (2 ^ l * i + 2 ^ l <= 8) by nia.
    destruct (set_location_step q s (b * 15 + k0 + i) l (8 * b + 2 ^ l * i)) as (x & Ex & ? & ?); [done | nia.. |].
    exists x. replace (b * 15 + i + k0) with (b * 15 + k0 + i) by lia. done.
  - exists c'. split_and!; [done.. |]. intros j Hj. apply Ho. lia.
Qed.

Definition node_of (b k : Z) (x : srsran_dci_location_t) : Prop := loc_L x = node_L k /\ loc_ncce x = node_cce b k.

(** The body of the block loop stores the whole tree of block [b]. *)
Lemma block_fill q b (c : list srsran_dci_location_t) :
  0 <= b -> 15 * b + 15 <= zlen c -> (8 * b + 8) * 72 <= zlen (pdcch_llr q) ->
  exists c', (c ← set_location q c (b * 15) 3 (8 * b);
       c ← for_range 0 2 (fun c j => set_location q c (b * 15 + j + 1) 2 (8 * b + 4 * j)) c;
       c ← for_range 0 4 (fun c j => set_location q c (b * 15 + j + 3) 1 (8 * b + 2 * j)) c;
       for_range 0 8 (fun c j => set_location q c (b * 15 + j + 7) 0 (8 * b + j)) c) = Some c'
    /\ zlen c' = zlen c
    /\ (forall k, 0 <= k < 15 -> exists x, zget c' (b * 15 + k) = Some x /\ node_of b k x)
    /\ (forall j, j < b * 15 \/ b * 15 + 15 <= j -> zget c' j = zget c j).
Proof.
  intros Hb Hc Hq.
  assert (in_range c (b * 15)) as Hr by (unfold in_range; lia).
  destruct (set_location_step q c (b * 15) 3 (8 * b)) as (x0 & -> & Hx0 & Hx0'); [done | lia.. |].
  rewrite zset_in by done. cbn [mbind option_bind].
  set (c0 := <[_ := x0]> c).
  assert (zlen c0 = zlen c) as El0 by apply zlen_insert.
  destruct (level_fill q b 1 2 2 c0) as (c1 & E1 & El1 & HP1 & Ho1); [lia.. |].
  change (2 ^ 2) with 4 in E1. rewrite E1. cbn [mbind option_bind].
  destruct (level_fill q b 3 4 1 c1) as (c2 & E2 & El2 & HP2 & Ho2); [lia.. |].
  change (2 ^ 1) with 2 in E2. rewrite E2. cbn [mbind option_bind].
  destruct (level_fill q b 7 8 0 c2) as (c3 & E3 & El3 & HP3 & Ho3); [lia.. |].
  change (2 ^ 0) with 1 in E3.
  assert (for_range 0 8 (fun c j => set_location q c (b * 15 + j + 7) 0 (8 * b + j)) c2 = Some c3) as ->.
  { rewrite <- E3. apply foldM_ext. intros s j. by rewrite Z.mul_1_l. }
  exists c3. split; [done |]. split; [congruence |]. split.
  - intros k Hk. unfold node_of, node_cce.
    assert (k = 0 \/ exists i, (0 <= i < 2 /\ k = 1 + i) \/ (0 <= i < 4 /\ k = 3 + i) \/ (0 <= i < 8 /\ k = 7 + i)) as HK.
    { destruct (Z.eq_dec k 0); [by left | right]. destruct (Z_lt_dec k 3); [exists (k - 1); lia |].
      destruct (Z_lt_dec k 7); [exists (k - 3) | exists (k - 7)]; lia. }
    destruct HK as [-> | (i & [(Hi & ->) | [(Hi & ->) | (Hi & ->)]])].
    + rewrite Ho3, Ho2, Ho1 by lia. rewrite Z.add_0_r. exists x0.
      split; [apply zget_insert_eq; done |]. split; [done |]. rewrite Hx0'. vm_compute (node_off 0). lia.
    + rewrite Ho3, Ho2 by lia. destruct (HP1 i Hi) as (x & Ex & HL & HN). exists x.
      split; [by replace (b * 15 + (1 + i)) with (b * 15 + 1 + i) by lia |].
      rewrite HL, HN. zenum i 2; split; try done; f_equal.
    + rewrite Ho3 by lia. destruct (HP2 i Hi) as (x & Ex & HL & HN). exists x.
      split; [by replace (b * 15 + (3 + i)) with (b * 15 + 3 + i) by lia |].
      rewrite HL, HN. zenum i 4; split; try done; f_equal.
    + destruct (HP3 i Hi) as (x & Ex & HL & HN). exists x.
      split; [by replace (b * 15 + (7 + i)) with (b * 15 + 7 + i) by lia |].
      rewrite HL, HN. zenum i 8; split; try done; f_equal.
  - intros j Hj. rewrite Ho3, Ho2, Ho1 by lia. unfold c0. apply zget_insert_ne; lia.
Qed.

Lemma set_checked_step c k v x :
  zget c k = Some x ->
  exists x', set_checked c k v = zset c k x' /\ in_range c k
    /\ loc_L x' = loc_L x /\ loc_ncce x' = loc_ncce x /\ loc_checked x' = v.
Proof.
  intros Ex. pose proof (zget_inv _ _ _ Ex). unfold set_checked. rewrite Ex. cbn [mbind option_bind].
  by eexists.
Qed.

Lemma zset_same {A} (c : list A) k x : zget c k = Some x -> zset c k x = Some c.
Proof.
  intros Ex. pose proof (zget_inv _ _ _ Ex) as Hr. rewrite zset_in by done. f_equal.
  apply list_insert_id. rewrite <- zget_lookup by apply Hr. done.
Qed.

(** The 15 nodes of block [b] are in place, with the given checked flags. *)
Definition tree_at (b : Z) (chk : Z -> bool) (c : list srsran_dci_location_t) : Prop :=
  forall k, 0 <= k < 15 -> exists x, zget c (b * 15 + k) = Some x /\ node_of b k x /\ loc_checked x = chk k.

(** Does node [k] of block [b] end within [n] CCEs? *)
Definition fits (n b k : Z) : bool := node_cce b k + 2 ^ node_L k <=? n.

(** A loop that sets the flags of the nodes [k0 + i] of one block. *)
Lemma flags_fill b k0 w chk (g : Z -> bool) f c :
  0 <= k0 -> 0 <= w -> k0 + w <= 15 -> tree_at b chk c ->
  (forall i s, 0 <= i < w ->
     tree_at b (fun k => if (k0 <=? k) && (k <? k0 + i) then g k else chk k) s ->
     exists x x', zget s (b * 15 + (k0 + i)) = Some x /\ f s i = zset s (b * 15 + (k0 + i)) x'
       /\ loc_L x' = loc_L x /\ loc_ncce x' = loc_ncce x /\ loc_checked x' = g (k0 + i)) ->
  exists c', for_range 0 w f c = Some c' /\ zlen c' = zlen c /\
    tree_at b (fun k => if (k0 <=? k) && (k <? k0 + w) then g k else chk k) c' /\
    (forall j, j < b * 15 \/ b * 15 + 15 <= j -> zget c' j = zget c j).
Proof.
  intros Hk0 Hw Hkw Ht Hstep.
  loop_inv (fun i s => zlen s = zlen c /\
    tree_at b (fun k => if (k0 <=? k) && (k <? k0 + i) then g k else chk k) s /\
    (forall j, j < b * 15 \/ b * 15 + 15 <= j -> zget s j = zget c j)) as (s' & E & H).
  - done.
  - split_and!; [done | | done]. intros k Hk. destruct (Ht k Hk) as (x & Ex & Hx & Hc). exists x.
    split_and!; [done.. |]. rewrite Hc. by repeat zcase; try lia.
  - intros i s Hi (Hl & HT & Ho). destruct (Hstep i s Hi HT) as (x & x' & Ex & -> & HL & HN & HC).
    pose proof (zget_inv _ _ _ Ex) as Hr.
    destruct (zset s (b * 15 + (k0 + i)) x') as [s' |] eqn:Es; [| by rewrite zset_in in Es].
    exists s'. split; [done |]. split_and!.
    + by rewrite (zset_len _ _ _ _ Es).
    + intros k Hk. destruct (Z.eq_dec k (k0 + i)) as [-> | Hne].
      * exists x'. rewrite (zget_zset_eq _ _ _ _ Es). split; [done |].
        destruct (HT (k0 + i)) as (y & Ey & [Hy1 Hy2] & _); [lia |]. rewrite Ex in Ey. injection Ey as <-.
        split; [split; congruence |]. rewrite HC. by repeat zcase; try lia.
      * rewrite (zget_zset_ne _ _ _ _ _ Es) by lia.
        destruct (HT k Hk) as (y & Ey & Hy & Hc). exists y. split_and!; [done.. |].
        rewrite Hc. by repeat zcase; try lia.
    + intros j Hj. rewrite (zget_zset_ne _ _ _ _ _ Es) by lia. by apply Ho.
  - exists s'. done.
Qed.

(** A parent fits exactly when both its children do. *)
Lemma fits_children n b k :
  0 <= k < 7 -> fits n b k = fits n b (2 * k + 1) && fits n b (2 * k + 2).
Proof.
  intros Hk. unfold fits, node_cce. zenum k 7; vm_compute (node_off _); vm_compute (2 ^ _);
    repeat zcase; try done; lia.
Qed.

Lemma parents_fill n b k0 w c :
  0 <= k0 -> 0 < w -> k0 + w <= 7 -> k0 + w <= 2 * k0 + 1 ->
  forall chk, (forall k, 2 * k0 < k <= 2 * (k0 + w) -> chk k = negb (fits n b k)) ->
  tree_at b chk c ->
  exists c', for_range 0 w (fun c i => check_from_children (b * 15) (k0 + i) c) c = Some c' /\ zlen c' = zlen c /\
    tree_at b (fun k => if (k0 <=? k) && (k <? k0 + w) then negb (fits n b k) else chk k) c' /\
    (forall j, j < b * 15 \/ b * 15 + 15 <= j -> zget c' j = zget c j).
Proof.
  intros Hk0 Hw Hkw Hk2 chk Hchk Ht. apply flags_fill; [lia.. | done |].
  intros i s Hi HT.
  destruct (HT (2 * (k0 + i) + 1)) as (xl & El & _ & Cl); [lia |].
  destruct (HT (2 * (k0 + i) + 2)) as (xr & Er & _ & Cr); [lia |].
  destruct (HT (k0 + i)) as (x & Ex & _ & _); [lia |].
  destruct (set_checked_step s (b * 15 + (k0 + i))
    (if negb (loc_checked xl) && negb (loc_checked xr) then false else true) x Ex) as (x' & Es & Hr & HL & HN & HC).
  exists x, x'. split; [done |]. split.
  - unfold check_from_children. rewrite <- !Z.add_assoc.
    rewrite El, Er. cbn [mbind option_bind]. done.
  - split_and!; [done.. |]. rewrite HC, (fits_children n b (k0 + i)) by lia.
    rewrite Cl, Cr.
    replace ((k0 <=? 2 * (k0 + i) + 1) && (2 * (k0 + i) + 1 <? k0 + i)) with false by (repeat zcase; lia || done).
    replace ((k0 <=? 2 * (k0 + i) + 2) && (2 * (k0 + i) + 2 <? k0 + i)) with false by (repeat zcase; lia || done).
    rewrite !Hchk by lia. by destruct (fits n b (2 * (k0 + i) + 1)), (fits n b (2 * (k0 + i) + 2)).
Qed.

(** The cut-off block: a location is marked exactly when it sticks out. *)
Lemma cut_block_fill n b c :
  8 * b < n < 8 * b + 8 -> tree_at b (fun _ => false) c ->
  exists c', (c ← set_checked c (b * 15) true;
         c ← for_range 0 8 (fun c i =>
               x ← zget c (b * 15 + 7 + i);
               if n <=? loc_ncce x then set_checked c (b * 15 + 7 + i) true else Some c) c;
         c ← for_range 0 4 (fun c i => check_from_children (b * 15) (3 + i) c) c;
         for_range 0 2 (fun c i => check_from_children (b * 15) (1 + i) c) c) = Some c'
    /\ zlen c' = zlen c /\ tree_at b (fun k => negb (fits n b k)) c'
    /\ (forall j, j < b * 15 \/ b * 15 + 15 <= j -> zget c' j = zget c j).
Proof.
  intros Hn Ht.
  destruct (Ht 0) as (x & Ex & [HxL HxN] & _); [lia |]. rewrite Z.add_0_r in Ex.
  destruct (set_checked_step c (b * 15) true x Ex) as (x' & -> & Hr & HL & HN & HC).
  rewrite zset_in by done. cbn [mbind option_bind].
  set (c0 := <[_ := x']> c).
  assert (tree_at b (fun k => k =? 0) c0) as T0.
  { intros k Hk. destruct (Z.eqb_spec k 0) as [-> | Hne].
    - exists x'. rewrite Z.add_0_r. split; [by apply zget_insert_eq |]. split; [| done]. split; congruence.
    - destruct (Ht k Hk) as (y & Ey & Hy & Hc). exists y. split; [| done].
      unfold c0. rewrite zget_insert_ne; [done | apply Hr | lia]. }
  destruct (flags_fill b 7 8 (fun k => k =? 0) (fun k => negb (fits n b k)) (fun c i =>
               x ← zget c (b * 15 + 7 + i);
               if n <=? loc_ncce x then set_checked c (b * 15 + 7 + i) true else Some c) c0)
    as (c1 & -> & El1 & T1 & Ho1); [lia.. | done | |].
  { intros i s Hi HT. destruct (HT (7 + i)) as (y & Ey & [HyL HyN] & HyC); [lia |].
    exists y. rewrite <- Z.add_assoc, Ey. cbn [mbind option_bind].
    replace (fits n b (7 + i)) with (negb (n <=? loc_ncce y)).
    2:{ rewrite HyN. unfold fits, node_cce. zenum i 8; vm_compute (node_off _); vm_compute (2 ^ _); repeat zcase; done || lia. }
    destruct (n <=? loc_ncce y).
    - destruct (set_checked_step s (b * 15 + (7 + i)) true y Ey) as (y' & Es & _ & ? & ? & ?). by exists y'.
    - exists y. split; [done |]. rewrite (zset_same _ _ _ Ey). split_and!; [done.. |].
      rewrite HyC. by repeat zcase; try lia. }
  cbn [mbind option_bind].
  destruct (parents_fill n b 3 4 c1 ltac:(lia) ltac:(lia) ltac:(lia) ltac:(lia)
    (fun k => if (7 <=? k) && (k <? 7 + 8) then negb (fits n b k) else k =? 0)) as (c2 & -> & El2 & T2 & Ho2).
  { intros k Hk. by repeat zcase; try lia. } { done. }
  cbn [mbind option_bind].
  destruct (parents_fill n b 1 2 c2 ltac:(lia) ltac:(lia) ltac:(lia) ltac:(lia)
    (fun k => if (3 <=? k) && (k <? 3 + 4) then negb (fits n b k) else
              if (7 <=? k) && (k <? 7 + 8) then negb (fits n b k) else k =? 0)) as (c3 & -> & El3 & T3 & Ho3).
  { intros k Hk. by repeat zcase; try lia. } { done. }
  exists c3. split; [done |]. split; [rewrite El3, El2, El1; apply zlen_insert |]. split.
  - intros k Hk. destruct (T3 k Hk) as (y & Ey & Hy & Hc). exists y. split_and!; [done.. |].
    rewrite Hc. destruct (Z.eq_dec k 0) as [-> | Hk0].
    + simpl. unfold fits, node_cce. vm_compute (node_off _). vm_compute (2 ^ _). by zcase; try lia.
    + by repeat zcase; try lia.
  - intros j Hj. rewrite Ho3, Ho2, Ho1 by done. unfold c0. apply zget_insert_ne; [apply Hr | lia].
Qed.

(** The whole array: block by block, every location with its flag. *)
Lemma block_search_layout q cfi n c :
  srsran_pdcch_get_nof_location_yx q cfi = Some n -> 0 <= n ->
  15 * ((n + 7) / 8) <= zlen c -> 576 * ((n + 7) / 8) <= zlen (pdcch_llr q) ->
  exists c', srsran_ngscope_search_space_block_yx q cfi c = Some ((n + 7) / 8 * 15, c') /\ zlen c' = zlen c
    /\ forall b, 0 <= b < (n + 7) / 8 -> tree_at b (fun k => negb (fits n b k)) c'.
Proof.
  intros En Hn Hc Hq. unfold srsran_ngscope_search_space_block_yx. rewrite En. cbn [mbind option_bind].
  set (nb := (n + 7) / 8) in *. assert (0 <= nb) by lia.
  loop_inv (fun i s => zlen s = zlen c /\
    forall b k, 0 <= b < i -> 0 <= k < 15 -> exists x, zget s (b * 15 + k) = Some x /\ node_of b k x)
    as (c1 & -> & El1 & H1); [done | split; [done | lia] | |].
  { intros i s Hi [Hl HP]. destruct (block_fill q i s) as (s' & -> & El & HN & Ho); [lia.. |].
    exists s'. split; [done |]. split; [lia |]. intros b k Hb Hk. destruct (Z.eq_dec b i) as [-> | Hne].
    - by apply HN.
    - rewrite Ho by lia. apply HP; lia. }
  cbn [mbind option_bind].
  destruct (for_range_fill (fun j x => loc_checked x = false /\ node_of (j / 15) (j mod 15) x) 0 0 (nb * 15)
    (fun c i => set_checked c i false) c1) as (c2 & -> & El2 & H2 & _); [lia | |].
  { intros i s Hi Hl Ho. destruct (H1 (i / 15) (i mod 15)) as (x & Ex & Hx); [lia.. |].
    replace (i / 15 * 15 + i mod 15) with i in Ex by lia. rewrite <- (Ho i) in Ex by lia.
    destruct (set_checked_step s i false x Ex) as (x' & E & Hr & HL & HN & HC). exists x'.
    split_and!; [done.. |]. unfold node_of in *. rewrite HL, HN. done. }
  cbn [mbind option_bind].
  assert (forall b, 0 <= b < nb -> tree_at b (fun _ => false) c2) as HT.
  { intros b Hb k Hk. destruct (H2 (b * 15 + k)) as (x & Ex & Hx & Hn'); [lia |]. exists x.
    rewrite Z.add_0_l in Ex. split; [done |]. split; [| done].
    replace b with ((b * 15 + k) / 15) by lia. replace k with ((b * 15 + k) mod 15) at 2 by lia. done. }
  assert (forall b, 0 <= b < nb -> 8 * b + 8 <= n -> tree_at b (fun k => negb (fits n b k)) c2) as Hfull.
  { intros b Hb Hfit k Hk. destruct (HT b Hb k Hk) as (x & Ex & Hx & Hf). exists x. split_and!; [done.. |].
    rewrite Hf. unfold fits, node_cce.
    zenum k 15; vm_compute (node_off _); vm_compute (2 ^ _); by zcase; try lia. }
  destruct (Z.eqb_spec (n mod 8) 0) as [E0 | E0]; cbn [negb mbind option_bind].
  - exists c2. split; [done |]. split; [lia |]. intros b Hb. apply Hfull; lia.
  - destruct (cut_block_fill n (n / 8) c2) as (c3 & E3 & El3 & T3 & Ho3); [lia | apply HT; lia |].
    rewrite E3. cbn [mbind option_bind]. exists c3. split; [done |]. split; [lia |].
    intros b Hb. destruct (Z.eq_dec b (n / 8)) as [-> | Hne]; [done |].
    intros k Hk. destruct (Hfull b Hb) with (k := k) as (x & Ex & Hx); [lia.. |].
    exists x. rewrite Ho3 by lia. done.
Qed.

(** A PDCCH candidate of [n] CCEs: an aggregation level and an aligned first CCE. *)
Definition candidate (n l ncce : Z) : Prop :=
  0 <= l <= 3 /\ 0 <= ncce /\ ncce mod 2 ^ l = 0 /\ ncce + 2 ^ l <= n.

Lemma candidate_node n l ncce :
  candidate n l ncce <-> exists b k, 0 <= b < (n + 7) / 8 /\ 0 <= k < 15 /\ fits n b k = true
    /\ l = node_L k /\ ncce = node_cce b k.
Proof.
  unfold candidate, fits. split.
  - intros (Hl & H0 & Hd & Hn). assert (0 <= l < 4) as Hl' by lia. clear Hl.
    exists (ncce / 8), (2 ^ (3 - l) - 1 + (ncce mod 8) / 2 ^ l). unfold node_cce.
    assert (exists r, ncce mod 8 = r /\ 0 <= r < 8 /\ ncce = 8 * (ncce / 8) + r) as (r & -> & Hr & Er)
      by (exists (ncce mod 8); lia).
    assert (r mod 2 ^ l = 0) as Hrd.
    { rewrite Er in Hd. zenum l 4; simpl in Hd |- *; lia. }
    set (b := ncce / 8) in *. clearbody b. subst ncce.
    zenum l 4; simpl in Hn; zenum r 8; try (vm_compute in Hrd; discriminate Hrd);
      vm_compute (_ + _ / _); vm_compute (node_L _); vm_compute (node_off _); vm_compute (2 ^ _);
      rewrite Z.leb_le; lia.
  - intros (b & k & Hb & Hk & Hf & -> & ->). apply Z.leb_le in Hf. revert Hf. unfold node_cce.
    zenum k 15; vm_compute (node_L _); vm_compute (node_off _); vm_compute (2 ^ _); lia.
Qed.

Lemma set_L_ncce_step c k l ncce :
  in_range c k -> exists x, set_L_ncce c k l ncce = zset c k x /\ loc_L x = l /\ loc_ncce x = ncce.
Proof. intros Hr. destruct (zget_some c k Hr) as [y Ey]. unfold set_L_ncce. rewrite Ey. by eexists. Qed.

(** One level of the flat enumeration. *)
Lemma all_level n l k0 c :
  0 <= n -> 0 <= l -> 0 <= k0 -> k0 + n / 2 ^ l <= zlen c ->
  exists c', for_range 0 (Z.quot n (Z.shiftl 1 l))
      (fun '(k, c) i => c ← set_L_ncce c k l (Z.shiftl 1 l * (i mod (Z.quot n (Z.shiftl 1 l)))); Some (k + 1, c)) (k0, c)
      = Some (k0 + n / 2 ^ l, c') /\ zlen c' = zlen c
    /\ (forall i, 0 <= i < n / 2 ^ l -> exists x, zget c' (k0 + i) = Some x /\ loc_L x = l /\ loc_ncce x = 2 ^ l * i)
    /\ (forall j, j < k0 -> zget c' j = zget c j).
Proof.
  intros Hn Hl Hk0 Hc. rewrite Z.shiftl_mul_pow2, Z.mul_1_l by done.
  pose proof (Z.pow_pos_nonneg 2 l). rewrite Z.quot_div_nonneg by lia.
  set (m := n / 2 ^ l) in *. assert (0 <= m) by (by apply Z.div_pos; lia).
  loop_inv (fun i (s : Z * list srsran_dci_location_t) => fst s = k0 + i /\ zlen (snd s) = zlen c /\
    (forall j, 0 <= j < i -> exists x, zget (snd s) (k0 + j) = Some x /\ loc_L x = l /\ loc_ncce x = 2 ^ l * j) /\
    (forall j, j < k0 -> zget (snd s) j = zget c j)) as ([k c'] & E & H').
  - done.
  - split_and!; [simpl; lia | done | lia | done].
  - intros i [k s] Hi (Hk & Hl' & HP & Ho). simpl in *. subst k.
    destruct (set_L_ncce_step s (k0 + i) l (2 ^ l * (i mod m))) as (x & -> & HL & HN); [unfold in_range; lia |].
    rewrite zset_in by (unfold in_range; lia). cbn [mbind option_bind]. eexists. split; [done |]. simpl.
    split_and!; [lia | by rewrite zlen_insert | | intros j Hj; rewrite zget_insert_ne by lia; by apply Ho].
    intros j Hj. destruct (Z.eq_dec j i) as [-> | Hne].
    + exists x. rewrite zget_insert_eq by (unfold in_range; lia). rewrite HN, Z.mod_small by lia. done.
    + rewrite zget_insert_ne by lia. apply HP. lia.
  - simpl in H'. destruct H' as (Hk & H'). subst k. by exists c'.
Qed.

(** The flat enumeration: the candidates of level 3, then 2, 1 and 0. *)
Lemma all_search_layout q cfi n c :
  srsran_pdcch_get_nof_location_yx q cfi = Some n -> 0 <= n -> n / 8 + n / 4 + n / 2 + n <= zlen c ->
  exists c', srsran_ngscope_search_space_all_yx q cfi c = Some (n / 8 + n / 4 + n / 2 + n, c')
    /\ forall l ncce, candidate n l ncce <->
         exists j x, 0 <= j < n / 8 + n / 4 + n / 2 + n /\ zget c' j = Some x /\ loc_L x = l /\ loc_ncce x = ncce.
Proof.
  intros En Hn Hc. unfold srsran_ngscope_search_space_all_yx. rewrite En. cbn [mbind option_bind foldM].
  destruct (all_level n 3 0 c) as (c1 & -> & El1 & H1 & O1); [change (2 ^ 3) with 8; lia.. |]. change (2 ^ 3) with 8 in *.
  destruct (all_level n 2 (0 + n / 8) c1) as (c2 & -> & El2 & H2 & O2); [change (2 ^ 2) with 4; lia.. |]. change (2 ^ 2) with 4 in *.
  destruct (all_level n 1 (0 + n / 8 + n / 4) c2) as (c3 & -> & El3 & H3 & O3); [change (2 ^ 1) with 2; lia.. |]. change (2 ^ 1) with 2 in *.
  destruct (all_level n 0 (0 + n / 8 + n / 4 + n / 2) c3) as (c4 & -> & El4 & H4 & O4);
    [change (2 ^ 0) with 1; rewrite ?Z.div_1_r; lia.. |]. change (2 ^ 0) with 1 in *.
  rewrite Z.div_1_r in *. rewrite Z.add_0_l in *.
  exists c4. split; [done |].
  assert (forall i, 0 <= i < n / 8 -> exists x, zget c4 i = Some x /\ loc_L x = 3 /\ loc_ncce x = 8 * i) as H1'.
  { intros i Hi. rewrite O4, O3, O2 by lia. by apply H1. }
  assert (forall i, 0 <= i < n / 4 -> exists x, zget c4 (n / 8 + i) = Some x /\ loc_L x = 2 /\ loc_ncce x = 4 * i) as H2'.
  { intros i Hi. rewrite O4, O3 by lia. by apply H2. }
  assert (forall i, 0 <= i < n / 2 -> exists x, zget c4 (n / 8 + n / 4 + i) = Some x /\ loc_L x = 1 /\ loc_ncce x = 2 * i) as H3'.
  { intros i Hi. rewrite O4 by lia. by apply H3. }
  clear H1 H2 H3 O1 O2 O3 O4. intros l ncce. split.
  - intros (Hl & H0 & Hd & Hf). assert (0 <= l < 4) as Hl' by lia. clear Hl. zenum l 4; simpl in Hd, Hf.
    + destruct (H4 ncce) as (x & Ex & ? & ?); [lia |]. exists (n / 8 + n / 4 + n / 2 + ncce), x. split_and!; [lia.. | done | done | lia].
    + destruct (H3' (ncce / 2)) as (x & Ex & ? & ?); [lia |]. exists (n / 8 + n / 4 + ncce / 2), x. split_and!; [lia.. | done | done | lia].
    + destruct (H2' (ncce / 4)) as (x & Ex & ? & ?); [lia |]. exists (n / 8 + ncce / 4), x. split_and!; [lia.. | done | done | lia].
    + destruct (H1' (ncce / 8)) as (x & Ex & ? & ?); [lia |]. exists (ncce / 8), x. split_and!; [lia.. | done | done | lia].
  - intros (j & x & Hj & Ex & HL & HN). unfold candidate.
    destruct (Z_lt_dec j (n / 8)) as [H | H]; [| destruct (Z_lt_dec (j - n / 8) (n / 4)) as [H' | H'];
      [| destruct (Z_lt_dec (j - n / 8 - n / 4) (n / 2)) as [H'' | H'']]].
    + destruct (H1' j) as (y & Ey & Hy & Hy'); [lia |]. rewrite Ex in Ey. injection Ey as <-. subst. rewrite Hy, Hy'. simpl. lia.
    + destruct (H2' (j - n / 8)) as (y & Ey & Hy & Hy'); [lia |]. rewrite Zplus_minus, Ex in Ey. injection Ey as <-. subst. rewrite Hy, Hy'. simpl. lia.
    + destruct (H3' (j - n / 8 - n / 4)) as (y & Ey & Hy & Hy'); [lia |].
      replace (n / 8 + n / 4 + (j - n / 8 - n / 4)) with j in Ey by lia. rewrite Ex in Ey. injection Ey as <-. subst. rewrite Hy, Hy'. simpl. lia.
    + destruct (H4 (j - n / 8 - n / 4 - n / 2)) as (y & Ey & Hy & Hy'); [lia |].
      replace (n / 8 + n / 4 + n / 2 + (j - n / 8 - n / 4 - n / 2)) with j in Ey by lia. rewrite Ex in Ey. injection Ey as <-. subst. rewrite Hy, Hy'. simpl. lia.
Qed.

(** Level and place within the block determine the node. *)
Lemma node_inj k k' : 0 <= k < 15 -> 0 <= k' < 15 -> node_L k = node_L k' -> node_off k = node_off k' -> k = k'.
Proof.
  intros Hk Hk' HL HO.
  assert (forallb (fun k => forallb (fun k' =>
    implb ((node_L k =? node_L k') && (node_off k =? node_off k')) (k =? k')) (seqZ 0 15)) (seqZ 0 15) = true)
    as HB by (vm_compute; reflexivity).
  rewrite forallb_forall in HB. specialize (HB k). rewrite <- list_elem_of_In, elem_of_seqZ in HB.
  specialize (HB ltac:(lia)). rewrite forallb_forall in HB. specialize (HB k').
  rewrite <- list_elem_of_In, elem_of_seqZ in HB. specialize (HB ltac:(lia)).
  rewrite HL, HO, !Z.eqb_refl in HB. by apply Z.eqb_eq in HB.
Qed.

Lemma node_off_range k : 0 <= k < 15 -> 0 <= node_off k < 8.
Proof. intros Hk. zenum k 15; vm_compute; done. Qed.

(** For a subframe of [n] CCEs the block search returns the rounded-up
    number of locations; block [b] holds the heap-ordered tree over CCEs
    [8b .. 8b+7] (the children of a node are its two halves, one level down);
    the locations left unchecked are exactly the aligned candidates that end
    within the [n] CCEs, each of them at exactly one place. *)
Theorem search_block_spec (q : srsran_pdcch_t) (cfi n : Z) (c : list srsran_dci_location_t)
  (En : srsran_pdcch_get_nof_location_yx q cfi = Some n) (Hn : 0 <= n)
  (Hc : 15 * ((n + 7) / 8) <= zlen c) (Hq : 576 * ((n + 7) / 8) <= zlen (pdcch_llr q)) :
  exists c', srsran_ngscope_search_space_block_yx q cfi c = Some ((n + 7) / 8 * 15, c') /\ zlen c' = zlen c
    /\ (forall b k, 0 <= b < (n + 7) / 8 -> 0 <= k < 7 -> exists x y z,
          zget c' (15 * b + k) = Some x /\ zget c' (15 * b + (2 * k + 1)) = Some y /\ zget c' (15 * b + (2 * k + 2)) = Some z
          /\ loc_L y = loc_L x - 1 /\ loc_L z = loc_L x - 1
          /\ loc_ncce y = loc_ncce x /\ loc_ncce z = loc_ncce x + 2 ^ (loc_L x - 1))
    /\ (forall l ncce, candidate n l ncce <->
          exists j x, 0 <= j < (n + 7) / 8 * 15 /\ zget c' j = Some x /\ loc_checked x = false
            /\ loc_L x = l /\ loc_ncce x = ncce)
    /\ (forall i j x y, 0 <= i < (n + 7) / 8 * 15 -> 0 <= j < (n + 7) / 8 * 15 ->
          zget c' i = Some x -> zget c' j = Some y -> loc_L x = loc_L y -> loc_ncce x = loc_ncce y -> i = j).
Proof.
  destruct (block_search_layout q cfi n c) as (c' & E & El & HT); [done.. |].
  exists c'. split; [done |]. split; [done |].
  assert (forall j x, 0 <= j < (n + 7) / 8 * 15 -> zget c' j = Some x ->
    node_of (j / 15) (j mod 15) x /\ loc_checked x = negb (fits n (j / 15) (j mod 15))) as HN.
  { intros j x Hj Ex. destruct (HT (j / 15)) with (k := j mod 15) as (y & Ey & Hy); [lia.. |].
    replace (j / 15 * 15 + j mod 15) with j in Ey by lia. rewrite Ex in Ey. by injection Ey as ->. }
  split_and!.
  - intros b k Hb Hk. rewrite (Z.mul_comm 15).
    destruct (HT b Hb k) as (x & Ex & [HxL HxN] & _); [lia |].
    destruct (HT b Hb (2 * k + 1)) as (y & Ey & [HyL HyN] & _); [lia |].
    destruct (HT b Hb (2 * k + 2)) as (z & Ez & [HzL HzN] & _); [lia |].
    exists x, y, z. rewrite HxL, HyL, HzL, HxN, HyN, HzN. split_and!; [done.. | | | |];
      unfold node_cce; zenum k 7; vm_compute (node_L _); vm_compute (node_off _); vm_compute (2 ^ _); lia.
  - intros l ncce. rewrite candidate_node. split.
    + intros (b & k & Hb & Hk & Hf & -> & ->). destruct (HT b Hb k Hk) as (x & Ex & [HL HN'] & Hc').
      exists (b * 15 + k), x. split_and!; [lia.. | done | | done | done]. by rewrite Hc', Hf.
    + intros (j & x & Hj & Ex & Hc' & HL & HN'). destruct (HN j x Hj Ex) as [[HxL HxN] Hx].
      exists (j / 15), (j mod 15). split_and!; [lia.. | | congruence | congruence].
      rewrite Hc' in Hx. by destruct (fits _ _ _).
  - intros i j x y Hi Hj Ex Ey HL HN'.
    destruct (HN i x Hi Ex) as [[HxL HxN] _]. destruct (HN j y Hj Ey) as [[HyL HyN] _].
    rewrite HxL, HyL in HL. rewrite HxN, HyN in HN'. unfold node_cce in HN'.
    assert (0 <= i mod 15 < 15) as Hi' by lia. assert (0 <= j mod 15 < 15) as Hj' by lia.
    assert (i = 15 * (i / 15) + i mod 15) as Ei by lia. assert (j = 15 * (j / 15) + j mod 15) as Ej by lia.
    pose proof (node_off_range _ Hi'). pose proof (node_off_range _ Hj').
    assert (i / 15 = j / 15) by lia.
    rewrite Ei, Ej. rewrite (node_inj (i mod 15) (j mod 15)) by (done || lia). lia.
Qed.

(** The block search and the flat enumeration offer the same candidates:
    a level and first CCE is an unchecked location of the one exactly when it is
    an entry of the other. *)
Theorem search_spaces_agree (q : srsran_pdcch_t) (cfi n : Z) (c d : list srsran_dci_location_t)
  (En : srsran_pdcch_get_nof_location_yx q cfi = Some n) (Hn : 0 <= n)
  (Hc : 15 * ((n + 7) / 8) <= zlen c) (Hd : n / 8 + n / 4 + n / 2 + n <= zlen d)
  (Hq : 576 * ((n + 7) / 8) <= zlen (pdcch_llr q)) :
  exists nb c' na d', srsran_ngscope_search_space_block_yx q cfi c = Some (nb, c')
    /\ srsran_ngscope_search_space_all_yx q cfi d = Some (na, d')
    /\ forall l ncce,
         (exists j x, 0 <= j < nb /\ zget c' j = Some x /\ loc_checked x = false /\ loc_L x = l /\ loc_ncce x = ncce)
         <-> (exists j x, 0 <= j < na /\ zget d' j = Some x /\ loc_L x = l /\ loc_ncce x = ncce).
Proof.
  destruct (block_search_layout q cfi n c) as (c' & E & El & HT); [done.. |].
  destruct (all_search_layout q cfi n d) as (d' & E' & HD); [done.. |].
  exists ((n + 7) / 8 * 15), c', (n / 8 + n / 4 + n / 2 + n), d'. split; [done |]. split; [done |].
  intros l ncce. rewrite <- HD, candidate_node. split.
  - intros (j & x & Hj & Ex & Hx & HL & HN).
    destruct (HT (j / 15)) with (k := j mod 15) as (y & Ey & [HyL HyN] & Hc'); [lia.. |].
    replace (j / 15 * 15 + j mod 15) with j in Ey by lia. rewrite Ex in Ey. injection Ey as <-.
    exists (j / 15), (j mod 15). split_and!; [lia.. | | congruence | congruence].
    rewrite Hx in Hc'. by destruct (fits _ _ _).
  - intros (b & k & Hb & Hk & Hf & -> & ->). destruct (HT b Hb k Hk) as (x & Ex & [HL HN'] & Hc').
    exists (b * 15 + k), x. split_and!; [lia.. | done | | done | done]. by rewrite Hc', Hf.
Qed.

Definition loc0 : srsran_dci_location_t := DciLoc 0 0 false f32_0.
Definition pdcch0 : srsran_pdcch_t := Pdcch [10; 10; 10] (replicate 1152 f32_0).

Lemma search_block_spec_witness :
  exists c', srsran_ngscope_search_space_block_yx pdcch0 1 (replicate 180 loc0) = Some ((10 + 7) / 8 * 15, c')
    /\ candidate 10 1 8.
Proof.
  destruct (search_block_spec pdcch0 1 10 (replicate 180 loc0)) as (c' & E & _);
    [reflexivity | lia | vm_compute; discriminate | vm_compute; discriminate |].
  exists c'. split; [exact E |]. clear E c'. unfold candidate. lia.
Defined.

Lemma search_spaces_agree_witness :
  exists nb c' na d', srsran_ngscope_search_space_block_yx pdcch0 2 (replicate 180 loc0) = Some (nb, c')
    /\ srsran_ngscope_search_space_all_yx pdcch0 2 (replicate 180 loc0) = Some (na, d').
Proof.
  destruct (search_spaces_agree pdcch0 2 10 (replicate 180 loc0) (replicate 180 loc0))
    as (nb & c' & na & d' & E & E' & _);
    [reflexivity | lia | vm_compute; discriminate | vm_compute; discriminate | vm_compute; discriminate |].
  exists nb, c', na, d'. split; [exact E | exact E'].
Defined.

(** ** Who may use a location *)

(** The recurrence of TS 36.213 section 9.1.1: Y(-1) is the RNTI. *)
Fixpoint Y (rnti : Z) (k : nat) : Z :=
  match k with O => rnti | S k => (39827 * Y rnti k) mod 65537 end.

(** [ncce] is the first CCE of a candidate of the UE-specific space. *)
Definition in_ue_space (rnti sf_idx nof_cce ncce : Z) : Prop :=
  exists l i, 0 <= l <= 3 /\ 0 <= i < default 0 (zget nof_candidates l) /\ 2 ^ l <= nof_cce
    /\ ncce = 2 ^ l * ((Y rnti (S (Z.to_nat sf_idx)) + i) mod (nof_cce / 2 ^ l)).

(** [ncce] is the first CCE of a candidate of the common space. *)
Definition in_common_space (nof_cce ncce : Z) : Prop :=
  (ncce mod 8 = 0 \/ ncce mod 4 = 0) /\ 0 <= ncce < 16 /\ ncce + 4 <= nof_cce.

Lemma Y_range rnti k : is_uint 16 rnti -> 0 <= Y rnti k < 65537.
Proof. unfold is_uint. intros Hr. destruct k; simpl; [lia |]. by apply Z.mod_pos_bound. Qed.

Lemma Yk_of_Y rnti sf : is_uint 16 rnti -> 0 <= sf < 10 -> Yk_of rnti sf = Y rnti (S (Z.to_nat sf)).
Proof.
  intros Hr Hs. unfold Yk_of. rewrite (uwrap_small 32 (sf + 1)) by (unfold is_uint; lia).
  replace (sf + 1) with (Z.of_nat (S (Z.to_nat sf))) by lia.
  set (k := S _). clearbody k. clear Hs sf. induction k as [| k IH]; [done |].
  rewrite seqZ_S, foldl_app, IH. simpl.
  pose proof (Y_range rnti k Hr). rewrite (uwrap_small 32) by (unfold is_uint; lia). done.
Qed.

Lemma existsb_seqZ (P : Z -> bool) n : existsb P (seqZ 0 n) = true <-> exists i, 0 <= i < n /\ P i = true.
Proof.
  rewrite existsb_exists. split; intros (i & Hi & HP); exists i; split; try done.
  - apply list_elem_of_In, elem_of_seqZ in Hi. lia.
  - apply list_elem_of_In, elem_of_seqZ. lia.
Qed.

(** A candidate of the code's form always fits, and nothing wraps. *)
Lemma cand_fits nof_cce L x :
  0 < L <= nof_cce -> is_uint 31 nof_cce -> 0 <= x ->
  u32 (L * (x mod (nof_cce / L))) = L * (x mod (nof_cce / L))
  /\ u32 (L * (x mod (nof_cce / L)) + L) = L * (x mod (nof_cce / L)) + L
  /\ L * (x mod (nof_cce / L)) + L <= nof_cce.
Proof.
  unfold is_uint. intros HL Hn Hx.
  assert (0 < nof_cce / L) by (apply Z.div_str_pos; lia).
  pose proof (Z.mod_pos_bound x (nof_cce / L)). pose proof (Z.mul_div_le nof_cce L).
  assert (0 <= L * (x mod (nof_cce / L))) by (apply Z.mul_nonneg_nonneg; lia).
  assert (L * (x mod (nof_cce / L)) + L <= nof_cce) by nia.
  split_and!; [apply uwrap_small; unfold is_uint; lia .. | done].
Qed.

Lemma level_of (P : Z -> bool) : existsb P [3; 2; 1; 0] = true <-> exists l, 0 <= l <= 3 /\ P l = true.
Proof.
  rewrite existsb_exists. split.
  - intros (l & Hl & HP). exists l. simpl in Hl. split; [lia | done].
  - intros (l & Hl & HP). exists l. simpl. split; [lia | done].
Qed.

Lemma if_flag_ext (a b : bool) : (a = true <-> b = true) -> (if a then 1 else 0) = (if b then 1 else 0).
Proof. destruct a, b; naive_solver. Qed.

Lemma check_ue_specific_spec nof_cce sf rnti ncce :
  is_uint 16 rnti -> 0 <= sf < 10 -> is_uint 31 nof_cce ->
  srsran_ngscope_ue_locations_ncce_check_ue_specific nof_cce sf rnti ncce
    = if existsb (fun l => existsb (fun i => (2 ^ l <=? nof_cce) &&
           (ncce =? 2 ^ l * ((Y rnti (S (Z.to_nat sf)) + i) mod (nof_cce / 2 ^ l))))
           (seqZ 0 (default 0 (zget nof_candidates l)))) [3; 2; 1; 0] then 1 else 0.
Proof.
  intros Hr Hs Hn. unfold srsran_ngscope_ue_locations_ncce_check_ue_specific.
  rewrite Yk_of_Y by done. set (y := Y rnti _).
  assert (0 <= y < 65537) as Hy by by apply Y_range.
  apply if_flag_ext. rewrite !level_of.
  assert (forall l i, 0 <= l <= 3 -> 0 <= i < default 0 (zget nof_candidates l) ->
    ((Z.shiftl 1 l <=? nof_cce) && (let nc := u32 (Z.shiftl 1 l * (u32 (y + i) mod (nof_cce / Z.shiftl 1 l))) in
       (u32 (nc + Z.shiftl 1 l) <=? nof_cce) && (nc =? ncce)))
    = ((2 ^ l <=? nof_cce) && (ncce =? 2 ^ l * ((y + i) mod (nof_cce / 2 ^ l))))) as HE.
  { intros l i Hl Hi. rewrite Z.shiftl_mul_pow2, Z.mul_1_l by lia. zcase; [| done]. cbn [andb].
    assert (i < 7) by (assert (0 <= l < 4) as Hl' by lia; zenum l 4; simpl in Hi; lia).
    rewrite (uwrap_small 32 (y + i)) by (unfold is_uint; lia).
    pose proof (Z.pow_pos_nonneg 2 l).
    destruct (cand_fits nof_cce (2 ^ l) (y + i)) as (-> & -> & Hf); [lia | done | lia |].
    cbv zeta. apply Z.leb_le in Hf. rewrite Hf. apply Z.eqb_sym. }
  split; intros (l & Hl & HP); exists l; (split; [done |]);
    apply existsb_seqZ in HP as (i & Hi & HP); apply existsb_seqZ; exists i; (split; [done |]);
    [by rewrite <- HE | by rewrite HE].
Qed.

Lemma check_ue_specific_true nof_cce sf rnti ncce :
  is_uint 16 rnti -> 0 <= sf < 10 -> is_uint 31 nof_cce ->
  srsran_ngscope_ue_locations_ncce_check_ue_specific nof_cce sf rnti ncce = 1 <-> in_ue_space rnti sf nof_cce ncce.
Proof.
  intros Hr Hs Hn. rewrite check_ue_specific_spec by done. unfold in_ue_space.
  match goal with |- (if ?b then 1 else 0) = 1 <-> _ => transitivity (b = true); [by destruct b |] end.
  rewrite level_of. split.
  - intros (l & Hl & (i & Hi & HP)%existsb_seqZ). exists l, i. apply andb_true_iff in HP as [H1%Z.leb_le H2%Z.eqb_eq]. done.
  - intros (l & i & Hl & Hi & H1 & H2). exists l. split; [done |]. apply existsb_seqZ. exists i. split; [done |].
    rewrite (proj2 (Z.leb_le _ _) H1), H2, Z.eqb_refl. done.
Qed.

Lemma check_common_true nof_cce sf rnti ncce :
  is_uint 31 nof_cce ->
  srsran_ngscope_ue_locations_ncce_check_common nof_cce sf rnti ncce = 1 <-> in_common_space nof_cce ncce.
Proof.
  intros Hn. unfold srsran_ngscope_ue_locations_ncce_check_common, in_common_space.
  match goal with |- (if ?b then 1 else 0) = 1 <-> _ => transitivity (b = true); [by destruct b |] end.
  pose proof Hn as Hn'. unfold is_uint in Hn'.
  assert (forall L i, 0 < L <= nof_cce -> 0 <= i < Z.min nof_cce 16 / L ->
    (let nc := u32 (L * (i mod (nof_cce / L))) in (u32 (nc + L) <=? nof_cce) && (nc =? ncce)) = (L * i =? ncce)) as HE.
  { intros L i HL Hi. cbv zeta. destruct (cand_fits nof_cce L i) as (-> & -> & Hf); [done.. | lia |]. cbv zeta.
    apply Z.leb_le in Hf. rewrite Hf, Z.mod_small; [done |].
    split; [lia |]. apply Z.lt_le_trans with (Z.min nof_cce 16 / L); [lia |]. apply Z.div_le_mono; lia. }
  simpl existsb. rewrite orb_false_r, orb_true_iff, !existsb_seqZ.
  change (Z.shiftl 1 3) with 8. change (Z.shiftl 1 2) with 4. split.
  - intros [(i & Hi & HP) | (i & Hi & HP)].
    + rewrite HE in HP by lia. apply Z.eqb_eq in HP. lia.
    + rewrite HE in HP by lia. apply Z.eqb_eq in HP. lia.
  - intros (Hd & Hr & Hf). right. exists (ncce / 4). split; [lia |]. rewrite HE by lia. apply Z.eqb_eq. lia.
Qed.

Lemma check_01 nof_cce sf rnti ncce :
  (srsran_ngscope_ue_locations_ncce_check_ue_specific nof_cce sf rnti ncce = 0 <->
     srsran_ngscope_ue_locations_ncce_check_ue_specific nof_cce sf rnti ncce <> 1) /\
  (srsran_ngscope_ue_locations_ncce_check_common nof_cce sf rnti ncce = 0 <->
     srsran_ngscope_ue_locations_ncce_check_common nof_cce sf rnti ncce <> 1).
Proof.
  unfold srsran_ngscope_ue_locations_ncce_check_ue_specific, srsran_ngscope_ue_locations_ncce_check_common.
  cbv zeta. split; match goal with |- context [if ?b then 1 else 0] => by destruct b end.
Qed.

(** C38: the search-space filter, for a 16-bit RNTI in subframe 0..9: formats
    0 and 1A pass exactly when the first CCE starts a candidate of the RNTI's own
    or of the common space (hash of TS 36.213, computed without wrap-around);
    format 1C exactly when it starts a common candidate only; formats 1, 1B, 1D,
    2, 2A, 2B exactly when it starts a UE-specific candidate and no common one;
    any other format passes unchecked. *)
Theorem space_match_spec (rnti nof_cce sf ncce : Z) (f : srsran_dci_format_t)
  (Hr : is_uint 16 rnti) (Hs : 0 <= sf < 10) (Hn : is_uint 31 nof_cce) :
  srsran_ngscope_space_match_yx rnti nof_cce sf ncce f = true <->
  match f with
  | SRSRAN_DCI_FORMAT0 | SRSRAN_DCI_FORMAT1A => in_ue_space rnti sf nof_cce ncce \/ in_common_space nof_cce ncce
  | SRSRAN_DCI_FORMAT1C => in_common_space nof_cce ncce /\ ~ in_ue_space rnti sf nof_cce ncce
  | SRSRAN_DCI_FORMAT1 | SRSRAN_DCI_FORMAT1B | SRSRAN_DCI_FORMAT1D
  | SRSRAN_DCI_FORMAT2 | SRSRAN_DCI_FORMAT2A | SRSRAN_DCI_FORMAT2B =>
      in_ue_space rnti sf nof_cce ncce /\ ~ in_common_space nof_cce ncce
  | _ => True
  end.
Proof.
  pose proof (check_ue_specific_true nof_cce sf rnti ncce Hr Hs Hn) as HU.
  pose proof (check_common_true nof_cce sf rnti ncce Hn) as HC.
  destruct (check_01 nof_cce sf rnti ncce) as [H1 H2]. unfold srsran_ngscope_space_match_yx. cbv zeta.
  set (a := srsran_ngscope_ue_locations_ncce_check_ue_specific _ _ _ _) in *.
  set (b := srsran_ngscope_ue_locations_ncce_check_common _ _ _ _) in *. clearbody a b.
  destruct f; cbn [srsran_ngscope_is_common_space Z.eqb Pos.eqb andb negb];
    destruct (Z.eqb_spec a 0), (Z.eqb_spec a 1), (Z.eqb_spec b 0), (Z.eqb_spec b 1); cbn;
      (split; [intros E; first [discriminate E | tauto] | intros E; first [reflexivity | exfalso; tauto]]).
Qed.

Lemma space_match_spec_witness :
  srsran_ngscope_space_match_yx 100 41 3 16 SRSRAN_DCI_FORMAT1 = true /\ in_ue_space 100 3 41 16.
Proof.
  assert (srsran_ngscope_space_match_yx 100 41 3 16 SRSRAN_DCI_FORMAT1 = true) as E by (vm_compute; reflexivity).
  split; [exact E |].
  apply (space_match_spec 100 41 3 16 SRSRAN_DCI_FORMAT1);
    [unfold is_uint; lia | lia | unfold is_uint; lia | exact E].
Defined.
