(* ===== verification/DciTree.v ===== *)
(** * The tree of decoded DCIs ([lib/src/phy/ue/ngscope_tree.c], [ngscope_dci.c])

    The decoder keeps the messages it has decoded but not yet trusted in an array
    of one row per DCI format and one column per candidate location. Fifteen
    consecutive columns are the heap-ordered tree of a block of 8 CCEs, so that
    accepting the message of a node means dropping its ancestors and descendants. *)

From S2P Require Import Prelude NgTypes SearchSpace.

(** [NULL]-free view of [ngscope_tree_t]: five rows of 180 cells. *)
Record ngscope_tree_t := Tree {
  dci_array : list (list ngscope_dci_msg_t);
  dci_location : list srsran_dci_location_t;
  nof_location : Z;
  nof_cce : Z
}.

Definition with_array (q : ngscope_tree_t) (a : list (list ngscope_dci_msg_t)) : ngscope_tree_t :=
  Tree a (dci_location q) (nof_location q) (nof_cce q).
Definition with_location (q : ngscope_tree_t) (l : list srsran_dci_location_t) : ngscope_tree_t :=
  Tree (dci_array q) l (nof_location q) (nof_cce q).

(** [dci_array[i][j]], and the assignment to it. *)
Definition cell (a : list (list ngscope_dci_msg_t)) (i j : Z) : option ngscope_dci_msg_t :=
  r ← zget a i; zget r j.
Definition set_cell (a : list (list ngscope_dci_msg_t)) (i j : Z) (m : ngscope_dci_msg_t)
  : option (list (list ngscope_dci_msg_t)) :=
  r ← zget a i; r ← zset r j m; zset a i r.

(** [for (i = 0; i < MAX_NOF_FORMAT+1; i++) ZERO_OBJECT(dci_array[i][j]);] *)
Definition clear_col (a : list (list ngscope_dci_msg_t)) (j : Z) : option (list (list ngscope_dci_msg_t)) :=
  for_range 0 (MAX_NOF_FORMAT + 1) (fun a i => set_cell a i j zero_msg) a.

Definition with_format (m : ngscope_dci_msg_t) (f : srsran_dci_format_t) : ngscope_dci_msg_t :=
  DciMsg (rnti m) (prb m) (harq m) (nof_tb m) (dl m) (decode_prob m) (corr m) f (tb0 m) (tb1 m) (phich m) (loc m).

(** ** Moving a message to the output *)

Definition srsran_ngscope_tree_copy_dci_fromArray2PerSub (q : ngscope_tree_t) (s : ngscope_dci_per_sub_t)
    (format idx : Z) : option (ngscope_tree_t * ngscope_dci_per_sub_t) :=
  if (format <? 0) || (idx <? 0) || (MAX_CANDIDATES_ALL <=? idx) then Some (q, s)
  else
    s ← (if format =? 0 then
           if nof_ul_dci s <? MAX_DCI_PER_SUB then
             m ← cell (dci_array q) format idx;
             uls ← zset (ul_msg s) (nof_ul_dci s) (with_format m SRSRAN_DCI_FORMAT0);
             Some (PerSub (dl_msg s) (nof_dl_dci s) uls (nof_ul_dci s + 1) (timestamp s))
           else Some s
         else
           if nof_dl_dci s <? MAX_DCI_PER_SUB then
             m ← cell (dci_array q) format idx;
             dls ← zset (dl_msg s) (nof_dl_dci s) (with_format m (ngscope_index_to_format format));
             Some (PerSub dls (nof_dl_dci s + 1) (ul_msg s) (nof_ul_dci s) (timestamp s))
           else Some s);
    a ← set_cell (dci_array q) format idx zero_msg;
    Some (with_array q a, s).

(** ** Child-parent matching *)

(** The result of the scan over the formats: [matched_format], [nof_matched],
    [*matched_root]. *)
Record match_t := Match { matched_format : list Z; nof_matched : Z; matched_root : Z }.

(** The loop over the formats with its two [break]s. *)
Fixpoint match_formats (a : list (list ngscope_dci_msg_t)) (root child targetRNTI i : Z) (fuel : nat)
    (m : match_t) : option match_t :=
  match fuel with
  | O => Some m
  | S n =>
      r ← cell a i root;
      c ← cell a i child;
      if rnti r =? targetRNTI then
        v ← zset (matched_format m) (nof_matched m) i; Some (Match v 1 root)
      else if rnti c =? targetRNTI then
        v ← zset (matched_format m) (nof_matched m) i; Some (Match v 1 child)
      else if (0 <? rnti r) && (0 <? rnti c) && (rnti r =? rnti c) then
        v ← zset (matched_format m) (nof_matched m) i;
        match_formats a root child targetRNTI (i + 1) n (Match v (nof_matched m + 1) root)
      else match_formats a root child targetRNTI (i + 1) n m
  end.

(** [nof_matched] starts from 0; the vector and the root are the caller's. *)
Definition match_two_dci_vec (a : list (list ngscope_dci_msg_t)) (root child targetRNTI : Z)
    (matched_format : list Z) (matched_root : Z) : option match_t :=
  match_formats a root child targetRNTI 0 (Z.to_nat (MAX_NOF_FORMAT + 1)) (Match matched_format 0 matched_root).

(** The loop over the parent nodes of the block. *)
Fixpoint CP_loop (a : list (list ngscope_dci_msg_t)) (start_idx loc_idx targetRNTI i : Z) (fuel : nat)
    (m : match_t) : option match_t :=
  match fuel with
  | O => Some m
  | S n =>
      let root := start_idx + i in
      let left_child := start_idx + 2 * i + 1 in
      if (loc_idx <? root) || (loc_idx <? left_child) then Some m
      else
        m ← match_two_dci_vec a root left_child targetRNTI (matched_format m) (matched_root m);
        if 0 <? nof_matched m then Some m else CP_loop a start_idx loc_idx targetRNTI (i + 1) n m
  end.

(** [*nof_matched_dci] and [*root_idx] are stored only when something matched. *)
Definition srsran_ngscope_tree_CP_match (q : ngscope_tree_t) (blk_idx loc_idx targetRNTI : Z)
    (nof_matched_dci root_idx : Z) (format_idx : list Z) : option match_t :=
  m ← CP_loop (dci_array q) (blk_idx * 15) loc_idx targetRNTI 0 7 (Match format_idx 0 0);
  if 0 <? nof_matched m then Some m
  else Some (Match (matched_format m) nof_matched_dci root_idx).

(** ** One message per location *)

(** The first loop: an early return with the target's format, or the formats 0
    and 4 seen ([idx], a stack array of two) and their number. *)
Definition prune_scan (a : list (list ngscope_dci_msg_t)) (n root targetRNTI : Z) (format_vec : list Z)
  : option (Z + Z * list Z) :=
  for_range 0 n
    (fun acc i =>
       match acc with
       | inl f => Some (inl f)
       | inr (cnt, idx) =>
           f ← zget format_vec i;
           m ← cell a f root;
           if rnti m =? targetRNTI then Some (inl f)
           else if (f =? 0) || (f =? 4) then idx ← zset idx cnt f; Some (inr (cnt + 1, idx))
           else Some (inr (cnt, idx))
       end) (inr (0, [0; 0])).

(** The highest correlation among the other formats, the last on a tie. *)
Definition prune_best (a : list (list ngscope_dci_msg_t)) (n root : Z) (format_vec : list Z) : option Z :=
  '(tmp_idx, _) ← for_range 0 n
    (fun '(tmp_idx, tmp_corr) i =>
       f ← zget format_vec i;
       m ← cell a f root;
       if f32_le tmp_corr (corr m) then Some (f, corr m) else Some (tmp_idx, tmp_corr)) (0, f32_0);
  Some tmp_idx.

(** The return value and [*format_idx]. *)
Definition srsran_ngscope_tree_prune_node (q : ngscope_tree_t) (nof_matched root targetRNTI : Z)
    (format_vec : list Z) (format_idx : Z) : option (Z * Z) :=
  let a := dci_array q in
  r ← prune_scan a nof_matched root targetRNTI format_vec;
  match r with
  | inl f => Some (1, f)
  | inr (cnt, idx) =>
      if cnt =? 1 then f ← zget idx 0; Some (1, f)
      else if cnt =? 2 then
        f0 ← zget idx 0; f1 ← zget idx 1;
        m0 ← cell a f0 root; m1 ← cell a f1 root;
        Some (1, if f32_lt (corr m1) (corr m0) then f0 else f1)
      else if cnt =? 0 then f ← prune_best a nof_matched root format_vec; Some (1, f)
      else Some (0, format_idx)
  end.

(** ** Marking and clearing the tree of a node *)

Definition is_leaf_node (index_in_tree : Z) : bool := (7 <=? index_in_tree) && (index_in_tree <=? 14).

(** The recursions stop at the leaves resp. at the root: four levels. *)
Fixpoint check_node (fuel : nat) (locs : list srsran_dci_location_t) (start_idx idx_in_tree : Z)
  : option (list srsran_dci_location_t) :=
  match fuel with
  | O => None
  | S n =>
      locs ← set_checked locs (start_idx + idx_in_tree) true;
      if is_leaf_node idx_in_tree then Some locs
      else
        locs ← check_node n locs start_idx (2 * idx_in_tree + 1);
        check_node n locs start_idx (2 * idx_in_tree + 2)
  end.

Definition srsran_ngscope_tree_check_nodes (q : ngscope_tree_t) (index : Z) : option ngscope_tree_t :=
  let start_idx := Z.quot index 15 * 15 in
  let idx_in_tree := Z.rem index 15 in
  l ← check_node 4 (dci_location q) start_idx idx_in_tree;
  Some (with_location q l).

Fixpoint clear_dciArray_child_node (fuel : nat) (a : list (list ngscope_dci_msg_t)) (start_idx idx_in_tree : Z)
  : option (list (list ngscope_dci_msg_t)) :=
  match fuel with
  | O => None
  | S n =>
      a ← clear_col a (start_idx + idx_in_tree);
      if is_leaf_node idx_in_tree then Some a
      else
        a ← clear_dciArray_child_node n a start_idx (2 * idx_in_tree + 1);
        clear_dciArray_child_node n a start_idx (2 * idx_in_tree + 2)
  end.

Fixpoint clear_dciArray_parent_node (fuel : nat) (a : list (list ngscope_dci_msg_t)) (start_idx idx_in_tree : Z)
  : option (list (list ngscope_dci_msg_t)) :=
  match fuel with
  | O => None
  | S n =>
      a ← clear_col a (start_idx + idx_in_tree);
      if idx_in_tree =? 0 then Some a
      else clear_dciArray_parent_node n a start_idx (Z.quot (idx_in_tree - 1) 2)
  end.

Definition srsran_ngscope_tree_clear_dciArray_nodes (q : ngscope_tree_t) (index : Z) : option ngscope_tree_t :=
  let start_idx := Z.quot index 15 * 15 in
  let idx_in_tree := Z.rem index 15 in
  a ← clear_col (dci_array q) index;
  a ← clear_dciArray_child_node 4 a start_idx idx_in_tree;
  a ← clear_dciArray_parent_node 4 a start_idx idx_in_tree;
  Some (with_array q a).

(** ** Counting and pruning the whole array *)

Definition is_empty_node (a : list (list ngscope_dci_msg_t)) (index : Z) : option bool :=
  for_range 0 (MAX_NOF_FORMAT + 1)
    (fun (ret : bool) i => m ← cell a i index; Some (ret && (rnti m =? 0))) true.

Definition srsran_ngscope_tree_non_empty_nodes (q : ngscope_tree_t) : option Z :=
  for_range 0 (nof_location q)
    (fun n i => e ← is_empty_node (dci_array q) i; Some (if e : bool then n else n + 1)) 0.

(** [corr < 0.5] is the binary32 comparison (0.5 is exact); [decode_prob < 75]. *)
Definition f32_half : float32 := S754_finite false 8388608 (-24).
Definition f32_75 : float32 := f32_of_int 75.

Definition weak (m : ngscope_dci_msg_t) : bool := f32_lt (corr m) f32_half || f32_lt (decode_prob m) f32_75.

Definition srsran_ngscope_tree_prune_tree (q : ngscope_tree_t) : option ngscope_tree_t :=
  a ← for_range 0 (MAX_NOF_FORMAT + 1) (fun a i =>
        for_range 0 (nof_location q) (fun a j =>
          m ← cell a i j; if weak m then set_cell a i j zero_msg else Some a) a) (dci_array q);
  Some (with_array q a).

Definition is_empty_node_regarding_llr (locs : list srsran_dci_location_t) (index : Z) : option bool :=
  l ← zget locs index; Some (f32_lt (loc_mean_llr l) LLR_RATIO).

Definition is_solo_leaf_node (a : list (list ngscope_dci_msg_t)) (locs : list srsran_dci_location_t) (index : Z)
  : option bool :=
  let idx_in_tree := Z.rem index 15 in
  e ← is_empty_node_regarding_llr locs index;
  if e : bool then Some false
  else
    e ← is_empty_node a index;
    if e : bool then Some false
    else if Z.rem idx_in_tree 2 =? 0 then is_empty_node_regarding_llr locs (index - 1)
    else is_empty_node_regarding_llr locs (index + 1).

Fixpoint pick_single (a : list (list ngscope_dci_msg_t)) (loc_idx i : Z) (fuel : nat) : option Z :=
  match fuel with
  | O => Some (-1)
  | S n => m ← cell a i loc_idx; if f32_eq (decode_prob m) f32_100 then Some i else pick_single a loc_idx (i + 1) n
  end.

Definition srsran_ngscope_pick_single_location (a : list (list ngscope_dci_msg_t)) (loc_idx : Z) : option Z :=
  pick_single a loc_idx 0 (Z.to_nat (MAX_NOF_FORMAT + 1)).

(** ** The tree as a whole *)

Definition zero_loc : srsran_dci_location_t := DciLoc 0 0 false f32_0.

(** Every cell is overwritten, whatever the array held. *)
Definition ngscope_tree_init (q : ngscope_tree_t) : option ngscope_tree_t :=
  a ← for_range 0 (MAX_NOF_FORMAT + 1) (fun a i =>
        for_range 0 MAX_CANDIDATES_ALL (fun a j => set_cell a i j zero_msg) a) (dci_array q);
  l ← for_range 0 MAX_CANDIDATES_ALL (fun l i => zset l i zero_loc) (dci_location q);
  Some (Tree a l 0 0).

Definition ngscope_tree_set_locations (q : ngscope_tree_t) (pdcch : srsran_pdcch_t) (cfi : Z)
  : option (Z * ngscope_tree_t) :=
  '(n, l) ← srsran_ngscope_search_space_block_yx pdcch cfi (dci_location q);
  Some (n, Tree (dci_array q) l n (nof_cce q)).

Definition ngscope_tree_set_cce (q : ngscope_tree_t) (nof_cce : Z) : ngscope_tree_t :=
  Tree (dci_array q) (dci_location q) (nof_location q) nof_cce.

Fixpoint find_range (a : list (list ngscope_dci_msg_t)) (loc_idx rnti_min rnti_max j : Z) (fuel : nat) : option Z :=
  match fuel with
  | O => Some (-1)
  | S n =>
      m ← cell a j loc_idx;
      if (rnti_min <=? rnti m) && (rnti m <=? rnti_max) then Some j
      else find_range a loc_idx rnti_min rnti_max (j + 1) n
  end.

Definition srsran_ngscope_tree_find_rnti_range (q : ngscope_tree_t) (loc_idx rnti_min rnti_max : Z) : option Z :=
  find_range (dci_array q) loc_idx rnti_min rnti_max 0 (Z.to_nat (MAX_NOF_FORMAT + 1)).

(** The positions in the order of the two loops: locations outside, formats inside. *)
Definition positions (n : Z) : list (Z * Z) :=
  i ← seqZ 0 n; j ← seqZ 0 (MAX_NOF_FORMAT + 1); [(j, i)].

(** The message found, with its format set in place; the zero message otherwise. *)
Fixpoint find_pos (q : ngscope_tree_t) (target : Z) (ps : list (Z * Z)) : option (ngscope_dci_msg_t * ngscope_tree_t) :=
  match ps with
  | [] => Some (zero_msg, q)
  | (j, i) :: ps =>
      m ← cell (dci_array q) j i;
      if rnti m =? target then
        let m := with_format m (ngscope_index_to_format j) in
        a ← set_cell (dci_array q) j i m; Some (m, with_array q a)
      else find_pos q target ps
  end.

Definition srsran_ngscope_tree_find_rnti (q : ngscope_tree_t) (target : Z)
  : option (ngscope_dci_msg_t * ngscope_tree_t) :=
  find_pos q target (positions (nof_location q)).

(** One cell of the final collection. *)
Definition copy_rnti_step (target : Z) (st : Z * ngscope_tree_t * ngscope_dci_per_sub_t) (p : Z * Z)
  : option (Z * ngscope_tree_t * ngscope_dci_per_sub_t) :=
  let '(ret, q, s) := st in
  let '(j, i) := p in
  m ← cell (dci_array q) j i;
  if rnti m =? target then
    '(q, s) ← srsran_ngscope_tree_copy_dci_fromArray2PerSub q s j i;
    a ← set_cell (dci_array q) j i zero_msg;
    Some (ret + 1, with_array q a, s)
  else Some (ret, q, s).

(** Number of messages moved, and the new state. *)
Definition srsran_ngscope_tree_copy_rnti (q : ngscope_tree_t) (s : ngscope_dci_per_sub_t) (target : Z)
  : option (Z * ngscope_tree_t * ngscope_dci_per_sub_t) :=
  foldM (copy_rnti_step target) (0, q, s) (positions (nof_location q)).

(** ** Entering decoded messages ([ngscope_dci.c]) *)

(** The fields of the unpacked DCIs and grants that are read here. *)
Record srsran_ra_tb_t := RaTb { tb_mcs_idx : Z; tb_tbs : Z; tb_rv : Z }.
Record srsran_dci_dl_t := DciDl { dl_rnti : Z; dl_pid : Z; dl_tb0_ndi : bool; dl_tb1_ndi : bool }.
Record srsran_pdsch_grant_t := PdschGrant { g_nof_prb : Z; g_nof_tb : Z; g_tb0 : srsran_ra_tb_t; g_tb1 : srsran_ra_tb_t }.
Record srsran_dci_ul_t := DciUl { ul_rnti : Z; ul_n_dmrs : Z }.
Record srsran_pusch_grant_t := PuschGrant { g_L_prb : Z; g_tb : srsran_ra_tb_t; g_n_prb_tilde0 : Z; g_freq_hopping : Z }.

(** Fields not assigned keep what the cell held: the format, the PHICH fields,
    and the second transport block of a one-block grant. *)
Definition dl_into (m : ngscope_dci_msg_t) (l : srsran_dci_location_t) (prob corr : float32)
    (d : srsran_dci_dl_t) (g : srsran_pdsch_grant_t) : ngscope_dci_msg_t :=
  DciMsg (dl_rnti d) (g_nof_prb g) (dl_pid d) (g_nof_tb g) true prob corr (format m)
    (DciTb (tb_mcs_idx (g_tb0 g)) (tb_tbs (g_tb0 g)) (tb_rv (g_tb0 g)) (dl_tb0_ndi d))
    (if 1 <? g_nof_tb g then
       DciTb (tb_mcs_idx (g_tb1 g)) (tb_tbs (g_tb1 g)) (tb_rv (g_tb1 g)) (dl_tb1_ndi d)
     else tb1 m)
    (phich m) l.

Definition srsran_ngscope_dci_into_array_dl (a : list (list ngscope_dci_msg_t)) (i j : Z) (l : srsran_dci_location_t)
    (prob corr : float32) (d : srsran_dci_dl_t) (g : srsran_pdsch_grant_t) : option (list (list ngscope_dci_msg_t)) :=
  m ← cell a i j; set_cell a i j (dl_into m l prob corr d g).

(** The new-data indicator of an uplink message is not assigned. *)
Definition ul_into (m : ngscope_dci_msg_t) (l : srsran_dci_location_t) (prob corr : float32)
    (d : srsran_dci_ul_t) (g : srsran_pusch_grant_t) : ngscope_dci_msg_t :=
  DciMsg (ul_rnti d) (g_L_prb g) 0 1 false prob corr (format m)
    (DciTb (tb_mcs_idx (g_tb g)) (tb_tbs (g_tb g)) (tb_rv (g_tb g)) (ndi (tb0 m)))
    (tb1 m) (DciPhich (ul_n_dmrs d) (g_n_prb_tilde0 g) (g_freq_hopping g + 10)) l.

Definition srsran_ngscope_dci_into_array_ul (a : list (list ngscope_dci_msg_t)) (i j : Z) (l : srsran_dci_location_t)
    (prob corr : float32) (d : srsran_dci_ul_t) (g : srsran_pusch_grant_t) : option (list (list ngscope_dci_msg_t)) :=
  m ← cell a i j; set_cell a i j (ul_into m l prob corr d g).

(** [corr > 0.3] compares in binary64 with the double nearest to 3/10. *)
Definition f64_0_3 : spec_float := S754_finite false 5404319552844595 (-54).

(** The messages of a subframe that the pruning keeps; the formats it does not
    name are dropped with a message on the console. *)
Definition keep_dl (m : ngscope_dci_msg_t) : bool :=
  match format m with
  | SRSRAN_DCI_FORMAT2 => SFltb f64_0_3 (f64_of_f32 (corr m))
  | SRSRAN_DCI_FORMAT1C => (0xFFF4 <=? rnti m) || (rnti m <=? 0x0A)
  | SRSRAN_DCI_FORMAT1 => f32_lt f32_75 (decode_prob m)
  | SRSRAN_DCI_FORMAT1A | SRSRAN_DCI_FORMAT1B => f32_lt f32_half (corr m) && f32_lt f32_75 (decode_prob m)
  | _ => false
  end.

(** [tmp] is the local array, of unknown content. *)
Definition srsran_ngscope_dci_prune_ret (tmp : list ngscope_dci_msg_t) (q : ngscope_dci_per_sub_t)
  : option ngscope_dci_per_sub_t :=
  let nof_dl_msg := nof_dl_dci q in
  if MAX_DCI_PER_SUB <? nof_dl_msg then Some q
  else
    '(tmp, cnt) ← for_range 0 nof_dl_msg (fun '(tmp, cnt) i =>
        m ← zget (dl_msg q) i;
        if keep_dl m then tmp ← zset tmp cnt m; Some (tmp, cnt + 1) else Some (tmp, cnt)) (tmp, 0);
    dls ← for_range 0 nof_dl_msg (fun l i => zset l i zero_msg) (dl_msg q);
    dls ← for_range 0 cnt (fun l i => m ← zget tmp i; zset l i m) dls;
    Some (PerSub dls cnt (ul_msg q) (nof_ul_dci q) (timestamp q)).

(** The two rules a decoded message must satisfy. *)
Definition trusted (nof_cce sf_idx : Z) (l : srsran_dci_location_t) (j : Z) (m : ngscope_dci_msg_t) : bool :=
  negb (negb (f32_isnormal (corr m)) || f32_lt (corr m) f32_half || f32_lt (decode_prob m) f32_75)
  && srsran_ngscope_space_match_yx (rnti m) nof_cce sf_idx (loc_ncce l) (ngscope_index_to_format j).

Definition srsran_ngscope_dci_prune (q : ngscope_tree_t) (sf_idx : Z) : option ngscope_tree_t :=
  a ← for_range 0 (nof_location q) (fun a i =>
        l ← zget (dci_location q) i;
        for_range 0 (MAX_NOF_FORMAT + 1) (fun a j =>
          m ← cell a j i;
          if 0 <? rnti m then
            if trusted (nof_cce q) sf_idx l j m then Some a else set_cell a j i zero_msg
          else Some a) a) (dci_array q);
  Some (with_array q a).

(** ** The array as a function of its positions *)

(** Five rows of 180 cells. *)
Definition arr_wf (a : list (list ngscope_dci_msg_t)) : Prop :=
  zlen a = MAX_NOF_FORMAT + 1 /\ forall i r, zget a i = Some r -> zlen r = MAX_CANDIDATES_ALL.

Definition in_array (i j : Z) : Prop := 0 <= i < MAX_NOF_FORMAT + 1 /\ 0 <= j < MAX_CANDIDATES_ALL.

#[export] Instance in_array_dec i j : Decision (in_array i j).
Proof. unfold in_array. solve_decision. Defined.

Lemma cell_some a i j : arr_wf a -> in_array i j -> exists m, cell a i j = Some m.
Proof.
  intros [Hl Hr] [Hi Hj]. destruct (zget_some a i) as [r Er]; [unfold in_range; lia |].
  unfold cell. rewrite Er. cbn [mbind option_bind]. apply zget_some. unfold in_range. rewrite (Hr _ _ Er). lia.
Qed.

Lemma cell_in a i j m : arr_wf a -> cell a i j = Some m -> in_array i j.
Proof.
  intros [Hl Hr] E. unfold cell in E. bind_inv. pose proof (zget_inv _ _ _ E0) as H1. pose proof (zget_inv _ _ _ E) as H2.
  pose proof (Hr _ _ E0). unfold in_array, in_range in *. lia.
Qed.

(** Assignment to a cell, pointwise. *)
Lemma set_cell_spec a i j m :
  arr_wf a -> in_array i j ->
  exists a', set_cell a i j m = Some a' /\ arr_wf a' /\
    forall i' j', cell a' i' j' = if decide (i' = i /\ j' = j) then Some m else cell a i' j'.
Proof.
  intros [Hl Hr] [Hi Hj]. destruct (zget_some a i) as [r Er]; [unfold in_range; lia |].
  pose proof (Hr _ _ Er) as Hrl.
  unfold set_cell. rewrite Er. cbn [mbind option_bind].
  rewrite zset_in by (unfold in_range; lia). cbn [mbind option_bind].
  rewrite zset_in by (unfold in_range; lia). eexists. split; [done |].
  assert (forall k, zget (<[Z.to_nat i := <[Z.to_nat j := m]> r]> a) k
    = if decide (k = i) then Some (<[Z.to_nat j := m]> r) else zget a k) as HG.
  { intros k. destruct (decide (k = i)) as [-> | Hne].
    - apply zget_insert_eq. unfold in_range. lia.
    - by rewrite zget_insert_ne by lia. }
  split; [split |].
  - by rewrite zlen_insert.
  - intros k s. rewrite HG. destruct (decide (k = i)) as [-> | Hne]; [| apply Hr].
    intros [= <-]. by rewrite zlen_insert.
  - intros i' j'. unfold cell. rewrite HG. destruct (decide (i' = i)) as [-> | Hne].
    + rewrite Er. cbn [mbind option_bind]. destruct (decide (i = i /\ j' = j)) as [[_ ->] | Hn].
      * apply zget_insert_eq. unfold in_range. lia.
      * apply zget_insert_ne; [lia | naive_solver].
    + destruct (decide (i' = i /\ j' = j)); [naive_solver | done].
Qed.

(** The columns of [js] are zeroed, the others kept. *)
Definition cleared (js : list Z) (a a' : list (list ngscope_dci_msg_t)) : Prop :=
  arr_wf a' /\ forall i j, in_array i j -> cell a' i j = if decide (j ∈ js) then Some zero_msg else cell a i j.

Lemma clear_col_spec a j :
  arr_wf a -> 0 <= j < MAX_CANDIDATES_ALL -> exists a', clear_col a j = Some a' /\ cleared [j] a a'.
Proof.
  intros Hwf Hj. unfold clear_col.
  loop_inv (fun i a' => arr_wf a' /\ forall i' j', in_array i' j' ->
    cell a' i' j' = if decide (j' = j /\ i' < i) then Some zero_msg else cell a i' j') as (a' & E & Ha & HC).
  - done.
  - split; [done |]. intros i' j' [Hi _]. destruct (decide (j' = j /\ i' < 0)); [lia | done].
  - intros i s Hi [Hs HC]. destruct (set_cell_spec s i j zero_msg) as (s' & -> & Hs' & HC'); [done | split; lia |].
    exists s'. split; [done |]. split; [done |]. intros i' j' Hij. rewrite HC', HC by done.
    destruct (decide (i' = i /\ j' = j)), (decide (j' = j /\ i' < i)), (decide (j' = j /\ i' < i + 1)); done || lia.
  - exists a'. split; [done |]. split; [done |]. intros i' j' Hij. rewrite HC by done.
    destruct Hij as [Hi _].
    destruct (decide (j' = j /\ _)) as [[Hj' _] | Hn], (decide (j' ∈ [j])) as [Hin | Hin]; try done.
    + set_solver.
    + apply list_elem_of_singleton in Hin. naive_solver.
Qed.

Lemma cleared_app js ks a b c : cleared js a b -> cleared ks b c -> cleared (js ++ ks) a c.
Proof.
  intros [_ H1] [Hwf H2]. split; [done |]. intros i j Hij. rewrite H2, H1 by done.
  destruct (decide (j ∈ ks)), (decide (j ∈ js)), (decide (j ∈ js ++ ks)); set_solver.
Qed.

(** ** The nodes touched by the recursions *)

(** The nodes of the subtree of [k], and the path from [k] to the root. *)
Fixpoint subtree (fuel : nat) (k : Z) : list Z :=
  match fuel with
  | O => []
  | S n => k :: (if is_leaf_node k then [] else subtree n (2 * k + 1) ++ subtree n (2 * k + 2))
  end.

Fixpoint ancestors (fuel : nat) (k : Z) : list Z :=
  match fuel with
  | O => []
  | S n => k :: (if k =? 0 then [] else ancestors n (Z.quot (k - 1) 2))
  end.

(** Enough fuel: every call is at a node of the block. *)
Fixpoint deep (fuel : nat) (k : Z) : bool :=
  match fuel with
  | O => false
  | S n => (0 <=? k) && (k <? 15) && (if is_leaf_node k then true else deep n (2 * k + 1) && deep n (2 * k + 2))
  end.

Fixpoint high (fuel : nat) (k : Z) : bool :=
  match fuel with
  | O => false
  | S n => (0 <=? k) && (k <? 15) && (if k =? 0 then true else high n (Z.quot (k - 1) 2))
  end.

Lemma clear_child_spec n a s k :
  arr_wf a -> 0 <= s -> s + 15 <= MAX_CANDIDATES_ALL -> deep n k = true ->
  exists a', clear_dciArray_child_node n a s k = Some a' /\ cleared (Z.add s <$> subtree n k) a a'.
Proof.
  revert a k. induction n as [| n IH]; intros a k Hwf Hs Hm Hd; [done |]. simpl in *.
  apply andb_true_iff in Hd as [[H0%Z.leb_le H1%Z.ltb_lt]%andb_true_iff Hd].
  destruct (clear_col_spec a (s + k)) as (a1 & -> & C1); [done | lia |]. cbn [mbind option_bind].
  destruct (is_leaf_node k); [by exists a1 |].
  apply andb_true_iff in Hd as [Hl Hr].
  destruct (IH a1 (2 * k + 1)) as (a2 & -> & C2); [apply C1 | done.. |]. cbn [mbind option_bind].
  destruct (IH a2 (2 * k + 2)) as (a3 & -> & C3); [apply C2 | done.. |]. exists a3. split; [done |].
  rewrite fmap_app. eapply (cleared_app [_]); [done |]. by eapply cleared_app.
Qed.

Lemma clear_parent_spec n a s k :
  arr_wf a -> 0 <= s -> s + 15 <= MAX_CANDIDATES_ALL -> high n k = true ->
  exists a', clear_dciArray_parent_node n a s k = Some a' /\ cleared (Z.add s <$> ancestors n k) a a'.
Proof.
  revert a k. induction n as [| n IH]; intros a k Hwf Hs Hm Hd; [done |]. simpl in *.
  apply andb_true_iff in Hd as [[H0%Z.leb_le H1%Z.ltb_lt]%andb_true_iff Hd].
  destruct (clear_col_spec a (s + k)) as (a1 & -> & C1); [done | lia |]. cbn [mbind option_bind].
  destruct (k =? 0); [by exists a1 |].
  destruct (IH a1 (Z.quot (k - 1) 2)) as (a2 & -> & C2); [apply C1 | done.. |]. exists a2. split; [done |].
  by eapply (cleared_app [_]).
Qed.

(** Locations of the same block whose CCEs intersect. *)
Definition overlap (i j : Z) : Prop :=
  i / 15 = j / 15 /\ node_off (i mod 15) < node_off (j mod 15) + 2 ^ node_L (j mod 15)
  /\ node_off (j mod 15) < node_off (i mod 15) + 2 ^ node_L (i mod 15).

#[export] Instance overlap_dec i j : Decision (overlap i j).
Proof. unfold overlap. solve_decision. Defined.

Definition overlap_node (k k' : Z) : bool :=
  (node_off k <? node_off k' + 2 ^ node_L k') && (node_off k' <? node_off k + 2 ^ node_L k).

(** The subtree and the ancestors of a node are exactly the nodes it overlaps. *)
Lemma relatives_overlap k k' : 0 <= k < 15 -> 0 <= k' < 15 ->
  overlap_node k k' = true <-> k' ∈ subtree 4 k ++ ancestors 4 k.
Proof.
  intros Hk Hk'.
  assert (forallb (fun k => forallb (fun k' =>
    Bool.eqb (overlap_node k k') (bool_decide (k' ∈ subtree 4 k ++ ancestors 4 k))) (seqZ 0 15)) (seqZ 0 15) = true)
    as HB by (vm_compute; reflexivity).
  rewrite forallb_forall in HB. specialize (HB k). rewrite <- list_elem_of_In, elem_of_seqZ in HB.
  specialize (HB ltac:(lia)). rewrite forallb_forall in HB. specialize (HB k').
  rewrite <- list_elem_of_In, elem_of_seqZ in HB. specialize (HB ltac:(lia)).
  apply Bool.eqb_prop in HB. rewrite HB. apply bool_decide_eq_true.
Qed.

(** [j] lies within the CCEs of [i]. *)
Definition inside (i j : Z) : Prop :=
  i / 15 = j / 15 /\ node_off (i mod 15) <= node_off (j mod 15)
  /\ node_off (j mod 15) + 2 ^ node_L (j mod 15) <= node_off (i mod 15) + 2 ^ node_L (i mod 15).

#[export] Instance inside_dec i j : Decision (inside i j).
Proof. unfold inside. solve_decision. Defined.

Definition inside_node (k k' : Z) : bool :=
  (node_off k <=? node_off k') && (node_off k' + 2 ^ node_L k' <=? node_off k + 2 ^ node_L k).

Lemma subtree_inside k k' : 0 <= k < 15 -> 0 <= k' < 15 -> inside_node k k' = true <-> k' ∈ subtree 4 k.
Proof.
  intros Hk Hk'.
  assert (forallb (fun k => forallb (fun k' =>
    Bool.eqb (inside_node k k') (bool_decide (k' ∈ subtree 4 k))) (seqZ 0 15)) (seqZ 0 15) = true)
    as HB by (vm_compute; reflexivity).
  rewrite forallb_forall in HB. specialize (HB k). rewrite <- list_elem_of_In, elem_of_seqZ in HB.
  specialize (HB ltac:(lia)). rewrite forallb_forall in HB. specialize (HB k').
  rewrite <- list_elem_of_In, elem_of_seqZ in HB. specialize (HB ltac:(lia)).
  apply Bool.eqb_prop in HB. rewrite HB. apply bool_decide_eq_true.
Qed.

Lemma deep_high k : 0 <= k < 15 -> deep 4 k = true /\ high 4 k = true.
Proof. intros Hk. zenum k 15; done. Qed.

(** Membership in the columns of a block, given membership among its nodes. *)
Lemma block_elem i j (l : list Z) :
  0 <= i -> (forall k, k ∈ l -> 0 <= k < 15) ->
  j ∈ (Z.add (i / 15 * 15) <$> l) <-> i / 15 = j / 15 /\ j mod 15 ∈ l.
Proof.
  intros Hi Hl. rewrite list_elem_of_fmap. split.
  - intros (k & -> & Hk). pose proof (Hl k Hk).
    replace ((i / 15 * 15 + k) mod 15) with k by lia. split; [lia | done].
  - intros [E Hk]. exists (j mod 15). split; [lia | done].
Qed.

Lemma relatives_range k k' : 0 <= k < 15 -> k' ∈ subtree 4 k ++ ancestors 4 k -> 0 <= k' < 15.
Proof.
  intros Hk. assert (forallb (fun k => forallb (fun k' => (0 <=? k') && (k' <? 15)) (subtree 4 k ++ ancestors 4 k)) (seqZ 0 15) = true)
    as HB by (vm_compute; reflexivity).
  rewrite forallb_forall in HB. specialize (HB k). rewrite <- list_elem_of_In, elem_of_seqZ in HB.
  specialize (HB ltac:(lia)). rewrite forallb_forall in HB. rewrite list_elem_of_In. intros Hin.
  specialize (HB k' Hin). lia.
Qed.

Lemma overlap_relatives i j : 0 <= i -> 0 <= j ->
  overlap i j <-> j ∈ (Z.add (i / 15 * 15) <$> subtree 4 (i mod 15) ++ ancestors 4 (i mod 15)).
Proof.
  intros Hi Hj. rewrite block_elem by first [done | intros k Hk; eapply relatives_range; [| exact Hk]; lia].
  rewrite <- relatives_overlap by lia. unfold overlap, overlap_node. rewrite andb_true_iff, !Z.ltb_lt. done.
Qed.

Lemma inside_subtree i j : 0 <= i -> 0 <= j ->
  inside i j <-> j ∈ (Z.add (i / 15 * 15) <$> subtree 4 (i mod 15)).
Proof.
  intros Hi Hj. rewrite block_elem.
  - rewrite <- subtree_inside by lia. unfold inside, inside_node. rewrite andb_true_iff, !Z.leb_le. done.
  - done.
  - intros k Hk. apply (relatives_range (i mod 15)); [lia |]. apply elem_of_app. by left.
Qed.

Lemma index_split i : 0 <= i -> Z.quot i 15 * 15 = i / 15 * 15 /\ Z.rem i 15 = i mod 15.
Proof. lia. Qed.

(** The cells of the locations that overlap [index] are zeroed, the others kept. *)
Lemma clear_nodes_spec q index :
  arr_wf (dci_array q) -> 0 <= index < MAX_CANDIDATES_ALL ->
  exists a, srsran_ngscope_tree_clear_dciArray_nodes q index = Some (with_array q a) /\ arr_wf a /\
    forall i j, in_array i j -> cell a i j = if decide (overlap index j) then Some zero_msg else cell (dci_array q) i j.
Proof.
  intros Hwf Hi. unfold srsran_ngscope_tree_clear_dciArray_nodes.
  destruct (index_split index) as [-> ->]; [lia |]. cbv zeta.
  destruct (deep_high (index mod 15)) as [Hd Hh]; [lia |].
  destruct (clear_col_spec (dci_array q) index) as (a1 & -> & C1); [done.. |]. cbn [mbind option_bind].
  unfold MAX_CANDIDATES_ALL in Hi.
  destruct (clear_child_spec 4 a1 (index / 15 * 15) (index mod 15)) as (a2 & -> & C2);
    [apply C1 | lia | unfold MAX_CANDIDATES_ALL; lia | done |]. cbn [mbind option_bind].
  destruct (clear_parent_spec 4 a2 (index / 15 * 15) (index mod 15)) as (a3 & -> & C3);
    [apply C2 | lia | unfold MAX_CANDIDATES_ALL; lia | done |]. cbn [mbind option_bind].
  exists a3. split; [done |].
  destruct (cleared_app _ _ _ _ _ C1 (cleared_app _ _ _ _ _ C2 C3)) as [Hwf3 HC]. split; [done |].
  intros i j Hij. rewrite HC, <- fmap_app by done. destruct Hij as [_ Hj].
  assert (overlap index j <-> j ∈ [index] ++ (Z.add (index / 15 * 15) <$> subtree 4 (index mod 15) ++ ancestors 4 (index mod 15))) as HO.
  { rewrite overlap_relatives by lia. rewrite elem_of_app. split; [by right |]. intros [Hs | H']; [| done].
    apply list_elem_of_singleton in Hs as ->. rewrite <- overlap_relatives by lia. unfold overlap.
    pose proof (Z.pow_pos_nonneg 2 (node_L (index mod 15))). split_and!; [done | |];
      assert (0 <= index mod 15 < 15) as Hk by lia; revert Hk; generalize (index mod 15); intros k Hk;
      zenum k 15; vm_compute; done. }
  destruct (decide (j ∈ _)), (decide (overlap index j)); tauto.
Qed.

(** Only the checked flags of the locations within [index] change, to true. *)
Lemma check_nodes_spec q index :
  zlen (dci_location q) = MAX_CANDIDATES_ALL -> 0 <= index < MAX_CANDIDATES_ALL ->
  exists l, srsran_ngscope_tree_check_nodes q index = Some (with_location q l) /\ zlen l = MAX_CANDIDATES_ALL /\
    forall j x, zget (dci_location q) j = Some x ->
      exists x', zget l j = Some x' /\ loc_L x' = loc_L x /\ loc_ncce x' = loc_ncce x /\ loc_mean_llr x' = loc_mean_llr x
        /\ loc_checked x' = if decide (inside index j) then true else loc_checked x.
Proof.
  intros Hl Hi. unfold srsran_ngscope_tree_check_nodes. destruct (index_split index) as [-> ->]; [lia |]. cbv zeta.
  destruct (deep_high (index mod 15)) as [Hd _]; [lia |].
  assert (forall n l k s, zlen l = MAX_CANDIDATES_ALL -> 0 <= s -> s + 15 <= MAX_CANDIDATES_ALL -> deep n k = true ->
    exists l', check_node n l s k = Some l' /\ zlen l' = zlen l /\ forall j x, zget l j = Some x ->
      exists x', zget l' j = Some x' /\ loc_L x' = loc_L x /\ loc_ncce x' = loc_ncce x /\ loc_mean_llr x' = loc_mean_llr x
        /\ loc_checked x' = if decide (j ∈ Z.add s <$> subtree n k) then true else loc_checked x) as HG.
  { induction n as [| n IH]; intros l k s Hll Hs Hm Hd'; [done |]. simpl in *.
    apply andb_true_iff in Hd' as [[H0%Z.leb_le H1%Z.ltb_lt]%andb_true_iff Hd'].
    destruct (zget_some l (s + k)) as [y Ey]; [unfold in_range; lia |].
    unfold set_checked. rewrite Ey. cbn [mbind option_bind].
    rewrite zset_in by (unfold in_range; lia). cbn [mbind option_bind].
    set (l1 := <[_ := _]> l). assert (zlen l1 = zlen l) as El1 by apply zlen_insert.
    assert (forall j x, zget l j = Some x -> exists x', zget l1 j = Some x' /\ loc_L x' = loc_L x
      /\ loc_ncce x' = loc_ncce x /\ loc_mean_llr x' = loc_mean_llr x
      /\ loc_checked x' = if decide (j = s + k) then true else loc_checked x) as H'.
    { intros j x Ex. destruct (decide (j = s + k)) as [-> | Hne].
      - eexists. split; [apply zget_insert_eq; unfold in_range; lia |]. rewrite Ex in Ey. by injection Ey as ->.
      - exists x. unfold l1. rewrite zget_insert_ne by lia. done. }
    destruct (is_leaf_node k).
    - exists l1. split; [done |]. split; [done |]. intros j x Ex. destruct (H' j x Ex) as (x' & E' & ? & ? & ? & Hc).
      exists x'. split_and!; [done.. |]. rewrite Hc.
      pose proof (list_elem_of_singleton j (s + k)) as HM.
      change (Z.add s <$> [k]) with [s + k]. repeat case_decide; tauto.
    - apply andb_true_iff in Hd' as [Hdl Hdr].
      destruct (IH l1 (2 * k + 1) s) as (l2 & -> & El2 & H2); [lia | done.. |]. cbn [mbind option_bind].
      destruct (IH l2 (2 * k + 2) s) as (l3 & -> & El3 & H3); [lia | done.. |].
      exists l3. split; [done |]. split; [lia |]. intros j x Ex.
      destruct (H' j x Ex) as (x1 & E1 & A1 & B1 & C1 & D1).
      destruct (H2 j x1 E1) as (x2 & E2 & A2 & B2 & C2 & D2).
      destruct (H3 j x2 E2) as (x3 & E3 & A3 & B3 & C3 & D3).
      exists x3. split_and!; [done | congruence.. |]. rewrite D3, D2, D1. rewrite fmap_app.
      assert (j ∈ s + k :: (Z.add s <$> subtree n (2 * k + 1)) ++ (Z.add s <$> subtree n (2 * k + 2))
        <-> j = s + k \/ j ∈ Z.add s <$> subtree n (2 * k + 1) \/ j ∈ Z.add s <$> subtree n (2 * k + 2)) as HM
        by (rewrite elem_of_cons, elem_of_app; tauto).
      repeat case_decide; tauto. }
  unfold MAX_CANDIDATES_ALL in Hi.
  destruct (HG 4%nat (dci_location q) (index mod 15) (index / 15 * 15)) as (l' & -> & El' & HX);
    [done | lia | unfold MAX_CANDIDATES_ALL; lia | done |]. cbn [mbind option_bind].
  exists l'. split; [done |]. split; [lia |]. intros j x Ex. destruct (HX j x Ex) as (x' & E' & ? & ? & ? & Hc).
  exists x'. split_and!; [done.. |]. rewrite Hc. pose proof (zget_inv _ _ _ Ex) as [Hj _].
  pose proof (inside_subtree index j ltac:(lia) Hj).
  destruct (decide (inside index j)), (decide (j ∈ _)); tauto.
Qed.

(** ** Pruning loops *)

(** Two nested loops are one loop over the pairs. *)
Lemma foldM_nest {A B St} (f : St -> A * B -> option St) (la : list A) (lb : list B) (s : St) :
  foldM (fun s a => foldM (fun s b => f s (a, b)) s lb) s la
    = foldM f s (a ← la; b ← lb; [(a, b)]).
Proof.
  revert s. induction la as [| a la IH]; intros s; [done |]. simpl.
  rewrite foldM_app. f_equal.
  assert (forall s, foldM (fun s b => f s (a, b)) s lb = foldM f s (b ← lb; [(a, b)])) as E.
  { clear. induction lb as [| b lb IHb]; intros s; [done |]. simpl. destruct (f s (a, b)); [apply IHb | done]. }
  rewrite E. destruct (foldM f s _); [apply IH | done].
Qed.

Lemma elem_of_grid {A B} (la : list A) (lb : list B) a b :
  (a, b) ∈ (x ← la; y ← lb; [(x, y)]) <-> a ∈ la /\ b ∈ lb.
Proof.
  rewrite list_elem_of_bind. split.
  - intros (x & Hp & Hx). apply list_elem_of_bind in Hp as (y & Hp & Hy).
    apply list_elem_of_singleton in Hp as [= -> ->]. done.
  - intros [Ha Hb]. exists a. split; [| done]. apply list_elem_of_bind. exists b. split; [| done].
    by apply list_elem_of_singleton.
Qed.

(** A position is visited once. *)
Lemma NoDup_grid {A B} (la : list A) (lb : list B) : NoDup la -> NoDup lb -> NoDup (x ← la; y ← lb; [(x, y)]).
Proof.
  intros Ha Hb. induction Ha as [| x la Hx Ha IH]; [apply NoDup_nil_2 |]. cbn [mbind list_bind].
  apply NoDup_app. split; [| split; [| exact IH]].
  - clear IH Ha Hx la. induction Hb as [| y lb Hy Hb IHb]; [apply NoDup_nil_2 |]. cbn [mbind list_bind].
    apply NoDup_app. split; [apply NoDup_singleton | split; [| exact IHb]].
    intros p Hp Hq. apply list_elem_of_singleton in Hp as ->.
    apply list_elem_of_bind in Hq as (z & Hq & Hz). apply list_elem_of_singleton in Hq as [= ->]. done.
  - intros [x' y'] Hp Hq. apply list_elem_of_bind in Hp as (z & Hp & _).
    apply list_elem_of_singleton in Hp as [= -> _]. apply elem_of_grid in Hq as [Hq _]. done.
Qed.

(** Zeroing the cells that satisfy [P], position by position. *)
Lemma zero_where {Pos} (row col : Pos -> Z) (P : Pos -> ngscope_dci_msg_t -> bool) (ps : list Pos) a :
  arr_wf a -> NoDup ((fun p => (row p, col p)) <$> ps) -> (forall p, p ∈ ps -> in_array (row p) (col p)) ->
  exists a', foldM (fun a p => m ← cell a (row p) (col p);
      if P p m then set_cell a (row p) (col p) zero_msg else Some a) a ps = Some a' /\ arr_wf a' /\
    (forall p m, p ∈ ps -> cell a (row p) (col p) = Some m ->
       cell a' (row p) (col p) = Some (if P p m then zero_msg else m)) /\
    (forall i j, (i, j) ∉ ((fun p => (row p, col p)) <$> ps) -> cell a' i j = cell a i j).
Proof.
  revert a. induction ps as [| p ps IH]; intros a Hwf Hnd Hin.
  { exists a. split; [done |]. split; [done |]. split; [| done]. intros p m Hp. by apply not_elem_of_nil in Hp. }
  rewrite fmap_cons in Hnd. apply NoDup_cons in Hnd as [Hp Hnd]. cbn [foldM].
  destruct (cell_some a (row p) (col p)) as [m Em]; [done | apply Hin; by left |].
  rewrite Em. cbn [mbind option_bind].
  destruct (set_cell_spec a (row p) (col p) zero_msg) as (b & Eb & Hb & HC); [done | apply Hin; by left |].
  set (a1 := if P p m then b else a).
  assert ((if P p m then set_cell a (row p) (col p) zero_msg else Some a) = Some a1) as -> by (unfold a1; by destruct (P p m)).
  assert (arr_wf a1) as Hwf1 by (unfold a1; by destruct (P p m)).
  assert (forall i j, (i, j) <> (row p, col p) -> cell a1 i j = cell a i j) as Ho.
  { intros i j Hij. unfold a1. destruct (P p m); [| done]. rewrite HC.
    destruct (decide (i = row p /\ j = col p)) as [[-> ->] |]; done. }
  destruct (IH a1 Hwf1 Hnd) as (a' & -> & Hwf' & Hc & Hrest); [intros; apply Hin; by right |].
  exists a'. split; [done |]. split; [done |]. split.
  - intros p' m' Hp' Em'. apply elem_of_cons in Hp' as [-> | Hp'].
    + rewrite Hrest by done. rewrite Em in Em'. injection Em' as <-. unfold a1. destruct (P p m); [| done].
      rewrite HC. by destruct (decide (row p = row p /\ col p = col p)); [| tauto].
    + apply Hc; [done |]. rewrite Ho; [done |]. intros E. apply Hp. rewrite <- E. apply list_elem_of_fmap. by exists p'.
  - intros i j Hij. rewrite fmap_cons, not_elem_of_cons in Hij. destruct Hij as [Hne Hij].
    rewrite Hrest by done. by apply Ho.
Qed.

Lemma dci_prune_cells (q : ngscope_tree_t) (sf_idx : Z)
  (Hwf : arr_wf (dci_array q)) (Hloc : zlen (dci_location q) = MAX_CANDIDATES_ALL)
  (Hn : 0 <= nof_location q <= MAX_CANDIDATES_ALL) :
  exists a, srsran_ngscope_dci_prune q sf_idx = Some (with_array q a) /\ arr_wf a /\
    forall i j m l, 0 <= i < MAX_NOF_FORMAT + 1 -> cell (dci_array q) i j = Some m -> zget (dci_location q) j = Some l ->
      cell a i j = Some (if (j <? nof_location q) && (0 <? rnti m) && negb (trusted (nof_cce q) sf_idx l i m)
                         then zero_msg else m).
Proof.
  unfold srsran_ngscope_dci_prune, for_range. rewrite !Z.sub_0_r.
  set (P := fun (p : Z * Z) m => (0 <? rnti m) &&
    negb (trusted (nof_cce q) sf_idx (default zero_loc (zget (dci_location q) (fst p))) (snd p) m)).
  destruct (zero_where snd fst P (i ← seqZ 0 (nof_location q); j ← seqZ 0 (MAX_NOF_FORMAT + 1); [(i, j)]) (dci_array q))
    as (a & Ea & Hwf' & Hc & Hrest).
  - done.
  - apply NoDup_fmap; [intros [? ?] [? ?] [= -> ->]; done |].
    apply NoDup_grid; apply NoDup_seqZ.
  - intros [i j] [Hi Hj]%elem_of_grid. apply elem_of_seqZ in Hi, Hj. simpl. unfold in_array. lia.
  - exists a. split; [| split; [done |]].
    + rewrite <- foldM_nest in Ea.
      match goal with |- ?x ≫= _ = _ => assert (x = Some a) as -> end; [| done].
      rewrite <- Ea. apply foldM_ext_in. intros s i Hi. apply elem_of_seqZ in Hi.
      destruct (zget_some (dci_location q) i) as [l El]; [unfold in_range; lia |].
      rewrite El. cbn [mbind option_bind]. apply foldM_ext. intros t j. simpl.
      destruct (cell t j i) as [m |]; [| done]. cbn [mbind option_bind].
      unfold P. cbn [fst snd]. rewrite El. simpl. by destruct (0 <? rnti m), (trusted _ _ _ _ _).
    + intros i j m l Hi Em El. destruct (Z.ltb_spec j (nof_location q)) as [Hj | Hj]; cbn [andb].
      * pose proof (Hc (j, i) m) as H'. unfold P in H'. cbn [fst snd] in H'. rewrite El in H'.
        apply H'; [| done].
        apply elem_of_grid. rewrite !elem_of_seqZ. pose proof (zget_inv _ _ _ El) as Hr. unfold in_range in Hr. lia.
      * rewrite Hrest; [done |]. intros Hp. apply list_elem_of_fmap in Hp as ([j' i'] & [= -> ->] & Hp).
        apply elem_of_grid in Hp as [Hp _]. apply elem_of_seqZ in Hp. simpl in *. lia.
Qed.

(** Pruning zeroes exactly the messages, among the non-empty cells of
    the subframe's locations, whose correlation or decoding probability is too
    low or whose RNTI may not use its location; every other cell is kept. *)
Theorem dci_prune_spec (q : ngscope_tree_t) (sf_idx : Z)
  (Hwf : arr_wf (dci_array q)) (Hloc : zlen (dci_location q) = MAX_CANDIDATES_ALL)
  (Hn : 0 <= nof_location q <= MAX_CANDIDATES_ALL) :
  exists a, srsran_ngscope_dci_prune q sf_idx = Some (with_array q a) /\ arr_wf a /\
    forall i j m l, 0 <= i < MAX_NOF_FORMAT + 1 -> cell (dci_array q) i j = Some m -> zget (dci_location q) j = Some l ->
      cell a i j = Some (if (j <? nof_location q) && (0 <? rnti m) && negb (trusted (nof_cce q) sf_idx l i m)
                         then zero_msg else m).
Proof. by apply dci_prune_cells. Qed.

Definition empty_array : list (list ngscope_dci_msg_t) := replicate 5 (replicate 180 zero_msg).

Lemma empty_array_wf : arr_wf empty_array.
Proof.
  split; [done |]. intros i r Er. pose proof (zget_inv _ _ _ Er) as Hi.
  rewrite zget_lookup in Er by apply Hi. apply lookup_replicate_1 in Er as [-> _]. done.
Qed.

Lemma empty_array_cell i j : in_array i j -> cell empty_array i j = Some zero_msg.
Proof.
  intros [Hi Hj]. unfold MAX_NOF_FORMAT, MAX_CANDIDATES_ALL in *. unfold cell, empty_array.
  rewrite zget_lookup by (clear Hj; lia). rewrite lookup_replicate_2 by (clear Hj; lia). cbn [mbind option_bind].
  rewrite zget_lookup by (clear Hi; lia). by rewrite lookup_replicate_2 by (clear Hi; lia).
Qed.

Definition empty_tree : ngscope_tree_t := Tree empty_array (replicate 180 zero_loc) 15 8.

Lemma dci_prune_spec_witness :
  exists a, srsran_ngscope_dci_prune empty_tree 3 = Some (with_array empty_tree a) /\ cell a 2 7 = Some zero_msg.
Proof.
  destruct (dci_prune_spec empty_tree 3) as (a & E & _ & Hc);
    [exact empty_array_wf | reflexivity | vm_compute; split; discriminate |].
  exists a. split; [exact E |].
  apply (Hc 2 7 zero_msg zero_loc); [vm_compute; intuition discriminate | apply empty_array_cell; vm_compute; intuition discriminate | reflexivity].
Defined.

(** Copying the kept messages to the front of a scratch array. *)
Lemma compact_loop {A} (keep : A -> bool) (src tmp : list A) n :
  0 <= n <= zlen src -> n <= zlen tmp ->
  exists tmp', for_range 0 n (fun '(tmp, cnt) i => m ← zget src i;
      if keep m then tmp ← zset tmp cnt m; Some (tmp, cnt + 1) else Some (tmp, cnt)) (tmp, 0)
    = Some (tmp', zlen (filter (fun m => keep m = true) (take (Z.to_nat n) src)))
    /\ zlen tmp' = zlen tmp
    /\ take (length (filter (fun m => keep m = true) (take (Z.to_nat n) src))) tmp'
       = filter (fun m => keep m = true) (take (Z.to_nat n) src).
Proof.
  intros Hn Ht.
  loop_inv (fun i (s : list A * Z) => snd s = zlen (filter (fun m => keep m = true) (take (Z.to_nat i) src)) /\
    zlen (fst s) = zlen tmp /\
    take (length (filter (fun m => keep m = true) (take (Z.to_nat i) src))) (fst s)
       = filter (fun m => keep m = true) (take (Z.to_nat i) src)) as ([tmp' c] & E & H1 & H2 & H3).
  - lia.
  - done.
  - intros i [t c] Hi (Hc & Hl & Htk). simpl in Hc, Hl, Htk.
    destruct (lookup_lt_is_Some_2 src (Z.to_nat i)) as [m Em]; [unfold zlen in Hn; lia |].
    rewrite zget_lookup, Em by lia. cbn [mbind option_bind].
    replace (Z.to_nat (i + 1)) with (S (Z.to_nat i)) by lia.
    rewrite (take_S_r _ _ m), filter_app, filter_cons, filter_nil by done.
    pose proof (length_filter (fun m => keep m = true) (take (Z.to_nat i) src)) as HF. rewrite length_take in HF.
    set (F := filter _ (take (Z.to_nat i) src)) in *.
    destruct (decide (keep m = true)) as [Hk | Hk].
    + rewrite Hk. rewrite zset_in by (rewrite Hc; unfold in_range, zlen in *; lia). cbn [mbind option_bind].
      eexists. split; [done |]. cbn [fst snd]. split_and!.
      * rewrite zlen_app, Hc. done.
      * by rewrite zlen_insert.
      * rewrite length_app. simpl. rewrite <- Htk at 2.
        rewrite Hc. unfold zlen. rewrite Nat2Z.id, Nat.add_1_r.
        rewrite (take_S_r _ _ m) by (apply list_lookup_insert_eq; unfold zlen in *; lia).
        by rewrite take_insert_ge by lia.
    + destruct (keep m); [done |]. eexists. split; [done |]. cbn [fst snd]. by rewrite app_nil_r.
  - simpl in *. exists tmp'. split; [by rewrite E, H1 | done].
Qed.

Lemma zero_loop {A} (z : A) (l : list A) n : 0 <= n <= zlen l ->
  exists l', for_range 0 n (fun l i => zset l i z) l = Some l' /\ zlen l' = zlen l.
Proof.
  intros Hn. loop_inv (fun (_ : Z) (s : list A) => zlen s = zlen l) as (l' & E & H); [lia | done | | by exists l'].
  intros i s Hi Hl. rewrite zset_in by (unfold in_range; lia). eexists. split; [done |]. by rewrite zlen_insert.
Qed.

Lemma copy_loop {A} (src l : list A) n : 0 <= n -> n <= zlen src -> n <= zlen l ->
  exists l', for_range 0 n (fun l i => m ← zget src i; zset l i m) l = Some l' /\ zlen l' = zlen l
    /\ take (Z.to_nat n) l' = take (Z.to_nat n) src.
Proof.
  intros H0 Hs Hl. loop_inv (fun i (s : list A) => zlen s = zlen l /\ take (Z.to_nat i) s = take (Z.to_nat i) src)
    as (l' & E & H); [lia | done | | by exists l'].
  intros i s Hi [El Et]. destruct (lookup_lt_is_Some_2 src (Z.to_nat i)) as [m Em]; [unfold zlen in Hs; lia |].
  rewrite zget_lookup, Em by lia. cbn [mbind option_bind].
  rewrite zset_in by (unfold in_range; lia). eexists. split; [done |]. split; [by rewrite zlen_insert |].
  rewrite take_insert_next by lia. replace (Z.to_nat (i + 1)) with (S (Z.to_nat i)) by lia.
  by rewrite (take_S_r _ _ m), Et.
Qed.

(** pruning the result of a subframe keeps, in order, exactly the
    downlink messages its format's thresholds accept (format 2: correlation above
    0.3; 1C: a reserved or random-access RNTI; 1: decoding probability above 75;
    1A and 1B: both), leaves the uplink messages alone, and never fails. *)
Theorem prune_ret_spec (tmp : list ngscope_dci_msg_t) (q : ngscope_dci_per_sub_t)
  (Hq : per_sub_wf q) (Ht : zlen tmp = MAX_DCI_PER_SUB) :
  exists q', srsran_ngscope_dci_prune_ret tmp q = Some q' /\ per_sub_wf q'
    /\ dl_list q' = filter (fun m => keep_dl m = true) (dl_list q) /\ ul_list q' = ul_list q.
Proof.
  destruct Hq as [Hd Hu Hnd Hnu]. unfold srsran_ngscope_dci_prune_ret. cbv zeta.
  destruct (Z.ltb_spec MAX_DCI_PER_SUB (nof_dl_dci q)); [lia |].
  destruct (compact_loop keep_dl (dl_msg q) tmp (nof_dl_dci q)) as (t & -> & Elt & Et); [lia.. |].
  cbn [mbind option_bind]. fold (dl_list q) in *. set (F := filter _ (dl_list q)) in *.
  assert (zlen F <= nof_dl_dci q) as HF.
  { unfold F, zlen. pose proof (length_filter (fun m => keep_dl m = true) (dl_list q)) as HL.
    unfold dl_list in HL at 2. rewrite length_take in HL. lia. }
  pose proof (zlen_nonneg F).
  destruct (zero_loop zero_msg (dl_msg q) (nof_dl_dci q)) as (d1 & -> & El1); [lia |]. cbn [mbind option_bind].
  destruct (copy_loop t d1 (zlen F)) as (d2 & -> & El2 & Ed2); [lia.. |]. cbn [mbind option_bind].
  eexists. split; [done |]. split; [split; simpl; lia |]. split; [| done].
  unfold dl_list. simpl. rewrite Ed2. unfold zlen. by rewrite Nat2Z.id.
Qed.

Lemma prune_ret_spec_witness :
  exists q', srsran_ngscope_dci_prune_ret (dl_msg empty_per_sub) empty_per_sub = Some q' /\ dl_list q' = [].
Proof.
  destruct (prune_ret_spec (dl_msg empty_per_sub) empty_per_sub) as (q' & E & _ & Hd & _);
    [exact empty_per_sub_wf | reflexivity |].
  exists q'. split; [exact E | exact Hd].
Defined.

(** ** What the matching finds *)

Section matching.
Context (a : list (list ngscope_dci_msg_t)) (root child target : Z).

(** The RNTI of the cell of format [i] at the root and at the child. *)
Definition rnti_at (j i : Z) : Z := rnti (default zero_msg (cell a i j)).
Definition hits_target (i : Z) : Prop := rnti_at root i = target \/ rnti_at child i = target.
Definition agrees (i : Z) : Prop := 0 < rnti_at root i /\ rnti_at root i = rnti_at child i.

#[export] Instance hits_target_dec i : Decision (hits_target i).
Proof. unfold hits_target. solve_decision. Defined.
#[export] Instance agrees_dec i : Decision (agrees i).
Proof. unfold agrees. solve_decision. Defined.

(** The formats that agree before the first that holds the target, and that one. *)
Fixpoint scan_formats (fs : list Z) : list Z * option Z :=
  match fs with
  | [] => ([], None)
  | i :: fs =>
      if decide (hits_target i) then ([], Some i)
      else let '(l, t) := scan_formats fs in (if decide (agrees i) then i :: l else l, t)
  end.

(** What the scan stores after [n] matches already stored. *)
Definition scan_result (v : list Z) (n mr : Z) (l : list Z) (t : option Z) (m : match_t) : Prop :=
  zlen (matched_format m) = zlen v /\
  match t with
  | None => nof_matched m = n + zlen l
      /\ take (Z.to_nat (n + zlen l)) (matched_format m) = take (Z.to_nat n) v ++ l
      /\ matched_root m = (if decide (l = []) then mr else root)
  | Some i => nof_matched m = 1
      /\ take (Z.to_nat (n + zlen l + 1)) (matched_format m) = take (Z.to_nat n) v ++ l ++ [i]
      /\ matched_root m = (if decide (rnti_at root i = target) then root else child)
  end.

Lemma match_formats_spec fuel i v n mr :
  arr_wf a -> 0 <= root < MAX_CANDIDATES_ALL -> 0 <= child < MAX_CANDIDATES_ALL ->
  0 <= i -> i + Z.of_nat fuel = MAX_NOF_FORMAT + 1 -> zlen v = MAX_NOF_FORMAT + 1 -> 0 <= n <= i ->
  exists m, match_formats a root child target i fuel (Match v n mr) = Some m /\
    scan_result v n mr (fst (scan_formats (seqZ i (Z.of_nat fuel)))) (snd (scan_formats (seqZ i (Z.of_nat fuel)))) m.
Proof.
  intros Hwf Hr Hc. revert i v n mr. induction fuel as [| fuel IH]; intros i v n mr Hi0 Hi Hv Hn.
  { eexists. split; [done |]. simpl. split; [done |]. rewrite zlen_nil, Z.add_0_r, app_nil_r. done. }
  rewrite seqZ_cons by lia. replace (Z.pred (Z.of_nat (S fuel))) with (Z.of_nat fuel) by lia.
  cbn [match_formats scan_formats].
  destruct (cell_some a i root) as [mroot Er]; [done | split; lia |].
  destruct (cell_some a i child) as [mch Ec]; [done | split; lia |].
  rewrite Er, Ec. cbn [mbind option_bind matched_format nof_matched].
  assert (rnti_at root i = rnti mroot) as ER by (unfold rnti_at; by rewrite Er).
  assert (rnti_at child i = rnti mch) as EC by (unfold rnti_at; by rewrite Ec).
  rewrite zset_in by (unfold in_range; lia). cbn [mbind option_bind].
  assert (forall x, take (Z.to_nat (n + 1)) (<[Z.to_nat n := x]> v) = take (Z.to_nat n) v ++ [x]) as Htk
    by (intros x; apply take_insert_next; lia).
  destruct (decide (hits_target i)) as [Ht | Ht].
  - destruct (Z.eqb_spec (rnti mroot) target) as [Et | Et].
    + eexists. split; [done |]. cbn [fst snd]. split; [apply zlen_insert |]. cbn [nof_matched matched_format matched_root].
      rewrite zlen_nil, Z.add_0_r. split_and!; [done | apply Htk |]. rewrite ER. by case_decide.
    + destruct Ht as [Ht | Ht]; [congruence |]. rewrite EC in Ht. rewrite (proj2 (Z.eqb_eq _ _) Ht).
      eexists. split; [done |]. cbn [fst snd]. split; [apply zlen_insert |]. cbn [nof_matched matched_format matched_root].
      rewrite zlen_nil, Z.add_0_r. split_and!; [done | apply Htk |]. rewrite ER. by case_decide.
  - unfold hits_target in Ht. rewrite ER, EC in Ht.
    rewrite (proj2 (Z.eqb_neq (rnti mroot) target)), (proj2 (Z.eqb_neq (rnti mch) target)) by tauto.
    destruct (scan_formats (seqZ (Z.succ i) (Z.of_nat fuel))) as [l t] eqn:ES.
    replace (i + 1) with (Z.succ i) by lia.
    destruct ((0 <? rnti mroot) && (0 <? rnti mch) && (rnti mroot =? rnti mch)) eqn:EA.
    + apply andb_true_iff in EA as [[A1%Z.ltb_lt A2%Z.ltb_lt]%andb_true_iff A3%Z.eqb_eq].
      destruct (decide (agrees i)) as [Ha | Ha]; [| unfold agrees in Ha; rewrite ER, EC in Ha; lia].
      destruct (IH (Z.succ i) (<[Z.to_nat n := i]> v) (n + 1) root) as (m & Em & Hlen & Hm);
        [lia | lia | by rewrite zlen_insert | lia |].
      exists m. split; [exact Em |]. rewrite ES in Hm. cbn [fst snd] in Hm |- *. split; [by rewrite Hlen, zlen_insert |].
      rewrite zlen_cons. replace (n + (1 + zlen l)) with (n + 1 + zlen l) by lia.
      rewrite Htk in Hm. destruct t as [i0 |]; destruct Hm as (H1 & H2 & H3); (split; [done |]); (split; [by rewrite H2, <- app_assoc |]).
      * done.
      * rewrite H3. by destruct (decide (l = [])).
    + destruct (decide (agrees i)) as [Ha | Ha].
      { unfold agrees in Ha. rewrite ER, EC in Ha. exfalso. revert EA. repeat zcase; simpl; done || lia. }
      destruct (IH (Z.succ i) v n mr) as (m & Em & Hm); [lia | lia | done | lia |].
      exists m. rewrite ES in Hm. done.
Qed.
End matching.

(** The comparison of a parent and a child over the five formats
    returns, when no cell of either holds the target RNTI, all formats in which
    both hold the same non-zero RNTI, with the parent as the match; when some
    format holds the target, one match at the node that holds it. The format
    stored first is the one the caller uses: it is the target's only when no
    earlier format agreed. *)
Theorem match_two_spec (a : list (list ngscope_dci_msg_t)) (root child target mr : Z) (v : list Z)
  (Hwf : arr_wf a) (Hr : 0 <= root < MAX_CANDIDATES_ALL) (Hc : 0 <= child < MAX_CANDIDATES_ALL)
  (Hv : zlen v = MAX_NOF_FORMAT + 1) :
  exists m, match_two_dci_vec a root child target v mr = Some m /\
    match snd (scan_formats a root child target (seqZ 0 5)) with
    | None => nof_matched m = zlen (filter (agrees a root child) (seqZ 0 5))
        /\ take (Z.to_nat (nof_matched m)) (matched_format m) = filter (agrees a root child) (seqZ 0 5)
        /\ (forall i, 0 <= i < 5 -> rnti_at a root i <> target /\ rnti_at a child i <> target)
    | Some i => nof_matched m = 1 /\ 0 <= i < 5
        /\ (matched_root m = root /\ rnti_at a root i = target \/
            matched_root m = child /\ rnti_at a root i <> target /\ rnti_at a child i = target)
        /\ (forall k, 0 <= k < i -> rnti_at a root k <> target /\ rnti_at a child k <> target)
        /\ zget (matched_format m) 0 = Some (default i (head (filter (agrees a root child) (seqZ 0 i))))
    end.
Proof.
  destruct (match_formats_spec a root child target 5 0 v 0 mr) as (m & Em & _ & Hm); [done || lia.. |].
  exists m. split; [exact Em |]. change (Z.of_nat 5) with 5 in Hm. rewrite take_0, !app_nil_l in Hm.
  assert (forall n i, 0 <= n -> match snd (scan_formats a root child target (seqZ i n)) with
    | None => fst (scan_formats a root child target (seqZ i n)) = filter (agrees a root child) (seqZ i n)
        /\ (forall k, i <= k < i + n -> ~ hits_target a root child target k)
    | Some t => i <= t < i + n /\ hits_target a root child target t
        /\ fst (scan_formats a root child target (seqZ i n)) = filter (agrees a root child) (seqZ i (t - i))
        /\ (forall k, i <= k < t -> ~ hits_target a root child target k)
    end) as HS.
  { intros n i Hn. revert i. pattern n. apply natlike_ind; [| | done].
    - intros i. rewrite seqZ_nil by lia. simpl. split; [done | lia].
    - intros x Hx IH i. rewrite seqZ_cons by lia. rewrite Z.pred_succ. simpl.
      destruct (decide (hits_target a root child target i)) as [Ht | Ht].
      { simpl. split; [lia |]. split; [done |]. rewrite Z.sub_diag. split; [done | lia]. }
      specialize (IH (Z.succ i)). destruct (scan_formats a root child target (seqZ (Z.succ i) x)) as [l [t |]];
        cbn [fst snd] in IH |- *.
      + destruct IH as (Hr' & Hh & -> & Hk). split; [lia |]. split; [done |]. split.
        * rewrite (seqZ_cons i) by lia. rewrite filter_cons. replace (Z.pred (t - i)) with (t - Z.succ i) by lia.
          by destruct (decide (agrees a root child i)).
        * intros k Hki. destruct (Z.eq_dec k i) as [-> | Hne]; [done |]. apply Hk. lia.
      + destruct IH as [-> Hk]. split.
        * rewrite filter_cons. by destruct (decide (agrees a root child i)).
        * intros k Hki. destruct (Z.eq_dec k i) as [-> | Hne]; [done |]. apply Hk. lia. }
  specialize (HS 5 0 ltac:(lia)).
  destruct (scan_formats a root child target (seqZ 0 5)) as [l [t |]]; cbn [fst snd] in HS, Hm |- *.
  - destruct HS as (Hrg & Hh & -> & Hk). destruct Hm as (H1 & H2 & H3). rewrite Z.sub_0_r in *.
    split; [done |]. split; [lia |]. split_and!.
    + unfold hits_target in Hh. destruct (decide (rnti_at a root t = target)); [left | right]; tauto.
    + intros k Hki. specialize (Hk k Hki). unfold hits_target in Hk. tauto.
    + set (l := filter _ _) in *. pose proof (zlen_nonneg l).
      transitivity (zget (take (Z.to_nat (0 + zlen l + 1)) (matched_format m)) 0).
      * rewrite !zget_lookup by lia. by rewrite lookup_take_lt by lia.
      * rewrite H2. by destruct l.
  - destruct HS as [-> Hk]. destruct Hm as (H1 & H2 & H3). rewrite Z.add_0_l in *. split; [done |].
    split; [by rewrite H1 |]. intros i Hi. specialize (Hk i Hi). unfold hits_target in Hk. tauto.
Qed.

Definition msg_of (r : Z) : ngscope_dci_msg_t :=
  DciMsg r 0 0 0 false f32_1 f32_1 SRSRAN_DCI_FORMAT0 zero_tb zero_tb (DciPhich 0 0 0) zero_loc.

(** Format 0 holds RNTI 100 at the nodes 0 and 1, format 1 the target 200 at node 1. *)
Definition ex_array : list (list ngscope_dci_msg_t) :=
  (msg_of 100 :: msg_of 100 :: replicate 178 zero_msg)
  :: (zero_msg :: msg_of 200 :: replicate 178 zero_msg) :: replicate 3 (replicate 180 zero_msg).

Lemma ex_array_wf : arr_wf ex_array.
Proof.
  split; [done |]. intros i r Er. pose proof (zget_inv _ _ _ Er) as Hi.
  unfold in_range in Hi. change (zlen ex_array) with 5 in Hi.
  zenum i 5; vm_compute in Er; injection Er as <-; done.
Qed.

(** The target's message is at format 1; the match points at format 0. *)
Lemma match_two_spec_witness :
  exists m, match_two_dci_vec ex_array 0 1 200 [0; 0; 0; 0; 0] 0 = Some m
    /\ matched_root m = 1 /\ zget (matched_format m) 0 = Some 0 /\ rnti_at ex_array 1 0 = 100 /\ rnti_at ex_array 1 1 = 200.
Proof.
  destruct (match_two_spec ex_array 0 1 200 0 [0; 0; 0; 0; 0]) as (m & E & H);
    [exact ex_array_wf | vm_compute; intuition discriminate | vm_compute; intuition discriminate | reflexivity |].
  exists m. split; [exact E |]. vm_compute in E. injection E as <-. repeat split.
Defined.

(** ** The format chosen for a match *)

Definition corr_ok (c : float32) : Prop := f32_le f32_0 c = true.

Lemma scan_formats_sub a root child target (fs : list Z) :
  (forall f, f ∈ fst (scan_formats a root child target fs) -> f ∈ fs /\ agrees a root child f)
  /\ (forall i, snd (scan_formats a root child target fs) = Some i -> i ∈ fs /\ hits_target a root child target i)
  /\ (NoDup fs -> NoDup (fst (scan_formats a root child target fs))).
Proof.
  induction fs as [| i fs (IH1 & IH2 & IH3)]; simpl.
  { split_and!; [set_solver | done | done]. }
  destruct (decide (hits_target a root child target i)) as [Ht | Ht]; simpl.
  - split_and!; [set_solver | intros j [= <-]; set_solver | intros; apply NoDup_nil_2].
  - destruct (scan_formats a root child target fs) as [l t]. cbn [fst snd] in *.
    destruct (decide (agrees a root child i)) as [Ha | Ha]; split_and!.
    + intros f [-> | Hf]%elem_of_cons; [split; [by left | done] |]. destruct (IH1 f Hf). split; [by right | done].
    + intros j Hj. destruct (IH2 j Hj). split; [by right | done].
    + intros [Hi Hnd]%NoDup_cons. apply NoDup_cons. split; [| by apply IH3]. intros Hl. by destruct (IH1 i Hl).
    + intros f Hf. destruct (IH1 f Hf). split; [by right | done].
    + intros j Hj. destruct (IH2 j Hj). split; [by right | done].
    + intros [_ Hnd]%NoDup_cons. by apply IH3.
Qed.

(** The formats a match offers at the matched node hold non-zero RNTIs. *)
Definition offers (a : list (list ngscope_dci_msg_t)) (m : match_t) (fs : list Z) : Prop :=
  fs <> [] /\ NoDup fs /\ zlen fs = nof_matched m /\ take (length fs) (matched_format m) = fs
  /\ forall f, f ∈ fs -> 0 <= f < 5 /\ rnti_at a (matched_root m) f <> 0.

Lemma match_two_offers a root child target mr v :
  arr_wf a -> 0 <= root < MAX_CANDIDATES_ALL -> 0 <= child < MAX_CANDIDATES_ALL ->
  zlen v = MAX_NOF_FORMAT + 1 -> target <> 0 ->
  exists m, match_two_dci_vec a root child target v mr = Some m /\ zlen (matched_format m) = MAX_NOF_FORMAT + 1
    /\ 0 <= nof_matched m
    /\ (0 < nof_matched m -> (matched_root m = root \/ matched_root m = child) /\ exists fs, offers a m fs).
Proof.
  intros Hwf Hr Hc Hv Ht.
  destruct (match_formats_spec a root child target 5 0 v 0 mr) as (m & Em & Hl & Hm); [done || lia.. |].
  exists m. split; [exact Em |]. split; [congruence |]. change (Z.of_nat 5) with 5 in Hm.
  rewrite take_0, !app_nil_l, Z.add_0_l in Hm.
  destruct (scan_formats_sub a root child target (seqZ 0 5)) as (S1 & S2 & S3).
  specialize (S3 ltac:(apply NoDup_seqZ)).
  destruct (scan_formats a root child target (seqZ 0 5)) as [l [i |]]; cbn [fst snd] in *.
  - destruct Hm as (H1 & H2 & H3). split; [lia |]. intros _.
    destruct (S2 i eq_refl) as [Hi%elem_of_seqZ Hh].
    split; [rewrite H3; destruct (decide _); tauto |].
    destruct l as [| f l].
    + exists [i]. unfold offers. rewrite H1. split_and!; [done | apply NoDup_singleton | done | exact H2 |].
      intros f ->%list_elem_of_singleton. split; [lia |]. rewrite H3. unfold hits_target in Hh.
      destruct (decide (rnti_at a root i = target)) as [E | E]; [by rewrite E |].
      destruct Hh as [? | E']; [done | by rewrite E'].
    + exists [f]. unfold offers. rewrite H1. split_and!; [done | apply NoDup_singleton | done | |].
      * destruct (matched_format m) as [| x mf]; [by rewrite take_nil in H2 |].
        rewrite zlen_cons in H2. pose proof (zlen_nonneg l).
        replace (Z.to_nat (1 + zlen l + 1)) with (S (Z.to_nat (zlen l + 1))) in H2 by lia.
        by injection H2 as -> _.
      * intros g ->%list_elem_of_singleton. destruct (S1 f) as [Hf%elem_of_seqZ [Hp He]]; [by left |].
        split; [lia |]. rewrite H3. destruct (decide (rnti_at a root i = target)); lia.
  - destruct Hm as (H1 & H2 & H3). pose proof (zlen_nonneg l). split; [lia |]. intros Hn.
    assert (l <> []) as Hne by (intros ->; rewrite zlen_nil in H1; lia).
    rewrite H3. destruct (decide (l = [])) as [| _]; [done |]. split; [by left |]. exists l.
    unfold offers. rewrite H3. destruct (decide (l = [])) as [| _]; [done |].
    split_and!; [done | done | lia | unfold zlen in H2; by rewrite Nat2Z.id in H2 |].
    intros f Hf. destruct (S1 f Hf) as [Hr'%elem_of_seqZ [Hp _]]. split; lia.
Qed.

(** The entries of a list known to be a prefix. *)
Lemma prefix_get (fs v : list Z) i f : take (length fs) v = fs -> 0 <= i -> fs !! Z.to_nat i = Some f -> zget v i = Some f.
Proof.
  intros Ht Hi Hf. rewrite zget_lookup by done. rewrite <- Ht in Hf.
  apply lookup_take_Some in Hf as [Hf _]. done.
Qed.

Definition is_04 (f : Z) : Prop := f = 0 \/ f = 4.
#[export] Instance is_04_dec f : Decision (is_04 f).
Proof. unfold is_04. solve_decision. Defined.

Lemma few_04 (fs : list Z) : NoDup fs -> (length (filter is_04 fs) <= 2)%nat.
Proof.
  intros Hnd. change 2%nat with (length [0; 4]). apply submseteq_length, NoDup_submseteq.
  - by apply NoDup_filter.
  - intros f [[-> | ->] _]%list_elem_of_filter; set_solver.
Qed.

Lemma prune_scan_ok a n root target v fs :
  arr_wf a -> 0 <= root < MAX_CANDIDATES_ALL -> take (length fs) v = fs -> zlen fs = n -> NoDup fs ->
  (forall f, f ∈ fs -> 0 <= f < 5) ->
  exists r, prune_scan a n root target v = Some r /\
    match r with
    | inl f => f ∈ fs
    | inr (cnt, idx) => zlen idx = 2 /\ cnt = zlen (filter is_04 fs) /\ take (Z.to_nat cnt) idx = filter is_04 fs
    end.
Proof.
  intros Hwf Hroot Hv Hn Hnd Hfs. unfold prune_scan.
  loop_inv (fun i (r : Z + Z * list Z) => match r with
    | inl f => f ∈ fs
    | inr (cnt, idx) => zlen idx = 2 /\ cnt = zlen (filter is_04 (take (Z.to_nat i) fs))
        /\ take (Z.to_nat cnt) idx = filter is_04 (take (Z.to_nat i) fs)
    end) as (r & E & H).
  - rewrite <- Hn. apply zlen_nonneg.
  - done.
  - intros i [f | [cnt idx]] Hi HI; [by exists (inl f) |]. destruct HI as (Hl & Hc & Ht).
    destruct (lookup_lt_is_Some_2 fs (Z.to_nat i)) as [f Ef]; [unfold zlen in Hn; lia |].
    rewrite (prefix_get fs v i f) by (done || lia). cbn [mbind option_bind].
    assert (f ∈ fs) as Hin by by eapply list_elem_of_lookup_2.
    destruct (cell_some a f root) as [m Em]; [done | split; [by apply Hfs | done] |].
    rewrite Em. cbn [mbind option_bind].
    destruct (rnti m =? target); [by exists (inl f) |].
    replace (Z.to_nat (i + 1)) with (S (Z.to_nat i)) by lia.
    rewrite (take_S_r _ _ f), filter_app, filter_cons, filter_nil by done.
    set (F := filter is_04 (take (Z.to_nat i) fs)) in *.
    destruct (decide (is_04 f)) as [H04 | H04].
    + assert (((f =? 0) || (f =? 4)) = true) as -> by (apply orb_true_iff; rewrite !Z.eqb_eq; exact H04).
      assert (length (F ++ [f]) <= 2)%nat as H2.
      { assert (NoDup (take (S (Z.to_nat i)) fs)) as Hnd'.
        { rewrite <- (take_drop (S (Z.to_nat i)) fs) in Hnd. by apply NoDup_app in Hnd as [? _]. }
        pose proof (few_04 _ Hnd') as H2. by rewrite (take_S_r _ _ f), filter_app, filter_cons, filter_nil, decide_True in H2 by done. }
      rewrite length_app in H2. simpl in H2.
      rewrite zset_in by (rewrite Hc; unfold in_range, zlen in *; lia). cbn [mbind option_bind].
      eexists. split; [done |]. cbv iota beta. rewrite zlen_insert, zlen_app. split_and!; [done | rewrite Hc; done |].
      rewrite <- Ht. apply take_insert_next. rewrite Hc. unfold zlen in *. lia.
    + assert (((f =? 0) || (f =? 4)) = false) as ->.
      { apply orb_false_iff. rewrite !Z.eqb_neq. unfold is_04 in H04. tauto. }
      eexists. split; [done |]. cbv iota beta. rewrite app_nil_r. done.
  - exists r. split; [done |]. destruct r as [f | [cnt idx]]; [done |].
    rewrite take_ge in H by (rewrite <- Hn; unfold zlen; lia). exact H.
Qed.

Lemma prune_best_ok a n root v fs :
  arr_wf a -> 0 <= root < MAX_CANDIDATES_ALL -> take (length fs) v = fs -> zlen fs = n -> fs <> [] ->
  (forall f, f ∈ fs -> 0 <= f < 5) ->
  (forall f m, f ∈ fs -> cell a f root = Some m -> corr_ok (corr m)) ->
  exists f, prune_best a n root v = Some f /\ f ∈ fs.
Proof.
  intros Hwf Hroot Hv Hn Hne Hfs Hcorr. unfold prune_best.
  loop_inv (fun i (s : Z * float32) => (i = 0 /\ s = (0, f32_0)) \/ (0 < i /\ fst s ∈ fs)) as ([f c] & E & H).
  - rewrite <- Hn. apply zlen_nonneg.
  - by left.
  - intros i [f0 c0] Hi HI.
    destruct (lookup_lt_is_Some_2 fs (Z.to_nat i)) as [f Ef]; [unfold zlen in Hn; lia |].
    rewrite (prefix_get fs v i f) by (done || lia). cbn [mbind option_bind].
    assert (f ∈ fs) as Hin by by eapply list_elem_of_lookup_2.
    destruct (cell_some a f root) as [m Em]; [done | split; [by apply Hfs | done] |].
    rewrite Em. cbn [mbind option_bind].
    destruct HI as [[-> [= -> ->]] | [H0 Hf0]].
    + rewrite (Hcorr f m Hin Em). eexists. split; [done |]. right. split; [lia | done].
    + destruct (f32_le c0 (corr m)); eexists; (split; [done |]); right; (split; [lia | done]).
  - rewrite E. cbn [mbind option_bind]. exists f. split; [done |]. destruct H as [[H0 _] | [_ H]]; [| done].
    destruct fs; [done |]. unfold zlen in Hn. simpl in Hn. lia.
Qed.

(** The pruning of a node with several matched formats chooses one of them. *)
Lemma prune_node_ok q m target f0 fs :
  arr_wf (dci_array q) -> 0 <= matched_root m < MAX_CANDIDATES_ALL -> offers (dci_array q) m fs ->
  (forall f x, f ∈ fs -> cell (dci_array q) f (matched_root m) = Some x -> corr_ok (corr x)) ->
  exists f, srsran_ngscope_tree_prune_node q (nof_matched m) (matched_root m) target (matched_format m) f0 = Some (1, f)
    /\ f ∈ fs.
Proof.
  intros Hwf Hr (Hne & Hnd & Hn & Hv & Hfs) Hcorr. unfold srsran_ngscope_tree_prune_node. cbv zeta.
  assert (forall f, f ∈ fs -> 0 <= f < 5) as Hrange by (intros f Hf; by apply Hfs).
  destruct (prune_scan_ok (dci_array q) (nof_matched m) (matched_root m) target (matched_format m) fs)
    as (r & -> & Hres); [done.. |]. cbn [mbind option_bind].
  destruct r as [f | [cnt idx]]; [by exists f |]. destruct Hres as (Hl & Hc & Ht).
  pose proof (few_04 fs Hnd) as H2.
  assert (forall k f, filter is_04 fs !! k = Some f -> f ∈ fs) as Hsub.
  { intros k f Hk. apply list_elem_of_lookup_2, list_elem_of_filter in Hk as [_ Hk]. done. }
  assert (forall k f, 0 <= k -> filter is_04 fs !! Z.to_nat k = Some f -> zget idx k = Some f) as Hidx.
  { intros k f Hk Hf. rewrite zget_lookup by done. rewrite <- Ht in Hf. apply lookup_take_Some in Hf as [Hf _]. done. }
  destruct (filter is_04 fs) as [| f [| g [| h l]]] eqn:EF.
  - rewrite Hc. change (zlen (@nil Z) =? 1) with false. change (zlen (@nil Z) =? 2) with false.
    change (zlen (@nil Z) =? 0) with true. cbv iota.
    destruct (prune_best_ok (dci_array q) (nof_matched m) (matched_root m) (matched_format m) fs) as (f & -> & Hf);
      [done.. |]. by exists f.
  - rewrite Hc. change (zlen [f] =? 1) with true. cbv iota. rewrite (Hidx 0 f) by done. cbn [mbind option_bind].
    exists f. split; [done | by apply (Hsub 0%nat)].
  - rewrite Hc. change (zlen [f; g] =? 1) with false. change (zlen [f; g] =? 2) with true. cbv iota.
    rewrite (Hidx 0 f), (Hidx 1 g) by done. cbn [mbind option_bind].
    assert (f ∈ fs) as Hf by by apply (Hsub 0%nat). assert (g ∈ fs) as Hg by by apply (Hsub 1%nat).
    destruct (cell_some (dci_array q) f (matched_root m)) as [x ->]; [done | split; [by apply Hrange | done] |].
    destruct (cell_some (dci_array q) g (matched_root m)) as [y ->]; [done | split; [by apply Hrange | done] |].
    cbn [mbind option_bind]. exists (if f32_lt (corr y) (corr x) then f else g). split; [done |]. by destruct (f32_lt _ _).
  - simpl in H2. lia.
Qed.

(** The scan over the parents of a block stays within the visited locations. *)
Lemma CP_loop_offers a start loc_idx target fuel i m :
  arr_wf a -> 0 <= start -> start + 15 <= MAX_CANDIDATES_ALL -> 0 <= i -> i + Z.of_nat fuel <= 7 ->
  zlen (matched_format m) = MAX_NOF_FORMAT + 1 -> nof_matched m = 0 -> target <> 0 ->
  exists m', CP_loop a start loc_idx target i fuel m = Some m' /\
    (0 < nof_matched m' -> start <= matched_root m' < start + 15 /\ matched_root m' <= loc_idx /\ exists fs, offers a m' fs).
Proof.
  intros Hwf Hs Hm. revert i m. induction fuel as [| fuel IH]; intros i m Hi Hf Hl Hn Ht; cbn [CP_loop].
  { exists m. split; [done | lia]. }
  destruct (Z.ltb_spec loc_idx (start + i)); [exists m; split; [done | lia] |].
  destruct (Z.ltb_spec loc_idx (start + 2 * i + 1)); [exists m; split; [done | lia] |]. cbn [orb].
  destruct (match_two_offers a (start + i) (start + 2 * i + 1) target (matched_root m) (matched_format m))
    as (m1 & -> & Hl1 & Hn1 & Ho); [done | lia.. | done | done |]. cbn [mbind option_bind].
  destruct (Z.ltb_spec 0 (nof_matched m1)) as [H1 | H1].
  - exists m1. split; [done |]. intros _. destruct (Ho H1) as [Hr Hfs]. split; [lia |]. split; [lia | done].
  - apply IH; [lia | lia | done | lia | done].
Qed.

Lemma CP_match_offers q b loc_idx target v :
  arr_wf (dci_array q) -> 0 <= b -> 15 * b + 15 <= MAX_CANDIDATES_ALL ->
  zlen v = MAX_NOF_FORMAT + 1 -> target <> 0 ->
  exists m, srsran_ngscope_tree_CP_match q b loc_idx target 0 (-1) v = Some m /\
    (0 < nof_matched m -> 15 * b <= matched_root m < 15 * b + 15 /\ matched_root m <= loc_idx
      /\ exists fs, offers (dci_array q) m fs).
Proof.
  intros Hwf Hb Hm Hv Ht. unfold srsran_ngscope_tree_CP_match.
  destruct (CP_loop_offers (dci_array q) (b * 15) loc_idx target 7 0 (Match v 0 0)) as (m & -> & H);
    [done || lia.. |]. cbn [mbind option_bind].
  destruct (Z.ltb_spec 0 (nof_matched m)) as [H1 | H1].
  - exists m. split; [done |]. intros _. specialize (H H1). replace (15 * b) with (b * 15) by lia. exact H.
  - eexists. split; [done |]. simpl. lia.
Qed.

(** Moving a cell to the output: it is zeroed, and appended to the list of its
    direction unless that is full. *)
Lemma copy_from_array_spec q s f idx m :
  arr_wf (dci_array q) -> in_array f idx -> cell (dci_array q) f idx = Some m -> per_sub_wf s ->
  exists a s', srsran_ngscope_tree_copy_dci_fromArray2PerSub q s f idx = Some (with_array q a, s') /\ arr_wf a
    /\ (forall i j, cell a i j = if decide (i = f /\ j = idx) then Some zero_msg else cell (dci_array q) i j)
    /\ per_sub_wf s' /\ timestamp s' = timestamp s
    /\ let g := with_format m (ngscope_index_to_format f) in
       ul_list s' = (if (f =? 0) && (nof_ul_dci s <? MAX_DCI_PER_SUB) then ul_list s ++ [g] else ul_list s) /\
       dl_list s' = (if negb (f =? 0) && (nof_dl_dci s <? MAX_DCI_PER_SUB) then dl_list s ++ [g] else dl_list s).
Proof.
  intros Hwf Hin Em Hs. destruct Hs as [Hd Hu Hnd Hnu]. pose proof Hin as [Hf Hi].
  unfold srsran_ngscope_tree_copy_dci_fromArray2PerSub.
  destruct (Z.ltb_spec f 0); [lia |]. destruct (Z.ltb_spec idx 0); [lia |].
  destruct (Z.leb_spec MAX_CANDIDATES_ALL idx); [lia |]. cbn [orb].
  destruct (set_cell_spec (dci_array q) f idx zero_msg Hwf Hin) as (a & Ea & Hwfa & HC).
  destruct (Z.eqb_spec f 0) as [-> | Hf0]; cbn [andb negb].
  - destruct (Z.ltb_spec (nof_ul_dci s) MAX_DCI_PER_SUB).
    + rewrite Em. cbn [mbind option_bind]. rewrite zset_in by (unfold in_range; lia). cbn [mbind option_bind].
      rewrite Ea. cbn [mbind option_bind]. eexists a, _. split; [done |]. split; [done |]. split; [done |].
      split; [split; simpl; rewrite ?zlen_insert; lia |]. split; [done |]. cbv zeta. split; [| done].
      unfold ul_list. simpl. apply take_insert_next. lia.
    + cbn [mbind option_bind]. rewrite Ea. cbn [mbind option_bind]. exists a, s. done.
  - destruct (Z.ltb_spec (nof_dl_dci s) MAX_DCI_PER_SUB).
    + rewrite Em. cbn [mbind option_bind]. rewrite zset_in by (unfold in_range; lia). cbn [mbind option_bind].
      rewrite Ea. cbn [mbind option_bind]. eexists a, _. split; [done |]. split; [done |]. split; [done |].
      split; [split; simpl; rewrite ?zlen_insert; lia |]. split; [done |]. cbv zeta. split; [done |].
      unfold dl_list. simpl. apply take_insert_next. lia.
    + cbn [mbind option_bind]. rewrite Ea. cbn [mbind option_bind]. exists a, s. done.
Qed.

(** Columns pairwise without common CCEs. *)
Fixpoint apart (l : list Z) : Prop :=
  match l with [] => True | c :: l => Forall (fun d => ~ overlap c d) l /\ apart l end.

Lemma overlap_sym i j : overlap i j -> overlap j i.
Proof. unfold overlap. intuition lia. Qed.

Lemma apart_insert l1 l2 c : apart (l1 ++ l2) -> Forall (fun d => ~ overlap c d) (l1 ++ l2) -> apart (l1 ++ c :: l2).
Proof.
  induction l1 as [| d l1 IH]; simpl; [done |]. intros [H1 H2] H3. apply Forall_cons in H3 as [H3 H4].
  split; [| by apply IH]. apply Forall_app in H1 as [H1 H1']. apply Forall_app. split; [done |].
  apply Forall_cons. split; [| done]. intros Ho. by apply H3, overlap_sym.
Qed.

(** A later location that overlaps lies within. *)
Lemma overlap_later i j : 0 <= i -> i <= j -> overlap i j -> inside i j.
Proof.
  unfold overlap, inside. intros Hi Hij (Hb & H1 & H2). split; [done |].
  assert (0 <= i mod 15 < 15) as Hk by lia. assert (0 <= j mod 15 < 15) as Hk' by lia.
  assert (i mod 15 <= j mod 15) as Hle by lia.
  set (k := i mod 15) in *. set (k' := j mod 15) in *. clearbody k k'. clear Hi Hij Hb.
  assert (forallb (fun k => forallb (fun k' => implb ((k <=? k') && overlap_node k k') (inside_node k k'))
    (seqZ 0 15)) (seqZ 0 15) = true) as HB by (vm_compute; reflexivity).
  rewrite forallb_forall in HB. specialize (HB k). rewrite <- list_elem_of_In, elem_of_seqZ in HB.
  specialize (HB ltac:(lia)). rewrite forallb_forall in HB. specialize (HB k').
  rewrite <- list_elem_of_In, elem_of_seqZ in HB. specialize (HB ltac:(lia)).
  unfold overlap_node in HB. rewrite (proj2 (Z.leb_le _ _) Hle), (proj2 (Z.ltb_lt _ _) H1), (proj2 (Z.ltb_lt _ _) H2) in HB.
  apply andb_true_iff in HB as [A%Z.leb_le B%Z.leb_le]. done.
Qed.

(** Zeroing every cell of a grid. *)
Lemma zero_all (ps : list (Z * Z)) a :
  arr_wf a -> (forall i j, (i, j) ∈ ps -> in_array i j) ->
  exists a', foldM (fun a p => set_cell a (fst p) (snd p) zero_msg) a ps = Some a' /\ arr_wf a' /\
    forall i j, cell a' i j = if decide ((i, j) ∈ ps) then Some zero_msg else cell a i j.
Proof.
  revert a. induction ps as [| [i j] ps IH]; intros a Hwf Hin.
  { exists a. split; [done |]. split; [done |]. intros i j. by rewrite decide_False by apply not_elem_of_nil. }
  cbn [foldM fst snd]. destruct (set_cell_spec a i j zero_msg) as (a1 & -> & Hwf1 & HC1); [done | apply Hin; by left |].
  destruct (IH a1 Hwf1) as (a2 & -> & Hwf2 & HC2); [intros; apply Hin; by right |].
  exists a2. split; [done |]. split; [done |]. intros i' j'. rewrite HC2, HC1.
  assert ((i', j') ∈ (i, j) :: ps <-> (i' = i /\ j' = j) \/ (i', j') ∈ ps) as HM.
  { rewrite elem_of_cons. split; [intros [[= -> ->] | ?]; tauto | intros [[-> ->] | ?]; tauto]. }
  repeat case_decide; tauto.
Qed.

Lemma tree_init_spec q :
  arr_wf (dci_array q) -> zlen (dci_location q) = MAX_CANDIDATES_ALL ->
  exists a l, ngscope_tree_init q = Some (Tree a l 0 0) /\ arr_wf a /\ zlen l = MAX_CANDIDATES_ALL
    /\ forall i j m, cell a i j = Some m -> m = zero_msg.
Proof.
  intros Hwf Hl. unfold ngscope_tree_init, for_range. rewrite !Z.sub_0_r.
  destruct (zero_all (i ← seqZ 0 (MAX_NOF_FORMAT + 1); j ← seqZ 0 MAX_CANDIDATES_ALL; [(i, j)]) (dci_array q))
    as (a & Ea & Hwf' & HC); [done | |].
  { intros i j [Hi%elem_of_seqZ Hj%elem_of_seqZ]%elem_of_grid. split; lia. }
  rewrite <- foldM_nest in Ea. cbn [fst snd] in Ea. rewrite Ea. cbn [mbind option_bind].
  destruct (zero_loop zero_loc (dci_location q) MAX_CANDIDATES_ALL) as (l & El & Hll); [rewrite Hl; done |].
  unfold for_range in El. rewrite Z.sub_0_r in El. rewrite El. cbn [mbind option_bind].
  exists a, l. split; [done |]. split; [done |]. split; [lia |]. intros i j m Em.
  destruct (cell_in a i j m Hwf' Em) as [Hi Hj]. rewrite HC, decide_True in Em; [by injection Em as <- |].
  apply elem_of_grid. rewrite !elem_of_seqZ. lia.
Qed.

(** Two messages that share no CCE. *)
Definition cce_disjoint (m m' : ngscope_dci_msg_t) : Prop :=
  loc_ncce (loc m) + 2 ^ loc_L (loc m) <= loc_ncce (loc m') \/
  loc_ncce (loc m') + 2 ^ loc_L (loc m') <= loc_ncce (loc m).

(** A message at the place of column [j]. *)
Definition msg_at (j : Z) (m : ngscope_dci_msg_t) : Prop :=
  loc_L (loc m) = node_L (j mod 15) /\ loc_ncce (loc m) = node_cce (j / 15) (j mod 15).

Lemma node_end k : 0 <= k < 15 -> 0 <= node_off k /\ node_off k + 2 ^ node_L k <= 8.
Proof. intros Hk. zenum k 15; vm_compute; intuition discriminate. Qed.

Lemma apart_disjoint c d m m' :
  0 <= c -> 0 <= d -> msg_at c m -> msg_at d m' -> ~ overlap c d -> cce_disjoint m m'.
Proof.
  intros Hc Hd [L1 N1] [L2 N2] Ho. unfold cce_disjoint, overlap in *. rewrite L1, N1, L2, N2. unfold node_cce.
  pose proof (node_end (c mod 15) ltac:(lia)). pose proof (node_end (d mod 15) ltac:(lia)).
  destruct (Z.lt_trichotomy (c / 15) (d / 15)) as [Hb | [Hb | Hb]]; [left; lia | | right; lia].
  rewrite Hb. destruct (Z_le_gt_dec (node_off (c mod 15) + 2 ^ node_L (c mod 15)) (node_off (d mod 15))); [left; lia | right].
  destruct (Z_le_gt_dec (node_off (d mod 15) + 2 ^ node_L (d mod 15)) (node_off (c mod 15))); [lia |].
  exfalso. apply Ho. lia.
Qed.
