(* ===== verification/DciSearch.v ===== *)
(** * The blind search over the control region ([lib/src/phy/ue/ngscope.c])

    Every candidate location of the subframe is decoded in all formats; a message
    is accepted when its RNTI is a broadcast one, when it is the target's, or when
    a parent location and its left child decode to the same RNTI. Accepting the
    message of a location rules out the locations that share CCEs with it. *)

From S2P Require Import Prelude NgTypes SearchSpace DciTree.

(** [0.4f]. *)
Definition f32_0_4 : float32 := S754_finite false 13421773 (-25).

(** Does a new location intersect one that is already allocated? *)
Definition dci_location_is_allocated (allocated_locations : list srsran_dci_location_t)
    (new_loc : srsran_dci_location_t) : bool :=
  existsb (fun a =>
    let L := Z.shiftl 1 (loc_L a) in
    let new_L := Z.shiftl 1 (loc_L new_loc) in
    let ncce := loc_ncce a in
    ((ncce <=? loc_ncce new_loc) && (loc_ncce new_loc <? ncce + L))
    || ((loc_ncce new_loc <=? ncce) && (ncce <? loc_ncce new_loc + new_L))) allocated_locations.

Section Search.
(** The payload of a message, the locations allocated to other DCIs, and the
    signal-processing functions of the PHY: the Viterbi decoder of one format at
    one location ([None] is its error return), the correlation with the re-encoded
    message, and the translation of a message to a grant ([None] on failure). *)
Context {payload : Type}.

Record srsran_dci_msg_t := MkDciMsg {
  dm_format : srsran_dci_format_t; dm_rnti : Z; dm_nof_bits : Z; dm_decode_prob : float32; dm_corr : float32;
  dm_payload : payload
}.

Context (allocated_locations : list srsran_dci_location_t)
  (srsran_pdcch_decode_msg_yx : srsran_dci_format_t -> srsran_dci_location_t -> option srsran_dci_msg_t)
  (srsran_pdcch_msg_corr : srsran_dci_msg_t -> float32)
  (srsran_ngscope_unpack_ul_dci_2grant : srsran_dci_msg_t -> option (srsran_dci_ul_t * srsran_pusch_grant_t))
  (srsran_ngscope_unpack_dl_dci_2grant : srsran_dci_msg_t -> option (srsran_dci_dl_t * srsran_pdsch_grant_t)).

(** The formats of [search_space], in their order; [nof_formats] is 4 in both
    branches of the code. *)
Definition search_formats : list srsran_dci_format_t :=
  [SRSRAN_DCI_FORMAT1; SRSRAN_DCI_FORMAT1A; SRSRAN_DCI_FORMAT1C; SRSRAN_DCI_FORMAT2].

(** One format at one location: skipped when empty or uncorrelated. *)
Definition search_format (l : srsran_dci_location_t) (msgs : list srsran_dci_msg_t) (f : srsran_dci_format_t)
  : option (list srsran_dci_msg_t) :=
  m ← srsran_pdcch_decode_msg_yx f l;
  if 0 <? dm_nof_bits m then
    let c := srsran_pdcch_msg_corr m in
    if negb (f32_isnormal c) || f32_lt c f32_0_4 then Some msgs
    else Some (msgs ++ [MkDciMsg (dm_format m) (dm_rnti m) (dm_nof_bits m) (dm_decode_prob m) c (dm_payload m)])
  else Some msgs.

(** Number of messages (or -1) and the messages, for the one location given. *)
Definition srsran_ngscope_search_in_space_yx (l : srsran_dci_location_t) : Z * list srsran_dci_msg_t :=
  if dci_location_is_allocated allocated_locations l then (0, [])
  else match foldM (search_format l) [] search_formats with
       | Some msgs => (zlen msgs, msgs)
       | None => (-1, [])
       end.

Definition unpack_one (loc_idx : Z) (tree : ngscope_tree_t) (m : srsran_dci_msg_t) : option ngscope_tree_t :=
  if bool_decide (dm_format m = SRSRAN_DCI_FORMAT0) then
    match srsran_ngscope_unpack_ul_dci_2grant m with
    | Some (d, g) =>
        l ← zget (dci_location tree) loc_idx;
        a ← srsran_ngscope_dci_into_array_ul (dci_array tree) 0 loc_idx l (dm_decode_prob m) (dm_corr m) d g;
        Some (with_array tree a)
    | None => Some tree
    end
  else
    match srsran_ngscope_unpack_dl_dci_2grant m with
    | Some (d, g) =>
        l ← zget (dci_location tree) loc_idx;
        a ← srsran_ngscope_dci_into_array_dl (dci_array tree) (ngscope_format_to_index (dm_format m)) loc_idx l
              (dm_decode_prob m) (dm_corr m) d g;
        Some (with_array tree a)
    | None => Some tree
    end.

Definition unpack_dci_message_vec (dci_msg : list srsran_dci_msg_t) (nof_dci loc_idx : Z) (tree : ngscope_tree_t)
  : option ngscope_tree_t :=
  for_range 0 nof_dci (fun tree j => m ← zget dci_msg j; unpack_one loc_idx tree m) tree.

Definition copy_dci_to_output (tree : ngscope_tree_t) (s : ngscope_dci_per_sub_t) (format_idx loc_idx : Z)
  : option (ngscope_tree_t * ngscope_dci_per_sub_t) :=
  '(tree, s) ← srsran_ngscope_tree_copy_dci_fromArray2PerSub tree s format_idx loc_idx;
  tree ← srsran_ngscope_tree_check_nodes tree loc_idx;
  tree ← srsran_ngscope_tree_clear_dciArray_nodes tree loc_idx;
  Some (tree, s).

Definition child_parent_match (tree : ngscope_tree_t) (s : ngscope_dci_per_sub_t) (loc_idx blk_idx targetRNTI : Z)
  : option (Z * ngscope_tree_t * ngscope_dci_per_sub_t) :=
  m ← srsran_ngscope_tree_CP_match tree blk_idx loc_idx targetRNTI 0 (-1) [0; 0; 0; 0; 0];
  if 0 <? nof_matched m then
    f ← zget (matched_format m) 0;
    '(pruned_nof_dci, f) ← (if 1 <? nof_matched m then
        srsran_ngscope_tree_prune_node tree (nof_matched m) (matched_root m) targetRNTI (matched_format m) f
      else Some (1, f));
    if pruned_nof_dci =? 1 then
      '(tree, s) ← copy_dci_to_output tree s f (matched_root m); Some (1, tree, s)
    else Some (0, tree, s)
  else Some (0, tree, s).

(** The variables of the search loop. *)
Record search_t := SearchSt { ss_tree : ngscope_tree_t; ss_out : ngscope_dci_per_sub_t; ss_found : Z }.

(** The paging search of a location whose first CCE is 0. *)
Definition search_paging (loc_idx : Z) (l : srsran_dci_location_t) (st : search_t) : option search_t :=
  if loc_ncce l =? 0 then
    let '(n, msgs) := srsran_ngscope_search_in_space_yx l in
    tree ← unpack_dci_message_vec msgs n loc_idx (ss_tree st);
    f ← srsran_ngscope_tree_find_rnti_range tree loc_idx 0xFFF4 0xFFFF;
    if 0 <=? f then
      '(tree, s) ← copy_dci_to_output tree (ss_out st) f loc_idx; Some (SearchSt tree s (ss_found st + 1))
    else Some (SearchSt tree (ss_out st) (ss_found st))
  else Some st.

(** The search of all formats, and the matching. *)
Definition search_normal (blk_idx targetRNTI loc_idx : Z) (l : srsran_dci_location_t) (st : search_t) : option search_t :=
  let '(n, msgs) := srsran_ngscope_search_in_space_yx l in
  tree ← unpack_dci_message_vec msgs n loc_idx (ss_tree st);
  '(found, tree, s) ← child_parent_match tree (ss_out st) loc_idx blk_idx targetRNTI;
  locs ← set_checked (dci_location tree) loc_idx true;
  Some (SearchSt (with_location tree locs) s (ss_found st + found)).

(** One pass of the inner loop, at [loc_idx]; every path moves to the next index. *)
Definition search_loc (blk_idx targetRNTI loc_idx : Z) (st : search_t) : option search_t :=
  l ← zget (dci_location (ss_tree st)) loc_idx;
  if loc_checked l || f32_lt (loc_mean_llr l) LLR_RATIO then Some st
  else
    st ← search_paging loc_idx l st;
    l' ← zget (dci_location (ss_tree st)) loc_idx;
    if loc_checked l' then Some st else search_normal blk_idx targetRNTI loc_idx l st.

(** The inner loop, with the shared index and its [break]. *)
Definition search_block (blk_idx targetRNTI : Z) (s : Z * search_t) : option (Z * search_t) :=
  for_range 0 15 (fun '(loc_idx, st) _ =>
    if nof_location (ss_tree st) <? loc_idx then Some (loc_idx, st)
    else st ← search_loc blk_idx targetRNTI loc_idx st; Some (loc_idx + 1, st)) s.

Fixpoint search_while (fuel : nat) (blk_idx targetRNTI loc_idx : Z) (st : search_t) : option search_t :=
  if loc_idx <? nof_location (ss_tree st) then
    match fuel with
    | O => None
    | S n =>
        '(loc_idx, st) ← search_block blk_idx targetRNTI (loc_idx, st);
        search_while n (blk_idx + 1) targetRNTI loc_idx st
    end
  else Some st.

(** At most 12 blocks of 15 locations. *)
Definition search_fuel : nat := 13.

(** [fft] is the result of the channel estimation; [tti] that of the subframe. *)
Definition srsran_ngscope_search_all_space_array_yx (fft : Z) (pdcch : srsran_pdcch_t) (cfi tti : Z)
    (s : ngscope_dci_per_sub_t) (tree : ngscope_tree_t) (targetRNTI : Z)
  : option (Z * ngscope_tree_t * ngscope_dci_per_sub_t) :=
  let s := PerSub (dl_msg s) 0 (ul_msg s) 0 (timestamp s) in
  if fft <? 0 then Some (0, tree, s)
  else
    tree ← ngscope_tree_init tree;
    '(_, tree) ← ngscope_tree_set_locations tree pdcch cfi;
    nof_cce ← srsran_pdcch_get_nof_location_yx pdcch cfi;
    let tree := ngscope_tree_set_cce tree nof_cce in
    st ← search_while search_fuel 0 targetRNTI 0 (SearchSt tree s 0);
    '(_, tree, s) ← srsran_ngscope_tree_copy_rnti (ss_tree st) (ss_out st) targetRNTI;
    tree ← srsran_ngscope_dci_prune tree (tti mod 10);
    Some (ss_found st, tree, s).

(** ** What the decoding stores *)

(** The decoder answers with a format that has a row: it may turn a 1A into a 0. *)
Hypothesis decoder_formats : forall f l m, f ∈ search_formats ->
  srsran_pdcch_decode_msg_yx f l = Some m -> 0 <= ngscope_format_to_index (dm_format m).

Lemma corr_threshold c : f32_isnormal c = true -> f32_lt c f32_0_4 = false -> corr_ok c.
Proof. destruct c as [| | | [] m e]; try done. Qed.

Lemma format_index_range f : ngscope_format_to_index f < MAX_NOF_FORMAT + 1.
Proof. by destruct f. Qed.

Definition msg_ok (m : srsran_dci_msg_t) : Prop :=
  0 <= ngscope_format_to_index (dm_format m) /\ corr_ok (dm_corr m).

Lemma search_in_space_ok l n msgs :
  srsran_ngscope_search_in_space_yx l = (n, msgs) -> n <= zlen msgs /\ Forall msg_ok msgs.
Proof.
  unfold srsran_ngscope_search_in_space_yx. destruct (dci_location_is_allocated _ _); [by intros [= <- <-] |].
  assert (forall fs ms, fs ⊆ search_formats -> Forall msg_ok ms ->
    match foldM (search_format l) ms fs with Some ms' => Forall msg_ok ms' | None => True end) as H.
  { induction fs as [| f fs IH]; intros ms Hfs Hms; [done |]. cbn [foldM]. unfold search_format at 1.
    destruct (srsran_pdcch_decode_msg_yx f l) as [m |] eqn:Em; [| done]. cbn [mbind option_bind].
    assert (fs ⊆ search_formats) as Hfs' by (intros x Hx; apply Hfs; by right).
    destruct (0 <? dm_nof_bits m); [| by apply IH]. cbv zeta.
    destruct (negb (f32_isnormal _) || f32_lt _ _) eqn:Eb; [by apply IH |].
    apply orb_false_iff in Eb as [En%negb_false_iff Ef]. apply IH; [done |].
    apply Forall_app. split; [done |]. apply Forall_singleton. split; simpl.
    - eapply decoder_formats; [| exact Em]. apply Hfs. by left.
    - by apply corr_threshold. }
  specialize (H search_formats [] (fun _ Hx => Hx) (Forall_nil_2 _)).
  destruct (foldM _ _ _) as [ms |]; intros [= <- <-]; [split; [lia | done] |].
  split; [unfold zlen; simpl; lia | apply Forall_nil_2].
Qed.

(** A stored message carries its location and an admissible correlation. *)
Definition cell_ok (l : srsran_dci_location_t) (m : ngscope_dci_msg_t) : Prop :=
  rnti m <> 0 -> loc_L (loc m) = loc_L l /\ loc_ncce (loc m) = loc_ncce l /\ corr_ok (corr m).

(** Filling column [p]: the rest of the array is untouched. *)
Definition filled (p : Z) (l : srsran_dci_location_t) (a a' : list (list ngscope_dci_msg_t)) : Prop :=
  arr_wf a' /\ (forall i j, j <> p -> cell a' i j = cell a i j)
  /\ ((forall i m, cell a i p = Some m -> cell_ok l m) -> forall i m, cell a' i p = Some m -> cell_ok l m).

Lemma filled_refl p l a : arr_wf a -> filled p l a a.
Proof. done. Qed.

Lemma filled_trans p l a b c : filled p l a b -> filled p l b c -> filled p l a c.
Proof.
  intros (_ & H1 & K1) (Hwf & H2 & K2). split; [done |]. split; [| tauto].
  intros i j Hj. by rewrite H2, H1.
Qed.

(** One cell of the column receives an admissible message. *)
Lemma filled_set p l a i (g : ngscope_dci_msg_t -> ngscope_dci_msg_t) :
  arr_wf a -> in_array i p -> (forall m, cell_ok l (g m)) ->
  exists a', (m ← cell a i p; set_cell a i p (g m)) = Some a' /\ filled p l a a'.
Proof.
  intros Hwf Hin Hg. destruct (cell_some a i p Hwf Hin) as [m Em]. rewrite Em. cbn [mbind option_bind].
  destruct (set_cell_spec a i p (g m) Hwf Hin) as (a' & -> & Hwf' & HC). exists a'. split; [done |].
  split; [done |]. split.
  - intros i' j Hj. rewrite HC. by destruct (decide (i' = i /\ j = p)) as [[_ ->] |].
  - intros H i' m' E. rewrite HC in E. destruct (decide (i' = i /\ p = p)); [injection E as <-; apply Hg | by eapply H].
Qed.

Lemma unpack_one_ok tree p l m :
  arr_wf (dci_array tree) -> 0 <= p < MAX_CANDIDATES_ALL -> zget (dci_location tree) p = Some l -> msg_ok m ->
  exists a, unpack_one p tree m = Some (with_array tree a) /\ filled p l (dci_array tree) a.
Proof.
  intros Hwf Hp El [Hf Hcorr]. pose proof (format_index_range (dm_format m)) as Hf'.
  unfold unpack_one. case_bool_decide as E0.
  - destruct (srsran_ngscope_unpack_ul_dci_2grant m) as [[d g] |].
    + rewrite El. cbn [mbind option_bind]. unfold srsran_ngscope_dci_into_array_ul.
      destruct (filled_set p l (dci_array tree) 0 (fun c => ul_into c l (dm_decode_prob m) (dm_corr m) d g))
        as (a & -> & Ha); [done | done | by intros c _ |]. cbn [mbind option_bind]. by exists a.
    + exists (dci_array tree). split; [by destruct tree | by apply filled_refl].
  - destruct (srsran_ngscope_unpack_dl_dci_2grant m) as [[d g] |].
    + rewrite El. cbn [mbind option_bind]. unfold srsran_ngscope_dci_into_array_dl.
      destruct (filled_set p l (dci_array tree) (ngscope_format_to_index (dm_format m))
        (fun c => dl_into c l (dm_decode_prob m) (dm_corr m) d g))
        as (a & -> & Ha); [done | done | by intros c _ |]. cbn [mbind option_bind]. by exists a.
    + exists (dci_array tree). split; [by destruct tree | by apply filled_refl].
Qed.

Lemma unpack_vec_ok tree p l n msgs :
  arr_wf (dci_array tree) -> 0 <= p < MAX_CANDIDATES_ALL -> zget (dci_location tree) p = Some l ->
  n <= zlen msgs -> Forall msg_ok msgs ->
  exists a, unpack_dci_message_vec msgs n p tree = Some (with_array tree a) /\ filled p l (dci_array tree) a.
Proof.
  intros Hwf Hp El Hn Hms. unfold unpack_dci_message_vec.
  destruct (Z_le_gt_dec n 0) as [H0 | H0].
  { exists (dci_array tree). unfold for_range. rewrite seqZ_nil by lia. split; [by destruct tree | by apply filled_refl]. }
  loop_inv (fun (_ : Z) t => exists a, t = with_array tree a /\ filled p l (dci_array tree) a) as (t & E & a & -> & Ha).
  - lia.
  - exists (dci_array tree). split; [by destruct tree | by apply filled_refl].
  - intros i t Hi (a & -> & Ha). destruct (zget_some msgs i) as [m Em]; [unfold in_range; lia |].
    rewrite Em. cbn [mbind option_bind].
    destruct (unpack_one_ok (with_array tree a) p l m) as (b & -> & Hb);
      [apply Ha | done | done | | exists (with_array tree b); split; [done |]; exists b; split; [done | by eapply filled_trans]].
    rewrite zget_lookup in Em by lia. by eapply Forall_lookup_1.
  - by exists a.
Qed.

(** ** The invariant of the search *)

(** An accepted location: those overlapping it are empty, and those still to come
    are marked. *)
Definition blocked (p c : Z) (tree : ngscope_tree_t) : Prop :=
  forall j, overlap c j -> (forall i m, cell (dci_array tree) i j = Some m -> rnti m = 0)
    /\ (p <= j -> exists x, zget (dci_location tree) j = Some x /\ loc_checked x = true).

(** [N] locations; the columns from [z] on are empty, the locations before [p] done. *)
Record search_inv (N z p : Z) (tree : ngscope_tree_t) (s : ngscope_dci_per_sub_t) : Prop := SearchInv {
  si_arr : arr_wf (dci_array tree);
  si_locs : zlen (dci_location tree) = MAX_CANDIDATES_ALL;
  si_nof : nof_location tree = N;
  si_layout : forall j, 0 <= j < N -> exists x, zget (dci_location tree) j = Some x /\ node_of (j / 15) (j mod 15) x;
  si_future : forall i j m, z <= j -> cell (dci_array tree) i j = Some m -> rnti m = 0;
  si_cells : forall i j m, cell (dci_array tree) i j = Some m -> rnti m <> 0 -> j < N /\ msg_at j m /\ corr_ok (corr m);
  si_out : per_sub_wf s;
  si_cols : exists Cd Cu,
    Forall2 msg_at Cd (dl_list s) /\ Forall2 msg_at Cu (ul_list s) /\ apart (Cd ++ Cu)
    /\ forall c, c ∈ Cd ++ Cu -> 0 <= c < N /\ blocked p c tree
}.

Lemma msg_at_format j m f : msg_at j m -> msg_at j (with_format m f).
Proof. done. Qed.

Lemma block_same N i j : N mod 15 = 0 -> 0 <= i < N -> overlap i j -> 0 <= j < N.
Proof. unfold overlap. intros HN Hi (Hb & _). lia. Qed.

Lemma blocked_weaken p p' c t : p <= p' -> blocked p c t -> blocked p' c t.
Proof. intros Hp H j Ho. destruct (H j Ho) as [H1 H2]. split; [done |]. intros. apply H2. lia. Qed.

Lemma inv_weaken N z z' p p' t s : z <= z' -> p <= p' -> search_inv N z p t s -> search_inv N z' p' t s.
Proof.
  intros Hz Hp [H1 H2 H3 H4 H5 H6 H7 (Cd & Cu & K1 & K2 & K3 & K4)]. split; try done.
  - intros i j m Hj. apply H5. lia.
  - exists Cd, Cu. split_and!; [done.. |]. intros c Hc. destruct (K4 c Hc). split; [done |]. by eapply blocked_weaken.
Qed.

(** Accepting the message of a visited location keeps the invariant. *)
Lemma copy_to_output_inv N z p t s f r m :
  N mod 15 = 0 -> N <= MAX_CANDIDATES_ALL -> search_inv N z p t s ->
  in_array f r -> r <= p -> cell (dci_array t) f r = Some m -> rnti m <> 0 ->
  exists t' s', copy_dci_to_output t s f r = Some (t', s') /\ search_inv N z p t' s'
    /\ exists x, zget (dci_location t') r = Some x /\ loc_checked x = true.
Proof.
  intros HN Hmax [Harr Hlocs Hnof Hlay Hfut Hcells Hout Hcols] Hin Hrp Em Hrn.
  destruct (Hcells f r m Em Hrn) as (HrN & Hat & Hcorr). pose proof Hin as [Hf Hr].
  unfold copy_dci_to_output.
  destruct (copy_from_array_spec t s f r m) as (a1 & s' & -> & Hwf1 & HC1 & Hwf' & _ & Hul & Hdl); [done.. |].
  cbn [mbind option_bind].
  destruct (check_nodes_spec (with_array t a1) r) as (l' & -> & Hl' & HL'); [done | done |]. cbn [mbind option_bind].
  destruct (clear_nodes_spec (with_location (with_array t a1) l') r) as (a2 & -> & Hwf2 & HC2); [done | done |].
  cbn [mbind option_bind dci_array with_location with_array] in HC2 |- *. cbn [dci_location with_array] in HL'.
  eexists _, s'. split; [done |].
  assert (inside r r) as Hrr by (unfold inside; lia).
  assert (forall i j x, cell a2 i j = Some x -> rnti x <> 0 -> cell (dci_array t) i j = Some x /\ ~ overlap r j) as Hback.
  { intros i j x Ex Hx. pose proof (cell_in a2 i j x Hwf2 Ex) as Hij. rewrite HC2 in Ex by done.
    destruct (decide (overlap r j)) as [Ho | Ho]; [injection Ex as <-; done |].
    rewrite HC1 in Ex. destruct (decide (i = f /\ j = r)); [injection Ex as <-; done | done]. }
  split.
  - split; cbn [dci_array dci_location nof_location with_array with_location].
    + done.
    + done.
    + done.
    + intros j Hj. destruct (Hlay j Hj) as (x & Ex & [Hx1 Hx2]). destruct (HL' j x Ex) as (x' & Ex' & A & B & _ & _).
      exists x'. split; [done |]. split; congruence.
    + intros i j x Hj Ex. destruct (Z.eq_dec (rnti x) 0) as [| Hx]; [done |].
      destruct (Hback i j x Ex Hx) as [Ex' _]. by eapply Hfut.
    + intros i j x Ex Hx. destruct (Hback i j x Ex Hx) as [Ex' _]. by eapply Hcells.
    + done.
    + destruct Hcols as (Cd & Cu & K1 & K2 & K3 & K4).
      assert (forall c, (c = r \/ c ∈ Cd ++ Cu) -> 0 <= c < N /\
        blocked p c (with_array (with_location (with_array t a1) l') a2)) as Hbl.
      { intros c Hc. assert (0 <= c < N) as HcN by (destruct Hc as [-> | Hc]; [lia | by apply K4]).
        split; [done |]. intros j Ho. cbn [dci_array dci_location with_array with_location].
        pose proof (block_same N c j HN HcN Ho) as HjN. split.
        - intros i x Ex. destruct (Z.eq_dec (rnti x) 0) as [| Hx]; [done |].
          destruct (Hback i j x Ex Hx) as [Ex' Hno]. destruct Hc as [-> | Hc]; [done |].
          destruct (K4 c Hc) as [_ Hb]. by eapply Hb.
        - intros Hpj. destruct (Hlay j HjN) as (x & Ex & _). destruct (HL' j x Ex) as (x' & Ex' & _ & _ & _ & Hchk).
          exists x'. split; [done |]. rewrite Hchk. destruct Hc as [-> | Hc].
          + rewrite decide_True; [done |]. apply overlap_later; [lia | lia | done].
          + destruct (K4 c Hc) as [_ Hb]. destruct (Hb j Ho) as [_ Hb']. destruct (Hb' Hpj) as (y & Ey & Hy).
            rewrite Ex in Ey. injection Ey as <-. rewrite Hy. by case_decide. }
      assert (Forall (fun d => ~ overlap r d) (Cd ++ Cu)) as Hapart.
      { apply Forall_forall. intros d Hd Ho. destruct (K4 d Hd) as [_ Hb].
        destruct (Hb r (overlap_sym _ _ Ho)) as [Hz _]. by apply Hrn, (Hz f m). }
      assert (msg_at r (with_format m (ngscope_index_to_format f))) as Hat' by by apply msg_at_format.
      rewrite Hul, Hdl.
      destruct ((f =? 0) && (nof_ul_dci s <? MAX_DCI_PER_SUB)) eqn:Eu;
        [| destruct (negb (f =? 0) && (nof_dl_dci s <? MAX_DCI_PER_SUB)) eqn:Ed].
      * assert ((f =? 0) = true) as -> by (apply andb_true_iff in Eu; tauto). cbn [negb andb].
        exists Cd, (Cu ++ [r]). split_and!; [done | apply Forall2_app; [done | by constructor] | |].
        -- rewrite app_assoc. apply apart_insert; by rewrite app_nil_r.
        -- intros c Hc. apply Hbl. rewrite app_assoc, elem_of_app, list_elem_of_singleton in Hc. tauto.
      * exists (Cd ++ [r]), Cu. split_and!; [apply Forall2_app; [done | by constructor] | done | |].
        -- rewrite <- app_assoc. by apply apart_insert.
        -- intros c Hc. apply Hbl. rewrite !elem_of_app, list_elem_of_singleton in Hc. rewrite elem_of_app. tauto.
      * exists Cd, Cu. split_and!; [done.. |]. intros c Hc. apply Hbl. by right.
  - destruct (zget_some (dci_location t) r) as [x Ex]; [unfold in_range; lia |].
    destruct (HL' r x Ex) as (x' & Ex' & _ & _ & _ & Hchk). exists x'. split; [done |]. by rewrite Hchk, decide_True.
Qed.

(** Decoding an unmarked location keeps the invariant; its column is then in use. *)
Lemma unpack_inv N z p t s l l0 n msgs :
  0 <= p < N -> N <= MAX_CANDIDATES_ALL -> p <= z <= p + 1 -> search_inv N z p t s ->
  zget (dci_location t) p = Some l -> loc_checked l = false ->
  srsran_ngscope_search_in_space_yx l0 = (n, msgs) ->
  exists a, unpack_dci_message_vec msgs n p t = Some (with_array t a) /\ search_inv N (p + 1) p (with_array t a) s.
Proof.
  intros Hp HN Hz Hinv El Hchk Es. pose proof Hinv as [Harr Hlocs Hnof Hlay Hfut Hcells Hout Hcols].
  destruct (search_in_space_ok l0 n msgs Es) as [Hn Hms].
  destruct (unpack_vec_ok t p l n msgs) as (a & -> & Hwf & Hother & Hcol); [done | lia | done.. |].
  exists a. split; [done |].
  assert (node_of (p / 15) (p mod 15) l) as Hl.
  { destruct (Hlay p Hp) as (x & Ex & Hx). rewrite El in Ex. by injection Ex as ->. }
  split; cbn [dci_array dci_location nof_location with_array]; try done.
  - intros i j m Hj Em. rewrite Hother in Em by lia. eapply Hfut; [| done]. lia.
  - intros i j m Em Hm. destruct (Z.eq_dec j p) as [-> | Hne].
    + destruct (Hcol) with (i := i) (m := m) as (A & B & C); [| done | done |].
      * intros i' m' Em' Hm'. destruct (Hcells i' p m' Em' Hm') as (_ & [A B] & C). destruct Hl as [L1 L2].
        split_and!; [congruence | congruence | done].
      * destruct Hl as [L1 L2]. split; [lia |]. split; [| done]. split; congruence.
    + rewrite Hother in Em by done. by eapply Hcells.
  - destruct Hcols as (Cd & Cu & K1 & K2 & K3 & K4). exists Cd, Cu. split_and!; [done.. |].
    intros c Hc. destruct (K4 c Hc) as [HcN Hb]. split; [done |]. intros j Ho.
    cbn [dci_array dci_location with_array]. destruct (Hb j Ho) as [H1 H2]. split; [| done].
    assert (j <> p) as Hne.
    { intros ->. destruct (H2 ltac:(lia)) as (x & Ex & Hx). rewrite El in Ex. injection Ex as <-. congruence. }
    intros i m Em. rewrite Hother in Em by done. by eapply H1.
Qed.

Lemma child_parent_match_inv N z p t s target :
  N mod 15 = 0 -> 0 <= p < N -> N <= MAX_CANDIDATES_ALL -> target <> 0 -> search_inv N z p t s ->
  exists n t' s', child_parent_match t s p (p / 15) target = Some (n, t', s') /\ search_inv N z p t' s'.
Proof.
  intros HN Hp Hmax Ht Hinv. pose proof (si_arr _ _ _ _ _ Hinv) as Harr. unfold child_parent_match.
  assert (0 <= p / 15 /\ 15 * (p / 15) + 15 <= N) as [Hb HbN] by (clear - HN Hp; lia).
  destruct (CP_match_offers t (p / 15) p target [0; 0; 0; 0; 0]) as (m & -> & Ho);
    [done | done | by etransitivity | done | done |].
  cbn [mbind option_bind].
  destruct (Z.ltb_spec 0 (nof_matched m)) as [Hm | Hm]; [| by exists 0, t, s].
  destruct (Ho Hm) as (Hr & Hrp & fs & Hof). pose proof Hof as (Hne & _ & Hn & Hv & Hfs).
  destruct fs as [| f0 fs0]; [done |]. set (fs := f0 :: fs0) in *.
  rewrite (prefix_get fs (matched_format m) 0 f0) by done. cbn [mbind option_bind].
  assert (exists f, (if 1 <? nof_matched m then
        srsran_ngscope_tree_prune_node t (nof_matched m) (matched_root m) target (matched_format m) f0
      else Some (1, f0)) = Some (1, f) /\ f ∈ fs) as (f & -> & Hf).
  { destruct (1 <? nof_matched m); [| exists f0; split; [done | by left]].
    destruct (prune_node_ok t m target f0 fs) as (f & E & Hf); [done | lia | done | | by exists f].
    intros f x Hf Ex. destruct (Hfs f Hf) as [_ Hrn]. unfold rnti_at in Hrn. rewrite Ex in Hrn.
    by destruct (si_cells _ _ _ _ _ Hinv f (matched_root m) x Ex Hrn) as (_ & _ & Hc). }
  cbn [mbind option_bind]. cbn [Z.eqb Pos.eqb].
  destruct (Hfs f Hf) as [Hf5 Hrn].
  assert (in_array f (matched_root m)) as Hin by (split; [done | lia]).
  destruct (cell_some (dci_array t) f (matched_root m) Harr Hin) as [x Ex].
  destruct (copy_to_output_inv N z p t s f (matched_root m) x) as (t' & s' & -> & Hinv' & _);
    [done | done | done | done | done | done | unfold rnti_at in Hrn; by rewrite Ex in Hrn |].
  cbn [mbind option_bind]. by exists 1, t', s'.
Qed.

Lemma find_range_ok a j lo hi i fuel :
  arr_wf a -> 0 <= j < MAX_CANDIDATES_ALL -> 0 <= i -> i + Z.of_nat fuel = MAX_NOF_FORMAT + 1 ->
  exists f, find_range a j lo hi i fuel = Some f /\
    (0 <= f -> 0 <= f < MAX_NOF_FORMAT + 1 /\ exists m, cell a f j = Some m /\ lo <= rnti m <= hi).
Proof.
  intros Hwf Hj. revert i. induction fuel as [| fuel IH]; intros i Hi Hf; cbn [find_range].
  { exists (-1). split; [done | lia]. }
  destruct (cell_some a i j Hwf) as [m Em]; [split; lia |]. rewrite Em. cbn [mbind option_bind].
  destruct ((lo <=? rnti m) && (rnti m <=? hi)) eqn:E; [| apply IH; lia].
  exists i. split; [done |]. intros _. split; [lia |]. exists m. split; [done | lia].
Qed.

Lemma search_paging_inv N p t s n l :
  N mod 15 = 0 -> 0 <= p < N -> N <= MAX_CANDIDATES_ALL ->
  search_inv N p p t s -> zget (dci_location t) p = Some l -> loc_checked l = false ->
  exists st, search_paging p l (SearchSt t s n) = Some st /\ search_inv N (p + 1) p (ss_tree st) (ss_out st).
Proof.
  intros HN Hp Hmax Hinv El Hchk. unfold search_paging.
  destruct (loc_ncce l =? 0).
  - destruct (srsran_ngscope_search_in_space_yx l) as [k msgs] eqn:Es. cbn [ss_tree ss_out ss_found].
    destruct (unpack_inv N p p t s l l k msgs) as (a & -> & Hinv'); [lia | lia | lia | done.. |]. cbn [mbind option_bind].
    unfold srsran_ngscope_tree_find_rnti_range.
    destruct (find_range_ok a p 0xFFF4 0xFFFF 0 5) as (f & Ef & Hf); [apply Hinv' | lia | lia | done |].
    change (Z.to_nat (MAX_NOF_FORMAT + 1)) with 5%nat. cbn [dci_array with_array]. rewrite Ef. cbn [mbind option_bind].
    destruct (Z.leb_spec 0 f) as [H0 | H0].
    + destruct (Hf H0) as (Hfr & m & Em & Hr).
      destruct (copy_to_output_inv N (p + 1) p (with_array t a) s f p m) as (t' & s' & -> & Hinv2 & _);
        [done | done | done | split; lia | lia | done | lia |].
      cbn [mbind option_bind]. by eexists.
    + by eexists.
  - eexists. split; [done |]. simpl. eapply inv_weaken; [| | done]; lia.
Qed.

(** Marking the location as done. *)
Lemma set_checked_inv N p t s :
  0 <= p < N -> N <= MAX_CANDIDATES_ALL -> search_inv N (p + 1) p t s ->
  exists locs, set_checked (dci_location t) p true = Some locs /\ search_inv N (p + 1) (p + 1) (with_location t locs) s.
Proof.
  intros Hp Hmax [Harr Hlocs Hnof Hlay Hfut Hcells Hout Hcols].
  destruct (Hlay p Hp) as (x & Ex & Hx).
  destruct (set_checked_step (dci_location t) p true x Ex) as (x' & -> & Hr & HL & HNc & HC).
  rewrite zset_in by done. eexists. split; [done |].
  split; cbn [dci_array dci_location nof_location with_location]; try done.
  - by rewrite zlen_insert.
  - intros j Hj. destruct (Z.eq_dec j p) as [-> | Hne].
    + exists x'. split; [by apply zget_insert_eq |]. destruct Hx. split; congruence.
    + rewrite zget_insert_ne by lia. by apply Hlay.
  - destruct Hcols as (Cd & Cu & K1 & K2 & K3 & K4). exists Cd, Cu. split_and!; [done.. |].
    intros c Hc. destruct (K4 c Hc) as [HcN Hb]. split; [done |]. intros j Ho.
    cbn [dci_array dci_location with_location]. destruct (Hb j Ho) as [H1 H2]. split; [done |].
    intros Hpj. rewrite zget_insert_ne by lia. apply H2. lia.
Qed.

Lemma search_loc_inv N p t s n target :
  N mod 15 = 0 -> 0 <= p < N -> N <= MAX_CANDIDATES_ALL -> target <> 0 -> search_inv N p p t s ->
  exists st, search_loc (p / 15) target p (SearchSt t s n) = Some st /\ search_inv N (p + 1) (p + 1) (ss_tree st) (ss_out st).
Proof.
  intros HN Hp Hmax Ht Hinv. unfold search_loc. cbn [ss_tree].
  destruct (si_layout _ _ _ _ _ Hinv p Hp) as (l & El & Hl). rewrite El. cbn [mbind option_bind].
  destruct (loc_checked l) eqn:Hchk; cbn [orb].
  { eexists. split; [done |]. simpl. eapply inv_weaken; [| | done]; lia. }
  destruct (f32_lt (loc_mean_llr l) LLR_RATIO).
  { eexists. split; [done |]. simpl. eapply inv_weaken; [| | done]; lia. }
  destruct (search_paging_inv N p t s n l) as ([t1 s1 n1] & -> & Hinv1); [done.. |].
  cbn [mbind option_bind ss_tree ss_out] in Hinv1 |- *.
  destruct (si_layout _ _ _ _ _ Hinv1 p Hp) as (l1 & El1 & Hl1). rewrite El1. cbn [mbind option_bind].
  destruct (loc_checked l1) eqn:Hchk1.
  { eexists. split; [done |]. simpl. eapply inv_weaken; [| | done]; lia. }
  unfold search_normal. destruct (srsran_ngscope_search_in_space_yx l) as [k msgs] eqn:Es. cbn [ss_tree ss_out ss_found].
  destruct (unpack_inv N (p + 1) p t1 s1 l1 l k msgs) as (a & -> & Hinv2); [lia | lia | lia | done.. |]. cbn [mbind option_bind].
  destruct (child_parent_match_inv N (p + 1) p (with_array t1 a) s1 target) as (c & t3 & s3 & -> & Hinv3); [done.. |].
  cbn [mbind option_bind].
  destruct (set_checked_inv N p t3 s3) as (locs & -> & Hinv4); [done.. |]. cbn [mbind option_bind].
  by eexists.
Qed.

Lemma search_block_inv N b t s n target :
  N mod 15 = 0 -> 0 <= b -> 15 * b < N -> N <= MAX_CANDIDATES_ALL -> target <> 0 -> search_inv N (15 * b) (15 * b) t s ->
  exists st, search_block b target (15 * b, SearchSt t s n) = Some (15 * b + 15, st)
    /\ search_inv N (15 * b + 15) (15 * b + 15) (ss_tree st) (ss_out st).
Proof.
  intros HN Hb HbN Hmax Ht Hinv. unfold search_block.
  loop_inv (fun i (s : Z * search_t) => fst s = 15 * b + i /\
    search_inv N (15 * b + i) (15 * b + i) (ss_tree (snd s)) (ss_out (snd s))) as ([p' st] & E & Hp & Hinv').
  - lia.
  - simpl. rewrite Z.add_0_r. done.
  - intros i [p [ti si ni]] Hi [Hp Hinvi]. cbn [fst snd ss_tree ss_out] in *. subst p.
    rewrite (si_nof _ _ _ _ _ Hinvi). destruct (Z.ltb_spec N (15 * b + i)); [lia |].
    destruct (search_loc_inv N (15 * b + i) ti si ni target) as (st & Est & Hst); [done | lia | done.. |].
    replace ((15 * b + i) / 15) with b in Est by lia. rewrite Est. cbn [mbind option_bind].
    eexists. split; [done |]. cbn [fst snd]. split; [lia |]. by replace (15 * b + (i + 1)) with (15 * b + i + 1) by lia.
  - rewrite E. simpl in Hp, Hinv'. subst p'. by exists st.
Qed.

Lemma search_while_inv N fuel b t s n target :
  N mod 15 = 0 -> 0 <= b -> 15 * b <= N -> N <= MAX_CANDIDATES_ALL -> target <> 0 -> N - 15 * b < 15 * Z.of_nat fuel ->
  search_inv N (15 * b) (15 * b) t s ->
  exists st, search_while fuel b target (15 * b) (SearchSt t s n) = Some st /\ search_inv N N N (ss_tree st) (ss_out st).
Proof.
  intros HN. revert b t s n. induction fuel as [| fuel IH]; intros b t s n Hb HbN Hmax Ht Hfuel Hinv; cbn [search_while]; [lia |].
  rewrite (si_nof _ _ _ _ _ Hinv : nof_location (ss_tree (SearchSt t s n)) = N).
  destruct (Z.ltb_spec (15 * b) N) as [Hlt | Hge].
  - destruct (search_block_inv N b t s n target) as ([t' s' n'] & -> & Hinv'); [done.. |]. cbn [mbind option_bind ss_tree ss_out] in *.
    replace (15 * b + 15) with (15 * (b + 1)) in * by lia. apply IH; [lia | lia | done | done | lia | done].
  - eexists. split; [done |]. cbn [ss_tree ss_out]. by replace (15 * b) with N in Hinv by lia.
Qed.

(** The cells of [a'] that hold a message held it in [a]. *)
Definition sub_array (a a' : list (list ngscope_dci_msg_t)) : Prop :=
  forall i j m, cell a' i j = Some m -> rnti m <> 0 -> cell a i j = Some m.

Lemma sub_array_trans a b c : sub_array a b -> sub_array b c -> sub_array a c.
Proof. intros H1 H2 i j m Em Hm. apply H1; [by apply H2 | done]. Qed.

(** A message of the target, from a cell of [a]. *)
Definition target_msg (a : list (list ngscope_dci_msg_t)) (target : Z) (m : ngscope_dci_msg_t) : Prop :=
  exists i j x, cell a i j = Some x /\ m = with_format x (ngscope_index_to_format i) /\ rnti m = target.

Lemma target_msg_sub a a' target m : target <> 0 -> sub_array a a' -> target_msg a' target m -> target_msg a target m.
Proof.
  intros Ht Hs (i & j & x & Ex & -> & Hr). exists i, j, x. split; [| done]. apply Hs; [done |]. simpl in Hr. congruence.
Qed.

(** The final collection only adds messages of the target. *)
Lemma copy_rnti_spec t s target :
  arr_wf (dci_array t) -> nof_location t <= MAX_CANDIDATES_ALL -> target <> 0 -> per_sub_wf s ->
  exists n a s' dts uts, srsran_ngscope_tree_copy_rnti t s target = Some (n, with_array t a, s')
    /\ arr_wf a /\ sub_array (dci_array t) a /\ per_sub_wf s'
    /\ dl_list s' = dl_list s ++ dts /\ ul_list s' = ul_list s ++ uts
    /\ Forall (target_msg (dci_array t) target) (dts ++ uts).
Proof.
  intros Hwf Hn Ht Hs. unfold srsran_ngscope_tree_copy_rnti.
  assert (forall j i, (j, i) ∈ positions (nof_location t) -> in_array j i) as Hps.
  { intros j i Hp. apply list_elem_of_bind in Hp as (i' & Hp & Hi). apply list_elem_of_bind in Hp as (j' & Hp & Hj).
    apply list_elem_of_singleton in Hp as [= -> ->]. apply elem_of_seqZ in Hi, Hj. split; lia. }
  generalize 0. revert Hps. generalize (positions (nof_location t)). intros ps.
  revert t s Hwf Hn Hs. induction ps as [| [j i] ps IH]; intros t s Hwf Hn Hs Hps n.
  { exists n, (dci_array t), s, [], []. cbn [foldM app]. rewrite !app_nil_r. split_and!; [by destruct t | done | by intros ? | done | done | done | apply Forall_nil_2]. }
  assert (in_array j i) as Hin by (apply Hps; by left).
  assert (forall j i, (j, i) ∈ ps -> in_array j i) as Hps' by (intros; apply Hps; by right).
  cbn [foldM]. unfold copy_rnti_step at 1. destruct (cell_some (dci_array t) j i Hwf Hin) as [x Ex]. rewrite Ex. cbn [mbind option_bind].
  destruct (Z.eqb_spec (rnti x) target) as [Hx | Hx].
  2:{ by apply IH. }
  destruct (copy_from_array_spec t s j i x) as (a1 & s1 & -> & Hwf1 & HC1 & Hs1 & _ & Hul & Hdl); [done.. |].
  cbn [mbind option_bind dci_array with_array].
  destruct (set_cell_spec a1 j i zero_msg Hwf1 Hin) as (a2 & -> & Hwf2 & HC2). cbn [mbind option_bind].
  assert (sub_array (dci_array t) a2) as Hsub.
  { intros j' i' m Em Hm. rewrite HC2, HC1 in Em. destruct (decide (j' = j /\ i' = i)); [injection Em as <-; done | done]. }
  change (with_array (with_array t a1) a2) with (with_array t a2).
  destruct (IH (with_array t a2) s1 Hwf2 Hn Hs1 Hps' (n + 1)) as (n' & a & s' & dts & uts & -> & Hwfa & Hsa & Hs' & Hd & Hu & Hf).
  cbn [dci_array with_array] in Hsa, Hf.
  set (g := with_format x (ngscope_index_to_format j)) in *.
  assert (target_msg (dci_array t) target g) as Hg by (exists j, i, x; done).
  exists n', a, s',
    ((if negb (j =? 0) && (nof_dl_dci s <? MAX_DCI_PER_SUB) then [g] else []) ++ dts),
    ((if (j =? 0) && (nof_ul_dci s <? MAX_DCI_PER_SUB) then [g] else []) ++ uts).
  split; [done |]. split; [done |]. split; [by eapply sub_array_trans |]. split; [done |].
  rewrite Hd, Hu, Hdl, Hul.
  apply Forall_app in Hf as [Hf1 Hf2].
  assert (forall m, target_msg a2 target m -> target_msg (dci_array t) target m) as Himp
    by (intros m; by apply target_msg_sub).
  split_and!.
  - destruct (negb (j =? 0) && _); by rewrite <- ?app_assoc.
  - destruct ((j =? 0) && _); by rewrite <- ?app_assoc.
  - rewrite !Forall_app. split_and!; try (by eapply Forall_impl).
    + destruct (negb (j =? 0) && _); [by apply Forall_singleton | apply Forall_nil_2].
    + destruct ((j =? 0) && _); [by apply Forall_singleton | apply Forall_nil_2].
Qed.

(** The state in which the loop starts. *)
Lemma init_inv t pdcch cfi n s :
  srsran_pdcch_get_nof_location_yx pdcch cfi = Some n -> 0 <= n <= 96 ->
  576 * ((n + 7) / 8) <= zlen (pdcch_llr pdcch) ->
  arr_wf (dci_array t) -> zlen (dci_location t) = MAX_CANDIDATES_ALL ->
  zlen (dl_msg s) = MAX_DCI_PER_SUB -> zlen (ul_msg s) = MAX_DCI_PER_SUB ->
  exists t0 t1 k, ngscope_tree_init t = Some t0 /\ ngscope_tree_set_locations t0 pdcch cfi = Some (k, t1)
    /\ forall c, search_inv ((n + 7) / 8 * 15) 0 0 (ngscope_tree_set_cce t1 c) (PerSub (dl_msg s) 0 (ul_msg s) 0 (timestamp s)).
Proof.
  intros En Hn Hllr Hwf Hl Hd Hu.
  destruct (tree_init_spec t Hwf Hl) as (a & l & -> & Hwfa & Hll & Hzero).
  unfold ngscope_tree_set_locations. cbn [dci_location].
  destruct (block_search_layout pdcch cfi n l) as (l' & E & Hl' & HT); [done | lia | unfold MAX_CANDIDATES_ALL in *; lia | done |].
  eexists _, _, _. split; [done |]. cbn [dci_location]. rewrite E. cbn [mbind option_bind]. split; [done |]. intros c.
  split; cbn [dci_array dci_location nof_location ngscope_tree_set_cce].
  - done.
  - congruence.
  - done.
  - intros j Hj. destruct (HT (j / 15)) with (k := j mod 15) as (x & Ex & Hx & _); [lia | lia |].
    exists x. by replace (j / 15 * 15 + j mod 15) with j in Ex by lia.
  - intros i j m _ Em. by rewrite (Hzero i j m Em).
  - intros i j m Em Hm. by rewrite (Hzero i j m Em) in Hm.
  - split; simpl; done || lia.
  - exists [], []. split_and!; [apply Forall2_nil_2 | apply Forall2_nil_2 | done |]. intros c' Hc'. by apply not_elem_of_nil in Hc'.
Qed.

(** Columns apart, messages at them: no two share a CCE. *)
Lemma apart_messages (C : list Z) (ms : list ngscope_dci_msg_t) :
  Forall2 msg_at C ms -> Forall (fun c => 0 <= c) C -> apart C -> ForallOrdPairs cce_disjoint ms.
Proof.
  intros H. induction H as [| c m C ms Hm H IH]; intros Hp Ha; [constructor |].
  apply Forall_cons in Hp as [Hc Hp]. destruct Ha as [Ha1 Ha2]. constructor; [| by apply IH].
  apply Forall_lookup_2. intros k m' Hk. destruct (Forall2_lookup_r _ _ _ _ _ H Hk) as (d & Hd & Hm').
  eapply (apart_disjoint c d); [done | by eapply (Forall_lookup_1 _ _ _ _ Hp) | done | done |].
  by eapply (Forall_lookup_1 _ _ _ _ Ha1).
Qed.

(** C31: for a non-zero target RNTI and a decoder that only answers with
    known formats, the search of a subframe of at most 96 CCEs always ends, stays
    within its arrays, and every message it accepts while matching lies on CCEs
    that no other accepted message uses. What it adds at the end are messages of
    the target, and these as well as everything left in the tree keep clear of
    the accepted messages. *)
Theorem search_outputs_disjoint (pdcch : srsran_pdcch_t) (fft cfi tti n target : Z) (s : ngscope_dci_per_sub_t)
    (t : ngscope_tree_t)
  (En : srsran_pdcch_get_nof_location_yx pdcch cfi = Some n) (Hn : 0 <= n <= 96)
  (Hllr : 576 * ((n + 7) / 8) <= zlen (pdcch_llr pdcch))
  (Hwf : arr_wf (dci_array t)) (Hl : zlen (dci_location t) = MAX_CANDIDATES_ALL)
  (Hd : zlen (dl_msg s) = MAX_DCI_PER_SUB) (Hu : zlen (ul_msg s) = MAX_DCI_PER_SUB)
  (Hfft : 0 <= fft) (Ht : target <> 0) :
  exists found t' s' dls uls dts uts,
    srsran_ngscope_search_all_space_array_yx fft pdcch cfi tti s t target = Some (found, t', s')
    /\ per_sub_wf s' /\ dl_list s' = dls ++ dts /\ ul_list s' = uls ++ uts
    /\ ForallOrdPairs cce_disjoint (dls ++ uls)
    /\ (forall m, m ∈ dts ++ uts -> rnti m = target /\ forall m', m' ∈ dls ++ uls -> cce_disjoint m' m)
    /\ (forall i j m m', cell (dci_array t') i j = Some m -> rnti m <> 0 -> m' ∈ dls ++ uls -> cce_disjoint m' m).
Proof.
  unfold srsran_ngscope_search_all_space_array_yx. cbv zeta.
  destruct (Z.ltb_spec fft 0) as [| _]; [lia |].
  destruct (init_inv t pdcch cfi n s) as (t0 & t1 & k & -> & Et1 & Hinv); [done.. |].
  cbn [mbind option_bind]. rewrite Et1. cbn [mbind option_bind]. rewrite En. cbn [mbind option_bind].
  set (s0 := PerSub _ 0 _ 0 _) in *. set (N := (n + 7) / 8 * 15) in *.
  assert (N mod 15 = 0 /\ 0 <= N <= 180) as [HN HN'] by (clear - Hn; unfold N; lia).
  destruct (search_while_inv N search_fuel 0 (ngscope_tree_set_cce t1 n) s0 0 target) as ([t2 s2 fd] & Ew & Hinv2);
    [done | done | lia | unfold MAX_CANDIDATES_ALL; lia | done | unfold search_fuel; lia | apply Hinv |].
  rewrite Z.mul_0_r in Ew. rewrite Ew. cbn [mbind option_bind ss_tree ss_out ss_found] in Hinv2 |- *.
  pose proof Hinv2 as [Harr Hlocs Hnof Hlay Hfut Hcells Hout (Cd & Cu & K1 & K2 & K3 & K4)].
  destruct (copy_rnti_spec t2 s2 target) as (c & a & s' & dts & uts & -> & Hwfa & Hsub & Hs' & Hds & Hus & Hts);
    [done | rewrite Hnof; unfold MAX_CANDIDATES_ALL; lia | done | done |]. cbn [mbind option_bind].
  destruct (dci_prune_cells (with_array t2 a) (tti mod 10)) as (b & -> & Hwfb & HCb);
    [done | done | cbn [nof_location with_array]; rewrite Hnof; unfold MAX_CANDIDATES_ALL; lia |]. cbn [mbind option_bind].
  assert (sub_array (dci_array t2) b) as Hsubb.
  { eapply sub_array_trans; [exact Hsub |]. intros i j m Em Hm. pose proof (cell_in _ _ _ _ Hwfb Em) as Hij.
    destruct (cell_some a i j Hwfa Hij) as [y Ey].
    destruct (zget_some (dci_location t2) j) as [l El]; [destruct Hij; unfold in_range; lia |].
    rewrite (HCb i j y l) in Em; [| by destruct Hij | done | done].
    destruct ((_ <? _) && _ && _); injection Em as <-; [done | done]. }
  (* every remaining message of the tree keeps clear of the accepted columns *)
  assert (forall i j m m', cell (dci_array t2) i j = Some m -> rnti m <> 0 -> m' ∈ dl_list s2 ++ ul_list s2 -> cce_disjoint m' m)
    as Hclear.
  { intros i j m m' Em Hm Hm'. destruct (Hcells i j m Em Hm) as (HjN & Hat & _).
    pose proof (cell_in _ _ _ _ Harr Em) as [_ Hj].
    assert (Forall2 msg_at (Cd ++ Cu) (dl_list s2 ++ ul_list s2)) as HF by by apply Forall2_app.
    apply list_elem_of_lookup_1 in Hm' as [q Hq]. destruct (Forall2_lookup_r _ _ _ _ _ HF Hq) as (d & Hdk & Hatd).
    apply list_elem_of_lookup_2 in Hdk. destruct (K4 d Hdk) as [HdN Hb].
    apply (apart_disjoint d j); [lia | lia | done | done |]. intros Ho. destruct (Hb j Ho) as [Hz _]. by apply Hm, (Hz i m). }
  eexists fd, _, s', (dl_list s2), (ul_list s2), dts, uts. split; [reflexivity |].
  split_and!; [done | done | done | | |].
  - eapply apart_messages; [by apply Forall2_app | | done].
    rewrite Forall_forall. intros d Hdk. by destruct (K4 d Hdk) as [[? _] _].
  - intros m Hm. rewrite Forall_forall in Hts. destruct (Hts m Hm) as (i & j & x & Ex & -> & Hr). split; [done |].
    intros m' Hm'. apply (Hclear i j x m' Ex); [simpl in Hr; congruence | done].
  - intros i j m m' Em Hm Hm'. cbn [dci_array with_array] in Em. apply (Hclear i j m m'); [by apply Hsubb | done | done].
Qed.

End Search.

(** A decoder that finds RNTI 100 in format 1 at every location. *)
Definition ex_decode (f : srsran_dci_format_t) (l : srsran_dci_location_t) : option (@srsran_dci_msg_t unit) :=
  if bool_decide (f = SRSRAN_DCI_FORMAT1) then Some (MkDciMsg f 100 20 f32_100 f32_1 tt)
  else Some (MkDciMsg f 0 0 f32_0 f32_0 tt).
Definition ex_corr (m : @srsran_dci_msg_t unit) : float32 := f32_1.
Definition ex_ul (m : @srsran_dci_msg_t unit) : option (srsran_dci_ul_t * srsran_pusch_grant_t) := None.
Definition ex_dl (m : @srsran_dci_msg_t unit) : option (srsran_dci_dl_t * srsran_pdsch_grant_t) :=
  Some (DciDl (dm_rnti m) 0 false false, PdschGrant 4 1 (RaTb 3 100 0) (RaTb 0 0 0)).

Lemma ex_decode_formats : forall f l m, f ∈ search_formats -> ex_decode f l = Some m ->
  0 <= ngscope_format_to_index (dm_format m).
Proof.
  intros f l m Hf E. unfold ex_decode in E.
  destruct (bool_decide (f = SRSRAN_DCI_FORMAT1)); injection E as <-; simpl;
    repeat (apply elem_of_cons in Hf as [-> | Hf]); simpl; try lia; by apply not_elem_of_nil in Hf.
Qed.

Definition ex_tree : ngscope_tree_t := Tree empty_array (replicate 180 zero_loc) 0 0.
Definition ex_pdcch : srsran_pdcch_t := Pdcch [8; 8; 8] (replicate 576 f32_1).

Lemma search_outputs_disjoint_witness :
  exists found t' s' dls uls dts uts,
    srsran_ngscope_search_all_space_array_yx [] ex_decode ex_corr ex_ul ex_dl 0 ex_pdcch 1 33 empty_per_sub ex_tree 7
      = Some (found, t', s')
    /\ dl_list s' = dls ++ dts /\ ul_list s' = uls ++ uts /\ ForallOrdPairs cce_disjoint (dls ++ uls).
Proof.
  destruct (search_outputs_disjoint [] ex_decode ex_corr ex_ul ex_dl ex_decode_formats ex_pdcch 0 1 33 8 7 empty_per_sub ex_tree)
    as (found & t' & s' & dls & uls & dts & uts & E & _ & Ed & Eu & Ha & _);
    [reflexivity | lia | vm_compute; discriminate | exact empty_array_wf | reflexivity | reflexivity | reflexivity
    | lia | discriminate |].
  exists found, t', s', dls, uls, dts, uts. repeat split; assumption.
Defined.

(** The search of this subframe accepts the message of the whole block. *)
Example ex_search :
  (match srsran_ngscope_search_all_space_array_yx [] ex_decode ex_corr ex_ul ex_dl 0 ex_pdcch 1 33 empty_per_sub ex_tree 7 with
   | Some (found, _, s) => (found, rnti <$> dl_list s, (fun m => loc_L (loc m)) <$> dl_list s)
   | None => (-1, [], [])
   end) = (1, [100], [3]).
Proof. vm_compute. reflexivity. Qed.
