(* ===== verification/DciFilter.v ===== *)
(** * From the tree to the tracker ([ngscope/src/dciLib/dci_decoder.c])

    After the search, the messages still in the tree are matched against the UEs
    the tracker knows: a message of a top-ten or active UE is accepted, which rules
    out the locations it overlaps. Every accepted message and the unambiguous
    rest are then counted by the tracker. *)

From S2P Require Import Prelude NgUtil NgTypes UeTracker SearchSpace DciTree.

(** The loop over the ten entries with its early return. *)
Definition loc_rnti_in_topN (rnti : Z) (ue_tracker : ngscope_ue_tracker_t) : option bool :=
  i ← find_from (top_N_ue_rnti ue_tracker) rnti 0 (Z.to_nat TOPN); Some (0 <=? i).

(** The loop over the formats of a location, up to the first known RNTI. *)
Fixpoint prune_loop (known : Z -> option bool) (tree : ngscope_tree_t) (s : ngscope_dci_per_sub_t) (loc_idx i : Z)
    (fuel : nat) : option (ngscope_tree_t * ngscope_dci_per_sub_t) :=
  match fuel with
  | O => Some (tree, s)
  | S n =>
      m ← cell (dci_array tree) i loc_idx;
      if rnti m <=? 0 then prune_loop known tree s loc_idx (i + 1) n
      else
        k ← known (rnti m);
        if k : bool then
          '(_, s) ← ngscope_push_dci_to_per_sub s m;
          tree ← srsran_ngscope_tree_clear_dciArray_nodes tree loc_idx;
          Some (tree, s)
        else prune_loop known tree s loc_idx (i + 1) n
  end.

Definition prune_based_on_topN (tree : ngscope_tree_t) (ue_tracker : ngscope_ue_tracker_t) (s : ngscope_dci_per_sub_t)
    (loc_idx : Z) : option (ngscope_tree_t * ngscope_dci_per_sub_t) :=
  prune_loop (fun r => loc_rnti_in_topN r ue_tracker) tree s loc_idx 0 (Z.to_nat (MAX_NOF_FORMAT + 1)).

Definition prune_based_on_activeUE (tree : ngscope_tree_t) (ue_tracker : ngscope_ue_tracker_t) (s : ngscope_dci_per_sub_t)
    (loc_idx : Z) : option (ngscope_tree_t * ngscope_dci_per_sub_t) :=
  prune_loop (fun r => Some (bool_decide (r ∈ active_ue_list ue_tracker))) tree s loc_idx 0
    (Z.to_nat (MAX_NOF_FORMAT + 1)).

Definition filter_dci_from_tree (tree : ngscope_tree_t) (ue_tracker : ngscope_ue_tracker_t) (s : ngscope_dci_per_sub_t)
  : option (ngscope_tree_t * ngscope_dci_per_sub_t) :=
  for_range 0 (nof_location tree) (fun '(tree, s) i =>
    '(tree, s) ← prune_based_on_topN tree ue_tracker s i;
    prune_based_on_activeUE tree ue_tracker s i) (tree, s).

(** The RNTIs of a location ([rnti_v]) and how many are set. *)
Definition collect_rnti (tree : ngscope_tree_t) (loc_idx : Z) : option (list Z * Z) :=
  for_range 0 (MAX_NOF_FORMAT + 1) (fun '(v, nof_ue) i =>
    m ← cell (dci_array tree) i loc_idx;
    if rnti m <=? 0 then Some (v, nof_ue)
    else v ← zset v i (rnti m); Some (v, nof_ue + 1)) ([0; 0; 0; 0; 0], 0).

(** The second loop: its [break] after the only RNTI of a location. *)
Fixpoint enqueue_rnti (q : ngscope_ue_tracker_t) (tti nof_ue : Z) (v : list Z) (i : Z) (fuel : nat)
  : option ngscope_ue_tracker_t :=
  match fuel with
  | O => Some q
  | S n =>
      r ← zget v i;
      let dl := if i =? 0 then false else true in
      if negb (r =? 0) then
        if nof_ue =? 1 then ngscope_ue_tracker_enqueue_ue_rnti q tti r dl
        else if (i =? 0) || (i =? 4) then
          q ← ngscope_ue_tracker_enqueue_ue_rnti q tti r dl; enqueue_rnti q tti nof_ue v (i + 1) n
        else enqueue_rnti q tti nof_ue v (i + 1) n
      else enqueue_rnti q tti nof_ue v (i + 1) n
  end.

Definition update_ue_dci_per_loc (tree : ngscope_tree_t) (q : ngscope_ue_tracker_t) (loc_idx tti : Z)
  : option ngscope_ue_tracker_t :=
  '(v, nof_ue) ← collect_rnti tree loc_idx;
  enqueue_rnti q tti nof_ue v 0 (Z.to_nat (MAX_NOF_FORMAT + 1)).

Definition update_ue_dci_per_tti (tree : ngscope_tree_t) (q : ngscope_ue_tracker_t) (s : ngscope_dci_per_sub_t) (tti : Z)
  : option ngscope_ue_tracker_t :=
  q ← for_range 0 (nof_dl_dci s) (fun q i => m ← zget (dl_msg s) i;
        ngscope_ue_tracker_enqueue_ue_rnti q tti (rnti m) true) q;
  q ← for_range 0 (nof_ul_dci s) (fun q i => m ← zget (ul_msg s) i;
        ngscope_ue_tracker_enqueue_ue_rnti q tti (rnti m) false) q;
  for_range 0 (nof_location tree) (fun q i => update_ue_dci_per_loc tree q i tti) q.

(** ** The filter *)

(** An RNTI the tracker vouches for. *)
Definition known_ue (q : ngscope_ue_tracker_t) (r : Z) : Prop := r ∈ top_N_ue_rnti q \/ r ∈ active_ue_list q.

(** Pushing a list of messages, in order. *)
Definition push_all (s : ngscope_dci_per_sub_t) (ms : list ngscope_dci_msg_t) : option ngscope_dci_per_sub_t :=
  foldM (fun s m => snd <$> ngscope_push_dci_to_per_sub s m) s ms.

Lemma in_topN_spec r q : zlen (top_N_ue_rnti q) = TOPN ->
  loc_rnti_in_topN r q = Some (bool_decide (r ∈ top_N_ue_rnti q)).
Proof.
  intros Hl. unfold loc_rnti_in_topN. destruct (decide (r ∈ top_N_ue_rnti q)) as [Hin | Hin].
  - rewrite bool_decide_true by done. apply list_elem_of_split_l in Hin as (l1 & l2 & E & Hn).
    rewrite E in *. rewrite find_from_hit; [| done |].
    + cbn [mbind option_bind]. f_equal. apply Z.leb_le, zlen_nonneg.
    + unfold TOPN, zlen in *. lia.
  - rewrite bool_decide_false by done. rewrite find_from_miss; [done | done |].
    unfold TOPN, zlen in *. lia.
Qed.

(** One loop over the formats: nothing, or the first known message accepted. *)
Lemma prune_loop_spec (known : Z -> option bool) (K : Z -> Prop) tree s j i fuel :
  (forall r, known r = Some true /\ K r \/ known r = Some false /\ ~ K r) ->
  arr_wf (dci_array tree) -> 0 <= j < MAX_CANDIDATES_ALL -> per_sub_wf s -> 0 <= i ->
  i + Z.of_nat fuel = MAX_NOF_FORMAT + 1 ->
  (exists a s' f m, prune_loop known tree s j i fuel = Some (with_array tree a, s') /\ arr_wf a /\ per_sub_wf s'
     /\ cell (dci_array tree) f j = Some m /\ 0 < rnti m /\ K (rnti m) /\ push_all s [m] = Some s'
     /\ forall i' j', in_array i' j' ->
          cell a i' j' = if decide (overlap j j') then Some zero_msg else cell (dci_array tree) i' j')
  \/ (prune_loop known tree s j i fuel = Some (tree, s) /\
      forall f m, i <= f -> cell (dci_array tree) f j = Some m -> 0 < rnti m -> ~ K (rnti m)).
Proof.
  intros HK Hwf Hj Hs. revert i. induction fuel as [| fuel IH]; intros i Hi Hf; cbn [prune_loop].
  { right. split; [done |]. intros f m Hfi Em. destruct (cell_in _ _ _ _ Hwf Em). lia. }
  destruct (cell_some (dci_array tree) i j Hwf) as [m Em]; [split; lia |]. rewrite Em. cbn [mbind option_bind].
  assert (forall P : Prop, (exists a s' f m, prune_loop known tree s j (i + 1) fuel = Some (with_array tree a, s')
     /\ arr_wf a /\ per_sub_wf s'
     /\ cell (dci_array tree) f j = Some m /\ 0 < rnti m /\ K (rnti m) /\ push_all s [m] = Some s'
     /\ forall i' j', in_array i' j' ->
          cell a i' j' = if decide (overlap j j') then Some zero_msg else cell (dci_array tree) i' j')
    \/ (prune_loop known tree s j (i + 1) fuel = Some (tree, s) /\
      forall f m, i + 1 <= f -> cell (dci_array tree) f j = Some m -> 0 < rnti m -> ~ K (rnti m))) as IH' by (intros _; apply IH; lia).
  specialize (IH' True).
  assert ((0 < rnti m -> ~ K (rnti m)) -> forall f m', i <= f -> cell (dci_array tree) f j = Some m' -> 0 < rnti m' ->
    (forall f m, i + 1 <= f -> cell (dci_array tree) f j = Some m -> 0 < rnti m -> ~ K (rnti m)) -> ~ K (rnti m')) as Hext.
  { intros Hm f m' Hfi Em' Hm' H. destruct (Z.eq_dec f i) as [-> | Hne]; [| apply (H f); done || lia].
    rewrite Em in Em'. injection Em' as <-. by apply Hm. }
  destruct (Z.leb_spec (rnti m) 0) as [H0 | H0].
  { destruct IH' as [H | [E H]]; [by left | right]. split; [done |]. intros f m' Hfi Em' Hm'. eapply Hext; [lia | done.. |]. done. }
  destruct (HK (rnti m)) as [[-> HKm] | [-> HKm]]; cbn [mbind option_bind].
  - left. destruct (push_dci_spec s m Hs) as (s' & Es & Hs' & _). rewrite Es. cbn [mbind option_bind].
    destruct (clear_nodes_spec tree j Hwf Hj) as (a & -> & Hwfa & HC). cbn [mbind option_bind].
    exists a, s', i, m. split_and!; try done. unfold push_all. cbn [foldM]. by rewrite Es.
  - destruct IH' as [H | [E H]]; [by left | right]. split; [done |]. intros f m' Hfi Em' Hm'. eapply Hext; done.
Qed.

(** The state of the filter: the accepted messages with their columns (all before
    [pb]), the array without what they overlap, and no known RNTI before [p]. *)
Record filter_inv (q : ngscope_ue_tracker_t) (a0 : list (list ngscope_dci_msg_t)) (s0 : ngscope_dci_per_sub_t)
    (pb p : Z) (ps : list (Z * ngscope_dci_msg_t)) (a : list (list ngscope_dci_msg_t)) (s : ngscope_dci_per_sub_t) : Prop := FilterInv {
  fi_arr : arr_wf a;
  fi_out : per_sub_wf s;
  fi_push : push_all s0 (snd <$> ps) = Some s;
  fi_ps : forall c m, (c, m) ∈ ps -> 0 <= c < pb /\ (exists i, cell a0 i c = Some m) /\ 0 < rnti m /\ known_ue q (rnti m);
  fi_apart : apart (fst <$> ps);
  fi_cells : forall i j, in_array i j ->
    (cell a i j = Some zero_msg /\ exists c, c ∈ fst <$> ps /\ overlap c j)
    \/ (cell a i j = cell a0 i j /\ forall c, c ∈ fst <$> ps -> ~ overlap c j);
  fi_clean : forall i j m, j < p -> cell a i j = Some m -> 0 < rnti m -> ~ known_ue q (rnti m)
}.

Lemma push_all_app s ms1 ms2 : push_all s (ms1 ++ ms2) = push_all s ms1 ≫= fun s' => push_all s' ms2.
Proof. apply foldM_app. Qed.


Lemma overlap_refl j : 0 <= j -> overlap j j.
Proof.
  intros Hj. unfold overlap. assert (0 <= j mod 15 < 15) as Hk by lia. revert Hk. generalize (j mod 15). intros k Hk.
  split; [done |]. zenum k 15; vm_compute; split; reflexivity.
Qed.

Lemma filter_accept q a0 s0 p ps a s f m a' s' :
  0 <= p < MAX_CANDIDATES_ALL -> filter_inv q a0 s0 (p + 1) p ps a s -> arr_wf a' -> per_sub_wf s' ->
  cell a f p = Some m -> 0 < rnti m -> known_ue q (rnti m) -> push_all s [m] = Some s' ->
  (forall i j, in_array i j -> cell a' i j = if decide (overlap p j) then Some zero_msg else cell a i j) ->
  filter_inv q a0 s0 (p + 1) p (ps ++ [(p, m)]) a' s' /\ forall i x, cell a' i p = Some x -> rnti x = 0.
Proof.
  intros Hp [F1 F2 F3 F4 F5 F6 F7] Hwf' Hs' Em Hm Hk Hpush HC.
  pose proof (cell_in _ _ _ _ F1 Em) as Hin.
  assert (cell a0 f p = Some m /\ forall c, c ∈ fst <$> ps -> ~ overlap c p) as [Em0 Hno].
  { destruct (F6 f p Hin) as [[E _] | [E Hno]]; rewrite E in Em; [injection Em as <-; done | done]. }
  split; [split |].
  - done.
  - done.
  - rewrite fmap_app, push_all_app, F3. exact Hpush.
  - intros c x Hc. apply elem_of_app in Hc as [Hc | Hc]; [by apply F4 |].
    apply list_elem_of_singleton in Hc as [= -> ->]. split; [lia |]. split; [by exists f | done].
  - rewrite fmap_app. apply apart_insert; rewrite app_nil_r; [done |]. rewrite Forall_forall.
    intros c Hc Ho. by apply (Hno c Hc), overlap_sym.
  - intros i j Hij. rewrite HC by done. rewrite fmap_app. setoid_rewrite elem_of_app.
    destruct (decide (overlap p j)) as [Ho | Ho].
    + left. split; [done |]. exists p. split; [right; by left | done].
    + destruct (F6 i j Hij) as [[E (c & Hc & Hco)] | [E Hn]].
      * left. split; [done |]. exists c. split; [by left | done].
      * right. split; [done |]. intros c [Hc | Hc]; [by apply Hn |]. by apply list_elem_of_singleton in Hc as ->.
  - intros i j x Hj Ex Hx. pose proof (cell_in _ _ _ _ Hwf' Ex) as Hij. rewrite HC in Ex by done.
    destruct (decide (overlap p j)); [by injection Ex as <- |]. by apply (F7 i j).
  - intros i x Ex. pose proof (cell_in _ _ _ _ Hwf' Ex) as Hij. rewrite HC, decide_True in Ex by (done || apply overlap_refl; lia).
    by injection Ex as <-.
Qed.

Lemma filter_step q a0 s0 p ps tree s :
  zlen (top_N_ue_rnti q) = TOPN -> 0 <= p < MAX_CANDIDATES_ALL -> filter_inv q a0 s0 p p ps (dci_array tree) s ->
  exists ps' a' s', ('(tree, s) ← prune_based_on_topN tree q s p; prune_based_on_activeUE tree q s p)
      = Some (with_array tree a', s') /\ filter_inv q a0 s0 (p + 1) (p + 1) ps' a' s'.
Proof.
  intros Hl Hp Hinv.
  assert (filter_inv q a0 s0 (p + 1) p ps (dci_array tree) s) as Hinv1.
  { destruct Hinv as [F1 F2 F3 F4 F5 F6 F7]. split; try done. intros c m Hc. destruct (F4 c m Hc) as [? H]. split; [lia | done]. }
  assert (forall ps a s, filter_inv q a0 s0 (p + 1) p ps a s ->
    (forall i x, cell a i p = Some x -> 0 < rnti x -> ~ known_ue q (rnti x)) -> filter_inv q a0 s0 (p + 1) (p + 1) ps a s) as Hdone.
  { intros ps1 a1 s1 [F1 F2 F3 F4 F5 F6 F7] Hc. split; try done. intros i j m Hj Em Hm.
    destruct (Z.eq_dec j p) as [-> | Hne]; [by apply (Hc i) | apply (F7 i j); done || lia]. }
  unfold prune_based_on_topN, prune_based_on_activeUE. change (Z.to_nat (MAX_NOF_FORMAT + 1)) with 5%nat.
  assert (forall r, (fun r => loc_rnti_in_topN r q) r = Some true /\ r ∈ top_N_ue_rnti q
    \/ (fun r => loc_rnti_in_topN r q) r = Some false /\ r ∉ top_N_ue_rnti q) as HT.
  { intros r. cbv beta. rewrite in_topN_spec by done. case_bool_decide; [by left | by right]. }
  assert (forall r, (fun r => Some (bool_decide (r ∈ active_ue_list q))) r = Some true /\ r ∈ active_ue_list q
    \/ (fun r => Some (bool_decide (r ∈ active_ue_list q))) r = Some false /\ r ∉ active_ue_list q) as HA.
  { intros r. cbv beta. case_bool_decide; [by left | by right]. }
  destruct (prune_loop_spec _ (fun r => r ∈ top_N_ue_rnti q) tree s p 0 5 HT) as
    [(a1 & s1 & f & m & -> & Hwf1 & Hs1 & Em & Hm & Hk & Hpush & HC) | [-> Hn]];
    [apply Hinv | done | apply Hinv | done | done | |]; cbn [mbind option_bind].
  - destruct (filter_accept q a0 s0 p ps (dci_array tree) s f m a1 s1) as [Hinv2 Hz]; [done.. | by left | done | done |].
    destruct (prune_loop_spec _ (fun r => r ∈ active_ue_list q) (with_array tree a1) s1 p 0 5 HA) as
      [(a2 & s2 & f2 & m2 & _ & _ & _ & Em2 & Hm2 & _) | [-> _]]; [done | done | done | done | done | |].
    + apply Hz in Em2. lia.
    + exists (ps ++ [(p, m)]), a1, s1. split; [done |]. apply Hdone; [done |]. intros i x Ex Hx. apply Hz in Ex. lia.
  - destruct (prune_loop_spec _ (fun r => r ∈ active_ue_list q) tree s p 0 5 HA) as
      [(a2 & s2 & f2 & m2 & -> & Hwf2 & Hs2 & Em2 & Hm2 & Hk2 & Hpush2 & HC2) | [-> Hn2]];
      [apply Hinv | done | apply Hinv | done | done | |].
    + destruct (filter_accept q a0 s0 p ps (dci_array tree) s f2 m2 a2 s2) as [Hinv2 Hz]; [done.. | by right | done | done |].
      exists (ps ++ [(p, m2)]), a2, s2. split; [done |]. apply Hdone; [done |]. intros i x Ex Hx. apply Hz in Ex. lia.
    + exists ps, (dci_array tree), s. split; [by destruct tree |]. apply Hdone; [done |].
      intros i x Ex Hx [Hk | Hk]; pose proof (cell_in _ _ _ _ (fi_arr _ _ _ _ _ _ _ _ Hinv1) Ex) as [Hi _];
        [by apply (Hn i x (proj1 Hi)) | by apply (Hn2 i x (proj1 Hi))].
Qed.

(** C35: the filter accepts messages of top-ten or active UEs, at most one
    per location and no two on overlapping locations, and pushes them in the order
    of the locations; the cells that overlap an accepted location are emptied and
    all others kept; afterwards no known RNTI is left in the tree. *)
Theorem filter_dci_spec (tree : ngscope_tree_t) (q : ngscope_ue_tracker_t) (s : ngscope_dci_per_sub_t)
  (Hwf : arr_wf (dci_array tree)) (Hn : 0 <= nof_location tree <= MAX_CANDIDATES_ALL)
  (Hl : zlen (top_N_ue_rnti q) = TOPN) (Hs : per_sub_wf s) :
  exists ps a s', filter_dci_from_tree tree q s = Some (with_array tree a, s')
    /\ per_sub_wf s' /\ push_all s (snd <$> ps) = Some s' /\ apart (fst <$> ps)
    /\ (forall c m, (c, m) ∈ ps -> (exists i, cell (dci_array tree) i c = Some m) /\ 0 < rnti m /\ known_ue q (rnti m))
    /\ (forall i j, in_array i j ->
          cell a i j = if decide (Exists (fun c => overlap c j) (fst <$> ps)) then Some zero_msg else cell (dci_array tree) i j)
    /\ (forall i j m, j < nof_location tree -> cell a i j = Some m -> 0 < rnti m -> ~ known_ue q (rnti m)).
Proof.
  unfold filter_dci_from_tree.
  loop_inv (fun p (st : ngscope_tree_t * ngscope_dci_per_sub_t) => exists ps a, fst st = with_array tree a /\
    filter_inv q (dci_array tree) s p p ps a (snd st)) as ([t s'] & -> & ps & a & Ht & Hinv).
  - lia.
  - exists [], (dci_array tree). split; [by destruct tree |]. split; try done.
    + intros c m Hc. by apply not_elem_of_nil in Hc.
    + intros i j _. right. split; [done |]. intros c Hc. by apply not_elem_of_nil in Hc.
    + intros i j m Hj Em. pose proof (cell_in _ _ _ _ Hwf Em) as [_ Hj']. lia.
  - intros p [t st] Hp (ps & a & Ht & Hinv). cbn [fst snd] in *. subst t.
    destruct (filter_step q (dci_array tree) s p ps (with_array tree a) st) as (ps' & a' & st' & E & Hinv'); [done | lia | done |].
    exists (with_array tree a', st'). split; [exact E |]. by exists ps', a'.
  - cbn [fst snd] in *. subst t. exists ps, a, s'. destruct Hinv as [F1 F2 F3 F4 F5 F6 F7].
    split; [done |]. split_and!; [done | done | done | | | done].
    + intros c m Hc. by destruct (F4 c m Hc) as (_ & ? & ? & ?).
    + intros i j Hij. destruct (F6 i j Hij) as [[E (c & Hc & Ho)] | [E Hno]]; destruct (decide _) as [HE | HE]; try done.
      * exfalso. apply HE, Exists_exists. by exists c.
      * apply Exists_exists in HE as (c & Hc & Ho). by destruct (Hno c Hc).
Qed.

Definition ex_filter_tree : ngscope_tree_t := Tree ex_array (replicate 180 zero_loc) 15 8.

Lemma filter_dci_spec_witness :
  exists ps a s', filter_dci_from_tree ex_filter_tree ex_tracker empty_per_sub = Some (with_array ex_filter_tree a, s')
    /\ push_all empty_per_sub (snd <$> ps) = Some s' /\ apart (fst <$> ps).
Proof.
  destruct (filter_dci_spec ex_filter_tree ex_tracker empty_per_sub) as (ps & a & s' & E & _ & Hp & Ha & _);
    [exact ex_array_wf | vm_compute; intuition discriminate | reflexivity | exact empty_per_sub_wf |].
  exists ps, a, s'. split; [exact E |]. split; assumption.
Defined.

(** ** What the tracker is told *)

(** The RNTIs of a location in the order of the formats, with the direction. *)
Definition loc_rntis (a : list (list ngscope_dci_msg_t)) (j : Z) : list (Z * Z) :=
  filter (fun p => 0 < snd p) ((fun i => (i, rnti (default zero_msg (cell a i j)))) <$> seqZ 0 5).

(** Those counted: the only one, or else the ones of the formats 0 and 2. *)
Definition counted (l : list (Z * Z)) : list (Z * bool) :=
  (fun p => (snd p, negb (fst p =? 0))) <$>
    (if zlen l =? 1 then l else filter (fun p => is_04 (fst p)) l).

Definition enqueue_all (q : ngscope_ue_tracker_t) (tti : Z) (l : list (Z * bool)) : option ngscope_ue_tracker_t :=
  foldM (fun q p => ngscope_ue_tracker_enqueue_ue_rnti q tti (fst p) (snd p)) q l.

(** All that a subframe tells the tracker. *)
Definition subframe_rntis (tree : ngscope_tree_t) (s : ngscope_dci_per_sub_t) : list (Z * bool) :=
  ((fun m => (rnti m, true)) <$> dl_list s) ++ ((fun m => (rnti m, false)) <$> ul_list s)
  ++ (j ← seqZ 0 (nof_location tree); counted (loc_rntis (dci_array tree) j)).

Lemma collect_rnti_spec tree j :
  arr_wf (dci_array tree) -> 0 <= j < MAX_CANDIDATES_ALL ->
  (forall i m, cell (dci_array tree) i j = Some m -> 0 <= rnti m) ->
  collect_rnti tree j = Some ((fun i => rnti_at (dci_array tree) j i) <$> seqZ 0 5, zlen (loc_rntis (dci_array tree) j)).
Proof.
  intros Hwf Hj Hpos. unfold collect_rnti, loc_rntis. fold (rnti_at (dci_array tree) j).
  set (r := fun i => rnti_at (dci_array tree) j i).
  loop_inv (fun i (st : list Z * Z) => fst st = (r <$> seqZ 0 i) ++ replicate (Z.to_nat (5 - i)) 0
    /\ snd st = zlen (filter (fun p => 0 < snd p) ((fun i => (i, r i)) <$> seqZ 0 i))) as ([v n] & -> & Hv & Hn).
  - done.
  - done.
  - intros i [v n] Hi [Hv Hn]. cbn [fst snd] in *.
    destruct (cell_some (dci_array tree) i j Hwf) as [m Em]; [split; [exact Hi | exact Hj] |].
    rewrite Em. cbn [mbind option_bind]. pose proof (Hpos i m Em) as Hm.
    assert (r i = rnti m) as Er by (unfold r, rnti_at; by rewrite Em).
    unfold MAX_NOF_FORMAT in Hi.
    replace (i + 1) with (Z.of_nat (S (Z.to_nat i))) by lia. rewrite seqZ_S, Z2Nat.id, Z.add_0_l by lia.
    rewrite !fmap_app, filter_app. cbn [fmap list_fmap]. rewrite filter_cons, filter_nil. cbn [snd].
    replace (Z.to_nat (5 - i)) with (S (Z.to_nat (5 - Z.of_nat (S (Z.to_nat i))))) in Hv by lia.
    rewrite Er. destruct (Z.leb_spec (rnti m) 0) as [H0 | H0].
    + eexists. split; [done |]. cbn [fst snd]. destruct (decide (0 < rnti m)); [lia |]. rewrite app_nil_r. split; [| done].
      rewrite Hv. assert (rnti m = 0) as -> by lia. by rewrite <- app_assoc.
    + rewrite Hv. cbn [replicate]. rewrite zset_app_mid by (unfold zlen; rewrite length_fmap, length_seqZ; lia).
      cbn [mbind option_bind]. eexists. split; [done |]. cbn [fst snd]. rewrite <- app_assoc. split; [done |].
      destruct (decide (0 < rnti m)); [| lia]. rewrite zlen_app, <- Hn. done.
  - cbn [fst snd] in *. subst v n. by rewrite app_nil_r.
Qed.

Definition tag (p : Z * Z) : Z * bool := (snd p, negb (fst p =? 0)).

Lemma enqueue_rnti_spec q tti n (r : Z -> Z) v i fuel :
  (forall k, 0 <= k < 5 -> zget v k = Some (r k) /\ 0 <= r k) -> 0 <= i -> i + Z.of_nat fuel = 5 ->
  (n = 1 -> zlen (filter (fun p => 0 < snd p) ((fun k => (k, r k)) <$> seqZ i (Z.of_nat fuel))) <= 1) ->
  enqueue_rnti q tti n v i fuel = enqueue_all q tti (tag <$>
    (let l := filter (fun p => 0 < snd p) ((fun k => (k, r k)) <$> seqZ i (Z.of_nat fuel)) in
     if n =? 1 then l else filter (fun p => is_04 (fst p)) l)).
Proof.
  intros Hv. revert q i. induction fuel as [| fuel IH]; intros q i Hi Hf Hone; cbn [enqueue_rnti].
  { simpl. by destruct (n =? 1). }
  destruct (Hv i ltac:(lia)) as [-> Hr]. cbn [mbind option_bind].
  rewrite seqZ_cons by lia. replace (Z.pred (Z.of_nat (S fuel))) with (Z.of_nat fuel) by lia.
  rewrite seqZ_cons in Hone by lia. replace (Z.pred (Z.of_nat (S fuel))) with (Z.of_nat fuel) in Hone by lia.
  rewrite fmap_cons, filter_cons in Hone |- *. cbn [snd] in *. replace (Z.succ i) with (i + 1) in * by lia.
  set (L := filter (fun p => 0 < snd p) ((fun k => (k, r k)) <$> seqZ (i + 1) (Z.of_nat fuel))) in *.
  assert (n = 1 -> zlen L <= 1) as Hone'.
  { intros ->. specialize (Hone eq_refl). destruct (decide (0 < r i)); [rewrite zlen_cons in Hone; lia | done]. }
  destruct (Z.eqb_spec (r i) 0) as [E | E]; cbn [negb].
  { destruct (decide (0 < r i)); [lia |]. by apply IH; try lia. }
  destruct (decide (0 < r i)) as [Hp | Hp]; [| lia]. cbv zeta.
  assert ((if i =? 0 then false else true) = negb (i =? 0)) as -> by by destruct (i =? 0).
  destruct (Z.eqb_spec n 1) as [-> | Hn].
  - specialize (Hone eq_refl). rewrite zlen_cons in Hone. destruct L; [| rewrite zlen_cons in Hone; pose proof (zlen_nonneg L); lia].
    unfold enqueue_all. cbn [fmap list_fmap foldM tag fst snd]. by destruct (ngscope_ue_tracker_enqueue_ue_rnti _ _ _ _).
  - rewrite filter_cons. cbn [fst].
    assert (((i =? 0) || (i =? 4)) = bool_decide (is_04 i)) as ->.
    { destruct (bool_decide_reflect (is_04 i)) as [H | H]; unfold is_04 in H.
      - apply orb_true_iff. rewrite !Z.eqb_eq. done.
      - apply orb_false_iff. rewrite !Z.eqb_neq. tauto. }
    case_bool_decide as H04.
    + rewrite decide_True by done. unfold enqueue_all. cbn [fmap list_fmap foldM tag fst snd].
      destruct (ngscope_ue_tracker_enqueue_ue_rnti _ _ _ _) as [q' |]; [| done]. cbn [mbind option_bind].
      rewrite IH by (done || lia). destruct (Z.eqb_spec n 1); [done | done].
    + rewrite decide_False by done. rewrite IH by (done || lia). destruct (Z.eqb_spec n 1); [done | done].
Qed.

(** Times and counters are in range, with room for [n] more observations. *)
Record tracker_ok (n : Z) (q : ngscope_ue_tracker_t) : Prop := TrackerOk {
  tk_top : top_inv q;
  tk_time : forall r, 0 <= aget (ue_last_active q) r < MAX_TTI;
  tk_cnt : forall r, 0 <= aget (ue_cnt q) r /\ aget (ue_cnt q) r + n < 2 ^ 32
}.

Definition times (r : Z) (l : list (Z * bool)) : Z := zlen (filter (fun p => fst p = r) l).

Lemma enqueue_all_ok q tti l :
  0 <= tti < MAX_TTI -> Forall (fun p => 0 < fst p <= 65535) l -> tracker_ok (zlen l) q ->
  exists q', enqueue_all q tti l = Some q' /\ tracker_ok 0 q' /\ (top_complete q -> top_complete q')
    /\ forall r, aget (ue_cnt q') r = aget (ue_cnt q) r + times r l.
Proof.
  intros Htti Hl. revert q. induction Hl as [| [r dl] l Hr Hl IH]; intros q [Ht Hla Hc].
  { exists q. split; [done |]. split; [by split |]. split; [done |]. intros r. unfold times. rewrite filter_nil, zlen_nil. lia. }
  cbn [fst] in Hr. rewrite zlen_cons in Hc.
  pose proof (zlen_nonneg l).
  destruct (enqueue_top_aux q tti r dl) as (q1 & E & Ht1 & Hc1 & Hla1 & Hco1); [done | done | done | done | specialize (Hc r); lia |].
  destruct (IH q1) as (q2 & E2 & H2 & Hco2 & Hc2).
  { split; [done | |].
    - intros x. rewrite Hla1. destruct (decide (x = r)) as [-> | Hne]; [by rewrite aget_eq | by rewrite aget_ne].
    - intros x. rewrite Hc1. pose proof (Hc x). destruct (decide (x = r)) as [-> | Hne];
        [rewrite aget_eq | rewrite aget_ne by done]; lia. }
  exists q2. split.
  { unfold enqueue_all in *. cbn [foldM fst snd]. by rewrite E. }
  split; [done |]. split; [tauto |]. intros x. rewrite Hc2, Hc1. unfold times. rewrite filter_cons. cbn [fst].
  destruct (decide (r = x)) as [-> | Hne].
  - rewrite aget_eq, zlen_cons. lia.
  - rewrite aget_ne by done. done.
Qed.

Lemma enqueue_all_app q tti l1 l2 : enqueue_all q tti (l1 ++ l2) = enqueue_all q tti l1 ≫= fun q => enqueue_all q tti l2.
Proof. apply foldM_app. Qed.

(** The loop over the messages of one direction. *)
Lemma enqueue_msgs q tti ms n dl : 0 <= n <= zlen ms ->
  for_range 0 n (fun q i => m ← zget ms i; ngscope_ue_tracker_enqueue_ue_rnti q tti (rnti m) dl) q
    = enqueue_all q tti ((fun m => (rnti m, dl)) <$> take (Z.to_nat n) ms).
Proof.
  intros Hn. unfold for_range. rewrite Z.sub_0_r.
  assert (forall k pre q, (k <= length ms)%nat -> Z.of_nat k + zlen pre <= zlen ms -> pre = take (length pre) ms ->
    foldM (fun q i => m ← zget ms i; ngscope_ue_tracker_enqueue_ue_rnti q tti (rnti m) dl) q (seqZ (zlen pre) (Z.of_nat k))
    = enqueue_all q tti ((fun m => (rnti m, dl)) <$> take k (drop (length pre) ms))) as H.
  { induction k as [| k IH]; intros pre q' Hk Hlen Hpre; [done |].
    rewrite seqZ_cons by lia. replace (Z.pred (Z.of_nat (S k))) with (Z.of_nat k) by lia.
    destruct (lookup_lt_is_Some_2 ms (length pre)) as [m Em]; [unfold zlen in Hlen; lia |].
    rewrite (drop_S ms m) by done. cbn [take fmap list_fmap foldM].
    rewrite zget_lookup by apply zlen_nonneg. unfold zlen at 1. rewrite Nat2Z.id, Em. cbn [mbind option_bind].
    unfold enqueue_all. cbn [foldM fst snd]. destruct (ngscope_ue_tracker_enqueue_ue_rnti _ _ _ _) as [q1 |]; [| done].
    specialize (IH (pre ++ [m]) q1). rewrite zlen_app, length_app in IH. cbn [length] in IH.
    change (zlen [m]) with 1 in IH. replace (Z.succ (zlen pre)) with (zlen pre + 1) by lia.
    rewrite Nat.add_1_r in IH. apply IH; [lia | lia |].
    rewrite (take_S_r ms (length pre) m) by done. by rewrite <- Hpre. }
  specialize (H (Z.to_nat n) [] q). rewrite zlen_nil, Z2Nat.id in H by lia. apply H; [unfold zlen in Hn; lia | lia | done].
Qed.

(** The tracker update of a subframe counts exactly its accepted
    downlink and uplink messages and, per location of the tree, its only RNTI, or
    of several those of the formats 0 and 2, and nothing else; it never fails and
    keeps the tracker's table sorted, consistent and complete. *)
Theorem update_per_tti_spec (tree : ngscope_tree_t) (q : ngscope_ue_tracker_t) (s : ngscope_dci_per_sub_t) (tti : Z)
  (Hwf : arr_wf (dci_array tree)) (Hn : 0 <= nof_location tree <= MAX_CANDIDATES_ALL) (Hs : per_sub_wf s)
  (Hcells : forall i j m, cell (dci_array tree) i j = Some m -> 0 <= rnti m <= 65535)
  (Hmsgs : Forall (fun m => 0 < rnti m <= 65535) (dl_list s ++ ul_list s))
  (Htti : 0 <= tti < MAX_TTI) (Hq : tracker_ok (zlen (subframe_rntis tree s)) q) :
  exists q', update_ue_dci_per_tti tree q s tti = Some q' /\ top_inv q' /\ (top_complete q -> top_complete q')
    /\ forall r, aget (ue_cnt q') r = aget (ue_cnt q) r + times r (subframe_rntis tree s).
Proof.
  assert (forall q', update_ue_dci_per_tti tree q' s tti = enqueue_all q' tti (subframe_rntis tree s)) as E.
  { intros q'. unfold update_ue_dci_per_tti, subframe_rntis. destruct Hs as [Hd Hu Hnd Hnu].
    rewrite enqueue_msgs by lia. fold (dl_list s). rewrite enqueue_all_app.
    destruct (enqueue_all q' tti _) as [q1 |]; [| done]. cbn [mbind option_bind].
    rewrite enqueue_msgs by lia. fold (ul_list s). rewrite enqueue_all_app.
    destruct (enqueue_all q1 tti _) as [q2 |]; [| done]. cbn [mbind option_bind].
    unfold for_range. rewrite Z.sub_0_r.
    assert (forall l q, (forall j, j ∈ l -> 0 <= j < MAX_CANDIDATES_ALL) ->
      foldM (fun q i => update_ue_dci_per_loc tree q i tti) q l
      = enqueue_all q tti (j ← l; counted (loc_rntis (dci_array tree) j))) as H.
    { induction l as [| j l IH]; intros q0 Hl; [done |]. cbn [foldM mbind list_bind].
      rewrite enqueue_all_app. unfold update_ue_dci_per_loc at 1.
      rewrite collect_rnti_spec; [| done | apply Hl; by left | intros i m Em; by apply (Hcells i j m)].
      cbn [mbind option_bind].
      rewrite (enqueue_rnti_spec q0 tti _ (rnti_at (dci_array tree) j)).
      - change (Z.of_nat (Z.to_nat (MAX_NOF_FORMAT + 1))) with 5. cbv zeta.
        change (filter (fun p => 0 < p.2) ((fun k => (k, rnti_at (dci_array tree) j k)) <$> seqZ 0 5))
          with (loc_rntis (dci_array tree) j).
        change (tag <$> _) with (counted (loc_rntis (dci_array tree) j)).
        destruct (enqueue_all q0 tti _) as [q3 |]; [| done]. cbn [mbind option_bind]. apply IH. intros; apply Hl. by right.
      - intros k Hk. split.
        + rewrite zget_lookup by lia. rewrite list_lookup_fmap, lookup_seqZ_lt by lia. simpl. f_equal. f_equal. lia.
        + unfold rnti_at. destruct (cell_some (dci_array tree) k j Hwf) as [m Em]; [split; [exact Hk | apply Hl; by left] |].
          rewrite Em. by apply (Hcells k j m).
      - lia.
      - done.
      - intros E1. change (Z.of_nat (Z.to_nat (MAX_NOF_FORMAT + 1))) with 5.
        change (zlen (loc_rntis (dci_array tree) j) <= 1). lia. }
    apply H. intros j Hj. apply elem_of_seqZ in Hj. lia. }
  rewrite E. destruct (enqueue_all_ok q tti (subframe_rntis tree s)) as (q' & E' & Hok & Hco & Hcnt); [done | | done |].
  - unfold subframe_rntis. rewrite !Forall_app, !Forall_fmap. rewrite Forall_app in Hmsgs. destruct Hmsgs as [H1 H2].
    split; [done |]. split; [done |]. rewrite Forall_forall. intros [r d] Hrd.
    apply list_elem_of_bind in Hrd as (j & Hrd & _). unfold counted in Hrd.
    apply list_elem_of_fmap in Hrd as ([i x] & [= -> ->] & Hin). simpl.
    assert ((i, x) ∈ loc_rntis (dci_array tree) j) as Hin'.
    { destruct (zlen _ =? 1); [done |]. by apply list_elem_of_filter in Hin as [_ ?]. }
    apply list_elem_of_filter in Hin' as [Hx Hin']. apply list_elem_of_fmap in Hin' as (k & [= -> ->] & _). simpl in Hx.
    split; [done |]. destruct (cell (dci_array tree) k j) as [m |] eqn:Em; [| simpl in *; lia]. by apply (Hcells k j m).
  - exists q'. split; [done |]. split; [apply Hok |]. split; done.
Qed.

Lemma update_per_tti_spec_witness :
  exists q', update_ue_dci_per_tti ex_filter_tree ex_tracker empty_per_sub 9 = Some q'
    /\ aget (ue_cnt q') 100 = 2 /\ aget (ue_cnt q') 200 = 0.
Proof.
  destruct (update_per_tti_spec ex_filter_tree ex_tracker empty_per_sub 9) as (q' & E & _ & _ & Hc).
  - exact ex_array_wf.
  - vm_compute. intuition discriminate.
  - exact empty_per_sub_wf.
  - intros i j m Em. pose proof (cell_in _ i j m ex_array_wf Em) as [Hi Hj].
    change (dci_array ex_filter_tree) with ex_array in Em. unfold cell in Em.
    destruct (zget ex_array i) as [r |] eqn:Er; [| discriminate Em].
    cbn [mbind option_bind] in Em. rewrite zget_lookup in Em by apply Hj. apply list_elem_of_lookup_2 in Em.
    rewrite zget_lookup in Er by apply Hi. apply list_elem_of_lookup_2 in Er.
    assert (forallb (forallb (fun m => (0 <=? rnti m) && (rnti m <=? 65535))) ex_array = true) as HB by (vm_compute; reflexivity).
    rewrite forallb_forall in HB. specialize (HB r (proj1 (list_elem_of_In _ _) Er)).
    rewrite forallb_forall in HB. specialize (HB m (proj1 (list_elem_of_In _ _) Em)). clear - HB. lia.
  - apply Forall_nil_2.
  - vm_compute. intuition discriminate.
  - split; [exact ex_tracker_top | |]; intros r; unfold aget; simpl; rewrite lookup_empty; simpl.
    + unfold MAX_TTI. lia.
    + split; [lia |]. vm_compute. reflexivity.
  - exists q'. split; [exact E |]. rewrite !Hc. split; vm_compute; reflexivity.
Defined.
