(* ===== verification/Log2f.v ===== *)
(** * Logarithms in binary32

    The widths of fields of the PER codec and of the DCI formats come from [log2f]. The functions below are the ones the
    code composes, for a correctly rounded [log2f]: the result of [log2f] is an
    integer [k] next to [2^k] exactly when the fraction of its argument, in units
    of [2^-23], is under half a unit in the last place of [k]. *)

From S2P Require Export Prelude.

(** An integer converted to [float]: 24 bits, ties to even. *)
Definition to_float (x : Z) : Z :=
  let k := Z.log2 x in
  if k <? 24 then x
  else
    let u := 2 ^ (k - 23) in let q := x / u in let r := x mod u in
    (if 2 * r <? u then q else if u <? 2 * r then q + 1 else q + q mod 2) * u.

(** [log2f] rounds down to [k] up to this fraction over [2^k], up to [K] from this
    fraction under [2^K]; below [2^16] an integer argument is never that close. *)
Definition round_down_to (k : Z) : Z := if k <? 16 then 0 else if k <? 32 then 5 else if k <? 64 then 11 else 22.
Definition round_up_to (K : Z) : Z :=
  if K <? 17 then 0 else if K <? 32 then 11 else if K =? 32 then 33 else if K <? 64 then 22 else 66.

(** [(uint32_t)ceilf(log2f(x))] *)
Definition ceilf_log2f_to (down : Z -> Z) (x : Z) : Z :=
  let y := to_float x in let k := Z.log2 y in
  if (y - 2 ^ k) * 2 ^ 23 <=? down k * 2 ^ k then k else k + 1.

Definition ceilf_log2f (x : Z) : Z := ceilf_log2f_to round_down_to x.

(** [(uint32_t)floorf(log2f(x) + 1)]; the sum rounds too when it passes 32 or 64. *)
Definition floorf_log2f_1 (x : Z) : Z :=
  let y := to_float x in let k := Z.log2 y in
  if (2 ^ (k + 1) - y) * 2 ^ 24 <=? round_up_to (k + 1) * 2 ^ (k + 1) then k + 2 else k + 1.

(** [(uint32_t)ceilf(log2(x))], the logarithm in [double]. *)
Definition ceilf_log2 (x : Z) : Z :=
  let k := Z.log2 x in
  if (k <? 21) && negb (x =? 2 ^ k) then k + 1
  else if k <? 32 then if (x - 2 ^ k) * 2 ^ 20 * 100000 <=? 69314 * 2 ^ k then k else k + 1
  else if (x - 2 ^ k) * 2 ^ 19 * 100000 <=? 69314 * 2 ^ k then k else k + 1.

Lemma log2_up_between k x : 0 <= k -> 2 ^ k < x <= 2 ^ (k + 1) -> Z.log2_up x = k + 1.
Proof. intros Hk Hx. apply Z.log2_up_unique; [lia |]. by replace (Z.pred (k + 1)) with k by lia. Qed.

Lemma to_float_small x : x < 2 ^ 24 -> to_float x = x.
Proof.
  intros Hx. unfold to_float. destruct (Z.ltb_spec (Z.log2 x) 24) as [| Hk]; [done |].
  assert (0 < x) by (destruct (Z.le_gt_cases x 0); [rewrite Z.log2_nonpos in Hk; lia | done]).
  pose proof (Z.log2_lt_pow2 x 24). lia.
Qed.

(** For at most 2^21 values the width is exact. *)
Lemma ceilf_log2f_exact x : 1 <= x <= 2 ^ 21 -> ceilf_log2f x = Z.log2_up x.
Proof.
  intros Hx. unfold ceilf_log2f, ceilf_log2f_to. rewrite to_float_small by lia. cbv zeta. set (k := Z.log2 x).
  pose proof (Z.log2_spec x ltac:(lia)) as Hs. fold k in Hs. pose proof (Z.log2_nonneg x). fold k in H.
  assert (k <= 21). { assert (k < 22); [| lia]. apply Z.log2_lt_pow2; lia. }
  replace (Z.succ k) with (k + 1) in Hs by lia. clearbody k.
  destruct (Z.leb_spec ((x - 2 ^ k) * 2 ^ 23) (round_down_to k * 2 ^ k)) as [Hle | Hgt].
  - assert (x = 2 ^ k) as Exk; [| by rewrite Exk, Z.log2_up_pow2].
    assert (2 ^ k <= 2 ^ 21) by (apply Z.pow_le_mono_r; lia).
    destruct (Z.eq_dec k 21) as [Ek | Ek]; [subst k; lia |].
    assert (2 ^ k <= 2 ^ 20) by (apply Z.pow_le_mono_r; lia).
    unfold round_down_to in Hle. destruct (k <? 16), (k <? 32) eqn:?, (k <? 64) eqn:?; lia.
  - symmetry. apply log2_up_between; [done |].
    assert (0 <= round_down_to k * 2 ^ k) by (unfold round_down_to; destruct (k <? 16), (k <? 32), (k <? 64); lia). lia.
Qed.

(** The conversion keeps an integer between its powers of two. *)
Lemma to_float_log2 x : 1 <= x -> 2 ^ Z.log2 x <= to_float x <= 2 ^ (Z.log2 x + 1).
Proof.
  intros Hx. pose proof (Z.log2_spec x ltac:(lia)) as Hs. replace (Z.succ _) with (Z.log2 x + 1) in Hs by lia.
  unfold to_float. set (k := Z.log2 x) in *. destruct (Z.ltb_spec k 24); [lia |]. cbv zeta.
  set (u := 2 ^ (k - 23)). assert (0 < u) by (apply Z.pow_pos_nonneg; lia).
  assert (2 ^ k = 2 ^ 23 * u) as Ek by (unfold u; rewrite <- Z.pow_add_r by lia; f_equal; lia).
  assert (2 ^ (k + 1) = 2 ^ 24 * u) as Ek1 by (unfold u; rewrite <- Z.pow_add_r by lia; f_equal; lia).
  assert (2 ^ 23 <= x / u < 2 ^ 24) as Hq.
  { split; [apply Z.div_le_lower_bound; lia | apply Z.div_lt_upper_bound; lia]. }
  pose proof (Z.mod_pos_bound (x / u) 2 ltac:(lia)). rewrite Ek, Ek1.
  destruct (2 * (x mod u) <? u), (u <? 2 * (x mod u)); nia.
Qed.

Lemma log2_to_float x : 1 <= x -> Z.log2 x <= Z.log2 (to_float x) <= Z.log2 x + 1.
Proof.
  intros Hx. pose proof (to_float_log2 x Hx) as Hy. pose proof (Z.log2_nonneg x). pose proof (Z.pow_pos_nonneg 2 (Z.log2 x)).
  split; [apply Z.log2_le_pow2; lia |]. rewrite <- (Z.log2_pow2 (Z.log2 x + 1)) by lia. apply Z.log2_le_mono. lia.
Qed.

Lemma ceilf_log2f_to_lb down x : 1 <= x -> Z.log2 x <= ceilf_log2f_to down x.
Proof. intros Hx. pose proof (log2_to_float x Hx). unfold ceilf_log2f_to. cbv zeta.
  destruct ((to_float x - _) * _ <=? _); lia. Qed.

Lemma to_float_pow2 k : 0 <= k -> to_float (2 ^ k) = 2 ^ k.
Proof.
  intros Hk. unfold to_float. rewrite Z.log2_pow2 by done. destruct (Z.ltb_spec k 24); [done |]. cbv zeta.
  assert (0 < 2 ^ (k - 23)) by (apply Z.pow_pos_nonneg; lia).
  assert (2 ^ k = 2 ^ 23 * 2 ^ (k - 23)) as E by (rewrite <- Z.pow_add_r by lia; f_equal; lia).
  rewrite E, Z.div_mul, Z_mod_mult by lia. by destruct (Z.ltb_spec (2 * 0) (2 ^ (k - 23))); [| lia].
Qed.

Lemma ceilf_log2f_to_ub down x k : (forall k, 0 <= down k) -> 1 <= x <= 2 ^ k -> 0 <= k -> ceilf_log2f_to down x <= k.
Proof.
  intros Hdown Hx Hk. assert (1 <= to_float x <= 2 ^ k) as Hy.
  { pose proof (to_float_log2 x ltac:(lia)). pose proof (Z.log2_nonneg x). pose proof (Z.pow_pos_nonneg 2 (Z.log2 x)).
    split; [lia |]. destruct (Z.eq_dec x (2 ^ k)) as [-> | Hne]; [by rewrite to_float_pow2 |].
    assert (Z.log2 x < k) by (apply Z.log2_lt_pow2; lia).
    assert (2 ^ (Z.log2 x + 1) <= 2 ^ k) by (apply Z.pow_le_mono_r; lia). lia. }
  unfold ceilf_log2f_to. cbv zeta. set (y := to_float x) in *. clearbody y.
  pose proof (Z.log2_le_mono y (2 ^ k) ltac:(lia)) as Hl. rewrite Z.log2_pow2 in Hl by done.
  destruct (Z.leb_spec ((y - 2 ^ Z.log2 y) * 2 ^ 23) (down (Z.log2 y) * 2 ^ Z.log2 y)) as [Hle | Hgt]; [done |].
  assert (Z.log2 y <> k); [| lia]. intros E. rewrite E in Hgt.
  specialize (Hdown k). nia.
Qed.

Lemma round_down_nonneg k : 0 <= round_down_to k.
Proof. unfold round_down_to. destruct (k <? 16), (k <? 32), (k <? 64); lia. Qed.

Lemma ceilf_log2f_lb x : 1 <= x -> Z.log2 x <= ceilf_log2f x.
Proof. apply ceilf_log2f_to_lb. Qed.

Lemma ceilf_log2f_ub x k : 1 <= x <= 2 ^ k -> 0 <= k -> ceilf_log2f x <= k.
Proof. apply ceilf_log2f_to_ub, round_down_nonneg. Qed.

(** The bit length of a number is never underestimated. *)
Lemma floorf_log2f_1_bounds x : 1 <= x -> Z.log2 x + 1 <= floorf_log2f_1 x <= Z.log2 x + 2.
Proof.
  intros Hx. pose proof (to_float_log2 x Hx) as Hy. pose proof (log2_to_float x Hx) as Hl.
  unfold floorf_log2f_1. cbv zeta. destruct (Z.leb_spec ((2 ^ (Z.log2 (to_float x) + 1) - to_float x) * 2 ^ 24)
    (round_up_to (Z.log2 (to_float x) + 1) * 2 ^ (Z.log2 (to_float x) + 1))) as [Hle | Hgt]; [| lia].
  assert (Z.log2 (to_float x) <> Z.log2 x + 1); [| lia]. intros E. rewrite E in Hle.
  assert (to_float x = 2 ^ (Z.log2 x + 1)) as Ey.
  { pose proof (Z.log2_spec (to_float x)) as Hs. rewrite E in Hs. pose proof (Z.pow_pos_nonneg 2 (Z.log2 x)).
    pose proof (Z.log2_nonneg x). lia. }
  rewrite Ey in Hle. set (k := Z.log2 x + 1) in *. pose proof (Z.log2_nonneg x).
  assert (0 < 2 ^ k) by (apply Z.pow_pos_nonneg; lia). rewrite Z.pow_add_r in Hle by lia.
  assert (round_up_to (k + 1) <= 66); [| nia].
  unfold round_up_to. destruct (k + 1 <? 17), (k + 1 <? 32), (k + 1 =? 32), (k + 1 <? 64); lia.
Qed.
