(* ===== verification/PhyCommon.v ===== *)
(** * Cells, subframes and modulations ([lib/src/phy/common/phy_common.c] and its header)

    The configuration records every physical-layer routine takes, the predicates on them,
    and the subframe structure of TDD cells. *)

From S2P Require Export Prelude.

(** ** Data *)

Inductive srsran_frame_type_t := SRSRAN_FDD | SRSRAN_TDD.
Inductive srsran_cp_t := SRSRAN_CP_NORM | SRSRAN_CP_EXT.
Inductive srsran_sf_t := SRSRAN_SF_NORM | SRSRAN_SF_MBSFN.
Inductive srsran_tdd_sf_t := SRSRAN_TDD_SF_D | SRSRAN_TDD_SF_U | SRSRAN_TDD_SF_S.
Inductive srsran_mod_t :=
  | SRSRAN_MOD_BPSK | SRSRAN_MOD_QPSK | SRSRAN_MOD_16QAM | SRSRAN_MOD_64QAM | SRSRAN_MOD_256QAM.

#[export] Instance srsran_frame_type_t_eq_dec : EqDecision srsran_frame_type_t.
Proof. solve_decision. Defined.
#[export] Instance srsran_cp_t_eq_dec : EqDecision srsran_cp_t.
Proof. solve_decision. Defined.
#[export] Instance srsran_sf_t_eq_dec : EqDecision srsran_sf_t.
Proof. solve_decision. Defined.
#[export] Instance srsran_tdd_sf_t_eq_dec : EqDecision srsran_tdd_sf_t.
Proof. solve_decision. Defined.
#[export] Instance srsran_mod_t_eq_dec : EqDecision srsran_mod_t.
Proof. solve_decision. Defined.

Record srsran_tdd_config_t := TddConfig { sf_config : Z; ss_config : Z; configured : bool }.

(** The fields of a cell the modelled routines read; the PHICH fields are not among them. *)
Record srsran_cell_t := Cell {
  nof_prb : Z; nof_ports : Z; cell_id : Z; cp : srsran_cp_t; frame_type : srsran_frame_type_t
}.

Record srsran_dl_sf_cfg_t := DlSfCfg {
  tdd_config : srsran_tdd_config_t; tti : Z; cfi : Z; sf_type : srsran_sf_t; non_mbsfn_region : Z
}.

(** An object cleared by [ZERO_OBJECT]. *)
Definition zero_tdd_config : srsran_tdd_config_t := TddConfig 0 0 false.
Definition zero_dl_sf_cfg : srsran_dl_sf_cfg_t := DlSfCfg zero_tdd_config 0 0 SRSRAN_SF_NORM 0.

(** ** Constants and macros *)

Definition SRSRAN_SUCCESS : Z := 0.
Definition SRSRAN_ERROR : Z := -1.
Definition SRSRAN_ERROR_INVALID_INPUTS : Z := -2.

Definition SRSRAN_MAX_PRB : Z := 110.
Definition SRSRAN_NRE : Z := 12.
Definition SRSRAN_MAX_PORTS : Z := 4.

Definition SRSRAN_RNTI_ISRAR (rnti : Z) : bool := (1 <=? rnti) && (rnti <=? 10).
Definition SRSRAN_RNTI_ISUSER (rnti : Z) : bool := (11 <=? rnti) && (rnti <=? 65523).
Definition SRSRAN_PRNTI : Z := 65534.
Definition SRSRAN_RNTI_ISMBSFN (rnti : Z) : bool := rnti =? 65533.

Definition SRSRAN_CP_ISEXT (c : srsran_cp_t) : bool := bool_decide (c = SRSRAN_CP_EXT).
Definition SRSRAN_CP_NSYMB (c : srsran_cp_t) : Z :=
  match c with SRSRAN_CP_NORM => 7 | SRSRAN_CP_EXT => 6 end.
Definition SRSRAN_NOF_CTRL_SYMBOLS (cell : srsran_cell_t) (cfi : Z) : Z :=
  u32 (cfi + (if nof_prb cell <? 10 then 1 else 0)).

(** ** Validity of a cell *)

Definition srsran_cellid_isvalid (id : Z) : bool := id <? 504.
Definition srsran_nofprb_isvalid (nof_prb : Z) : bool :=
  (nof_prb =? 1) || ((6 <=? nof_prb) && (nof_prb <=? SRSRAN_MAX_PRB)).
Definition srsran_portid_isvalid (port_id : Z) : bool := port_id <=? SRSRAN_MAX_PORTS.
Definition srsran_cell_isvalid (cell : srsran_cell_t) : bool :=
  srsran_cellid_isvalid (cell_id cell) && srsran_portid_isvalid (nof_ports cell)
  && srsran_nofprb_isvalid (nof_prb cell).

(** ** TDD subframes *)

Definition tdd_sf : list (list srsran_tdd_sf_t) :=
  let D := SRSRAN_TDD_SF_D in let U := SRSRAN_TDD_SF_U in let S := SRSRAN_TDD_SF_S in
  [[D; S; U; U; U; D; S; U; U; U];
   [D; S; U; U; D; D; S; U; U; D];
   [D; S; U; D; D; D; S; U; D; D];
   [D; S; U; U; U; D; D; D; D; D];
   [D; S; U; U; D; D; D; D; D; D];
   [D; S; U; D; D; D; D; D; D; D];
   [D; S; U; U; U; D; S; U; U; D]].

Definition srsran_sfidx_tdd_type (c : srsran_tdd_config_t) (sf_idx : Z) : option srsran_tdd_sf_t :=
  if (sf_config c <? 7) && (sf_idx <? 10) && configured c then
    row ← zget tdd_sf (sf_config c); zget row sf_idx
  else Some SRSRAN_TDD_SF_D.

Definition tdd_nof_sf_symbols : list (Z * Z * Z) :=
  [(3, 10, 1); (9, 4, 1); (10, 3, 1); (11, 2, 1); (12, 1, 1);
   (3, 9, 2); (9, 3, 2); (10, 2, 2); (11, 1, 1); (6, 6, 2)].

Definition srsran_sfidx_tdd_nof_dw (c : srsran_tdd_config_t) : option Z :=
  if ss_config c <? 10 then '(dw, _, _) ← zget tdd_nof_sf_symbols (ss_config c); Some dw else Some 0.
Definition srsran_sfidx_tdd_nof_gp (c : srsran_tdd_config_t) : option Z :=
  if ss_config c <? 10 then '(_, gp, _) ← zget tdd_nof_sf_symbols (ss_config c); Some gp else Some 0.
Definition srsran_sfidx_tdd_nof_up (c : srsran_tdd_config_t) : option Z :=
  if ss_config c <? 10 then '(_, _, up) ← zget tdd_nof_sf_symbols (ss_config c); Some up else Some 0.

Definition srsran_sfidx_tdd_nof_dw_slot (c : srsran_tdd_config_t) (slot : Z) (cp : srsran_cp_t) : option Z :=
  n ← srsran_sfidx_tdd_nof_dw c;
  Some (if n <? SRSRAN_CP_NSYMB cp then (if slot =? 1 then 0 else n)
        else if slot =? 1 then n - SRSRAN_CP_NSYMB cp else SRSRAN_CP_NSYMB cp).

Definition srsran_tdd_nof_harq (c : srsran_tdd_config_t) : option Z := zget [7; 4; 2; 3; 2; 1; 6] (sf_config c).

(** ** Modulations *)

Definition srsran_mod_bits_x_symbol (m : srsran_mod_t) : Z :=
  match m with
  | SRSRAN_MOD_BPSK => 1 | SRSRAN_MOD_QPSK => 2 | SRSRAN_MOD_16QAM => 4
  | SRSRAN_MOD_64QAM => 6 | SRSRAN_MOD_256QAM => 8
  end.

(** ** Facts *)

(** The two slots of a special subframe share its downlink symbols. Its three parts fill the
    fourteen symbols of a subframe under the normal cyclic prefix, but in configuration 8,
    whose row (11, 1, 1) leaves a symbol out: the standard has two uplink symbols there. *)
Lemma tdd_special_symbols c dw gp up :
  0 <= ss_config c < 10 -> srsran_sfidx_tdd_nof_dw c = Some dw -> srsran_sfidx_tdd_nof_gp c = Some gp ->
  srsran_sfidx_tdd_nof_up c = Some up ->
  dw + gp + up = (if ss_config c =? 8 then 13 else 14) /\
  forall s0 s1, srsran_sfidx_tdd_nof_dw_slot c 0 SRSRAN_CP_NORM = Some s0 ->
    srsran_sfidx_tdd_nof_dw_slot c 1 SRSRAN_CP_NORM = Some s1 -> s0 + s1 = dw.
Proof.
  destruct c as [k s b]. cbn [ss_config]. intros Hs.
  unfold srsran_sfidx_tdd_nof_dw_slot, srsran_sfidx_tdd_nof_dw, srsran_sfidx_tdd_nof_gp, srsran_sfidx_tdd_nof_up.
  cbn [ss_config]. revert s Hs. each_below 10; vm_compute; intros [= <-] [= <-] [= <-]; (split; [reflexivity |]);
    intros s0 s1 [= <-] [= <-]; reflexivity.
Qed.

Lemma cell_isvalid_prb cell : srsran_cell_isvalid cell = true -> nof_prb cell = 1 \/ 6 <= nof_prb cell <= 110.
Proof. unfold srsran_cell_isvalid, srsran_nofprb_isvalid, SRSRAN_MAX_PRB. intros H. lia. Qed.
