(* ===== verification/Ra.v ===== *)
(** * Resource allocation common to both directions ([lib/src/phy/phch/ra.c])

    Resource indication values, the sizes that depend on the bandwidth, and the tables that
    turn a modulation and coding scheme and a number of resource blocks into a transport
    block size. *)

From S2P Require Export PhyCommon RaTables Log2f.

(** ** Resource indication values *)

(** Convert type 2 scheduling to a RIV, in [uint32_t]. *)
Definition srsran_ra_type2_to_riv (L_crb RB_start nof_prb : Z) : Z :=
  if u32 (L_crb - 1) <=? nof_prb / 2 then u32 (nof_prb * u32 (L_crb - 1) + RB_start)
  else u32 (nof_prb * u32 (nof_prb - L_crb + 1) + nof_prb - 1 - RB_start).

(** Convert a RIV to the pair of [L_crb] and [RB_start]; [None] is the division by zero. *)
Definition srsran_ra_type2_from_riv (riv nof_prb nof_vrb : Z) : option (Z * Z) :=
  if nof_prb =? 0 then None
  else
    let L_crb := u32 (riv / nof_prb + 1) in
    let RB_start := riv mod nof_prb in
    if u32 (nof_vrb - RB_start) <? L_crb
    then Some (u32 (nof_prb - riv / nof_prb + 1), u32 (nof_prb - riv mod nof_prb - 1))
    else Some (L_crb, RB_start).

(** ** Sizes *)

(** RBG size for type 0 scheduling. *)
Definition srsran_ra_type0_P (nof_prb : Z) : Z :=
  if nof_prb <=? 10 then 1 else if nof_prb <=? 26 then 2 else if nof_prb <=? 63 then 3 else 4.

(** [(uint32_t)ceilf((float)n / d)]. For [n] below [2^22] and [d] up to 4 both
    conversions are exact and the quotient, at least a quarter away from the next integer
    when it is not one, rounds to the same side of it. *)
Definition ceilf_quot (n d : Z) : Z := (n + d - 1) / d.

Definition srsran_ra_type1_N_rb (nof_prb : Z) : Z :=
  let P := srsran_ra_type0_P nof_prb in
  u32 (ceilf_quot nof_prb P - ceilf_log2f P - 1).

Definition srsran_ra_type2_ngap (nof_prb : Z) (ngap_is_1 : bool) : Z :=
  if nof_prb <=? 10 then nof_prb / 2
  else if nof_prb =? 11 then 4
  else if nof_prb <=? 19 then 8
  else if nof_prb <=? 26 then 12
  else if nof_prb <=? 44 then 18
  else if nof_prb <=? 49 then 27
  else if nof_prb <=? 63 then (if ngap_is_1 then 27 else 9)
  else if nof_prb <=? 79 then (if ngap_is_1 then 32 else 16)
  else (if ngap_is_1 then 48 else 16).

Definition srsran_ra_type2_n_rb_step (nof_prb : Z) : Z := if nof_prb <? 50 then 2 else 4.

(** Number of virtual resource blocks; [None] is the division by zero of a gap of zero. *)
Definition srsran_ra_type2_n_vrb_dl (nof_prb : Z) (ngap_is_1 : bool) : option Z :=
  let ngap := srsran_ra_type2_ngap nof_prb ngap_is_1 in
  if ngap_is_1 then Some (u32 (2 * (if ngap <? u32 (nof_prb - ngap) then ngap else u32 (nof_prb - ngap))))
  else if ngap =? 0 then None
  else Some (u32 (nof_prb / ngap * 2 * ngap)).

(** ** Modulation and coding schemes *)

Definition srsran_ra_dl_tbs_idx_from_mcs (mcs : Z) (use_tbs_index_alt : bool) : option Z :=
  if use_tbs_index_alt && (mcs <? 28) then zget dl_mcs_tbs_idx_table2 mcs
  else if negb use_tbs_index_alt && (mcs <? 29) then zget dl_mcs_tbs_idx_table mcs
  else Some SRSRAN_ERROR.

Definition srsran_ra_ul_tbs_idx_from_mcs (mcs : Z) : option Z :=
  if mcs <? 29 then zget ul_mcs_tbs_idx_table mcs else Some SRSRAN_ERROR.

Definition srsran_ra_tbs_idx_from_mcs (mcs : Z) (use_tbs_index_alt is_ul : bool) : option Z :=
  if is_ul then srsran_ra_ul_tbs_idx_from_mcs mcs else srsran_ra_dl_tbs_idx_from_mcs mcs use_tbs_index_alt.

Definition srsran_ra_dl_mod_from_mcs (mcs : Z) (use_tbs_index_alt : bool) : srsran_mod_t :=
  if use_tbs_index_alt then
    if (mcs <? 5) || (mcs =? 28) then SRSRAN_MOD_QPSK
    else if (mcs <? 11) || (mcs =? 29) then SRSRAN_MOD_16QAM
    else if (mcs <? 20) || (mcs =? 30) then SRSRAN_MOD_64QAM
    else SRSRAN_MOD_256QAM
  else
    if (mcs <? 10) || (mcs =? 29) then SRSRAN_MOD_QPSK
    else if (mcs <? 17) || (mcs =? 30) then SRSRAN_MOD_16QAM
    else SRSRAN_MOD_64QAM.

Definition srsran_ra_ul_mod_from_mcs (mcs : Z) : srsran_mod_t :=
  if mcs <=? 10 then SRSRAN_MOD_QPSK
  else if mcs <=? 20 then SRSRAN_MOD_16QAM
  else if mcs <=? 28 then SRSRAN_MOD_64QAM
  else SRSRAN_MOD_BPSK.

(** The descending search of a table, from index [n - 1], with its early return. *)
Fixpoint last_mcs (table : list Z) (tbs_idx : Z) (n : nat) : option Z :=
  match n with
  | O => Some SRSRAN_ERROR
  | S m =>
      t ← zget table (Z.of_nat m);
      if tbs_idx =? u32 t then Some (Z.of_nat m) else last_mcs table tbs_idx m
  end.

Definition srsran_ra_dl_mcs_from_tbs_idx (tbs_idx : Z) (use_tbs_index_alt : bool) : option Z :=
  if use_tbs_index_alt then last_mcs dl_mcs_tbs_idx_table2 tbs_idx 28 else last_mcs dl_mcs_tbs_idx_table tbs_idx 29.

Definition srsran_ra_ul_mcs_from_tbs_idx (tbs_idx : Z) : option Z := last_mcs ul_mcs_tbs_idx_table tbs_idx 29.

Definition srsran_ra_mcs_from_tbs_idx (tbs_idx : Z) (use_tbs_index_alt is_ul : bool) : option Z :=
  if is_ul then srsran_ra_ul_mcs_from_tbs_idx tbs_idx else srsran_ra_dl_mcs_from_tbs_idx tbs_idx use_tbs_index_alt.

(** ** Transport block sizes *)

Definition SRSRAN_RA_NOF_TBS_IDX : Z := 34.

Definition tbs_at (tbs_idx n_prb : Z) : option Z := row ← zget tbs_table tbs_idx; zget row (n_prb - 1).

Definition srsran_ra_tbs_from_idx (tbs_idx n_prb : Z) : option Z :=
  if (tbs_idx <? SRSRAN_RA_NOF_TBS_IDX) && (0 <? n_prb) && (n_prb <=? SRSRAN_MAX_PRB) then tbs_at tbs_idx n_prb
  else Some SRSRAN_ERROR.

(** The descending loop over [n] indices from [n - 1]. *)
Fixpoint tbs_search (tbs n_prb : Z) (n : nat) : option Z :=
  match n with
  | O => Some SRSRAN_ERROR
  | S m => t ← tbs_at (Z.of_nat m) n_prb; if t <=? tbs then Some (Z.of_nat m + 1) else tbs_search tbs n_prb m
  end.

Definition srsran_ra_tbs_to_table_idx (tbs n_prb max_tbs_idx : Z) : option Z :=
  if (n_prb =? 0) || (SRSRAN_MAX_PRB <? n_prb) then Some SRSRAN_ERROR_INVALID_INPUTS
  else
    t0 ← tbs_at 0 n_prb;
    if tbs <? t0 then Some 0 else tbs_search tbs n_prb (Z.to_nat (s32 max_tbs_idx + 1)).

(** ** Resource indication values: facts *)

(** [L] blocks from [RB] on, inside [n]. *)
Definition rb_range (L RB n : Z) : Prop := 1 <= L /\ 0 <= RB /\ L + RB <= n.



Lemma to_riv_exact L RB n :
  rb_range L RB n -> n <= 32768 ->
  srsran_ra_type2_to_riv L RB n = if L - 1 <=? n / 2 then n * (L - 1) + RB else n * (n - L + 1) + n - 1 - RB.
Proof. intros (H1 & H2 & H3) Hn. unfold srsran_ra_type2_to_riv. by u32s. Qed.

Lemma from_riv_exact q r n :
  0 <= r < n -> 0 <= q <= n -> n <= 32768 ->
  srsran_ra_type2_from_riv (n * q + r) n n = if n - r <? q + 1 then Some (n - q + 1, n - r - 1) else Some (q + 1, r).
Proof.
  intros Hr Hq Hn. unfold srsran_ra_type2_from_riv. destruct (Z.eqb_spec n 0); [lia |].
  assert ((n * q + r) / n = q) as -> by (rewrite Z.add_comm, Z.mul_comm, Z.div_add by lia; rewrite Z.div_small; lia).
  assert ((n * q + r) mod n = r) as -> by (rewrite Z.add_comm, Z.mul_comm, Z_mod_plus_full; apply Z.mod_small; lia).
  by u32s.
Qed.

(** The quotient and remainder a RIV below [n * (n + 1)] consists of. *)
Lemma riv_split riv n : 0 < n -> 0 <= riv < n * (n + 1) -> exists q r, riv = n * q + r /\ 0 <= r < n /\ 0 <= q <= n.
Proof.
  intros Hn Hr. exists (riv / n), (riv mod n). pose proof (Z.div_mod riv n ltac:(lia)).
  pose proof (Z.mod_pos_bound riv n ltac:(lia)). nia.
Qed.

Lemma from_to_riv L RB n :
  rb_range L RB n -> n <= 32768 ->
  srsran_ra_type2_from_riv (srsran_ra_type2_to_riv L RB n) n n = Some (L, RB).
Proof.
  intros H Hn. rewrite to_riv_exact by done. destruct H as (H1 & H2 & H3).
  destruct (Z.leb_spec (L - 1) (n / 2)).
  - rewrite from_riv_exact by lia. zcase; [lia |]. do 2 f_equal. lia.
  - replace (n * (n - L + 1) + n - 1 - RB) with (n * (n - L + 1) + (n - 1 - RB)) by lia.
    rewrite from_riv_exact by lia. zcase; [| lia]. do 2 f_equal; lia.
Qed.

Lemma to_riv_bound L RB n : rb_range L RB n -> n <= 32768 -> 0 <= srsran_ra_type2_to_riv L RB n < n * (n + 1) / 2.
Proof.
  intros H Hn. rewrite to_riv_exact by done. destruct H as (H1 & H2 & H3).
  zcase; [destruct (Z.eq_dec (n / 2) (L - 1)) |]; nia.
Qed.

Lemma from_riv_inside riv n :
  0 < n <= 32768 -> 0 <= riv < n * (n + 1) ->
  exists L RB, srsran_ra_type2_from_riv riv n n = Some (L, RB) /\ rb_range L RB n.
Proof.
  intros Hn Hr. destruct (riv_split riv n) as (q & r & -> & Hr' & Hq); [lia | done |].
  rewrite from_riv_exact by lia. unfold rb_range. zcase; eexists _, _; (split; [done |]); lia.
Qed.

Lemma to_from_riv riv n L RB :
  0 < n <= 32768 -> 0 <= riv < n * (n + 1) / 2 -> srsran_ra_type2_from_riv riv n n = Some (L, RB) ->
  srsran_ra_type2_to_riv L RB n = riv.
Proof.
  intros Hn Hr. destruct (riv_split riv n) as (q & r & -> & Hr' & Hq); [lia | nia |].
  rewrite from_riv_exact by lia. intros H.
  assert (2 * (n * q + r) < n * (n + 1)) as Hv by lia. clear Hr.
  assert (2 * q <= n) by nia.
  destruct (Z.ltb_spec (n - r) (q + 1)); injection H as <- <-.
  - rewrite to_riv_exact by (unfold rb_range; lia). assert (2 * q < n) by nia. zcase; lia.
  - rewrite to_riv_exact by (unfold rb_range; lia). zcase; lia.
Qed.

(** C28: the type 2 allocations of a bandwidth and the resource indication values
    below [n * (n + 1) / 2] are in bijection: every non-empty range of resource blocks has a
    RIV of that range, which decodes to it, and every such RIV decodes to a range inside the
    cell, which encodes to it. *)
Theorem riv_bijection n :
  1 <= n <= SRSRAN_MAX_PRB ->
  (forall L RB, rb_range L RB n ->
     0 <= srsran_ra_type2_to_riv L RB n < n * (n + 1) / 2 /\
     srsran_ra_type2_from_riv (srsran_ra_type2_to_riv L RB n) n n = Some (L, RB)) /\
  (forall riv, 0 <= riv < n * (n + 1) / 2 ->
     exists L RB, srsran_ra_type2_from_riv riv n n = Some (L, RB) /\ rb_range L RB n /\
       srsran_ra_type2_to_riv L RB n = riv).
Proof.
  unfold SRSRAN_MAX_PRB. intros Hn. split.
  - intros L RB H. split; [apply to_riv_bound | apply from_to_riv]; (done || lia).
  - intros riv Hr. destruct (from_riv_inside riv n) as (L & RB & E & HR); [lia | nia |].
    exists L, RB. split; [done |]. split; [done |]. apply to_from_riv; [lia | done..].
Qed.

Lemma riv_bijection_witness :
  (forall L RB, rb_range L RB 50 ->
     0 <= srsran_ra_type2_to_riv L RB 50 < 50 * (50 + 1) / 2 /\
     srsran_ra_type2_from_riv (srsran_ra_type2_to_riv L RB 50) 50 50 = Some (L, RB)) /\
  (forall riv, 0 <= riv < 50 * (50 + 1) / 2 ->
     exists L RB, srsran_ra_type2_from_riv riv 50 50 = Some (L, RB) /\ rb_range L RB 50 /\
       srsran_ra_type2_to_riv L RB 50 = riv).
Proof. apply (riv_bijection 50). unfold SRSRAN_MAX_PRB. lia. Defined.

(** ** Modulation and coding schemes: facts *)

Lemma last_mcs_spec table t n :
  Forall (is_uint 32) table -> Z.of_nat n <= zlen table ->
  (exists m, last_mcs table t n = Some m /\ 0 <= m < Z.of_nat n /\ zget table m = Some t /\
     forall k, m < k < Z.of_nat n -> zget table k <> Some t) \/
  (last_mcs table t n = Some SRSRAN_ERROR /\ forall k, 0 <= k < Z.of_nat n -> zget table k <> Some t).
Proof.
  intros Hu. induction n as [| n IH]; intros Hl; [right; split; [done | lia] |].
  destruct (zget_some table (Z.of_nat n)) as [x Hx]; [unfold in_range; lia |].
  assert (u32 x = x) as Ex.
  { apply uwrap_small. rewrite zget_lookup in Hx by lia. by eapply Forall_lookup_1 in Hx. }
  cbn [last_mcs]. rewrite Hx. cbn [mbind option_bind]. rewrite Ex. destruct (Z.eqb_spec t x) as [<- | Hne].
  - left. exists (Z.of_nat n). split_and!; [done | lia | lia | done | lia].
  - destruct IH as [(m & E & Hm & Ht & Hk) | [E Hk]]; [lia | left; exists m | right]; rewrite E; split_and!; try done; try lia.
    all: intros k Hk'; destruct (Z.eq_dec k (Z.of_nat n)) as [-> | ]; [congruence | apply Hk; lia].
Qed.

Lemma tables_uint : Forall (is_uint 32) dl_mcs_tbs_idx_table /\ Forall (is_uint 32) dl_mcs_tbs_idx_table2
  /\ Forall (is_uint 32) ul_mcs_tbs_idx_table.
Proof. split_and!; refine (bool_decide_unpack _ _); by vm_compute. Qed.

(** The schemes a table has an index for. *)
Definition nof_mcs (use_tbs_index_alt is_ul : bool) : Z := if negb is_ul && use_tbs_index_alt then 28 else 29.

(** The table the two searches share. *)
Lemma mcs_tables alt ul :
  exists table, zlen table = nof_mcs alt ul /\ Forall (is_uint 32) table /\
    (forall mcs, srsran_ra_tbs_idx_from_mcs mcs alt ul
       = if mcs <? nof_mcs alt ul then zget table mcs else Some SRSRAN_ERROR) /\
    forall t, srsran_ra_mcs_from_tbs_idx t alt ul = last_mcs table t (Z.to_nat (nof_mcs alt ul)).
Proof.
  destruct tables_uint as (H1 & H2 & H3).
  destruct ul, alt; [exists ul_mcs_tbs_idx_table .. | exists dl_mcs_tbs_idx_table2 | exists dl_mcs_tbs_idx_table];
    split_and!; try done; intros mcs; cbn; by destruct (mcs <? _).
Qed.

(** @@[srsran_ra_mcs_from_tbs_idx] is the greatest inverse of
    [srsran_ra_tbs_idx_from_mcs], in all three tables: for an index some scheme has, it
    returns the greatest scheme with that index, and -1 exactly for the others. *)
Theorem mcs_from_tbs_idx_greatest alt ul t :
  0 <= t ->
  (exists mcs, srsran_ra_mcs_from_tbs_idx t alt ul = Some mcs /\ 0 <= mcs < nof_mcs alt ul /\
     srsran_ra_tbs_idx_from_mcs mcs alt ul = Some t /\
     forall k, mcs < k -> srsran_ra_tbs_idx_from_mcs k alt ul <> Some t) \/
  (srsran_ra_mcs_from_tbs_idx t alt ul = Some SRSRAN_ERROR /\
     forall k, srsran_ra_tbs_idx_from_mcs k alt ul <> Some t).
Proof.
  intros Ht. destruct (mcs_tables alt ul) as (table & Hl & Hu & Hk & ->).
  assert (0 < nof_mcs alt ul) by (by destruct alt, ul).
  assert (Some SRSRAN_ERROR <> Some t) by (unfold SRSRAN_ERROR; intros [=]; lia).
  destruct (last_mcs_spec table t (Z.to_nat (nof_mcs alt ul)) Hu) as [(m & -> & Hm & Et & Hg) | [-> Hg]]; [lia | left | right].
  - exists m. split_and!; [done | lia | lia | rewrite Hk; by zcase; [| lia] |].
    intros k Hmk. rewrite Hk. zcase; [apply Hg; lia | done].
  - split; [done |]. intros k. rewrite Hk. zcase; [| done].
    destruct (Z.le_gt_cases 0 k); [apply Hg; lia |]. rewrite zget_none by (unfold in_range; lia). done.
Qed.

Lemma mcs_from_tbs_idx_greatest_witness :
  (exists mcs, srsran_ra_mcs_from_tbs_idx 9 false false = Some mcs /\ 0 <= mcs < nof_mcs false false /\
     srsran_ra_tbs_idx_from_mcs mcs false false = Some 9 /\
     forall k, mcs < k -> srsran_ra_tbs_idx_from_mcs k false false <> Some 9) \/
  (srsran_ra_mcs_from_tbs_idx 9 false false = Some SRSRAN_ERROR /\
     forall k, srsran_ra_tbs_idx_from_mcs k false false <> Some 9).
Proof. apply (mcs_from_tbs_idx_greatest false false 9). lia. Defined.

(** ** Transport block sizes: facts *)

Lemma tbs_at_some k n : 0 <= k < 34 -> 1 <= n <= 110 -> exists t, tbs_at k n = Some t /\ 0 <= t < 2 ^ 31.
Proof.
  intros Hk Hn.
  set (ok := fun k => forallb (fun i => match tbs_at k (i + 1) with Some t => (0 <=? t) && (t <? 2 ^ 31) | None => false end)
    (seqZ 0 110)).
  assert (ok k = true) as H by (revert k Hk; apply forallb_below; by vm_compute).
  pose proof (forallb_below 110 _ H (n - 1) ltac:(lia)) as Hi. cbv beta in Hi. rewrite Z.sub_add in Hi.
  destruct (tbs_at k n) as [t |]; [exists t; split; [done | lia] | done].
Qed.

(** From two resource blocks on, a greater index up to 26 has more bits. *)
Definition tbs_step (n j : Z) : bool :=
  match tbs_at j n, tbs_at (j + 1) n with Some a, Some b => a <? b | _, _ => false end.

Lemma tbs_step_true n j : 2 <= n <= 110 -> 0 <= j < 26 -> tbs_step n j = true.
Proof.
  intros Hn. revert j. apply (forallb_below 26 (tbs_step n)). replace n with (n - 2 + 2) by lia.
  apply (forallb_below 109 (fun i => forallb (tbs_step (i + 2)) (seqZ 0 26))); [by vm_compute | lia].
Qed.

Lemma tbs_increasing n j k a b :
  2 <= n <= 110 -> 0 <= j < k -> k <= 26 -> tbs_at j n = Some a -> tbs_at k n = Some b -> a < b.
Proof.
  intros Hn Hj Hk Ha. revert b. replace k with (j + 1 + Z.of_nat (Z.to_nat (k - j - 1))) in * by lia.
  set (d := Z.to_nat (k - j - 1)) in *. clearbody d. induction d as [| d IH]; intros b Hb.
  - pose proof (tbs_step_true n j Hn ltac:(lia)) as H. unfold tbs_step in H. rewrite Ha in H.
    replace (j + 1 + Z.of_nat 0) with (j + 1) in Hb by lia. rewrite Hb in H. lia.
  - destruct (tbs_at_some (j + 1 + Z.of_nat d) n) as (c & Hc & _); [lia.. |].
    specialize (IH ltac:(lia) ltac:(lia) c Hc).
    pose proof (tbs_step_true n (j + 1 + Z.of_nat d) Hn ltac:(lia)) as H. unfold tbs_step in H. rewrite Hc in H.
    replace (j + 1 + Z.of_nat d + 1) with (j + 1 + Z.of_nat (S d)) in H by lia. rewrite Hb in H. lia.
Qed.

Lemma tbs_search_spec tbs n m :
  Z.of_nat m <= 34 -> 1 <= n <= 110 ->
  exists r, tbs_search tbs n m = Some r /\ (0 < r <= Z.of_nat m \/ r = SRSRAN_ERROR) /\
    (0 < r -> exists t, tbs_at (r - 1) n = Some t /\ t <= tbs) /\
    forall k t, Z.max r 0 <= k < Z.of_nat m -> tbs_at k n = Some t -> tbs < t.
Proof.
  intros Hm Hn. induction m as [| m IH].
  { exists SRSRAN_ERROR. unfold SRSRAN_ERROR. split_and!; [done | lia | lia | lia]. }
  destruct (tbs_at_some (Z.of_nat m) n) as (x & Hx & _); [lia.. |].
  cbn [tbs_search]. rewrite Hx. cbn [mbind option_bind]. zcase.
  - exists (Z.of_nat m + 1). split_and!; [done | lia | | lia]. intros _. exists x. by rewrite Z.add_simpl_r.
  - destruct IH as (r & E & Hr & Hle & Hgt); [lia |]. exists r. rewrite E. split_and!; [done | lia | done |].
    intros k t Hk Ht. destruct (Z.eq_dec k (Z.of_nat m)) as [-> |]; [| apply (Hgt k); [lia | done]].
    rewrite Hx in Ht. by injection Ht as <-.
Qed.

(** For an allocation of at least two resource blocks and a greatest index up to
    26, [srsran_ra_tbs_to_table_idx] is the exclusive upper bound of the indices whose
    transport block fits in the given number of bits: those below it fit, the others up to the
    greatest do not. *)
Theorem tbs_to_table_idx_bound tbs n max :
  0 <= tbs -> 2 <= n <= SRSRAN_MAX_PRB -> 0 <= max <= 26 ->
  exists r, srsran_ra_tbs_to_table_idx tbs n max = Some r /\ 0 <= r <= max + 1 /\
    forall k, 0 <= k <= max -> exists t, srsran_ra_tbs_from_idx k n = Some t /\ (t <= tbs <-> k < r).
Proof.
  unfold SRSRAN_MAX_PRB. intros Htbs Hn Hmax.
  assert (forall k, 0 <= k <= max -> srsran_ra_tbs_from_idx k n = tbs_at k n) as Hfrom.
  { intros k Hk. unfold srsran_ra_tbs_from_idx, SRSRAN_RA_NOF_TBS_IDX, SRSRAN_MAX_PRB.
    destruct (Z.ltb_spec k 34), (Z.ltb_spec 0 n), (Z.leb_spec n 110); (done || lia). }
  unfold srsran_ra_tbs_to_table_idx, SRSRAN_MAX_PRB. destruct (Z.eqb_spec n 0), (Z.ltb_spec 110 n); [lia.. |]. cbn [orb].
  destruct (tbs_at_some 0 n) as (t0 & Ht0 & _); [lia.. |]. rewrite Ht0. cbn [mbind option_bind].
  destruct (Z.ltb_spec tbs t0) as [Hlt | Hge].
  - exists 0. split_and!; [done | lia | lia |]. intros k Hk. rewrite Hfrom by done.
    destruct (tbs_at_some k n) as (t & Ht & _); [lia.. |]. exists t. split; [done |].
    assert (t0 <= t); [| lia]. destruct (Z.eq_dec k 0) as [-> |]; [rewrite Ht0 in Ht; injection Ht as <-; lia |].
    pose proof (tbs_increasing n 0 k t0 t Hn ltac:(lia) ltac:(lia) Ht0 Ht). lia.
  - rewrite swrap_small by lia.
    destruct (tbs_search_spec tbs n (Z.to_nat (max + 1))) as (r & E & Hr & Hle & Hgt); [lia.. |]. exists r.
    assert (0 < r) as Hpos.
    { destruct Hr as [| ->]; [lia |]. unfold SRSRAN_ERROR in Hgt. pose proof (Hgt 0 t0 ltac:(lia) Ht0). lia. }
    destruct Hr as [Hr | ->]; [| by unfold SRSRAN_ERROR in Hpos].
    split_and!; [done | lia | lia |]. intros k Hk. rewrite Hfrom by done.
    destruct (tbs_at_some k n) as (t & Ht & _); [lia.. |]. exists t. split; [done |]. split.
    + intros Hf. destruct (Z.lt_ge_cases k r); [done |]. pose proof (Hgt k t ltac:(lia) Ht). lia.
    + intros Hkr. destruct (Hle Hpos) as (x & Hx & Hxt). destruct (Z.eq_dec k (r - 1)) as [-> |].
      * rewrite Ht in Hx. by injection Hx as <-.
      * pose proof (tbs_increasing n k (r - 1) t x Hn ltac:(lia) ltac:(lia) Ht Hx). lia.
Qed.

Lemma tbs_to_table_idx_bound_witness :
  exists r, srsran_ra_tbs_to_table_idx 1000 6 26 = Some r /\ 0 <= r <= 26 + 1 /\
    forall k, 0 <= k <= 26 -> exists t, srsran_ra_tbs_from_idx k 6 = Some t /\ (t <= 1000 <-> k < r).
Proof. apply (tbs_to_table_idx_bound 1000 6 26); unfold SRSRAN_MAX_PRB; lia. Defined.

(** With one resource block the bound is not one: index 6 has more bits than index 7. *)
Example tbs_one_prb : srsran_ra_tbs_to_table_idx 200 1 26 = Some 12 /\
  srsran_ra_tbs_from_idx 6 1 = Some 328 /\ srsran_ra_tbs_from_idx 7 1 = Some 104.
Proof. by vm_compute. Qed.

(** ** Virtual resource blocks *)

(** With the first gap the virtual resource blocks are at most those of the cell; the
    number computed for the second gap is greater than them in every cell that has one,
    since [nof_prb / ngap * 2 * ngap] is not [nof_prb / (2 * ngap) * (2 * ngap)]. *)
Lemma n_vrb_dl_gaps n :
  2 <= n <= SRSRAN_MAX_PRB ->
  (exists v, srsran_ra_type2_n_vrb_dl n true = Some v /\ 0 < v <= n) /\
  (50 <= n -> exists v, srsran_ra_type2_n_vrb_dl n false = Some v /\ n < v).
Proof.
  unfold SRSRAN_MAX_PRB. intros Hn. split.
  - assert (0 < srsran_ra_type2_ngap n true < n) as Hg
      by (unfold srsran_ra_type2_ngap; repeat zcase; lia).
    unfold srsran_ra_type2_n_vrb_dl. cbv zeta iota. u32s. zcase; u32s; eexists; (split; [done | lia]).
  - intros H50. assert (0 < srsran_ra_type2_ngap n false <= n) as Hg
      by (unfold srsran_ra_type2_ngap; repeat zcase; lia).
    unfold srsran_ra_type2_n_vrb_dl. cbv zeta iota. set (g := srsran_ra_type2_ngap n false) in *. clearbody g.
    destruct (Z.eqb_spec g 0); [lia |]. exists (n / g * 2 * g). rewrite uwrap_small by (unfold is_uint; nia).
    split; [done |]. assert (1 <= n / g) by (apply Z.div_le_lower_bound; lia).
    pose proof (Z.mul_succ_div_gt n g ltac:(lia)). nia.
Qed.
