(* ===== verification/DciBits.v ===== *)
(** * The payload of a DCI message as a sequence of bits ([lib/src/phy/utils/bit.c])

    A payload is an array of bytes that hold a bit each, and the packing routines walk it
    with a pointer [y]. A writer takes the payload and the position and returns a code, the
    payload and the next position; a reader returns a value and the next position. [None] is
    an access outside the array or an undefined shift. The shapes [cells] describe what a
    writer writes and a reader reads, [None] being a position that is passed over. *)

From S2P Require Export Prelude.

(** ** Writers *)

Definition writer : Type := list Z -> Z -> option (Z * list Z * Z).

Definition wdone : writer := fun l y => Some (0, l, y).
(** [return] of an error code *)
Definition wfail (c : Z) : writer := fun l y => Some (c, l, y).
Definition wseq (w1 w2 : writer) : writer := fun l y =>
  '(c, l, y) ← w1 l y; if c =? 0 then w2 l y else Some (c, l, y).
(** [*y++ = v] *)
Definition put (v : Z) : writer := fun l y => l ← zset l y (u8 v); Some (0, l, y + 1).
(** [y++] *)
Definition wskip : writer := fun l y => Some (0, l, y + 1).
Definition wwhen (b : bool) (w : writer) : writer := if b then w else wdone.

Declare Scope dci_scope.
Delimit Scope dci_scope with dci.
Notation "w1 ;; w2" := (wseq w1 w2) (at level 100, right associativity) : dci_scope.

(** A shift of a 32-bit number: by 0 to 31 places. *)
Definition shr32 (v k : Z) : option Z := if (0 <=? k) && (k <? 32) then Some (Z.shiftr v k) else None.
Definition shl32 (v k : Z) : option Z := if (0 <=? k) && (k <? 32) then Some (u32 (Z.shiftl v k)) else None.

Definition srsran_bit_unpack (value nof_bits : Z) : writer := fun l y =>
  l ← for_range 0 nof_bits (fun l i => b ← shr32 value (nof_bits - i - 1); zset l (y + i) (Z.land b 1)) l;
  Some (0, l, y + nof_bits).

(** [while (y - msg->payload < n) *y++ = 0;] *)
Definition pad_to (n : Z) : writer := fun l y => l ← for_range y n (fun l i => zset l i 0) l; Some (0, l, Z.max y n).

(** ** Readers *)

Definition reader (A : Type) : Type := list Z -> Z -> option (A * Z).

#[export] Instance reader_ret : MRet reader := fun A x l y => Some (x, y).
#[export] Instance reader_bind : MBind reader := fun A B k r l y => '(x, y) ← (r l y : option _); k x l y.

(** [*y++] *)
Definition get : reader Z := fun l y => b ← zget l y; Some (b, y + 1).
Definition rskip : reader unit := fun l y => Some (tt, y + 1).
(** [y += n] *)
Definition radvance (n : Z) : reader unit := fun l y => Some (tt, y + n).
(** [y - msg->payload] *)
Definition rpos : reader Z := fun l y => Some (y, y).
Definition rlift {A} (o : option A) : reader A := fun l y => x ← o; Some (x, y).
Definition rwhen {A} (b : bool) (r : A -> reader A) (x : A) : reader A := if b then r x else mret x.

Definition srsran_bit_pack (nof_bits : Z) : reader Z := fun l y =>
  v ← for_range 0 nof_bits (fun v i => b ← zget l (y + i); s ← shl32 b (nof_bits - i - 1); Some (Z.lor v s)) 0;
  Some (v, y + nof_bits).

(** Packing [n] bits: the first is the highest. *)
Lemma pack_run_spec (g : Z -> bool) l y n : 0 <= n <= 32 -> (forall k, 0 <= k < n -> zget l (y + k) = Some (Z.b2z (g k))) ->
  exists v, srsran_bit_pack n l y = Some (v, y + n) /\ 0 <= v < 2 ^ n /\ forall k, 0 <= k < n -> Z.testbit v (n - 1 - k) = g k.
Proof.
  intros Hn Hg. unfold srsran_bit_pack.
  loop_inv (fun i v => 0 <= v /\ forall m, 0 <= m -> Z.testbit v m = (n - i <=? m) && (m <? n) && g (n - 1 - m)) as (v & -> & Hv0 & Hv).
  - lia.
  - split; [done |]. intros m Hm. rewrite Z.bits_0. destruct (Z.leb_spec (n - 0) m), (Z.ltb_spec m n); try lia; done.
  - intros i v Hi [Hv0 Hv]. rewrite Hg by lia. cbn [mbind option_bind]. unfold shl32.
    destruct (Z.leb_spec 0 (n - i - 1)), (Z.ltb_spec (n - i - 1) 32); try lia. cbn [andb mbind option_bind].
    eexists. split; [done |].
    assert (u32 (Z.shiftl (Z.b2z (g i)) (n - i - 1)) = if g i then 2 ^ (n - i - 1) else 0) as ->.
    { destruct (g i); cbn [Z.b2z]; [rewrite Z.shiftl_1_l | by rewrite Z.shiftl_0_l].
      apply uwrap_small. split; [by apply Z.pow_nonneg | apply Z.pow_lt_mono_r; lia]. }
    split; [apply Z.lor_nonneg; split; [done | destruct (g i); [by apply Z.pow_nonneg | done]] |].
    intros m Hm. rewrite Z.lor_spec, Hv by done.
    assert (Z.testbit (if g i then 2 ^ (n - i - 1) else 0) m = (m =? n - i - 1) && g i) as ->.
    { destruct (g i); [rewrite Z.pow2_bits_eqb, andb_true_r, Z.eqb_sym by lia; done | by rewrite Z.bits_0, andb_false_r]. }
    destruct (Z.eqb_spec m (n - i - 1)) as [-> |].
    + destruct (Z.leb_spec (n - i) (n - i - 1)), (Z.leb_spec (n - (i + 1)) (n - i - 1)), (Z.ltb_spec (n - i - 1) n); try lia. cbn [andb orb]. f_equal. lia.
    + destruct (Z.leb_spec (n - i) m), (Z.leb_spec (n - (i + 1)) m), (Z.ltb_spec m n); try lia; cbn [andb orb]; by rewrite ?orb_false_r.
  - exists v. split; [done |]. split.
    + apply below_pow2; [lia |]. split; [done |]. intros i Hi. rewrite Hv by lia. destruct (Z.ltb_spec i n); [lia |]. by rewrite andb_false_r.
    + intros k Hk. rewrite Hv by lia. destruct (Z.leb_spec (n - n) (n - 1 - k)), (Z.ltb_spec (n - 1 - k) n); try lia. cbn [andb]. f_equal. lia.
Qed.

(** ** Shapes *)

Definition cells : Type := list (option Z).

(** The content of the positions of a shape, passed-over ones keeping the old one. *)
Definition fill (f : cells) (old : list Z) : list Z := zip_with (fun c o => default o c) f old.

(** The [n] low bits of a number, most significant first. *)
Definition field (n v : Z) : cells := (fun i => Some (Z.b2z (Z.testbit v (n - 1 - i)))) <$> seqZ 0 n.
Definition flag (b : bool) : cells := [Some (Z.b2z b)].

Definition emits (w : writer) (f : cells) : Prop := forall pre old post, length old = length f ->
  w (pre ++ old ++ post) (zlen pre) = Some (0, pre ++ fill f old ++ post, zlen pre + zlen f).

Definition takes {A} (r : reader A) (x : A) (f : cells) : Prop := forall pre old post, length old = length f ->
  r (pre ++ fill f old ++ post) (zlen pre) = Some (x, zlen pre + zlen f).

Lemma length_fill f old : length old = length f -> length (fill f old) = length f.
Proof. intros H. unfold fill. rewrite length_zip_with. lia. Qed.

Lemma fill_app f g o1 o2 : length o1 = length f -> fill (f ++ g) (o1 ++ o2) = fill f o1 ++ fill g o2.
Proof. intros H. unfold fill. by rewrite zip_with_app by done. Qed.

Lemma zlen_field n v : 0 <= n -> zlen (field n v) = n.
Proof. intros Hn. unfold field, zlen. rewrite length_fmap, length_seqZ. lia. Qed.

(** The old content of two shapes in a row. *)
Lemma split_old {A} (f g : cells) (old : list A) : length old = length (f ++ g) ->
  exists o1 o2, old = o1 ++ o2 /\ length o1 = length f /\ length o2 = length g.
Proof.
  intros H. rewrite length_app in H. exists (take (length f) old), (drop (length f) old).
  rewrite take_drop, length_take, length_drop. split_and!; [done | lia..].
Qed.

Lemma wdone_emits : emits wdone [].
Proof. intros pre old post Ho. destruct old; [| done]. unfold wdone. by rewrite Z.add_0_r. Qed.

Lemma emits_seq w1 w2 f g : emits w1 f -> emits w2 g -> emits (w1 ;; w2)%dci (f ++ g).
Proof.
  intros H1 H2 pre old post Ho. destruct (split_old f g old Ho) as (o1 & o2 & -> & Ho1 & Ho2).
  unfold wseq. rewrite <- (app_assoc o1), (H1 pre o1 (o2 ++ post)) by done. cbn [mbind option_bind Z.eqb].
  rewrite (app_assoc pre). replace (zlen pre + zlen f) with (zlen (pre ++ fill f o1)).
  2:{ rewrite zlen_app. unfold zlen. by rewrite length_fill by done. }
  rewrite (H2 _ o2 post) by done. rewrite fill_app by done. rewrite <- !app_assoc.
  do 2 f_equal. rewrite !zlen_app. unfold zlen. rewrite length_fill by done. lia.
Qed.

Lemma emits_when b w f : emits w f -> emits (wwhen b w) (if b then f else []).
Proof. intros H. destruct b; [done | apply wdone_emits]. Qed.

Lemma emits_put v : is_uint 8 v -> emits (put v) [Some v].
Proof.
  intros Hv pre [| o [|]] post Ho; [done | | done]. unfold put. rewrite uwrap_small by done.
  simpl app. by rewrite zset_app_mid.
Qed.

Lemma put_flag_emits b : emits (put (Z.b2z b)) (flag b).
Proof. apply emits_put. by destruct b. Qed.

Lemma emits_skip : emits wskip [None].
Proof. intros pre [| o [|]] post Ho; [done | | done]. done. Qed.

Lemma land_1 v : Z.land v 1 = Z.b2z (Z.testbit v 0).
Proof. change 1 with (Z.ones 1) at 1. by rewrite Z.land_ones, Z.bit0_mod. Qed.

(** A loop that overwrites consecutive positions. *)
Lemma write_loop (g : Z -> option Z) (h : Z -> Z) n pre old post :
  0 <= n -> zlen old = n -> (forall i, 0 <= i < n -> g i = Some (h i)) ->
  for_range 0 n (fun l i => b ← g i; zset l (zlen pre + i) b) (pre ++ old ++ post)
  = Some (pre ++ (h <$> seqZ 0 n) ++ post).
Proof.
  intros Hn Ho Hg.
  loop_inv (fun i l => l = pre ++ ((h <$> seqZ 0 i) ++ drop (Z.to_nat i) old) ++ post) as (l & E & ->).
  - done.
  - by rewrite drop_0.
  - intros i l Hi ->. unfold zlen in Ho.
    destruct (lookup_lt_is_Some_2 old (Z.to_nat i)) as [x Hx]; [lia |]. rewrite (drop_S old x) by done.
    rewrite Hg by done. cbn [mbind option_bind].
    replace (pre ++ ((h <$> seqZ 0 i) ++ x :: drop (S (Z.to_nat i)) old) ++ post)
      with ((pre ++ (h <$> seqZ 0 i)) ++ x :: drop (S (Z.to_nat i)) old ++ post) by (by rewrite <- !app_assoc).
    rewrite zset_app_mid by (rewrite zlen_app; unfold zlen; rewrite length_fmap, length_seqZ; lia).
    eexists. split; [done |]. rewrite seqZ_snoc, fmap_app by lia.
    replace (Z.to_nat (i + 1)) with (S (Z.to_nat i)) by lia. by rewrite <- !app_assoc.
  - rewrite E. rewrite drop_ge by (unfold zlen in Ho; lia). by rewrite app_nil_r.
Qed.

Lemma fill_somes (h : Z -> Z) n old : length old = Z.to_nat n -> fill ((fun i => Some (h i)) <$> seqZ 0 n) old = h <$> seqZ 0 n.
Proof.
  intros Ho. unfold fill. apply list_eq. intros i. rewrite lookup_zip_with, !list_lookup_fmap.
  destruct (seqZ 0 n !! i) as [x |] eqn:E; [| done]. simpl. apply lookup_seqZ in E as [-> Hi].
  destruct (lookup_lt_is_Some_2 old i) as [o ->]; [lia | done].
Qed.

Lemma emits_bits n v : 0 <= n <= 32 -> emits (srsran_bit_unpack v n) (field n v).
Proof.
  intros Hn pre old post Ho. pose proof (zlen_field n v ltac:(lia)) as Hf.
  assert (length old = Z.to_nat n) as Hl by (unfold zlen in Hf; lia).
  unfold srsran_bit_unpack.
  rewrite (for_range_ext _ _ _ (fun l i => b ← Some (Z.b2z (Z.testbit v (n - 1 - i))); zset l (zlen pre + i) b)).
  - rewrite (write_loop _ (fun i => Z.b2z (Z.testbit v (n - 1 - i)))); [| lia | unfold zlen; lia | done].
    cbn [mbind option_bind]. by rewrite Hf, <- (fill_somes _ n old) by done.
  - intros i l Hi. unfold shr32. destruct (Z.leb_spec 0 (n - i - 1)), (Z.ltb_spec (n - i - 1) 32); try lia.
    cbn [mbind option_bind andb]. rewrite land_1, Z.shiftr_spec by done. by replace (0 + (n - i - 1)) with (n - 1 - i) by lia.
Qed.

Lemma fmap_const {A B} (c : B) (l : list A) : (fun _ => c) <$> l = replicate (length l) c.
Proof. induction l as [| x l IH]; [done |]. cbn. by rewrite <- IH. Qed.

(** Padding up to a position [n] further on. *)
Lemma pad_to_spec n pre old post : length old = Z.to_nat n -> 0 <= n ->
  pad_to (zlen pre + n) (pre ++ old ++ post) (zlen pre)
  = Some (0, pre ++ fill ((fun _ => Some 0) <$> seqZ 0 n) old ++ post, zlen pre + n).
Proof.
  intros Ho Hn. unfold pad_to. rewrite for_range_shift.
  rewrite (for_range_ext _ _ _ (fun l i => b ← Some 0; zset l (zlen pre + i) b)) by done.
  rewrite (write_loop _ (fun _ => 0)); [| lia | unfold zlen; lia | done]. cbn [mbind option_bind].
  rewrite Z.max_r by lia. by rewrite (fill_somes (fun _ => 0)) by done.
Qed.

(** *** Readers *)

Lemma takes_ret {A} (x : A) : takes (mret x) x [].
Proof. intros pre old post Ho. unfold mret, reader_ret. by rewrite Z.add_0_r. Qed.

Lemma takes_ret_eq {A} (x y : A) : x = y -> takes (mret x) y [].
Proof. intros ->. apply takes_ret. Qed.

Lemma takes_bind {A B} (r : reader A) (k : A -> reader B) x y f g :
  takes r x f -> takes (k x) y g -> takes (r ≫= k) y (f ++ g).
Proof.
  intros H1 H2 pre old post Ho. destruct (split_old f g old Ho) as (o1 & o2 & -> & Ho1 & Ho2).
  rewrite fill_app by done. unfold mbind, reader_bind.
  rewrite <- (app_assoc (fill f o1)), (H1 pre o1 (fill g o2 ++ post)) by done. cbn [mbind option_bind].
  rewrite (app_assoc pre). replace (zlen pre + zlen f) with (zlen (pre ++ fill f o1)).
  2:{ rewrite zlen_app. unfold zlen. by rewrite length_fill by done. }
  rewrite (H2 _ o2 post) by done. do 2 f_equal. rewrite !zlen_app. unfold zlen. rewrite length_fill by done. lia.
Qed.

Lemma takes_get b : takes get b [Some b].
Proof. intros pre [| o [|]] post Ho; [done | | done]. unfold get. simpl. by rewrite zget_app_mid. Qed.

Lemma takes_flag b : takes get (Z.b2z b) (flag b).
Proof. apply takes_get. Qed.

Lemma takes_skip c : takes rskip tt [c].
Proof. intros pre [| o [|]] post Ho; [done | | done]. done. Qed.

Lemma takes_lift {A} (o : option A) x : o = Some x -> takes (rlift o) x [].
Proof. intros -> pre old post Ho. unfold rlift. cbn [mbind option_bind]. by rewrite Z.add_0_r. Qed.

Lemma zget_fill_field n v pre old post i :
  length old = length (field n v) -> 0 <= i < n ->
  zget (pre ++ fill (field n v) old ++ post) (zlen pre + i) = Some (Z.b2z (Z.testbit v (n - 1 - i))).
Proof.
  intros Ho Hi. pose proof (zlen_field n v ltac:(lia)) as Hf. unfold zlen in Hf.
  unfold field. rewrite (fill_somes (fun i => Z.b2z (Z.testbit v (n - 1 - i)))) by lia.
  rewrite zget_lookup by (unfold zlen; lia). unfold zlen.
  rewrite lookup_app_r by lia. rewrite lookup_app_l by (rewrite length_fmap, length_seqZ; lia).
  rewrite list_lookup_fmap, lookup_seqZ_lt by lia. simpl. do 3 f_equal. lia.
Qed.

Lemma takes_bits n v : 0 <= n <= 32 -> takes (srsran_bit_pack n) (v mod 2 ^ n) (field n v).
Proof.
  intros Hn pre old post Ho. unfold srsran_bit_pack.
  loop_inv (fun i x => 0 <= x /\ forall k, 0 <= k -> Z.testbit x k = (n - i <=? k) && (k <? n) && Z.testbit v k) as (x & -> & Hx & Hbits).
  - lia.
  - split; [done |]. intros k Hk. rewrite Z.testbit_0_l. destruct (Z.leb_spec (n - 0) k), (Z.ltb_spec k n); (done || lia).
  - intros i x Hi [Hx Hbits]. rewrite zget_fill_field by done. unfold shl32.
    destruct (Z.leb_spec 0 (n - i - 1)), (Z.ltb_spec (n - i - 1) 32); try lia. cbn [mbind option_bind andb].
    eexists. split; [done |]. assert (0 <= Z.b2z (Z.testbit v (n - 1 - i))) by (by destruct (Z.testbit _ _)).
    split; [apply Z.lor_nonneg; split; [done | apply uwrap_is_uint; lia] |].
    intros k Hk. rewrite Z.lor_spec, Hbits, testbit_uwrap, Z.shiftl_spec by lia.
    destruct (Z.eq_dec k (n - i - 1)) as [-> | Hne].
    + rewrite Z.sub_diag, Z.b2z_bit0. replace (n - 1 - i) with (n - i - 1) by lia.
      destruct (Z.leb_spec (n - i) (n - i - 1)), (Z.ltb_spec (n - i - 1) 32), (Z.leb_spec (n - (i + 1)) (n - i - 1)),
        (Z.ltb_spec (n - i - 1) n); try lia. by destruct (Z.testbit v _).
    + assert (Z.testbit (Z.b2z (Z.testbit v (n - 1 - i))) (k - (n - i - 1)) = false) as ->.
      { destruct (Z.lt_ge_cases k (n - i - 1)); [by apply Z.testbit_neg_r; lia |].
        destruct (Z.testbit v _); [apply Z.bits_above_log2; simpl; lia | apply Z.testbit_0_l]. }
      rewrite andb_false_r, orb_false_r. do 2 f_equal. destruct (Z.leb_spec (n - i) k), (Z.leb_spec (n - (i + 1)) k); (done || lia).
  - cbn [mbind option_bind]. rewrite zlen_field by lia. do 2 f_equal.
    apply Z.bits_inj'. intros k Hk. rewrite Hbits, Z.testbit_mod_pow2 by lia.
    destruct (Z.leb_spec (n - n) k); [done | lia].
Qed.

Lemma takes_bits_small n v : 0 <= n <= 32 -> 0 <= v < 2 ^ n -> takes (srsran_bit_pack n) v (field n v).
Proof. intros Hn Hv. rewrite <- (Z.mod_small v (2 ^ n)) at 1 by done. by apply takes_bits. Qed.

Lemma takes_when {A} b (r : A -> reader A) x y f : (b = true -> takes (r x) y f) -> takes (rwhen b r x) (if b then y else x) (if b then f else []).
Proof. intros H. destruct b; [by apply H | apply takes_ret]. Qed.

Lemma takes_last {A B} (r : reader A) (k : A -> reader B) x y f : takes r x f -> takes (k x) y [] -> takes (r ≫= k) y f.
Proof. intros H1 H2. rewrite <- (app_nil_r f). by eapply takes_bind. Qed.

Lemma takes_bind_nil {A B} (r : reader A) (k : A -> reader B) x y g : takes r x [] -> takes (k x) y g -> takes (r ≫= k) y g.
Proof. apply (takes_bind r k x y []). Qed.

(** A reader whose result depends on the position where it starts. *)
Definition takes_from {A} (r : reader A) (x : Z -> A) (f : cells) : Prop := forall pre old post, length old = length f ->
  r (pre ++ fill f old ++ post) (zlen pre) = Some (x (zlen pre), zlen pre + zlen f).

Lemma takes_from_bind {A B} (r : reader A) (k : A -> reader B) x (y : Z -> B) f g :
  takes r x f -> takes_from (k x) y g -> takes_from (r ≫= k) (fun p => y (p + zlen f)) (f ++ g).
Proof.
  intros H1 H2 pre old post Ho. destruct (split_old f g old Ho) as (o1 & o2 & -> & Ho1 & Ho2).
  rewrite fill_app by done. unfold mbind, reader_bind.
  rewrite <- (app_assoc (fill f o1)), (H1 pre o1 (fill g o2 ++ post)) by done. cbn [mbind option_bind].
  rewrite (app_assoc pre). assert (zlen pre + zlen f = zlen (pre ++ fill f o1)) as ->.
  { rewrite zlen_app. unfold zlen. by rewrite length_fill by done. }
  rewrite (H2 _ o2 post) by done. do 2 f_equal. rewrite !zlen_app. unfold zlen. rewrite length_fill by done. lia.
Qed.

Lemma takes_from_ext {A} (r : reader A) x y f : (forall p, x p = y p) -> takes_from r x f -> takes_from r y f.
Proof. intros H Hr pre old post Ho. rewrite <- H. by apply Hr. Qed.

Lemma takes_from_pos {A} (x : Z -> A) : takes_from (y ← rpos; mret (x y)) x [].
Proof. intros pre old post Ho. unfold mbind, reader_bind, rpos. cbn. by rewrite Z.add_0_r. Qed.

(** One step of a reader against the first part of its shape. *)
Ltac takes_step := first
  [eapply takes_bind; [solve [eauto with takes] |] | eapply takes_last; [solve [eauto with takes] |]]; cbv beta.

Create HintDb takes discriminated.
#[export] Hint Resolve takes_bits_small takes_flag takes_get takes_skip : takes.
#[export] Hint Extern 1 (_ <= _) => lia : takes.
#[export] Hint Extern 1 (_ < _) => lia : takes.
#[export] Hint Extern 2 (_ /\ _) => split; lia : takes.

Create HintDb emits discriminated.
#[export] Hint Resolve emits_seq emits_bits put_flag_emits emits_skip wdone_emits emits_when : emits.
#[export] Hint Extern 2 (_ <= _ <= _) => lia : emits.

(** ** A message written from its start and read back *)

Definition zeros (n : Z) : cells := replicate (Z.to_nat n) (Some 0).

(** The payload after writing a shape at its start. *)
Definition written (f : cells) (pay : list Z) : list Z := fill f (take (length f) pay) ++ drop (length f) pay.

Lemma zlen_zeros n : 0 <= n -> zlen (zeros n) = n.
Proof. intros Hn. unfold zeros, zlen. rewrite length_replicate. lia. Qed.

Lemma zlen_written f pay : zlen f <= zlen pay -> zlen (written f pay) = zlen pay.
Proof.
  unfold written, zlen. intros H. rewrite length_app, length_fill by (rewrite length_take; lia).
  rewrite length_drop. lia.
Qed.

Lemma emits_written w f pay : emits w f -> zlen f <= zlen pay -> w pay 0 = Some (0, written f pay, zlen f).
Proof.
  intros Hw Hl. pose proof (Hw [] (take (length f) pay) (drop (length f) pay)) as H. rewrite app_nil_l, take_drop in H.
  apply H. rewrite length_take. unfold zlen in Hl. lia.
Qed.

Lemma written_app f g pay : (length f + length g <= length pay)%nat ->
  written (f ++ g) pay = fill f (take (length f) pay) ++ fill g (take (length g) (drop (length f) pay))
    ++ drop (length g) (drop (length f) pay).
Proof.
  intros Hl. unfold written. rewrite length_app, drop_drop, app_assoc. f_equal.
  rewrite <- fill_app by (rewrite length_take; lia). f_equal. symmetry. apply take_take_drop.
Qed.

(** A writer whose last step pads the payload up to position [n]. *)
Definition ends (w : writer) (f : cells) (n : Z) : Prop := forall pre old post,
  zlen pre + zlen old = n -> zlen f <= zlen old ->
  w (pre ++ old ++ post) (zlen pre) = Some (0, pre ++ fill (f ++ zeros (zlen old - zlen f)) old ++ post, n).

Lemma length_zeros m : length (zeros m) = Z.to_nat m.
Proof. apply length_replicate. Qed.

Lemma ends_pad n : ends (pad_to n) [] n.
Proof.
  intros pre old post Hn _. subst n. cbn [app]. change (zlen (@nil (option Z))) with 0. rewrite Z.sub_0_r.
  rewrite (pad_to_spec (zlen old)) by (unfold zlen; lia). unfold zeros. by rewrite fmap_const, length_seqZ.
Qed.

Lemma ends_seq w1 w2 f g n : emits w1 f -> ends w2 g n -> ends (w1 ;; w2)%dci (f ++ g) n.
Proof.
  intros H1 H2 pre old post Hn Hf. rewrite zlen_app in Hf. pose proof (zlen_nonneg g) as Hg.
  assert (exists o1 o2, old = o1 ++ o2 /\ length o1 = length f) as (o1 & o2 & -> & Ho1).
  { exists (take (length f) old), (drop (length f) old). rewrite take_drop, length_take. unfold zlen in *. split; [done | lia]. }
  rewrite zlen_app in Hn, Hf. assert (zlen o1 = zlen f) as Hz by (unfold zlen; lia).
  unfold wseq. rewrite <- (app_assoc o1), (H1 pre o1 (o2 ++ post)) by done. cbn [mbind option_bind Z.eqb].
  rewrite (app_assoc pre). replace (zlen pre + zlen f) with (zlen (pre ++ fill f o1)).
  2:{ rewrite zlen_app. unfold zlen. by rewrite length_fill by done. }
  assert (zlen (pre ++ fill f o1) = zlen pre + zlen f) as Hp.
  { rewrite zlen_app. unfold zlen. by rewrite length_fill by done. }
  rewrite (H2 _ o2 post) by lia.
  replace (zlen (o1 ++ o2) - zlen (f ++ g)) with (zlen o2 - zlen g) by (rewrite !zlen_app; lia).
  by rewrite <- (app_assoc f), fill_app, <- !app_assoc by done.
Qed.

Lemma ends_nil_seq w1 w2 g n : emits w1 [] -> ends w2 g n -> ends (w1 ;; w2)%dci g n.
Proof. apply (ends_seq w1 w2 []). Qed.

Lemma ends_written w f n pay :
  ends w f n -> zlen f <= n <= zlen pay -> w pay 0 = Some (0, written (f ++ zeros (n - zlen f)) pay, n).
Proof.
  intros Hw Hn. pose proof (Hw [] (take (Z.to_nat n) pay) (drop (Z.to_nat n) pay)) as H.
  rewrite app_nil_l, take_drop in H. assert (zlen (take (Z.to_nat n) pay) = n) as Hl.
  { unfold zlen in *. rewrite length_take. lia. }
  rewrite Hl, zlen_nil in H. specialize (H ltac:(lia) ltac:(lia)). rewrite H. unfold written.
  assert (length (f ++ zeros (n - zlen f)) = Z.to_nat n) as ->.
  { rewrite length_app, length_zeros. unfold zlen in *. lia. }
  done.
Qed.

Lemma zeros_S n : 0 < n -> zeros n = Some 0 :: zeros (n - 1).
Proof. intros Hn. unfold zeros. by replace (Z.to_nat n) with (S (Z.to_nat (n - 1))) by lia. Qed.

(** A reader that takes a prefix of what was written. *)
Lemma takes_written {A} (r : reader A) x f g pay :
  takes r x f -> zlen (f ++ g) <= zlen pay -> r (written (f ++ g) pay) 0 = Some (x, zlen f).
Proof.
  intros Hr Hl. rewrite written_app by (unfold zlen in Hl; rewrite length_app in Hl; lia).
  apply (Hr [] (take (length f) pay)). rewrite length_take. unfold zlen in Hl. rewrite length_app in Hl. lia.
Qed.

(** A reader that starts after a prefix of what was written. *)
Lemma takes_inside {A} (r : reader A) x p f g pay :
  takes r x f -> zlen (p ++ f ++ g) <= zlen pay -> r (written ((p ++ f) ++ g) pay) (zlen p) = Some (x, zlen p + zlen f).
Proof.
  intros Hr Hl. unfold zlen in Hl. rewrite !length_app in Hl. rewrite <- app_assoc, written_app by (rewrite length_app; lia).
  set (q := fill p _). assert (zlen q = zlen p) as <-.
  { unfold q, zlen. rewrite length_fill; [done |]. rewrite length_take. lia. }
  set (o := drop (length p) pay).
  assert (length o = length pay - length p)%nat as Ho by (unfold o; apply length_drop).
  assert (take (length (f ++ g)) o = take (length f) o ++ take (length g) (drop (length f) o)) as ->.
  { rewrite length_app. symmetry. apply take_take_drop. }
  rewrite fill_app by (rewrite length_take; lia). rewrite <- app_assoc. apply Hr. rewrite length_take. lia.
Qed.
