(* ===== verification/DciFormat.v ===== *)
(** * DCI messages: data and sizes ([lib/src/phy/phch/dci.c] and its header)

    The records of the downlink and uplink control information, the sizes of the payload of
    each format, and the helpers on locations and names. The cells the sizes are computed for
    have at most 110 resource blocks: all conversions to [float] are exact there. *)

From Stdlib Require Import String.
From S2P Require Export DciBits Ra NgTypes.

Open Scope string_scope.
Open Scope Z_scope.

(** ** Data *)

Definition SRSRAN_DCI_MAX_BITS : Z := 128.
Definition SRSRAN_RA_ALLOC_TYPE0 : Z := 0.
Definition SRSRAN_RA_ALLOC_TYPE1 : Z := 1.
Definition SRSRAN_RA_ALLOC_TYPE2 : Z := 2.
Definition SRSRAN_RA_TYPE2_NG1 : Z := 0.
Definition SRSRAN_RA_TYPE2_NG2 : Z := 1.
Definition SRSRAN_RA_TYPE2_LOC : Z := 0.
Definition SRSRAN_RA_TYPE2_DIST : Z := 1.
Definition SRSRAN_RA_TYPE2_NPRB1A_2 : Z := 0.
Definition SRSRAN_RA_PUSCH_HOP_DISABLED : Z := -1.

Record srsran_dci_cfg_t := DciCfg {
  multiple_csi_request_enabled : bool; cif_enabled : bool; srs_request_enabled : bool;
  ra_format_enabled : bool; is_not_ue_ss : bool
}.
Definition zero_dci_cfg : srsran_dci_cfg_t := DciCfg false false false false false.

(** The type 2 allocation. It is the largest member of the union of [srsran_dci_dl_t], whose
    other members overlay its words: [rbg_bitmask] and [vrb_bitmask] the first, [rbg_subset]
    the second, and [shift] the low byte of the third. *)
Record srsran_ra_type2_t := Type2 { riv : Z; n_prb1a : Z; n_gap : Z; mode : Z }.

Definition zero_type2 : srsran_ra_type2_t := Type2 0 0 0 0.
Definition rbg_bitmask (a : srsran_ra_type2_t) : Z := riv a.
Definition vrb_bitmask (a : srsran_ra_type2_t) : Z := riv a.
Definition rbg_subset (a : srsran_ra_type2_t) : Z := n_prb1a a.
Definition shift (a : srsran_ra_type2_t) : bool := negb (n_gap a mod 256 =? 0).
Definition set_riv (x : Z) (a : srsran_ra_type2_t) := Type2 x (n_prb1a a) (n_gap a) (mode a).
Definition set_n_prb1a (x : Z) (a : srsran_ra_type2_t) := Type2 (riv a) x (n_gap a) (mode a).
Definition set_n_gap (x : Z) (a : srsran_ra_type2_t) := Type2 (riv a) (n_prb1a a) x (mode a).
Definition set_mode (x : Z) (a : srsran_ra_type2_t) := Type2 (riv a) (n_prb1a a) (n_gap a) x.
Definition set_shift (x : bool) (a : srsran_ra_type2_t) := set_n_gap (n_gap a / 256 * 256 + Z.b2z x) a.

(** A transport block. *)
Record srsran_dci_tb_t := DciTbInfo {
  mcs_idx : Z; tb_rv : Z; tb_ndi : bool; cw_idx : Z
}.

(** Locations are copied whole; the functions of this file read their first two fields. *)
Definition zero_location : srsran_dci_location_t := DciLoc 0 0 false (S754_zero false).
Definition zero_dci_tb : srsran_dci_tb_t := DciTbInfo 0 0 false 0.
Definition SRSRAN_DCI_IS_TB_EN (t : srsran_dci_tb_t) : bool := negb ((mcs_idx t =? 0) && (tb_rv t =? 1)).
Definition SRSRAN_DCI_TB_DISABLE (t : srsran_dci_tb_t) : srsran_dci_tb_t := DciTbInfo 0 1 (tb_ndi t) (cw_idx t).

(** A downlink assignment; [d_tb0] and [d_tb1] are [tb[0]] and [tb[1]]. *)
Record srsran_dci_dl_t := DciDl {
  d_rnti : Z; d_format : srsran_dci_format_t; d_location : srsran_dci_location_t; d_ue_cc_idx : Z;
  d_alloc_type : Z; d_alloc : srsran_ra_type2_t; d_tb0 : srsran_dci_tb_t; d_tb1 : srsran_dci_tb_t;
  d_tb_cw_swap : bool; d_pinfo : Z; d_pconf : bool; d_power_offset : bool; d_tpc_pucch : Z;
  d_is_pdcch_order : bool; d_preamble_idx : Z; d_prach_mask_idx : Z; d_cif : Z;
  d_cif_present : bool; d_srs_request : bool; d_srs_request_present : bool; d_pid : Z; d_dai : Z;
  d_is_tdd : bool; d_is_dwpts : bool; d_sram_id : bool
}.

(** An uplink grant. [u_ra_type] is the enumeration, assigned from a boolean. *)
Record srsran_dci_ul_t := DciUl {
  u_rnti : Z; u_format : srsran_dci_format_t; u_location : srsran_dci_location_t; u_ue_cc_idx : Z;
  u_type2 : srsran_ra_type2_t; u_freq_hop_fl : Z; u_tb : srsran_dci_tb_t; u_n_dmrs : Z;
  u_cqi_request : bool; u_dai : Z; u_ul_idx : Z; u_is_tdd : bool; u_tpc_pusch : Z; u_cif : Z;
  u_cif_present : bool; u_multiple_csi_request : Z; u_multiple_csi_request_present : bool;
  u_srs_request : bool; u_srs_request_present : bool; u_ra_type : Z; u_ra_type_present : bool
}.

(** A message: the payload is the array of [SRSRAN_DCI_MAX_BITS] bytes. *)
Record srsran_dci_msg_t := DciMessage {
  m_payload : list Z; m_nof_bits : Z; m_location : srsran_dci_location_t;
  m_format : srsran_dci_format_t; m_rnti : Z; m_decode_prob : float32; m_corr : float32
}.

Definition zero_dl : srsran_dci_dl_t :=
  DciDl 0 SRSRAN_DCI_FORMAT0 zero_location 0 0 zero_type2 zero_dci_tb zero_dci_tb false 0 false false 0
    false 0 0 0 false false false 0 0 false false false.
Definition zero_ul : srsran_dci_ul_t :=
  DciUl 0 SRSRAN_DCI_FORMAT0 zero_location 0 zero_type2 0 zero_dci_tb 0 false 0 0 false 0 0 false 0 false
    false false 0 false.

(** *** Assignments to a field *)

Definition set_d_rnti (x : Z) (d : srsran_dci_dl_t) : srsran_dci_dl_t :=
  DciDl x (d_format d) (d_location d) (d_ue_cc_idx d) (d_alloc_type d) (d_alloc d) (d_tb0 d) (d_tb1 d)
    (d_tb_cw_swap d) (d_pinfo d) (d_pconf d) (d_power_offset d) (d_tpc_pucch d) (d_is_pdcch_order d)
    (d_preamble_idx d) (d_prach_mask_idx d) (d_cif d) (d_cif_present d) (d_srs_request d)
    (d_srs_request_present d) (d_pid d) (d_dai d) (d_is_tdd d) (d_is_dwpts d) (d_sram_id d).
Definition set_d_format (x : srsran_dci_format_t) (d : srsran_dci_dl_t) : srsran_dci_dl_t :=
  DciDl (d_rnti d) x (d_location d) (d_ue_cc_idx d) (d_alloc_type d) (d_alloc d) (d_tb0 d) (d_tb1 d)
    (d_tb_cw_swap d) (d_pinfo d) (d_pconf d) (d_power_offset d) (d_tpc_pucch d) (d_is_pdcch_order d)
    (d_preamble_idx d) (d_prach_mask_idx d) (d_cif d) (d_cif_present d) (d_srs_request d)
    (d_srs_request_present d) (d_pid d) (d_dai d) (d_is_tdd d) (d_is_dwpts d) (d_sram_id d).
Definition set_d_location (x : srsran_dci_location_t) (d : srsran_dci_dl_t) : srsran_dci_dl_t :=
  DciDl (d_rnti d) (d_format d) x (d_ue_cc_idx d) (d_alloc_type d) (d_alloc d) (d_tb0 d) (d_tb1 d)
    (d_tb_cw_swap d) (d_pinfo d) (d_pconf d) (d_power_offset d) (d_tpc_pucch d) (d_is_pdcch_order d)
    (d_preamble_idx d) (d_prach_mask_idx d) (d_cif d) (d_cif_present d) (d_srs_request d)
    (d_srs_request_present d) (d_pid d) (d_dai d) (d_is_tdd d) (d_is_dwpts d) (d_sram_id d).
Definition set_d_ue_cc_idx (x : Z) (d : srsran_dci_dl_t) : srsran_dci_dl_t :=
  DciDl (d_rnti d) (d_format d) (d_location d) x (d_alloc_type d) (d_alloc d) (d_tb0 d) (d_tb1 d)
    (d_tb_cw_swap d) (d_pinfo d) (d_pconf d) (d_power_offset d) (d_tpc_pucch d) (d_is_pdcch_order d)
    (d_preamble_idx d) (d_prach_mask_idx d) (d_cif d) (d_cif_present d) (d_srs_request d)
    (d_srs_request_present d) (d_pid d) (d_dai d) (d_is_tdd d) (d_is_dwpts d) (d_sram_id d).
Definition set_d_alloc_type (x : Z) (d : srsran_dci_dl_t) : srsran_dci_dl_t :=
  DciDl (d_rnti d) (d_format d) (d_location d) (d_ue_cc_idx d) x (d_alloc d) (d_tb0 d) (d_tb1 d)
    (d_tb_cw_swap d) (d_pinfo d) (d_pconf d) (d_power_offset d) (d_tpc_pucch d) (d_is_pdcch_order d)
    (d_preamble_idx d) (d_prach_mask_idx d) (d_cif d) (d_cif_present d) (d_srs_request d)
    (d_srs_request_present d) (d_pid d) (d_dai d) (d_is_tdd d) (d_is_dwpts d) (d_sram_id d).
Definition set_d_alloc (x : srsran_ra_type2_t) (d : srsran_dci_dl_t) : srsran_dci_dl_t :=
  DciDl (d_rnti d) (d_format d) (d_location d) (d_ue_cc_idx d) (d_alloc_type d) x (d_tb0 d) (d_tb1 d)
    (d_tb_cw_swap d) (d_pinfo d) (d_pconf d) (d_power_offset d) (d_tpc_pucch d) (d_is_pdcch_order d)
    (d_preamble_idx d) (d_prach_mask_idx d) (d_cif d) (d_cif_present d) (d_srs_request d)
    (d_srs_request_present d) (d_pid d) (d_dai d) (d_is_tdd d) (d_is_dwpts d) (d_sram_id d).
Definition set_d_tb0 (x : srsran_dci_tb_t) (d : srsran_dci_dl_t) : srsran_dci_dl_t :=
  DciDl (d_rnti d) (d_format d) (d_location d) (d_ue_cc_idx d) (d_alloc_type d) (d_alloc d) x (d_tb1 d)
    (d_tb_cw_swap d) (d_pinfo d) (d_pconf d) (d_power_offset d) (d_tpc_pucch d) (d_is_pdcch_order d)
    (d_preamble_idx d) (d_prach_mask_idx d) (d_cif d) (d_cif_present d) (d_srs_request d)
    (d_srs_request_present d) (d_pid d) (d_dai d) (d_is_tdd d) (d_is_dwpts d) (d_sram_id d).
Definition set_d_tb1 (x : srsran_dci_tb_t) (d : srsran_dci_dl_t) : srsran_dci_dl_t :=
  DciDl (d_rnti d) (d_format d) (d_location d) (d_ue_cc_idx d) (d_alloc_type d) (d_alloc d) (d_tb0 d) x
    (d_tb_cw_swap d) (d_pinfo d) (d_pconf d) (d_power_offset d) (d_tpc_pucch d) (d_is_pdcch_order d)
    (d_preamble_idx d) (d_prach_mask_idx d) (d_cif d) (d_cif_present d) (d_srs_request d)
    (d_srs_request_present d) (d_pid d) (d_dai d) (d_is_tdd d) (d_is_dwpts d) (d_sram_id d).
Definition set_d_tb_cw_swap (x : bool) (d : srsran_dci_dl_t) : srsran_dci_dl_t :=
  DciDl (d_rnti d) (d_format d) (d_location d) (d_ue_cc_idx d) (d_alloc_type d) (d_alloc d) (d_tb0 d) (d_tb1 d)
    x (d_pinfo d) (d_pconf d) (d_power_offset d) (d_tpc_pucch d) (d_is_pdcch_order d) (d_preamble_idx d)
    (d_prach_mask_idx d) (d_cif d) (d_cif_present d) (d_srs_request d) (d_srs_request_present d) (d_pid d)
    (d_dai d) (d_is_tdd d) (d_is_dwpts d) (d_sram_id d).
Definition set_d_pinfo (x : Z) (d : srsran_dci_dl_t) : srsran_dci_dl_t :=
  DciDl (d_rnti d) (d_format d) (d_location d) (d_ue_cc_idx d) (d_alloc_type d) (d_alloc d) (d_tb0 d) (d_tb1 d)
    (d_tb_cw_swap d) x (d_pconf d) (d_power_offset d) (d_tpc_pucch d) (d_is_pdcch_order d) (d_preamble_idx d)
    (d_prach_mask_idx d) (d_cif d) (d_cif_present d) (d_srs_request d) (d_srs_request_present d) (d_pid d)
    (d_dai d) (d_is_tdd d) (d_is_dwpts d) (d_sram_id d).
Definition set_d_pconf (x : bool) (d : srsran_dci_dl_t) : srsran_dci_dl_t :=
  DciDl (d_rnti d) (d_format d) (d_location d) (d_ue_cc_idx d) (d_alloc_type d) (d_alloc d) (d_tb0 d) (d_tb1 d)
    (d_tb_cw_swap d) (d_pinfo d) x (d_power_offset d) (d_tpc_pucch d) (d_is_pdcch_order d) (d_preamble_idx d)
    (d_prach_mask_idx d) (d_cif d) (d_cif_present d) (d_srs_request d) (d_srs_request_present d) (d_pid d)
    (d_dai d) (d_is_tdd d) (d_is_dwpts d) (d_sram_id d).
Definition set_d_power_offset (x : bool) (d : srsran_dci_dl_t) : srsran_dci_dl_t :=
  DciDl (d_rnti d) (d_format d) (d_location d) (d_ue_cc_idx d) (d_alloc_type d) (d_alloc d) (d_tb0 d) (d_tb1 d)
    (d_tb_cw_swap d) (d_pinfo d) (d_pconf d) x (d_tpc_pucch d) (d_is_pdcch_order d) (d_preamble_idx d)
    (d_prach_mask_idx d) (d_cif d) (d_cif_present d) (d_srs_request d) (d_srs_request_present d) (d_pid d)
    (d_dai d) (d_is_tdd d) (d_is_dwpts d) (d_sram_id d).
Definition set_d_tpc_pucch (x : Z) (d : srsran_dci_dl_t) : srsran_dci_dl_t :=
  DciDl (d_rnti d) (d_format d) (d_location d) (d_ue_cc_idx d) (d_alloc_type d) (d_alloc d) (d_tb0 d) (d_tb1 d)
    (d_tb_cw_swap d) (d_pinfo d) (d_pconf d) (d_power_offset d) x (d_is_pdcch_order d) (d_preamble_idx d)
    (d_prach_mask_idx d) (d_cif d) (d_cif_present d) (d_srs_request d) (d_srs_request_present d) (d_pid d)
    (d_dai d) (d_is_tdd d) (d_is_dwpts d) (d_sram_id d).
Definition set_d_is_pdcch_order (x : bool) (d : srsran_dci_dl_t) : srsran_dci_dl_t :=
  DciDl (d_rnti d) (d_format d) (d_location d) (d_ue_cc_idx d) (d_alloc_type d) (d_alloc d) (d_tb0 d) (d_tb1 d)
    (d_tb_cw_swap d) (d_pinfo d) (d_pconf d) (d_power_offset d) (d_tpc_pucch d) x (d_preamble_idx d)
    (d_prach_mask_idx d) (d_cif d) (d_cif_present d) (d_srs_request d) (d_srs_request_present d) (d_pid d)
    (d_dai d) (d_is_tdd d) (d_is_dwpts d) (d_sram_id d).
Definition set_d_preamble_idx (x : Z) (d : srsran_dci_dl_t) : srsran_dci_dl_t :=
  DciDl (d_rnti d) (d_format d) (d_location d) (d_ue_cc_idx d) (d_alloc_type d) (d_alloc d) (d_tb0 d) (d_tb1 d)
    (d_tb_cw_swap d) (d_pinfo d) (d_pconf d) (d_power_offset d) (d_tpc_pucch d) (d_is_pdcch_order d) x
    (d_prach_mask_idx d) (d_cif d) (d_cif_present d) (d_srs_request d) (d_srs_request_present d) (d_pid d)
    (d_dai d) (d_is_tdd d) (d_is_dwpts d) (d_sram_id d).
Definition set_d_prach_mask_idx (x : Z) (d : srsran_dci_dl_t) : srsran_dci_dl_t :=
  DciDl (d_rnti d) (d_format d) (d_location d) (d_ue_cc_idx d) (d_alloc_type d) (d_alloc d) (d_tb0 d) (d_tb1 d)
    (d_tb_cw_swap d) (d_pinfo d) (d_pconf d) (d_power_offset d) (d_tpc_pucch d) (d_is_pdcch_order d)
    (d_preamble_idx d) x (d_cif d) (d_cif_present d) (d_srs_request d) (d_srs_request_present d) (d_pid d)
    (d_dai d) (d_is_tdd d) (d_is_dwpts d) (d_sram_id d).
Definition set_d_cif (x : Z) (d : srsran_dci_dl_t) : srsran_dci_dl_t :=
  DciDl (d_rnti d) (d_format d) (d_location d) (d_ue_cc_idx d) (d_alloc_type d) (d_alloc d) (d_tb0 d) (d_tb1 d)
    (d_tb_cw_swap d) (d_pinfo d) (d_pconf d) (d_power_offset d) (d_tpc_pucch d) (d_is_pdcch_order d)
    (d_preamble_idx d) (d_prach_mask_idx d) x (d_cif_present d) (d_srs_request d) (d_srs_request_present d)
    (d_pid d) (d_dai d) (d_is_tdd d) (d_is_dwpts d) (d_sram_id d).
Definition set_d_cif_present (x : bool) (d : srsran_dci_dl_t) : srsran_dci_dl_t :=
  DciDl (d_rnti d) (d_format d) (d_location d) (d_ue_cc_idx d) (d_alloc_type d) (d_alloc d) (d_tb0 d) (d_tb1 d)
    (d_tb_cw_swap d) (d_pinfo d) (d_pconf d) (d_power_offset d) (d_tpc_pucch d) (d_is_pdcch_order d)
    (d_preamble_idx d) (d_prach_mask_idx d) (d_cif d) x (d_srs_request d) (d_srs_request_present d) (d_pid d)
    (d_dai d) (d_is_tdd d) (d_is_dwpts d) (d_sram_id d).
Definition set_d_srs_request (x : bool) (d : srsran_dci_dl_t) : srsran_dci_dl_t :=
  DciDl (d_rnti d) (d_format d) (d_location d) (d_ue_cc_idx d) (d_alloc_type d) (d_alloc d) (d_tb0 d) (d_tb1 d)
    (d_tb_cw_swap d) (d_pinfo d) (d_pconf d) (d_power_offset d) (d_tpc_pucch d) (d_is_pdcch_order d)
    (d_preamble_idx d) (d_prach_mask_idx d) (d_cif d) (d_cif_present d) x (d_srs_request_present d) (d_pid d)
    (d_dai d) (d_is_tdd d) (d_is_dwpts d) (d_sram_id d).
Definition set_d_srs_request_present (x : bool) (d : srsran_dci_dl_t) : srsran_dci_dl_t :=
  DciDl (d_rnti d) (d_format d) (d_location d) (d_ue_cc_idx d) (d_alloc_type d) (d_alloc d) (d_tb0 d) (d_tb1 d)
    (d_tb_cw_swap d) (d_pinfo d) (d_pconf d) (d_power_offset d) (d_tpc_pucch d) (d_is_pdcch_order d)
    (d_preamble_idx d) (d_prach_mask_idx d) (d_cif d) (d_cif_present d) (d_srs_request d) x (d_pid d) (d_dai d)
    (d_is_tdd d) (d_is_dwpts d) (d_sram_id d).
Definition set_d_pid (x : Z) (d : srsran_dci_dl_t) : srsran_dci_dl_t :=
  DciDl (d_rnti d) (d_format d) (d_location d) (d_ue_cc_idx d) (d_alloc_type d) (d_alloc d) (d_tb0 d) (d_tb1 d)
    (d_tb_cw_swap d) (d_pinfo d) (d_pconf d) (d_power_offset d) (d_tpc_pucch d) (d_is_pdcch_order d)
    (d_preamble_idx d) (d_prach_mask_idx d) (d_cif d) (d_cif_present d) (d_srs_request d)
    (d_srs_request_present d) x (d_dai d) (d_is_tdd d) (d_is_dwpts d) (d_sram_id d).
Definition set_d_dai (x : Z) (d : srsran_dci_dl_t) : srsran_dci_dl_t :=
  DciDl (d_rnti d) (d_format d) (d_location d) (d_ue_cc_idx d) (d_alloc_type d) (d_alloc d) (d_tb0 d) (d_tb1 d)
    (d_tb_cw_swap d) (d_pinfo d) (d_pconf d) (d_power_offset d) (d_tpc_pucch d) (d_is_pdcch_order d)
    (d_preamble_idx d) (d_prach_mask_idx d) (d_cif d) (d_cif_present d) (d_srs_request d)
    (d_srs_request_present d) (d_pid d) x (d_is_tdd d) (d_is_dwpts d) (d_sram_id d).
Definition set_d_is_tdd (x : bool) (d : srsran_dci_dl_t) : srsran_dci_dl_t :=
  DciDl (d_rnti d) (d_format d) (d_location d) (d_ue_cc_idx d) (d_alloc_type d) (d_alloc d) (d_tb0 d) (d_tb1 d)
    (d_tb_cw_swap d) (d_pinfo d) (d_pconf d) (d_power_offset d) (d_tpc_pucch d) (d_is_pdcch_order d)
    (d_preamble_idx d) (d_prach_mask_idx d) (d_cif d) (d_cif_present d) (d_srs_request d)
    (d_srs_request_present d) (d_pid d) (d_dai d) x (d_is_dwpts d) (d_sram_id d).
Definition set_d_is_dwpts (x : bool) (d : srsran_dci_dl_t) : srsran_dci_dl_t :=
  DciDl (d_rnti d) (d_format d) (d_location d) (d_ue_cc_idx d) (d_alloc_type d) (d_alloc d) (d_tb0 d) (d_tb1 d)
    (d_tb_cw_swap d) (d_pinfo d) (d_pconf d) (d_power_offset d) (d_tpc_pucch d) (d_is_pdcch_order d)
    (d_preamble_idx d) (d_prach_mask_idx d) (d_cif d) (d_cif_present d) (d_srs_request d)
    (d_srs_request_present d) (d_pid d) (d_dai d) (d_is_tdd d) x (d_sram_id d).
Definition set_d_sram_id (x : bool) (d : srsran_dci_dl_t) : srsran_dci_dl_t :=
  DciDl (d_rnti d) (d_format d) (d_location d) (d_ue_cc_idx d) (d_alloc_type d) (d_alloc d) (d_tb0 d) (d_tb1 d)
    (d_tb_cw_swap d) (d_pinfo d) (d_pconf d) (d_power_offset d) (d_tpc_pucch d) (d_is_pdcch_order d)
    (d_preamble_idx d) (d_prach_mask_idx d) (d_cif d) (d_cif_present d) (d_srs_request d)
    (d_srs_request_present d) (d_pid d) (d_dai d) (d_is_tdd d) (d_is_dwpts d) x.

Definition set_u_rnti (x : Z) (d : srsran_dci_ul_t) : srsran_dci_ul_t :=
  DciUl x (u_format d) (u_location d) (u_ue_cc_idx d) (u_type2 d) (u_freq_hop_fl d) (u_tb d) (u_n_dmrs d)
    (u_cqi_request d) (u_dai d) (u_ul_idx d) (u_is_tdd d) (u_tpc_pusch d) (u_cif d) (u_cif_present d)
    (u_multiple_csi_request d) (u_multiple_csi_request_present d) (u_srs_request d) (u_srs_request_present d)
    (u_ra_type d) (u_ra_type_present d).
Definition set_u_format (x : srsran_dci_format_t) (d : srsran_dci_ul_t) : srsran_dci_ul_t :=
  DciUl (u_rnti d) x (u_location d) (u_ue_cc_idx d) (u_type2 d) (u_freq_hop_fl d) (u_tb d) (u_n_dmrs d)
    (u_cqi_request d) (u_dai d) (u_ul_idx d) (u_is_tdd d) (u_tpc_pusch d) (u_cif d) (u_cif_present d)
    (u_multiple_csi_request d) (u_multiple_csi_request_present d) (u_srs_request d) (u_srs_request_present d)
    (u_ra_type d) (u_ra_type_present d).
Definition set_u_location (x : srsran_dci_location_t) (d : srsran_dci_ul_t) : srsran_dci_ul_t :=
  DciUl (u_rnti d) (u_format d) x (u_ue_cc_idx d) (u_type2 d) (u_freq_hop_fl d) (u_tb d) (u_n_dmrs d)
    (u_cqi_request d) (u_dai d) (u_ul_idx d) (u_is_tdd d) (u_tpc_pusch d) (u_cif d) (u_cif_present d)
    (u_multiple_csi_request d) (u_multiple_csi_request_present d) (u_srs_request d) (u_srs_request_present d)
    (u_ra_type d) (u_ra_type_present d).
Definition set_u_ue_cc_idx (x : Z) (d : srsran_dci_ul_t) : srsran_dci_ul_t :=
  DciUl (u_rnti d) (u_format d) (u_location d) x (u_type2 d) (u_freq_hop_fl d) (u_tb d) (u_n_dmrs d)
    (u_cqi_request d) (u_dai d) (u_ul_idx d) (u_is_tdd d) (u_tpc_pusch d) (u_cif d) (u_cif_present d)
    (u_multiple_csi_request d) (u_multiple_csi_request_present d) (u_srs_request d) (u_srs_request_present d)
    (u_ra_type d) (u_ra_type_present d).
Definition set_u_type2 (x : srsran_ra_type2_t) (d : srsran_dci_ul_t) : srsran_dci_ul_t :=
  DciUl (u_rnti d) (u_format d) (u_location d) (u_ue_cc_idx d) x (u_freq_hop_fl d) (u_tb d) (u_n_dmrs d)
    (u_cqi_request d) (u_dai d) (u_ul_idx d) (u_is_tdd d) (u_tpc_pusch d) (u_cif d) (u_cif_present d)
    (u_multiple_csi_request d) (u_multiple_csi_request_present d) (u_srs_request d) (u_srs_request_present d)
    (u_ra_type d) (u_ra_type_present d).
Definition set_u_freq_hop_fl (x : Z) (d : srsran_dci_ul_t) : srsran_dci_ul_t :=
  DciUl (u_rnti d) (u_format d) (u_location d) (u_ue_cc_idx d) (u_type2 d) x (u_tb d) (u_n_dmrs d)
    (u_cqi_request d) (u_dai d) (u_ul_idx d) (u_is_tdd d) (u_tpc_pusch d) (u_cif d) (u_cif_present d)
    (u_multiple_csi_request d) (u_multiple_csi_request_present d) (u_srs_request d) (u_srs_request_present d)
    (u_ra_type d) (u_ra_type_present d).
Definition set_u_tb (x : srsran_dci_tb_t) (d : srsran_dci_ul_t) : srsran_dci_ul_t :=
  DciUl (u_rnti d) (u_format d) (u_location d) (u_ue_cc_idx d) (u_type2 d) (u_freq_hop_fl d) x (u_n_dmrs d)
    (u_cqi_request d) (u_dai d) (u_ul_idx d) (u_is_tdd d) (u_tpc_pusch d) (u_cif d) (u_cif_present d)
    (u_multiple_csi_request d) (u_multiple_csi_request_present d) (u_srs_request d) (u_srs_request_present d)
    (u_ra_type d) (u_ra_type_present d).
Definition set_u_n_dmrs (x : Z) (d : srsran_dci_ul_t) : srsran_dci_ul_t :=
  DciUl (u_rnti d) (u_format d) (u_location d) (u_ue_cc_idx d) (u_type2 d) (u_freq_hop_fl d) (u_tb d) x
    (u_cqi_request d) (u_dai d) (u_ul_idx d) (u_is_tdd d) (u_tpc_pusch d) (u_cif d) (u_cif_present d)
    (u_multiple_csi_request d) (u_multiple_csi_request_present d) (u_srs_request d) (u_srs_request_present d)
    (u_ra_type d) (u_ra_type_present d).
Definition set_u_cqi_request (x : bool) (d : srsran_dci_ul_t) : srsran_dci_ul_t :=
  DciUl (u_rnti d) (u_format d) (u_location d) (u_ue_cc_idx d) (u_type2 d) (u_freq_hop_fl d) (u_tb d)
    (u_n_dmrs d) x (u_dai d) (u_ul_idx d) (u_is_tdd d) (u_tpc_pusch d) (u_cif d) (u_cif_present d)
    (u_multiple_csi_request d) (u_multiple_csi_request_present d) (u_srs_request d) (u_srs_request_present d)
    (u_ra_type d) (u_ra_type_present d).
Definition set_u_dai (x : Z) (d : srsran_dci_ul_t) : srsran_dci_ul_t :=
  DciUl (u_rnti d) (u_format d) (u_location d) (u_ue_cc_idx d) (u_type2 d) (u_freq_hop_fl d) (u_tb d)
    (u_n_dmrs d) (u_cqi_request d) x (u_ul_idx d) (u_is_tdd d) (u_tpc_pusch d) (u_cif d) (u_cif_present d)
    (u_multiple_csi_request d) (u_multiple_csi_request_present d) (u_srs_request d) (u_srs_request_present d)
    (u_ra_type d) (u_ra_type_present d).
Definition set_u_ul_idx (x : Z) (d : srsran_dci_ul_t) : srsran_dci_ul_t :=
  DciUl (u_rnti d) (u_format d) (u_location d) (u_ue_cc_idx d) (u_type2 d) (u_freq_hop_fl d) (u_tb d)
    (u_n_dmrs d) (u_cqi_request d) (u_dai d) x (u_is_tdd d) (u_tpc_pusch d) (u_cif d) (u_cif_present d)
    (u_multiple_csi_request d) (u_multiple_csi_request_present d) (u_srs_request d) (u_srs_request_present d)
    (u_ra_type d) (u_ra_type_present d).
Definition set_u_is_tdd (x : bool) (d : srsran_dci_ul_t) : srsran_dci_ul_t :=
  DciUl (u_rnti d) (u_format d) (u_location d) (u_ue_cc_idx d) (u_type2 d) (u_freq_hop_fl d) (u_tb d)
    (u_n_dmrs d) (u_cqi_request d) (u_dai d) (u_ul_idx d) x (u_tpc_pusch d) (u_cif d) (u_cif_present d)
    (u_multiple_csi_request d) (u_multiple_csi_request_present d) (u_srs_request d) (u_srs_request_present d)
    (u_ra_type d) (u_ra_type_present d).
Definition set_u_tpc_pusch (x : Z) (d : srsran_dci_ul_t) : srsran_dci_ul_t :=
  DciUl (u_rnti d) (u_format d) (u_location d) (u_ue_cc_idx d) (u_type2 d) (u_freq_hop_fl d) (u_tb d)
    (u_n_dmrs d) (u_cqi_request d) (u_dai d) (u_ul_idx d) (u_is_tdd d) x (u_cif d) (u_cif_present d)
    (u_multiple_csi_request d) (u_multiple_csi_request_present d) (u_srs_request d) (u_srs_request_present d)
    (u_ra_type d) (u_ra_type_present d).
Definition set_u_cif (x : Z) (d : srsran_dci_ul_t) : srsran_dci_ul_t :=
  DciUl (u_rnti d) (u_format d) (u_location d) (u_ue_cc_idx d) (u_type2 d) (u_freq_hop_fl d) (u_tb d)
    (u_n_dmrs d) (u_cqi_request d) (u_dai d) (u_ul_idx d) (u_is_tdd d) (u_tpc_pusch d) x (u_cif_present d)
    (u_multiple_csi_request d) (u_multiple_csi_request_present d) (u_srs_request d) (u_srs_request_present d)
    (u_ra_type d) (u_ra_type_present d).
Definition set_u_cif_present (x : bool) (d : srsran_dci_ul_t) : srsran_dci_ul_t :=
  DciUl (u_rnti d) (u_format d) (u_location d) (u_ue_cc_idx d) (u_type2 d) (u_freq_hop_fl d) (u_tb d)
    (u_n_dmrs d) (u_cqi_request d) (u_dai d) (u_ul_idx d) (u_is_tdd d) (u_tpc_pusch d) (u_cif d) x
    (u_multiple_csi_request d) (u_multiple_csi_request_present d) (u_srs_request d) (u_srs_request_present d)
    (u_ra_type d) (u_ra_type_present d).
Definition set_u_multiple_csi_request (x : Z) (d : srsran_dci_ul_t) : srsran_dci_ul_t :=
  DciUl (u_rnti d) (u_format d) (u_location d) (u_ue_cc_idx d) (u_type2 d) (u_freq_hop_fl d) (u_tb d)
    (u_n_dmrs d) (u_cqi_request d) (u_dai d) (u_ul_idx d) (u_is_tdd d) (u_tpc_pusch d) (u_cif d)
    (u_cif_present d) x (u_multiple_csi_request_present d) (u_srs_request d) (u_srs_request_present d)
    (u_ra_type d) (u_ra_type_present d).
Definition set_u_multiple_csi_request_present (x : bool) (d : srsran_dci_ul_t) : srsran_dci_ul_t :=
  DciUl (u_rnti d) (u_format d) (u_location d) (u_ue_cc_idx d) (u_type2 d) (u_freq_hop_fl d) (u_tb d)
    (u_n_dmrs d) (u_cqi_request d) (u_dai d) (u_ul_idx d) (u_is_tdd d) (u_tpc_pusch d) (u_cif d)
    (u_cif_present d) (u_multiple_csi_request d) x (u_srs_request d) (u_srs_request_present d) (u_ra_type d)
    (u_ra_type_present d).
Definition set_u_srs_request (x : bool) (d : srsran_dci_ul_t) : srsran_dci_ul_t :=
  DciUl (u_rnti d) (u_format d) (u_location d) (u_ue_cc_idx d) (u_type2 d) (u_freq_hop_fl d) (u_tb d)
    (u_n_dmrs d) (u_cqi_request d) (u_dai d) (u_ul_idx d) (u_is_tdd d) (u_tpc_pusch d) (u_cif d)
    (u_cif_present d) (u_multiple_csi_request d) (u_multiple_csi_request_present d) x (u_srs_request_present d)
    (u_ra_type d) (u_ra_type_present d).
Definition set_u_srs_request_present (x : bool) (d : srsran_dci_ul_t) : srsran_dci_ul_t :=
  DciUl (u_rnti d) (u_format d) (u_location d) (u_ue_cc_idx d) (u_type2 d) (u_freq_hop_fl d) (u_tb d)
    (u_n_dmrs d) (u_cqi_request d) (u_dai d) (u_ul_idx d) (u_is_tdd d) (u_tpc_pusch d) (u_cif d)
    (u_cif_present d) (u_multiple_csi_request d) (u_multiple_csi_request_present d) (u_srs_request d) x
    (u_ra_type d) (u_ra_type_present d).
Definition set_u_ra_type (x : Z) (d : srsran_dci_ul_t) : srsran_dci_ul_t :=
  DciUl (u_rnti d) (u_format d) (u_location d) (u_ue_cc_idx d) (u_type2 d) (u_freq_hop_fl d) (u_tb d)
    (u_n_dmrs d) (u_cqi_request d) (u_dai d) (u_ul_idx d) (u_is_tdd d) (u_tpc_pusch d) (u_cif d)
    (u_cif_present d) (u_multiple_csi_request d) (u_multiple_csi_request_present d) (u_srs_request d)
    (u_srs_request_present d) x (u_ra_type_present d).
Definition set_u_ra_type_present (x : bool) (d : srsran_dci_ul_t) : srsran_dci_ul_t :=
  DciUl (u_rnti d) (u_format d) (u_location d) (u_ue_cc_idx d) (u_type2 d) (u_freq_hop_fl d) (u_tb d)
    (u_n_dmrs d) (u_cqi_request d) (u_dai d) (u_ul_idx d) (u_is_tdd d) (u_tpc_pusch d) (u_cif d)
    (u_cif_present d) (u_multiple_csi_request d) (u_multiple_csi_request_present d) (u_srs_request d)
    (u_srs_request_present d) (u_ra_type d) x.

Definition set_m_format (x : srsran_dci_format_t) (m : srsran_dci_msg_t) : srsran_dci_msg_t :=
  DciMessage (m_payload m) (m_nof_bits m) (m_location m) x (m_rnti m) (m_decode_prob m) (m_corr m).
Definition set_m_nof_bits (x : Z) (m : srsran_dci_msg_t) : srsran_dci_msg_t :=
  DciMessage (m_payload m) x (m_location m) (m_format m) (m_rnti m) (m_decode_prob m) (m_corr m).
Definition set_m_payload (x : list Z) (m : srsran_dci_msg_t) : srsran_dci_msg_t :=
  DciMessage x (m_nof_bits m) (m_location m) (m_format m) (m_rnti m) (m_decode_prob m) (m_corr m).

(** ** Sizes of the payloads *)

Section sizes.
Context (cell : srsran_cell_t) (sf : srsran_dl_sf_cfg_t) (cfg : srsran_dci_cfg_t).

Definition IS_TDD : bool := bool_decide (frame_type cell = SRSRAN_TDD).
Definition IS_TDD_CFG0 : bool := IS_TDD && (sf_config (tdd_config sf) =? 0).
Definition HARQ_PID_LEN : Z := if IS_TDD || IS_TDD_CFG0 then 4 else 3.

(** [(uint32_t)ceilf(log2f((float)nof_prb * ((float)nof_prb + 1) / 2))] *)
Definition riv_nbits (nof_prb : Z) : Z := ceilf_log2f (nof_prb * (nof_prb + 1) / 2).

Definition ambiguous_sizes : list Z := [12; 14; 16; 20; 24; 26; 32; 40; 44; 56].
Definition is_ambiguous_size (size : Z) : bool := bool_decide (size ∈ ambiguous_sizes).

(** [while (p(n)) n++;] the fuel is the greatest size of a payload. *)
Fixpoint while_incr_from (fuel : nat) (p : Z -> bool) (n : Z) : option Z :=
  if p n then match fuel with O => None | S k => while_incr_from k p (n + 1) end else Some n.
Definition while_incr (p : Z -> bool) (n : Z) : option Z := while_incr_from 128 p n.

Definition bif (b : bool) (x y : Z) : Z := if b then x else y.

Definition dci_format0_sizeof_ : Z :=
  bif (cif_enabled cfg) 3 0 + 1 + 1 + riv_nbits (nof_prb cell) + 5 + 1 + 2 + 3
  + bif (IS_TDD || IS_TDD_CFG0) 2 0
  + bif (multiple_csi_request_enabled cfg && negb (is_not_ue_ss cfg)) 2 1
  + bif (srs_request_enabled cfg && negb (is_not_ue_ss cfg)) 1 0
  + 1.

Definition dci_format1A_sizeof : option Z :=
  n ← while_incr (fun n => n <? dci_format0_sizeof_)
    (bif (cif_enabled cfg) 3 0 + 1 + 1 + riv_nbits (nof_prb cell) + 5 + HARQ_PID_LEN + 1 + 2 + 2
     + bif IS_TDD 2 0 + bif (srs_request_enabled cfg) 1 0);
  Some (if is_ambiguous_size n then n + 1 else n).

Definition dci_format0_sizeof : option Z :=
  n1A ← dci_format1A_sizeof; while_incr (fun n => n <? n1A) dci_format0_sizeof_.

Definition alloc_size : Z := ceilf_quot (nof_prb cell) (srsran_ra_type0_P (nof_prb cell)).

Definition dci_format1_sizeof : option Z :=
  n0 ← dci_format0_sizeof; n1A ← dci_format1A_sizeof;
  while_incr (fun n => (n =? n0) || (n =? n1A) || is_ambiguous_size n)
    (alloc_size + 5 + HARQ_PID_LEN + 1 + 2 + 2 + bif (cif_enabled cfg) 3 0 + bif IS_TDD 2 0
     + bif (10 <? nof_prb cell) 1 0).

Definition dci_format1C_sizeof : option Z :=
  n_vrb_dl_gap1 ← srsran_ra_type2_n_vrb_dl (nof_prb cell) true;
  Some (riv_nbits (n_vrb_dl_gap1 / srsran_ra_type2_n_rb_step (nof_prb cell)) + 5 + bif (50 <=? nof_prb cell) 1 0).

Definition tpmi_bits (nof_ports : Z) : Z := if nof_ports <=? 2 then 2 else 4.

Definition dci_format1B_sizeof : option Z :=
  n ← while_incr (fun n => n <? dci_format0_sizeof_)
    (bif (cif_enabled cfg) 3 0 + 1 + riv_nbits (nof_prb cell) + 5 + HARQ_PID_LEN + 1 + 2 + 2
     + bif IS_TDD 2 0 + tpmi_bits (nof_ports cell) + 1);
  while_incr is_ambiguous_size n.

Definition dci_format1D_sizeof : option Z := dci_format1B_sizeof.

Definition precoding_bits_f2 (nof_ports : Z) : Z := if nof_ports <=? 2 then 3 else 6.
Definition precoding_bits_f2a (nof_ports : Z) : Z := if nof_ports <=? 2 then 0 else 2.

(** The part the sizes of formats 2, 2A and 2B share: all but the precoding information. *)
Definition format2_base : Z :=
  alloc_size + 2 + HARQ_PID_LEN + 1 + 2 * (5 + 1 + 2) + bif (cif_enabled cfg) 3 0 + bif IS_TDD 2 0
  + bif (10 <? nof_prb cell) 1 0.

Definition dci_format2_sizeof : option Z := while_incr is_ambiguous_size (format2_base + precoding_bits_f2 (nof_ports cell)).
Definition dci_format2A_sizeof : option Z := while_incr is_ambiguous_size (format2_base + precoding_bits_f2a (nof_ports cell)).
Definition dci_format2B_sizeof : option Z := while_incr is_ambiguous_size format2_base.

Definition format_sizeof (format : srsran_dci_format_t) : option Z :=
  match format with
  | SRSRAN_DCI_FORMAT0 => dci_format0_sizeof
  | SRSRAN_DCI_FORMAT1 => dci_format1_sizeof
  | SRSRAN_DCI_FORMAT1A => dci_format1A_sizeof
  | SRSRAN_DCI_FORMAT1C => dci_format1C_sizeof
  | SRSRAN_DCI_FORMAT1B => dci_format1B_sizeof
  | SRSRAN_DCI_FORMAT1D => dci_format1D_sizeof
  | SRSRAN_DCI_FORMAT2 => dci_format2_sizeof
  | SRSRAN_DCI_FORMAT2A => dci_format2A_sizeof
  | SRSRAN_DCI_FORMAT2B => dci_format2B_sizeof
  | _ => Some 0
  end.
End sizes.

(** A null [sf] or [cfg] stands for a cleared object. *)
Definition srsran_dci_format_sizeof (cell : srsran_cell_t) (sf : option srsran_dl_sf_cfg_t)
    (cfg : option srsran_dci_cfg_t) (format : srsran_dci_format_t) : option Z :=
  format_sizeof cell (default zero_dl_sf_cfg sf) (default zero_dci_cfg cfg) format.

(** ** Locations *)

(** The comparison of a location, as [(L, ncce)], in the order of each of the two copies. *)
Fixpoint srsran_location_find (locations : list srsran_dci_location_t) (nof_locations : nat) (x : srsran_dci_location_t)
  : option bool :=
  match nof_locations, locations with
  | O, _ => Some false
  | S _, [] => None
  | S n, l :: locations =>
      if (loc_L l =? loc_L x) && (loc_ncce l =? loc_ncce x) then Some true else srsran_location_find locations n x
  end.

Fixpoint srsran_location_find_location (locations : list srsran_dci_location_t) (nof_locations : nat)
    (x : srsran_dci_location_t) : option bool :=
  match nof_locations, locations with
  | O, _ => Some false
  | S _, [] => None
  | S n, l :: locations =>
      if (loc_ncce l =? loc_ncce x) && (loc_L l =? loc_L x) then Some true
      else srsran_location_find_location locations n x
  end.

(** An invalid position leaves the level that was set before the check. *)
Definition srsran_dci_location_set (c : srsran_dci_location_t) (L nCCE : Z) : Z * srsran_dci_location_t :=
  if L <=? 3 then
    let c := DciLoc L (loc_ncce c) (loc_checked c) (loc_mean_llr c) in
    if nCCE <=? 87 then (SRSRAN_SUCCESS, DciLoc (loc_L c) nCCE (loc_checked c) (loc_mean_llr c)) else (SRSRAN_ERROR, c)
  else (SRSRAN_ERROR, c).

Definition srsran_dci_location_isvalid (c : srsran_dci_location_t) : bool := (loc_L c <=? 3) && (loc_ncce c <=? 87).

Definition srsran_dci_cfg_set_common_ss (c : srsran_dci_cfg_t) : srsran_dci_cfg_t :=
  DciCfg (multiple_csi_request_enabled c) (cif_enabled c) (srs_request_enabled c) (ra_format_enabled c) true.

(** ** Names of formats *)

Definition srsran_dci_format_from_string (str : string) : srsran_dci_format_t :=
  if String.eqb str "Format0" then SRSRAN_DCI_FORMAT0
  else if String.eqb str "Format1" then SRSRAN_DCI_FORMAT1
  else if String.eqb str "Format1A" then SRSRAN_DCI_FORMAT1A
  else if String.eqb str "Format1B" then SRSRAN_DCI_FORMAT1B
  else if String.eqb str "Format1C" then SRSRAN_DCI_FORMAT1C
  else if String.eqb str "Format1D" then SRSRAN_DCI_FORMAT1D
  else if String.eqb str "Format2" then SRSRAN_DCI_FORMAT2
  else if String.eqb str "Format2A" then SRSRAN_DCI_FORMAT2A
  else if String.eqb str "Format2B" then SRSRAN_DCI_FORMAT2B
  else if String.eqb str "FormatN0" then SRSRAN_DCI_FORMATN0
  else if String.eqb str "FormatN1" then SRSRAN_DCI_FORMATN1
  else if String.eqb str "FormatN2" then SRSRAN_DCI_FORMATN2
  else SRSRAN_DCI_NOF_FORMATS.

Definition srsran_dci_format_string (format : srsran_dci_format_t) : string :=
  match format with
  | SRSRAN_DCI_FORMAT0 => "Format0 " | SRSRAN_DCI_FORMAT1 => "Format1 " | SRSRAN_DCI_FORMAT1A => "Format1A"
  | SRSRAN_DCI_FORMAT1B => "Format1B" | SRSRAN_DCI_FORMAT1C => "Format1C" | SRSRAN_DCI_FORMAT1D => "Format1D"
  | SRSRAN_DCI_FORMAT2 => "Format2 " | SRSRAN_DCI_FORMAT2A => "Format2A" | SRSRAN_DCI_FORMAT2B => "Format2B"
  | SRSRAN_DCI_FORMATN0 => "FormatN0" | SRSRAN_DCI_FORMATN1 => "FormatN1" | SRSRAN_DCI_FORMATN2 => "FormatN2"
  | _ => "N/A"
  end.

Definition srsran_dci_format_string_short (format : srsran_dci_format_t) : string :=
  match format with
  | SRSRAN_DCI_FORMAT0 => "0" | SRSRAN_DCI_FORMAT1 => "1" | SRSRAN_DCI_FORMAT1A => "1A"
  | SRSRAN_DCI_FORMAT1B => "1B" | SRSRAN_DCI_FORMAT1C => "1C" | SRSRAN_DCI_FORMAT1D => "1D"
  | SRSRAN_DCI_FORMAT2 => "2" | SRSRAN_DCI_FORMAT2A => "2A" | SRSRAN_DCI_FORMAT2B => "2B"
  | _ => "N/A"
  end.

Definition srsran_dci_format_max_tb (format : srsran_dci_format_t) : Z :=
  match format with
  | SRSRAN_DCI_FORMAT2 | SRSRAN_DCI_FORMAT2A | SRSRAN_DCI_FORMAT2B => 2
  | SRSRAN_DCI_NOF_FORMATS => 0
  | _ => 1
  end.

(** ** Facts about the sizes *)

Lemma riv_nbits_bound n : 1 <= n <= SRSRAN_MAX_PRB -> 0 <= riv_nbits n <= 13.
Proof.
  unfold SRSRAN_MAX_PRB, riv_nbits. intros Hn. assert (1 <= n * (n + 1) / 2 <= 2 ^ 13) as Hx by nia.
  split; [| by apply ceilf_log2f_ub]. pose proof (ceilf_log2f_lb (n * (n + 1) / 2) ltac:(lia)).
  pose proof (Z.log2_nonneg (n * (n + 1) / 2)). lia.
Qed.

(** Every RIV of the cell fits in the field. *)
Lemma riv_nbits_enough n : 1 <= n <= SRSRAN_MAX_PRB -> n * (n + 1) / 2 <= 2 ^ riv_nbits n < n * (n + 1).
Proof.
  unfold SRSRAN_MAX_PRB, riv_nbits. intros Hn. set (x := n * (n + 1) / 2).
  assert (1 <= x <= 6105 /\ n * (n + 1) = 2 * x) as [Hx ->].
  { unfold x. pose proof (Z.div_mod (n * (n + 1)) 2 ltac:(lia)). assert (n * (n + 1) mod 2 = 0) as Hm; [| nia].
    rewrite Zmult_mod, Zplus_mod. destruct (Z.mod_pos_bound n 2 ltac:(lia)).
    assert (n mod 2 = 0 \/ n mod 2 = 1) as [-> | ->] by lia; done. }
  rewrite ceilf_log2f_exact by lia. clearbody x. destruct (Z.eq_dec x 1) as [-> |]; [by vm_compute; split |].
  pose proof (Z.log2_up_spec x ltac:(lia)) as [Hlt Hle]. split; [done |].
  pose proof (Z.log2_up_pos x ltac:(lia)). rewrite <- (Z.succ_pred (Z.log2_up x)), Z.pow_succ_r by lia. lia.
Qed.

Lemma while_incr_from_spec (p : Z -> bool) fuel n k :
  0 <= k <= Z.of_nat fuel -> p (n + k) = false ->
  exists r, while_incr_from fuel p n = Some r /\ n <= r <= n + k /\ p r = false /\ forall j, n <= j < r -> p j = true.
Proof.
  revert n k. induction fuel as [| fuel IH]; intros n k Hk Hp.
  - assert (k = 0) as -> by lia. rewrite Z.add_0_r in Hp. exists n. cbn. rewrite Hp. split_and!; (done || lia).
  - cbn [while_incr_from]. destruct (p n) eqn:E; [| exists n; split_and!; (done || lia)].
    destruct (Z.eq_dec k 0) as [-> | Hne]; [rewrite Z.add_0_r in Hp; congruence |].
    destruct (IH (n + 1) (k - 1)) as (r & -> & Hr & Hpr & Hj); [lia | by replace (n + 1 + (k - 1)) with (n + k) by lia |].
    exists r. split_and!; [done | lia | lia | done |]. intros j Hj'. destruct (Z.eq_dec j n) as [-> |]; [done | apply Hj; lia].
Qed.

Lemma while_incr_max n m : m <= n + 128 -> while_incr (fun n => n <? m) n = Some (Z.max n m).
Proof.
  intros Hm. destruct (while_incr_from_spec (fun n => n <? m) 128 n (Z.max n m - n)) as (r & E & Hr & Hp & Hj);
    [lia | zcase; [lia | done] |].
  unfold while_incr. rewrite E. f_equal. destruct (Z.lt_ge_cases r (Z.max n m)); [| lia].
  revert Hp. zcase; [done | lia].
Qed.

(** No two consecutive sizes are ambiguous: all of them are even. *)
Lemma ambiguous_even n : is_ambiguous_size n = true -> n mod 2 = 0.
Proof.
  unfold is_ambiguous_size. intros H%bool_decide_eq_true. revert n H.
  apply Forall_forall. repeat constructor.
Qed.

Lemma not_ambiguous_odd n : n mod 2 = 1 -> is_ambiguous_size n = false.
Proof. intros Ho. destruct (is_ambiguous_size n) eqn:E; [| done]. apply ambiguous_even in E. lia. Qed.

Lemma skip_ambiguous n : exists r, while_incr is_ambiguous_size n = Some r /\ n <= r <= n + 1 /\ is_ambiguous_size r = false.
Proof.
  destruct (is_ambiguous_size n) eqn:E.
  - apply ambiguous_even in E. destruct (while_incr_from_spec is_ambiguous_size 128 n 1) as (r & H & Hr & Hp & _);
      [lia | apply not_ambiguous_odd; lia | by exists r].
  - exists n. unfold while_incr. cbn [while_incr_from]. rewrite E. split_and!; (done || lia).
Qed.

Section sizes_facts.
Context (cell : srsran_cell_t) (sf : srsran_dl_sf_cfg_t) (cfg : srsran_dci_cfg_t).
Hypothesis Hprb : 1 <= nof_prb cell <= SRSRAN_MAX_PRB.

Lemma bif_range b x y : 0 <= x <= 3 -> 0 <= y <= 3 -> 0 <= bif b x y <= 3.
Proof. by destruct b. Qed.

Ltac bifs := repeat match goal with
  | |- context [bif ?b ?x ?y] => pose proof (bif_range b x y ltac:(lia) ltac:(lia)); set (bif b x y) in *
  end.

Lemma harq_len : 3 <= HARQ_PID_LEN cell sf <= 4.
Proof. unfold HARQ_PID_LEN. destruct (_ || _); lia. Qed.

Lemma alloc_size_range : 1 <= alloc_size cell <= 28.
Proof.
  unfold alloc_size, ceilf_quot, srsran_ra_type0_P, SRSRAN_MAX_PRB in *. repeat zcase; try lia.
Qed.

Lemma format0_size_range : 14 <= dci_format0_sizeof_ cell sf cfg <= 40.
Proof. unfold dci_format0_sizeof_. pose proof (riv_nbits_bound _ Hprb). bifs. lia. Qed.

Lemma format1A_size : exists n, dci_format1A_sizeof cell sf cfg = Some n /\
  dci_format0_sizeof_ cell sf cfg <= n <= 60 /\ is_ambiguous_size n = false.
Proof.
  unfold dci_format1A_sizeof. pose proof format0_size_range as H0. pose proof (riv_nbits_bound _ Hprb). pose proof harq_len.
  bifs. rewrite while_incr_max by lia. cbn [mbind option_bind]. eexists. split; [done |].
  set (n := Z.max _ _). assert (dci_format0_sizeof_ cell sf cfg <= n <= 50) by lia. clearbody n.
  destruct (is_ambiguous_size n) eqn:E; [| split; [lia | done]]. split; [lia |].
  apply ambiguous_even in E. apply not_ambiguous_odd. lia.
Qed.

(** The fields of format 1A fit in its size. *)
Lemma format1A_fields n : dci_format1A_sizeof cell sf cfg = Some n -> bif (cif_enabled cfg) 3 0 + riv_nbits (nof_prb cell) + 15 <= n.
Proof.
  unfold dci_format1A_sizeof. pose proof format0_size_range as H0. pose proof (riv_nbits_bound _ Hprb). pose proof harq_len.
  bifs. rewrite while_incr_max by lia. cbn [mbind option_bind]. intros [= <-]. destruct (is_ambiguous_size _); lia.
Qed.

Lemma format0_size n1A : dci_format1A_sizeof cell sf cfg = Some n1A -> dci_format0_sizeof cell sf cfg = Some n1A.
Proof.
  intros E. destruct format1A_size as (n & E' & Hn & _). pose proof format0_size_range.
  unfold dci_format0_sizeof. rewrite E in *. injection E' as ->. cbn [mbind option_bind].
  rewrite while_incr_max by lia. f_equal. lia.
Qed.

(** The fields of format 1 before its padding. *)
Definition format1_base : Z :=
  alloc_size cell + 5 + HARQ_PID_LEN cell sf + 1 + 2 + 2 + bif (cif_enabled cfg) 3 0 + bif (IS_TDD cell) 2 0
  + bif (10 <? nof_prb cell) 1 0.

Lemma format1_base_range : 14 <= format1_base <= 60.
Proof. unfold format1_base. pose proof harq_len. pose proof alloc_size_range. bifs. lia. Qed.

Lemma format1_size n1A : dci_format1A_sizeof cell sf cfg = Some n1A ->
  exists n, dci_format1_sizeof cell sf cfg = Some n /\ format1_base <= n <= 70 /\ n <> n1A /\ is_ambiguous_size n = false.
Proof.
  intros E. unfold dci_format1_sizeof. rewrite (format0_size _ E), E. cbn [mbind option_bind]. fold format1_base.
  pose proof format1_base_range. set (b := format1_base) in *. clearbody b.
  (* of the two odd numbers from [b] on, one is not [n1A] *)
  assert (exists k, 0 <= k <= 3 /\ (b + k) mod 2 = 1 /\ b + k <> n1A) as (k & Hk & Hodd & Hne).
  { pose proof (Z.mod_pos_bound b 2 ltac:(lia)). destruct (Z.eq_dec (b + (1 - b mod 2)) n1A).
    - exists (3 - b mod 2). lia.
    - exists (1 - b mod 2). lia. }
  destruct (while_incr_from_spec (fun n => (n =? n1A) || (n =? n1A) || is_ambiguous_size n) 128 b k) as (r & Er & Hr & Hp & _);
    [lia | rewrite not_ambiguous_odd by done; by zcase |].
  exists r. apply orb_false_iff in Hp as [Hp1 Hp2]. apply orb_false_iff in Hp1 as [Hp1 _].
  split_and!; [done | lia | lia | lia | done].
Qed.

Lemma format1C_size : 2 <= nof_prb cell -> exists n, dci_format1C_sizeof cell = Some n /\ 5 <= n <= 21.
Proof.
  intros H2. unfold dci_format1C_sizeof. destruct (n_vrb_dl_gaps (nof_prb cell)) as [(v & -> & Hv) _]; [lia |].
  cbn [mbind option_bind]. eexists. split; [done |]. bifs. unfold SRSRAN_MAX_PRB in *.
  set (x := v / _). assert (0 <= x <= 110) as Hx by (unfold x, srsran_ra_type2_n_rb_step; zcase; lia). clearbody x.
  destruct (Z.eq_dec x 0) as [-> |]; [change (riv_nbits 0) with 0; lia |].
  pose proof (riv_nbits_bound x ltac:(unfold SRSRAN_MAX_PRB; lia)). lia.
Qed.

Lemma format2_base_range : 18 <= format2_base cell sf cfg <= 70.
Proof. unfold format2_base. pose proof harq_len. pose proof alloc_size_range. bifs. lia. Qed.

Lemma format2_size : exists n, dci_format2_sizeof cell sf cfg = Some n /\
  format2_base cell sf cfg + precoding_bits_f2 (nof_ports cell) <= n <= 80 /\ is_ambiguous_size n = false.
Proof.
  unfold dci_format2_sizeof. pose proof format2_base_range.
  assert (0 <= precoding_bits_f2 (nof_ports cell) <= 6) by (unfold precoding_bits_f2; zcase; lia).
  destruct (skip_ambiguous (format2_base cell sf cfg + precoding_bits_f2 (nof_ports cell))) as (n & -> & Hn & Ha).
  exists n. split_and!; (done || lia).
Qed.

Lemma format2A_size : exists n, dci_format2A_sizeof cell sf cfg = Some n /\
  format2_base cell sf cfg + precoding_bits_f2a (nof_ports cell) <= n <= 80 /\ is_ambiguous_size n = false.
Proof.
  unfold dci_format2A_sizeof. pose proof format2_base_range.
  assert (0 <= precoding_bits_f2a (nof_ports cell) <= 2) by (unfold precoding_bits_f2a; zcase; lia).
  destruct (skip_ambiguous (format2_base cell sf cfg + precoding_bits_f2a (nof_ports cell))) as (n & -> & Hn & Ha).
  exists n. split_and!; (done || lia).
Qed.

Lemma format2B_size : exists n, dci_format2B_sizeof cell sf cfg = Some n /\
  format2_base cell sf cfg <= n <= 80 /\ is_ambiguous_size n = false.
Proof.
  unfold dci_format2B_sizeof. pose proof format2_base_range.
  destruct (skip_ambiguous (format2_base cell sf cfg)) as (n & -> & Hn & Ha). exists n. split_and!; (done || lia).
Qed.

Lemma format1B_size : exists n, dci_format1B_sizeof cell sf cfg = Some n /\
  dci_format0_sizeof_ cell sf cfg <= n <= 60 /\ is_ambiguous_size n = false.
Proof.
  unfold dci_format1B_sizeof. pose proof format0_size_range. pose proof (riv_nbits_bound _ Hprb). pose proof harq_len.
  assert (2 <= tpmi_bits (nof_ports cell) <= 4) by (unfold tpmi_bits; zcase; lia). bifs.
  rewrite while_incr_max by lia. cbn [mbind option_bind]. set (m := Z.max _ _).
  assert (dci_format0_sizeof_ cell sf cfg <= m <= 50) by lia. clearbody m.
  destruct (skip_ambiguous m) as (n & -> & Hn & Ha). exists n. split_and!; (done || lia).
Qed.
End sizes_facts.

(** C20: the size of every format is computed (the loops that pad and skip ambiguous
    sizes end) and fits in the payload array, for every cell of at most 110 resource blocks,
    subframe and configuration, null ones included. Formats 0 and 1A always have the same
    size, format 1 always another one, and but for format 1C no size is ambiguous. *)
Theorem format_sizes cell sf cfg :
  2 <= nof_prb cell <= SRSRAN_MAX_PRB ->
  (forall f, exists n, srsran_dci_format_sizeof cell sf cfg f = Some n /\ 0 <= n <= SRSRAN_DCI_MAX_BITS /\
     (f <> SRSRAN_DCI_FORMAT1C -> is_ambiguous_size n = false)) /\
  srsran_dci_format_sizeof cell sf cfg SRSRAN_DCI_FORMAT0 = srsran_dci_format_sizeof cell sf cfg SRSRAN_DCI_FORMAT1A /\
  srsran_dci_format_sizeof cell sf cfg SRSRAN_DCI_FORMAT1 <> srsran_dci_format_sizeof cell sf cfg SRSRAN_DCI_FORMAT1A.
Proof.
  intros Hn. assert (1 <= nof_prb cell <= SRSRAN_MAX_PRB) as Hprb by lia. unfold srsran_dci_format_sizeof.
  set (s := default _ sf). set (c := default _ cfg). clearbody s c.
  destruct (format1A_size cell s c Hprb) as (n1A & E1A & H1A & A1A). pose proof (format0_size cell s c Hprb _ E1A) as E0.
  destruct (format1_size cell s c Hprb _ E1A) as (n1 & E1 & H1 & Hne & A1).
  pose proof (format0_size_range cell s c Hprb). pose proof (format1_base_range cell s c Hprb).
  pose proof (format2_base_range cell s c Hprb). unfold SRSRAN_DCI_MAX_BITS. split_and!.
  - intros f. destruct f; cbn [format_sizeof]; try (exists 0; split_and!; done).
    + rewrite E0. exists n1A. split_and!; (done || lia).
    + rewrite E1. exists n1. split_and!; (done || lia).
    + rewrite E1A. exists n1A. split_and!; (done || lia).
    + destruct (format1B_size cell s c Hprb) as (n & -> & Hr & A). exists n. split_and!; (done || lia).
    + destruct (format1C_size cell Hprb) as (n & -> & Hr); [lia |]. exists n. split_and!; (done || lia).
    + destruct (format1B_size cell s c Hprb) as (n & E & Hr & A). exists n. split_and!; (done || lia).
    + destruct (format2_size cell s c Hprb) as (n & -> & Hr & A). exists n. split_and!; try (done || lia).
      unfold precoding_bits_f2 in Hr. destruct (nof_ports cell <=? 2); lia.
    + destruct (format2A_size cell s c Hprb) as (n & -> & Hr & A). exists n. split_and!; try (done || lia).
      unfold precoding_bits_f2a in Hr. destruct (nof_ports cell <=? 2); lia.
    + destruct (format2B_size cell s c Hprb) as (n & -> & Hr & A). exists n. split_and!; (done || lia).
  - cbn [format_sizeof]. congruence.
  - cbn [format_sizeof]. congruence.
Qed.

Definition cell_100 : srsran_cell_t := Cell 100 2 1 SRSRAN_CP_NORM SRSRAN_FDD.

Lemma format_sizes_witness :
  (forall f, exists n, srsran_dci_format_sizeof cell_100 None None f = Some n /\ 0 <= n <= SRSRAN_DCI_MAX_BITS /\
     (f <> SRSRAN_DCI_FORMAT1C -> is_ambiguous_size n = false)) /\
  srsran_dci_format_sizeof cell_100 None None SRSRAN_DCI_FORMAT0
    = srsran_dci_format_sizeof cell_100 None None SRSRAN_DCI_FORMAT1A /\
  srsran_dci_format_sizeof cell_100 None None SRSRAN_DCI_FORMAT1
    <> srsran_dci_format_sizeof cell_100 None None SRSRAN_DCI_FORMAT1A.
Proof. apply (format_sizes cell_100 None None). unfold SRSRAN_MAX_PRB. simpl. lia. Defined.

(** The sizes of a 20 MHz cell: 28 bits for formats 0 and 1A, 39 for format 1, 15 for 1C, 51 for 2. *)
Example sizes_100 : srsran_dci_format_sizeof cell_100 None None <$>
  [SRSRAN_DCI_FORMAT0; SRSRAN_DCI_FORMAT1; SRSRAN_DCI_FORMAT1A; SRSRAN_DCI_FORMAT1C; SRSRAN_DCI_FORMAT2]
  = [Some 28; Some 39; Some 28; Some 15; Some 51].
Proof. by vm_compute. Qed.
