(* ===== verification/DciPack.v ===== *)
(** * Packing and unpacking of DCI messages ([lib/src/phy/phch/dci.c])

    One function per format and direction, as in the code: the order of the fields, the
    conditions on the cell and the configuration, the reserved bits that are passed over, and
    the early returns. A message whose packing fails keeps the bits written so far. *)

From S2P Require Export DciFormat.

Open Scope dci_scope.

(** ** Random access response grants *)

Definition SRSRAN_RAR_GRANT_LEN : Z := 20.

Record srsran_dci_rar_grant_t := RarGrant {
  rar_rba : Z; rar_trunc_mcs : Z; rar_tpc_pusch : Z; rar_ul_delay : bool; rar_cqi_request : bool;
  rar_hopping_flag : bool
}.

Definition srsran_dci_rar_unpack : reader srsran_dci_rar_grant_t :=
  hop ← srsran_bit_pack 1;
  rba ← srsran_bit_pack 10;
  mcs ← srsran_bit_pack 4;
  tpc ← srsran_bit_pack 3;
  delay ← srsran_bit_pack 1;
  cqi ← srsran_bit_pack 1;
  mret (RarGrant rba mcs tpc (negb (delay =? 0)) (negb (cqi =? 0)) (negb (hop =? 0))).

Definition srsran_dci_rar_pack (rar : srsran_dci_rar_grant_t) : writer :=
  srsran_bit_unpack (Z.b2z (rar_hopping_flag rar)) 1 ;;
  srsran_bit_unpack (rar_rba rar) 10 ;;
  srsran_bit_unpack (rar_trunc_mcs rar) 4 ;;
  srsran_bit_unpack (rar_tpc_pusch rar) 3 ;;
  srsran_bit_unpack (Z.b2z (rar_ul_delay rar)) 1 ;;
  srsran_bit_unpack (Z.b2z (rar_cqi_request rar)) 1.

(** The uplink grant equivalent to a random access response. *)
Definition srsran_dci_rar_to_ul_dci (cell : srsran_cell_t) (rar : srsran_dci_rar_grant_t) : Z * srsran_dci_ul_t :=
  let dci := set_u_freq_hop_fl (if negb (rar_hopping_flag rar) then SRSRAN_RA_PUSCH_HOP_DISABLED else 1) zero_ul in
  let r := rar_rba rar in
  let r := if nof_prb cell <=? 44 then
             let b := ceilf_log2 (nof_prb cell * (nof_prb cell + 1) / 2) in Z.land r (Z.shiftl 1 (b + 1) - 1)
           else r in
  let dci := set_u_type2 (set_riv r (u_type2 dci)) dci in
  let dci := set_u_tb (DciTbInfo (rar_trunc_mcs rar) (-1) (tb_ndi (u_tb dci)) (cw_idx (u_tb dci))) dci in
  (SRSRAN_SUCCESS, set_u_dai 3 dci).

(** ** The formats *)

Section formats.
Context (cell : srsran_cell_t) (sf : srsran_dl_sf_cfg_t) (cfg : srsran_dci_cfg_t).

Abbreviation riv_len := (riv_nbits (nof_prb cell)).
Abbreviation pid_len := (HARQ_PID_LEN cell sf).

(** [srsran_dci_format_sizeof] and the padding loop. *)
Definition pad_format (f : srsran_dci_format_t) : writer := fun l y =>
  n ← format_sizeof cell sf cfg f; pad_to n l y.

(** *** Format 0 *)

(** The number of bits that hopping takes from the RIV. *)
Definition n_ul_hop (freq_hop_fl : Z) : Z :=
  if freq_hop_fl =? SRSRAN_RA_PUSCH_HOP_DISABLED then 0 else if nof_prb cell <? 50 then 1 else 2.

Definition pack_hopping (freq_hop_fl : Z) : writer :=
  if freq_hop_fl =? SRSRAN_RA_PUSCH_HOP_DISABLED then put 0
  else
    put 1 ;;
    if nof_prb cell <? 50 then put (Z.land freq_hop_fl 1)
    else put (Z.shiftr (Z.land freq_hop_fl 2) 1) ;; put (Z.land freq_hop_fl 1).

Definition dci_format0_pack (dci : srsran_dci_ul_t) : writer :=
  wwhen (u_cif_present dci) (srsran_bit_unpack (u_cif dci) 3) ;;
  put 0 ;;
  pack_hopping (u_freq_hop_fl dci) ;;
  srsran_bit_unpack (riv (u_type2 dci)) (riv_len - n_ul_hop (u_freq_hop_fl dci)) ;;
  srsran_bit_unpack (mcs_idx (u_tb dci)) 5 ;;
  put (Z.b2z (tb_ndi (u_tb dci))) ;;
  srsran_bit_unpack (u_tpc_pusch dci) 2 ;;
  srsran_bit_unpack (u_n_dmrs dci) 3 ;;
  (if multiple_csi_request_enabled cfg && negb (is_not_ue_ss cfg)
   then put (Z.b2z (u_cqi_request dci)) ;; put 0 else put (Z.b2z (u_cqi_request dci))) ;;
  wwhen (srs_request_enabled cfg && negb (is_not_ue_ss cfg))
    (put (Z.b2z (u_srs_request dci && u_srs_request_present dci))) ;;
  pad_format SRSRAN_DCI_FORMAT0.

Definition unpack_hopping (dci : srsran_dci_ul_t) : reader (Z * srsran_dci_ul_t) :=
  h ← get;
  if h =? 0 then mret (0, set_u_freq_hop_fl SRSRAN_RA_PUSCH_HOP_DISABLED dci)
  else if nof_prb cell <? 50 then b ← get; mret (1, set_u_freq_hop_fl b dci)
  else b0 ← get; b1 ← get; mret (2, set_u_freq_hop_fl (Z.lor (Z.shiftl b0 1) b1) dci).

Definition set_u_tb_mcs (x : Z) (d : srsran_dci_ul_t) : srsran_dci_ul_t :=
  set_u_tb (DciTbInfo x (tb_rv (u_tb d)) (tb_ndi (u_tb d)) (cw_idx (u_tb d))) d.
Definition set_u_tb_ndi (x : bool) (d : srsran_dci_ul_t) : srsran_dci_ul_t :=
  set_u_tb (DciTbInfo (mcs_idx (u_tb d)) (tb_rv (u_tb d)) x (cw_idx (u_tb d))) d.

Definition nonzero (b : Z) : bool := negb (b =? 0).

(** The result is the code, the message and the grant. *)
Definition dci_format0_unpack (msg : srsran_dci_msg_t) (dci : srsran_dci_ul_t)
  : reader (Z * srsran_dci_msg_t * srsran_dci_ul_t) :=
  dci ← rwhen (cif_enabled cfg) (fun dci =>
    v ← srsran_bit_pack 3; mret (set_u_cif_present true (set_u_cif v dci))) dci;
  b ← get;
  if negb (b =? 0) then mret (SRSRAN_ERROR, msg, dci)
  else
    let msg := set_m_format SRSRAN_DCI_FORMAT0 msg in
    '(n_hop, dci) ← unpack_hopping dci;
    r ← srsran_bit_pack (riv_len - n_hop);
    let dci := set_u_type2 (set_riv r (u_type2 dci)) dci in
    m ← srsran_bit_pack 5;
    b ← get;
    let dci := set_u_tb_ndi (nonzero b) (set_u_tb_mcs m dci) in
    tpc ← srsran_bit_pack 2;
    dmrs ← srsran_bit_pack 3;
    let dci := set_u_n_dmrs dmrs (set_u_tpc_pusch tpc dci) in
    dci ← (if IS_TDD_CFG0 cell sf then v ← srsran_bit_pack 2; mret (set_u_is_tdd true (set_u_ul_idx v dci))
           else if IS_TDD cell then v ← srsran_bit_pack 2; mret (set_u_is_tdd true (set_u_dai v dci))
           else mret dci);
    dci ← (if multiple_csi_request_enabled cfg && negb (is_not_ue_ss cfg)
           then v ← srsran_bit_pack 2; mret (set_u_multiple_csi_request v (set_u_multiple_csi_request_present true dci))
           else b ← get; mret (set_u_cqi_request (nonzero b) dci));
    dci ← rwhen (srs_request_enabled cfg && negb (is_not_ue_ss cfg)) (fun dci =>
      b ← get; mret (set_u_srs_request (nonzero b) (set_u_srs_request_present true dci))) dci;
    dci ← rwhen (ra_format_enabled cfg) (fun dci =>
      b ← get; mret (set_u_ra_type (Z.b2z (nonzero b)) (set_u_ra_type_present true dci))) dci;
    mret (SRSRAN_SUCCESS, msg, dci).

(** *** Resource allocation of type 0 or 1, shared by formats 1, 2, 2A and 2B *)

Definition subset_len : Z := ceilf_log2f (srsran_ra_type0_P (nof_prb cell)).

Definition pack_alloc01 (dci : srsran_dci_dl_t) : writer :=
  wwhen (10 <? nof_prb cell) (put (d_alloc_type dci)) ;;
  if d_alloc_type dci =? SRSRAN_RA_ALLOC_TYPE0 then srsran_bit_unpack (rbg_bitmask (d_alloc dci)) (alloc_size cell)
  else if d_alloc_type dci =? SRSRAN_RA_ALLOC_TYPE1 then
    srsran_bit_unpack (rbg_subset (d_alloc dci)) subset_len ;;
    put (Z.b2z (shift (d_alloc dci))) ;;
    srsran_bit_unpack (vrb_bitmask (d_alloc dci)) (alloc_size cell - subset_len - 1)
  else wfail SRSRAN_ERROR.

Definition upd_d_alloc (f : srsran_ra_type2_t -> srsran_ra_type2_t) (d : srsran_dci_dl_t) : srsran_dci_dl_t :=
  set_d_alloc (f (d_alloc d)) d.
Definition upd_d_tb0 (f : srsran_dci_tb_t -> srsran_dci_tb_t) (d : srsran_dci_dl_t) : srsran_dci_dl_t :=
  set_d_tb0 (f (d_tb0 d)) d.
Definition upd_d_tb1 (f : srsran_dci_tb_t -> srsran_dci_tb_t) (d : srsran_dci_dl_t) : srsran_dci_dl_t :=
  set_d_tb1 (f (d_tb1 d)) d.
Definition set_mcs (x : Z) (t : srsran_dci_tb_t) := DciTbInfo x (tb_rv t) (tb_ndi t) (cw_idx t).
Definition set_rv (x : Z) (t : srsran_dci_tb_t) := DciTbInfo (mcs_idx t) x (tb_ndi t) (cw_idx t).
Definition set_ndi (x : bool) (t : srsran_dci_tb_t) := DciTbInfo (mcs_idx t) (tb_rv t) x (cw_idx t).
Definition set_cw (x : Z) (t : srsran_dci_tb_t) := DciTbInfo (mcs_idx t) (tb_rv t) (tb_ndi t) x.

(** The carrier indicator every unpacking function but that of format 1C begins with. *)
Definition unpack_cif (dci : srsran_dci_dl_t) : reader srsran_dci_dl_t :=
  rwhen (cif_enabled cfg) (fun dci =>
    v ← srsran_bit_pack 3; mret (set_d_cif_present true (set_d_cif v dci))) dci.

(** [None]: another type, for which the functions return an error. *)
Definition unpack_alloc01 (dci : srsran_dci_dl_t) : reader (Z * srsran_dci_dl_t) :=
  dci ← (if 10 <? nof_prb cell then b ← get; mret (set_d_alloc_type b dci)
         else mret (set_d_alloc_type SRSRAN_RA_ALLOC_TYPE0 dci));
  if d_alloc_type dci =? SRSRAN_RA_ALLOC_TYPE0 then
    v ← srsran_bit_pack (alloc_size cell); mret (SRSRAN_SUCCESS, upd_d_alloc (set_riv v) dci)
  else if d_alloc_type dci =? SRSRAN_RA_ALLOC_TYPE1 then
    s ← srsran_bit_pack subset_len;
    b ← get;
    v ← srsran_bit_pack (alloc_size cell - subset_len - 1);
    mret (SRSRAN_SUCCESS, upd_d_alloc (set_riv v) (upd_d_alloc (set_shift (nonzero b)) (upd_d_alloc (set_n_prb1a s) dci)))
  else mret (SRSRAN_ERROR, dci).

Definition unpack_dai (dci : srsran_dci_dl_t) : reader srsran_dci_dl_t :=
  rwhen (IS_TDD cell) (fun dci => v ← srsran_bit_pack 2; mret (set_d_is_tdd true (set_d_dai v dci))) dci.

(** *** Format 1 *)

Definition dci_format1_pack (dci : srsran_dci_dl_t) : writer :=
  wwhen (d_cif_present dci) (srsran_bit_unpack (d_cif dci) 3) ;;
  pack_alloc01 dci ;;
  srsran_bit_unpack (mcs_idx (d_tb0 dci)) 5 ;;
  srsran_bit_unpack (d_pid dci) pid_len ;;
  put (Z.b2z (tb_ndi (d_tb0 dci))) ;;
  srsran_bit_unpack (tb_rv (d_tb0 dci)) 2 ;;
  srsran_bit_unpack (d_tpc_pucch dci) 2 ;;
  pad_format SRSRAN_DCI_FORMAT1.

Definition dci_format1_unpack (msg : srsran_dci_msg_t) (dci : srsran_dci_dl_t)
  : reader (Z * srsran_dci_msg_t * srsran_dci_dl_t) :=
  msg_len ← rlift (format_sizeof cell sf cfg SRSRAN_DCI_FORMAT1);
  if negb (m_nof_bits msg =? msg_len) then mret (SRSRAN_ERROR, msg, dci)
  else
    dci ← unpack_cif dci;
    '(c, dci) ← unpack_alloc01 dci;
    if negb (c =? SRSRAN_SUCCESS) then mret (c, msg, dci)
    else
      m ← srsran_bit_pack 5;
      pid ← srsran_bit_pack pid_len;
      b ← get;
      rv ← srsran_bit_pack 2;
      let dci := upd_d_tb0 (fun t => set_rv rv (set_ndi (nonzero b) (set_mcs m t))) (set_d_pid pid dci) in
      tpc ← srsran_bit_pack 2;
      dci ← unpack_dai (set_d_tpc_pucch tpc dci);
      mret (SRSRAN_SUCCESS, msg, dci).

(** *** Format 1A *)

Definition is_user (rnti : Z) : bool := SRSRAN_RNTI_ISUSER rnti.
Definition dist50 (mode : Z) : bool := (50 <=? nof_prb cell) && (mode =? SRSRAN_RA_TYPE2_DIST).

Definition dci_format1As_pack (dci : srsran_dci_dl_t) : writer :=
  let a := d_alloc dci in
  let user := is_user (d_rnti dci) in
  wwhen (d_cif_present dci) (srsran_bit_unpack (d_cif dci) 3) ;;
  put 1 ;;
  (if d_is_pdcch_order dci then
     put 0 ;;
     (fun l y => l ← for_range 0 riv_len (fun l i => zset l (y + i) 1) l; Some (0, l, y + Z.max riv_len 0)) ;;
     srsran_bit_unpack (d_preamble_idx dci) 6 ;;
     srsran_bit_unpack (d_prach_mask_idx dci) 4
   else if negb (d_alloc_type dci =? SRSRAN_RA_ALLOC_TYPE2) then wfail SRSRAN_ERROR
   else
     put (mode a) ;;
     wwhen (user && dist50 (mode a)) (put (n_gap a)) ;;
     srsran_bit_unpack (riv a) (riv_len - (if user && dist50 (mode a) then 1 else 0)) ;;
     srsran_bit_unpack (mcs_idx (d_tb0 dci)) 5 ;;
     srsran_bit_unpack (d_pid dci) pid_len ;;
     (if negb user then (if dist50 (mode a) then put (n_gap a) else wskip)
      else put (Z.b2z (tb_ndi (d_tb0 dci)))) ;;
     srsran_bit_unpack (tb_rv (d_tb0 dci)) 2 ;;
     (if user then put 0 ;; put 0 else wskip ;; put (n_prb1a a))) ;;
  pad_format SRSRAN_DCI_FORMAT1A.

(** [while (i < n && y[i] == v) i++;] from [i], with [y] at [at]: the array bounds it. *)
Fixpoint scan_while (fuel : nat) (l : list Z) (at_ n v i : Z) : option Z :=
  if i <? n then
    b ← zget l (at_ + i);
    if b =? v then match fuel with O => None | S k => scan_while k l at_ n v (i + 1) end else Some i
  else Some i.

(** The test for a PDCCH order, which does not move [y]. [m_nof_bits - 1] is unsigned. *)
Definition is_order (msg : srsran_dci_msg_t) : reader bool := fun l y =>
  b ← zget l y;
  if b =? 0 then
    i ← scan_while 128 l (y + 1) riv_len 1 0;
    if i =? riv_len then
      let last := u32 (m_nof_bits msg - 1) in
      i ← scan_while 128 l y last 0 (1 + 10 + riv_len);
      Some (i =? last, y)
    else Some (false, y)
  else Some (false, y).

Definition dci_format1As_unpack (msg : srsran_dci_msg_t) (dci : srsran_dci_dl_t)
  : reader (Z * srsran_dci_msg_t * srsran_dci_dl_t) :=
  dci ← unpack_cif dci;
  b ← get;
  if negb (b =? 1) then mret (SRSRAN_ERROR, msg, dci)
  else
    let msg := set_m_format SRSRAN_DCI_FORMAT1A msg in
    order ← is_order msg;
    if order : bool then
      _ ← radvance (1 + riv_len);
      p ← srsran_bit_pack 6;
      k ← srsran_bit_pack 4;
      mret (SRSRAN_SUCCESS, msg, set_d_prach_mask_idx k (set_d_preamble_idx p (set_d_is_pdcch_order true dci)))
    else
      let user := is_user (m_rnti msg) in
      let dci := set_d_alloc_type SRSRAN_RA_ALLOC_TYPE2 (set_d_is_pdcch_order false dci) in
      md ← get;
      let dci := upd_d_alloc (fun a => set_n_gap SRSRAN_RA_TYPE2_NG1 (set_mode md a)) dci in
      dci ← rwhen (user && dist50 md) (fun dci => g ← get; mret (upd_d_alloc (set_n_gap g) dci)) dci;
      r ← srsran_bit_pack (riv_len - (if user && dist50 md then 1 else 0));
      m ← srsran_bit_pack 5;
      pid ← srsran_bit_pack pid_len;
      let dci := set_d_pid pid (upd_d_tb0 (set_mcs m) (upd_d_alloc (set_riv r) dci)) in
      dci ← (if negb user then
               if dist50 md then g ← get; mret (upd_d_alloc (set_n_gap g) dci) else _ ← rskip; mret dci
             else b ← get; mret (upd_d_tb0 (set_ndi (nonzero b)) dci));
      rv ← srsran_bit_pack 2;
      let dci := upd_d_tb0 (set_rv rv) dci in
      dci ← (if user then _ ← rskip; _ ← rskip; mret dci
             else _ ← rskip; b ← get; mret (upd_d_alloc (set_n_prb1a b) dci));
      dci ← unpack_dai dci;
      mret (SRSRAN_SUCCESS, msg, dci).

(** *** Formats 1B and 1D, which differ in their last bit *)

Definition unpack_1BD (last : bool -> srsran_dci_dl_t -> srsran_dci_dl_t) (msg : srsran_dci_msg_t) (dci : srsran_dci_dl_t)
  : reader (Z * srsran_dci_msg_t * srsran_dci_dl_t) :=
  dci ← unpack_cif dci;
  md ← get;
  let dci := upd_d_alloc (fun a => set_n_gap SRSRAN_RA_TYPE2_NG1 (set_mode md a)) (set_d_alloc_type SRSRAN_RA_ALLOC_TYPE2 dci) in
  dci ← rwhen (dist50 md) (fun dci => g ← get; mret (upd_d_alloc (set_n_gap g) dci)) dci;
  r ← srsran_bit_pack (riv_len - (if dist50 md then 1 else 0));
  m ← srsran_bit_pack 5;
  pid ← srsran_bit_pack pid_len;
  b ← get;
  rv ← srsran_bit_pack 2;
  let dci := upd_d_tb0 (fun t => set_rv rv (set_ndi (nonzero b) (set_mcs m t)))
    (set_d_pid pid (upd_d_alloc (set_riv r) dci)) in
  tpc ← srsran_bit_pack 2;
  dci ← unpack_dai (set_d_tpc_pucch tpc dci);
  p ← srsran_bit_pack (tpmi_bits (nof_ports cell));
  b ← get;
  mret (SRSRAN_SUCCESS, msg, last (nonzero b) (set_d_pinfo p dci)).

Definition dci_format1B_unpack := unpack_1BD set_d_pconf.
Definition dci_format1D_unpack := unpack_1BD set_d_power_offset.

(** *** Format 1C *)

(** The bits of the RIV, which depend on the gap. *)
Definition riv_len_1C (n_gap : Z) : option Z :=
  v ← srsran_ra_type2_n_vrb_dl (nof_prb cell) (n_gap =? SRSRAN_RA_TYPE2_NG1);
  Some (riv_nbits (v / srsran_ra_type2_n_rb_step (nof_prb cell))).

Definition dci_format1Cs_pack (dci : srsran_dci_dl_t) : writer :=
  wwhen (d_cif_present dci) (srsran_bit_unpack (d_cif dci) 3) ;;
  if negb (d_alloc_type dci =? SRSRAN_RA_ALLOC_TYPE2) || negb (mode (d_alloc dci) =? SRSRAN_RA_TYPE2_DIST)
  then wfail SRSRAN_ERROR
  else
    wwhen (50 <=? nof_prb cell) (put (n_gap (d_alloc dci))) ;;
    (fun l y => n ← riv_len_1C (n_gap (d_alloc dci)); srsran_bit_unpack (riv (d_alloc dci)) n l y) ;;
    srsran_bit_unpack (mcs_idx (d_tb0 dci)) 5.

(** The code ends by setting the number of bits of the message to those it has read. *)
Definition dci_format1Cs_unpack (msg : srsran_dci_msg_t) (dci : srsran_dci_dl_t)
  : reader (Z * srsran_dci_msg_t * srsran_dci_dl_t) :=
  msg_len ← rlift (format_sizeof cell sf cfg SRSRAN_DCI_FORMAT1C);
  if negb (m_nof_bits msg =? msg_len) then mret (SRSRAN_ERROR, msg, dci)
  else
    let dci := upd_d_alloc (set_mode SRSRAN_RA_TYPE2_DIST) (set_d_alloc_type SRSRAN_RA_ALLOC_TYPE2 dci) in
    dci ← rwhen (50 <=? nof_prb cell) (fun dci => g ← get; mret (upd_d_alloc (set_n_gap g) dci)) dci;
    n ← rlift (riv_len_1C (n_gap (d_alloc dci)));
    r ← srsran_bit_pack n;
    m ← srsran_bit_pack 5;
    y ← rpos;
    mret (SRSRAN_SUCCESS, set_m_nof_bits y msg, upd_d_tb0 (fun t => set_rv (-1) (set_mcs m t)) (upd_d_alloc (set_riv r) dci)).

(** *** Formats 2, 2A and 2B *)

Definition is_2B (f : srsran_dci_format_t) : bool := bool_decide (f = SRSRAN_DCI_FORMAT2B).

(** Bits of the precoding information; 2B has none. *)
Definition precoding_len (f : srsran_dci_format_t) : Z :=
  match f with
  | SRSRAN_DCI_FORMAT2 => precoding_bits_f2 (nof_ports cell)
  | SRSRAN_DCI_FORMAT2A => precoding_bits_f2a (nof_ports cell)
  | _ => 0
  end.

Definition pack_tb (t : srsran_dci_tb_t) : writer :=
  srsran_bit_unpack (mcs_idx t) 5 ;; put (Z.b2z (tb_ndi t)) ;; srsran_bit_unpack (tb_rv t) 2.

Definition dci_format2AB_pack (f : srsran_dci_format_t) (dci : srsran_dci_dl_t) : writer :=
  wwhen (d_cif_present dci) (srsran_bit_unpack (d_cif dci) 3) ;;
  pack_alloc01 dci ;;
  srsran_bit_unpack (d_tpc_pucch dci) 2 ;;
  srsran_bit_unpack (d_pid dci) pid_len ;;
  put (Z.b2z (if is_2B f then d_sram_id dci else d_tb_cw_swap dci)) ;;
  pack_tb (d_tb0 dci) ;;
  pack_tb (d_tb1 dci) ;;
  srsran_bit_unpack (d_pinfo dci) (precoding_len f) ;;
  pad_format f.

Definition unpack_tb (t : srsran_dci_tb_t) : reader srsran_dci_tb_t :=
  m ← srsran_bit_pack 5; b ← get; rv ← srsran_bit_pack 2; mret (set_rv rv (set_ndi (nonzero b) (set_mcs m t))).

(** The codeword of each transport block: swapped or not when both are enabled. *)
Definition codewords (dci : srsran_dci_dl_t) : srsran_dci_dl_t :=
  let nof_tb := Z.b2z (SRSRAN_DCI_IS_TB_EN (d_tb0 dci)) + Z.b2z (SRSRAN_DCI_IS_TB_EN (d_tb1 dci)) in
  let cw i := if nof_tb =? 2 then (Z.b2z (d_tb_cw_swap dci) + i) mod nof_tb else 0 in
  upd_d_tb1 (set_cw (cw 1)) (upd_d_tb0 (set_cw (cw 0)) dci).

Definition dci_format2AB_unpack (msg : srsran_dci_msg_t) (dci : srsran_dci_dl_t)
  : reader (Z * srsran_dci_msg_t * srsran_dci_dl_t) :=
  dci ← unpack_cif dci;
  '(c, dci) ← unpack_alloc01 dci;
  if negb (c =? SRSRAN_SUCCESS) then mret (c, msg, dci)
  else
    tpc ← srsran_bit_pack 2;
    dci ← unpack_dai (set_d_tpc_pucch tpc dci);
    pid ← srsran_bit_pack pid_len;
    b ← get;
    let dci := (if is_2B (m_format msg) then set_d_sram_id (nonzero b) else set_d_tb_cw_swap (nonzero b)) (set_d_pid pid dci) in
    t0 ← unpack_tb (d_tb0 dci);
    let dci := set_d_tb0 t0 dci in
    t1 ← unpack_tb (d_tb1 dci);
    let dci := set_d_tb1 t1 dci in
    dci ← (match m_format msg with
           | SRSRAN_DCI_FORMAT2 | SRSRAN_DCI_FORMAT2A =>
               p ← srsran_bit_pack (precoding_len (m_format msg)); mret (set_d_pinfo p dci)
           | _ => mret dci
           end);
    mret (SRSRAN_SUCCESS, msg, codewords dci).
End formats.

(** ** Messages

    A null configuration stands for a cleared one. The number of bits is set by the packing
    functions that succeed. *)

(** A packing function run on a message from its start. *)
Definition run_pack (w : writer) (msg : srsran_dci_msg_t) : option (Z * srsran_dci_msg_t) :=
  '(c, l, y) ← w (m_payload msg) 0;
  let msg := set_m_payload l msg in
  Some (c, if c =? SRSRAN_SUCCESS then set_m_nof_bits y msg else msg).

Definition run_unpack {A} (r : reader A) (msg : srsran_dci_msg_t) : option A := fst <$> r (m_payload msg) 0.

Definition start_msg (rnti : Z) (loc : srsran_dci_location_t) (f : srsran_dci_format_t) (msg : srsran_dci_msg_t)
  : srsran_dci_msg_t :=
  DciMessage (m_payload msg) (m_nof_bits msg) loc f rnti (m_decode_prob msg) (m_corr msg).

Definition srsran_dci_msg_pack_pdsch (cell : srsran_cell_t) (sf : srsran_dl_sf_cfg_t) (cfg : option srsran_dci_cfg_t)
    (dci : srsran_dci_dl_t) (msg : srsran_dci_msg_t) : option (Z * srsran_dci_msg_t) :=
  let msg := start_msg (d_rnti dci) (d_location dci) (d_format dci) msg in
  let cfg := default zero_dci_cfg cfg in
  match m_format msg with
  | SRSRAN_DCI_FORMAT1 => run_pack (dci_format1_pack cell sf cfg dci) msg
  | SRSRAN_DCI_FORMAT1A => run_pack (dci_format1As_pack cell sf cfg dci) msg
  | SRSRAN_DCI_FORMAT1C => run_pack (dci_format1Cs_pack cell dci) msg
  | SRSRAN_DCI_FORMAT2 | SRSRAN_DCI_FORMAT2A | SRSRAN_DCI_FORMAT2B =>
      run_pack (dci_format2AB_pack cell sf cfg (m_format msg) dci) msg
  | _ => Some (SRSRAN_ERROR, msg)
  end.

(** The result: the code, the message (whose format and length may change) and the DCI. *)
Definition srsran_dci_msg_unpack_pdsch (cell : srsran_cell_t) (sf : srsran_dl_sf_cfg_t) (cfg : option srsran_dci_cfg_t)
    (msg : srsran_dci_msg_t) : option (Z * srsran_dci_msg_t * srsran_dci_dl_t) :=
  let dci := upd_d_tb1 SRSRAN_DCI_TB_DISABLE zero_dl in
  let dci := set_d_format (m_format msg) (set_d_location (m_location msg) (set_d_rnti (m_rnti msg) dci)) in
  let cfg := default zero_dci_cfg cfg in
  dwpts ← (if IS_TDD cell then
             t ← srsran_sfidx_tdd_type (tdd_config sf) (tti sf mod 10); Some (bool_decide (t = SRSRAN_TDD_SF_S))
           else Some false);
  let dci := set_d_is_dwpts dwpts dci in
  match m_format msg with
  | SRSRAN_DCI_FORMAT1 => run_unpack (dci_format1_unpack cell sf cfg msg dci) msg
  | SRSRAN_DCI_FORMAT1A => run_unpack (dci_format1As_unpack cell sf cfg msg dci) msg
  | SRSRAN_DCI_FORMAT1B => run_unpack (dci_format1B_unpack cell sf cfg msg dci) msg
  | SRSRAN_DCI_FORMAT1C => run_unpack (dci_format1Cs_unpack cell sf cfg msg dci) msg
  | SRSRAN_DCI_FORMAT1D => run_unpack (dci_format1D_unpack cell sf cfg msg dci) msg
  | SRSRAN_DCI_FORMAT2 | SRSRAN_DCI_FORMAT2A | SRSRAN_DCI_FORMAT2B =>
      run_unpack (dci_format2AB_unpack cell sf cfg msg dci) msg
  | _ => Some (SRSRAN_ERROR, msg, dci)
  end.

Definition srsran_dci_msg_pack_pusch (cell : srsran_cell_t) (sf : srsran_dl_sf_cfg_t) (cfg : option srsran_dci_cfg_t)
    (dci : srsran_dci_ul_t) (msg : srsran_dci_msg_t) : option (Z * srsran_dci_msg_t) :=
  run_pack (dci_format0_pack cell sf (default zero_dci_cfg cfg) dci)
    (start_msg (u_rnti dci) (u_location dci) (u_format dci) msg).

Definition srsran_dci_msg_unpack_pusch (cell : srsran_cell_t) (sf : srsran_dl_sf_cfg_t) (cfg : option srsran_dci_cfg_t)
    (msg : srsran_dci_msg_t) : option (Z * srsran_dci_msg_t * srsran_dci_ul_t) :=
  let dci := set_u_format (m_format msg) (set_u_location (m_location msg) (set_u_rnti (m_rnti msg) zero_ul)) in
  run_unpack (dci_format0_unpack cell sf (default zero_dci_cfg cfg) msg dci) msg.
