(* ===== verification/DciRoundtrip.v ===== *)
(** * DCI messages: what survives packing and unpacking

    For every format the code can both pack and unpack, in FDD cells: the shape of the
    payload, the writer that emits it and the reader that takes it back, and from the two the
    round trip through a message. [carried_ul] and [carried_dl] say which fields a message
    carries; the others come back cleared. *)

From S2P Require Export DciPack.

Open Scope dci_scope.

(** ** Random access response grants *)

Definition rar_shape (rar : srsran_dci_rar_grant_t) : cells :=
  field 1 (Z.b2z (rar_hopping_flag rar)) ++ field 10 (rar_rba rar) ++ field 4 (rar_trunc_mcs rar)
  ++ field 3 (rar_tpc_pusch rar) ++ field 1 (Z.b2z (rar_ul_delay rar)) ++ field 1 (Z.b2z (rar_cqi_request rar)).

Lemma b2z_range b : 0 <= Z.b2z b < 2 ^ 1.
Proof. by destruct b. Qed.
#[export] Hint Resolve b2z_range : takes.

Lemma nonzero_b2z b : nonzero (Z.b2z b) = b.
Proof. by destruct b. Qed.

Lemma rar_emits rar : emits (srsran_dci_rar_pack rar) (rar_shape rar).
Proof. unfold srsran_dci_rar_pack, rar_shape. eauto 20 with emits. Qed.

Record rar_in_range (rar : srsran_dci_rar_grant_t) : Prop := RarInRange {
  rr_rba : 0 <= rar_rba rar < 2 ^ 10;
  rr_mcs : 0 <= rar_trunc_mcs rar < 2 ^ 4;
  rr_tpc : 0 <= rar_tpc_pusch rar < 2 ^ 3
}.

Lemma rar_takes rar : rar_in_range rar -> takes srsran_dci_rar_unpack rar (rar_shape rar).
Proof.
  intros [H1 H2 H3]. unfold srsran_dci_rar_unpack, rar_shape. rewrite <- (app_nil_r (field 1 (Z.b2z (rar_cqi_request rar)))).
  do 6 takes_step. destruct rar as [rba mcs tpc [] [] []]; apply takes_ret.
Qed.

(** A grant of a random access response packed into its twenty bits unpacks to itself,
    and packing never leaves the array. *)
Theorem rar_roundtrip rar pay :
  rar_in_range rar -> zlen pay = SRSRAN_RAR_GRANT_LEN ->
  exists pay', srsran_dci_rar_pack rar pay 0 = Some (0, pay', SRSRAN_RAR_GRANT_LEN) /\
    srsran_dci_rar_unpack pay' 0 = Some (rar, SRSRAN_RAR_GRANT_LEN).
Proof.
  intros Hr Hl. exists (written (rar_shape rar ++ []) pay).
  assert (zlen (rar_shape rar) = SRSRAN_RAR_GRANT_LEN) as Hz by done. rewrite app_nil_r at 1. split.
  - rewrite (emits_written _ _ pay (rar_emits rar)) by (rewrite Hz; lia). by rewrite Hz.
  - rewrite (takes_written _ rar (rar_shape rar) []); [by rewrite Hz | by apply rar_takes | rewrite app_nil_r, Hz; lia].
Qed.

Lemma rar_roundtrip_witness :
  exists pay', srsran_dci_rar_pack (RarGrant 513 7 3 true false false) (replicate 20 0) 0 = Some (0, pay', SRSRAN_RAR_GRANT_LEN) /\
    srsran_dci_rar_unpack pay' 0 = Some (RarGrant 513 7 3 true false false, SRSRAN_RAR_GRANT_LEN).
Proof. apply (rar_roundtrip (RarGrant 513 7 3 true false false) (replicate 20 0)); [by split; simpl; lia | done]. Defined.

(** ** Shapes of the formats *)

Definition ocells (b : bool) (f : cells) : cells := if b then f else [].

Section shapes.
Context (cell : srsran_cell_t) (sf : srsran_dl_sf_cfg_t) (cfg : srsran_dci_cfg_t).
Hypothesis Hprb : 1 <= nof_prb cell <= SRSRAN_MAX_PRB.
Hypothesis Hfdd : frame_type cell = SRSRAN_FDD.

Lemma not_tdd : IS_TDD cell = false.
Proof. unfold IS_TDD. by rewrite Hfdd. Qed.
Lemma not_tdd_cfg0 : IS_TDD_CFG0 cell sf = false.
Proof. unfold IS_TDD_CFG0. by rewrite not_tdd. Qed.
Lemma fdd_pid_len : HARQ_PID_LEN cell sf = 3.
Proof. unfold HARQ_PID_LEN. by rewrite not_tdd, not_tdd_cfg0. Qed.

Definition multi_csi : bool := multiple_csi_request_enabled cfg && negb (is_not_ue_ss cfg).
Definition with_srs : bool := srs_request_enabled cfg && negb (is_not_ue_ss cfg).

(** *** Format 0 *)

Definition hop_shape (h : Z) : cells :=
  if h =? -1 then flag false
  else flag true ++ (if nof_prb cell <? 50 then flag (Z.testbit h 0) else flag (Z.testbit h 1) ++ flag (Z.testbit h 0)).

Definition format0_shape (d : srsran_dci_ul_t) : cells :=
  ocells (u_cif_present d) (field 3 (u_cif d)) ++ flag false ++ hop_shape (u_freq_hop_fl d)
  ++ field (riv_nbits (nof_prb cell) - n_ul_hop cell (u_freq_hop_fl d)) (riv (u_type2 d))
  ++ field 5 (mcs_idx (u_tb d)) ++ flag (tb_ndi (u_tb d)) ++ field 2 (u_tpc_pusch d) ++ field 3 (u_n_dmrs d)
  ++ (if multi_csi then flag (u_cqi_request d) ++ flag false else flag (u_cqi_request d))
  ++ ocells with_srs (flag (u_srs_request d && u_srs_request_present d)).

Record ul_in_range (d : srsran_dci_ul_t) : Prop := UlInRange {
  ur_cif_present : u_cif_present d = cif_enabled cfg;
  ur_cif : 0 <= u_cif d < 2 ^ 3;
  ur_hop : -1 <= u_freq_hop_fl d < (if nof_prb cell <? 50 then 2 else 4);
  ur_riv : 0 <= riv (u_type2 d) < 2 ^ (riv_nbits (nof_prb cell) - n_ul_hop cell (u_freq_hop_fl d));
  ur_riv_len : n_ul_hop cell (u_freq_hop_fl d) <= riv_nbits (nof_prb cell);
  ur_mcs : 0 <= mcs_idx (u_tb d) < 2 ^ 5;
  ur_tpc : 0 <= u_tpc_pusch d < 2 ^ 2;
  ur_dmrs : 0 <= u_n_dmrs d < 2 ^ 3
}.

(** What a message of format 0 carries of a grant: with a two-bit CSI request the CQI
    request comes back as its high bit, and a release 10 allocation type is always 0. *)
Definition carried_ul (d : srsran_dci_ul_t) : srsran_dci_ul_t :=
  DciUl (u_rnti d) (u_format d) (u_location d) 0 (Type2 (riv (u_type2 d)) 0 0 0) (u_freq_hop_fl d)
    (DciTbInfo (mcs_idx (u_tb d)) 0 (tb_ndi (u_tb d)) 0) (u_n_dmrs d)
    (if multi_csi then false else u_cqi_request d) 0 0 false (u_tpc_pusch d)
    (if cif_enabled cfg then u_cif d else 0) (cif_enabled cfg)
    (if multi_csi then 2 * Z.b2z (u_cqi_request d) else 0) multi_csi
    (with_srs && u_srs_request d && u_srs_request_present d) with_srs 0 (ra_format_enabled cfg).

Lemma hop_range h : 0 <= n_ul_hop cell h <= 2.
Proof. unfold n_ul_hop. destruct (h =? _), (nof_prb cell <? 50); lia. Qed.

Lemma zlen_hop h : zlen (hop_shape h) = 1 + n_ul_hop cell h.
Proof. unfold hop_shape, n_ul_hop, SRSRAN_RA_PUSCH_HOP_DISABLED. by destruct (h =? -1), (nof_prb cell <? 50). Qed.

Lemma hop_emits h : emits (pack_hopping cell h) (hop_shape h).
Proof.
  unfold pack_hopping, hop_shape, SRSRAN_RA_PUSCH_HOP_DISABLED. destruct (h =? -1); [apply (put_flag_emits false) |].
  apply emits_seq; [apply (put_flag_emits true) |]. rewrite (land_1 h). destruct (nof_prb cell <? 50); [apply put_flag_emits |].
  apply emits_seq; [| apply put_flag_emits].
  assert (Z.shiftr (Z.land h 2) 1 = Z.b2z (Z.testbit h 1)) as ->; [| apply put_flag_emits].
  rewrite Z.shiftr_land. change (Z.shiftr 2 1) with 1. rewrite land_1, Z.shiftr_spec by done. done.
Qed.

Lemma hop_takes d h :
  -1 <= h < (if nof_prb cell <? 50 then 2 else 4) ->
  takes (unpack_hopping cell d) (n_ul_hop cell h, set_u_freq_hop_fl h d) (hop_shape h).
Proof.
  intros Hh. unfold unpack_hopping, hop_shape, n_ul_hop, SRSRAN_RA_PUSCH_HOP_DISABLED.
  destruct (Z.eqb_spec h (-1)) as [-> | Hne].
  - rewrite <- (app_nil_r (flag false)). takes_step. apply takes_ret.
  - takes_step. cbn [Z.b2z Z.eqb]. destruct (nof_prb cell <? 50).
    + rewrite <- (app_nil_r (flag _)). takes_step.
      assert (Z.b2z (Z.testbit h 0) = h) as ->; [| apply takes_ret].
      assert (h = 0 \/ h = 1) as [-> | ->] by lia; done.
    + rewrite <- (app_nil_r (flag (Z.testbit h 0))). do 2 takes_step.
      assert (Z.lor (Z.shiftl (Z.b2z (Z.testbit h 1)) 1) (Z.b2z (Z.testbit h 0)) = h) as ->; [| apply takes_ret].
      assert (h = 0 \/ h = 1 \/ h = 2 \/ h = 3) as [-> | [-> | [-> | ->]]] by lia; done.
Qed.

Lemma emits_csi b q : emits (if b : bool then (put (Z.b2z q) ;; put 0) else put (Z.b2z q)) (if b then flag q ++ flag false else flag q).
Proof. destruct b; [| apply put_flag_emits]. apply emits_seq; [apply put_flag_emits | apply (put_flag_emits false)]. Qed.

Hint Resolve hop_emits emits_csi : emits.

Lemma ends_format f n : format_sizeof cell sf cfg f = Some n -> ends (pad_format cell sf cfg f) [] n.
Proof. intros E pre old post. unfold pad_format. rewrite E. apply ends_pad. Qed.

Lemma zlen_flag b : zlen (flag b) = 1.
Proof. done. Qed.

Lemma zlen_ocells b f : zlen (ocells b f) = if b then zlen f else 0.
Proof. by destruct b. Qed.

Lemma zlen_format0 d : ul_in_range d ->
  zlen (format0_shape d) = dci_format0_sizeof_ cell sf cfg - 1.
Proof.
  intros [Hp _ _ _ Hl _ _ _]. pose proof (hop_range (u_freq_hop_fl d)). unfold format0_shape, dci_format0_sizeof_.
  rewrite not_tdd, not_tdd_cfg0. rewrite !zlen_app, !zlen_ocells, !zlen_flag, zlen_hop, !zlen_field by lia.
  rewrite Hp. fold multi_csi with_srs. destruct (cif_enabled cfg), multi_csi, with_srs; cbn [bif orb]; rewrite ?zlen_app, ?zlen_flag; lia.
Qed.

Lemma format0_ends d n : ul_in_range d -> format_sizeof cell sf cfg SRSRAN_DCI_FORMAT0 = Some n ->
  ends (dci_format0_pack cell sf cfg d) (format0_shape d) n.
Proof.
  intros [Hp _ _ _ Hl _ _ _] E. pose proof (hop_range (u_freq_hop_fl d)). pose proof (riv_nbits_bound _ Hprb).
  unfold dci_format0_pack, format0_shape. fold multi_csi with_srs.
  do 9 (apply ends_seq; [eauto with emits |]).
  rewrite <- (app_nil_r (ocells _ _)). apply ends_seq; [apply emits_when, put_flag_emits | by apply ends_format].
Qed.

Lemma multi_csi_bits q : takes (srsran_bit_pack 2) (2 * Z.b2z q) (flag q ++ flag false).
Proof. assert (flag q ++ flag false = field 2 (2 * Z.b2z q)) as -> by (by destruct q). destruct q; by apply takes_bits_small. Qed.

(** The reader takes the fields and, for the allocation type of release 10, one padding bit. *)
Lemma format0_takes d msg : ul_in_range d ->
  takes (dci_format0_unpack cell sf cfg msg (set_u_format (u_format d) (set_u_location (u_location d) (set_u_rnti (u_rnti d) zero_ul))))
    (SRSRAN_SUCCESS, set_m_format SRSRAN_DCI_FORMAT0 msg, carried_ul d)
    (format0_shape d ++ ocells (ra_format_enabled cfg) (flag false)).
Proof.
  intros [Hp Hc Hh Hr Hl Hm Ht Hd]. pose proof (hop_range (u_freq_hop_fl d)). pose proof (riv_nbits_bound _ Hprb).
  unfold dci_format0_unpack, format0_shape. rewrite Hp, not_tdd, not_tdd_cfg0. fold multi_csi with_srs.
  rewrite <- !app_assoc.
  eapply takes_bind; [apply takes_when; intros _; takes_step; apply takes_ret |].
  takes_step. cbn [Z.b2z Z.eqb negb]. eapply takes_bind; [by apply hop_takes |].
  do 5 takes_step. rewrite nonzero_b2z.
  eapply takes_bind_nil; [apply takes_ret |].
  eapply takes_bind.
  { instantiate (1 := if multi_csi then _ else _). destruct multi_csi.
    - eapply takes_last; [apply multi_csi_bits | apply takes_ret].
    - takes_step. rewrite nonzero_b2z. apply takes_ret. }
  eapply takes_bind; [apply takes_when; intros _; takes_step; apply takes_ret |].
  eapply takes_last; [apply takes_when; intros _; takes_step; apply takes_ret |].
  apply takes_ret_eq. f_equal. unfold carried_ul. rewrite !nonzero_b2z.
  by destruct (cif_enabled cfg), multi_csi, with_srs, (ra_format_enabled cfg).
Qed.
(** *** Downlink formats *)

(** A byte that is written as it is. *)
Definition byte (v : Z) : cells := [Some v].

Definition alloc01_shape (d : srsran_dci_dl_t) : cells :=
  ocells (10 <? nof_prb cell) (byte (d_alloc_type d)) ++
  if d_alloc_type d =? 0 then field (alloc_size cell) (riv (d_alloc d))
  else field (subset_len cell) (n_prb1a (d_alloc d)) ++ flag (shift (d_alloc d))
       ++ field (alloc_size cell - subset_len cell - 1) (riv (d_alloc d)).

(** An allocation of type 0 or 1 the cell has the bits for. *)
Definition alloc01_in_range (d : srsran_dci_dl_t) : Prop :=
  (d_alloc_type d = 0 /\ 0 <= riv (d_alloc d) < 2 ^ alloc_size cell) \/
  (d_alloc_type d = 1 /\ 10 < nof_prb cell /\ 0 <= n_prb1a (d_alloc d) < 2 ^ subset_len cell /\
   0 <= riv (d_alloc d) < 2 ^ (alloc_size cell - subset_len cell - 1)).

Definition alloc01_len : Z := (if 10 <? nof_prb cell then 1 else 0) + alloc_size cell.

(** The union of an allocation of type 0 or 1. *)
Definition carried_alloc01 (d : srsran_dci_dl_t) : srsran_ra_type2_t :=
  if d_alloc_type d =? 0 then Type2 (riv (d_alloc d)) 0 0 0
  else Type2 (riv (d_alloc d)) (n_prb1a (d_alloc d)) (Z.b2z (shift (d_alloc d))) 0.

Lemma subset_len_range : 0 <= subset_len cell <= 2 /\ (10 < nof_prb cell -> subset_len cell + 1 <= alloc_size cell).
Proof.
  unfold subset_len, alloc_size, ceilf_quot, srsran_ra_type0_P, SRSRAN_MAX_PRB in *.
  change (ceilf_log2f 1) with 0. destruct (Z.leb_spec (nof_prb cell) 10); [change (ceilf_log2f 1) with 0; lia |].
  destruct (Z.leb_spec (nof_prb cell) 26); [change (ceilf_log2f 2) with 1; lia |].
  destruct (Z.leb_spec (nof_prb cell) 63); [change (ceilf_log2f 3) with 2 | change (ceilf_log2f 4) with 2]; lia.
Qed.

Lemma zlen_alloc01 d : alloc01_in_range d -> zlen (alloc01_shape d) = alloc01_len.
Proof.
  pose proof subset_len_range as [Hs Ha]. pose proof (alloc_size_range cell Hprb).
  unfold alloc01_shape, alloc01_len. rewrite zlen_app, zlen_ocells. intros [[-> _] | (-> & H10 & _)]; cbn [Z.eqb].
  - rewrite zlen_field by lia. done.
  - rewrite !zlen_app, !zlen_field, zlen_flag by lia. zcase; [| lia]. change (zlen (byte 1)) with 1. lia.
Qed.

Lemma alloc01_emits d : alloc01_in_range d -> emits (pack_alloc01 cell d) (alloc01_shape d).
Proof.
  pose proof subset_len_range as [Hs Ha]. pose proof (alloc_size_range cell Hprb).
  intros Hr. unfold pack_alloc01, alloc01_shape, SRSRAN_RA_ALLOC_TYPE0, SRSRAN_RA_ALLOC_TYPE1.
  apply emits_seq; [apply emits_when, emits_put; destruct Hr as [[-> _] | [-> _]]; done |].
  destruct Hr as [[-> _] | (-> & H10 & _)]; cbn [Z.eqb Pos.eqb]; [apply emits_bits; lia |].
  specialize (Ha H10). eauto with emits.
Qed.

Lemma alloc01_takes d d0 : alloc01_in_range d -> d_alloc d0 = zero_type2 ->
  takes (unpack_alloc01 cell d0) (SRSRAN_SUCCESS, set_d_alloc (carried_alloc01 d) (set_d_alloc_type (d_alloc_type d) d0))
    (alloc01_shape d).
Proof.
  pose proof subset_len_range as [Hs Ha]. pose proof (alloc_size_range cell Hprb).
  intros Hr Hz. unfold unpack_alloc01, alloc01_shape, SRSRAN_RA_ALLOC_TYPE0, SRSRAN_RA_ALLOC_TYPE1.
  eapply (takes_bind _ _ (set_d_alloc_type (d_alloc_type d) d0)).
  { unfold ocells. destruct (Z.ltb_spec 10 (nof_prb cell)); [takes_step; apply takes_ret |].
    apply takes_ret_eq. by destruct Hr as [[-> _] | (_ & ? & _)]; [| lia]. }
  change (d_alloc_type (set_d_alloc_type (d_alloc_type d) d0)) with (d_alloc_type d). unfold carried_alloc01.
  destruct Hr as [[-> Hriv] | (-> & H10 & Hsub & Hriv)]; cbn [Z.eqb Pos.eqb].
  - takes_step. apply takes_ret_eq. unfold upd_d_alloc. cbn. by rewrite Hz.
  - specialize (Ha H10). do 3 takes_step. apply takes_ret_eq. unfold upd_d_alloc. cbn. rewrite Hz, nonzero_b2z. done.
Qed.

(** *** Format 1 *)

Definition format1_shape (d : srsran_dci_dl_t) : cells :=
  ocells (d_cif_present d) (field 3 (d_cif d)) ++ alloc01_shape d ++ field 5 (mcs_idx (d_tb0 d)) ++ field 3 (d_pid d)
  ++ flag (tb_ndi (d_tb0 d)) ++ field 2 (tb_rv (d_tb0 d)) ++ field 2 (d_tpc_pucch d).

(** The ranges formats 1, 1A, 2, 2A and 2B share. *)
Record dl_in_range (d : srsran_dci_dl_t) : Prop := DlInRange {
  dr_cif_present : d_cif_present d = cif_enabled cfg;
  dr_cif : 0 <= d_cif d < 2 ^ 3;
  dr_mcs : 0 <= mcs_idx (d_tb0 d) < 2 ^ 5;
  dr_rv : 0 <= tb_rv (d_tb0 d) < 2 ^ 2;
  dr_pid : 0 <= d_pid d < 2 ^ 3;
  dr_tpc : 0 <= d_tpc_pucch d < 2 ^ 2
}.

(** The message header and the carrier indicator, with the second block disabled. *)
Definition carried_head (d : srsran_dci_dl_t) : srsran_dci_dl_t :=
  let z := set_d_tb1 (DciTbInfo 0 1 false 0) zero_dl in
  let z := set_d_format (d_format d) (set_d_location (d_location d) (set_d_rnti (d_rnti d) z)) in
  if cif_enabled cfg then set_d_cif_present true (set_d_cif (d_cif d) z) else z.

Definition carried_1 (d : srsran_dci_dl_t) : srsran_dci_dl_t :=
  let t := d_tb0 d in
  set_d_tpc_pucch (d_tpc_pucch d) (set_d_pid (d_pid d) (set_d_tb0 (DciTbInfo (mcs_idx t) (tb_rv t) (tb_ndi t) 0)
    (set_d_alloc (carried_alloc01 d) (set_d_alloc_type (d_alloc_type d) (carried_head d))))).

(** The DCI an unpacking function starts from, in an FDD cell. *)
Definition fresh_dl (d : srsran_dci_dl_t) : srsran_dci_dl_t :=
  set_d_is_dwpts false (set_d_format (d_format d) (set_d_location (d_location d) (set_d_rnti (d_rnti d)
    (upd_d_tb1 SRSRAN_DCI_TB_DISABLE zero_dl)))).

Lemma cif_takes d : dl_in_range d ->
  takes (unpack_cif cfg (fresh_dl d)) (carried_head d) (ocells (cif_enabled cfg) (field 3 (d_cif d))).
Proof.
  intros Hr. destruct Hr. unfold unpack_cif, carried_head.
  apply (takes_when _ _ _ (set_d_cif_present true (set_d_cif (d_cif d) (fresh_dl d)))).
  intros _. takes_step. apply takes_ret.
Qed.

Lemma dai_takes d : takes (unpack_dai cell d) d [].
Proof. unfold unpack_dai. rewrite not_tdd. apply takes_ret. Qed.

Lemma zlen_format1 d : dl_in_range d -> alloc01_in_range d -> zlen (format1_shape d) = format1_base cell sf cfg.
Proof.
  intros Hr Ha. unfold format1_shape, format1_base. rewrite not_tdd, fdd_pid_len.
  rewrite !zlen_app, zlen_ocells, !zlen_field, zlen_flag, zlen_alloc01 by (done || lia). rewrite (dr_cif_present _ Hr).
  unfold alloc01_len. destruct (cif_enabled cfg), (10 <? nof_prb cell); cbn [bif]; lia.
Qed.

Lemma format1_ends d n : alloc01_in_range d -> format_sizeof cell sf cfg SRSRAN_DCI_FORMAT1 = Some n ->
  ends (dci_format1_pack cell sf cfg d) (format1_shape d) n.
Proof.
  intros Ha E. unfold dci_format1_pack, format1_shape. rewrite fdd_pid_len.
  apply ends_seq; [eauto with emits |]. apply ends_seq; [by apply alloc01_emits |].
  do 4 (apply ends_seq; [eauto with emits |]).
  rewrite <- (app_nil_r (field 2 (d_tpc_pucch d))). apply ends_seq; [eauto with emits | by apply ends_format].
Qed.

Lemma format1_takes d msg n : dl_in_range d -> alloc01_in_range d ->
  format_sizeof cell sf cfg SRSRAN_DCI_FORMAT1 = Some n -> m_nof_bits msg = n ->
  takes (dci_format1_unpack cell sf cfg msg (fresh_dl d)) (SRSRAN_SUCCESS, msg, carried_1 d) (format1_shape d).
Proof.
  intros Hr Ha E Hn. pose proof Hr as []. unfold dci_format1_unpack, format1_shape. rewrite dr_cif_present0, fdd_pid_len.
  eapply takes_bind_nil; [by apply takes_lift |]. rewrite Hn, Z.eqb_refl. cbn [negb].
  eapply takes_bind; [by apply cif_takes |].
  eapply takes_bind; [apply alloc01_takes; [done | unfold carried_head; by destruct (cif_enabled cfg)] |].
  cbn [Z.eqb negb]. do 5 takes_step. eapply takes_bind_nil; [apply dai_takes |].
  apply takes_ret_eq. f_equal. rewrite nonzero_b2z. unfold carried_1, carried_head. by destruct (cif_enabled cfg).
Qed.

(** *** Formats 2, 2A and 2B *)

Definition tb_shape (t : srsran_dci_tb_t) : cells := field 5 (mcs_idx t) ++ flag (tb_ndi t) ++ field 2 (tb_rv t).

Definition format2_shape (f : srsran_dci_format_t) (d : srsran_dci_dl_t) : cells :=
  ocells (d_cif_present d) (field 3 (d_cif d)) ++ alloc01_shape d ++ field 2 (d_tpc_pucch d) ++ field 3 (d_pid d)
  ++ flag (if is_2B f then d_sram_id d else d_tb_cw_swap d) ++ tb_shape (d_tb0 d) ++ tb_shape (d_tb1 d)
  ++ field (precoding_len cell f) (d_pinfo d).

Definition is_format2 (f : srsran_dci_format_t) : Prop :=
  f = SRSRAN_DCI_FORMAT2 \/ f = SRSRAN_DCI_FORMAT2A \/ f = SRSRAN_DCI_FORMAT2B.

Record dl2_in_range (f : srsran_dci_format_t) (d : srsran_dci_dl_t) : Prop := Dl2InRange {
  d2_mcs : 0 <= mcs_idx (d_tb1 d) < 2 ^ 5;
  d2_rv : 0 <= tb_rv (d_tb1 d) < 2 ^ 2;
  d2_pinfo : 0 <= d_pinfo d < 2 ^ precoding_len cell f
}.

Definition carried_2 (f : srsran_dci_format_t) (d : srsran_dci_dl_t) : srsran_dci_dl_t :=
  let flag_field := if is_2B f then set_d_sram_id (d_sram_id d) else set_d_tb_cw_swap (d_tb_cw_swap d) in
  let tb t := DciTbInfo (mcs_idx t) (tb_rv t) (tb_ndi t) 0 in
  codewords (set_d_pinfo (d_pinfo d) (set_d_tb1 (tb (d_tb1 d)) (set_d_tb0 (tb (d_tb0 d))
    (flag_field (set_d_pid (d_pid d) (set_d_tpc_pucch (d_tpc_pucch d)
      (set_d_alloc (carried_alloc01 d) (set_d_alloc_type (d_alloc_type d) (carried_head d))))))))).

Lemma precoding_range f : 0 <= precoding_len cell f <= 6.
Proof. destruct f; cbn; unfold precoding_bits_f2, precoding_bits_f2a; try lia; destruct (nof_ports cell <=? 2); lia. Qed.

Lemma tb_emits t : emits (pack_tb t) (tb_shape t).
Proof. unfold pack_tb, tb_shape. eauto with emits. Qed.

Lemma tb_takes t t0 : 0 <= mcs_idx t < 2 ^ 5 -> 0 <= tb_rv t < 2 ^ 2 ->
  takes (unpack_tb t0) (DciTbInfo (mcs_idx t) (tb_rv t) (tb_ndi t) (cw_idx t0)) (tb_shape t).
Proof. intros H1 H2. unfold unpack_tb, tb_shape. do 3 takes_step. apply takes_ret_eq. by rewrite nonzero_b2z. Qed.

Lemma zlen_format2 f d : dl_in_range d -> alloc01_in_range d ->
  zlen (format2_shape f d) = format2_base cell sf cfg + precoding_len cell f.
Proof.
  intros Hr Ha. pose proof (precoding_range f). unfold format2_shape, format2_base, tb_shape. rewrite not_tdd, fdd_pid_len.
  rewrite !zlen_app, zlen_ocells, !zlen_field, !zlen_flag, zlen_alloc01 by (done || lia). rewrite (dr_cif_present _ Hr).
  unfold alloc01_len. destruct (cif_enabled cfg), (10 <? nof_prb cell); cbn [bif]; lia.
Qed.

Lemma format2_ends f d n : alloc01_in_range d -> format_sizeof cell sf cfg f = Some n ->
  ends (dci_format2AB_pack cell sf cfg f d) (format2_shape f d) n.
Proof.
  intros Ha E. pose proof (precoding_range f). unfold dci_format2AB_pack, format2_shape. rewrite fdd_pid_len.
  apply ends_seq; [eauto with emits |]. apply ends_seq; [by apply alloc01_emits |].
  do 3 (apply ends_seq; [eauto with emits |]). do 2 (apply ends_seq; [apply tb_emits |]).
  rewrite <- (app_nil_r (field _ (d_pinfo d))). apply ends_seq; [eauto with emits | by apply ends_format].
Qed.

Lemma format2_takes f d msg : dl_in_range d -> alloc01_in_range d -> dl2_in_range f d -> is_format2 f -> m_format msg = f ->
  takes (dci_format2AB_unpack cell sf cfg msg (fresh_dl d)) (SRSRAN_SUCCESS, msg, carried_2 f d) (format2_shape f d).
Proof.
  intros Hr Ha H2 Hf Em. pose proof (precoding_range f). pose proof Hr as []. destruct H2 as [Hm2 Hr2 Hp].
  unfold dci_format2AB_unpack, format2_shape. rewrite dr_cif_present0, fdd_pid_len, Em.
  eapply takes_bind; [by apply cif_takes |].
  eapply takes_bind; [apply alloc01_takes; [done | unfold carried_head; by destruct (cif_enabled cfg)] |].
  cbn [Z.eqb negb]. takes_step. eapply takes_bind_nil; [apply dai_takes |]. do 2 takes_step.
  rewrite nonzero_b2z. eapply takes_bind; [by apply tb_takes |]. eapply takes_bind; [by apply tb_takes |].
  eapply (takes_last _ _ (set_d_pinfo (d_pinfo d) _)).
  { destruct Hf as [-> | [-> | ->]]; [takes_step; apply takes_ret .. |].
    assert (d_pinfo d = 0) as -> by (cbn in Hp; lia). apply takes_ret_eq.
    unfold carried_head. by destruct (cif_enabled cfg). }
  apply takes_ret_eq. f_equal. unfold carried_2, carried_head.
  by destruct (cif_enabled cfg), Hf as [-> | [-> | ->]].
Qed.

(** *** Format 1C *)

Definition riv_len1C : Z :=
  riv_nbits (default 0 (srsran_ra_type2_n_vrb_dl (nof_prb cell) true) / srsran_ra_type2_n_rb_step (nof_prb cell)).

Definition format1C_shape (d : srsran_dci_dl_t) : cells :=
  ocells (50 <=? nof_prb cell) (byte 0) ++ field riv_len1C (riv (d_alloc d)) ++ field 5 (mcs_idx (d_tb0 d)).

(** Distributed allocations with the first gap; there is no carrier indicator. *)
Record dl1C_in_range (d : srsran_dci_dl_t) : Prop := Dl1CInRange {
  dc_prb : 2 <= nof_prb cell;
  dc_cif : d_cif_present d = false;
  dc_type : d_alloc_type d = 2;
  dc_mode : mode (d_alloc d) = 1;
  dc_gap : n_gap (d_alloc d) = 0;
  dc_riv : 0 <= riv (d_alloc d) < 2 ^ riv_len1C;
  dc_mcs : 0 <= mcs_idx (d_tb0 d) < 2 ^ 5
}.

Definition carried_1C (d : srsran_dci_dl_t) : srsran_dci_dl_t :=
  set_d_tb0 (DciTbInfo (mcs_idx (d_tb0 d)) (-1) false 0)
    (set_d_alloc (Type2 (riv (d_alloc d)) 0 0 1) (set_d_alloc_type 2 (fresh_dl d))).

Lemma riv_len1C_eq : 2 <= nof_prb cell -> riv_len_1C cell 0 = Some riv_len1C /\ 0 <= riv_len1C <= 16 /\
  format_sizeof cell sf cfg SRSRAN_DCI_FORMAT1C = Some (riv_len1C + 5 + bif (50 <=? nof_prb cell) 1 0).
Proof.
  intros H2. unfold riv_len1C, riv_len_1C, SRSRAN_RA_TYPE2_NG1. cbn [format_sizeof Z.eqb].
  destruct (format1C_size cell Hprb H2) as (n & E & Hn). unfold dci_format1C_sizeof in *.
  destruct (n_vrb_dl_gaps (nof_prb cell)) as [(v & Ev & Hv) _]; [lia |]. rewrite Ev in *.
  change (default 0 (Some v)) with v. cbn [mbind option_bind] in *. split_and!; [done | | | done].
  all: injection E as En; unfold SRSRAN_MAX_PRB in *; set (x := v / _) in *.
  all: assert (0 <= x <= 110) as Hx by (unfold x, srsran_ra_type2_n_rb_step; zcase; lia); clearbody x.
  all: destruct (Z.eq_dec x 0) as [-> |]; [change (riv_nbits 0) with 0; lia |].
  all: pose proof (riv_nbits_bound x ltac:(unfold SRSRAN_MAX_PRB; lia)); lia.
Qed.

Lemma format1C_emits d : dl1C_in_range d -> emits (dci_format1Cs_pack cell d) (format1C_shape d).
Proof.
  intros [H2 Hc Ht Hm Hg Hr Hmcs]. destruct (riv_len1C_eq H2) as (El & Hlen & _).
  unfold dci_format1Cs_pack, format1C_shape. rewrite Hc, Ht, Hm, Hg, El. cbn [wwhen Z.eqb Pos.eqb negb orb mbind option_bind].
  apply (emits_seq wdone _ []); [apply wdone_emits |].
  apply emits_seq; [by apply emits_when, emits_put |]. apply emits_seq; [apply emits_bits; lia | apply emits_bits; lia].
Qed.

Lemma format1C_takes d msg : dl1C_in_range d -> format_sizeof cell sf cfg SRSRAN_DCI_FORMAT1C = Some (m_nof_bits msg) ->
  takes_from (dci_format1Cs_unpack cell sf cfg msg (fresh_dl d))
    (fun p => (SRSRAN_SUCCESS, set_m_nof_bits (p + (m_nof_bits msg)) msg, carried_1C d)) (format1C_shape d).
Proof.
  intros [H2 Hc Ht Hm Hg Hr Hmcs] E. destruct (riv_len1C_eq H2) as (El & Hlen & En). rewrite E in En. injection En as En.
  unfold dci_format1Cs_unpack, format1C_shape. rewrite E.
  eapply takes_from_ext; [| eapply (takes_from_bind _ _ _ _ []); [by apply takes_lift |]; rewrite Z.eqb_refl; cbn [negb];
    eapply takes_from_bind; [apply takes_when; intros _; takes_step; apply takes_ret |];
    eapply (takes_from_bind _ _ riv_len1C _ []); [apply takes_lift; rewrite <- El; f_equal; by destruct (50 <=? _) |];
    eapply takes_from_bind; [apply takes_bits_small; [lia | done] |];
    rewrite <- (app_nil_r (field 5 _)); eapply takes_from_bind; [by apply takes_bits_small |];
    apply takes_from_pos].
  intros p. cbv beta. do 2 f_equal.
  - f_equal. rewrite zlen_ocells, !zlen_field by lia. change (zlen (byte 0)) with 1. change (zlen (@nil (option Z))) with 0.
    rewrite En. destruct (50 <=? nof_prb cell); cbn [bif]; lia.
  - unfold carried_1C. by destruct (50 <=? nof_prb cell).
Qed.

(** *** Format 1A *)

(** The scanning loop stops at the first position that does not match. *)
Lemma scan_while_spec fuel l at_ n v i k :
  i <= k <= n -> k - i <= Z.of_nat fuel ->
  (forall j, i <= j < k -> zget l (at_ + j) = Some v) ->
  (k < n -> exists b, zget l (at_ + k) = Some b /\ b <> v) ->
  scan_while fuel l at_ n v i = Some k.
Proof.
  revert i. induction fuel as [| fuel IH]; intros i Hi Hf Hv Hk; cbn [scan_while].
  all: destruct (Z.ltb_spec i n); [| f_equal; lia].
  all: destruct (Z.eq_dec i k) as [-> |].
  1,3: destruct (Hk ltac:(lia)) as (b & -> & Hb); cbn [mbind option_bind]; by destruct (Z.eqb_spec b v).
  - lia.
  - rewrite Hv by lia. cbn [mbind option_bind]. rewrite Z.eqb_refl. apply IH; [lia | lia | | done].
    intros j Hj. apply Hv. lia.
Qed.

(** A number under its greatest has a clear bit; the first one is found. *)
Lemma first_clear n r : 0 <= n -> 0 <= r < 2 ^ n - 1 ->
  exists k, 0 <= k < n /\ Z.testbit r (n - 1 - k) = false /\ forall j, 0 <= j < k -> Z.testbit r (n - 1 - j) = true.
Proof.
  intros Hn Hr. assert (exists m, n = Z.of_nat m) as [m ->] by (exists (Z.to_nat n); lia). clear Hn.
  revert r Hr. induction m as [| m IH]; intros r Hr; [simpl in Hr; lia |].
  replace (Z.of_nat (S m)) with (Z.of_nat m + 1) in * by lia. rewrite Z.pow_add_r in Hr by lia. change (2 ^ 1) with 2 in Hr.
  destruct (Z.testbit r (Z.of_nat m)) eqn:E.
  - assert (2 ^ Z.of_nat m <= r) as Hge.
    { destruct (Z.lt_ge_cases r (2 ^ Z.of_nat m)); [| done].
      destruct (Z.eq_dec r 0) as [-> |]; [by rewrite Z.testbit_0_l in E |].
      rewrite Z.bits_above_log2 in E; [done | lia | apply Z.log2_lt_pow2; lia]. }
    destruct (IH (r - 2 ^ Z.of_nat m)) as (k & Hk & Hc & Hj); [lia |].
    assert (forall i, 0 <= i < Z.of_nat m -> Z.testbit (r - 2 ^ Z.of_nat m) i = Z.testbit r i) as Hb.
    { intros i Hi. rewrite <- (Z.mod_pow2_bits_low r (Z.of_nat m) i) by lia.
      rewrite <- (Z.mod_pow2_bits_low (r - _) (Z.of_nat m) i) by lia. f_equal.
      replace (r - 2 ^ Z.of_nat m) with (r + (-1) * 2 ^ Z.of_nat m) by lia. apply Z_mod_plus_full. }
    exists (k + 1). split_and!; [lia | lia | |].
    + rewrite <- Hb by lia. replace (Z.of_nat m + 1 - 1 - (k + 1)) with (Z.of_nat m - 1 - k) by lia. done.
    + intros j Hj'. destruct (Z.eq_dec j 0) as [-> |]; [by replace (Z.of_nat m + 1 - 1 - 0) with (Z.of_nat m) by lia |].
      rewrite <- Hb by lia. replace (Z.of_nat m + 1 - 1 - j) with (Z.of_nat m - 1 - (j - 1)) by lia. apply Hj. lia.
  - exists 0. split_and!; [lia | lia | by replace (Z.of_nat m + 1 - 1 - 0) with (Z.of_nat m) by lia | lia].
Qed.

(** A grant is not taken for a PDCCH order when it is distributed or its RIV is not all ones. *)
Lemma order_takes {A} msg (k : bool -> reader A) x md r h :
  md <> 0 \/ (md = 0 /\ 0 <= r < 2 ^ riv_nbits (nof_prb cell) - 1) ->
  takes (k false) x (byte md ++ (if md =? 0 then field (riv_nbits (nof_prb cell)) r else []) ++ h) ->
  takes (is_order cell msg ≫= k) x (byte md ++ (if md =? 0 then field (riv_nbits (nof_prb cell)) r else []) ++ h).
Proof.
  intros Hm Hk pre old post Ho. pose proof (riv_nbits_bound _ Hprb) as Hrl.
  set (rl := riv_nbits (nof_prb cell)) in *. specialize (Hk pre old post Ho).
  assert (is_order cell msg (pre ++ fill (byte md ++ (if md =? 0 then field rl r else []) ++ h) old ++ post) (zlen pre)
    = Some (false, zlen pre)) as E; [| unfold mbind, reader_bind; rewrite E; exact Hk].
  clear Hk. destruct old as [| o old]; [done |]. unfold byte in *. cbn [app fill zip_with from_option id] in *.
  change (zip_with _ _ old) with (fill ((if md =? 0 then field rl r else []) ++ h) old).
  unfold is_order. rewrite zget_app_mid by done. cbn [mbind option_bind]. destruct (Z.eqb_spec md 0) as [-> | Hne]; [| done].
  destruct Hm as [? | [_ Hr]]; [done |].
  destruct (first_clear rl r) as (c & Hc & Hclear & Hones); [lia | done |].
  destruct (split_old (field rl r) h old) as (o1 & o2 & -> & Ho1 & _); [simpl in Ho; lia |].
  rewrite fill_app by done.
  assert (forall j, 0 <= j < rl ->
    zget (pre ++ (0 :: fill (field rl r) o1 ++ fill h o2) ++ post) (zlen pre + 1 + j) = Some (Z.b2z (Z.testbit r (rl - 1 - j)))) as Hbit.
  { intros j Hj. rewrite <- (zget_fill_field rl r (pre ++ [0]) o1 (fill h o2 ++ post) j Ho1 Hj).
    rewrite zlen_app, <- !app_assoc. cbn [app]. by rewrite <- !app_assoc. }
  cbn [app] in Hbit |- *. rewrite (scan_while_spec 128 _ _ _ _ 0 c).
  - cbn [mbind option_bind]. fold rl. destruct (Z.eqb_spec c rl); [lia | done].
  - fold rl. lia.
  - lia.
  - intros j Hj. rewrite (Hbit j) by lia. by rewrite Hones.
  - intros _. exists 0. rewrite (Hbit c) by lia. by rewrite Hclear.
Qed.

Lemma order_step {A} msg (k : bool -> reader A) x md h :
  (md = 0 -> exists r h', h = field (riv_nbits (nof_prb cell)) r ++ h' /\ 0 <= r < 2 ^ riv_nbits (nof_prb cell) - 1) ->
  takes (k false) x (byte md ++ h) -> takes (is_order cell msg ≫= k) x (byte md ++ h).
Proof.
  intros Hm Hk. destruct (Z.eq_dec md 0) as [E | Hne].
  - destruct (Hm E) as (r & h' & -> & Hr). pose proof (order_takes msg k x md r h') as Ho. rewrite E in Ho, Hk |- *. auto.
  - pose proof (order_takes msg k x md 0 h) as Ho. destruct (Z.eqb_spec md 0); [done |]. auto.
Qed.

Definition gap_len (user : bool) (md : Z) : Z := if user && dist50 cell md then 1 else 0.

Definition format1A_shape (d : srsran_dci_dl_t) : cells :=
  let a := d_alloc d in
  let user := is_user (d_rnti d) in
  ocells (d_cif_present d) (field 3 (d_cif d)) ++ flag true ++ byte (mode a)
  ++ ocells (user && dist50 cell (mode a)) (byte (n_gap a))
  ++ field (riv_nbits (nof_prb cell) - gap_len user (mode a)) (riv a)
  ++ field 5 (mcs_idx (d_tb0 d)) ++ field 3 (d_pid d)
  ++ (if user then flag (tb_ndi (d_tb0 d)) else if dist50 cell (mode a) then byte (n_gap a) else [None])
  ++ field 2 (tb_rv (d_tb0 d)) ++ (if user then flag false ++ flag false else [None] ++ byte (n_prb1a a)).

Record dl1A_in_range (d : srsran_dci_dl_t) : Prop := Dl1AInRange {
  da_type : d_alloc_type d = 2;
  da_order : d_is_pdcch_order d = false;
  da_mode : 0 <= mode (d_alloc d) < 2;
  da_gap : 0 <= n_gap (d_alloc d) < 2;
  da_prb : 0 <= n_prb1a (d_alloc d) < 2;
  da_len : gap_len (is_user (d_rnti d)) (mode (d_alloc d)) <= riv_nbits (nof_prb cell);
  da_riv : 0 <= riv (d_alloc d) < 2 ^ (riv_nbits (nof_prb cell) - gap_len (is_user (d_rnti d)) (mode (d_alloc d)));
  da_not_order : mode (d_alloc d) = 0 -> riv (d_alloc d) <> 2 ^ riv_nbits (nof_prb cell) - 1
}.

(** The new data indicator is only there for user RNTIs, the TBS column only for the others. *)
Definition carried_1A (d : srsran_dci_dl_t) : srsran_dci_dl_t :=
  let a := d_alloc d in
  let user := is_user (d_rnti d) in
  let t := d_tb0 d in
  set_d_pid (d_pid d) (set_d_tb0 (DciTbInfo (mcs_idx t) (tb_rv t) (if user then tb_ndi t else false) 0)
    (set_d_alloc (Type2 (riv a) (if user then 0 else n_prb1a a) (if dist50 cell (mode a) then n_gap a else 0) (mode a))
      (set_d_alloc_type 2 (carried_head d)))).

Lemma gap_len_range u md : 0 <= gap_len u md <= 1.
Proof. unfold gap_len. destruct (u && _); lia. Qed.

Lemma byte_uint v : 0 <= v < 2 -> is_uint 8 v.
Proof. unfold is_uint. lia. Qed.

Lemma zlen_format1A d : dl_in_range d -> dl1A_in_range d ->
  zlen (format1A_shape d) = bif (cif_enabled cfg) 3 0 + riv_nbits (nof_prb cell) + 15.
Proof.
  intros Hr Ha. pose proof (da_len _ Ha). pose proof (gap_len_range (is_user (d_rnti d)) (mode (d_alloc d))).
  unfold format1A_shape. cbv zeta. rewrite !zlen_app, !zlen_ocells, !zlen_field, !zlen_flag by lia.
  rewrite (dr_cif_present _ Hr). unfold gap_len in *.
  destruct (cif_enabled cfg), (is_user (d_rnti d)), (dist50 cell (mode (d_alloc d))); unfold byte, flag, zlen in *; cbn in *; lia.
Qed.

Lemma format1A_ends d n : dl1A_in_range d -> format_sizeof cell sf cfg SRSRAN_DCI_FORMAT1A = Some n ->
  ends (dci_format1As_pack cell sf cfg d) (format1A_shape d) n.
Proof.
  intros [Ht Ho Hm Hg Hp Hl Hr Hn] E. pose proof (gap_len_range (is_user (d_rnti d)) (mode (d_alloc d))).
  pose proof (riv_nbits_bound _ Hprb). unfold dci_format1As_pack, format1A_shape. rewrite Ho, Ht, fdd_pid_len.
  cbv zeta. cbn [Z.eqb Pos.eqb negb SRSRAN_RA_ALLOC_TYPE2]. fold (gap_len (is_user (d_rnti d)) (mode (d_alloc d))).
  apply ends_seq; [eauto with emits |]. apply ends_seq; [by apply emits_put |]. rewrite <- (app_nil_r (_ ++ ocells _ _ ++ _)).
  apply ends_seq; [| by apply ends_format].
  apply emits_seq; [by apply emits_put, byte_uint |]. apply emits_seq; [by apply emits_when, emits_put, byte_uint |].
  do 3 (apply emits_seq; [apply emits_bits; lia |]). apply emits_seq.
  { destruct (is_user (d_rnti d)); [apply put_flag_emits |].
    destruct (dist50 cell (mode (d_alloc d))); [by apply emits_put, byte_uint | apply emits_skip]. }
  apply emits_seq; [apply emits_bits; lia |].
  destruct (is_user (d_rnti d)); (apply emits_seq; [| ]); try apply emits_skip; try apply (put_flag_emits false).
  by apply emits_put, byte_uint.
Qed.

Lemma format1A_takes d msg : dl_in_range d -> dl1A_in_range d -> m_rnti msg = d_rnti d ->
  takes (dci_format1As_unpack cell sf cfg msg (fresh_dl d))
    (SRSRAN_SUCCESS, set_m_format SRSRAN_DCI_FORMAT1A msg, carried_1A d) (format1A_shape d).
Proof.
  intros Hr [Ht Ho Hm Hg Hp Hl Hriv Hn] Erl. pose proof (gap_len_range (is_user (d_rnti d)) (mode (d_alloc d))).
  pose proof (riv_nbits_bound _ Hprb). pose proof Hr as []. unfold dci_format1As_unpack, format1A_shape.
  change (m_rnti (set_m_format SRSRAN_DCI_FORMAT1A msg)) with (m_rnti msg).
  rewrite dr_cif_present0, fdd_pid_len, Erl. cbv zeta. fold (gap_len (is_user (d_rnti d)) (mode (d_alloc d))).
  eapply takes_bind; [by apply cif_takes |]. takes_step. cbn [Z.b2z Z.eqb Pos.eqb negb].
  apply order_step.
  { intros Em. specialize (Hn Em). unfold gap_len, dist50 in *. rewrite Em, !andb_false_r in Hriv |- *. rewrite Z.sub_0_r in *.
    eexists _, _. split; [done | lia]. }
  cbv beta. cbv zeta. takes_step.
  eapply takes_bind; [apply takes_when; intros _; takes_step; apply takes_ret |].
  fold (gap_len (is_user (d_rnti d)) (mode (d_alloc d))).
  do 3 takes_step.
  eapply (takes_bind _ _ (if is_user (d_rnti d) then upd_d_tb0 (set_ndi (tb_ndi (d_tb0 d))) _
    else if dist50 cell (mode (d_alloc d)) then upd_d_alloc (set_n_gap (n_gap (d_alloc d))) _ else _)).
  { destruct (is_user (d_rnti d)); cbn [negb]; [takes_step; rewrite nonzero_b2z; apply takes_ret |].
    destruct (dist50 cell (mode (d_alloc d))); takes_step; apply takes_ret. }
  takes_step.
  eapply (takes_last _ _ (if is_user (d_rnti d) then _ else upd_d_alloc (set_n_prb1a (n_prb1a (d_alloc d))) _)).
  { destruct (is_user (d_rnti d)); do 2 takes_step; apply takes_ret. }
  rewrite <- (app_nil_r []). eapply takes_bind; [apply dai_takes |].
  apply takes_ret_eq. f_equal. unfold carried_1A, carried_head.
  destruct (cif_enabled cfg), (is_user (d_rnti d)), (dist50 cell (mode (d_alloc d))); cbv; reflexivity.
Qed.
End shapes.

(** ** Round trips through a message *)

Lemma zeros_split k n : 0 <= k <= n -> zeros n = zeros k ++ zeros (n - k).
Proof. intros Hk. unfold zeros. rewrite <- replicate_add. f_equal. lia. Qed.

(** A message packed with padding is read back by any reader of its fields and of some of
    the padding. *)
Lemma run_padded w f n msg :
  ends w f n -> zlen f <= n <= zlen (m_payload msg) ->
  exists pay, run_pack w msg = Some (SRSRAN_SUCCESS, set_m_nof_bits n (set_m_payload pay msg)) /\
    zlen pay = zlen (m_payload msg) /\
    forall A (r : reader A) x k, 0 <= k <= n - zlen f -> takes r x (f ++ zeros k) -> fst <$> r pay 0 = Some x.
Proof.
  intros Hw Hn. exists (written (f ++ zeros (n - zlen f)) (m_payload msg)). unfold run_pack.
  pose proof (zlen_nonneg f).
  rewrite (ends_written w f n) by done. split; [done |].
  assert (zlen (f ++ zeros (n - zlen f)) = n) as Hz by (rewrite zlen_app, zlen_zeros; lia).
  split; [apply zlen_written; lia |]. intros A r x k Hk Ht.
  rewrite (zeros_split k (n - zlen f)), app_assoc by lia.
  rewrite (takes_written r x _ _ (m_payload msg) Ht); [done |].
  rewrite <- app_assoc, <- zeros_split by lia. lia.
Qed.

Lemma ul_roundtrip cell sf cfg d msg :
  1 <= nof_prb cell <= SRSRAN_MAX_PRB -> frame_type cell = SRSRAN_FDD ->
  ul_in_range cell (default zero_dci_cfg cfg) d -> zlen (m_payload msg) = SRSRAN_DCI_MAX_BITS ->
  exists msg', srsran_dci_msg_pack_pusch cell sf cfg d msg = Some (SRSRAN_SUCCESS, msg') /\
    srsran_dci_format_sizeof cell (Some sf) cfg SRSRAN_DCI_FORMAT0 = Some (m_nof_bits msg') /\
    srsran_dci_msg_unpack_pusch cell sf cfg msg'
      = Some (SRSRAN_SUCCESS, set_m_format SRSRAN_DCI_FORMAT0 msg', carried_ul (default zero_dci_cfg cfg) d).
Proof.
  intros Hprb Hfdd Hr Hl. set (c := default zero_dci_cfg cfg) in *.
  destruct (format1A_size cell sf c Hprb) as (n & E1A & Hn & _). pose proof (format0_size cell sf c Hprb _ E1A) as E.
  pose proof (zlen_format0 cell sf c Hfdd d Hr) as Hz. unfold SRSRAN_DCI_MAX_BITS in Hl.
  pose proof (zlen_nonneg (format0_shape cell c d)).
  destruct (run_padded _ _ n (start_msg (u_rnti d) (u_location d) (u_format d) msg) (format0_ends cell sf c Hprb d n Hr E))
    as (pay & Ep & _ & Hread); [cbn; lia |].
  eexists. split; [exact Ep |]. split; [exact E |].
  apply (Hread _ _ _ (if ra_format_enabled c then 1 else 0)); [destruct (ra_format_enabled c); lia |].
  pose proof (format0_takes cell sf c Hprb Hfdd d) as Ht. unfold ocells in Ht.
  specialize (Ht (set_m_nof_bits n (set_m_payload pay (start_msg (u_rnti d) (u_location d) (u_format d) msg))) Hr).
  by destruct (ra_format_enabled c).
Qed.

(** C17: in an FDD cell, an uplink grant with fields in their ranges packs into a
    message of format 0 of the size of the format, and the message unpacks to what it carries
    of the grant: all of it, but for the fields the code has no bits for. *)
Theorem dci_ul_roundtrip cell sf cfg d msg :
  1 <= nof_prb cell <= SRSRAN_MAX_PRB -> frame_type cell = SRSRAN_FDD ->
  ul_in_range cell (default zero_dci_cfg cfg) d -> zlen (m_payload msg) = SRSRAN_DCI_MAX_BITS ->
  exists msg', srsran_dci_msg_pack_pusch cell sf cfg d msg = Some (SRSRAN_SUCCESS, msg') /\
    srsran_dci_format_sizeof cell (Some sf) cfg SRSRAN_DCI_FORMAT0 = Some (m_nof_bits msg') /\
    srsran_dci_msg_unpack_pusch cell sf cfg msg'
      = Some (SRSRAN_SUCCESS, set_m_format SRSRAN_DCI_FORMAT0 msg', carried_ul (default zero_dci_cfg cfg) d).
Proof. apply ul_roundtrip. Qed.

(** The fields of a downlink DCI fit in its format. *)
Definition dl_fits (cell : srsran_cell_t) (cfg : srsran_dci_cfg_t) (d : srsran_dci_dl_t) : Prop :=
  match d_format d with
  | SRSRAN_DCI_FORMAT1 => dl_in_range cfg d /\ alloc01_in_range cell d
  | SRSRAN_DCI_FORMAT1A => dl_in_range cfg d /\ dl1A_in_range cell d
  | SRSRAN_DCI_FORMAT1C => dl1C_in_range cell d
  | SRSRAN_DCI_FORMAT2 | SRSRAN_DCI_FORMAT2A | SRSRAN_DCI_FORMAT2B =>
      dl_in_range cfg d /\ alloc01_in_range cell d /\ dl2_in_range cell (d_format d) d
  | _ => False
  end.

(** What a message of its format carries of a downlink DCI. *)
Definition carried_dl (cell : srsran_cell_t) (cfg : srsran_dci_cfg_t) (d : srsran_dci_dl_t) : srsran_dci_dl_t :=
  match d_format d with
  | SRSRAN_DCI_FORMAT1 => carried_1 cfg d
  | SRSRAN_DCI_FORMAT1A => carried_1A cell cfg d
  | SRSRAN_DCI_FORMAT1C => carried_1C d
  | f => carried_2 cfg f d
  end.

Section dl_roundtrip.
Context (cell : srsran_cell_t) (sf : srsran_dl_sf_cfg_t) (cfg : option srsran_dci_cfg_t).
Hypothesis Hprb : 1 <= nof_prb cell <= SRSRAN_MAX_PRB.
Hypothesis Hfdd : frame_type cell = SRSRAN_FDD.
Let c := default zero_dci_cfg cfg.

Definition dl_message (d : srsran_dci_dl_t) (msg : srsran_dci_msg_t) : srsran_dci_msg_t :=
  start_msg (d_rnti d) (d_location d) (d_format d) msg.

(** Round trip of a format that is padded to its size. *)
Lemma padded_roundtrip d msg w f n (r : srsran_dci_msg_t -> reader (Z * srsran_dci_msg_t * srsran_dci_dl_t)) x :
  zlen (m_payload msg) = SRSRAN_DCI_MAX_BITS -> ends w f n -> zlen f <= n <= 128 ->
  (forall msg', m_format msg' = d_format d -> m_rnti msg' = d_rnti d -> m_nof_bits msg' = n ->
     takes (r msg') (SRSRAN_SUCCESS, msg', x) f) ->
  exists msg', run_pack w (dl_message d msg) = Some (SRSRAN_SUCCESS, msg') /\ m_nof_bits msg' = n /\
    m_rnti msg' = d_rnti d /\ m_location msg' = d_location d /\ m_format msg' = d_format d /\
    run_unpack (r msg') msg' = Some (SRSRAN_SUCCESS, msg', x).
Proof.
  unfold SRSRAN_DCI_MAX_BITS. intros Hl Hw Hn Hr.
  destruct (run_padded w f n (dl_message d msg) Hw) as (pay & Ep & _ & Hread); [cbn; lia |].
  eexists. split; [exact Ep |]. split_and!; [done .. |]. unfold run_unpack.
  apply (Hread _ _ _ 0); [lia |]. change (zeros 0) with (@nil (option Z)). rewrite app_nil_r. by apply Hr.
Qed.

Lemma unpack_fdd msg d :
  m_rnti msg = d_rnti d -> m_location msg = d_location d -> m_format msg = d_format d ->
  srsran_dci_msg_unpack_pdsch cell sf cfg msg =
  match d_format d with
  | SRSRAN_DCI_FORMAT1 => run_unpack (dci_format1_unpack cell sf c msg (fresh_dl d)) msg
  | SRSRAN_DCI_FORMAT1A => run_unpack (dci_format1As_unpack cell sf c msg (fresh_dl d)) msg
  | SRSRAN_DCI_FORMAT1B => run_unpack (dci_format1B_unpack cell sf c msg (fresh_dl d)) msg
  | SRSRAN_DCI_FORMAT1C => run_unpack (dci_format1Cs_unpack cell sf c msg (fresh_dl d)) msg
  | SRSRAN_DCI_FORMAT1D => run_unpack (dci_format1D_unpack cell sf c msg (fresh_dl d)) msg
  | SRSRAN_DCI_FORMAT2 | SRSRAN_DCI_FORMAT2A | SRSRAN_DCI_FORMAT2B =>
      run_unpack (dci_format2AB_unpack cell sf c msg (fresh_dl d)) msg
  | _ => Some (SRSRAN_ERROR, msg, fresh_dl d)
  end.
Proof.
  intros E1 E2 E3. unfold srsran_dci_msg_unpack_pdsch. rewrite not_tdd by done. cbn [mbind option_bind].
  rewrite E1, E2, E3. done.
Qed.

Lemma format1C_roundtrip d msg : zlen (m_payload msg) = SRSRAN_DCI_MAX_BITS -> dl1C_in_range cell d ->
  exists msg', run_pack (dci_format1Cs_pack cell d) (dl_message d msg) = Some (SRSRAN_SUCCESS, msg') /\
    format_sizeof cell sf c SRSRAN_DCI_FORMAT1C = Some (m_nof_bits msg') /\
    m_rnti msg' = d_rnti d /\ m_location msg' = d_location d /\ m_format msg' = d_format d /\
    run_unpack (dci_format1Cs_unpack cell sf c msg' (fresh_dl d)) msg' = Some (SRSRAN_SUCCESS, msg', carried_1C d).
Proof.
  unfold SRSRAN_DCI_MAX_BITS. intros Hl Hr. destruct (riv_len1C_eq cell sf c Hprb (dc_prb _ _ Hr)) as (_ & Hlen & Es).
  set (f := format1C_shape cell d). assert (zlen f = riv_len1C cell + 5 + bif (50 <=? nof_prb cell) 1 0) as Hf.
  { unfold f, format1C_shape. rewrite !zlen_app, zlen_ocells, !zlen_field by lia.
    destruct (50 <=? nof_prb cell); cbn [bif]; change (zlen (byte 0)) with 1; lia. }
  assert (zlen f <= 128) as Hf' by (rewrite Hf; destruct (50 <=? nof_prb cell); cbn [bif]; lia).
  pose proof (emits_written _ f (m_payload msg) (format1C_emits cell sf c Hprb d Hr) ltac:(lia)) as Hw.
  unfold run_pack. change (m_payload (dl_message d msg)) with (m_payload msg). rewrite Hw. cbn [mbind option_bind].
  set (msg' := set_m_nof_bits (zlen f) (set_m_payload (written f (m_payload msg)) (dl_message d msg))).
  exists msg'. split; [done |]. change (m_nof_bits msg') with (zlen f). split; [by rewrite Es, Hf |].
  do 3 (split; [done |]). unfold run_unpack. change (m_payload msg') with (written f (m_payload msg)).
  assert (format_sizeof cell sf c SRSRAN_DCI_FORMAT1C = Some (m_nof_bits msg')) as En by (change (m_nof_bits msg') with (zlen f); by rewrite Es, Hf).
  pose proof (format1C_takes cell sf c Hprb d msg' Hr En [] (take (length f) (m_payload msg)) (drop (length f) (m_payload msg))) as Ht.
  rewrite app_nil_l in Ht. fold f in Ht. fold (written f (m_payload msg)) in Ht. rewrite zlen_nil in Ht.
  rewrite Ht by (rewrite length_take; unfold zlen in *; lia). done.
Qed.

(** What the three steps of a round trip through a message come to. *)
Definition survives (w : writer) (f : srsran_dci_format_t) (d : srsran_dci_dl_t) (msg : srsran_dci_msg_t)
    (x : srsran_dci_dl_t) : Prop :=
  exists msg', run_pack w (dl_message d msg) = Some (SRSRAN_SUCCESS, msg') /\
    format_sizeof cell sf c f = Some (m_nof_bits msg') /\
    srsran_dci_msg_unpack_pdsch cell sf cfg msg' = Some (SRSRAN_SUCCESS, msg', x).

Lemma format1_roundtrip d msg : zlen (m_payload msg) = SRSRAN_DCI_MAX_BITS -> d_format d = SRSRAN_DCI_FORMAT1 ->
  dl_in_range c d -> alloc01_in_range cell d ->
  survives (dci_format1_pack cell sf c d) SRSRAN_DCI_FORMAT1 d msg (carried_1 c d).
Proof.
  intros Hl Ef Hr Ha. destruct (format1A_size cell sf c Hprb) as (n1A & E1A & _).
  destruct (format1_size cell sf c Hprb n1A E1A) as (n & E & Hn & _).
  pose proof (zlen_format1 cell sf c Hprb Hfdd d Hr Ha) as Hz. pose proof (zlen_nonneg (format1_shape cell d)).
  destruct (padded_roundtrip d msg _ _ n (fun m => dci_format1_unpack cell sf c m (fresh_dl d)) (carried_1 c d) Hl
    (format1_ends cell sf c Hprb Hfdd d n Ha E)) as (msg' & Ep & En & E1 & E2 & E3 & Eu); [lia | |].
  { intros m Hf Hm Hb. by apply (format1_takes cell sf c Hprb Hfdd d m n). }
  exists msg'. split_and!; [done | by rewrite En |]. rewrite (unpack_fdd msg' d) by done. by rewrite Ef.
Qed.

Lemma format1A_roundtrip d msg : zlen (m_payload msg) = SRSRAN_DCI_MAX_BITS -> d_format d = SRSRAN_DCI_FORMAT1A ->
  dl_in_range c d -> dl1A_in_range cell d ->
  survives (dci_format1As_pack cell sf c d) SRSRAN_DCI_FORMAT1A d msg (carried_1A cell c d).
Proof.
  intros Hl Ef Hr Ha. destruct (format1A_size cell sf c Hprb) as (n & E & Hn & _).
  pose proof (zlen_format1A cell c d Hr Ha) as Hz. pose proof (zlen_nonneg (format1A_shape cell d)).
  pose proof (format1A_fields cell sf c Hprb n E) as Hsz.
  destruct (padded_roundtrip d msg _ _ n (fun m => dci_format1As_unpack cell sf c m (fresh_dl d)) (carried_1A cell c d) Hl
    (format1A_ends cell sf c Hprb Hfdd d n Ha E)) as (msg' & Ep & En & E1 & E2 & E3 & Eu); [lia | |].
  { intros m Hf Hm Hb. pose proof (format1A_takes cell sf c Hprb Hfdd d m Hr Ha Hm) as Ht.
    replace (set_m_format SRSRAN_DCI_FORMAT1A m) with m in Ht; [done |]. destruct m. cbn in *. by rewrite Hf, Ef. }
  exists msg'. split_and!; [done | by rewrite En |]. rewrite (unpack_fdd msg' d) by done. by rewrite Ef.
Qed.

Lemma format2_roundtrip f d msg n : zlen (m_payload msg) = SRSRAN_DCI_MAX_BITS -> d_format d = f -> is_format2 f ->
  format_sizeof cell sf c f = Some n -> format2_base cell sf c + precoding_len cell f <= n <= 80 ->
  dl_in_range c d -> alloc01_in_range cell d -> dl2_in_range cell f d ->
  survives (dci_format2AB_pack cell sf c f d) f d msg (carried_2 c f d).
Proof.
  intros Hl Ef Hf E Hn Hr Ha H2.
  pose proof (zlen_format2 cell sf c Hprb Hfdd f d Hr Ha) as Hz. pose proof (zlen_nonneg (format2_shape cell f d)).
  destruct (padded_roundtrip d msg _ _ n (fun m => dci_format2AB_unpack cell sf c m (fresh_dl d)) (carried_2 c f d) Hl
    (format2_ends cell sf c Hprb Hfdd f d n Ha E)) as (msg' & Ep & En & E1 & E2 & E3 & Eu); [lia | |].
  { intros m Hfm Hm Hb. apply (format2_takes cell sf c Hprb Hfdd f d m Hr Ha H2 Hf). congruence. }
  exists msg'. split_and!; [done | by rewrite En |]. rewrite (unpack_fdd msg' d) by done. rewrite Ef.
  by destruct Hf as [-> | [-> | ->]].
Qed.

Lemma dl_roundtrip d msg : zlen (m_payload msg) = SRSRAN_DCI_MAX_BITS -> dl_fits cell c d ->
  exists msg', srsran_dci_msg_pack_pdsch cell sf cfg d msg = Some (SRSRAN_SUCCESS, msg') /\
    srsran_dci_format_sizeof cell (Some sf) cfg (d_format d) = Some (m_nof_bits msg') /\
    srsran_dci_msg_unpack_pdsch cell sf cfg msg' = Some (SRSRAN_SUCCESS, msg', carried_dl cell c d).
Proof.
  intros Hl Hfits. unfold srsran_dci_msg_pack_pdsch, srsran_dci_format_sizeof. fold c. fold (dl_message d msg).
  change (m_format (dl_message d msg)) with (d_format d). change (default zero_dl_sf_cfg (Some sf)) with sf.
  unfold dl_fits, carried_dl in *. destruct (d_format d) eqn:Ef; try done.
  - destruct Hfits. by apply format1_roundtrip.
  - destruct Hfits. by apply format1A_roundtrip.
  - destruct (format1C_roundtrip d msg Hl Hfits) as (msg' & Ep & Es & E1 & E2 & E3 & Eu).
    exists msg'. split_and!; [done | done |]. rewrite (unpack_fdd msg' d) by done. by rewrite Ef.
  - destruct Hfits as (? & ? & ?), (format2_size cell sf c Hprb) as (n & E & Hn & _).
    by apply (format2_roundtrip _ d msg n); [| | left | ..].
  - destruct Hfits as (? & ? & ?), (format2A_size cell sf c Hprb) as (n & E & Hn & _).
    by apply (format2_roundtrip _ d msg n); [| | right; left | ..].
  - destruct Hfits as (? & ? & ?), (format2B_size cell sf c Hprb) as (n & E & Hn & _).
    apply (format2_roundtrip _ d msg n); [done | done | by right; right | done | | done ..]. cbn [precoding_len]. lia.
Qed.
End dl_roundtrip.

(** C16: in an FDD cell, a downlink DCI of format 1, 1A, 1C, 2, 2A or 2B with
    fields in their ranges packs into a message of the size of its format, and the message
    unpacks to what the format carries of it. *)
Theorem dci_dl_roundtrip cell sf cfg d msg :
  1 <= nof_prb cell <= SRSRAN_MAX_PRB -> frame_type cell = SRSRAN_FDD ->
  zlen (m_payload msg) = SRSRAN_DCI_MAX_BITS -> dl_fits cell (default zero_dci_cfg cfg) d ->
  exists msg', srsran_dci_msg_pack_pdsch cell sf cfg d msg = Some (SRSRAN_SUCCESS, msg') /\
    srsran_dci_format_sizeof cell (Some sf) cfg (d_format d) = Some (m_nof_bits msg') /\
    srsran_dci_msg_unpack_pdsch cell sf cfg msg'
      = Some (SRSRAN_SUCCESS, msg', carried_dl cell (default zero_dci_cfg cfg) d).
Proof. intros. by apply dl_roundtrip. Qed.

(** ** PDCCH orders *)

Lemma zget_written f pay i b : zlen f <= zlen pay -> f !! Z.to_nat i = Some (Some b) -> 0 <= i ->
  zget (written f pay) i = Some b.
Proof.
  intros Hl Hf Hi. pose proof (lookup_lt_Some _ _ _ Hf) as Hlt. unfold zlen in Hl. rewrite zget_lookup by done.
  unfold written. rewrite lookup_app_l by (rewrite length_fill; [done | rewrite length_take; lia]).
  unfold fill. rewrite lookup_zip_with, Hf. destruct (lookup_lt_is_Some_2 (take (length f) pay) (Z.to_nat i)) as [o ->]; [| done].
  rewrite length_take. lia.
Qed.

Definition ones (n : Z) : cells := (fun _ => Some 1) <$> seqZ 0 n.

Lemma zlen_ones n : 0 <= n -> zlen (ones n) = n.
Proof. intros Hn. unfold ones, zlen. rewrite length_fmap, length_seqZ. lia. Qed.

Lemma takes_advance n f : zlen f = n -> takes (radvance n) tt f.
Proof. intros <- pre old post Ho. done. Qed.

(** One step of a reader on a given payload. *)
Lemma read_step {A B} (r : reader A) (k : A -> reader B) l y x y' : r l y = Some (x, y') -> (r ≫= k) l y = k x l y'.
Proof. intros H. unfold mbind, reader_bind. by rewrite H. Qed.

Section order.
Context (cell : srsran_cell_t) (sf : srsran_dl_sf_cfg_t) (c : srsran_dci_cfg_t) (d : srsran_dci_dl_t) (n : Z).
Hypothesis Hprb : 1 <= nof_prb cell <= SRSRAN_MAX_PRB.
Hypothesis Hcif : cif_enabled c = false.
Hypothesis Hpre : 0 <= d_preamble_idx d < 2 ^ 6.
Hypothesis Hmask : 0 <= d_prach_mask_idx d < 2 ^ 4.
Hypothesis Hn : format_sizeof cell sf c SRSRAN_DCI_FORMAT1A = Some n.

Let rl := riv_nbits (nof_prb cell).

Definition order_tail : cells := flag false ++ ones rl ++ field 6 (d_preamble_idx d) ++ field 4 (d_prach_mask_idx d).
Definition order_shape : cells := flag true ++ order_tail.

Lemma order_len : zlen order_shape = rl + 12.
Proof.
  pose proof (riv_nbits_bound _ Hprb). unfold order_shape, order_tail.
  rewrite !zlen_app, zlen_ones, !zlen_field, !zlen_flag by (unfold rl; lia). lia.
Qed.

Lemma order_size : rl + 15 <= n <= 60.
Proof.
  pose proof (format1A_fields cell sf c Hprb n Hn) as H. rewrite Hcif in H. cbn [bif] in H. unfold rl.
  destruct (format1A_size cell sf c Hprb) as (m & E & Hm & _). change (format_sizeof cell sf c SRSRAN_DCI_FORMAT1A = Some m) in E.
  rewrite Hn in E. injection E as <-. lia.
Qed.

Lemma order_ends : d_is_pdcch_order d = true -> d_cif_present d = false -> ends (dci_format1As_pack cell sf c d) order_shape n.
Proof.
  intros Ho Hp. pose proof (riv_nbits_bound _ Hprb). unfold dci_format1As_pack, order_shape, order_tail. cbv zeta. rewrite Ho, Hp.
  apply ends_nil_seq; [apply wdone_emits |]. apply ends_seq; [by apply emits_put |].
  rewrite <- (app_nil_r (flag false ++ _)). apply ends_seq; [| by apply ends_format].
  apply emits_seq; [by apply emits_put |]. apply emits_seq; [| apply emits_seq; apply emits_bits; lia].
  intros pre old post Hold. pose proof (zlen_ones rl ltac:(unfold rl; lia)) as Hz. unfold zlen in Hz.
  rewrite (for_range_ext _ _ _ (fun l i => b ← Some 1; zset l (zlen pre + i) b)) by done.
  rewrite (write_loop _ (fun _ => 1)); [| lia | unfold zlen, rl in *; lia | done]. cbn [mbind option_bind].
  unfold ones. rewrite (fill_somes (fun _ => 1)) by (unfold ones in *; rewrite length_fmap, length_seqZ in Hold; lia).
  fold (ones rl). rewrite zlen_ones by (unfold rl; lia). do 2 f_equal. unfold rl. lia.
Qed.

(** The written order is recognised. *)
Lemma order_recognised msg pay : zlen pay = 128 -> m_nof_bits msg = n ->
  is_order cell msg (written (order_shape ++ zeros (n - zlen order_shape)) pay) 1 = Some (true, 1).
Proof.
  intros Hl Hb. pose proof order_len as Hlen. pose proof order_size as Hsz. pose proof (riv_nbits_bound _ Hprb) as Hrl. fold rl in Hrl.
  assert (zlen (order_shape ++ zeros (n - zlen order_shape)) = n) as Hfl by (rewrite zlen_app, zlen_zeros; lia).
  set (f := order_shape ++ _) in *.
  assert (forall i, 2 <= i < 2 + rl -> zget (written f pay) i = Some 1) as H1.
  { intros i Hi. apply zget_written; [lia | | lia]. unfold f.
    rewrite lookup_app_l by (unfold zlen in Hlen; lia). unfold order_shape, order_tail, flag. cbn [app]. replace (Z.to_nat i) with (S (S (Z.to_nat (i - 2)))) by lia.
    change ((ones rl ++ field 6 (d_preamble_idx d) ++ field 4 (d_prach_mask_idx d)) !! Z.to_nat (i - 2) = Some (Some 1)).
    rewrite lookup_app_l by (unfold ones; rewrite length_fmap, length_seqZ; lia).
    unfold ones. rewrite list_lookup_fmap, lookup_seqZ_lt by lia. done. }
  assert (forall i, 12 + rl <= i < n -> zget (written f pay) i = Some 0) as H0.
  { intros i Hi. apply zget_written; [lia | | lia]. unfold f.
    rewrite lookup_app_r by (unfold zlen in Hlen; lia). unfold zeros. apply lookup_replicate. unfold zlen in *. split; [done | lia]. }
  assert (zget (written f pay) 1 = Some 0) as Hmode by (apply zget_written; [lia | done | lia]).
  unfold is_order. rewrite Hmode. cbn [mbind option_bind Z.eqb]. fold rl.
  rewrite (scan_while_spec 128 _ _ _ _ 0 rl); [| lia | lia | intros j Hj; apply H1; lia | lia].
  cbn [mbind option_bind]. rewrite Z.eqb_refl, Hb, uwrap_small by (unfold is_uint; lia).
  rewrite (scan_while_spec 128 _ _ _ _ _ (n - 1)); [| lia | lia | intros j Hj; apply H0; lia | lia].
  cbn [mbind option_bind]. by rewrite Z.eqb_refl.
Qed.

Definition carried_order (d : srsran_dci_dl_t) : srsran_dci_dl_t :=
  set_d_prach_mask_idx (d_prach_mask_idx d) (set_d_preamble_idx (d_preamble_idx d) (set_d_is_pdcch_order true (fresh_dl d))).

Lemma order_unpack msg pay : zlen pay = 128 -> m_nof_bits msg = n -> m_payload msg = written (order_shape ++ zeros (n - zlen order_shape)) pay ->
  run_unpack (dci_format1As_unpack cell sf c msg (fresh_dl d)) msg
  = Some (SRSRAN_SUCCESS, set_m_format SRSRAN_DCI_FORMAT1A msg, carried_order d).
Proof.
  intros Hl Hb Hp. pose proof order_len as Hlen. pose proof order_size as Hsz. pose proof (riv_nbits_bound _ Hprb) as Hrl. fold rl in Hrl.
  assert (zlen (order_shape ++ zeros (n - zlen order_shape)) = n) as Hfl by (rewrite zlen_app, zlen_zeros; lia).
  pose proof (order_recognised (set_m_format SRSRAN_DCI_FORMAT1A msg) pay Hl Hb) as Ho.
  unfold run_unpack, dci_format1As_unpack, unpack_cif. rewrite Hcif, Hp. cbn [rwhen].
  assert (zget (written (order_shape ++ zeros (n - zlen order_shape)) pay) 0 = Some 1) as H0 by (apply zget_written; [lia | done | lia]).
  rewrite (read_step _ _ _ _ (fresh_dl d) 0) by done.
  rewrite (read_step _ _ _ _ 1 1) by (unfold get; by rewrite H0). cbn [negb Z.eqb Pos.eqb].
  rewrite (read_step _ _ _ _ true 1) by done.
  fold rl. set (r := (_ ← radvance (1 + rl); _) : reader _).
  assert (takes r (SRSRAN_SUCCESS, set_m_format SRSRAN_DCI_FORMAT1A msg, carried_order d) order_tail) as Ht.
  { unfold r, order_tail. rewrite (app_assoc (flag false)). eapply takes_bind.
    - apply takes_advance. rewrite zlen_app, zlen_ones, zlen_flag by lia. lia.
    - do 2 takes_step. apply takes_ret. }
  assert (exists k, r (written (order_shape ++ zeros (n - zlen order_shape)) pay) 1
    = Some ((SRSRAN_SUCCESS, set_m_format SRSRAN_DCI_FORMAT1A msg, carried_order d), k)) as [k ->]; [| done].
  eexists. apply (takes_inside _ _ (flag true)); [done |].
  rewrite app_assoc. change (flag true ++ order_tail) with order_shape. lia.
Qed.
End order.

(** A PDCCH order, which is a format 1A message with a RIV of ones, survives packing
    and unpacking without a carrier indicator: the receiver tells it from a grant by the
    padding, and reads the preamble and the mask back. *)
Theorem pdcch_order_roundtrip cell sf cfg d msg :
  1 <= nof_prb cell <= SRSRAN_MAX_PRB -> frame_type cell = SRSRAN_FDD ->
  cif_enabled (default zero_dci_cfg cfg) = false -> d_cif_present d = false ->
  d_format d = SRSRAN_DCI_FORMAT1A -> d_is_pdcch_order d = true ->
  0 <= d_preamble_idx d < 2 ^ 6 -> 0 <= d_prach_mask_idx d < 2 ^ 4 ->
  zlen (m_payload msg) = SRSRAN_DCI_MAX_BITS ->
  exists msg', srsran_dci_msg_pack_pdsch cell sf cfg d msg = Some (SRSRAN_SUCCESS, msg') /\
    srsran_dci_msg_unpack_pdsch cell sf cfg msg' = Some (SRSRAN_SUCCESS, msg', carried_order d).
Proof.
  intros Hprb Hfdd Hc Hp Ef Ho Hpre Hmask Hl. set (c := default zero_dci_cfg cfg) in *.
  destruct (format1A_size cell sf c Hprb) as (n & En & _).
  change (format_sizeof cell sf c SRSRAN_DCI_FORMAT1A = Some n) in En. unfold SRSRAN_DCI_MAX_BITS in Hl.
  assert (zlen (order_shape cell d) = riv_nbits (nof_prb cell) + 12) as Hlen by (by eapply order_len).
  assert (riv_nbits (nof_prb cell) + 15 <= n <= 60) as Hsz by (by eapply order_size).
  pose proof (riv_nbits_bound _ Hprb) as Hrl.
  assert (ends (dci_format1As_pack cell sf c d) (order_shape cell d) n) as Hends by (by eapply order_ends).
  pose proof (ends_written _ _ _ (m_payload msg) Hends ltac:(lia)) as Hw.
  set (msg' := set_m_nof_bits n (set_m_payload (written (order_shape cell d ++ zeros (n - zlen (order_shape cell d))) (m_payload msg))
    (dl_message d msg))).
  exists msg'. split.
  - unfold srsran_dci_msg_pack_pdsch. fold c. fold (dl_message d msg). change (m_format (dl_message d msg)) with (d_format d).
    rewrite Ef. unfold run_pack. change (m_payload (dl_message d msg)) with (m_payload msg). rewrite Hw. reflexivity.
  - rewrite (unpack_fdd cell sf cfg Hfdd _ d) by done. rewrite Ef. fold c.
    erewrite (order_unpack cell sf c d n) by done.
    assert (set_m_format SRSRAN_DCI_FORMAT1A msg' = msg') as ->; [| done]. rewrite <- Ef. done.
Qed.

(** ** Examples *)

Definition empty_msg : srsran_dci_msg_t :=
  DciMessage (replicate 128 0) 0 zero_location SRSRAN_DCI_FORMAT0 0 (S754_zero false) (S754_zero false).

(** Forty resource blocks from 17 on in a cell of 100. *)
Definition grant_40 : srsran_dci_ul_t :=
  set_u_rnti 70 (set_u_freq_hop_fl SRSRAN_RA_PUSCH_HOP_DISABLED (set_u_tb (DciTbInfo 20 0 true 0)
    (set_u_type2 (set_riv 3917 zero_type2) zero_ul))).

Lemma dci_ul_roundtrip_witness :
  exists msg', srsran_dci_msg_pack_pusch cell_100 zero_dl_sf_cfg None grant_40 empty_msg = Some (SRSRAN_SUCCESS, msg') /\
    srsran_dci_format_sizeof cell_100 (Some zero_dl_sf_cfg) None SRSRAN_DCI_FORMAT0 = Some (m_nof_bits msg') /\
    srsran_dci_msg_unpack_pusch cell_100 zero_dl_sf_cfg None msg'
      = Some (SRSRAN_SUCCESS, set_m_format SRSRAN_DCI_FORMAT0 msg', carried_ul zero_dci_cfg grant_40).
Proof.
  apply (dci_ul_roundtrip cell_100 zero_dl_sf_cfg None grant_40 empty_msg); [vm_compute; by split | done | | done].
  split; vm_compute; (done || by split).
Defined.

Definition assignment_1A : srsran_dci_dl_t :=
  set_d_rnti 70 (set_d_format SRSRAN_DCI_FORMAT1A (set_d_alloc_type SRSRAN_RA_ALLOC_TYPE2
    (set_d_alloc (Type2 3917 0 0 SRSRAN_RA_TYPE2_LOC) (set_d_tb0 (DciTbInfo 9 2 true 0) (set_d_pid 5 zero_dl))))).

Lemma dci_dl_roundtrip_witness :
  exists msg', srsran_dci_msg_pack_pdsch cell_100 zero_dl_sf_cfg None assignment_1A empty_msg = Some (SRSRAN_SUCCESS, msg') /\
    srsran_dci_format_sizeof cell_100 (Some zero_dl_sf_cfg) None SRSRAN_DCI_FORMAT1A = Some (m_nof_bits msg') /\
    srsran_dci_msg_unpack_pdsch cell_100 zero_dl_sf_cfg None msg'
      = Some (SRSRAN_SUCCESS, msg', carried_dl cell_100 zero_dci_cfg assignment_1A).
Proof.
  apply (dci_dl_roundtrip cell_100 zero_dl_sf_cfg None assignment_1A empty_msg); [vm_compute; by split | done | done |].
  split; split; vm_compute; (done || by split).
Defined.

Definition order_12 : srsran_dci_dl_t :=
  set_d_rnti 70 (set_d_format SRSRAN_DCI_FORMAT1A (set_d_is_pdcch_order true (set_d_preamble_idx 12 (set_d_prach_mask_idx 3 zero_dl)))).

Lemma pdcch_order_roundtrip_witness :
  exists msg', srsran_dci_msg_pack_pdsch cell_100 zero_dl_sf_cfg None order_12 empty_msg = Some (SRSRAN_SUCCESS, msg') /\
    srsran_dci_msg_unpack_pdsch cell_100 zero_dl_sf_cfg None msg' = Some (SRSRAN_SUCCESS, msg', carried_order order_12).
Proof. apply (pdcch_order_roundtrip cell_100 zero_dl_sf_cfg None order_12 empty_msg); vm_compute; (done || by split). Defined.

(** With gap 2 in format 1C, cells of fifty resource blocks and more pack messages of another
    length than the size of the format, which the receiver refuses. *)
Definition assignment_1C (gap : Z) : srsran_dci_dl_t :=
  set_d_rnti 65535 (set_d_format SRSRAN_DCI_FORMAT1C (set_d_alloc_type SRSRAN_RA_ALLOC_TYPE2
    (set_d_alloc (Type2 3 0 gap SRSRAN_RA_TYPE2_DIST) (set_d_tb0 (DciTbInfo 9 0 false 0) zero_dl)))).

Definition outcome_1C (nof_prb gap : Z) : option (Z * Z * Z) :=
  let cell := Cell nof_prb 2 1 SRSRAN_CP_NORM SRSRAN_FDD in
  '(c, m) ← srsran_dci_msg_pack_pdsch cell zero_dl_sf_cfg None (assignment_1C gap) empty_msg;
  '(c', _, _) ← srsran_dci_msg_unpack_pdsch cell zero_dl_sf_cfg None m;
  Some (c, m_nof_bits m, c').

Example gap_1_messages : (fun n => outcome_1C n SRSRAN_RA_TYPE2_NG1) <$> [25; 50; 75; 100]
  = [Some (0, 12, 0); Some (0, 13, 0); Some (0, 14, 0); Some (0, 15, 0)].
Proof. by vm_compute. Qed.

Example gap_2_messages : (fun n => outcome_1C n SRSRAN_RA_TYPE2_NG2) <$> [50; 75; 100]
  = [Some (0, 14, -1); Some (0, 16, -1); Some (0, 17, -1)].
Proof. by vm_compute. Qed.
