(* ===== verification/RaAlloc.v ===== *)
(** * Resource blocks of a downlink assignment ([lib/src/phy/phch/ra_dl.c], first part)

    [srsran_ra_dl_grant_to_grant_prb_allocation] marks, in the two arrays of a grant, the
    resource blocks that an unpacked DCI assigns in each slot, and counts them. A write
    outside the arrays, which have 110 cells, is [None]. *)

From S2P Require Export DciPack.

(** ** Marking *)

(** The variables the loops change: the code to return, the two arrays and the count. Once
    the code is an error the function has returned. *)
Record marking := Marking { mk_code : Z; mk_slot0 : list bool; mk_slot1 : list bool; mk_count : Z }.

Definition no_prb : list bool := replicate 110 false.

(** [grant->prb_idx[0][idx] = true; grant->nof_prb++] *)
Definition mark0 (idx : Z) (s : marking) : option marking :=
  l ← zset (mk_slot0 s) idx true; Some (Marking (mk_code s) l (mk_slot1 s) (u32 (mk_count s + 1))).

(** [memcpy(&grant->prb_idx[1], &grant->prb_idx[0], ...)], unless the function has returned. *)
Definition copy_slot (s : marking) : marking :=
  if mk_code s =? SRSRAN_SUCCESS then Marking (mk_code s) (mk_slot0 s) (mk_slot0 s) (mk_count s) else s.

Definition returned (s : marking) : bool := negb (mk_code s =? SRSRAN_SUCCESS).
Definition return_error (s : marking) : marking := Marking SRSRAN_ERROR (mk_slot0 s) (mk_slot1 s) (mk_count s).

Section alloc.
Context (nof_prb : Z).
Abbreviation P := (srsran_ra_type0_P nof_prb).

(** ** Type 0: a bit for each group of [P] blocks *)

Definition alloc_type0 (bitmask : Z) (s : marking) : option marking :=
  let nb := ceilf_quot nof_prb P in
  s ← for_range 0 nb (fun s i =>
    if Z.testbit bitmask (nb - i - 1) then
      for_range 0 P (fun s j => if u32 (i * P + j) <? nof_prb then mark0 (u32 (i * P + j)) s else Some s) s
    else Some s) s;
  Some (copy_slot s).

(** ** Type 1: a bit for each block of a subset of the groups *)

Definition n_rb_rbg_subset (subset : Z) : Z :=
  let temp := (nof_prb - 1) / P mod P in
  if subset <? temp then (nof_prb - 1) / (P * P) * P + P
  else if subset =? temp then (nof_prb - 1) / (P * P) * P + (nof_prb - 1) mod P + 1
  else (nof_prb - 1) / (P * P) * P.

(** The block of a position of the subset; [i + shift] is unsigned. *)
Definition type1_idx (subset k : Z) : Z := u32 (u32 k / P * P * P + subset * P + u32 k mod P).

Definition alloc_type1 (bitmask subset : Z) (shifted : bool) (s : marking) : option marking :=
  if P <=? subset then Some (return_error s)
  else
    let n_rb_type1 := srsran_ra_type1_N_rb nof_prb in
    let shift := if shifted then s32 (n_rb_rbg_subset subset - n_rb_type1) else 0 in
    s ← for_range 0 n_rb_type1 (fun s i =>
      if returned s then Some s
      else if Z.testbit bitmask (n_rb_type1 - i - 1) then
        let idx := type1_idx subset (i + shift) in
        if idx <? nof_prb then mark0 idx s else Some (return_error s)
      else Some s) s;
    Some (copy_slot s).

(** ** Type 2: a range of virtual blocks *)

Definition alloc_local (L_crb RB_start : Z) (s : marking) : option marking :=
  s ← for_range 0 L_crb (fun s i => mark0 (u32 (i + RB_start)) s) s; Some (copy_slot s).

(** The variables of the map from virtual to physical blocks: the size of the interleaver and
    the gap. Both divisions are C's, on [int]. *)
Definition dist_params (n_gap : Z) : option (Z * Z) :=
  let gap_1 := n_gap =? SRSRAN_RA_TYPE2_NG1 in
  n ← srsran_ra_type2_n_vrb_dl nof_prb true;
  Some (if gap_1 then n else 2 * n, srsran_ra_type2_ngap nof_prb gap_1).

(** The blocks of the two slots before the gap. *)
Definition dist_tilde (N_tilde_vrb n_vrb : Z) : Z * Z :=
  let N_row := ceilf_quot N_tilde_vrb (4 * P) * P in
  let N_null := 4 * N_row - N_tilde_vrb in
  let n_tilde_vrb := Z.rem n_vrb N_tilde_vrb in
  let n_tilde_prb := 2 * N_row * Z.rem n_tilde_vrb 2 + Z.quot n_tilde_vrb 2 + N_tilde_vrb * Z.quot n_vrb N_tilde_vrb in
  let n_tilde2_prb := N_row * Z.rem n_tilde_vrb 4 + Z.quot n_tilde_vrb 4 + N_tilde_vrb * Z.quot n_vrb N_tilde_vrb in
  let odd :=
    if negb (N_null =? 0) && (N_tilde_vrb - N_null <=? n_tilde_vrb) && (Z.rem n_tilde_vrb 2 =? 1)
    then n_tilde_prb - N_row
    else if negb (N_null =? 0) && (N_tilde_vrb - N_null <=? n_tilde_vrb) && (Z.rem n_tilde_vrb 2 =? 0)
    then n_tilde_prb - N_row + Z.quot N_null 2
    else if negb (N_null =? 0) && (n_tilde_vrb <? N_tilde_vrb - N_null) && (2 <=? Z.rem n_tilde_vrb 4)
    then n_tilde2_prb - Z.quot N_null 2
    else n_tilde2_prb in
  (odd, Z.rem (odd + Z.quot N_tilde_vrb 2) N_tilde_vrb + N_tilde_vrb * Z.quot n_vrb N_tilde_vrb).

(** Above half the interleaver, the gap is added. *)
Definition dist_prb (N_tilde_vrb N_gap n_tilde : Z) : Z :=
  if n_tilde <? Z.quot N_tilde_vrb 2 then n_tilde else n_tilde + N_gap - Z.quot N_tilde_vrb 2.

(** The blocks of the two slots for a virtual block; [None] is the division by zero. *)
Definition dist_prbs (n_gap n_vrb : Z) : option (Z * Z) :=
  '(N_tilde_vrb, N_gap) ← dist_params n_gap;
  if N_tilde_vrb =? 0 then None
  else
    let '(odd, even) := dist_tilde N_tilde_vrb n_vrb in
    Some (dist_prb N_tilde_vrb N_gap odd, dist_prb N_tilde_vrb N_gap even).

(** One virtual block. The comparisons with [nof_prb] are unsigned. *)
Definition dist_step (n_gap n_vrb : Z) (s : marking) : option marking :=
  '(p0, p1) ← dist_prbs n_gap n_vrb;
  if u32 p0 <? nof_prb then
    s ← mark0 p0 s;
    if u32 p1 <? nof_prb then
      l ← zset (mk_slot1 s) p1 true; Some (Marking (mk_code s) (mk_slot0 s) l (mk_count s))
    else Some (return_error s)
  else Some (return_error s).

Definition alloc_dist (n_gap L_crb RB_start : Z) (s : marking) : option marking :=
  for_range 0 L_crb (fun s i => if returned s then Some s else dist_step n_gap (s32 (i + RB_start)) s) s.

(** The range of virtual blocks of a RIV; in format 1C it counts in steps. *)
Definition type2_range (format : srsran_dci_format_t) (a : srsran_ra_type2_t) : option (Z * Z) :=
  nof_vrb ← (if mode a =? SRSRAN_RA_TYPE2_LOC then Some nof_prb
             else srsran_ra_type2_n_vrb_dl nof_prb (n_gap a =? SRSRAN_RA_TYPE2_NG1));
  if decide (format = SRSRAN_DCI_FORMAT1C) then
    let n_step := srsran_ra_type2_n_rb_step nof_prb in
    '(L_crb, RB_start) ← srsran_ra_type2_from_riv (riv a) (nof_vrb / n_step) (nof_vrb / n_step);
    Some (u32 (L_crb * n_step), u32 (RB_start * n_step))
  else srsran_ra_type2_from_riv (riv a) nof_prb nof_vrb.

Definition alloc_type2 (format : srsran_dci_format_t) (a : srsran_ra_type2_t) (s : marking) : option marking :=
  '(L_crb, RB_start) ← type2_range format a;
  if mode a =? SRSRAN_RA_TYPE2_LOC then alloc_local L_crb RB_start s else alloc_dist (n_gap a) L_crb RB_start s.
End alloc.

(** The whole function, on the fields of the grant it writes. *)
Definition srsran_ra_dl_grant_to_grant_prb_allocation (dci : srsran_dci_dl_t) (nof_prb : Z) (s : marking) : option marking :=
  let a := d_alloc dci in
  if d_alloc_type dci =? SRSRAN_RA_ALLOC_TYPE0 then alloc_type0 nof_prb (rbg_bitmask a) s
  else if d_alloc_type dci =? SRSRAN_RA_ALLOC_TYPE1 then alloc_type1 nof_prb (vrb_bitmask a) (rbg_subset a) (shift a) s
  else if d_alloc_type dci =? SRSRAN_RA_ALLOC_TYPE2 then alloc_type2 nof_prb (d_format dci) a s
  else Some (return_error s).

(** In a cleared grant. *)
Definition start_marking : marking := Marking SRSRAN_SUCCESS no_prb no_prb 0.

(** ** Marks and their number *)

(** The number of blocks marked in a slot. *)
Definition nof_marked (l : list bool) : Z := zlen (filter (fun b => b = true) l).

Lemma nof_marked_range l : 0 <= nof_marked l <= zlen l.
Proof. unfold nof_marked, zlen. pose proof (length_filter (fun b => b = true) l). lia. Qed.

Lemma nof_marked_set l i : zget l i = Some false -> nof_marked (<[Z.to_nat i := true]> l) = nof_marked l + 1.
Proof.
  intros Hi. pose proof (zget_inv _ _ _ Hi) as Hr. destruct (zsplit l i Hr) as (l1 & x & l2 & -> & <-).
  rewrite zget_app_mid in Hi by done. injection Hi as ->. unfold zlen at 1. rewrite Nat2Z.id.
  rewrite insert_app_r_alt, Nat.sub_diag by lia. cbn [insert list_insert]. unfold nof_marked.
  rewrite !filter_app, !filter_cons, !zlen_app, decide_True, decide_False, zlen_cons by done. lia.
Qed.

(** The marks of a slot are the blocks of a set. *)
Definition marks (l : list bool) (Q : Z -> Prop) : Prop :=
  zlen l = 110 /\ forall k, zget l k = Some true <-> Q k.

Lemma marks_ext l Q R : (forall k, Q k <-> R k) -> marks l Q -> marks l R.
Proof. intros H [Hl Hm]. split; [done |]. intros k. by rewrite Hm. Qed.

Lemma marks_no_prb : marks no_prb (fun _ => False).
Proof.
  split; [done |]. intros k. split; [| done]. intros H. pose proof (zget_inv _ _ _ H) as Hr. unfold in_range in Hr.
  rewrite zget_lookup in H by lia. apply lookup_replicate_1 in H as [? _]. done.
Qed.

Lemma marks_set l Q i : marks l Q -> 0 <= i < 110 ->
  zset l i true = Some (<[Z.to_nat i := true]> l) /\ marks (<[Z.to_nat i := true]> l) (fun k => Q k \/ k = i) /\
  (~ Q i -> nof_marked (<[Z.to_nat i := true]> l) = nof_marked l + 1).
Proof.
  intros [Hl Hm] Hi. assert (in_range l i) as Hr by (unfold in_range; lia). split_and!.
  - by apply zset_in.
  - split; [by rewrite zlen_insert |]. intros k. destruct (Z.eq_dec k i) as [-> | Hne].
    + rewrite zget_insert_eq by done. split; [by right | done].
    + rewrite zget_insert_ne by lia. rewrite Hm. split; [by left | by intros [? | ?]].
  - intros Hq. apply nof_marked_set. destruct (zget_some l i Hr) as [[] E]; [| done]. by apply Hm in E.
Qed.

(** No code has been returned, slot 0 has the marks [Q], and they have been counted. *)
Record marking_ok (s : marking) (Q : Z -> Prop) (slot1 : list bool) : Prop := MarkingOk {
  mo_code : mk_code s = SRSRAN_SUCCESS;
  mo_marks : marks (mk_slot0 s) Q;
  mo_slot1 : mk_slot1 s = slot1;
  mo_count : mk_count s = nof_marked (mk_slot0 s)
}.

Lemma marking_ok_ext s Q R s1 : (forall k, Q k <-> R k) -> marking_ok s Q s1 -> marking_ok s R s1.
Proof. intros H [H1 H2 H3 H4]. split; [done | by apply (marks_ext _ Q) | done | done]. Qed.

Lemma mark0_ok s Q s1 i : marking_ok s Q s1 -> 0 <= i < 110 -> ~ Q i ->
  exists s', mark0 i s = Some s' /\ marking_ok s' (fun k => Q k \/ k = i) s1.
Proof.
  intros [H1 H2 H3 H4] Hi Hq. destruct (marks_set _ _ _ H2 Hi) as (E & Hm & Hn). specialize (Hn Hq).
  unfold mark0. rewrite E. eexists. split; [done |]. split; [done | done | done |]. cbn [mk_count mk_slot0].
  rewrite Hn, <- H4. apply uwrap_small. pose proof (nof_marked_range (mk_slot0 s)). destruct H2 as [Hl _]. unfold is_uint. lia.
Qed.

Lemma start_marking_ok : marking_ok start_marking (fun _ => False) no_prb.
Proof. split; [done | apply marks_no_prb | done | done]. Qed.

(** ** What each type assigns *)

Section assigned.
Context (nof_prb : Z).
Abbreviation P := (srsran_ra_type0_P nof_prb).

(** The blocks of the groups whose bits are set, the first group having the highest bit. *)
Definition assigned_type0 (bitmask k : Z) : Prop :=
  0 <= k < nof_prb /\ Z.testbit bitmask (ceilf_quot nof_prb P - k / P - 1) = true.

Lemma type0_P_cases : P = 1 \/ P = 2 \/ P = 3 \/ P = 4.
Proof. unfold srsran_ra_type0_P. repeat zcase; tauto. Qed.

Lemma alloc_type0_spec bitmask s : 1 <= nof_prb <= 110 -> marking_ok s (fun _ => False) (mk_slot1 s) ->
  exists s', alloc_type0 nof_prb bitmask s = Some s' /\ marking_ok s' (assigned_type0 bitmask) (mk_slot0 s').
Proof.
  intros Hn Hs. pose proof type0_P_cases as HP. unfold alloc_type0, assigned_type0. cbv zeta.
  set (p := P) in *. clearbody p. set (nb := ceilf_quot nof_prb p).
  assert (nof_prb <= nb * p < nof_prb + p) as Hnb by (unfold nb, ceilf_quot; destruct HP as [-> | [-> | [-> | ->]]]; lia).
  assert (0 <= nb <= 110) as Hnb' by nia.
  set (T := fun k => Z.testbit bitmask (nb - k / p - 1) = true).
  loop_inv (fun i s' => marking_ok s' (fun k => (0 <= k < nof_prb /\ T k) /\ k < i * p) (mk_slot1 s)) as (s' & -> & Hs').
  - lia.
  - revert Hs. apply marking_ok_ext. intros k. split; [done | lia].
  - intros i t Hi Ht. assert (forall k, i * p <= k < (i + 1) * p -> k / p = i) as Hdiv.
    { intros k Hk. symmetry. apply (Z.div_unique k p i (k - i * p)); nia. }
    destruct (Z.testbit bitmask (nb - i - 1)) eqn:Eb.
    + loop_inv (fun j s' => marking_ok s' (fun k => (0 <= k < nof_prb /\ T k) /\ k < i * p + j) (mk_slot1 s)) as (t' & -> & Ht').
      * lia.
      * revert Ht. apply marking_ok_ext. intros k. by rewrite Z.add_0_r.
      * intros j u Hj Hu. assert (i * p + j < nb * p) by nia. u32s. zcase.
        -- destruct (mark0_ok u _ _ (i * p + j) Hu) as (u' & -> & Hu'); [nia | lia |]. exists u'. split; [done |].
           revert Hu'. apply marking_ok_ext. intros k. assert (T (i * p + j)) by (unfold T; by rewrite Hdiv by nia).
           split; [intros [? | ->]; [split; [tauto | lia] | split; [split; [nia | done] | lia]] |].
           intros [? ?]. destruct (Z.eq_dec k (i * p + j)); [by right | left; split; [done | lia]].
        -- exists u. split; [done |]. revert Hu. apply marking_ok_ext. intros k. split; (intros [[? ?] ?]; split; [done | lia]).
      * exists t'. split; [done |]. revert Ht'. apply marking_ok_ext. intros k. by replace (i * p + p) with ((i + 1) * p) by lia.
    + exists t. split; [done |]. revert Ht. apply marking_ok_ext. intros k.
      split; [intros [? ?]; split; [done | nia] |]. intros [[? Hk] ?]. split; [done |].
      destruct (Z.lt_ge_cases k (i * p)); [done |]. exfalso. unfold T in Hk. rewrite Hdiv in Hk by lia. congruence.
  - cbn [mbind option_bind]. unfold copy_slot. destruct Hs' as [H1 H2 H3 H4]. rewrite H1. cbn [Z.eqb].
    eexists. split; [done |]. split; cbn [mk_code mk_slot0 mk_slot1 mk_count]; [done | | done | done].
    revert H2. apply marks_ext. intros k. fold (T k). split; [tauto | intros [? ?]; split; [done | lia]].
Qed.

(** Position [i] of the subset has block [type1_idx]. *)
Definition type1_shift (subset : Z) (shifted : bool) : Z :=
  if shifted then s32 (n_rb_rbg_subset nof_prb subset - srsran_ra_type1_N_rb nof_prb) else 0.

Definition assigned_type1 (bitmask subset : Z) (shifted : bool) (m k : Z) : Prop :=
  exists i, 0 <= i < m /\ Z.testbit bitmask (srsran_ra_type1_N_rb nof_prb - i - 1) = true /\
    k = type1_idx nof_prb subset (i + type1_shift subset shifted).

Definition assigned_local (L_crb RB_start k : Z) : Prop := RB_start <= k < RB_start + L_crb.

(** Slot [slot] of a distributed allocation. *)
Definition assigned_dist (n_gap L_crb RB_start : Z) (slot1 : bool) (k : Z) : Prop :=
  exists i p0 p1, 0 <= i < L_crb /\ dist_prbs nof_prb n_gap (i + RB_start) = Some (p0, p1) /\ k = if slot1 then p1 else p0.

Lemma alloc_local_spec L RB s : rb_range L RB 110 -> marking_ok s (fun _ => False) (mk_slot1 s) ->
  exists s', alloc_local L RB s = Some s' /\ marking_ok s' (assigned_local L RB) (mk_slot0 s').
Proof.
  intros (H1 & H2 & H3) Hs. unfold alloc_local, assigned_local.
  loop_inv (fun i s' => marking_ok s' (fun k => RB <= k < RB + i) (mk_slot1 s)) as (s' & -> & Hs').
  - lia.
  - revert Hs. apply marking_ok_ext. intros k. split; [done | lia].
  - intros i t Hi Ht. u32s. destruct (mark0_ok t _ _ (i + RB) Ht) as (t' & -> & Ht'); [lia | lia |].
    exists t'. split; [done |]. revert Ht'. apply marking_ok_ext. intros k. lia.
  - cbn [mbind option_bind]. unfold copy_slot. destruct Hs' as [E1 E2 E3 E4]. rewrite E1. cbn [Z.eqb].
    eexists. split; [done |]. by split.
Qed.
End assigned.

(** ** The maps of types 1 and 2 are injective *)

Lemma nodup_inj (f : Z -> Z) m i j : NoDup (f <$> seqZ 0 m) -> 0 <= i < m -> 0 <= j < m -> f i = f j -> i = j.
Proof.
  intros Hd Hi Hj E. assert (Z.to_nat i = Z.to_nat j); [| lia]. apply (NoDup_lookup _ _ _ (f i) Hd).
  - rewrite list_lookup_fmap, lookup_seqZ_lt by lia. simpl. do 2 f_equal. lia.
  - rewrite list_lookup_fmap, lookup_seqZ_lt by lia. simpl. rewrite E. do 2 f_equal. lia.
Qed.

(** The blocks of a subset, in a cell of [n + 1] blocks: distinct and in the cell. *)
Definition type1_check (n subset : Z) (shifted : bool) : bool :=
  let f i := type1_idx n subset (i + type1_shift n subset shifted) in
  let l := f <$> seqZ 0 (srsran_ra_type1_N_rb n) in
  bool_decide (NoDup l) && forallb (fun k => (0 <=? k) && (k <? n)) l && (srsran_ra_type1_N_rb n <=? 110).

Lemma type1_checked n subset shifted : 1 <= n <= 110 -> 0 <= subset < srsran_ra_type0_P n -> type1_check n subset shifted = true.
Proof.
  intros Hn Hs.
  assert (forallb (fun s => type1_check n s true && type1_check n s false) (seqZ 0 (srsran_ra_type0_P n)) = true) as H.
  { replace n with (n - 1 + 1) by lia.
    apply (forallb_below 110 (fun i => forallb (fun s => type1_check (i + 1) s true && type1_check (i + 1) s false)
      (seqZ 0 (srsran_ra_type0_P (i + 1))))); [by vm_compute | lia]. }
  apply (forallb_below _ _ H) in Hs. destruct shifted; apply andb_prop in Hs as [? ?]; done.
Qed.

Lemma type1_idx_range n subset shifted i : 1 <= n <= 110 -> 0 <= subset < srsran_ra_type0_P n ->
  0 <= i < srsran_ra_type1_N_rb n -> 0 <= type1_idx n subset (i + type1_shift n subset shifted) < n.
Proof.
  intros Hn Hsub Hi. pose proof (type1_checked n subset shifted Hn Hsub) as Hc. unfold type1_check in Hc.
  apply andb_prop in Hc as [[_ Hb]%andb_prop _]. rewrite forallb_forall in Hb.
  set (f := fun i => type1_idx n subset (i + type1_shift n subset shifted)) in *.
  assert (f i ∈ f <$> seqZ 0 (srsran_ra_type1_N_rb n)) as Hin%list_elem_of_In by (apply list_elem_of_fmap_2, elem_of_seqZ; lia).
  apply Hb in Hin. fold (f i). lia.
Qed.

Lemma alloc_type1_spec n bitmask subset shifted s :
  1 <= n <= 110 -> 0 <= subset < srsran_ra_type0_P n -> marking_ok s (fun _ => False) (mk_slot1 s) ->
  exists s', alloc_type1 n bitmask subset shifted s = Some s' /\
    marking_ok s' (assigned_type1 n bitmask subset shifted (srsran_ra_type1_N_rb n)) (mk_slot0 s').
Proof.
  intros Hn Hsub Hs. pose proof (type1_checked n subset shifted Hn Hsub) as Hc. unfold type1_check in Hc.
  set (N := srsran_ra_type1_N_rb n) in *. set (f := fun i => type1_idx n subset (i + type1_shift n subset shifted)) in *.
  apply andb_prop in Hc as [[Hd%bool_decide_eq_true Hb]%andb_prop HN].
  assert (0 <= N) as HN0 by (unfold N, srsran_ra_type1_N_rb; by apply uwrap_is_uint).
  assert (forall i, 0 <= i < N -> 0 <= f i < n) as Hf by (intros i Hi; by apply type1_idx_range).
  unfold alloc_type1. cbv zeta. destruct (Z.leb_spec (srsran_ra_type0_P n) subset); [lia |].
  fold (type1_shift n subset shifted). fold N.
  loop_inv (fun i s' => marking_ok s' (assigned_type1 n bitmask subset shifted i) (mk_slot1 s)) as (s' & -> & Hs').
  - done.
  - revert Hs. apply marking_ok_ext. intros k. split; [done | intros (i & ? & _); lia].
  - intros i t Hi Ht. unfold returned. rewrite (mo_code _ _ _ Ht). cbn [Z.eqb negb SRSRAN_SUCCESS].
    fold (f i). destruct (Z.testbit bitmask (N - i - 1)) eqn:Eb.
    + pose proof (Hf i Hi). destruct (Z.ltb_spec (f i) n); [| lia].
      destruct (mark0_ok t _ _ (f i) Ht) as (t' & -> & Ht'); [lia | |].
      { intros (j & Hj & _ & E). pose proof (nodup_inj f N i j Hd Hi ltac:(lia) E). lia. }
      exists t'. split; [done |]. revert Ht'. apply marking_ok_ext. intros k. split.
      * intros [(j & ? & ? & ->) | ->]; [exists j; split_and!; [lia.. | done | done] | exists i; split_and!; [lia.. | done | done]].
      * intros (j & ? & ? & ->). destruct (Z.eq_dec j i) as [-> | ]; [by right | left; exists j; split_and!; [lia.. | done | done]].
    + exists t. split; [done |]. revert Ht. apply marking_ok_ext. intros k.
      split; intros (j & ? & Hj & ->); exists j; (split_and!; [lia | | done | done]); [lia |].
      destruct (Z.eq_dec j i) as [-> |]; [fold N in Hj; congruence | lia].
  - cbn [mbind option_bind]. unfold copy_slot. destruct Hs' as [H1 H2 H3 H4]. rewrite H1. cbn [Z.eqb].
    eexists. split; [done |]. by split.
Qed.

(** A distributed allocation looks at fewer than 240 virtual blocks. *)
Definition small (p : Z) : bool := (-10000 <? p) && (p <? 10000).
Definition prbs_small (n gap v : Z) : bool :=
  match dist_prbs n gap v with Some (p0, p1) => small p0 && small p1 | None => false end.

Lemma dist_prbs_gap n gap v : dist_prbs n gap v = dist_prbs n (if gap =? SRSRAN_RA_TYPE2_NG1 then 0 else 1) v.
Proof. unfold dist_prbs, dist_params. by destruct (gap =? SRSRAN_RA_TYPE2_NG1). Qed.

Lemma dist_prbs_some n gap v : 6 <= n <= 110 -> 0 <= v < 240 ->
  exists p0 p1, dist_prbs n gap v = Some (p0, p1) /\ -10000 < p0 < 10000 /\ -10000 < p1 < 10000.
Proof.
  intros Hn Hv. rewrite dist_prbs_gap. set (g := if gap =? _ then 0 else 1).
  assert (g = 0 \/ g = 1) as Hg by (unfold g; destruct (gap =? _); lia). clearbody g.
  assert (forallb (fun v => prbs_small n 0 v && prbs_small n 1 v) (seqZ 0 240) = true) as H.
  { replace n with (n - 6 + 6) by lia.
    apply (forallb_below 105 (fun i => forallb (fun v => prbs_small (i + 6) 0 v && prbs_small (i + 6) 1 v) (seqZ 0 240)));
      [by vm_compute | lia]. }
  apply (forallb_below _ _ H) in Hv. apply andb_prop in Hv as [H0 H1].
  assert (prbs_small n g v = true) as Hs by (by destruct Hg as [-> | ->]). unfold prbs_small, small in Hs.
  destruct (dist_prbs n g v) as [[p0 p1] |]; [| done]. exists p0, p1. split; [done | lia].
Qed.

(** With the first gap, distinct virtual blocks have distinct blocks in each slot. *)
Definition prb_of (n v : Z) (slot1 : bool) : Z :=
  match dist_prbs n 0 v with Some (p0, p1) => if slot1 then p1 else p0 | None => -1 end.

Definition dist_distinct (n : Z) : bool :=
  bool_decide (NoDup ((fun v => prb_of n v true) <$> seqZ 0 240)) && bool_decide (NoDup ((fun v => prb_of n v false) <$> seqZ 0 240)).

Lemma dist_injective n slot1 v w : 6 <= n <= 110 -> 0 <= v < 240 -> 0 <= w < 240 -> prb_of n v slot1 = prb_of n w slot1 -> v = w.
Proof.
  intros Hn Hv Hw. apply (nodup_inj (fun v => prb_of n v slot1) 240); [| done..].
  assert (dist_distinct n = true) as H.
  { replace n with (n - 6 + 6) by lia. apply (forallb_below 105 (fun i => dist_distinct (i + 6))); [by vm_compute | lia]. }
  apply andb_prop in H as [H1%bool_decide_eq_true H0%bool_decide_eq_true]. by destruct slot1.
Qed.

Record dist_ok (n gap L RB i : Z) (s : marking) : Prop := DistOk {
  do_code : mk_code s = SRSRAN_SUCCESS;
  do_slot0 : marks (mk_slot0 s) (assigned_dist n gap i RB false);
  do_slot1 : marks (mk_slot1 s) (assigned_dist n gap i RB true);
  do_count : mk_count s = i;
  do_cell : forall slot1 k, assigned_dist n gap i RB slot1 k -> 0 <= k < n;
  do_marked : gap = SRSRAN_RA_TYPE2_NG1 -> nof_marked (mk_slot0 s) = i /\ nof_marked (mk_slot1 s) = i
}.

Lemma assigned_dist_next n gap i RB slot1 p0 p1 k : 0 <= i -> dist_prbs n gap (i + RB) = Some (p0, p1) ->
  assigned_dist n gap (i + 1) RB slot1 k <-> assigned_dist n gap i RB slot1 k \/ k = if slot1 then p1 else p0.
Proof.
  intros Hi E. unfold assigned_dist. split.
  - intros (j & q0 & q1 & Hj & Eq & ->). destruct (Z.eq_dec j i) as [-> |].
    + rewrite E in Eq. injection Eq as <- <-. by right.
    + left. exists j, q0, q1. split_and!; [lia.. | done | done].
  - intros [(j & q0 & q1 & Hj & Eq & ->) | ->]; [exists j, q0, q1; split_and!; [lia.. | done | done] |].
    exists i, p0, p1. split_and!; [lia.. | done | done].
Qed.

Lemma assigned_dist_fresh n i RB slot1 p0 p1 : 6 <= n <= 110 -> 0 <= RB -> 0 <= i -> i + RB < 240 ->
  dist_prbs n 0 (i + RB) = Some (p0, p1) -> ~ assigned_dist n 0 i RB slot1 (if slot1 then p1 else p0).
Proof.
  intros Hn HRB Hi Hv E (j & q0 & q1 & Hj & Eq & Ek).
  assert (j + RB = i + RB); [| lia]. apply (dist_injective n slot1); [done | lia | lia |].
  unfold prb_of. rewrite E, Eq. by symmetry.
Qed.

(** One virtual block: the function returns an error, or both blocks are marked. *)
Lemma dist_step_spec n gap L RB i s : 6 <= n <= 110 -> 0 <= RB -> 0 <= i -> i + RB < 240 -> dist_ok n gap L RB i s ->
  exists s', dist_step n gap (i + RB) s = Some s' /\ (mk_code s' = SRSRAN_ERROR \/ dist_ok n gap L RB (i + 1) s').
Proof.
  intros Hn HRB Hi Hv [H1 H2 H3 H4 Hcell H5]. unfold dist_step.
  destruct (dist_prbs_some n gap (i + RB) Hn ltac:(lia)) as (p0 & p1 & E & Hp0 & Hp1). rewrite E. cbn [mbind option_bind].
  assert (forall p, -10000 < p < 10000 -> u32 p < n -> 0 <= p < n) as Hsm.
  { intros p Hp Hlt. unfold uwrap in Hlt. destruct (Z.lt_ge_cases p 0); [| rewrite Z.mod_small in Hlt by lia; lia].
    rewrite <- (Z_mod_plus_full p 1), Z.mod_small in Hlt by lia. lia. }
  destruct (Z.ltb_spec (u32 p0) n) as [Hl0 |]; [| eexists; split; [done | by left]].
  destruct (marks_set _ _ p0 H2) as (E0 & M0 & N0); [pose proof (Hsm p0 Hp0 Hl0); lia |]. unfold mark0. rewrite E0. cbn [mbind option_bind].
  destruct (Z.ltb_spec (u32 p1) n) as [Hl1 |]; [| eexists; split; [done | by left]].
  destruct (marks_set _ _ p1 H3) as (E1 & M1 & N1); [pose proof (Hsm p1 Hp1 Hl1); lia |]. cbn [mk_slot1]. rewrite E1. cbn [mbind option_bind].
  eexists. split; [done |]. right. split; cbn [mk_code mk_slot0 mk_slot1 mk_count]; [done | | | | |].
  - revert M0. apply marks_ext. intros k. by rewrite (assigned_dist_next n gap i RB false p0 p1 k Hi E).
  - revert M1. apply marks_ext. intros k. by rewrite (assigned_dist_next n gap i RB true p0 p1 k Hi E).
  - rewrite H4. apply uwrap_small. unfold is_uint. lia.
  - intros b k [Hk | ->]%(assigned_dist_next n gap i RB b p0 p1 k Hi E); [by apply (Hcell b) |].
    destruct b; [by apply Hsm | by apply Hsm].
  - intros ->. destruct (H5 eq_refl) as [C0 C1]. split; [rewrite N0, C0; [done |] | rewrite N1, C1; [done |]].
    + by apply (assigned_dist_fresh n i RB false p0 p1).
    + by apply (assigned_dist_fresh n i RB true p0 p1).
Qed.

Lemma alloc_dist_spec n gap L RB s : 6 <= n <= 110 -> 0 <= L -> 0 <= RB -> L + RB <= 240 -> dist_ok n gap L RB 0 s ->
  exists s', alloc_dist n gap L RB s = Some s' /\ (mk_code s' = SRSRAN_ERROR \/ dist_ok n gap L RB L s').
Proof.
  intros Hn HL HRB Hv Hs. unfold alloc_dist.
  loop_inv (fun i s' => mk_code s' = SRSRAN_ERROR \/ dist_ok n gap L RB i s') as (s' & -> & Hs').
  - done.
  - by right.
  - intros i t Hi [Ht | Ht]; unfold returned.
    + rewrite Ht. exists t. split; [done | by left].
    + rewrite (do_code _ _ _ _ _ _ Ht). cbn [Z.eqb negb SRSRAN_SUCCESS]. rewrite swrap_small by lia.
      apply (dist_step_spec n gap L RB); [done | done | lia | lia | done].
  - by exists s'.
Qed.

(** ** The range of virtual blocks *)

(** The RIVs below this bound decode to a range that stays in the arrays. *)
Definition riv_in_range (n : Z) (f : srsran_dci_format_t) (a : srsran_ra_type2_t) : Prop :=
  if decide (f = SRSRAN_DCI_FORMAT1C) then
    mode a <> SRSRAN_RA_TYPE2_LOC /\
    exists v, srsran_ra_type2_n_vrb_dl n (n_gap a =? SRSRAN_RA_TYPE2_NG1) = Some v /\
      let m := v / srsran_ra_type2_n_rb_step n in 0 <= riv a < m * (m + 1)
  else 0 <= riv a < n * (n + 1).

Lemma n_vrb_dl_bound n g v : 6 <= n <= 110 -> srsran_ra_type2_n_vrb_dl n g = Some v -> 6 <= v <= 220.
Proof.
  intros Hn. assert (2 < srsran_ra_type2_ngap n g <= n) as Hg by (unfold srsran_ra_type2_ngap; repeat zcase; destruct g; lia).
  assert (3 <= n - srsran_ra_type2_ngap n true) as Hg1 by (unfold srsran_ra_type2_ngap; repeat zcase; lia).
  unfold srsran_ra_type2_n_vrb_dl. cbv zeta. destruct g.
  - u32s. zcase; u32s; intros [= <-]; lia.
  - set (p := srsran_ra_type2_ngap n false) in *. clearbody p. destruct (Z.eqb_spec p 0); [lia |].
    assert (p <= n / p * p <= n) by (pose proof (Z.div_mod n p ltac:(lia)); pose proof (Z.mod_pos_bound n p ltac:(lia));
      assert (1 <= n / p) by (apply Z.div_le_lower_bound; lia); nia).
    rewrite uwrap_small by (unfold is_uint; lia). intros [= <-]. lia.
Qed.

Lemma n_vrb_dl_some n g : 6 <= n <= 110 -> exists v, srsran_ra_type2_n_vrb_dl n g = Some v.
Proof.
  intros Hn. unfold srsran_ra_type2_n_vrb_dl. cbv zeta. destruct g; [by eexists |].
  assert (0 < srsran_ra_type2_ngap n false) by (unfold srsran_ra_type2_ngap; repeat zcase; lia).
  destruct (Z.eqb_spec (srsran_ra_type2_ngap n false) 0); [lia | by eexists].
Qed.

Lemma from_riv_wide riv n v : 1 <= n <= 110 -> 0 <= riv < n * (n + 1) -> 6 <= v <= 220 ->
  exists L RB, srsran_ra_type2_from_riv riv n v = Some (L, RB) /\ 1 <= L <= n + 1 /\ 0 <= RB < n.
Proof.
  intros Hn Hr Hv. destruct (riv_split riv n) as (q & r & -> & Hr' & Hq); [lia | done |].
  unfold srsran_ra_type2_from_riv. destruct (Z.eqb_spec n 0); [lia |].
  assert ((n * q + r) / n = q) as -> by (rewrite Z.add_comm, Z.mul_comm, Z.div_add by lia; rewrite Z.div_small; lia).
  assert ((n * q + r) mod n = r) as -> by (rewrite Z.add_comm, Z.mul_comm, Z_mod_plus_full; apply Z.mod_small; lia).
  rewrite (uwrap_small 32 (q + 1)), (uwrap_small 32 (n - q + 1)), (uwrap_small 32 (n - r - 1)) by (unfold is_uint; lia).
  cbv zeta. zcase; eexists _, _; (split; [done | lia]).
Qed.

Lemma type2_range_local n f a : 6 <= n <= 110 -> mode a = SRSRAN_RA_TYPE2_LOC -> riv_in_range n f a ->
  exists L RB, type2_range n f a = Some (L, RB) /\ rb_range L RB n.
Proof.
  intros Hn Hm Hr. unfold type2_range, riv_in_range in *. rewrite Hm. cbn [Z.eqb SRSRAN_RA_TYPE2_LOC mbind option_bind].
  destruct (decide _) as [-> |]; [destruct Hr; congruence |]. apply from_riv_inside; [lia | done].
Qed.

Lemma type2_range_dist n f a : 6 <= n <= 110 -> mode a <> SRSRAN_RA_TYPE2_LOC -> riv_in_range n f a ->
  exists L RB, type2_range n f a = Some (L, RB) /\ 1 <= L /\ 0 <= RB /\ L + RB <= 240.
Proof.
  intros Hn Hm Hr. unfold type2_range, riv_in_range in *. apply Z.eqb_neq in Hm. rewrite Hm.
  destruct (n_vrb_dl_some n (n_gap a =? SRSRAN_RA_TYPE2_NG1) Hn) as (v & Ev). rewrite Ev in *. cbn [mbind option_bind].
  pose proof (n_vrb_dl_bound _ _ _ Hn Ev) as Hv. destruct (decide _) as [-> |].
  - destruct Hr as (_ & ? & [= <-] & Hr). cbv zeta in *. set (st := srsran_ra_type2_n_rb_step n) in *.
    assert (st = 2 \/ st = 4) as Hst by (unfold st, srsran_ra_type2_n_rb_step; zcase; lia). clearbody st.
    assert (1 <= v / st <= 110) by (destruct Hst as [-> | ->]; lia).
    destruct (from_riv_inside (riv a) (v / st)) as (L & RB & -> & H1 & H2 & H3); [lia | done |]. cbn [mbind option_bind].
    assert ((L + RB) * st <= v) by (destruct Hst as [-> | ->]; lia).
    rewrite !uwrap_small by (unfold is_uint; nia). exists (L * st), (RB * st). split_and!; [done | nia..].
  - destruct (from_riv_wide (riv a) n v) as (L & RB & -> & HL & HRB); [lia | done | done |]. exists L, RB. split_and!; [done | lia..].
Qed.

(** ** The whole function *)

(** An allocation the receiver can be asked for: any group bits, any subset, a RIV in range. *)
Definition alloc_in_range (n : Z) (dci : srsran_dci_dl_t) : Prop :=
  d_alloc_type dci = SRSRAN_RA_ALLOC_TYPE0 \/
  d_alloc_type dci = SRSRAN_RA_ALLOC_TYPE1 /\ 0 <= rbg_subset (d_alloc dci) \/
  d_alloc_type dci = SRSRAN_RA_ALLOC_TYPE2 /\ riv_in_range n (d_format dci) (d_alloc dci).

(** The blocks a DCI assigns in a slot. *)
Definition assigned (n : Z) (dci : srsran_dci_dl_t) (slot1 : bool) (k : Z) : Prop :=
  let a := d_alloc dci in
  if d_alloc_type dci =? SRSRAN_RA_ALLOC_TYPE0 then assigned_type0 n (rbg_bitmask a) k
  else if d_alloc_type dci =? SRSRAN_RA_ALLOC_TYPE1
  then assigned_type1 n (vrb_bitmask a) (rbg_subset a) (shift a) (srsran_ra_type1_N_rb n) k
  else exists L RB, type2_range n (d_format dci) a = Some (L, RB) /\
    if mode a =? SRSRAN_RA_TYPE2_LOC then assigned_local L RB k else assigned_dist n (n_gap a) L RB slot1 k.

(** A distributed allocation with the second gap. *)
Definition second_gap (dci : srsran_dci_dl_t) : Prop :=
  d_alloc_type dci = SRSRAN_RA_ALLOC_TYPE2 /\ mode (d_alloc dci) <> SRSRAN_RA_TYPE2_LOC /\
  n_gap (d_alloc dci) <> SRSRAN_RA_TYPE2_NG1.

(** What the caller gets from a successful call. *)
Record allocated (n : Z) (dci : srsran_dci_dl_t) (s : marking) : Prop := Allocated {
  al_code : mk_code s = SRSRAN_SUCCESS;
  al_slot0 : marks (mk_slot0 s) (assigned n dci false);
  al_slot1 : marks (mk_slot1 s) (assigned n dci true);
  al_cell : forall slot1 k, assigned n dci slot1 k -> 0 <= k < n;
  al_count : 0 <= mk_count s <= 240;
  al_marked : ~ second_gap dci -> mk_count s = nof_marked (mk_slot0 s) /\ mk_count s = nof_marked (mk_slot1 s)
}.

Lemma allocated_copied n dci s Q : marking_ok s Q (mk_slot0 s) -> (forall b k, Q k <-> assigned n dci b k) ->
  (forall k, Q k -> 0 <= k < n) -> allocated n dci s.
Proof.
  intros [H1 H2 H3 H4] HQ Hn. pose proof (nof_marked_range (mk_slot0 s)). pose proof (proj1 H2).
  split; [done | | | | lia |].
  - by apply (marks_ext _ Q), H2.
  - rewrite H3. by apply (marks_ext _ Q), H2.
  - intros b k Hk. apply Hn. by apply (HQ b).
  - rewrite H3. lia.
Qed.

Lemma dist_start n gap L RB : dist_ok n gap L RB 0 start_marking.
Proof.
  assert (forall b k, False <-> assigned_dist n gap 0 RB b k) as H by (intros b k; split; [done | intros (i & ? & ? & ? & _); lia]).
  split; [done | | | done | | done].
  - apply (marks_ext _ _ _ (H false)), marks_no_prb.
  - apply (marks_ext _ _ _ (H true)), marks_no_prb.
  - by intros b k ?%H.
Qed.

Lemma prb_allocation_ok n dci :
  6 <= n <= SRSRAN_MAX_PRB -> alloc_in_range n dci ->
  exists s, srsran_ra_dl_grant_to_grant_prb_allocation dci n start_marking = Some s /\
    (allocated n dci s \/
     mk_code s = SRSRAN_ERROR /\
     (d_alloc_type dci = SRSRAN_RA_ALLOC_TYPE1 /\ srsran_ra_type0_P n <= rbg_subset (d_alloc dci) \/
      d_alloc_type dci = SRSRAN_RA_ALLOC_TYPE2 /\ mode (d_alloc dci) <> SRSRAN_RA_TYPE2_LOC)).
Proof.
  unfold SRSRAN_MAX_PRB, alloc_in_range, srsran_ra_dl_grant_to_grant_prb_allocation. cbv zeta. intros Hn Hr.
  pose proof start_marking_ok as Hs.
  destruct Hr as [Et | [[Et Hsub] | [Et Hriv]]]; rewrite Et; cbn [Z.eqb Pos.eqb SRSRAN_RA_ALLOC_TYPE0 SRSRAN_RA_ALLOC_TYPE1 SRSRAN_RA_ALLOC_TYPE2].
  - destruct (alloc_type0_spec n (rbg_bitmask (d_alloc dci)) start_marking) as (s & -> & Hok); [lia | done |].
    exists s. split; [done |]. left. apply (allocated_copied n dci s _ Hok).
    + intros b k. unfold assigned. by rewrite Et.
    + by intros k [? _].
  - destruct (Z.lt_ge_cases (rbg_subset (d_alloc dci)) (srsran_ra_type0_P n)) as [Hlt | Hge].
    + destruct (alloc_type1_spec n (vrb_bitmask (d_alloc dci)) (rbg_subset (d_alloc dci)) (shift (d_alloc dci)) start_marking)
        as (s & -> & Hok); [lia.. | done |].
      exists s. split; [done |]. left. apply (allocated_copied n dci s _ Hok).
      * intros b k. unfold assigned. by rewrite Et.
      * intros k (i & Hi & _ & ->). apply (type1_idx_range n); [lia.. | done].
    + unfold alloc_type1. destruct (Z.leb_spec (srsran_ra_type0_P n) (rbg_subset (d_alloc dci))); [| lia].
      eexists. split; [done |]. right. split; [done |]. left. done.
  - unfold alloc_type2. destruct (Z.eqb_spec (mode (d_alloc dci)) SRSRAN_RA_TYPE2_LOC) as [Em | Em].
    + destruct (type2_range_local n _ _ Hn Em Hriv) as (L & RB & Er & HR). rewrite Er. cbn [mbind option_bind].
      destruct (alloc_local_spec L RB start_marking) as (s & -> & Hok); [destruct HR as (? & ? & ?); unfold rb_range; lia | done |].
      exists s. split; [done |]. left. apply (allocated_copied n dci s _ Hok).
      * intros b k. unfold assigned. rewrite Et, Em. cbn. split; [intros Hk; by exists L, RB |].
        intros (L' & RB' & Er' & Hk). rewrite Er in Er'. by injection Er' as <- <-.
      * intros k Hk. destruct HR as (? & ? & ?). unfold assigned_local in Hk. lia.
    + destruct (type2_range_dist n _ _ Hn Em Hriv) as (L & RB & Er & HL & HRB & HLRB). rewrite Er. cbn [mbind option_bind].
      destruct (alloc_dist_spec n (n_gap (d_alloc dci)) L RB start_marking) as (s & -> & Hok); [lia.. | apply dist_start |].
      exists s. split; [done |]. destruct Hok as [Hc | [H1 H2 H3 H4 H5 H6]]; [right; split; [done | by right] | left].
      assert (forall b k, assigned_dist n (n_gap (d_alloc dci)) L RB b k <-> assigned n dci b k) as HA.
      { intros b k. unfold assigned. rewrite Et. apply Z.eqb_neq in Em. rewrite Em. cbn. split; [intros Hk; by exists L, RB |].
        intros (L' & RB' & Er' & Hk). rewrite Er in Er'. by injection Er' as <- <-. }
      split; [done | by apply (marks_ext _ _ _ (HA false)) | by apply (marks_ext _ _ _ (HA true)) | | lia |].
      * intros b k ?%HA. by apply (H5 b).
      * intros Hg. assert (n_gap (d_alloc dci) = SRSRAN_RA_TYPE2_NG1) as Hg1.
        { destruct (Z.eq_dec (n_gap (d_alloc dci)) SRSRAN_RA_TYPE2_NG1); [done |]. by exfalso; apply Hg. }
        destruct (H6 Hg1). split; lia.
Qed.


(** *** Examples *)

Definition dl_alloc (t : Z) (f : srsran_dci_format_t) (a : srsran_ra_type2_t) : srsran_dci_dl_t :=
  set_d_format f (set_d_alloc_type t (set_d_alloc a zero_dl)).


Definition outcome (nof_prb : Z) (dci : srsran_dci_dl_t) : option (Z * list Z * list Z * Z) :=
  let marked l := filter (fun i => zget l i = Some true) (seqZ 0 (zlen l)) in
  s ← srsran_ra_dl_grant_to_grant_prb_allocation dci nof_prb start_marking;
  Some (mk_code s, marked (mk_slot0 s), marked (mk_slot1 s), mk_count s).

(** Groups 0 and 12 of a cell of 25 blocks, the last of which has one block. *)
Example two_groups : outcome 25 (dl_alloc 0 SRSRAN_DCI_FORMAT1 (Type2 0x1001 0 0 0)) = Some (0, [0; 1; 24], [0; 1; 24], 3).
Proof. by vm_compute. Qed.

(** Three virtual blocks from 5 on, distributed over a cell of 50 blocks. *)
Example three_distributed :
  outcome 50 (dl_alloc 2 SRSRAN_DCI_FORMAT1A (Type2 105 0 0 1)) = Some (0, [13; 28; 40], [1; 13; 40], 3).
Proof. by vm_compute. Qed.

(** With the second gap, virtual blocks collide: 41 blocks are counted and 38 marked. The
    interleaver is twice the number of virtual blocks of the first gap instead of twice the
    second gap. *)
Example second_gap_collides :
  (fun '(c, l0, l1, n) => (c, zlen l0, zlen l1, n)) <$> outcome 50 (dl_alloc 2 SRSRAN_DCI_FORMAT1A (Type2 2020 0 1 1)) = Some (0, 38, 39, 41).
Proof. by vm_compute. Qed.
