(* ===== verification/RaDl.v ===== *)
(** * Downlink grants ([lib/src/phy/phch/ra_dl.c], second part)

    The transport blocks, the resource elements and the MIMO configuration of a grant, and the
    functions that turn an unpacked DCI into a grant. NG-Scope calls the one without the MIMO
    configuration. *)

From S2P Require Export RaAlloc.

(** ** Data ([ra.h], [pdsch_cfg.h], [phy_common.h]) *)

Inductive srsran_tx_scheme_t :=
  | SRSRAN_TXSCHEME_PORT0 | SRSRAN_TXSCHEME_DIVERSITY | SRSRAN_TXSCHEME_SPATIALMUX | SRSRAN_TXSCHEME_CDD.
Inductive srsran_tm_t :=
  | SRSRAN_TM1 | SRSRAN_TM2 | SRSRAN_TM3 | SRSRAN_TM4 | SRSRAN_TM5 | SRSRAN_TM6 | SRSRAN_TM7 | SRSRAN_TM8 | SRSRAN_TMINV.

Record srsran_ra_tb_t := RaTbInfo {
  rt_mod : srsran_mod_t; rt_tbs : Z; rt_rv : Z; rt_nof_bits : Z; rt_cw_idx : Z; rt_enabled : bool; rt_mcs_idx : Z
}.

(** [pg_slot0] and [pg_slot1] are [prb_idx[0]] and [prb_idx[1]], [pg_tb0] and [pg_tb1] the
    transport blocks. *)
Record srsran_pdsch_grant_t := PdschGrantInfo {
  pg_tx_scheme : srsran_tx_scheme_t; pg_pmi : Z; pg_slot0 : list bool; pg_slot1 : list bool; pg_nof_prb : Z;
  pg_nof_re : Z; pg_nof_symb_slot0 : Z; pg_nof_symb_slot1 : Z; pg_tb0 : srsran_ra_tb_t; pg_tb1 : srsran_ra_tb_t;
  pg_last_tbs0 : Z; pg_last_tbs1 : Z; pg_nof_tb : Z; pg_nof_layers : Z
}.

(** A grant cleared by [bzero]. *)
Definition zero_ra_tb : srsran_ra_tb_t := RaTbInfo SRSRAN_MOD_BPSK 0 0 0 0 false 0.
Definition zero_grant : srsran_pdsch_grant_t :=
  PdschGrantInfo SRSRAN_TXSCHEME_PORT0 0 no_prb no_prb 0 0 0 0 zero_ra_tb zero_ra_tb 0 0 0 0.

Definition set_rt_mod x t := RaTbInfo x (rt_tbs t) (rt_rv t) (rt_nof_bits t) (rt_cw_idx t) (rt_enabled t) (rt_mcs_idx t).
Definition set_rt_tbs x t := RaTbInfo (rt_mod t) x (rt_rv t) (rt_nof_bits t) (rt_cw_idx t) (rt_enabled t) (rt_mcs_idx t).
Definition set_rt_rv x t := RaTbInfo (rt_mod t) (rt_tbs t) x (rt_nof_bits t) (rt_cw_idx t) (rt_enabled t) (rt_mcs_idx t).
Definition set_rt_nof_bits x t := RaTbInfo (rt_mod t) (rt_tbs t) (rt_rv t) x (rt_cw_idx t) (rt_enabled t) (rt_mcs_idx t).

Definition set_pg_prb (s0 s1 : list bool) (n : Z) (g : srsran_pdsch_grant_t) : srsran_pdsch_grant_t :=
  PdschGrantInfo (pg_tx_scheme g) (pg_pmi g) s0 s1 n (pg_nof_re g) (pg_nof_symb_slot0 g) (pg_nof_symb_slot1 g)
    (pg_tb0 g) (pg_tb1 g) (pg_last_tbs0 g) (pg_last_tbs1 g) (pg_nof_tb g) (pg_nof_layers g).
Definition set_pg_re (re s0 s1 : Z) (g : srsran_pdsch_grant_t) : srsran_pdsch_grant_t :=
  PdschGrantInfo (pg_tx_scheme g) (pg_pmi g) (pg_slot0 g) (pg_slot1 g) (pg_nof_prb g) re s0 s1
    (pg_tb0 g) (pg_tb1 g) (pg_last_tbs0 g) (pg_last_tbs1 g) (pg_nof_tb g) (pg_nof_layers g).
Definition set_pg_tbs (t0 t1 : srsran_ra_tb_t) (g : srsran_pdsch_grant_t) : srsran_pdsch_grant_t :=
  PdschGrantInfo (pg_tx_scheme g) (pg_pmi g) (pg_slot0 g) (pg_slot1 g) (pg_nof_prb g) (pg_nof_re g) (pg_nof_symb_slot0 g)
    (pg_nof_symb_slot1 g) t0 t1 (pg_last_tbs0 g) (pg_last_tbs1 g) (pg_nof_tb g) (pg_nof_layers g).
Definition set_pg_nof_tb (n : Z) (g : srsran_pdsch_grant_t) : srsran_pdsch_grant_t :=
  PdschGrantInfo (pg_tx_scheme g) (pg_pmi g) (pg_slot0 g) (pg_slot1 g) (pg_nof_prb g) (pg_nof_re g) (pg_nof_symb_slot0 g)
    (pg_nof_symb_slot1 g) (pg_tb0 g) (pg_tb1 g) (pg_last_tbs0 g) (pg_last_tbs1 g) n (pg_nof_layers g).
Definition set_pg_mimo (x : srsran_tx_scheme_t) (pmi layers : Z) (g : srsran_pdsch_grant_t) : srsran_pdsch_grant_t :=
  PdschGrantInfo x pmi (pg_slot0 g) (pg_slot1 g) (pg_nof_prb g) (pg_nof_re g) (pg_nof_symb_slot0 g)
    (pg_nof_symb_slot1 g) (pg_tb0 g) (pg_tb1 g) (pg_last_tbs0 g) (pg_last_tbs1 g) (pg_nof_tb g) layers.

(** ** Resource elements of a block in a slot *)

Section re.
Context (cell : srsran_cell_t) (sf : srsran_dl_sf_cfg_t).

Abbreviation subframe := (tti sf mod 10).
Abbreviation nof_ctrl_symbols := (SRSRAN_NOF_CTRL_SYMBOLS cell (cfi sf)).
Abbreviation half := (nof_prb cell / 2).

Definition re_cp : srsran_cp_t := if decide (sf_type sf = SRSRAN_SF_MBSFN) then SRSRAN_CP_EXT else cp cell.

Definition re_nof_symbols (slot : Z) : option Z :=
  let n := SRSRAN_CP_NSYMB re_cp in
  if decide (frame_type cell = SRSRAN_TDD) then
    t ← srsran_sfidx_tdd_type (tdd_config sf) subframe;
    if decide (t = SRSRAN_TDD_SF_S) then srsran_sfidx_tdd_nof_dw_slot (tdd_config sf) slot re_cp else Some n
  else Some n.

(** Is the block one of those the synchronisation signals overlap, and one of the two they
    overlap by half? The lower bound is unsigned. *)
Definition in_middle (prb_idx : Z) : bool :=
  (u32 (half - 3) <=? prb_idx) && (prb_idx <? half + 3 + nof_prb cell mod 2).
Definition at_edge (prb_idx : Z) : bool :=
  negb (nof_prb cell mod 2 =? 0) && ((prb_idx =? u32 (half - 3)) || (prb_idx =? half + 3)).

(** Elements before the references are taken off, and whether they are to be. *)
Definition re_fdd (slot prb_idx ns re : Z) : Z * bool :=
  if ((subframe =? 0) || (subframe =? 5)) && in_middle prb_idx then
    let '(re, refs) :=
      if subframe =? 0 then
        if slot =? 0 then ((ns - nof_ctrl_symbols - 2) * SRSRAN_NRE, true)
        else if SRSRAN_CP_ISEXT re_cp then ((ns - 4) * SRSRAN_NRE, false)
        else ((ns - 4) * SRSRAN_NRE + 2 * nof_ports cell, true)
      else if slot =? 0 then ((ns - nof_ctrl_symbols - 2) * SRSRAN_NRE, true)
      else (re, true) in
    if at_edge prb_idx then
      if slot =? 0 then (re + 2 * SRSRAN_NRE / 2, refs)
      else if subframe =? 0 then
        let re := re + (4 * SRSRAN_NRE / 2 - nof_ports cell) in
        (if SRSRAN_CP_ISEXT re_cp then re - (if 2 <? nof_ports cell then 2 else nof_ports cell) else re, refs)
      else (re, refs)
    else (re, refs)
  else (re, true).

Definition re_tdd (slot prb_idx ns re : Z) : Z * bool :=
  if ((((subframe =? 0) || (subframe =? 5)) && (slot =? 1)) || (((subframe =? 1) || (subframe =? 6)) && (slot =? 0)))
     && in_middle prb_idx then
    let '(re, refs) :=
      if subframe =? 0 then
        if SRSRAN_CP_ISEXT re_cp then ((ns - 5) * SRSRAN_NRE, false)
        else ((ns - 5) * SRSRAN_NRE + 2 * nof_ports cell, true)
      else if subframe =? 5 then ((ns - 1) * SRSRAN_NRE, true)
      else if subframe =? 1 then ((ns - nof_ctrl_symbols - 1) * SRSRAN_NRE, true)
      else if subframe =? 6 then ((ns - nof_ctrl_symbols - 1) * SRSRAN_NRE, true)
      else (re, true) in
    if at_edge prb_idx then
      let re := re + SRSRAN_NRE / 2 in
      if subframe =? 0 then
        let re := re + (4 * SRSRAN_NRE / 2 - nof_ports cell) in
        (if SRSRAN_CP_ISEXT re_cp then re - (if 2 <? nof_ports cell then 2 else nof_ports cell) else re, refs)
      else (re, refs)
    else (re, refs)
  else (re, true).

(** The references taken off a slot of [ns] symbols. *)
Definition nof_refs (slot ns : Z) : Z :=
  let full := match re_cp with SRSRAN_CP_NORM => 5 <=? ns | SRSRAN_CP_EXT => 4 <=? ns end in
  match sf_type sf with
  | SRSRAN_SF_NORM =>
      if (nof_ports cell =? 1) || (nof_ports cell =? 2) then
        if full then 2 * (slot + 1) * nof_ports cell
        else if slot =? 1 then (if 1 <=? ns then 2 * nof_ports cell else 0)
        else 0
      else if nof_ports cell =? 4 then
        if slot =? 1 then (if full then 12 else if 2 <=? ns then 8 else 0)
        else if full then (if nof_ctrl_symbols =? 1 then 8 else 4) else 0
      else 0
  | SRSRAN_SF_MBSFN => 6 * (slot + 1)
  end.

(** The whole computation is in [uint32_t]: it wraps once, at the end. *)
Definition ra_re_x_prb (slot prb_idx : Z) : option Z :=
  ns ← re_nof_symbols slot;
  let re := if slot =? 0 then (ns - nof_ctrl_symbols) * SRSRAN_NRE else ns * SRSRAN_NRE in
  let '(re, refs) := if decide (frame_type cell = SRSRAN_FDD) then re_fdd slot prb_idx ns re else re_tdd slot prb_idx ns re in
  Some (u32 (if refs : bool then re - nof_refs slot ns else re)).

Definition slot_nof_re (slot : Z) (prbs : list bool) (nof_re : Z) : option Z :=
  for_range 0 (nof_prb cell) (fun n j =>
    b ← zget prbs j;
    if b : bool then r ← ra_re_x_prb slot j; Some (u32 (n + r)) else Some n) nof_re.

Definition srsran_ra_dl_grant_nof_re (g : srsran_pdsch_grant_t) : option Z :=
  n ← slot_nof_re 0 (pg_slot0 g) 0; slot_nof_re 1 (pg_slot1 g) n.

Definition srsran_ra_dl_approx_nof_re (n_prb n_ctrl : Z) : Z :=
  let nof_refs := if nof_ports cell =? 1 then 2 * 3 else if nof_ports cell =? 2 then 4 * 3
                  else if nof_ports cell =? 4 then 4 * 4 else 0 in
  u32 (n_prb * (u32 (2 * SRSRAN_CP_NSYMB (cp cell) - n_ctrl) * SRSRAN_NRE - nof_refs)).

Definition tb_bits (re : Z) (t : srsran_ra_tb_t) : srsran_ra_tb_t :=
  if rt_enabled t then set_rt_nof_bits (u32 (re * srsran_mod_bits_x_symbol (rt_mod t))) t else t.

Definition srsran_ra_dl_compute_nof_re (g : srsran_pdsch_grant_t) : option srsran_pdsch_grant_t :=
  re ← srsran_ra_dl_grant_nof_re g;
  let cp_ := if decide (sf_type sf = SRSRAN_SF_NORM) then cp cell else SRSRAN_CP_EXT in
  let n := SRSRAN_CP_NSYMB cp_ in
  '(s0, s1) ← (if decide (frame_type cell = SRSRAN_FDD) then Some (n, n)
               else
                 t ← srsran_sfidx_tdd_type (tdd_config sf) subframe;
                 if decide (t = SRSRAN_TDD_SF_S) then
                   s0 ← srsran_sfidx_tdd_nof_dw_slot (tdd_config sf) 0 cp_;
                   s1 ← srsran_sfidx_tdd_nof_dw_slot (tdd_config sf) 1 cp_; Some (s0, s1)
                 else Some (n, n));
  let g := set_pg_re re s0 s1 g in
  Some (set_pg_tbs (tb_bits re (pg_tb0 g)) (tb_bits re (pg_tb1 g)) g).
End re.

(** ** Transport blocks *)

Definition tbs_format1c_table : list Z :=
  [40; 56; 72; 120; 136; 144; 176; 208; 224; 256; 280; 296; 328; 336; 392; 488; 552; 600; 632; 696; 776; 840;
   904; 1000; 1064; 1128; 1224; 1288; 1384; 1480; 1608; 1736].

(** The result and the transport block. *)
Definition srsran_dl_fill_ra_mcs (tb : srsran_ra_tb_t) (last_tbs nprb : Z) (alt : bool) : option (Z * srsran_ra_tb_t) :=
  let tb := set_rt_mod (srsran_ra_dl_mod_from_mcs (rt_mcs_idx tb) alt) tb in
  i_tbs ← srsran_ra_tbs_idx_from_mcs (rt_mcs_idx tb) alt false;
  if 0 <=? i_tbs then tbs ← srsran_ra_tbs_from_idx (u32 i_tbs) nprb; Some (tbs, set_rt_tbs tbs tb)
  else Some (0, set_rt_tbs last_tbs tb).

(** The number of a format in its enumeration. *)
Definition format_number (f : srsran_dci_format_t) : Z :=
  match f with
  | SRSRAN_DCI_FORMAT0 => 0 | SRSRAN_DCI_FORMAT1 => 1 | SRSRAN_DCI_FORMAT1A => 2 | SRSRAN_DCI_FORMAT1B => 3
  | SRSRAN_DCI_FORMAT1C => 4 | SRSRAN_DCI_FORMAT1D => 5 | SRSRAN_DCI_FORMAT2 => 6 | SRSRAN_DCI_FORMAT2A => 7
  | SRSRAN_DCI_FORMAT2B => 8 | SRSRAN_DCI_FORMATN0 => 9 | SRSRAN_DCI_FORMATN1 => 10 | SRSRAN_DCI_FORMATN2 => 11
  | SRSRAN_DCI_FORMAT_RAR => 12 | SRSRAN_DCI_NOF_FORMATS => 13
  end.
Definition two_blocks (f : srsran_dci_format_t) : bool := format_number SRSRAN_DCI_FORMAT2 <=? format_number f.

(** Copy of a transport block; the first one of a format with one block is enabled. *)
Definition copy_tb (f : srsran_dci_format_t) (first : bool) (d : srsran_dci_tb_t) (t : srsran_ra_tb_t) : srsran_ra_tb_t :=
  RaTbInfo (rt_mod t) (rt_tbs t) (tb_rv d) (rt_nof_bits t) (cw_idx d)
    ((SRSRAN_DCI_IS_TB_EN d && two_blocks f) || (negb (two_blocks f) && first)) (mcs_idx d).

(** [SRSRAN_MAX(1, 0.75 * nof_prb)] in [double], truncated. *)
Definition dwpts_prb (nof_prb : Z) : Z := Z.max 1 (3 * nof_prb / 4).

(** One block of a user grant: [None] in the pair is the error. *)
Definition fill_tb (last_tbs n_prb : Z) (alt : bool) (t : srsran_ra_tb_t) : option (bool * srsran_ra_tb_t) :=
  if rt_enabled t then
    '(tbs, t) ← srsran_dl_fill_ra_mcs t last_tbs n_prb alt; Some (0 <=? tbs, set_rt_tbs tbs t)
  else Some (true, set_rt_tbs 0 t).

Definition dl_dci_compute_tb (alt : bool) (dci : srsran_dci_dl_t) (g : srsran_pdsch_grant_t)
  : option (Z * srsran_pdsch_grant_t) :=
  let f := d_format dci in
  let t0 := copy_tb f true (d_tb0 dci) (pg_tb0 g) in
  let t1 := copy_tb f false (d_tb1 dci) (pg_tb1 g) in
  let g := set_pg_nof_tb (u32 (pg_nof_tb g + Z.b2z (rt_enabled t0) + Z.b2z (rt_enabled t1))) (set_pg_tbs t0 t1 g) in
  let user := SRSRAN_RNTI_ISUSER (d_rnti dci) in
  let alt := alt && negb (bool_decide (f = SRSRAN_DCI_FORMAT1A) || negb user) in
  if negb user && negb (SRSRAN_RNTI_ISMBSFN (d_rnti dci)) then
    let assign tbs := Some (SRSRAN_SUCCESS, set_pg_tbs (set_rt_tbs tbs (set_rt_mod SRSRAN_MOD_QPSK t0)) t1 g) in
    if decide (f = SRSRAN_DCI_FORMAT1A) then
      let n_prb := if n_prb1a (d_alloc dci) =? SRSRAN_RA_TYPE2_NPRB1A_2 then 2 else 3 in
      tbs ← srsran_ra_tbs_from_idx (mcs_idx (d_tb0 dci)) n_prb;
      if tbs <? 0 then Some (SRSRAN_ERROR, g) else assign tbs
    else if decide (f = SRSRAN_DCI_FORMAT1C) then
      if mcs_idx (d_tb0 dci) <? 32 then tbs ← zget tbs_format1c_table (mcs_idx (d_tb0 dci)); assign tbs
      else Some (SRSRAN_ERROR, g)
    else Some (SRSRAN_ERROR, g)
  else
    let n_prb := if d_is_dwpts dci then dwpts_prb (pg_nof_prb g) else pg_nof_prb g in
    '(ok, t0) ← fill_tb (pg_last_tbs0 g) n_prb alt t0;
    if negb ok then Some (SRSRAN_ERROR, set_pg_tbs t0 t1 g)
    else
      '(ok, t1) ← fill_tb (pg_last_tbs1 g) n_prb alt t1;
      Some (if ok : bool then SRSRAN_SUCCESS else SRSRAN_ERROR, set_pg_tbs t0 t1 g).

(** ** MIMO *)

Definition config_mimo_type (cell : srsran_cell_t) (tm : srsran_tm_t) (pinfo nof_tb : Z) : Z * srsran_tx_scheme_t :=
  match tm with
  | SRSRAN_TM1 | SRSRAN_TM2 =>
      (if nof_tb =? 1 then SRSRAN_SUCCESS else SRSRAN_ERROR,
       if 1 <? nof_ports cell then SRSRAN_TXSCHEME_DIVERSITY else SRSRAN_TXSCHEME_PORT0)
  | SRSRAN_TM3 =>
      if nof_tb =? 1 then (SRSRAN_SUCCESS, SRSRAN_TXSCHEME_DIVERSITY)
      else if nof_tb =? 2 then (SRSRAN_SUCCESS, SRSRAN_TXSCHEME_CDD)
      else (SRSRAN_ERROR, SRSRAN_TXSCHEME_PORT0)
  | SRSRAN_TM4 =>
      if nof_tb =? 1 then (SRSRAN_SUCCESS, if pinfo =? 0 then SRSRAN_TXSCHEME_DIVERSITY else SRSRAN_TXSCHEME_SPATIALMUX)
      else if nof_tb =? 2 then (SRSRAN_SUCCESS, SRSRAN_TXSCHEME_SPATIALMUX)
      else (SRSRAN_ERROR, SRSRAN_TXSCHEME_PORT0)
  | _ => (SRSRAN_SUCCESS, SRSRAN_TXSCHEME_PORT0)
  end.

Definition config_mimo_pmi (tx : srsran_tx_scheme_t) (pinfo nof_tb pmi : Z) : Z * Z :=
  match tx with
  | SRSRAN_TXSCHEME_SPATIALMUX =>
      if nof_tb =? 1 then (if (0 <? pinfo) && (pinfo <? 5) then (0, pinfo - 1) else (-1, pmi))
      else if (pinfo =? 2) || (2 <? pinfo) then (-1, pmi)
      else (0, pinfo mod 2)
  | _ => (0, pmi)
  end.

Definition config_mimo_layers (cell : srsran_cell_t) (tx : srsran_tx_scheme_t) (nof_tb layers : Z) : Z * Z :=
  match tx with
  | SRSRAN_TXSCHEME_PORT0 => if nof_tb =? 1 then (0, 1) else (SRSRAN_ERROR, layers)
  | SRSRAN_TXSCHEME_DIVERSITY => if nof_tb =? 1 then (0, nof_ports cell) else (SRSRAN_ERROR, layers)
  | SRSRAN_TXSCHEME_SPATIALMUX => if nof_tb =? 1 then (0, 1) else if nof_tb =? 2 then (0, 2) else (SRSRAN_ERROR, layers)
  | SRSRAN_TXSCHEME_CDD => if nof_tb =? 2 then (0, 2) else (SRSRAN_ERROR, layers)
  end.

Definition config_mimo (cell : srsran_cell_t) (tm : srsran_tm_t) (dci : srsran_dci_dl_t) (g : srsran_pdsch_grant_t)
  : Z * srsran_pdsch_grant_t :=
  let '(c, tx) := config_mimo_type cell tm (d_pinfo dci) (pg_nof_tb g) in
  let g := set_pg_mimo tx (pg_pmi g) (pg_nof_layers g) g in
  if negb (c =? 0) then (-1, g)
  else
    let '(c, pmi) := config_mimo_pmi tx (d_pinfo dci) (pg_nof_tb g) (pg_pmi g) in
    let g := set_pg_mimo tx pmi (pg_nof_layers g) g in
    if negb (c =? 0) then (-1, g)
    else
      let '(c, layers) := config_mimo_layers cell tx (pg_nof_tb g) (pg_nof_layers g) in
      let g := set_pg_mimo tx pmi layers g in
      if negb (c =? 0) then (-1, g) else (0, g).

(** ** From a DCI to a grant *)

(** Both functions write the whole grant, which they clear first. *)
Definition srsran_ra_dl_dci_to_grant_wo_mimo_yx (cell : srsran_cell_t) (sf : srsran_dl_sf_cfg_t) (tm : srsran_tm_t)
    (alt : bool) (dci : srsran_dci_dl_t) : option (Z * srsran_pdsch_grant_t) :=
  s ← srsran_ra_dl_grant_to_grant_prb_allocation dci (nof_prb cell) start_marking;
  let g := set_pg_prb (mk_slot0 s) (mk_slot1 s) (mk_count s) zero_grant in
  if negb (mk_code s =? SRSRAN_SUCCESS) then Some (SRSRAN_ERROR, g)
  else
    '(c, g) ← dl_dci_compute_tb alt dci g;
    if negb (c =? SRSRAN_SUCCESS) then Some (SRSRAN_ERROR, g)
    else
      g ← srsran_ra_dl_compute_nof_re cell sf g;
      if bool_decide (d_format dci = SRSRAN_DCI_FORMAT1C) && (SRSRAN_RNTI_ISRAR (d_rnti dci) || (d_rnti dci =? SRSRAN_PRNTI))
      then Some (SRSRAN_SUCCESS, set_pg_tbs (set_rt_rv 0 (pg_tb0 g)) (set_rt_rv 0 (pg_tb1 g)) g)
      else Some (SRSRAN_SUCCESS, g).

Definition srsran_ra_dl_dci_to_grant (cell : srsran_cell_t) (sf : srsran_dl_sf_cfg_t) (tm : srsran_tm_t)
    (alt : bool) (dci : srsran_dci_dl_t) : option (Z * srsran_pdsch_grant_t) :=
  '(c, g) ← srsran_ra_dl_dci_to_grant_wo_mimo_yx cell sf tm alt dci;
  if negb (c =? SRSRAN_SUCCESS) then Some (SRSRAN_ERROR, g) else Some (config_mimo cell tm dci g).
