(* ===== verification/Pdsch.v ===== *)
(** * Mapping of the PDSCH to resource elements ([lib/src/phy/phch/pdsch.c], [prb_dl.c])

    The same loops put the symbols of a grant on the grid of a subframe and get them from it:
    they walk over the assigned blocks of every symbol and leave out the control region, the
    references, the synchronisation signals and the broadcast channel. The walk is modelled as
    the list of the grid positions it copies, in order; the other pointer moves along the
    symbols of the grant. *)

From S2P Require Export RaDl.

(** ** Copies of a block ([prb_dl.c]) *)

(** The pointer into the block, and the positions copied so far. *)
Record walk := Walk { w_ptr : Z; w_idx : list Z }.

(** A [memcpy] that advances both pointers, and a step of the pointer into the grid alone. *)
Definition copy (n : Z) (w : walk) : walk := Walk (w_ptr w + n) (w_idx w ++ seqZ (w_ptr w) n).
Definition step_grid (n : Z) (w : walk) : walk := Walk (w_ptr w + n) (w_idx w).

Definition prb_cp_ref (offset nof_refs nof_intervals : Z) (w : walk) : walk :=
  let ref_interval := SRSRAN_NRE / nof_refs - 1 in
  let w := copy offset w in
  let w := Nat.iter (Z.to_nat (nof_intervals - 1)) (fun w => copy ref_interval (step_grid 1 w)) w in
  if 0 <? ref_interval - offset then copy (ref_interval - offset) (step_grid 1 w) else w.

Definition prb_cp (w : walk) : walk := copy SRSRAN_NRE w.
Definition prb_cp_half (w : walk) : walk := copy (SRSRAN_NRE / 2) w.

(** ** The walk over a subframe *)

Definition SRSRAN_SYMBOL_HAS_REF (l : Z) (c : srsran_cp_t) (nof_ports : Z) : bool :=
  ((l =? 1) && (nof_ports =? 4)) || (l =? 0) || (l =? SRSRAN_CP_NSYMB c - 3).

Section walk.
Context (cell : srsran_cell_t) (g : srsran_pdsch_grant_t) (sf_idx : Z).

Definition nof_symb_slot (s : Z) : Z := if s =? 0 then pg_nof_symb_slot0 g else pg_nof_symb_slot1 g.
Definition prb_slot (s : Z) : list bool := if s =? 0 then pg_slot0 g else pg_slot1 g.

(** The lower bounds are unsigned. *)
Definition pdsch_cp_skip_symbol (s l n : Z) : bool :=
  (u32 (nof_prb cell / 2 - 3) <=? n) && (n <? nof_prb cell / 2 + 3 + nof_prb cell mod 2) &&
  ((if decide (frame_type cell = SRSRAN_FDD) then
      (s =? 0) && ((sf_idx =? 0) || (sf_idx =? 5)) && (u32 (nof_symb_slot s - 2) <=? l)
    else
      ((s =? 1) && ((sf_idx =? 0) || (sf_idx =? 5)) && (u32 (nof_symb_slot s - 1) <=? l))
      || ((s =? 0) && ((sf_idx =? 1) || (sf_idx =? 6)) && (l =? 2)))
   || ((s =? 1) && (sf_idx =? 0) && (l <? 4))).

Definition pdsch_cp_crs_offset (l : Z) (has_crs : bool) : Z :=
  if negb has_crs then 0
  else if nof_ports cell =? 1 then (if l =? 0 then cell_id cell mod 6 else (cell_id cell + 3) mod 6)
  else cell_id cell mod 3.

Definition pdsch_nof_refs : Z := if nof_ports cell =? 1 then 2 else 4.

(** The positions copied inside a block. *)
Definition block_walk (skip lower upper has_crs : bool) (offset nof_refs : Z) : list Z :=
  let w := Walk 0 [] in
  w_idx (if negb skip then (if has_crs then prb_cp_ref offset nof_refs nof_refs w else prb_cp w)
         else if lower then (if has_crs then prb_cp_ref offset nof_refs (nof_refs / 2) w else prb_cp_half w)
         else if upper then
           let w := step_grid (SRSRAN_NRE / 2) w in
           (if has_crs then prb_cp_ref offset nof_refs (nof_refs / 2) w else prb_cp_half w)
         else w).

Definition odd_cell : bool := negb (nof_prb cell mod 2 =? 0).

Definition prb_block (s l n : Z) : list Z :=
  let has_crs := SRSRAN_SYMBOL_HAS_REF l (cp cell) (nof_ports cell) in
  block_walk (pdsch_cp_skip_symbol s l n) (odd_cell && (n =? u32 (nof_prb cell / 2 - 3))) (odd_cell && (n =? nof_prb cell / 2 + 3))
    has_crs (pdsch_cp_crs_offset l has_crs) pdsch_nof_refs.

(** The position of block [n] in symbol [l] of slot [s]. *)
Definition prb_base (s l n : Z) : Z := ((l + s * pg_nof_symb_slot0 g) * nof_prb cell + n) * SRSRAN_NRE.

(** The positions of the whole subframe, in the order of the copies. *)
Definition srsran_pdsch_cp (lstart_grant : Z) : option (list Z) :=
  for_range 0 2 (fun acc s =>
    for_range (if s =? 0 then lstart_grant else 0) (nof_symb_slot s) (fun acc l =>
      for_range 0 (nof_prb cell) (fun acc n =>
        b ← zget (prb_slot s) n;
        Some (if b : bool then acc ++ ((fun k => prb_base s l n + k) <$> prb_block s l n) else acc)) acc) acc) [].

(** The symbols put on the grid one after the other; the number of them. *)
Definition srsran_pdsch_put {A} (symbols sf_symbols : list A) (lstart : Z) : option (list A * Z) :=
  idx ← srsran_pdsch_cp lstart;
  grid ← for_range 0 (zlen idx) (fun grid i => x ← zget symbols i; p ← zget idx i; zset grid p x) sf_symbols;
  Some (grid, zlen idx).

(** The symbols got from the grid. *)
Definition srsran_pdsch_get {A} (sf_symbols : list A) (lstart : Z) : option (list A) :=
  idx ← srsran_pdsch_cp lstart; mapM (zget sf_symbols) idx.
End walk.

(** ** Sums over ranges *)

Definition total (f : Z -> Z) (a b : Z) : Z := foldr (fun i n => f i + n) 0 (seqZ a (b - a)).

Lemma foldr_add (f : Z -> Z) l : forall c, foldr (fun i n => f i + n) c l = foldr (fun i n => f i + n) 0 l + c.
Proof. induction l as [| x l IH]; intros c; simpl; [lia | rewrite IH; lia]. Qed.

Lemma total_app (f : Z -> Z) l1 l2 :
  foldr (fun i n => f i + n) 0 (l1 ++ l2) = foldr (fun i n => f i + n) 0 l1 + foldr (fun i n => f i + n) 0 l2.
Proof. rewrite foldr_app, foldr_add. lia. Qed.

Lemma total_snoc f b : 0 <= b -> total f 0 (b + 1) = total f 0 b + f b.
Proof. intros Hb. unfold total. rewrite !Z.sub_0_r, seqZ_snoc, total_app by done. simpl. lia. Qed.

Lemma total_two f : total f 0 2 = f 0 + f 1.
Proof. unfold total. change (seqZ 0 (2 - 0)) with [0; 1]. simpl. lia. Qed.

Lemma total_ext f g a b : (forall i, a <= i < b -> f i = g i) -> total f a b = total g a b.
Proof.
  intros H. unfold total. assert (forall i, i ∈ seqZ a (b - a) -> f i = g i) as H' by (intros i Hi%elem_of_seqZ; apply H; lia).
  revert H'. induction (seqZ a (b - a)) as [| x l IH]; intros H'; simpl; [done |].
  rewrite (H' x), IH; [done | | by left]. intros i Hi. apply H'. by right.
Qed.

Lemma total_add f g a b : total (fun i => f i + g i) a b = total f a b + total g a b.
Proof. unfold total. induction (seqZ a (b - a)) as [| x l IH]; simpl; [done |]. rewrite IH. lia. Qed.

Lemma total_swap (f : Z -> Z -> Z) a b c d :
  total (fun i => total (f i) c d) a b = total (fun j => total (fun i => f i j) a b) c d.
Proof.
  unfold total at 1 4. induction (seqZ a (b - a)) as [| x l IH]; simpl.
  - unfold total. induction (seqZ c (d - c)); simpl; [done | lia].
  - rewrite IH, <- total_add. done.
Qed.

Lemma total_const_mul (k : Z) f a b : total (fun i => k * f i) a b = k * total f a b.
Proof. unfold total. induction (seqZ a (b - a)) as [| x l IH]; simpl; lia. Qed.

Lemma total_bound f a b m : a <= b -> (forall i, a <= i < b -> 0 <= f i <= m) -> 0 <= total f a b <= m * (b - a).
Proof.
  intros Hab H. assert (Forall (fun i => 0 <= f i <= m) (seqZ a (b - a))) as HF.
  { apply Forall_forall. intros i Hi%elem_of_seqZ. apply H. lia. }
  unfold total. replace (m * (b - a)) with (m * Z.of_nat (length (seqZ a (b - a)))) by (rewrite length_seqZ; f_equal; lia).
  revert HF. generalize (seqZ a (b - a)). intros l HF. induction HF as [| x l Hx _ IH]; simpl; lia.
Qed.

(** ** Loops that append blocks *)

Definition blocks {A} (h : Z -> list A) (a b : Z) : list A := concat (h <$> seqZ a (b - a)).

Lemma for_range_blocks {A} (h : Z -> list A) a b f acc :
  (forall acc i, a <= i < b -> f acc i = Some (acc ++ h i)) -> for_range a b f acc = Some (acc ++ blocks h a b).
Proof.
  intros H. unfold for_range, blocks.
  assert (forall acc i, i ∈ seqZ a (b - a) -> f acc i = Some (acc ++ h i)) as H' by (intros c i Hi%elem_of_seqZ; apply H; lia).
  revert acc H'. induction (seqZ a (b - a)) as [| x l IH]; intros acc H'; simpl; [by rewrite app_nil_r |].
  rewrite (H' acc x) by (by left). rewrite IH; [by rewrite <- app_assoc |]. intros c i Hi. apply H'. by right.
Qed.

Lemma zlen_blocks {A} (h : Z -> list A) a b : zlen (blocks h a b) = total (fun i => zlen (h i)) a b.
Proof. unfold blocks, total. induction (seqZ a (b - a)) as [| x l IH]; [done |].
  rewrite fmap_cons. cbn [concat foldr]. by rewrite zlen_app, IH. Qed.

(** Distinct positions between two bounds. *)
Definition between (lo hi : Z) (l : list Z) : Prop := NoDup l /\ Forall (fun x => lo <= x < hi) l.

Lemma between_nil lo hi : between lo hi [].
Proof. split; constructor. Qed.

Lemma between_app lo mid hi l1 l2 : lo <= mid <= hi -> between lo mid l1 -> between mid hi l2 -> between lo hi (l1 ++ l2).
Proof.
  intros Hm [N1 F1] [N2 F2]. rewrite Forall_forall in F1, F2. split.
  - apply NoDup_app. split_and!; [done | | done]. intros x H1%F1 H2%F2. lia.
  - apply Forall_app. split; apply Forall_forall; [intros x ?%F1 | intros x ?%F2]; lia.
Qed.

Lemma between_weaken lo lo' hi hi' l : lo' <= lo -> hi <= hi' -> between lo hi l -> between lo' hi' l.
Proof. intros H1 H2 [N F]. split; [done |]. eapply Forall_impl; [exact F |]. simpl. lia. Qed.

Lemma between_blocks (h : Z -> list Z) (lo : Z -> Z) a b :
  a <= b -> (forall i, a <= i < b -> lo i <= lo (i + 1) /\ between (lo i) (lo (i + 1)) (h i)) -> between (lo a) (lo b) (blocks h a b) /\ lo a <= lo b.
Proof.
  intros Hab. unfold blocks. remember (Z.to_nat (b - a)) as n eqn:En. revert a Hab En.
  induction n as [| n IH]; intros a Hab En H.
  - assert (a = b) as <- by lia. rewrite Z.sub_diag. split; [apply between_nil | lia].
  - rewrite seqZ_cons by lia. simpl. replace (Z.pred (b - a)) with (b - (a + 1)) by lia. replace (Z.succ a) with (a + 1) by lia.
    destruct (IH (a + 1)) as [Hb Hlo]; [lia | lia | intros i Hi; apply H; lia |].
    destruct (H a) as [Ha Hba]; [lia |]. split; [by apply (between_app _ (lo (a + 1))) | lia].
Qed.

(** ** The copies of a block *)

(** Elements copied from a block: all, half or none of it, less its references. *)
Definition walk_len (skip half has_crs : bool) (nof_refs : Z) : Z :=
  if negb skip then 12 - (if has_crs then nof_refs else 0)
  else if half then 6 - (if has_crs then nof_refs / 2 else 0) else 0.

Definition walk_check (skip lower upper has_crs : bool) (nof_refs offset : Z) : bool :=
  let r := block_walk skip lower upper has_crs offset nof_refs in
  bool_decide (NoDup r) && forallb (fun k => (0 <=? k) && (k <? 12)) r && (zlen r =? walk_len skip (lower || upper) has_crs nof_refs).

Lemma walk_checked skip lower upper has_crs nof_refs offset :
  nof_refs = 2 /\ 0 <= offset < 6 \/ nof_refs = 4 /\ 0 <= offset < 3 -> walk_check skip lower upper has_crs nof_refs offset = true.
Proof.
  intros [[-> Ho] | [-> Ho]]; revert offset Ho; apply forallb_below; by destruct skip, lower, upper, has_crs; vm_compute.
Qed.

Lemma block_walk_spec skip lower upper has_crs nof_refs offset :
  nof_refs = 2 /\ 0 <= offset < 6 \/ nof_refs = 4 /\ 0 <= offset < 3 ->
  between 0 12 (block_walk skip lower upper has_crs offset nof_refs) /\
  zlen (block_walk skip lower upper has_crs offset nof_refs) = walk_len skip (lower || upper) has_crs nof_refs.
Proof.
  intros H. apply (walk_checked skip lower upper has_crs) in H. unfold walk_check in H.
  apply andb_prop in H as [[Hd%bool_decide_eq_true Hb]%andb_prop Hl]. split; [| lia]. split; [done |].
  apply Forall_forall. intros x Hx. rewrite forallb_forall in Hb. apply list_elem_of_In, Hb in Hx. lia.
Qed.

(** ** A grant of an FDD cell *)

Record fdd_grant (cell : srsran_cell_t) (g : srsran_pdsch_grant_t) : Prop := FddGrant {
  fg_fdd : frame_type cell = SRSRAN_FDD;
  fg_prb : 6 <= nof_prb cell <= 110;
  fg_ports : nof_ports cell = 1 \/ nof_ports cell = 2 \/ nof_ports cell = 4;
  fg_symb0 : pg_nof_symb_slot0 g = SRSRAN_CP_NSYMB (cp cell);
  fg_symb1 : pg_nof_symb_slot1 g = SRSRAN_CP_NSYMB (cp cell);
  fg_slot0 : zlen (pg_slot0 g) = 110;
  fg_slot1 : zlen (pg_slot1 g) = 110
}.

Section fdd.
Context (cell : srsran_cell_t) (g : srsran_pdsch_grant_t) (sf_idx : Z).
Hypothesis Hg : fdd_grant cell g.
Abbreviation ns := (SRSRAN_CP_NSYMB (cp cell)).
Abbreviation N := (nof_prb cell).

Lemma fdd_symb s : nof_symb_slot g s = ns.
Proof. unfold nof_symb_slot. destruct Hg as [_ _ _ H0 H1 _ _]. by destruct (s =? 0). Qed.

Lemma nsymb_range : 6 <= ns <= 7.
Proof. destruct (cp cell); simpl; lia. Qed.

(** The walk of a block, if it is assigned. *)
Definition prb_part (s l n : Z) : list Z :=
  if default false (zget (prb_slot g s) n) then (fun k => prb_base cell g s l n + k) <$> prb_block cell g sf_idx s l n else [].
Definition symbol_part (s l : Z) : list Z := blocks (prb_part s l) 0 N.
Definition slot_part (lstart s : Z) : list Z := blocks (symbol_part s) (if s =? 0 then lstart else 0) ns.

Lemma prb_slot_get s n : 0 <= n < N -> exists b, zget (prb_slot g s) n = Some b.
Proof.
  intros Hn. apply zget_some. unfold in_range, prb_slot. destruct Hg as [_ HN _ _ _ H0 H1]. destruct (s =? 0); lia.
Qed.

Lemma pdsch_cp_blocks lstart : srsran_pdsch_cp cell g sf_idx lstart = Some (blocks (slot_part lstart) 0 2).
Proof.
  unfold srsran_pdsch_cp. rewrite (for_range_blocks (slot_part lstart)); [done |]. intros acc s Hs. rewrite fdd_symb.
  apply for_range_blocks. intros acc' l Hl. apply for_range_blocks. intros acc'' n Hn. unfold prb_part.
  destruct (prb_slot_get s n Hn) as [[] E]; rewrite E; cbn [mbind option_bind default]; [done | by rewrite app_nil_r].
Qed.

Lemma offset_ok l c : pdsch_nof_refs cell = 2 /\ 0 <= pdsch_cp_crs_offset cell l c < 6 \/ pdsch_nof_refs cell = 4 /\ 0 <= pdsch_cp_crs_offset cell l c < 3.
Proof.
  unfold pdsch_nof_refs, pdsch_cp_crs_offset. destruct (nof_ports cell =? 1); [left | right]; (split; [done |]);
    destruct (negb c), (l =? 0); try lia; apply Z.mod_pos_bound; lia.
Qed.

(** The number of elements copied from a block. *)
Definition prb_len (s l n : Z) : Z :=
  walk_len (pdsch_cp_skip_symbol cell g sf_idx s l n) (at_edge cell n) (SRSRAN_SYMBOL_HAS_REF l (cp cell) (nof_ports cell)) (pdsch_nof_refs cell).

Lemma prb_block_spec s l n : between 0 12 (prb_block cell g sf_idx s l n) /\ zlen (prb_block cell g sf_idx s l n) = prb_len s l n.
Proof.
  unfold prb_block, prb_len. cbv zeta. unfold at_edge. fold (odd_cell cell). rewrite andb_orb_distrib_r. apply block_walk_spec, offset_ok.
Qed.

Lemma prb_part_between s l n : between (prb_base cell g s l n) (prb_base cell g s l (n + 1)) (prb_part s l n).
Proof.
  unfold prb_part. destruct (default false _); [| apply between_nil].
  destruct (prb_block_spec s l n) as [[Hd Hb] _]. split; [apply NoDup_fmap_2; [intros x y; lia | done] |].
  apply Forall_fmap. eapply Forall_impl; [exact Hb |]. unfold prb_base, SRSRAN_NRE. simpl. lia.
Qed.

Definition lstart_of (lstart s : Z) : Z := if s =? 0 then lstart else 0.

(** The elements copied from block [n] in slot [s]. *)
Definition prb_total (lstart s n : Z) : Z :=
  if default false (zget (prb_slot g s) n) then total (fun l => prb_len s l n) (lstart_of lstart s) ns else 0.

Lemma zlen_slot_part lstart s : zlen (slot_part lstart s) = total (prb_total lstart s) 0 N.
Proof.
  unfold slot_part. fold (lstart_of lstart s). rewrite zlen_blocks.
  rewrite (total_ext _ (fun l => total (fun n => if default false (zget (prb_slot g s) n) then prb_len s l n else 0) 0 N)).
  - rewrite total_swap. apply total_ext. intros n Hn. unfold prb_total. destruct (default false _); [done |].
    unfold total. by induction (seqZ (lstart_of lstart s) (ns - lstart_of lstart s)).
  - intros l _. unfold symbol_part. rewrite zlen_blocks. apply total_ext. intros n _. unfold prb_part.
    destruct (default false _); [| done]. rewrite zlen_fmap. apply prb_block_spec.
Qed.

Lemma pdsch_cp_between lstart : 0 <= lstart <= ns -> between 0 (2 * ns * N * 12) (blocks (slot_part lstart) 0 2).
Proof.
  intros Hl. pose proof (fg_prb _ _ Hg) as HN. pose proof nsymb_range as Hns.
  assert (forall s l, between (prb_base cell g s l 0) (prb_base cell g s (l + 1) 0) (symbol_part s l)) as Hsym.
  { intros s l. destruct (between_blocks (prb_part s l) (prb_base cell g s l) 0 N) as [Hb _]; [lia | |].
    - intros n Hn. split; [unfold prb_base, SRSRAN_NRE; lia | apply prb_part_between].
    - revert Hb. apply between_weaken; unfold prb_base, SRSRAN_NRE; lia. }
  set (lo := fun s => s * ns * N * 12).
  destruct (between_blocks (slot_part lstart) lo 0 2) as [Hb _]; [lia | | by revert Hb; apply between_weaken; unfold lo; lia].
  intros s Hs. split; [unfold lo; nia |]. unfold slot_part.
  destruct (between_blocks (symbol_part s) (fun l => prb_base cell g s l 0) (if s =? 0 then lstart else 0) ns) as [Hb _].
  - destruct (s =? 0); lia.
  - intros l _. split; [| apply Hsym]. unfold prb_base, SRSRAN_NRE. lia.
  - revert Hb. unfold prb_base, SRSRAN_NRE, lo. rewrite (fg_symb0 _ _ Hg). apply between_weaken.
    + destruct (Z.eqb_spec s 0); nia.
    + lia.
Qed.
End fdd.

(** ** As many elements as the grant counts *)

(** The corner the two computations disagree in. *)
Definition four_ctrl_ext (cell : srsran_cell_t) (sf : srsran_dl_sf_cfg_t) : Prop :=
  cp cell = SRSRAN_CP_EXT /\ nof_prb cell < 10 /\ cfi sf = 3.

Lemma re_x_prb_counts cell sf g s n :
  fdd_grant cell g -> sf_type sf = SRSRAN_SF_NORM -> 1 <= cfi sf <= 3 -> ~ four_ctrl_ext cell sf -> s = 0 \/ s = 1 ->
  ra_re_x_prb cell sf s n
  = Some (total (fun l => prb_len cell g (tti sf mod 10) s l n) (lstart_of (SRSRAN_NOF_CTRL_SYMBOLS cell (cfi sf)) s) (SRSRAN_CP_NSYMB (cp cell))).
Proof.
  intros Hg Hsf Hcfi Hcorner Hs. pose proof Hg as [Hfdd HN Hports _ _ _ _].
  assert (exists c, SRSRAN_NOF_CTRL_SYMBOLS cell (cfi sf) = c /\ 1 <= c <= 4 /\ (cp cell = SRSRAN_CP_EXT -> c <= 3)) as (c & Hc & Hc1 & Hc2).
  { eexists. split; [done |]. unfold SRSRAN_NOF_CTRL_SYMBOLS. rewrite uwrap_small by (unfold is_uint; zcase; lia).
    split; [zcase; lia |]. intros He. zcase; [| lia].
    assert (cfi sf <> 3); [| lia]. intros E. by apply Hcorner. }
  unfold ra_re_x_prb, re_nof_symbols, re_fdd, prb_len, pdsch_cp_skip_symbol, nof_refs. rewrite (fdd_symb cell g Hg).
  unfold re_cp, pdsch_nof_refs. rewrite Hsf, Hfdd, Hc. fold (in_middle cell n).
  generalize (in_middle cell n) as mid, (at_edge cell n) as edge. intros mid edge.
  assert ((tti sf mod 10 =? 0) = true -> (tti sf mod 10 =? 5) = false) as Hx by lia. revert Hx.
  generalize (tti sf mod 10 =? 0) as e0, (tti sf mod 10 =? 5) as e5. intros e0 e5 Hx.
  assert (c = 1 \/ c = 2 \/ c = 3 \/ c = 4 /\ cp cell = SRSRAN_CP_NORM) as Hc3.
  { destruct (Z.eq_dec c 4) as [-> | ]; [| lia]. do 3 right. split; [done |]. destruct (cp cell); [done |]. specialize (Hc2 eq_refl). lia. }
  destruct Hs as [-> | ->], Hports as [-> | [-> | ->]], Hc3 as [-> | [-> | [-> | [-> Hcp]]]], (cp cell); try discriminate Hcp;
    destruct e0, e5; try (discriminate (Hx eq_refl)); destruct mid, edge; vm_compute; reflexivity.
Qed.

Lemma prb_len_range cell g sf_idx s l n : 0 <= prb_len cell g sf_idx s l n <= 12.
Proof.
  unfold prb_len, walk_len, pdsch_nof_refs.
  destruct (negb _), (at_edge cell n), (SRSRAN_SYMBOL_HAS_REF l (cp cell) (nof_ports cell)), (nof_ports cell =? 1); simpl; lia.
Qed.

Lemma prb_total_range cell g sf_idx c s n : fdd_grant cell g -> 0 <= c <= 4 -> 0 <= prb_total cell g sf_idx c s n <= 84.
Proof.
  intros Hg Hc. unfold prb_total. destruct (default false _); [| lia]. pose proof (nsymb_range cell).
  assert (0 <= lstart_of c s <= 4) by (unfold lstart_of; destruct (s =? 0); lia).
  pose proof (total_bound (fun l => prb_len cell g sf_idx s l n) (lstart_of c s) (SRSRAN_CP_NSYMB (cp cell)) 12 ltac:(lia)
    (fun l _ => prb_len_range cell g sf_idx s l n)). lia.
Qed.

Section counted.
Context (cell : srsran_cell_t) (sf : srsran_dl_sf_cfg_t) (g : srsran_pdsch_grant_t).
Hypothesis Hg : fdd_grant cell g.
Hypothesis Hsf : sf_type sf = SRSRAN_SF_NORM.
Hypothesis Hcfi : 1 <= cfi sf <= 3.
Hypothesis Hcorner : ~ four_ctrl_ext cell sf.

Let ctrl := SRSRAN_NOF_CTRL_SYMBOLS cell (cfi sf).

Lemma ctrl_range : 1 <= ctrl <= 4.
Proof. unfold ctrl, SRSRAN_NOF_CTRL_SYMBOLS. pose proof (fg_prb _ _ Hg). rewrite uwrap_small by (unfold is_uint; zcase; lia). zcase; lia. Qed.

Lemma slot_nof_re_total s n0 : s = 0 \/ s = 1 -> 0 <= n0 <= 10000 ->
  slot_nof_re cell sf s (prb_slot g s) n0 = Some (n0 + total (prb_total cell g (tti sf mod 10) ctrl s) 0 (nof_prb cell)).
Proof.
  intros Hs Hn0. pose proof ctrl_range as Hc. pose proof (fg_prb _ _ Hg) as HN. unfold slot_nof_re.
  loop_inv (fun i n => n = n0 + total (prb_total cell g (tti sf mod 10) ctrl s) 0 i) as (r & -> & ->); [lia | unfold total; simpl; lia | | done].
  intros i n Hi ->. rewrite total_snoc by lia.
  pose proof (total_bound (prb_total cell g (tti sf mod 10) ctrl s) 0 i 84 ltac:(lia)
    (fun j _ => prb_total_range cell g _ ctrl s j Hg ltac:(lia))) as HT. revert HT.
  pose proof (prb_total_range cell g (tti sf mod 10) ctrl s i Hg ltac:(lia)) as Hp. revert Hp.
  generalize (total (prb_total cell g (tti sf mod 10) ctrl s) 0 i) as T. intros T Hp HT.
  destruct (prb_slot_get cell g Hg s i Hi) as [b E]. unfold prb_total in *. rewrite E in *.
  cbn [mbind option_bind default from_option id] in *. destruct b; [| eexists; split; [done | lia]].
  rewrite (re_x_prb_counts cell sf g s i) by done. cbn [mbind option_bind]. eexists. split; [done |].
  fold ctrl. rewrite uwrap_small; [lia | unfold is_uint; lia].
Qed.

Lemma elements_counted : srsran_ra_dl_grant_nof_re cell sf g
  = Some (total (prb_total cell g (tti sf mod 10) ctrl 0) 0 (nof_prb cell) + total (prb_total cell g (tti sf mod 10) ctrl 1) 0 (nof_prb cell)).
Proof.
  pose proof ctrl_range as Hc. pose proof (fg_prb _ _ Hg) as HN. unfold srsran_ra_dl_grant_nof_re.
  change (pg_slot0 g) with (prb_slot g 0). change (pg_slot1 g) with (prb_slot g 1).
  rewrite (slot_nof_re_total 0 0) by lia. cbn [mbind option_bind].
  pose proof (total_bound (prb_total cell g (tti sf mod 10) ctrl 0) 0 (nof_prb cell) 84 ltac:(lia) (fun j _ => prb_total_range cell g _ ctrl 0 j Hg ltac:(lia))).
  rewrite (slot_nof_re_total 1) by lia. do 2 f_equal. 
Qed.
End counted.

Lemma grant_elements cell sf g :
  fdd_grant cell g -> sf_type sf = SRSRAN_SF_NORM -> 1 <= cfi sf <= 3 -> ~ four_ctrl_ext cell sf ->
  exists idx, srsran_pdsch_cp cell g (tti sf mod 10) (SRSRAN_NOF_CTRL_SYMBOLS cell (cfi sf)) = Some idx /\
    srsran_ra_dl_grant_nof_re cell sf g = Some (zlen idx).
Proof.
  intros Hg Hsf Hcfi Hcorner. eexists. split; [by apply pdsch_cp_blocks |].
  rewrite (elements_counted cell sf g Hg Hsf Hcfi Hcorner). by rewrite zlen_blocks, total_two, !zlen_slot_part.
Qed.


(** ** What is put on the grid is got from it *)

Lemma get_all {A} (grid : list A) (idx : list Z) (symbols : list A) :
  zlen symbols = zlen idx -> (forall i p, zget idx i = Some p -> zget grid p = zget symbols i) -> mapM (zget grid) idx = Some symbols.
Proof.
  intros Hl H. apply mapM_Some. apply Forall2_same_length_lookup. split; [unfold zlen in Hl; lia |].
  intros i p x Hp Hx. rewrite (H (Z.of_nat i) p); rewrite zget_lookup, Nat2Z.id by lia; done.
Qed.

(** In an FDD cell, the symbols of a grant that are put on the grid of a subframe
    stay in it, leave every other element as it was, and are got back in the same order. *)
Theorem pdsch_put_get {A} cell g sf_idx lstart (symbols sf_symbols : list A) idx :
  fdd_grant cell g -> 0 <= lstart <= SRSRAN_CP_NSYMB (cp cell) -> srsran_pdsch_cp cell g sf_idx lstart = Some idx ->
  zlen symbols = zlen idx -> zlen sf_symbols = 2 * SRSRAN_CP_NSYMB (cp cell) * nof_prb cell * 12 ->
  exists grid, srsran_pdsch_put cell g sf_idx symbols sf_symbols lstart = Some (grid, zlen symbols) /\
    srsran_pdsch_get cell g sf_idx grid lstart = Some symbols /\
    zlen grid = zlen sf_symbols /\ forall p, p ∉ idx -> zget grid p = zget sf_symbols p.
Proof.
  intros Hg Hl Hidx Hs Hgrid. pose proof (pdsch_cp_between cell g sf_idx Hg lstart Hl) as [Hd Hb].
  pose proof Hidx as Hidx'. rewrite (pdsch_cp_blocks cell g sf_idx Hg) in Hidx'. injection Hidx' as Hidx'. rewrite Hidx' in Hd, Hb.
  destruct (put_distinct symbols idx sf_symbols) as (grid & Ep & Hlen & Hin & Hout); [done | | lia |].
  - eapply Forall_impl; [exact Hb |]. intros p Hp. simpl in Hp. unfold in_range. lia.
  - exists grid. unfold srsran_pdsch_put, srsran_pdsch_get. rewrite Hidx. cbn [mbind option_bind]. rewrite Ep, Hs. cbn [mbind option_bind].
    split_and!; [done | by apply get_all | done | done].
Qed.

(** *** Examples *)

Definition cell_15 : srsran_cell_t := Cell 15 2 7 SRSRAN_CP_NORM SRSRAN_FDD.
Definition cell_6_ext : srsran_cell_t := Cell 6 2 7 SRSRAN_CP_EXT SRSRAN_FDD.
Definition subframe_0 (cfi : Z) : srsran_dl_sf_cfg_t := DlSfCfg zero_tdd_config 0 cfi SRSRAN_SF_NORM 0.

(** A grant of blocks 2 to 11. *)
Definition grant_middle (n_symb : Z) : srsran_pdsch_grant_t :=
  let l := replicate 2 false ++ replicate 10 true ++ replicate 98 false in set_pg_re 0 n_symb n_symb (set_pg_prb l l 10 zero_grant).

Lemma grant_middle_fdd : fdd_grant cell_15 (grant_middle 7).
Proof. by split; vm_compute; auto. Qed.


Lemma pdsch_put_get_witness : let idx := default [] (srsran_pdsch_cp cell_15 (grant_middle 7) 0 3) in
  exists grid, srsran_pdsch_put cell_15 (grant_middle 7) 0 (seqZ 1 (zlen idx)) (replicate 2520 0) 3 = Some (grid, zlen (seqZ 1 (zlen idx))) /\
    srsran_pdsch_get cell_15 (grant_middle 7) 0 grid 3 = Some (seqZ 1 (zlen idx)) /\
    zlen grid = 2520 /\ forall p, p ∉ idx -> zget grid p = zget (replicate 2520 0) p.
Proof.
  intros idx. apply (pdsch_put_get cell_15 (grant_middle 7) 0 3 (seqZ 1 (zlen idx)) (replicate 2520 0) idx);
    [apply grant_middle_fdd | by vm_compute | by vm_compute | by vm_compute | by vm_compute].
Defined.

(** With four control symbols and the extended prefix the count of a block of subframe 0 wraps
    below zero: its first slot has no symbol left, and the references are taken off. *)
Example count_wraps : ra_re_x_prb cell_6_ext (subframe_0 3) 0 2 = Some 4294967292.
Proof. by vm_compute. Qed.
