(* ===== verification/DlGrant.v ===== *)
(** * Downlink grants: what the receiver gets ([ra_dl.c], [pdsch.c])

    The composition of the allocation, the transport blocks, the count of elements and the
    walk of the PDSCH, for the DCIs a message can carry. *)

From S2P Require Export Pdsch.

(** ** Transport blocks *)

(** The size of a block of a user's grant: from the table, or 0 for the schemes that only give
    a modulation, whatever the size of the last transmission. *)
Definition tbs_of (alt : bool) (mcs n_prb : Z) : option Z :=
  i ← srsran_ra_tbs_idx_from_mcs mcs alt false;
  if 0 <=? i then srsran_ra_tbs_from_idx (u32 i) n_prb else Some 0.

Lemma tbs_idx_some mcs alt : 0 <= mcs < 32 -> exists i, srsran_ra_tbs_idx_from_mcs mcs alt false = Some i /\ -1 <= i < 34.
Proof.
  intros Hm.
  assert (forallb (fun m => match srsran_ra_tbs_idx_from_mcs m alt false with Some i => (-1 <=? i) && (i <? 34) | None => false end)
    (seqZ 0 32) = true) as H by (by destruct alt; vm_compute).
  apply (forallb_below _ _ H) in Hm. destruct (srsran_ra_tbs_idx_from_mcs mcs alt false) as [i |]; [| done].
  exists i. split; [done | lia].
Qed.

Lemma tbs_from_idx_cases i n : 0 <= i < 34 -> 
  exists t, srsran_ra_tbs_from_idx i n = Some t /\ (1 <= n <= 110 /\ 0 <= t < 2 ^ 31 \/ ~ 1 <= n <= 110 /\ t = -1).
Proof.
  intros Hi. unfold srsran_ra_tbs_from_idx, SRSRAN_RA_NOF_TBS_IDX, SRSRAN_MAX_PRB.
  destruct (Z.ltb_spec i 34); [| lia]. destruct (Z.ltb_spec 0 n), (Z.leb_spec n 110); cbn [andb].
  - destruct (tbs_at_some i n) as (t & -> & Ht); [lia.. |]. exists t. split; [done | left; lia].
  - eexists. split; [done | right; unfold SRSRAN_ERROR; lia].
  - eexists. split; [done | right; unfold SRSRAN_ERROR; lia].
  - eexists. split; [done | right; unfold SRSRAN_ERROR; lia].
Qed.

Lemma tbs_of_some alt mcs n : 0 <= mcs < 32 -> exists t, tbs_of alt mcs n = Some t /\ -1 <= t < 2 ^ 31 /\ (1 <= n <= 110 -> 0 <= t).
Proof.
  intros Hm. unfold tbs_of. destruct (tbs_idx_some mcs alt Hm) as (i & -> & Hi). cbn [mbind option_bind].
  destruct (Z.leb_spec 0 i); [| exists 0; split; [done | lia]]. rewrite uwrap_small by (unfold is_uint; lia).
  destruct (tbs_from_idx_cases i n) as (t & -> & Ht); [lia |]. exists t. split; [done | lia].
Qed.

(** What stays of a block when its size is filled in. *)
Definition filled_tb (alt : bool) (tbs : Z) (t : srsran_ra_tb_t) : srsran_ra_tb_t :=
  set_rt_tbs tbs (if rt_enabled t then set_rt_mod (srsran_ra_dl_mod_from_mcs (rt_mcs_idx t) alt) t else t).

Lemma fill_tb_spec last n alt t : 0 <= rt_mcs_idx t < 32 ->
  exists tbs, fill_tb last n alt t = Some (0 <=? tbs, filled_tb alt tbs t) /\
    (rt_enabled t = true -> tbs_of alt (rt_mcs_idx t) n = Some tbs) /\ (rt_enabled t = false -> tbs = 0) /\ -1 <= tbs < 2 ^ 31 /\ (1 <= n <= 110 -> 0 <= tbs).
Proof.
  intros Hm. unfold fill_tb, filled_tb. destruct (rt_enabled t) eqn:Et.
  - destruct (tbs_of_some alt (rt_mcs_idx t) n Hm) as (tbs & Eo & Ht & Hn). exists tbs. split_and!; [| done | done | lia | lia | done].
    unfold srsran_dl_fill_ra_mcs, tbs_of in *. cbn [rt_mcs_idx set_rt_mod].
    destruct (srsran_ra_tbs_idx_from_mcs (rt_mcs_idx t) alt false) as [i |]; [| done]. cbn [mbind option_bind] in *.
    destruct (0 <=? i).
    + rewrite Eo. cbn [mbind option_bind]. by destruct t.
    + injection Eo as <-. cbn [mbind option_bind]. by destruct t.
  - exists 0. split_and!; [done | done | done | lia | lia | lia].
Qed.

(** ** The blocks of a grant *)

(** A DCI whose fields are as wide as those of a message. *)
Record dl_dci_ok (n : Z) (dci : srsran_dci_dl_t) : Prop := DlDciOk {
  dk_alloc : alloc_in_range n dci;
  dk_mcs0 : 0 <= mcs_idx (d_tb0 dci) < 32;
  dk_mcs1 : 0 <= mcs_idx (d_tb1 dci) < 32;
  dk_dwpts : d_is_dwpts dci = false
}.

(** The 256QAM table is for C-RNTIs outside of format 1A. *)
Definition alt_table (alt : bool) (dci : srsran_dci_dl_t) : bool :=
  alt && negb (bool_decide (d_format dci = SRSRAN_DCI_FORMAT1A) || negb (SRSRAN_RNTI_ISUSER (d_rnti dci))).

(** Broadcast messages: everyone's but users' and MBSFN. *)
Definition broadcast (dci : srsran_dci_dl_t) : bool :=
  negb (SRSRAN_RNTI_ISUSER (d_rnti dci)) && negb (SRSRAN_RNTI_ISMBSFN (d_rnti dci)).

(** The size of the transport block of a broadcast message. *)
Definition broadcast_tbs (dci : srsran_dci_dl_t) : option Z :=
  if decide (d_format dci = SRSRAN_DCI_FORMAT1A)
  then srsran_ra_tbs_from_idx (mcs_idx (d_tb0 dci)) (if n_prb1a (d_alloc dci) =? SRSRAN_RA_TYPE2_NPRB1A_2 then 2 else 3)
  else zget tbs_format1c_table (mcs_idx (d_tb0 dci)).

(** Size and modulation of an enabled block of a grant of [n_prb] blocks. *)
Definition tb_spec (alt : bool) (dci : srsran_dci_dl_t) (n_prb : Z) (t : srsran_ra_tb_t) : Prop :=
  0 <= rt_tbs t < 2 ^ 31 /\
  (rt_enabled t = true ->
   if broadcast dci then broadcast_tbs dci = Some (rt_tbs t) /\ rt_mod t = SRSRAN_MOD_QPSK
   else tbs_of (alt_table alt dci) (rt_mcs_idx t) n_prb = Some (rt_tbs t) /\
     rt_mod t = srsran_ra_dl_mod_from_mcs (rt_mcs_idx t) (alt_table alt dci)).

(** The blocks after [dl_dci_compute_tb], which changes nothing else but their number. *)
Record blocks_ok (alt : bool) (dci : srsran_dci_dl_t) (g g' : srsran_pdsch_grant_t) : Prop := BlocksOk {
  bo_tb0 : tb_spec alt dci (pg_nof_prb g) (pg_tb0 g');
  bo_tb1 : tb_spec alt dci (pg_nof_prb g) (pg_tb1 g');
  bo_en0 : rt_enabled (pg_tb0 g') = (SRSRAN_DCI_IS_TB_EN (d_tb0 dci) && two_blocks (d_format dci)) || negb (two_blocks (d_format dci));
  bo_en1 : rt_enabled (pg_tb1 g') = SRSRAN_DCI_IS_TB_EN (d_tb1 dci) && two_blocks (d_format dci);
  bo_mcs0 : rt_mcs_idx (pg_tb0 g') = mcs_idx (d_tb0 dci);
  bo_mcs1 : rt_mcs_idx (pg_tb1 g') = mcs_idx (d_tb1 dci);
  bo_nof_tb : pg_nof_tb g' = Z.b2z (rt_enabled (pg_tb0 g')) + Z.b2z (rt_enabled (pg_tb1 g'));
  bo_slot0 : pg_slot0 g' = pg_slot0 g;
  bo_slot1 : pg_slot1 g' = pg_slot1 g;
  bo_nof_prb : pg_nof_prb g' = pg_nof_prb g
}.

Lemma format1c_some m : 0 <= m < 32 -> exists t, zget tbs_format1c_table m = Some t /\ 0 <= t < 2 ^ 31.
Proof. revert m. each_below 32; eexists; (split; [reflexivity | lia]). Qed.

(** The two reasons to refuse the blocks. *)
Definition tb_refused (dci : srsran_dci_dl_t) (n_prb : Z) : Prop :=
  if broadcast dci then d_format dci <> SRSRAN_DCI_FORMAT1A /\ d_format dci <> SRSRAN_DCI_FORMAT1C else ~ 1 <= n_prb <= 110.

Lemma compute_tb_spec n alt dci g : dl_dci_ok n dci -> pg_tb0 g = zero_ra_tb -> pg_tb1 g = zero_ra_tb -> pg_nof_tb g = 0 ->
  exists c g', dl_dci_compute_tb alt dci g = Some (c, g') /\ (c = SRSRAN_SUCCESS /\ blocks_ok alt dci g g' \/ c = SRSRAN_ERROR /\ tb_refused dci (pg_nof_prb g)).
Proof.
  intros [_ Hm0 Hm1 Hdw] E0 E1 En. unfold dl_dci_compute_tb. rewrite E0, E1, En, Hdw. fold (broadcast dci) (alt_table alt dci).
  set (t0 := copy_tb (d_format dci) true (d_tb0 dci) zero_ra_tb). set (t1 := copy_tb (d_format dci) false (d_tb1 dci) zero_ra_tb).
  assert (u32 (0 + Z.b2z (rt_enabled t0) + Z.b2z (rt_enabled t1)) = Z.b2z (rt_enabled t0) + Z.b2z (rt_enabled t1)) as Hnt
    by (by destruct (rt_enabled t0), (rt_enabled t1)).
  assert (rt_enabled t0 = (SRSRAN_DCI_IS_TB_EN (d_tb0 dci) && two_blocks (d_format dci)) || negb (two_blocks (d_format dci))) as He0
    by (unfold t0, copy_tb; cbn [rt_enabled]; by rewrite andb_true_r).
  assert (rt_enabled t1 = SRSRAN_DCI_IS_TB_EN (d_tb1 dci) && two_blocks (d_format dci)) as He1
    by (unfold t1, copy_tb; cbn [rt_enabled]; by rewrite andb_false_r, orb_false_r).
  cbv zeta. destruct (broadcast dci) eqn:Hb.
  - assert (forall tbs, 0 <= tbs < 2 ^ 31 -> broadcast_tbs dci = Some tbs -> two_blocks (d_format dci) = false ->
      blocks_ok alt dci g (set_pg_tbs (set_rt_tbs tbs (set_rt_mod SRSRAN_MOD_QPSK t0)) t1
        (set_pg_nof_tb (u32 (0 + Z.b2z (rt_enabled t0) + Z.b2z (rt_enabled t1))) (set_pg_tbs t0 t1 g)))) as Hok.
    { intros tbs Ht Hbt H2. split; cbn [pg_tb0 pg_tb1 pg_nof_prb pg_nof_tb pg_slot0 pg_slot1 set_pg_tbs set_pg_nof_tb rt_enabled rt_mcs_idx
        set_rt_tbs set_rt_mod]; try done.
      - unfold tb_spec. rewrite Hb. cbn [rt_tbs rt_mod set_rt_tbs set_rt_mod]. done.
      - unfold tb_spec. rewrite Hb. rewrite He1, H2, andb_false_r. split; [done | done]. }
    unfold broadcast_tbs in Hok. destruct (decide (d_format dci = SRSRAN_DCI_FORMAT1A)) as [Ef |].
    + destruct (tbs_from_idx_cases (mcs_idx (d_tb0 dci)) (if n_prb1a (d_alloc dci) =? SRSRAN_RA_TYPE2_NPRB1A_2 then 2 else 3)) as (t & Et & Ht); [lia |].
      assert (0 <= t < 2 ^ 31) as Ht' by (destruct (n_prb1a (d_alloc dci) =? _); lia).
      rewrite Et in *. cbn [mbind option_bind]. destruct (Z.ltb_spec t 0); [lia |]. eexists _, _. split; [done |]. left. split; [done |].
      apply Hok; [done | done |]. by rewrite Ef.
    + destruct (decide (d_format dci = SRSRAN_DCI_FORMAT1C)) as [Ef |]; [| eexists _, _; split; [done | right; unfold tb_refused; by rewrite Hb]].
      destruct (Z.ltb_spec (mcs_idx (d_tb0 dci)) 32); [| lia]. destruct (format1c_some _ Hm0) as (t & Et & Ht). rewrite Et in *.
      cbn [mbind option_bind]. eexists _, _. split; [done |]. left. split; [done |]. apply Hok; [done | done |]. by rewrite Ef.
  - cbn [pg_last_tbs0 pg_last_tbs1 pg_nof_prb set_pg_tbs set_pg_nof_tb].
    destruct (fill_tb_spec (pg_last_tbs0 g) (pg_nof_prb g) (alt_table alt dci) t0 Hm0) as (b0 & F0 & S0 & Z0 & B0 & P0).
    destruct (fill_tb_spec (pg_last_tbs1 g) (pg_nof_prb g) (alt_table alt dci) t1 Hm1) as (b1 & F1 & S1 & Z1 & B1 & P1).
    rewrite F0. cbn [mbind option_bind]. destruct (Z.leb_spec 0 b0) as [Hb0 |];
      [| eexists _, _; split; [done | right; unfold tb_refused; rewrite Hb; lia]].
    cbn [negb]. rewrite F1. cbn [mbind option_bind]. destruct (Z.leb_spec 0 b1) as [Hb1 |];
      [| eexists _, _; split; [done | right; unfold tb_refused; rewrite Hb; lia]].
    eexists _, _. split; [done |]. left. split; [done |].
    assert (forall b t, 0 <= b < 2 ^ 31 -> (rt_enabled t = true -> tbs_of (alt_table alt dci) (rt_mcs_idx t) (pg_nof_prb g) = Some b) ->
      tb_spec alt dci (pg_nof_prb g) (filled_tb (alt_table alt dci) b t)) as Hspec.
    { intros b t Hb' Ht. unfold tb_spec, filled_tb. rewrite Hb. cbn [rt_tbs set_rt_tbs]. split; [done |].
      destruct (rt_enabled t) eqn:Et; cbn [rt_enabled rt_mcs_idx rt_mod set_rt_tbs set_rt_mod]; [intros _; split; [by apply Ht | done] |].
      by rewrite Et. }
    assert (forall b t, rt_enabled (filled_tb (alt_table alt dci) b t) = rt_enabled t
      /\ rt_mcs_idx (filled_tb (alt_table alt dci) b t) = rt_mcs_idx t) as Hf by (intros b t; unfold filled_tb; by destruct (rt_enabled t) eqn:Et).
    destruct (Hf b0 t0) as [Fe0 Fm0], (Hf b1 t1) as [Fe1 Fm1].
    split; cbn [pg_tb0 pg_tb1 pg_nof_prb pg_nof_tb pg_slot0 pg_slot1 set_pg_tbs set_pg_nof_tb]; rewrite ?Fe0, ?Fe1, ?Fm0, ?Fm1; try done.
    + apply Hspec; [lia | done].
    + apply Hspec; [lia | done].
Qed.

(** ** The grant *)

Record grant_ok (cell : srsran_cell_t) (sf : srsran_dl_sf_cfg_t) (alt : bool) (dci : srsran_dci_dl_t)
    (g : srsran_pdsch_grant_t) : Prop := GrantOk {
  gk_slot0 : marks (pg_slot0 g) (assigned (nof_prb cell) dci false);
  gk_slot1 : marks (pg_slot1 g) (assigned (nof_prb cell) dci true);
  gk_cell : forall slot1 k, assigned (nof_prb cell) dci slot1 k -> 0 <= k < nof_prb cell;
  gk_count : ~ second_gap dci -> pg_nof_prb g = nof_marked (pg_slot0 g) /\ pg_nof_prb g = nof_marked (pg_slot1 g);
  gk_tb0 : tb_spec alt dci (pg_nof_prb g) (pg_tb0 g);
  gk_tb1 : tb_spec alt dci (pg_nof_prb g) (pg_tb1 g);
  gk_en0 : rt_enabled (pg_tb0 g) = (SRSRAN_DCI_IS_TB_EN (d_tb0 dci) && two_blocks (d_format dci)) || negb (two_blocks (d_format dci));
  gk_en1 : rt_enabled (pg_tb1 g) = SRSRAN_DCI_IS_TB_EN (d_tb1 dci) && two_blocks (d_format dci);
  gk_mcs0 : rt_mcs_idx (pg_tb0 g) = mcs_idx (d_tb0 dci);
  gk_mcs1 : rt_mcs_idx (pg_tb1 g) = mcs_idx (d_tb1 dci);
  gk_nof_tb : pg_nof_tb g = Z.b2z (rt_enabled (pg_tb0 g)) + Z.b2z (rt_enabled (pg_tb1 g));
  gk_elements : exists idx,
    srsran_pdsch_cp cell g (tti sf mod 10) (SRSRAN_NOF_CTRL_SYMBOLS cell (cfi sf)) = Some idx /\ pg_nof_re g = zlen idx /\
    (rt_enabled (pg_tb0 g) = true -> rt_nof_bits (pg_tb0 g) = zlen idx * srsran_mod_bits_x_symbol (rt_mod (pg_tb0 g))) /\
    (rt_enabled (pg_tb1 g) = true -> rt_nof_bits (pg_tb1 g) = zlen idx * srsran_mod_bits_x_symbol (rt_mod (pg_tb1 g)))
}.

(** The walk reads the two slots and the numbers of symbols of a grant. *)
Lemma pdsch_cp_ext cell g g' sf_idx lstart :
  pg_slot0 g = pg_slot0 g' -> pg_slot1 g = pg_slot1 g' -> pg_nof_symb_slot0 g = pg_nof_symb_slot0 g' ->
  pg_nof_symb_slot1 g = pg_nof_symb_slot1 g' -> srsran_pdsch_cp cell g sf_idx lstart = srsran_pdsch_cp cell g' sf_idx lstart.
Proof. destruct g, g'. cbn. intros -> -> -> ->. done. Qed.

Lemma zlen_between hi l : 0 <= hi -> between 0 hi l -> zlen l <= hi.
Proof.
  intros Hhi [Hd Hb]. assert (zlen l <= zlen (seqZ 0 hi)) as H.
  { unfold zlen. apply Nat2Z.inj_le, submseteq_length, NoDup_submseteq; [done |]. intros x Hx. rewrite Forall_forall in Hb.
    apply elem_of_seqZ. specialize (Hb x Hx). lia. }
  unfold zlen in H at 2. rewrite length_seqZ in H. lia.
Qed.

Lemma mod_bits_range m : 1 <= srsran_mod_bits_x_symbol m <= 8.
Proof. by destruct m. Qed.

(** Counting the bits keeps the rest of a transport block. *)
Lemma tb_bits_keeps re t :
  rt_enabled (tb_bits re t) = rt_enabled t /\ rt_mod (tb_bits re t) = rt_mod t /\ rt_tbs (tb_bits re t) = rt_tbs t
  /\ rt_mcs_idx (tb_bits re t) = rt_mcs_idx t.
Proof. unfold tb_bits. by destruct (rt_enabled t) eqn:Et. Qed.

Lemma tb_spec_bits alt dci n re t : tb_spec alt dci n t -> tb_spec alt dci n (tb_bits re t).
Proof. unfold tb_spec. by destruct (tb_bits_keeps re t) as (-> & -> & -> & ->). Qed.

Lemma tb_bits_count re t : 0 <= re < 2 ^ 28 -> rt_enabled (tb_bits re t) = true ->
  rt_nof_bits (tb_bits re t) = re * srsran_mod_bits_x_symbol (rt_mod (tb_bits re t)).
Proof.
  intros Hre. destruct (tb_bits_keeps re t) as (-> & -> & _). unfold tb_bits. intros ->. cbn [rt_nof_bits set_rt_nof_bits].
  pose proof (mod_bits_range (rt_mod t)). apply uwrap_small. unfold is_uint. nia.
Qed.

(** A subframe of 110 blocks has at most 18480 elements. *)
Lemma elements_bound cell sf g idx : fdd_grant cell g -> 1 <= cfi sf <= 3 ->
  srsran_pdsch_cp cell g (tti sf mod 10) (SRSRAN_NOF_CTRL_SYMBOLS cell (cfi sf)) = Some idx -> 0 <= zlen idx <= 18480.
Proof.
  intros Hg Hcfi Eidx. pose proof (zlen_nonneg idx).
  pose proof (pdsch_cp_blocks cell g (tti sf mod 10) Hg (SRSRAN_NOF_CTRL_SYMBOLS cell (cfi sf))) as Eb.
  rewrite Eidx in Eb. injection Eb as Eb. pose proof (ctrl_range cell sf g Hg Hcfi). pose proof (nsymb_range cell).
  pose proof (pdsch_cp_between cell g (tti sf mod 10) Hg (SRSRAN_NOF_CTRL_SYMBOLS cell (cfi sf)) ltac:(lia)) as Hb.
  rewrite <- Eb in Hb. pose proof (fg_prb _ _ Hg). apply zlen_between in Hb; nia.
Qed.

(** The reasons to refuse a DCI: a subset or a distribution out of the cell, a broadcast of
    another format, or a user without blocks. *)
Definition dl_refused (n : Z) (dci : srsran_dci_dl_t) : Prop :=
  d_alloc_type dci = SRSRAN_RA_ALLOC_TYPE1 /\ srsran_ra_type0_P n <= rbg_subset (d_alloc dci) \/
  d_alloc_type dci = SRSRAN_RA_ALLOC_TYPE2 /\ mode (d_alloc dci) <> SRSRAN_RA_TYPE2_LOC \/
  broadcast dci = true /\ d_format dci <> SRSRAN_DCI_FORMAT1A /\ d_format dci <> SRSRAN_DCI_FORMAT1C \/
  broadcast dci = false /\ forall k, ~ assigned n dci false k.

Lemma nof_marked_0 l k : nof_marked l = 0 -> zget l k <> Some true.
Proof.
  intros H E. assert (true ∈ filter (fun b => b = true) l) as Hin.
  { apply list_elem_of_filter. split; [done |]. pose proof (zget_inv _ _ _ E) as [Hk _]. rewrite zget_lookup in E by done.
    by apply list_elem_of_lookup_2 in E. }
  unfold nof_marked, zlen in H. destruct (filter (fun b => b = true) l); [by apply not_elem_of_nil in Hin | simpl in H; lia].
Qed.

(** The refusals of the blocks are refusals of the DCI. *)
Lemma tb_refused_dl n dci s : allocated n dci s -> tb_refused dci (mk_count s) -> dl_refused n dci.
Proof.
  intros [_ [Hl Hs] _ _ Hn Hm] Hr. unfold tb_refused in Hr. destruct (broadcast dci) eqn:Hb; [right; right; by left |].
  destruct (Z.eq_dec (d_alloc_type dci) SRSRAN_RA_ALLOC_TYPE2) as [Et | Et];
    [destruct (Z.eq_dec (mode (d_alloc dci)) SRSRAN_RA_TYPE2_LOC) as [Em | Em]; [| right; by left] |].
  all: right; right; right; split; [done |]; intros k Hk; apply Hs in Hk; revert Hk; apply nof_marked_0;
    destruct Hm as [Hm _]; [intros (? & ? & ?); congruence |]; pose proof (nof_marked_range (mk_slot0 s)); lia.
Qed.

Lemma grant_exists cell sf tm alt dci :
  frame_type cell = SRSRAN_FDD -> 6 <= nof_prb cell <= SRSRAN_MAX_PRB ->
  nof_ports cell = 1 \/ nof_ports cell = 2 \/ nof_ports cell = 4 ->
  sf_type sf = SRSRAN_SF_NORM -> 1 <= cfi sf <= 3 -> ~ four_ctrl_ext cell sf -> dl_dci_ok (nof_prb cell) dci ->
  exists c g, srsran_ra_dl_dci_to_grant_wo_mimo_yx cell sf tm alt dci = Some (c, g) /\
    (c = SRSRAN_ERROR /\ dl_refused (nof_prb cell) dci \/ c = SRSRAN_SUCCESS /\ grant_ok cell sf alt dci g).
Proof.
  intros Hfdd HN Hports Hsf Hcfi Hcorner Hdci. unfold srsran_ra_dl_dci_to_grant_wo_mimo_yx.
  destruct (prb_allocation_ok (nof_prb cell) dci HN (dk_alloc _ _ Hdci)) as (s & -> & Hs). cbn [mbind option_bind].
  destruct Hs as [Hs | [Hc Hno]]; [| rewrite Hc; eexists _, _; split; [done | left; split; [done | unfold dl_refused; tauto]]].
  pose proof Hs as [Hc Hs0 Hs1 Hcell Hn Hmarked]. rewrite Hc; cbn [negb Z.eqb SRSRAN_SUCCESS SRSRAN_ERROR].
  set (g0 := set_pg_prb (mk_slot0 s) (mk_slot1 s) (mk_count s) zero_grant).
  destruct (compute_tb_spec (nof_prb cell) alt dci g0 Hdci) as (c & g1 & -> & Hg1); [done.. |]. cbn [mbind option_bind].
  destruct Hg1 as [[-> Hok] | [-> Hno]]; [| eexists _, _; split; [done | left; split; [done | by apply (tb_refused_dl _ _ s)]]]. cbn [negb Z.eqb SRSRAN_SUCCESS].
  destruct Hok as [T0 T1 B0 B1 M0 M1 Hnt E0 E1 En]. cbn in E0, E1, En.
  set (g2 := set_pg_re 0 (SRSRAN_CP_NSYMB (cp cell)) (SRSRAN_CP_NSYMB (cp cell)) g1).
  assert (fdd_grant cell g2) as Hg2.
  { split; cbn [pg_nof_symb_slot0 pg_nof_symb_slot1 pg_slot0 pg_slot1 g2 set_pg_re]; try done; rewrite ?E0, ?E1; [apply Hs0 | apply Hs1]. }
  destruct (grant_elements cell sf g2 Hg2 Hsf Hcfi Hcorner) as (idx & Eidx & Ere).
  change (srsran_ra_dl_grant_nof_re cell sf g1 = Some (zlen idx)) in Ere.
  unfold srsran_ra_dl_compute_nof_re. rewrite Ere. cbn [mbind option_bind]. rewrite Hsf, Hfdd.
  rewrite !decide_True by done. cbn [mbind option_bind].
  pose proof (elements_bound cell sf g2 idx Hg2 Hcfi Eidx) as Hlen.
  set (g3 := set_pg_tbs (tb_bits _ _) _ (set_pg_re _ _ _ _)).
  assert (grant_ok cell sf alt dci g3) as Hg3.
  { unfold g3. split; cbn [pg_slot0 pg_slot1 pg_nof_prb pg_tb0 pg_tb1 pg_nof_tb pg_nof_re set_pg_tbs set_pg_re]; rewrite ?E0, ?E1, ?En; try done.
    - exact (tb_spec_bits _ _ _ _ _ T0).
    - exact (tb_spec_bits _ _ _ _ _ T1).
    - rewrite <- B0. apply tb_bits_keeps.
    - rewrite <- B1. apply tb_bits_keeps.
    - rewrite <- M0. apply tb_bits_keeps.
    - rewrite <- M1. apply tb_bits_keeps.
    - destruct (tb_bits_keeps (zlen idx) (pg_tb0 g1)) as (E & _), (tb_bits_keeps (zlen idx) (pg_tb1 g1)) as (E' & _).
      change (pg_nof_tb g1 = Z.b2z (rt_enabled (tb_bits (zlen idx) (pg_tb0 g1))) + Z.b2z (rt_enabled (tb_bits (zlen idx) (pg_tb1 g1)))).
      by rewrite E, E'.
    - exists idx. split_and!; [| done | apply tb_bits_count; lia | apply tb_bits_count; lia]. rewrite <- Eidx. by apply pdsch_cp_ext. }
  destruct (bool_decide _ && _); (eexists _, _; split; [done | right; split; [done |]]). 2: exact Hg3.
  destruct Hg3 as [K1 K2 K3 K4 K5 K6 K7 K8 K9 K10 K11 (i & I1 & I2 & I3 & I4)]. split; try done. exists i. by split_and!.
Qed.


(** *** Examples *)

(** A user's format 1A assignment of 7 local blocks from block 4, and one of format 2 with both
    blocks over every third group, [mcs1] being the scheme of the second. *)
Definition user_1a (mcs : Z) : srsran_dci_dl_t :=
  set_d_tb0 (DciTbInfo mcs 0 true 0) (set_d_alloc (Type2 (srsran_ra_type2_to_riv 7 4 15) 0 0 SRSRAN_RA_TYPE2_LOC)
    (set_d_alloc_type SRSRAN_RA_ALLOC_TYPE2 (set_d_format SRSRAN_DCI_FORMAT1A (set_d_rnti 100 zero_dl)))).
Definition user_2 (mcs1 : Z) : srsran_dci_dl_t :=
  set_d_tb1 (DciTbInfo mcs1 0 true 1) (set_d_tb0 (DciTbInfo 20 0 true 0) (set_d_alloc (Type2 73 0 0 SRSRAN_RA_TYPE2_LOC)
    (set_d_alloc_type SRSRAN_RA_ALLOC_TYPE0 (set_d_format SRSRAN_DCI_FORMAT2 (set_d_rnti 100 zero_dl))))).

Lemma user_1a_ok : dl_dci_ok 15 (user_1a 9).
Proof. split; [| done | done | done]. right. right. split; [done |]. vm_compute. split; congruence. Qed.


(** What a user sees of a grant: code, blocks, elements, and per transport block its state, its
    size and its bits. *)
Definition outcome (dci : srsran_dci_dl_t) :=
  '(c, g) ← srsran_ra_dl_dci_to_grant_wo_mimo_yx cell_15 (subframe_0 2) SRSRAN_TM2 false dci;
  Some (c, pg_nof_prb g, pg_nof_re g, (rt_enabled (pg_tb0 g), rt_tbs (pg_tb0 g), rt_nof_bits (pg_tb0 g)),
    (rt_enabled (pg_tb1 g), rt_tbs (pg_tb1 g), rt_nof_bits (pg_tb1 g))).

(** The size of a retransmission with [I_MCS] 29 is 0, not that of the first transmission: the
    size [srsran_dl_fill_ra_mcs] leaves in place is overwritten by its caller. *)
Example user_outcomes : outcome <$> [user_1a 9; user_1a 29; user_2 29]
  = [Some (0, 7, 516, (true, 1096, 1032), (false, 0, 0)); Some (0, 7, 516, (true, 0, 1032), (false, 0, 0));
     Some (0, 5, 524, (true, 1992, 3144), (true, 0, 1048))].
Proof. by vm_compute. Qed.
