(* ===== verification/Crc.v ===== *)
(** * Cyclic redundancy check ([lib/src/phy/fec/crc.c], [crc.h])

    The checksum of TS 36.212, section 5.1.1, over arrays of bits and over packed bytes. The
    code takes a byte at a time through a table of 256 entries; the last bits of an array are
    padded to a byte and the padding is stepped back. *)

From S2P Require Export DciBits PhyCommon.

(** ** The object and its table *)

Record srsran_crc_t := Crc {
  crc_table : list Z; crc_polynom : Z; crc_order : Z; crc_crcinit : Z; crc_crcmask : Z; crc_crchighbit : Z
}.

Definition set_crcinit (c : Z) (h : srsran_crc_t) : srsran_crc_t :=
  Crc (crc_table h) (crc_polynom h) (crc_order h) c (crc_crcmask h) (crc_crchighbit h).

(** One bit of a table entry. *)
Definition table_step (highbit polynom crc : Z) : Z :=
  let bit := negb (Z.land crc highbit =? 0) in
  let crc := u64 (Z.shiftl crc 1) in
  if bit then Z.lxor crc polynom else crc.

Definition gen_crc_table (h : srsran_crc_t) : list Z :=
  let pad := if crc_order h <? 8 then 8 - crc_order h else 0 in
  let ord := crc_order h + pad - 8 in
  let polynom := u32 (Z.shiftl (crc_polynom h) pad) in
  let highbit := u32 (Z.shiftl (crc_crchighbit h) pad) in
  (fun i => Z.land (Z.shiftr (Nat.iter 8 (table_step highbit polynom) (u64 (Z.shiftl i ord))) pad) (crc_crcmask h)) <$> seqZ 0 256.

(** One bit back. *)
Definition reverse_step (polynom crc : Z) : Z :=
  if Z.land 1 crc =? 1 then Z.shiftr (Z.lxor crc (u32 polynom)) 1 else Z.shiftr crc 1.

Definition reversecrcbit (crc nbits : Z) (h : srsran_crc_t) : Z :=
  Z.land (Nat.iter (Z.to_nat nbits) (reverse_step (crc_polynom h)) crc) (crc_crcmask h).

Definition srsran_crc_set_init (h : srsran_crc_t) (init : Z) : Z * srsran_crc_t :=
  (if negb (init =? Z.land init (crc_crcmask h)) then -1 else 0, set_crcinit init h).

(** [None] is an undefined shift. *)
Definition srsran_crc_init (crc_poly crc_ord : Z) : option (Z * srsran_crc_t) :=
  if (1 <=? crc_ord) && (crc_ord <=? 64) then
    let mask := Z.lor (u64 (Z.shiftl (u64 (Z.shiftl 1 (crc_ord - 1)) - 1) 1)) 1 in
    let h := Crc [] (s32 crc_poly) crc_ord 0 mask (u64 (Z.shiftl 1 (crc_ord - 1))) in
    let '(e, h) := srsran_crc_set_init h 0 in
    if negb (e =? 0) then Some (-1, h)
    else Some (0, Crc (gen_crc_table h) (crc_polynom h) (crc_order h) (crc_crcinit h) (crc_crcmask h) (crc_crchighbit h))
  else None.

(** ** Checksums *)

Definition srsran_crc_checksum_put_byte (h : srsran_crc_t) (byte : Z) : option srsran_crc_t :=
  let crc := crc_crcinit h in
  let idx :=
    if 8 <? crc_order h then Z.lxor (Z.land (Z.shiftr crc (crc_order h - 8)) 255) byte
    else Z.lxor (Z.land (u64 (Z.shiftl crc (8 - crc_order h))) 255) byte in
  t ← zget (crc_table h) idx;
  Some (set_crcinit (Z.lxor (u64 (Z.shiftl crc 8)) t) h).

Definition srsran_crc_checksum_get (h : srsran_crc_t) : Z := Z.land (crc_crcinit h) (crc_crcmask h).

(** The byte of the bits that are left, the first in the high bit. *)
Definition last_byte (data : list Z) (y res8 : Z) : option Z :=
  for_range 0 res8 (fun byte k => b ← zget data (y + k); Some (u8 (Z.lor byte (Z.shiftl b (7 - k))))) 0.

Definition srsran_crc_checksum (h : srsran_crc_t) (data : list Z) (len : Z) : option (Z * srsran_crc_t) :=
  let '(_, h) := srsran_crc_set_init h 0 in
  let len8 := Z.shiftr len 3 in
  let res8 := len - Z.shiftl len8 3 in
  let a := if 0 <? res8 then 1 else 0 in
  h ← for_range 0 (len8 + a) (fun h i =>
    byte ← (if i =? len8 then last_byte data (8 * i) res8
            else '(v, _) ← srsran_bit_pack 8 data (8 * i); Some (u8 (Z.land v 255)));
    srsran_crc_checksum_put_byte h byte) h;
  let crc := u32 (srsran_crc_checksum_get h) in
  Some (if a =? 1 then u32 (reversecrcbit crc (8 - res8) h) else crc, h).

Definition srsran_crc_checksum_byte (h : srsran_crc_t) (data : list Z) (len : Z) : option (Z * srsran_crc_t) :=
  let '(_, h) := srsran_crc_set_init h 0 in
  h ← for_range 0 (len / 8) (fun h i => b ← zget data i; srsran_crc_checksum_put_byte h b) h;
  Some (u32 (srsran_crc_checksum_get h), h).

(** ** Attaching and matching *)

Definition srsran_crc_attach_byte (h : srsran_crc_t) (data : list Z) (len : Z) : option (Z * list Z * srsran_crc_t) :=
  '(checksum, h) ← srsran_crc_checksum_byte h data len;
  data ← for_range 0 (crc_order h / 8) (fun data i =>
    zset data (len / 8 + (crc_order h / 8 - i - 1)) (u8 (Z.shiftr (Z.land checksum (u32 (Z.shiftl 255 (8 * i)))) (8 * i)))) data;
  Some (checksum, data, h).

Definition srsran_crc_attach (h : srsran_crc_t) (data : list Z) (len : Z) : option (Z * list Z * srsran_crc_t) :=
  '(checksum, h) ← srsran_crc_checksum h data len;
  '(_, data, _) ← srsran_bit_unpack checksum (crc_order h) data len;
  Some (checksum, data, h).

Definition srsran_crc_match (h : srsran_crc_t) (data : list Z) (len : Z) : option (bool * srsran_crc_t) :=
  '(c, h) ← srsran_crc_checksum h data (len + crc_order h); Some (c =? 0, h).

Definition srsran_crc_match_byte (h : srsran_crc_t) (data : list Z) (len : Z) : option (bool * srsran_crc_t) :=
  '(c, h) ← srsran_crc_checksum_byte h data (len + crc_order h); Some (c =? 0, h).

(** ** Division of polynomials

    A polynomial over the field of two elements is a natural number, its coefficients the
    bits. *)

Fixpoint ptimes (q : positive) (g : Z) : Z :=
  match q with
  | xH => g
  | xO q => 2 * ptimes q g
  | xI q => Z.lxor (2 * ptimes q g) g
  end.

Definition times (q g : Z) : Z := match q with Zpos q => ptimes q g | _ => 0 end.

(** The polynomial of a sequence of bits, the first the highest coefficient. *)
Definition poly_of (bits : list bool) : Z := foldl (fun m b => 2 * m + Z.b2z b) 0 bits.

(** TS 36.212, section 5.1.1: the message, moved up by the order, with the remainder added is
    divisible by the generator. *)
Definition remainder (g L : Z) (bits : list bool) (r : Z) : Prop :=
  0 <= r < 2 ^ L /\ exists q, 0 <= q /\ Z.lxor (Z.shiftl (poly_of bits) L) r = times q g.

(** ** Bits *)

Lemma testbit_double x n : 0 <= n -> Z.testbit (2 * x) n = (0 <? n) && Z.testbit x (n - 1).
Proof.
  intros Hn. destruct (Z.ltb_spec 0 n); cbn [andb].
  - replace n with (Z.succ (n - 1)) at 1 by lia. by rewrite Z.double_bits_succ.
  - replace n with 0 by lia. by rewrite Z.testbit_even_0.
Qed.

Lemma testbit_snoc c z n : 0 <= n -> Z.testbit (2 * c + Z.b2z z) n = if 0 <? n then Z.testbit c (n - 1) else z.
Proof.
  intros Hn. destruct (Z.ltb_spec 0 n).
  - replace n with (Z.succ (n - 1)) at 1 by lia. destruct z; [apply Z.testbit_odd_succ; lia | rewrite Z.add_0_r; apply Z.testbit_even_succ; lia].
  - replace n with 0 by lia. destruct z; [apply Z.testbit_odd_0 | rewrite Z.add_0_r; apply Z.testbit_even_0].
Qed.

Lemma testbit_above v n m : 0 <= v < 2 ^ n -> 0 <= n <= m -> Z.testbit v m = false.
Proof. intros Hv Hm. apply (below_pow2 v n); [lia | done | lia]. Qed.

Lemma lxor_range n a b : 0 <= n -> 0 <= a < 2 ^ n -> 0 <= b < 2 ^ n -> 0 <= Z.lxor a b < 2 ^ n.
Proof.
  intros Hn (Ha & Ha')%below_pow2 (Hb & Hb')%below_pow2; [| done..]. apply below_pow2; [done |].
  split; [by apply Z.lxor_nonneg |]. intros i Hi. by rewrite Z.lxor_spec, Ha', Hb'.
Qed.

(** The [n] low bits of a number, the highest first. *)
Definition msb_bits (n v : Z) : list bool := (fun i => Z.testbit v (n - 1 - i)) <$> seqZ 0 n.

Lemma msb_bits_succ n v : 0 <= n -> msb_bits (n + 1) v = Z.testbit v n :: msb_bits n v.
Proof.
  intros Hn. unfold msb_bits. rewrite seqZ_cons by lia. cbn [fmap list_fmap]. f_equal; [f_equal; lia |].
  replace (Z.pred (n + 1)) with n by lia. rewrite <- (Z.add_0_l (Z.succ 0)) at 1. change (0 + Z.succ 0) with (1 + 0).
  rewrite <- fmap_add_seqZ, <- list_fmap_compose. apply list_fmap_ext. intros ? i _. cbn. f_equal. lia.
Qed.

Lemma zlen_msb n v : 0 <= n -> zlen (msb_bits n v) = n.
Proof. intros Hn. unfold zlen, msb_bits. rewrite length_fmap, length_seqZ. lia. Qed.

Definition nth_bit (l : list bool) (k : Z) : bool := default false (l !! Z.to_nat k).

Lemma zget_bits msg rest k : 0 <= k < zlen msg -> zget ((Z.b2z <$> msg) ++ rest) k = Some (Z.b2z (nth_bit msg k)).
Proof.
  intros Hk. unfold zlen in Hk. destruct (lookup_lt_is_Some_2 msg (Z.to_nat k)) as [b Hb]; [lia |].
  rewrite zget_lookup, lookup_app_l by (rewrite ?length_fmap; lia). unfold nth_bit. by rewrite list_lookup_fmap, Hb.
Qed.

Lemma msb_bits_eq n v l : zlen l = n -> (forall k, 0 <= k < n -> Z.testbit v (n - 1 - k) = nth_bit l k) -> msb_bits n v = l.
Proof.
  intros Hl Hv. unfold zlen in Hl. apply list_eq. intros i. unfold msb_bits. rewrite list_lookup_fmap.
  destruct (decide (i < length l)%nat) as [Hi |].
  - rewrite lookup_seqZ_lt by lia. destruct (lookup_lt_is_Some_2 l i Hi) as [b Hb]. rewrite Hb. cbn. f_equal.
    rewrite Z.add_0_l, Hv by lia. unfold nth_bit. by rewrite Nat2Z.id, Hb.
  - rewrite lookup_seqZ_ge, lookup_ge_None_2 by lia. done.
Qed.

Lemma nth_bit_drop n k (msg : list bool) : 0 <= n -> 0 <= k -> nth_bit (drop (Z.to_nat n) msg) k = nth_bit msg (n + k).
Proof. intros Hn Hk. unfold nth_bit. rewrite lookup_drop. do 2 f_equal. lia. Qed.

Lemma nth_bit_take n k (msg : list bool) : 0 <= k < Z.of_nat n -> nth_bit (take n msg) k = nth_bit msg k.
Proof. intros Hk. unfold nth_bit. by rewrite lookup_take_lt by lia. Qed.

Lemma take_byte i (msg : list bool) : 0 <= i ->
  take (Z.to_nat (8 * (i + 1))) msg = take (Z.to_nat (8 * i)) msg ++ take 8 (drop (Z.to_nat (8 * i)) msg).
Proof. intros Hi. rewrite take_take_drop. f_equal. lia. Qed.

Lemma last_byte_spec (f : Z -> bool) data y n : 0 <= n <= 8 -> (forall k, 0 <= k < n -> zget data (y + k) = Some (Z.b2z (f k))) ->
  exists v, last_byte data y n = Some v /\ 0 <= v < 256 /\ forall k, 0 <= k < 8 -> Z.testbit v (7 - k) = (k <? n) && f k.
Proof.
  intros Hn Hf. unfold last_byte.
  loop_inv (fun i v => 0 <= v < 2 ^ 8 /\ forall k, 0 <= k < 8 -> Z.testbit v (7 - k) = (k <? i) && f k) as (v & -> & Hv & Hk).
  - lia.
  - split; [done |]. intros k Hk. rewrite Z.bits_0. by destruct (Z.ltb_spec k 0); [lia |].
  - intros i v Hi [Hv Hk]. rewrite Hf by lia. cbn [mbind option_bind]. eexists. split; [done |].
    split; [by apply uwrap_is_uint |]. intros k Hk'. rewrite testbit_uwrap, Z.lor_spec, Z.shiftl_spec, Hk by lia.
    destruct (Z.ltb_spec (7 - k) 8); [| lia]. cbn [andb]. replace (7 - k - (7 - i)) with (i - k) by lia.
    assert (Z.testbit (Z.b2z (f i)) (i - k) = (k =? i) && f k) as ->.
    { destruct (Z.eqb_spec k i) as [-> |]; [by rewrite Z.sub_diag; destruct (f i) |].
      destruct (Z.ltb_spec (i - k) 0); [by apply Z.testbit_neg_r |]. destruct (f i); cbn [Z.b2z]; [| by rewrite Z.bits_0].
      change 1 with (2 ^ 0). apply Z.pow2_bits_false. lia. }
    destruct (Z.ltb_spec k i), (Z.ltb_spec k (i + 1)), (Z.eqb_spec k i); try lia; by rewrite ?orb_false_r.
  - exists v. split; [done |]. split; [lia | done].
Qed.

Lemma msb_bits_byte c k : 0 <= k ->
  msb_bits 8 (Z.land (Z.shiftr c k) 255) = (fun i => Z.testbit c (k + 7 - i)) <$> [0; 1; 2; 3; 4; 5; 6; 7].
Proof.
  intros Hk. unfold msb_bits. change (seqZ 0 8) with [0; 1; 2; 3; 4; 5; 6; 7]. apply list_fmap_ext. intros i x Hx.
  assert (0 <= x < 8) as Hx' by (destruct i as [| [| [| [| [| [| [| [|]]]]]]]]; cbn in Hx; simplify_eq; lia).
  change 255 with (Z.ones 8). rewrite Z.land_spec, Z.shiftr_spec, Z.testbit_ones_nonneg by lia.
  destruct (Z.ltb_spec (8 - 1 - x) 8); [| lia]. rewrite andb_true_r. f_equal. lia.
Qed.

Definition bits_of_bytes (bytes : list Z) : list bool := concat (msb_bits 8 <$> bytes).

Lemma poly_of_snoc l b : poly_of (l ++ [b]) = 2 * poly_of l + Z.b2z b.
Proof. unfold poly_of. by rewrite foldl_app. Qed.

Lemma poly_of_range l : 0 <= poly_of l < 2 ^ zlen l.
Proof.
  induction l as [| b l IH] using rev_ind; [done |]. rewrite poly_of_snoc, zlen_app. change (zlen [b]) with 1.
  rewrite Z.pow_add_r by (pose proof (zlen_nonneg l); lia). destruct b; cbn [Z.b2z]; lia.
Qed.

Lemma msb_bits_poly l : msb_bits (zlen l) (poly_of l) = l.
Proof.
  induction l as [| b l IH] using rev_ind; [done |]. pose proof (zlen_nonneg l). rewrite zlen_app. change (zlen [b]) with 1.
  unfold msb_bits in *. rewrite seqZ_snoc, fmap_app by done. f_equal.
  - rewrite <- IH at 2. apply list_fmap_ext. intros i k Hk. apply lookup_seqZ in Hk as [-> Hk].
    rewrite poly_of_snoc, testbit_snoc by lia. destruct (Z.ltb_spec 0 (zlen l + 1 - 1 - (0 + Z.of_nat i))); [f_equal; lia | lia].
  - cbn. rewrite poly_of_snoc, testbit_snoc by lia. by destruct (Z.ltb_spec 0 (zlen l + 1 - 1 - zlen l)); [lia |].
Qed.

Lemma fill_bits n v old : 0 <= n -> zlen old = n -> fill (field n v) old = Z.b2z <$> msb_bits n v.
Proof.
  intros Hn Ho. unfold fill, field, msb_bits. rewrite <- list_fmap_compose. unfold zlen in Ho. apply list_eq. intros i.
  rewrite lookup_zip_with, !list_lookup_fmap. destruct (decide (i < Z.to_nat n)%nat).
  - rewrite !lookup_seqZ_lt by lia. destruct (lookup_lt_is_Some_2 old i) as [x ->]; [lia | done].
  - by rewrite !lookup_seqZ_ge by lia.
Qed.

(** ** The shift register

    What the table is an acceleration of: the register takes a bit at a time. *)

Section register.
Context (L g : Z) (HL : 8 <= L <= 24) (Hg : 2 ^ L <= g < 2 ^ (L + 1)).

(** The register moves up, and the generator is taken off when a bit leaves it. *)
Definition shifted (x : Z) : Z := Z.lxor (uwrap L (2 * x)) (if Z.testbit x (L - 1) then uwrap L g else 0).

Definition top (b : bool) : Z := if b then 2 ^ (L - 1) else 0.

Definition step (r : Z) (b : bool) : Z := shifted (Z.lxor r (top b)).

Definition crc_bits (r : Z) (bits : list bool) : Z := foldl step r bits.

Lemma generator_top : Z.testbit g L = true.
Proof.
  destruct (Z.testbit g L) eqn:E; [done |]. exfalso. assert (0 <= g < 2 ^ L); [| lia].
  apply below_pow2; [lia |]. split; [lia |]. intros i Hi. destruct (Z.eqb_spec i L) as [-> |]; [done | apply (testbit_above g (L + 1)); lia].
Qed.

Lemma testbit_shifted x n : 0 <= n ->
  Z.testbit (shifted x) n = (n <? L) && xorb ((0 <? n) && Z.testbit x (n - 1)) (Z.testbit x (L - 1) && Z.testbit g n).
Proof.
  intros Hn. unfold shifted. rewrite Z.lxor_spec, testbit_uwrap, testbit_double by lia.
  destruct (Z.testbit x (L - 1)); rewrite ?testbit_uwrap, ?Z.bits_0 by lia; by destruct (n <? L).
Qed.

Lemma shifted_lxor a b : shifted (Z.lxor a b) = Z.lxor (shifted a) (shifted b).
Proof.
  apply Z.bits_inj'. intros n Hn. rewrite Z.lxor_spec, !testbit_shifted, !Z.lxor_spec by done.
  destruct (n <? L), (0 <? n), (Z.testbit a (n - 1)), (Z.testbit b (n - 1)), (Z.testbit a (L - 1)), (Z.testbit b (L - 1)), (Z.testbit g n); done.
Qed.

Lemma shifted_range x : 0 <= shifted x < 2 ^ L.
Proof. unfold shifted. apply lxor_range; [lia | apply uwrap_is_uint; lia |]. destruct (Z.testbit _ _); [apply uwrap_is_uint |]; lia. Qed.

Lemma crc_bits_range r bits : 0 <= r < 2 ^ L -> 0 <= crc_bits r bits < 2 ^ L.
Proof. revert r. induction bits as [| b bits IH]; intros r Hr; [done |]. apply IH, shifted_range. Qed.

Lemma crc_bits_app r b1 b2 : crc_bits r (b1 ++ b2) = crc_bits (crc_bits r b1) b2.
Proof. apply foldl_app. Qed.

(** A register whose top bit is clear only moves up. *)
Lemma shifted_low x : 0 <= x < 2 ^ (L - 1) -> shifted x = 2 * x.
Proof.
  intros Hx. unfold shifted. replace (Z.testbit x (L - 1)) with false.
  - rewrite Z.lxor_0_r. apply uwrap_small. split; [lia |]. replace L with (Z.succ (L - 1)) by lia. rewrite Z.pow_succ_r; lia.
  - symmetry. apply below_pow2 in Hx as [_ Hx]; [by apply Hx; lia | lia].
Qed.

Lemma iter_shifted_low m x : Z.of_nat m <= L -> 0 <= x < 2 ^ (L - Z.of_nat m) -> Nat.iter m shifted x = Z.shiftl x (Z.of_nat m).
Proof.
  revert x. induction m as [| m IH]; intros x Hm Hx; [by rewrite Z.shiftl_0_r |].
  rewrite Nat.iter_succ_r, shifted_low.
  - rewrite IH; [| lia |].
    + replace (2 * x) with (Z.shiftl x 1) by (rewrite Z.shiftl_mul_pow2; lia). rewrite Z.shiftl_shiftl by lia. f_equal. lia.
    + split; [lia |]. replace (L - Z.of_nat m) with (Z.succ (L - Z.of_nat (S m))) by lia. rewrite Z.pow_succ_r; lia.
  - split; [lia |]. eapply Z.lt_le_trans; [apply Hx |]. apply Z.pow_le_mono_r; lia.
Qed.

(** Up to [L] bits can be put into the register at once. *)
Lemma crc_word m w r : Z.of_nat m <= L -> crc_bits r (msb_bits (Z.of_nat m) w)
  = Nat.iter m shifted (Z.lxor r (Z.shiftl (uwrap (Z.of_nat m) w) (L - Z.of_nat m))).
Proof.
  revert r. induction m as [| m IH]; intros r Hm.
  { unfold uwrap. change (2 ^ Z.of_nat 0) with 1. rewrite Z.mod_1_r, Z.shiftl_0_l. cbn. by rewrite Z.lxor_0_r. }
  replace (Z.of_nat (S m)) with (Z.of_nat m + 1) by lia. rewrite msb_bits_succ by lia. cbn [crc_bits foldl].
  change (foldl step ?a ?b) with (crc_bits a b). rewrite IH by lia. rewrite Nat.iter_succ_r. f_equal. unfold step.
  set (low := Z.shiftl (uwrap (Z.of_nat m) w) (L - (Z.of_nat m + 1))).
  assert (0 <= low < 2 ^ (L - 1)) as Hlow.
  { unfold low. rewrite Z.shiftl_mul_pow2 by lia. pose proof (uwrap_is_uint (Z.of_nat m) w ltac:(lia)) as Hu. unfold is_uint in Hu.
    replace (L - 1) with (Z.of_nat m + (L - (Z.of_nat m + 1))) by lia. rewrite Z.pow_add_r by lia.
    split; [apply Z.mul_nonneg_nonneg; [lia | apply Z.pow_nonneg; lia] |]. apply Z.mul_lt_mono_pos_r; [apply Z.pow_pos_nonneg; lia | lia]. }
  replace (Z.shiftl (uwrap (Z.of_nat m) w) (L - Z.of_nat m)) with (shifted low).
  2:{ rewrite shifted_low by done. unfold low. replace (L - Z.of_nat m) with (1 + (L - (Z.of_nat m + 1))) by lia.
      rewrite <- Z.shiftl_shiftl, !Z.shiftl_mul_pow2 by lia. lia. }
  rewrite <- shifted_lxor. f_equal. rewrite Z.lxor_assoc. f_equal. unfold low.
  apply Z.bits_inj'. intros n Hn. rewrite Z.lxor_spec, !Z.shiftl_spec by done. unfold top.
  destruct (Z.ltb_spec n (L - (Z.of_nat m + 1))).
  - rewrite !(Z.testbit_neg_r _ (n - _)) by lia. destruct (Z.testbit w (Z.of_nat m)); rewrite ?Z.bits_0, ?Z.pow2_bits_eqb by lia; [| done].
    destruct (Z.eqb_spec (L - 1) n); [lia | done].
  - rewrite !testbit_uwrap by lia. destruct (Z.eqb_spec n (L - 1)) as [-> |].
    + replace (L - 1 - (L - (Z.of_nat m + 1))) with (Z.of_nat m) by lia. rewrite (proj2 (Z.ltb_ge _ _)), (proj2 (Z.ltb_lt _ _)) by lia.
      destruct (Z.testbit w (Z.of_nat m)); rewrite ?Z.bits_0, ?Z.pow2_bits_true by lia; done.
    + replace (Z.testbit (if Z.testbit w (Z.of_nat m) then 2 ^ (L - 1) else 0) n) with false.
      2:{ destruct (Z.testbit w _); rewrite ?Z.bits_0, ?Z.pow2_bits_false by lia; done. }
      cbn [xorb]. destruct (Z.ltb_spec (n - (L - (Z.of_nat m + 1))) (Z.of_nat m)), (Z.ltb_spec (n - (L - (Z.of_nat m + 1))) (Z.of_nat m + 1)); try lia; done.
Qed.

(** The register after a byte. *)
Lemma crc_byte r byte : 0 <= r < 2 ^ L -> 0 <= byte < 256 ->
  crc_bits r (msb_bits 8 byte) = Z.lxor (uwrap L (Z.shiftl r 8)) (Nat.iter 8 shifted (Z.shiftl (Z.lxor (Z.shiftr r (L - 8)) byte) (L - 8))).
Proof.
  intros Hr Hb. pose proof (crc_word 8 byte r ltac:(lia)) as E. change (Z.of_nat 8) with 8 in E. rewrite E, uwrap_small by done. clear E.
  replace (Z.lxor r (Z.shiftl byte (L - 8)))
    with (Z.lxor (uwrap (L - 8) r) (Z.shiftl (Z.lxor (Z.shiftr r (L - 8)) byte) (L - 8))).
  - rewrite iter_lxor by apply shifted_lxor. f_equal. rewrite iter_shifted_low; [| lia |].
    + apply Z.bits_inj'. intros n Hn. rewrite testbit_uwrap, !Z.shiftl_spec by lia. change (Z.of_nat 8) with 8.
      destruct (Z.leb_spec 8 n); [| by rewrite !(Z.testbit_neg_r _ (n - 8)), andb_false_r by lia]. rewrite testbit_uwrap by lia.
      destruct (Z.ltb_spec (n - 8) (L - 8)), (Z.ltb_spec n L); try lia; done.
    + apply uwrap_is_uint. lia.
  - apply Z.bits_inj'. intros n Hn. rewrite !Z.lxor_spec, testbit_uwrap, !Z.shiftl_spec by lia.
    destruct (Z.ltb_spec n (L - 8)); [by rewrite !(Z.testbit_neg_r _ (n - (L - 8))), !xorb_false_r by lia |].
    rewrite Z.lxor_spec, Z.shiftr_spec by lia. replace (n - (L - 8) + (L - 8)) with n by lia. by cbn [andb xorb].
Qed.

(** ** The object computes the register *)

Record is_crc (h : srsran_crc_t) : Prop := IsCrc {
  ic_order : crc_order h = L;
  ic_polynom : crc_polynom h = g;
  ic_mask : crc_crcmask h = 2 ^ L - 1;
  ic_table : forall i, 0 <= i < 256 -> zget (crc_table h) i = Some (Nat.iter 8 shifted (Z.shiftl i (L - 8)))
}.

(** The register, held in the low bits of [crcinit]. *)
Definition holds (h : srsran_crc_t) (r : Z) : Prop := is_crc h /\ uwrap L (crc_crcinit h) = r.

Lemma is_crc_set h c : is_crc h -> is_crc (set_crcinit c h).
Proof. by intros []. Qed.

Lemma land_mask x : Z.land x (2 ^ L - 1) = uwrap L x.
Proof. rewrite Z.sub_1_r, <- Z.ones_equiv, Z.land_ones by lia. done. Qed.

Lemma generator_32 : is_uint 32 g.
Proof. split; [lia |]. eapply Z.lt_le_trans; [apply Hg |]. apply Z.pow_le_mono_r; lia. Qed.

Lemma land_top c : Z.land c (2 ^ (L - 1)) = if Z.testbit c (L - 1) then 2 ^ (L - 1) else 0.
Proof.
  apply Z.bits_inj'. intros n Hn. rewrite Z.land_spec, Z.pow2_bits_eqb by lia. destruct (Z.eqb_spec (L - 1) n) as [<- |].
  - rewrite andb_true_r. destruct (Z.testbit c (L - 1)); rewrite ?Z.pow2_bits_true, ?Z.bits_0 by lia; done.
  - rewrite andb_false_r. destruct (Z.testbit c (L - 1)); rewrite ?Z.pow2_bits_false, ?Z.bits_0 by lia; done.
Qed.

Lemma table_step_spec c : uwrap L (table_step (2 ^ (L - 1)) g c) = shifted (uwrap L c).
Proof.
  unfold table_step. rewrite land_top.
  assert (negb ((if Z.testbit c (L - 1) then 2 ^ (L - 1) else 0) =? 0) = Z.testbit c (L - 1)) as ->.
  { destruct (Z.testbit _ _); [| done]. by destruct (Z.eqb_spec (2 ^ (L - 1)) 0) as [E | E]; [pose proof (Z.pow_pos_nonneg 2 (L - 1)); lia |]. }
  apply Z.bits_inj'. intros n Hn. rewrite testbit_uwrap, testbit_shifted, (testbit_uwrap L c (L - 1)) by lia.
  destruct (Z.ltb_spec (L - 1) L); [| lia]. destruct (Z.ltb_spec n L); cbn [andb]; [| done].
  assert (Z.testbit (u64 (Z.shiftl c 1)) n = (0 <? n) && Z.testbit (uwrap L c) (n - 1)) as E.
  { rewrite testbit_uwrap, Z.shiftl_spec by lia. destruct (Z.ltb_spec n 64); [| lia]. destruct (Z.ltb_spec 0 n); cbn [andb].
    - rewrite testbit_uwrap by lia. by destruct (Z.ltb_spec (n - 1) L); [| lia].
    - apply Z.testbit_neg_r. lia. }
  destruct (Z.testbit c (L - 1)); [rewrite Z.lxor_spec |]; rewrite E; [done |]. by rewrite xorb_false_r.
Qed.

Lemma table_steps m c : uwrap L (Nat.iter m (table_step (2 ^ (L - 1)) g) c) = Nat.iter m shifted (uwrap L c).
Proof. induction m as [| m IH]; [done |]. by rewrite !Nat.iter_succ, table_step_spec, IH. Qed.

Lemma masks : u64 (Z.shiftl 1 (L - 1)) = 2 ^ (L - 1) /\
  Z.lor (u64 (Z.shiftl (u64 (Z.shiftl 1 (L - 1)) - 1) 1)) 1 = 2 ^ L - 1.
Proof.
  assert (L = 8 \/ L = 9 \/ L = 10 \/ L = 11 \/ L = 12 \/ L = 13 \/ L = 14 \/ L = 15 \/ L = 16 \/ L = 17 \/ L = 18 \/ L = 19 \/ L = 20
    \/ L = 21 \/ L = 22 \/ L = 23 \/ L = 24) as HL' by lia.
  clear Hg HL. by repeat (destruct HL' as [-> | HL']; [done |]); subst.
Qed.

Lemma init_is_crc : exists h, srsran_crc_init g L = Some (0, h) /\ is_crc h.
Proof.
  unfold srsran_crc_init. destruct (Z.leb_spec 1 L), (Z.leb_spec L 64); try lia. cbn [andb].
  destruct masks as [Hh Hm]. rewrite Hh in *. rewrite Hm. cbn. eexists. split; [done |]. split; cbn; [done | | done |].
  - apply swrap_small; [done |]. split; [lia |]. eapply Z.lt_le_trans; [apply Hg |]. change (2 ^ (32 - 1)) with (2 ^ 31). apply Z.pow_le_mono_r; lia.
  - intros i Hi. unfold gen_crc_table. cbn. destruct (Z.ltb_spec L 8); [lia |].
    rewrite zget_lookup, list_lookup_fmap, lookup_seqZ_lt by lia. cbn. rewrite Z.shiftr_0_r, land_mask, !Z.shiftl_0_r.
    assert (s32 g = g) as ->.
    { apply swrap_small; [done |]. split; [lia |]. eapply Z.lt_le_trans; [apply Hg |]. apply (Z.pow_le_mono_r 2 (L + 1) 31); lia. }
    rewrite (uwrap_small 32 g) by apply generator_32. rewrite (uwrap_small 32 (2 ^ (L - 1))) by (split; [lia | apply Z.pow_lt_mono_r; lia]).
    f_equal. etransitivity; [apply (table_steps 8) |]. cbn [Nat.iter nat_rect]. replace (L + 0 - 8) with (L - 8) by lia. rewrite Z2Nat.id, Z.add_0_l by lia.
    assert (uwrap L (u64 (Z.shiftl i (L - 8))) = Z.shiftl i (L - 8)) as ->; [| done].
    assert (0 <= Z.shiftl i (L - 8) < 2 ^ L) as Hs.
    { rewrite Z.shiftl_mul_pow2 by lia. replace (2 ^ L) with (256 * 2 ^ (L - 8)) by (change 256 with (2 ^ 8); rewrite <- Z.pow_add_r by lia; f_equal; lia).
      split; [apply Z.mul_nonneg_nonneg; [lia | by apply Z.pow_nonneg] |]. apply Z.mul_lt_mono_pos_r; [apply Z.pow_pos_nonneg; lia | lia]. }
    assert (2 ^ L <= 2 ^ 64) by (apply Z.pow_le_mono_r; lia).
    rewrite (uwrap_small 64) by (unfold is_uint; lia). by apply uwrap_small.
Qed.

Lemma put_byte_spec h r byte : holds h r -> 0 <= byte < 256 ->
  exists h', srsran_crc_checksum_put_byte h byte = Some h' /\ holds h' (crc_bits r (msb_bits 8 byte)).
Proof.
  intros [Hh Hr] Hb. pose proof (uwrap_is_uint L (crc_crcinit h) ltac:(lia)) as Hc. rewrite Hr in Hc. unfold is_uint in Hc.
  unfold srsran_crc_checksum_put_byte. rewrite (ic_order _ Hh).
  set (idx := Z.lxor (Z.shiftr r (L - 8)) byte).
  assert ((if 8 <? L then Z.lxor (Z.land (Z.shiftr (crc_crcinit h) (L - 8)) 255) byte
           else Z.lxor (Z.land (u64 (Z.shiftl (crc_crcinit h) (8 - L))) 255) byte) = idx) as ->.
  { unfold idx. rewrite <- Hr. change 255 with (Z.ones 8). destruct (Z.ltb_spec 8 L); f_equal; apply Z.bits_inj'; intros n Hn.
    - rewrite Z.land_spec, !Z.shiftr_spec, testbit_uwrap, Z.testbit_ones_nonneg by lia.
      destruct (Z.ltb_spec n 8), (Z.ltb_spec (n + (L - 8)) L); try lia; by rewrite ?andb_true_r, ?andb_false_r.
    - replace L with 8 by lia. change (8 - 8) with 0. rewrite Z.shiftl_0_r, Z.shiftr_0_r.
      rewrite Z.land_spec, !testbit_uwrap, Z.testbit_ones_nonneg by lia.
      destruct (Z.ltb_spec n 8), (Z.ltb_spec n 64); try lia; cbn [andb]; by rewrite ?andb_true_r, ?andb_false_r. }
  assert (0 <= idx < 2 ^ 8) as Hi.
  { apply lxor_range; [done | | done]. rewrite Z.shiftr_div_pow2 by lia. split; [apply Z.div_pos; [lia | apply Z.pow_pos_nonneg; lia] |].
    apply Z.div_lt_upper_bound; [apply Z.pow_pos_nonneg; lia |]. rewrite <- Z.pow_add_r by lia. replace (L - 8 + 8) with L by lia. lia. }
  rewrite (ic_table _ Hh) by lia. cbn [mbind option_bind]. eexists. split; [done |].
  split; [by apply is_crc_set |]. cbn [set_crcinit crc_crcinit]. rewrite crc_byte by done. fold idx.
  set (t := Nat.iter 8 shifted (Z.shiftl idx (L - 8))).
  assert (uwrap L t = t) as Ht by (apply uwrap_small; apply shifted_range).
  apply Z.bits_inj'. intros n Hn. rewrite testbit_uwrap, !Z.lxor_spec by lia. rewrite <- Ht, !testbit_uwrap by lia. rewrite <- Hr, !Z.shiftl_spec by lia.
  destruct (Z.ltb_spec n L), (Z.ltb_spec n 64); try lia; cbn [andb]; [| done..].
  destruct (Z.leb_spec 8 n); [| by rewrite !(Z.testbit_neg_r _ (n - 8)) by lia].
  rewrite testbit_uwrap by lia. by destruct (Z.ltb_spec (n - 8) L); [| lia].
Qed.

(** ** Back one bit *)

Lemma reverse_shifted (Hodd : Z.odd g = true) x : 0 <= x < 2 ^ L -> reverse_step g (shifted x) = x.
Proof.
  intros Hx. unfold reverse_step. rewrite (uwrap_small 32 g) by apply generator_32.
  assert ((Z.land 1 (shifted x) =? 1) = Z.testbit x (L - 1)) as ->.
  { assert (Z.testbit (shifted x) 0 = Z.testbit x (L - 1)) as E.
    { rewrite testbit_shifted by done. destruct (Z.ltb_spec 0 L); [| lia]. change (0 <? 0) with false. rewrite Z.bit0_odd, Hodd.
      cbn [andb xorb]. by rewrite andb_true_r. }
    rewrite <- E, Z.land_comm. pose proof (Z.land_ones (shifted x) 1 ltac:(done)) as El. change (Z.ones 1) with 1 in El. rewrite El.
    change (2 ^ 1) with 2. rewrite Zmod_odd, <- Z.bit0_odd. by destruct (Z.testbit (shifted x) 0). }
  apply Z.bits_inj'. intros n Hn.
  assert (Z.testbit (shifted x) (n + 1) = (n + 1 <? L) && xorb (Z.testbit x n) (Z.testbit x (L - 1) && Z.testbit g (n + 1))) as E.
  { rewrite testbit_shifted by lia. destruct (Z.ltb_spec 0 (n + 1)); [| lia]. by replace (n + 1 - 1) with n by lia. }
  destruct (Z.testbit x (L - 1)) eqn:Et; rewrite Z.shiftr_spec, ?Z.lxor_spec, E by done.
  - destruct (Z.ltb_spec (n + 1) L); cbn [andb]; [by destruct (Z.testbit x n), (Z.testbit g (n + 1)) |].
    destruct (Z.eqb_spec (n + 1) L) as [En |]; [rewrite En, generator_top; replace n with (L - 1) by lia; by rewrite Et |].
    rewrite (testbit_above g (L + 1)), (testbit_above x L) by lia. done.
  - rewrite andb_false_l, xorb_false_r. destruct (Z.ltb_spec (n + 1) L); [done |]. cbn [andb]. symmetry.
    destruct (Z.eqb_spec n (L - 1)) as [-> |]; [done | apply (testbit_above x L); lia].
Qed.

Lemma iter_shifted_range m x : 0 <= x < 2 ^ L -> 0 <= Nat.iter m shifted x < 2 ^ L.
Proof. destruct m; [done |]. intros _. rewrite Nat.iter_succ. apply shifted_range. Qed.

Lemma reverse_iter (Hodd : Z.odd g = true) m x : 0 <= x < 2 ^ L -> Nat.iter m (reverse_step g) (Nat.iter m shifted x) = x.
Proof.
  intros Hx. induction m as [| m IH]; [done |]. rewrite Nat.iter_succ_r. rewrite (Nat.iter_succ m _ shifted x), reverse_shifted; [done | done |].
  by apply iter_shifted_range.
Qed.

Lemma crc_bits_zeros r n : crc_bits r (replicate n false) = Nat.iter n shifted r.
Proof. revert r. induction n as [| n IH]; intros r; [done |]. rewrite Nat.iter_succ_r, <- IH. cbn. unfold step at 2. by rewrite Z.lxor_0_r. Qed.

(** ** Checksums of bits *)

Lemma holds_get h r : holds h r -> u32 (srsran_crc_checksum_get h) = r.
Proof.
  intros [Hh <-]. unfold srsran_crc_checksum_get. rewrite (ic_mask _ Hh), land_mask. apply uwrap_small.
  pose proof (uwrap_is_uint L (crc_crcinit h) ltac:(lia)) as Hu. unfold is_uint in *. assert (2 ^ L <= 2 ^ 32) by (apply Z.pow_le_mono_r; lia). lia.
Qed.

Lemma checksum_start h : is_crc h -> holds (set_crcinit 0 h) 0.
Proof. intros Hh. split; [by apply is_crc_set |]. cbn. unfold uwrap. apply Z.mod_0_l. pose proof (Z.pow_pos_nonneg 2 L). lia. Qed.

Lemma checksum_bits (Hodd : Z.odd g = true) h msg rest : is_crc h ->
  exists h', srsran_crc_checksum h ((Z.b2z <$> msg) ++ rest) (zlen msg) = Some (crc_bits 0 msg, h') /\ is_crc h'.
Proof.
  intros Hh. unfold srsran_crc_checksum. cbn [srsran_crc_set_init].
  set (data := (Z.b2z <$> msg) ++ rest). set (len := zlen msg). pose proof (zlen_nonneg msg) as Hlen. fold len in Hlen.
  rewrite Z.shiftr_div_pow2, Z.shiftl_mul_pow2 by done. change (2 ^ 3) with 8.
  set (len8 := len / 8). set (res8 := len - len8 * 8). assert (0 <= res8 < 8) as Hres by lia.
  set (a := if 0 <? res8 then 1 else 0). assert (a = 0 /\ res8 = 0 \/ a = 1 /\ 0 < res8) as Ha by (unfold a; destruct (Z.ltb_spec 0 res8); lia).
  rewrite (for_range_split 0 len8) by lia.
  loop_inv (fun i h => holds h (crc_bits 0 (take (Z.to_nat (8 * i)) msg))) as (h1 & -> & H1); [lia | by apply checksum_start | |].
  { intros i s Hi Hs. destruct (Z.eqb_spec i len8); [lia |].
    destruct (pack_run_spec (fun k => nth_bit msg (8 * i + k)) data (8 * i) 8) as (v & -> & Hv & Hb); [lia | |].
    { intros k Hk. apply zget_bits. unfold len in *. lia. }
    cbn [mbind option_bind].
    assert (u8 (Z.land v 255) = v) as -> by (change 255 with (Z.ones 8); rewrite Z.land_ones by done; change (v mod 2 ^ 8) with (u8 v); by rewrite uwrap_idemp, uwrap_small).
    destruct (put_byte_spec s _ v Hs) as (s' & -> & Hs'); [done |]. exists s'. split; [done |].
    rewrite take_byte, crc_bits_app by lia.
    rewrite <- (msb_bits_eq 8 v (take 8 (drop (Z.to_nat (8 * i)) msg))); [done | |].
    - unfold zlen in *. rewrite length_take, length_drop. lia.
    - intros k Hk. rewrite nth_bit_take, nth_bit_drop, <- Hb by lia. done. }
  cbn [mbind option_bind]. destruct Ha as [[Ea Er] | [Ea Er]]; rewrite Ea.
  - rewrite for_range_done by lia. cbn [mbind option_bind Z.eqb]. rewrite (holds_get h1 _ H1).
    exists h1. rewrite take_ge by (unfold len, zlen in *; lia). split; [done | apply H1].
  - rewrite for_range_step by lia. rewrite (Z.eqb_refl len8).
    destruct (last_byte_spec (fun k => nth_bit msg (8 * len8 + k)) data (8 * len8) res8) as (v & -> & Hv & Hb); [lia | |].
    { intros k Hk. apply zget_bits. unfold len in *. lia. }
    cbn [mbind option_bind]. destruct (put_byte_spec h1 _ v H1 Hv) as (h2 & -> & H2). cbn [mbind option_bind].
    rewrite for_range_done by lia. cbn [mbind option_bind]. change (1 =? 1) with true. cbn iota. rewrite (holds_get h2 _ H2).
    exists h2. split; [| apply H2]. do 2 f_equal.
    rewrite (msb_bits_eq 8 v (drop (Z.to_nat (8 * len8)) msg ++ replicate (Z.to_nat (8 - res8)) false)).
    + rewrite <- crc_bits_app, app_assoc, take_drop, crc_bits_app, crc_bits_zeros. unfold reversecrcbit.
      destruct H2 as [H2 _]. rewrite (ic_mask _ H2), (ic_polynom _ H2), land_mask.
      assert (0 <= crc_bits 0 msg < 2 ^ L) as Hc by (apply crc_bits_range; split; [done | apply Z.pow_pos_nonneg; lia]).
      rewrite reverse_iter by done. assert (2 ^ L <= 2 ^ 32) by (apply Z.pow_le_mono_r; lia).
      rewrite (uwrap_small L) by done. apply uwrap_small. unfold is_uint. lia.
    + unfold zlen in *. rewrite length_app, length_replicate, length_drop. unfold len in *. lia.
    + intros k Hk. replace (8 - 1 - k) with (7 - k) by lia. rewrite Hb by lia. unfold nth_bit. destruct (Z.ltb_spec k res8); cbn [andb].
      * rewrite lookup_app_l by (rewrite length_drop; unfold len, zlen in *; lia). rewrite lookup_drop. do 2 f_equal. lia.
      * rewrite lookup_app_r by (rewrite length_drop; unfold len, zlen in *; lia). rewrite lookup_replicate_2; [done |].
        rewrite length_drop. unfold len, zlen in *. lia.
Qed.

(** ** Checksums of bytes *)

Lemma checksum_bytes h bytes rest : is_crc h -> Forall (is_uint 8) bytes ->
  exists h', srsran_crc_checksum_byte h (bytes ++ rest) (8 * zlen bytes) = Some (crc_bits 0 (bits_of_bytes bytes), h') /\ is_crc h'.
Proof.
  intros Hh Hb. unfold srsran_crc_checksum_byte. cbn [srsran_crc_set_init]. replace (8 * zlen bytes / 8) with (zlen bytes) by lia.
  loop_inv (fun i h => holds h (crc_bits 0 (bits_of_bytes (take (Z.to_nat i) bytes)))) as (h1 & -> & H1).
  - apply zlen_nonneg.
  - by apply checksum_start.
  - intros i s Hi Hs. unfold zlen in Hi. destruct (lookup_lt_is_Some_2 bytes (Z.to_nat i)) as [b Eb]; [lia |].
    rewrite zget_lookup, lookup_app_l, Eb by lia. cbn [mbind option_bind].
    destruct (put_byte_spec s _ b Hs) as (s' & -> & Hs'); [by apply (Forall_lookup_1 _ _ _ _ Hb Eb) |].
    exists s'. split; [done |]. replace (Z.to_nat (i + 1)) with (S (Z.to_nat i)) by lia. rewrite (take_S_r _ _ b) by done.
    unfold bits_of_bytes in *. rewrite fmap_app, concat_app, crc_bits_app. cbn [fmap list_fmap concat]. by rewrite app_nil_r.
  - cbn [mbind option_bind]. rewrite (holds_get h1 _ H1). exists h1. unfold zlen. rewrite Nat2Z.id, firstn_all. split; [done | apply H1].
Qed.

(** ** The checksum is the remainder *)

Lemma times_double q b : 0 <= q -> times (2 * q + Z.b2z b) g = Z.lxor (2 * times q g) (if b then g else 0).
Proof. intros Hq. destruct q as [| q |]; [by destruct b; cbn; rewrite ?Z.lxor_0_l | | lia]. by destruct b; cbn; rewrite ?Z.lxor_0_r. Qed.

(** With the bit that leaves it, the register is doubled and reduced. *)
Lemma shifted_reduced x : 0 <= x < 2 ^ L -> shifted x = Z.lxor (2 * x) (if Z.testbit x (L - 1) then g else 0).
Proof.
  intros Hx. apply Z.bits_inj'. intros n Hn. rewrite testbit_shifted, Z.lxor_spec, testbit_double by done.
  destruct (Z.ltb_spec n L); cbn [andb]; [by destruct (Z.testbit x (L - 1)); rewrite ?Z.bits_0 |].
  destruct (Z.ltb_spec 0 n); [| lia]. cbn [andb].
  destruct (Z.eqb_spec n L) as [-> |].
  - destruct (Z.testbit x (L - 1)); by rewrite ?generator_top, ?Z.bits_0.
  - replace (Z.testbit x (n - 1)) with false by (symmetry; apply (testbit_above x L); lia).
    destruct (Z.testbit x (L - 1)); [symmetry; apply (testbit_above g (L + 1)); lia | by rewrite Z.bits_0].
Qed.

Lemma crc_remainder bits : remainder g L bits (crc_bits 0 bits).
Proof.
  assert (0 < 2 ^ L) by (apply Z.pow_pos_nonneg; lia).
  split; [by apply crc_bits_range |]. induction bits as [| b bits (q & Hq & E)] using rev_ind; [by exists 0; rewrite Z.shiftl_0_l |].
  set (r := crc_bits 0 bits) in *. assert (0 <= r < 2 ^ L) as Hr by (by apply crc_bits_range).
  rewrite crc_bits_app. fold r. cbn [crc_bits foldl]. unfold step. set (t := Z.lxor r (top b)).
  assert (0 <= t < 2 ^ L) as Ht.
  { apply lxor_range; [lia | done |]. unfold top. destruct b; [| lia]. split; [apply Z.pow_nonneg; lia | apply Z.pow_lt_mono_r; lia]. }
  exists (2 * q + Z.b2z (Z.testbit t (L - 1))). split; [by destruct (Z.testbit _ _); cbn [Z.b2z]; lia |].
  rewrite times_double, shifted_reduced, <- E by done. rewrite <- Z.lxor_assoc. f_equal.
  rewrite poly_of_snoc. unfold t. apply Z.bits_inj'. intros n Hn.
  rewrite !Z.lxor_spec, !testbit_double, !Z.lxor_spec by done.
  destruct (Z.leb_spec L n).
  - rewrite !Z.shiftl_spec by lia. destruct (Z.ltb_spec 0 n); [| lia]. cbn [andb].
    rewrite testbit_snoc by lia. replace (n - 1 - L) with (n - L - 1) by lia.
    destruct (Z.ltb_spec 0 (n - L)).
    + replace (Z.testbit (top b) (n - 1)) with false; [by rewrite xorb_false_r |].
      symmetry. unfold top. destruct b; [apply Z.pow2_bits_false; lia | apply Z.bits_0].
    + replace n with L by lia. rewrite (Z.testbit_neg_r _ (L - L - 1)) by lia. cbn [xorb].
      unfold top. destruct b; [rewrite Z.pow2_bits_true by lia |]; destruct (Z.testbit r (L - 1)); by rewrite ?Z.bits_0.
  - rewrite (Z.shiftl_spec _ _ n), (Z.testbit_neg_r _ (n - L)) by lia. cbn [xorb].
    destruct (Z.ltb_spec 0 n); cbn [andb]; [| done]. rewrite Z.shiftl_spec, (Z.testbit_neg_r _ (n - 1 - L)) by lia. cbn [xorb].
    replace (Z.testbit (top b) (n - 1)) with false; [by rewrite xorb_false_r |].
    symmetry. unfold top. destruct b; [apply Z.pow2_bits_false; lia | apply Z.bits_0].
Qed.

(** A multiple of the generator that is not zero has a bit at [L] or above, so there is one
    remainder. *)
Lemma ptimes_large q : 2 ^ L <= ptimes q g.
Proof.
  assert (exists k, 0 <= k /\ Z.testbit (ptimes q g) (L + k) = true /\ 0 <= ptimes q g < 2 ^ (L + k + 1)) as (k & Hk & Hb & Hr).
  { induction q as [q (k & Hk & Hb & Hr) | q (k & Hk & Hb & Hr) |]; cbn [ptimes].
    - exists (k + 1). assert (0 <= 2 * ptimes q g < 2 ^ (L + (k + 1) + 1)) as Hd.
      { replace (L + (k + 1) + 1) with (Z.succ (L + k + 1)) by lia. rewrite Z.pow_succ_r; lia. }
      split; [lia |]. split; [| apply lxor_range; [lia | done |]; split; [lia |]; eapply Z.lt_le_trans; [apply Hg |]; apply Z.pow_le_mono_r; lia].
      rewrite Z.lxor_spec, testbit_double by lia. replace (L + (k + 1) - 1) with (L + k) by lia. rewrite Hb.
      replace (Z.testbit g (L + (k + 1))) with false by (symmetry; apply (testbit_above g (L + 1)); lia).
      destruct (Z.ltb_spec 0 (L + (k + 1))); [done | lia].
    - exists (k + 1). split; [lia |]. rewrite testbit_double by lia. replace (L + (k + 1) - 1) with (L + k) by lia. rewrite Hb.
      split; [by destruct (Z.ltb_spec 0 (L + (k + 1))); [| lia] |].
      replace (L + (k + 1) + 1) with (Z.succ (L + k + 1)) by lia. rewrite Z.pow_succ_r; lia.
    - exists 0. rewrite !Z.add_0_r. split; [done |]. split; [apply generator_top | lia]. }
  destruct (Z.ltb_spec (ptimes q g) (2 ^ L)); [| done]. exfalso.
  assert (Z.testbit (ptimes q g) (L + k) = false); [| congruence]. apply (testbit_above _ L); lia.
Qed.

Lemma times_lxor p q : 0 <= p -> 0 <= q -> Z.lxor (times p g) (times q g) = times (Z.lxor p q) g.
Proof.
  intros Hp. revert q. induction (Z.lt_wf 0 p) as [p _ IH]. intros q Hq.
  destruct (Z.eqb_spec p 0) as [-> | Hp0]; [by rewrite !Z.lxor_0_l |].
  pose proof (Z.div2_odd p) as Ep. pose proof (Z.div2_odd q) as Eq.
  assert (forall a b x y, Z.lxor (2 * a + Z.b2z x) (2 * b + Z.b2z y) = 2 * Z.lxor a b + Z.b2z (xorb x y)) as Ex.
  { intros a b x y. apply Z.bits_inj'. intros n Hn. rewrite Z.lxor_spec.
    rewrite !testbit_snoc, Z.lxor_spec by done. by destruct (0 <? n). }
  assert (0 <= Z.div2 p < p) by (rewrite Z.div2_div; lia). assert (0 <= Z.div2 q) by (rewrite Z.div2_div; lia).
  assert (times p g = Z.lxor (2 * times (Z.div2 p) g) (if Z.odd p then g else 0)) as -> by (rewrite Ep at 1; apply times_double; lia).
  assert (times q g = Z.lxor (2 * times (Z.div2 q) g) (if Z.odd q then g else 0)) as -> by (rewrite Eq at 1; apply times_double; lia).
  assert (Z.lxor p q = 2 * Z.lxor (Z.div2 p) (Z.div2 q) + Z.b2z (xorb (Z.odd p) (Z.odd q))) as ->.
  { rewrite <- Ex. rewrite Ep at 1. by rewrite Eq at 1. }
  rewrite times_double by (apply Z.lxor_nonneg; lia).
  rewrite <- IH by lia. apply Z.bits_inj'. intros n Hn. rewrite !Z.lxor_spec, !testbit_double, Z.lxor_spec by done.
  destruct (Z.odd p), (Z.odd q); cbn [xorb]; rewrite ?Z.bits_0; destruct (0 <? n), (Z.testbit (times (Z.div2 p) g) (n - 1)), (Z.testbit (times (Z.div2 q) g) (n - 1)), (Z.testbit g n); done.
Qed.

Lemma remainder_unique bits r s : remainder g L bits r -> remainder g L bits s -> r = s.
Proof.
  intros (Hr & p & Hp & Ep) (Hs & q & Hq & Eq).
  assert (Z.lxor r s = times (Z.lxor p q) g) as E.
  { rewrite <- times_lxor, <- Ep, <- Eq by done. rewrite <- Z.lxor_assoc, (Z.lxor_comm (Z.lxor _ r)), <- Z.lxor_assoc, Z.lxor_nilpotent, Z.lxor_0_l. done. }
  assert (0 <= Z.lxor r s < 2 ^ L) as Hx by (apply lxor_range; lia). rewrite E in Hx.
  destruct (Z.lxor p q) as [| z | z] eqn:Ez; cbn [times] in *.
  - by apply Z.lxor_eq.
  - pose proof (ptimes_large z). lia.
  - pose proof (proj2 (Z.lxor_nonneg p q)). lia.
Qed.

(** ** Codewords and errors *)

Lemma step_lxor r s a b : step (Z.lxor r s) (xorb a b) = Z.lxor (step r a) (step s b).
Proof.
  unfold step. rewrite <- shifted_lxor. f_equal.
  assert (top (xorb a b) = Z.lxor (top a) (top b)) as ->.
  { unfold top. destruct a, b; cbn; rewrite ?Z.lxor_nilpotent, ?Z.lxor_0_r, ?Z.lxor_0_l; done. }
  rewrite !Z.lxor_assoc. f_equal. rewrite <- !Z.lxor_assoc. f_equal. apply Z.lxor_comm.
Qed.

Lemma crc_bits_xor l1 l2 r s : length l1 = length l2 ->
  crc_bits (Z.lxor r s) (zip_with xorb l1 l2) = Z.lxor (crc_bits r l1) (crc_bits s l2).
Proof.
  revert l2 r s. induction l1 as [| a l1 IH]; intros [| b l2] r s Hl; try done.
  cbn [zip_with crc_bits foldl]. change (foldl step ?x ?y) with (crc_bits x y). rewrite step_lxor. apply IH. by injection Hl.
Qed.

Lemma iter_shifted_0 m : Nat.iter m shifted 0 = 0.
Proof. induction m as [| m IH]; [done |]. rewrite Nat.iter_succ, IH. unfold shifted. rewrite Z.bits_0, Z.lxor_0_r. apply uwrap_small. unfold is_uint. pose proof (Z.pow_pos_nonneg 2 L). lia. Qed.

Lemma iter_nonzero (Hodd : Z.odd g = true) m x : 0 <= x < 2 ^ L -> Nat.iter m shifted x = 0 -> x = 0.
Proof.
  intros Hx E. pose proof (reverse_iter Hodd m x Hx) as Er. rewrite E, <- (iter_shifted_0 m) in Er.
  rewrite reverse_iter in Er; [done | done |]. pose proof (Z.pow_pos_nonneg 2 L). lia.
Qed.

Definition burst (err : list bool) : Prop :=
  exists a e b, err = replicate a false ++ e ++ replicate b false /\ zlen e <= L /\ true ∈ e.

Lemma burst_nonzero (Hodd : Z.odd g = true) err : burst err -> crc_bits 0 err <> 0.
Proof.
  intros (a & e & b & -> & Hl & He) E. rewrite !crc_bits_app, !crc_bits_zeros, iter_shifted_0 in E.
  assert (0 < 2 ^ L) by (apply Z.pow_pos_nonneg; lia).
  apply iter_nonzero in E; [| done | apply crc_bits_range; lia].
  rewrite <- (msb_bits_poly e) in E. unfold zlen in E, Hl. rewrite crc_word, Z.lxor_0_l, uwrap_small in E by (done || apply (poly_of_range e)).
  pose proof (poly_of_range e) as Hp. unfold zlen in Hp.
  apply iter_nonzero in E; [| done |].
  - rewrite Z.shiftl_mul_pow2 in E by lia. assert (poly_of e = 0) as E0 by (pose proof (Z.pow_pos_nonneg 2 (L - Z.of_nat (length e))); nia).
    rewrite <- (msb_bits_poly e), E0 in He. unfold msb_bits in He. apply list_elem_of_fmap in He as (i & Hi & _). by rewrite Z.bits_0 in Hi.
  - rewrite Z.shiftl_mul_pow2 by lia. replace L with (Z.of_nat (length e) + (L - Z.of_nat (length e))) at 3 by lia. rewrite Z.pow_add_r by lia.
    pose proof (Z.pow_pos_nonneg 2 (L - Z.of_nat (length e))). split; [nia |]. apply Z.mul_lt_mono_pos_r; lia.
Qed.

Lemma codeword msg : crc_bits 0 (msg ++ msb_bits L (crc_bits 0 msg)) = 0.
Proof.
  rewrite crc_bits_app. set (c := crc_bits 0 msg). assert (0 <= c < 2 ^ L) by (apply crc_bits_range; pose proof (Z.pow_pos_nonneg 2 L); lia).
  pose proof (crc_word (Z.to_nat L) c c) as E. rewrite Z2Nat.id in E by lia. rewrite E by lia.
  by rewrite uwrap_small, Z.sub_diag, Z.shiftl_0_r, Z.lxor_nilpotent, iter_shifted_0.
Qed.

Lemma attach_bits (Hodd : Z.odd g = true) h msg rest : is_crc h -> L <= zlen rest ->
  exists h', srsran_crc_attach h ((Z.b2z <$> msg) ++ rest) (zlen msg)
    = Some (crc_bits 0 msg, (Z.b2z <$> msg ++ msb_bits L (crc_bits 0 msg)) ++ drop (Z.to_nat L) rest, h') /\ is_crc h'.
Proof.
  intros Hh Hr. unfold srsran_crc_attach. destruct (checksum_bits Hodd h msg rest Hh) as (h' & -> & Hh'). cbn [mbind option_bind].
  exists h'. split; [| done]. rewrite (ic_order _ Hh'). set (c := crc_bits 0 msg).
  pose proof (emits_bits L c ltac:(lia) (Z.b2z <$> msg) (take (Z.to_nat L) rest) (drop (Z.to_nat L) rest)) as E.
  assert (zlen (take (Z.to_nat L) rest) = L) as Ht by (unfold zlen in *; rewrite length_take; lia).
  rewrite take_drop, zlen_fmap, fill_bits in E by (done || lia).
  rewrite E; [cbn [mbind option_bind]; by rewrite fmap_app, <- app_assoc |].
  pose proof (zlen_field L c). unfold zlen in *. lia.
Qed.

Lemma match_bits (Hodd : Z.odd g = true) h word rest : is_crc h -> L <= zlen word ->
  exists h', srsran_crc_match h ((Z.b2z <$> word) ++ rest) (zlen word - L) = Some (crc_bits 0 word =? 0, h') /\ is_crc h'.
Proof.
  intros Hh Hl. unfold srsran_crc_match. rewrite (ic_order _ Hh). replace (zlen word - L + L) with (zlen word) by lia.
  destruct (checksum_bits Hodd h word rest Hh) as (h' & -> & Hh'). by exists h'.
Qed.

(** *** Bytes *)

(** The remainder as bytes, the highest first. *)
Definition crc_bytes (c : Z) : list Z := (fun j => Z.land (Z.shiftr c (L - 8 - 8 * j)) 255) <$> seqZ 0 (L / 8).

Lemma bits_of_crc_bytes c : L mod 8 = 0 -> bits_of_bytes (crc_bytes c) = msb_bits L c.
Proof.
  intros H8. assert (L = 8 \/ L = 16 \/ L = 24) as HL' by lia.
  unfold bits_of_bytes, crc_bytes. clear Hg. destruct HL' as [-> | [-> | ->]].
  - change (seqZ 0 (8 / 8)) with [0]. cbn [fmap list_fmap concat]. rewrite !msb_bits_byte by lia. done.
  - change (seqZ 0 (16 / 8)) with [0; 1]. cbn [fmap list_fmap concat]. rewrite !msb_bits_byte by lia. done.
  - change (seqZ 0 (24 / 8)) with [0; 1; 2]. cbn [fmap list_fmap concat]. rewrite !msb_bits_byte by lia. done.
Qed.

Lemma attach_bytes h bytes rest : L mod 8 = 0 -> is_crc h -> Forall (is_uint 8) bytes -> L / 8 <= zlen rest ->
  exists h', srsran_crc_attach_byte h (bytes ++ rest) (8 * zlen bytes)
    = Some (crc_bits 0 (bits_of_bytes bytes), (bytes ++ crc_bytes (crc_bits 0 (bits_of_bytes bytes))) ++ drop (Z.to_nat (L / 8)) rest, h') /\ is_crc h'.
Proof.
  intros H8 Hh Hb Hr. unfold srsran_crc_attach_byte. destruct (checksum_bytes h bytes rest Hh Hb) as (h' & -> & Hh'). cbn [mbind option_bind].
  exists h'. split; [| done]. rewrite (ic_order _ Hh'). set (c := crc_bits 0 (bits_of_bytes bytes)).
  replace (8 * zlen bytes / 8) with (zlen bytes) by lia.
  assert (forall i, 0 <= i < 3 -> u8 (Z.shiftr (Z.land c (u32 (Z.shiftl 255 (8 * i)))) (8 * i)) = Z.land (Z.shiftr c (8 * i)) 255) as Hbyte.
  { intros i Hi. apply Z.bits_inj'. intros n Hn. change 255 with (Z.ones 8).
    rewrite testbit_uwrap, Z.shiftr_spec, !Z.land_spec, testbit_uwrap, Z.shiftl_spec, Z.shiftr_spec by lia.
    replace (n + 8 * i - 8 * i) with n by lia. rewrite Z.testbit_ones_nonneg by lia.
    destruct (Z.ltb_spec n 8), (Z.ltb_spec (n + 8 * i) 32); try lia; cbn [andb]; by rewrite ?andb_true_r, ?andb_false_r. }
  assert (L = 8 \/ L = 16 \/ L = 24) as HL' by lia.
  assert (forall x y pre post i, i = zlen bytes + zlen pre -> zset (bytes ++ pre ++ x :: post) i y = Some (bytes ++ pre ++ y :: post)) as Hset.
  { intros x y pre post i ->. rewrite !app_assoc, <- zlen_app. by rewrite zset_app_mid. }
  assert (forall x y post i, i = zlen bytes -> zset (bytes ++ x :: post) i y = Some (bytes ++ y :: post)) as H0.
  { intros x y post i ->. apply (Hset x y []). rewrite zlen_nil. lia. }
  assert (forall x0 x y post i, i = zlen bytes + 1 -> zset (bytes ++ x0 :: x :: post) i y = Some (bytes ++ x0 :: y :: post)) as H1.
  { intros x0 x y post i ->. by apply (Hset x y [x0]). }
  assert (forall x0 x1 x y post i, i = zlen bytes + 2 -> zset (bytes ++ x0 :: x1 :: x :: post) i y = Some (bytes ++ x0 :: x1 :: y :: post)) as H2.
  { intros x0 x1 x y post i ->. by apply (Hset x y [x0; x1]). }
  unfold crc_bytes. clear Hg. destruct HL' as [-> | [-> | ->]]; cbn in Hr; unfold zlen in Hr.
  - destruct rest as [| x rest]; [done |]. change (seqZ 0 (8 / 8)) with [0]. unfold for_range. change (seqZ 0 (8 / 8 - 0)) with [0]. cbn [foldM fmap list_fmap].
    rewrite H0, Hbyte by lia. cbn [mbind option_bind]. by rewrite <- app_assoc.
  - destruct rest as [| x [| x1 rest]]; [done.. |]. change (seqZ 0 (16 / 8)) with [0; 1]. unfold for_range. change (seqZ 0 (16 / 8 - 0)) with [0; 1]. cbn [foldM fmap list_fmap].
    rewrite H1, Hbyte by lia. cbn [mbind option_bind app]. rewrite H0, Hbyte by lia.
    cbn [mbind option_bind]. by rewrite <- app_assoc.
  - destruct rest as [| x [| x1 [| x2 rest]]]; [done.. |]. change (seqZ 0 (24 / 8)) with [0; 1; 2]. unfold for_range. change (seqZ 0 (24 / 8 - 0)) with [0; 1; 2]. cbn [foldM fmap list_fmap].
    rewrite H2, Hbyte by lia. cbn [mbind option_bind app]. rewrite H1, Hbyte by lia.
    cbn [mbind option_bind app]. rewrite H0, Hbyte by lia. cbn [mbind option_bind]. by rewrite <- app_assoc.
Qed.
End register.

(** ** What the code promises *)

(** The orders of LTE are 8, 16 and 24; the generators have the bit of the order and the bit 0. *)
Record generator (L g : Z) : Prop := Generator {
  gen_order : 8 <= L <= 24;
  gen_degree : 2 ^ L <= g < 2 ^ (L + 1);
  gen_odd : Z.odd g = true
}.

Definition bytes_of_bits (bits : list bool) : list Z := Z.b2z <$> bits.


(** C26: a message with its checksum attached matches, and does not match once a burst
    of errors no longer than the checksum has hit it. *)
Theorem crc_detects_bursts L g h msg rest : generator L g -> is_crc L g h -> L <= zlen rest ->
  exists c sent h', srsran_crc_attach h (bytes_of_bits msg ++ rest) (zlen msg) = Some (c, bytes_of_bits sent ++ drop (Z.to_nat L) rest, h') /\
    is_crc L g h' /\ zlen sent = zlen msg + L /\ take (length msg) sent = msg /\
    forall err rest', length err = length sent ->
      (Forall (fun e => e = false) err \/ burst L err) ->
      exists h'', srsran_crc_match h' (bytes_of_bits (zip_with xorb sent err) ++ rest') (zlen msg)
        = Some (bool_decide (Forall (fun e => e = false) err), h'') /\ is_crc L g h''.
Proof.
  intros [HL Hg Hodd] Hh Hr. destruct (attach_bits L g HL Hg Hodd h msg rest Hh Hr) as (h' & E & Hh').
  set (sent := msg ++ msb_bits L (crc_bits L g 0 msg)) in *.
  assert (zlen sent = zlen msg + L) as Hs by (unfold sent; rewrite zlen_app, zlen_msb by lia; done).
  exists (crc_bits L g 0 msg), sent, h'. split; [done |]. split; [done |]. split; [done |]. split; [unfold sent; by rewrite take_app_length |].
  intros err rest' Hl Herr. assert (zlen (zip_with xorb sent err) = zlen msg + L) as Hz.
  { rewrite <- Hs. unfold zlen. rewrite length_zip_with. lia. }
  destruct (match_bits L g HL Hg Hodd h' (zip_with xorb sent err) rest' Hh') as (h'' & Em & Hh''); [pose proof (zlen_nonneg msg); lia |].
  rewrite Hz in Em. replace (zlen msg + L - L) with (zlen msg) in Em by lia. exists h''. split; [| done]. unfold bytes_of_bits. rewrite Em. do 2 f_equal.
  pose proof (crc_bits_xor L g HL sent err 0 0 (eq_sym Hl)) as Ex. rewrite Z.lxor_0_l in Ex. rewrite Ex.
  unfold sent at 1. rewrite (codeword L g HL), Z.lxor_0_l by done.
  destruct Herr as [Hno | Hburst].
  - rewrite bool_decide_true by done. assert (err = replicate (length err) false) as -> by (symmetry; apply replicate_as_Forall; split; [done | by eapply Forall_impl]).
    by rewrite (crc_bits_zeros L g), iter_shifted_0.
  - rewrite bool_decide_false; [apply Z.eqb_neq; by apply burst_nonzero |]. destruct Hburst as (a & e & b & -> & _ & He).
    intros Hf. rewrite !Forall_app in Hf. destruct Hf as (_ & Hf & _).
    rewrite Forall_forall in Hf. by specialize (Hf _ He).
Qed.

(** Over packed bytes the checksum is that of their bits, and a message with it
    attached matches. *)
Theorem crc_bytes_agree L g h bytes rest : generator L g -> L mod 8 = 0 -> is_crc L g h -> Forall (is_uint 8) bytes -> L / 8 <= zlen rest ->
  exists c h1 h2 h3 h4 tail,
    srsran_crc_checksum_byte h (bytes ++ rest) (8 * zlen bytes) = Some (c, h1) /\
    srsran_crc_checksum h (bytes_of_bits (bits_of_bytes bytes)) (8 * zlen bytes) = Some (c, h2) /\
    srsran_crc_attach_byte h (bytes ++ rest) (8 * zlen bytes) = Some (c, bytes ++ tail ++ drop (Z.to_nat (L / 8)) rest, h3) /\
    srsran_crc_match_byte h3 (bytes ++ tail ++ drop (Z.to_nat (L / 8)) rest) (8 * zlen bytes) = Some (true, h4).
Proof.
  intros [HL Hg Hodd] H8 Hh Hb Hr.
  destruct (checksum_bytes L g HL h bytes rest Hh Hb) as (h1 & E1 & _).
  destruct (checksum_bits L g HL Hg Hodd h (bits_of_bytes bytes) [] Hh) as (h2 & E2 & _).
  destruct (attach_bytes L g HL h bytes rest H8 Hh Hb Hr) as (h3 & E3 & H3).
  set (c := crc_bits L g 0 (bits_of_bytes bytes)) in *.
  assert (Forall (is_uint 8) (bytes ++ crc_bytes L c)) as Hcb.
  { apply Forall_app. split; [done |]. unfold crc_bytes. apply Forall_fmap, Forall_forall. intros j _. cbn. change 255 with (Z.ones 8).
    rewrite Z.land_ones by done. by apply (uwrap_is_uint 8). }
  destruct (checksum_bytes L g HL h3 (bytes ++ crc_bytes L c) (drop (Z.to_nat (L / 8)) rest) H3 Hcb) as (h4 & E4 & _).
  assert (zlen (crc_bytes L c) = L / 8) as Hlc by (unfold crc_bytes, zlen; rewrite length_fmap, length_seqZ; lia).
  exists c, h1, h2, h3, h4, (crc_bytes L c). split; [done |]. split; [| split; [by rewrite E3, <- app_assoc |]].
  - rewrite app_nil_r in E2. replace (8 * zlen bytes) with (zlen (bits_of_bytes bytes)); [done |].
    unfold bits_of_bytes. clear. induction bytes as [| b l IH]; [done |]. cbn [fmap list_fmap concat]. rewrite zlen_app, zlen_cons, IH, zlen_msb by done. lia.
  - unfold srsran_crc_match_byte. rewrite (ic_order _ _ _ H3). replace (8 * zlen bytes + L) with (8 * zlen (bytes ++ crc_bytes L c)) by (rewrite zlen_app; lia).
    rewrite app_assoc, E4. cbn [mbind option_bind]. do 3 f_equal. apply Z.eqb_eq.
    unfold bits_of_bytes. rewrite fmap_app, concat_app. change (concat (msb_bits 8 <$> ?l)) with (bits_of_bytes l).
    rewrite bits_of_crc_bytes by done. by apply codeword.
Qed.

(** *** The checksum of the control channel *)

Definition SRSRAN_LTE_CRC16 : Z := 0x11021.
Definition SRSRAN_LTE_CRC24A : Z := 0x1864CFB.

Definition crc16 : srsran_crc_t :=
  match srsran_crc_init SRSRAN_LTE_CRC16 16 with Some (_, h) => h | None => Crc [] 0 0 0 0 0 end.

Lemma crc16_generator : generator 16 SRSRAN_LTE_CRC16.
Proof. by split. Qed.

Lemma crc16_is_crc : is_crc 16 SRSRAN_LTE_CRC16 crc16.
Proof.
  unfold crc16. destruct crc16_generator as [HL Hg _]. destruct (init_is_crc 16 SRSRAN_LTE_CRC16 HL Hg) as (h & -> & Hh). done.
Qed.

(** *** Witnesses *)

Definition some_bits : list bool := [true; false; true; true; false; true; true; true; false; true; false].


Lemma crc_detects_bursts_witness : exists c sent h',
  srsran_crc_attach crc16 (bytes_of_bits some_bits ++ replicate 16 7) 11 = Some (c, bytes_of_bits sent ++ [], h') /\
  exists h'', srsran_crc_match h' (bytes_of_bits (zip_with xorb sent (replicate 5 false ++ [true; false; true] ++ replicate 19 false)) ++ []) 11 = Some (false, h'').
Proof.
  destruct (crc_detects_bursts 16 SRSRAN_LTE_CRC16 crc16 some_bits (replicate 16 7) crc16_generator crc16_is_crc) as (c & sent & h' & E & _ & Hs & _ & H);
    [by vm_compute |].
  exists c, sent, h'. split; [exact E |].
  destruct (H (replicate 5 false ++ [true; false; true] ++ replicate 19 false) []) as (h'' & Em & _).
  - unfold zlen in Hs. cbn in Hs |- *. lia.
  - right. exists 5%nat, [true; false; true], 19%nat. split; [done |]. split; [done |]. left.
  - exists h''. exact Em.
Defined.

Lemma crc_bytes_agree_witness : exists c h1 h2 h3 h4 tail,
  srsran_crc_checksum_byte crc16 ([18; 52; 86] ++ [0; 0]) 24 = Some (c, h1) /\
  srsran_crc_checksum crc16 (bytes_of_bits (bits_of_bytes [18; 52; 86])) 24 = Some (c, h2) /\
  srsran_crc_attach_byte crc16 ([18; 52; 86] ++ [0; 0]) 24 = Some (c, [18; 52; 86] ++ tail ++ [], h3) /\
  srsran_crc_match_byte h3 ([18; 52; 86] ++ tail ++ []) 24 = Some (true, h4).
Proof.
  apply (crc_bytes_agree 16 SRSRAN_LTE_CRC16 crc16 [18; 52; 86] [0; 0] crc16_generator); [done | exact crc16_is_crc | | done].
  by repeat constructor.
Defined.

(** Values of the polynomials of LTE. *)
Example crc24a_value : (h ← srsran_crc_init SRSRAN_LTE_CRC24A 24; '(c, _) ← srsran_crc_checksum_byte (snd h) [49; 50; 51; 52; 53; 54; 55; 56; 57] 72; Some c)
  = Some 0xCDE703.
Proof. by vm_compute. Qed.
