(* ===== verification/ConvCode.v ===== *)
(** * Convolutional code and rate matching ([convcoder.c], [parity.c], [rm_conv.c])

    The tail-biting code of the control channels (TS 36.212, section 5.1.3.1) and the
    interleaver that spreads a codeword over the bits of a candidate (section 5.1.4.2), in both
    directions: bits for the transmitter, soft bits for the receiver, which adds up the copies
    of a bit. *)

From S2P Require Export Crc NgTypes SearchSpace.

(** ** Encoder *)

Record srsran_convcoder_t := ConvCoder { cc_R : Z; cc_K : Z; cc_poly : list Z; cc_tail_biting : bool }.

(** The ones of an index of the parity table; eight shifts empty a byte. *)
Fixpoint count_ones (fuel : nat) (ti cnt : Z) : option Z :=
  if ti =? 0 then Some cnt
  else match fuel with O => None | S fuel => count_ones fuel (Z.shiftr ti 1) (if Z.land ti 1 =? 1 then cnt + 1 else cnt) end.

Definition partab_init : option (list Z) := mapM (fun i => cnt ← count_ones 8 i 0; Some (Z.land cnt 1)) (seqZ 0 256).
Definition Partab : list Z := Eval vm_compute in default [] partab_init.

(** The table is set up at the first call. *)
Definition parityb (x : Z) : Z := Partab !!! Z.to_nat x.

Definition parity (x : Z) : Z :=
  let x := Z.lxor x (Z.shiftr x 16) in
  let x := Z.lxor x (Z.shiftr x 8) in
  parityb (u8 x).

(** The bits of output for one bit of input. *)
Definition conv_outputs (q : srsran_convcoder_t) (sr i : Z) (output : list Z) : option (list Z) :=
  for_range 0 (cc_R q) (fun output j =>
    p ← zget (cc_poly q) j; zset output (cc_R q * i + j) (u8 (parity (s32 (Z.land sr (u32 p)))))) output.

Definition srsran_convcoder_encode (q : srsran_convcoder_t) (input output : list Z) (frame_length : Z) : option (Z * list Z) :=
  if u32 (cc_K q + 1) <? frame_length then
    let len := if cc_tail_biting q then frame_length else u32 (frame_length + cc_K q - 1) in
    sr ← (if cc_tail_biting q then
            for_range (u32 (frame_length - cc_K q + 1)) frame_length (fun sr i =>
              b ← zget input i; Some (Z.lor (u32 (Z.shiftl sr 1)) (Z.land b 1))) 0
          else Some 0);
    '(_, output) ← for_range 0 len (fun '(sr, output) i =>
      bit ← (if i <? frame_length then b ← zget input i; Some (Z.land b 1) else Some 0);
      let sr := Z.lor (u32 (Z.shiftl sr 1)) bit in
      output ← conv_outputs q sr i output;
      Some (sr, output)) (sr, output);
    Some (u32 (cc_R q * len), output)
  else Some (SRSRAN_ERROR_INVALID_INPUTS, output).

(** ** Rate matching *)

Definition NCOLS : Z := 32.
Definition NROWS_MAX : Z := NCOLS.

Definition RM_PERM_CC : list Z := [1; 17; 9; 25; 5; 21; 13; 29; 3; 19; 11; 27; 7; 23; 15; 31;
                                   0; 16; 8; 24; 4; 20; 12; 28; 2; 18; 10; 26; 6; 22; 14; 30].
Definition RM_PERM_CC_INV : list Z := [16; 0; 24; 8; 20; 4; 28; 12; 18; 2; 26; 10; 22; 6; 30; 14;
                                       17; 1; 25; 9; 21; 5; 29; 13; 19; 3; 27; 11; 23; 7; 31; 15].

Definition SRSRAN_TX_NULL : Z := 100.

(** The rows of the interleaver and the dummy bits before the first bit. *)
Definition rm_nrows (coded_len : Z) : Z := u32 (coded_len / 3 - 1) / NCOLS + 1.
Definition rm_ndummy (coded_len : Z) : Z := Z.max 0 (rm_nrows coded_len * NCOLS - coded_len / 3).

(** The interleaver writes [tmp] from its start. *)
Definition rm_interleave (nrows ndummy : Z) (input : list Z) : option (list Z) :=
  for_range 0 3 (fun tmp s => for_range 0 NCOLS (fun tmp j => for_range 0 nrows (fun tmp i =>
    p ← zget RM_PERM_CC j;
    if i * NCOLS + p <? ndummy then Some (tmp ++ [SRSRAN_TX_NULL])
    else x ← zget input ((i * NCOLS + p - ndummy) * 3 + s); Some (tmp ++ [x])) tmp) tmp) [].

(** The index into the circular buffer, [3 * K_p] long. *)
Definition rm_next (n3 j : Z) : Z := if j + 1 =? n3 then 0 else j + 1.

Fixpoint rm_collect (fuel : nat) (tmp : list Z) (n3 out_len k j : Z) (output : list Z) : option (list Z) :=
  if k <? out_len then
    match fuel with
    | O => None
    | S fuel =>
      t ← zget tmp j;
      if t =? SRSRAN_TX_NULL then rm_collect fuel tmp n3 out_len k (rm_next n3 j) output
      else output ← zset output k t; rm_collect fuel tmp n3 out_len (k + 1) (rm_next n3 j) output
    end
  else Some output.

(** A turn of the buffer meets at least one bit. *)
Definition rm_fuel (n3 len : Z) : nat := Z.to_nat ((len + 1) * n3).

Definition srsran_rm_conv_tx (input : list Z) (in_len : Z) (output : list Z) (out_len : Z) : option (Z * list Z) :=
  let nrows := rm_nrows in_len in
  if NROWS_MAX <? nrows then Some (-1, output)
  else
    tmp ← rm_interleave nrows (rm_ndummy in_len) input;
    output ← rm_collect (rm_fuel (3 * (nrows * NCOLS)) out_len) tmp (3 * (nrows * NCOLS)) out_len 0 0 output;
    Some (0, output).

(** The receiver, for soft bits of any type: the code has it for floats and for 16-bit
    integers. [rx_null] marks an entry without a value. *)
Section rx.
Context {A : Type} (rx_null rx_zero : A) (is_null : A -> bool) (add : A -> A -> A).

Fixpoint rm_combine (fuel : nat) (input : list A) (nrows ndummy in_len k j : Z) (tmp : list A) : option (list A) :=
  let K_p := nrows * NCOLS in
  if k <? in_len then
    match fuel with
    | O => None
    | S fuel =>
      let d_i := j mod K_p / nrows in
      let d_j := j mod K_p mod nrows in
      p ← zget RM_PERM_CC d_i;
      if ndummy <=? d_j * NCOLS + p then
        t ← zget tmp j; x ← zget input k;
        tmp ← (if is_null t then zset tmp j x else if negb (is_null x) then zset tmp j (add t x) else Some tmp);
        rm_combine fuel input nrows ndummy in_len (k + 1) (rm_next (3 * K_p) j) tmp
      else rm_combine fuel input nrows ndummy in_len k (rm_next (3 * K_p) j) tmp
    end
  else Some tmp.

Definition rm_select (nrows ndummy : Z) (tmp output : list A) (out_len : Z) : option (list A) :=
  for_range 0 (out_len / 3) (fun output i =>
    let d_i := (i + ndummy) / NCOLS in
    let d_j := (i + ndummy) mod NCOLS in
    for_range 0 3 (fun output j =>
      p ← zget RM_PERM_CC_INV d_j;
      o ← zget tmp (nrows * NCOLS * j + p * nrows + d_i);
      zset output (i * 3 + j) (if negb (is_null o) then o else rx_zero)) output) output.

Definition rm_conv_rx (input : list A) (in_len : Z) (output : list A) (out_len : Z) : option (Z * list A) :=
  let nrows := rm_nrows out_len in
  if NROWS_MAX <? nrows then Some (-1, output)
  else
    let ndummy := rm_ndummy out_len in
    let n3 := 3 * (nrows * NCOLS) in
    tmp ← rm_combine (rm_fuel n3 in_len) input nrows ndummy in_len 0 0 (replicate (Z.to_nat n3) rx_null);
    output ← rm_select nrows ndummy tmp output out_len;
    Some (0, output).
End rx.

Definition SRSRAN_RX_NULL : Z := 10000.
Definition srsran_rm_conv_rx : list float32 -> Z -> list float32 -> Z -> option (Z * list float32) :=
  rm_conv_rx (f32_of_int SRSRAN_RX_NULL) f32_0 (fun x => f32_eq x (f32_of_int SRSRAN_RX_NULL)) f32_add.
Definition srsran_rm_conv_rx_s : list Z -> Z -> list Z -> Z -> option (Z * list Z) :=
  rm_conv_rx SRSRAN_RX_NULL 0 (fun x => x =? SRSRAN_RX_NULL) (fun a b => swrap 16 (a + b)).

(** ** The code of LTE *)

Definition lte_code : srsran_convcoder_t := ConvCoder 3 7 [0x6D; 0x4F; 0x57] true.

(** A bit of output: the bits of input that a polynomial takes, going back around the frame. *)
Definition conv_bit (p n : Z) (x : Z -> bool) (i : Z) : bool :=
  foldr (fun t b => xorb (Z.testbit p t && x ((i - t) mod n)) b) false [0; 1; 2; 3; 4; 5; 6].

Definition lte_poly (j : Z) : Z := if j =? 0 then 0x6D else if j =? 1 then 0x4F else 0x57.

Definition codeword_bit (msg : list bool) (k : Z) : bool :=
  conv_bit (lte_poly (k mod 3)) (zlen msg) (nth_bit msg) (k / 3).

Definition codeword_of (msg : list bool) : list bool := codeword_bit msg <$> seqZ 0 (3 * zlen msg).

Lemma Partab_filled : partab_init = Some Partab.
Proof. reflexivity. Qed.

Lemma parity_small v : 0 <= v < 128 ->
  parity v = Z.b2z (foldr (fun t b => xorb (Z.testbit v t) b) false [0; 1; 2; 3; 4; 5; 6]).
Proof. revert v. each_below 128; reflexivity. Qed.

Lemma lte_poly_range j : 0 <= lte_poly j < 128.
Proof. unfold lte_poly. destruct (j =? 0), (j =? 1); lia. Qed.

Lemma foldr_ext_in {A B} (f g : A -> B -> B) b l : (forall a b, a ∈ l -> f a b = g a b) -> foldr f b l = foldr g b l.
Proof.
  induction l as [| a l IH]; intros H; [done |]. cbn. rewrite IH by (intros; apply H; by right). apply H. left.
Qed.

(** What the coder makes of its register. *)
Lemma parity_taps sr p (x : Z -> bool) : 0 <= sr < 2 ^ 32 -> 0 <= p < 128 -> (forall t, 0 <= t < 7 -> Z.testbit sr t = x t) ->
  u8 (parity (s32 (Z.land sr (u32 p)))) = Z.b2z (foldr (fun t b => xorb (Z.testbit p t && x t) b) false [0; 1; 2; 3; 4; 5; 6]).
Proof.
  intros Hsr Hp Hx. rewrite (uwrap_small 32 p) by (unfold is_uint; lia).
  assert (0 <= Z.land sr p < 2 ^ 7) as Hl.
  { apply below_pow2; [done |]. split; [apply Z.land_nonneg; lia |]. intros i Hi. rewrite Z.land_spec, (testbit_above p 7) by lia. apply andb_false_r. }
  rewrite swrap_small by lia. rewrite parity_small by lia. rewrite uwrap_small.
  2:{ by destruct (foldr _ _ _). }
  f_equal. apply foldr_ext_in. intros t b Ht. rewrite Z.land_spec, Hx, andb_comm; [done |].
  rewrite !elem_of_cons in Ht. destruct Ht as [-> | [-> | [-> | [-> | [-> | [-> | [-> | Ht]]]]]]]; [lia.. | by apply elem_of_nil in Ht].
Qed.

Lemma testbit_push sr b t : 0 <= t < 32 -> Z.testbit (Z.lor (u32 (Z.shiftl sr 1)) (Z.b2z b)) t = if t =? 0 then b else Z.testbit sr (t - 1).
Proof.
  intros Ht. rewrite Z.lor_spec, testbit_uwrap, Z.shiftl_spec by lia. destruct (Z.ltb_spec t 32); [| lia]. cbn [andb].
  destruct (Z.eqb_spec t 0) as [-> |]; [rewrite Z.testbit_neg_r by lia; by destruct b |].
  replace (Z.testbit (Z.b2z b) t) with false; [by rewrite orb_false_r |].
  symmetry. apply (testbit_above _ 1); [by destruct b | lia].
Qed.

Lemma push_range sr b : 0 <= Z.lor (u32 (Z.shiftl sr 1)) (Z.b2z b) < 2 ^ 32.
Proof.
  apply below_pow2; [done |]. pose proof (uwrap_is_uint 32 (Z.shiftl sr 1) ltac:(done)) as Hu. unfold is_uint in Hu.
  split; [apply Z.lor_nonneg; split; [lia | by destruct b] |]. intros i Hi. rewrite Z.lor_spec, (testbit_above _ 32 i Hu) by lia.
  apply (testbit_above _ 1); [by destruct b | lia].
Qed.

Lemma land_1_bit b : Z.land (Z.b2z b) 1 = Z.b2z b.
Proof. by destruct b. Qed.

(** The register after bit [i - 1]: the bits before [i], around the frame. *)
Definition sr_holds (msg : list bool) (m i sr : Z) : Prop :=
  0 <= sr < 2 ^ 32 /\ forall t, 0 <= t < m -> Z.testbit sr t = nth_bit msg ((i - 1 - t) mod zlen msg).

Lemma sr_push msg m i sr : 0 <= m < 31 -> 0 <= i < zlen msg -> sr_holds msg m i sr ->
  sr_holds msg (m + 1) (i + 1) (Z.lor (u32 (Z.shiftl sr 1)) (Z.b2z (nth_bit msg i))).
Proof.
  intros Hm Hi [_ Hb]. split; [apply push_range |]. intros t Ht. rewrite testbit_push by lia.
  destruct (Z.eqb_spec t 0) as [-> |].
  - replace (i + 1 - 1 - 0) with i by lia. by rewrite Z.mod_small.
  - rewrite Hb by lia. do 2 f_equal. lia.
Qed.

Lemma conv_outputs_spec msg i sr output : 8 < zlen msg -> 0 <= i < zlen msg -> 3 * zlen msg <= zlen output -> sr_holds msg 7 (i + 1) sr ->
  conv_outputs lte_code sr i (upto (fun k => Z.b2z (codeword_bit msg k)) (3 * i) output)
    = Some (upto (fun k => Z.b2z (codeword_bit msg k)) (3 * (i + 1)) output).
Proof.
  intros Hn Hi Ho [Hsr Hb]. unfold conv_outputs. cbn [cc_R lte_code cc_poly].
  loop_inv (fun j out => out = upto (fun k => Z.b2z (codeword_bit msg k)) (3 * i + j) output) as (out & -> & ->); [lia | by rewrite Z.add_0_r | |].
  - intros j out Hj ->. assert (zget [109; 79; 87] j = Some (lte_poly j)) as ->.
    { assert (j = 0 \/ j = 1 \/ j = 2) as Hj' by lia. by destruct Hj' as [-> | [-> | ->]]. }
    cbn [mbind option_bind]. eexists. split; [| done].
    rewrite (parity_taps sr (lte_poly j) (fun t => nth_bit msg ((i - t) mod zlen msg))); [| done | apply lte_poly_range |].
    + pose proof (zset_upto (fun k => Z.b2z (codeword_bit msg k)) (3 * i + j) output ltac:(lia)) as E. cbv beta in E.
      unfold codeword_bit at 2 in E. unfold conv_bit in E. replace ((3 * i + j) mod 3) with j in E by lia. replace ((3 * i + j) / 3) with i in E by lia.
      rewrite E. do 2 f_equal. lia.
    + intros t Ht. rewrite Hb by lia. do 2 f_equal. lia.
  - do 2 f_equal. lia.
Qed.

Lemma encode_spec msg rest output : 8 < zlen msg < 2 ^ 28 -> 3 * zlen msg <= zlen output ->
  srsran_convcoder_encode lte_code (bytes_of_bits msg ++ rest) output (zlen msg)
    = Some (3 * zlen msg, bytes_of_bits (codeword_of msg) ++ drop (Z.to_nat (3 * zlen msg)) output).
Proof.
  intros Hn Ho. unfold srsran_convcoder_encode, bytes_of_bits. cbn [cc_K lte_code cc_tail_biting cc_R].
  change (u32 (7 + 1)) with 8. destruct (Z.ltb_spec 8 (zlen msg)); [| lia]. cbn iota.
  assert (u32 (zlen msg - 7 + 1) = zlen msg - 6) as -> by (rewrite uwrap_small; [lia | unfold is_uint; lia]).
  loop_inv (fun i sr => sr_holds msg (i - (zlen msg - 6)) i sr) as (sr0 & -> & H0); [lia | split; [lia |]; intros; lia | |].
  { intros i sr Hi Hs. rewrite zget_bits by lia. cbn [mbind option_bind]. rewrite land_1_bit. eexists. split; [done |].
    replace (i + 1 - (zlen msg - 6)) with (i - (zlen msg - 6) + 1) by lia. apply sr_push; [lia | lia | done]. }
  cbn [mbind option_bind].
  loop_inv (fun i '(sr, out) => sr_holds msg 6 i sr /\ out = upto (fun k => Z.b2z (codeword_bit msg k)) (3 * i) output) as ([sr out] & -> & _ & ->).
  - lia.
  - split; [| done]. destruct H0 as [Hr Hb]. split; [done |]. intros t Ht. rewrite Hb by lia. f_equal.
    replace (0 - 1 - t) with (zlen msg - 1 - t + -1 * zlen msg) by lia. by rewrite Z.mod_add by lia.
  - intros i [sr out] Hi [Hs ->]. destruct (Z.ltb_spec i (zlen msg)); [| lia]. rewrite zget_bits by lia. cbn [mbind option_bind]. rewrite land_1_bit.
    pose proof (sr_push msg 6 i sr ltac:(lia) Hi Hs) as Hp. rewrite conv_outputs_spec by (done || lia). cbn [mbind option_bind].
    eexists. split; [done |]. split; [| done]. destruct Hp as [Hr Hb]. split; [done |]. intros t Ht. apply Hb. lia.
  - cbn [mbind option_bind]. rewrite uwrap_small by (unfold is_uint; lia). do 2 f_equal. unfold upto, codeword_of. by rewrite <- list_fmap_compose.
Qed.

(** ** The interleaver *)

Definition perm (c : Z) : Z := RM_PERM_CC !!! Z.to_nat c.
Definition perm_inv (c : Z) : Z := RM_PERM_CC_INV !!! Z.to_nat c.

Lemma zget_perm c : 0 <= c < 32 -> zget RM_PERM_CC c = Some (perm c) /\ zget RM_PERM_CC_INV c = Some (perm_inv c).
Proof. revert c. each_below 32; split; reflexivity. Qed.

Lemma perm_range c : 0 <= c < 32 -> 0 <= perm c < 32 /\ 0 <= perm_inv c < 32.
Proof. revert c. each_below 32; vm_compute; repeat split; discriminate. Qed.

Lemma perm_perm c : 0 <= c < 32 -> perm_inv (perm c) = c /\ perm (perm_inv c) = c.
Proof. revert c. each_below 32; split; reflexivity. Qed.

Section rm.
Context (D : Z) (HD : 2 <= D <= 1024).

Definition nrows : Z := (D - 1) / 32 + 1.
Definition ndummy : Z := nrows * 32 - D.

Lemma nrows_eq : rm_nrows (3 * D) = nrows /\ rm_ndummy (3 * D) = ndummy.
Proof.
  unfold rm_ndummy. assert (rm_nrows (3 * D) = nrows) as ->.
  { unfold rm_nrows, nrows, NCOLS. replace (3 * D / 3) with D by lia. rewrite uwrap_small; [done | unfold is_uint; lia]. }
  split; [done |]. unfold ndummy, NCOLS. replace (3 * D / 3) with D by lia. unfold nrows. lia.
Qed.

Lemma nrows_range : 1 <= nrows <= 32 /\ 0 <= ndummy < 32 /\ (nrows = 1 -> ndummy < 31).
Proof. unfold ndummy, nrows. lia. Qed.

(** A position of the circular buffer, by stream, column and row, and the index into the
    sub-block of [nrows] rows that it takes. *)
Definition column (p : Z) : Z := p mod (nrows * 32) / nrows.
Definition row (p : Z) : Z := p mod (nrows * 32) mod nrows.
Definition entry (p : Z) : Z := row p * 32 + perm (column p).
Definition valid (p : Z) : bool := ndummy <=? entry p.
Definition coded (p : Z) : Z := (entry p - ndummy) * 3 + p / (nrows * 32).
Definition pos (c : Z) : Z :=
  nrows * 32 * (c mod 3) + perm_inv ((c / 3 + ndummy) mod 32) * nrows + (c / 3 + ndummy) / 32.

Definition n3 : Z := 3 * (nrows * 32).

Lemma position_parts s c r : 0 <= s < 3 -> 0 <= c < 32 -> 0 <= r < nrows ->
  let p := nrows * 32 * s + c * nrows + r in 0 <= p < n3 /\ p / (nrows * 32) = s /\ column p = c /\ row p = r.
Proof.
  intros Hs Hc Hr p. pose proof nrows_range as (Hn & _). assert (0 <= c * nrows + r < nrows * 32) as Hq by nia.
  assert (p mod (nrows * 32) = c * nrows + r) as Hm.
  { unfold p. replace (nrows * 32 * s + c * nrows + r) with (c * nrows + r + s * (nrows * 32)) by lia. rewrite Z.mod_add by lia. by apply Z.mod_small. }
  split; [unfold n3, p; nia |]. split; [| split].
  - unfold p. replace (nrows * 32 * s + c * nrows + r) with (s * (nrows * 32) + (c * nrows + r)) by lia.
    rewrite Z.div_add_l by lia. rewrite (Z.div_small _ _ Hq). lia.
  - unfold column. rewrite Hm, Z.div_add_l by lia. rewrite Z.div_small by lia. lia.
  - unfold row. rewrite Hm, Z.add_comm, Z.mod_add by lia. by apply Z.mod_small.
Qed.

Lemma parts_of p : 0 <= p < n3 ->
  p = nrows * 32 * (p / (nrows * 32)) + column p * nrows + row p /\ 0 <= p / (nrows * 32) < 3 /\ 0 <= column p < 32 /\ 0 <= row p < nrows.
Proof.
  intros Hp. pose proof nrows_range as (Hn & _). unfold column, row, n3 in *.
  pose proof (Z.mod_pos_bound p (nrows * 32) ltac:(lia)) as Hm. pose proof (Z.div_mod p (nrows * 32) ltac:(lia)) as E1.
  pose proof (Z.div_mod (p mod (nrows * 32)) nrows ltac:(lia)) as E2.
  pose proof (Z.mod_pos_bound (p mod (nrows * 32)) nrows ltac:(lia)).
  split; [lia |]. split; [split; [apply Z.div_pos; lia | apply Z.div_lt_upper_bound; lia] |].
  split; [| done]. split; [apply Z.div_pos; lia | apply Z.div_lt_upper_bound; lia].
Qed.

Lemma pos_spec c : 0 <= c < 3 * D -> 0 <= pos c < n3 /\ valid (pos c) = true /\ coded (pos c) = c.
Proof.
  intros Hc. pose proof nrows_range as (Hn & Hd & _). unfold pos. set (m := c / 3 + ndummy). assert (0 <= m < nrows * 32) as Hm by (unfold m, ndummy in *; lia).
  destruct (perm_range (m mod 32) ltac:(lia)) as [_ Hp]. destruct (perm_perm (m mod 32) ltac:(lia)) as [_ Hpp].
  destruct (position_parts (c mod 3) (perm_inv (m mod 32)) (m / 32)) as (Hr & Es & Ec & Er); [lia | done | lia |].
  cbv zeta in *. split; [done |]. unfold valid, coded, entry. rewrite Es, Ec, Er, Hpp. split; [apply Z.leb_le; lia | unfold m; lia].
Qed.

Lemma coded_spec p : 0 <= p < n3 -> valid p = true -> 0 <= coded p < 3 * D /\ pos (coded p) = p.
Proof.
  intros Hp Hv%Z.leb_le. pose proof nrows_range as (Hn & Hd & _). destruct (parts_of p Hp) as (Ep & Hs & Hc & Hr).
  destruct (perm_range (column p) Hc) as [Hpr _]. destruct (perm_perm (column p) Hc) as [Hpp _].
  assert (ndummy <= entry p < nrows * 32) as He by (unfold entry in *; lia).
  assert (entry p - ndummy < D) by (unfold ndummy in *; lia).
  unfold coded. split; [lia |]. unfold pos.
  replace (((entry p - ndummy) * 3 + p / (nrows * 32)) / 3) with (entry p - ndummy) by lia.
  replace (((entry p - ndummy) * 3 + p / (nrows * 32)) mod 3) with (p / (nrows * 32)) by lia.
  replace (entry p - ndummy + ndummy) with (entry p) by lia. unfold entry.
  replace ((row p * 32 + perm (column p)) mod 32) with (perm (column p)) by lia.
  replace ((row p * 32 + perm (column p)) / 32) with (row p) by lia. rewrite Hpp. lia.
Qed.

(** The last position holds a bit, so the index never turns around on a dummy. *)
Lemma last_valid : valid (n3 - 1) = true.
Proof.
  pose proof nrows_range as (Hn & Hd & H1). destruct (position_parts 2 31 (nrows - 1)) as (_ & _ & Ec & Er); [lia.. |]. cbv zeta in *.
  unfold n3. replace (3 * (nrows * 32) - 1) with (nrows * 32 * 2 + 31 * nrows + (nrows - 1)) by lia.
  unfold valid, entry. rewrite Ec, Er. change (perm 31) with 30. apply Z.leb_le. destruct (Z.eqb_spec nrows 1); [lia |]. lia.
Qed.

(** The bits met before a position. *)
Definition met (j : Z) : Z := zlen (filter (fun p => valid p = true) (seqZ 0 j)).

Lemma met_next j : 0 <= j -> met (j + 1) = met j + (if valid j then 1 else 0).
Proof.
  intros Hj. unfold met. rewrite seqZ_snoc, filter_app, zlen_app by done. f_equal. rewrite filter_cons. cbn.
  by destruct (valid j).
Qed.

Lemma met_all : met n3 = 3 * D.
Proof.
  pose proof nrows_range as (Hn & _). unfold met.
  assert (Permutation (coded <$> filter (fun p => valid p = true) (seqZ 0 n3)) (seqZ 0 (3 * D))) as HP.
  { apply NoDup_Permutation; [| apply NoDup_seqZ |].
    - apply NoDup_fmap_2_strong; [| apply NoDup_filter, NoDup_seqZ]. intros x y (Hx & Hx')%list_elem_of_filter (Hy & Hy')%list_elem_of_filter E.
      apply elem_of_seqZ in Hx', Hy'. destruct (coded_spec x ltac:(lia) Hx) as [_ <-]. destruct (coded_spec y ltac:(lia) Hy) as [_ <-]. by rewrite E.
    - intros c. rewrite list_elem_of_fmap, elem_of_seqZ. split.
      + intros (p & -> & (Hv & Hp)%list_elem_of_filter). apply elem_of_seqZ in Hp. destruct (coded_spec p ltac:(lia) Hv). lia.
      + intros Hc. destruct (pos_spec c ltac:(lia)) as (Hp & Hv & E). exists (pos c). split; [done |].
        apply list_elem_of_filter. split; [done |]. apply elem_of_seqZ. lia. }
  apply Permutation_length in HP. rewrite length_fmap, length_seqZ in HP. unfold zlen. lia.
Qed.

Lemma met_mono i j : 0 <= i <= j -> met i <= met j.
Proof.
  intros [Hi Hij]. replace j with (i + Z.of_nat (Z.to_nat (j - i))) by lia. induction (Z.to_nat (j - i)) as [| n IH]; [by rewrite Z.add_0_r |].
  replace (i + Z.of_nat (S n)) with (i + Z.of_nat n + 1) by lia. rewrite met_next by lia. destruct (valid _); lia.
Qed.

(** *** The transmitter *)

Section word.
Context (word : list bool) (Hw : zlen word = 3 * D).

Definition buffer (p : Z) : Z := if valid p then Z.b2z (nth_bit word (coded p)) else SRSRAN_TX_NULL.

Lemma interleave_spec rest : rm_interleave nrows ndummy (bytes_of_bits word ++ rest) = Some (buffer <$> seqZ 0 n3).
Proof.
  pose proof nrows_range as (Hn & Hd & _). unfold rm_interleave, n3, NCOLS.
  loop_inv (fun s tmp => tmp = buffer <$> seqZ 0 (nrows * 32 * s)) as (tmp & -> & ->); [lia | by rewrite Z.mul_0_r | | do 2 f_equal; f_equal; lia].
  intros s tmp Hs ->.
  loop_inv (fun j tmp => tmp = buffer <$> seqZ 0 (nrows * 32 * s + j * nrows)) as (tmp & -> & ->); [lia | by rewrite Z.add_0_r | |].
  2:{ eexists. split; [done |]. f_equal. f_equal. lia. }
  intros j tmp Hj ->.
  loop_inv (fun i tmp => tmp = buffer <$> seqZ 0 (nrows * 32 * s + j * nrows + i)) as (tmp & -> & ->); [lia | by rewrite Z.add_0_r | |].
  2:{ eexists. split; [done |]. f_equal. f_equal. lia. }
  intros i tmp Hi ->. destruct (position_parts s j i Hs Hj Hi) as (Hp & Es & Ec & Er). set (p := nrows * 32 * s + j * nrows + i) in *. cbv zeta in *.
  destruct (zget_perm j Hj) as [-> _]. cbn [mbind option_bind].
  assert (i * 32 + perm j = entry p) as -> by (unfold entry; by rewrite Ec, Er).
  rewrite Z.add_assoc, seqZ_snoc, fmap_app by lia. cbn [fmap list_fmap]. fold p.
  destruct (Z.ltb_spec (entry p) ndummy) as [Hlt | Hge].
  - eexists. split; [done |]. do 2 f_equal. unfold buffer, valid. by destruct (Z.leb_spec ndummy (entry p)); [lia |].
  - assert (valid p = true) as Hv by (by apply Z.leb_le). destruct (coded_spec p Hp Hv) as [Hc _]. unfold coded in Hc. rewrite Es in Hc.
    unfold bytes_of_bits. rewrite zget_bits by lia. cbn [mbind option_bind]. eexists. split; [done |]. do 2 f_equal.
    unfold buffer. rewrite Hv. unfold coded. by rewrite Es.
Qed.

(** *** The receiver *)

Section combine.
Context {A : Type} (rx_null rx_zero : A) (is_null : A -> bool) (add : A -> A -> A).

(** [carries n b x]: [x] is the sum of [n] soft bits sent for [b]; up to [bound] of them can be
    added and stay apart from the mark of an empty entry. *)
Context (carries : Z -> bool -> A -> Prop) (bound : Z).
Context (null_is_null : is_null rx_null = true).
Context (carried_not_null : forall n b x, 1 <= n <= bound -> carries n b x -> is_null x = false).
Context (carries_add : forall n b x y, 1 <= n < bound -> carries n b x -> carries 1 b y -> carries (n + 1) b (add x y)).

Context (E : Z) (HE : 0 <= E <= bound).

(** [n] copies of the bit of position [p] have been added up. *)
Definition carried (n : Z) (acc : list A) (p : Z) : Prop :=
  if n =? 0 then zget acc p = Some rx_null else exists x, zget acc p = Some x /\ carries n (nth_bit word (coded p)) x.

(** Before bit [k], at position [j] of turn [r]: the entries before [j] have one copy more. *)
Record combined (acc : list A) (r k j : Z) : Prop := Combined {
  cb_len : zlen acc = n3;
  cb_turn : 0 <= r;
  cb_bits : k = r * (3 * D) + met j;
  cb_entry : forall p, 0 <= p < n3 -> valid p = true -> carried (if p <? j then r + 1 else r) acc p
}.

Lemma rm_next_range j : 0 <= j < n3 -> 0 <= rm_next n3 j < n3.
Proof. intros Hj. unfold rm_next. destruct (Z.eqb_spec (j + 1) n3); lia. Qed.

Lemma combined_skip acc r k j : 0 <= j < n3 -> valid j = false -> combined acc r k j -> combined acc r k (rm_next n3 j).
Proof.
  intros Hj Hv [Hl Hr Hk He]. pose proof last_valid as Hlast. unfold rm_next.
  destruct (Z.eqb_spec (j + 1) n3); [replace (n3 - 1) with j in Hlast by lia; congruence |].
  split; [done | done | rewrite met_next, Hv by lia; lia |]. intros p Hp Hvp. specialize (He p Hp Hvp).
  destruct (Z.eqb_spec p j) as [-> |]; [congruence |]. by replace (p <? j + 1) with (p <? j) by lia.
Qed.

Lemma combined_put acc r k j y : 0 <= j < n3 -> combined acc r k j -> valid j = true -> carries (r + 1) (nth_bit word (coded j)) y ->
  exists r', combined (<[Z.to_nat j := y]> acc) r' (k + 1) (rm_next n3 j).
Proof.
  intros Hj [Hl Hr Hk He] Hv Hy.
  assert (forall p, 0 <= p < n3 -> valid p = true -> carried (if p <? j + 1 then r + 1 else r) (<[Z.to_nat j := y]> acc) p) as He'.
  { intros p Hp Hvp. specialize (He p Hp Hvp). unfold carried in *. destruct (Z.eqb_spec p j) as [-> | Hne].
    - destruct (Z.ltb_spec j (j + 1)); [| lia]. destruct (Z.eqb_spec (r + 1) 0); [lia |].
      exists y. split; [apply zget_insert_eq; unfold in_range; lia | done].
    - rewrite zget_insert_ne by lia. by replace (p <? j + 1) with (p <? j) by lia. }
  pose proof (met_next j ltac:(lia)) as Hm. rewrite Hv in Hm. unfold rm_next. destruct (Z.eqb_spec (j + 1) n3) as [En |].
  - exists (r + 1). split; [by rewrite zlen_insert | lia | rewrite En, met_all in Hm; change (met 0) with 0; lia |].
    intros p Hp Hvp. specialize (He' p Hp Hvp). destruct (Z.ltb_spec p (j + 1)), (Z.ltb_spec p 0); [lia | done | lia..].
  - exists r. split; [by rewrite zlen_insert | done | lia | done].
Qed.

(** Soft bits received for the bits sent. *)
Definition received (sent : list Z) (input : list A) (k : Z) : Prop :=
  forall i, k <= i < E -> exists b x, zget sent i = Some (Z.b2z b) /\ zget input i = Some x /\ carries 1 b x.

(** The two loops run in step. *)
Lemma loops_agree fuel : forall k j out, 0 <= k <= E -> 0 <= j < n3 -> E <= zlen out -> (E - k) * n3 + (n3 - j) <= Z.of_nat fuel ->
  exists out', rm_collect fuel (buffer <$> seqZ 0 n3) n3 E k j out = Some out' /\ zlen out' = zlen out /\
    (forall i, i < k \/ E <= i -> zget out' i = zget out i) /\
    (forall i, k <= i < E -> exists b, zget out' i = Some (Z.b2z b)) /\
    forall acc r input, combined acc r k j -> received out' input k ->
      exists acc' r' j', rm_combine is_null add fuel input nrows ndummy E k j acc = Some acc' /\ 0 <= j' < n3 /\ combined acc' r' E j'.
Proof.
  pose proof nrows_range as (Hn & Hd & _). set (tmp := buffer <$> seqZ 0 n3).
  induction fuel as [| fuel IH]; intros k j out Hk Hj Ho Hf; [unfold n3 in *; nia |].
  cbn [rm_collect rm_combine]. destruct (Z.ltb_spec k E).
  2:{ exists out. split; [done |]. split; [done |]. split; [done |]. split; [intros; lia |]. intros acc r input Hc _. exists acc, r, j.
      replace E with k by lia. split; [done |]. by split. }
  pose proof (rm_next_range j Hj) as Hj'.
  assert (zget tmp j = Some (buffer j)) as -> by (unfold tmp; rewrite zget_lookup, list_lookup_fmap, lookup_seqZ_lt by lia; cbn; do 2 f_equal; lia).
  cbn [mbind option_bind].
  destruct (parts_of j Hj) as (_ & _ & Hcol & _). destruct (zget_perm _ Hcol) as [Hperm _].
  unfold buffer. destruct (valid j) eqn:Hv.
  - destruct (coded_spec j Hj Hv) as [Hcj _]. set (b := nth_bit word (coded j)) in *.
    assert ((Z.b2z b =? SRSRAN_TX_NULL) = false) as -> by (by destruct b).
    rewrite zset_in by (unfold in_range; lia). cbn [mbind option_bind].
    destruct (IH (k + 1) (rm_next n3 j) (<[Z.to_nat k := Z.b2z b]> out)) as (out' & Eo & Hl & Hsame & Hbits & Hrx); [lia | done | by rewrite zlen_insert | |].
    { unfold rm_next. destruct (Z.eqb_spec (j + 1) n3); nia. }
    assert (zget out' k = Some (Z.b2z b)) as Hok by (rewrite Hsame by lia; apply zget_insert_eq; unfold in_range; lia).
    exists out'. split; [exact Eo |]. split; [by rewrite Hl, zlen_insert |].
    split; [intros i Hi; rewrite Hsame by lia; by rewrite zget_insert_ne by lia |].
    split; [intros i Hi; destruct (Z.eqb_spec i k) as [-> |]; [by exists b | apply Hbits; lia] |].
    intros acc r input Hc Hrec. unfold column in Hperm. change NCOLS with 32. rewrite Hperm. cbn [mbind option_bind].
    change (j mod (nrows * 32) mod nrows * 32 + perm (j mod (nrows * 32) / nrows)) with (entry j).
    unfold valid in Hv. rewrite Hv. destruct (Hrec k ltac:(lia)) as (b' & x & Hb' & Hx & Hcx).
    rewrite Hok in Hb'. assert (b' = b) as -> by (by destruct b, b'). rewrite Hx.
    pose proof (cb_len _ _ _ _ Hc) as Hla. pose proof (cb_turn _ _ _ _ Hc) as Hr. pose proof (cb_bits _ _ _ _ Hc) as Hkr.
    pose proof (cb_entry _ _ _ _ Hc j Hj Hv) as He. unfold carried in He. rewrite Z.ltb_irrefl in He.
    assert (0 <= met j) as Hmet by (unfold met, zlen; lia).
    assert (exists t y, zget acc j = Some t /\ carries (r + 1) b y /\
      (if is_null t then zset acc j x else if negb (is_null x) then zset acc j (add t x) else Some acc) = Some (<[Z.to_nat j := y]> acc)) as (t & y & -> & Hy & Hset).
    { destruct (Z.eqb_spec r 0) as [-> |].
      - exists rx_null, x. split; [done |]. split; [done |]. rewrite null_is_null. apply zset_in; unfold in_range; lia.
      - destruct He as (t & Et & Hct). exists t, (add t x). split; [done |]. split; [apply carries_add; [nia | done | done] |].
        rewrite (carried_not_null r b t), (carried_not_null 1 b x) by (done || nia). apply zset_in; unfold in_range; lia. }
    cbn [mbind option_bind]. rewrite Hset. cbn [mbind option_bind].
    destruct (combined_put acc r k j y Hj Hc Hv Hy) as [r' Hc']. apply (Hrx _ r'); [done |]. intros i Hi. apply Hrec. lia.
  - change (SRSRAN_TX_NULL =? SRSRAN_TX_NULL) with true. cbn iota.
    destruct (IH k (rm_next n3 j) out) as (out' & Eo & Hl & Hsame & Hbits & Hrx); [done | done | done | |].
    { pose proof last_valid as Hlast. unfold rm_next. destruct (Z.eqb_spec (j + 1) n3); [replace (n3 - 1) with j in Hlast by lia; congruence | lia]. }
    exists out'. split; [exact Eo |]. split; [done |]. split; [done |]. split; [done |].
    intros acc r input Hc Hrec. unfold column in Hperm. change NCOLS with 32. rewrite Hperm. cbn [mbind option_bind].
    change (j mod (nrows * 32) mod nrows * 32 + perm (j mod (nrows * 32) / nrows)) with (entry j).
    unfold valid in Hv. rewrite Hv. apply (Hrx _ r); [by apply combined_skip | done].
Qed.

Definition selected (acc : list A) (c : Z) : A :=
  let o := default rx_zero (zget acc (pos c)) in if negb (is_null o) then o else rx_zero.

Lemma select_spec acc output : zlen acc = n3 -> 3 * D <= zlen output ->
  rm_select rx_zero is_null nrows ndummy acc output (3 * D) = Some (upto (selected acc) (3 * D) output).
Proof.
  intros Ha Ho. pose proof nrows_range as (Hn & Hd & _). unfold rm_select, NCOLS. replace (3 * D / 3) with D by lia.
  loop_inv (fun i out => out = upto (selected acc) (3 * i) output) as (out & -> & ->); [lia | done | | done].
  intros i out Hi ->.
  loop_inv (fun j out => out = upto (selected acc) (3 * i + j) output) as (out & -> & ->); [lia | by rewrite Z.add_0_r | |].
  2:{ eexists. split; [done |]. f_equal. lia. }
  intros j out Hj ->. destruct (zget_perm ((i + ndummy) mod 32) ltac:(lia)) as [_ ->]. cbn [mbind option_bind].
  destruct (pos_spec (3 * i + j) ltac:(lia)) as (Hp & _ & _).
  assert (nrows * 32 * j + perm_inv ((i + ndummy) mod 32) * nrows + (i + ndummy) / 32 = pos (3 * i + j)) as ->.
  { unfold pos. replace ((3 * i + j) mod 3) with j by lia. by replace ((3 * i + j) / 3) with i by lia. }
  destruct (zget_some acc (pos (3 * i + j))) as [o Eo]; [unfold in_range; lia |]. rewrite Eo. cbn [mbind option_bind].
  pose proof (zset_upto (selected acc) (3 * i + j) output ltac:(lia)) as E'. unfold selected at 2 in E'. rewrite Eo in E'. cbn [default] in E'.
  replace (i * 3 + j) with (3 * i + j) by lia. eexists. split; [exact E' |]. f_equal. lia.
Qed.

(** What is sent, and what the receiver makes of it: nothing, where a bit has not been sent, or
    the sum of its copies. *)
Lemma rate_matched rest out : E <= zlen out ->
  exists out', srsran_rm_conv_tx (bytes_of_bits word ++ rest) (3 * D) out E = Some (0, out') /\ zlen out' = zlen out /\
    (forall i, E <= i -> zget out' i = zget out i) /\ (forall i, 0 <= i < E -> exists b, zget out' i = Some (Z.b2z b)) /\
    forall input output, received out' input 0 -> 3 * D <= zlen output ->
      exists h, rm_conv_rx rx_null rx_zero is_null add input E output (3 * D) = Some (0, upto h (3 * D) output) /\
        forall c, 0 <= c < 3 * D -> exists n, E / (3 * D) <= n <= E / (3 * D) + 1 /\
          if n =? 0 then h c = rx_zero else carries n (nth_bit word c) (h c).
Proof.
  intros Ho. pose proof nrows_range as (Hn & Hd & _). destruct nrows_eq as [En Ed].
  unfold srsran_rm_conv_tx, rm_conv_rx. rewrite !En, !Ed. unfold NROWS_MAX, NCOLS. destruct (Z.ltb_spec 32 nrows); [lia |].
  rewrite interleave_spec. cbn [mbind option_bind]. change (3 * (nrows * 32)) with n3.
  destruct (loops_agree (rm_fuel n3 E) 0 0 out) as (out' & -> & Hl & Hsame & Hbits & Hrx); [lia | unfold n3; lia | done | |].
  { unfold rm_fuel, n3. rewrite Z2Nat.id by nia. nia. }
  exists out'. cbn [mbind option_bind]. split; [done |]. split; [done |]. split; [intros i Hi; apply Hsame; lia |]. split; [done |].
  intros input output Hr Hout. destruct (Hrx (replicate (Z.to_nat n3) rx_null) 0 input) as (acc' & r' & j' & Eacc & Hj' & Hc); [| done |].
  { split; [| done | done |].
    - unfold zlen. rewrite length_replicate. unfold n3. lia.
    - intros p Hp _. destruct (Z.ltb_spec p 0); [lia |]. cbn. rewrite zget_lookup by lia. apply lookup_replicate_2. lia. }
  change (nrows * NCOLS) with (nrows * 32) in Eacc. rewrite Eacc. cbn [mbind option_bind]. destruct Hc as [Hla Hr' HkE He].
  rewrite select_spec by done. cbn [mbind option_bind]. exists (selected acc'). split; [done |].
  pose proof (met_mono (j' + 1) n3 ltac:(lia)) as Hm1. pose proof (met_mono j' (n3 - 1) ltac:(lia)) as Hm2.
  pose proof (met_next (n3 - 1) ltac:(unfold n3; lia)) as Hm3. rewrite last_valid in Hm3. replace (n3 - 1 + 1) with n3 in Hm3 by lia. rewrite met_all in *.
  assert (0 <= met j') as Hmet by (unfold met, zlen; lia).
  assert (E / (3 * D) = r') as -> by (symmetry; apply (Z.div_unique _ _ _ (met j')); lia).
  intros c Hcc. destruct (pos_spec c Hcc) as (Hp & Hv & Ec). specialize (He _ Hp Hv).
  unfold carried in He. rewrite Ec in He. set (n := if pos c <? j' then r' + 1 else r') in *.
  assert (r' <= n <= r' + 1 /\ n <= E) as [Hn1 Hn2].
  { subst n. destruct (Z.ltb_spec (pos c) j'); [| nia]. pose proof (met_mono (pos c + 1) j' ltac:(lia)) as Hm.
    rewrite met_next, Hv in Hm by lia. assert (0 <= met (pos c)) by (unfold met, zlen; lia). nia. }
  clearbody n. exists n. split; [done |]. unfold selected. destruct (Z.eqb_spec n 0) as [Hn0 | Hn0]; [rewrite He; cbn; by rewrite null_is_null |].
  destruct He as (x & -> & Hx). cbn. by rewrite (carried_not_null n _ x) by (done || lia).
Qed.
End combine.
End word.
End rm.

(** ** Soft bits of one *)

(** The sum of [n] soft bits of size one. *)
Definition soft (n : Z) (b : bool) : Z := if b then n else - n.
Definition soft_f (n : Z) (b : bool) : float32 := f32_of_int (soft n b).

#[export] Instance spec_float_eq_dec : EqDecision spec_float.
Proof. solve_decision. Defined.

(** Sums of up to 600 are exact; no candidate has more than 576 bits. *)
Definition MAX_COPIES : Z := 600.

Definition sums_exact (n : Z) : bool :=
  bool_decide (f32_add (soft_f n true) (soft_f 1 true) = soft_f (n + 1) true) && bool_decide (f32_add (soft_f n false) (soft_f 1 false) = soft_f (n + 1) false)
  && negb (f32_eq (soft_f n true) (f32_of_int SRSRAN_RX_NULL)) && negb (f32_eq (soft_f n false) (f32_of_int SRSRAN_RX_NULL)).

Lemma sums_checked n : 1 <= n <= MAX_COPIES -> sums_exact n = true.
Proof.
  assert (forallb (fun n => (n =? 0) || sums_exact n) (seqZ 0 601) = true) as H by (by vm_compute).
  intros Hn. pose proof (forallb_below 601 _ H n ltac:(unfold MAX_COPIES in *; lia)) as E. cbv beta in E.
  destruct (Z.eqb_spec n 0); [lia |]. done.
Qed.

Definition carries_f (n : Z) (b : bool) (x : float32) : Prop := x = soft_f n b.
Definition carries_s (n : Z) (b : bool) (x : Z) : Prop := x = soft n b.

Lemma carried_f n b x : 1 <= n <= MAX_COPIES -> carries_f n b x -> f32_eq x (f32_of_int SRSRAN_RX_NULL) = false.
Proof.
  intros Hn ->. pose proof (sums_checked n Hn) as E. unfold sums_exact in E. rewrite !andb_true_iff, !negb_true_iff in E.
  destruct E as [[_ Et] Ef]. by destruct b.
Qed.

Lemma carries_add_f n b x y : 1 <= n < MAX_COPIES -> carries_f n b x -> carries_f 1 b y -> carries_f (n + 1) b (f32_add x y).
Proof.
  intros Hn -> ->. pose proof (sums_checked n ltac:(lia)) as E. unfold sums_exact in E. rewrite !andb_true_iff, !bool_decide_eq_true in E.
  destruct E as [[[Et Ef] _] _]. by destruct b.
Qed.

Lemma carried_s n b x : 1 <= n <= MAX_COPIES -> carries_s n b x -> (x =? SRSRAN_RX_NULL) = false.
Proof. intros Hn ->. apply Z.eqb_neq. unfold soft, MAX_COPIES, SRSRAN_RX_NULL in *. destruct b; lia. Qed.

Lemma carries_add_s n b x y : 1 <= n < MAX_COPIES -> carries_s n b x -> carries_s 1 b y -> carries_s (n + 1) b (swrap 16 (x + y)).
Proof.
  intros Hn -> ->. unfold carries_s, soft, MAX_COPIES in *. rewrite swrap_small by (destruct b; lia). destruct b; lia.
Qed.

(** The bits written, as a list. *)
Lemma bits_written (out' out : list Z) E : 0 <= E <= zlen out -> zlen out' = zlen out -> (forall i, E <= i -> zget out' i = zget out i) ->
  (forall i, 0 <= i < E -> exists b, zget out' i = Some (Z.b2z b)) ->
  exists sent, out' = bytes_of_bits sent ++ drop (Z.to_nat E) out /\ zlen sent = E.
Proof.
  intros HE Hl Hsame Hbits. exists ((fun i => bool_decide (zget out' i = Some 1)) <$> seqZ 0 E).
  split; [| unfold zlen; rewrite length_fmap, length_seqZ; lia]. apply list_eq. intros i. unfold bytes_of_bits, zlen in *.
  destruct (decide (i < Z.to_nat E)%nat) as [Hi | Hi].
  - rewrite lookup_app_l by (rewrite !length_fmap, length_seqZ; lia). rewrite !list_lookup_fmap, lookup_seqZ_lt by lia. cbn.
    destruct (Hbits (Z.of_nat i) ltac:(lia)) as [b Hb]. rewrite Z.add_0_l, Hb. rewrite zget_lookup, Nat2Z.id in Hb by lia. rewrite Hb. by destruct b.
  - rewrite lookup_app_r by (rewrite !length_fmap, length_seqZ; lia). rewrite !length_fmap, length_seqZ, lookup_drop.
    replace (Z.to_nat E + (i - Z.to_nat E))%nat with i by lia.
    specialize (Hsame (Z.of_nat i) ltac:(lia)). by rewrite !zget_lookup, !Nat2Z.id in Hsame by lia.
Qed.

Lemma received_soft {A} (carries : Z -> bool -> A -> Prop) (s : bool -> A) E sent rest rest' :
  (forall b, carries 1 b (s b)) -> zlen sent = E -> received carries E (bytes_of_bits sent ++ rest) ((s <$> sent) ++ rest') 0.
Proof.
  intros Hs Hl i Hi. unfold zlen in Hl. destruct (lookup_lt_is_Some_2 sent (Z.to_nat i)) as [b Hb]; [lia |].
  exists b, (s b). unfold bytes_of_bits. rewrite !zget_lookup, !lookup_app_l by (rewrite ?length_fmap; lia).
  by rewrite !list_lookup_fmap, Hb.
Qed.

Lemma finite_choice {A} `{!Inhabited A} (P : Z -> A -> Prop) m : (forall c, 0 <= c < m -> exists x, P c x) -> exists f, forall c, 0 <= c < m -> P c (f c).
Proof.
  intros H. destruct (Z.ltb_spec 0 m); [| exists (fun _ => inhabitant); intros; lia]. replace m with (Z.of_nat (Z.to_nat m)) in * by lia.
  induction (Z.to_nat m) as [| n IH]; [exists (fun _ => inhabitant); intros; lia |].
  destruct (Z.eqb_spec (Z.of_nat n) 0) as [E | E].
  - destruct (H 0 ltac:(lia)) as [x Hx]. exists (fun _ => x). intros c Hc. by replace c with 0 by lia.
  - destruct IH as [f Hf]; [intros; apply H; lia | lia |]. destruct (H (Z.of_nat n) ltac:(lia)) as [x Hx].
    exists (fun c => if c =? Z.of_nat n then x else f c). intros c Hc. destruct (Z.eqb_spec c (Z.of_nat n)) as [-> |]; [done | apply Hf; lia].
Qed.

Lemma upto_ext {A} (f g : Z -> A) n out : (forall c, 0 <= c < n -> f c = g c) -> upto f n out = upto g n out.
Proof.
  intros H. unfold upto. f_equal. apply list_fmap_ext. intros i c Hc. apply lookup_seqZ in Hc as [-> Hc]. apply H. lia.
Qed.

(** The copies of every bit, from the values received. *)
Lemma copies_of {A} (s : Z -> bool -> A) (zero : A) (h : Z -> A) word N q output : (forall b, s 0 b = zero) ->
  (forall c, 0 <= c < N -> exists n, q <= n <= q + 1 /\ if n =? 0 then h c = zero else h c = s n (nth_bit word c)) ->
  exists copies, upto h N output = upto (fun c => s (copies c) (nth_bit word c)) N output /\ forall c, 0 <= c < N -> q <= copies c <= q + 1.
Proof.
  intros H0 Hh. destruct (finite_choice (fun c n => q <= n <= q + 1 /\ h c = s n (nth_bit word c)) N) as [f Hf].
  { intros c Hc. destruct (Hh c Hc) as (n & Hn & E). exists n. split; [done |]. destruct (Z.eqb_spec n 0) as [-> |]; [by rewrite H0 | done]. }
  exists f. split; [apply upto_ext; intros c Hc; by apply Hf | intros c Hc; by apply Hf].
Qed.

(** *** What is sent does not depend on the array that it is written to *)

Lemma collect_out fuel tmp n3 E : forall k j out out2 out', 0 <= k -> E <= zlen out -> E <= zlen out2 -> (forall i, 0 <= i < k -> zget out i = zget out2 i) ->
  rm_collect fuel tmp n3 E k j out = Some out' ->
  exists out2', rm_collect fuel tmp n3 E k j out2 = Some out2' /\ zlen out2' = zlen out2 /\ forall i, 0 <= i < E -> zget out' i = zget out2' i.
Proof.
  induction fuel as [| fuel IH]; intros k j out out2 out' Hk Ho Ho2 Hs; cbn [rm_collect]; (destruct (Z.ltb_spec k E); [| intros [= <-]; exists out2; split; [done |]; split; [done |]; intros i Hi; apply Hs; lia]); [done |].
  destruct (zget tmp j) as [t |]; [| done]. cbn [mbind option_bind]. destruct (t =? SRSRAN_TX_NULL); [by apply IH |].
  rewrite !zset_in by (unfold in_range; lia). cbn [mbind option_bind]. intros Er.
  assert (forall i, 0 <= i < k + 1 -> zget (<[Z.to_nat k := t]> out) i = zget (<[Z.to_nat k := t]> out2) i) as Hsame.
  { intros i Hi. destruct (Z.eqb_spec i k) as [-> |]; [rewrite !zget_insert_eq by (unfold in_range; lia); done |]. rewrite !zget_insert_ne by lia. apply Hs. lia. }
  destruct (IH (k + 1) (rm_next n3 j) (<[Z.to_nat k := t]> out) (<[Z.to_nat k := t]> out2) out') as (o & -> & Hl & Hi);
    [lia | by rewrite zlen_insert | by rewrite zlen_insert | done | done |].
  exists o. split; [done |]. split; [by rewrite Hl, zlen_insert | done].
Qed.

Lemma sent_unique D word E rest rest2 out out2 sent : 2 <= D <= 1024 -> zlen word = 3 * D -> zlen sent = E -> E <= zlen out -> E <= zlen out2 ->
  srsran_rm_conv_tx (bytes_of_bits word ++ rest) (3 * D) out E = Some (0, bytes_of_bits sent ++ drop (Z.to_nat E) out) ->
  forall sent2, zlen sent2 = E -> srsran_rm_conv_tx (bytes_of_bits word ++ rest2) (3 * D) out2 E = Some (0, bytes_of_bits sent2 ++ drop (Z.to_nat E) out2) ->
  sent2 = sent.
Proof.
  intros HD Hw Hs Ho Ho2 E1 sent2 Hs2 E2. destruct (nrows_eq D HD) as [En Ed]. pose proof (nrows_range D HD) as (Hn & _ & _).
  unfold srsran_rm_conv_tx in E1, E2. rewrite !En, !Ed in *. unfold NROWS_MAX, NCOLS in *. destruct (Z.ltb_spec 32 (nrows D)); [lia |].
  rewrite !(interleave_spec D HD word Hw) in *. cbn [mbind option_bind] in *.
  destruct (rm_collect _ _ _ _ _ _ out) as [o1 |] eqn:Ec; [| done]. cbn [mbind option_bind] in E1. injection E1 as ->.
  destruct (collect_out _ _ _ _ 0 0 out out2 _ ltac:(lia) Ho Ho2 ltac:(intros; lia) Ec) as (o2 & Ec2 & _ & Hi). rewrite Ec2 in E2. cbn [mbind option_bind] in E2. injection E2 as ->.
  apply list_eq. intros i. destruct (decide (i < length sent)%nat) as [Hlt | Hge].
  - specialize (Hi (Z.of_nat i)). pose proof (zget_bits sent (drop (Z.to_nat E) out) (Z.of_nat i)) as Z1. pose proof (zget_bits sent2 (drop (Z.to_nat E) out2) (Z.of_nat i)) as Z2.
    unfold bytes_of_bits, zlen in *. rewrite Z1, Z2 in Hi by lia. specialize (Hi ltac:(lia)). injection Hi as Hb. unfold nth_bit in Hb. rewrite Nat2Z.id in Hb.
    destruct (lookup_lt_is_Some_2 sent i) as [b1 E1]; [lia |]. destruct (lookup_lt_is_Some_2 sent2 i) as [b2 E2]; [lia |]. rewrite E1, E2 in *. cbn in Hb. by destruct b1, b2.
  - unfold zlen in *. rewrite !lookup_ge_None_2 by lia. done.
Qed.

(** A codeword goes through the rate matching: the soft bits of what is sent come back as the
    sums of the copies of every bit, [E / 3D] or one more of each. *)
Lemma rate_matching_spec D word rest E out : 2 <= D <= 1024 -> zlen word = 3 * D -> 0 <= E <= MAX_COPIES -> E <= zlen out ->
  exists sent, srsran_rm_conv_tx (bytes_of_bits word ++ rest) (3 * D) out E = Some (0, bytes_of_bits sent ++ drop (Z.to_nat E) out) /\ zlen sent = E /\
    (forall more output, 3 * D <= zlen output -> exists copies,
      srsran_rm_conv_rx ((soft_f 1 <$> sent) ++ more) E output (3 * D) = Some (0, upto (fun c => soft_f (copies c) (nth_bit word c)) (3 * D) output) /\
      forall c, 0 <= c < 3 * D -> E / (3 * D) <= copies c <= E / (3 * D) + 1) /\
    (forall more output, 3 * D <= zlen output -> exists copies,
      srsran_rm_conv_rx_s ((soft 1 <$> sent) ++ more) E output (3 * D) = Some (0, upto (fun c => soft (copies c) (nth_bit word c)) (3 * D) output) /\
      forall c, 0 <= c < 3 * D -> E / (3 * D) <= copies c <= E / (3 * D) + 1).
Proof.
  intros HD Hw HE Ho.
  destruct (rate_matched D HD word Hw (f32_of_int SRSRAN_RX_NULL) f32_0 _ _ carries_f MAX_COPIES eq_refl carried_f carries_add_f E ltac:(lia) rest out Ho)
    as (out' & Et & Hl & Hsame & Hbits & Hf).
  destruct (rate_matched D HD word Hw SRSRAN_RX_NULL 0 _ _ carries_s MAX_COPIES eq_refl carried_s carries_add_s E ltac:(lia) rest out Ho)
    as (out2 & Et2 & _ & _ & _ & Hs).
  rewrite Et in Et2. injection Et2 as <-.
  destruct (bits_written out' out E ltac:(lia) Hl Hsame Hbits) as (sent & -> & Hsl).
  exists sent. split; [done |]. split; [done |]. split; intros more output Hout.
  - destruct (Hf ((soft_f 1 <$> sent) ++ more) output) as (h & Eh & Hh); [by apply received_soft | done |].
    destruct (copies_of soft_f f32_0 h word (3 * D) _ output ltac:(by intros []) Hh) as (copies & Eu & Hc). exists copies. by rewrite <- Eu.
  - destruct (Hs ((soft 1 <$> sent) ++ more) output) as (h & Eh & Hh); [by apply received_soft | done |].
    destruct (copies_of soft 0 h word (3 * D) _ output ltac:(by intros []) Hh) as (copies & Eu & Hc). exists copies. by rewrite <- Eu.
Qed.

(** C27: a codeword goes through the rate matching and comes back: from the soft bits of
    what is sent, the receiver makes for every bit of the codeword the sum of its copies, with
    the sign of the bit, and the copies are shared out evenly: as many of each, or one more. *)
Theorem rate_matching_inverse D word rest E out : 2 <= D <= 1024 -> zlen word = 3 * D -> 0 <= E <= MAX_COPIES -> E <= zlen out ->
  exists sent, srsran_rm_conv_tx (bytes_of_bits word ++ rest) (3 * D) out E = Some (0, bytes_of_bits sent ++ drop (Z.to_nat E) out) /\ zlen sent = E /\
    (forall more output, 3 * D <= zlen output -> exists copies,
      srsran_rm_conv_rx ((soft_f 1 <$> sent) ++ more) E output (3 * D) = Some (0, upto (fun c => soft_f (copies c) (nth_bit word c)) (3 * D) output) /\
      forall c, 0 <= c < 3 * D -> E / (3 * D) <= copies c <= E / (3 * D) + 1) /\
    (forall more output, 3 * D <= zlen output -> exists copies,
      srsran_rm_conv_rx_s ((soft 1 <$> sent) ++ more) E output (3 * D) = Some (0, upto (fun c => soft (copies c) (nth_bit word c)) (3 * D) output) /\
      forall c, 0 <= c < 3 * D -> E / (3 * D) <= copies c <= E / (3 * D) + 1).
Proof. apply rate_matching_spec. Qed.

Lemma rate_matching_inverse_witness :
  zlen (codeword_of (replicate 10 true)) = 30 /\
  exists sent, srsran_rm_conv_tx (bytes_of_bits (codeword_of (replicate 10 true)) ++ [9]) 30 (replicate 72 7) 72 = Some (0, bytes_of_bits sent) /\ zlen sent = 72 /\
    exists copies, srsran_rm_conv_rx ((soft_f 1 <$> sent) ++ []) 72 (replicate 30 f32_0) 30
      = Some (0, upto (fun c => soft_f (copies c) (nth_bit (codeword_of (replicate 10 true)) c)) 30 (replicate 30 f32_0)) /\
      forall c, 0 <= c < 30 -> 2 <= copies c <= 3.
Proof.
  split; [reflexivity |].
  destruct (rate_matching_inverse 10 (codeword_of (replicate 10 true)) [9] 72 (replicate 72 7)) as (sent & Et & Hl & Hf & _);
    [lia | reflexivity | by vm_compute | by vm_compute |].
  exists sent. split; [by rewrite app_nil_r in Et |]. split; [done |].
  destruct (Hf [] (replicate 30 f32_0)) as (copies & E & Hc); [by vm_compute |]. exists copies. split; [exact E |].
  change (72 / (3 * 10)) with 2 in Hc. intros c Hcc. apply (Hc c). lia.
Defined.

(** The encoder makes the codeword of the standard, three bits for every
    bit of the message, and leaves the rest of the output alone. *)
Theorem convcoder_is_standard msg rest output : 8 < zlen msg < 2 ^ 28 -> 3 * zlen msg <= zlen output ->
  srsran_convcoder_encode lte_code (bytes_of_bits msg ++ rest) output (zlen msg)
    = Some (3 * zlen msg, bytes_of_bits (codeword_of msg) ++ drop (Z.to_nat (3 * zlen msg)) output).
Proof. apply encode_spec. Qed.

Lemma convcoder_is_standard_witness :
  srsran_convcoder_encode lte_code ([1; 0; 0; 0; 0; 0; 0; 0; 0; 0] ++ [5]) (replicate 31 9) 10
    = Some (30, [1; 1; 1; 0; 1; 1; 1; 1; 1; 1; 1; 0; 0; 0; 1; 1; 0; 0; 1; 1; 1; 0; 0; 0; 0; 0; 0; 0; 0; 0; 9]).
Proof.
  eapply eq_trans; [apply (convcoder_is_standard (true :: replicate 9 false) [5] (replicate 31 9)); by vm_compute | by vm_compute].
Defined.
