(* ===== verification/Trellis.v ===== *)
(** * The trellis of the convolutional code

    The specification of the decoder of [Viterbi]: the states of the coder of [ConvCode], the
    distance between a sequence of received symbols and the codeword of an input, the metric of
    a state, which is the least distance of the inputs that reach it, and why an input that is
    not the one sent is further away. *)

From S2P Require Export ConvCode.

(** ** Registers *)

(** The last [n] bits of an input before position [t], the newest in bit 0. *)
Definition window (n : nat) (x : Z -> bool) (t : Z) : Z :=
  foldr (fun m r => 2 * r + Z.b2z (x (t - Z.of_nat m))) 0 (seq 0 n).

(** The register of the coder at step [t], and its state before the step. *)
Definition register (x : Z -> bool) (t : Z) : Z := window 7 x t.
Definition state (x : Z -> bool) (t : Z) : Z := window 6 x (t - 1).

(** The output for polynomial [j]. *)
Definition out_bit (j reg : Z) : bool := parity (Z.land reg (lte_poly j)) =? 1.

Lemma window_unfold x t : window 7 x t = Z.b2z (x t) + 2 * Z.b2z (x (t - 1)) + 4 * Z.b2z (x (t - 2)) + 8 * Z.b2z (x (t - 3))
    + 16 * Z.b2z (x (t - 4)) + 32 * Z.b2z (x (t - 5)) + 64 * Z.b2z (x (t - 6))
  /\ window 6 x t = Z.b2z (x t) + 2 * Z.b2z (x (t - 1)) + 4 * Z.b2z (x (t - 2)) + 8 * Z.b2z (x (t - 3))
    + 16 * Z.b2z (x (t - 4)) + 32 * Z.b2z (x (t - 5)).
Proof.
  unfold window. cbn [seq foldr]. change (Z.of_nat 0) with 0. change (Z.of_nat 1) with 1. change (Z.of_nat 2) with 2.
  change (Z.of_nat 3) with 3. change (Z.of_nat 4) with 4. change (Z.of_nat 5) with 5. change (Z.of_nat 6) with 6.
  rewrite Z.sub_0_r. lia.
Qed.

(** Bits as integers, for [lia]. *)
Ltac bounds x t := let H := fresh in assert (0 <= Z.b2z (x t) <= 1) as H by (destruct (x t); cbn; lia).

Lemma state_step x t : 0 <= state x t < 64 /\ register x t = 2 * state x t + Z.b2z (x t)
  /\ register x t = state x (t + 1) + 64 * Z.b2z (x (t - 6)) /\ state x t = state x (t + 1) / 2 + 32 * Z.b2z (x (t - 6)).
Proof.
  unfold register, state. rewrite !(proj1 (window_unfold _ _)), !(proj2 (window_unfold _ _)).
  replace (t + 1 - 1) with t by lia. replace (t - 1 - 1) with (t - 2) by lia. replace (t - 1 - 2) with (t - 3) by lia.
  replace (t - 1 - 3) with (t - 4) by lia. replace (t - 1 - 4) with (t - 5) by lia. replace (t - 1 - 5) with (t - 6) by lia.
  bounds x t. bounds x (t - 1). bounds x (t - 2). bounds x (t - 3). bounds x (t - 4). bounds x (t - 5). bounds x (t - 6).
  lia.
Qed.

Lemma register_range x t : 0 <= register x t < 128.
Proof. destruct (state_step x t) as (H & -> & _). bounds x t. lia. Qed.

Lemma state_ext n x y t : (forall i, t - Z.of_nat n < i <= t -> x i = y i) -> window n x t = window n y t.
Proof.
  intros H. unfold window. apply foldr_ext_in. intros m r Hm%elem_of_seq. by rewrite H by lia.
Qed.

(** The codeword is the output of the coder on its message, repeated for ever. *)
Definition repeated (msg : list bool) (i : Z) : bool := nth_bit msg (i mod zlen msg).

Lemma out_bit_taps j reg : 0 <= reg < 128 ->
  out_bit j reg = foldr (fun t b => xorb (Z.testbit (lte_poly j) t && Z.testbit reg t) b) false [0; 1; 2; 3; 4; 5; 6].
Proof.
  unfold out_bit, lte_poly. revert reg. destruct (j =? 0), (j =? 1); each_below 128; reflexivity.
Qed.

Lemma testbit_window n x t i : 0 <= i -> Z.testbit (window n x t) i = (i <? Z.of_nat n) && x (t - i).
Proof.
  intros Hi. unfold window.
  assert (forall s i, 0 <= i -> Z.testbit (foldr (fun m r => 2 * r + Z.b2z (x (t - Z.of_nat m))) 0 (seq s n)) i
    = (i <? Z.of_nat n) && x (t - (Z.of_nat s + i))) as H; [clear i Hi | rewrite H by done; do 2 f_equal; lia].
  induction n as [| n IH]; intros s i Hi; [cbn [seq foldr]; rewrite Z.testbit_0_l; destruct (Z.ltb_spec i (Z.of_nat 0)); [lia | done] |].
  cbn [seq foldr]. destruct (Z.eqb_spec i 0) as [-> |].
  - rewrite Z.testbit_0_r. destruct (Z.ltb_spec 0 (Z.of_nat (S n))); [| lia]. by rewrite Z.add_0_r.
  - replace i with (Z.succ (i - 1)) at 1 by lia. rewrite Z.testbit_succ_r, IH by lia.
    assert ((i - 1 <? Z.of_nat n) = (i <? Z.of_nat (S n))) as -> by (apply eq_true_iff_eq; rewrite !Z.ltb_lt; lia). do 2 f_equal. lia.
Qed.

Lemma window_xor n x y t : window n (fun i => xorb (x i) (y i)) t = Z.lxor (window n x t) (window n y t).
Proof.
  apply Z.bits_inj'. intros i Hi. rewrite Z.lxor_spec, !testbit_window by done. by destruct (_ <? _).
Qed.

(** The coder is linear. *)
Lemma out_bit_xor j a b : 0 <= a < 128 -> 0 <= b < 128 -> out_bit j (Z.lxor a b) = xorb (out_bit j a) (out_bit j b).
Proof.
  intros Ha Hb. pose proof (lxor_range 7 a b ltac:(lia) Ha Hb). rewrite !out_bit_taps by done.
  generalize [0; 1; 2; 3; 4; 5; 6]. intros l. induction l as [| t l IH]; [done |]. cbn [foldr]. rewrite IH, Z.lxor_spec.
  repeat match goal with |- context [foldr ?f ?b l] => destruct (foldr f b l) end;
    by destruct (Z.testbit (lte_poly j) t), (Z.testbit a t), (Z.testbit b t).
Qed.

(** What the coder makes of the message. *)
Lemma codeword_out msg i j : 0 < zlen msg -> 0 <= i < zlen msg -> 0 <= j < 3 ->
  nth_bit (codeword_of msg) (3 * i + j) = out_bit j (register (repeated msg) i).
Proof.
  intros Hm Hi Hj. rewrite out_bit_taps by apply register_range. unfold nth_bit, codeword_of.
  rewrite list_lookup_fmap, lookup_seqZ_lt by lia. cbn [fmap option_fmap option_map default]. unfold codeword_bit, conv_bit.
  replace ((0 + Z.of_nat (Z.to_nat (3 * i + j))) mod 3) with j by lia. replace ((0 + Z.of_nat (Z.to_nat (3 * i + j))) / 3) with i by lia.
  apply foldr_ext_in. intros t b Ht. unfold register. rewrite testbit_window by (rewrite !elem_of_cons, elem_of_nil in Ht; lia).
  destruct (Z.ltb_spec t (Z.of_nat 7)); [done | rewrite !elem_of_cons, elem_of_nil in Ht; lia].
Qed.

(** ** Metrics *)

(** The distance of a symbol, a byte, from a bit. *)
Definition cost (sym : Z) (b : bool) : Z := if b then 255 - sym else sym.

Section branches.
Context (sym : Z -> Z).

(** The distance of the three symbols of step [t] from the output on a register. *)
Definition branch (t reg : Z) : Z :=
  cost (sym (3 * t)) (out_bit 0 reg) + cost (sym (3 * t + 1)) (out_bit 1 reg) + cost (sym (3 * t + 2)) (out_bit 2 reg).

Lemma branch_range (Hsym : forall k, 0 <= sym k < 256) t reg : 0 <= branch t reg <= 765.
Proof.
  unfold branch, cost. pose proof (Hsym (3 * t)). pose proof (Hsym (3 * t + 1)). pose proof (Hsym (3 * t + 2)).
  destruct (out_bit 0 reg), (out_bit 1 reg), (out_bit 2 reg); lia.
Qed.

(** The even and the odd register of a butterfly, from the lower and from the upper state. *)
Lemma branch_complement t s : 0 <= s < 32 ->
  branch t (2 * s + 1) = 765 - branch t (2 * s) /\ branch t (2 * s + 64) = 765 - branch t (2 * s) /\ branch t (2 * s + 65) = branch t (2 * s).
Proof.
  intros Hs. assert (forall j, out_bit j (2 * s + 1) = negb (out_bit j (2 * s)) /\ out_bit j (2 * s + 64) = negb (out_bit j (2 * s))
    /\ out_bit j (2 * s + 65) = out_bit j (2 * s)) as H.
  { intros j. revert s Hs. unfold out_bit, lte_poly. destruct (j =? 0), (j =? 1); each_below 32; by vm_compute. }
  unfold branch. destruct (H 0) as (-> & -> & ->), (H 1) as (-> & -> & ->), (H 2) as (-> & -> & ->).
  unfold cost. destruct (out_bit 0 (2 * s)), (out_bit 1 (2 * s)), (out_bit 2 (2 * s)); cbn [negb]; lia.
Qed.
End branches.

Section metrics.

(** The symbols received, and what a state costs before the first of them. *)
Context (sym : Z -> Z) (start : Z -> Z).

Abbreviation branch := (branch sym).

(** The least distance of the inputs that reach a state, by the two states it is reached from,
    and the bit that is lost on the better way. *)
Fixpoint metric (t : nat) (s : Z) : Z :=
  match t with
  | O => start s
  | S t => Z.min (metric t (s / 2) + branch (Z.of_nat t) s) (metric t (s / 2 + 32) + branch (Z.of_nat t) (s + 64))
  end.

Definition decision (t : nat) (s : Z) : bool :=
  metric t (s / 2 + 32) + branch (Z.of_nat t) (s + 64) <? metric t (s / 2) + branch (Z.of_nat t) s.

(** The distance of an input. *)
Fixpoint distance (x : Z -> bool) (t : nat) : Z :=
  match t with O => start (state x 0) | S t => distance x t + branch (Z.of_nat t) (register x (Z.of_nat t)) end.

Lemma metric_least x n : metric n (state x (Z.of_nat n)) <= distance x n.
Proof.
  induction n as [| n IH]; cbn [metric distance]; [done |]. destruct (state_step x (Z.of_nat n)) as (Hr & _ & Hreg & Hst).
  replace (Z.of_nat (S n)) with (Z.of_nat n + 1) by lia. rewrite Hst in IH. rewrite Hreg.
  destruct (x (Z.of_nat n - 6)); cbn [Z.b2z] in *; rewrite ?Z.mul_0_r, ?Z.mul_1_r, ?Z.add_0_r in *; lia.
Qed.

(** An input that goes by the decisions is the nearest of those that reach its states. *)
Definition follows (x : Z -> bool) (n : nat) : Prop := forall t, (t < n)%nat -> decision t (state x (Z.of_nat t + 1)) = x (Z.of_nat t - 6).

Lemma metric_reached x n : follows x n -> forall t, (t <= n)%nat -> metric t (state x (Z.of_nat t)) = distance x t.
Proof.
  intros Hx. induction t as [| t IH]; intros Ht; cbn [metric distance]; [done |].
  destruct (state_step x (Z.of_nat t)) as (Hr & _ & Hreg & Hst). specialize (Hx t ltac:(lia)). unfold decision in Hx.
  replace (Z.of_nat (S t)) with (Z.of_nat t + 1) by lia. rewrite <- IH, Hreg, Hst by lia.
  destruct (x (Z.of_nat t - 6)); cbn [Z.b2z] in *; rewrite ?Z.mul_0_r, ?Z.mul_1_r, ?Z.add_0_r in *.
  - apply Z.ltb_lt in Hx. lia.
  - apply Z.ltb_ge in Hx. lia.
Qed.

Lemma metric_range (Hsym : forall k, 0 <= sym k < 256) (Hs : forall s, 0 <= start s <= 63) t : forall s, 0 <= metric t s <= 63 + 765 * Z.of_nat t.
Proof.
  induction t as [| t IH]; intros s; cbn [metric]; [specialize (Hs s); lia |].
  pose proof (IH (s / 2)). pose proof (IH (s / 2 + 32)). pose proof (branch_range sym Hsym (Z.of_nat t) s).
  pose proof (branch_range sym Hsym (Z.of_nat t) (s + 64)). lia.
Qed.

End metrics.

(** ** Chaining back *)

Section back.
Context (dec : Z -> Z -> bool) (N e : Z) (He : 0 <= e < 64).

(** The state [k] steps before the last, which is [e]. *)
Fixpoint back (k : nat) : Z :=
  match k with O => e | S k => back k / 2 + 32 * Z.b2z (dec (N - Z.of_nat (S k)) (back k)) end.

(** The input that the decisions spell. *)
Definition traced (i : Z) : bool := if i <? N - 6 then dec (i + 6) (back (Z.to_nat (N - (i + 7)))) else Z.testbit e (N - 1 - i).

Lemma state_traced k : state traced (N - Z.of_nat k) = back k.
Proof.
  induction k as [| k IH]; cbn [back].
  - rewrite Z.sub_0_r. apply Z.bits_inj'. intros i Hi. unfold state. rewrite testbit_window by done. unfold traced.
    destruct (Z.ltb_spec i (Z.of_nat 6)).
    + destruct (Z.ltb_spec (N - 1 - i) (N - 6)); [lia |]. cbn. f_equal. lia.
    + symmetry. apply (proj1 (below_pow2 e 6 ltac:(lia)) He). lia.
  - destruct (state_step traced (N - Z.of_nat (S k))) as (_ & _ & _ & ->).
    replace (N - Z.of_nat (S k) + 1) with (N - Z.of_nat k) by lia. rewrite IH. do 3 f_equal. unfold traced.
    destruct (Z.ltb_spec (N - Z.of_nat (S k) - 6) (N - 6)); [| lia]. f_equal; [lia |]. f_equal. lia.
Qed.

Lemma back_range k : 0 <= back k < 64.
Proof. rewrite <- state_traced. apply state_step. Qed.

(** The decisions of metrics. *)
Lemma traced_follows sym start n : N = Z.of_nat n -> (forall t s, (t < n)%nat -> 0 <= s < 64 -> dec (Z.of_nat t) s = decision sym start t s) ->
  follows sym start traced n.
Proof.
  intros HN Hdec t Ht. replace (Z.of_nat t + 1) with (N - Z.of_nat (n - S t)) by lia. rewrite state_traced.
  rewrite <- Hdec by (done || apply back_range). unfold traced. destruct (Z.ltb_spec (Z.of_nat t - 6) (N - 6)); [| lia].
  f_equal; [lia |]. f_equal. lia.
Qed.
End back.

(** ** Inputs that differ

    The coder is linear, so two inputs are as far apart as the weight of the codeword of their
    difference. *)

Definition weight (reg : Z) : Z := Z.b2z (out_bit 0 reg) + Z.b2z (out_bit 1 reg) + Z.b2z (out_bit 2 reg).

Fixpoint total (d : Z -> bool) (t : nat) : Z :=
  match t with O => 0 | S t => total d t + weight (register d (Z.of_nat t)) end.

Lemma weight_range r : 0 <= weight r <= 3.
Proof. unfold weight. destruct (out_bit 0 r), (out_bit 1 r), (out_bit 2 r); cbn; lia. Qed.

Lemma total_nonneg d t : 0 <= total d t.
Proof. induction t as [| t IH]; cbn [total]; [lia | pose proof (weight_range (register d (Z.of_nat t))); lia]. Qed.

Lemma state_0 d t : state d t = 0 -> forall i, t - 6 <= i < t -> d i = false.
Proof.
  intros H i Hi. assert (Z.testbit (state d t) (t - 1 - i) = false) as E by (by rewrite H, Z.testbit_0_l).
  unfold state in E. rewrite testbit_window in E by lia. destruct (Z.ltb_spec (t - 1 - i) (Z.of_nat 6)); [| lia].
  cbn in E. by replace (t - 1 - (t - 1 - i)) with i in E by lia.
Qed.

(** A difference without weight that ends is no difference. *)
Lemma no_weight d t : total d t = 0 -> state d (Z.of_nat t) = 0 -> forall i, -6 <= i < Z.of_nat t -> d i = false.
Proof.
  induction t as [| t IH]; cbn [total]; intros Ht Hs i Hi; [apply (state_0 d _ Hs); lia |].
  pose proof (total_nonneg d t). pose proof (weight_range (register d (Z.of_nat t))).
  replace (Z.of_nat (S t)) with (Z.of_nat t + 1) in * by lia.
  destruct (state_step d (Z.of_nat t)) as (_ & _ & Hreg & Hst). rewrite Hs in Hreg, Hst.
  destruct (d (Z.of_nat t - 6)); [rewrite Hreg in Ht; change (weight (0 + 64 * Z.b2z true)) with 3 in Ht; lia |].
  destruct (Z.ltb_spec i (Z.of_nat t)); [apply IH; [lia | exact Hst | lia] | apply (state_0 d _ Hs); lia].
Qed.

(** The least weight of [n] steps through states other than 0, by the last of them. *)
Definition unreachable : Z := 1000.

Fixpoint walk (n : nat) : list Z :=
  match n with
  | O => replicate 64 0
  | S n => let l := walk n in
      (fun s => Z.min (if s / 2 =? 0 then unreachable else l !!! Z.to_nat (s / 2) + weight s) (l !!! Z.to_nat (s / 2 + 32) + weight (s + 64)))
        <$> seqZ 0 64
  end.

Lemma walk_S n s : 0 <= s < 64 -> walk (S n) !!! Z.to_nat s
  = Z.min (if s / 2 =? 0 then unreachable else walk n !!! Z.to_nat (s / 2) + weight s) (walk n !!! Z.to_nat (s / 2 + 32) + weight (s + 64)).
Proof.
  intros Hs. cbn [walk]. apply list_lookup_total_correct. rewrite list_lookup_fmap, lookup_seqZ_lt by lia. cbn.
  replace (0 + Z.of_nat (Z.to_nat s)) with s by lia. done.
Qed.

Lemma walk_least d a n : (forall t, Z.of_nat a <= t <= Z.of_nat a + Z.of_nat n -> state d t <> 0) ->
  walk n !!! Z.to_nat (state d (Z.of_nat a + Z.of_nat n)) <= total d (a + n) - total d a.
Proof.
  induction n as [| n IH]; intros Hd.
  - rewrite Nat.add_0_r. cbn [walk]. rewrite lookup_total_replicate_2; [lia |]. destruct (state_step d (Z.of_nat a + Z.of_nat 0)) as (H & _). lia.
  - replace (a + S n)%nat with (S (a + n)) by lia. cbn [total].
    replace (Z.of_nat a + Z.of_nat (S n)) with (Z.of_nat (a + n) + 1) by lia. set (t := Z.of_nat (a + n)).
    destruct (state_step d t) as (_ & _ & Hreg & Hst). pose proof (state_step d (t + 1)) as (Hr & _).
    rewrite walk_S by done. specialize (IH ltac:(intros; apply Hd; lia)). replace (Z.of_nat a + Z.of_nat n) with t in IH by lia.
    specialize (Hd t ltac:(lia)). rewrite Hreg. rewrite Hst in IH, Hd.
    destruct (d (t - 6)); cbn [Z.b2z] in *; rewrite ?Z.mul_0_r, ?Z.mul_1_r, ?Z.add_0_r in *; [lia |].
    destruct (Z.eqb_spec (state d (t + 1) / 2) 0); [done | lia].
Qed.

(** The weight of the last six steps of a difference that they begin. *)
Definition flush (s : Z) : Z :=
  weight (Z.shiftr s 5) + weight (Z.shiftr s 4) + weight (Z.shiftr s 3) + weight (Z.shiftr s 2) + weight (Z.shiftr s 1) + weight s.

Lemma total_late d t : (forall i, i < Z.of_nat t -> d i = false) -> total d t = 0.
Proof.
  induction t as [| t IH]; intros Hd; cbn [total]; [done |]. rewrite IH by (intros; apply Hd; lia).
  destruct (state_step d (Z.of_nat t)) as (_ & _ & -> & _). rewrite (Hd (Z.of_nat t - 6)) by lia.
  assert (state d (Z.of_nat t + 1) = 0) as ->; [| done]. apply Z.bits_inj'. intros i Hi.
  unfold state. rewrite testbit_window, Z.testbit_0_l by done. rewrite Hd by lia. by rewrite andb_false_r.
Qed.

Lemma total_flush d t : (forall i, i < Z.of_nat t -> d i = false) -> total d (6 + t) = flush (state d (Z.of_nat t + 6)).
Proof.
  intros Hd. cbn [Nat.add total]. rewrite total_late by done.
  assert (forall k, 0 <= k < 6 -> register d (Z.of_nat t + k) = Z.shiftr (state d (Z.of_nat t + 6)) (5 - k)) as Hr.
  { intros k Hk. apply Z.bits_inj'. intros i Hi. unfold register, state. rewrite Z.shiftr_spec, !testbit_window by lia.
    replace (Z.of_nat t + 6 - 1 - (i + (5 - k))) with (Z.of_nat t + k - i) by lia.
    destruct (Z.leb_spec i k).
    - destruct (Z.ltb_spec i (Z.of_nat 7)), (Z.ltb_spec (i + (5 - k)) (Z.of_nat 6)); lia || done.
    - rewrite Hd by lia. by rewrite !andb_false_r. }
  pose proof (Hr 0 ltac:(lia)) as H0. rewrite Z.add_0_r in H0. rewrite H0.
  replace (Z.of_nat (S t)) with (Z.of_nat t + 1) by lia. rewrite (Hr 1) by lia.
  replace (Z.of_nat (S (S t))) with (Z.of_nat t + 2) by lia. rewrite (Hr 2) by lia.
  replace (Z.of_nat (S (S (S t)))) with (Z.of_nat t + 3) by lia. rewrite (Hr 3) by lia.
  replace (Z.of_nat (S (S (S (S t))))) with (Z.of_nat t + 4) by lia. rewrite (Hr 4) by lia.
  replace (Z.of_nat (S (S (S (S (S t)))))) with (Z.of_nat t + 5) by lia. rewrite (Hr 5) by lia.
  unfold flush. change (5 - 0) with 5. change (5 - 1) with 4. change (5 - 2) with 3. change (5 - 3) with 2. change (5 - 4) with 1.
  change (5 - 5) with 0. rewrite Z.shiftr_0_r. lia.
Qed.

(** 48 steps apart weigh twice what an input pays to end in state 0. *)
Definition apart_steps : nat := 48.

Lemma apart_checked s : 0 < s < 64 -> 201 * flush s < 99 * (walk apart_steps !!! Z.to_nat s).
Proof.
  intros Hs. assert (forallb (fun s => (s =? 0) || (201 * flush s <? 99 * (walk apart_steps !!! Z.to_nat s))) (seqZ 0 64) = true) as H by (by vm_compute).
  pose proof (forallb_below 64 _ H s ltac:(lia)) as E. cbv beta in E. apply orb_true_iff in E as [E | E%Z.ltb_lt]; lia.
Qed.

(** ** The input that was sent *)

Section sent.
Context (sym : Z -> Z) (x : Z -> bool) (lo hi : Z) (n : nat).

(** How much further a symbol is from the other bit than from the one sent. *)
Definition margin (k : Z) : Z :=
  let b := out_bit (k mod 3) (register x (k / 3)) in cost (sym k) (negb b) - cost (sym k) b.

Context (Hlo : 0 < lo) (Hhi : 99 * hi <= 201 * lo) (Hm : forall k, 0 <= k < 3 * Z.of_nat n -> lo <= margin k <= hi).

Definition start_unknown (s : Z) : Z := 63.
Definition differ (y : Z -> bool) (i : Z) : bool := xorb (x i) (y i).

Lemma branch_margin y t : 0 <= t < Z.of_nat n ->
  lo * weight (register (differ y) t) <= branch sym t (register y t) - branch sym t (register x t) <= hi * weight (register (differ y) t).
Proof.
  intros Ht. unfold register, differ. rewrite window_xor. fold (register x t) (register y t). unfold weight, branch.
  rewrite !out_bit_xor by apply register_range.
  assert (forall j, 0 <= j < 3 -> let b := xorb (out_bit j (register x t)) (out_bit j (register y t)) in
    lo * Z.b2z b <= cost (sym (3 * t + j)) (out_bit j (register y t)) - cost (sym (3 * t + j)) (out_bit j (register x t)) <= hi * Z.b2z b) as H.
  { intros j Hj. specialize (Hm (3 * t + j) ltac:(lia)). unfold margin in Hm.
    replace ((3 * t + j) mod 3) with j in Hm by lia. replace ((3 * t + j) / 3) with t in Hm by lia.
    destruct (out_bit j (register x t)), (out_bit j (register y t)); cbn [xorb negb Z.b2z] in *; cbv zeta; lia. }
  pose proof (H 0 ltac:(lia)) as H0. pose proof (H 1 ltac:(lia)) as H1. pose proof (H 2 ltac:(lia)) as H2. cbv zeta in *.
  rewrite Z.add_0_r in H0. lia.
Qed.

Lemma distance_margin y t : (t <= n)%nat ->
  lo * total (differ y) t <= distance sym start_unknown y t - distance sym start_unknown x t <= hi * total (differ y) t.
Proof.
  induction t as [| t IH]; intros Ht; cbn [distance total]; [unfold start_unknown; lia |].
  specialize (IH ltac:(lia)). pose proof (branch_margin y (Z.of_nat t) ltac:(lia)). lia.
Qed.

Lemma state_differ y t : state (differ y) t = Z.lxor (state x t) (state y t).
Proof. apply window_xor. Qed.

(** The nearest input that ends in state 0 is the one sent, up to 48 steps before the end. *)
Lemma nearest_is_sent y j : follows sym start_unknown y n -> state y (Z.of_nat n) = 0 -> 0 <= j -> j + 1 + Z.of_nat apart_steps <= Z.of_nat n -> y j = x j.
Proof.
  intros Hy Hend Hj Hn. assert (Z.of_nat apart_steps = 48) as H48 by done. destruct (bool_decide (y j = x j)) eqn:Hb; [by apply bool_decide_eq_true in Hb |]. exfalso.
  apply bool_decide_eq_false in Hb. assert (differ y j = true) as Hd by (unfold differ; destruct (x j), (y j); done).
  (* once together, together before *)
  assert (forall t, j + 1 <= t <= Z.of_nat n -> state (differ y) t <> 0) as Hapart.
  { intros t Ht Hs. assert (state y t = state x t) as E by (symmetry; apply Z.lxor_eq; by rewrite <- state_differ).
    pose proof (metric_reached sym start_unknown y n Hy (Z.to_nat t) ltac:(lia)) as H1.
    pose proof (metric_least sym start_unknown x (Z.to_nat t)) as H2.
    pose proof (distance_margin y (Z.to_nat t) ltac:(lia)) as H3. pose proof (total_nonneg (differ y) (Z.to_nat t)).
    rewrite Z2Nat.id in H1, H2 by lia. rewrite E in H1.
    assert (total (differ y) (Z.to_nat t) = 0) as H0 by nia.
    pose proof (no_weight (differ y) _ H0) as Hno. rewrite Z2Nat.id in Hno by lia. rewrite (Hno Hs j) in Hd by lia. done. }
  (* the way of the input sent to state 0 *)
  set (q := fun i => if i <? Z.of_nat n - 6 then x i else false).
  pose proof (metric_reached sym start_unknown y n Hy n ltac:(lia)) as H1. pose proof (metric_least sym start_unknown q n) as H2.
  assert (state q (Z.of_nat n) = 0) as Hq.
  { apply Z.bits_inj'. intros i Hi. unfold state. rewrite testbit_window, Z.testbit_0_l by done. unfold q.
    destruct (Z.ltb_spec i (Z.of_nat 6)); [| done]. destruct (Z.ltb_spec (Z.of_nat n - 1 - i) (Z.of_nat n - 6)); [lia | done]. }
  rewrite Hend in H1. rewrite Hq in H2. pose proof (distance_margin y n ltac:(lia)) as H3. pose proof (distance_margin q n ltac:(lia)) as H4.
  set (s := state x (Z.of_nat n)).
  assert (total (differ q) n = flush s) as Hfl.
  { pose proof (total_flush (differ q) (n - 6)) as Hf. replace (6 + (n - 6))%nat with n in Hf by lia.
    replace (Z.of_nat (n - 6) + 6) with (Z.of_nat n) in Hf by lia. rewrite Hf; [by rewrite state_differ, Hq, Z.lxor_0_r |].
    intros i Hi. unfold differ, q. destruct (Z.ltb_spec i (Z.of_nat n - 6)); [apply xorb_nilpotent | lia]. }
  set (a := (n - apart_steps)%nat). pose proof (walk_least (differ y) a apart_steps ltac:(intros t Ht; apply Hapart; lia)) as Hw.
  replace (Z.of_nat a + Z.of_nat apart_steps) with (Z.of_nat n) in Hw by lia. replace (a + apart_steps)%nat with n in Hw by lia.
  rewrite state_differ, Hend, Z.lxor_0_r in Hw. fold s in Hw. pose proof (total_nonneg (differ y) a).
  assert (s <> 0) as Hs0.
  { intros E. apply (Hapart (Z.of_nat n) ltac:(lia)). by rewrite state_differ, Hend, Z.lxor_0_r. }
  destruct (state_step x (Z.of_nat n)) as (Hsr & _). pose proof (apart_checked s ltac:(lia)) as Hc.
  rewrite Hfl in H4. assert (0 <= flush s) by (rewrite <- Hfl; apply total_nonneg). nia.
Qed.
End sent.
