(* ===== verification/Viterbi.v ===== *)
(** * The Viterbi decoder of the control channels ([viterbi.c], [viterbi37_port.c])

    The decoder that inverts [ConvCode] on soft bits, in the portable form of the code (the
    vector forms of the same decoder are chosen when the processor has SSE, AVX2 or NEON): a
    path metric for each of the 64 states of the coder, a decision bit for each state and step,
    and the chain of decisions read backwards. *)

From S2P Require Export Trellis.

(** ** State *)

(** [metric_t] and the two words of a [decision_t] are arrays of words; the decisions are laid
    out two words after two. [old_metrics] and [new_metrics] are the two buffers of the decoder
    in the order of its two pointers; [dp] is an index. *)
Record v37 := V37 { old_metrics : list Z; new_metrics : list Z; dp : Z; decisions : list Z; v_len : Z }.

Definition clear_v37 (vp : v37) : v37 :=
  V37 (replicate 64 0) (replicate 64 0) 0 (replicate (Z.to_nat (2 * v_len vp)) 0) (v_len vp).

Definition init_viterbi37_port (vp : v37) (starting_state : Z) : option v37 :=
  let vp := clear_v37 vp in
  let metrics := replicate 64 63 in
  metrics ← (if negb (starting_state =? -1) then zset metrics (Z.land starting_state 255) 0 else Some metrics);
  Some (V37 metrics (new_metrics vp) 0 (decisions vp) (v_len vp)).

(** The branch table, one row for each polynomial: the output on the even register [2 * state]. *)
Definition branch_entry (poly state : Z) : Z :=
  if Z.lxor (Z.b2z (poly <? 0)) (parity (Z.land (2 * state) (Z.abs poly))) =? 0 then 0 else 255.

Definition set_viterbi37_polynomial_port (polys : list Z) : option (list (list Z)) :=
  p0 ← zget polys 0; p1 ← zget polys 1; p2 ← zget polys 2;
  Some [branch_entry p0 <$> seqZ 0 32; branch_entry p1 <$> seqZ 0 32; branch_entry p2 <$> seqZ 0 32].

(** [mem n] is what a new block of [n] entries holds. *)
Definition create_viterbi37_port (mem : Z -> list Z) (polys : list Z) (len : Z) : option (list (list Z) * v37) :=
  tab ← set_viterbi37_polynomial_port polys;
  Some (tab, V37 (mem 64) (mem 64) 0 (mem (2 * u32 (len + 6))) (u32 (len + 6))).

(** ** One bit *)

(** Half a butterfly: the better of two metrics, and the decision, in bit [sh] of word [w]. *)
Definition survive (s w sh m0 m1 : Z) (st : list Z * list Z) : option (list Z * list Z) :=
  let '(new, ds) := st in
  let decision := Z.b2z (0 <? s32 (u32 (m0 - m1))) in
  new ← zset new s (if decision =? 1 then m1 else m0);
  d ← zget ds w;
  ds ← zset ds w (Z.lor d (u32 (Z.shiftl decision sh)));
  Some (new, ds).

Definition BFLY (tab : list (list Z)) (sym0 sym1 sym2 : Z) (old : list Z) (d : Z) (st : list Z * list Z) (i : Z)
  : option (list Z * list Z) :=
  r0 ← zget tab 0; r1 ← zget tab 1; r2 ← zget tab 2;
  b0 ← zget r0 i; b1 ← zget r1 i; b2 ← zget r2 i;
  let metric := Z.lxor b0 sym0 + Z.lxor b1 sym1 + Z.lxor b2 sym2 in
  o0 ← zget old i; o1 ← zget old (i + 32);
  let m0 := u32 (o0 + metric) in
  let m1 := u32 (o1 + u32 (765 - metric)) in
  st ← survive (2 * i) (2 * d + i / 16) (Z.land (2 * i) 31) m0 m1 st;
  let m0 := u32 (m0 - u32 (metric + metric - 765)) in
  let m1 := u32 (m1 + u32 (metric + metric - 765)) in
  survive (2 * i + 1) (2 * d + i / 16) (Z.land (2 * i + 1) 31) m0 m1 st.

(** The step for one bit of data, which takes three symbols. *)
Definition update_bit (tab : list (list Z)) (syms : list Z) (vp : v37) (k : Z) : option v37 :=
  ds ← zset (decisions vp) (2 * dp vp + 1) 0; ds ← zset ds (2 * dp vp) 0;
  sym0 ← zget syms (3 * k); sym1 ← zget syms (3 * k + 1); sym2 ← zget syms (3 * k + 2);
  '(new, ds) ← for_range 0 32 (BFLY tab sym0 sym1 sym2 (old_metrics vp) (dp vp)) (new_metrics vp, ds);
  Some (V37 new (old_metrics vp) (dp vp + 1) ds (v_len vp)).

(** The state with the smallest metric, the last of several. *)
Definition best_state_of (metrics : list Z) : option Z :=
  fst <$> for_range 0 64 (fun '(bst, minmetric) i =>
    m ← zget metrics i; Some (if m <=? minmetric then (i, m) else (bst, minmetric))) (0, 2 ^ 32 - 1).

Definition update_viterbi37_blk_port (tab : list (list Z)) (vp : v37) (syms : list Z) (nbits : Z) : option v37 :=
  for_range 0 nbits (update_bit tab syms) vp.

(** ** Chaining back *)

(** [nbits] bits of data, the last first; the decisions are read six steps later. *)
Fixpoint chainback (nbits : nat) (ds : list Z) (endstate : Z) (data : list Z) : option (list Z) :=
  match nbits with
  | O => Some data
  | S n =>
      let nbits := Z.of_nat n in
      w ← zget ds (2 * (nbits + 6) + Z.shiftr endstate 2 / 32);
      let k := Z.land (Z.shiftr w (Z.shiftr endstate 2 mod 32)) 1 in
      data ← zset data nbits k;
      chainback n ds (Z.lor (Z.shiftr endstate 1) (Z.shiftl k 7)) data
  end.

Definition chainback_viterbi37_port (vp : v37) (data : list Z) (nbits endstate : Z) : option (list Z) :=
  chainback (Z.to_nat nbits) (decisions vp) (Z.shiftl (endstate mod 64) 2) data.

(** ** The decoder object ([viterbi.c]) *)

Definition TB_ITER : Z := 5.
Definition DEFAULT_GAIN : Z := 100.

Record srsran_viterbi_t := Viterbi {
  vi_ptr : v37; vi_R : Z; vi_K : Z; vi_framebits : Z; vi_tail_biting : bool; vi_gain_quant : float32; vi_gain_quant_s : Z;
  vi_tmp : list Z; vi_symbols_uc : list Z
}.

Definition with_ptr (q : srsran_viterbi_t) (vp : v37) (tmp : list Z) : srsran_viterbi_t :=
  Viterbi vp (vi_R q) (vi_K q) (vi_framebits q) (vi_tail_biting q) (vi_gain_quant q) (vi_gain_quant_s q) tmp (vi_symbols_uc q).
Definition with_symbols (q : srsran_viterbi_t) (s : list Z) : srsran_viterbi_t :=
  Viterbi (vi_ptr q) (vi_R q) (vi_K q) (vi_framebits q) (vi_tail_biting q) (vi_gain_quant q) (vi_gain_quant_s q) (vi_tmp q) s.
Definition srsran_viterbi_set_gain_quant (q : srsran_viterbi_t) (gain_quant : float32) : srsran_viterbi_t :=
  Viterbi (vi_ptr q) (vi_R q) (vi_K q) (vi_framebits q) (vi_tail_biting q) gain_quant (vi_gain_quant_s q) (vi_tmp q) (vi_symbols_uc q).
Definition srsran_viterbi_set_gain_quant_s (q : srsran_viterbi_t) (gain_quant : Z) : srsran_viterbi_t :=
  Viterbi (vi_ptr q) (vi_R q) (vi_K q) (vi_framebits q) (vi_tail_biting q) (vi_gain_quant q) gain_quant (vi_tmp q) (vi_symbols_uc q).

(** The branch table is a global of the decoder, set by every initialisation; [tmp] is null
    without tail biting. *)
Definition init37 (mem : Z -> list Z) (poly : list Z) (framebits : Z) (tail_biting : bool) : option (list (list Z) * srsran_viterbi_t) :=
  let symbols_uc := mem (3 * (framebits + 6)) in
  let tmp := if tail_biting then
      replicate (Z.to_nat (3 * (framebits + 6))) 0 ++ drop (Z.to_nat (3 * (framebits + 6))) (mem (TB_ITER * 3 * (framebits + 6)))
    else [] in
  '(tab, vp) ← create_viterbi37_port mem poly (TB_ITER * framebits);
  Some (tab, Viterbi vp 3 7 framebits tail_biting (f32_of_int DEFAULT_GAIN) 4 tmp symbols_uc).

Inductive srsran_viterbi_type_t := SRSRAN_VITERBI_27 | SRSRAN_VITERBI_29 | SRSRAN_VITERBI_37 | SRSRAN_VITERBI_39.

(** The code, and the decoder where there is one. *)
Definition srsran_viterbi_init (mem : Z -> list Z) (type : srsran_viterbi_type_t) (poly : list Z) (max_frame_length : Z) (tail_bitting : bool)
  : option (Z * option (list (list Z) * srsran_viterbi_t)) :=
  match type with
  | SRSRAN_VITERBI_37 => q ← init37 mem poly max_frame_length tail_bitting; Some (0, Some q)
  | _ => Some (-1, None)
  end.

(** [memcpy(&dst[o], &src[a], n)] *)
Definition memcpy (dst : list Z) (o : Z) (src : list Z) (a n : Z) : option (list Z) :=
  for_range 0 n (fun dst i => x ← zget src (a + i); zset dst (o + i) x) dst.

Definition decode37 (tab : list (list Z)) (q : srsran_viterbi_t) (symbols data : list Z) (frame_length : Z)
  : option (Z * srsran_viterbi_t * list Z) :=
  if vi_framebits q <? frame_length then Some (-1, q, data)
  else
    vp ← init_viterbi37_port (vi_ptr q) (if vi_tail_biting q then -1 else 0);
    if vi_tail_biting q then
      tmp ← for_range 0 TB_ITER (fun tmp i => memcpy tmp (i * 3 * frame_length) symbols 0 (3 * frame_length)) (vi_tmp q);
      vp ← update_viterbi37_blk_port tab vp tmp (TB_ITER * frame_length);
      best_state ← best_state_of (old_metrics vp);
      tmp ← chainback_viterbi37_port vp tmp (TB_ITER * frame_length) best_state;
      data ← memcpy data 0 tmp (TB_ITER / 2 * frame_length) frame_length;
      Some (vi_framebits q, with_ptr q vp tmp, data)
    else
      vp ← update_viterbi37_blk_port tab vp symbols (frame_length + vi_K q - 1);
      data ← chainback_viterbi37_port vp data frame_length 0;
      Some (vi_framebits q, with_ptr q vp (vi_tmp q), data).

Definition srsran_viterbi_decode_uc : list (list Z) -> srsran_viterbi_t -> list Z -> list Z -> Z -> option (Z * srsran_viterbi_t * list Z) :=
  decode37.

(** ** Soft bits to symbols ([vector.c], [vector_simd.c] without vector instructions) *)

(** The conversion to a 32-bit integer drops the fraction; out of range it is undefined. *)
Definition s32_of_f32 (x : float32) : option Z :=
  match x with
  | S754_zero _ => Some 0
  | S754_finite s m e =>
      let n := if 0 <=? e then Z.shiftl (Zpos m) e else Z.shiftr (Zpos m) (- e) in
      let n := if s then - n else n in
      if (- 2 ^ 31 <=? n) && (n <? 2 ^ 31) then Some n else None
  | _ => None
  end.

(** [1e-9], [127.5]. *)
Definition f32_1e_9 : float32 := S754_finite false 9007199 (-53).
Definition f32_127_5 : float32 := S754_finite false 16711680 (-17).

Definition srsran_vec_max_abs_fi (x : list float32) (len : Z) : option Z :=
  fst <$> for_range 0 len (fun '(max_index, max_value) i =>
    x ← zget x i;
    let a := f32_abs x in
    Some (if f32_lt max_value a then (i, a) else (max_index, max_value))) (0, S754_infinity true).

Definition quantised (tmp clip : Z) : Z := u8 (Z.min (Z.max tmp 0) clip).

Definition srsran_vec_quant_fuc (inp : list float32) (out : list Z) (gain offset : float32) (clip len : Z) : option (list Z) :=
  for_range 0 len (fun out i =>
    x ← zget inp i; tmp ← s32_of_f32 (f32_add offset (f32_mul gain x)); zset out i (quantised tmp clip)) out.

Definition srsran_vec_quant_suc (inp : list Z) (out : list Z) (gain offset : float32) (clip len : Z) : option (list Z) :=
  for_range 0 len (fun out i =>
    x ← zget inp i; tmp ← s32_of_f32 (f32_add offset (f32_mul (f32_of_int x) gain)); zset out i (quantised tmp clip)) out.

(** The length of the soft input. *)
Definition soft_len (q : srsran_viterbi_t) (frame_length : Z) : Z :=
  if vi_tail_biting q then u32 (3 * frame_length) else u32 (3 * u32 (frame_length + vi_K q - 1)).

Definition srsran_viterbi_decode_f (tab : list (list Z)) (q : srsran_viterbi_t) (symbols : list float32) (data : list Z) (frame_length : Z)
  : option (Z * srsran_viterbi_t * list Z) :=
  if vi_framebits q <? frame_length then Some (-1, q, data)
  else
    let len := soft_len q frame_length in
    max_i ← srsran_vec_max_abs_fi symbols len;
    m ← (if max_i <? len then x ← zget symbols max_i; Some (if f32_isnormal x then f32_abs x else f32_1e_9) else Some f32_1e_9);
    uc ← srsran_vec_quant_fuc symbols (vi_symbols_uc q) (f32_div (vi_gain_quant q) m) f32_127_5 255 len;
    srsran_viterbi_decode_uc tab (with_symbols q uc) uc data frame_length.

(** The largest magnitude is taken in 16 bits, where that of the smallest number is negative. *)
Definition srsran_viterbi_decode_s (tab : list (list Z)) (q : srsran_viterbi_t) (symbols : list Z) (data : list Z) (frame_length : Z)
  : option (Z * srsran_viterbi_t * list Z) :=
  if vi_framebits q <? frame_length then Some (-1, q, data)
  else
    let len := soft_len q frame_length in
    m ← for_range 0 len (fun m i => x ← zget symbols i; Some (if m <? Z.abs x then swrap 16 (Z.abs x) else m)) (-32767);
    uc ← srsran_vec_quant_suc symbols (vi_symbols_uc q) (f32_div (vi_gain_quant q) (f32_of_int m)) (f32_of_int 127) 255 len;
    srsran_viterbi_decode_uc tab (with_symbols q uc) uc data frame_length.

(** ** One step is a step of the trellis *)

Definition lte_polys : list Z := [0x6D; 0x4F; 0x57].
Definition lte_tab : list (list Z) := Eval vm_compute in default [] (set_viterbi37_polynomial_port lte_polys).

Lemma lte_tab_set : set_viterbi37_polynomial_port lte_polys = Some lte_tab.
Proof. reflexivity. Qed.

Definition byte (s : Z) : Prop := 0 <= s < 256.

Lemma tab_entry j i : 0 <= j < 3 -> 0 <= i < 32 ->
  exists r, zget lte_tab j = Some r /\ zget r i = Some (if out_bit j (2 * i) then 255 else 0).
Proof.
  intros Hj Hi. assert (j = 0 \/ j = 1 \/ j = 2) as [-> | [-> | ->]] by lia; (eexists; split; [reflexivity |]; revert i Hi; each_below 32; reflexivity).
Qed.

Lemma lxor_cost (b : bool) s : byte s -> Z.lxor (if b then 255 else 0) s = cost s b.
Proof. unfold byte. destruct b; revert s; each_below 256; reflexivity. Qed.

Lemma s32_diff a b : - 2 ^ 31 <= a - b < 2 ^ 31 -> s32 (u32 (a - b)) = a - b.
Proof. intros H. unfold swrap, uwrap. rewrite Zplus_mod_idemp_l, Z.mod_small by lia. lia. Qed.

Lemma u32_sub m z : 0 <= m - z < 2 ^ 32 -> u32 (m - u32 z) = m - z.
Proof. intros H. unfold uwrap. rewrite Zminus_mod_idemp_r. by apply Z.mod_small. Qed.

Lemma u32_add m z : 0 <= m + z < 2 ^ 32 -> u32 (m + u32 z) = m + z.
Proof. intros H. unfold uwrap. rewrite Zplus_mod_idemp_r. by apply Z.mod_small. Qed.

(** The decision bit of a state at a step. *)
Definition dec_at (ds : list Z) (t s : Z) : bool := Z.testbit (default 0 (zget ds (2 * t + s / 32))) (s mod 32).

Lemma testbit_decision d b sh i : 0 <= sh < 32 -> 0 <= i < 32 ->
  Z.testbit (Z.lor d (u32 (Z.shiftl (Z.b2z b) sh))) i = Z.testbit d i || (b && (i =? sh)).
Proof.
  intros Hsh Hi. rewrite Z.lor_spec, testbit_uwrap, Z.shiftl_spec by lia. destruct (Z.ltb_spec i 32); [| lia]. cbn [andb]. f_equal.
  destruct (Z.eqb_spec i sh) as [-> |]; [rewrite Z.sub_diag; by destruct b |]. rewrite andb_false_r.
  destruct (Z.ltb_spec i sh); [apply Z.testbit_neg_r; lia |]. destruct b; cbn [Z.b2z]; [| apply Z.testbit_0_l].
  rewrite Z.bits_above_log2; [done | lia | cbn; lia].
Qed.

Section steps.
Context (sym : Z -> Z) (start : Z -> Z) (Hsym : forall k, byte (sym k)) (Hstart : forall s, 0 <= start s <= 63).

(** During step [t], whose decisions were empty in [ds0]: [n] states have their new metric. *)
Record deciding (t : nat) (ds0 : list Z) (n : Z) (st : list Z * list Z) : Prop := Deciding {
  de_new : zlen (fst st) = 64;
  de_metric : forall s, 0 <= s < n -> zget (fst st) s = Some (metric sym start (S t) s);
  de_len : zlen (snd st) = zlen ds0;
  de_bits : forall s, 0 <= s < 64 -> dec_at (snd st) (Z.of_nat t) s = (s <? n) && decision sym start t s;
  de_others : forall k, k <> 2 * Z.of_nat t -> k <> 2 * Z.of_nat t + 1 -> zget (snd st) k = zget ds0 k
}.

Lemma survive_step t ds0 n st w sh m0 m1 : deciding t ds0 n st -> 0 <= n < 64 -> 2 * Z.of_nat t + 1 < zlen ds0 ->
  m0 = metric sym start t (n / 2) + branch sym (Z.of_nat t) n -> m1 = metric sym start t (n / 2 + 32) + branch sym (Z.of_nat t) (n + 64) ->
  0 <= m0 < 2 ^ 31 -> 0 <= m1 < 2 ^ 31 -> w = 2 * Z.of_nat t + n / 32 -> sh = n mod 32 ->
  exists st', survive n w sh m0 m1 st = Some st' /\ deciding t ds0 (n + 1) st'.
Proof.
  intros [Hnew Hmet Hlen Hbits Hoth] Hn Ht E0 E1 R0 R1 -> ->. destruct st as [new ds]. cbn [fst snd] in *. unfold survive.
  rewrite s32_diff by lia.
  assert ((0 <? m0 - m1) = decision sym start t n) as Ed.
  { unfold decision. rewrite <- E0, <- E1. apply eq_true_iff_eq. rewrite !Z.ltb_lt. lia. }
  rewrite Ed. rewrite zset_in by (unfold in_range; lia). cbn [mbind option_bind].
  destruct (zget_some ds (2 * Z.of_nat t + n / 32)) as [d Hd]; [unfold in_range; lia |]. rewrite Hd. cbn [mbind option_bind].
  rewrite zset_in by (unfold in_range; lia). cbn [mbind option_bind]. eexists. split; [reflexivity |]. split; cbn [fst snd].
  - by rewrite zlen_insert.
  - intros s Hs. destruct (Z.eqb_spec s n) as [-> |]; [| rewrite zget_insert_ne by lia; apply Hmet; lia].
    rewrite zget_insert_eq by (unfold in_range; lia). f_equal. cbn [metric]. rewrite <- E0, <- E1. rewrite <- Ed.
    destruct (Z.ltb_spec 0 (m0 - m1)); cbn; lia.
  - by rewrite zlen_insert.
  - intros s Hs. unfold dec_at. destruct (Z.eqb_spec (s / 32) (n / 32)) as [Ew |].
    + rewrite Ew, zget_insert_eq by (unfold in_range; lia). cbn [from_option id]. rewrite testbit_decision by lia.
      specialize (Hbits s Hs). unfold dec_at in Hbits. rewrite Ew, Hd in Hbits. cbn [from_option id] in Hbits. rewrite Hbits.
      destruct (Z.eqb_spec (s mod 32) (n mod 32)).
      * assert (s = n) as -> by lia. destruct (Z.ltb_spec n n), (Z.ltb_spec n (n + 1)); try lia. by destruct (decision sym start t n).
      * rewrite andb_false_r, orb_false_r. destruct (Z.ltb_spec s n), (Z.ltb_spec s (n + 1)); lia || done.
    + rewrite zget_insert_ne by lia. specialize (Hbits s Hs). unfold dec_at in Hbits. rewrite Hbits.
      destruct (Z.ltb_spec s n), (Z.ltb_spec s (n + 1)); lia || (exfalso; assert (s = n) as -> by lia; lia) || done.
  - intros k Hk1 Hk2. rewrite zget_insert_ne by lia. by apply Hoth.
Qed.

Lemma BFLY_step t ds0 i st old : Z.of_nat t < 2 ^ 20 -> 2 * Z.of_nat t + 1 < zlen ds0 ->
  (forall s, 0 <= s < 64 -> zget old s = Some (metric sym start t s)) -> 0 <= i < 32 -> deciding t ds0 (2 * i) st ->
  exists st', BFLY lte_tab (sym (3 * Z.of_nat t)) (sym (3 * Z.of_nat t + 1)) (sym (3 * Z.of_nat t + 2)) old (Z.of_nat t) st i = Some st' /\
    deciding t ds0 (2 * (i + 1)) st'.
Proof.
  intros Ht Hds Hold Hi Hst. unfold BFLY.
  destruct (tab_entry 0 i) as (r0 & -> & H0); [lia | done |]. destruct (tab_entry 1 i) as (r1 & -> & H1); [lia | done |].
  destruct (tab_entry 2 i) as (r2 & -> & H2); [lia | done |]. cbn [mbind option_bind]. rewrite H0, H1, H2. cbn [mbind option_bind].
  rewrite !lxor_cost by apply Hsym. fold (branch sym (Z.of_nat t) (2 * i)).
  rewrite !Hold by lia. cbn [mbind option_bind].
  pose proof (branch_range sym Hsym (Z.of_nat t) (2 * i)) as Hb. destruct (branch_complement sym (Z.of_nat t) i Hi) as (C1 & C2 & C3).
  pose proof (metric_range sym start Hsym Hstart t i) as Hm0. pose proof (metric_range sym start Hsym Hstart t (i + 32)) as Hm1.
  set (b := branch sym (Z.of_nat t) (2 * i)) in *. rewrite (u32_add (metric sym start t (i + 32)) (765 - b)) by lia. rewrite (uwrap_small 32 (metric sym start t i + b)) by (unfold is_uint; lia).
  destruct (survive_step t ds0 (2 * i) st (2 * Z.of_nat t + i / 16) (Z.land (2 * i) 31) (metric sym start t i + b) (metric sym start t (i + 32) + (765 - b)))
    as (st1 & -> & Hst1); [done | lia | done | | | lia | lia | lia | by apply (Z.land_ones (2 * i) 5) | ].
  { by replace (2 * i / 2) with i by lia. }
  { replace (2 * i / 2) with i by lia. by rewrite C2. }
  cbn [mbind option_bind]. rewrite u32_sub, u32_add by lia.
  destruct (survive_step t ds0 (2 * i + 1) st1 (2 * Z.of_nat t + i / 16) (Z.land (2 * i + 1) 31) (metric sym start t i + b - (b + b - 765))
    (metric sym start t (i + 32) + (765 - b) + (b + b - 765))) as (st2 & -> & Hst2); [done | lia | done | | | lia | lia | lia | by apply (Z.land_ones (2 * i + 1) 5) | ].
  { replace ((2 * i + 1) / 2) with i by lia. rewrite C1. lia. }
  { replace ((2 * i + 1) / 2) with i by lia. replace (2 * i + 1 + 64) with (2 * i + 65) by lia. rewrite C3. lia. }
  exists st2. split; [done |]. by replace (2 * (i + 1)) with (2 * i + 1 + 1) by lia.
Qed.

(** After [t] steps. *)
Record running (len : Z) (t : nat) (vp : v37) : Prop := Running {
  ru_len : v_len vp = len;
  ru_old : zlen (old_metrics vp) = 64;
  ru_metric : forall s, 0 <= s < 64 -> zget (old_metrics vp) s = Some (metric sym start t s);
  ru_new : zlen (new_metrics vp) = 64;
  ru_dp : dp vp = Z.of_nat t;
  ru_decs : zlen (decisions vp) = 2 * len;
  ru_bits : forall u s, (u < t)%nat -> 0 <= s < 64 -> dec_at (decisions vp) (Z.of_nat u) s = decision sym start u s;
  ru_empty : forall k, 2 * Z.of_nat t <= k < 2 * len -> zget (decisions vp) k = Some 0
}.

Lemma update_bit_step len t vp syms : Z.of_nat t < 2 ^ 20 -> Z.of_nat t < len -> (forall j, 0 <= j < 3 -> zget syms (3 * Z.of_nat t + j) = Some (sym (3 * Z.of_nat t + j))) ->
  running len t vp -> exists vp', update_bit lte_tab syms vp (Z.of_nat t) = Some vp' /\ running len (S t) vp'.
Proof.
  intros Ht Hlen Hs [Rl Ro Rm Rn Rd Rs Rb Re]. unfold update_bit. rewrite Rd.
  rewrite zset_in by (unfold in_range; lia). cbn [mbind option_bind]. rewrite zset_in by (unfold in_range; rewrite zlen_insert; lia). cbn [mbind option_bind].
  pose proof (Hs 0 ltac:(lia)) as E0. rewrite Z.add_0_r in E0. rewrite E0, (Hs 1), (Hs 2) by lia. cbn [mbind option_bind].
  set (ds0 := <[Z.to_nat (2 * Z.of_nat t) := 0]> (<[Z.to_nat (2 * Z.of_nat t + 1) := 0]> (decisions vp))).
  assert (zlen ds0 = 2 * len) as Hds0 by (unfold ds0; rewrite !zlen_insert; done).
  assert (forall k, 2 * Z.of_nat t <= k < 2 * len -> zget ds0 k = Some 0) as He0.
  { intros k Hk. unfold ds0. destruct (Z.eqb_spec k (2 * Z.of_nat t)) as [-> |]; [apply zget_insert_eq; unfold in_range; rewrite zlen_insert; lia |].
    rewrite zget_insert_ne by lia. destruct (Z.eqb_spec k (2 * Z.of_nat t + 1)) as [-> |]; [apply zget_insert_eq; unfold in_range; lia |].
    rewrite zget_insert_ne by lia. by apply Re. }
  loop_inv (fun i st => deciding t ds0 (2 * i) st) as (st & -> & Hst).
  - lia.
  - split; cbn [fst snd]; [done | intros; lia | done | | done]. intros s Hs'. unfold dec_at. rewrite He0 by lia. cbn [from_option id].
    rewrite Z.testbit_0_l. destruct (Z.ltb_spec s (2 * 0)); [lia | done].
  - intros i st Hi Hst. apply BFLY_step; try done. lia.
  - destruct Hst as [Dn Dm Dl Db Do]. destruct st as [new ds]. cbn [fst snd mbind option_bind] in *. eexists. split; [reflexivity |].
    split; cbn [old_metrics new_metrics dp decisions v_len]; try done; try lia.
    + intros u s Hu Hs'. destruct (decide (u = t)) as [-> |].
      * rewrite Db by done. destruct (Z.ltb_spec s (2 * 32)); [done | lia].
      * rewrite <- Rb by (done || lia). unfold dec_at. rewrite Do by lia. unfold ds0. by rewrite !zget_insert_ne by lia.
    + intros k Hk. rewrite Do by lia. apply He0. lia.
Qed.

Lemma update_blk_spec len n vp syms : Z.of_nat n <= 2 ^ 20 -> Z.of_nat n <= len ->
  (forall k, 0 <= k < 3 * Z.of_nat n -> zget syms k = Some (sym k)) -> running len 0 vp ->
  exists vp', update_viterbi37_blk_port lte_tab vp syms (Z.of_nat n) = Some vp' /\ running len n vp'.
Proof.
  intros Hn Hlen Hs Hvp. unfold update_viterbi37_blk_port.
  loop_inv (fun t vp => running len (Z.to_nat t) vp) as (vp' & -> & Hvp'); [lia | done | | exists vp'; split; [done |]; by rewrite Nat2Z.id in Hvp'].
  intros t vp1 Ht Hvp1. destruct (update_bit_step len (Z.to_nat t) vp1 syms) as (vp2 & E & Hvp2); [lia | lia | intros j Hj; apply Hs; lia | done |].
  rewrite Z2Nat.id in E by lia. exists vp2. split; [done |]. by replace (Z.to_nat (t + 1)) with (S (Z.to_nat t)) by lia.
Qed.
End steps.

(** ** Chaining back spells an input *)

Lemma upto_insert {A} (h : Z -> A) n (out : list A) : 0 <= n < zlen out -> upto h n (<[Z.to_nat n := h n]> out) = upto h (n + 1) out.
Proof.
  intros Hn. unfold upto. unfold zlen in Hn. rewrite seqZ_snoc, fmap_app, <- app_assoc by lia. f_equal.
  rewrite (drop_S _ (h n)) by (apply list_lookup_insert_eq; lia). cbn [fmap list_fmap app]. f_equal.
  replace (Z.to_nat (n + 1)) with (S (Z.to_nat n)) by lia. by rewrite drop_insert_lt by lia.
Qed.

Lemma back_shift dec N e k : back dec (N - 1) (back dec N e 1) k = back dec N e (S k).
Proof.
  induction k as [| k IH]; [done |]. cbn [back] in *. rewrite IH. by replace (N - 1 - Z.of_nat (S k)) with (N - Z.of_nat (S (S k))) by lia.
Qed.

Lemma chainback_spec ds n : forall endstate data, 0 <= endstate < 256 -> 2 * (Z.of_nat n + 6) <= zlen ds -> Z.of_nat n <= zlen data ->
  chainback n ds endstate data = Some (upto (fun i => Z.b2z (traced (dec_at ds) (Z.of_nat n + 6) (endstate / 4) i)) (Z.of_nat n) data).
Proof.
  induction n as [| n IH]; intros endstate data He Hds Hd; [by cbn [chainback] |]. cbn [chainback].
  rewrite (Z.shiftr_div_pow2 endstate 2) by lia. change (2 ^ 2) with 4. set (e := endstate / 4). set (N := Z.of_nat (S n) + 6).
  destruct (zget_some ds (2 * (Z.of_nat n + 6) + e / 32)) as [w Hw]; [unfold in_range; lia |]. rewrite Hw. cbn [mbind option_bind].
  assert (Z.land (Z.shiftr w (e mod 32)) 1 = Z.b2z (dec_at ds (Z.of_nat n + 6) e)) as ->.
  { unfold dec_at. rewrite Hw. cbn [from_option id]. rewrite (Z.land_ones _ 1), <- Z.bit0_mod by lia. rewrite Z.shiftr_spec by lia. by rewrite Z.add_0_l. }
  set (h := fun i => Z.b2z (traced (dec_at ds) N e i)).
  assert (Z.b2z (dec_at ds (Z.of_nat n + 6) e) = h (Z.of_nat n)) as Eh.
  { unfold h, traced. destruct (Z.ltb_spec (Z.of_nat n) (N - 6)); [| lia]. by replace (Z.to_nat (N - (Z.of_nat n + 7))) with O by lia. }
  rewrite zset_in by (unfold in_range; lia). cbn [mbind option_bind].
  assert (Z.lor (Z.shiftr endstate 1) (Z.shiftl (Z.b2z (dec_at ds (Z.of_nat n + 6) e)) 7) = endstate / 2 + 128 * Z.b2z (dec_at ds (Z.of_nat n + 6) e)) as ->.
  { destruct (dec_at ds (Z.of_nat n + 6) e); revert endstate He e N h Eh Hw; clear; intros endstate He; intros; clear - He; revert endstate He; each_below 256; reflexivity. }
  rewrite IH; [| destruct (dec_at ds _ e); cbn; lia | lia | rewrite zlen_insert; lia].
  rewrite Eh. replace (Z.of_nat (S n)) with (Z.of_nat n + 1) by lia. rewrite <- (upto_insert h) by lia. f_equal. apply upto_ext.
  intros i Hi. rewrite <- Eh. unfold h. f_equal. unfold traced. replace (Z.of_nat n + 6) with (N - 1) by lia.
  destruct (Z.ltb_spec i (N - 1 - 6)), (Z.ltb_spec i (N - 6)); try lia. f_equal.
  replace (Z.to_nat (N - (i + 7))) with (S (Z.to_nat (N - 1 - (i + 7)))) by lia. rewrite <- back_shift. f_equal.
  cbn [back]. change (Z.of_nat 1) with 1. replace (N - 1) with (Z.of_nat n + 6) by lia. clear Eh. subst e. destruct (dec_at _ _ _); cbn; lia.
Qed.

(** ** The decoder finds the nearest input *)

(** The decisions of [n] steps, with none after them. *)
Lemma decisions_end len n sym start vp : running sym start len n vp ->
  forall t s, Z.of_nat n <= t -> t < len -> 0 <= s < 64 -> dec_at (decisions vp) t s = false.
Proof.
  intros [_ _ _ _ _ _ _ Re] t s Ht Hl Hs. unfold dec_at. rewrite Re by lia. apply Z.testbit_0_l.
Qed.

(** Six steps without decisions empty the state, whatever it is. *)
Lemma traced_tail dec N e : 0 <= e < 64 -> (forall t s, N <= t < N + 6 -> 0 <= s < 64 -> dec t s = false) ->
  forall i, i < N -> traced dec (N + 6) e i = traced dec N 0 i.
Proof.
  intros He Hd.
  assert (forall k, 0 <= e / 2 ^ Z.of_nat k < 64) as Hr.
  { intros k. assert (0 < 2 ^ Z.of_nat k) by (apply Z.pow_pos_nonneg; lia). split; [apply Z.div_pos; lia | apply Z.div_lt_upper_bound; nia]. }
  assert (forall k, (k <= 6)%nat -> back dec (N + 6) e k = e / 2 ^ Z.of_nat k) as Hb.
  { induction k as [| k IH]; intros Hk; [cbn; by rewrite Z.div_1_r |]. cbn [back]. rewrite IH by lia.
    rewrite Hd by (apply Hr || lia). cbn [Z.b2z].
    rewrite Z.mul_0_r, Z.add_0_r, Zdiv_Zdiv by lia. f_equal. rewrite <- (Z.pow_1_r 2) at 2. rewrite <- Z.pow_add_r by lia. f_equal. lia. }
  assert (forall k, back dec (N + 6) e (6 + k) = back dec N 0 k) as Hb6.
  { induction k as [| k IH]; [rewrite Hb by lia; change (2 ^ Z.of_nat (6 + 0)) with 64; cbn [back]; lia |].
    replace (6 + S k)%nat with (S (6 + k)) by lia. cbn [back]. rewrite IH. by replace (N + 6 - Z.of_nat (S (6 + k))) with (N - Z.of_nat (S k)) by lia. }
  intros i Hi. unfold traced. destruct (Z.ltb_spec i (N + 6 - 6)); [| lia]. destruct (Z.ltb_spec i (N - 6)).
  - f_equal. rewrite <- Hb6. f_equal. lia.
  - rewrite Z.testbit_0_l. pose proof (Hb (Z.to_nat (N + 6 - (i + 7))) ltac:(lia)) as ->. apply Hd; [lia | apply Hr].
Qed.

(** The sizes of the buffers of a decoder. *)
Record vi_ok (q : srsran_viterbi_t) : Prop := ViOk {
  vo_K : vi_K q = 7;
  vo_bits : 0 <= vi_framebits q < 2 ^ 16;
  vo_len : v_len (vi_ptr q) = TB_ITER * vi_framebits q + 6;
  vo_tmp : vi_tail_biting q = true -> zlen (vi_tmp q) = TB_ITER * 3 * (vi_framebits q + 6);
  vo_syms : zlen (vi_symbols_uc q) = 3 * (vi_framebits q + 6);
  vo_bytes : Forall byte (vi_symbols_uc q)
}.

(** What a state costs before the first symbol: the coder starts in state 0, or anywhere. *)
Definition start_of (tail_biting : bool) (s : Z) : Z := if tail_biting then 63 else if s =? 0 then 0 else 63.

Lemma init_running sym q : vi_ok q ->
  exists vp, init_viterbi37_port (vi_ptr q) (if vi_tail_biting q then -1 else 0) = Some vp /\
    running sym (start_of (vi_tail_biting q)) (TB_ITER * vi_framebits q + 6) 0 vp.
Proof.
  intros [_ Hb Hl _ _ _]. unfold init_viterbi37_port, TB_ITER in *.
  assert (forall s, 0 <= s < 64 -> zget (replicate 64 63) s = Some 63) as H63 by (intros s Hs; rewrite zget_lookup by lia; apply lookup_replicate_2; lia).
  assert (forall m, zlen m = 64 -> (forall s, 0 <= s < 64 -> zget m s = Some (start_of (vi_tail_biting q) s)) ->
    running sym (start_of (vi_tail_biting q)) (5 * vi_framebits q + 6) 0 (V37 m (new_metrics (clear_v37 (vi_ptr q))) 0 (decisions (clear_v37 (vi_ptr q))) (v_len (clear_v37 (vi_ptr q))))) as Hrun.
  { intros m Hm Hs. unfold clear_v37. rewrite Hl. split; cbn [old_metrics new_metrics dp decisions v_len metric]; try done.
    - unfold zlen. rewrite length_replicate. lia.
    - intros; lia.
    - intros k Hk. rewrite zget_lookup by lia. apply lookup_replicate_2. lia. }
  destruct (vi_tail_biting q).
  - cbn [Z.eqb negb mbind option_bind]. eexists. split; [reflexivity |]. by apply Hrun.
  - cbn [Z.eqb negb]. change (Z.land 0 255) with 0. rewrite zset_in by (unfold in_range; done). cbn [mbind option_bind].
    eexists. split; [reflexivity |]. apply Hrun; [done |]. intros s Hs. unfold start_of. destruct (Z.eqb_spec s 0) as [-> |]; [done |].
    rewrite zget_insert_ne by lia. by apply H63.
Qed.

Lemma best_state_range metrics : zlen metrics = 64 -> exists e, best_state_of metrics = Some e /\ 0 <= e < 64.
Proof.
  intros Hm. unfold best_state_of. loop_inv (fun (_ : Z) (st : Z * Z) => 0 <= fst st < 64) as (st & -> & Hst); [lia | cbn; lia | | exists (fst st); by split].
  intros i [bst mm] Hi Hb. destruct (zget_some metrics i) as [m ->]; [unfold in_range; lia |]. cbn [mbind option_bind].
  eexists. split; [reflexivity |]. destruct (m <=? mm); cbn in *; lia.
Qed.

(** A copy, as a function of the index. *)
Lemma memcpy_spec dst o src a n : 0 <= o -> 0 <= a -> 0 <= n -> o + n <= zlen dst -> a + n <= zlen src ->
  exists dst', memcpy dst o src a n = Some dst' /\ zlen dst' = zlen dst /\
    forall k, zget dst' k = if (o <=? k) && (k <? o + n) then zget src (a + (k - o)) else zget dst k.
Proof.
  intros Ho Ha Hn Hd Hs. unfold memcpy.
  loop_inv (fun i t => zlen t = zlen dst /\ forall k, zget t k = if (o <=? k) && (k <? o + i) then zget src (a + (k - o)) else zget dst k) as (t & -> & Ht).
  - lia.
  - split; [done |]. intros k. destruct (Z.leb_spec o k), (Z.ltb_spec k (o + 0)); try done. lia.
  - intros i t Hi [Hl Ht]. destruct (zget_some src (a + i)) as [x Hx]; [unfold in_range; lia |]. rewrite Hx. cbn [mbind option_bind].
    rewrite zset_in by (unfold in_range; lia). eexists. split; [reflexivity |]. split; [by rewrite zlen_insert |]. intros k.
    destruct (Z.eqb_spec k (o + i)) as [-> |].
    + rewrite zget_insert_eq by (unfold in_range; lia). destruct (Z.leb_spec o (o + i)), (Z.ltb_spec (o + i) (o + (i + 1))); try lia. cbn [andb].
      rewrite <- Hx. f_equal. lia.
    + destruct (Z.ltb_spec k 0) as [Hneg |]; [| rewrite zget_insert_ne by lia; rewrite Ht].
      * destruct (Z.leb_spec o k); [lia |]. cbn [andb]. by rewrite !zget_none by (unfold in_range; lia).
      * destruct (Z.leb_spec o k), (Z.ltb_spec k (o + i)), (Z.ltb_spec k (o + (i + 1))); cbn [andb]; lia || done.
  - by exists t.
Qed.

(** An input that ends in state 0 and is as near to the symbols as any other that does. *)
Record nearest (sym : Z -> Z) (start : Z -> Z) (n : nat) (y : Z -> bool) : Prop := Nearest {
  ne_follows : follows sym start y n;
  ne_end : state y (Z.of_nat n) = 0;
  ne_least : forall x, state x (Z.of_nat n) = 0 -> distance sym start y n <= distance sym start x n
}.

Lemma traced_nearest sym start n dec : (forall t s, (t < n)%nat -> 0 <= s < 64 -> dec (Z.of_nat t) s = decision sym start t s) ->
  nearest sym start n (traced dec (Z.of_nat n) 0).
Proof.
  intros Hd. pose proof (traced_follows dec (Z.of_nat n) 0 ltac:(lia) sym start n eq_refl Hd) as Hf.
  pose proof (state_traced dec (Z.of_nat n) 0 ltac:(lia) 0) as Hs. cbn [back] in Hs. rewrite Z.sub_0_r in Hs.
  split; [done | done |]. intros x Hx. rewrite <- (metric_reached sym start _ n Hf n) by lia. rewrite Hs, <- Hx. apply metric_least.
Qed.

(** What the decoder takes for its symbols, for how many steps, and where the data begin. *)
Definition sym_of (tail_biting : bool) (symbols : list Z) (F k : Z) : Z :=
  default 0 (zget symbols (if tail_biting then k mod (3 * F) else k)).
Definition steps_of (tail_biting : bool) (F : Z) : Z := if tail_biting then TB_ITER * F else F + 6.
Definition first_of (tail_biting : bool) (F : Z) : Z := if tail_biting then TB_ITER / 2 * F else 0.
Definition symbols_of (tail_biting : bool) (F : Z) : Z := if tail_biting then 3 * F else 3 * (F + 6).

Lemma sym_byte tb symbols F k : Forall byte symbols -> byte (sym_of tb symbols F k).
Proof.
  intros Hb. unfold sym_of. destruct (zget symbols _) as [s |] eqn:E; cbn; [| unfold byte; lia].
  pose proof (zget_inv _ _ _ E) as Hr. unfold in_range in Hr. rewrite zget_lookup in E by lia. by apply (Forall_lookup_1 _ _ _ _ Hb) in E.
Qed.

(** The frame, five times. *)
Lemma repeat_symbols tmp symbols F : 0 < F -> 15 * F <= zlen tmp -> 3 * F <= zlen symbols ->
  exists tmp', for_range 0 TB_ITER (fun tmp i => memcpy tmp (i * 3 * F) symbols 0 (3 * F)) tmp = Some tmp' /\ zlen tmp' = zlen tmp /\
    forall k, 0 <= k < 15 * F -> zget tmp' k = zget symbols (k mod (3 * F)).
Proof.
  intros HF Ht Hs. unfold TB_ITER.
  loop_inv (fun i t => zlen t = zlen tmp /\ forall k, 0 <= k < i * (3 * F) -> zget t k = zget symbols (k mod (3 * F))) as (t & -> & Hl & H).
  - lia.
  - split; [done | intros; lia].
  - intros i t Hi [Hl Hk]. destruct (memcpy_spec t (i * 3 * F) symbols 0 (3 * F)) as (t' & E & Hl' & H'); [nia | lia | lia | nia | lia |].
    exists t'. split; [exact E |]. split; [by rewrite Hl' |]. intros k Hk'. rewrite H'. destruct (Z.leb_spec (i * 3 * F) k).
    + destruct (Z.ltb_spec k (i * 3 * F + 3 * F)); [| lia]. cbn [andb]. f_equal. apply (Z.mod_unique _ _ i); nia.
    + cbn [andb]. apply Hk. nia.
  - exists t. split; [done |]. split; [done |]. intros k Hk. apply H. lia.
Qed.

(** A copy of a part to the front. *)
Lemma memcpy_upto data src a n : 0 <= a -> 0 <= n <= zlen data -> a + n <= zlen src ->
  memcpy data 0 src a n = Some (upto (fun i => default 0 (zget src (a + i))) n data).
Proof.
  intros Ha Hn Hs. unfold memcpy.
  loop_inv (fun i t => t = upto (fun i => default 0 (zget src (a + i))) i data) as (t & -> & ->); [lia | done | | done].
  intros i t Hi ->. destruct (zget_some src (a + i)) as [x Hx]; [unfold in_range; lia |].
  pose proof (zset_upto (fun i => default 0 (zget src (a + i))) i data ltac:(lia)) as E. cbv beta in E. rewrite Hx in E.
  rewrite Hx. cbn [mbind option_bind]. rewrite Z.add_0_l. by eexists.
Qed.

Lemma decode37_spec q symbols data F : vi_ok q -> 0 < F <= vi_framebits q -> Forall byte symbols ->
  symbols_of (vi_tail_biting q) F <= zlen symbols -> F <= zlen data ->
  exists vp tmp y, decode37 lte_tab q symbols data F
      = Some (vi_framebits q, with_ptr q vp tmp, upto (fun i => Z.b2z (y (first_of (vi_tail_biting q) F + i))) F data)
    /\ vi_ok (with_ptr q vp tmp)
    /\ nearest (sym_of (vi_tail_biting q) symbols F) (start_of (vi_tail_biting q)) (Z.to_nat (steps_of (vi_tail_biting q) F)) y.
Proof.
  intros Hq HF Hb Hs Hd. unfold decode37. destruct (Z.ltb_spec (vi_framebits q) F); [lia |].
  set (sym := sym_of (vi_tail_biting q) symbols F). set (start := start_of (vi_tail_biting q)).
  assert (forall k, byte (sym k)) as Hsym by (intros k; by apply sym_byte).
  assert (forall s, 0 <= start s <= 63) as Hstart by (intros s; unfold start, start_of; destruct (vi_tail_biting q), (s =? 0); lia).
  destruct (init_running sym q Hq) as (vp0 & -> & Hvp0). cbn [mbind option_bind]. destruct Hq as [HK Hfb Hlen Htmp Huc Hby].
  destruct (vi_tail_biting q) eqn:Etb; unfold symbols_of, steps_of, first_of, TB_ITER in *; change (5 / 2) with 2.
  - destruct (repeat_symbols (vi_tmp q) symbols F) as (tmp & Et & Htl & Htk); [lia | rewrite Htmp by done; lia | lia |].
    rewrite Htmp in Htl by done. unfold TB_ITER in Et. rewrite Et. cbn [mbind option_bind]. set (n := Z.to_nat (5 * F)). replace (5 * F) with (Z.of_nat n) by lia.
    destruct (update_blk_spec sym start Hsym Hstart (5 * vi_framebits q + 6) n vp0 tmp ltac:(lia) ltac:(lia)) as (vp & -> & Hvp); [| exact Hvp0 |].
    { intros k Hk. rewrite Htk by lia. unfold sym, sym_of. destruct (zget_some symbols (k mod (3 * F))) as [x ->]; [unfold in_range; lia | done]. }
    cbn [mbind option_bind]. destruct (best_state_range _ (ru_old _ _ _ _ _ Hvp)) as (e & -> & He). cbn [mbind option_bind].
    pose proof (decisions_end _ _ _ _ _ Hvp) as Hend. destruct Hvp as [Rl _ _ _ _ Rs Rb _].
    unfold chainback_viterbi37_port. replace (Z.shiftl (e mod 64) 2) with (4 * e) by (rewrite Z.shiftl_mul_pow2 by lia; lia). rewrite Nat2Z.id.
    rewrite chainback_spec by lia. cbn [mbind option_bind]. rewrite memcpy_upto by (rewrite ?zlen_upto; lia).
    replace (4 * e / 4) with e by lia. eexists vp, _, (traced (dec_at (decisions vp)) (Z.of_nat n) 0). cbn [mbind option_bind].
    split; [do 2 f_equal; apply upto_ext; intros i Hi; rewrite zget_upto by lia; cbn [from_option id] |].
    { f_equal. rewrite traced_tail; [done | done | | lia].
      intros t s Ht Hs'. apply Hend; [lia | lia | done]. }
    split; [| apply traced_nearest; intros t s Ht Hs'; by apply Rb].
    split; unfold with_ptr; cbn [vi_K vi_framebits vi_ptr vi_tail_biting vi_tmp vi_symbols_uc]; try done. intros _. rewrite zlen_upto by lia. unfold TB_ITER. lia.
  - rewrite HK. set (n := Z.to_nat (F + 6)). replace (F + 7 - 1) with (Z.of_nat n) by lia.
    destruct (update_blk_spec sym start Hsym Hstart (5 * vi_framebits q + 6) n vp0 symbols ltac:(lia) ltac:(lia)) as (vp & -> & Hvp); [| exact Hvp0 |].
    { intros k Hk. unfold sym, sym_of. destruct (zget_some symbols k) as [x ->]; [unfold in_range; lia | done]. }
    cbn [mbind option_bind]. destruct Hvp as [Rl _ _ _ _ Rs Rb _]. unfold chainback_viterbi37_port. change (Z.shiftl (0 mod 64) 2) with 0.
    rewrite chainback_spec by lia. cbn [mbind option_bind]. eexists vp, _, (traced (dec_at (decisions vp)) (Z.of_nat n) 0).
    split; [do 2 f_equal; replace (Z.of_nat (Z.to_nat F)) with F by lia; apply upto_ext; intros i Hi; replace (F + 6) with (Z.of_nat n) by lia; done |].
    split; [| apply traced_nearest; intros t s Ht Hs'; by apply Rb].
    split; unfold with_ptr; cbn [vi_K vi_framebits vi_ptr vi_tail_biting vi_tmp vi_symbols_uc]; try done. by rewrite Etb.
Qed.

(** ** A frame that is sent is received *)

Lemma register_repeated msg t : 0 < zlen msg -> register (repeated msg) t = register (repeated msg) (t mod zlen msg).
Proof.
  intros Hm. unfold register, window. apply foldr_ext_in. intros m r _. do 2 f_equal. unfold repeated. f_equal.
  rewrite Zminus_mod_idemp_l. done.
Qed.

(** How much further a symbol is from the other bit. *)
Definition bit_margin (s : Z) (b : bool) : Z := cost s (negb b) - cost s b.

Lemma frame_received q symbols data msg lo hi : vi_ok q -> vi_tail_biting q = true -> 24 <= zlen msg <= vi_framebits q ->
  Forall byte symbols -> 3 * zlen msg <= zlen symbols -> zlen msg <= zlen data -> 0 < lo -> 99 * hi <= 201 * lo ->
  (forall k s, 0 <= k < 3 * zlen msg -> zget symbols k = Some s -> lo <= bit_margin s (nth_bit (codeword_of msg) k) <= hi) ->
  exists vp tmp, decode37 lte_tab q symbols data (zlen msg) = Some (vi_framebits q, with_ptr q vp tmp, bytes_of_bits msg ++ drop (length msg) data)
    /\ vi_ok (with_ptr q vp tmp).
Proof.
  intros Hq Htb HF Hb Hs Hd Hlo Hhi Hm. set (F := zlen msg) in *.
  destruct (decode37_spec q symbols data F Hq ltac:(lia) Hb) as (vp & tmp & y & E & Hq' & Hy); [by rewrite Htb | done |].
  exists vp, tmp. rewrite E, Htb. split; [| done]. rewrite Htb in Hy. unfold first_of, steps_of, TB_ITER in *. change (5 / 2) with 2.
  assert (forall i, 0 <= i < F -> y (2 * F + i) = nth_bit msg i) as Hyi.
  { intros i Hi. replace (nth_bit msg i) with (repeated msg (2 * F + i)).
    2:{ unfold repeated. fold F. f_equal. rewrite Z.add_comm, Z_mod_plus_full. apply Z.mod_small. lia. }
    destruct Hy as [Hf He _]. apply (nearest_is_sent (sym_of true symbols F) (repeated msg) lo hi (Z.to_nat (5 * F))); try done; [| lia | unfold apart_steps; lia].
    intros k Hk. unfold margin. rewrite register_repeated by lia. fold F. set (k' := k mod (3 * F)).
    assert (0 <= k' < 3 * F) as Hk' by (apply Z.mod_pos_bound; lia).
    assert (k mod 3 = k' mod 3 /\ k / 3 mod F = k' / 3) as [-> ->].
    { subst k'. pose proof (Z.div_mod k (3 * F) ltac:(lia)) as Ek. set (c := k / (3 * F)) in *. set (m := k mod (3 * F)) in *.
      rewrite Ek. replace (3 * F * c + m) with (m + (F * c) * 3) by lia. rewrite Z_mod_plus_full, Z.div_add by lia. split; [done |].
      rewrite Z.mul_comm, Z_mod_plus_full. apply Z.mod_small. lia. }
    destruct (zget_some symbols k') as [s Es]; [unfold in_range; lia |]. specialize (Hm k' s Hk' Es). unfold bit_margin in Hm.
    unfold sym_of. fold k'. rewrite Es. cbn [from_option id].
    pose proof (codeword_out msg (k' / 3) (k' mod 3) ltac:(lia) ltac:(fold F; lia) ltac:(lia)) as Ec.
    replace (3 * (k' / 3) + k' mod 3) with k' in Ec by lia. by rewrite <- Ec. }
  rewrite (upto_ext _ (fun i => Z.b2z (nth_bit msg i))) by (intros i Hi; by rewrite Hyi).
  do 2 f_equal. unfold upto, bytes_of_bits. f_equal; [| f_equal; unfold F, zlen; lia].
  apply list_eq. intros i. rewrite !list_lookup_fmap. destruct (msg !! i) as [b |] eqn:Eb.
  - apply lookup_lt_Some in Eb as Hi. rewrite lookup_seqZ_lt by (unfold F, zlen; lia). cbn. unfold nth_bit. rewrite Z.add_0_l, Nat2Z.id. by rewrite Eb.
  - apply lookup_ge_None in Eb. rewrite lookup_seqZ_ge by (unfold F, zlen; lia). done.
Qed.

(** ** Soft bits *)

(** The symbol that the quantiser makes of [n] copies of a bit, when the most copies of a bit are [m]. *)
Definition symbol (m n : Z) (b : bool) : option Z :=
  s32_of_f32 (f32_add f32_127_5 (f32_mul (f32_div (f32_of_int DEFAULT_GAIN) (f32_of_int m)) (soft_f n b))).

Definition symbol_fine (m n : Z) (b : bool) : bool :=
  match symbol m n b with
  | Some t => (0 <=? t) && (t <? 256) && (99 <=? bit_margin t b) && (bit_margin t b <=? 201)
  | None => false
  end.

(** Binary32 arithmetic on the sums of copies, checked for all of them. *)
Definition copies_fine (m : Z) : bool :=
  forallb (fun b => bool_decide (f32_abs (soft_f m b) = f32_of_int m) && f32_isnormal (soft_f m b)
    && symbol_fine m m b && ((m =? 1) || symbol_fine m (m - 1) b)) [true; false]
  && f32_lt (f32_of_int m) (f32_of_int (m + 1)) && negb (f32_lt (f32_of_int m) (f32_of_int m)) && negb (f32_lt (f32_of_int (m + 1)) (f32_of_int m))
  && f32_lt (S754_infinity true) (f32_of_int m).

Lemma copies_checked m : 1 <= m <= MAX_COPIES -> copies_fine m = true.
Proof.
  intros Hm. assert (forallb (fun i => copies_fine (i + 1)) (seqZ 0 600) = true) as H by (by vm_compute).
  pose proof (forallb_below 600 _ H (m - 1) ltac:(unfold MAX_COPIES in Hm; lia)) as E. cbv beta in E. by replace (m - 1 + 1) with m in E by lia.
Qed.

Record copies_facts (m : Z) : Prop := CopiesFacts {
  cf_abs : forall b, f32_abs (soft_f m b) = f32_of_int m;
  cf_normal : forall b, f32_isnormal (soft_f m b) = true;
  cf_full : forall b, symbol_fine m m b = true;
  cf_less : forall b, m = 1 \/ symbol_fine m (m - 1) b = true;
  cf_lt : f32_lt (f32_of_int m) (f32_of_int (m + 1)) = true;
  cf_irrefl : f32_lt (f32_of_int m) (f32_of_int m) = false;
  cf_gt : f32_lt (f32_of_int (m + 1)) (f32_of_int m) = false;
  cf_first : f32_lt (S754_infinity true) (f32_of_int m) = true
}.

Lemma copies_fact m : 1 <= m <= MAX_COPIES -> copies_facts m.
Proof.
  intros Hm. pose proof (copies_checked m Hm) as E. unfold copies_fine in E. rewrite !andb_true_iff, !negb_true_iff in E.
  destruct E as ((((Hb & H1) & H2) & H3) & H4). cbn [forallb] in Hb. rewrite !andb_true_iff, !bool_decide_eq_true in Hb.
  destruct Hb as ((((A1 & A2) & A3) & A4) & (((B1 & B2) & B3) & B4) & _).
  split; try done; intros []; try done; rewrite orb_true_iff, Z.eqb_eq in *; done.
Qed.

(** The symbols of the quantiser keep within the margins of [frame_received]. *)
Lemma symbol_margin m n b : 1 <= n -> m - 1 <= n <= m -> m <= MAX_COPIES ->
  exists t, symbol m n b = Some t /\ byte t /\ 99 <= bit_margin t b <= 201.
Proof.
  intros Hn Hm HM. pose proof (copies_fact m ltac:(lia)) as [_ _ Hf Hl _ _ _ _].
  assert (symbol_fine m n b = true) as E.
  { destruct (Z.eqb_spec n m) as [-> |]; [apply Hf |]. replace n with (m - 1) by lia. destruct (Hl b) as [-> |]; [lia | done]. }
  unfold symbol_fine in E. destruct (symbol m n b) as [t |]; [| done]. exists t. split; [done |].
  rewrite !andb_true_iff, !Z.leb_le, Z.ltb_lt in E. unfold byte. lia.
Qed.

Section soft_input.
Context (xs : list float32) (len k : Z) (n : Z -> Z) (b : Z -> bool).
Context (Hk : 1 <= k) (HM : k + 1 <= MAX_COPIES) (Hlen : 0 < len)
  (Hx : forall c, 0 <= c < len -> zget xs c = Some (soft_f (n c) (b c))) (Hn : forall c, 0 <= c < len -> k <= n c <= k + 1).

(** The index of the most copies. *)
Lemma max_abs_spec : exists i, srsran_vec_max_abs_fi xs len = Some i /\ 0 <= i < len /\ forall c, 0 <= c < len -> n c <= n i.
Proof.
  unfold srsran_vec_max_abs_fi, float32.
  loop_inv (fun (i : Z) '((idx, v) : Z * spec_float) => (i = 0 /\ v = S754_infinity true) \/
    (0 <= idx < i /\ v = f32_of_int (n idx) /\ forall c, 0 <= c < i -> n c <= n idx)) as ([idx v] & -> & H).
  - lia.
  - by left.
  - intros i [idx v] Hi H. rewrite Hx by lia. cbn [mbind option_bind].
    rewrite (cf_abs _ (copies_fact (n i) ltac:(specialize (Hn i); lia))).
    assert (forall j, 0 <= j < len -> f32_lt (f32_of_int (n j)) (f32_of_int (n i)) = (n j <? n i)) as Hlt.
    { intros j Hj. pose proof (Hn j Hj). pose proof (Hn i ltac:(lia)). pose proof (copies_fact k ltac:(lia)) as [_ _ _ _ L1 L2 L3 _].
      pose proof (cf_irrefl _ (copies_fact (k + 1) ltac:(lia))) as L4.
      assert (n j = k \/ n j = k + 1) as [-> | ->] by lia; (assert (n i = k \/ n i = k + 1) as [-> | ->] by lia);
        rewrite ?L1, ?L2, ?L3, ?L4; symmetry; (apply Z.ltb_lt || apply Z.ltb_ge); lia. }
    destruct H as [[-> ->] | (Hidx & -> & Hmax)].
    + rewrite (cf_first _ (copies_fact (n 0) ltac:(specialize (Hn 0); lia))). eexists. split; [reflexivity |]. right.
      split; [lia |]. split; [done |]. intros c Hc. by replace c with 0 by lia.
    + rewrite Hlt by lia. destruct (Z.ltb_spec (n idx) (n i)); eexists; (split; [reflexivity |]); right; (split; [lia |]); (split; [done |]);
        intros c Hc; (destruct (Z.eqb_spec c i) as [-> |]; [lia |]); specialize (Hmax c ltac:(lia)); lia.
  - destruct H as [[-> _] | (Hidx & _ & Hmax)]; [lia |]. exists idx. cbn. split; [done |]. by split.
Qed.

(** The quantised symbols. *)
Lemma quant_spec m out : (forall c, 0 <= c < len -> m - 1 <= n c <= m) -> m <= MAX_COPIES -> len <= zlen out ->
  exists h, srsran_vec_quant_fuc xs out (f32_div (f32_of_int DEFAULT_GAIN) (f32_of_int m)) f32_127_5 255 len = Some (upto h len out) /\
    forall c, 0 <= c < len -> byte (h c) /\ 99 <= bit_margin (h c) (b c) <= 201.
Proof.
  intros Hm HmM Ho. set (h := fun c => default 0 (symbol m (n c) (b c))). exists h.
  assert (forall c, 0 <= c < len -> symbol m (n c) (b c) = Some (h c) /\ byte (h c) /\ 99 <= bit_margin (h c) (b c) <= 201) as Hh.
  { intros c Hc. destruct (symbol_margin m (n c) (b c)) as (t & Et & Ht); [specialize (Hn c Hc); lia | by apply Hm | done |].
    unfold h. rewrite Et. by cbn. }
  split; [| intros c Hc; by apply Hh]. unfold srsran_vec_quant_fuc.
  loop_inv (fun i t => t = upto h i out) as (t & -> & ->); [lia | done | | done].
  intros i t Hi ->. rewrite Hx by lia. cbn [mbind option_bind]. destruct (Hh i Hi) as (Es & Hb & _). unfold symbol in Es. rewrite Es. cbn [mbind option_bind].
  eexists. split; [| done]. rewrite <- zset_upto by lia. f_equal. unfold byte in Hb. unfold quantised.
  rewrite Z.max_l, Z.min_l by lia. apply uwrap_small. unfold is_uint. lia.
Qed.
End soft_input.

(** ** The decoder of the control channels *)

Record decoder_ok (framebits : Z) (q : srsran_viterbi_t) : Prop := DecoderOk {
  do_ok : vi_ok q;
  do_bits : vi_framebits q = framebits;
  do_tail : vi_tail_biting q = true;
  do_gain : vi_gain_quant q = f32_of_int DEFAULT_GAIN
}.

Lemma init_ok mem framebits : (forall n, 0 <= n -> zlen (mem n) = n /\ Forall byte (mem n)) -> 0 <= framebits < 2 ^ 16 ->
  exists q, srsran_viterbi_init mem SRSRAN_VITERBI_37 lte_polys framebits true = Some (0, Some (lte_tab, q)) /\ decoder_ok framebits q.
Proof.
  intros Hmem Hf. unfold srsran_viterbi_init, init37, create_viterbi37_port. rewrite lte_tab_set. cbn [mbind option_bind].
  eexists. split; [reflexivity |]. split; [| done..]. unfold TB_ITER.
  split; cbn [vi_K vi_framebits vi_ptr vi_tail_biting vi_tmp vi_symbols_uc v_len]; try done.
  - unfold TB_ITER. apply uwrap_small. unfold is_uint. lia.
  - intros _. unfold zlen. rewrite length_app, length_replicate, length_drop. destruct (Hmem (5 * 3 * (framebits + 6)) ltac:(lia)) as [H _].
    unfold zlen, TB_ITER in *. lia.
  - apply Hmem. lia.
  - apply Hmem. lia.
Qed.

Lemma with_symbols_ok framebits q uc : Forall byte uc -> zlen uc = zlen (vi_symbols_uc q) -> decoder_ok framebits q -> decoder_ok framebits (with_symbols q uc).
Proof. intros Hby Hl [[K B L T S _] Hb Ht Hg]. split; [| done..]. split; try done. cbn. by rewrite Hl. Qed.

(** The codeword of a message, as soft bits of [k] or [k + 1] copies of each bit, is decoded to the message. *)
Lemma soft_frame_received framebits q symbols data msg n k : decoder_ok framebits q -> 24 <= zlen msg <= framebits -> zlen msg <= zlen data ->
  (forall c, 0 <= c < 3 * zlen msg -> zget symbols c = Some (soft_f (n c) (nth_bit (codeword_of msg) c)) /\ k <= n c <= k + 1) -> 1 <= k < MAX_COPIES ->
  exists q', srsran_viterbi_decode_f lte_tab q symbols data (zlen msg) = Some (framebits, q', bytes_of_bits msg ++ drop (length msg) data) /\
    decoder_ok framebits q'.
Proof.
  intros Hq HF Hd Hs Hk. pose proof Hq as [[_ Hfb _ _ Huc Hby] Hb Ht Hg]. unfold srsran_viterbi_decode_f. rewrite Hb. destruct (Z.ltb_spec framebits (zlen msg)); [lia |].
  unfold soft_len. rewrite Ht, uwrap_small by (unfold is_uint; lia).
  set (len := 3 * zlen msg) in *. set (b := nth_bit (codeword_of msg)) in *.
  destruct (max_abs_spec symbols len k n b) as (i & -> & Hi & Hmax); [lia | lia | lia | intros c Hc; by apply Hs.. |]. cbn [mbind option_bind].
  destruct (Z.ltb_spec i len); [| lia]. rewrite (proj1 (Hs i Hi)). cbn [mbind option_bind].
  destruct (Hs i Hi) as [_ Hni]. pose proof (copies_fact (n i) ltac:(lia)) as [Ha Hno _ _ _ _ _ _]. rewrite Ha, Hno, Hg.
  assert (forall c, 0 <= c < len -> n i - 1 <= n c <= n i) as Hni' by (intros c Hc; specialize (Hmax c Hc); destruct (Hs c Hc) as [_ ?]; lia).
  destruct (quant_spec symbols len k n b ltac:(lia) ltac:(lia) ltac:(intros; by apply Hs) ltac:(intros; by apply Hs) (n i) (vi_symbols_uc q) Hni') as (h & -> & Hh); [lia | lia |].
  cbn [mbind option_bind].
  assert (Forall byte (upto h len (vi_symbols_uc q))) as Hfa.
  { unfold upto. apply Forall_app. split; [| by apply Forall_drop]. apply Forall_fmap, Forall_forall. intros c Hc%elem_of_seqZ. by apply Hh. }
  pose proof (with_symbols_ok framebits q (upto h len (vi_symbols_uc q)) Hfa ltac:(apply zlen_upto; lia) Hq) as Hq'.
  destruct (frame_received (with_symbols q (upto h len (vi_symbols_uc q))) (upto h len (vi_symbols_uc q)) data msg 99 201) as (vp & tmp & E & Hok);
    [apply Hq' | done | rewrite (do_bits _ _ Hq'); lia | done | rewrite zlen_upto by lia; lia | done | lia | lia | |].
  { intros c s Hc. rewrite zget_upto by lia. intros [= <-]. by apply Hh. }
  unfold srsran_viterbi_decode_uc. rewrite E, (do_bits _ _ Hq'). eexists. split; [reflexivity |]. by split; [| apply Hq'..].
Qed.

(** C13: on any symbols, the decoder answers with the part in the middle of an input that ends
    in state 0 and is as near to the symbols as any other that does: of the frame repeated five
    times, from any state, with tail biting, and of the frame and six bits more, from state 0,
    without. The state with the best metric, which is looked for with tail biting, plays no part. *)
Theorem viterbi_finds_nearest q symbols data F : vi_ok q -> 0 < F <= vi_framebits q -> Forall byte symbols ->
  symbols_of (vi_tail_biting q) F <= zlen symbols -> F <= zlen data ->
  let sym := sym_of (vi_tail_biting q) symbols F in
  let start := start_of (vi_tail_biting q) in
  let n := steps_of (vi_tail_biting q) F in
  exists q' y, decode37 lte_tab q symbols data F = Some (vi_framebits q, q', upto (fun i => Z.b2z (y (first_of (vi_tail_biting q) F + i))) F data)
    /\ vi_ok q' /\ state y n = 0 /\ forall x, state x n = 0 -> distance sym start y (Z.to_nat n) <= distance sym start x (Z.to_nat n).
Proof.
  intros Hq HF Hb Hs Hd. cbv zeta. destruct (decode37_spec q symbols data F Hq HF Hb Hs Hd) as (vp & tmp & y & E & Hok & [_ He Hl]).
  assert (0 <= steps_of (vi_tail_biting q) F) by (unfold steps_of, TB_ITER; destruct (vi_tail_biting q); lia).
  rewrite Z2Nat.id in He, Hl by done. exists (with_ptr q vp tmp), y. split; [done |]. split; [done |]. by split.
Qed.

Definition ex_decoder (tail_biting : bool) : srsran_viterbi_t :=
  Viterbi (V37 (replicate 64 9) (replicate 64 9) 0 (replicate 252 9) 126) 3 7 24 tail_biting (f32_of_int DEFAULT_GAIN) 4 (replicate 450 9) (replicate 90 9).

Lemma ex_decoder_ok tb : vi_ok (ex_decoder tb).
Proof. split; try done. by apply Forall_replicate. Qed.

Lemma viterbi_finds_nearest_witness :
  exists q' y, decode37 lte_tab (ex_decoder false) (replicate 90 200) (replicate 24 9) 24 = Some (24, q', upto (fun i => Z.b2z (y (0 + i))) 24 (replicate 24 9))
    /\ vi_ok q' /\ state y 30 = 0 /\
    forall x, state x 30 = 0 -> distance (sym_of false (replicate 90 200) 24) (start_of false) y 30 <= distance (sym_of false (replicate 90 200) 24) (start_of false) x 30.
Proof.
  apply (viterbi_finds_nearest (ex_decoder false) (replicate 90 200) (replicate 24 9) 24); [apply ex_decoder_ok | done | | done | done].
  by apply Forall_replicate.
Defined.

(** C15: a frame of 24 bits or more is decoded from any symbols that are on the side of the
    bits of its codeword, the weakest of them half as far as the strongest, whatever the state
    the decoder was left in. *)
Theorem viterbi_recovers_frame q symbols data msg lo hi : vi_ok q -> vi_tail_biting q = true -> 24 <= zlen msg <= vi_framebits q ->
  Forall byte symbols -> 3 * zlen msg <= zlen symbols -> zlen msg <= zlen data -> 0 < lo -> 99 * hi <= 201 * lo ->
  (forall k s, 0 <= k < 3 * zlen msg -> zget symbols k = Some s -> lo <= bit_margin s (nth_bit (codeword_of msg) k) <= hi) ->
  exists q', decode37 lte_tab q symbols data (zlen msg) = Some (vi_framebits q, q', bytes_of_bits msg ++ drop (length msg) data) /\ vi_ok q'.
Proof.
  intros Hq Ht HF Hb Hs Hd Hlo Hhi Hm. destruct (frame_received q symbols data msg lo hi) as (vp & tmp & E & Hok); try done.
  by exists (with_ptr q vp tmp).
Qed.

(** The symbols of a codeword, without noise. *)
Definition clean (b : bool) : Z := if b then 227 else 27.

Lemma viterbi_recovers_frame_witness :
  let msg := [true; false; true] ++ replicate 21 false in
  exists q', decode37 lte_tab (ex_decoder true) (clean <$> codeword_of msg) (replicate 24 9) 24 = Some (24, q', bytes_of_bits msg ++ []) /\ vi_ok q'.
Proof.
  intros msg. apply (viterbi_recovers_frame (ex_decoder true) (clean <$> codeword_of msg) (replicate 24 9) msg 99 201);
    [apply ex_decoder_ok | done | done | | done | done | done | done |].
  - apply Forall_fmap, Forall_forall. intros b _. by destruct b.
  - intros k s Hk Hs. rewrite zget_lookup, list_lookup_fmap in Hs by lia. unfold nth_bit.
    destruct (codeword_of msg !! Z.to_nat k) as [[] |]; [| | done]; injection Hs as <-; by cbn.
Defined.
