(* ===== verification/Sequence.v ===== *)
(** * Pseudo-random sequences ([lib/src/phy/common/sequence.c], [lib/src/phy/phch/sequences.c])

    The scrambling sequences of TS 36.211, section 7.2. The code keeps the two shift registers
    in machine words and steps them by one or by 24 bits at once, from states computed ahead of
    the first 1600 steps; the standard defines the bits by recurrences. The portable code is
    modelled, which the vector instructions under [LV_HAVE_SSE] stand in for. *)

From S2P Require Export PhyCommon DciBits.

(** ** The registers *)

Definition SEQUENCE_SEED_LEN : Z := 31.
Definition SEQUENCE_NC : nat := 1600.
Definition SEQUENCE_PAR_BITS : Z := 24.
Definition SEQUENCE_MASK : Z := Z.shiftl 1 SEQUENCE_PAR_BITS - 1.

(** What the four step functions share: the feedback of [n] bits is put above the bits that are
    left. *)
Definition feed (n f state : Z) : Z :=
  Z.lxor (Z.shiftr state n) (u32 (Z.shiftl (Z.land f (Z.shiftl 1 n - 1)) (SEQUENCE_SEED_LEN - n))).

Definition sequence_gen_LTE_pr_memless_step_par_x1 (state : Z) : Z :=
  feed SEQUENCE_PAR_BITS (Z.lxor state (Z.shiftr state 3)) state.
Definition sequence_gen_LTE_pr_memless_step_x1 (state : Z) : Z := feed 1 (Z.lxor state (Z.shiftr state 3)) state.

Definition x2_taps (state : Z) : Z := Z.lxor (Z.lxor (Z.lxor state (Z.shiftr state 1)) (Z.shiftr state 2)) (Z.shiftr state 3).
Definition sequence_gen_LTE_pr_memless_step_par_x2 (state : Z) : Z := feed SEQUENCE_PAR_BITS (x2_taps state) state.
Definition sequence_gen_LTE_pr_memless_step_x2 (state : Z) : Z := feed 1 (x2_taps state) state.

(** The states [srsran_lte_pr_pregen] computes before [main]. *)
Definition sequence_x1_init : Z := Nat.iter SEQUENCE_NC sequence_gen_LTE_pr_memless_step_x1 1.
Definition sequence_x2_init (i : Z) : Z := Nat.iter SEQUENCE_NC sequence_gen_LTE_pr_memless_step_x2 (u32 (Z.shiftl 1 i)).

Definition sequence_get_x2_init (seed : Z) : Z :=
  foldl (fun x2 i => if negb (Z.land (Z.shiftr seed i) 1 =? 0) then Z.lxor x2 (sequence_x2_init i) else x2) 0
    (seqZ 0 SEQUENCE_SEED_LEN).

Record srsran_sequence_state_t := SequenceState { x1 : Z; x2 : Z }.

Definition srsran_sequence_state_init (seed : Z) : srsran_sequence_state_t :=
  SequenceState sequence_x1_init (sequence_get_x2_init seed).

Definition step_par (s : srsran_sequence_state_t) : srsran_sequence_state_t :=
  SequenceState (sequence_gen_LTE_pr_memless_step_par_x1 (x1 s)) (sequence_gen_LTE_pr_memless_step_par_x2 (x2 s)).
Definition step_one (s : srsran_sequence_state_t) : srsran_sequence_state_t :=
  SequenceState (sequence_gen_LTE_pr_memless_step_x1 (x1 s)) (sequence_gen_LTE_pr_memless_step_x2 (x2 s)).

(** ** The loops

    Every function runs the same two loops, blocks of 24 bits and then single bits, and differs
    in what it does with bit [c] at index [i] of its arrays, here [out]. *)

Section loops.
Context {A : Type} (el : Z -> Z -> A -> option A).

Definition par_block (c i : Z) (out : A) : option A :=
  for_range 0 SEQUENCE_PAR_BITS (fun out j => el (Z.land (Z.shiftr c j) 1) (i + j) out) out.

(** [for (; i < length - (SEQUENCE_PAR_BITS - 1); i += SEQUENCE_PAR_BITS)] *)
Fixpoint par_stage (fuel : nat) (len : Z) (s : srsran_sequence_state_t) (i : Z) (out : A) : option (srsran_sequence_state_t * Z * A) :=
  if i <? u32 (len - (SEQUENCE_PAR_BITS - 1)) then
    match fuel with
    | O => None
    | S fuel =>
      out ← par_block (Z.lxor (x1 s) (x2 s)) i out;
      par_stage fuel len (step_par s) (i + SEQUENCE_PAR_BITS) out
    end
  else Some (s, i, out).

(** [for (; i < length; i++)] *)
Fixpoint single_stage (fuel : nat) (len : Z) (s : srsran_sequence_state_t) (i : Z) (out : A) : option (srsran_sequence_state_t * A) :=
  if i <? len then
    match fuel with
    | O => None
    | S fuel =>
      out ← el (Z.land (Z.lxor (x1 s) (x2 s)) 1) i out;
      single_stage fuel len (step_one s) (i + 1) out
    end
  else Some (s, out).

(** Each loop makes at most [len] rounds. *)
Definition sequence_run (len : Z) (s : srsran_sequence_state_t) (out : A) : option (srsran_sequence_state_t * A) :=
  '(s, i, out) ← (if SEQUENCE_PAR_BITS <=? len then par_stage (Z.to_nat len) len s 0 out else Some (s, 0, out));
  single_stage (Z.to_nat len) len s i out.
End loops.

(** ** Generation *)

(** [pr[n + i] = c] *)
Definition sequence_gen_LTE_pr (pr : list Z) (len seed : Z) : option (list Z) :=
  snd <$> sequence_run (fun c i pr => zset pr i (u8 c)) len (srsran_sequence_state_init seed) pr.

(** A float as its 32 bits: the sign of [value] is turned where the bit is set. *)
Definition flip_sign (c w : Z) : Z := Z.lxor w (u32 (Z.shiftl c 31)).

Definition srsran_sequence_state_gen_f (s : srsran_sequence_state_t) (value : Z) (out : list Z) (len : Z)
  : option (srsran_sequence_state_t * list Z) :=
  sequence_run (fun c i out => zset out i (flip_sign c value)) len s out.

Definition srsran_sequence_state_advance (s : srsran_sequence_state_t) (len : Z) : option srsran_sequence_state_t :=
  fst <$> sequence_run (fun _ _ _ => Some tt) len s tt.

(** ** Application

    [out[i] = f c in[i]]. *)

Definition apply_el (f : Z -> Z -> Z) (inp : list Z) (c i : Z) (out : list Z) : option (list Z) :=
  x ← zget inp i; zset out i (f c x).

Definition srsran_sequence_state_apply_f (s : srsran_sequence_state_t) (inp out : list Z) (len : Z)
  : option (srsran_sequence_state_t * list Z) := sequence_run (apply_el flip_sign inp) len s out.

Definition swrap16 : Z -> Z := swrap 16.
Definition signed_s (c v : Z) : Z := swrap16 (v * (if c =? 0 then 1 else -1)).
Definition signed_c (c v : Z) : Z := s8 (v * (if c =? 0 then 1 else -1)).
Definition xor_bit (c v : Z) : Z := u8 (Z.lxor v c).

Definition srsran_sequence_state_apply_c (s : srsran_sequence_state_t) (inp out : list Z) (len : Z)
  : option (srsran_sequence_state_t * list Z) := sequence_run (apply_el signed_c inp) len s out.
Definition srsran_sequence_state_apply_bit (s : srsran_sequence_state_t) (inp out : list Z) (len : Z)
  : option (srsran_sequence_state_t * list Z) := sequence_run (apply_el xor_bit inp) len s out.

Definition srsran_sequence_apply_f (inp out : list Z) (len seed : Z) : option (list Z) :=
  snd <$> srsran_sequence_state_apply_f (srsran_sequence_state_init seed) inp out len.
Definition srsran_sequence_apply_s (inp out : list Z) (len seed : Z) : option (list Z) :=
  snd <$> sequence_run (apply_el signed_s inp) len (srsran_sequence_state_init seed) out.
Definition srsran_sequence_apply_c (inp out : list Z) (len seed : Z) : option (list Z) :=
  snd <$> srsran_sequence_state_apply_c (srsran_sequence_state_init seed) inp out len.
Definition srsran_sequence_apply_bit (inp out : list Z) (len seed : Z) : option (list Z) :=
  snd <$> srsran_sequence_state_apply_bit (srsran_sequence_state_init seed) inp out len.

(** *** Packed bits

    The bytes hold eight bits each, the first in the high bit, so the bytes of the sequence are
    reversed. [length / 8 - 2] is unsigned. *)

Definition reverse_lut : list Z := [
   0; 128; 64; 192; 32; 160; 96; 224; 16; 144; 80; 208; 48; 176; 112; 240;
   8; 136; 72; 200; 40; 168; 104; 232; 24; 152; 88; 216; 56; 184; 120; 248;
   4; 132; 68; 196; 36; 164; 100; 228; 20; 148; 84; 212; 52; 180; 116; 244;
   12; 140; 76; 204; 44; 172; 108; 236; 28; 156; 92; 220; 60; 188; 124; 252;
   2; 130; 66; 194; 34; 162; 98; 226; 18; 146; 82; 210; 50; 178; 114; 242;
   10; 138; 74; 202; 42; 170; 106; 234; 26; 154; 90; 218; 58; 186; 122; 250;
   6; 134; 70; 198; 38; 166; 102; 230; 22; 150; 86; 214; 54; 182; 118; 246;
   14; 142; 78; 206; 46; 174; 110; 238; 30; 158; 94; 222; 62; 190; 126; 254;
   1; 129; 65; 193; 33; 161; 97; 225; 17; 145; 81; 209; 49; 177; 113; 241;
   9; 137; 73; 201; 41; 169; 105; 233; 25; 153; 89; 217; 57; 185; 121; 249;
   5; 133; 69; 197; 37; 165; 101; 229; 21; 149; 85; 213; 53; 181; 117; 245;
   13; 141; 77; 205; 45; 173; 109; 237; 29; 157; 93; 221; 61; 189; 125; 253;
   3; 131; 67; 195; 35; 163; 99; 227; 19; 147; 83; 211; 51; 179; 115; 243;
   11; 139; 75; 203; 43; 171; 107; 235; 27; 155; 91; 219; 59; 187; 123; 251;
   7; 135; 71; 199; 39; 167; 103; 231; 23; 151; 87; 215; 55; 183; 119; 247;
   15; 143; 79; 207; 47; 175; 111; 239; 31; 159; 95; 223; 63; 191; 127; 255].

Definition packed_byte (inp : list Z) (c i : Z) (out : list Z) : option (list Z) :=
  r ← zget reverse_lut (Z.land c 255); x ← zget inp i; zset out i (Z.lxor x r).

Fixpoint packed_stage (fuel : nat) (inp : list Z) (len : Z) (s : srsran_sequence_state_t) (i : Z) (out : list Z)
  : option (srsran_sequence_state_t * Z * list Z) :=
  if i <? u32 (len / 8 - (SEQUENCE_PAR_BITS - 1) / 8) then
    match fuel with
    | O => None
    | S fuel =>
      let c := Z.lxor (x1 s) (x2 s) in
      out ← for_range 0 (SEQUENCE_PAR_BITS / 8) (fun out j => packed_byte inp (Z.shiftr c (8 * j)) (i + j) out) out;
      packed_stage fuel inp len (step_par s) (i + SEQUENCE_PAR_BITS / 8) out
    end
  else Some (s, i, out).

(** The register shifted by as many bytes as are left, then the bits of the last byte. *)
Definition srsran_sequence_apply_packed (inp out : list Z) (len seed : Z) : option (list Z) :=
  '(s, i, out) ← packed_stage (S (Z.to_nat len)) inp len (srsran_sequence_state_init seed) 0 out;
  let c := Z.lxor (x1 s) (x2 s) in
  out ← for_range i (len / 8) (fun out j => packed_byte inp (Z.shiftr c (8 * (j - i))) j out) out;
  if len mod 8 =? 0 then Some out
  else packed_byte inp (Z.land (Z.shiftr c (8 * (Z.max i (len / 8) - i))) (Z.shiftl 1 (len mod 8) - 1)) (Z.max i (len / 8)) out.

(** ** Sequences ([srsran_sequence_t])

    A null array is [None]; the arrays are allocated and freed together. The values of the
    floats are the integers 1 and -1. *)

Record srsran_sequence_t := Sequence {
  q_c : option (list Z); q_c_bytes : list Z; q_c_float : list Z; q_c_short : list Z; q_c_char : list Z;
  q_cur_len : Z; q_max_len : Z
}.

Definition srsran_sequence_free (q : srsran_sequence_t) : srsran_sequence_t := Sequence None [] [] [] [] 0 0.

(** [srsran_bit_pack_vector] of [bit.c]. *)
Definition srsran_bit_pack_vector (unpacked packed : list Z) (nof_bits : Z) : option (list Z) :=
  packed ← for_range 0 (nof_bits / 8) (fun packed i => '(v, _) ← srsran_bit_pack 8 unpacked (8 * i); zset packed i (u8 v)) packed;
  if nof_bits mod 8 =? 0 then Some packed
  else
    '(v, _) ← srsran_bit_pack (nof_bits mod 8) unpacked (nof_bits / 8 * 8);
    zset packed (nof_bits / 8) (u8 (Z.shiftl (u8 v) (8 - nof_bits mod 8))).

Definition sequence_generate_signed (c ch sh fl : list Z) (len : Z) : option (list Z * list Z * list Z) :=
  for_range 0 len (fun '(ch, sh, fl) i =>
    b ← zget c i;
    let tt := if b =? 0 then 1 else -1 in
    ch ← zset ch i tt; sh ← zset sh i tt; fl ← zset fl i tt; Some (ch, sh, fl)) (ch, sh, fl).

Section alloc.
(** [malloc]: a new array of any content, or nothing. *)
Context (alloc : Z -> option (list Z)).

Definition srsran_sequence_init (q : srsran_sequence_t) (len : Z) : Z * srsran_sequence_t :=
  let q := match q_c q with Some _ => if q_max_len q <? len then srsran_sequence_free q else q | None => q end in
  match q_c q with
  | Some _ => (SRSRAN_SUCCESS, q)
  | None =>
    match alloc len with
    | None => (SRSRAN_ERROR, q)
    | Some c =>
      match alloc (len / 8 + 8) with
      | None => (SRSRAN_ERROR, Sequence (Some c) (q_c_bytes q) (q_c_float q) (q_c_short q) (q_c_char q) (q_cur_len q) (q_max_len q))
      | Some by_ =>
        match alloc len with
        | None => (SRSRAN_ERROR, Sequence (Some c) by_ (q_c_float q) (q_c_short q) (q_c_char q) (q_cur_len q) (q_max_len q))
        | Some fl =>
          match alloc len with
          | None => (SRSRAN_ERROR, Sequence (Some c) by_ fl (q_c_short q) (q_c_char q) (q_cur_len q) (q_max_len q))
          | Some sh =>
            match alloc len with
            | None => (SRSRAN_ERROR, Sequence (Some c) by_ fl sh (q_c_char q) (q_cur_len q) (q_max_len q))
            | Some ch => (SRSRAN_SUCCESS, Sequence (Some c) by_ fl sh ch (q_cur_len q) len)
            end
          end
        end
      end
    end
  end.

Definition srsran_sequence_set_LTE_pr (q : srsran_sequence_t) (len seed : Z) : option (Z * srsran_sequence_t) :=
  if q_max_len q <? len then Some (SRSRAN_ERROR, q)
  else
    c ← q_c q; c ← sequence_gen_LTE_pr c len seed;
    Some (SRSRAN_SUCCESS, Sequence (Some c) (q_c_bytes q) (q_c_float q) (q_c_short q) (q_c_char q) (q_cur_len q) (q_max_len q)).

Definition srsran_sequence_LTE_pr (q : srsran_sequence_t) (len seed : Z) : option (Z * srsran_sequence_t) :=
  let '(e, q) := srsran_sequence_init q len in
  if negb (e =? 0) then Some (SRSRAN_ERROR, q)
  else
    let q := Sequence (q_c q) (q_c_bytes q) (q_c_float q) (q_c_short q) (q_c_char q) len (q_max_len q) in
    '(_, q) ← srsran_sequence_set_LTE_pr q len seed;
    c ← q_c q;
    by_ ← srsran_bit_pack_vector c (q_c_bytes q) len;
    '(ch, sh, fl) ← sequence_generate_signed c (q_c_char q) (q_c_short q) (q_c_float q) len;
    Some (SRSRAN_SUCCESS, Sequence (Some c) by_ fl sh ch (q_cur_len q) (q_max_len q)).

(** *** The sequences of the channels ([sequences.c]) *)

Definition srsran_sequence_pbch (q : srsran_sequence_t) (c : srsran_cp_t) (cell_id : Z) :=
  srsran_sequence_LTE_pr q (if SRSRAN_CP_ISEXT c then 1728 else 1920) cell_id.
Definition srsran_sequence_pcfich (q : srsran_sequence_t) (nslot cell_id : Z) :=
  srsran_sequence_LTE_pr q 32 (u32 ((nslot / 2 + 1) * (2 * cell_id + 1) * 512 + cell_id)).
Definition srsran_sequence_phich (q : srsran_sequence_t) (nslot cell_id : Z) :=
  srsran_sequence_LTE_pr q 12 (u32 ((nslot / 2 + 1) * (2 * cell_id + 1) * 512 + cell_id)).
Definition srsran_sequence_pdcch (q : srsran_sequence_t) (nslot cell_id len : Z) :=
  srsran_sequence_LTE_pr q len (u32 (nslot / 2 * 512 + cell_id)).
Definition sequence_pdsch_seed (rnti cw nslot cell_id : Z) : Z :=
  u32 (Z.shiftl rnti 14 + Z.shiftl cw 13 + Z.shiftl (nslot / 2) 9 + cell_id).
Definition srsran_sequence_pdsch (q : srsran_sequence_t) (rnti cw nslot cell_id len : Z) :=
  srsran_sequence_LTE_pr q len (sequence_pdsch_seed rnti cw nslot cell_id).
Definition sequence_pusch_seed (rnti nslot cell_id : Z) : Z := u32 (Z.shiftl rnti 14 + Z.shiftl (nslot / 2) 9 + cell_id).
Definition srsran_sequence_pusch (q : srsran_sequence_t) (rnti nslot cell_id len : Z) :=
  srsran_sequence_LTE_pr q len (sequence_pusch_seed rnti nslot cell_id).
Definition srsran_sequence_pucch (q : srsran_sequence_t) (rnti nslot cell_id : Z) :=
  srsran_sequence_LTE_pr q 48 (u32 (Z.shiftl ((nslot / 2 + 1) * (2 * cell_id + 1)) 16 + rnti)).
End alloc.

Definition srsran_sequence_pdsch_apply_f (inp out : list Z) (rnti cw nslot cell_id len : Z) :=
  srsran_sequence_apply_f inp out len (sequence_pdsch_seed rnti cw nslot cell_id).
Definition srsran_sequence_pdsch_apply_s (inp out : list Z) (rnti cw nslot cell_id len : Z) :=
  srsran_sequence_apply_s inp out len (sequence_pdsch_seed rnti cw nslot cell_id).
Definition srsran_sequence_pdsch_apply_c (inp out : list Z) (rnti cw nslot cell_id len : Z) :=
  srsran_sequence_apply_c inp out len (sequence_pdsch_seed rnti cw nslot cell_id).
Definition srsran_sequence_pdsch_apply_pack (inp out : list Z) (rnti cw nslot cell_id len : Z) :=
  srsran_sequence_apply_packed inp out len (sequence_pdsch_seed rnti cw nslot cell_id).
Definition srsran_sequence_pusch_apply_s (inp out : list Z) (rnti nslot cell_id len : Z) :=
  srsran_sequence_apply_s inp out len (sequence_pusch_seed rnti nslot cell_id).
Definition srsran_sequence_pusch_apply_c (inp out : list Z) (rnti nslot cell_id len : Z) :=
  srsran_sequence_apply_c inp out len (sequence_pusch_seed rnti nslot cell_id).
Definition srsran_sequence_pusch_apply_pack (inp out : list Z) (rnti nslot cell_id len : Z) :=
  srsran_sequence_apply_packed inp out len (sequence_pusch_seed rnti nslot cell_id).

(** ** The sequences of the standard *)

(** TS 36.211, section 7.2: the two m-sequences, for bits from 0 on. *)
Record is_x1 (x : Z -> bool) : Prop := IsX1 {
  x1_start : x 0 = true;
  x1_zeros : forall n, 1 <= n < 31 -> x n = false;
  x1_next : forall n, 0 <= n -> x (n + 31) = xorb (x (n + 3)) (x n)
}.

Record is_x2 (c_init : Z) (x : Z -> bool) : Prop := IsX2 {
  x2_start : forall n, 0 <= n < 31 -> x n = Z.testbit c_init n;
  x2_next : forall n, 0 <= n -> x (n + 31) = xorb (xorb (x (n + 3)) (x (n + 2))) (xorb (x (n + 1)) (x n))
}.

(** The bit [c(n)], 1600 steps ahead. *)
Definition gold (x1 x2 : Z -> bool) (n : Z) : Z := Z.b2z (xorb (x1 (n + 1600)) (x2 (n + 1600))).

(** A register holds 31 bits of a sequence, from the [k]th on. *)
Definition window (s : Z) (x : Z -> bool) (k : Z) : Prop :=
  0 <= s < 2 ^ 31 /\ forall i, 0 <= i < 31 -> Z.testbit s i = x (k + i).

Lemma testbit_feed n f s i : 0 <= n <= 31 -> 0 <= i ->
  Z.testbit (feed n f s) i = xorb (Z.testbit s (i + n)) ((31 - n <=? i) && (i <? 31) && Z.testbit f (i - (31 - n))).
Proof.
  intros Hn Hi. unfold feed, SEQUENCE_SEED_LEN. rewrite Z.lxor_spec, Z.shiftr_spec, testbit_uwrap by lia. f_equal.
  destruct (Z.leb_spec (31 - n) i).
  - rewrite Z.shiftl_spec, Z.land_spec, testbit_mask by lia.
    destruct (Z.ltb_spec i 32), (Z.ltb_spec i 31), (Z.ltb_spec (i - (31 - n)) n); try lia; cbn [andb]; by rewrite ?andb_true_r, ?andb_false_r.
  - rewrite Z.shiftl_spec_low by lia. cbn [andb]. apply andb_false_r.
Qed.

(** The register moves on by as many bits as the feedback has of the sequence. *)
Lemma feed_window n f s x k : 0 <= n <= 31 -> window s x k ->
  (forall j, 0 <= j < n -> Z.testbit f j = x (k + 31 + j)) -> window (feed n f s) x (k + n).
Proof.
  intros Hn [Hs Hw] Hf. pose proof (proj2 (proj1 (below_pow2 s 31 ltac:(lia)) Hs)) as Hhigh.
  split.
  - apply below_pow2; [lia |]. split.
    + apply Z.lxor_nonneg. rewrite Z.shiftr_nonneg. split; [intros _; by apply (uwrap_is_uint 32) | lia].
    + intros i Hi. rewrite testbit_feed, Hhigh by lia. destruct (Z.ltb_spec i 31); [lia |]. by rewrite andb_false_r.
  - intros i Hi. rewrite testbit_feed by lia. destruct (Z.leb_spec (31 - n) i); cbn [andb].
    + destruct (Z.ltb_spec i 31); [| lia]. cbn [andb]. rewrite Hhigh, Hf by lia. cbn [xorb]. destruct (x _) eqn:E; rewrite <- E; f_equal; lia.
    + rewrite xorb_false_r, Hw by lia. f_equal. lia.
Qed.

Lemma step_x1_window n s x k : is_x1 x -> 0 <= k -> 0 <= n <= 28 -> window s x k ->
  window (feed n (Z.lxor s (Z.shiftr s 3)) s) x (k + n).
Proof.
  intros Hx Hk Hn Hw. apply feed_window; [lia | done |]. intros j Hj. destruct Hw as [_ Hw].
  rewrite Z.lxor_spec, Z.shiftr_spec, !Hw by lia. replace (k + 31 + j) with (k + j + 31) by lia. rewrite (x1_next _ Hx) by lia.
  rewrite xorb_comm. do 2 f_equal. lia.
Qed.

Lemma step_x2_window n c s x k : is_x2 c x -> 0 <= k -> 0 <= n <= 28 -> window s x k -> window (feed n (x2_taps s) s) x (k + n).
Proof.
  intros Hx Hk Hn Hw. apply feed_window; [lia | done |]. intros j Hj. destruct Hw as [_ Hw]. unfold x2_taps.
  rewrite !Z.lxor_spec, !Z.shiftr_spec, !Hw by lia. replace (k + 31 + j) with (k + j + 31) by lia. rewrite (x2_next _ _ Hx) by lia.
  replace (k + (j + 1)) with (k + j + 1) by lia. replace (k + (j + 2)) with (k + j + 2) by lia. replace (k + (j + 3)) with (k + j + 3) by lia.
  by destruct (x (k + j)), (x (k + j + 1)), (x (k + j + 2)), (x (k + j + 3)).
Qed.

(** Single steps, any number of them. *)
Lemma iter_window (step : Z -> Z) (x : Z -> bool) m s k : 0 <= k ->
  (forall s k, 0 <= k -> window s x k -> window (step s) x (k + 1)) -> window s x k -> window (Nat.iter m step s) x (k + Z.of_nat m).
Proof.
  intros Hk Hstep Hw. induction m as [| m IH]; [by rewrite Z.add_0_r |].
  rewrite Nat2Z.inj_succ, <- Z.add_1_r, Z.add_assoc. cbn. apply Hstep; [lia | done].
Qed.

(** *** The states ahead *)

Lemma x1_init_window x : is_x1 x -> window sequence_x1_init x 1600.
Proof.
  intros Hx. apply (iter_window _ x SEQUENCE_NC 1 0); [done | intros s k Hk; by apply (step_x1_window 1) |].
  split; [lia |]. intros i Hi. rewrite Z.add_0_l. destruct (Z.eq_dec i 0) as [-> | Hne]; [by rewrite (x1_start _ Hx) |].
  rewrite (x1_zeros _ Hx) by lia. change 1 with (2 ^ 0). rewrite Z.pow2_bits_eqb by lia. by destruct (Z.eqb_spec 0 i); [lia |].
Qed.

(** The steps of [x2] are linear. *)
Lemma step_x2_lxor a b : sequence_gen_LTE_pr_memless_step_x2 (Z.lxor a b)
  = Z.lxor (sequence_gen_LTE_pr_memless_step_x2 a) (sequence_gen_LTE_pr_memless_step_x2 b).
Proof.
  apply Z.bits_inj'. intros i Hi. rewrite Z.lxor_spec. unfold sequence_gen_LTE_pr_memless_step_x2.
  rewrite !testbit_feed, Z.lxor_spec by lia.
  destruct ((31 - 1 <=? i) && (i <? 31)) eqn:E; cbn [andb]; [| by rewrite !xorb_false_r].
  unfold x2_taps. apply andb_prop in E as [E _]. rewrite !Z.lxor_spec, !Z.shiftr_spec, !Z.lxor_spec by lia.
  repeat match goal with |- context [Z.testbit ?z ?k] => generalize (Z.testbit z k); intros ? end.
  repeat match goal with b : bool |- _ => destruct b end; reflexivity.
Qed.

(** The states of the bits of the seed add up to that of the seed. *)
Lemma x2_init_partial seed n : 0 <= n <= 31 ->
  foldl (fun x2 i => if negb (Z.land (Z.shiftr seed i) 1 =? 0) then Z.lxor x2 (sequence_x2_init i) else x2) 0 (seqZ 0 n)
  = Nat.iter SEQUENCE_NC sequence_gen_LTE_pr_memless_step_x2 (uwrap n seed).
Proof.
  intros Hn. replace n with (Z.of_nat (Z.to_nat n)) by lia. assert (Z.to_nat n <= 31)%nat as Hm by lia. revert Hm. clear Hn.
  induction (Z.to_nat n) as [| m IH]; intros Hm.
  - change (uwrap (Z.of_nat 0) seed) with (seed mod 1). rewrite Z.mod_1_r. by vm_compute.
  - rewrite Nat2Z.inj_succ, <- Z.add_1_r, seqZ_snoc, foldl_snoc, IH by lia. clear IH.
    rewrite land_1, Z.shiftr_spec, Z.add_0_l by lia.
    assert (uwrap (Z.of_nat m + 1) seed = Z.lxor (uwrap (Z.of_nat m) seed) (if Z.testbit seed (Z.of_nat m) then 2 ^ Z.of_nat m else 0)) as ->.
    { apply Z.bits_inj'. intros i Hi. rewrite Z.lxor_spec, !testbit_uwrap by lia.
      destruct (Z.testbit seed (Z.of_nat m)) eqn:E; rewrite ?Z.pow2_bits_eqb, ?Z.bits_0 by lia;
        destruct (Z.ltb_spec i (Z.of_nat m + 1)), (Z.ltb_spec i (Z.of_nat m)), (Z.eqb_spec (Z.of_nat m) i); try lia; subst;
        rewrite ?E; cbn; by rewrite ?xorb_false_r. }
    destruct (Z.testbit seed (Z.of_nat m)); cbn [Z.b2z Z.eqb negb].
    + rewrite iter_lxor by apply step_x2_lxor. f_equal. unfold sequence_x2_init. do 2 f_equal. rewrite Z.shiftl_1_l.
      apply uwrap_small. split; [by apply Z.pow_nonneg | apply Z.pow_lt_mono_r; lia].
    + by rewrite Z.lxor_0_r.
Qed.

Lemma x2_init_window c x : is_x2 c x -> window (sequence_get_x2_init c) x 1600.
Proof.
  intros Hx. unfold sequence_get_x2_init. rewrite x2_init_partial by (unfold SEQUENCE_SEED_LEN; lia).
  apply (iter_window _ x SEQUENCE_NC _ 0); [done | intros s k Hk; by apply (step_x2_window 1 c) |].
  split; [by apply (uwrap_is_uint 31) |]. intros i Hi. rewrite testbit_uwrap by (unfold SEQUENCE_SEED_LEN; lia).
  unfold SEQUENCE_SEED_LEN. destruct (Z.ltb_spec i 31); [| lia]. by rewrite (x2_start _ _ Hx).
Qed.

(** *** The loops run along the sequence *)

Section registers.
Context (X1 X2 : Z -> bool) (c_init : Z).
Hypothesis H1 : is_x1 X1.
Hypothesis H2 : is_x2 c_init X2.

Definition registers (s : srsran_sequence_state_t) (k : Z) : Prop := window (x1 s) X1 k /\ window (x2 s) X2 k.

Definition chip (n : Z) : Z := Z.b2z (xorb (X1 n) (X2 n)).

Lemma registers_bit s k j : registers s k -> 0 <= j < 31 -> Z.land (Z.shiftr (Z.lxor (x1 s) (x2 s)) j) 1 = chip (k + j).
Proof.
  intros [[_ Hw1] [_ Hw2]] Hj. rewrite land_1, Z.shiftr_spec, Z.lxor_spec by lia. rewrite Z.add_0_l, Hw1, Hw2 by lia. done.
Qed.

Lemma step_one_registers s k : 0 <= k -> registers s k -> registers (step_one s) (k + 1).
Proof. intros Hk [Hw1 Hw2]. split; [exact (step_x1_window 1 _ _ _ H1 Hk ltac:(lia) Hw1) | exact (step_x2_window 1 c_init _ _ _ H2 Hk ltac:(lia) Hw2)]. Qed.

Lemma step_par_registers s k : 0 <= k -> registers s k -> registers (step_par s) (k + 24).
Proof. intros Hk [Hw1 Hw2]. split; [exact (step_x1_window 24 _ _ _ H1 Hk ltac:(lia) Hw1) | exact (step_x2_window 24 c_init _ _ _ H2 Hk ltac:(lia) Hw2)]. Qed.

End registers.

Section run.
Context {A : Type} (el : Z -> Z -> A -> option A) (X1 X2 : Z -> bool) (c_init : Z).
Hypothesis H1 : is_x1 X1.
Hypothesis H2 : is_x2 c_init X2.
Abbreviation chip := (chip X1 X2).

(** What a stage from index [i] on does, when it ends at [j]: the elements of the sequence in
    order, and the registers moved on. *)
Abbreviation along k := (fun out n => el (chip (k + n)) n out).

Lemma single_stage_spec len fuel : forall s k i out, 0 <= k -> 0 <= i -> registers X1 X2 s (k + i) -> len - i <= Z.of_nat fuel ->
  match for_range i len (along k) out with
  | Some out' => exists s', single_stage el fuel len s i out = Some (s', out') /\ registers X1 X2 s' (k + Z.max i len)
  | None => single_stage el fuel len s i out = None
  end.
Proof.
  induction fuel as [| fuel IH]; intros s k i out Hk Hi Hs Hf; cbn [single_stage]; (destruct (Z.ltb_spec i len) as [Hlt | Hge]; [| rewrite for_range_done by done; exists s; split; [done | by rewrite Z.max_l by lia]]); [lia |].
  rewrite for_range_step by done. rewrite <- (Z.shiftr_0_r (Z.lxor (x1 s) (x2 s))), (registers_bit X1 X2 s (k + i) 0 Hs), Z.add_0_r by lia.
  destruct (el (chip (k + i)) i out) as [out1 |]; cbn [mbind option_bind]; [| done].
  specialize (IH (step_one s) k (i + 1) out1 Hk). rewrite (Z.max_r i len) by lia. rewrite (Z.max_r (i + 1) len) in IH by lia.
  apply IH; [lia | | lia]. rewrite Z.add_assoc. apply (step_one_registers _ _ c_init); (done || lia).
Qed.

Lemma par_block_spec s k i out : registers X1 X2 s (k + i) -> 
  par_block el (Z.lxor (x1 s) (x2 s)) i out = for_range i (i + 24) (along k) out.
Proof.
  intros Hs. unfold par_block, SEQUENCE_PAR_BITS. rewrite (for_range_shift i 24).
  apply for_range_ext. intros j o Hj. by rewrite (registers_bit X1 X2 s (k + i) j Hs), Z.add_assoc by lia.
Qed.

Lemma par_stage_spec len fuel : 24 <= len < 2 ^ 32 -> forall s k i out, 0 <= k -> 0 <= i <= len -> registers X1 X2 s (k + i) -> len - i <= Z.of_nat fuel ->
  exists j, i <= j <= len /\
  match for_range i j (along k) out with
  | Some out' => exists s', par_stage el fuel len s i out = Some (s', j, out') /\ registers X1 X2 s' (k + j)
  | None => par_stage el fuel len s i out = None
  end.
Proof.
  intros Hlen. assert (u32 (len - (SEQUENCE_PAR_BITS - 1)) = len - 23) as Eu by (apply uwrap_small; unfold is_uint, SEQUENCE_PAR_BITS; lia).
  induction fuel as [| fuel IH]; intros s k i out Hk Hi Hs Hf; cbn [par_stage]; rewrite Eu; (destruct (Z.ltb_spec i (len - 23)) as [Hlt | Hge]; [| exists i; split; [lia |]; rewrite for_range_done by lia; by exists s]); [lia |].
  rewrite (par_block_spec s k i out Hs).
  destruct (for_range i (i + 24) (along k) out) as [out1 |] eqn:E; cbn [mbind option_bind]; [| exists (i + 24); split; [lia |]; by rewrite E].
  destruct (IH (step_par s) k (i + 24) out1) as (j & Hj & Hrun); [done | lia | rewrite Z.add_assoc; apply (step_par_registers _ _ c_init); (done || lia) | lia |].
  exists j. split; [lia |]. rewrite (for_range_split i (i + 24) j), E by lia. done.
Qed.

(** The whole run is a run over the bits of the sequence. *)
Lemma sequence_run_spec len s k out : 0 <= len < 2 ^ 32 -> 0 <= k -> registers X1 X2 s k ->
  match for_range 0 len (along k) out with
  | Some out' => exists s', sequence_run el len s out = Some (s', out') /\ registers X1 X2 s' (k + len)
  | None => sequence_run el len s out = None
  end.
Proof.
  intros Hlen Hk Hs. unfold sequence_run, SEQUENCE_PAR_BITS. destruct (Z.leb_spec 24 len).
  - destruct (par_stage_spec len (Z.to_nat len) ltac:(lia) s k 0 out Hk ltac:(lia)) as (j & Hj & Hp); [by rewrite Z.add_0_r | lia |].
    rewrite (for_range_split 0 j len) by lia. destruct (for_range 0 j (along k) out) as [out1 |]; cbn [mbind option_bind].
    + destruct Hp as (s1 & -> & Hs1). cbn [mbind option_bind].
      pose proof (single_stage_spec len (Z.to_nat len) s1 k j out1 Hk ltac:(lia) Hs1 ltac:(lia)) as H'. by rewrite Z.max_r in H' by lia.
    + by rewrite Hp.
  - cbn [mbind option_bind]. pose proof (single_stage_spec len (Z.to_nat len) s k 0 out Hk ltac:(lia)) as H'.
    rewrite Z.add_0_r, Z.max_r in H' by lia. apply H'; [done | lia].
Qed.
End run.

(** ** What the functions compute *)

Lemma apply_el_write (f : Z -> Z -> Z) (c : Z -> Z) inp len out : 0 <= len <= zlen inp -> 0 <= len <= zlen out ->
  for_range 0 len (fun out i => apply_el f inp (c i) i out) out
  = Some (((fun i => f (c i) (inp !!! Z.to_nat i)) <$> seqZ 0 len) ++ drop (Z.to_nat len) out).
Proof.
  intros Hi Ho. rewrite <- for_range_write by done. apply for_range_ext. intros i t Hr. unfold apply_el.
  destruct (zget_some inp i) as [x Ex]; [unfold in_range; lia |]. rewrite Ex. cbn [mbind option_bind].
  rewrite zget_lookup in Ex by lia. by rewrite (list_lookup_total_correct _ _ _ Ex).
Qed.

Lemma init_registers X1 X2 seed : is_x1 X1 -> is_x2 seed X2 -> registers X1 X2 (srsran_sequence_state_init seed) 1600.
Proof. intros H1 H2. split; [by apply x1_init_window | by apply x2_init_window]. Qed.

Lemma chip_gold X1 X2 i : chip X1 X2 (1600 + i) = gold X1 X2 i.
Proof. unfold chip, gold. by rewrite Z.add_comm. Qed.

Lemma gold_bit X1 X2 i : gold X1 X2 i = 0 \/ gold X1 X2 i = 1.
Proof. unfold gold. destruct (xorb _ _); simpl; lia. Qed.

Section gold.
Context (X1 X2 : Z -> bool) (seed : Z).
Hypothesis H1 : is_x1 X1.
Hypothesis H2 : is_x2 seed X2.

(** A run from the seed is a loop over the bits of the standard's sequence. *)
Lemma seeded_run {A} (el : Z -> Z -> A -> option A) len out out' : 0 <= len < 2 ^ 32 ->
  for_range 0 len (fun out i => el (gold X1 X2 i) i out) out = Some out' ->
  exists s', sequence_run el len (srsran_sequence_state_init seed) out = Some (s', out') /\ registers X1 X2 s' (1600 + len).
Proof.
  intros Hlen E. pose proof (sequence_run_spec el X1 X2 seed H1 H2 len _ 1600 out Hlen ltac:(lia) (init_registers _ _ _ H1 H2)) as H.
  rewrite (for_range_ext _ _ _ (fun out i => el (gold X1 X2 i) i out)) in H by (intros; by rewrite chip_gold).
  by rewrite E in H.
Qed.

Lemma gen_gold pr len : 0 <= len <= zlen pr -> len < 2 ^ 32 ->
  sequence_gen_LTE_pr pr len seed = Some ((gold X1 X2 <$> seqZ 0 len) ++ drop (Z.to_nat len) pr).
Proof.
  intros Hl Hlen. unfold sequence_gen_LTE_pr.
  destruct (seeded_run (fun c i pr => zset pr i (u8 c)) len pr _ ltac:(lia) (for_range_write (fun i => u8 (gold X1 X2 i)) len pr Hl)) as (s' & -> & _).
  cbn. do 2 f_equal. apply list_fmap_ext. intros _ i _. by destruct (gold_bit X1 X2 i) as [-> | ->].
Qed.

(** [out[i] = f c(i) in[i]] *)
Definition applied (f : Z -> Z -> Z) (inp out : list Z) (len : Z) : list Z :=
  ((fun i => f (gold X1 X2 i) (inp !!! Z.to_nat i)) <$> seqZ 0 len) ++ drop (Z.to_nat len) out.

Lemma apply_gold f inp out len : 0 <= len <= zlen inp -> len <= zlen out -> len < 2 ^ 32 ->
  snd <$> sequence_run (apply_el f inp) len (srsran_sequence_state_init seed) out = Some (applied f inp out len).
Proof.
  intros Hi Ho Hlen.
  destruct (seeded_run (apply_el f inp) len out _ ltac:(lia) (apply_el_write f (gold X1 X2) inp len out ltac:(lia) ltac:(lia))) as (s' & -> & _).
  done.
Qed.

(** Twice applied, with an [f] that undoes itself on the values of the array. *)
Lemma applied_twice f (P : Z -> Prop) inp out1 out2 len :
  (forall c x, c = 0 \/ c = 1 -> P x -> f c (f c x) = x) -> Forall P inp -> zlen inp = len -> zlen out1 = len -> zlen out2 = len ->
  applied f (applied f inp out1 len) out2 len = inp.
Proof.
  intros Hf HP Hi H1' H2'. unfold applied. rewrite !drop_ge, !app_nil_r by (unfold zlen in *; lia).
  apply list_eq. intros i. rewrite list_lookup_fmap. destruct (Nat.lt_ge_cases i (length inp)) as [Hlt | Hge].
  - unfold zlen in Hi. rewrite lookup_seqZ_lt by lia. cbn [fmap option_fmap option_map]. rewrite Z.add_0_l, Nat2Z.id.
    set (h := fun i => f (gold X1 X2 i) (inp !!! Z.to_nat i)).
    assert ((h <$> seqZ 0 len) !! i = Some (h (Z.of_nat i))) as E by (by rewrite list_lookup_fmap, lookup_seqZ_lt, Z.add_0_l by lia).
    rewrite (list_lookup_total_correct _ _ _ E). unfold h. rewrite Nat2Z.id.
    destruct (lookup_lt_is_Some_2 inp i Hlt) as [x Ex]. rewrite Ex, (list_lookup_total_correct _ _ _ Ex).
    rewrite Hf; [done | apply gold_bit | by apply (Forall_lookup_1 _ _ _ _ HP Ex)].
  - rewrite lookup_seqZ_ge by (unfold zlen in Hi; lia). cbn. symmetry. by apply lookup_ge_None_2.
Qed.
End gold.

(** *** The sequences exist: those the single steps compute *)

Section shifted.
Context (taps : Z -> Z) (s0 : Z).
Hypothesis Hs0 : 0 <= s0 < 2 ^ 31.
Hypothesis Htaps : forall s, 0 <= s -> 0 <= taps s.

Definition reg (n : Z) : Z := Nat.iter (Z.to_nat n) (fun s => feed 1 (taps s) s) s0.
Definition stream (n : Z) : bool := Z.testbit (reg n) 0.

Lemma reg_next n : 0 <= n -> reg (n + 1) = feed 1 (taps (reg n)) (reg n).
Proof. intros Hn. unfold reg. replace (Z.to_nat (n + 1)) with (S (Z.to_nat n)) by lia. done. Qed.

Lemma feed_range f s : 0 <= s < 2 ^ 31 -> 0 <= feed 1 f s < 2 ^ 31.
Proof.
  intros Hs. pose proof (proj2 (proj1 (below_pow2 s 31 ltac:(lia)) Hs)) as Hhigh. apply below_pow2; [lia |]. split.
  - apply Z.lxor_nonneg. rewrite Z.shiftr_nonneg. split; [intros _; by apply (uwrap_is_uint 32) | lia].
  - intros i Hi. rewrite testbit_feed, Hhigh by lia. destruct (Z.ltb_spec i 31); [lia |]. by rewrite andb_false_r.
Qed.

Lemma reg_range n : 0 <= n -> 0 <= reg n < 2 ^ 31.
Proof.
  intros Hn. unfold reg. induction (Z.to_nat n) as [| m IH]; [done |]. rewrite Nat.iter_succ. by apply feed_range.
Qed.

Lemma reg_bit n i : 0 <= n -> 0 <= i < 31 -> Z.testbit (reg n) i = stream (n + i).
Proof.
  intros Hn Hi. remember (Z.to_nat i) as m eqn:Em. revert n i Hn Hi Em. induction m as [| m IH]; intros n i Hn Hi Em.
  - replace i with 0 by lia. unfold stream. by rewrite Z.add_0_r.
  - replace (n + i) with (n + 1 + (i - 1)) by lia. rewrite <- (IH (n + 1) (i - 1)), reg_next, testbit_feed by lia.
    destruct (Z.leb_spec (31 - 1) (i - 1)); [lia |]. cbn [andb]. rewrite xorb_false_r. f_equal. lia.
Qed.

Lemma stream_window n : 0 <= n -> window (reg n) stream n.
Proof. intros Hn. split; [by apply reg_range |]. intros i Hi. by apply reg_bit. Qed.

Lemma stream_next n : 0 <= n -> stream (n + 31) = Z.testbit (taps (reg n)) 0.
Proof.
  intros Hn. replace (n + 31) with (n + 1 + 30) by lia. rewrite <- reg_bit, reg_next, testbit_feed by lia. cbn [Z.leb Z.ltb Z.compare Pos.compare Pos.compare_cont andb].
  pose proof (proj2 (proj1 (below_pow2 _ 31 ltac:(lia)) (reg_range n Hn)) 31 ltac:(lia)) as E. change (30 + 1) with 31. by rewrite E.
Qed.
End shifted.

Definition gold_x1 : Z -> bool := stream (fun s => Z.lxor s (Z.shiftr s 3)) 1.
Definition gold_x2 (seed : Z) : Z -> bool := stream x2_taps (uwrap 31 seed).

Lemma gold_x1_standard : is_x1 gold_x1.
Proof.
  assert (forall s, 0 <= s -> 0 <= Z.lxor s (Z.shiftr s 3)) as Hp by (intros s Hs; apply Z.lxor_nonneg; rewrite Z.shiftr_nonneg; lia).
  split.
  - done.
  - intros n Hn. unfold gold_x1. rewrite <- (Z.add_0_l n), <- reg_bit by lia. change 1 with (2 ^ 0).
    change (reg (fun s => Z.lxor s (Z.shiftr s 3)) (2 ^ 0) 0) with (2 ^ 0). rewrite Z.pow2_bits_eqb by lia. by destruct (Z.eqb_spec 0 n); [lia |].
  - intros n Hn. unfold gold_x1. rewrite stream_next by lia. rewrite Z.lxor_spec, Z.shiftr_spec, !reg_bit, Z.add_0_r by lia. apply xorb_comm.
Qed.

Lemma gold_x2_standard seed : is_x2 seed (gold_x2 seed).
Proof.
  pose proof (uwrap_is_uint 31 seed ltac:(lia)) as Hs.
  split.
  - intros n Hn. unfold gold_x2. rewrite <- (Z.add_0_l n), <- reg_bit by (done || lia).
    change (reg x2_taps (uwrap 31 seed) 0) with (uwrap 31 seed). rewrite testbit_uwrap by lia. by destruct (Z.ltb_spec n 31); [| lia].
  - intros n Hn. unfold gold_x2. rewrite stream_next by (done || lia). unfold x2_taps.
    rewrite !Z.lxor_spec, !Z.shiftr_spec, !reg_bit, Z.add_0_r by (done || lia).
    replace (n + (0 + 1)) with (n + 1) by lia. replace (n + (0 + 2)) with (n + 2) by lia. replace (n + (0 + 3)) with (n + 3) by lia.
    by destruct (stream _ _ n), (stream _ _ (n + 1)), (stream _ _ (n + 2)), (stream _ _ (n + 3)).
Qed.

(** *** Undone by a second application *)

Lemma xor_bit_twice c x : c = 0 \/ c = 1 -> is_uint 8 x -> xor_bit c (xor_bit c x) = x.
Proof.
  intros Hc Hx. unfold xor_bit. assert (is_uint 8 (Z.lxor x c)) as H.
  - assert (is_uint 8 c) as Hc' by (unfold is_uint; lia). unfold is_uint in *.
    apply below_pow2; [lia |]. apply below_pow2 in Hx as [Hx Hbx]; [| lia]. apply below_pow2 in Hc' as [Hc' Hbc]; [| lia]. split; [by apply Z.lxor_nonneg |].
    intros i Hi. by rewrite Z.lxor_spec, Hbx, Hbc.
  - rewrite (uwrap_small 8 (Z.lxor x c)) by done. rewrite Z.lxor_assoc, Z.lxor_nilpotent, Z.lxor_0_r. by apply uwrap_small.
Qed.

Lemma signed_c_twice c x : c = 0 \/ c = 1 -> -128 <= x < 128 -> signed_c c (signed_c c x) = x.
Proof. intros [-> | ->] Hx; unfold signed_c, swrap; cbn [Z.eqb]; lia. Qed.

Lemma signed_s_twice c x : c = 0 \/ c = 1 -> -32768 <= x < 32768 -> signed_s c (signed_s c x) = x.
Proof. intros [-> | ->] Hx; unfold signed_s, swrap16, swrap; cbn [Z.eqb]; lia. Qed.

Lemma flip_sign_twice c x : flip_sign c (flip_sign c x) = x.
Proof. unfold flip_sign. by rewrite Z.lxor_assoc, Z.lxor_nilpotent, Z.lxor_0_r. Qed.

Lemma apply_twice f (P : Z -> Prop) inp out1 out2 seed :
  (forall c x, c = 0 \/ c = 1 -> P x -> f c (f c x) = x) -> Forall P inp -> zlen inp < 2 ^ 32 ->
  zlen out1 = zlen inp -> zlen out2 = zlen inp ->
  exists out, snd <$> sequence_run (apply_el f inp) (zlen inp) (srsran_sequence_state_init seed) out1 = Some out /\
    snd <$> sequence_run (apply_el f out) (zlen inp) (srsran_sequence_state_init seed) out2 = Some inp.
Proof.
  intros Hf HP Hlen H1 H2. pose proof (zlen_nonneg inp). pose proof (gold_x1_standard) as G1. pose proof (gold_x2_standard seed) as G2.
  exists (applied gold_x1 (gold_x2 seed) f inp out1 (zlen inp)).
  assert (zlen (applied gold_x1 (gold_x2 seed) f inp out1 (zlen inp)) = zlen inp) as Hz.
  { unfold applied. rewrite drop_ge, app_nil_r by (unfold zlen in *; lia). unfold zlen. rewrite length_fmap, length_seqZ. lia. }
  split; rewrite (apply_gold _ _ _ G1 G2) by lia; [done |]. f_equal. by apply (applied_twice _ _ f P).
Qed.

(** What is scrambled with a seed is descrambled with it: bits, soft bits of 8 and
    16 bits, the smallest ones included, and floats. *)
Theorem scrambling_undone seed inp out1 out2 :
  zlen inp < 2 ^ 32 -> zlen out1 = zlen inp -> zlen out2 = zlen inp ->
  (Forall (is_uint 8) inp -> exists out, srsran_sequence_apply_bit inp out1 (zlen inp) seed = Some out /\
     srsran_sequence_apply_bit out out2 (zlen inp) seed = Some inp) /\
  (Forall (fun x => -128 <= x < 128) inp -> exists out, srsran_sequence_apply_c inp out1 (zlen inp) seed = Some out /\
     srsran_sequence_apply_c out out2 (zlen inp) seed = Some inp) /\
  (Forall (fun x => -32768 <= x < 32768) inp -> exists out, srsran_sequence_apply_s inp out1 (zlen inp) seed = Some out /\
     srsran_sequence_apply_s out out2 (zlen inp) seed = Some inp) /\
  (exists out, srsran_sequence_apply_f inp out1 (zlen inp) seed = Some out /\
     srsran_sequence_apply_f out out2 (zlen inp) seed = Some inp).
Proof.
  intros Hl H1 H2. split_and!.
  - intros HP. by apply (apply_twice xor_bit (is_uint 8)); [apply xor_bit_twice | ..].
  - intros HP. by apply (apply_twice signed_c (fun x => -128 <= x < 128)); [apply signed_c_twice | ..].
  - intros HP. by apply (apply_twice signed_s (fun x => -32768 <= x < 32768)); [apply signed_s_twice | ..].
  - apply (apply_twice flip_sign (fun _ => True)); [intros; apply flip_sign_twice | by apply Forall_true | done..].
Qed.

(** *** The sequence object *)

(** Bit [i] of the packed bytes. *)
Definition packed_bit (packed : list Z) (i : Z) : bool := Z.testbit (packed !!! Z.to_nat (i / 8)) (7 - i mod 8).

Definition bits_needed (n : Z) : Z := (n + 7) / 8.

Lemma lookup_total_insert_ne {A} `{!Inhabited A} (l : list A) i j x : i <> j -> <[i := x]> l !!! j = l !!! j.
Proof. intros H. by rewrite !list_lookup_total_alt, list_lookup_insert_ne. Qed.

Lemma pack_vector_spec (g : Z -> bool) l packed n :
  0 <= n < 2 ^ 31 -> (forall k, 0 <= k < n -> zget l k = Some (Z.b2z (g k))) -> bits_needed n <= zlen packed ->
  exists packed', srsran_bit_pack_vector l packed n = Some packed' /\ zlen packed' = zlen packed /\
    forall i, 0 <= i < n -> packed_bit packed' i = g i.
Proof.
  intros Hn Hg Hp. unfold srsran_bit_pack_vector, bits_needed in *.
  loop_inv (fun i t => zlen t = zlen packed /\ forall k, 0 <= k < 8 * i -> packed_bit t k = g k) as (t & -> & Ht & Hbits).
  - lia.
  - split; [done | lia].
  - intros i t Hi [Ht Hb]. destruct (pack_run_spec (fun k => g (8 * i + k)) l (8 * i) 8) as (v & -> & Hv & Hvb); [lia | intros k Hk; apply Hg; lia |].
    cbn [mbind option_bind]. rewrite zset_in by (unfold in_range; lia). eexists. split; [done |]. split; [by rewrite zlen_insert |].
    intros k Hk. unfold packed_bit. rewrite (uwrap_small 8 v) by done. destruct (Z.eq_dec (k / 8) i) as [<- | Hne].
    + rewrite list_lookup_total_insert_eq by (unfold zlen in *; lia). replace (7 - k mod 8) with (8 - 1 - k mod 8) by lia.
      rewrite Hvb by lia. f_equal. lia.
    + rewrite lookup_total_insert_ne by lia. apply Hb. lia.
  - cbn [mbind option_bind]. destruct (Z.eqb_spec (n mod 8) 0); [exists t; split_and!; [done | done | intros i Hi; apply Hbits; lia] |].
    destruct (pack_run_spec (fun k => g (n / 8 * 8 + k)) l (n / 8 * 8) (n mod 8)) as (v & -> & Hv & Hvb); [lia | intros k Hk; apply Hg; lia |].
    cbn [mbind option_bind]. rewrite zset_in by (unfold in_range; lia). eexists. split; [done |]. split; [by rewrite zlen_insert |].
    intros k Hk. unfold packed_bit. destruct (Z.eq_dec (k / 8) (n / 8)) as [E | Hne]; [rewrite E | rewrite lookup_total_insert_ne by lia; apply Hbits; lia].
    rewrite list_lookup_total_insert_eq by (unfold zlen in *; lia). rewrite testbit_uwrap by lia.
    assert (2 ^ (n mod 8) <= 2 ^ 8) by (apply Z.pow_le_mono_r; lia). rewrite (uwrap_small 8 v) by (unfold is_uint; lia).
    destruct (Z.ltb_spec (7 - k mod 8) 8); [| lia]. cbn [andb].
    rewrite Z.shiftl_spec by lia. replace (7 - k mod 8 - (8 - n mod 8)) with (n mod 8 - 1 - k mod 8) by lia. rewrite Hvb by lia. f_equal. lia.
Qed.

(** The first [len] elements of an array replaced by the signs of bits. *)
Definition signs (g : Z -> Z) (len : Z) (l : list Z) : list Z := ((fun i => 1 - 2 * g i) <$> seqZ 0 len) ++ drop (Z.to_nat len) l.

Lemma signs_spec g len l : 0 <= len <= zlen l ->
  zlen (signs g len l) = zlen l /\ take (Z.to_nat len) (signs g len l) = ((fun i => 1 - 2 * g i) <$> seqZ 0 len).
Proof.
  intros Hl. assert (length ((fun i => 1 - 2 * g i) <$> seqZ 0 len) = Z.to_nat len) as H by (by rewrite length_fmap, length_seqZ).
  unfold signs. split; [unfold zlen in *; rewrite length_app, H, length_drop; lia | by rewrite take_app_le, take_ge by lia].
Qed.

(** The signed arrays, from the bits. *)
Lemma generate_signed_spec (c ch sh fl : list Z) (g : Z -> Z) len :
  0 <= len <= zlen c -> len <= zlen ch -> len <= zlen sh -> len <= zlen fl ->
  (forall i, 0 <= i < len -> zget c i = Some (g i) /\ (g i = 0 \/ g i = 1)) ->
  sequence_generate_signed c ch sh fl len = Some (signs g len ch, signs g len sh, signs g len fl).
Proof.
  intros Hl Hch Hsh Hfl Hg. unfold sequence_generate_signed, signs. set (h := fun i => 1 - 2 * g i).
  transitivity (ch ← for_range 0 len (fun t i => zset t i (h i)) ch; sh ← for_range 0 len (fun t i => zset t i (h i)) sh;
    fl ← for_range 0 len (fun t i => zset t i (h i)) fl; Some (ch, sh, fl));
    [| by rewrite !for_range_write by lia].
  rewrite !for_range_write by lia. cbn [mbind option_bind].
  loop_inv (fun i t => t = (((h <$> seqZ 0 i) ++ drop (Z.to_nat i) ch), ((h <$> seqZ 0 i) ++ drop (Z.to_nat i) sh), ((h <$> seqZ 0 i) ++ drop (Z.to_nat i) fl)))
    as (t & -> & ->); [lia | done | | done].
  intros i t Hi ->. destruct (Hg i Hi) as [-> Hb]. cbn [mbind option_bind].
  assert ((if g i =? 0 then 1 else -1) = h i) as -> by (unfold h; destruct Hb as [-> | ->]; done).
  assert (forall l, i < zlen l -> zset ((h <$> seqZ 0 i) ++ drop (Z.to_nat i) l) i (h i)
    = Some ((h <$> seqZ 0 (i + 1)) ++ drop (Z.to_nat (i + 1)) l)) as Hset.
  { intros l Hli. pose proof (for_range_write h (i + 1) l ltac:(lia)) as H1. unfold for_range in H1.
    rewrite Z.sub_0_r, seqZ_snoc, foldM_app in H1 by lia. pose proof (for_range_write h i l ltac:(lia)) as H0. unfold for_range in H0.
    rewrite Z.sub_0_r in H0. rewrite H0 in H1. cbn [mbind option_bind foldM] in H1. rewrite seqZ_snoc by lia. by destruct (zset _ i (h i)). }
  rewrite !Hset by lia. eexists. split; [done |]. done.
Qed.

(** The arrays of an object: allocated together, for [q_max_len] bits. *)
Definition arrays_ok (q : srsran_sequence_t) : Prop :=
  match q_c q with
  | None => True
  | Some c => zlen c = q_max_len q /\ zlen (q_c_bytes q) = q_max_len q / 8 + 8 /\ zlen (q_c_float q) = q_max_len q /\
      zlen (q_c_short q) = q_max_len q /\ zlen (q_c_char q) = q_max_len q
  end.

(** A [malloc] that succeeds. *)
Definition alloc_ok (alloc : Z -> option (list Z)) : Prop := forall n, 0 <= n -> exists l, alloc n = Some l /\ zlen l = n.

Lemma init_spec alloc q len : alloc_ok alloc -> 0 <= len -> arrays_ok q ->
  exists q' c, srsran_sequence_init alloc q len = (SRSRAN_SUCCESS, q') /\ q_c q' = Some c /\ arrays_ok q' /\ len <= q_max_len q'.
Proof.
  intros Ha Hl Hq. unfold srsran_sequence_init.
  set (q1 := match q_c q with Some _ => _ | None => _ end).
  assert (arrays_ok q1 /\ (q_c q1 = None \/ len <= q_max_len q1)) as [Hq1 Hlen].
  { unfold q1. destruct (q_c q) eqn:E; [| split; [done | by left]]. destruct (Z.ltb_spec (q_max_len q) len); [split; [done | by left] | split; [done | by right]]. }
  clearbody q1. destruct (q_c q1) as [c |] eqn:E.
  { exists q1, c. split_and!; [done | done | done |]. by destruct Hlen. }
  destruct (Ha len Hl) as (c & -> & Hc). destruct (Ha (len / 8 + 8)) as (b & -> & Hb); [lia |].
  eexists _, c. split_and!; [done | done | | done]. unfold arrays_ok. cbn. by split_and!.
Qed.

(** The object of a seed, and what its arrays hold. *)
Lemma sequence_spec alloc q len seed X1 X2 :
  alloc_ok alloc -> arrays_ok q -> 0 <= len < 2 ^ 31 -> is_x1 X1 -> is_x2 seed X2 ->
  exists q' c, srsran_sequence_LTE_pr alloc q len seed = Some (SRSRAN_SUCCESS, q') /\ arrays_ok q' /\ q_cur_len q' = len /\
    q_c q' = Some c /\ take (Z.to_nat len) c = (gold X1 X2 <$> seqZ 0 len) /\
    (forall i, 0 <= i < len -> packed_bit (q_c_bytes q') i = (gold X1 X2 i =? 1)) /\
    (forall l, l = q_c_char q' \/ l = q_c_short q' \/ l = q_c_float q' -> take (Z.to_nat len) l = ((fun i => 1 - 2 * gold X1 X2 i) <$> seqZ 0 len)).
Proof.
  intros Ha Hq Hlen H1 H2. destruct (init_spec alloc q len Ha ltac:(lia) Hq) as (q1 & c & Ei & Ec & Hq1 & Hmax).
  unfold srsran_sequence_LTE_pr. rewrite Ei. cbn [negb Z.eqb SRSRAN_SUCCESS].
  unfold arrays_ok in Hq1. rewrite Ec in *. destruct Hq1 as (Lc & Lb & Lf & Ls & Lch).
  unfold srsran_sequence_set_LTE_pr. cbn [q_max_len q_c mbind option_bind]. destruct (Z.ltb_spec (q_max_len q1) len); [lia |].
  rewrite (gen_gold X1 X2 seed H1 H2) by lia. cbn [mbind option_bind q_c q_c_bytes q_c_char q_c_short q_c_float q_cur_len q_max_len].
  set (c' := (gold X1 X2 <$> seqZ 0 len) ++ drop (Z.to_nat len) c).
  assert (length (gold X1 X2 <$> seqZ 0 len) = Z.to_nat len) as Hl by (by rewrite length_fmap, length_seqZ).
  assert (zlen c' = q_max_len q1) as Lc' by (unfold zlen, c' in *; rewrite length_app, Hl, length_drop; lia).
  assert (forall i, 0 <= i < len -> zget c' i = Some (gold X1 X2 i)) as Hget.
  { intros i Hi. rewrite zget_lookup by lia. unfold c'. rewrite lookup_app_l by lia. rewrite list_lookup_fmap, lookup_seqZ_lt by lia. cbn. do 2 f_equal. lia. }
  destruct (pack_vector_spec (fun i => gold X1 X2 i =? 1) c' (q_c_bytes q1) len) as (b & -> & Lb' & Hb); [lia | | unfold bits_needed; lia |].
  { intros i Hi. rewrite Hget by done. by destruct (gold_bit X1 X2 i) as [-> | ->]. }
  cbn [mbind option_bind]. rewrite (generate_signed_spec c' _ _ _ (gold X1 X2) len) by first [lia | intros i Hi; split; [by apply Hget | apply gold_bit]].
  cbn [mbind option_bind].
  destruct (signs_spec (gold X1 X2) len (q_c_float q1)) as [Lf' Tf], (signs_spec (gold X1 X2) len (q_c_short q1)) as [Ls' Ts],
    (signs_spec (gold X1 X2) len (q_c_char q1)) as [Lch' Tch]; [lia.. |].
  eexists _, c'. split; [done |]. split; [unfold arrays_ok; cbn; split_and!; congruence |]. split; [done |]. split; [done |].
  split; [unfold c'; by rewrite take_app_le, take_ge by lia |]. split; [exact Hb |].
  intros l [-> | [-> | ->]]; done.
Qed.

(** C24: the sequence object of a seed holds the sequence of the standard: its bits, the
    same packed into bytes, and as signs of 8 and 16 bits and of floats. *)
Theorem sequence_is_standard alloc q len seed X1 X2 :
  alloc_ok alloc -> arrays_ok q -> 0 <= len < 2 ^ 31 -> is_x1 X1 -> is_x2 seed X2 ->
  exists q' c, srsran_sequence_LTE_pr alloc q len seed = Some (SRSRAN_SUCCESS, q') /\ arrays_ok q' /\ q_cur_len q' = len /\
    q_c q' = Some c /\ take (Z.to_nat len) c = (gold X1 X2 <$> seqZ 0 len) /\
    (forall i, 0 <= i < len -> packed_bit (q_c_bytes q') i = (gold X1 X2 i =? 1)) /\
    (forall l, l = q_c_char q' \/ l = q_c_short q' \/ l = q_c_float q' -> take (Z.to_nat len) l = ((fun i => 1 - 2 * gold X1 X2 i) <$> seqZ 0 len)).
Proof. apply sequence_spec. Qed.

(** ** Packed bits *)

(** The reversal table of the packed bits. *)
Lemma reverse_lut_spec b k : 0 <= b < 256 -> 0 <= k < 8 -> exists r, zget reverse_lut b = Some r /\ Z.testbit r k = Z.testbit b (7 - k).
Proof.
  intros Hb Hk.
  assert (forallb (fun b => match zget reverse_lut b with
    | Some r => forallb (fun k => Bool.eqb (Z.testbit r k) (Z.testbit b (7 - k))) (seqZ 0 8) | None => false end) (seqZ 0 256) = true) as H
    by (by vm_compute).
  pose proof (forallb_below _ _ H b Hb) as Hr. cbv beta in Hr. destruct (zget reverse_lut b) as [r |]; [| done]. exists r. split; [done |].
  by apply Bool.eqb_true_iff, (forallb_below _ _ Hr).
Qed.

(** One byte: its bits, the first the highest, are those of the input and of the register. *)
Lemma packed_byte_spec (g : Z -> bool) inp c i out :
  in_range inp i -> in_range out i -> (forall m, 0 <= m < 8 -> Z.testbit c m = g m) ->
  exists out', packed_byte inp c i out = Some out' /\ zlen out' = zlen out /\
    (forall k, 0 <= k -> k / 8 <> i -> packed_bit out' k = packed_bit out k) /\
    (forall m, 0 <= m < 8 -> packed_bit out' (8 * i + m) = xorb (packed_bit inp (8 * i + m)) (g m)).
Proof.
  unfold in_range. intros Hi Ho Hc. unfold packed_byte.
  assert (forall m, 0 <= m -> Z.testbit (Z.land c 255) m = (m <? 8) && Z.testbit c m) as Hland.
  { intros m Hm. rewrite Z.land_spec. change 255 with (Z.shiftl 1 8 - 1). rewrite testbit_mask by lia. apply andb_comm. }
  assert (0 <= Z.land c 255 < 2 ^ 8) as Hr.
  { apply below_pow2; [lia |]. split; [apply Z.land_nonneg; lia |]. intros m Hm. rewrite Hland by lia. by destruct (Z.ltb_spec m 8); [lia |]. }
  assert (exists r, zget reverse_lut (Z.land c 255) = Some r /\ forall m, 0 <= m < 8 -> Z.testbit r (7 - m) = g m) as (r & -> & Hbits).
  { destruct (reverse_lut_spec (Z.land c 255) 0) as (r & Er & _); [lia.. |]. exists r. split; [done |]. intros m Hm.
    destruct (reverse_lut_spec (Z.land c 255) (7 - m)) as (r' & Er' & Hb); [lia.. |]. rewrite Er in Er'. injection Er' as <-.
    rewrite Hb, Hland by lia. destruct (Z.ltb_spec (7 - (7 - m)) 8); [| lia]. cbn [andb]. rewrite <- Hc by done. f_equal. lia. }
  destruct (zget_some inp i) as [x Ex]; [done |]. rewrite Ex. cbn [mbind option_bind]. rewrite zset_in by done.
  eexists. split; [done |]. split; [by rewrite zlen_insert |]. split.
  - intros k Hk Hne. unfold packed_bit. rewrite lookup_total_insert_ne by lia. done.
  - intros m Hm. unfold packed_bit. replace ((8 * i + m) / 8) with i by lia. replace ((8 * i + m) mod 8) with m by lia.
    rewrite list_lookup_total_insert_eq by (unfold zlen in *; lia). rewrite Z.lxor_spec, Hbits by done.
    rewrite zget_lookup in Ex by lia. by rewrite (list_lookup_total_correct _ _ _ Ex).
Qed.

Section packed.
Context (X1 X2 : Z -> bool) (seed : Z) (inp : list Z) (len : Z).
Hypothesis H1 : is_x1 X1.
Hypothesis H2 : is_x2 seed X2.
Hypothesis Hlen : 16 <= len < 2 ^ 32.
Hypothesis Hinp : bits_needed len <= zlen inp.

Definition gold_bool (n : Z) : bool := xorb (X1 (n + 1600)) (X2 (n + 1600)).

(** The first [n] bits of [out] are scrambled. *)
Definition scrambled (n : Z) (out : list Z) : Prop :=
  bits_needed len <= zlen out /\ forall k, 0 <= k < n -> packed_bit out k = xorb (packed_bit inp k) (gold_bool k).

Lemma registers_byte s n j m : registers X1 X2 s (1600 + n) -> 0 <= j -> 0 <= m -> j + m < 31 ->
  Z.testbit (Z.shiftr (Z.lxor (x1 s) (x2 s)) j) m = gold_bool (n + j + m).
Proof.
  intros [[_ W1] [_ W2]] Hj Hm Hjm. rewrite Z.shiftr_spec, Z.lxor_spec, W1, W2 by lia. unfold gold_bool.
  by replace (n + j + m + 1600) with (1600 + n + (m + j)) by lia.
Qed.

(** The next [b] bytes, from a register that is at the first of them. *)
Lemma packed_bytes s i b out : registers X1 X2 s (1600 + 8 * i) -> 0 <= i -> 0 <= b <= 3 -> i + b <= len / 8 -> scrambled (8 * i) out ->
  exists out', for_range 0 b (fun out j => packed_byte inp (Z.shiftr (Z.lxor (x1 s) (x2 s)) (8 * j)) (i + j) out) out = Some out' /\
    scrambled (8 * (i + b)) out'.
Proof.
  intros Hs Hi Hb Hend Hout. unfold bits_needed in *.
  loop_inv (fun j t => scrambled (8 * (i + j)) t) as (t & -> & Ht); [lia | by rewrite Z.add_0_r | | by exists t].
  intros j t Hj [Hz Ht]. unfold bits_needed in Hz.
  destruct (packed_byte_spec (fun m => gold_bool (8 * i + 8 * j + m)) inp (Z.shiftr (Z.lxor (x1 s) (x2 s)) (8 * j)) (i + j) t)
    as (t' & -> & Hz' & Hold & Hnew); [unfold in_range; lia | unfold in_range; lia | intros m Hm; apply registers_byte; (done || lia) |].
  exists t'. split; [done |]. split; [by rewrite Hz' |]. intros k Hk. destruct (Z.lt_ge_cases k (8 * (i + j))).
  - rewrite Hold by lia. apply Ht. lia.
  - replace k with (8 * (i + j) + (k - 8 * (i + j))) by lia. rewrite Hnew by lia. do 2 f_equal. lia.
Qed.

Lemma packed_stage_spec fuel : forall s i out, registers X1 X2 s (1600 + 8 * i) -> 0 <= i <= len / 8 -> scrambled (8 * i) out ->
  len / 8 - i < Z.of_nat fuel ->
  exists s' i' out', packed_stage fuel inp len s i out = Some (s', i', out') /\ len / 8 - 2 <= i' <= len / 8 /\ 0 <= i' /\
    registers X1 X2 s' (1600 + 8 * i') /\ scrambled (8 * i') out'.
Proof.
  assert (u32 (len / 8 - (SEQUENCE_PAR_BITS - 1) / 8) = len / 8 - 2) as Eu
    by (change ((SEQUENCE_PAR_BITS - 1) / 8) with 2; apply uwrap_small; unfold is_uint; lia).
  induction fuel as [| fuel IH]; intros s i out Hs Hi Hout Hf; [lia |]. cbn [packed_stage]. rewrite Eu.
  destruct (Z.ltb_spec i (len / 8 - 2)) as [Hlt | Hge]; [| exists s, i, out; split_and!; (done || lia)].
  change (SEQUENCE_PAR_BITS / 8) with 3. destruct (packed_bytes s i 3 out Hs) as (out1 & -> & Ho1); [lia | lia | lia | done |].
  cbn [mbind option_bind]. apply IH; [| lia | done | lia].
  replace (1600 + 8 * (i + 3)) with (1600 + 8 * i + 24) by lia. apply (step_par_registers _ _ seed); (done || lia).
Qed.

Lemma apply_packed_spec out : bits_needed len <= zlen out ->
  exists out', srsran_sequence_apply_packed inp out len seed = Some out' /\ scrambled len out'.
Proof.
  intros Hout. unfold srsran_sequence_apply_packed.
  destruct (packed_stage_spec (S (Z.to_nat len)) (srsran_sequence_state_init seed) 0 out) as (s & i & out1 & -> & Hi & Hi0 & Hs & Ho1);
    [by apply init_registers | lia | split; [done | lia] | lia |].
  cbn [mbind option_bind].
  destruct (packed_bytes s i (len / 8 - i) out1 Hs) as (out2 & E & Ho2); [lia | lia | lia | done |].
  pose proof (for_range_shift i (len / 8 - i) (fun out j => packed_byte inp (Z.shiftr (Z.lxor (x1 s) (x2 s)) (8 * (j - i))) j out) out1) as Esh.
  replace (i + (len / 8 - i)) with (len / 8) in Esh by lia. rewrite Esh. clear Esh.
  erewrite for_range_ext; [| intros j t Hj; replace (i + j - i) with j by lia; reflexivity]. rewrite E.
  cbn [mbind option_bind]. replace (8 * (i + (len / 8 - i))) with (8 * (len / 8)) in Ho2 by lia.
  destruct (Z.eqb_spec (len mod 8) 0) as [E0 |]; [exists out2; split; [done |]; by replace (8 * (len / 8)) with len in Ho2 by lia |].
  rewrite Z.max_r by lia. destruct Ho2 as [Hz Hold]. unfold bits_needed in *.
  destruct (packed_byte_spec (fun m => (m <? len mod 8) && gold_bool (8 * (len / 8) + m)) inp
    (Z.land (Z.shiftr (Z.lxor (x1 s) (x2 s)) (8 * (len / 8 - i))) (Z.shiftl 1 (len mod 8) - 1)) (len / 8) out2)
    as (out3 & -> & Hz3 & Hk & Hnew); [unfold in_range; lia | unfold in_range; lia | |].
  { intros m Hm. rewrite Z.land_spec, testbit_mask, andb_comm, (registers_byte s (8 * i)) by (done || lia). do 2 f_equal. lia. }
  exists out3. split; [done |]. split; [unfold bits_needed; lia |]. intros k Hk'. destruct (Z.lt_ge_cases k (8 * (len / 8))).
  - rewrite Hk by lia. apply Hold. lia.
  - replace k with (8 * (len / 8) + (k - 8 * (len / 8))) by lia. rewrite Hnew by lia.
    by destruct (Z.ltb_spec (k - 8 * (len / 8)) (len mod 8)); [| lia].
Qed.
End packed.

(** Scrambling packed bits is scrambling the bits, for sequences of at least two bytes. *)
Theorem packed_is_bitwise seed inp out len X1 X2 :
  is_x1 X1 -> is_x2 seed X2 -> 16 <= len < 2 ^ 32 -> bits_needed len <= zlen inp -> bits_needed len <= zlen out ->
  exists out', srsran_sequence_apply_packed inp out len seed = Some out' /\
    forall k, 0 <= k < len -> packed_bit out' k = xorb (packed_bit inp k) (gold X1 X2 k =? 1).
Proof.
  intros H1 H2 Hlen Hi Ho. destruct (apply_packed_spec X1 X2 seed inp len H1 H2 Hlen Hi out Ho) as (out' & E & _ & Hb).
  exists out'. split; [done |]. intros k Hk. rewrite Hb by done. f_equal. unfold gold_bool, gold. by destruct (xorb (X1 _) _).
Qed.

(** ** Examples *)

Definition some_alloc (n : Z) : option (list Z) := Some (replicate (Z.to_nat n) 7).
Definition no_sequence : srsran_sequence_t := Sequence None [] [] [] [] 0 0.

Lemma some_alloc_ok : alloc_ok some_alloc.
Proof. intros n Hn. eexists. split; [done |]. unfold zlen. rewrite length_replicate. lia. Qed.

(** The sequence of the control channel in slot 4 of cell 7. *)
Lemma sequence_is_standard_witness :
  exists q' c, srsran_sequence_LTE_pr some_alloc no_sequence 72 1031 = Some (SRSRAN_SUCCESS, q') /\ arrays_ok q' /\ q_cur_len q' = 72 /\
    q_c q' = Some c /\ take 72 c = (gold gold_x1 (gold_x2 1031) <$> seqZ 0 72) /\
    (forall i, 0 <= i < 72 -> packed_bit (q_c_bytes q') i = (gold gold_x1 (gold_x2 1031) i =? 1)) /\
    (forall l, l = q_c_char q' \/ l = q_c_short q' \/ l = q_c_float q' -> take 72 l = ((fun i => 1 - 2 * gold gold_x1 (gold_x2 1031) i) <$> seqZ 0 72)).
Proof.
  apply (sequence_is_standard some_alloc no_sequence 72 1031 gold_x1 (gold_x2 1031));
    [apply some_alloc_ok | done | lia | apply gold_x1_standard | apply gold_x2_standard].
Defined.

Lemma scrambling_undone_witness : exists out, srsran_sequence_apply_c [-128; 5; 0; 127] [0; 0; 0; 0] 4 1031 = Some out /\
  srsran_sequence_apply_c out [0; 0; 0; 0] 4 1031 = Some [-128; 5; 0; 127].
Proof.
  refine (proj1 (proj2 (scrambling_undone 1031 [-128; 5; 0; 127] [0; 0; 0; 0] [0; 0; 0; 0] _ _ _)) _); [done | done | done |].
  repeat constructor; lia.
Defined.

(** Fewer than sixteen bits: the bound of the loop, [length / 8 - 2], is below zero, and the loop
    leaves the arrays. *)
Example short_packed : srsran_sequence_apply_packed [1] [0] 8 1031 = None.
Proof. by vm_compute. Qed.

Lemma packed_is_bitwise_witness :
  exists out', srsran_sequence_apply_packed [1; 2; 3] [0; 0; 0] 20 1031 = Some out' /\
    forall k, 0 <= k < 20 -> packed_bit out' k = xorb (packed_bit [1; 2; 3] k) (gold gold_x1 (gold_x2 1031) k =? 1).
Proof.
  apply (packed_is_bitwise 1031 [1; 2; 3] [0; 0; 0] 20 gold_x1 (gold_x2 1031));
    [apply gold_x1_standard | apply gold_x2_standard | lia | by vm_compute | by vm_compute].
Defined.
