(* ===== verification/Regs.v ===== *)
(** * Resource element groups of the control region ([lib/src/phy/phch/regs.c])

    The first symbols of a subframe are cut into groups of four resource elements (REGs), which
    PCFICH, PHICH and PDCCH share: the code numbers the groups of a cell, gives four to PCFICH
    and three to every PHICH group, interleaves the others for PDCCH, once for every length of
    the control region, and copies symbols to and from the grid by them. Pointers to a group are
    indices into the array of the groups. *)

From S2P Require Export ConvCode PhyCommon.

(** ** Data *)

Inductive srsran_phich_length_t := SRSRAN_PHICH_NORM | SRSRAN_PHICH_EXT.
Inductive srsran_phich_r_t := SRSRAN_PHICH_R_1_6 | SRSRAN_PHICH_R_1_2 | SRSRAN_PHICH_R_1 | SRSRAN_PHICH_R_2.

#[export] Instance srsran_phich_length_t_eq_dec : EqDecision srsran_phich_length_t.
Proof. solve_decision. Defined.

Definition REGS_PHICH_NSYM : Z := 12.
Definition REGS_PHICH_REGS_X_GROUP : Z := 3.
Definition REGS_PCFICH_NSYM : Z := 16.
Definition REGS_PCFICH_NREGS : Z := 4.
Definition REGS_RE_X_REG : Z := 4.

Record srsran_regs_reg_t := Reg { reg_k : list Z; reg_k0 : Z; reg_l : Z; reg_assigned : bool }.
Record srsran_regs_ch_t := RegsCh { ch_nof_regs : Z; ch_regs : list Z }.

Record srsran_regs_t := Regs {
  rg_cell : srsran_cell_t; rg_max_ctrl_symbols : Z; rg_ngroups_phich : Z; rg_ngroups_phich_m1 : Z;
  rg_phich_res : srsran_phich_r_t; rg_phich_len : srsran_phich_length_t;
  rg_pcfich : srsran_regs_ch_t; rg_phich : list srsran_regs_ch_t; rg_pdcch : list srsran_regs_ch_t;
  rg_phich_mi : Z; rg_nof_regs : Z; rg_regs : list srsran_regs_reg_t
}.

(** The object cleared by [bzero]. *)
Definition zero_ch : srsran_regs_ch_t := RegsCh 0 [].
Definition zero_regs : srsran_regs_t :=
  Regs (Cell 0 0 0 SRSRAN_CP_NORM SRSRAN_FDD) 0 0 0 SRSRAN_PHICH_R_1_6 SRSRAN_PHICH_NORM zero_ch [] [zero_ch; zero_ch; zero_ch] 0 0 [].

Definition upd_pcfich (h : srsran_regs_t) (ch : srsran_regs_ch_t) : srsran_regs_t :=
  Regs (rg_cell h) (rg_max_ctrl_symbols h) (rg_ngroups_phich h) (rg_ngroups_phich_m1 h) (rg_phich_res h) (rg_phich_len h)
    ch (rg_phich h) (rg_pdcch h) (rg_phich_mi h) (rg_nof_regs h) (rg_regs h).
Definition upd_regs (h : srsran_regs_t) (regs : list srsran_regs_reg_t) : srsran_regs_t :=
  Regs (rg_cell h) (rg_max_ctrl_symbols h) (rg_ngroups_phich h) (rg_ngroups_phich_m1 h) (rg_phich_res h) (rg_phich_len h)
    (rg_pcfich h) (rg_phich h) (rg_pdcch h) (rg_phich_mi h) (rg_nof_regs h) regs.
Definition upd_phich (h : srsran_regs_t) (ngroups m1 : Z) (phich : list srsran_regs_ch_t) : srsran_regs_t :=
  Regs (rg_cell h) (rg_max_ctrl_symbols h) ngroups m1 (rg_phich_res h) (rg_phich_len h)
    (rg_pcfich h) phich (rg_pdcch h) (rg_phich_mi h) (rg_nof_regs h) (rg_regs h).
Definition upd_phich_mi (h : srsran_regs_t) (mi : Z) : srsran_regs_t :=
  Regs (rg_cell h) (rg_max_ctrl_symbols h) (rg_ngroups_phich h) (rg_ngroups_phich_m1 h) (rg_phich_res h) (rg_phich_len h)
    (rg_pcfich h) (rg_phich h) (rg_pdcch h) mi (rg_nof_regs h) (rg_regs h).
Definition upd_pdcch (h : srsran_regs_t) (pdcch : list srsran_regs_ch_t) : srsran_regs_t :=
  Regs (rg_cell h) (rg_max_ctrl_symbols h) (rg_ngroups_phich h) (rg_ngroups_phich_m1 h) (rg_phich_res h) (rg_phich_len h)
    (rg_pcfich h) (rg_phich h) pdcch (rg_phich_mi h) (rg_nof_regs h) (rg_regs h).

(** ** Numbering the groups *)

(** Groups in a block of a symbol; [None] is [SRSRAN_ERROR], -1. *)
Definition regs_num_x_symbol (symbol nof_port : Z) (cp : srsran_cp_t) : option Z :=
  if symbol =? 0 then Some 2
  else if symbol =? 1 then
    (if (nof_port =? 1) || (nof_port =? 2) then Some 3 else if nof_port =? 4 then Some 2 else None)
  else if symbol =? 2 then Some 3
  else if symbol =? 3 then (match cp with SRSRAN_CP_NORM => Some 3 | SRSRAN_CP_EXT => Some 2 end)
  else None.

(** The next entry of [k]. *)
Definition put_k (st : list Z * Z) (x : Z) : option (list Z * Z) :=
  let '(k, j) := st in k ← zset k j (u32 x); Some (k, j + 1).

Definition regs_reg_init (reg : srsran_regs_reg_t) (symbol nreg k0 maxreg vo : Z) : option (Z * srsran_regs_reg_t) :=
  if maxreg =? 2 then
    let r0 := u32 (k0 + nreg * 6) in
    st ← for_range 0 vo (fun st i => put_k st (k0 + nreg * 6 + i)) (reg_k reg, 0);
    st ← for_range 0 2 (fun st i => put_k st (k0 + nreg * 6 + i + vo + 1)) st;
    let z := snd st in
    '(k, j) ← for_range 0 (u32 (4 - z)) (fun st i => put_k st (k0 + nreg * 6 + vo + 3 + i + 1)) st;
    Some (if negb (j =? 4) then SRSRAN_ERROR else SRSRAN_SUCCESS, Reg k r0 symbol false)
  else if maxreg =? 3 then
    k ← for_range 0 4 (fun k i => zset k i (u32 (k0 + nreg * 4 + i))) (reg_k reg);
    Some (SRSRAN_SUCCESS, Reg k (u32 (k0 + nreg * 4)) symbol false)
  else Some (SRSRAN_ERROR, Reg (reg_k reg) (reg_k0 reg) symbol false).

(** The state of the loop over the groups: they are numbered by block, by the three places of a
    group in a block, and by symbol; [j] counts the groups of each symbol in the block. *)
Record fill := Fill { fl_regs : list srsran_regs_reg_t; fl_k : Z; fl_i : Z; fl_prb : Z; fl_jmax : Z; fl_j : list Z }.

Definition fill_reg (n : list Z) (vo : Z) (s : fill) : option (Z * fill) :=
  n_i ← zget n (fl_i s);
  if (n_i =? 3) || ((n_i =? 2) && negb (fl_jmax s =? 1)) then
    r ← zget (fl_regs s) (fl_k s); j ← zget (fl_j s) (fl_i s);
    '(c, r) ← regs_reg_init r (fl_i s) j (u32 (fl_prb s * SRSRAN_NRE)) n_i vo;
    regs ← zset (fl_regs s) (fl_k s) r;
    if negb (c =? 0) then Some (SRSRAN_ERROR, Fill regs (fl_k s) (fl_i s) (fl_prb s) (fl_jmax s) (fl_j s))
    else js ← zset (fl_j s) (fl_i s) (j + 1); Some (0, Fill regs (fl_k s + 1) (fl_i s) (fl_prb s) (fl_jmax s) js)
  else Some (0, s).

Definition fill_next (max_ctrl_symbols : Z) (s : fill) : fill :=
  let i := fl_i s + 1 in
  let '(i, jmax) := if i =? max_ctrl_symbols then (0, fl_jmax s + 1) else (i, fl_jmax s) in
  if jmax =? 3 then Fill (fl_regs s) (fl_k s) i (fl_prb s + 1) 0 [0; 0; 0; 0]
  else Fill (fl_regs s) (fl_k s) i (fl_prb s) jmax (fl_j s).

(** [while (k < nof_regs)] *)
Fixpoint fill_loop (fuel : nat) (n : list Z) (vo max_ctrl_symbols nof_regs : Z) (s : fill) : option (Z * fill) :=
  if fl_k s <? nof_regs then
    match fuel with
    | O => None
    | S fuel =>
        '(c, s) ← fill_reg n vo s;
        if negb (c =? 0) then Some (c, s) else fill_loop fuel n vo max_ctrl_symbols nof_regs (fill_next max_ctrl_symbols s)
    end
  else Some (0, s).

(** ** PCFICH *)

(** The pointer, or null. *)
Definition regs_find_reg (h : srsran_regs_t) (k l : Z) : option (option Z) :=
  for_range 0 (rg_nof_regs h) (fun found i =>
    match found with
    | Some _ => Some found
    | None => r ← zget (rg_regs h) i; Some (if (reg_l r =? l) && (reg_k0 r =? k) then Some i else None)
    end) None.

Definition assign (regs : list srsran_regs_reg_t) (p : Z) : option (list srsran_regs_reg_t) :=
  r ← zget regs p; zset regs p (Reg (reg_k r) (reg_k0 r) (reg_l r) true).

(** A turn of the loop of [regs_pcfich_init]; after an error nothing else happens. *)
Definition pcfich_reg (k_hat : Z) (st : Z * srsran_regs_t) (i : Z) : option (Z * srsran_regs_t) :=
  let '(c, h) := st in
  if negb (c =? 0) then Some (c, h)
  else
    let N := nof_prb (rg_cell h) in
    let k := u32 (k_hat + i * N / 2 * (SRSRAN_NRE / 2)) mod (N * SRSRAN_NRE) in
    p ← regs_find_reg h k 0;
    match p with
    | None => Some (SRSRAN_ERROR, h)
    | Some p =>
        regs ← zset (ch_regs (rg_pcfich h)) i p;
        let h := upd_pcfich h (RegsCh (ch_nof_regs (rg_pcfich h)) regs) in
        r ← zget (rg_regs h) p;
        if reg_assigned r then Some (SRSRAN_ERROR, h) else regs ← assign (rg_regs h) p; Some (SRSRAN_SUCCESS, upd_regs h regs)
    end.

(** [mem n] is what a new block of [n] pointers holds. *)
Definition regs_pcfich_init (mem : Z -> list Z) (h : srsran_regs_t) : option (Z * srsran_regs_t) :=
  let h := upd_pcfich h (RegsCh REGS_PCFICH_NREGS (mem REGS_PCFICH_NREGS)) in
  let k_hat := SRSRAN_NRE / 2 * (cell_id (rg_cell h) mod (2 * nof_prb (rg_cell h))) in
  for_range 0 REGS_PCFICH_NREGS (pcfich_reg k_hat) (SRSRAN_SUCCESS, h).

(** ** PHICH *)

(** [(int)ceilf(x)] *)
Definition ceil_s32 (x : float32) : option Z :=
  match x with
  | S754_zero _ => Some 0
  | S754_finite s m e =>
      let m := if s then Zneg m else Zpos m in
      let n := if 0 <=? e then Z.shiftl m e else - Z.shiftr (- m) (- e) in
      if (- 2 ^ 31 <=? n) && (n <? 2 ^ 31) then Some n else None
  | _ => None
  end.

Definition phich_ng (r : srsran_phich_r_t) : float32 :=
  match r with
  | SRSRAN_PHICH_R_1_6 => f32_div (f32_of_int 1) (f32_of_int 6)
  | SRSRAN_PHICH_R_1_2 => f32_div (f32_of_int 1) (f32_of_int 2)
  | SRSRAN_PHICH_R_1 => f32_of_int 1
  | SRSRAN_PHICH_R_2 => f32_of_int 2
  end.

Definition phich_groups_m1 (r : srsran_phich_r_t) (nof_prb : Z) : option Z :=
  n ← ceil_s32 (f32_mul (phich_ng r) (f32_div (f32_of_int nof_prb) (f32_of_int 8))); Some (u32 n).

(** The groups of each symbol that are left, counted and then collected. *)
Definition count_regs (h : srsran_regs_t) : option (list Z) :=
  for_range 0 (rg_nof_regs h) (fun n i =>
    r ← zget (rg_regs h) i;
    if (reg_l r <? 3) && negb (reg_assigned r) then c ← zget n (reg_l r); zset n (reg_l r) (c + 1) else Some n) [0; 0; 0].

Definition collect_regs (h : srsran_regs_t) (regs_phich : list (list Z)) : option (list (list Z) * list Z) :=
  for_range 0 (rg_nof_regs h) (fun '(ps, n) i =>
    r ← zget (rg_regs h) i;
    if (reg_l r <? 3) && negb (reg_assigned r) then
      c ← zget n (reg_l r); p ← zget ps (reg_l r); p ← zset p c i; ps ← zset ps (reg_l r) p; n ← zset n (reg_l r) (c + 1); Some (ps, n)
    else Some (ps, n)) (regs_phich, [0; 0; 0]).

(** The symbol and the place of a group (steps 7 and 8); the divisors must not be zero. *)
Definition phich_li (h : srsran_regs_t) (mbsfn_or_sf1_6_tdd : bool) (mi i : Z) : Z :=
  match rg_phich_len h with
  | SRSRAN_PHICH_NORM => 0
  | SRSRAN_PHICH_EXT => if mbsfn_or_sf1_6_tdd then (mi / 2 + i + 1) mod 2 else i
  end.

Definition phich_ni (h : srsran_regs_t) (mbsfn_or_sf1_6_tdd : bool) (n : list Z) (li mi i : Z) : option Z :=
  n_l ← zget n li;
  d ← zget n (match rg_phich_len h with SRSRAN_PHICH_EXT => if mbsfn_or_sf1_6_tdd then 1 else 0 | SRSRAN_PHICH_NORM => 0 end);
  if (d =? 0) || (n_l =? 0) then None
  else Some (u32 (u32 (cell_id (rg_cell h) * n_l) / d + mi + u32 (i * n_l) / 3) mod n_l).

Definition phich_reg (mbsfn_or_sf1_6_tdd : bool) (regs_phich : list (list Z)) (n : list Z) (mi : Z) (h : srsran_regs_t) (i : Z)
  : option srsran_regs_t :=
  let li := phich_li h mbsfn_or_sf1_6_tdd mi i in
  ni ← phich_ni h mbsfn_or_sf1_6_tdd n li mi i;
  ps ← zget regs_phich li; p ← zget ps ni;
  ch ← zget (rg_phich h) mi; regs ← zset (ch_regs ch) i p;
  phich ← zset (rg_phich h) mi (RegsCh (ch_nof_regs ch) regs);
  all ← assign (rg_regs h) p;
  Some (upd_regs (upd_phich h (rg_ngroups_phich h) (rg_ngroups_phich_m1 h) phich) all).

Definition regs_phich_init (mem : Z -> list Z) (h : srsran_regs_t) (phich_mi : Z) (mbsfn_or_sf1_6_tdd : bool) : option (Z * srsran_regs_t) :=
  m1 ← phich_groups_m1 (rg_phich_res h) (nof_prb (rg_cell h));
  let ngroups := u32 (phich_mi * m1) in
  let h := upd_phich h ngroups m1 ((fun _ => RegsCh REGS_PHICH_REGS_X_GROUP (mem REGS_PHICH_REGS_X_GROUP)) <$> seqZ 0 ngroups) in
  n ← count_regs h;
  '(regs_phich, n) ← collect_regs h (mem <$> n);
  h ← for_range 0 ngroups (fun h mi => for_range 0 3 (phich_reg mbsfn_or_sf1_6_tdd regs_phich n mi) h) h;
  let ngroups := if SRSRAN_CP_ISEXT (cp (rg_cell h)) then u32 (rg_ngroups_phich h * 2) else rg_ngroups_phich h in
  Some (SRSRAN_SUCCESS, upd_phich h ngroups (rg_ngroups_phich_m1 h) (rg_phich h)).

(** ** PDCCH *)

Definition PDCCH_NCOLS : Z := 32.
Definition PDCCH_PERM : list Z := [1; 17; 9; 25; 5; 21; 13; 29; 3; 19; 11; 27; 7; 23; 15; 31;
                                   0; 16; 8; 24; 4; 20; 12; 28; 2; 18; 10; 26; 6; 22; 14; 30].

(** The groups of the first symbols that are left, in [tmp], and their number. *)
Definition number_regs (h : srsran_regs_t) (nof_ctrl_symbols : Z) (tmp : list Z) : option (list Z * Z) :=
  for_range 0 (rg_nof_regs h) (fun '(tmp, m) i =>
    r ← zget (rg_regs h) i;
    if (reg_l r <? nof_ctrl_symbols) && negb (reg_assigned r) then tmp ← zset tmp m i; Some (tmp, m + 1) else Some (tmp, m)) (tmp, 0).

(** The shift by the cell; without groups it divides by zero. *)
Definition pdcch_kp (nof_regs id k : Z) : option Z :=
  if nof_regs =? 0 then None
  else Some (if k <? id then u32 (nof_regs + k - id mod nof_regs) mod nof_regs else u32 (k - id) mod nof_regs).

(** Row [i] of column [j] of the interleaver. *)
Definition interleave_reg (ndummy nof_regs id : Z) (tmp : list Z) (j : Z) (st : list Z * Z) (i : Z) : option (list Z * Z) :=
  let '(regs, k) := st in
  c ← zget PDCCH_PERM j;
  if ndummy <=? i * PDCCH_NCOLS + c then
    kp ← pdcch_kp nof_regs id k; p ← zget tmp kp;
    regs ← zset regs (i * PDCCH_NCOLS + c - ndummy) p; Some (regs, k + 1)
  else Some (regs, k).

Definition interleave_regs (nof_regs id : Z) (tmp regs : list Z) : option (list Z) :=
  let nrows := u32 (nof_regs - 1) / PDCCH_NCOLS + 1 in
  let ndummy := Z.max 0 (PDCCH_NCOLS * nrows - nof_regs) in
  '(regs, _) ← for_range 0 PDCCH_NCOLS (fun st j => for_range 0 nrows (interleave_reg ndummy nof_regs id tmp j) st) (regs, 0);
  Some regs.

(** The groups for one length of the control region; a group of nine makes a CCE. *)
Definition pdcch_region (mem : Z -> list Z) (h : srsran_regs_t) (cfi : Z) : option srsran_regs_t :=
  let nof_ctrl_symbols := if nof_prb (rg_cell h) <=? 10 then cfi + 2 else cfi + 1 in
  '(tmp, m) ← number_regs h nof_ctrl_symbols (mem (rg_nof_regs h));
  regs ← interleave_regs m (cell_id (rg_cell h)) tmp (mem m);
  pdcch ← zset (rg_pdcch h) cfi (RegsCh (m / 9 * 9) regs);
  Some (upd_pdcch h pdcch).

Definition regs_pdcch_init (mem : Z -> list Z) (h : srsran_regs_t) : option (Z * srsran_regs_t) :=
  pdcch ← zset (rg_pdcch h) 0 zero_ch;
  h ← for_range 0 3 (pdcch_region mem) (upd_pdcch h pdcch);
  Some (SRSRAN_SUCCESS, h).

Definition srsran_regs_pdcch_nregs (h : srsran_regs_t) (cfi : Z) : option Z :=
  if (cfi <? 1) || (3 <? cfi) then Some SRSRAN_ERROR else ch ← zget (rg_pdcch h) (cfi - 1); Some (ch_nof_regs ch).
Definition srsran_regs_pdcch_ncce (h : srsran_regs_t) (cfi : Z) : option Z :=
  nregs ← srsran_regs_pdcch_nregs h cfi; Some (if 0 <? nregs then nregs / 9 else SRSRAN_ERROR).
Definition srsran_regs_phich_nregs (h : srsran_regs_t) : option Z :=
  for_range 0 (rg_ngroups_phich h) (fun n i => ch ← zget (rg_phich h) i; Some (u32 (n + ch_nof_regs ch))) 0.
Definition srsran_regs_phich_ngroups (h : srsran_regs_t) : Z := rg_ngroups_phich h.
Definition srsran_regs_phich_ngroups_m1 (h : srsran_regs_t) : Z := rg_ngroups_phich_m1 h.
Definition srsran_regs_pcfich_nregs (h : srsran_regs_t) : Z := ch_nof_regs (rg_pcfich h).

(** ** The object *)

Definition srsran_regs_free (h : srsran_regs_t) : srsran_regs_t := zero_regs.

(** The groups of a block in each symbol, and the groups in all. *)
Definition regs_counts (max_ctrl_symbols : Z) (cell : srsran_cell_t) : option (list Z * Z) :=
  foldM (fun '(n, nof_regs) i => n_i ← regs_num_x_symbol i (nof_ports cell) (cp cell); Some (n ++ [n_i], u32 (nof_regs + nof_prb cell * n_i)))
    ([], 0) (seqZ 0 max_ctrl_symbols).

(** [res] and [len] are the PHICH fields of the cell, [block n] is what a new block of [n] groups
    holds. *)
Definition srsran_regs_init_opts (mem : Z -> list Z) (block : Z -> list srsran_regs_reg_t) (h : srsran_regs_t) (cell : srsran_cell_t)
    (res : srsran_phich_r_t) (len : srsran_phich_length_t) (phich_mi : Z) (mbsfn_or_sf1_6_tdd : bool) : option (Z * srsran_regs_t) :=
  if srsran_cell_isvalid cell then
    let max_ctrl_symbols := if nof_prb cell <=? 10 then 4 else 3 in
    let vo := cell_id cell mod 3 in
    match regs_counts max_ctrl_symbols cell with
    | None => Some (SRSRAN_ERROR, srsran_regs_free h)
    | Some (n, nof_regs) =>
        '(c, s) ← fill_loop (Z.to_nat (3 * max_ctrl_symbols * nof_prb cell)) n vo max_ctrl_symbols nof_regs (Fill (block nof_regs) 0 0 0 0 [0; 0; 0; 0]);
        let h := Regs cell max_ctrl_symbols 0 0 res len zero_ch [] [zero_ch; zero_ch; zero_ch] 0 nof_regs (fl_regs s) in
        if negb (c =? 0) then Some (SRSRAN_ERROR, srsran_regs_free h)
        else
          '(c, h) ← regs_pcfich_init mem h;
          if negb (c =? 0) then Some (SRSRAN_ERROR, srsran_regs_free h)
          else
            let h := upd_phich_mi h phich_mi in
            '(c, h) ← (if 0 <? phich_mi then regs_phich_init mem h phich_mi mbsfn_or_sf1_6_tdd else Some (0, h));
            if negb (c =? 0) then Some (SRSRAN_ERROR, srsran_regs_free h)
            else
              '(c, h) ← regs_pdcch_init mem h;
              if negb (c =? 0) then Some (SRSRAN_ERROR, srsran_regs_free h) else Some (SRSRAN_SUCCESS, h)
    end
  else Some (SRSRAN_ERROR_INVALID_INPUTS, srsran_regs_free h).

Definition srsran_regs_init (mem : Z -> list Z) (block : Z -> list srsran_regs_reg_t) (h : srsran_regs_t) (cell : srsran_cell_t)
    (res : srsran_phich_r_t) (len : srsran_phich_length_t) : option (Z * srsran_regs_t) :=
  srsran_regs_init_opts mem block h cell res len 1 false.

(** ** Symbols on the grid *)

Section copies.
Context {A : Type} (add : A -> A -> A) (zero : A).

Definition REG_IDX (r : srsran_regs_reg_t) (i nof_prb : Z) : option Z := k ← zget (reg_k r) i; Some (u32 (k + reg_l r * nof_prb * SRSRAN_NRE)).

(** [o] is where the data of the group start in [reg_data]. *)
Definition regs_put_reg (reg : srsran_regs_reg_t) (reg_data : list A) (o : Z) (slot_symbols : list A) (nof_prb : Z) : option (list A) :=
  for_range 0 REGS_RE_X_REG (fun g i => p ← REG_IDX reg i nof_prb; x ← zget reg_data (o + i); zset g p x) slot_symbols.
Definition regs_add_reg (reg : srsran_regs_reg_t) (reg_data : list A) (o : Z) (slot_symbols : list A) (nof_prb : Z) : option (list A) :=
  for_range 0 REGS_RE_X_REG (fun g i => p ← REG_IDX reg i nof_prb; x ← zget reg_data (o + i); y ← zget g p; zset g p (add y x)) slot_symbols.
Definition regs_reset_reg (reg : srsran_regs_reg_t) (slot_symbols : list A) (nof_prb : Z) : option (list A) :=
  for_range 0 REGS_RE_X_REG (fun g i => p ← REG_IDX reg i nof_prb; zset g p zero) slot_symbols.
Definition regs_get_reg (reg : srsran_regs_reg_t) (slot_symbols reg_data : list A) (o nof_prb : Z) : option (list A) :=
  for_range 0 REGS_RE_X_REG (fun d i => p ← REG_IDX reg i nof_prb; x ← zget slot_symbols p; zset d (o + i) x) reg_data.

(** What a channel's loop does to its [i]-th group: the pointer is followed. *)
Definition reg_of (h : srsran_regs_t) (ch : srsran_regs_ch_t) (i : Z) : option srsran_regs_reg_t := p ← zget (ch_regs ch) i; zget (rg_regs h) p.

Definition srsran_regs_pdcch_put_offset (h : srsran_regs_t) (cfi : Z) (d slot_symbols : list A) (start_reg nof_regs : Z) : option (Z * list A) :=
  if (cfi <? 1) || (3 <? cfi) then Some (SRSRAN_ERROR, slot_symbols)
  else
    ch ← zget (rg_pdcch h) (cfi - 1);
    if u32 (start_reg + nof_regs) <=? ch_nof_regs ch then
      '(slot_symbols, k) ← for_range start_reg (u32 (start_reg + nof_regs)) (fun '(g, k) i =>
        r ← reg_of h ch i; g ← regs_put_reg r d k g (nof_prb (rg_cell h)); Some (g, k + 4)) (slot_symbols, 0);
      Some (k, slot_symbols)
    else Some (SRSRAN_ERROR, slot_symbols).

Definition srsran_regs_pdcch_put (h : srsran_regs_t) (cfi : Z) (d slot_symbols : list A) : option (Z * list A) :=
  if (cfi <? 1) || (3 <? cfi) then Some (SRSRAN_ERROR, slot_symbols)
  else ch ← zget (rg_pdcch h) (cfi - 1); srsran_regs_pdcch_put_offset h cfi d slot_symbols 0 (ch_nof_regs ch).

Definition srsran_regs_pdcch_get_offset (h : srsran_regs_t) (cfi : Z) (slot_symbols d : list A) (start_reg nof_regs : Z) : option (Z * list A) :=
  if (cfi <? 1) || (3 <? cfi) then Some (SRSRAN_ERROR, d)
  else
    ch ← zget (rg_pdcch h) (cfi - 1);
    if u32 (start_reg + nof_regs) <=? ch_nof_regs ch then
      '(d, k) ← for_range start_reg (u32 (start_reg + nof_regs)) (fun '(d, k) i =>
        r ← reg_of h ch i; d ← regs_get_reg r slot_symbols d k (nof_prb (rg_cell h)); Some (d, k + 4)) (d, 0);
      Some (k, d)
    else Some (SRSRAN_ERROR, d).

Definition srsran_regs_pdcch_get (h : srsran_regs_t) (cfi : Z) (slot_symbols d : list A) : option (Z * list A) :=
  if (cfi <? 1) || (3 <? cfi) then Some (SRSRAN_ERROR, d)
  else ch ← zget (rg_pdcch h) (cfi - 1); srsran_regs_pdcch_get_offset h cfi slot_symbols d 0 (ch_nof_regs ch).

(** The number of groups that a loop [i < nof_regs && 4 * i < nsym] visits. *)
Definition visited (ch : srsran_regs_ch_t) (nsym : Z) : Z := Z.max 0 (Z.min (ch_nof_regs ch) ((nsym + REGS_RE_X_REG - 1) / REGS_RE_X_REG)).

Definition srsran_regs_pcfich_put (h : srsran_regs_t) (symbols slot_symbols : list A) : option (Z * list A) :=
  let n := visited (rg_pcfich h) REGS_PCFICH_NSYM in
  g ← for_range 0 n (fun g i => r ← reg_of h (rg_pcfich h) i; regs_put_reg r symbols (i * REGS_RE_X_REG) g (nof_prb (rg_cell h))) slot_symbols;
  Some (n * REGS_RE_X_REG, g).
Definition srsran_regs_pcfich_get (h : srsran_regs_t) (slot_symbols ch_data : list A) : option (Z * list A) :=
  let n := visited (rg_pcfich h) REGS_PCFICH_NSYM in
  d ← for_range 0 n (fun d i => r ← reg_of h (rg_pcfich h) i; regs_get_reg r slot_symbols d (i * REGS_RE_X_REG) (nof_prb (rg_cell h))) ch_data;
  Some (n * REGS_RE_X_REG, d).

(** With the extended prefix two groups share a mapping unit. *)
Definition phich_unit (h : srsran_regs_t) (ngroup : Z) : Z := if SRSRAN_CP_ISEXT (cp (rg_cell h)) then ngroup / 2 else ngroup.

Definition srsran_regs_phich_add (h : srsran_regs_t) (symbols : list A) (ngroup : Z) (slot_symbols : list A) : option (Z * list A) :=
  if rg_ngroups_phich h <=? ngroup then Some (SRSRAN_ERROR_INVALID_INPUTS, slot_symbols)
  else
    rch ← zget (rg_phich h) (phich_unit h ngroup);
    let n := visited rch REGS_PHICH_NSYM in
    g ← for_range 0 n (fun g i => r ← reg_of h rch i; regs_add_reg r symbols (i * REGS_RE_X_REG) g (nof_prb (rg_cell h))) slot_symbols;
    Some (n * REGS_RE_X_REG, g).
Definition srsran_regs_phich_get (h : srsran_regs_t) (slot_symbols symbols : list A) (ngroup : Z) : option (Z * list A) :=
  if rg_ngroups_phich h <=? ngroup then Some (SRSRAN_ERROR_INVALID_INPUTS, symbols)
  else
    rch ← zget (rg_phich h) (phich_unit h ngroup);
    let n := visited rch REGS_PHICH_NSYM in
    d ← for_range 0 n (fun d i => r ← reg_of h rch i; regs_get_reg r slot_symbols d (i * REGS_RE_X_REG) (nof_prb (rg_cell h))) symbols;
    Some (n * REGS_RE_X_REG, d).

(** With the extended prefix the counter advances by two. *)
Definition srsran_regs_phich_reset (h : srsran_regs_t) (slot_symbols : list A) : option (Z * list A) :=
  let units := if SRSRAN_CP_ISEXT (cp (rg_cell h)) then (rg_ngroups_phich h + 1) / 2 else rg_ngroups_phich h in
  g ← for_range 0 units (fun g ng =>
    rch ← zget (rg_phich h) ng;
    for_range 0 (visited rch REGS_PHICH_NSYM) (fun g i => r ← reg_of h rch i; regs_reset_reg r g (nof_prb (rg_cell h))) g) slot_symbols;
  Some (SRSRAN_SUCCESS, g).
End copies.

(** ** The groups of a cell *)

(** The elements of a group next to references: [vo] and [vo + 3] of six are left out. *)
Definition around_refs (vo j : Z) : Z := if j <? vo then j else if j <? vo + 2 then j + 1 else j + 2.

Definition group (n_l vo l nreg prb : Z) : srsran_regs_reg_t :=
  if n_l =? 2 then let r0 := prb * 12 + nreg * 6 in Reg ((fun j => r0 + around_refs vo j) <$> seqZ 0 4) r0 l false
  else let r0 := prb * 12 + nreg * 4 in Reg ((fun j => r0 + j) <$> seqZ 0 4) r0 l false.

Lemma put_k_run n f h k j : 0 <= n -> 0 <= j -> j + n <= zlen k -> (forall i, 0 <= i < n -> u32 (f i) = h (j + i)) ->
  for_range 0 n (fun st i => put_k st (f i)) (upto h j k, j) = Some (upto h (j + n) k, j + n).
Proof.
  intros Hn Hj Hk Hf. destruct (for_range_inv (fun i st => st = (upto h (j + i) k, j + i)) 0 n (fun st i => put_k st (f i)) (upto h j k, j)) as (st & -> & ->); try done.
  - by rewrite Z.add_0_r.
  - intros i st Hi ->. unfold put_k. rewrite Hf by lia. rewrite zset_upto by lia. cbn [mbind option_bind]. eexists. split; [done |]. by rewrite Z.add_assoc.
Qed.

Lemma reg_init_spec r l nreg prb n_l vo : zlen (reg_k r) = 4 -> n_l = 2 \/ n_l = 3 -> 0 <= vo < 3 -> 0 <= nreg < 3 -> 0 <= prb < 2 ^ 20 ->
  regs_reg_init r l nreg (u32 (prb * SRSRAN_NRE)) n_l vo = Some (SRSRAN_SUCCESS, group n_l vo l nreg prb).
Proof.
  intros Hr Hn Hvo Hnr Hp. unfold SRSRAN_NRE. rewrite uwrap_small by (unfold is_uint; lia). unfold regs_reg_init, group.
  destruct Hn as [-> | ->]; cbn [Z.eqb Pos.eqb].
  - set (h := fun j => prb * 12 + nreg * 6 + around_refs vo j).
    change (reg_k r) with (upto h 0 (reg_k r)).
    rewrite (put_k_run vo _ h) by (try lia; intros i Hi; rewrite uwrap_small by (unfold is_uint; lia); unfold h, around_refs; zcase; lia).
    cbn [mbind option_bind]. rewrite Z.add_0_l.
    rewrite (put_k_run 2 _ h) by (try lia; intros i Hi; rewrite uwrap_small by (unfold is_uint; lia); unfold h, around_refs; repeat zcase; lia).
    cbn [mbind option_bind snd]. rewrite (uwrap_small 32 (4 - _)) by (unfold is_uint; lia).
    rewrite (put_k_run _ _ h) by (try lia; intros i Hi; rewrite uwrap_small by (unfold is_uint; lia); unfold h, around_refs; repeat zcase; lia).
    replace (vo + 2 + (4 - (vo + 2))) with 4 by lia. cbn [mbind option_bind Z.eqb Pos.eqb negb]. rewrite uwrap_small by (unfold is_uint; lia).
    do 3 f_equal. unfold upto. rewrite drop_ge by (unfold zlen in Hr; lia). by rewrite app_nil_r.
  - rewrite (for_range_write (fun i => u32 (prb * 12 + nreg * 4 + i))) by lia. cbn [mbind option_bind]. rewrite uwrap_small by (unfold is_uint; lia).
    do 3 f_equal. unfold upto. rewrite drop_ge by (unfold zlen in Hr; lia). rewrite app_nil_r. apply list_fmap_ext. intros i x Hx%lookup_seqZ. rewrite uwrap_small by (unfold is_uint; lia). lia.
Qed.

(** A concatenation, one element at a time. *)
Lemma bind_snoc {A B} (f : A -> list B) l x : (l ++ [x]) ≫= f = (l ≫= f) ++ f x.
Proof. rewrite bind_app. f_equal. simpl. by rewrite app_nil_r. Qed.

Lemma bind_fmap {A B C} (g : A -> B) (f : B -> list C) l : (g <$> l) ≫= f = l ≫= (fun x => f (g x)).
Proof. induction l as [| x l IH]; [done |]. cbn. by rewrite <- IH. Qed.

Lemma bind_ext_in {A B} (f g : A -> list B) l : (forall x, x ∈ l -> f x = g x) -> l ≫= f = l ≫= g.
Proof.
  induction l as [| x l IH]; intros H; [done |]. cbn. f_equal; [apply H; left | apply IH; intros y Hy; apply H; by right].
Qed.

Lemma bind_assoc {A B C} (f : A -> list B) (g : B -> list C) l : (l ≫= f) ≫= g = l ≫= (fun x => f x ≫= g).
Proof. induction l as [| x l IH]; [done |]. cbn. by rewrite bind_app, <- IH. Qed.

Section fill.
#[local] Set Default Proof Using "All".
Context (n : list Z) (vo mx N : Z).
Context (Hmx : mx = 3 \/ mx = 4) (Hn : zlen n = mx) (Hn23 : forall l, 0 <= l < mx -> n !!! Z.to_nat l = 2 \/ n !!! Z.to_nat l = 3).
Context (Hvo : 0 <= vo < 3) (HN : 0 <= N <= 110).

Definition per (l : Z) : Z := n !!! Z.to_nat l.

(** A turn of the loop: the symbol, the place in the block and the block. *)
Definition sym (t : Z) : Z := t mod mx.
Definition place (t : Z) : Z := t / mx mod 3.
Definition blk (t : Z) : Z := t / mx / 3.

(** Does the turn number a group, and which one? *)
Definition numbers (t : Z) : bool := (per (sym t) =? 3) || negb (place t =? 1).
Definition nth_of (n_l pl : Z) : Z := if n_l =? 3 then pl else (pl + 1) / 2.
Definition group_at (t : Z) : srsran_regs_reg_t := group (per (sym t)) vo (sym t) (nth_of (per (sym t)) (place t)) (blk t).
Definition slot (t : Z) : list srsran_regs_reg_t := if numbers t then [group_at t] else [].
Definition built (t : Z) : list srsran_regs_reg_t := seqZ 0 t ≫= slot.
Definition counts (t l : Z) : Z := if l <? mx then nth_of (per l) (place t + (if l <? sym t then 1 else 0)) else 0.

Definition turn (block : list srsran_regs_reg_t) (t : Z) : fill :=
  Fill (built t ++ drop (length (built t)) block) (zlen (built t)) (sym t) (blk t) (place t) (counts t <$> seqZ 0 4).

Lemma built_next t : 0 <= t -> built (t + 1) = built t ++ slot t.
Proof. intros Ht. unfold built. by rewrite seqZ_snoc, bind_snoc. Qed.

Lemma sym_range t : 0 <= t -> 0 <= sym t < mx /\ 0 <= place t < 3 /\ 0 <= blk t /\ t = mx * (3 * blk t + place t) + sym t.
Proof. intros Ht. unfold sym, place, blk. destruct Hmx as [-> | ->]; lia. Qed.

Lemma per_23 t : 0 <= t -> per (sym t) = 2 \/ per (sym t) = 3.
Proof. intros Ht. apply Hn23. by apply sym_range. Qed.

Lemma turn_next t : 0 <= t ->
  (sym t + 1 = mx /\ sym (t + 1) = 0 /\ ((place t = 2 /\ place (t + 1) = 0 /\ blk (t + 1) = blk t + 1)
    \/ (place t < 2 /\ place (t + 1) = place t + 1 /\ blk (t + 1) = blk t)))
  \/ (sym t + 1 < mx /\ sym (t + 1) = sym t + 1 /\ place (t + 1) = place t /\ blk (t + 1) = blk t).
Proof. intros Ht. unfold sym, place, blk. destruct Hmx as [-> | ->]; lia. Qed.

Lemma counts_next t l : 0 <= t -> 0 <= l < 4 ->
  (if (sym t + 1 =? mx) && (place t =? 2) then 0 else if (l =? sym t) && numbers t then counts t l + 1 else counts t l) = counts (t + 1) l.
Proof.
  intros Ht Hl. unfold counts, numbers. pose proof (sym_range t Ht) as (Hs & Hp & _). pose proof (turn_next t Ht) as Hnx. pose proof (per_23 t Ht) as H23.
  destruct (Z.ltb_spec l mx) as [Hlm |]; cycle 1.
  { destruct (Z.eqb_spec l (sym t)); [lia |]. cbn [andb]. by destruct ((_ =? _) && _). }
  pose proof (Hn23 l ltac:(lia)) as Hl23. fold (per l) in Hl23. unfold nth_of.
  destruct (Z.eqb_spec l (sym t)) as [-> | Hne].
  - destruct H23 as [-> | ->]; cbn [Z.eqb Pos.eqb orb andb]; destruct Hnx as [(E1 & -> & [(E2 & -> & _) | (E2 & -> & _)]) | (E1 & -> & -> & _)]; repeat zcase; cbn [andb negb]; lia.
  - destruct Hl23 as [-> | ->]; cbn [Z.eqb Pos.eqb orb andb]; destruct Hnx as [(E1 & -> & [(E2 & -> & _) | (E2 & -> & _)]) | (E1 & -> & -> & _)]; repeat zcase; cbn [andb negb]; lia.
Qed.

Lemma counts_range t : 0 <= t -> numbers t = true -> 0 <= counts t (sym t) < 3 /\ counts t (sym t) = nth_of (per (sym t)) (place t).
Proof.
  intros Ht. pose proof (sym_range t Ht) as (Hs & Hp & _). unfold counts, numbers, nth_of. destruct (Z.ltb_spec (sym t) mx); [| lia].
  destruct (Z.ltb_spec (sym t) (sym t)); [lia |]. rewrite Z.add_0_r. destruct (per_23 t Ht) as [-> | ->]; cbn [Z.eqb Pos.eqb orb]; intros H1; split; lia.
Qed.

Lemma zget_per l : 0 <= l < mx -> zget n l = Some (per l).
Proof. intros Hl. rewrite zget_lookup by lia. apply list_lookup_lookup_total_lt. unfold zlen in Hn. lia. Qed.

Lemma zget_counts t l : 0 <= l < 4 -> zget (counts t <$> seqZ 0 4) l = Some (counts t l).
Proof. intros Hl. rewrite zget_lookup, list_lookup_fmap, lookup_seqZ_lt by lia. cbn. f_equal. f_equal. lia. Qed.

Lemma zset_counts t l x : 0 <= l < 4 -> zset (counts t <$> seqZ 0 4) l x = Some ((fun i => if i =? l then x else counts t i) <$> seqZ 0 4).
Proof.
  intros Hl. assert (l = 0 \/ l = 1 \/ l = 2 \/ l = 3) as [-> | [-> | [-> | ->]]] by lia; reflexivity.
Qed.

Lemma fill_turn block t : 0 <= t < 3 * mx * N -> Forall (fun r => zlen (reg_k r) = 4) block -> zlen (built t) < zlen block ->
  exists s, fill_reg n vo (turn block t) = Some (0, s) /\ fill_next mx s = turn block (t + 1).
Proof.
  intros Ht Hb Hroom. assert (0 <= t) as Ht0 by lia. pose proof (sym_range t Ht0) as (Hs & Hp & Hk & Et). pose proof (per_23 t Ht0) as H23.
  assert (blk t < 110) as Hblk by (destruct Hmx as [-> | ->]; nia).
  pose proof (turn_next t Ht0) as Hnx.
  assert (forall js, js = ((fun l => if (l =? sym t) && numbers t then counts t l + 1 else counts t l) <$> seqZ 0 4) ->
    fill_next mx (Fill (built (t + 1) ++ drop (length (built (t + 1))) block) (zlen (built (t + 1))) (sym t) (blk t) (place t) js) = turn block (t + 1)) as Hnext.
  { intros js Hjs. unfold fill_next, turn. cbn [fl_i fl_jmax fl_prb fl_j fl_regs fl_k].
    destruct Hnx as [(E1 & E1' & [(E2 & E2' & E3) | (E2 & E2' & E3)]) | (E1 & E1' & E2' & E3)]; rewrite E1', E2', E3.
    - destruct (Z.eqb_spec (sym t + 1) mx); [| lia]. rewrite E2. cbn [Z.add Z.eqb Pos.add Pos.eqb]. f_equal. change [0; 0; 0; 0] with ((fun _ : Z => 0) <$> seqZ 0 4).
      apply list_fmap_ext. intros i x Hx%lookup_seqZ. rewrite <- counts_next by lia. by rewrite E2, (proj2 (Z.eqb_eq (sym t + 1) mx)).
    - destruct (Z.eqb_spec (sym t + 1) mx); [| lia]. destruct (Z.eqb_spec (place t + 1) 3); [lia |]. f_equal. rewrite Hjs.
      apply list_fmap_ext. intros i x Hx%lookup_seqZ. rewrite <- counts_next by lia. destruct (Z.eqb_spec (place t) 2); [lia |]. by rewrite andb_false_r.
    - destruct (Z.eqb_spec (sym t + 1) mx); [lia |]. destruct (Z.eqb_spec (place t) 3); [lia |]. f_equal. rewrite Hjs.
      apply list_fmap_ext. intros i x Hx%lookup_seqZ. rewrite <- counts_next by lia. destruct (Z.eqb_spec (sym t + 1) mx); [lia |]. done. }
  unfold fill_reg, turn. cbn [fl_i fl_jmax fl_prb fl_j fl_regs fl_k]. rewrite zget_per by lia. cbn [mbind option_bind].
  assert ((per (sym t) =? 3) || (per (sym t) =? 2) && negb (place t =? 1) = numbers t) as ->.
  { unfold numbers. destruct H23 as [-> | ->]; cbn [Z.eqb Pos.eqb orb andb]; done. }
  destruct (numbers t) eqn:Enum.
  - destruct (zsplit block (zlen (built t))) as (b1 & x & b2 & Eb & Hb1); [split; [apply zlen_nonneg | done] |].
    assert (drop (length (built t)) block = x :: b2) as ->.
    { rewrite Eb. rewrite drop_app_length'; [done |]. unfold zlen in Hb1. lia. }
    rewrite zget_app_mid by done. cbn [mbind option_bind].
    rewrite zget_counts by lia. cbn [mbind option_bind]. destruct (counts_range t Ht0 Enum) as [Hc1 Hc2].
    assert (zlen (reg_k x) = 4) as Hx by (rewrite Forall_forall in Hb; apply Hb; rewrite Eb; apply elem_of_app; right; left).
    rewrite reg_init_spec by (done || lia). cbn [mbind option_bind].
    rewrite zset_app_mid by done. cbn [mbind option_bind]. change (negb (SRSRAN_SUCCESS =? 0)) with false. cbn iota.
    rewrite zset_counts by lia. cbn [mbind option_bind]. eexists. split; [reflexivity |].
    rewrite Hc2. fold (group_at t). refine (eq_trans _ (Hnext ((fun i => if i =? sym t then nth_of (per (sym t)) (place t) + 1 else counts t i) <$> seqZ 0 4) _)).
    + rewrite built_next by done. unfold slot. rewrite Enum, zlen_app. change (zlen [group_at t]) with 1. f_equal. f_equal.
      rewrite <- app_assoc. f_equal. cbn [app]. f_equal. rewrite Eb, length_app. cbn [length]. replace (length (built t) + 1)%nat with (length b1 + 1)%nat by (unfold zlen in Hb1; lia).
      rewrite drop_app_add. done.
    + apply list_fmap_ext. intros i j _. rewrite andb_true_r. destruct (Z.eqb_spec j (sym t)) as [-> |]; [by rewrite Hc2 | done].
  - eexists. split; [reflexivity |]. refine (eq_trans _ (Hnext (counts t <$> seqZ 0 4) _)).
    + rewrite built_next by done. unfold slot. by rewrite Enum, app_nil_r.
    + apply list_fmap_ext. intros i j _. by rewrite andb_false_r.
Qed.

(** *** Counting *)

Definition turns : Z := 3 * mx * N.
Definition syms (t : Z) : list Z := seqZ 0 t ≫= fun t => if numbers t then [sym t] else [].
Definition cnt (f : Z -> bool) (t : Z) : Z := zlen (filter (fun l => f l = true) (syms t)).
Definition sum_per (f : Z -> bool) : Z := foldr (fun l s => (if f l then per l else 0) + s) 0 (seqZ 0 mx).

Lemma syms_built t : reg_l <$> built t = syms t.
Proof.
  unfold built, syms. induction (seqZ 0 t) as [| x l IH]; [done |]. cbn. rewrite fmap_app, IH. unfold slot. destruct (numbers x); [| done].
  cbn. unfold group_at, group. by destruct (_ =? 2).
Qed.

Lemma syms_app a b : 0 <= a -> 0 <= b -> syms (3 * mx * a + b) = syms (3 * mx * a) ++ syms b.
Proof.
  intros Ha Hb. unfold syms. rewrite (seqZ_app 0 (3 * mx * a) b) by nia. rewrite bind_app. f_equal. rewrite Z.add_0_l.
  rewrite <- (Z.add_0_r (3 * mx * a)), <- fmap_add_seqZ, bind_fmap. apply bind_ext_in. intros t [Ht1 Ht2]%elem_of_seqZ.
  unfold numbers, sym, place. destruct Hmx as [-> | ->].
  - replace ((3 * 3 * a + t) mod 3) with (t mod 3) by lia. by replace ((3 * 3 * a + t) / 3 mod 3) with (t / 3 mod 3) by lia.
  - replace ((3 * 4 * a + t) mod 4) with (t mod 4) by lia. by replace ((3 * 4 * a + t) / 4 mod 3) with (t / 4 mod 3) by lia.
Qed.

Lemma zlen_filter_sum (f : Z -> bool) l : zlen (filter (fun x => f x = true) l) = foldr (fun x s => Z.b2z (f x) + s) 0 l.
Proof.
  induction l as [| x l IH]; [done |]. rewrite filter_cons. cbn [foldr]. rewrite <- IH. destruct (f x); cbn [Z.b2z]; [destruct (decide _); [by rewrite zlen_cons | done] | by destruct (decide _)].
Qed.

Lemma cnt_block f : cnt f (3 * mx) = sum_per f.
Proof.
  unfold cnt. rewrite zlen_filter_sum. unfold sum_per, syms, numbers, sym, place, per.
  assert (exists a b c d, n = a :: b :: c :: d /\ (a = 2 \/ a = 3) /\ (b = 2 \/ b = 3) /\ (c = 2 \/ c = 3) /\ (mx = 3 /\ d = [] \/ mx = 4 /\ (d = [2] \/ d = [3])))
    as (a & b & c & d & -> & Ha & Hb & Hc & Hd).
  { clear HN Hvo. assert (3 <= zlen n) as H3 by lia. destruct n as [| a [| b [| c d]]]; [by vm_compute in H3.. |]. exists a, b, c, d. split; [done |].
    pose proof (Hn23 0 ltac:(lia)). pose proof (Hn23 1 ltac:(lia)). pose proof (Hn23 2 ltac:(lia)). split; [done |]. split; [done |]. split; [done |].
    rewrite !zlen_cons in Hn. destruct Hmx as [-> | ->].
    - left. split; [done |]. destruct d; [done |]. rewrite zlen_cons in Hn. pose proof (zlen_nonneg d). lia.
    - right. split; [done |]. destruct d as [| e d]; [by vm_compute in Hn |]. rewrite zlen_cons in Hn. destruct d; [| rewrite zlen_cons in Hn; pose proof (zlen_nonneg d); lia].
      destruct (Hn23 3 ltac:(lia)) as [E | E]; vm_compute in E; subst e; [by left | by right]. }
  destruct Hd as [[-> ->] | [-> [-> | ->]]], Ha as [-> | ->], Hb as [-> | ->], Hc as [-> | ->]; 
    match goal with |- foldr ?h 0 ?l = foldr ?g 0 ?m => let l := eval vm_compute in l in let m := eval vm_compute in m in change (foldr h 0 l = foldr g 0 m) end; cbn [foldr];
    destruct (f 0), (f 1), (f 2); try reflexivity; destruct (f 3); reflexivity.
Qed.

Lemma cnt_blocks f p : 0 <= p -> cnt f (3 * mx * p) = p * sum_per f.
Proof.
  intros Hp. pattern p. apply natlike_ind; [by rewrite Z.mul_0_r | | done]. clear p Hp. intros p Hp IH.
  replace (3 * mx * Z.succ p) with (3 * mx * p + 3 * mx) by lia. unfold cnt in *. rewrite syms_app by lia. rewrite filter_app, zlen_app, IH.
  change (zlen _) with (cnt f (3 * mx)) at 1. rewrite cnt_block. lia.
Qed.

Lemma built_all : zlen (built turns) = N * sum_per (fun _ => true).
Proof.
  rewrite <- cnt_blocks by lia. unfold cnt. fold turns. assert (forall l : list Z, filter (fun _ => true = true) l = l) as -> by (induction l as [| x l IH]; [done |]; rewrite filter_cons; cbn; by rewrite IH). by rewrite <- syms_built, zlen_fmap.
Qed.

(** *** The loop *)

Lemma built_below t : 0 <= t < turns -> zlen (built t) < zlen (built turns).
Proof.
  intros Ht.
  assert (zlen (built t) <= zlen (built (turns - 1))) as H1.
  { unfold built. replace (turns - 1) with (t + (turns - 1 - t)) by lia. rewrite seqZ_app by lia. rewrite bind_app, zlen_app. pose proof (zlen_nonneg (seqZ (0 + t) (turns - 1 - t) ≫= slot)). lia. }
  replace (built turns) with (built (turns - 1 + 1)) by (f_equal; lia). rewrite built_next by lia. rewrite zlen_app.
  assert (numbers (turns - 1) = true) as E.
  { unfold numbers. assert (place (turns - 1) = 2) as ->; [| apply orb_true_r]. unfold place, turns in *. destruct Hmx as [-> | ->]; lia. }
  unfold slot. rewrite E. change (zlen [_]) with 1. lia.
Qed.

Lemma fill_all block nof : zlen block = nof -> nof = zlen (built turns) -> Forall (fun r => zlen (reg_k r) = 4) block ->
  forall fuel t, 0 <= t -> t + Z.of_nat fuel = turns ->
  exists s, fill_loop fuel n vo mx nof (turn block t) = Some (0, s) /\ fl_regs s = built turns.
Proof.
  intros Hblk Hnof Hb. induction fuel as [| fuel IH]; intros t Ht Hf.
  - assert (t = turns) as -> by lia. cbn [fill_loop]. change (fl_k (turn block turns)) with (zlen (built turns)).
    destruct (Z.ltb_spec (zlen (built turns)) nof); [lia |]. eexists. split; [done |]. cbn [turn fl_regs]. rewrite drop_ge, app_nil_r; [done |]. unfold zlen in *. lia.
  - cbn [fill_loop]. change (fl_k (turn block t)) with (zlen (built t)). pose proof (built_below t ltac:(lia)).
    destruct (Z.ltb_spec (zlen (built t)) nof); [| lia]. destruct (fill_turn block t) as (s & -> & E); [unfold turns in *; lia | done | lia |].
    cbn [mbind option_bind Z.eqb negb]. rewrite E. apply IH; lia.
Qed.

(** *** The elements of the groups *)

Definition reg_elements (r : srsran_regs_reg_t) : list Z := (fun k => k + reg_l r * N * 12) <$> reg_k r.
Definition width (n_l : Z) : Z := if n_l =? 2 then 6 else 4.

Lemma elem_group t p : 0 <= t -> p ∈ reg_elements (group_at t) <->
  exists o, 0 <= o < width (per (sym t)) /\ (per (sym t) = 2 -> o <> vo /\ o <> vo + 3) /\
    p = blk t * 12 + nth_of (per (sym t)) (place t) * width (per (sym t)) + o + sym t * N * 12.
Proof.
  intros Ht. unfold reg_elements, group_at, group, width. pose proof (per_23 t Ht) as [-> | ->]; cbn [Z.eqb Pos.eqb reg_k reg_l]; rewrite list_elem_of_fmap; split.
  - intros (k & -> & (j & -> & Hj%elem_of_seqZ)%list_elem_of_fmap). exists (around_refs vo j). unfold around_refs. repeat zcase; lia.
  - intros (o & Ho & Href & ->). destruct (Href eq_refl) as [H1 H2]. eexists. split; [reflexivity |]. apply list_elem_of_fmap.
    exists (if o <? vo then o else if o <? vo + 3 then o - 1 else o - 2). split; [unfold around_refs; repeat zcase; lia |]. apply elem_of_seqZ. repeat zcase; lia.
  - intros (k & -> & (j & -> & Hj%elem_of_seqZ)%list_elem_of_fmap). exists j. lia.
  - intros (o & Ho & _ & ->). eexists. split; [reflexivity |]. apply list_elem_of_fmap. exists o. split; [lia |]. apply elem_of_seqZ. lia.
Qed.

Lemma nth_width t : 0 <= t -> numbers t = true ->
  let w := width (per (sym t)) in 0 <= nth_of (per (sym t)) (place t) * w /\ nth_of (per (sym t)) (place t) * w + w <= 12
  /\ place t = (if per (sym t) =? 3 then nth_of (per (sym t)) (place t) else 2 * nth_of (per (sym t)) (place t)).
Proof.
  intros Ht. pose proof (sym_range t Ht) as (_ & Hp & _). unfold numbers, nth_of, width. destruct (per_23 t Ht) as [-> | ->]; cbn [Z.eqb Pos.eqb orb negb]; intros H; cbv zeta; lia.
Qed.

Lemma blk_range t : 0 <= t < turns -> blk t < N.
Proof. unfold turns, blk. destruct Hmx as [-> | ->]; lia. Qed.

Lemma elem_built r : r ∈ built turns <-> exists t, 0 <= t < turns /\ numbers t = true /\ r = group_at t.
Proof.
  unfold built. rewrite list_elem_of_bind. split.
  - intros (t & Hr & Ht%elem_of_seqZ). unfold slot in Hr. destruct (numbers t) eqn:E; [| by apply elem_of_nil in Hr]. apply list_elem_of_singleton in Hr. exists t. split; [lia | done].
  - intros (t & Ht & E & ->). exists t. split; [| apply elem_of_seqZ; lia]. unfold slot. rewrite E. by left.
Qed.

Definition grid : list Z := built turns ≫= reg_elements.

Lemma elem_grid p : p ∈ grid <-> exists t, 0 <= t < turns /\ numbers t = true /\ p ∈ reg_elements (group_at t).
Proof.
  unfold grid. rewrite list_elem_of_bind. split.
  - intros (r & Hp & (t & Ht & E & ->)%elem_built). by exists t.
  - intros (t & Ht & E & Hp). exists (group_at t). split; [done |]. apply elem_built. by exists t.
Qed.

Lemma coords k l k' l' : k + l * N * 12 = k' + l' * N * 12 -> 0 <= k < 12 * N -> 0 <= k' < 12 * N -> l = l' /\ k = k'.
Proof.
  intros E Hk Hk'. apply (Z.div_mod_unique (12 * N)); [by left | by left | lia].
Qed.

Lemma turn_parts b pl l : 0 <= b < N -> 0 <= pl < 3 -> 0 <= l < mx ->
  let t := mx * (3 * b + pl) + l in sym t = l /\ place t = pl /\ blk t = b /\ 0 <= t < turns.
Proof.
  clear Hn Hn23. intros Hb Hpl Hl t. unfold t, sym, place, blk, turns. clear t.
  destruct Hmx as [-> | ->].
  - replace ((3 * (3 * b + pl) + l) / 3) with (3 * b + pl) by lia. lia.
  - replace ((4 * (3 * b + pl) + l) / 4) with (3 * b + pl) by lia. lia.
Qed.

(** The groups hold the elements of the control symbols that carry no reference. *)
Lemma grid_spec l k : 0 <= l < mx -> 0 <= k < 12 * N -> (k + l * N * 12 ∈ grid <-> ~ (per l = 2 /\ k mod 3 = vo)).
Proof.
  intros Hl Hk. rewrite elem_grid. pose proof (Hn23 l Hl) as H23. fold (per l) in H23. split.
  - intros (t & Ht & E & (o & Ho & Href & Ep)%elem_group) [H2 H3]; [| lia]. pose proof (sym_range t ltac:(lia)) as (Hs & _ & Hb & _).
    pose proof (nth_width t ltac:(lia) E) as (Hw1 & Hw2 & _). cbv zeta in *. pose proof (blk_range t Ht).
    destruct (coords _ _ _ _ Ep) as [-> Ek]; [lia | lia |].
    rewrite H2 in *. unfold width in *. cbn [Z.eqb Pos.eqb] in *. specialize (Href eq_refl). lia.
  - intros Hno. set (w := width (per l)). set (o := k mod w). set (nr := k mod 12 / w). set (b := k / 12).
    set (pl := if per l =? 3 then nr else 2 * nr). set (t := mx * (3 * b + pl) + l).
    assert (w = 4 /\ per l = 3 \/ w = 6 /\ per l = 2) as Hw by (unfold w, width; destruct H23 as [-> | ->]; cbn; lia).
    assert (0 <= pl < 3 /\ (per l = 2 -> pl <> 1) /\ nth_of (per l) pl = nr) as (Hpl & Hpl1 & Hnth).
    { unfold pl, nth_of, nr. destruct Hw as [[-> ->] | [-> ->]]; cbn [Z.eqb Pos.eqb]; lia. }
    assert (0 <= b < N) as Hb by (unfold b; lia).
    destruct (turn_parts b pl l Hb Hpl Hl) as (E1 & E2 & E3 & Ht). fold t in E1, E2, E3, Ht.
    exists t. split; [done |]. split.
    { unfold numbers. rewrite E1, E2. destruct Hw as [[_ ->] | [_ Hp2]]; [done |]. specialize (Hpl1 Hp2). rewrite Hp2. apply orb_true_iff. right. apply negb_true_iff, Z.eqb_neq. lia. }
    apply elem_group; [lia |]. exists o. rewrite E1, E2, E3, Hnth. fold w. unfold o, nr, b. destruct Hw as [[-> Hp3] | [-> Hp2]]; rewrite ?Hp3, ?Hp2 in *; lia.
Qed.

Lemma grid_range p : p ∈ grid -> 0 <= p < mx * N * 12.
Proof.
  intros (t & Ht & E & (o & Ho & _ & ->)%elem_group)%elem_grid; [| lia]. pose proof (sym_range t ltac:(lia)) as (Hs & _ & Hb & _).
  pose proof (nth_width t ltac:(lia) E) as (Hw1 & Hw2 & _). cbv zeta in *. pose proof (blk_range t Ht). nia.
Qed.

Lemma NoDup_group t : 0 <= t -> NoDup (reg_elements (group_at t)).
Proof.
  intros Ht. unfold reg_elements, group_at, group. pose proof (per_23 t Ht) as [-> | ->]; cbn [Z.eqb Pos.eqb reg_k reg_l];
    apply NoDup_fmap_2; try (intros a b E; lia); apply NoDup_fmap_2_strong; try apply NoDup_seqZ;
    intros a b Ha%elem_of_seqZ Hb%elem_of_seqZ; unfold around_refs; repeat zcase; lia.
Qed.

Lemma group_at_inj t u p : 0 <= t < turns -> 0 <= u < turns -> numbers t = true -> numbers u = true ->
  p ∈ reg_elements (group_at t) -> p ∈ reg_elements (group_at u) -> t = u.
Proof.
  intros Ht Hu Et Eu (o & Ho & _ & E1)%elem_group (o' & Ho' & _ & E2)%elem_group; [| lia..].
  pose proof (sym_range t ltac:(lia)) as (Hs & Hp & Hb & E). pose proof (sym_range u ltac:(lia)) as (Hs' & Hp' & Hb' & E').
  pose proof (nth_width t ltac:(lia) Et) as (Hw1 & Hw2 & Hw3). pose proof (nth_width u ltac:(lia) Eu) as (Hv1 & Hv2 & Hv3). cbv zeta in *.
  pose proof (blk_range t Ht). pose proof (blk_range u Hu).
  destruct (coords _ _ _ _ (eq_trans (eq_sym E1) E2)) as [Es Ek]; [lia.. |]. rewrite Es in *.
  assert (blk t = blk u /\ nth_of (per (sym u)) (place t) = nth_of (per (sym u)) (place u)) as [Eb En].
  { unfold width in *. destruct (per_23 u ltac:(lia)) as [E23 | E23]; rewrite E23 in *; cbn [Z.eqb Pos.eqb] in *; lia. }
  rewrite En in Hw3. pose proof (eq_trans Hw3 (eq_sym Hv3)) as Epl. lia.
Qed.

Lemma NoDup_region : NoDup grid.
Proof.
  unfold grid, built. rewrite bind_assoc. apply NoDup_bind; [| | apply NoDup_seqZ].
  - intros t u p Ht%elem_of_seqZ Hu%elem_of_seqZ. unfold slot. destruct (numbers t) eqn:Et, (numbers u) eqn:Eu; cbn; rewrite ?app_nil_r;
      intros H1 H2; try (by apply elem_of_nil in H1); try (by apply elem_of_nil in H2). apply (group_at_inj t u p); done || lia.
  - intros t Ht%elem_of_seqZ. unfold slot. destruct (numbers t); cbn; [rewrite app_nil_r; apply NoDup_group; lia | constructor].
Qed.

(** *** The order of the groups *)

(** By frequency, then by symbol. *)
Definition before (a b : srsran_regs_reg_t) : Prop := reg_k0 a < reg_k0 b \/ (reg_k0 a = reg_k0 b /\ reg_l a < reg_l b).

Lemma group_at_k0 t : 0 <= t -> reg_k0 (group_at t) = blk t * 12 + nth_of (per (sym t)) (place t) * width (per (sym t)) /\ reg_l (group_at t) = sym t.
Proof. intros Ht. unfold group_at, group, width. pose proof (per_23 t Ht) as [-> | ->]; by cbn. Qed.

(** The symbols with references come first, so that their second group is numbered in time. *)
Context (Hrefs : forall l l', 0 <= l < l' -> l' < mx -> per l' = 2 -> per l = 2).

Lemma numbered_in_order t u : 0 <= t < u -> u < turns -> numbers t = true -> numbers u = true -> before (group_at t) (group_at u).
Proof.
  intros Htu Hu Et Eu. unfold before. destruct (group_at_k0 t ltac:(lia)) as [-> ->]. destruct (group_at_k0 u ltac:(lia)) as [-> ->].
  pose proof (sym_range t ltac:(lia)) as (Hs & Hp & Hb & E). pose proof (sym_range u ltac:(lia)) as (Hs' & Hp' & Hb' & E').
  pose proof (nth_width t ltac:(lia) Et) as (Hw1 & Hw2 & Hw3). pose proof (nth_width u ltac:(lia) Eu) as (Hv1 & Hv2 & Hv3). cbv zeta in *.
  assert (blk t < blk u \/ blk t = blk u /\ (place t < place u \/ place t = place u /\ sym t < sym u)) as Hlex by nia.
  destruct Hlex as [Hlt | [Eb Hlex]]; [left; set (a := nth_of _ _ * _) in *; set (b := nth_of (per (sym u)) _ * _) in *; clearbody a b; assert (1 <= width (per (sym t))) by (unfold width; by destruct (_ =? 2)); lia |]. rewrite Eb.
  pose proof (Hrefs (sym t) (sym u)) as Hr. unfold width, nth_of in *.
  destruct (per_23 t ltac:(lia)) as [E1 | E1], (per_23 u ltac:(lia)) as [E2 | E2]; rewrite E1, E2 in *; cbn [Z.eqb Pos.eqb] in *; lia.
Qed.

Lemma built_sorted t : 0 <= t <= turns -> StronglySorted before (built t).
Proof.
  intros [Ht Hle]. revert Hle. pattern t. apply natlike_ind; [constructor | | done]. clear t Ht. intros t Ht IH Hle.
  rewrite <- Z.add_1_r, built_next by done. apply StronglySorted_app_2; [| apply IH; lia |].
  - intros a b Ha Hb. unfold slot in Hb. destruct (numbers t) eqn:E; [| by apply elem_of_nil in Hb]. apply list_elem_of_singleton in Hb as ->.
    unfold built in Ha. apply list_elem_of_bind in Ha as (u & Ha & Hu%elem_of_seqZ). unfold slot in Ha. destruct (numbers u) eqn:Eu; [| by apply elem_of_nil in Ha].
    apply list_elem_of_singleton in Ha as ->. apply numbered_in_order; done || lia.
  - unfold slot. destruct (numbers t); repeat constructor.
Qed.
End fill.

(** ** The interleaver

    It is that of the convolutional code: the groups are written by rows and read by columns. *)

Section interleaver.
Context (D : Z) (HD : 2 <= D <= 1024).

(** The rank of an entry among those read. *)
Definition rank (m : Z) : Z := met D (pos D (3 * m)).

Lemma pos_first m : 0 <= m < D -> 0 <= pos D (3 * m) < nrows D * 32 /\ valid D (pos D (3 * m)) = true /\ entry D (pos D (3 * m)) - ndummy D = m.
Proof.
  intros Hm. destruct (pos_spec D HD (3 * m) ltac:(lia)) as (Hp & Hv & Ec). pose proof (nrows_range D HD) as (Hn & Hd & _).
  pose proof (perm_range ((3 * m / 3 + ndummy D) mod 32) ltac:(lia)) as [_ Hpr]. unfold coded in Ec.
  destruct (parts_of D HD _ Hp) as (Ep & Hs & _). split; [| split; [done | lia]].
  unfold pos. replace (3 * m mod 3) with 0 by lia. replace (3 * m / 3) with m in * by lia. unfold ndummy in *. nia.
Qed.

Lemma coded_first p : 0 <= p < nrows D * 32 -> valid D p = true -> 0 <= entry D p - ndummy D < D /\ pos D (3 * (entry D p - ndummy D)) = p.
Proof.
  intros Hp Hv. pose proof (nrows_range D HD) as (Hn & Hd & _). destruct (coded_spec D HD p) as [Hc E]; [unfold n3; lia | done |].
  unfold coded in *. rewrite (Z.div_small p) in * by lia. rewrite Z.add_0_r in *. split; [lia |]. by rewrite Z.mul_comm.
Qed.

Lemma met_first : met D (nrows D * 32) <= D.
Proof.
  unfold met. set (l := filter _ _). rewrite <- (zlen_fmap (fun p => entry D p - ndummy D)).
  assert (((fun p => entry D p - ndummy D) <$> l) ⊆+ seqZ 0 D) as H; [| apply submseteq_length in H; rewrite length_seqZ in H; unfold zlen; lia].
  apply NoDup_submseteq.
  - apply NoDup_fmap_2_strong; [| apply NoDup_filter, NoDup_seqZ]. intros x y (Hx & Hx')%list_elem_of_filter (Hy & Hy')%list_elem_of_filter E.
    apply elem_of_seqZ in Hx', Hy'. destruct (coded_first x ltac:(lia) Hx) as [_ <-]. destruct (coded_first y ltac:(lia) Hy) as [_ <-]. by rewrite E.
  - intros c (p & -> & (Hv & Hp)%list_elem_of_filter)%list_elem_of_fmap. apply elem_of_seqZ in Hp. apply elem_of_seqZ.
    destruct (coded_first p ltac:(lia) Hv). lia.
Qed.

Lemma rank_below p : 0 <= p < nrows D * 32 -> valid D p = true -> 0 <= met D p < D.
Proof.
  intros Hp Hv. pose proof met_first. pose proof (met_next D p ltac:(lia)) as E. rewrite Hv in E.
  pose proof (met_mono D (p + 1) (nrows D * 32) ltac:(lia)). pose proof (zlen_nonneg (filter (fun q => valid D q = true) (seqZ 0 p))). unfold met in *. lia.
Qed.

Lemma met_inj p q : 0 <= p -> 0 <= q -> valid D p = true -> valid D q = true -> met D p = met D q -> p = q.
Proof.
  assert (forall p q, 0 <= p < q -> valid D p = true -> met D p < met D q) as H.
  { clear p q. intros p q Hpq Hv. pose proof (met_next D p ltac:(lia)) as E. rewrite Hv in E. pose proof (met_mono D (p + 1) q ltac:(lia)). lia. }
  intros Hp Hq Hvp Hvq E. destruct (Z.lt_trichotomy p q) as [Hlt | [Heq | Hgt]]; [| done |].
  - pose proof (H p q ltac:(lia) Hvp). lia.
  - pose proof (H q p ltac:(lia) Hvq). lia.
Qed.

Lemma kp_spec id k : 0 <= id < 2 ^ 20 -> 0 <= k < 2 ^ 20 -> pdcch_kp D id k = Some ((k - id) mod D).
Proof.
  intros Hid Hk. unfold pdcch_kp. destruct (Z.eqb_spec D 0); [lia |]. f_equal. destruct (Z.ltb_spec k id).
  - rewrite uwrap_small by (unfold is_uint; pose proof (Z.mod_pos_bound id D ltac:(lia)); lia).
    replace (D + k - id mod D) with (k - id + (id / D + 1) * D) by (pose proof (Z.div_mod id D ltac:(lia)); lia). by rewrite Z.mod_add by lia.
  - by rewrite uwrap_small by (unfold is_uint; lia).
Qed.

Definition source (id m : Z) : Z := (rank m - id) mod D.

Lemma interleave_regs_spec id tmp regs : 0 <= id < 2 ^ 20 -> D <= zlen tmp -> zlen regs = D ->
  exists out, interleave_regs D id tmp regs = Some out /\ zlen out = D /\ forall m, 0 <= m < D -> zget out m = zget tmp (source id m).
Proof.
  intros Hid Ht Hr. pose proof (nrows_range D HD) as (Hn & Hd & _). unfold interleave_regs, PDCCH_NCOLS.
  rewrite uwrap_small by (unfold is_uint; lia). fold (nrows D).
  replace (Z.max 0 (32 * nrows D - D)) with (ndummy D) by (unfold ndummy in *; lia).
  set (I := fun p (st : list Z * Z) => snd st = met D p /\ zlen (fst st) = D /\
    forall q, 0 <= q < p -> valid D q = true -> zget (fst st) (entry D q - ndummy D) = zget tmp ((met D q - id) mod D)).
  loop_inv (fun j => I (j * nrows D)) as (st & -> & Hst); [lia | | |].
  { repeat split; [done.. |]. intros q Hq. lia. }
  2:{ destruct st as [out k]. destruct Hst as (_ & Hl & Hout). cbn [fst snd mbind option_bind] in *. exists out. split; [done |]. split; [done |].
    intros m Hm. destruct (pos_first m Hm) as (Hp & Hv & E). rewrite <- E at 1. apply Hout; [lia | done]. }
  intros j st Hj Hst.
  loop_inv (fun i => I (j * nrows D + i)) as (st' & -> & Hst'); [lia | by rewrite Z.add_0_r | |].
  2:{ exists st'. split; [done |]. by replace ((j + 1) * nrows D) with (j * nrows D + nrows D) by lia. }
  clear st Hst. intros i [out k] Hi (Ek & Hl & Hout). cbn [fst snd] in Ek, Hl, Hout.
  destruct (position_parts D HD 0 j i ltac:(lia) Hj Hi) as (Hp & Es & Ec & Er). cbv zeta in *.
  replace (nrows D * 32 * 0 + j * nrows D + i) with (j * nrows D + i) in * by lia. set (p := j * nrows D + i) in *.
  assert (0 <= p < nrows D * 32) as Hp' by (unfold p; nia).
  unfold interleave_reg. change PDCCH_PERM with RM_PERM_CC. destruct (zget_perm j Hj) as [-> _]. cbn [mbind option_bind]. unfold PDCCH_NCOLS.
  assert (i * 32 + perm j = entry D p) as -> by (unfold entry; by rewrite Ec, Er).
  replace (j * nrows D + (i + 1)) with (p + 1) by (unfold p; lia). pose proof (met_next D p ltac:(lia)) as Em.
  fold (valid D p). destruct (valid D p) eqn:Hv.
  - pose proof (rank_below p Hp' Hv) as Hk. rewrite <- Ek in Hk. rewrite kp_spec by lia. cbn [mbind option_bind].
    pose proof (Z.mod_pos_bound (k - id) D ltac:(lia)). destruct (zget_some tmp ((k - id) mod D)) as [x Hx]; [unfold in_range; lia |].
    rewrite Hx. cbn [mbind option_bind]. destruct (coded_first p Hp' Hv) as [Hc Epos].
    destruct (zset out (entry D p - ndummy D) x) as [out' |] eqn:Eset; [| rewrite zset_in in Eset by (unfold in_range; lia); done].
    cbn [mbind option_bind]. eexists. split; [done |]. split; [cbn [snd]; lia |]. cbn [fst]. split; [by rewrite (zset_len _ _ _ _ Eset) |].
    intros q Hq Hvq. destruct (Z.eq_dec q p) as [-> | Hne].
    + rewrite (zget_zset_eq _ _ _ _ Eset), <- Ek. by rewrite Hx.
    + rewrite (zget_zset_ne _ _ _ _ _ Eset).
      * apply Hout; [lia | done].
      * intros E. apply Hne. destruct (coded_first q ltac:(lia) Hvq) as [_ <-]. by rewrite <- E, Epos.
  - eexists. split; [done |]. split; [cbn [snd]; lia |]. cbn [fst]. split; [done |]. intros q Hq Hvq. apply Hout; [| done].
    assert (q <> p) by (intros ->; congruence). lia.
Qed.

Lemma source_perm id : Permutation (source id <$> seqZ 0 D) (seqZ 0 D).
Proof.
  assert (NoDup (source id <$> seqZ 0 D)) as Hnd.
  { apply NoDup_fmap_2_strong; [| apply NoDup_seqZ]. intros a b Ha%elem_of_seqZ Hb%elem_of_seqZ E.
    destruct (pos_first a ltac:(lia)) as (Hp & Hv & Ea). destruct (pos_first b ltac:(lia)) as (Hq & Hw & Eb).
    pose proof (rank_below _ Hp Hv). pose proof (rank_below _ Hq Hw). unfold source, rank in E.
    assert (met D (pos D (3 * a)) = met D (pos D (3 * b))) as Em by (apply (ring_inj D (- id)) in E; lia).
    apply met_inj in Em; [| lia.. | done | done]. rewrite <- Ea, <- Eb. by rewrite Em. }
  apply submseteq_length_Permutation; [| by rewrite length_fmap].
  apply NoDup_submseteq; [done |]. intros x (m & -> & Hm)%list_elem_of_fmap. apply elem_of_seqZ. unfold source.
  pose proof (Z.mod_pos_bound (rank m - id) D ltac:(lia)). lia.
Qed.
End interleaver.

(** ** Groups given away *)

Lemma three {A} (a b c x : A) :
  (zget [a; b; c] 0 = Some a /\ zget [a; b; c] 1 = Some b /\ zget [a; b; c] 2 = Some c) /\
  (zset [a; b; c] 0 x = Some [x; b; c] /\ zset [a; b; c] 1 x = Some [a; x; c] /\ zset [a; b; c] 2 x = Some [a; b; x]).
Proof. repeat split. Qed.

Ltac three :=
  repeat match goal with
  | |- context [zget [?a; ?b; ?c] ?i] => first
      [rewrite (proj1 (proj1 (three a b c a))) | rewrite (proj1 (proj2 (proj1 (three a b c a)))) | rewrite (proj2 (proj2 (proj1 (three a b c a))))]
  | |- context [zset [?a; ?b; ?c] ?i ?x] => first
      [rewrite (proj1 (proj2 (three a b c x))) | rewrite (proj1 (proj2 (proj2 (three a b c x)))) | rewrite (proj2 (proj2 (proj2 (three a b c x))))]
  end.

Section marks.
Context (base : list srsran_regs_reg_t).
Context (Hfree : Forall (fun r => reg_assigned r = false /\ 0 <= reg_l r < 4) base).

(** The groups after those of [ps] have been assigned. *)
Definition mark_reg (ps : list Z) (i : nat) (r : srsran_regs_reg_t) : srsran_regs_reg_t :=
  Reg (reg_k r) (reg_k0 r) (reg_l r) (bool_decide (Z.of_nat i ∈ ps)).
Definition mark (ps : list Z) : list srsran_regs_reg_t := imap (mark_reg ps) base.

Definition lsym (i : Z) : Z := default (-1) (reg_l <$> zget base i).

(** The groups of the symbols [f] that are left, in order. *)
Definition left_of (ps : list Z) (f : Z -> bool) (i : Z) : bool := f (lsym i) && negb (bool_decide (i ∈ ps)).
Definition select (ps : list Z) (f : Z -> bool) (t : Z) : list Z := filter (fun i => left_of ps f i = true) (seqZ 0 t).
Definition sel (ps : list Z) (f : Z -> bool) : list Z := select ps f (zlen base).

Lemma mark_nil : mark [] = base.
Proof.
  unfold mark. transitivity (imap (fun _ r => r) base).
  - apply imap_ext. intros i r Hr. rewrite Forall_forall in Hfree. destruct (Hfree r) as [E _]; [by apply list_elem_of_lookup_2 in Hr |].
    destruct r. cbn in E. subst. unfold mark_reg. by rewrite bool_decide_false by apply not_elem_of_nil.
  - clear. induction base as [| x l IH]; [done |]. cbn. f_equal. exact IH.
Qed.

Lemma zlen_mark ps : zlen (mark ps) = zlen base.
Proof. unfold mark, zlen. by rewrite length_imap. Qed.

Lemma zget_mark ps i : 0 <= i < zlen base -> exists r, zget base i = Some r /\ 0 <= reg_l r < 4 /\ lsym i = reg_l r /\
  zget (mark ps) i = Some (Reg (reg_k r) (reg_k0 r) (reg_l r) (bool_decide (i ∈ ps))).
Proof.
  intros Hi. destruct (zget_some base i Hi) as [r Hr]. exists r. split; [done |].
  unfold lsym. rewrite Hr. rewrite zget_lookup in Hr by lia. rewrite Forall_forall in Hfree. destruct (Hfree r) as [_ Hl]; [by apply list_elem_of_lookup_2 in Hr |].
  split; [done |]. split; [done |]. rewrite zget_lookup by lia. unfold mark. rewrite list_lookup_imap, Hr. cbn. unfold mark_reg. by rewrite Z2Nat.id by lia.
Qed.

Lemma assign_mark ps p : 0 <= p < zlen base -> assign (mark ps) p = Some (mark (ps ++ [p])).
Proof.
  intros Hp. unfold assign. destruct (zget_mark ps p Hp) as (r & Hr & _ & _ & ->). cbn [mbind option_bind reg_k reg_k0 reg_l].
  rewrite zset_in by (unfold in_range; by rewrite zlen_mark). f_equal. apply list_eq. intros i. unfold mark.
  rewrite zget_lookup in Hr by lia.
  destruct (decide (i = Z.to_nat p)) as [-> | Hne].
  - rewrite list_lookup_insert_eq by (rewrite length_imap; unfold zlen in Hp; lia). rewrite list_lookup_imap, Hr. cbn. unfold mark_reg.
    rewrite Z2Nat.id, bool_decide_true by (lia || (apply elem_of_app; right; by left)). done.
  - rewrite list_lookup_insert_ne by done. rewrite !list_lookup_imap. destruct (base !! i); [| done]. cbn. unfold mark_reg. do 2 f_equal.
    apply bool_decide_ext. rewrite elem_of_app, list_elem_of_singleton. intuition lia.
Qed.

Lemma elem_select ps f t i : i ∈ select ps f t <-> 0 <= i < t /\ f (lsym i) = true /\ i ∉ ps.
Proof.
  unfold select, left_of. rewrite list_elem_of_filter, elem_of_seqZ, andb_true_iff, negb_true_iff, bool_decide_eq_false. intuition lia.
Qed.

Lemma NoDup_select ps f t : NoDup (select ps f t).
Proof. apply NoDup_filter, NoDup_seqZ. Qed.

Lemma select_next ps f t : 0 <= t -> select ps f (t + 1) = select ps f t ++ (if left_of ps f t then [t] else []).
Proof. intros Ht. unfold select. rewrite seqZ_snoc, filter_app, filter_cons by done. f_equal. by destruct (left_of ps f t). Qed.

Lemma select_grows ps f t u : 0 <= t <= u -> zlen (select ps f t) <= zlen (select ps f u).
Proof.
  intros Htu. unfold select. replace u with (t + (u - t)) by lia. rewrite seqZ_app by lia. rewrite filter_app, zlen_app.
  match goal with |- _ <= _ + zlen ?l => pose proof (zlen_nonneg l) end. lia.
Qed.

(** An array filled in order: [s] has been written, the rest is what the array held. *)
Definition filled (s tmp : list Z) : list Z := s ++ drop (length s) tmp.

Lemma zset_filled s tmp x : zlen s < zlen tmp -> zset (filled s tmp) (zlen s) x = Some (filled (s ++ [x]) tmp).
Proof.
  intros Hs. destruct (zsplit tmp (zlen s)) as (t1 & y & t2 & E & Ht1); [split; [apply zlen_nonneg | done] |].
  assert (length t1 = length s) as Hl by (unfold zlen in Ht1; lia). unfold filled. rewrite E, length_app. cbn [length].
  rewrite drop_app_length' by done. rewrite zset_app_mid by done. f_equal. rewrite <- app_assoc. f_equal. cbn [app]. f_equal.
  replace (length s + 1)%nat with (length t1 + 1)%nat by lia. by rewrite drop_app_add.
Qed.

Lemma filled_full s tmp : zlen s = zlen tmp -> filled s tmp = s.
Proof. intros E. unfold filled. rewrite drop_ge, app_nil_r; [done | unfold zlen in E; lia]. Qed.

Context (h : srsran_regs_t) (ps : list Z) (Hregs : rg_regs h = mark ps) (Hnof : rg_nof_regs h = zlen base).

Lemma number_regs_spec c tmp : zlen (sel ps (fun l => l <? c)) <= zlen tmp ->
  number_regs h c tmp = Some (filled (sel ps (fun l => l <? c)) tmp, zlen (sel ps (fun l => l <? c))).
Proof.
  intros Ht. set (f := fun l => l <? c) in *. unfold number_regs. rewrite Hnof, Hregs.
  loop_inv (fun t st => st = (filled (select ps f t) tmp, zlen (select ps f t))) as (st & -> & ->); [apply zlen_nonneg | done | | done].
  intros t st Ht' ->. destruct (zget_mark ps t ltac:(lia)) as (r & _ & _ & El & ->). cbn [mbind option_bind reg_l reg_assigned].
  rewrite select_next by lia. unfold left_of. rewrite El. fold (f (reg_l r)). destruct (f (reg_l r) && negb (bool_decide (t ∈ ps))) eqn:E.
  - rewrite zset_filled; [cbn [mbind option_bind]; eexists; split; [done |]; by rewrite zlen_app |].
    pose proof (select_grows ps f (t + 1) (zlen base) ltac:(lia)) as Hg. rewrite select_next in Hg by lia. unfold left_of in Hg. rewrite El, E, zlen_app in Hg.
    change (zlen [t]) with 1 in Hg. unfold sel in Ht. lia.
  - eexists. split; [done |]. by rewrite app_nil_r.
Qed.

Definition on (l s : Z) : bool := s =? l.

Lemma count_regs_spec : count_regs h = Some [zlen (sel ps (on 0)); zlen (sel ps (on 1)); zlen (sel ps (on 2))].
Proof.
  unfold count_regs. rewrite Hnof, Hregs.
  loop_inv (fun t n => n = [zlen (select ps (on 0) t); zlen (select ps (on 1) t); zlen (select ps (on 2) t)]) as (n & -> & ->); [apply zlen_nonneg | done | | done].
  intros t n Ht ->. destruct (zget_mark ps t ltac:(lia)) as (r & _ & Hl & El & ->). cbn [mbind option_bind reg_l reg_assigned].
  rewrite !select_next by lia. rewrite !zlen_app. unfold left_of, on. rewrite El.
  assert (reg_l r = 0 \/ reg_l r = 1 \/ reg_l r = 2 \/ reg_l r = 3) as [-> | [-> | [-> | ->]]] by lia; cbn [Z.eqb Z.ltb Z.compare Pos.eqb Pos.compare Pos.compare_cont andb];
    destruct (bool_decide (t ∈ ps)); cbn [negb]; change (zlen (@nil Z)) with 0; change (zlen [t]) with 1; rewrite ?Z.add_0_r; eexists; (split; [reflexivity | done]).
Qed.

Lemma collect_regs_spec (mem : Z -> list Z) : (forall n, 0 <= n -> zlen (mem n) = n) ->
  collect_regs h (mem <$> [zlen (sel ps (on 0)); zlen (sel ps (on 1)); zlen (sel ps (on 2))])
    = Some ([sel ps (on 0); sel ps (on 1); sel ps (on 2)], [zlen (sel ps (on 0)); zlen (sel ps (on 1)); zlen (sel ps (on 2))]).
Proof.
  intros Hmem. unfold collect_regs. rewrite Hnof, Hregs. cbn [fmap list_fmap].
  set (tm := fun l => mem (zlen (sel ps (on l)))).
  change [mem (zlen (sel ps (on 0))); mem (zlen (sel ps (on 1))); mem (zlen (sel ps (on 2)))] with [tm 0; tm 1; tm 2].
  loop_inv (fun t st => st = ([filled (select ps (on 0) t) (tm 0); filled (select ps (on 1) t) (tm 1); filled (select ps (on 2) t) (tm 2)],
    [zlen (select ps (on 0) t); zlen (select ps (on 1) t); zlen (select ps (on 2) t)])) as (st & -> & ->); [apply zlen_nonneg | done | |].
  2:{ fold (sel ps (on 0)) (sel ps (on 1)) (sel ps (on 2)). rewrite !filled_full by (unfold tm; by rewrite Hmem by apply zlen_nonneg). done. }
  intros t st Ht ->. destruct (zget_mark ps t ltac:(lia)) as (r & _ & Hl & El & ->). cbn [mbind option_bind reg_l reg_assigned].
  assert (forall l, left_of ps (on l) t = true -> zset (filled (select ps (on l) t) (tm l)) (zlen (select ps (on l) t)) t = Some (filled (select ps (on l) (t + 1)) (tm l))
    /\ zlen (select ps (on l) (t + 1)) = zlen (select ps (on l) t) + 1) as Hnext.
  { intros l E. pose proof (select_grows ps (on l) (t + 1) (zlen base) ltac:(lia)) as Hg. rewrite select_next, E in * by lia. rewrite zlen_app in *.
    change (zlen [t]) with 1 in *. split; [| done]. apply zset_filled. unfold tm. rewrite Hmem by apply zlen_nonneg. unfold sel. lia. }
  assert (forall l, left_of ps (on l) t = false -> select ps (on l) (t + 1) = select ps (on l) t) as Hsame.
  { intros l E. rewrite select_next, E, app_nil_r by lia. done. }
  assert (forall l, left_of ps (on l) t = (reg_l r =? l) && negb (bool_decide (t ∈ ps))) as Hleft by (intros l; unfold left_of, on; by rewrite El).
  assert (reg_l r = 0 \/ reg_l r = 1 \/ reg_l r = 2 \/ reg_l r = 3) as [Er | [Er | [Er | Er]]] by lia; rewrite Er in *; cbn [Z.ltb Z.compare Pos.compare Pos.compare_cont andb];
    destruct (bool_decide (t ∈ ps)); cbn [negb];
    pose proof (Hleft 0) as L0; pose proof (Hleft 1) as L1; pose proof (Hleft 2) as L2; cbn [Z.eqb Pos.eqb andb negb] in L0, L1, L2;
    repeat match goal with
    | L : left_of ps (on ?l) t = true |- _ => destruct (Hnext l L) as [? ?]; clear L
    | L : left_of ps (on ?l) t = false |- _ => pose proof (Hsame l L) as ->; clear L
    end; try (eexists; split; [reflexivity | done]);
    match goal with H : zset _ _ _ = Some _, H' : zlen _ = _ |- _ =>
      three; cbn [mbind option_bind]; three; cbn [mbind option_bind]; rewrite H; cbn [mbind option_bind]; three; cbn [mbind option_bind]; three; cbn [mbind option_bind];
      rewrite <- H'; eexists; split; [reflexivity | done] end.
Qed.
End marks.
