(* ===== verification/RegsInit.v ===== *)
(** * The division of the control region ([lib/src/phy/phch/regs.c], continued)

    What the initialisation of [Regs] makes of a cell: where PCFICH and PHICH get their groups,
    what is left to PDCCH and in which order, and that the channels do not disturb each other
    on a grid. *)

From S2P Require Export Regs.

(** ** PHICH *)

(** The mapping units of a cell: [ceil (Ng * N / 8)]. *)
Definition groups_of (r : srsran_phich_r_t) (N : Z) : Z :=
  match r with SRSRAN_PHICH_R_1_6 => (N + 47) / 48 | SRSRAN_PHICH_R_1_2 => (N + 15) / 16 | SRSRAN_PHICH_R_1 => (N + 7) / 8 | SRSRAN_PHICH_R_2 => (N + 3) / 4 end.

Lemma phich_groups_spec r N : 0 <= N <= 110 -> phich_groups_m1 r N = Some (groups_of r N).
Proof.
  intros HN. assert (0 <= N < 111) as H by lia. revert N H HN. destruct r; each_below 111; intros _; vm_compute; reflexivity.
Qed.

Lemma in_list {A} (l : list A) i d : 0 <= i < zlen l -> zget l i = Some (default d (zget l i)) /\ default d (zget l i) ∈ l.
Proof.
  intros Hi. destruct (zget_some l i Hi) as [x Hx]. rewrite Hx. split; [done |]. cbn. rewrite zget_lookup in Hx by lia. by apply list_elem_of_lookup_2 in Hx.
Qed.

Section phich.
Context (base : list srsran_regs_reg_t).
Context (Hfree : Forall (fun r => reg_assigned r = false /\ 0 <= reg_l r < 4) base).
Context (mem : Z -> list Z) (Hmem : forall n, 0 <= n -> zlen (mem n) = n).
Context (h : srsran_regs_t) (ps : list Z) (Hregs : rg_regs h = mark base ps) (Hnof : rg_nof_regs h = zlen base).
Context (mb : bool) (G : Z) (HG : 0 <= G).
Context (Hphich : rg_phich h = (fun _ => RegsCh REGS_PHICH_REGS_X_GROUP (mem REGS_PHICH_REGS_X_GROUP)) <$> seqZ 0 G).
Context (Hid : 0 <= cell_id (rg_cell h) < 504).

Definition idx (l : Z) : list Z := sel base ps (on l).
Context (Hroom : forall l, 0 <= l < 3 -> 3 * G <= zlen (idx l) /\ 1 <= zlen (idx l) <= 1024).

Definition li_of (q : Z) : Z := phich_li h mb (q / 3) (q mod 3).
Definition ref_symbol : Z := match rg_phich_len h with SRSRAN_PHICH_EXT => if mb then 1 else 0 | SRSRAN_PHICH_NORM => 0 end.
Definition ni_of (q : Z) : Z :=
  let n := zlen (idx (li_of q)) in (cell_id (rg_cell h) * n / zlen (idx ref_symbol) + q / 3 + (q mod 3) * n / 3) mod n.
(** The group that the [q]-th quadruplet of PHICH takes. *)
Definition taken (q : Z) : Z := default 0 (zget (idx (li_of q)) (ni_of q)).

Definition sizes : list Z := [zlen (idx 0); zlen (idx 1); zlen (idx 2)].

Lemma li_range q : 0 <= q -> 0 <= li_of q < 3.
Proof. intros Hq. unfold li_of, phich_li. destruct (rg_phich_len h); [lia |]. destruct mb; lia. Qed.

Lemma zget_idx l : 0 <= l < 3 -> zget sizes l = Some (zlen (idx l)) /\ zget [idx 0; idx 1; idx 2] l = Some (idx l).
Proof. intros Hl. assert (l = 0 \/ l = 1 \/ l = 2) as [-> | [-> | ->]] by lia; by split. Qed.

Lemma ni_spec q : 0 <= q < 3 * G -> phich_ni h mb sizes (li_of q) (q / 3) (q mod 3) = Some (ni_of q).
Proof.
  intros Hq. unfold phich_ni. pose proof (li_range q ltac:(lia)) as Hl. destruct (zget_idx _ Hl) as [-> _]. cbn [mbind option_bind].
  fold ref_symbol. assert (0 <= ref_symbol < 3) as Hr by (unfold ref_symbol; destruct (rg_phich_len h); [lia |]; destruct mb; lia).
  destruct (zget_idx _ Hr) as [-> _]. cbn [mbind option_bind]. destruct (Hroom _ Hl) as [HG3 H1]. destruct (Hroom _ Hr) as [_ H2].
  destruct (Z.eqb_spec (zlen (idx ref_symbol)) 0); [lia |]. destruct (Z.eqb_spec (zlen (idx (li_of q))) 0); [lia |]. cbn [orb].
  unfold ni_of. cbv zeta. set (len := zlen (idx (li_of q))) in *. set (d := zlen (idx ref_symbol)) in *. set (id := cell_id (rg_cell h)) in *.
  assert (0 <= id * len <= 503 * 1024) as Hin by nia. assert (0 <= q mod 3 * len <= 2 * 1024) as Hqn by (pose proof (Z.mod_pos_bound q 3 ltac:(lia)); nia).
  rewrite (uwrap_small 32 (id * len)) by (unfold is_uint; lia). rewrite (uwrap_small 32 (q mod 3 * len)) by (unfold is_uint; lia).
  assert (0 <= id * len / d <= id * len) as Hd by (split; [apply Z.div_pos; lia | apply Z.div_le_upper_bound; nia]).
  set (x := id * len / d) in *. set (y := q mod 3 * len) in *. rewrite uwrap_small; [done | unfold is_uint; clearbody x y; lia].
Qed.

Lemma taken_spec q : 0 <= q -> zget (idx (li_of q)) (ni_of q) = Some (taken q) /\ 0 <= taken q < zlen base /\ taken q ∉ ps /\ lsym base (taken q) = li_of q.
Proof.
  intros Hq. pose proof (li_range q Hq) as Hl. destruct (Hroom _ Hl) as [_ H1].
  destruct (in_list (idx (li_of q)) (ni_of q) 0) as [E Hin]; [apply Z.mod_pos_bound; lia |]. split; [done |].
  apply elem_select in Hin as (Hr & Hon & Hps). by apply Z.eqb_eq in Hon.
Qed.

Lemma taken_inj q q' : 0 <= q < 3 * G -> 0 <= q' < 3 * G -> taken q = taken q' -> q = q'.
Proof.
  intros Hq Hq' E. destruct (taken_spec q ltac:(lia)) as (E1 & _ & _ & L1). destruct (taken_spec q' ltac:(lia)) as (E2 & _ & _ & L2).
  rewrite E in E1, L1. rewrite L1 in L2. rewrite L2 in E1.
  pose proof (li_range q' ltac:(lia)) as Hl. destruct (Hroom _ Hl) as [HG3 Hn].
  assert (ni_of q = ni_of q') as En.
  { pose proof (zget_inv _ _ _ E1) as H1. pose proof (zget_inv _ _ _ E2) as H2. unfold in_range in *. rewrite zget_lookup in E1, E2 by lia.
    pose proof (NoDup_lookup _ _ _ _ (NoDup_select base ps (on (li_of q')) (zlen base)) E1 E2). lia. }
  unfold ni_of in En. cbv zeta in En. rewrite L2 in En. set (n := zlen (idx (li_of q'))) in *. set (b := cell_id _ * n / _) in *.
  apply (ring_inj n b) in En; [| lia | |].
  - assert (q / 3 + q mod 3 * n / 3 = q' / 3 + q' mod 3 * n / 3) as E3 by lia. clear En.
    assert (q mod 3 = 0 \/ q mod 3 = 1 \/ q mod 3 = 2) as H1 by lia. assert (q' mod 3 = 0 \/ q' mod 3 = 1 \/ q' mod 3 = 2) as H2 by lia.
    destruct H1 as [H1 | [H1 | H1]], H2 as [H2 | [H2 | H2]]; rewrite H1, H2 in E3; lia.
  - assert (q mod 3 = 0 \/ q mod 3 = 1 \/ q mod 3 = 2) as [H1 | [H1 | H1]] by lia; rewrite H1; lia.
  - assert (q' mod 3 = 0 \/ q' mod 3 = 1 \/ q' mod 3 = 2) as [H1 | [H1 | H1]] by lia; rewrite H1; lia.
Qed.

(** The channels and the object after [q] turns. *)
Definition unit_at (q mi : Z) : srsran_regs_ch_t :=
  RegsCh REGS_PHICH_REGS_X_GROUP (upto (fun i => taken (3 * mi + i)) (Z.max 0 (Z.min 3 (q - 3 * mi))) (mem REGS_PHICH_REGS_X_GROUP)).
Definition phich_at (q : Z) : srsran_regs_t :=
  upd_regs (upd_phich h (rg_ngroups_phich h) (rg_ngroups_phich_m1 h) (unit_at q <$> seqZ 0 G)) (mark base (ps ++ (taken <$> seqZ 0 q))).

Lemma phich_at_0 : phich_at 0 = h.
Proof.
  unfold phich_at. change (taken <$> seqZ 0 0) with (@nil Z). rewrite app_nil_r, <- Hregs.
  replace (unit_at 0 <$> seqZ 0 G) with (rg_phich h); [by destruct h |]. rewrite Hphich. apply list_fmap_ext. intros i mi Hmi%lookup_seqZ.
  unfold unit_at. by rewrite Z.max_l by lia.
Qed.

Lemma phich_turn mi i : 0 <= mi < G -> 0 <= i < 3 ->
  phich_reg mb [idx 0; idx 1; idx 2] sizes mi (phich_at (3 * mi + i)) i = Some (phich_at (3 * mi + (i + 1))).
Proof.
  intros Hmi Hi. set (q := 3 * mi + i). replace (3 * mi + (i + 1)) with (q + 1) by (unfold q; lia).
  assert (q / 3 = mi /\ q mod 3 = i) as [Eq1 Eq2] by (unfold q; lia). assert (0 <= q < 3 * G) as Hq by (unfold q; lia).
  unfold phich_reg. change (phich_li (phich_at q) mb mi i) with (phich_li h mb mi i).
  change (phich_ni (phich_at q) mb sizes (phich_li h mb mi i) mi i) with (phich_ni h mb sizes (phich_li h mb mi i) mi i).
  pose proof (ni_spec q Hq) as En. unfold li_of in En. rewrite Eq1, Eq2 in En. rewrite En. cbn [mbind option_bind].
  pose proof (li_range q ltac:(lia)) as Hl. destruct (zget_idx _ Hl) as [_ El]. unfold li_of in El. rewrite Eq1, Eq2 in El. rewrite El. cbn [mbind option_bind].
  destruct (taken_spec q ltac:(lia)) as (Et & Hr & _ & _). unfold li_of in Et. rewrite Eq1, Eq2 in Et. rewrite Et. cbn [mbind option_bind].
  change (rg_phich (phich_at q)) with (unit_at q <$> seqZ 0 G). change (rg_regs (phich_at q)) with (mark base (ps ++ (taken <$> seqZ 0 q))).
  rewrite zget_lookup, list_lookup_fmap, lookup_seqZ_lt by lia. cbn [fmap option_fmap option_map mbind option_bind]. rewrite Z.add_0_l, Z2Nat.id by lia.
  assert (zset (ch_regs (unit_at q mi)) i (taken q) = Some (ch_regs (unit_at (q + 1) mi))) as ->.
  { unfold unit_at. cbn [ch_regs]. replace (Z.max 0 (Z.min 3 (q - 3 * mi))) with i by (unfold q; lia).
    replace (Z.max 0 (Z.min 3 (q + 1 - 3 * mi))) with (i + 1) by (unfold q; lia).
    apply (zset_upto (fun j => taken (3 * mi + j))). rewrite Hmem by (unfold REGS_PHICH_REGS_X_GROUP; lia). done. }
  cbn [mbind option_bind]. rewrite zset_in by (unfold in_range; rewrite zlen_fmap; unfold zlen; rewrite length_seqZ; lia). cbn [mbind option_bind].
  rewrite assign_mark by done. cbn [mbind option_bind]. unfold phich_at, upd_regs, upd_phich. cbn.
  f_equal. f_equal.
  - apply list_eq. intros k. rewrite list_lookup_fmap. destruct (decide (k = Z.to_nat mi)) as [-> | Hne].
    + rewrite list_lookup_insert_eq by (rewrite length_fmap, length_seqZ; lia). rewrite lookup_seqZ_lt by lia. cbn. by rewrite Z2Nat.id by lia.
    + rewrite list_lookup_insert_ne by done. rewrite list_lookup_fmap. destruct (seqZ 0 G !! k) as [u |] eqn:E; [| done]. cbn. apply lookup_seqZ in E as [-> E]. f_equal.
      unfold unit_at. do 2 f_equal. unfold q. lia.
  - rewrite seqZ_snoc, fmap_app, app_assoc by lia. done.
Qed.

Lemma phich_loop : for_range 0 G (fun h mi => for_range 0 3 (phich_reg mb [idx 0; idx 1; idx 2] sizes mi) h) h = Some (phich_at (3 * G)).
Proof.
  rewrite <- phich_at_0 at 1. loop_inv (fun mi s => s = phich_at (3 * mi)) as (s & -> & ->); [done | done | | done].
  intros mi s Hmi ->. loop_inv (fun i s => s = phich_at (3 * mi + i)) as (s & -> & ->); [lia | by rewrite Z.add_0_r | |].
  - intros i s Hi ->. eexists. split; [by apply phich_turn | done].
  - eexists. split; [done |]. f_equal. lia.
Qed.

Lemma NoDup_taken : NoDup (taken <$> seqZ 0 (3 * G)) /\ forall p, p ∈ taken <$> seqZ 0 (3 * G) -> 0 <= p < zlen base /\ p ∉ ps.
Proof.
  split.
  - apply NoDup_fmap_2_strong; [| apply NoDup_seqZ]. intros a b Ha%elem_of_seqZ Hb%elem_of_seqZ. apply taken_inj; lia.
  - intros p (q & -> & Hq%elem_of_seqZ)%list_elem_of_fmap. by destruct (taken_spec q ltac:(lia)) as (_ & H1 & H2 & _).
Qed.

Lemma units_taken mi : 0 <= mi < G -> ch_regs (unit_at (3 * G) mi) = (fun i => taken (3 * mi + i)) <$> seqZ 0 3.
Proof.
  intros Hmi. unfold unit_at. cbn [ch_regs]. replace (Z.max 0 (Z.min 3 (3 * G - 3 * mi))) with 3 by lia.
  unfold upto. rewrite drop_ge, app_nil_r; [done |]. pose proof (Hmem REGS_PHICH_REGS_X_GROUP ltac:(unfold REGS_PHICH_REGS_X_GROUP; lia)) as H. unfold zlen, REGS_PHICH_REGS_X_GROUP in *. lia.
Qed.

Lemma all_taken : (unit_at (3 * G) <$> seqZ 0 G) ≫= ch_regs = taken <$> seqZ 0 (3 * G).
Proof.
  rewrite bind_fmap. transitivity (seqZ 0 G ≫= fun mi => (fun i => taken (3 * mi + i)) <$> seqZ 0 3).
  { apply bind_ext_in. intros mi Hmi%elem_of_seqZ. apply units_taken. lia. }
  clear Hphich Hroom. pattern G. apply natlike_ind; [done | | done]. intros g Hg IH.
  rewrite <- Z.add_1_r, seqZ_snoc, bind_snoc, IH by done. replace (3 * (g + 1)) with (3 * g + 3) by lia.
  rewrite (seqZ_app 0 (3 * g) 3) by lia. rewrite fmap_app. f_equal. rewrite Z.add_0_l, <- (Z.add_0_r (3 * g)), <- fmap_add_seqZ.
  rewrite <- list_fmap_compose. apply list_fmap_ext. intros i x _. cbn. f_equal. lia.
Qed.
End phich.

(** ** PCFICH *)

Section pcfich.
Context (base : list srsran_regs_reg_t).
Context (Hfree : Forall (fun r => reg_assigned r = false /\ 0 <= reg_l r < 4) base).
Context (mem : Z -> list Z) (Hmem : forall n, 0 <= n -> zlen (mem n) = n).
Context (h : srsran_regs_t) (Hregs : rg_regs h = base) (Hnof : rg_nof_regs h = zlen base).
Context (N : Z) (HN : nof_prb (rg_cell h) = N) (HN6 : 2 <= N <= 110) (Hid : 0 <= cell_id (rg_cell h) < 504).

Definition matches (k l i : Z) : Prop := exists r, zget base i = Some r /\ reg_l r = l /\ reg_k0 r = k.

(** The first symbol has a group at each sixth subcarrier. *)
Context (Hfirst : forall g, 0 <= g < 2 * N -> exists i, matches (6 * g) 0 i).

Lemma find_spec h' ps k l : rg_regs h' = mark base ps -> rg_nof_regs h' = zlen base -> (exists i, matches k l i) ->
  exists p, regs_find_reg h' k l = Some (Some p) /\ 0 <= p < zlen base /\ matches k l p.
Proof.
  intros Hr Hn (i & r & Hi & Hl & Hk). unfold regs_find_reg. rewrite Hr, Hn.
  loop_inv (fun t found => match found with Some p => 0 <= p < t /\ matches k l p | None => forall j, 0 <= j < t -> ~ matches k l j end) as (found & -> & Hf); [apply zlen_nonneg | lia | |].
  - intros t [p |] Ht Hinv; [eexists; split; [done |]; cbv beta iota; split; [lia | tauto] |].
    destruct (zget_mark base Hfree ps t ltac:(lia)) as (q & Hq & _ & _ & ->). cbn [mbind option_bind reg_l reg_k0]. eexists. split; [done |].
    destruct (Z.eqb_spec (reg_l q) l), (Z.eqb_spec (reg_k0 q) k); cbn [andb].
    1: split; [lia | by exists q].
    all: intros j Hj; destruct (Z.eq_dec j t) as [-> |]; [intros (q' & Hq' & Hl' & Hk'); congruence | apply Hinv; lia].
  - destruct found as [p |]; [by exists p |]. exfalso. apply (Hf i); [by apply zget_inv in Hi | by exists r].
Qed.

Definition pcfich_place (j : Z) : Z := (cell_id (rg_cell h) mod (2 * N) + j * N / 2) mod (2 * N).

Lemma pcfich_k j : 0 <= j < 4 ->
  u32 (SRSRAN_NRE / 2 * (cell_id (rg_cell h) mod (2 * nof_prb (rg_cell h))) + j * N / 2 * (SRSRAN_NRE / 2)) mod (N * SRSRAN_NRE) = 6 * pcfich_place j.
Proof.
  intros Hj. rewrite HN. unfold pcfich_place, SRSRAN_NRE. change (12 / 2) with 6. pose proof (Z.mod_pos_bound (cell_id (rg_cell h)) (2 * N) ltac:(lia)).
  assert (0 <= j * N / 2 <= 165) by (assert (j = 0 \/ j = 1 \/ j = 2 \/ j = 3) as [-> | [-> | [-> | ->]]] by lia; lia).
  rewrite uwrap_small by (unfold is_uint; lia). set (a := cell_id _ mod _). set (b := j * N / 2).
  replace (6 * a + b * 6) with (6 * (a + b)) by lia. replace (N * 12) with (6 * (2 * N)) by lia. by rewrite Z.mul_mod_distr_l by lia.
Qed.

Lemma pcfich_place_inj i j : 0 <= i < 4 -> 0 <= j < 4 -> pcfich_place i = pcfich_place j -> i = j.
Proof.
  intros Hi Hj E. apply (ring_inj (2 * N) (cell_id (rg_cell h) mod (2 * N))) in E; [| lia | |];
    assert (i = 0 \/ i = 1 \/ i = 2 \/ i = 3) as [-> | [-> | [-> | ->]]] by lia; assert (j = 0 \/ j = 1 \/ j = 2 \/ j = 3) as [-> | [-> | [-> | ->]]] by lia; lia.
Qed.

(** The groups of PCFICH: one at each of the four places. *)
Definition pcfich_groups (pc : list Z) : Prop :=
  forall j, 0 <= j < zlen pc -> exists p, zget pc j = Some p /\ 0 <= p < zlen base /\ matches (6 * pcfich_place j) 0 p.

Lemma pcfich_new pc p : zlen pc < 4 -> pcfich_groups pc -> matches (6 * pcfich_place (zlen pc)) 0 p -> p ∉ pc.
Proof.
  intros Hl Hpc (r & Hr & _ & Hk) Hin. apply list_elem_of_lookup in Hin as [j Hj].
  assert (0 <= Z.of_nat j < zlen pc) as Hlt by (apply lookup_lt_Some in Hj; unfold zlen; lia).
  destruct (Hpc _ Hlt) as (p' & Hp' & _ & r' & Hr' & _ & Hk'). rewrite zget_lookup, Nat2Z.id in Hp' by lia. rewrite Hj in Hp'. injection Hp' as <-.
  rewrite Hr in Hr'. injection Hr' as <-. pose proof (pcfich_place_inj (zlen pc) (Z.of_nat j) ltac:(pose proof (zlen_nonneg pc); lia) ltac:(lia) ltac:(lia)). lia.
Qed.

Definition pcfich_at (pc : list Z) : srsran_regs_t :=
  upd_regs (upd_pcfich h (RegsCh REGS_PCFICH_NREGS (filled pc (mem REGS_PCFICH_NREGS)))) (mark base pc).

Lemma pcfich_spec : exists pc, regs_pcfich_init mem h = Some (SRSRAN_SUCCESS, pcfich_at pc) /\ zlen pc = 4 /\ NoDup pc /\ pcfich_groups pc.
Proof.
  unfold regs_pcfich_init. cbn [upd_pcfich rg_cell].
  assert (upd_pcfich h (RegsCh REGS_PCFICH_NREGS (mem REGS_PCFICH_NREGS)) = pcfich_at []) as -> by (unfold pcfich_at; rewrite mark_nil, <- Hregs by done; by destruct h).
  loop_inv (fun i st => exists pc, st = (SRSRAN_SUCCESS, pcfich_at pc) /\ zlen pc = i /\ NoDup pc /\ pcfich_groups pc) as (st & -> & (pc & -> & H)).
  - done.
  - exists []. split; [done |]. split; [done |]. split; [constructor |]. intros j Hj. by change (zlen []) with 0 in Hj; lia.
  - intros i st Hi (pc & -> & Hl & Hnd & Hpc). change REGS_PCFICH_NREGS with 4 in Hi. unfold pcfich_reg. change (negb (SRSRAN_SUCCESS =? 0)) with false. cbn iota.
    cbv zeta. change (rg_cell (pcfich_at pc)) with (rg_cell h). pose proof (pcfich_k i Hi) as Ek. rewrite HN in *. rewrite Ek.
    destruct (find_spec (pcfich_at pc) pc (6 * pcfich_place i) 0) as (p & -> & Hp & Hm); [done | done | apply Hfirst; apply Z.mod_pos_bound; lia |].
    cbn [mbind option_bind]. change (ch_regs (rg_pcfich (pcfich_at pc))) with (filled pc (mem REGS_PCFICH_NREGS)).
    rewrite <- Hl. rewrite zset_filled by (rewrite Hmem by done; change REGS_PCFICH_NREGS with 4; lia). cbn [mbind option_bind].
    change (rg_regs (upd_pcfich _ _)) with (mark base pc). destruct (zget_mark base Hfree pc p Hp) as (r & _ & _ & _ & ->). cbn [mbind option_bind reg_assigned].
    assert (p ∉ pc) as Hnew by (apply pcfich_new; [lia | done | by rewrite Hl]). rewrite bool_decide_false by done.
    rewrite assign_mark by done. cbn [mbind option_bind]. eexists. split; [reflexivity |]. exists (pc ++ [p]). split; [done |].
    split; [by rewrite zlen_app |]. split; [apply NoDup_app; split; [done |]; split; [intros x Hx ->%list_elem_of_singleton; done | apply NoDup_singleton] |].
    intros j Hj. rewrite zlen_app in Hj. change (zlen [p]) with 1 in Hj. destruct (Z.eq_dec j (zlen pc)) as [-> | Hne].
    + exists p. rewrite zget_app_mid by done. by rewrite Hl.
    + destruct (Hpc j ltac:(lia)) as (p' & Hp' & Hr'). exists p'. split; [| done]. rewrite zget_lookup in * by lia. rewrite lookup_app_l; [done |]. unfold zlen in *. lia.
  - by exists pc.
Qed.
End pcfich.

(** ** The control region of a cell *)

(** The symbols of the control region with references, and the elements that carry them. *)
Definition has_ref (cell : srsran_cell_t) (l : Z) : bool := (l =? 0) || ((l =? 1) && (nof_ports cell =? 4)) || ((l =? 3) && SRSRAN_CP_ISEXT (cp cell)).
Definition carries_ref (cell : srsran_cell_t) (l k : Z) : bool := has_ref cell l && (k mod 3 =? cell_id cell mod 3).
Definition ctrl_symbols (cell : srsran_cell_t) : Z := if nof_prb cell <=? 10 then 4 else 3.
Definition region_symbols (cell : srsran_cell_t) (cfi : Z) : Z := if nof_prb cell <=? 10 then cfi + 1 else cfi.
Definition n_of (cell : srsran_cell_t) : list Z := (fun l => if has_ref cell l then 2 else 3) <$> seqZ 0 (ctrl_symbols cell).

(** What a valid cell is to have for the groups: six blocks and one, two or four ports. *)
Definition region_ok (cell : srsran_cell_t) : Prop :=
  6 <= nof_prb cell <= 110 /\ 0 <= cell_id cell < 504 /\ (nof_ports cell = 1 \/ nof_ports cell = 2 \/ nof_ports cell = 4).

Lemma zlen_filter_index (f : Z -> bool) (l : list Z) :
  zlen (filter (fun i => f (default (-1) (zget l i)) = true) (seqZ 0 (zlen l))) = zlen (filter (fun x => f x = true) l).
Proof.
  induction l as [| x l IH] using rev_ind; [done |]. rewrite zlen_app. change (zlen [x]) with 1. rewrite seqZ_snoc by apply zlen_nonneg.
  rewrite !filter_app, !zlen_app. f_equal.
  - rewrite <- IH. f_equal. apply filter_ext_in. intros i Hi%elem_of_seqZ. rewrite !zget_lookup by lia. rewrite lookup_app_l by (unfold zlen in Hi; lia). done.
  - rewrite !filter_cons, zget_app_mid by done. cbn [default from_option id]. by destruct (decide _).
Qed.

Section cell.
Context (cell : srsran_cell_t) (Hcell : region_ok cell).

Definition c_n : list Z := n_of cell.
Definition c_vo : Z := cell_id cell mod 3.
Definition c_mx : Z := ctrl_symbols cell.
Definition c_N : Z := nof_prb cell.
Definition groups : list srsran_regs_reg_t := built c_n c_vo c_mx (turns c_mx c_N).

Lemma c_facts : (c_mx = 3 \/ c_mx = 4) /\ (c_mx = 4 -> c_N <= 10) /\ zlen c_n = c_mx /\ 0 <= c_vo < 3 /\ 0 <= c_N <= 110 /\
  (forall l, 0 <= l < c_mx -> per c_n l = (if has_ref cell l then 2 else 3)).
Proof.
  destruct Hcell as (HN & Hid & _). unfold c_mx, c_N, c_n, c_vo, n_of, ctrl_symbols. split; [destruct (_ <=? _); lia |].
  split; [destruct (Z.leb_spec (nof_prb cell) 10); lia |].
  split; [rewrite zlen_fmap; unfold zlen; rewrite length_seqZ; destruct (_ <=? _); lia |]. split; [lia |]. split; [lia |].
  intros l Hl. unfold per. apply list_lookup_total_correct. rewrite list_lookup_fmap, lookup_seqZ_lt by lia. cbn. by rewrite Z2Nat.id by lia.
Qed.

Lemma c_23 l : 0 <= l < c_mx -> c_n !!! Z.to_nat l = 2 \/ c_n !!! Z.to_nat l = 3.
Proof. intros Hl. destruct c_facts as (_ & _ & _ & _ & _ & H). specialize (H l Hl). unfold per in H. rewrite H. destruct (has_ref cell l); auto. Qed.

Lemma groups_free : Forall (fun r => reg_assigned r = false /\ 0 <= reg_l r < 4) groups.
Proof.
  destruct c_facts as (Hmx & _ & Hn & Hvo & HN & _). apply Forall_forall. intros r (t & Ht & _ & ->)%(elem_built c_n c_vo c_mx c_N Hmx Hn c_23 Hvo HN).
  pose proof (sym_range c_n c_vo c_mx c_N Hmx Hn c_23 Hvo HN t ltac:(lia)) as (Hs & _). unfold group_at, group. destruct (_ =? 2); cbn; split; try done; lia.
Qed.

Lemma groups_count (f : Z -> bool) : zlen (sel groups [] f) = c_N * sum_per c_n c_mx f.
Proof.
  destruct c_facts as (Hmx & _ & Hn & Hvo & HN & _).
  rewrite <- (cnt_blocks c_n c_vo c_mx c_N Hmx Hn c_23 Hvo HN f c_N) by lia. fold (turns c_mx c_N). unfold cnt. rewrite <- (syms_built c_n c_vo c_mx c_N Hmx Hn c_23 Hvo HN). fold groups.
  unfold sel, select, left_of. rewrite <- (zlen_filter_index f (reg_l <$> groups)), zlen_fmap. f_equal. apply filter_ext_in. intros i Hi%elem_of_seqZ.
  unfold lsym. rewrite !zget_lookup by lia. rewrite list_lookup_fmap. destruct (groups !! Z.to_nat i); cbn; rewrite (bool_decide_false (i ∈ [])) by apply not_elem_of_nil; by rewrite andb_true_r.
Qed.

Lemma sum_per_bounds (f : Z -> bool) l : 0 <= l < c_mx -> f l = true -> 2 <= sum_per c_n c_mx f.
Proof.
  intros Hl Hf. unfold sum_per. assert (l ∈ seqZ 0 c_mx) as Hin by (apply elem_of_seqZ; lia).
  assert (forall x, x ∈ seqZ 0 c_mx -> 2 <= per c_n x) as Hper by (intros x Hx%elem_of_seqZ; destruct (c_23 x ltac:(lia)) as [E | E]; unfold per; lia).
  revert Hin Hper. induction (seqZ 0 c_mx) as [| x s IH]; intros Hin Hper; [by apply elem_of_nil in Hin |]. cbn [foldr].
  assert (forall t, 0 <= foldr (fun l s => (if f l then per c_n l else 0) + s) 0 t \/ exists y, y ∈ t /\ per c_n y < 2) as Hpos.
  { induction t as [| y t IHt]; [left; cbn; lia |]. cbn [foldr]. destruct (Z.lt_ge_cases (per c_n y) 2); [right; exists y; split; [left | done] |].
    destruct IHt as [H0 | (z & Hz & Hlt)]; [left; destruct (f y); lia | right; exists z; split; [by right | done]]. }
  destruct (Hpos s) as [Hs | (y & Hy & Hlt)]; [| specialize (Hper y ltac:(by right)); lia].
  apply elem_of_cons in Hin as [<- | Hin].
  - rewrite Hf. specialize (Hper l ltac:(left)). lia.
  - assert (2 <= foldr (fun l s => (if f l then per c_n l else 0) + s) 0 s) by (apply IH; [done | intros y Hy; apply Hper; by right]).
    specialize (Hper x ltac:(left)). destruct (f x); lia.
Qed.

Lemma sel_less ps f : zlen (sel groups [] f) <= zlen (sel groups ps f) + zlen ps.
Proof.
  assert (sel groups [] f ⊆+ sel groups ps f ++ ps) as H.
  { apply NoDup_submseteq; [apply NoDup_select |]. intros i (Hi & Hf & _)%elem_select. apply elem_of_app.
    destruct (decide (i ∈ ps)); [by right | left]. by apply elem_select. }
  apply submseteq_length in H. rewrite length_app in H. unfold zlen. lia.
Qed.

Lemma regs_counts_spec : regs_counts c_mx cell = Some (c_n, zlen groups) /\ zlen groups <= 1024.
Proof.
  destruct c_facts as (Hmx & Hsmall & Hn & Hvo & HN & _). unfold groups.
  rewrite (built_all c_n c_vo c_mx c_N Hmx Hn c_23 Hvo HN). destruct Hcell as (_ & _ & Hports).
  unfold c_n, n_of. fold c_mx. unfold c_N in *. destruct Hmx as [E | E]; rewrite E in *; destruct Hports as [Ep | [Ep | Ep]];
    unfold regs_counts, regs_num_x_symbol, sum_per, has_ref, SRSRAN_CP_ISEXT; rewrite Ep; destruct (cp cell);
    match goal with |- context [seqZ 0 ?k] => let l := eval vm_compute in (seqZ 0 k) in change (seqZ 0 k) with l end; unfold per; cbn;
    repeat match goal with |- context [?l !!! Z.to_nat ?i] => let v := eval vm_compute in (l !!! Z.to_nat i) in change (l !!! Z.to_nat i) with v end;
    u32s; (split; [f_equal; f_equal; lia | lia]).
Qed.
End cell.

(** *** What the initialisation promises *)

(** The groups given to PCFICH and PHICH, and those left to PDCCH in the symbols of a region. *)
Definition given (h : srsran_regs_t) : list Z := ch_regs (rg_pcfich h) ++ (rg_phich h ≫= ch_regs).
Definition rest (h : srsran_regs_t) (cfi : Z) : list Z := sel (rg_regs h) (given h) (fun l => l <? region_symbols (rg_cell h) cfi).

Record divided (cell : srsran_cell_t) (h : srsran_regs_t) : Prop := Divided {
  dv_cell : rg_cell h = cell;
  dv_nof : rg_nof_regs h = zlen (rg_regs h);
  dv_disjoint : NoDup (rg_regs h ≫= reg_elements (nof_prb cell));
  dv_covers : forall l k, 0 <= l < ctrl_symbols cell -> 0 <= k < 12 * nof_prb cell ->
    (k + l * nof_prb cell * 12 ∈ rg_regs h ≫= reg_elements (nof_prb cell) <-> carries_ref cell l k = false);
  dv_order : (ctrl_symbols cell = 4 -> cp cell = SRSRAN_CP_NORM) -> StronglySorted before (rg_regs h);
  dv_shapes : Forall (fun r => zlen (reg_k r) = 4 /\ Forall (fun p => 0 <= p < ctrl_symbols cell * nof_prb cell * 12) (reg_elements (nof_prb cell) r)) (rg_regs h);
  dv_pcfich : ch_nof_regs (rg_pcfich h) = 4 /\ zlen (ch_regs (rg_pcfich h)) = 4;
  dv_phich : Forall (fun ch => ch_nof_regs ch = 3 /\ zlen (ch_regs ch) = 3) (rg_phich h);
  dv_given : NoDup (given h) /\ Forall (fun p => 0 <= p < zlen (rg_regs h)) (given h);
  dv_pdcch : forall cfi, 1 <= cfi <= 3 -> exists ch, zget (rg_pdcch h) (cfi - 1) = Some ch /\
    let r := rest h cfi in ch_nof_regs ch = zlen r / 9 * 9 /\ zlen (ch_regs ch) = zlen r /\ 2 <= zlen r <= 1024 /\
    forall m, 0 <= m < zlen r -> zget (ch_regs ch) m = zget r (source (zlen r) (cell_id cell) m)
}.

Lemma fmap_mark {B} (f : srsran_regs_reg_t -> B) base ps : (forall r a, f (Reg (reg_k r) (reg_k0 r) (reg_l r) a) = f r) -> f <$> mark base ps = f <$> base.
Proof. intros Hf. apply list_eq. intros i. unfold mark. rewrite !list_lookup_fmap, list_lookup_imap. destruct (base !! i); [| done]. cbn. f_equal. apply Hf. Qed.

Lemma bind_as_fmap {A B} (f : A -> list B) l l' : f <$> l = f <$> l' -> l ≫= f = l' ≫= f.
Proof. intros E. transitivity ((f <$> l) ≫= id); [by rewrite bind_fmap | by rewrite E, bind_fmap]. Qed.

Lemma mark_elements base ps N : mark base ps ≫= reg_elements N = base ≫= reg_elements N.
Proof. apply bind_as_fmap, fmap_mark. done. Qed.

Lemma sel_mark base ps own f : sel (mark base ps) own f = sel base own f.
Proof.
  unfold sel, select. rewrite zlen_mark. apply filter_ext_in. intros i Hi%elem_of_seqZ. unfold left_of, lsym.
  rewrite !zget_lookup by lia. rewrite <- !list_lookup_fmap. rewrite fmap_mark by done. done.
Qed.

Lemma sorted_same (l l' : list srsran_regs_reg_t) : (fun r => (reg_k0 r, reg_l r)) <$> l = (fun r => (reg_k0 r, reg_l r)) <$> l' ->
  StronglySorted before l -> StronglySorted before l'.
Proof.
  revert l'. induction l as [| x l IH]; intros [| x' l'] E Hs; try done. injection E as E1 E2 E. inversion Hs as [| ? ? Hs' Hx]; subst.
  constructor; [by apply IH |]. clear IH Hs Hs'. revert l' E. induction Hx as [| y l Hy _ IH]; intros [| y' l'] E; try done; constructor.
  - injection E as E3 E4 _. unfold before in *. lia.
  - apply IH. by injection E.
Qed.

Lemma sel_le base ps f : zlen (sel base ps f) <= zlen base.
Proof.
  assert (sel base ps f ⊆+ seqZ 0 (zlen base)) as H.
  { apply NoDup_submseteq; [apply NoDup_select |]. intros i (Hi & _)%elem_select. apply elem_of_seqZ. lia. }
  apply submseteq_length in H. rewrite length_seqZ in H. unfold zlen in *. lia.
Qed.

Section region.
Context (cell : srsran_cell_t) (Hcell : region_ok cell).
Context (mem : Z -> list Z) (Hmem : forall n, 0 <= n -> zlen (mem n) = n).
Context (own : list Z) (h : srsran_regs_t).
Context (Hregs : rg_regs h = mark (groups cell) own) (Hnof : rg_nof_regs h = zlen (groups cell)) (Hc : rg_cell h = cell).
Context (Hown : zlen own + 2 <= 2 * nof_prb cell) (Hpdcch : rg_pdcch h = [zero_ch; zero_ch; zero_ch]).

Definition rest_of (cfi : Z) : list Z := sel (groups cell) own (fun l => l <? region_symbols cell cfi).

Lemma rest_size cfi : 1 <= cfi <= 3 -> 2 <= zlen (rest_of cfi) <= 1024.
Proof.
  intros Hcfi. unfold rest_of. destruct (regs_counts_spec cell Hcell) as [_ Hmax]. destruct (c_facts cell Hcell) as (Hmx & _).
  set (f := fun l => l <? region_symbols cell cfi). pose proof (sel_less cell own f) as Hs.
  rewrite (groups_count cell Hcell) in Hs. pose proof (sum_per_bounds cell Hcell f 0 ltac:(lia)) as H2.
  assert (f 0 = true) as Hf by (unfold f, region_symbols; destruct (_ <=? 10); lia). specialize (H2 Hf). unfold c_N in Hs.
  destruct Hcell as (HN & _). split; [nia |].
  pose proof (sel_le (groups cell) own f). lia.
Qed.

Definition region_done (cfi : Z) (ch : srsran_regs_ch_t) : Prop :=
  let r := rest_of cfi in ch_nof_regs ch = zlen r / 9 * 9 /\ zlen (ch_regs ch) = zlen r /\ 2 <= zlen r <= 1024 /\
  forall m, 0 <= m < zlen r -> zget (ch_regs ch) m = zget r (source (zlen r) (cell_id cell) m).

Lemma region_spec l cfi : 0 <= cfi < 3 -> zlen l = 3 -> exists l', pdcch_region mem (upd_pdcch h l) cfi = Some (upd_pdcch h l') /\ zlen l' = 3 /\
  (exists ch, zget l' cfi = Some ch /\ region_done (cfi + 1) ch) /\ forall i, i <> cfi -> zget l' i = zget l i.
Proof.
  intros Hcfi Hl. unfold pdcch_region. change (rg_nof_regs (upd_pdcch h l)) with (rg_nof_regs h). change (rg_cell (upd_pdcch h l)) with (rg_cell h). rewrite Hc.
  assert ((if nof_prb cell <=? 10 then cfi + 2 else cfi + 1) = region_symbols cell (cfi + 1)) as -> by (unfold region_symbols; destruct (_ <=? 10); lia).
  pose proof (rest_size (cfi + 1) ltac:(lia)) as Hsize. unfold rest_of in Hsize. set (f := fun l => l <? region_symbols cell (cfi + 1)) in *.
  destruct (regs_counts_spec cell Hcell) as [_ Hmax]. pose proof (groups_free cell Hcell) as Hfree.
  assert (zlen (sel (groups cell) own f) <= zlen (groups cell)) as Hle by apply sel_le.
  pose proof (number_regs_spec (groups cell) Hfree (upd_pdcch h l) own Hregs Hnof (region_symbols cell (cfi + 1)) (mem (rg_nof_regs h))) as En. fold f in En.
  rewrite En by (rewrite Hmem by (rewrite Hnof; apply zlen_nonneg); rewrite Hnof; exact Hle). cbn [mbind option_bind].
  set (r := sel (groups cell) own f) in *. destruct Hcell as (HN & Hid & _).
  assert (forall i, 0 <= i < zlen r -> zget (filled r (mem (rg_nof_regs h))) i = zget r i) as Hget.
  { intros i Hi. unfold filled. rewrite !zget_lookup by lia. apply lookup_app_l. unfold zlen in Hi. lia. }
  destruct (interleave_regs_spec (zlen r) Hsize (cell_id cell) (filled r (mem (rg_nof_regs h))) (mem (zlen r))) as (out & -> & Ho & Hout); [lia | | apply Hmem; lia |].
  { unfold filled. rewrite zlen_app. match goal with |- _ <= _ + zlen ?x => pose proof (zlen_nonneg x) end. lia. }
  cbn [mbind option_bind]. change (rg_pdcch (upd_pdcch h l)) with l.
  destruct (zset l cfi (RegsCh (zlen r / 9 * 9) out)) as [l' |] eqn:El; [| rewrite zset_in in El by (unfold in_range; lia); done]. cbn [mbind option_bind].
  exists l'. split; [done |]. split; [by rewrite (zset_len _ _ _ _ El) |]. split.
  - eexists. split; [apply (zget_zset_eq _ _ _ _ El) |]. unfold region_done, rest_of. fold f r. cbv zeta. cbn [ch_nof_regs ch_regs].
    split; [done |]. split; [done |]. split; [done |]. intros m Hm. rewrite Hout by done. apply Hget. unfold source. apply Z.mod_pos_bound. lia.
  - intros i Hi. by rewrite (zget_zset_ne _ _ _ _ _ El).
Qed.

Lemma pdcch_init_spec : exists l, regs_pdcch_init mem h = Some (SRSRAN_SUCCESS, upd_pdcch h l) /\ zlen l = 3 /\
  forall cfi, 1 <= cfi <= 3 -> exists ch, zget l (cfi - 1) = Some ch /\ region_done cfi ch.
Proof.
  unfold regs_pdcch_init. rewrite Hpdcch. change (zset [zero_ch; zero_ch; zero_ch] 0 zero_ch) with (Some [zero_ch; zero_ch; zero_ch]). cbn [mbind option_bind].
  loop_inv (fun c h' => exists l, h' = upd_pdcch h l /\ zlen l = 3 /\ forall cfi, 1 <= cfi <= c -> exists ch, zget l (cfi - 1) = Some ch /\ region_done cfi ch)
    as (h' & -> & (l & -> & Hl & Hall)); [lia | eexists; split; [done |]; split; [done |]; intros cfi Hcfi; lia | | by exists l].
  intros c h' Hc' (l & -> & Hl & Hall). destruct (region_spec l c Hc' Hl) as (l' & -> & Hl' & (ch & Hch & Hdone) & Hother).
  eexists. split; [done |]. exists l'. split; [done |]. split; [done |]. intros cfi Hcfi. destruct (Z.eq_dec cfi (c + 1)) as [-> |].
  - exists ch. by replace (c + 1 - 1) with c by lia.
  - rewrite Hother by lia. apply Hall. lia.
Qed.
End region.

(** *** The initialisation *)

(** The arrays that the allocator hands out have the sizes asked for. *)
Definition sized_regs (mem : Z -> list Z) (block : Z -> list srsran_regs_reg_t) : Prop :=
  (forall n, 0 <= n -> zlen (mem n) = n) /\ forall n, 0 <= n -> zlen (block n) = n /\ Forall (fun r => zlen (reg_k r) = 4) (block n).

(** The mapping units of PHICH. *)
Definition units (cell : srsran_cell_t) (res : srsran_phich_r_t) (phich_mi : Z) : Z := phich_mi * groups_of res (nof_prb cell).

(** The places of PCFICH (TS 36.211, 6.7.4) and of PHICH (6.9.3), where the [q]-th quadruplet takes
    the group [ni_of q] of those that PCFICH leaves in symbol [li_of q]. *)
Record placed (cell : srsran_cell_t) (res : srsran_phich_r_t) (phich_mi : Z) (mb : bool) (h : srsran_regs_t) : Prop := Placed {
  pl_units : zlen (rg_phich h) = units cell res phich_mi;
  pl_pcfich : forall j, 0 <= j < 4 -> exists p r, zget (ch_regs (rg_pcfich h)) j = Some p /\ zget (rg_regs h) p = Some r /\ reg_l r = 0 /\
    reg_k0 r = 6 * ((cell_id cell mod (2 * nof_prb cell) + j * nof_prb cell / 2) mod (2 * nof_prb cell));
  pl_phich : rg_phich h ≫= ch_regs = taken (rg_regs h) h (ch_regs (rg_pcfich h)) mb <$> seqZ 0 (3 * units cell res phich_mi)
}.

Lemma taken_mark base own h ps mb q : taken (mark base own) h ps mb q = taken base h ps mb q.
Proof. unfold taken, ni_of, idx. by rewrite !sel_mark. Qed.

Section init.
Context (cell : srsran_cell_t) (Hcell : region_ok cell).
Context (mem : Z -> list Z) (block : Z -> list srsran_regs_reg_t) (Hmem : sized_regs mem block).
Context (res : srsran_phich_r_t) (len : srsran_phich_length_t) (phich_mi : Z) (mb : bool).
Context (Hmi : 0 <= phich_mi) (Hfit : 3 * units cell res phich_mi + 6 <= 2 * nof_prb cell).

Definition object_at (ngroups m1 mi : Z) (pc : list Z) (phich : list srsran_regs_ch_t) (own : list Z) : srsran_regs_t :=
  Regs cell (ctrl_symbols cell) ngroups m1 res len (RegsCh 4 pc) phich [zero_ch; zero_ch; zero_ch] mi (zlen (groups cell)) (mark (groups cell) own).

Lemma fill_spec : exists s, fill_loop (Z.to_nat (3 * ctrl_symbols cell * nof_prb cell)) (n_of cell) (cell_id cell mod 3) (ctrl_symbols cell) (zlen (groups cell))
    (Fill (block (zlen (groups cell))) 0 0 0 0 [0; 0; 0; 0]) = Some (0, s) /\ fl_regs s = groups cell.
Proof.
  destruct (c_facts cell Hcell) as (Hmx & _ & Hn & Hvo & HN & _). destruct Hmem as [_ Hb]. destruct (Hb (zlen (groups cell)) (zlen_nonneg _)) as [Hl H4].
  change (Fill (block (zlen (groups cell))) 0 0 0 0 [0; 0; 0; 0])
    with (Fill (built (c_n cell) (c_vo cell) (c_mx cell) 0 ++ drop 0 (block (zlen (groups cell)))) 0 0 0 0 [0; 0; 0; 0]).
  assert ([0; 0; 0; 0] = counts (c_n cell) (c_mx cell) 0 <$> seqZ 0 4) as ->.
  { unfold counts, nth_of, place, sym. change (seqZ 0 4) with [0; 1; 2; 3]. cbn [fmap list_fmap].
    destruct Hmx as [-> | ->]; destruct (per _ 0 =? 3), (per _ 1 =? 3), (per _ 2 =? 3), (per _ 3 =? 3); reflexivity. }
  assert (0 <= turns (c_mx cell) (c_N cell)) by (unfold turns; destruct Hmx as [-> | ->]; lia).
  pose proof (fill_all _ (c_vo cell) _ _ Hmx Hn (c_23 cell Hcell) Hvo HN (block (zlen (groups cell))) _ Hl eq_refl H4 (Z.to_nat (turns (c_mx cell) (c_N cell))) 0 ltac:(lia) ltac:(lia)) as Hall.
  unfold turn in Hall. assert (sym (c_mx cell) 0 = 0 /\ blk (c_mx cell) 0 = 0 /\ place (c_mx cell) 0 = 0) as (E1 & E2 & E3) by (unfold sym, blk, place; destruct Hmx as [-> | ->]; done).
  rewrite E1, E2, E3 in Hall. exact Hall.
Qed.

Lemma first_groups g : 0 <= g < 2 * nof_prb cell -> exists i, matches (groups cell) (6 * g) 0 i.
Proof.
  intros Hg. destruct (c_facts cell Hcell) as (Hmx & _ & Hn & Hvo & HN & Hper). set (mx := c_mx cell) in *. set (pl := 2 * (g mod 2)). set (b := g / 2).
  destruct (turn_parts (c_n cell) (c_vo cell) mx (c_N cell) Hmx Hn (c_23 cell Hcell) Hvo HN b pl 0) as (E1 & E2 & E3 & Ht); [unfold b, c_N; lia | unfold pl; lia | lia |].
  set (t := mx * (3 * b + pl) + 0) in *. cbv zeta in *.
  assert (per (c_n cell) 0 = 2) as E0 by (rewrite Hper by lia; done).
  assert (group_at (c_n cell) (c_vo cell) mx t ∈ groups cell) as Hin.
  { apply (elem_built _ _ _ _ Hmx Hn (c_23 cell Hcell) Hvo HN). exists t. split; [done |]. split; [| done]. unfold numbers. rewrite E2. apply orb_true_iff. right. unfold pl. apply negb_true_iff, Z.eqb_neq. lia. }
  apply list_elem_of_lookup in Hin as [i Hi]. exists (Z.of_nat i). exists (group_at (c_n cell) (c_vo cell) mx t).
  rewrite zget_lookup, Nat2Z.id by lia. split; [done |].
  destruct (group_at_k0 _ _ _ _ Hmx Hn (c_23 cell Hcell) Hvo HN t ltac:(lia)) as [-> ->]. split; [done |].
  rewrite E1, E2, E3, E0. unfold nth_of, width. cbn [Z.eqb Pos.eqb]. unfold pl, b. lia.
Qed.

Lemma phich_stage pc : zlen pc = 4 -> NoDup pc -> Forall (fun p => 0 <= p < zlen (groups cell)) pc ->
  exists h phich own, (if 0 <? phich_mi then regs_phich_init mem (upd_phich_mi (object_at 0 0 0 pc [] pc) phich_mi) phich_mi mb
      else Some (0, upd_phich_mi (object_at 0 0 0 pc [] pc) phich_mi)) = Some (0, h) /\
    (exists ngroups m1, h = object_at ngroups m1 phich_mi pc phich own) /\ own = pc ++ (phich ≫= ch_regs) /\ NoDup own /\ Forall (fun p => 0 <= p < zlen (groups cell)) own /\
    Forall (fun ch => ch_nof_regs ch = 3 /\ zlen (ch_regs ch) = 3) phich /\ zlen phich = units cell res phich_mi /\ zlen own = 4 + 3 * units cell res phich_mi /\
    phich ≫= ch_regs = taken (groups cell) (object_at 0 0 0 pc [] pc) pc mb <$> seqZ 0 (3 * units cell res phich_mi).
Proof.
  intros Hpc Hnd Hr. destruct (Z.ltb_spec 0 phich_mi) as [Hpos | Hzero]; cycle 1.
  { eexists _, [], pc. split; [reflexivity |]. split; [by exists 0, 0 |]. cbn. rewrite app_nil_r. unfold units. replace phich_mi with 0 by lia. by repeat split. }
  destruct Hcell as (HN & Hid & _). pose proof (groups_free cell Hcell) as Hfree. destruct (regs_counts_spec cell Hcell) as [_ Hmax]. destruct Hmem as [Hm _].
  unfold regs_phich_init. change (rg_phich_res (upd_phich_mi _ _)) with res. change (rg_cell (upd_phich_mi _ _)) with cell.
  rewrite phich_groups_spec by lia. cbn [mbind option_bind]. set (m1 := groups_of res (nof_prb cell)) in *.
  assert (0 <= m1) as Hm1 by (unfold m1, groups_of; destruct res; lia). set (G := units cell res phich_mi) in *. change (phich_mi * m1) with G.
  assert (0 <= G <= 110) as HG by (split; [unfold G, units; fold m1; nia | lia]). rewrite (uwrap_small 32 G) by (unfold is_uint; lia).
  set (h1 := upd_phich _ G m1 _). assert (forall l, 0 <= l < 3 -> 3 * G <= zlen (sel (groups cell) pc (on l)) /\ 1 <= zlen (sel (groups cell) pc (on l)) <= 1024) as Hroom.
  { intros l Hl. pose proof (sel_less cell pc (on l)) as Hs. rewrite (groups_count cell Hcell) in Hs. destruct (c_facts cell Hcell) as (Hmx & _).
    pose proof (sum_per_bounds cell Hcell (on l) l ltac:(lia) (Z.eqb_refl l)). pose proof (sel_le (groups cell) pc (on l)). unfold c_N in Hs. nia. }
  rewrite (count_regs_spec (groups cell) Hfree h1 pc eq_refl eq_refl). cbn [mbind option_bind].
  rewrite (collect_regs_spec (groups cell) Hfree h1 pc eq_refl eq_refl mem Hm). cbn [mbind option_bind].
  pose proof (phich_loop (groups cell) Hfree mem Hm h1 pc eq_refl eq_refl mb G (proj1 HG) eq_refl Hid Hroom) as Hloop. unfold idx, sizes, idx in Hloop. rewrite Hloop. cbn [mbind option_bind].
  destruct (NoDup_taken (groups cell) h1 pc mb G Hid Hroom) as [Hnt Ht].
  pose proof (all_taken (groups cell) mem Hm h1 pc mb G (proj1 HG) Hid) as Hall.
  set (phich := unit_at (groups cell) mem h1 pc mb (3 * G) <$> seqZ 0 G) in *.
  eexists _, phich, _. split; [reflexivity |]. split; [eexists _, m1; reflexivity |]. rewrite Hall. split; [done |].
  split; [apply NoDup_app; split; [done |]; split; [intros x Hx Hx'; by apply Ht in Hx' as [_ ?] | done] |].
  split; [apply Forall_app; split; [done |]; apply Forall_forall; intros p Hp; by apply Ht in Hp as [? _] |].
  split; [| split; [unfold phich; rewrite zlen_fmap; unfold zlen; rewrite length_seqZ; lia | split; [rewrite zlen_app, zlen_fmap, Hpc; unfold zlen; rewrite length_seqZ; lia | reflexivity]]].
  apply Forall_fmap, Forall_forall. intros mi Hmi'%elem_of_seqZ. cbn. split; [done |]. change (zlen (ch_regs (unit_at (groups cell) mem h1 pc mb (3 * G) mi)) = 3).
  rewrite (units_taken (groups cell) mem Hm h1 pc mb G Hid) by lia. by rewrite zlen_fmap.
Qed.

Lemma regs_init_spec h0 : srsran_cell_isvalid cell = true ->
  exists h, srsran_regs_init_opts mem block h0 cell res len phich_mi mb = Some (SRSRAN_SUCCESS, h) /\ divided cell h /\ placed cell res phich_mi mb h.
Proof.
  intros Hv. unfold srsran_regs_init_opts. rewrite Hv. fold (ctrl_symbols cell). destruct (regs_counts_spec cell Hcell) as [Ec Hmax]. unfold c_mx, c_n in Ec. rewrite Ec.
  destruct fill_spec as (s & -> & Es). cbn [mbind option_bind Z.eqb negb]. rewrite Es.
  pose proof (groups_free cell Hcell) as Hfree. destruct Hcell as (HN & Hid & _). destruct Hmem as [Hm _].
  set (h1 := Regs _ _ _ _ _ _ _ _ _ _ _ _).
  destruct (pcfich_spec (groups cell) Hfree mem Hm h1 eq_refl eq_refl (nof_prb cell) eq_refl ltac:(lia) Hid first_groups) as (pc & -> & Hpc & Hnd & Hplaces).
  cbn [mbind option_bind]. change (negb (SRSRAN_SUCCESS =? 0)) with false. cbn iota.
  assert (pcfich_at (groups cell) mem h1 pc = object_at 0 0 0 pc [] pc) as ->.
  { unfold pcfich_at, object_at. rewrite filled_full by (rewrite Hm by done; exact Hpc). done. }
  assert (Forall (fun p => 0 <= p < zlen (groups cell)) pc) as Hr.
  { apply Forall_forall. intros p Hp. apply list_elem_of_lookup in Hp as [j Hj]. destruct (Hplaces (Z.of_nat j)) as (p' & Hp' & Hr & _).
    - apply lookup_lt_Some in Hj. unfold zlen. lia.
    - rewrite zget_lookup, Nat2Z.id in Hp' by lia. rewrite Hj in Hp'. by injection Hp' as <-. }
  destruct (phich_stage pc Hpc Hnd Hr) as (h2 & phich & own & -> & (ng & m1 & ->) & Eown & Hno & Hro & Hphich & Hunits & Hlen & Htaken).
  cbn [mbind option_bind Z.eqb negb].
  destruct (pdcch_init_spec cell Hcell mem Hm own (object_at ng m1 phich_mi pc phich own)) as (l & -> & _ & Hl); [done | done | done | lia | done |].
  cbn [mbind option_bind]. change (negb (SRSRAN_SUCCESS =? 0)) with false. cbn iota. eexists. split; [reflexivity |]. split; cycle 1.
  { split; cbn [upd_pdcch object_at rg_cell rg_regs rg_pcfich rg_phich ch_regs]; [exact Hunits | |].
    - intros j Hj. destruct (Hplaces j ltac:(lia)) as (p & Hp & Hpr & r & Er & El & Ek). destruct (zget_mark (groups cell) Hfree own p Hpr) as (r' & Er' & _ & _ & Em).
      rewrite Er in Er'. injection Er' as <-. eexists p, _. split; [exact Hp |]. split; [exact Em |]. by split.
    - rewrite Htaken. apply list_fmap_ext. intros q x _. by rewrite taken_mark. }
  destruct (c_facts cell Hcell) as (Hmx & Hsmall & Hn & Hvo & HNn & Hper). pose proof (c_23 cell Hcell) as H23.
  assert (forall cfi, rest (upd_pdcch (object_at ng m1 phich_mi pc phich own) l) cfi = rest_of cell own cfi) as Erest.
  { intros cfi. unfold rest, rest_of, given. cbn [upd_pdcch object_at rg_regs rg_pcfich rg_phich rg_cell ch_regs]. rewrite <- Eown. apply sel_mark. }
  split; cbn [upd_pdcch object_at rg_cell rg_nof_regs rg_regs rg_pcfich rg_phich rg_pdcch ch_nof_regs ch_regs].
  - done.
  - by rewrite zlen_mark.
  - rewrite mark_elements. apply (NoDup_region _ _ _ _ Hmx Hn H23 Hvo HNn).
  - intros i k Hi Hk. rewrite mark_elements. rewrite (grid_spec _ _ _ _ Hmx Hn H23 Hvo HNn i k Hi Hk). rewrite Hper by done. unfold carries_ref, c_vo.
    destruct (has_ref cell i); cbn [andb]; rewrite ?Z.eqb_neq; intuition lia.
  - intros Hext. apply (sorted_same (groups cell)); [symmetry; by apply fmap_mark |]. apply (built_sorted _ _ _ _ Hmx Hn H23 Hvo HNn); [| unfold turns; destruct Hmx as [-> | ->]; lia].
    intros a b Hab Hb. rewrite !Hper by lia. unfold has_ref. assert (b = 3 -> SRSRAN_CP_ISEXT (cp cell) = false) as H3.
    { intros ->. rewrite Hext; [done |]. unfold c_mx in *. lia. }
    destruct (Z.eqb_spec b 3) as [E3 |]; [rewrite (H3 E3) |]; repeat zcase; cbn [orb andb]; try lia; destruct (nof_ports cell =? 4); cbn; lia.
  - apply Forall_forall. intros r Hr'. assert (exists r0, r0 ∈ groups cell /\ reg_k r = reg_k r0 /\ reg_l r = reg_l r0) as (r0 & Hr0 & Ek & El).
    { apply list_elem_of_lookup in Hr' as [i Hi]. unfold mark in Hi. rewrite list_lookup_imap in Hi. destruct (groups cell !! i) as [r0 |] eqn:E; [| done]. injection Hi as <-.
      exists r0. split; [by apply list_elem_of_lookup_2 in E | done]. }
    unfold reg_elements. rewrite Ek, El. apply (elem_built _ _ _ _ Hmx Hn H23 Hvo HNn) in Hr0 as (t & Ht & Et & ->). split.
    + unfold group_at, group. destruct (_ =? 2); cbn; by rewrite zlen_fmap.
    + apply Forall_forall. intros p Hp. apply (grid_range _ _ _ _ Hmx Hn H23 Hvo HNn). apply (elem_grid _ _ _ _ Hmx Hn H23 Hvo HNn). by exists t.
  - done.
  - done.
  - unfold given. cbn. rewrite <- Eown, zlen_mark. done.
  - intros cfi Hcfi. rewrite Erest. by apply Hl.
Qed.
End init.

(** ** Symbols of the channels *)

(** A loop over groups of [k] steps. *)
Lemma for_range_groups {St} (F : St -> Z -> option St) k n s : 0 <= k -> 0 <= n ->
  for_range 0 (k * n) F s = for_range 0 n (fun s i => for_range (k * i) (k * i + k) F s) s.
Proof.
  intros Hk Hn. pattern n. apply natlike_ind; [by rewrite Z.mul_0_r | | done]. clear n Hn. intros n Hn IH. rewrite <- Z.add_1_r.
  rewrite (for_range_split 0 (k * n) (k * (n + 1))) by nia. rewrite IH, (for_range_split 0 n (n + 1)) by lia.
  destruct (for_range 0 n _ s) as [t |]; [| done]. cbn [mbind option_bind]. rewrite (for_range_step n) by lia.
  replace (k * (n + 1)) with (k * n + k) by lia. destruct (for_range (k * n) _ _ t); [| done]. cbn [mbind option_bind]. by rewrite for_range_done by lia.
Qed.

Section channels.
Context (cell : srsran_cell_t) (h : srsran_regs_t) (Hcell : region_ok cell) (Hd : divided cell h).
Context {A : Type}.

Definition reg_at (p : Z) : srsran_regs_reg_t := default (Reg [] 0 0 false) (zget (rg_regs h) p).
(** The elements of the groups of a list, in order. *)
Definition positions (ids : list Z) : list Z := ids ≫= fun p => reg_elements (nof_prb cell) (reg_at p).

Definition ids_ok (ids : list Z) : Prop := Forall (fun p => 0 <= p < zlen (rg_regs h)) ids.

Lemma reg_at_spec p : 0 <= p < zlen (rg_regs h) -> zget (rg_regs h) p = Some (reg_at p) /\ reg_at p ∈ rg_regs h /\ zlen (reg_elements (nof_prb cell) (reg_at p)) = 4 /\
  Forall (fun q => 0 <= q < ctrl_symbols cell * nof_prb cell * 12) (reg_elements (nof_prb cell) (reg_at p)).
Proof.
  intros Hp. destruct (in_list (rg_regs h) p (Reg [] 0 0 false) Hp) as [E Hin]. split; [done |]. split; [done |].
  pose proof (dv_shapes cell h Hd) as Hs. rewrite Forall_forall in Hs. destruct (Hs _ Hin) as [H4 Hr]. split; [unfold reg_elements; by rewrite zlen_fmap | done].
Qed.

Lemma positions_snoc ids p : positions (ids ++ [p]) = positions ids ++ reg_elements (nof_prb cell) (reg_at p).
Proof. unfold positions. by rewrite bind_snoc. Qed.

Lemma zlen_positions ids : ids_ok ids -> zlen (positions ids) = 4 * zlen ids.
Proof.
  intros Hids. induction ids as [| p ids IH] using rev_ind; [done |]. apply Forall_app in Hids as [Hids Hp]. inversion Hp as [| ? ? Hp']; subst.
  rewrite positions_snoc, !zlen_app, IH by done. destruct (reg_at_spec p Hp') as (_ & _ & -> & _). change (zlen [p]) with 1. lia.
Qed.

Lemma zget_positions ids i j : ids_ok ids -> 0 <= i < zlen ids -> 0 <= j < 4 ->
  exists p, zget ids i = Some p /\ 0 <= p < zlen (rg_regs h) /\ zget (positions ids) (4 * i + j) = zget (reg_elements (nof_prb cell) (reg_at p)) j.
Proof.
  intros Hids Hi Hj. destruct (zsplit ids i Hi) as (l1 & p & l2 & -> & Hl1). exists p. rewrite zget_app_mid by done. split; [done |].
  apply Forall_app in Hids as [H1 Hp]. inversion Hp as [| ? ? Hp' H2]; subst. split; [done |].
  unfold positions. rewrite bind_app. cbn [mbind list_bind]. fold (positions l1). pose proof (zlen_positions l1 H1) as Hl. destruct (reg_at_spec p Hp') as (_ & _ & H4 & _).
  rewrite !zget_lookup by lia. rewrite lookup_app_r by (unfold zlen in *; lia). rewrite lookup_app_l by (unfold zlen in *; lia). f_equal. unfold zlen in *. lia.
Qed.

Lemma REG_IDX_spec r j : r ∈ rg_regs h -> 0 <= j < 4 -> REG_IDX r j (nof_prb cell) = zget (reg_elements (nof_prb cell) r) j.
Proof.
  intros Hr Hj. pose proof (dv_shapes cell h Hd) as Hs. rewrite Forall_forall in Hs. destruct (Hs _ Hr) as [H4 Hb]. unfold REG_IDX, SRSRAN_NRE.
  destruct (zget_some (reg_k r) j) as [k Hk]; [unfold in_range; lia |]. rewrite Hk. cbn [mbind option_bind].
  assert (zget (reg_elements (nof_prb cell) r) j = Some (k + reg_l r * nof_prb cell * 12)) as E.
  { unfold reg_elements. rewrite zget_lookup in * by lia. by rewrite list_lookup_fmap, Hk. }
  rewrite E. f_equal. rewrite Forall_forall in Hb. rewrite zget_lookup in E by lia. apply list_elem_of_lookup_2 in E. specialize (Hb _ E). cbv beta in Hb.
  destruct Hcell as (HN & _). rewrite uwrap_small; [done |]. unfold is_uint. assert (ctrl_symbols cell <= 4) by (unfold ctrl_symbols; destruct (_ <=? _); lia). nia.
Qed.

(** Putting the groups of a channel one after the other is putting their elements. *)
Lemma put_flat ids n (data grid : list A) : ids_ok ids -> 0 <= n <= zlen ids -> (forall nr, 
  for_range 0 n (fun g i => r ← reg_of h (RegsCh nr ids) i; regs_put_reg r data (i * REGS_RE_X_REG) g (nof_prb cell)) grid
    = for_range 0 (4 * n) (fun g j => x ← zget data j; p ← zget (positions ids) j; zset g p x) grid).
Proof.
  intros Hids Hn nr. rewrite (for_range_groups _ 4 n) by lia. apply for_range_ext. intros i g Hi.
  destruct (zget_positions ids i 0 Hids ltac:(lia) ltac:(lia)) as (p & Hp & Hpr & _). unfold reg_of. cbn [ch_regs]. rewrite Hp. cbn [mbind option_bind].
  destruct (reg_at_spec p Hpr) as (Er & Hin & _). rewrite Er. cbn [mbind option_bind].
  unfold regs_put_reg, REGS_RE_X_REG. rewrite (for_range_shift (4 * i) 4). apply for_range_ext. intros j g' Hj.
  rewrite (REG_IDX_spec _ j Hin) by lia. destruct (zget_positions ids i j Hids ltac:(lia) ltac:(lia)) as (p' & Hp' & _ & E). rewrite Hp in Hp'. injection Hp' as <-.
  replace (i * 4 + j) with (4 * i + j) by lia. rewrite E. destruct (zget (reg_elements _ _) j), (zget data (4 * i + j)); done.
Qed.

Lemma get_flat ids n (grid data : list A) : ids_ok ids -> 0 <= n <= zlen ids -> (forall nr,
  for_range 0 n (fun d i => r ← reg_of h (RegsCh nr ids) i; regs_get_reg r grid d (i * REGS_RE_X_REG) (nof_prb cell)) data
    = for_range 0 (4 * n) (fun d j => p ← zget (positions ids) j; x ← zget grid p; zset d j x) data).
Proof.
  intros Hids Hn nr. rewrite (for_range_groups _ 4 n) by lia. apply for_range_ext. intros i g Hi.
  destruct (zget_positions ids i 0 Hids ltac:(lia) ltac:(lia)) as (p & Hp & Hpr & _). unfold reg_of. cbn [ch_regs]. rewrite Hp. cbn [mbind option_bind].
  destruct (reg_at_spec p Hpr) as (Er & Hin & _). rewrite Er. cbn [mbind option_bind].
  unfold regs_get_reg, REGS_RE_X_REG. rewrite (for_range_shift (4 * i) 4). apply for_range_ext. intros j g' Hj.
  rewrite (REG_IDX_spec _ j Hin) by lia. destruct (zget_positions ids i j Hids ltac:(lia) ltac:(lia)) as (p' & Hp' & _ & E). rewrite Hp in Hp'. injection Hp' as <-.
  replace (i * 4 + j) with (4 * i + j) by lia. by rewrite E.
Qed.

Lemma positions_in_grid ids : ids_ok ids -> Forall (fun q => 0 <= q < ctrl_symbols cell * nof_prb cell * 12) (positions ids).
Proof.
  intros Hids. apply Forall_forall. intros q (p & Hq & Hp)%list_elem_of_bind. unfold ids_ok in Hids. rewrite Forall_forall in Hids. specialize (Hids _ Hp). cbv beta in Hids.
  destruct (reg_at_spec p Hids) as (_ & _ & _ & Hr). rewrite Forall_forall in Hr. by apply Hr.
Qed.

(** Different groups have different elements. *)
Lemma positions_apart p p' q : 0 <= p < zlen (rg_regs h) -> 0 <= p' < zlen (rg_regs h) ->
  q ∈ reg_elements (nof_prb cell) (reg_at p) -> q ∈ reg_elements (nof_prb cell) (reg_at p') -> p = p'.
Proof.
  assert (forall p p' q, 0 <= p < p' -> p' < zlen (rg_regs h) -> q ∈ reg_elements (nof_prb cell) (reg_at p) -> q ∈ reg_elements (nof_prb cell) (reg_at p') -> False) as H.
  { clear p p' q. intros p p' q Hp Hp' H1 H2. pose proof (dv_disjoint cell h Hd) as Hnd.
    destruct (zsplit (rg_regs h) p') as (l1 & x & l2 & E & Hl1); [unfold in_range; lia |].
    destruct (reg_at_spec p ltac:(lia)) as (Ep & _). destruct (reg_at_spec p' ltac:(lia)) as (Ep' & _). rewrite E in Ep, Ep', Hnd.
    rewrite zget_app_mid in Ep' by done. injection Ep' as ->. rewrite zget_lookup, lookup_app_l in Ep by (unfold zlen in Hl1; lia).
    rewrite bind_app in Hnd. apply NoDup_app in Hnd as (_ & Hno & _). apply (Hno q).
    - apply list_elem_of_bind. exists (reg_at p). split; [done |]. by apply list_elem_of_lookup_2 in Ep.
    - cbn [mbind list_bind]. apply elem_of_app. by left. }
  intros Hp Hp' H1 H2. destruct (Z.lt_trichotomy p p') as [Hlt | [? | Hgt]]; [| done |]; exfalso; [apply (H p p' q) | apply (H p' p q)]; done || lia.
Qed.

Lemma NoDup_positions ids : ids_ok ids -> NoDup ids -> NoDup (positions ids).
Proof.
  intros Hids Hnd. unfold positions. unfold ids_ok in Hids. rewrite Forall_forall in Hids. apply NoDup_bind; [| | done].
  - intros p p' q Hp Hp'. apply positions_apart; by apply Hids.
  - intros p Hp. destruct (reg_at_spec p (Hids p Hp)) as (_ & Hin & _). apply list_elem_of_lookup in Hin as [i Hi].
    pose proof (dv_disjoint cell h Hd) as Hn. apply take_drop_middle in Hi. rewrite <- Hi, bind_app in Hn. apply NoDup_app in Hn as (_ & _ & Hn).
    cbn [mbind list_bind] in Hn. by apply NoDup_app in Hn as (Hn & _).
Qed.

(** The symbols put for a channel are on the grid, and what else is on it stays. *)
Lemma channel_put ids n (data grid : list A) nr : ids_ok ids -> NoDup ids -> 0 <= n <= zlen ids -> 4 * n <= zlen data ->
  ctrl_symbols cell * nof_prb cell * 12 <= zlen grid ->
  exists grid', for_range 0 n (fun g i => r ← reg_of h (RegsCh nr ids) i; regs_put_reg r data (i * REGS_RE_X_REG) g (nof_prb cell)) grid = Some grid' /\
    zlen grid' = zlen grid /\ (forall j, 0 <= j < 4 * n -> exists p, zget (positions (take (Z.to_nat n) ids)) j = Some p /\ zget grid' p = zget data j) /\
    forall p, p ∉ positions (take (Z.to_nat n) ids) -> zget grid' p = zget grid p.
Proof.
  intros Hids Hnd Hn Hdata Hgrid. set (pre := take (Z.to_nat n) ids).
  assert (ids_ok pre) as Hpre by (by apply Forall_take). assert (zlen pre = n) as Hl by (unfold pre, zlen in *; rewrite length_take; lia).
  assert (zlen (positions pre) = 4 * n) as Hpl by (rewrite zlen_positions by done; lia).
  assert (for_range 0 n (fun g i => r ← reg_of h (RegsCh nr ids) i; regs_put_reg r data (i * REGS_RE_X_REG) g (nof_prb cell)) grid
    = for_range 0 n (fun g i => r ← reg_of h (RegsCh nr pre) i; regs_put_reg r data (i * REGS_RE_X_REG) g (nof_prb cell)) grid) as ->.
  { apply for_range_ext. intros i g Hi. unfold reg_of. cbn [ch_regs]. unfold pre. rewrite !zget_lookup by lia. by rewrite lookup_take_lt by lia. }
  rewrite put_flat by (done || lia). rewrite <- Hpl.
  destruct (put_distinct data (positions pre) grid) as (g & -> & Hg & Hin & Hout); [| | lia |].
  - apply NoDup_positions; [done |]. unfold pre. rewrite <- (take_drop (Z.to_nat n) ids) in Hnd. by apply NoDup_app in Hnd as (? & _).
  - eapply Forall_impl; [by apply positions_in_grid |]. intros q Hq. cbv beta in Hq. unfold in_range. lia.
  - exists g. split; [done |]. split; [done |]. split; [| done]. intros j Hj. destruct (zget_some (positions pre) j) as [p Hp]; [unfold in_range; lia |]. exists p. split; [done |]. by apply Hin.
Qed.

(** What is got is what is on the grid. *)
Lemma channel_get ids n (grid data sent : list A) nr : ids_ok ids -> 0 <= n <= zlen ids -> zlen sent = 4 * n -> 4 * n <= zlen data ->
  (forall j, 0 <= j < 4 * n -> exists p, zget (positions (take (Z.to_nat n) ids)) j = Some p /\ zget grid p = zget sent j) ->
  for_range 0 n (fun d i => r ← reg_of h (RegsCh nr ids) i; regs_get_reg r grid d (i * REGS_RE_X_REG) (nof_prb cell)) data = Some (sent ++ drop (Z.to_nat (4 * n)) data).
Proof.
  intros Hids Hn Hs Hdata Hgrid. set (pre := take (Z.to_nat n) ids) in *.
  assert (ids_ok pre) as Hpre by (by apply Forall_take). assert (zlen pre = n) as Hl by (unfold pre, zlen in *; rewrite length_take; lia).
  assert (for_range 0 n (fun d i => r ← reg_of h (RegsCh nr ids) i; regs_get_reg r grid d (i * REGS_RE_X_REG) (nof_prb cell)) data
    = for_range 0 n (fun d i => r ← reg_of h (RegsCh nr pre) i; regs_get_reg r grid d (i * REGS_RE_X_REG) (nof_prb cell)) data) as ->.
  { apply for_range_ext. intros i g Hi. unfold reg_of. cbn [ch_regs]. unfold pre. rewrite !zget_lookup by lia. by rewrite lookup_take_lt by lia. }
  rewrite get_flat by (done || lia).
  loop_inv (fun j d => d = take (Z.to_nat j) sent ++ drop (Z.to_nat j) data) as (d & -> & ->); [lia | done | |].
  - intros j d Hj ->. destruct (Hgrid j Hj) as (p & -> & Ep). cbn [mbind option_bind]. rewrite Ep.
    destruct (zget_some sent j) as [x Hx]; [unfold in_range; lia |]. rewrite Hx. cbn [mbind option_bind].
    destruct (zsplit data j) as (d1 & y & d2 & -> & Hd1); [unfold in_range; lia |]. rewrite zget_lookup in Hx by lia.
    assert (length d1 = Z.to_nat j) as Hl1 by (unfold zlen in Hd1; lia). rewrite drop_app_length' by done.
    rewrite zset_app_mid by (unfold zlen in *; rewrite length_take; lia). eexists. split; [done |].
    replace (Z.to_nat (j + 1)) with (S (Z.to_nat j)) by lia. rewrite (take_S_r _ _ x) by done. rewrite <- app_assoc. do 2 f_equal. cbn [app]. f_equal.
    replace (S (Z.to_nat j)) with (length d1 + 1)%nat by lia. by rewrite drop_app_add.
  - rewrite take_ge by (unfold zlen in Hs; lia). done.
Qed.
End channels.

(** *** PDCCH and PCFICH on one grid *)

Lemma pdcch_permutation cell h cfi ch : divided cell h -> 1 <= cfi <= 3 -> zget (rg_pdcch h) (cfi - 1) = Some ch -> Permutation (ch_regs ch) (rest h cfi).
Proof.
  intros Hd Hcfi Hch. destruct (dv_pdcch cell h Hd cfi Hcfi) as (ch' & Hch' & _ & Hl & HD & Hsrc). rewrite Hch in Hch'. injection Hch' as <-. cbv zeta in *.
  set (r := rest h cfi) in *.
  assert (r = (fun i => default 0 (zget r i)) <$> seqZ 0 (zlen r)) as Er.
  { apply list_eq. intros k. rewrite list_lookup_fmap. destruct (decide (Z.of_nat k < zlen r)) as [Hk | Hk].
    - rewrite lookup_seqZ_lt by lia. cbn. rewrite zget_lookup, Z.add_0_l, Nat2Z.id by lia. destruct (r !! k) eqn:E; [done |]. apply lookup_ge_None in E. unfold zlen in Hk. lia.
    - rewrite lookup_seqZ_ge by lia. apply lookup_ge_None. unfold zlen in Hk. lia. }
  assert (ch_regs ch = (fun i => default 0 (zget r i)) <$> (source (zlen r) (cell_id cell) <$> seqZ 0 (zlen r))) as Ec.
  { apply list_eq. intros k. rewrite !list_lookup_fmap. destruct (decide (Z.of_nat k < zlen r)) as [Hk | Hk].
    - rewrite lookup_seqZ_lt by lia. cbn. pose proof (Hsrc (Z.of_nat k) ltac:(lia)) as E. rewrite zget_lookup, Nat2Z.id in E by lia. rewrite E, Z.add_0_l.
      apply in_list. unfold source. apply Z.mod_pos_bound. lia.
    - rewrite lookup_seqZ_ge by lia. apply lookup_ge_None. unfold zlen in *. lia. }
  rewrite Ec. transitivity ((fun i => default 0 (zget r i)) <$> seqZ 0 (zlen r)); [by apply fmap_Permutation, source_perm | by rewrite <- Er].
Qed.

Section copies_of_channels.
Context (cell : srsran_cell_t) (h : srsran_regs_t) (Hcell : region_ok cell) (Hd : divided cell h).
Context {A : Type}.

Lemma visited_pcfich : rg_pcfich h = RegsCh 4 (ch_regs (rg_pcfich h)) /\ visited (rg_pcfich h) REGS_PCFICH_NSYM = 4.
Proof. destruct (dv_pcfich cell h Hd) as [E _]. unfold visited. rewrite E. split; [| done]. destruct (rg_pcfich h). cbn in *. by subst. Qed.

(** The elements of PCFICH, in order. *)
Definition pcfich_elements : list Z := positions cell h (ch_regs (rg_pcfich h)).

Lemma pcfich_ids : ids_ok h (ch_regs (rg_pcfich h)) /\ NoDup (ch_regs (rg_pcfich h)) /\ take (Z.to_nat 4) (ch_regs (rg_pcfich h)) = ch_regs (rg_pcfich h).
Proof.
  destruct (dv_pcfich cell h Hd) as [_ Hpc4]. destruct (dv_given cell h Hd) as [Hgn Hgr]. unfold given in *.
  split; [by apply Forall_app in Hgr as [? _] |]. split; [by apply NoDup_app in Hgn as (? & _) |]. apply take_ge. unfold zlen in Hpc4. lia.
Qed.

Lemma pcfich_put (s grid : list A) : 16 <= zlen s -> ctrl_symbols cell * nof_prb cell * 12 <= zlen grid ->
  exists g, srsran_regs_pcfich_put h s grid = Some (16, g) /\ zlen g = zlen grid /\
    (forall k, 0 <= k < 16 -> exists p, zget pcfich_elements k = Some p /\ zget g p = zget s k) /\ forall p, p ∉ pcfich_elements -> zget g p = zget grid p.
Proof.
  intros Hs Hg. destruct (visited_pcfich) as [Epc Evis]. destruct pcfich_ids as (Hi & Hn & Et). destruct (dv_pcfich cell h Hd) as [_ Hpc4].
  destruct (channel_put cell h Hcell Hd _ 4 s grid 4 Hi Hn ltac:(lia) ltac:(lia) Hg) as (g & E & Hl & Hin & Hout). rewrite Et in *.
  exists g. split; [| done]. unfold srsran_regs_pcfich_put. cbv zeta. rewrite Evis, (dv_cell cell h Hd), Epc. cbn [ch_regs]. by rewrite E.
Qed.

Lemma pcfich_get (grid sent out : list A) : zlen sent = 16 -> 16 <= zlen out -> (forall k, 0 <= k < 16 -> exists p, zget pcfich_elements k = Some p /\ zget grid p = zget sent k) ->
  srsran_regs_pcfich_get h grid out = Some (16, sent ++ drop 16 out).
Proof.
  intros Hs Ho Hin. destruct (visited_pcfich) as [Epc Evis]. destruct pcfich_ids as (Hi & Hn & Et). destruct (dv_pcfich cell h Hd) as [_ Hpc4].
  unfold srsran_regs_pcfich_get. cbv zeta. rewrite Evis, (dv_cell cell h Hd), Epc. cbn [ch_regs].
  rewrite (channel_get cell h Hcell Hd _ 4 grid out sent 4 Hi) by (rewrite ?Et; done || lia). done.
Qed.
(** The counter of the PDCCH loops is four times the index. *)
Lemma pdcch_put_loop ch n (d g : list A) : 0 <= n ->
  for_range 0 n (fun '(g, k) i => r ← reg_of h ch i; g ← regs_put_reg r d k g (nof_prb cell); Some (g, k + 4)) (g, 0)
    = (g ← for_range 0 n (fun g i => r ← reg_of h ch i; regs_put_reg r d (i * REGS_RE_X_REG) g (nof_prb cell)) g; Some (g, 4 * n)).
Proof.
  intros Hn. pattern n. apply natlike_ind; [done | | done]. clear n Hn. intros n Hn IH. rewrite <- Z.add_1_r.
  rewrite !(for_range_split 0 n (n + 1)) by lia. rewrite IH. destruct (for_range 0 n _ g) as [t |]; [| done]. cbn [mbind option_bind].
  rewrite !(for_range_step n) by lia. replace (4 * n) with (n * REGS_RE_X_REG) by (unfold REGS_RE_X_REG; lia). destruct (reg_of h ch n) as [r |]; [| done]. cbn [mbind option_bind].
  destruct (regs_put_reg r d _ t _) as [u |]; [| done]. cbn [mbind option_bind]. rewrite !for_range_done by lia. cbn [mbind option_bind]. do 2 f_equal. unfold REGS_RE_X_REG. lia.
Qed.

Lemma pdcch_get_loop ch n (g d : list A) : 0 <= n ->
  for_range 0 n (fun '(d, k) i => r ← reg_of h ch i; d ← regs_get_reg r g d k (nof_prb cell); Some (d, k + 4)) (d, 0)
    = (d ← for_range 0 n (fun d i => r ← reg_of h ch i; regs_get_reg r g d (i * REGS_RE_X_REG) (nof_prb cell)) d; Some (d, 4 * n)).
Proof.
  intros Hn. pattern n. apply natlike_ind; [done | | done]. clear n Hn. intros n Hn IH. rewrite <- Z.add_1_r.
  rewrite !(for_range_split 0 n (n + 1)) by lia. rewrite IH. destruct (for_range 0 n _ d) as [t |]; [| done]. cbn [mbind option_bind].
  rewrite !(for_range_step n) by lia. replace (4 * n) with (n * REGS_RE_X_REG) by (unfold REGS_RE_X_REG; lia). destruct (reg_of h ch n) as [r |]; [| done]. cbn [mbind option_bind].
  destruct (regs_get_reg r g t _ _) as [u |]; [| done]. cbn [mbind option_bind]. rewrite !for_range_done by lia. cbn [mbind option_bind]. do 2 f_equal. unfold REGS_RE_X_REG. lia.
Qed.

Lemma pdcch_ids cfi ch : 1 <= cfi <= 3 -> zget (rg_pdcch h) (cfi - 1) = Some ch ->
  ids_ok h (ch_regs ch) /\ NoDup (ch_regs ch) /\ 0 <= ch_nof_regs ch <= zlen (ch_regs ch) /\ ch_nof_regs ch <= 1024 /\ forall p, p ∈ ch_regs ch -> p ∉ given h.
Proof.
  intros Hcfi Hch. pose proof (pdcch_permutation cell h cfi ch Hd Hcfi Hch) as HP.
  destruct (dv_pdcch cell h Hd cfi Hcfi) as (ch' & Hch' & Hnr & Hl & HD & _). rewrite Hch in Hch'. injection Hch' as <-. cbv zeta in *.
  split; [apply Forall_forall; intros p Hp; rewrite HP in Hp; apply elem_select in Hp as [? _]; lia |].
  split; [rewrite HP; apply NoDup_select |]. split; [lia |]. split; [lia |].
  intros p Hp. rewrite HP in Hp. by apply elem_select in Hp as (_ & _ & ?).
Qed.

Lemma copies_spec cfi ch (s d grid : list A) : 1 <= cfi <= 3 -> zget (rg_pdcch h) (cfi - 1) = Some ch ->
  zlen s = 16 -> zlen d = 4 * ch_nof_regs ch -> ctrl_symbols cell * nof_prb cell * 12 <= zlen grid ->
  exists g1 g2, srsran_regs_pcfich_put h s grid = Some (16, g1) /\ srsran_regs_pdcch_put h cfi d g1 = Some (zlen d, g2) /\ zlen g2 = zlen grid /\
    (forall out, 16 <= zlen out -> srsran_regs_pcfich_get h g2 out = Some (16, s ++ drop 16 out)) /\
    (forall out, zlen d <= zlen out -> srsran_regs_pdcch_get h cfi g2 out = Some (zlen d, d ++ drop (length d) out)) /\
    forall p, p ∉ positions cell h (ch_regs (rg_pcfich h)) -> p ∉ positions cell h (ch_regs ch) -> zget g2 p = zget grid p.
Proof.
  intros Hcfi Hch Hs Hdl Hgrid. destruct pcfich_ids as (Hpi & _ & _).
  destruct (pdcch_ids cfi ch Hcfi Hch) as (Hids & Hnd & Hnr & Hnr' & Happ).
  destruct (pcfich_put s grid ltac:(lia) Hgrid) as (g1 & E1 & Hl1 & Hin1 & Hout1).
  destruct (channel_put cell h Hcell Hd (ch_regs ch) (ch_nof_regs ch) d g1 (ch_nof_regs ch) Hids Hnd Hnr ltac:(lia) ltac:(lia)) as (g2 & E2 & Hl2 & Hin2 & Hout2).
  assert (Hsplit : forall q, q ∈ pcfich_elements -> q ∉ positions cell h (take (Z.to_nat (ch_nof_regs ch)) (ch_regs ch))).
  { intros q (p & Hq & Hp)%list_elem_of_bind (p' & Hq' & Hp')%list_elem_of_bind. assert (p' ∈ ch_regs ch) as Hp'' by (by eapply subseteq_take).
    unfold ids_ok in *. rewrite Forall_forall in Hpi, Hids. pose proof (positions_apart cell h Hd p p' q (Hpi _ Hp) (Hids _ Hp'') Hq Hq') as ->.
    apply (Happ p' Hp''). unfold given. apply elem_of_app. by left. }
  destruct ch as [nr ids]. cbn [ch_regs ch_nof_regs] in *.
  exists g1, g2. split; [done |]. split.
  { unfold srsran_regs_pdcch_put, srsran_regs_pdcch_put_offset. destruct (Z.ltb_spec cfi 1); [lia |]. destruct (Z.ltb_spec 3 cfi); [lia |]. cbn [orb]. rewrite Hch. cbn [mbind option_bind ch_nof_regs].
    rewrite uwrap_small, Z.add_0_l by (unfold is_uint; lia). rewrite Z.leb_refl, (dv_cell cell h Hd), pdcch_put_loop by lia. cbn [ch_nof_regs]. rewrite E2. cbn [mbind option_bind]. by rewrite Hdl. }
  split; [lia |]. split; [| split].
  - intros out Ho. apply pcfich_get; [done | done |]. intros k Hk. destruct (Hin1 k Hk) as (p & Hp & Eg). exists p. split; [done |].
    rewrite Hout2; [done |]. apply Hsplit. rewrite zget_lookup in Hp by lia. by apply list_elem_of_lookup_2 in Hp.
  - intros out Ho. unfold srsran_regs_pdcch_get, srsran_regs_pdcch_get_offset. destruct (Z.ltb_spec cfi 1); [lia |]. destruct (Z.ltb_spec 3 cfi); [lia |]. cbn [orb]. rewrite Hch. cbn [mbind option_bind ch_nof_regs].
    rewrite uwrap_small, Z.add_0_l by (unfold is_uint; lia). rewrite Z.leb_refl, (dv_cell cell h Hd), pdcch_get_loop by lia. cbn [ch_nof_regs].
    rewrite (channel_get cell h Hcell Hd ids nr g2 out d) by (done || lia). cbn [mbind option_bind]. rewrite Hdl. do 3 f_equal. unfold zlen in *. f_equal. lia.
  - intros p Hp1 Hp2. rewrite Hout2, Hout1; [done | done |]. intros (q & Hq & Hq')%list_elem_of_bind. apply Hp2. apply list_elem_of_bind. exists q. split; [done |]. by eapply subseteq_take.
Qed.
End copies_of_channels.

(** ** Properties *)

(** C12: the initialisation of a cell with six blocks or more and one, two or four ports cuts
    the control region into groups: every element without a reference lies in exactly one; they
    are numbered by frequency and then by symbol, but for the extended prefix in a cell of ten
    blocks or less; four go to PCFICH and three to each unit of PHICH, at the places of the
    standard, and those that are left are interleaved and shifted for PDCCH; no group is given
    away twice. The units of PHICH must fit, which they do in an FDD cell. *)
Theorem control_region_divided cell mem block res len phich_mi mb h0 :
  srsran_cell_isvalid cell = true -> region_ok cell -> sized_regs mem block -> 0 <= phich_mi -> 3 * units cell res phich_mi + 6 <= 2 * nof_prb cell ->
  exists h, srsran_regs_init_opts mem block h0 cell res len phich_mi mb = Some (SRSRAN_SUCCESS, h) /\ divided cell h /\ placed cell res phich_mi mb h.
Proof. intros Hv Hc Hm Hmi Hfit. by apply regs_init_spec. Qed.

Lemma one_unit_fits cell res : region_ok cell -> 3 * units cell res 1 + 6 <= 2 * nof_prb cell.
Proof. intros (HN & _). unfold units, groups_of. destruct res; lia. Qed.

Definition ex_cell : srsran_cell_t := Cell 6 2 301 SRSRAN_CP_NORM SRSRAN_FDD.
Definition ex_pointers (n : Z) : list Z := replicate (Z.to_nat n) 77.
Definition ex_groups (n : Z) : list srsran_regs_reg_t := replicate (Z.to_nat n) (Reg [9; 9; 9; 9] 9 9 true).

Lemma ex_sized : sized_regs ex_pointers ex_groups.
Proof.
  split; [intros n Hn; unfold ex_pointers, zlen; rewrite length_replicate; lia |].
  intros n Hn. unfold ex_groups, zlen. rewrite length_replicate. split; [lia |]. by apply Forall_replicate.
Qed.

Lemma ex_region : region_ok ex_cell.
Proof. split; [vm_compute; split; discriminate |]. split; [vm_compute; split; congruence |]. by right; left. Qed.

Lemma control_region_divided_witness :
  exists h, srsran_regs_init_opts ex_pointers ex_groups zero_regs ex_cell SRSRAN_PHICH_R_2 SRSRAN_PHICH_NORM 1 false = Some (SRSRAN_SUCCESS, h) /\ divided ex_cell h /\ placed ex_cell SRSRAN_PHICH_R_2 1 false h.
Proof.
  apply (control_region_divided ex_cell ex_pointers ex_groups SRSRAN_PHICH_R_2 SRSRAN_PHICH_NORM 1 false zero_regs);
    [reflexivity | apply ex_region | apply ex_sized | by vm_compute | by vm_compute].
Defined.

(** C23: on one grid, the symbols put for PCFICH and for the PDCCH of a region are both got
    back, and nothing else on the grid changes. *)
Theorem control_channels_kept {A} cell h cfi ch (s d grid : list A) :
  region_ok cell -> divided cell h -> 1 <= cfi <= 3 -> zget (rg_pdcch h) (cfi - 1) = Some ch ->
  zlen s = 16 -> zlen d = 4 * ch_nof_regs ch -> ctrl_symbols cell * nof_prb cell * 12 <= zlen grid ->
  exists g1 g2, srsran_regs_pcfich_put h s grid = Some (16, g1) /\ srsran_regs_pdcch_put h cfi d g1 = Some (zlen d, g2) /\ zlen g2 = zlen grid /\
    (forall out, 16 <= zlen out -> srsran_regs_pcfich_get h g2 out = Some (16, s ++ drop 16 out)) /\
    (forall out, zlen d <= zlen out -> srsran_regs_pdcch_get h cfi g2 out = Some (zlen d, d ++ drop (length d) out)) /\
    forall p, p ∉ positions cell h (ch_regs (rg_pcfich h)) -> p ∉ positions cell h (ch_regs ch) -> zget g2 p = zget grid p.
Proof. intros Hc Hd. by apply copies_spec. Qed.

Lemma control_channels_kept_witness : exists h ch g1 g2,
  zget (rg_pdcch h) 1 = Some ch /\ srsran_regs_pcfich_put h (replicate 16 1) (replicate 1008 0) = Some (16, g1) /\
  srsran_regs_pdcch_put h 2 (replicate (Z.to_nat (4 * ch_nof_regs ch)) 2) g1 = Some (zlen (replicate (Z.to_nat (4 * ch_nof_regs ch)) 2), g2) /\
  srsran_regs_pcfich_get h g2 (replicate 16 0) = Some (16, replicate 16 1 ++ drop 16 (replicate 16 0)).
Proof.
  destruct (regs_init_spec ex_cell ex_region ex_pointers ex_groups ex_sized SRSRAN_PHICH_R_2 SRSRAN_PHICH_NORM 1 false ltac:(lia) ltac:(by vm_compute) zero_regs eq_refl) as (h & _ & Hd & _).
  destruct (dv_pdcch ex_cell h Hd 2 ltac:(lia)) as (ch & Hch & Hnr & _ & HD & _). cbv zeta in *.
  destruct (control_channels_kept ex_cell h 2 ch (replicate 16 1) (replicate (Z.to_nat (4 * ch_nof_regs ch)) 2) (replicate 1008 0) ex_region Hd)
    as (g1 & g2 & E1 & E2 & _ & E3 & _); [lia | exact Hch | done | unfold zlen; rewrite length_replicate; lia | by vm_compute |].
  exists h, ch, g1, g2. split; [exact Hch |]. split; [exact E1 |]. split; [exact E2 |]. by apply E3.
Defined.

(** *** Examples *)

Definition ex_init (cell : srsran_cell_t) (len : srsran_phich_length_t) : srsran_regs_t :=
  match srsran_regs_init ex_pointers ex_groups zero_regs cell SRSRAN_PHICH_R_1 len with Some (_, h) => h | None => zero_regs end.

(** The groups of PCFICH and PHICH of a cell, and the numbers of groups of PDCCH. *)
Example regs_of_cell :
  let h := ex_init (Cell 6 1 1 SRSRAN_CP_NORM SRSRAN_FDD) SRSRAN_PHICH_NORM in
  ch_regs (rg_pcfich h) = [7; 22; 40; 55] /\ (ch_regs <$> rg_phich h) = [[11; 29; 51]] /\ (ch_nof_regs <$> rg_pdcch h) = [18; 36; 54].
Proof. vm_compute. repeat split. Qed.

(** With the extended prefix and four control symbols, the groups at subcarriers 8 of symbol 2
    and 6 of symbol 3 are numbered the wrong way round. *)
Example numbered_out_of_order :
  ((fun r => (reg_l r, reg_k0 r)) <$> take 2 (drop 7 (rg_regs (ex_init (Cell 6 4 1 SRSRAN_CP_EXT SRSRAN_FDD) SRSRAN_PHICH_NORM)))) = [(2, 8); (3, 6)].
Proof. by vm_compute. Qed.

(** With the extended prefix the count of the groups of PHICH reads beyond the units. *)
Example phich_nregs_overrun :
  srsran_regs_phich_nregs (ex_init (Cell 6 4 1 SRSRAN_CP_EXT SRSRAN_FDD) SRSRAN_PHICH_NORM) = None.
Proof. by vm_compute. Qed.

(** A cell of one block, which counts as valid, is refused: two groups of PCFICH coincide. *)
Example one_block_refused :
  fst <$> srsran_regs_init ex_pointers ex_groups zero_regs (Cell 1 1 1 SRSRAN_CP_NORM SRSRAN_FDD) SRSRAN_PHICH_R_1 SRSRAN_PHICH_NORM = Some SRSRAN_ERROR.
Proof. by vm_compute. Qed.
