(* ===== verification/Modem.v ===== *)
(** * Symbols of the control channels ([lib/src/phy/modem], [lib/src/phy/mimo])

    A complex sample is a pair of binary32 numbers. The functions between the bits of a control
    channel and the samples on its resource elements: the constellations, modulation, soft
    demodulation, the mapping to layers, the coding for transmit diversity and the equalisers,
    in the order of operations of the code. *)

From S2P Require Export NgTypes SearchSpace DciBits PhyCommon Crc Sequence.
From Stdlib Require Import Setoid Morphisms.

(** ** Numbers *)

Definition f32_sub (a b : float32) : float32 := SFsub 24 128 a b.
Definition f32_opp (a : float32) : float32 := SFopp a.
Definition f32_1 : float32 := f32_of_int 1.

Definition f64_mul (a b : spec_float) : spec_float := SFmul 53 1024 a b.

(** The conversion to binary32, to the nearest. *)
Definition f32_of_f64 (x : spec_float) : float32 :=
  match x with
  | S754_finite s m e => binary_normalize 24 128 (if s then Zneg m else Zpos m) e s
  | _ => x
  end.

(** The constants of [math.h], in binary64. *)
Definition M_SQRT1_2 : spec_float := S754_finite false 6369051672525773 (-53).
Definition M_SQRT2 : spec_float := S754_finite false 6369051672525773 (-52).

(** The binary32 number nearest to [1e-4]. *)
Definition f32_1e_4 : float32 := S754_finite false 13743895 (-37).

(** [cf_t], a [float complex]. *)
Record cf_t := Cf { cf_re : float32; cf_im : float32 }.

Definition cf_0 : cf_t := Cf f32_0 f32_0.
Definition cf_1 : cf_t := Cf f32_1 f32_0.
Definition cf_I : cf_t := Cf f32_0 f32_1.

Definition cf_add (a b : cf_t) : cf_t := Cf (f32_add (cf_re a) (cf_re b)) (f32_add (cf_im a) (cf_im b)).
Definition cf_opp (a : cf_t) : cf_t := Cf (f32_opp (cf_re a)) (f32_opp (cf_im a)).
Definition conjf (a : cf_t) : cf_t := Cf (cf_re a) (f32_opp (cf_im a)).
Definition cf_mul (a b : cf_t) : cf_t :=
  Cf (f32_sub (f32_mul (cf_re a) (cf_re b)) (f32_mul (cf_im a) (cf_im b))) (f32_add (f32_mul (cf_re a) (cf_im b)) (f32_mul (cf_im a) (cf_re b))).
Definition cf_scale (a : cf_t) (h : float32) : cf_t := Cf (f32_mul (cf_re a) h) (f32_mul (cf_im a) h).
Definition cf_over (a : cf_t) (h : float32) : cf_t := Cf (f32_div (cf_re a) h) (f32_div (cf_im a) h).

(** A product with a [double], rounded when it is stored. *)
Definition cf_scale64 (a : cf_t) (d : spec_float) : cf_t :=
  Cf (f32_of_f64 (f64_mul (f64_of_f32 (cf_re a)) d)) (f32_of_f64 (f64_mul (f64_of_f32 (cf_im a)) d)).

(** ** Arrays of arrays *)

Definition get2 {A} (x : list (list A)) (j i : Z) : option A := r ← zget x j; zget r i.
Definition set2 {A} (x : list (list A)) (j i : Z) (v : A) : option (list (list A)) := r ← zget x j; r ← zset r i v; zset x j r.

(** ** Constellations and modulation *)

Record srsran_modem_table_t := ModemTable { mt_symbol_table : list cf_t; mt_nsymbols : Z; mt_nbits_x_symbol : Z }.

(** The level of a component, rounded when the table is filled. *)
Definition BPSK_LEVEL : float32 := f32_of_f64 M_SQRT1_2.
Definition QPSK_LEVEL : float32 := f32_of_f64 M_SQRT1_2.

Definition set_BPSKtable : list cf_t := [Cf BPSK_LEVEL BPSK_LEVEL; Cf (f32_opp BPSK_LEVEL) (f32_opp BPSK_LEVEL)].
Definition set_QPSKtable : list cf_t :=
  [Cf QPSK_LEVEL QPSK_LEVEL; Cf QPSK_LEVEL (f32_opp QPSK_LEVEL); Cf (f32_opp QPSK_LEVEL) QPSK_LEVEL; Cf (f32_opp QPSK_LEVEL) (f32_opp QPSK_LEVEL)].

(** The two modulations of the control channels; the constellations of the others are not modelled. *)
Definition srsran_modem_table_lte (modulation : srsran_mod_t) : option (Z * srsran_modem_table_t) :=
  match modulation with
  | SRSRAN_MOD_BPSK => Some (SRSRAN_SUCCESS, ModemTable set_BPSKtable 2 1)
  | SRSRAN_MOD_QPSK => Some (SRSRAN_SUCCESS, ModemTable set_QPSKtable 4 2)
  | _ => None
  end.

(** The symbols of [bits]; the result is their number, or an error. *)
Definition srsran_mod_modulate (q : srsran_modem_table_t) (bits : list Z) (symbols : list cf_t) (nbits : Z) : option (Z * list cf_t) :=
  '(e, symbols, j, _) ← for_range 0 ((nbits + mt_nbits_x_symbol q - 1) / mt_nbits_x_symbol q) (fun '(e, symbols, j, pos) _ =>
    if e : bool then Some (e, symbols, j, pos)
    else
      '(idx, pos) ← srsran_bit_pack (mt_nbits_x_symbol q) bits pos;
      if idx <? mt_nsymbols q then s ← zget (mt_symbol_table q) idx; symbols ← zset symbols j s; Some (false, symbols, j + 1, pos)
      else Some (true, symbols, j, pos)) (false, symbols, 0, 0);
  Some (if e : bool then SRSRAN_ERROR else j, symbols).

(** ** Soft demodulation *)

Definition demod_bpsk_lte (symbols : list cf_t) (llr : list float32) (nsymbols : Z) : option (list float32) :=
  for_range 0 nsymbols (fun llr i => s ← zget symbols i; zset llr i (f32_of_f64 (f64_mul (f64_of_f32 (f32_opp (f32_add (cf_re s) (cf_im s)))) M_SQRT1_2))) llr.

(** The samples as an array of floats, scaled. *)
Definition as_floats (symbols : list cf_t) : list float32 := symbols ≫= fun s => [cf_re s; cf_im s].
Definition demod_qpsk_lte (symbols : list cf_t) (llr : list float32) (nsymbols : Z) : option (list float32) :=
  for_range 0 (nsymbols * 2) (fun llr i => x ← zget (as_floats symbols) i; zset llr i (f32_mul x (f32_of_f64 (SFopp M_SQRT2)))) llr.

(** ** Layers *)

Definition srsran_layermap_diversity (d : list cf_t) (x : list (list cf_t)) (nof_layers nof_symbols : Z) : option (list (list cf_t)) :=
  for_range 0 (nof_symbols ÷ nof_layers) (fun x i => for_range 0 nof_layers (fun x j => v ← zget d (nof_layers * i + j); set2 x j i v) x) x.

Definition srsran_layerdemap_diversity (x : list (list cf_t)) (d : list cf_t) (nof_layers nof_layer_symbols : Z) : option (list cf_t) :=
  for_range 0 nof_layer_symbols (fun d i => for_range 0 nof_layers (fun d j => v ← get2 x j i; zset d (nof_layers * i + j) v) d) d.

(** ** Transmit diversity *)

(** [srsran_vec_sc_prod_cfc] on an array, in place. *)
Definition srsran_vec_sc_prod_cfc (x : list cf_t) (h : float32) (len : Z) : option (list cf_t) :=
  for_range 0 len (fun x i => v ← zget x i; zset x i (cf_scale v h)) x.

Definition precoding_diversity2 (x y : list (list cf_t)) (nof_symbols : Z) (scaling : float32) : option (list (list cf_t)) :=
  y ← for_range 0 nof_symbols (fun y i =>
    x0 ← get2 x 0 i; x1 ← get2 x 1 i;
    y ← set2 y 0 (2 * i) x0; y ← set2 y 1 (2 * i) (cf_opp (conjf x1));
    y ← set2 y 0 (2 * i + 1) x1; set2 y 1 (2 * i + 1) (conjf x0)) y;
  let h := f32_of_f64 (f64_mul (f64_of_f32 scaling) M_SQRT1_2) in
  y0 ← zget y 0; y0 ← srsran_vec_sc_prod_cfc y0 h (2 * nof_symbols); y ← zset y 0 y0;
  y1 ← zget y 1; y1 ← srsran_vec_sc_prod_cfc y1 h (2 * nof_symbols); zset y 1 y1.

Definition precoding_diversity4 (x y : list (list cf_t)) (nof_symbols : Z) (scaling : float32) : option (list (list cf_t)) :=
  let s := f32_of_f64 (SFdiv 53 1024 (f64_of_f32 scaling) M_SQRT2) in
  for_range 0 (4 * nof_symbols ÷ 4) (fun y i =>
    x0 ← get2 x 0 i; x1 ← get2 x 1 i; x2 ← get2 x 2 i; x3 ← get2 x 3 i;
    y ← set2 y 0 (4 * i) (cf_scale x0 s); y ← set2 y 1 (4 * i) cf_0;
    y ← set2 y 2 (4 * i) (cf_scale (cf_opp (conjf x1)) s); y ← set2 y 3 (4 * i) cf_0;
    y ← set2 y 0 (4 * i + 1) (cf_scale x1 s); y ← set2 y 1 (4 * i + 1) cf_0;
    y ← set2 y 2 (4 * i + 1) (cf_scale (conjf x0) s); y ← set2 y 3 (4 * i + 1) cf_0;
    y ← set2 y 0 (4 * i + 2) cf_0; y ← set2 y 1 (4 * i + 2) (cf_scale x2 s);
    y ← set2 y 2 (4 * i + 2) cf_0; y ← set2 y 3 (4 * i + 2) (cf_scale (cf_opp (conjf x3)) s);
    y ← set2 y 0 (4 * i + 3) cf_0; y ← set2 y 1 (4 * i + 3) (cf_scale x3 s);
    y ← set2 y 2 (4 * i + 3) cf_0; set2 y 3 (4 * i + 3) (cf_scale (conjf x2) s)) y.

(** The number of symbols, or an error, and the symbols of the ports. *)
Definition srsran_precoding_diversity (x y : list (list cf_t)) (nof_ports nof_symbols : Z) (scaling : float32) : option (Z * list (list cf_t)) :=
  if nof_ports =? 2 then y ← precoding_diversity2 x y nof_symbols scaling; Some (2 * Z.max 0 nof_symbols, y)
  else if nof_ports =? 4 then y ← precoding_diversity4 x y nof_symbols scaling; Some (4 * Z.max 0 (4 * nof_symbols ÷ 4), y)
  else Some (-1, y).

(** ** Equalisers

    The first index of a channel estimate is the transmit port, the second the antenna. *)

Definition norm2 (h : cf_t) (acc : float32) : float32 := f32_add (f32_add acc (f32_mul (cf_re h) (cf_re h))) (f32_mul (cf_im h) (cf_im h)).

(** [|a|^2 + |b|^2], added from left to right. *)
Definition energy2 (a b : cf_t) : float32 := norm2 b (f32_add (f32_mul (cf_re a) (cf_re a)) (f32_mul (cf_im a) (cf_im a))).

Definition equalise2 (y : list (list cf_t)) (h : list (list (list cf_t))) (i : Z) (st : float32 * cf_t * cf_t) (p : Z)
  : option (float32 * cf_t * cf_t) :=
  let '(hh, x0, x1) := st in
  h0 ← zget h 0; h1 ← zget h 1;
  h00 ← get2 h0 p (2 * i); h01 ← get2 h0 p (2 * i + 1); h10 ← get2 h1 p (2 * i); h11 ← get2 h1 p (2 * i + 1);
  let hh := f32_add hh (energy2 h00 h11) in
  r0 ← get2 y p (2 * i); r1 ← get2 y p (2 * i + 1);
  let hh := if f32_eq hh f32_0 then f32_1e_4 else hh in
  Some (hh, cf_add x0 (cf_add (cf_mul (conjf h00) r0) (cf_mul h11 (conjf r1))),
        cf_add x1 (cf_add (cf_mul (cf_opp h10) (conjf r0)) (cf_mul (conjf h01) r1))).

Definition equalise4 (y : list (list cf_t)) (h : list (list (list cf_t))) (i : Z) (st : float32 * float32 * (cf_t * cf_t) * (cf_t * cf_t)) (p : Z)
  : option (float32 * float32 * (cf_t * cf_t) * (cf_t * cf_t)) :=
  let '(hh02, hh13, (x0, x1), (x2, x3)) := st in
  a0 ← zget h 0; a1 ← zget h 1; a2 ← zget h 2; a3 ← zget h 3;
  h0 ← get2 a0 p (4 * i); h1 ← get2 a1 p (4 * i + 2); h2 ← get2 a2 p (4 * i); h3 ← get2 a3 p (4 * i + 2);
  r0 ← get2 y p (4 * i); r1 ← get2 y p (4 * i + 1); r2 ← get2 y p (4 * i + 2); r3 ← get2 y p (4 * i + 3);
  Some (f32_add hh02 (energy2 h0 h2), f32_add hh13 (energy2 h1 h3),
        (cf_add x0 (cf_add (cf_mul (conjf h0) r0) (cf_mul h2 (conjf r1))), cf_add x1 (cf_add (cf_mul (cf_opp h2) (conjf r0)) (cf_mul (conjf h0) r1))),
        (cf_add x2 (cf_add (cf_mul (conjf h1) r2) (cf_mul h3 (conjf r3))), cf_add x3 (cf_add (cf_mul (cf_opp h3) (conjf r2)) (cf_mul (conjf h1) r3)))).

(** The layers; the result of the code is not used. *)
Definition srsran_predecoding_diversity_gen (y : list (list cf_t)) (h : list (list (list cf_t))) (x : list (list cf_t))
    (nof_rxant nof_ports nof_symbols : Z) (scaling : float32) : option (list (list cf_t)) :=
  if nof_ports =? 2 then
    for_range 0 (nof_symbols ÷ 2) (fun x i =>
      '(hh, x0, x1) ← for_range 0 nof_rxant (equalise2 y h i) (f32_0, cf_0, cf_0);
      let hh := f32_mul hh scaling in
      x ← set2 x 0 i (cf_scale64 (cf_over x0 hh) M_SQRT2); set2 x 1 i (cf_scale64 (cf_over x1 hh) M_SQRT2)) x
  else if nof_ports =? 4 then
    let m_ap := if Z.rem nof_symbols 4 =? 0 then nof_symbols ÷ 4 else (nof_symbols - 2) ÷ 4 in
    for_range 0 m_ap (fun x i =>
      '(hh02, hh13, (x0, x1), (x2, x3)) ← for_range 0 nof_rxant (equalise4 y h i) (f32_0, f32_0, (cf_0, cf_0), (cf_0, cf_0));
      let hh02 := f32_mul hh02 scaling in let hh13 := f32_mul hh13 scaling in
      x ← set2 x 0 i (cf_scale64 (cf_over x0 hh02) M_SQRT2); x ← set2 x 1 i (cf_scale64 (cf_over x1 hh02) M_SQRT2);
      x ← set2 x 2 i (cf_scale64 (cf_over x2 hh13) M_SQRT2); set2 x 3 i (cf_scale64 (cf_over x3 hh13) M_SQRT2)) x
  else Some x.

(** Without channel state information, for no more symbols than the vector form takes over from. *)
Definition srsran_predecoding_diversity_multi := srsran_predecoding_diversity_gen.

Section division.
(** The division of complex numbers, which C leaves to the implementation. *)
Context (cf_div : cf_t -> cf_t -> cf_t).

Definition srsran_predecoding_single_gen (y h : list (list cf_t)) (x : list cf_t) (nof_rxant nof_symbols : Z) (scaling noise_estimate : float32)
  : option (list cf_t) :=
  for_range 0 nof_symbols (fun x i =>
    '(r, hh) ← for_range 0 nof_rxant (fun '(r, hh) p =>
      a ← get2 y p i; b ← get2 h p i; Some (cf_add r (cf_mul a (conjf b)), cf_add hh (cf_mul (conjf b) b))) (cf_0, cf_0);
    zset x i (cf_div r (cf_scale (Cf (f32_add (cf_re hh) noise_estimate) (cf_im hh)) scaling))) x.

Definition srsran_predecoding_single_multi := srsran_predecoding_single_gen.
End division.

(** ** The symbols of a control channel

    What the control channels do alike; the code of each repeats it. *)

(** The symbols of an antenna and the estimates of its ports are taken from their grids by [get];
    the flag says that their number was wrong, after which nothing else is read. *)
Definition control_antenna (get : list cf_t -> list cf_t -> option (Z * list cf_t)) (np nsym : Z) (ce_grids : list (list (list cf_t))) (grids : list (list cf_t))
    (st : bool * list (list cf_t) * list (list (list cf_t))) (j : Z) : option (bool * list (list cf_t) * list (list (list cf_t))) :=
  let '(e, symbols, ce) := st in
  if e then Some (e, symbols, ce)
  else
    g ← zget grids j; s ← zget symbols j; '(n, s) ← get g s; symbols ← zset symbols j s;
    if negb (nsym =? n) then Some (true, symbols, ce)
    else
      '(e, ce) ← for_range 0 np (fun '(e, ce) i =>
        if e : bool then Some (e, ce)
        else
          g ← get2 ce_grids i j; row ← zget ce i; c ← zget row j; '(n, c) ← get g c; row ← zset row j c; ce ← zset ce i row; Some (negb (nsym =? n), ce)) (false, ce);
      Some (e, symbols, ce).

(** Layer mapping and precoding, in the buffers [x] and [symbols]. *)
Definition control_precode (np nsym : Z) (d : list cf_t) (x symbols : list (list cf_t)) : option (list (list cf_t) * list (list cf_t)) :=
  if 1 <? np then
    x ← srsran_layermap_diversity d x np nsym; '(_, symbols) ← srsran_precoding_diversity x symbols np (nsym / np) f32_1; Some (x, symbols)
  else
    s ← zget symbols 0; s ← for_range 0 nsym (fun s i => v ← zget d i; zset s i v) s; symbols ← zset symbols 0 s; Some (x, symbols).

(** The inverse. Without ports the code divides by zero. *)
Definition control_equalise (cf_div : cf_t -> cf_t -> cf_t) (np nrx nsym : Z) (symbols : list (list cf_t)) (ce : list (list (list cf_t))) (x : list (list cf_t)) (d : list cf_t)
    (noise_estimate : float32) : option (list (list cf_t) * list cf_t) :=
  if np =? 0 then None
  else if np =? 1 then
    h ← zget ce 0; d ← srsran_predecoding_single_multi cf_div symbols h d nrx nsym f32_1 noise_estimate; Some (x, d)
  else
    x ← srsran_predecoding_diversity_multi symbols ce x nrx np nsym f32_1; d ← srsran_layerdemap_diversity x d np (nsym / np); Some (x, d).

(** The symbols of every port are put on its grid; the flag says that there was an error. *)
Definition control_put (put : list cf_t -> list cf_t -> option (Z * list cf_t)) (np : Z) (symbols grids : list (list cf_t)) : option (bool * list (list cf_t)) :=
  for_range 0 np (fun '(e, grids) i =>
    if e : bool then Some (e, grids)
    else s ← zget symbols i; g ← zget grids i; '(n, g) ← put s g; grids ← zset grids i g; Some (n <? 0, grids)) (false, grids).

(** ** Scrambling ([lib/src/phy/scrambling/scrambling.c])

    [assert] fails on a range beyond the sequence. *)

Definition srsran_scrambling_f_offset (s : srsran_sequence_t) (data : list float32) (offset len : Z) : option (list float32) :=
  if len + offset <=? q_cur_len s then
    for_range 0 len (fun d i => x ← zget d i; c ← zget (q_c_float s) (offset + i); zset d i (f32_mul x (f32_of_int c))) data
  else None.
Definition srsran_scrambling_f (s : srsran_sequence_t) (data : list float32) : option (list float32) := srsran_scrambling_f_offset s data 0 (q_cur_len s).

Definition srsran_scrambling_c_offset (s : srsran_sequence_t) (data : list cf_t) (offset len : Z) : option (list cf_t) :=
  if len + offset <=? q_cur_len s then
    for_range 0 len (fun d i => x ← zget d i; c ← zget (q_c_float s) (offset + i); zset d i (cf_scale x (f32_of_int c))) data
  else None.
Definition srsran_scrambling_c (s : srsran_sequence_t) (data : list cf_t) : option (list cf_t) := srsran_scrambling_c_offset s data 0 (q_cur_len s).

Definition srsran_scrambling_b_offset (s : srsran_sequence_t) (data : list Z) (offset len : Z) : option (list Z) :=
  c ← q_c s; for_range 0 len (fun d i => b ← zget c (offset + i); x ← zget d i; zset d i (Z.lxor b x)) data.
Definition srsran_scrambling_b (s : srsran_sequence_t) (data : list Z) : option (list Z) := srsran_scrambling_b_offset s data 0 (q_cur_len s).

Definition srsran_vec_dot_prod_fff (x y : list float32) (len : Z) : option float32 :=
  for_range 0 len (fun res i => a ← zget x i; b ← zget y i; Some (f32_add res (f32_mul a b))) f32_0.

(** The sequences of the subframes of a frame, as the objects of the control channels set them;
    nothing happens after an error. *)
Definition set_sequences (gen : srsran_sequence_t -> Z -> option (Z * srsran_sequence_t)) (seqs : list srsran_sequence_t) : option (Z * list srsran_sequence_t) :=
  for_range 0 10 (fun '(e, seqs) nsf =>
    if negb (e =? 0) then Some (e, seqs)
    else s ← zget seqs nsf; '(c, s) ← gen s (2 * nsf); seqs ← zset seqs nsf s; Some (if negb (c =? 0) then SRSRAN_ERROR else SRSRAN_SUCCESS, seqs)) (SRSRAN_SUCCESS, seqs).
