(* ===== verification/Pcfich.v ===== *)
(** * The length of the control region ([lib/src/phy/phch/pcfich.c])

    PCFICH carries the control format indicator (CFI): one of three words of 32 bits, scrambled
    by subframe and cell, on the sixteen elements of four groups. The receiver equalises them,
    takes the scrambling back and chooses the word that correlates best with the soft bits. *)

From S2P Require Export RegsInit Modem.

(** ** Data *)

Definition PCFICH_CFI_LEN : Z := 32.
Definition PCFICH_RE : Z := PCFICH_CFI_LEN ÷ 2.

(** Table 5.3.4-1 of TS 36.212. *)
Definition cfi_table : list (list Z) := [
  [0;1;1;0;1;1;0;1;1;0;1;1;0;1;1;0;1;1;0;1;1;0;1;1;0;1;1;0;1;1;0;1];
  [1;0;1;1;0;1;1;0;1;1;0;1;1;0;1;1;0;1;1;0;1;1;0;1;1;0;1;1;0;1;1;0];
  [1;1;0;1;1;0;1;1;0;1;1;0;1;1;0;1;1;0;1;1;0;1;1;0;1;1;0;1;1;0;1;1];
  [0;0;0;0;0;0;0;0;0;0;0;0;0;0;0;0;0;0;0;0;0;0;0;0;0;0;0;0;0;0;0;0]].

(** The groups that the pointer leads to are a field. *)
Record srsran_pcfich_t := Pcfich {
  pf_cell : srsran_cell_t; pf_nof_symbols : Z; pf_nof_rx_antennas : Z; pf_regs : srsran_regs_t;
  pf_ce : list (list (list cf_t)); pf_symbols : list (list cf_t); pf_x : list (list cf_t); pf_d : list cf_t;
  pf_cfi_table_float : list (list float32); pf_data : list Z; pf_data_f : list float32;
  pf_mod : srsran_modem_table_t; pf_seq : list srsran_sequence_t
}.

Definition pf_set_cell (q : srsran_pcfich_t) (regs : srsran_regs_t) (cell : srsran_cell_t) (seq : list srsran_sequence_t) : srsran_pcfich_t :=
  Pcfich cell (pf_nof_symbols q) (pf_nof_rx_antennas q) regs (pf_ce q) (pf_symbols q) (pf_x q) (pf_d q) (pf_cfi_table_float q) (pf_data q) (pf_data_f q) (pf_mod q) seq.
Definition pf_set_rx (q : srsran_pcfich_t) (ce : list (list (list cf_t))) (symbols : list (list cf_t)) : srsran_pcfich_t :=
  Pcfich (pf_cell q) (pf_nof_symbols q) (pf_nof_rx_antennas q) (pf_regs q) ce symbols (pf_x q) (pf_d q) (pf_cfi_table_float q) (pf_data q) (pf_data_f q) (pf_mod q) (pf_seq q).
Definition pf_set_xd (q : srsran_pcfich_t) (x : list (list cf_t)) (d : list cf_t) : srsran_pcfich_t :=
  Pcfich (pf_cell q) (pf_nof_symbols q) (pf_nof_rx_antennas q) (pf_regs q) (pf_ce q) (pf_symbols q) x d (pf_cfi_table_float q) (pf_data q) (pf_data_f q) (pf_mod q) (pf_seq q).
Definition pf_set_data_f (q : srsran_pcfich_t) (data_f : list float32) : srsran_pcfich_t :=
  Pcfich (pf_cell q) (pf_nof_symbols q) (pf_nof_rx_antennas q) (pf_regs q) (pf_ce q) (pf_symbols q) (pf_x q) (pf_d q) (pf_cfi_table_float q) (pf_data q) data_f (pf_mod q) (pf_seq q).
Definition pf_set_data (q : srsran_pcfich_t) (data : list Z) : srsran_pcfich_t :=
  Pcfich (pf_cell q) (pf_nof_symbols q) (pf_nof_rx_antennas q) (pf_regs q) (pf_ce q) (pf_symbols q) (pf_x q) (pf_d q) (pf_cfi_table_float q) data (pf_data_f q) (pf_mod q) (pf_seq q).

(** ** The object *)

(** [(float)2.0 * cfi_table[i][j] - 1.0] *)
Definition cfi_float (b : Z) : float32 :=
  f32_of_f64 (SFsub 53 1024 (f64_of_f32 (f32_mul (f32_of_int 2) (f32_of_int b))) (binary_normalize 53 1024 1 0 false)).

(** The object cleared; the null pointer to the groups is a cleared object. *)
Definition srsran_pcfich_init (nof_rx_antennas : Z) : option (Z * srsran_pcfich_t) :=
  '(e, mod_) ← srsran_modem_table_lte SRSRAN_MOD_QPSK;
  let res := replicate (Z.to_nat PCFICH_RE) cf_0 in
  let ports := replicate (Z.to_nat SRSRAN_MAX_PORTS) res in
  let table := (fun t : list Z => cfi_float <$> t) <$> take 3 cfi_table in
  Some (if negb (e =? 0) then SRSRAN_ERROR else SRSRAN_SUCCESS,
    Pcfich (Cell 0 0 0 SRSRAN_CP_NORM SRSRAN_FDD) PCFICH_RE nof_rx_antennas zero_regs (replicate (Z.to_nat SRSRAN_MAX_PORTS) ports) ports ports res table
      (replicate 32 0) (replicate 32 f32_0) mod_ (replicate 10 (Sequence None [] [] [] [] 0 0))).

Definition srsran_pcfich_set_cell (alloc : Z -> option (list Z)) (q : srsran_pcfich_t) (regs : srsran_regs_t) (cell : srsran_cell_t) : option (Z * srsran_pcfich_t) :=
  if srsran_cell_isvalid cell then
    if negb (cell_id cell =? cell_id (pf_cell q)) || (nof_prb (pf_cell q) =? 0) then
      '(e, seq) ← set_sequences (fun s nslot => srsran_sequence_pcfich alloc s nslot (cell_id cell)) (pf_seq q);
      Some (e, pf_set_cell q regs cell seq)
    else Some (SRSRAN_SUCCESS, pf_set_cell q regs (pf_cell q) (pf_seq q))
  else Some (SRSRAN_ERROR_INVALID_INPUTS, q).

(** ** The words *)

(** The correlation and the CFI. *)
Definition srsran_pcfich_cfi_decode (q : srsran_pcfich_t) : option (float32 * Z) :=
  '(max_corr, index) ← for_range 0 3 (fun '(max_corr, index) i =>
    t ← zget (pf_cfi_table_float q) i; corr ← srsran_vec_dot_prod_fff t (pf_data_f q) PCFICH_CFI_LEN;
    Some (if f32_lt max_corr corr then (corr, i) else (max_corr, index))) (f32_0, 0);
  Some (max_corr, index + 1).

Definition srsran_pcfich_cfi_encode (cfi : Z) (bits : list Z) : option (Z * list Z) :=
  if (cfi <? 1) || (3 <? cfi) then Some (SRSRAN_ERROR_INVALID_INPUTS, bits)
  else t ← zget cfi_table (cfi - 1); bits ← for_range 0 PCFICH_CFI_LEN (fun b i => x ← zget t i; zset b i x) bits; Some (SRSRAN_SUCCESS, bits).

(** ** The channel *)

Section channel.
Context (cf_div : cf_t -> cf_t -> cf_t).

(** The result, the object, the subframe with its CFI, and the correlation. [ce] holds a grid for
    each port and antenna, [sf_symbols] for each antenna. *)
Definition srsran_pcfich_decode (q : srsran_pcfich_t) (sf : srsran_dl_sf_cfg_t) (ce : list (list (list cf_t))) (noise_estimate : float32)
    (sf_symbols : list (list cf_t)) (corr_result : float32) : option (Z * srsran_pcfich_t * srsran_dl_sf_cfg_t * float32) :=
  let sf_idx := tti sf mod 10 in
  let np := nof_ports (pf_cell q) in
  let nsym := pf_nof_symbols q in
  '(e, symbols, q_ce) ← for_range 0 (pf_nof_rx_antennas q) (control_antenna (srsran_regs_pcfich_get (pf_regs q)) np nsym ce sf_symbols) (false, pf_symbols q, pf_ce q);
  let q := pf_set_rx q q_ce symbols in
  if e : bool then Some (SRSRAN_ERROR, q, sf, corr_result)
  else
    '(x, d) ← control_equalise cf_div np (pf_nof_rx_antennas q) nsym symbols q_ce (pf_x q) (pf_d q) noise_estimate;
    f ← demod_qpsk_lte d (pf_data_f q) nsym;
    s ← zget (pf_seq q) sf_idx; f ← srsran_scrambling_f s f;
    let q := pf_set_data_f (pf_set_xd q x d) f in
    '(corr, c) ← srsran_pcfich_cfi_decode q;
    Some (1, q, DlSfCfg (tdd_config sf) (tti sf) c (sf_type sf) (non_mbsfn_region sf), corr).

(** The grids are those of the ports. *)
Definition srsran_pcfich_encode (q : srsran_pcfich_t) (sf : srsran_dl_sf_cfg_t) (slot_symbols : list (list cf_t)) : option (Z * srsran_pcfich_t * list (list cf_t)) :=
  let sf_idx := tti sf mod 10 in
  let np := nof_ports (pf_cell q) in
  '(_, data) ← srsran_pcfich_cfi_encode (cfi sf) (pf_data q);
  s ← zget (pf_seq q) sf_idx; data ← srsran_scrambling_b s data;
  '(_, d) ← srsran_mod_modulate (pf_mod q) data (pf_d q) PCFICH_CFI_LEN;
  '(x, symbols) ← control_precode np (pf_nof_symbols q) d (pf_x q) (pf_symbols q);
  let q := pf_set_rx (pf_set_xd (pf_set_data q data) x d) (pf_ce q) symbols in
  '(e, slot_symbols) ← control_put (srsran_regs_pcfich_put (pf_regs q)) np symbols slot_symbols;
  Some (if e : bool then SRSRAN_ERROR else SRSRAN_SUCCESS, q, slot_symbols).
End channel.
