(* ===== verification/Pdcch.v ===== *)
(** * Coding of the control channel ([lib/src/phy/phch/pdcch.c])

    A DCI gets a checksum that is masked with the RNTI of its user, is coded by [ConvCode] and
    spread over the bits of a candidate; the receiver adds the copies up, decodes with [Viterbi]
    and takes what remains of the checksum for the RNTI. NG-Scope's receiver codes what it has
    decoded once more and counts the bits that agree with what it has received. *)

From S2P Require Export Viterbi DciFormat Sequence RegsInit.

(** ** The object *)

(** The fields of [srsran_pdcch_t] that the coding uses, and the branch table of the decoder,
    which is a global of the program. *)
Record pdcch_coder_t := PdcchCoder {
  pc_cell : srsran_cell_t; pc_nof_regs : list Z; pc_nof_cce : list Z; pc_max_bits : Z; pc_llr : list float32; pc_rm_f : list float32;
  pc_seq : list srsran_sequence_t; pc_crc : srsran_crc_t; pc_tab : list (list Z); pc_decoder : srsran_viterbi_t
}.

Definition upd_crc (q : pdcch_coder_t) (h : srsran_crc_t) : pdcch_coder_t :=
  PdcchCoder (pc_cell q) (pc_nof_regs q) (pc_nof_cce q) (pc_max_bits q) (pc_llr q) (pc_rm_f q) (pc_seq q) h (pc_tab q) (pc_decoder q).
Definition upd_rm_f (q : pdcch_coder_t) (l : list float32) : pdcch_coder_t :=
  PdcchCoder (pc_cell q) (pc_nof_regs q) (pc_nof_cce q) (pc_max_bits q) (pc_llr q) l (pc_seq q) (pc_crc q) (pc_tab q) (pc_decoder q).
Definition upd_decoder (q : pdcch_coder_t) (v : srsran_viterbi_t) : pdcch_coder_t :=
  PdcchCoder (pc_cell q) (pc_nof_regs q) (pc_nof_cce q) (pc_max_bits q) (pc_llr q) (pc_rm_f q) (pc_seq q) (pc_crc q) (pc_tab q) v.
Definition upd_sizes (q : pdcch_coder_t) (nof_regs nof_cce : list Z) (max_bits : Z) : pdcch_coder_t :=
  PdcchCoder (pc_cell q) nof_regs nof_cce max_bits (pc_llr q) (pc_rm_f q) (pc_seq q) (pc_crc q) (pc_tab q) (pc_decoder q).
Definition upd_cell (q : pdcch_coder_t) (cell : srsran_cell_t) : pdcch_coder_t :=
  PdcchCoder cell (pc_nof_regs q) (pc_nof_cce q) (pc_max_bits q) (pc_llr q) (pc_rm_f q) (pc_seq q) (pc_crc q) (pc_tab q) (pc_decoder q).
Definition upd_seq (q : pdcch_coder_t) (seq : list srsran_sequence_t) : pdcch_coder_t :=
  PdcchCoder (pc_cell q) (pc_nof_regs q) (pc_nof_cce q) (pc_max_bits q) (pc_llr q) (pc_rm_f q) seq (pc_crc q) (pc_tab q) (pc_decoder q).

Definition PDCCH_FORMAT_NOF_REGS (i : Z) : Z := Z.shiftl 1 i * 9.

Definition srsran_pdcch_coderate (nof_bits l : Z) : float32 :=
  f32_div (f32_of_int (u32 (nof_bits + 16))) (f32_of_int (2 * PDCCH_FORMAT_NOF_REGS l)).

Definition SRSRAN_NOF_SF_X_FRAME : Z := 10.

(** The object cleared, then the limit of bits, the checksum, the decoder and the buffer of soft
    bits; the other buffers are not modelled. [mem] is what the allocator hands out. *)
Definition pdcch_init (mem : Z -> list Z) (max_prb : Z) : option (Z * pdcch_coder_t) :=
  let max_bits := u32 (max_prb * 3 * 12 * 2) in
  '(c, crc) ← srsran_crc_init SRSRAN_LTE_CRC16 16;
  '(v, dec) ← srsran_viterbi_init mem SRSRAN_VITERBI_37 [0x6D; 0x4F; 0x57] (SRSRAN_DCI_MAX_BITS + 16) true;
  '(tab, decoder) ← dec;
  Some (if negb (c =? 0) then SRSRAN_ERROR else if negb (v =? 0) then SRSRAN_ERROR else SRSRAN_SUCCESS,
    PdcchCoder (Cell 0 0 0 SRSRAN_CP_NORM SRSRAN_FDD) [0; 0; 0] [0; 0; 0] max_bits (replicate (Z.to_nat max_bits) f32_0)
      (replicate (Z.to_nat (3 * (SRSRAN_DCI_MAX_BITS + 16))) f32_0) (replicate (Z.to_nat SRSRAN_NOF_SF_X_FRAME) (Sequence None [] [] [] [] 0 0)) crc tab decoder).

(** The sizes of the control region for the three values of the CFI; the pointer to the groups
    is not kept in the model. *)
Definition srsran_pdcch_set_regs (q : pdcch_coder_t) (regs : srsran_regs_t) : option pdcch_coder_t :=
  '(nof_regs, nof_cce) ← for_range 0 3 (fun '(nof_regs, nof_cce) cfi =>
    n ← srsran_regs_pdcch_nregs regs (cfi + 1);
    let r := u32 (n ÷ 9 * 9) in
    nof_regs ← zset nof_regs cfi r; nof_cce ← zset nof_cce cfi (r / 9); Some (nof_regs, nof_cce)) (pc_nof_regs q, pc_nof_cce q);
  n ← zget nof_regs 2;
  Some (upd_sizes q nof_regs nof_cce (u32 (n / 9 * 72))).

(** One sequence of [srsran_pdcch_set_cell]; nothing happens after an error. [alloc] is [malloc]. *)
Definition set_sequence (alloc : Z -> option (list Z)) (regs : srsran_regs_t) (st : Z * pdcch_coder_t) (i : Z) : option (Z * pdcch_coder_t) :=
  let '(c, q) := st in
  if negb (c =? 0) then Some (c, q)
  else
    s ← zget (pc_seq q) i; n ← srsran_regs_pdcch_nregs regs 3;
    '(e, s) ← srsran_sequence_pdcch alloc s (2 * i) (cell_id (pc_cell q)) (u32 (8 * n));
    seq ← zset (pc_seq q) i s;
    Some (if negb (e =? 0) then SRSRAN_ERROR else SRSRAN_SUCCESS, upd_seq q seq).

Definition srsran_pdcch_set_cell (alloc : Z -> option (list Z)) (q : pdcch_coder_t) (regs : srsran_regs_t) (cell : srsran_cell_t) : option (Z * pdcch_coder_t) :=
  if srsran_cell_isvalid cell then
    q ← srsran_pdcch_set_regs q regs;
    if negb (cell_id (pc_cell q) =? cell_id cell) || (nof_prb (pc_cell q) =? 0) then
      for_range 0 SRSRAN_NOF_SF_X_FRAME (set_sequence alloc regs) (SRSRAN_SUCCESS, upd_cell q cell)
    else Some (SRSRAN_SUCCESS, q)
  else Some (SRSRAN_ERROR_INVALID_INPUTS, q).

(** ** The transmitter *)

(** [crc[i] = (crc[i] + mask[i]) % 2], on the part of the data from [o] on. *)
Definition crc_set_mask_rnti (data : list Z) (o rnti : Z) : option (list Z) :=
  '(_, mask, _) ← srsran_bit_unpack rnti 16 (replicate 16 0) 0;
  for_range 0 16 (fun data i => c ← zget data (o + i); m ← zget mask i; zset data (o + i) (u8 ((c + m) mod 2))) data.

Definition encoder : srsran_convcoder_t := ConvCoder 3 7 [0x6D; 0x4F; 0x57] true.

(** The object, the data with their checksum, and the coded data. *)
Definition srsran_pdcch_dci_encode_conv (q : pdcch_coder_t) (data : list Z) (nof_bits : Z) (coded_data : list Z) (rnti : Z)
  : option (pdcch_coder_t * list Z * list Z) :=
  '(_, data, crc) ← srsran_crc_attach (pc_crc q) data nof_bits;
  data ← crc_set_mask_rnti data nof_bits rnti;
  '(_, coded_data) ← srsran_convcoder_encode encoder data coded_data (nof_bits + 16);
  Some (upd_crc q crc, data, coded_data).

(** [mem] is what the arrays of the stack hold at first. *)
Definition srsran_pdcch_dci_encode (mem : Z -> list Z) (q : pdcch_coder_t) (data e : list Z) (nof_bits E rnti : Z)
  : option (Z * pdcch_coder_t * list Z * list Z) :=
  if (nof_bits <? SRSRAN_DCI_MAX_BITS) && (E <? pc_max_bits q) then
    let tmp := mem (3 * (SRSRAN_DCI_MAX_BITS + 16)) in
    '(q, data, tmp) ← srsran_pdcch_dci_encode_conv q data nof_bits tmp rnti;
    '(_, e) ← srsran_rm_conv_tx tmp (3 * (nof_bits + 16)) e E;
    Some (SRSRAN_SUCCESS, q, data, e)
  else Some (SRSRAN_ERROR_INVALID_INPUTS, q, data, e).

(** ** The receiver *)

(** Rate matching undone, decoding, and what remains of the checksum. *)
Definition dci_decode_bits (q : pdcch_coder_t) (e : list float32) (data : list Z) (E nof_bits : Z)
  : option (pdcch_coder_t * list Z * Z) :=
  let rm_f := replicate (Z.to_nat (3 * (SRSRAN_DCI_MAX_BITS + 16))) f32_0 in
  let coded_len := 3 * (nof_bits + 16) in
  '(_, rm_f) ← srsran_rm_conv_rx e E rm_f coded_len;
  '(_, decoder, data) ← srsran_viterbi_decode_f (pc_tab q) (pc_decoder q) rm_f data (nof_bits + 16);
  '(p_bits, _) ← srsran_bit_pack 16 data nof_bits;
  '(checksum, crc) ← srsran_crc_checksum (pc_crc q) data nof_bits;
  Some (upd_crc (upd_decoder (upd_rm_f q rm_f) decoder) crc, data, Z.lxor (uwrap 16 p_bits) (uwrap 16 (Z.land checksum 0xFFFF))).

(** [crc] is the value of the caller's variable. *)
Definition srsran_pdcch_dci_decode (q : pdcch_coder_t) (e : list float32) (data : list Z) (E nof_bits crc : Z)
  : option (Z * pdcch_coder_t * list Z * Z) :=
  if (E <=? pc_max_bits q) && (nof_bits <=? SRSRAN_DCI_MAX_BITS) then
    '(q, data, crc) ← dci_decode_bits q e data E nof_bits; Some (SRSRAN_SUCCESS, q, data, crc)
  else Some (SRSRAN_ERROR_INVALID_INPUTS, q, data, crc).

(** [((e * 32 + 127.5) > 127.5) ? 1 : 0], the sum in binary64. *)
Definition f64_127_5 : spec_float := binary_normalize 53 1024 255 (-1) false.
Definition hard_bit (e : float32) : Z :=
  Z.b2z (SFltb f64_127_5 (SFadd 53 1024 (f64_of_f32 (f32_mul e (f32_of_int 32))) f64_127_5)).

(** The bits received that agree, counted in binary32, as a percentage. *)
Definition agreement (e : list float32) (tmp2 : list Z) (E : Z) : option float32 :=
  parcheck ← for_range 0 E (fun parcheck i =>
    x ← zget e i; b ← zget tmp2 i; Some (f32_add parcheck (f32_of_int (Z.b2z (hard_bit x =? b))))) f32_0;
  Some (f32_div (f32_mul f32_100 parcheck) (f32_of_int E)).

(** The last value is what is written to [prob]. *)
Definition srsran_pdcch_dci_decode_yx (mem : Z -> list Z) (q : pdcch_coder_t) (e : list float32) (data : list Z) (E nof_bits crc : Z) (prob : float32)
  : option (Z * pdcch_coder_t * list Z * Z * float32) :=
  if (E <=? pc_max_bits q) && (nof_bits <=? SRSRAN_DCI_MAX_BITS) then
    '(q, data, crc) ← dci_decode_bits q e data E nof_bits;
    let c_rnti := crc in
    check ← memcpy (mem (SRSRAN_DCI_MAX_BITS + 16)) 0 data 0 nof_bits;
    '(_, check, h) ← srsran_crc_attach (pc_crc q) check nof_bits;
    check ← crc_set_mask_rnti check nof_bits c_rnti;
    '(_, tmp) ← srsran_convcoder_encode encoder check (mem (3 * (SRSRAN_DCI_MAX_BITS + 16))) (nof_bits + 16);
    '(_, tmp2) ← srsran_rm_conv_tx tmp (3 * (nof_bits + 16)) (mem (10 * (SRSRAN_DCI_MAX_BITS + 16))) E;
    parcheck ← agreement e tmp2 E;
    Some (SRSRAN_SUCCESS, upd_crc q h, data, crc, parcheck)
  else Some (SRSRAN_ERROR_INVALID_INPUTS, q, data, crc, prob).

(** ** Messages at a location *)

Definition srsran_pdcch_get_nof_cce_yx (q : pdcch_coder_t) (cfi : Z) : option Z :=
  if (0 <? cfi) && (cfi <? 4) then zget (pc_nof_cce q) (cfi - 1) else Some 0.

(** The mean magnitude of the soft bits of a location, in binary64. *)
Definition mean_abs (q : pdcch_coder_t) (ncce e_bits : Z) : option spec_float :=
  sum ← for_range 0 e_bits (fun mean i => x ← zget (pc_llr q) (ncce * 72 + i); Some (SFadd 53 1024 mean (f64_of_f32 (f32_abs x)))) (S754_zero false);
  Some (SFdiv 53 1024 sum (binary_normalize 53 1024 e_bits 0 false)).

(** Format 0 and format 1A have the same size and are told apart by a bit. *)
Definition differentiate (cfg : srsran_dci_cfg_t) (payload : list Z) (f : srsran_dci_format_t) : option srsran_dci_format_t :=
  match f with
  | SRSRAN_DCI_FORMAT0 | SRSRAN_DCI_FORMAT1A =>
      b ← zget payload (if cif_enabled cfg then 3 else 0); Some (if b =? 0 then SRSRAN_DCI_FORMAT0 else SRSRAN_DCI_FORMAT1A)
  | _ => Some f
  end.

Definition with_decoded (payload : list Z) (nof_bits rnti : Z) (f : srsran_dci_format_t) (msg : srsran_dci_msg_t) : srsran_dci_msg_t :=
  DciMessage payload nof_bits (m_location msg) f rnti (m_decode_prob msg) (m_corr msg).

(** Is the location in the control region of the subframe? *)
Definition location_fits (q : pdcch_coder_t) (sf : srsran_dl_sf_cfg_t) (msg : srsran_dci_msg_t) : option bool :=
  n ← srsran_pdcch_get_nof_cce_yx q (cfi sf);
  Some (negb (n * 72 <? loc_ncce (m_location msg) * 72 + PDCCH_FORMAT_NOF_BITS (loc_L (m_location msg)))).

Definition srsran_pdcch_decode_msg (q : pdcch_coder_t) (sf : srsran_dl_sf_cfg_t) (dci_cfg : srsran_dci_cfg_t) (msg : srsran_dci_msg_t)
  : option (Z * pdcch_coder_t * srsran_dci_msg_t) :=
  if srsran_dci_location_isvalid (m_location msg) then
    fits ← location_fits q sf msg;
    if negb fits then Some (SRSRAN_ERROR_INVALID_INPUTS, q, msg)
    else
      let ncce := loc_ncce (m_location msg) in
      let e_bits := PDCCH_FORMAT_NOF_BITS (loc_L (m_location msg)) in
      nof_bits ← srsran_dci_format_sizeof (pc_cell q) (Some sf) (Some dci_cfg) (m_format msg);
      mean ← mean_abs q ncce e_bits;
      if SFltb (f64_of_f32 LLR_RATIO) mean then
        '(ret, q, payload, rnti) ← srsran_pdcch_dci_decode q (drop (Z.to_nat (ncce * 72)) (pc_llr q)) (m_payload msg) e_bits nof_bits (m_rnti msg);
        if ret =? SRSRAN_SUCCESS then
          f ← differentiate dci_cfg payload (m_format msg); Some (ret, q, with_decoded payload nof_bits rnti f msg)
        else Some (ret, q, with_decoded payload (m_nof_bits msg) rnti (m_format msg) msg)
      else Some (SRSRAN_SUCCESS, q, msg)
  else Some (SRSRAN_ERROR_INVALID_INPUTS, q, msg).

Definition srsran_pdcch_decode_msg_yx (mem : Z -> list Z) (q : pdcch_coder_t) (sf : srsran_dl_sf_cfg_t) (dci_cfg : srsran_dci_cfg_t)
    (msg : srsran_dci_msg_t) (prob : float32) : option (Z * pdcch_coder_t * srsran_dci_msg_t * float32) :=
  if srsran_dci_location_isvalid (m_location msg) then
    fits ← location_fits q sf msg;
    if negb fits then Some (SRSRAN_ERROR_INVALID_INPUTS, q, msg, prob)
    else
      let ncce := loc_ncce (m_location msg) in
      let e_bits := PDCCH_FORMAT_NOF_BITS (loc_L (m_location msg)) in
      nof_bits ← srsran_dci_format_sizeof (pc_cell q) (Some sf) (Some dci_cfg) (m_format msg);
      mean ← mean_abs q ncce e_bits;
      if SFltb (f64_of_f32 LLR_RATIO) mean then
        '(ret, q, payload, rnti, decode_prob) ← srsran_pdcch_dci_decode_yx mem q (drop (Z.to_nat (ncce * 72)) (pc_llr q)) (m_payload msg) e_bits nof_bits (m_rnti msg) f32_0;
        if ret =? SRSRAN_SUCCESS then
          f ← differentiate dci_cfg payload (m_format msg); Some (ret, q, with_decoded payload nof_bits rnti f msg, decode_prob)
        else Some (ret, q, with_decoded payload (m_nof_bits msg) rnti (m_format msg) msg, prob)
      else Some (SRSRAN_SUCCESS, q, msg, prob)
  else Some (SRSRAN_ERROR_INVALID_INPUTS, q, msg, prob).

(** ** Frames *)

Definition checksum16 (b : list bool) : Z := crc_bits 16 SRSRAN_LTE_CRC16 0 b.

(** The data and their checksum, masked with the RNTI. *)
Definition frame (b : list bool) (rnti : Z) : list bool := b ++ msb_bits 16 (Z.lxor (checksum16 b) rnti).

Lemma zlen_frame b rnti : zlen (frame b rnti) = zlen b + 16.
Proof. unfold frame. by rewrite zlen_app, zlen_msb. Qed.

Lemma checksum16_range b : 0 <= checksum16 b < 2 ^ 16.
Proof. apply (crc_bits_range 16 SRSRAN_LTE_CRC16); lia. Qed.

Lemma zlen_bytes_of_bits b : zlen (bytes_of_bits b) = zlen b.
Proof. unfold bytes_of_bits. apply zlen_fmap. Qed.

Lemma drop_bytes n b rest : zlen b = n -> drop (Z.to_nat n) (bytes_of_bits b ++ rest) = rest.
Proof. intros <-. rewrite drop_app_length'; [done |]. unfold bytes_of_bits, zlen. rewrite length_fmap. lia. Qed.

Lemma nth_msb n v k : 0 <= k < n -> nth_bit (msb_bits n v) k = Z.testbit v (n - 1 - k).
Proof.
  intros Hk. unfold nth_bit, msb_bits. rewrite list_lookup_fmap, lookup_seqZ_lt by lia. cbn. f_equal. lia.
Qed.

Lemma nth_app_r b c k : zlen b <= k -> nth_bit (b ++ c) k = nth_bit c (k - zlen b).
Proof. intros Hk. unfold nth_bit, zlen in *. rewrite lookup_app_r by lia. do 2 f_equal. lia. Qed.

Lemma nth_app_l b c k : 0 <= k < zlen b -> nth_bit (b ++ c) k = nth_bit b k.
Proof. intros Hk. unfold nth_bit, zlen in *. by rewrite lookup_app_l by lia. Qed.

(** The mask is added to the checksum. *)
Lemma mask_spec b c rnti rest : crc_set_mask_rnti (bytes_of_bits (b ++ msb_bits 16 c) ++ rest) (zlen b) rnti
  = Some (bytes_of_bits (b ++ msb_bits 16 (Z.lxor c rnti)) ++ rest).
Proof.
  unfold crc_set_mask_rnti. pose proof (emits_bits 16 rnti ltac:(lia) [] (replicate 16 0) [] eq_refl) as Em. cbn [app] in Em.
  change (zlen (@nil Z)) with 0 in Em. rewrite app_nil_r, fill_bits, app_nil_r in Em by (done || lia). rewrite Em. cbn [mbind option_bind]. clear Em.
  pose proof (zlen_nonneg b) as Hb.
  loop_inv (fun i t => zlen t = zlen (bytes_of_bits (b ++ msb_bits 16 c) ++ rest) /\
    forall k, zget t k = if (zlen b <=? k) && (k <? zlen b + i) then Some (Z.b2z (Z.testbit (Z.lxor c rnti) (15 - (k - zlen b))))
      else zget (bytes_of_bits (b ++ msb_bits 16 c) ++ rest) k) as (t & -> & Hl & Ht).
  - lia.
  - split; [done |]. intros k. destruct (Z.leb_spec (zlen b) k), (Z.ltb_spec k (zlen b + 0)); done || lia.
  - intros i t Hi [Hl Ht]. rewrite Ht. destruct (Z.leb_spec (zlen b) (zlen b + i)), (Z.ltb_spec (zlen b + i) (zlen b + i)); try lia. cbn [andb].
    unfold bytes_of_bits. rewrite zget_bits by (rewrite zlen_app, zlen_msb by lia; lia). cbn [mbind option_bind].
    rewrite nth_app_r, nth_msb by lia. replace (zlen b + i - zlen b) with i by lia. change (16 - 1 - i) with (15 - i).
    pose proof (zget_bits (msb_bits 16 rnti) [] i) as Er. rewrite app_nil_r in Er. rewrite Er by (rewrite zlen_msb; lia). cbn [mbind option_bind].
    rewrite nth_msb by lia. change (16 - 1 - i) with (15 - i).
    assert (u8 ((Z.b2z (Z.testbit c (15 - i)) + Z.b2z (Z.testbit rnti (15 - i))) mod 2) = Z.b2z (Z.testbit (Z.lxor c rnti) (15 - i))) as ->.
    { rewrite Z.lxor_spec. by destruct (Z.testbit c (15 - i)), (Z.testbit rnti (15 - i)). }
    rewrite zset_in by (unfold in_range; rewrite Hl, zlen_app, zlen_bytes_of_bits, zlen_app, zlen_msb by lia; pose proof (zlen_nonneg rest); lia).
    eexists. split; [reflexivity |]. split; [by rewrite zlen_insert |]. intros k. destruct (Z.eqb_spec k (zlen b + i)) as [-> |].
    + rewrite zget_insert_eq by (unfold in_range; rewrite Hl, zlen_app, zlen_bytes_of_bits, zlen_app, zlen_msb by lia; pose proof (zlen_nonneg rest); lia).
      destruct (Z.leb_spec (zlen b) (zlen b + i)), (Z.ltb_spec (zlen b + i) (zlen b + (i + 1))); try lia. cbn [andb]. do 3 f_equal. lia.
    + destruct (Z.ltb_spec k 0).
      * destruct (Z.leb_spec (zlen b) k); [lia |]. cbn [andb]. by rewrite !zget_none by (unfold in_range; lia).
      * rewrite zget_insert_ne by lia. rewrite Ht. destruct (Z.leb_spec (zlen b) k), (Z.ltb_spec k (zlen b + i)), (Z.ltb_spec k (zlen b + (i + 1))); done || lia.
  - f_equal. apply list_eq. intros j. specialize (Ht (Z.of_nat j)). rewrite !zget_lookup, Nat2Z.id in Ht by lia. rewrite Ht. clear Ht.
    unfold bytes_of_bits, zlen. destruct (Z.leb_spec (Z.of_nat (length b)) (Z.of_nat j)).
    + destruct (Z.ltb_spec (Z.of_nat j) (Z.of_nat (length b) + 16)); cbn [andb].
      * rewrite lookup_app_l by (rewrite length_fmap, length_app; unfold msb_bits; rewrite length_fmap, length_seqZ; lia).
        rewrite list_lookup_fmap, lookup_app_r by lia. unfold msb_bits. rewrite list_lookup_fmap, lookup_seqZ_lt by lia. cbn. do 3 f_equal. lia.
      * rewrite !lookup_app_r by (rewrite length_fmap, length_app; unfold msb_bits; rewrite length_fmap, length_seqZ; lia).
        rewrite !length_fmap, !length_app. unfold msb_bits. by rewrite !length_fmap.
    + cbn [andb]. rewrite !lookup_app_l by (rewrite length_fmap, length_app; lia). rewrite !list_lookup_fmap. by rewrite !lookup_app_l by lia.
Qed.

(** ** What is sent *)

(** What the functions rely on of the object. *)
Record coder_ok (q : pdcch_coder_t) : Prop := CoderOk {
  co_crc : is_crc 16 SRSRAN_LTE_CRC16 (pc_crc q);
  co_tab : pc_tab q = lte_tab;
  co_decoder : decoder_ok (SRSRAN_DCI_MAX_BITS + 16) (pc_decoder q)
}.

(** Arrays of the stack have the size they are declared with. *)
Definition sized (mem : Z -> list Z) : Prop := forall n, 0 <= n -> zlen (mem n) = n.

(** Attaching, masking and coding. *)
Lemma coded_frame h b rest rnti coded : is_crc 16 SRSRAN_LTE_CRC16 h -> 16 <= zlen rest -> zlen b <= SRSRAN_DCI_MAX_BITS ->
  3 * (zlen b + 16) <= zlen coded ->
  exists c h' data, srsran_crc_attach h (bytes_of_bits b ++ rest) (zlen b) = Some (c, data, h') /\ is_crc 16 SRSRAN_LTE_CRC16 h' /\
    crc_set_mask_rnti data (zlen b) rnti = Some (bytes_of_bits (frame b rnti) ++ drop 16 rest) /\
    srsran_convcoder_encode encoder (bytes_of_bits (frame b rnti) ++ drop 16 rest) coded (zlen b + 16)
      = Some (3 * (zlen b + 16), bytes_of_bits (codeword_of (frame b rnti)) ++ drop (Z.to_nat (3 * (zlen b + 16))) coded).
Proof.
  unfold SRSRAN_DCI_MAX_BITS. intros Hh Hr Hb Hc. destruct crc16_generator as [HL Hg Hodd].
  destruct (attach_bits 16 SRSRAN_LTE_CRC16 HL Hg Hodd h b rest Hh Hr) as (h' & E & Hh').
  eexists _, h', _. split; [exact E |]. split; [done |]. split; [by apply mask_spec |].
  pose proof (zlen_frame b rnti) as Hf. pose proof (zlen_nonneg b). rewrite <- Hf in *. apply encode_spec; lia.
Qed.

(** ** What is received *)

(** The last 16 bits of a frame, as a number. *)
Lemma pack_last w rest : 16 <= zlen w -> exists p, srsran_bit_pack 16 (bytes_of_bits w ++ rest) (zlen w - 16) = Some (p, zlen w) /\
  0 <= p < 2 ^ 16 /\ w = take (length w - 16) w ++ msb_bits 16 p.
Proof.
  intros Hw. destruct (pack_run_spec (fun k => nth_bit w (zlen w - 16 + k)) (bytes_of_bits w ++ rest) (zlen w - 16) 16) as (p & Ep & Hp & Hbits); [lia | |].
  { intros k Hk. unfold bytes_of_bits. apply zget_bits. lia. }
  exists p. split; [by replace (zlen w) with (zlen w - 16 + 16) at 2 by lia |]. split; [done |].
  rewrite (msb_bits_eq 16 p (drop (length w - 16) w)); [by rewrite take_drop | unfold zlen in *; rewrite length_drop; lia |].
  intros k Hk. rewrite Hbits by done. unfold nth_bit, zlen in *. rewrite lookup_drop. do 2 f_equal. lia.
Qed.

(** The RNTI that is left over is the one whose frame has been received. *)
Lemma frame_of_received w p : 16 <= zlen w -> w = take (length w - 16) w ++ msb_bits 16 p ->
  frame (take (length w - 16) w) (Z.lxor p (checksum16 (take (length w - 16) w))) = w.
Proof.
  intros Hw Ew. etransitivity; [| symmetry; exact Ew]. unfold frame. do 2 f_equal. rewrite (Z.lxor_comm p), <- Z.lxor_assoc, Z.lxor_nilpotent. apply Z.lxor_0_l.
Qed.

Lemma frame_parts b rnti : take (length (frame b rnti) - 16) (frame b rnti) = b.
Proof.
  pose proof (zlen_frame b rnti) as H. unfold zlen in H. replace (length (frame b rnti) - 16)%nat with (length b) by lia. apply take_app_length.
Qed.

Lemma msb_inj a b : 0 <= a < 2 ^ 16 -> 0 <= b < 2 ^ 16 -> msb_bits 16 a = msb_bits 16 b -> a = b.
Proof.
  intros Ha Hb E. apply Z.bits_inj'. intros i Hi. destruct (Z.ltb_spec i 16).
  - pose proof (nth_msb 16 a (15 - i) ltac:(lia)) as E1. pose proof (nth_msb 16 b (15 - i) ltac:(lia)) as E2. rewrite E in E1.
    replace (16 - 1 - (15 - i)) with i in * by lia. congruence.
  - rewrite (proj2 (proj1 (below_pow2 a 16 ltac:(lia)) Ha)), (proj2 (proj1 (below_pow2 b 16 ltac:(lia)) Hb)) by lia. done.
Qed.

(** Where the decoder answers with a frame, the receiver answers with its RNTI. *)
Lemma decode_bits_spec q e data E n rm more w rest dec : coder_ok q -> 16 <= zlen w -> zlen w = n + 16 ->
  srsran_rm_conv_rx e E (replicate (Z.to_nat (3 * (SRSRAN_DCI_MAX_BITS + 16))) f32_0) (3 * (n + 16)) = Some (rm, more) ->
  srsran_viterbi_decode_f lte_tab (pc_decoder q) more data (n + 16) = Some (SRSRAN_DCI_MAX_BITS + 16, dec, bytes_of_bits w ++ rest) ->
  decoder_ok (SRSRAN_DCI_MAX_BITS + 16) dec ->
  exists q' rnti, dci_decode_bits q e data E n = Some (q', bytes_of_bits w ++ rest, rnti) /\ coder_ok q' /\
    pc_max_bits q' = pc_max_bits q /\ 0 <= rnti < 2 ^ 16 /\ frame (take (length w - 16) w) rnti = w.
Proof.
  intros [Hcrc Htab Hdec] Hw Hn Erm Edec Hok. unfold dci_decode_bits. rewrite Erm. cbn [mbind option_bind]. rewrite Htab, Edec. cbn [mbind option_bind].
  destruct (pack_last w rest Hw) as (p & Ep & Hp & Ew). replace (zlen w - 16) with n in Ep by lia. rewrite Ep. cbn [mbind option_bind].
  destruct crc16_generator as [HL Hg Hodd]. set (b := take (length w - 16) w) in *.
  assert (zlen b = n) as Hb by (unfold b, zlen in *; rewrite length_take; lia).
  destruct (checksum_bits 16 SRSRAN_LTE_CRC16 HL Hg Hodd (pc_crc q) b (bytes_of_bits (msb_bits 16 p) ++ rest) Hcrc) as (h' & Ec & Hh').
  assert (bytes_of_bits w ++ rest = (Z.b2z <$> b) ++ bytes_of_bits (msb_bits 16 p) ++ rest) as Esplit.
  { rewrite Ew at 1. unfold bytes_of_bits. by rewrite fmap_app, <- app_assoc. }
  rewrite Hb, <- Esplit in Ec. change (pc_crc (upd_decoder (upd_rm_f q more) dec)) with (pc_crc q) in *. rewrite Ec. cbn [mbind option_bind].
  pose proof (checksum16_range b) as Hc. unfold checksum16 in Hc. change 65535 with (Z.ones 16). rewrite Z.land_ones by lia.
  rewrite (uwrap_small 16 p), (Z.mod_small _ (2 ^ 16)), (uwrap_small 16 (crc_bits _ _ _ _)) by (unfold is_uint; lia).
  eexists _, _. split; [reflexivity |]. split; [by split |]. split; [done |]. split; [by apply lxor_range |]. by apply frame_of_received.
Qed.

(** ** How much agrees *)

(** Does the hard decision on bit [i] agree with the bit sent? *)
Definition agrees (e : list float32) (sent : list bool) (i : Z) : bool :=
  match zget e i with Some x => hard_bit x =? Z.b2z (nth_bit sent i) | None => false end.
Definition agreeing (e : list float32) (sent : list bool) : Z := zlen (filter (fun i => agrees e sent i = true) (seqZ 0 (zlen sent))).
Definition percent (n E : Z) : float32 := f32_div (f32_mul f32_100 (f32_of_int n)) (f32_of_int E).

Definition counts_exact (n : Z) : bool :=
  bool_decide (f32_add (f32_of_int n) (f32_of_int 0) = f32_of_int n) && bool_decide (f32_add (f32_of_int n) (f32_of_int 1) = f32_of_int (n + 1))
  && bool_decide (percent (n + 1) (n + 1) = f32_100).

Lemma counts_checked n : 0 <= n < MAX_COPIES -> counts_exact n = true.
Proof.
  assert (forallb counts_exact (seqZ 0 600) = true) as H by (by vm_compute).
  intros Hn. by apply (forallb_below 600 _ H).
Qed.

Lemma count_step n b : 0 <= n < MAX_COPIES -> f32_add (f32_of_int n) (f32_of_int (Z.b2z b)) = f32_of_int (n + Z.b2z b).
Proof.
  intros Hn. pose proof (counts_checked n Hn) as E. unfold counts_exact in E. rewrite !andb_true_iff, !bool_decide_eq_true in E.
  destruct E as [[E0 E1] _]. destruct b; cbn [Z.b2z]; [done | by rewrite Z.add_0_r].
Qed.

Lemma percent_all E : 1 <= E <= MAX_COPIES -> percent E E = f32_100.
Proof.
  intros HE. pose proof (counts_checked (E - 1) ltac:(lia)) as H. unfold counts_exact in H. rewrite !andb_true_iff, !bool_decide_eq_true in H.
  destruct H as [_ H]. by replace (E - 1 + 1) with E in H by lia.
Qed.

Lemma agreement_spec e sent rest : zlen sent <= MAX_COPIES -> zlen sent <= zlen e ->
  agreement e (bytes_of_bits sent ++ rest) (zlen sent) = Some (percent (agreeing e sent) (zlen sent)).
Proof.
  intros HE He. unfold agreement. pose proof (zlen_nonneg sent).
  loop_inv (fun i t => t = f32_of_int (zlen (filter (fun i => agrees e sent i = true) (seqZ 0 i)))) as (t & -> & ->); [lia | done | | done].
  intros i t Hi ->. destruct (zget_some e i) as [x Ex]; [unfold in_range; lia |]. rewrite Ex. cbn [mbind option_bind].
  unfold bytes_of_bits. rewrite zget_bits by lia. cbn [mbind option_bind]. eexists. split; [reflexivity |].
  assert (zlen (filter (fun i => agrees e sent i = true) (seqZ 0 i)) <= i) as Hle.
  { unfold zlen. pose proof (length_filter (fun i => agrees e sent i = true) (seqZ 0 i)) as Hf. rewrite length_seqZ in Hf. lia. }
  rewrite count_step by (pose proof (zlen_nonneg (filter (fun i => agrees e sent i = true) (seqZ 0 i))); lia).
  rewrite seqZ_snoc, filter_app by lia. f_equal. rewrite zlen_app. f_equal. rewrite filter_cons, filter_nil. unfold agrees. rewrite Ex.
  destruct (hard_bit x =? Z.b2z (nth_bit sent i)); by rewrite ?decide_True, ?decide_False by done.
Qed.

(** Clean soft bits agree everywhere. *)
Lemma hard_soft b : hard_bit (soft_f 1 b) = Z.b2z b.
Proof. destruct b; by vm_compute. Qed.

Lemma agreeing_clean sent more : agreeing ((soft_f 1 <$> sent) ++ more) sent = zlen sent.
Proof.
  unfold agreeing. assert (forall l, (forall i, i ∈ l -> 0 <= i < zlen sent) ->
    filter (fun i => agrees ((soft_f 1 <$> sent) ++ more) sent i = true) l = l) as ->.
  - induction l as [| i l IH]; intros Hl; [done |]. rewrite filter_cons_True; [f_equal; apply IH; intros; apply Hl; by right |].
    specialize (Hl i ltac:(left)). unfold agrees. rewrite zget_lookup by lia. unfold zlen in Hl.
    rewrite lookup_app_l, list_lookup_fmap by (rewrite ?length_fmap; lia). unfold nth_bit.
    destruct (lookup_lt_is_Some_2 sent (Z.to_nat i)) as [b ->]; [lia |]. cbn [fmap option_fmap option_map from_option id]. rewrite hard_soft. by destruct b.
  - unfold zlen. rewrite length_seqZ. lia.
  - intros i Hi%elem_of_seqZ. lia.
Qed.

(** ** What the decoder answers with *)

Lemma foldM_preserves {A S} (P : S -> Prop) (f : S -> A -> option S) l : (forall s x s', P s -> f s x = Some s' -> P s') ->
  forall s s', P s -> foldM f s l = Some s' -> P s'.
Proof.
  intros Hf. induction l as [| x l IH]; intros s s' Hs E; cbn [foldM] in E; [by injection E as <- |].
  destruct (f s x) as [t |] eqn:Et; [| done]. by eapply IH, E; eapply Hf.
Qed.

Lemma quant_bytes xs out gain offset len out' : Forall byte out -> srsran_vec_quant_fuc xs out gain offset 255 len = Some out' ->
  Forall byte out' /\ zlen out' = zlen out.
Proof.
  intros Hb. unfold srsran_vec_quant_fuc, for_range.
  apply (foldM_preserves (fun t => Forall byte t /\ zlen t = zlen out)); [| by split].
  intros s x s' [Hs Hl] E. destruct (zget xs x) as [y |]; [| done]. cbn [mbind option_bind] in E.
  destruct (s32_of_f32 _) as [t |]; [| done]. cbn [mbind option_bind] in E. apply zset_inv in E as [Hr ->]. split; [| by rewrite zlen_insert].
  apply Forall_insert; [done |]. unfold quantised, byte. rewrite uwrap_small; unfold is_uint; lia.
Qed.

Lemma decode_f_bits fb q symbols data F c q' data' : decoder_ok fb q -> 0 < F <= fb -> F <= zlen data ->
  srsran_viterbi_decode_f lte_tab q symbols data F = Some (c, q', data') ->
  c = fb /\ decoder_ok fb q' /\ exists w, zlen w = F /\ data' = bytes_of_bits w ++ drop (Z.to_nat F) data.
Proof.
  intros Hq HF Hd. pose proof Hq as [[_ Hfb _ _ Huc Hby] Hb Ht Hg]. unfold srsran_viterbi_decode_f. rewrite Hb. destruct (Z.ltb_spec fb F); [lia |].
  destruct (srsran_vec_max_abs_fi _ _) as [i |]; [| done]. cbn [mbind option_bind].
  match goal with |- context [option_bind _ _ ?k ?o] => destruct o as [m |]; [| done] | |- context [?o ≫= ?k] => destruct o as [m |]; [| done] end.
  cbn [mbind option_bind]. destruct (srsran_vec_quant_fuc _ _ _ _ _ _) as [uc |] eqn:Eq; [| done]. cbn [mbind option_bind].
  apply quant_bytes in Eq as [Hub Hul]; [| done]. pose proof (with_symbols_ok fb q uc Hub Hul Hq) as Hq1.
  destruct (decode37_spec (with_symbols q uc) uc data F (do_ok _ _ Hq1)) as (vp & tmp & y & E & Hok & _); [| done | | done |].
  { rewrite (do_bits _ _ Hq1). lia. }
  { unfold symbols_of. change (vi_tail_biting (with_symbols q uc)) with (vi_tail_biting q). rewrite Ht, Hul, Huc. lia. }
  unfold srsran_viterbi_decode_uc. rewrite E, (do_bits _ _ Hq1). intros [= <- <- <-]. split; [done |]. split; [by split; [| apply Hq1..] |].
  exists ((fun i => y (first_of (vi_tail_biting (with_symbols q uc)) F + i)) <$> seqZ 0 F). split; [unfold zlen; rewrite length_fmap, length_seqZ; lia |].
  unfold upto, bytes_of_bits. by rewrite <- list_fmap_compose.
Qed.

(** ** A message is received *)

(** The bits that are sent of a frame, wherever they are written. *)
Definition transmitted (w : list bool) (E : Z) (sent : list bool) : Prop :=
  zlen sent = E /\ forall rest out, E <= zlen out ->
    srsran_rm_conv_tx (bytes_of_bits (codeword_of w) ++ rest) (3 * zlen w) out E = Some (0, bytes_of_bits sent ++ drop (Z.to_nat E) out).

Lemma zlen_codeword w : zlen (codeword_of w) = 3 * zlen w.
Proof. unfold codeword_of, zlen. rewrite length_fmap, length_seqZ. lia. Qed.

Lemma transmission w E : 2 <= zlen w <= 1024 -> 0 <= E <= MAX_COPIES -> exists sent, transmitted w E sent /\
  forall more output, 3 * zlen w <= zlen output -> exists copies,
    srsran_rm_conv_rx ((soft_f 1 <$> sent) ++ more) E output (3 * zlen w)
      = Some (0, upto (fun c => soft_f (copies c) (nth_bit (codeword_of w) c)) (3 * zlen w) output) /\
    forall c, 0 <= c < 3 * zlen w -> E / (3 * zlen w) <= copies c <= E / (3 * zlen w) + 1.
Proof.
  intros Hw HE. set (out := replicate (Z.to_nat E) 0). assert (E <= zlen out) as Ho by (unfold out, zlen; rewrite length_replicate; lia).
  destruct (rate_matching_spec (zlen w) (codeword_of w) [] E out Hw (zlen_codeword w) HE Ho) as (sent & Et & Hl & Hrx & _).
  exists sent. split; [| exact Hrx]. split; [done |]. intros rest out2 Ho2.
  destruct (rate_matching_spec (zlen w) (codeword_of w) rest E out2 Hw (zlen_codeword w) HE Ho2) as (sent2 & Et2 & Hl2 & _).
  by rewrite <- (sent_unique (zlen w) (codeword_of w) E [] rest out out2 sent Hw (zlen_codeword w) Hl Ho Ho2 Et sent2 Hl2 Et2).
Qed.

(** Once the bits are decoded, they are coded again and compared with what has been received. *)
Lemma decode_yx_frame mem q e data E n crc prob q' b rnti sent rest : sized mem -> E <= pc_max_bits q -> zlen b = n -> n <= SRSRAN_DCI_MAX_BITS ->
  0 < E <= MAX_COPIES -> E <= zlen e -> dci_decode_bits q e data E n = Some (q', bytes_of_bits (frame b rnti) ++ rest, rnti) -> coder_ok q' ->
  transmitted (frame b rnti) E sent ->
  exists q'', srsran_pdcch_dci_decode_yx mem q e data E n crc prob
      = Some (SRSRAN_SUCCESS, q'', bytes_of_bits (frame b rnti) ++ rest, rnti, percent (agreeing e sent) E) /\ coder_ok q'' /\ pc_max_bits q'' = pc_max_bits q'.
Proof.
  intros Hmem HEm Hb Hn HE He Edec [Hcrc Htab Hdec] [Hsl Hsent]. pose proof (zlen_nonneg b). unfold SRSRAN_DCI_MAX_BITS in *. unfold srsran_pdcch_dci_decode_yx.
  destruct (Z.leb_spec E (pc_max_bits q)), (Z.leb_spec n SRSRAN_DCI_MAX_BITS); unfold SRSRAN_DCI_MAX_BITS in *; try lia. cbn [andb].
  rewrite Edec. cbn [mbind option_bind]. pose proof (Hmem (128 + 16) ltac:(lia)) as Hm1. pose proof (Hmem (3 * (128 + 16)) ltac:(lia)) as Hm2.
  pose proof (Hmem (10 * (128 + 16)) ltac:(lia)) as Hm3. pose proof (zlen_frame b rnti) as Hf. pose proof (zlen_nonneg rest).
  rewrite memcpy_upto by (rewrite ?zlen_app, ?zlen_bytes_of_bits; lia). cbn [mbind option_bind].
  assert (upto (fun i => default 0 (zget (bytes_of_bits (frame b rnti) ++ rest) (0 + i))) n (mem (128 + 16)) = bytes_of_bits b ++ drop (Z.to_nat n) (mem (128 + 16))) as ->.
  { unfold upto. f_equal. unfold bytes_of_bits. apply list_eq. intros i. rewrite !list_lookup_fmap. destruct (b !! i) as [x |] eqn:Ex.
    - apply lookup_lt_Some in Ex as Hi. unfold zlen in *. rewrite lookup_seqZ_lt by lia. cbn. rewrite zget_bits by (unfold zlen; lia). cbn. unfold nth_bit.
      replace (Z.to_nat (0 + (0 + Z.of_nat i))) with i by lia. unfold frame. by rewrite lookup_app_l, Ex by done.
    - apply lookup_ge_None in Ex. unfold zlen in *. rewrite lookup_seqZ_ge by lia. done. }
  destruct (coded_frame (pc_crc q') b (drop (Z.to_nat n) (mem (128 + 16))) rnti (mem (3 * (128 + 16)))) as (c & h & d & Ea & Hh & Emask & Eenc);
    [done | unfold zlen in *; rewrite length_drop; lia | unfold SRSRAN_DCI_MAX_BITS; lia | lia |].
  rewrite Hb in *. rewrite Ea. cbn [mbind option_bind]. rewrite Emask. cbn [mbind option_bind]. rewrite Eenc. cbn [mbind option_bind].
  specialize (Hsent (drop (Z.to_nat (3 * (n + 16))) (mem (3 * (128 + 16)))) (mem (10 * (128 + 16))) ltac:(unfold MAX_COPIES in *; lia)).
  rewrite Hf in Hsent. rewrite Hsent. cbn [mbind option_bind].
  pose proof (agreement_spec e sent (drop (Z.to_nat E) (mem (10 * (128 + 16)))) ltac:(lia) ltac:(lia)) as Eag. rewrite Hsl in Eag. rewrite Eag. cbn [mbind option_bind].
  eexists. split; [reflexivity |]. split; [by split | done].
Qed.

Lemma decode_clean q b rnti E sent more data : coder_ok q -> 8 <= zlen b <= SRSRAN_DCI_MAX_BITS -> 0 <= rnti < 2 ^ 16 -> zlen b + 16 <= zlen data ->
  3 * (zlen b + 16) <= E <= MAX_COPIES -> transmitted (frame b rnti) E sent ->
  exists q', dci_decode_bits q ((soft_f 1 <$> sent) ++ more) data E (zlen b)
      = Some (q', bytes_of_bits (frame b rnti) ++ drop (length (frame b rnti)) data, rnti) /\ coder_ok q' /\ pc_max_bits q' = pc_max_bits q.
Proof.
  intros Hq Hb Hr Hd HE Hsent. pose proof (zlen_frame b rnti) as Hf. unfold MAX_COPIES, SRSRAN_DCI_MAX_BITS in *.
  destruct (transmission (frame b rnti) E) as (sent' & Hsent' & Hrx); [lia | unfold MAX_COPIES; lia |].
  assert (sent' = sent) as ->.
  { destruct Hsent as [H1 H2], Hsent' as [H3 H4]. set (out := replicate (Z.to_nat E) 0).
    assert (E <= zlen out) as Ho by (unfold out, zlen; rewrite length_replicate; lia). specialize (H2 [] out Ho). specialize (H4 [] out Ho).
    apply (sent_unique (zlen (frame b rnti)) (codeword_of (frame b rnti)) E [] [] out out); try done; [lia | apply zlen_codeword]. }
  set (out := replicate (Z.to_nat (3 * (SRSRAN_DCI_MAX_BITS + 16))) f32_0). assert (zlen out = 432) as Ho by done.
  destruct (Hrx more out ltac:(lia)) as (copies & Erm & Hc). set (k := E / (3 * zlen (frame b rnti))) in *.
  assert (1 <= k < 600) as Hk by (unfold k; split; [apply Z.div_le_lower_bound; lia | apply Z.div_lt_upper_bound; lia]).
  pose proof (co_decoder _ Hq) as Hdec.
  destruct (soft_frame_received (SRSRAN_DCI_MAX_BITS + 16) (pc_decoder q) (upto (fun c => soft_f (copies c) (nth_bit (codeword_of (frame b rnti)) c)) (3 * zlen (frame b rnti)) out)
    data (frame b rnti) copies k Hdec) as (dec & Ed & Hdec'); [unfold SRSRAN_DCI_MAX_BITS; lia | lia | | unfold MAX_COPIES; lia |].
  { intros c Hcc. split; [| by apply Hc].
    exact (zget_upto (fun c => soft_f (copies c) (nth_bit (codeword_of (frame b rnti)) c)) _ out c Hcc). }
  rewrite Hf in Erm, Ed. unfold out in *.
  destruct (decode_bits_spec q ((soft_f 1 <$> sent) ++ more) data E (zlen b) _ _ (frame b rnti) _ dec Hq ltac:(lia) Hf Erm Ed Hdec') as (q' & r & Edec & Hq' & Hm & Hr' & Hfr).
  assert (r = rnti) as ->; [| by exists q'].
  rewrite frame_parts in Hfr. unfold frame in Hfr. apply app_inv_head in Hfr. pose proof (checksum16_range b) as Hck.
  apply msb_inj in Hfr; [| by apply lxor_range..].
  assert (Z.lxor (checksum16 b) (Z.lxor (checksum16 b) r) = Z.lxor (checksum16 b) (Z.lxor (checksum16 b) rnti)) as E2 by (by rewrite Hfr).
  by rewrite <- !Z.lxor_assoc, !Z.lxor_nilpotent, !Z.lxor_0_l in E2.
Qed.

Lemma encode_frame mem q b rest e E rnti : sized mem -> coder_ok q -> zlen b < SRSRAN_DCI_MAX_BITS -> 16 <= zlen rest -> 0 <= E <= MAX_COPIES -> E < pc_max_bits q -> E <= zlen e ->
  exists sent q', srsran_pdcch_dci_encode mem q (bytes_of_bits b ++ rest) e (zlen b) E rnti
      = Some (SRSRAN_SUCCESS, q', bytes_of_bits (frame b rnti) ++ drop 16 rest, bytes_of_bits sent ++ drop (Z.to_nat E) e) /\
    transmitted (frame b rnti) E sent /\ coder_ok q'.
Proof.
  intros Hmem [Hcrc Htab Hdec] Hb Hr HE HEm He. pose proof (zlen_nonneg b). pose proof (zlen_frame b rnti) as Hf. unfold SRSRAN_DCI_MAX_BITS in *.
  destruct (transmission (frame b rnti) E) as (sent & Hsent & _); [lia | done |].
  unfold srsran_pdcch_dci_encode. destruct (Z.ltb_spec (zlen b) SRSRAN_DCI_MAX_BITS), (Z.ltb_spec E (pc_max_bits q)); unfold SRSRAN_DCI_MAX_BITS in *; try lia. cbn [andb].
  pose proof (Hmem (3 * (128 + 16)) ltac:(lia)) as Hm. unfold srsran_pdcch_dci_encode_conv.
  destruct (coded_frame (pc_crc q) b rest rnti (mem (3 * (128 + 16)))) as (c & h & d & Ea & Hh & Emask & Eenc); [done | done | unfold SRSRAN_DCI_MAX_BITS; lia | lia |].
  rewrite Ea. cbn [mbind option_bind]. rewrite Emask. cbn [mbind option_bind]. rewrite Eenc. cbn [mbind option_bind].
  destruct Hsent as [Hsl Hsent]. pose proof (Hsent (drop (Z.to_nat (3 * (zlen b + 16))) (mem (3 * (128 + 16)))) e He) as Etx. rewrite Hf in Etx. rewrite Etx. cbn [mbind option_bind].
  exists sent. eexists. split; [reflexivity |]. split; [by split | by split].
Qed.

(** C14: NG-Scope's receiver answers as the one it was made from, and the figure that it adds
    is the share of the bits received that agree with the codeword, once more rate matched, of
    the very frame whose data and RNTI it reports. *)
Theorem probability_is_agreement mem q e data E n crc q1 data1 crc1 prob :
  sized mem -> coder_ok q -> 0 <= n <= SRSRAN_DCI_MAX_BITS -> n + 16 <= zlen data -> 0 < E <= MAX_COPIES -> E <= zlen e ->
  srsran_pdcch_dci_decode q e data E n crc = Some (SRSRAN_SUCCESS, q1, data1, crc1) ->
  exists b sent q2, zlen b = n /\ data1 = bytes_of_bits (frame b crc1) ++ drop (Z.to_nat (n + 16)) data /\ transmitted (frame b crc1) E sent /\
    srsran_pdcch_dci_decode_yx mem q e data E n crc prob = Some (SRSRAN_SUCCESS, q2, data1, crc1, percent (agreeing e sent) E).
Proof.
  intros Hmem Hq Hn Hd HE He. unfold srsran_pdcch_dci_decode. destruct (Z.leb_spec E (pc_max_bits q)) as [HEm |]; [| done].
  destruct (Z.leb_spec n SRSRAN_DCI_MAX_BITS); [| lia]. cbn [andb]. destruct (dci_decode_bits q e data E n) as [[[q' d] r] |] eqn:Edec; [| done].
  cbn [mbind option_bind]. intros [= <- <- <-].
  pose proof Edec as Edec0. unfold dci_decode_bits in Edec. destruct (srsran_rm_conv_rx _ _ _ _) as [[rm more] |] eqn:Erm; [| done]. cbn [mbind option_bind] in Edec.
  rewrite (co_tab _ Hq) in Edec. destruct (srsran_viterbi_decode_f _ _ _ _ _) as [[[c dec] d1] |] eqn:Ev; [| done]. clear Edec.
  apply (decode_f_bits (SRSRAN_DCI_MAX_BITS + 16)) in Ev as Hv; [| apply Hq | unfold SRSRAN_DCI_MAX_BITS in *; lia | lia].
  destruct Hv as (-> & Hdec & w & Hw & ->).
  destruct (decode_bits_spec q e data E n rm more w _ dec Hq ltac:(lia) Hw Erm Ev Hdec) as (q'' & rnti & E2 & Hq'' & Hm & Hr & Hfr).
  rewrite E2 in Edec0. injection Edec0 as <- <- <-. set (b := take (length w - 16) w) in *.
  assert (zlen b = n) as Hb by (unfold b, zlen in *; rewrite length_take; lia).
  destruct (transmission (frame b rnti) E) as (sent & Hsent & _); [rewrite Hfr; unfold SRSRAN_DCI_MAX_BITS in *; lia | lia |].
  rewrite <- Hfr in E2.
  destruct (decode_yx_frame mem q e data E n crc prob q'' b rnti sent _ Hmem HEm Hb ltac:(lia) HE He E2 Hq'' Hsent) as (q2 & E3 & _).
  exists b, sent, q2. rewrite Hfr in *. by split_and!.
Qed.

(** C3: what one side sends to a user, the other receives: from clean soft bits, enough of
    them for every bit of the codeword, NG-Scope's receiver gets the data and the RNTI, in full
    agreement, whatever the decoder and the arrays held before. *)
Theorem pdcch_transmits mem mem' q q' b rest e E rnti more data crc prob :
  sized mem -> sized mem' -> coder_ok q -> coder_ok q' -> 8 <= zlen b < SRSRAN_DCI_MAX_BITS -> 16 <= zlen rest -> 0 <= rnti < 2 ^ 16 ->
  3 * (zlen b + 16) <= E <= MAX_COPIES -> E < pc_max_bits q -> E <= pc_max_bits q' -> E <= zlen e -> zlen b + 16 <= zlen data ->
  exists sent q1 q2,
    srsran_pdcch_dci_encode mem q (bytes_of_bits b ++ rest) e (zlen b) E rnti
      = Some (SRSRAN_SUCCESS, q1, bytes_of_bits (frame b rnti) ++ drop 16 rest, bytes_of_bits sent ++ drop (Z.to_nat E) e) /\ coder_ok q1 /\ zlen sent = E /\
    srsran_pdcch_dci_decode_yx mem' q' ((soft_f 1 <$> sent) ++ more) data E (zlen b) crc prob
      = Some (SRSRAN_SUCCESS, q2, bytes_of_bits (frame b rnti) ++ drop (length b + 16) data, rnti, f32_100) /\ coder_ok q2.
Proof.
  intros Hmem Hmem' Hq Hq' Hb Hr Hrn HE HEm HEm' He Hd.
  destruct (encode_frame mem q b rest e E rnti Hmem Hq) as (sent & q1 & Eenc & Hsent & Hq1); [lia | done | lia | done | done |].
  destruct (decode_clean q' b rnti E sent more data Hq' ltac:(lia) Hrn Hd HE Hsent) as (q2 & Edec & Hq2 & Hm).
  pose proof (proj1 Hsent) as Hsl.
  destruct (decode_yx_frame mem' q' ((soft_f 1 <$> sent) ++ more) data E (zlen b) crc prob q2 b rnti sent (drop (length (frame b rnti)) data) Hmem' HEm' eq_refl) as (q3 & E3 & Hq3 & _);
    [lia | lia | rewrite zlen_app, zlen_fmap; pose proof (zlen_nonneg more); lia | exact Edec | done | done |].
  exists sent, q1, q3. split; [done |]. split; [done |]. split; [done |]. split; [| done].
  rewrite E3, agreeing_clean, Hsl, percent_all by lia. do 5 f_equal. pose proof (zlen_frame b rnti) as Hf. f_equal. unfold zlen in Hf. lia.
Qed.

(** ** A message at a location *)

Definition f64_of_int (n : Z) : spec_float := binary_normalize 53 1024 n 0 false.

Definition sums_exact_64 (n : Z) : bool :=
  bool_decide (SFadd 53 1024 (f64_of_int n) (f64_of_int 1) = f64_of_int (n + 1)) && SFltb (f64_of_f32 LLR_RATIO) (SFdiv 53 1024 (f64_of_int (n + 1)) (f64_of_int (n + 1))).

Lemma sums_64_checked n : 0 <= n < MAX_COPIES -> sums_exact_64 n = true.
Proof.
  assert (forallb sums_exact_64 (seqZ 0 600) = true) as H by (by vm_compute).
  intros Hn. by apply (forallb_below 600 _ H).
Qed.

(** Clean soft bits are loud enough. *)
Lemma mean_clean q ncce pre sent more : pc_llr q = pre ++ (soft_f 1 <$> sent) ++ more -> zlen pre = ncce * 72 -> 1 <= zlen sent <= MAX_COPIES ->
  exists mean, mean_abs q ncce (zlen sent) = Some mean /\ SFltb (f64_of_f32 LLR_RATIO) mean = true.
Proof.
  intros Hllr Hpre Hs. unfold mean_abs. pose proof (zlen_nonneg pre). change (binary_normalize 53 1024 (zlen sent) 0 false) with (f64_of_int (zlen sent)).
  loop_inv (fun i t => t = f64_of_int i) as (t & -> & ->); [lia | done | |].
  - intros i t Hi ->. rewrite Hllr, zget_lookup, lookup_app_r by (unfold zlen in *; lia). unfold zlen in *.
    rewrite lookup_app_l, list_lookup_fmap by (rewrite ?length_fmap; lia). destruct (lookup_lt_is_Some_2 sent (Z.to_nat (ncce * 72 + i) - length pre)) as [b ->]; [lia |].
    cbn [fmap option_fmap option_map mbind option_bind]. eexists. split; [reflexivity |].
    assert (f64_of_f32 (f32_abs (soft_f 1 b)) = f64_of_int 1) as -> by (destruct b; by vm_compute).
    pose proof (sums_64_checked i ltac:(lia)) as E. unfold sums_exact_64 in E. apply andb_true_iff in E as [E _]. by apply bool_decide_eq_true in E.
  - cbn [mbind option_bind]. eexists. split; [reflexivity |]. pose proof (sums_64_checked (zlen sent - 1) ltac:(lia)) as E. unfold sums_exact_64 in E.
    apply andb_true_iff in E as [_ E]. by replace (zlen sent - 1 + 1) with (zlen sent) in E by lia.
Qed.

Lemma nof_bits_of_level l : 0 <= l <= 3 -> 72 <= PDCCH_FORMAT_NOF_BITS l <= 576.
Proof. intros Hl. assert (l = 0 \/ l = 1 \/ l = 2 \/ l = 3) as [-> | [-> | [-> | ->]]] by lia; by vm_compute. Qed.

(** A frame sent at a location is decoded there. *)
Lemma decode_msg_clean mem q sf cfg msg prob b rnti sent pre more f :
  let E := PDCCH_FORMAT_NOF_BITS (loc_L (m_location msg)) in
  sized mem -> coder_ok q -> 0 <= loc_L (m_location msg) <= 3 -> 0 <= loc_ncce (m_location msg) <= 87 ->
  location_fits q sf msg = Some true -> srsran_dci_format_sizeof (pc_cell q) (Some sf) (Some cfg) (m_format msg) = Some (zlen b) ->
  8 <= zlen b <= SRSRAN_DCI_MAX_BITS -> zlen b + 16 <= zlen (m_payload msg) -> 0 <= rnti < 2 ^ 16 -> 3 * (zlen b + 16) <= E -> E <= pc_max_bits q ->
  transmitted (frame b rnti) E sent -> pc_llr q = pre ++ (soft_f 1 <$> sent) ++ more -> zlen pre = loc_ncce (m_location msg) * 72 ->
  let payload := bytes_of_bits (frame b rnti) ++ drop (length (frame b rnti)) (m_payload msg) in
  differentiate cfg payload (m_format msg) = Some f ->
  exists q', srsran_pdcch_decode_msg_yx mem q sf cfg msg prob = Some (SRSRAN_SUCCESS, q', with_decoded payload (zlen b) rnti f msg, f32_100) /\ coder_ok q'.
Proof.
  intros E Hmem Hq HL Hc Hfit Hsize Hb Hp Hrn HE HEm Hsent Hllr Hpre payload Hf. pose proof (nof_bits_of_level _ HL) as HE2. fold E in HE2.
  pose proof (proj1 Hsent) as Hsl. pose proof (zlen_nonneg more). unfold srsran_pdcch_decode_msg_yx, srsran_dci_location_isvalid.
  destruct (Z.leb_spec (loc_L (m_location msg)) 3), (Z.leb_spec (loc_ncce (m_location msg)) 87); try lia. cbn [andb].
  rewrite Hfit. cbn [mbind option_bind negb]. fold E. rewrite Hsize. cbn [mbind option_bind].
  destruct (mean_clean q (loc_ncce (m_location msg)) pre sent more Hllr Hpre) as (mean & Em & Hm); [unfold MAX_COPIES; lia |].
  rewrite Hsl in Em. rewrite Em. cbn [mbind option_bind]. rewrite Hm.
  assert (drop (Z.to_nat (loc_ncce (m_location msg) * 72)) (pc_llr q) = (soft_f 1 <$> sent) ++ more) as ->.
  { rewrite Hllr. apply drop_app_length'. unfold zlen in Hpre. lia. }
  destruct (decode_clean q b rnti E sent more (m_payload msg) Hq Hb Hrn Hp) as (q1 & Ed & Hq1 & _); [unfold MAX_COPIES; lia | done |].
  destruct (decode_yx_frame mem q ((soft_f 1 <$> sent) ++ more) (m_payload msg) E (zlen b) (m_rnti msg) f32_0 q1 b rnti sent
    (drop (length (frame b rnti)) (m_payload msg)) Hmem HEm eq_refl) as (q2 & E2 & Hq2 & _);
    [lia | unfold MAX_COPIES; lia | rewrite zlen_app, zlen_fmap; lia | exact Ed | done | done |].
  fold payload in E2. rewrite E2. cbn [mbind option_bind]. change (SRSRAN_SUCCESS =? SRSRAN_SUCCESS) with true. cbn iota. rewrite Hf. cbn [mbind option_bind].
  rewrite agreeing_clean, Hsl, percent_all by (unfold MAX_COPIES; lia). by exists q2.
Qed.

(** ** Witnesses *)

(** A new object, which knows no cell yet. *)
Definition fresh (q : pdcch_coder_t) : Prop :=
  nof_prb (pc_cell q) = 0 /\ zlen (pc_nof_regs q) = 3 /\ zlen (pc_nof_cce q) = 3 /\ zlen (pc_seq q) = 10 /\ Forall arrays_ok (pc_seq q).

Lemma pdcch_init_ok mem max_prb : (forall n, 0 <= n -> zlen (mem n) = n /\ Forall byte (mem n)) -> 0 <= max_prb <= 110 ->
  exists q, pdcch_init mem max_prb = Some (SRSRAN_SUCCESS, q) /\ coder_ok q /\ fresh q /\ pc_max_bits q = max_prb * 72.
Proof.
  intros Hmem Hp. unfold pdcch_init. destruct crc16_generator as [HL Hg _]. destruct (init_is_crc 16 SRSRAN_LTE_CRC16 HL Hg) as (h & -> & Hh). cbn [mbind option_bind].
  destruct (init_ok mem (SRSRAN_DCI_MAX_BITS + 16) Hmem ltac:(unfold SRSRAN_DCI_MAX_BITS; lia)) as (v & Ev & Hv). unfold lte_polys in Ev. rewrite Ev. cbn [mbind option_bind Z.eqb negb].
  eexists. split; [reflexivity |]. split; [by split |]. split; [repeat split; by apply Forall_replicate |]. cbn [pc_max_bits]. rewrite uwrap_small by (unfold is_uint; lia). lia.
Qed.

(** *** The cell is set *)

(** The CCEs of the region of a CFI. *)
Definition cces (h : srsran_regs_t) (cfi : Z) : Z := zlen (rest h cfi) / 9.

Lemma nregs_spec cell h cfi : divided cell h -> 1 <= cfi <= 3 -> srsran_regs_pdcch_nregs h cfi = Some (9 * cces h cfi) /\ 0 <= cces h cfi <= 113.
Proof.
  intros Hd Hcfi. destruct (dv_pdcch cell h Hd cfi Hcfi) as (ch & Hch & Hn & _ & HD & _). cbv zeta in *. unfold srsran_regs_pdcch_nregs, cces.
  destruct (Z.ltb_spec cfi 1); [lia |]. destruct (Z.ltb_spec 3 cfi); [lia |]. cbn [orb]. rewrite Hch. cbn [mbind option_bind]. rewrite Hn. split; [f_equal; lia | lia].
Qed.

Lemma set_regs_spec cell h q : divided cell h -> zlen (pc_nof_regs q) = 3 -> zlen (pc_nof_cce q) = 3 ->
  srsran_pdcch_set_regs q h = Some (upd_sizes q ((fun i => 9 * cces h (i + 1)) <$> seqZ 0 3) ((fun i => cces h (i + 1)) <$> seqZ 0 3) (cces h 3 * 72)).
Proof.
  intros Hd Hr Hc. unfold srsran_pdcch_set_regs.
  loop_inv (fun i st => st = (upto (fun i => 9 * cces h (i + 1)) i (pc_nof_regs q), upto (fun i => cces h (i + 1)) i (pc_nof_cce q))) as (st & -> & ->); [lia | done | |].
  - intros i st Hi ->. destruct (nregs_spec cell h (i + 1) Hd ltac:(lia)) as [-> Hb]. cbn [mbind option_bind].
    replace (9 * cces h (i + 1) ÷ 9 * 9) with (9 * cces h (i + 1)) by (rewrite Z.mul_comm, Z.quot_mul by lia; lia).
    rewrite uwrap_small by (unfold is_uint; lia). rewrite (zset_upto (fun i => 9 * cces h (i + 1))) by lia. cbn [mbind option_bind].
    replace (9 * cces h (i + 1) / 9) with (cces h (i + 1)) by lia. rewrite (zset_upto (fun i => cces h (i + 1))) by lia. cbn [mbind option_bind]. by eexists.
  - cbn [mbind option_bind]. rewrite zget_upto by lia. cbn [mbind option_bind]. destruct (nregs_spec cell h 3 Hd ltac:(lia)) as [_ Hb].
    replace (9 * cces h (2 + 1) / 9) with (cces h 3) by (replace (2 + 1) with 3 by lia; lia). rewrite uwrap_small by (unfold is_uint; lia).
    do 2 f_equal; unfold upto; rewrite drop_ge by (unfold zlen in *; lia); by rewrite app_nil_r.
Qed.

(** The sequence of a subframe: that of TS 36.211, 6.8.2, as long as the largest region. *)
Definition sequence_of (h : srsran_regs_t) (cell : srsran_cell_t) (i : Z) (s : srsran_sequence_t) : Prop :=
  arrays_ok s /\ exists c, q_c s = Some c /\ take (Z.to_nat (72 * cces h 3)) c = (gold gold_x1 (gold_x2 (i * 512 + cell_id cell)) <$> seqZ 0 (72 * cces h 3)).

Lemma set_cell_ready alloc q h cell : coder_ok q -> fresh q -> alloc_ok alloc -> srsran_cell_isvalid cell = true -> region_ok cell -> divided cell h ->
  exists q', srsran_pdcch_set_cell alloc q h cell = Some (SRSRAN_SUCCESS, q') /\ coder_ok q' /\ pc_cell q' = cell /\ pc_llr q' = pc_llr q /\ pc_max_bits q' = cces h 3 * 72 /\
    (forall cfi, 1 <= cfi <= 3 -> srsran_pdcch_get_nof_cce_yx q' cfi = Some (cces h cfi)) /\
    forall i, 0 <= i < 10 -> exists s, zget (pc_seq q') i = Some s /\ sequence_of h cell i s.
Proof.
  intros [Hcrc Htab Hdec] (HN & Hr & Hc & Hs & Hseq) Ha Hv (_ & Hid & _) Hd. unfold srsran_pdcch_set_cell. rewrite Hv, (set_regs_spec cell) by done. cbn [mbind option_bind].
  set (q0 := upd_sizes _ _ _ _). change (pc_cell q0) with (pc_cell q). rewrite HN, orb_true_r.
  destruct (nregs_spec cell h 3 Hd ltac:(lia)) as [En Hn].
  loop_inv (fun i st => exists seq, st = (SRSRAN_SUCCESS, upd_seq (upd_cell q0 cell) seq) /\ zlen seq = 10 /\ Forall arrays_ok seq /\
    forall j, 0 <= j < i -> exists s, zget seq j = Some s /\ sequence_of h cell j s) as (st & -> & (seq & -> & Hl & _ & Hall)).
  - done.
  - exists (pc_seq q). split; [done |]. split; [done |]. split; [done |]. intros j Hj. lia.
  - intros i st Hi (seq & -> & Hl & Hok & Hall). unfold set_sequence. change (negb (SRSRAN_SUCCESS =? 0)) with false. cbn iota. cbn [upd_seq pc_seq pc_cell upd_cell].
    unfold SRSRAN_NOF_SF_X_FRAME in Hi. destruct (zget_some seq i) as [s Es]; [unfold in_range; lia |]. rewrite Es, En. cbn [mbind option_bind].
    rewrite uwrap_small by (unfold is_uint; lia). unfold srsran_sequence_pdcch. replace (2 * i / 2) with i by lia. rewrite uwrap_small by (unfold is_uint; lia).
    assert (arrays_ok s) as Hs1 by (rewrite Forall_forall in Hok; apply Hok; rewrite zget_lookup in Es by lia; by apply list_elem_of_lookup_2 in Es).
    destruct (sequence_spec alloc s (8 * (9 * cces h 3)) (i * 512 + cell_id cell) _ _ Ha Hs1 ltac:(lia) gold_x1_standard (gold_x2_standard _)) as (s' & c & -> & Hs' & _ & Ec & Htake & _).
    cbn [mbind option_bind]. destruct (zset seq i s') as [seq' |] eqn:Eset; [| rewrite zset_in in Eset by (unfold in_range; lia); done]. cbn [mbind option_bind].
    change (negb (SRSRAN_SUCCESS =? 0)) with false. cbn iota. eexists. split; [reflexivity |]. exists seq'. split; [done |]. split; [by rewrite (zset_len _ _ _ _ Eset) |]. split.
    + rewrite zset_in in Eset by (unfold in_range; lia). injection Eset as <-. by apply Forall_insert.
    + intros j Hj. destruct (Z.eq_dec j i) as [-> |]; [| rewrite (zget_zset_ne _ _ _ _ _ Eset) by done; apply Hall; lia].
      exists s'. split; [apply (zget_zset_eq _ _ _ _ Eset) |]. split; [done |]. exists c. split; [done |]. by replace (72 * cces h 3) with (8 * (9 * cces h 3)) by lia.
  - eexists. split; [reflexivity |]. split; [by split |]. split; [done |]. split; [done |]. split; [done |]. split; [| exact Hall].
    intros cfi Hcfi. unfold srsran_pdcch_get_nof_cce_yx. destruct (Z.ltb_spec 0 cfi); [| lia]. destruct (Z.ltb_spec cfi 4); [| lia]. cbn [andb upd_seq pc_nof_cce upd_cell q0 upd_sizes].
    rewrite zget_lookup, list_lookup_fmap, lookup_seqZ_lt by lia. cbn. do 2 f_equal. lia.
Qed.

Definition ex_mem (n : Z) : list Z := replicate (Z.to_nat n) 5.

Lemma ex_mem_sized : sized ex_mem /\ forall n, 0 <= n -> zlen (ex_mem n) = n /\ Forall byte (ex_mem n).
Proof.
  assert (sized ex_mem) as H by (intros n Hn; unfold ex_mem, zlen; rewrite length_replicate; lia).
  split; [done |]. intros n Hn. split; [by apply H |]. by apply Forall_replicate.
Qed.

Definition ex_bits : list bool := [true; false; true; true; false; false; true; false].

Lemma probability_is_agreement_witness : exists q e q1 data1 crc1,
  srsran_pdcch_dci_decode q e (replicate 128 0) 72 8 0 = Some (SRSRAN_SUCCESS, q1, data1, crc1) /\
  exists b sent q2, zlen b = 8 /\ data1 = bytes_of_bits (frame b crc1) ++ drop 24 (replicate 128 0) /\ transmitted (frame b crc1) 72 sent /\
    srsran_pdcch_dci_decode_yx ex_mem q e (replicate 128 0) 72 8 0 f32_0 = Some (SRSRAN_SUCCESS, q2, data1, crc1, percent (agreeing e sent) 72).
Proof.
  destruct ex_mem_sized as [Hs Hb]. destruct (pdcch_init_ok ex_mem 50 Hb) as (q & _ & Hq & _ & Hm); [lia |].
  destruct (transmission (frame ex_bits 70) 72) as (sent & Hsent & _); [by vm_compute | by vm_compute |].
  destruct (decode_clean q ex_bits 70 72 sent [] (replicate 128 0) Hq) as (q1 & Ed & _ & _); [by vm_compute | by vm_compute | by vm_compute | by vm_compute | done |].
  assert (srsran_pdcch_dci_decode q ((soft_f 1 <$> sent) ++ []) (replicate 128 0) 72 8 0
    = Some (SRSRAN_SUCCESS, q1, bytes_of_bits (frame ex_bits 70) ++ drop (length (frame ex_bits 70)) (replicate 128 0), 70)) as E.
  { unfold srsran_pdcch_dci_decode. rewrite Hm. change ((72 <=? 50 * 72) && (8 <=? SRSRAN_DCI_MAX_BITS)) with true. cbn iota. change (zlen ex_bits) with 8 in Ed. by rewrite Ed. }
  exists q, ((soft_f 1 <$> sent) ++ []), q1, (bytes_of_bits (frame ex_bits 70) ++ drop (length (frame ex_bits 70)) (replicate 128 0)), 70.
  split; [exact E |]. apply (probability_is_agreement ex_mem q _ (replicate 128 0) 72 8 0 q1 _ 70 f32_0); [done | done | by vm_compute | by vm_compute | by vm_compute | | exact E].
  rewrite app_nil_r, zlen_fmap. rewrite (proj1 Hsent). lia.
Defined.

Lemma pdcch_transmits_witness : exists q sent q1 q2, coder_ok q /\
  srsran_pdcch_dci_encode ex_mem q (bytes_of_bits ex_bits ++ replicate 120 0) (replicate 72 0) 8 72 70
    = Some (SRSRAN_SUCCESS, q1, bytes_of_bits (frame ex_bits 70) ++ drop 16 (replicate 120 0), bytes_of_bits sent ++ []) /\
  srsran_pdcch_dci_decode_yx ex_mem q ((soft_f 1 <$> sent) ++ []) (replicate 128 0) 72 8 0 f32_0
    = Some (SRSRAN_SUCCESS, q2, bytes_of_bits (frame ex_bits 70) ++ drop 24 (replicate 128 0), 70, f32_100).
Proof.
  destruct ex_mem_sized as [Hs Hb]. destruct (pdcch_init_ok ex_mem 50 Hb) as (q & _ & Hq & _ & Hm); [lia |].
  destruct (pdcch_transmits ex_mem ex_mem q q ex_bits (replicate 120 0) (replicate 72 0) 72 70 [] (replicate 128 0) 0 f32_0)
    as (sent & q1 & q2 & E1 & _ & _ & E2 & _); [done | done | done | done | by vm_compute | by vm_compute | lia | by vm_compute | rewrite Hm; lia | rewrite Hm; lia | by vm_compute | by vm_compute |].
  exists q, sent, q1, q2. split; [done |]. split; [exact E1 | exact E2].
Defined.
