(* ===== verification/RaUl.v ===== *)
(** * Uplink grants ([lib/src/phy/phch/ra_ul.c]) and the mapping of the PUSCH ([pusch.c])

    How an uplink DCI becomes a grant, how the grant hops, and which resource elements the
    symbols of the grant are copied to. Shares with the downlink the transport blocks, the size
    tables and the lemmas on copies. *)

From S2P Require Import Sequence.
From S2P Require Export DlGrant.

(** ** Data ([pusch_cfg.h]) *)

Definition SRSRAN_PUSCH_HOP_MODE_INTER_SF : Z := 1.
Definition SRSRAN_PUSCH_HOP_MODE_INTRA_SF : Z := 0.

(** The other values of the flag of [srsran_dci_ul_t]. *)
Definition SRSRAN_RA_PUSCH_HOP_QUART : Z := 0.
Definition SRSRAN_RA_PUSCH_HOP_QUART_NEG : Z := 1.
Definition SRSRAN_RA_PUSCH_HOP_HALF : Z := 2.
Definition SRSRAN_RA_PUSCH_HOP_TYPE2 : Z := 3.

Record srsran_pusch_hopping_cfg_t := PuschHoppingCfg {
  hop_mode : Z; hopping_offset : Z; n_sb : Z; n_rb_ho : Z; current_tx_nb : Z; hopping_enabled : bool
}.

(** [ug_prb0], [ug_prb1] are [n_prb[0]], [n_prb[1]], and so on. *)
Record srsran_pusch_grant_t := PuschGrantInfo {
  ug_L_prb : Z; ug_prb0 : Z; ug_prb1 : Z; ug_tilde0 : Z; ug_tilde1 : Z; ug_freq_hopping : Z; ug_nof_re : Z;
  ug_nof_symb : Z; ug_tb : srsran_ra_tb_t; ug_last_tb : srsran_ra_tb_t; ug_n_dmrs : Z; ug_is_rar : bool
}.
Definition zero_pusch_grant : srsran_pusch_grant_t := PuschGrantInfo 0 0 0 0 0 0 0 0 zero_ra_tb zero_ra_tb 0 false.

Definition set_ug_prb (L p0 p1 hop : Z) (g : srsran_pusch_grant_t) : srsran_pusch_grant_t :=
  PuschGrantInfo L p0 p1 (ug_tilde0 g) (ug_tilde1 g) hop (ug_nof_re g) (ug_nof_symb g) (ug_tb g) (ug_last_tb g)
    (ug_n_dmrs g) (ug_is_rar g).
Definition set_ug_tilde (t0 t1 : Z) (g : srsran_pusch_grant_t) : srsran_pusch_grant_t :=
  PuschGrantInfo (ug_L_prb g) (ug_prb0 g) (ug_prb1 g) t0 t1 (ug_freq_hopping g) (ug_nof_re g) (ug_nof_symb g) (ug_tb g)
    (ug_last_tb g) (ug_n_dmrs g) (ug_is_rar g).
Definition set_ug_tb (t : srsran_ra_tb_t) (g : srsran_pusch_grant_t) : srsran_pusch_grant_t :=
  PuschGrantInfo (ug_L_prb g) (ug_prb0 g) (ug_prb1 g) (ug_tilde0 g) (ug_tilde1 g) (ug_freq_hopping g) (ug_nof_re g)
    (ug_nof_symb g) t (ug_last_tb g) (ug_n_dmrs g) (ug_is_rar g).
Definition set_ug_re (symb re : Z) (g : srsran_pusch_grant_t) : srsran_pusch_grant_t :=
  PuschGrantInfo (ug_L_prb g) (ug_prb0 g) (ug_prb1 g) (ug_tilde0 g) (ug_tilde1 g) (ug_freq_hopping g) re symb (ug_tb g)
    (ug_last_tb g) (ug_n_dmrs g) (ug_is_rar g).

(** The state of the hopping: the cell and the sequence of its type 2. *)
Record srsran_ra_ul_pusch_hopping_t := PuschHopping { uh_initialized : bool; uh_cell : srsran_cell_t; seq_type2_fo : srsran_sequence_t }.

(** A read of [seq_type2_fo.c]; the array is null before the initialisation. *)
Definition uh_seq (q : srsran_ra_ul_pusch_hopping_t) : list Z := default [] (q_c (seq_type2_fo q)).

(** [alloc] is [malloc], as in [srsran_sequence_init]. *)
Definition srsran_ra_ul_pusch_hopping_init (alloc : Z -> option (list Z)) (q : srsran_ra_ul_pusch_hopping_t)
    (cell : srsran_cell_t) : option (Z * srsran_ra_ul_pusch_hopping_t) :=
  if negb (cell_id cell =? cell_id (uh_cell q)) || negb (uh_initialized q) then
    '(e, s) ← srsran_sequence_LTE_pr alloc (seq_type2_fo q) 210 (cell_id cell);
    Some (if negb (e =? 0) then SRSRAN_ERROR else SRSRAN_SUCCESS, PuschHopping true cell s)
  else Some (SRSRAN_ERROR_INVALID_INPUTS, q).

Definition srsran_ra_ul_pusch_hopping_free (q : srsran_ra_ul_pusch_hopping_t) : srsran_ra_ul_pusch_hopping_t :=
  PuschHopping (uh_initialized q) (uh_cell q) (srsran_sequence_free (seq_type2_fo q)).

(** ** Frequency hopping *)

(** One round of the loop of [f_hop_sum]: its next state, its result, or nothing where the
    element of the sequence is missing or the shift is not of 0 to 30 places. *)
Definition f_hop_sum_round (seq : list Z) (st : Z * Z * Z) : option (Z * Z * Z + Z) :=
  let '(i, k, sum) := st in
  if k <? u32 (i * 10 + 9) then
    let n := u32 (k - u32 (i * 10 + 1)) in
    if n <? 31 then c ← zget seq k; Some (inl (u32 (i + 1), k, u32 (sum + c * 2 ^ n))) else None
  else Some (inr sum).

Fixpoint f_hop_sum_loop (fuel : nat) (seq : list Z) (st : Z * Z * Z) : option Z :=
  match fuel with
  | O => None
  | S fuel =>
    r ← f_hop_sum_round seq st;
    match r with inl st => f_hop_sum_loop fuel seq st | inr sum => Some sum end
  end.

(** The eight elements it is meant to add are eight rounds and the test. *)
Definition f_hop_sum (q : srsran_ra_ul_pusch_hopping_t) (i : Z) : option Z :=
  f_hop_sum_loop 9 (uh_seq q) (i, u32 (i * 10 + 1), 0).

(** [f_hop q h n] is the C function at [n - 1], which it ends at [-1]. *)
Fixpoint f_hop (q : srsran_ra_ul_pusch_hopping_t) (h : srsran_pusch_hopping_cfg_t) (n : nat) : option Z :=
  match n with
  | O => Some 0
  | S m =>
    if n_sb h =? 1 then Some 0
    else
      p ← f_hop q h m; s ← f_hop_sum q (Z.of_nat m);
      if n_sb h =? 2 then Some (Z.rem (s32 (p + s)) 2)
      else if (u32 (n_sb h - 1) =? 0) || (n_sb h =? 0) then None
      else Some (s32 (u32 (p + u32 s mod u32 (n_sb h - 1) + 1) mod n_sb h))
  end.

Definition f_m (q : srsran_ra_ul_pusch_hopping_t) (h : srsran_pusch_hopping_cfg_t) (i tx_nb : Z) : option Z :=
  if n_sb h =? 1 then Some (if hop_mode h =? SRSRAN_PUSCH_HOP_MODE_INTER_SF then tx_nb mod 2 else i mod 2)
  else zget (uh_seq q) (u32 (i * 10)).

(** The type 2 hopping of a slot. *)
Definition hop_type2 (q : srsran_ra_ul_pusch_hopping_t) (tti : Z) (h : srsran_pusch_hopping_cfg_t)
    (g : srsran_pusch_grant_t) (slot : Z) : option Z :=
  let shift := u32 (u32 (hopping_offset h - 1) / 2 + 1) in
  let vrb := if 1 <? n_sb h then u32 (ug_prb0 g - shift) else ug_prb0 g in
  let i := if hop_mode h =? SRSRAN_PUSCH_HOP_MODE_INTER_SF then tti mod 10 else u32 (2 * tti) mod 10 + slot in
  let n := nof_prb (uh_cell q) in
  let rb_sb := if 1 <? n_sb h then u32 (n - hopping_offset h - hopping_offset h mod 2) / n_sb h else n in
  hop ← f_hop q h (Z.to_nat (i + 1));
  m ← f_m q h i (current_tx_nb h);
  if (rb_sb =? 0) || (u32 (rb_sb * n_sb h) =? 0) then None
  else
    let t := u32 (vrb + hop * rb_sb + (rb_sb - 1) - 2 * (vrb mod rb_sb) * m) mod u32 (rb_sb * n_sb h) in
    Some (if 1 <? n_sb h then u32 (t + shift) else t).

Definition hop_slot (q : srsran_ra_ul_pusch_hopping_t) (tti : Z) (h : srsran_pusch_hopping_cfg_t)
    (g : srsran_pusch_grant_t) (slot : Z) : option Z :=
  let prb s := if s =? 0 then ug_prb0 g else ug_prb1 g in
  if ug_freq_hopping g =? 2 then hop_type2 q tti h g slot
  else
    Some (if (ug_freq_hopping g =? 1) && (hop_mode h =? SRSRAN_PUSCH_HOP_MODE_INTER_SF)
          then prb (current_tx_nb h mod 2) else prb slot).

Definition compute_freq_hopping (q : srsran_ra_ul_pusch_hopping_t) (tti : Z) (h : srsran_pusch_hopping_cfg_t)
    (g : srsran_pusch_grant_t) : option srsran_pusch_grant_t :=
  t0 ← hop_slot q tti h g 0; t1 ← hop_slot q tti h g 1; Some (set_ug_tilde t0 t1 g).

Definition srsran_ra_ul_pusch_hopping (q : srsran_ra_ul_pusch_hopping_t) (tti : Z) (h : srsran_pusch_hopping_cfg_t)
    (g : srsran_pusch_grant_t) : option srsran_pusch_grant_t :=
  if hopping_enabled h then compute_freq_hopping q tti h g else Some (set_ug_tilde (ug_prb0 g) (ug_prb1 g) g).

(** ** From a DCI to a grant *)

(** The first block of the second slot for the hopping of type 1. The grant was cleared, and
    no other value of the enumeration reaches the default case. *)
Definition hop_prb1 (hop rb_pusch prb : Z) : option Z :=
  if (hop =? SRSRAN_RA_PUSCH_HOP_QUART) || (hop =? SRSRAN_RA_PUSCH_HOP_HALF) then
    if rb_pusch =? 0 then None
    else Some (u32 (rb_pusch / (if hop =? SRSRAN_RA_PUSCH_HOP_QUART then 4 else 2) + prb) mod rb_pusch)
  else if hop =? SRSRAN_RA_PUSCH_HOP_QUART_NEG then
    Some (if prb <? rb_pusch / 4 then u32 (rb_pusch + prb - rb_pusch / 4) else u32 (prb - rb_pusch / 4))
  else Some 0.

Definition ra_ul_grant_to_grant_prb_allocation (dci : srsran_dci_ul_t) (rb_ho nof_prb : Z) (g : srsran_pusch_grant_t)
    : option (Z * srsran_pusch_grant_t) :=
  '(L, prb) ← srsran_ra_type2_from_riv (riv (u_type2 dci)) nof_prb nof_prb;
  let rb_ho := if rb_ho mod 2 =? 0 then rb_ho else u32 (rb_ho + 1) in
  let hop := u_freq_hop_fl dci in
  let check g :=
    Some (if (u32 (ug_prb0 g + ug_L_prb g) <=? nof_prb) && (u32 (ug_prb1 g + ug_L_prb g) <=? nof_prb)
          then SRSRAN_SUCCESS else SRSRAN_ERROR, g) in
  if (hop =? SRSRAN_RA_PUSCH_HOP_DISABLED) || (hop =? SRSRAN_RA_PUSCH_HOP_TYPE2) then
    check (set_ug_prb L prb prb (if hop =? SRSRAN_RA_PUSCH_HOP_DISABLED then 0 else 2) g)
  else if prb <? rb_ho / 2 then Some (SRSRAN_ERROR, set_ug_prb L prb (ug_prb1 g) (ug_freq_hopping g) g)
  else
    prb1 ← hop_prb1 hop (u32 (nof_prb - rb_ho - nof_prb mod 2)) prb;
    check (set_ug_prb L prb prb1 1 g).

Definition ul_fill_ra_mcs (last : srsran_ra_tb_t) (L_prb : Z) (cqi_request : bool) (t : srsran_ra_tb_t)
    : option srsran_ra_tb_t :=
  let mcs := rt_mcs_idx t in
  let sized m i := tbs ← srsran_ra_tbs_from_idx i L_prb; Some (set_rt_tbs tbs (set_rt_mod m t)) in
  if mcs <=? 28 then
    if mcs <? 11 then sized SRSRAN_MOD_QPSK mcs
    else if mcs <? 21 then sized SRSRAN_MOD_16QAM (mcs - 1)
    else sized SRSRAN_MOD_64QAM (mcs - 2)
  else if (mcs =? 29) && cqi_request && (L_prb <=? 4) then Some (set_rt_rv 1 (set_rt_tbs 0 (set_rt_mod SRSRAN_MOD_QPSK t)))
  else Some (set_rt_rv (s32 (mcs - 28)) (set_rt_tbs (rt_tbs last) (set_rt_mod (rt_mod last) t))).

Definition srsran_ra_ul_compute_nof_re (c : srsran_cp_t) (n_srs : Z) (g : srsran_pusch_grant_t) : srsran_pusch_grant_t :=
  let symb := u32 (2 * (SRSRAN_CP_NSYMB c - 1) - n_srs) in
  let re := u32 (symb * ug_L_prb g * SRSRAN_NRE) in
  set_ug_tb (set_rt_nof_bits (u32 (re * srsran_mod_bits_x_symbol (rt_mod (ug_tb g)))) (ug_tb g)) (set_ug_re symb re g).

Definition srsran_ra_ul_dci_to_grant (cell : srsran_cell_t) (h : srsran_pusch_hopping_cfg_t) (dci : srsran_dci_ul_t)
    : option (Z * srsran_pusch_grant_t) :=
  '(c, g) ← ra_ul_grant_to_grant_prb_allocation dci (n_rb_ho h) (nof_prb cell) zero_pusch_grant;
  if negb (c =? SRSRAN_SUCCESS) then Some (SRSRAN_ERROR, g)
  else
    let t := RaTbInfo (rt_mod (ug_tb g)) (rt_tbs (ug_tb g)) (tb_rv (u_tb dci)) (rt_nof_bits (ug_tb g)) (rt_cw_idx (ug_tb g))
      (rt_enabled (ug_tb g)) (mcs_idx (u_tb dci)) in
    t ← ul_fill_ra_mcs (ug_last_tb g) (ug_L_prb g) (u_cqi_request dci) t;
    let g := srsran_ra_ul_compute_nof_re (cp cell) 0 (set_ug_tb t g) in
    let g := set_ug_tilde (ug_prb0 g) (ug_prb1 g) g in
    Some (if (ug_nof_symb g =? 0) || (ug_nof_re g =? 0) then SRSRAN_ERROR else SRSRAN_SUCCESS, g).

(** ** The mapping of the PUSCH ([pusch_cp]) *)

Section pusch.
Context (cell : srsran_cell_t) (g : srsran_pusch_grant_t) (is_shortened : bool).

Definition SRSRAN_RE_IDX (nof_prb symbol_idx sample_idx : Z) : Z := u32 (symbol_idx * nof_prb * SRSRAN_NRE + sample_idx).
Definition tilde (s : Z) : Z := if s =? 0 then ug_tilde0 g else ug_tilde1 g.
Definition L_ref : Z := if SRSRAN_CP_ISEXT (cp cell) then 2 else 3.
Definition N_srs (s : Z) : Z := if is_shortened && (s =? 1) then 1 else 0.

(** The positions of the grid that are copied, in order; every symbol but the reference is a
    [memcpy]. *)
Definition symbol_idx (s l : Z) : list Z :=
  if l =? L_ref then []
  else seqZ (SRSRAN_RE_IDX (nof_prb cell) (l + s * SRSRAN_CP_NSYMB (cp cell)) (u32 (tilde s * SRSRAN_NRE))) (ug_L_prb g * SRSRAN_NRE).

Definition pusch_cp : list Z :=
  blocks (fun s => blocks (symbol_idx s) 0 (SRSRAN_CP_NSYMB (cp cell) - N_srs s)) 0 2.

Definition pusch_put {A} (input output : list A) : option (list A * Z) :=
  grid ← for_range 0 (zlen pusch_cp) (fun grid i => x ← zget input i; p ← zget pusch_cp i; zset grid p x) output;
  Some (grid, zlen pusch_cp).

Definition pusch_get {A} (input : list A) : option (list A) := mapM (zget input) pusch_cp.
End pusch.

(** ** What a decoded DCI becomes *)

(** An uplink DCI whose fields are as wide as those of a message. *)
Record ul_dci_ok (n : Z) (dci : srsran_dci_ul_t) : Prop := UlDciOk {
  uk_riv : 0 <= riv (u_type2 dci) < n * (n + 1);
  uk_mcs : 0 <= mcs_idx (u_tb dci) < 32;
  uk_hop : -1 <= u_freq_hop_fl dci <= 3
}.

(** Hopping of type 1, which moves the second slot. *)
Definition hop_type1 (dci : srsran_dci_ul_t) : bool := (0 <=? u_freq_hop_fl dci) && (u_freq_hop_fl dci <=? 2).

(** The first block of the second slot, [P] blocks being left to the PUSCH. *)
Definition second_slot (dci : srsran_dci_ul_t) (P prb : Z) : Z :=
  if hop_type1 dci then
    if u_freq_hop_fl dci =? 0 then (P / 4 + prb) mod P
    else if u_freq_hop_fl dci =? 2 then (P / 2 + prb) mod P
    else if prb <? P / 4 then P + prb - P / 4 else prb - P / 4
  else prb.

Definition even_up (n : Z) : Z := n + n mod 2.

(** The size and the modulation of the block: of the table, or of no earlier transmission. *)
Definition ul_tb_ok (dci : srsran_dci_ul_t) (L : Z) (t : srsran_ra_tb_t) : Prop :=
  let mcs := mcs_idx (u_tb dci) in
  rt_mcs_idx t = mcs /\ 0 <= rt_tbs t /\
  if mcs <=? 28 then
    rt_rv t = tb_rv (u_tb dci) /\
    rt_mod t = (if mcs <? 11 then SRSRAN_MOD_QPSK else if mcs <? 21 then SRSRAN_MOD_16QAM else SRSRAN_MOD_64QAM) /\
    srsran_ra_tbs_from_idx (mcs - (if mcs <? 11 then 0 else if mcs <? 21 then 1 else 2)) L = Some (rt_tbs t)
  else rt_tbs t = 0 /\ rt_rv t = mcs - 28.

Record ul_grant_ok (cell : srsran_cell_t) (h : srsran_pusch_hopping_cfg_t) (dci : srsran_dci_ul_t)
    (g : srsran_pusch_grant_t) : Prop := UlGrantOk {
  ul_riv : srsran_ra_type2_from_riv (riv (u_type2 dci)) (nof_prb cell) (nof_prb cell) = Some (ug_L_prb g, ug_prb0 g);
  ul_slot0 : rb_range (ug_L_prb g) (ug_prb0 g) (nof_prb cell);
  ul_slot1 : rb_range (ug_L_prb g) (ug_prb1 g) (nof_prb cell);
  ul_hop : ug_prb1 g = second_slot dci (nof_prb cell - even_up (n_rb_ho h) - nof_prb cell mod 2) (ug_prb0 g);
  ul_tilde0 : ug_tilde0 g = ug_prb0 g;
  ul_tilde1 : ug_tilde1 g = ug_prb1 g;
  ul_tb : ul_tb_ok dci (ug_L_prb g) (ug_tb g);
  ul_re : ug_nof_re g = 2 * (SRSRAN_CP_NSYMB (cp cell) - 1) * ug_L_prb g * 12;
  ul_bits : rt_nof_bits (ug_tb g) = ug_nof_re g * srsran_mod_bits_x_symbol (rt_mod (ug_tb g))
}.

(** The refusals: hopping from inside the offset, or out of the cell. *)
Definition ul_refused (n : Z) (h : srsran_pusch_hopping_cfg_t) (dci : srsran_dci_ul_t) : Prop :=
  exists L prb, srsran_ra_type2_from_riv (riv (u_type2 dci)) n n = Some (L, prb) /\ hop_type1 dci = true /\
    (prb < even_up (n_rb_ho h) / 2 \/ n < second_slot dci (n - even_up (n_rb_ho h) - n mod 2) prb + L).

Lemma hop_prb1_spec dci P prb : hop_type1 dci = true -> 0 < P <= 110 -> 0 <= prb < 110 ->
  hop_prb1 (u_freq_hop_fl dci) P prb = Some (second_slot dci P prb) /\ 0 <= second_slot dci P prb < 220.
Proof.
  unfold hop_type1, hop_prb1, second_slot. intros Ht HP Hp. unfold hop_type1. rewrite Ht. unfold hop_type1 in Ht.
  unfold SRSRAN_RA_PUSCH_HOP_QUART, SRSRAN_RA_PUSCH_HOP_QUART_NEG, SRSRAN_RA_PUSCH_HOP_HALF.
  assert (u_freq_hop_fl dci = 0 \/ u_freq_hop_fl dci = 1 \/ u_freq_hop_fl dci = 2) as [-> | [-> | ->]] by lia; cbn [Z.eqb Pos.eqb orb].
  - destruct (Z.eqb_spec P 0); [lia |]. rewrite uwrap_small by (unfold is_uint; lia). split; [done | lia].
  - split; [| zcase; lia]. do 2 f_equal. zcase; rewrite uwrap_small by (unfold is_uint; lia); done.
  - destruct (Z.eqb_spec P 0); [lia |]. rewrite uwrap_small by (unfold is_uint; lia). split; [done | lia].
Qed.

Section grant.
Context (cell : srsran_cell_t) (h : srsran_pusch_hopping_cfg_t) (dci : srsran_dci_ul_t).
Abbreviation N := (nof_prb cell).
Hypothesis HN : 6 <= N <= 110.
Hypothesis Hho : 0 <= n_rb_ho h /\ even_up (n_rb_ho h) + N mod 2 < N.
Hypothesis Hdci : ul_dci_ok N dci.

(** The allocation puts both slots in the cell, or is refused. *)
Lemma ul_allocation L prb g0 : srsran_ra_type2_from_riv (riv (u_type2 dci)) N N = Some (L, prb) -> rb_range L prb N ->
  exists c g, ra_ul_grant_to_grant_prb_allocation dci (n_rb_ho h) N g0 = Some (c, g) /\
    (c = SRSRAN_SUCCESS /\
       (exists hop, g = set_ug_prb L prb (second_slot dci (N - even_up (n_rb_ho h) - N mod 2) prb) hop g0) /\
       rb_range L (second_slot dci (N - even_up (n_rb_ho h) - N mod 2) prb) N
     \/ c = SRSRAN_ERROR /\ ul_refused N h dci).
Proof.
  intros Er Hr. destruct Hdci as [_ _ Hh]. set (P := N - even_up (n_rb_ho h) - N mod 2). unfold ra_ul_grant_to_grant_prb_allocation.
  rewrite Er. cbn [mbind option_bind].
  assert ((if n_rb_ho h mod 2 =? 0 then n_rb_ho h else u32 (n_rb_ho h + 1)) = even_up (n_rb_ho h)) as ->.
  { unfold even_up in *. zcase; [lia |]. rewrite uwrap_small by (unfold is_uint; lia). lia. }
  unfold SRSRAN_RA_PUSCH_HOP_DISABLED, SRSRAN_RA_PUSCH_HOP_TYPE2 in *.
  destruct (hop_type1 dci) eqn:Et.
  - assert (0 <= u_freq_hop_fl dci <= 2) by (unfold hop_type1 in Et; lia).
    destruct (Z.eqb_spec (u_freq_hop_fl dci) (-1)), (Z.eqb_spec (u_freq_hop_fl dci) 3); try lia. cbn [orb].
    destruct (Z.ltb_spec prb (even_up (n_rb_ho h) / 2)).
    + eexists _, _. split; [done |]. right. split; [done |]. exists L, prb. split_and!; [done | done | by left].
    + unfold rb_range in Hr. rewrite uwrap_small by (unfold is_uint, even_up in *; lia). fold P.
      destruct (hop_prb1_spec dci P prb Et) as [-> Hs]; [unfold P, even_up in *; lia | lia |]. cbn [mbind option_bind].
      cbn [ug_prb0 ug_prb1 ug_L_prb set_ug_prb]. rewrite !uwrap_small by (unfold is_uint; lia).
      destruct (Z.leb_spec (prb + L) N); [| lia]. destruct (Z.leb_spec (second_slot dci P prb + L) N); cbn [andb]; eexists _, _; (split; [done |]).
      * left. split_and!; [done | by eexists | unfold rb_range; lia].
      * right. split; [done |]. exists L, prb. fold P. split_and!; [done | done | by right].
  - assert (second_slot dci P prb = prb) as -> by (unfold second_slot; by rewrite Et).
    assert (u_freq_hop_fl dci = -1 \/ u_freq_hop_fl dci = 3) as Hc by (unfold hop_type1 in Et; lia).
    assert ((u_freq_hop_fl dci =? -1) || (u_freq_hop_fl dci =? 3) = true) as -> by lia. cbn [ug_prb0 ug_prb1 ug_L_prb set_ug_prb].
    unfold rb_range in *. rewrite !uwrap_small by (unfold is_uint; lia). destruct (Z.leb_spec (prb + L) N); [| lia]. cbn [andb].
    eexists _, _. split; [done |]. left. split; [done |]. split; [by eexists | lia].
Qed.

(** The block is filled from the table, or from the last one. *)
Lemma ul_fill_spec L t : 1 <= L <= 110 -> rt_mcs_idx t = mcs_idx (u_tb dci) -> rt_rv t = tb_rv (u_tb dci) ->
  exists t', ul_fill_ra_mcs zero_ra_tb L (u_cqi_request dci) t = Some t' /\ ul_tb_ok dci L t'.
Proof.
  intros HL Hm Hrv. destruct Hdci as [_ Hmcs _]. unfold ul_fill_ra_mcs, ul_tb_ok. rewrite Hm. cbv zeta.
  assert (forall i, 0 <= i < 34 -> exists tbs, srsran_ra_tbs_from_idx i L = Some tbs /\ 0 <= tbs) as Htbs.
  { intros i Hi. destruct (tbs_at_some i L) as (x & Ex & Hx); [lia.. |]. exists x. split; [| lia].
    unfold srsran_ra_tbs_from_idx, SRSRAN_RA_NOF_TBS_IDX, SRSRAN_MAX_PRB.
    destruct (Z.ltb_spec i 34), (Z.ltb_spec 0 L), (Z.leb_spec L 110); try lia. done. }
  destruct (Z.leb_spec (mcs_idx (u_tb dci)) 28).
  - destruct (Z.ltb_spec (mcs_idx (u_tb dci)) 11); [| destruct (Z.ltb_spec (mcs_idx (u_tb dci)) 21)];
      [destruct (Htbs (mcs_idx (u_tb dci))) as (x & Ex & Hx); [lia |] | destruct (Htbs (mcs_idx (u_tb dci) - 1)) as (x & Ex & Hx); [lia |]
       | destruct (Htbs (mcs_idx (u_tb dci) - 2)) as (x & Ex & Hx); [lia |]];
      rewrite ?Z.sub_0_r, Ex; cbn [mbind option_bind]; eexists; (split; [done |]); split_and!; done.
  - assert (s32 (mcs_idx (u_tb dci) - 28) = mcs_idx (u_tb dci) - 28) as Es by (unfold swrap; lia).
    destruct (_ && _) eqn:E; eexists; (split; [done |]); cbn [rt_mcs_idx rt_tbs rt_rv set_rt_rv set_rt_tbs set_rt_mod zero_ra_tb];
      split_and!; try done; lia.
Qed.
End grant.

Lemma ul_grant_exists cell h dci :
  6 <= nof_prb cell <= SRSRAN_MAX_PRB -> 0 <= n_rb_ho h /\ even_up (n_rb_ho h) + nof_prb cell mod 2 < nof_prb cell ->
  ul_dci_ok (nof_prb cell) dci ->
  exists c g, srsran_ra_ul_dci_to_grant cell h dci = Some (c, g) /\
    (c = SRSRAN_SUCCESS /\ ul_grant_ok cell h dci g \/ c = SRSRAN_ERROR /\ ul_refused (nof_prb cell) h dci).
Proof.
  unfold SRSRAN_MAX_PRB. intros HN Hho Hdci.
  destruct (from_riv_inside (riv (u_type2 dci)) (nof_prb cell)) as (L & prb & Er & Hr); [lia | apply Hdci |].
  destruct (ul_allocation cell h dci HN Hho Hdci L prb zero_pusch_grant Er Hr) as (c & g & Ea & Hg).
  unfold srsran_ra_ul_dci_to_grant. rewrite Ea. cbn [mbind option_bind].
  destruct Hg as [(-> & [hop ->] & Hr1) | [-> Hno]]; cbn [negb Z.eqb SRSRAN_SUCCESS SRSRAN_ERROR]; [| eexists _, _; split; [done | by right]].
  cbn [ug_last_tb ug_L_prb ug_tb set_ug_prb zero_pusch_grant].
  set (t := RaTbInfo _ _ _ _ _ _ _). unfold rb_range in Hr.
  destruct (ul_fill_spec cell dci Hdci L t) as (t' & Ef & Ht); [lia | done | done |]. rewrite Ef. cbn [mbind option_bind].
  set (s1 := second_slot _ _ _) in *.
  assert (6 <= SRSRAN_CP_NSYMB (cp cell) <= 7) as Hns by (destruct (cp cell); simpl; lia).
  unfold srsran_ra_ul_compute_nof_re. cbn [ug_nof_symb ug_nof_re ug_prb0 ug_prb1 ug_L_prb ug_tb set_ug_prb set_ug_tb set_ug_re set_ug_tilde].
  pose proof (mod_bits_range (rt_mod t')). unfold SRSRAN_NRE.
  rewrite (uwrap_small 32 (2 * _ - 0)) by (unfold is_uint; lia).
  rewrite !(uwrap_small 32 ((2 * _ - 0) * _ * _)) by (unfold is_uint; nia). rewrite uwrap_small by (unfold is_uint; nia).
  eexists _, _. split; [done |]. left.
  destruct (Z.eqb_spec (2 * (SRSRAN_CP_NSYMB (cp cell) - 1) - 0) 0); [lia |].
  destruct (Z.eqb_spec ((2 * (SRSRAN_CP_NSYMB (cp cell) - 1) - 0) * L * 12) 0); [nia |]. split; [done |].
  split; cbn [ug_nof_symb ug_nof_re ug_prb0 ug_prb1 ug_tilde0 ug_tilde1 ug_L_prb ug_tb set_ug_prb set_ug_tb set_ug_re set_ug_tilde]; try done.
  by rewrite Z.sub_0_r.
Qed.

(** C11: every uplink DCI a message can carry is turned into a grant, or refused because
    its hopping starts inside the offset or ends out of the cell. In a grant the blocks of both
    slots are in the cell, the first where the RIV says, the second where the hopping says;
    the modulation and the size are those of the table, a retransmission having size 0; and
    the elements are all but the references of the blocks of the subframe. *)
Theorem ul_grant_complete cell h dci :
  6 <= nof_prb cell <= SRSRAN_MAX_PRB -> 0 <= n_rb_ho h /\ even_up (n_rb_ho h) + nof_prb cell mod 2 < nof_prb cell ->
  ul_dci_ok (nof_prb cell) dci ->
  exists c g, srsran_ra_ul_dci_to_grant cell h dci = Some (c, g) /\
    (c = SRSRAN_SUCCESS /\ ul_grant_ok cell h dci g \/ c = SRSRAN_ERROR /\ ul_refused (nof_prb cell) h dci).
Proof. apply ul_grant_exists. Qed.

(** ** The elements of a grant *)

Section elements.
Context (cell : srsran_cell_t) (g : srsran_pusch_grant_t) (sh : bool).
Abbreviation N := (nof_prb cell).
Abbreviation ns := (SRSRAN_CP_NSYMB (cp cell)).
Hypothesis HN : 6 <= N <= 110.
Hypothesis H0 : rb_range (ug_L_prb g) (ug_tilde0 g) N.
Hypothesis H1 : rb_range (ug_L_prb g) (ug_tilde1 g) N.

Lemma tilde_range s : rb_range (ug_L_prb g) (tilde g s) N.
Proof. unfold tilde. by destruct (s =? 0). Qed.

Lemma ul_nsymb : 6 <= ns <= 7 /\ 0 <= L_ref cell < 4.
Proof. unfold L_ref, SRSRAN_CP_ISEXT. destruct (cp cell); simpl; lia. Qed.

Lemma re_idx_exact s l : 0 <= s < 2 -> 0 <= l < ns ->
  SRSRAN_RE_IDX N (l + s * ns) (u32 (tilde g s * SRSRAN_NRE)) = ((l + s * ns) * N + tilde g s) * 12.
Proof.
  intros Hs Hl. pose proof (tilde_range s) as (? & ? & ?). pose proof ul_nsymb. unfold SRSRAN_RE_IDX, SRSRAN_NRE.
  assert (0 <= l + s * ns < 14) by nia. rewrite (uwrap_small _ (tilde g s * 12)) by (unfold is_uint; lia).
  rewrite uwrap_small by (unfold is_uint; nia). lia.
Qed.

(** What a position of a symbol is. *)
Lemma symbol_idx_spec s l : 0 <= s < 2 -> 0 <= l < ns ->
  between ((l + s * ns) * N * 12) ((l + 1 + s * ns) * N * 12) (symbol_idx cell g s l) /\
  zlen (symbol_idx cell g s l) = (if l =? L_ref cell then 0 else 12 * ug_L_prb g).
Proof.
  intros Hs Hl. pose proof (tilde_range s) as (? & ? & ?). unfold symbol_idx. rewrite re_idx_exact by done. unfold SRSRAN_NRE.
  destruct (l =? L_ref cell); [split; [apply between_nil | done] |]. split; [split; [apply NoDup_seqZ |] | unfold zlen; rewrite length_seqZ; lia].
  apply Forall_forall. intros p Hp%elem_of_seqZ. simpl. nia.
Qed.

Lemma slot_idx_spec s : 0 <= s < 2 ->
  between (s * ns * N * 12) ((s + 1) * ns * N * 12) (blocks (symbol_idx cell g s) 0 (ns - N_srs sh s)) /\
  zlen (blocks (symbol_idx cell g s) 0 (ns - N_srs sh s)) = 12 * ug_L_prb g * (ns - 1 - N_srs sh s).
Proof.
  intros Hs. pose proof ul_nsymb as [Hns Hl]. assert (0 <= N_srs sh s <= 1) as Hsrs by (unfold N_srs; destruct (sh && (s =? 1)); lia). split.
  - destruct (between_blocks (symbol_idx cell g s) (fun l => (l + s * ns) * N * 12) 0 (ns - N_srs sh s)) as [Hb _]; [lia | |].
    + intros l Hl'. split; [lia | apply symbol_idx_spec; lia].
    + revert Hb. apply between_weaken; nia.
  - rewrite zlen_blocks, (total_ext _ (fun l => 12 * ug_L_prb g * (if l =? L_ref cell then 0 else 1))).
    + rewrite total_const_mul. f_equal. unfold L_ref, N_srs, SRSRAN_CP_ISEXT.
      destruct (cp cell), (sh && (s =? 1)); by vm_compute.
    + intros l Hl'. destruct (symbol_idx_spec s l) as [_ ->]; [lia.. |]. destruct (l =? L_ref cell); lia.
Qed.

Lemma pusch_cp_spec :
  between 0 (2 * ns * N * 12) (pusch_cp cell g sh) /\ zlen (pusch_cp cell g sh) = (2 * (ns - 1) - Z.b2z sh) * ug_L_prb g * 12.
Proof.
  unfold pusch_cp. split.
  - destruct (between_blocks (fun s => blocks (symbol_idx cell g s) 0 (ns - N_srs sh s)) (fun s => s * ns * N * 12) 0 2) as [Hb _]; [lia | |].
    + intros s Hs. split; [pose proof ul_nsymb; nia | by apply slot_idx_spec].
    + revert Hb. apply between_weaken; lia.
  - rewrite zlen_blocks, total_two. destruct (slot_idx_spec 0 ltac:(lia)) as [_ E0], (slot_idx_spec 1 ltac:(lia)) as [_ E1].
    rewrite E0, E1. unfold N_srs. destruct sh; simpl; lia.
Qed.

Lemma elem_of_blocks {A} (f : Z -> list A) a b x : x ∈ blocks f a b <-> exists i, a <= i < b /\ x ∈ f i.
Proof.
  unfold blocks. rewrite list_elem_of_In, in_concat. split.
  - intros (l & Hl%list_elem_of_In & Hx%list_elem_of_In). apply list_elem_of_fmap in Hl as (i & -> & Hi%elem_of_seqZ). exists i. split; [lia | done].
  - intros (i & Hi & Hx). exists (f i). rewrite <- !list_elem_of_In. split; [| done]. apply list_elem_of_fmap_2, elem_of_seqZ. lia.
Qed.

(** The positions copied are those of the blocks of the slot, in every symbol but the
    reference and, in a shortened subframe, the last. *)
Lemma elem_of_pusch_cp p : p ∈ pusch_cp cell g sh <->
  exists s l k, 0 <= s < 2 /\ 0 <= l < ns - N_srs sh s /\ l <> L_ref cell /\
    tilde g s * 12 <= k < (tilde g s + ug_L_prb g) * 12 /\ p = (l + s * ns) * N * 12 + k.
Proof.
  unfold pusch_cp. rewrite elem_of_blocks. assert (forall s, 0 <= N_srs sh s) as Hsrs by (intros s; unfold N_srs; destruct (_ && _); lia). split.
  - intros (s & Hs & Hp). apply elem_of_blocks in Hp as (l & Hl & Hp). unfold symbol_idx in Hp.
    rewrite re_idx_exact in Hp by (try done; specialize (Hsrs s); lia). destruct (Z.eqb_spec l (L_ref cell)); [by apply not_elem_of_nil in Hp |].
    apply elem_of_seqZ in Hp. unfold SRSRAN_NRE in Hp. exists s, l, (p - (l + s * ns) * N * 12). split_and!; try done; lia.
  - intros (s & l & k & Hs & Hl & Hne & Hk & ->). exists s. split; [done |]. apply elem_of_blocks. exists l. split; [done |].
    unfold symbol_idx. rewrite re_idx_exact by (try done; specialize (Hsrs s); lia). destruct (Z.eqb_spec l (L_ref cell)); [done |].
    apply elem_of_seqZ. unfold SRSRAN_NRE. lia.
Qed.
End elements.

(** The symbols of an uplink grant whose slots are in the cell go to the elements of
    its blocks in every symbol of the subframe but the references and the one kept for sounding,
    each to its own; there are as many as the grant counts; and they are got back in order. *)
Theorem pusch_put_get {A} cell g sh (symbols grid : list A) :
  6 <= nof_prb cell <= SRSRAN_MAX_PRB -> rb_range (ug_L_prb g) (ug_tilde0 g) (nof_prb cell) ->
  rb_range (ug_L_prb g) (ug_tilde1 g) (nof_prb cell) ->
  zlen grid = 2 * SRSRAN_CP_NSYMB (cp cell) * nof_prb cell * 12 ->
  zlen symbols = ug_nof_re (srsran_ra_ul_compute_nof_re (cp cell) (Z.b2z sh) g) ->
  exists grid', pusch_put cell g sh symbols grid = Some (grid', zlen symbols) /\
    pusch_get cell g sh grid' = Some symbols /\ zlen grid' = zlen grid /\
    forall p, zget grid' p = zget grid p \/
      exists s l k, 0 <= s < 2 /\ 0 <= l < SRSRAN_CP_NSYMB (cp cell) - N_srs sh s /\ l <> L_ref cell /\
        tilde g s * 12 <= k < (tilde g s + ug_L_prb g) * 12 /\ p = (l + s * SRSRAN_CP_NSYMB (cp cell)) * nof_prb cell * 12 + k.
Proof.
  unfold SRSRAN_MAX_PRB. intros HN H0 H1 Hgrid Hs. pose proof (ul_nsymb cell) as [Hns _].
  destruct (pusch_cp_spec cell g sh HN H0 H1) as [[Hd Hb] Hl].
  assert (zlen symbols = zlen (pusch_cp cell g sh)) as Hlen.
  { rewrite Hs, Hl. unfold srsran_ra_ul_compute_nof_re, SRSRAN_NRE. cbn [ug_nof_re set_ug_tb set_ug_re].
    destruct H0 as (? & ? & ?). rewrite (uwrap_small 32 (2 * _ - _)) by (unfold is_uint; destruct sh; simpl; lia).
    rewrite uwrap_small; [done |]. unfold is_uint. destruct sh; simpl; nia. }
  destruct (put_distinct symbols (pusch_cp cell g sh) grid) as (grid' & Ep & Hz & Hin & Hout); [done | | lia |].
  { eapply Forall_impl; [exact Hb |]. intros p Hp. simpl in Hp. unfold in_range. lia. }
  exists grid'. unfold pusch_put, pusch_get. rewrite Ep, Hlen. cbn [mbind option_bind].
  split_and!; [done | by apply get_all | done |]. intros p. destruct (decide (p ∈ pusch_cp cell g sh)) as [Hp | Hp].
  - right. by apply elem_of_pusch_cp in Hp.
  - left. by apply Hout.
Qed.

(** ** Examples *)

(** A grant of four blocks from block 5, the flag of the hopping and the scheme being given. *)
Definition ul_message (n hop mcs : Z) : srsran_dci_ul_t :=
  set_u_tb (DciTbInfo mcs 0 true 0) (set_u_freq_hop_fl hop (set_u_type2 (Type2 (srsran_ra_type2_to_riv 4 5 n) 0 0 0) zero_ul)).
Definition no_offset : srsran_pusch_hopping_cfg_t := PuschHoppingCfg 1 0 1 0 0 false.
Definition cell_25 : srsran_cell_t := Cell 25 1 7 SRSRAN_CP_NORM SRSRAN_FDD.

Lemma ul_grant_complete_witness :
  exists c g, srsran_ra_ul_dci_to_grant cell_25 no_offset (ul_message 25 1 12) = Some (c, g) /\
    (c = SRSRAN_SUCCESS /\ ul_grant_ok cell_25 no_offset (ul_message 25 1 12) g \/
     c = SRSRAN_ERROR /\ ul_refused 25 no_offset (ul_message 25 1 12)).
Proof. apply (ul_grant_complete cell_25 no_offset (ul_message 25 1 12)); [done | done |]. split; vm_compute; split; congruence. Defined.

Definition grant_4 (t0 t1 : Z) : srsran_pusch_grant_t := set_ug_tilde t0 t1 (set_ug_prb 4 t0 t1 0 zero_pusch_grant).

Lemma pusch_put_get_witness :
  exists grid', pusch_put cell_15 (grant_4 5 9) true (seqZ 1 528) (replicate 2520 0) = Some (grid', zlen (seqZ 1 528)) /\
    pusch_get cell_15 (grant_4 5 9) true grid' = Some (seqZ 1 528) /\ zlen grid' = zlen (replicate 2520 0) /\
    forall p, zget grid' p = zget (replicate 2520 0) p \/
      exists s l k, 0 <= s < 2 /\ 0 <= l < 7 - N_srs true s /\ l <> L_ref cell_15 /\
        tilde (grant_4 5 9) s * 12 <= k < (tilde (grant_4 5 9) s + 4) * 12 /\ p = (l + s * 7) * 15 * 12 + k.
Proof.
  apply (pusch_put_get cell_15 (grant_4 5 9) true (seqZ 1 528) (replicate 2520 0));
    [done | vm_compute; split_and!; congruence | vm_compute; split_and!; congruence | by vm_compute | by vm_compute].
Defined.

(** The blocks of the two slots and the size of a grant. *)
Definition ul_outcome (cell : srsran_cell_t) (hop mcs : Z) : option (Z * Z * Z * Z) :=
  '(c, g) ← srsran_ra_ul_dci_to_grant cell no_offset (ul_message (nof_prb cell) hop mcs);
  Some (c, ug_prb0 g, ug_prb1 g, rt_tbs (ug_tb g)).

(** In a cell of fewer than 50 blocks the message has one hopping bit, which the unpacking
    stores as it is: 0 is hopping by half the band in the table, a quarter in the enumeration
    (11 where the table has 17); 1 is type 2, a quarter back in the enumeration. *)
Example narrow_hopping : (fun hop => ul_outcome cell_25 hop 12) <$> [0; 1; 2; 3]
  = [Some (0, 5, 11, 776); Some (-1, 5, 23, 0); Some (0, 5, 17, 776); Some (0, 5, 5, 776)].
Proof. by vm_compute. Qed.

(** Hopping of type 2 with one subband: the standard keeps the blocks of an even slot and
    mirrors those of an odd one; without the parentheses around the mirrored term, which takes
    the factor [f_m], an even slot starts one block too low, and from block 0 out of the cell. *)
Example hop_without_mirror :
  let q := PuschHopping true cell_25 no_sequence in
  let h := PuschHoppingCfg SRSRAN_PUSCH_HOP_MODE_INTRA_SF 0 1 0 0 true in
  (fun p => g ← srsran_ra_ul_pusch_hopping q 0 h (set_ug_prb 4 p p 2 zero_pusch_grant); Some (ug_tilde0 g, ug_tilde1 g)) <$> [0; 5]
  = [Some (24, 24); Some (4, 19)].
Proof. by vm_compute. Qed.

(** The loop of [f_hop_sum] advances the index of the subframe, not its own: its second round
    shifts by -10 places. *)
Example f_hop_sum_undefined :
  f_hop_sum_round (replicate 210 1) (3, 31, 0) = Some (inl (4, 31, 1)) /\ f_hop_sum_round (replicate 210 1) (4, 31, 1) = None.
Proof. split; by vm_compute. Qed.
