(* ===== verification/DciDecode.v ===== *)
(** * Decoding any message ([lib/src/phy/ue/ngscope_dci.c])

    NG-Scope unpacks what the blind search finds, which is any string of bits, and turns it
    into a grant. The readers of [DciPack] are typed here: what they consume of the array and
    the ranges of the fields they return, whatever the bits are. *)

From S2P Require Export RaUl DciRoundtrip.

(** ** The two functions ([ngscope_dci.c], [ue_dl.c]) *)

Definition srsran_ue_dl_dci_to_pdsch_grant_wo_mimo_yx (cell : srsran_cell_t) (sf : srsran_dl_sf_cfg_t) (tm : srsran_tm_t)
    (use_tbs_index_alt : bool) (dci : srsran_dci_dl_t) : option (Z * srsran_pdsch_grant_t) :=
  srsran_ra_dl_dci_to_grant_wo_mimo_yx cell sf tm use_tbs_index_alt dci.

(** The code, the DCI and, where the unpacking succeeds, the grant; the grant of the caller is
    left alone otherwise. *)
Definition srsran_ngscope_unpack_dl_dci_2grant (cell : srsran_cell_t) (sf : srsran_dl_sf_cfg_t) (cfg : srsran_dci_cfg_t)
    (tm : srsran_tm_t) (alt : bool) (msg : srsran_dci_msg_t) (grant : srsran_pdsch_grant_t)
  : option (Z * srsran_dci_msg_t * srsran_dci_dl_t * srsran_pdsch_grant_t) :=
  '(c, msg, dci) ← srsran_dci_msg_unpack_pdsch cell sf (Some cfg) msg;
  if negb (c =? SRSRAN_SUCCESS) then Some (SRSRAN_ERROR, msg, dci, grant)
  else
    '(c, grant) ← srsran_ue_dl_dci_to_pdsch_grant_wo_mimo_yx cell sf tm alt dci;
    Some (if negb (c =? SRSRAN_SUCCESS) then SRSRAN_ERROR else SRSRAN_SUCCESS, msg, dci, grant).

(** The hopping of the grant: one subband, no offset, between subframes. *)
Definition ul_hopping : srsran_pusch_hopping_cfg_t := PuschHoppingCfg 1 0 1 0 0 false.

Definition srsran_ngscope_unpack_ul_dci_2grant (cell : srsran_cell_t) (sf : srsran_dl_sf_cfg_t) (cfg : srsran_dci_cfg_t)
    (msg : srsran_dci_msg_t) (grant : srsran_pusch_grant_t)
  : option (Z * srsran_dci_msg_t * srsran_dci_ul_t * srsran_pusch_grant_t) :=
  '(c, msg, dci) ← srsran_dci_msg_unpack_pusch cell sf (Some cfg) msg;
  if negb (c =? SRSRAN_SUCCESS) then Some (SRSRAN_ERROR, msg, dci, grant)
  else
    '(c, grant) ← srsran_ra_ul_dci_to_grant cell ul_hopping dci;
    Some (if negb (c =? SRSRAN_SUCCESS) then SRSRAN_ERROR else SRSRAN_SUCCESS, msg, dci, grant).

(** ** Types of readers *)

Definition is_bit (b : Z) : Prop := b = 0 \/ b = 1.
Definition bits (l : list Z) : Prop := zlen l = SRSRAN_DCI_MAX_BITS /\ Forall is_bit l.

(** A reader of at most [k] elements, whose results are in [Q] wherever it is run on bits. *)
Definition typed {A} (r : reader A) (k : Z) (Q : A -> Prop) : Prop :=
  forall l y, bits l -> 0 <= y -> y + k <= SRSRAN_DCI_MAX_BITS -> exists x y', r l y = Some (x, y') /\ y <= y' <= y + k /\ Q x.

Lemma typed_ret {A} (x : A) k (Q : A -> Prop) : 0 <= k -> Q x -> typed (mret x) k Q.
Proof. intros Hk HQ l y _ Hy Hk'. exists x, y. split_and!; [done | lia | lia | done]. Qed.

(** What the first reader does not use is left to the second. *)
Lemma typed_bind {A B} (r : reader A) (f : A -> reader B) k1 k Q1 Q2 :
  typed r k1 Q1 -> k1 <= k -> (forall x, Q1 x -> typed (f x) (k - k1) Q2) -> typed (r ≫= f) k Q2.
Proof.
  intros H1 Hk12 H2 l y Hl Hy Hk. destruct (H1 l y Hl Hy) as (x & y1 & E1 & Hy1 & Hx); [lia |].
  destruct (H2 x Hx l y1 Hl) as (z & y2 & E2 & Hy2 & Hz); [lia | lia |]. exists z, y2. split_and!; [| lia | lia | done].
  unfold mbind, reader_bind. unfold mbind, option_bind. by rewrite E1.
Qed.

Lemma typed_weaken {A} (r : reader A) k k' (Q Q' : A -> Prop) :
  typed r k Q -> k <= k' -> (forall x, Q x -> Q' x) -> typed r k' Q'.
Proof.
  intros H Hk HQ l y Hl Hy Hk'. destruct (H l y Hl Hy) as (x & y' & E & Hy' & Hx); [lia |].
  exists x, y'. split_and!; [done | lia | lia | by apply HQ].
Qed.

Lemma bits_get l y : bits l -> 0 <= y < SRSRAN_DCI_MAX_BITS -> exists b, zget l y = Some b /\ is_bit b.
Proof.
  intros [Hl Hb] Hy. destruct (zget_some l y) as [b E]; [unfold in_range; lia |]. exists b. split; [done |].
  rewrite zget_lookup in E by lia. by apply (Forall_lookup_1 _ _ _ _ Hb) in E.
Qed.

Lemma typed_get : typed get 1 is_bit.
Proof.
  intros l y Hl Hy Hk. destruct (bits_get l y Hl) as (b & E & Hb); [lia |]. exists b, (y + 1). unfold get. rewrite E.
  split_and!; [done | lia | lia | done].
Qed.

Lemma typed_skip : typed rskip 1 (fun _ => True).
Proof. intros l y _ Hy Hk. exists tt, (y + 1). split_and!; [done | lia | lia | done]. Qed.

Lemma typed_advance n : 0 <= n -> typed (radvance n) n (fun _ => True).
Proof. intros Hn l y _ Hy Hk. exists tt, (y + n). split_and!; [done | lia | lia | done]. Qed.

Lemma typed_pos : typed rpos 0 (fun y => 0 <= y <= SRSRAN_DCI_MAX_BITS).
Proof. intros l y _ Hy Hk. exists y, y. split_and!; [done | lia.. ]. Qed.

Lemma typed_lift {A} (o : option A) x : o = Some x -> typed (rlift o) 0 (fun z => z = x).
Proof. intros -> l y _ Hy Hk. exists x, y. split_and!; [done | lia | lia | done]. Qed.

Lemma typed_when {A} b (r : A -> reader A) x k (Q : A -> Prop) :
  0 <= k -> (b = true -> typed (r x) k Q) -> (b = false -> Q x) -> typed (rwhen b r x) k Q.
Proof.
  intros Hk H1 H2. destruct b; [by apply H1 |].
  apply typed_ret; auto.
Qed.

Lemma typed_if {A} (b : bool) (r1 r2 : reader A) k Q :
  (b = true -> typed r1 k Q) -> (b = false -> typed r2 k Q) -> typed (if b then r1 else r2) k Q.
Proof. destruct b; auto. Qed.

Lemma lor_below a b n : 0 <= n -> 0 <= a < 2 ^ n -> 0 <= b < 2 ^ n -> 0 <= Z.lor a b < 2 ^ n.
Proof.
  intros Hn Ha Hb. assert (uwrap n (Z.lor a b) = Z.lor a b) as <-.
  - apply Z.bits_inj'. intros i Hi. rewrite testbit_uwrap, Z.lor_spec by done.
    rewrite <- (uwrap_small n a) at 2 by done. rewrite <- (uwrap_small n b) at 2 by done. rewrite !testbit_uwrap by done.
    by destruct (i <? n), (Z.testbit a i), (Z.testbit b i).
  - unfold uwrap. apply Z.mod_pos_bound. lia.
Qed.

(** A field of [n] bits is below [2 ^ n]. *)
Lemma typed_bits n : 0 <= n <= 32 -> typed (srsran_bit_pack n) n (fun v => 0 <= v < 2 ^ n).
Proof.
  intros Hn l y Hl Hy Hk. unfold srsran_bit_pack.
  loop_inv (fun (_ : Z) v => 0 <= v < 2 ^ n) as (v & -> & Hv).
  - lia.
  - lia.
  - intros i v Hi Hv. destruct (bits_get l (y + i) Hl) as (b & E & Hb); [lia |]. rewrite E. cbn [mbind option_bind].
    unfold shl32. destruct (Z.leb_spec 0 (n - i - 1)), (Z.ltb_spec (n - i - 1) 32); try lia. cbn [andb mbind option_bind].
    eexists. split; [done |]. apply lor_below; [lia | done |]. rewrite Z.shiftl_mul_pow2 by lia.
    assert (0 < 2 ^ (n - i - 1) < 2 ^ n) as Hp by (split; [by apply Z.pow_pos_nonneg | apply Z.pow_lt_mono_r; lia]).
    assert (2 ^ n <= 2 ^ 32) by (apply Z.pow_le_mono_r; lia).
    rewrite uwrap_small; [| unfold is_uint]; destruct Hb as [-> | ->]; lia.
  - exists v, (y + n). split_and!; [done | lia..].
Qed.

(** One step of a reader that is a sequence. *)
Ltac tbind := first
  [ eapply typed_bind; [apply typed_get | lia | let b := fresh "b" in let H := fresh "Hb" in intros b H]
  | eapply typed_bind; [apply typed_bits; lia | lia | let v := fresh "v" in let H := fresh "Hv" in intros v H; cbv beta in H]
  | eapply typed_bind; [apply typed_skip | lia | intros _ _]].

(** ** Format 0 *)

Section formats.
Context (cell : srsran_cell_t) (sf : srsran_dl_sf_cfg_t) (cfg : srsran_dci_cfg_t).
Abbreviation N := (nof_prb cell).
Hypothesis HN : 6 <= N <= SRSRAN_MAX_PRB.
Hypothesis Hfdd : frame_type cell = SRSRAN_FDD.

Lemma riv_field n : 0 <= n <= riv_nbits N -> forall v, 0 <= v < 2 ^ n -> 0 <= v < N * (N + 1).
Proof.
  intros Hn v Hv. destruct (riv_nbits_enough N) as [_ H]; [unfold SRSRAN_MAX_PRB in *; lia |].
  pose proof (Z.pow_le_mono_r 2 n (riv_nbits N) ltac:(lia) ltac:(lia)). lia.
Qed.

Lemma fdd_not_tdd : IS_TDD cell = false /\ IS_TDD_CFG0 cell sf = false.
Proof. unfold IS_TDD_CFG0, IS_TDD. by rewrite Hfdd. Qed.

(** The fields of the widths of a format 0 message. *)
Record ul_typed (dci : srsran_dci_ul_t) : Prop := UlTyped {
  ut_ok : ul_dci_ok N dci;
  ut_tpc : 0 <= u_tpc_pusch dci < 4;
  ut_dmrs : 0 <= u_n_dmrs dci < 8;
  ut_cif : 0 <= u_cif dci < 8;
  ut_csi : 0 <= u_multiple_csi_request dci < 4;
  ut_ra : is_bit (u_ra_type dci)
}.

Lemma zero_ul_typed rnti loc f : ul_typed (set_u_format f (set_u_location loc (set_u_rnti rnti zero_ul))).
Proof. split; [split | ..]; cbn; unfold is_bit, SRSRAN_MAX_PRB in *; lia. Qed.

Lemma hopping_typed dci : ul_typed dci ->
  typed (unpack_hopping cell dci) 3 (fun r => 0 <= fst r <= 2 /\ fst r <= (if N <? 50 then 1 else 2) /\ ul_typed (snd r)).
Proof.
  intros [[H1 H2 _] H3 H4 H5 H6 H7]. assert (forall h, -1 <= h <= 3 -> ul_typed (set_u_freq_hop_fl h dci)) as Hh
    by (intros h Hh; split; [split |..]; done).
  unfold unpack_hopping. tbind. destruct (b =? 0).
  - apply typed_ret; [lia |]. cbn [fst snd]. split_and!; [lia | lia | destruct (N <? 50); lia | by apply Hh].
  - destruct (N <? 50).
    + tbind. apply typed_ret; [lia |]. cbn [fst snd]. unfold is_bit in *. split_and!; [lia.. | apply Hh; lia].
    + do 2 tbind. apply typed_ret; [lia |]. cbn [fst snd]. split_and!; [lia.. | apply Hh].
      destruct Hb0 as [-> | ->], Hb1 as [-> | ->]; vm_compute; split; congruence.
Qed.

(** Closes the typing of a grant one of whose fields was assigned. *)
Ltac ul_fields := match goal with H : ul_typed ?d |- ul_typed _ => destruct H as [[? ? ?] ? ? ? ? ?] end;
  split; [split |..]; cbn; try assumption; unfold is_bit in *; lia.

Lemma format0_typed msg dci : ul_typed dci -> typed (dci_format0_unpack cell sf cfg msg dci) 40 (fun r => ul_typed (snd r)).
Proof.
  intros Hd. unfold dci_format0_unpack. pose proof (riv_nbits_bound N ltac:(unfold SRSRAN_MAX_PRB in *; lia)) as Hriv.
  destruct fdd_not_tdd as [-> ->].
  eapply (typed_bind _ _ 3 _ ul_typed); [| lia |].
  { apply typed_when; [lia | | done]. intros _. tbind. apply typed_ret; [lia |]. ul_fields. }
  clear Hd. intros d Hd. tbind. destruct (negb (b =? 0)); [by apply typed_ret; [lia |] |].
  eapply typed_bind; [by apply hopping_typed | lia |]. intros [h d2] (Hh & Hh' & Hd2). cbn [fst snd] in *. clear Hd d.
  assert (h <= riv_nbits N) as Hhr.
  { destruct (riv_nbits_enough N) as [Hle _]; [unfold SRSRAN_MAX_PRB in *; lia |].
    destruct (Z.le_gt_cases h (riv_nbits N)); [done |]. assert (2 ^ riv_nbits N <= 2 ^ 2) by (apply Z.pow_le_mono_r; lia). nia. }
  tbind. pose proof (riv_field (riv_nbits N - h) ltac:(lia) v Hv) as Hv'.
  assert (ul_typed (set_u_type2 (set_riv v (u_type2 d2)) d2)) as Hd by ul_fields.
  set (d3 := set_u_type2 _ _) in *. clearbody d3. do 4 tbind.
  set (d4 := set_u_n_dmrs _ _). assert (ul_typed d4) as Hd4 by (unfold d4; ul_fields). clearbody d4.
  eapply (typed_bind _ _ 0 _ (fun d => d = d4)); [by apply typed_ret | lia |]. intros ? ->.
  eapply (typed_bind _ _ 2 _ ul_typed); [| lia |].
  { destruct (_ && _); tbind; (apply typed_ret; [lia |]; ul_fields). }
  intros d5 Hd5. eapply (typed_bind _ _ 1 _ ul_typed); [| lia |].
  { apply typed_when; [lia | | done]. intros _. tbind. apply typed_ret; [lia |]. ul_fields. }
  intros d6 Hd6. eapply (typed_bind _ _ 1 _ ul_typed); [| lia |].
  { apply typed_when; [lia | | done]. intros _. tbind. apply typed_ret; [lia |]. unfold nonzero. destruct (b1 =? 0); ul_fields. }
  intros d7 Hd7. apply typed_ret; [lia | done].
Qed.

(** ** Downlink formats *)

(** The fields of a downlink DCI outside its allocation. *)
Record dl_fields (dci : srsran_dci_dl_t) : Prop := DlFields {
  df_mcs0 : 0 <= mcs_idx (d_tb0 dci) < 32;
  df_mcs1 : 0 <= mcs_idx (d_tb1 dci) < 32;
  df_rv0 : -1 <= tb_rv (d_tb0 dci) < 4;
  df_rv1 : -1 <= tb_rv (d_tb1 dci) < 4;
  df_tpc : 0 <= d_tpc_pucch dci < 4;
  df_pid : 0 <= d_pid dci < 8;
  df_pinfo : 0 <= d_pinfo dci < 64;
  df_cif : 0 <= d_cif dci < 8;
  df_preamble : 0 <= d_preamble_idx dci < 64;
  df_mask : 0 <= d_prach_mask_idx dci < 16;
  df_dwpts : d_is_dwpts dci = false
}.

Definition dl_typed (dci : srsran_dci_dl_t) : Prop := dl_fields dci /\ alloc_in_range N dci.

(** Closes the ranges of the fields after assignments to some of them. *)
Ltac dl_ranges := match goal with H : dl_fields ?d |- dl_fields _ => destruct H end;
  split; cbn; try assumption; unfold is_bit in *; lia.

(** The two stages of an allocation of type 2. *)
Definition type2_begun (f : srsran_dci_format_t) (dci : srsran_dci_dl_t) : Prop :=
  dl_fields dci /\ d_format dci = f /\ d_alloc_type dci = SRSRAN_RA_ALLOC_TYPE2.

Lemma riv_len_range : 3 <= riv_nbits N <= 13.
Proof.
  pose proof (riv_nbits_bound N ltac:(unfold SRSRAN_MAX_PRB in *; lia)).
  destruct (riv_nbits_enough N) as [Hle _]; [unfold SRSRAN_MAX_PRB in *; lia |]. split; [| lia].
  destruct (Z.lt_ge_cases (riv_nbits N) 3) as [Hlt |]; [| done].
  assert (2 ^ riv_nbits N <= 2 ^ 2) by (apply Z.pow_le_mono_r; lia). nia.
Qed.

Lemma type2_done f dci : f <> SRSRAN_DCI_FORMAT1C -> d_format dci = f -> d_alloc_type dci = SRSRAN_RA_ALLOC_TYPE2 ->
  0 <= riv (d_alloc dci) < N * (N + 1) -> alloc_in_range N dci.
Proof.
  intros Hf Ef Et Hr. right. right. split; [done |]. unfold riv_in_range. by rewrite decide_False by congruence.
Qed.

Lemma cif_typed dci k (P : srsran_dci_dl_t -> Prop) : 3 <= k -> P dci ->
  (forall v, 0 <= v < 2 ^ 3 -> P (set_d_cif_present true (set_d_cif v dci))) -> typed (unpack_cif cfg dci) 3 P.
Proof. intros Hk Hd Hc. apply typed_when; [lia | | done]. intros _. tbind. apply typed_ret; [lia |]. by apply Hc. Qed.

Lemma dai_typed dci k (P : srsran_dci_dl_t -> Prop) : 0 <= k -> P dci -> typed (unpack_dai cell dci) k P.
Proof. intros Hk Hd. unfold unpack_dai. destruct fdd_not_tdd as [-> _]. by apply typed_ret. Qed.

Lemma alloc01_typed dci : dl_fields dci ->
  typed (unpack_alloc01 cell dci) 30 (fun r => fst r = SRSRAN_SUCCESS /\ dl_typed (snd r)).
Proof.
  intros Hd. unfold unpack_alloc01. assert (1 <= N <= SRSRAN_MAX_PRB) as Hprb by lia.
  pose proof (alloc_size_range cell Hprb) as Ha. pose proof (subset_len_range cell) as [Hs Has].
  eapply (typed_bind _ _ 1 _ (fun d => dl_fields d /\ (d_alloc_type d = 0 \/ d_alloc_type d = 1 /\ 10 < N))); [| lia |].
  { destruct (Z.ltb_spec 10 N).
    - tbind. apply typed_ret; [lia |]. split; [dl_ranges |]. cbn. unfold is_bit in Hb. lia.
    - apply typed_ret; [lia |]. split; [dl_ranges | by left]. }
  clear Hd. intros d [Hd Ht]. destruct Ht as [Ht | [Ht H10]]; rewrite Ht; cbn [Z.eqb Pos.eqb SRSRAN_RA_ALLOC_TYPE0 SRSRAN_RA_ALLOC_TYPE1].
  - tbind. apply typed_ret; [lia |]. split; [done |]. split; [dl_ranges | by left].
  - specialize (Has H10). do 3 tbind. apply typed_ret; [lia |]. split; [done |]. split; [dl_ranges |].
    right. left. split; [done |]. apply Hv.
Qed.

(** The typing of what follows an allocation keeps the allocation. *)
Ltac dl_done := split; [dl_ranges | assumption].

Definition size_ok (msg : srsran_dci_msg_t) : Prop := format_sizeof cell sf cfg (m_format msg) = Some (m_nof_bits msg).

Lemma pid_range : HARQ_PID_LEN cell sf = 3.
Proof. unfold HARQ_PID_LEN. by destruct fdd_not_tdd as [-> ->]. Qed.

Abbreviation success_typed := (fun r : Z * srsran_dci_msg_t * srsran_dci_dl_t => fst (fst r) = SRSRAN_SUCCESS -> dl_typed (snd r)).

Lemma format1_typed msg dci : dl_fields dci -> typed (dci_format1_unpack cell sf cfg msg dci) 60 success_typed.
Proof.
  intros Hd. unfold dci_format1_unpack.
  destruct (format1A_size cell sf cfg ltac:(lia)) as (n1A & E1A & _). destruct (format1_size cell sf cfg ltac:(lia) _ E1A) as (n & En & _).
  eapply typed_bind; [by apply typed_lift | lia |]. intros ? ->.
  destruct (negb _); [by apply typed_ret; [lia |] |].
  eapply (typed_bind _ _ 3 _ dl_fields); [| lia |].
  { apply (cif_typed _ 3); [lia | done |]. intros v Hv. dl_ranges. }
  clear Hd. intros d Hd. eapply typed_bind; [by apply alloc01_typed | lia |]. intros [c d2] [Hc [Hd2 Ha]]. cbn [fst snd] in Hc, Hd2, Ha. subst c.
  cbn [negb Z.eqb SRSRAN_SUCCESS]. rewrite pid_range. do 5 tbind.
  eapply (typed_bind _ _ 0 _ dl_typed); [| lia |].
  { apply (dai_typed _ 0); [lia |]. split; [dl_ranges | exact Ha]. }
  intros d3 Hd3. apply typed_ret; [lia | done].
Qed.

Lemma unpack_tb_typed t : typed (unpack_tb t) 8 (fun t' => 0 <= mcs_idx t' < 32 /\ 0 <= tb_rv t' < 4).
Proof. unfold unpack_tb. do 3 tbind. apply typed_ret; [lia |]. cbn. lia. Qed.

Lemma format2_typed msg dci : dl_fields dci -> typed (dci_format2AB_unpack cell sf cfg msg dci) 64 success_typed.
Proof.
  intros Hd. unfold dci_format2AB_unpack.
  eapply (typed_bind _ _ 3 _ dl_fields); [| lia |].
  { apply (cif_typed _ 3); [lia | done |]. intros v Hv. dl_ranges. }
  clear Hd. intros d Hd. eapply typed_bind; [by apply alloc01_typed | lia |]. intros [c d2] [Hc [Hd2 Ha]]. cbn [fst snd] in Hc, Hd2, Ha. subst c.
  cbn [negb Z.eqb SRSRAN_SUCCESS]. rewrite pid_range. clear Hd d. tbind.
  eapply (typed_bind _ _ 0 _ dl_typed); [| lia |].
  { apply (dai_typed _ 0); [lia |]. split; [dl_ranges | exact Ha]. }
  clear Ha Hd2 d2. intros d [Hd Ha]. do 2 tbind.
  set (d1 := (if is_2B _ then _ else _) _). assert (dl_fields d1 /\ alloc_in_range N d1) as [Hd1 Ha1].
  { unfold d1. destruct (is_2B _); (split; [dl_ranges | exact Ha]). }
  clearbody d1. clear Hd Ha d. eapply typed_bind; [apply unpack_tb_typed | lia |]. intros t0 [Hm0 Hr0].
  eapply typed_bind; [apply unpack_tb_typed | lia |]. intros t1 [Hm1 Hr1].
  assert (dl_fields (set_d_tb1 t1 (set_d_tb0 t0 d1))) as Hd2 by dl_ranges.
  assert (alloc_in_range N (set_d_tb1 t1 (set_d_tb0 t0 d1))) as Ha2 by exact Ha1.
  set (d2 := set_d_tb1 _ _) in *. clearbody d2.
  eapply (typed_bind _ _ 6 _ dl_typed); [| lia |].
  - assert (0 <= precoding_len cell SRSRAN_DCI_FORMAT2 <= 6 /\ 0 <= precoding_len cell SRSRAN_DCI_FORMAT2A <= 6) as [Hp2 Hp2A].
    { cbn. unfold precoding_bits_f2, precoding_bits_f2a. destruct (nof_ports cell <=? 2); lia. }
    assert (forall n v, 0 <= n <= 6 -> 0 <= v < 2 ^ n -> 0 <= v < 64) as Hw.
    { intros n x Hn Hx. pose proof (Z.pow_le_mono_r 2 n 6 ltac:(lia) ltac:(lia)). lia. }
    destruct (m_format msg); try (by apply typed_ret; [lia |]).
    + tbind. pose proof (Hw _ _ Hp2 Hv1). apply typed_ret; [lia |]. split; [dl_ranges | exact Ha2].
    + tbind. pose proof (Hw _ _ Hp2A Hv1). apply typed_ret; [lia |]. split; [dl_ranges | exact Ha2].
  - intros d3 [Hd3 Ha3]. apply typed_ret; [lia |]. intros _. unfold codewords. split; [dl_ranges | exact Ha3].
Qed.

(** *** The formats of type 2 *)

Lemma scan_some l at_ v fuel : bits l -> 0 <= at_ -> forall n i, 0 <= i -> n <= Z.of_nat fuel + i -> at_ + n <= SRSRAN_DCI_MAX_BITS ->
  exists r, scan_while fuel l at_ n v i = Some r.
Proof.
  intros Hl Ha. induction fuel as [| fuel IH]; intros n i Hi Hf Hn; cbn [scan_while]; (destruct (Z.ltb_spec i n); [| by eexists]); [lia |].
  destruct (bits_get l (at_ + i) Hl) as (b & -> & _); [lia |]. cbn [mbind option_bind].
  destruct (b =? v); [| by eexists]. apply IH; lia.
Qed.

(** The test for an order looks ahead, up to the length of the message. *)
Lemma order_typed msg : 1 <= m_nof_bits msg <= 60 -> typed (is_order cell msg) 61 (fun _ => True).
Proof.
  intros Hn l y Hl Hy Hk. unfold is_order. pose proof riv_len_range. unfold SRSRAN_DCI_MAX_BITS in Hk.
  destruct (bits_get l y Hl) as (b & -> & _); [unfold SRSRAN_DCI_MAX_BITS; lia |]. cbn [mbind option_bind].
  destruct (b =? 0); [| by exists false, y; split_and!; (done || lia)].
  destruct (scan_some l (y + 1) 1 128 Hl ltac:(lia) (riv_nbits N) 0) as (r & ->); [lia | lia | unfold SRSRAN_DCI_MAX_BITS; lia |].
  cbn [mbind option_bind]. destruct (r =? _); [| by exists false, y; split_and!; (done || lia)].
  rewrite uwrap_small by (unfold is_uint; lia).
  destruct (scan_some l y 0 128 Hl ltac:(lia) (m_nof_bits msg - 1) (1 + 10 + riv_nbits N)) as (r' & ->);
    [lia | lia | unfold SRSRAN_DCI_MAX_BITS; lia |].
  cbn [mbind option_bind]. eexists _, y. split_and!; (done || lia).
Qed.

Lemma format1A_typed msg dci : 1 <= m_nof_bits msg <= 60 -> dl_typed dci -> d_format dci = SRSRAN_DCI_FORMAT1A ->
  typed (dci_format1As_unpack cell sf cfg msg dci) 120 success_typed.
Proof.
  intros Hn [Hd Ha] Hf. unfold dci_format1As_unpack. pose proof riv_len_range as Hriv.
  eapply (typed_bind _ _ 3 _ (fun d => dl_typed d /\ d_format d = SRSRAN_DCI_FORMAT1A)); [| lia |].
  { apply (cif_typed _ 3); [lia | done |]. intros v Hv. split; [split; [dl_ranges | exact Ha] | done]. }
  clear Hd Ha Hf dci. intros d [[Hd Ha] Hf]. tbind. destruct (negb _); [by apply typed_ret; [lia |] |].
  eapply typed_bind; [by apply order_typed | lia |]. intros order _. destruct order.
  - eapply typed_bind; [apply typed_advance; lia | lia |]. intros _ _. do 2 tbind. apply typed_ret; [lia |].
    intros _. split; [dl_ranges | exact Ha].
  - cbv zeta. tbind. set (d1 := upd_d_alloc _ _).
    assert (type2_begun SRSRAN_DCI_FORMAT1A d1) as Hd1 by (unfold d1; split_and!; [dl_ranges | done | done]). clearbody d1.
    eapply (typed_bind _ _ 1 _ (type2_begun SRSRAN_DCI_FORMAT1A)); [| lia |].
    { apply typed_when; [lia | | done]. intros _. tbind. apply typed_ret; [lia |]. destruct Hd1 as (Hd1 & ? & ?).
      split_and!; [dl_ranges | done | done]. }
    clear Hd Ha Hf d Hd1 d1. intros d (Hd & Hf & Ht). rewrite pid_range.
    set (e := if _ && _ then 1 else 0). assert (0 <= riv_nbits N - e <= riv_nbits N) as He by (unfold e; destruct (_ && _); lia).
    eapply typed_bind; [apply typed_bits; lia | lia |]. intros r Hr. apply (riv_field _ He) in Hr. do 2 tbind.
    set (d1 := set_d_pid _ _). assert (dl_typed d1) as [Hd1 Ha1].
    { unfold d1. split; [dl_ranges |]. by apply (type2_done SRSRAN_DCI_FORMAT1A). }
    assert (d_format d1 = SRSRAN_DCI_FORMAT1A /\ d_alloc_type d1 = SRSRAN_RA_ALLOC_TYPE2 /\ 0 <= riv (d_alloc d1) < N * (N + 1)) as (Hf1 & Ht1 & Hr1) by done.
    clearbody d1. clear Hd Hf Ht d.
    assert (forall g, alloc_in_range N (upd_d_alloc (set_n_gap g) d1)) as Hgap by (intros g; by apply (type2_done SRSRAN_DCI_FORMAT1A)).
    eapply (typed_bind _ _ 1 _ (fun d => dl_typed d /\ forall b, alloc_in_range N (upd_d_alloc (set_n_prb1a b) d))); [| lia |].
    { destruct (negb _); [destruct (dist50 _ _) |]; tbind; (apply typed_ret; [lia |]); (split; [split; [dl_ranges |] |]);
        try exact Ha1; try apply Hgap; intros x; by apply (type2_done SRSRAN_DCI_FORMAT1A). }
    intros d2 [[Hd2 Ha2] Hp]. tbind.
    eapply (typed_bind _ _ 2 _ dl_typed); [| lia |].
    { destruct (is_user _); do 2 tbind; (apply typed_ret; [lia |]); (split; [dl_ranges |]); [exact Ha2 | apply Hp]. }
    intros d3 Hd3. eapply (typed_bind _ _ 0 _ dl_typed); [by apply (dai_typed _ 0) | lia |].
    intros d4 Hd4. apply typed_ret; [lia | done].
Qed.

Lemma format1BD_typed last msg dci f :
  (forall b d, dl_typed d -> dl_typed (last b d)) -> dl_fields dci -> d_format dci = f -> f <> SRSRAN_DCI_FORMAT1C ->
  typed (unpack_1BD cell sf cfg last msg dci) 50 success_typed.
Proof.
  intros Hlast Hd Hf Hf1C. unfold unpack_1BD. pose proof riv_len_range as Hriv.
  eapply (typed_bind _ _ 3 _ (fun d => dl_fields d /\ d_format d = f)); [| lia |].
  { apply (cif_typed _ 3); [lia | done |]. intros v Hv. split; [dl_ranges | done]. }
  clear Hd Hf dci. intros d [Hd Hf]. tbind. set (d1 := upd_d_alloc _ _).
  assert (type2_begun f d1) as Hd1 by (unfold d1; split_and!; [dl_ranges | done | done]). clearbody d1.
  eapply (typed_bind _ _ 1 _ (type2_begun f)); [| lia |].
  { apply typed_when; [lia | | done]. intros _. tbind. apply typed_ret; [lia |]. destruct Hd1 as (Hd1 & ? & ?).
    split_and!; [dl_ranges | done | done]. }
  clear Hd Hf d Hd1 d1. intros d (Hd & Hf & Ht). rewrite pid_range.
  set (e := if dist50 _ _ then 1 else 0). assert (0 <= riv_nbits N - e <= riv_nbits N) as He by (unfold e; destruct (dist50 _ _); lia).
  eapply typed_bind; [apply typed_bits; lia | lia |]. intros r Hr. apply (riv_field _ He) in Hr. do 5 tbind.
  eapply (typed_bind _ _ 0 _ dl_typed); [| lia |].
  { apply (dai_typed _ 0); [lia |]. split; [dl_ranges |]. by apply (type2_done f). }
  intros d2 [Hd2 Ha2]. assert (0 <= tpmi_bits (nof_ports cell) <= 4) as Htp by (unfold tpmi_bits; destruct (_ <=? 2); lia).
  do 2 tbind. apply typed_ret; [lia |]. intros _. apply Hlast.
  pose proof (Z.pow_le_mono_r 2 (tpmi_bits (nof_ports cell)) 4 ltac:(lia) ltac:(lia)). split; [dl_ranges | exact Ha2].
Qed.

Lemma n_vrb_1C g : exists v, srsran_ra_type2_n_vrb_dl N g = Some v /\ 1 <= v / srsran_ra_type2_n_rb_step N <= 110.
Proof.
  unfold SRSRAN_MAX_PRB in HN. destruct (n_vrb_dl_some N g) as (v & Ev); [lia |]. exists v. split; [done |].
  pose proof (n_vrb_dl_bound N g v ltac:(lia) Ev). unfold srsran_ra_type2_n_rb_step. zcase; lia.
Qed.

Lemma format1C_typed msg dci : dl_fields dci -> d_format dci = SRSRAN_DCI_FORMAT1C ->
  typed (dci_format1Cs_unpack cell sf cfg msg dci) 60 success_typed.
Proof.
  intros Hd Hf. unfold dci_format1Cs_unpack. destruct (format1C_size cell ltac:(lia)) as (n & En & _); [lia |].
  eapply typed_bind; [by apply typed_lift | lia |]. intros ? ->. destruct (negb _); [by apply typed_ret; [lia |] |]. cbv zeta.
  set (d1 := upd_d_alloc _ _).
  assert (type2_begun SRSRAN_DCI_FORMAT1C d1 /\ mode (d_alloc d1) = SRSRAN_RA_TYPE2_DIST) as Hd1
    by (unfold d1; split; [split_and!; [dl_ranges | done | done] | done]). clearbody d1.
  eapply (typed_bind _ _ 1 _ (fun d => type2_begun SRSRAN_DCI_FORMAT1C d /\ mode (d_alloc d) = SRSRAN_RA_TYPE2_DIST)); [| lia |].
  { apply typed_when; [lia | | done]. intros _. tbind. apply typed_ret; [lia |]. destruct Hd1 as [(Hd1 & ? & ?) ?].
    split; [split_and!; [dl_ranges | done | done] | done]. }
  clear Hd Hf Hd1 d1. intros d [(Hd & Hf & Ht) Hm].
  destruct (n_vrb_1C (n_gap (d_alloc d) =? SRSRAN_RA_TYPE2_NG1)) as (v & Ev & Hv). unfold riv_len_1C. rewrite Ev. cbn [mbind option_bind].
  set (m := v / _) in *. assert (1 <= m <= SRSRAN_MAX_PRB) as Hm' by (unfold SRSRAN_MAX_PRB; lia).
  pose proof (riv_nbits_bound m Hm') as Hb. destruct (riv_nbits_enough m Hm') as [_ He].
  eapply typed_bind; [by apply typed_lift | lia |]. intros ? ->. tbind. tbind.
  eapply typed_bind; [apply typed_pos | lia |]. intros y Hy. apply typed_ret; [lia |]. intros _. split; [dl_ranges |].
  right. right. split; [done |]. unfold riv_in_range. rewrite decide_True by done. split; [cbn; by rewrite Hm |]. exists v. split; [done |].
  cbv zeta. change (0 <= v0 < m * (m + 1)). lia.
Qed.

(** *** Messages *)

Lemma run_typed {A} (r : reader A) k Q msg : typed r k Q -> k <= SRSRAN_DCI_MAX_BITS -> bits (m_payload msg) ->
  exists x, run_unpack r msg = Some x /\ Q x.
Proof.
  intros Ht Hk Hb. destruct (Ht (m_payload msg) 0 Hb) as (x & y & E & _ & Hx); [lia | lia |]. exists x.
  unfold run_unpack. rewrite E. done.
Qed.

Lemma unpack_pdsch_typed msg : size_ok msg -> bits (m_payload msg) ->
  exists c msg' dci, srsran_dci_msg_unpack_pdsch cell sf (Some cfg) msg = Some (c, msg', dci) /\ (c = SRSRAN_SUCCESS -> dl_typed dci).
Proof.
  intros Hsz Hb. unfold srsran_dci_msg_unpack_pdsch. destruct fdd_not_tdd as [-> _]. cbn [mbind option_bind default].
  set (d := set_d_is_dwpts false _).
  assert (dl_typed d /\ d_format d = m_format msg) as [[Hd Ha] Hf].
  { split; [split; [split; cbn; lia || done | by left] | done]. }
  clearbody d.
  assert (forall (r : reader (Z * srsran_dci_msg_t * srsran_dci_dl_t)) k, typed r k success_typed -> k <= SRSRAN_DCI_MAX_BITS ->
    exists c msg' dci, run_unpack r msg = Some (c, msg', dci) /\ (c = SRSRAN_SUCCESS -> dl_typed dci)) as Hrun.
  { intros r k Hr Hk. destruct (run_typed r k _ msg Hr Hk Hb) as ([[c msg'] dci] & -> & Hx). by exists c, msg', dci. }
  unfold SRSRAN_DCI_MAX_BITS in Hrun. unfold size_ok in Hsz.
  destruct (m_format msg) eqn:Em; try (eexists _, _, _; by split).
  - eapply Hrun; [by apply format1_typed | lia].
  - eapply Hrun; [apply format1A_typed; [| done | done] | lia].
    destruct (format1A_size cell sf cfg ltac:(lia)) as (n & E & Hn & _). cbn [format_sizeof] in Hsz. rewrite Hsz in E. injection E as <-.
    pose proof (format0_size_range cell sf cfg ltac:(lia)). lia.
  - eapply Hrun; [eapply format1BD_typed; [| done | done | done] | lia]. intros b d' [Hd' Ha']. split; [dl_ranges | exact Ha'].
  - eapply Hrun; [by apply format1C_typed | lia].
  - eapply Hrun; [eapply format1BD_typed; [| done | done | done] | lia]. intros b d' [Hd' Ha']. split; [dl_ranges | exact Ha'].
  - eapply Hrun; [by apply format2_typed | lia].
  - eapply Hrun; [by apply format2_typed | lia].
  - eapply Hrun; [by apply format2_typed | lia].
Qed.

Lemma unpack_pusch_typed msg : bits (m_payload msg) ->
  exists c msg' dci, srsran_dci_msg_unpack_pusch cell sf (Some cfg) msg = Some (c, msg', dci) /\ ul_typed dci.
Proof.
  intros Hb. unfold srsran_dci_msg_unpack_pusch. cbn [default].
  destruct (run_typed _ _ _ msg (format0_typed msg _ (zero_ul_typed (m_rnti msg) (m_location msg) (m_format msg))))
    as ([[c msg'] dci] & E & Hx); [unfold SRSRAN_DCI_MAX_BITS; lia | done |]. by exists c, msg', dci.
Qed.
End formats.

(** ** Any message *)


(** What the downlink function makes of a message: what the unpacking makes of it, then a grant
    of the DCI or one of the reasons to refuse it. *)
Definition dl_decoded (cell : srsran_cell_t) (sf : srsran_dl_sf_cfg_t) (cfg : srsran_dci_cfg_t) (tm : srsran_tm_t) (alt : bool)
    (msg : srsran_dci_msg_t) (g0 : srsran_pdsch_grant_t) : Prop :=
  exists c1 msg' dci c g,
    srsran_dci_msg_unpack_pdsch cell sf (Some cfg) msg = Some (c1, msg', dci) /\
    srsran_ngscope_unpack_dl_dci_2grant cell sf cfg tm alt msg g0 = Some (c, msg', dci, g) /\
    if c1 =? SRSRAN_SUCCESS
    then c = SRSRAN_SUCCESS /\ grant_ok cell sf alt dci g \/ c = SRSRAN_ERROR /\ dl_refused (nof_prb cell) dci
    else c = SRSRAN_ERROR /\ g = g0.

(** C5: NG-Scope turns whatever the search finds in an FDD cell into a grant without
    leaving an array, or refuses it: when the unpacking does, or for one of the four reasons. *)
Theorem ngscope_dl_total cell sf cfg tm alt msg g0 :
  6 <= nof_prb cell <= SRSRAN_MAX_PRB -> frame_type cell = SRSRAN_FDD ->
  nof_ports cell = 1 \/ nof_ports cell = 2 \/ nof_ports cell = 4 ->
  sf_type sf = SRSRAN_SF_NORM -> 1 <= cfi sf <= 3 -> ~ four_ctrl_ext cell sf -> bits (m_payload msg) ->
  srsran_dci_format_sizeof cell (Some sf) (Some cfg) (m_format msg) = Some (m_nof_bits msg) ->
  dl_decoded cell sf cfg tm alt msg g0.
Proof.
  intros HN Hfdd Hports Hsf Hcfi Hcorner Hb Hsz.
  destruct (unpack_pdsch_typed cell sf cfg HN Hfdd msg Hsz Hb) as (c & msg' & dci & E & Hd).
  unfold dl_decoded, srsran_ngscope_unpack_dl_dci_2grant. rewrite E. cbn [mbind option_bind].
  destruct (Z.eqb_spec c SRSRAN_SUCCESS) as [-> | Hc]; cbn [negb].
  - destruct (Hd eq_refl) as [Hf Ha]. unfold srsran_ue_dl_dci_to_pdsch_grant_wo_mimo_yx.
    destruct (grant_exists cell sf tm alt dci Hfdd HN Hports Hsf Hcfi Hcorner) as (c & g & -> & Hg).
    { by destruct Hf; split. }
    cbn [mbind option_bind]. destruct Hg as [[-> Hg] | [-> Hg]]; eexists _, _, _, _, _; (split; [done |]); (split; [done |]); cbn; tauto.
  - eexists _, _, _, _, _. split; [done |]. split; [done |]. by destruct (Z.eqb_spec c SRSRAN_SUCCESS).
Qed.

(** C6: and likewise the uplink: any bits of format 0 become a grant of blocks of the
    cell, or are refused because they are of format 1A or hop out of the cell. *)
Theorem ngscope_ul_total cell sf cfg msg g0 :
  6 <= nof_prb cell <= SRSRAN_MAX_PRB -> frame_type cell = SRSRAN_FDD -> bits (m_payload msg) ->
  exists c1 msg' dci c g,
    srsran_dci_msg_unpack_pusch cell sf (Some cfg) msg = Some (c1, msg', dci) /\
    srsran_ngscope_unpack_ul_dci_2grant cell sf cfg msg g0 = Some (c, msg', dci, g) /\
    if c1 =? SRSRAN_SUCCESS
    then c = SRSRAN_SUCCESS /\ ul_grant_ok cell ul_hopping dci g \/ c = SRSRAN_ERROR /\ ul_refused (nof_prb cell) ul_hopping dci
    else c = SRSRAN_ERROR /\ g = g0.
Proof.
  intros HN Hfdd Hb. destruct (unpack_pusch_typed cell sf cfg HN Hfdd msg Hb) as (c & msg' & dci & E & Hd).
  unfold srsran_ngscope_unpack_ul_dci_2grant. rewrite E. cbn [mbind option_bind].
  destruct (Z.eqb_spec c SRSRAN_SUCCESS) as [-> | Hc]; cbn [negb].
  - destruct (ul_grant_exists cell ul_hopping dci HN) as (c & g & -> & Hg); [unfold even_up; cbn [n_rb_ho ul_hopping]; lia | apply Hd |].
    cbn [mbind option_bind]. destruct Hg as [[-> Hg] | [-> Hg]]; eexists _, _, _, _, _; (split; [done |]); (split; [done |]); cbn; tauto.
  - eexists _, _, _, _, _. split; [done |]. split; [done |]. by destruct (Z.eqb_spec c SRSRAN_SUCCESS).
Qed.

(** ** From the base station to NG-Scope *)

(** As many marks as an interval has blocks. *)
Lemma nof_marked_interval l RB L : 0 <= RB -> 0 <= L -> marks l (assigned_local L RB) -> RB + L <= 110 -> nof_marked l = L.
Proof.
  intros HRB HL [Hl Hm] Hend. unfold assigned_local in Hm.
  assert (l = replicate (Z.to_nat RB) false ++ replicate (Z.to_nat L) true ++ replicate (Z.to_nat (110 - RB - L)) false) as ->.
  { apply list_eq. intros i. specialize (Hm (Z.of_nat i)). rewrite zget_lookup, Nat2Z.id in Hm by lia.
    destruct (Nat.lt_ge_cases i (length l)) as [Hi | Hi].
    - destruct (lookup_lt_is_Some_2 l i Hi) as [b Eb]. rewrite Eb in *. unfold zlen in Hl.
      destruct (Nat.lt_ge_cases i (Z.to_nat RB)).
      { rewrite lookup_app_l, lookup_replicate_2 by (rewrite ?length_replicate; lia). destruct b; [| done].
        destruct Hm as [Hm _]. specialize (Hm eq_refl). lia. }
      rewrite lookup_app_r, length_replicate by (rewrite ?length_replicate; lia).
      destruct (Nat.lt_ge_cases i (Z.to_nat (RB + L))).
      { rewrite lookup_app_l, lookup_replicate_2 by (rewrite ?length_replicate; lia). apply Hm. lia. }
      rewrite lookup_app_r, length_replicate, lookup_replicate_2 by (rewrite ?length_replicate; lia). destruct b; [| done].
      destruct Hm as [Hm _]. specialize (Hm eq_refl). lia.
    - rewrite lookup_ge_None_2 by done. symmetry. apply lookup_ge_None_2. rewrite !length_app, !length_replicate. unfold zlen in Hl. lia. }
  unfold nof_marked. rewrite !filter_app.
  assert (forall n, filter (fun b => b = true) (replicate n false) = []) as Hff by (intros n; by induction n).
  assert (forall n, filter (fun b => b = true) (replicate n true) = replicate n true) as Hft 
    by (intros n; induction n as [| n IH]; [done | rewrite replicate_S, filter_cons_True by done; by f_equal]).
  rewrite !Hff, Hft, app_nil_r, app_nil_l. unfold zlen. rewrite length_replicate. lia.
Qed.

(** No range of blocks has the RIV of all ones, which would be taken for an order. *)
Lemma riv_not_ones N : 6 <= N <= SRSRAN_MAX_PRB -> forall L RB, rb_range L RB N -> 0 <= srsran_ra_type2_to_riv L RB N < 2 ^ riv_nbits N - 1.
Proof.
  unfold SRSRAN_MAX_PRB. intros HN L RB Hr. pose proof (to_riv_bound L RB N Hr ltac:(lia)) as Hb.
  destruct (riv_nbits_enough N) as [He _]; [unfold SRSRAN_MAX_PRB; lia |].
  assert (N * (N + 1) / 2 <> 2 ^ riv_nbits N) as Hne; [| lia].
  assert (forallb (fun n => (n <? 6) || negb (n * (n + 1) / 2 =? 2 ^ riv_nbits n)) (seqZ 0 111) = true) as Hall by (by vm_compute).
  pose proof (forallb_below _ _ Hall N ltac:(lia)) as H. cbv beta in H. lia.
Qed.

(** The downlink assignment of [L] blocks from [RB] on to a user, in format 1A. *)
Record assigns_1A (cell : srsran_cell_t) (cfg : srsran_dci_cfg_t) (d : srsran_dci_dl_t) (L RB : Z) : Prop := Assigns1A {
  as_range : dl_in_range cfg d;
  as_format : d_format d = SRSRAN_DCI_FORMAT1A;
  as_user : SRSRAN_RNTI_ISUSER (d_rnti d) = true;
  as_order : d_is_pdcch_order d = false;
  as_type : d_alloc_type d = SRSRAN_RA_ALLOC_TYPE2;
  as_blocks : rb_range L RB (nof_prb cell);
  as_alloc : d_alloc d = Type2 (srsran_ra_type2_to_riv L RB (nof_prb cell)) 0 0 SRSRAN_RA_TYPE2_LOC
}.

Lemma dist50_local cell : dist50 cell SRSRAN_RA_TYPE2_LOC = false.
Proof. unfold dist50. apply andb_false_r. Qed.

Lemma assigns_1A_fits cell cfg d L RB : 6 <= nof_prb cell <= SRSRAN_MAX_PRB -> assigns_1A cell cfg d L RB -> dl_fits cell cfg d.
Proof.
  intros HN [Hr Ef Hu Ho Et Hb Ea]. unfold dl_fits. rewrite Ef. split; [done |].
  pose proof (riv_not_ones _ HN L RB Hb) as Hriv. pose proof (riv_len_range cell HN).
  assert (gap_len cell (is_user (d_rnti d)) (mode (d_alloc d)) = 0) as Hg by (unfold gap_len; by rewrite Ea, dist50_local, andb_false_r).
  split; rewrite ?Hg, ?Ea; cbn [mode n_gap n_prb1a riv]; try done; unfold SRSRAN_RA_TYPE2_LOC in *; rewrite ?Z.sub_0_r; lia.
Qed.

Lemma type2_range_1A n L RB : rb_range L RB n -> n <= 32768 ->
  type2_range n SRSRAN_DCI_FORMAT1A (Type2 (srsran_ra_type2_to_riv L RB n) 0 0 SRSRAN_RA_TYPE2_LOC) = Some (L, RB).
Proof. intros Hr Hn. unfold type2_range. cbn -[srsran_ra_type2_to_riv srsran_ra_type2_from_riv]. by apply from_to_riv. Qed.

(** What the message carries of such an assignment, and the blocks it still assigns. *)
Lemma carried_1A_local cell cfg d L RB : assigns_1A cell cfg d L RB ->
  let dci := carried_1A cell cfg d in
  d_alloc_type dci = SRSRAN_RA_ALLOC_TYPE2 /\ d_alloc dci = d_alloc d /\ d_format dci = SRSRAN_DCI_FORMAT1A /\
  d_rnti dci = d_rnti d /\ d_pid dci = d_pid d /\ mcs_idx (d_tb0 dci) = mcs_idx (d_tb0 d) /\ mcs_idx (d_tb1 dci) = 0 /\
  d_is_dwpts dci = false.
Proof.
  intros [Hr Ef Hu Ho Et Hb Ea]. cbv zeta. unfold carried_1A, carried_head. rewrite Ea, Ef. cbn [mode]. rewrite dist50_local.
  unfold is_user. rewrite Hu. destruct (cif_enabled cfg); by split_and!.
Qed.

Lemma carried_1A_assigned cell cfg d L RB slot1 k : nof_prb cell <= SRSRAN_MAX_PRB -> assigns_1A cell cfg d L RB ->
  assigned (nof_prb cell) (carried_1A cell cfg d) slot1 k <-> assigned_local L RB k.
Proof.
  intros HN Has. destruct (carried_1A_local _ _ _ _ _ Has) as (Et & Ea & Ef & _). destruct Has as [_ _ _ _ _ Hb Ea'].
  unfold assigned. rewrite Et, Ea, Ef, Ea'. cbn [Z.eqb Pos.eqb SRSRAN_RA_ALLOC_TYPE0 SRSRAN_RA_ALLOC_TYPE1 SRSRAN_RA_ALLOC_TYPE2 mode SRSRAN_RA_TYPE2_LOC].
  rewrite type2_range_1A by (unfold SRSRAN_MAX_PRB in *; done || lia).
  split; [by intros (? & ? & [= <- <-] & ?) | intros ?; by exists L, RB].
Qed.

(** The DCI is decoded, and refused for none of the reasons. *)
Lemma carried_1A_ok cell cfg d L RB : 6 <= nof_prb cell <= SRSRAN_MAX_PRB -> assigns_1A cell cfg d L RB ->
  dl_dci_ok (nof_prb cell) (carried_1A cell cfg d) /\ ~ dl_refused (nof_prb cell) (carried_1A cell cfg d).
Proof.
  intros HN Has. destruct (carried_1A_local _ _ _ _ _ Has) as (Et & Ea & Ef & Eu & _ & Em0 & Em1 & Ed).
  pose proof Has as [Hr _ Hu _ _ Hb Ea']. unfold SRSRAN_MAX_PRB in HN. split.
  - split; [| pose proof (dr_mcs _ _ Hr); lia | lia | done]. right. right. split; [done |]. unfold riv_in_range. rewrite Ef, Ea, Ea'.
    rewrite decide_False by done. cbn [riv]. pose proof (to_riv_bound L RB _ Hb ltac:(lia)). nia.
  - unfold dl_refused. rewrite Et, Ea, Ea'. unfold broadcast. rewrite Eu, Hu. cbn [negb andb mode].
    intros [[? _] | [[_ ?] | [[? _] | [_ Hno]]]]; try done.
    apply (Hno RB). apply (carried_1A_assigned _ _ _ L RB); [unfold SRSRAN_MAX_PRB; lia | done |]. destruct Hb. unfold assigned_local. lia.
Qed.

(** A message that unpacks to what format 1A carries of such an assignment is reported so. *)
Lemma reported_1A cell sf cfg tm alt d L RB msg g0 :
  6 <= nof_prb cell <= SRSRAN_MAX_PRB -> frame_type cell = SRSRAN_FDD ->
  nof_ports cell = 1 \/ nof_ports cell = 2 \/ nof_ports cell = 4 ->
  sf_type sf = SRSRAN_SF_NORM -> 1 <= cfi sf <= 3 -> ~ four_ctrl_ext cell sf -> assigns_1A cell cfg d L RB ->
  srsran_dci_msg_unpack_pdsch cell sf (Some cfg) msg = Some (SRSRAN_SUCCESS, msg, carried_1A cell cfg d) ->
  exists dci g, srsran_ngscope_unpack_dl_dci_2grant cell sf cfg tm alt msg g0 = Some (SRSRAN_SUCCESS, msg, dci, g) /\
    d_rnti dci = d_rnti d /\ d_pid dci = d_pid d /\
    marks (pg_slot0 g) (assigned_local L RB) /\ marks (pg_slot1 g) (assigned_local L RB) /\ pg_nof_prb g = L /\
    pg_nof_tb g = 1 /\ rt_mcs_idx (pg_tb0 g) = mcs_idx (d_tb0 d) /\ tbs_of false (mcs_idx (d_tb0 d)) L = Some (rt_tbs (pg_tb0 g)).
Proof.
  intros HN Hfdd Hports Hsf Hcfi Hcorner Has Eu. set (dci := carried_1A cell cfg d) in *.
  destruct (carried_1A_ok _ _ _ _ _ HN Has) as [Hok Hno]. fold dci in Hok, Hno.
  destruct (carried_1A_local _ _ _ _ _ Has) as (Et & Ea & Ef & Er & Epid & Em & _). fold dci in Et, Ea, Ef, Er, Epid, Em.
  destruct (grant_exists cell sf tm alt dci Hfdd HN Hports Hsf Hcfi Hcorner Hok) as (c & g & Eg & [[-> ?] | [-> Hg]]); [done |].
  exists dci, g. split.
  { unfold srsran_ngscope_unpack_dl_dci_2grant, srsran_ue_dl_dci_to_pdsch_grant_wo_mimo_yx. rewrite Eu. cbn [mbind option_bind Z.eqb negb SRSRAN_SUCCESS].
    by rewrite Eg. }
  destruct Hg as [S0 S1 _ Hcount T0 _ En0 En1 Em0 _ Hnt _].
  assert (forall l b, marks l (assigned (nof_prb cell) dci b) -> marks l (assigned_local L RB)) as Hmarks.
  { intros l b. apply marks_ext. intros k. apply carried_1A_assigned; [lia | done]. }
  destruct Has as [_ _ Hu _ _ Hb Ea']. destruct Hb as (Hb1 & Hb2 & Hb3). unfold SRSRAN_MAX_PRB in HN.
  assert (pg_nof_prb g = L) as HL.
  { destruct Hcount as [-> _]; [unfold second_gap; rewrite Ea, Ea'; tauto |].
    apply (nof_marked_interval _ RB); [lia | lia | by apply (Hmarks _ false) | lia]. }
  rewrite Ef in *. cbn [two_blocks negb] in En0, En1. rewrite andb_false_r in En0, En1. cbn [orb] in En0.
  rewrite En0, En1 in Hnt. destruct T0 as [_ T0]. specialize (T0 En0).
  assert (broadcast dci = false) as Hbc by (unfold broadcast; by rewrite Er, Hu). rewrite Hbc in T0. destruct T0 as [T0 _].
  assert (alt_table alt dci = false) as Halt by (unfold alt_table; rewrite bool_decide_true by done; apply andb_false_r).
  rewrite Halt, Em0, Em, HL in T0. split_and!; try done; [by apply (Hmarks _ false) | by apply (Hmarks _ true)].
Qed.

(** A base station's local assignment of [L] blocks from [RB] on to a user, packed in
    format 1A, is what NG-Scope reports of the message: the user, the process, those blocks in
    both slots, as many of them, and the one transport block with the size of the table. *)
Theorem ngscope_reports_1A cell sf cfg tm alt d L RB msg g0 :
  6 <= nof_prb cell <= SRSRAN_MAX_PRB -> frame_type cell = SRSRAN_FDD ->
  nof_ports cell = 1 \/ nof_ports cell = 2 \/ nof_ports cell = 4 ->
  sf_type sf = SRSRAN_SF_NORM -> 1 <= cfi sf <= 3 -> ~ four_ctrl_ext cell sf ->
  zlen (m_payload msg) = SRSRAN_DCI_MAX_BITS -> assigns_1A cell cfg d L RB ->
  exists msg' dci g, srsran_dci_msg_pack_pdsch cell sf (Some cfg) d msg = Some (SRSRAN_SUCCESS, msg') /\
    srsran_ngscope_unpack_dl_dci_2grant cell sf cfg tm alt msg' g0 = Some (SRSRAN_SUCCESS, msg', dci, g) /\
    d_rnti dci = d_rnti d /\ d_pid dci = d_pid d /\
    marks (pg_slot0 g) (assigned_local L RB) /\ marks (pg_slot1 g) (assigned_local L RB) /\ pg_nof_prb g = L /\
    pg_nof_tb g = 1 /\ rt_mcs_idx (pg_tb0 g) = mcs_idx (d_tb0 d) /\ tbs_of false (mcs_idx (d_tb0 d)) L = Some (rt_tbs (pg_tb0 g)).
Proof.
  intros HN Hfdd Hports Hsf Hcfi Hcorner Hl Has.
  destruct (dl_roundtrip cell sf (Some cfg) ltac:(lia) Hfdd d msg Hl (assigns_1A_fits _ _ _ _ _ HN Has)) as (msg' & Ep & _ & Eu).
  change (default zero_dci_cfg (Some cfg)) with cfg in Eu. unfold carried_dl in Eu. rewrite (as_format _ _ _ _ _ Has) in Eu.
  destruct (reported_1A cell sf cfg tm alt d L RB msg' g0 HN Hfdd Hports Hsf Hcfi Hcorner Has Eu) as (dci & g & H). by exists msg', dci, g.
Qed.

(** The uplink grant of [L] blocks from [RB] on, without hopping. *)
Record grants_0 (cell : srsran_cell_t) (cfg : srsran_dci_cfg_t) (d : srsran_dci_ul_t) (L RB : Z) : Prop := Grants0 {
  gr_cif_present : u_cif_present d = cif_enabled cfg;
  gr_cif : 0 <= u_cif d < 2 ^ 3;
  gr_hop : u_freq_hop_fl d = SRSRAN_RA_PUSCH_HOP_DISABLED;
  gr_blocks : rb_range L RB (nof_prb cell);
  gr_riv : riv (u_type2 d) = srsran_ra_type2_to_riv L RB (nof_prb cell);
  gr_mcs : 0 <= mcs_idx (u_tb d) <= 28;
  gr_tpc : 0 <= u_tpc_pusch d < 2 ^ 2;
  gr_dmrs : 0 <= u_n_dmrs d < 2 ^ 3
}.

(** C4: and a grant of [L] blocks from [RB] on without hopping, packed in format 0, is what
    NG-Scope reports: those blocks in both slots, the modulation and the size of the table. *)
Theorem ngscope_reports_0 cell sf cfg d L RB msg g0 :
  6 <= nof_prb cell <= SRSRAN_MAX_PRB -> frame_type cell = SRSRAN_FDD -> zlen (m_payload msg) = SRSRAN_DCI_MAX_BITS ->
  grants_0 cell cfg d L RB ->
  exists msg' msg'' dci g, srsran_dci_msg_pack_pusch cell sf (Some cfg) d msg = Some (SRSRAN_SUCCESS, msg') /\
    srsran_ngscope_unpack_ul_dci_2grant cell sf cfg msg' g0 = Some (SRSRAN_SUCCESS, msg'', dci, g) /\
    u_rnti dci = u_rnti d /\ ug_L_prb g = L /\ ug_tilde0 g = RB /\ ug_tilde1 g = RB /\
    ul_tb_ok (set_u_tb (DciTbInfo (mcs_idx (u_tb d)) 0 (tb_ndi (u_tb d)) 0) d) L (ug_tb g) /\
    ug_nof_re g = 2 * (SRSRAN_CP_NSYMB (cp cell) - 1) * L * 12.
Proof.
  intros HN Hfdd Hl [Hp Hc Hh Hb Er Hm Ht Hd]. assert (1 <= nof_prb cell <= SRSRAN_MAX_PRB) as Hprb by lia.
  pose proof (riv_not_ones _ HN L RB Hb) as Hriv. pose proof (riv_len_range cell HN) as Hlen.
  assert (n_ul_hop cell (u_freq_hop_fl d) = 0) as Hn by (unfold n_ul_hop; by rewrite Hh).
  assert (ul_in_range cell cfg d) as Hr.
  { split; rewrite ?Hn, ?Z.sub_0_r; try done; try lia. rewrite Hh. unfold SRSRAN_RA_PUSCH_HOP_DISABLED. destruct (_ <? 50); lia. }
  destruct (ul_roundtrip cell sf (Some cfg) d msg Hprb Hfdd Hr Hl) as (msg' & Ep & _ & Eu).
  change (default zero_dci_cfg (Some cfg)) with cfg in Eu. set (dci := carried_ul cfg d) in *. unfold SRSRAN_MAX_PRB in HN.
  assert (ul_dci_ok (nof_prb cell) dci) as Hok.
  { split; cbn [dci carried_ul u_type2 riv u_tb mcs_idx u_freq_hop_fl]; [| lia | rewrite Hh; unfold SRSRAN_RA_PUSCH_HOP_DISABLED; lia].
    rewrite Er. pose proof (to_riv_bound L RB _ Hb ltac:(lia)). nia. }
  assert (hop_type1 dci = false) as Ht1 by (unfold hop_type1; cbn [dci carried_ul u_freq_hop_fl]; by rewrite Hh).
  destruct (ul_grant_exists cell ul_hopping dci HN) as (c & g & Eg & Hg); [unfold even_up; cbn [n_rb_ho ul_hopping]; lia | done |].
  destruct Hg as [[-> Hg] | [_ (? & ? & _ & Hno & _)]]; [| congruence].
  exists msg', (set_m_format SRSRAN_DCI_FORMAT0 msg'), dci, g. split; [done |]. split.
  { unfold srsran_ngscope_unpack_ul_dci_2grant. rewrite Eu. cbn [mbind option_bind Z.eqb negb SRSRAN_SUCCESS]. by rewrite Eg. }
  destruct Hg as [Griv _ _ Ghop Gt0 Gt1 Gtb Gre _]. cbn [dci carried_ul u_type2 riv] in Griv. rewrite Er, from_to_riv in Griv by (done || lia).
  injection Griv as GL GR. rewrite <- GL in Gtb, Gre. unfold second_slot in Ghop. rewrite Ht1 in Ghop.
  split_and!; [done | done | congruence | congruence | exact Gtb | exact Gre].
Qed.

(** ** Witnesses *)

(** A message of format 1A in which every third bit is set. *)
Definition noise : list Z := (fun i => if i mod 3 =? 0 then 1 else 0) <$> seqZ 0 128.
Definition noise_1A (n : Z) : srsran_dci_msg_t :=
  DciMessage noise n zero_location SRSRAN_DCI_FORMAT1A 70 (S754_zero false) (S754_zero false).

Lemma noise_bits : bits noise.
Proof.
  split; [by vm_compute |]. apply Forall_fmap, Forall_forall. intros i _. unfold compose, is_bit. destruct (i mod 3 =? 0); lia.
Qed.


Lemma ngscope_dl_total_witness : dl_decoded cell_100 (subframe_0 2) zero_dci_cfg SRSRAN_TM2 false (noise_1A 28) zero_grant.
Proof.
  apply (ngscope_dl_total cell_100 (subframe_0 2) zero_dci_cfg SRSRAN_TM2 false (noise_1A 28) zero_grant);
    [by vm_compute | done | by right; left | done | done | by intros [? _] | apply noise_bits | by vm_compute].
Defined.

Lemma ngscope_ul_total_witness :
  exists c1 msg' dci c g,
    srsran_dci_msg_unpack_pusch cell_100 (subframe_0 2) (Some zero_dci_cfg) (noise_1A 28) = Some (c1, msg', dci) /\
    srsran_ngscope_unpack_ul_dci_2grant cell_100 (subframe_0 2) zero_dci_cfg (noise_1A 28) zero_pusch_grant = Some (c, msg', dci, g) /\
    if c1 =? SRSRAN_SUCCESS
    then c = SRSRAN_SUCCESS /\ ul_grant_ok cell_100 ul_hopping dci g \/ c = SRSRAN_ERROR /\ ul_refused 100 ul_hopping dci
    else c = SRSRAN_ERROR /\ g = zero_pusch_grant.
Proof.
  apply (ngscope_ul_total cell_100 (subframe_0 2) zero_dci_cfg (noise_1A 28) zero_pusch_grant); [by vm_compute | done | apply noise_bits].
Defined.

(** The same assignment of seven blocks from the fifth on, and a grant of four from the sixth. *)
Lemma user_1a_assigns : assigns_1A cell_15 zero_dci_cfg (user_1a 9) 7 4.
Proof. split; try done. Qed.

Lemma ngscope_reports_1A_witness :
  exists msg' dci g, srsran_dci_msg_pack_pdsch cell_15 (subframe_0 2) (Some zero_dci_cfg) (user_1a 9) empty_msg = Some (SRSRAN_SUCCESS, msg') /\
    srsran_ngscope_unpack_dl_dci_2grant cell_15 (subframe_0 2) zero_dci_cfg SRSRAN_TM2 false msg' zero_grant = Some (SRSRAN_SUCCESS, msg', dci, g) /\
    d_rnti dci = 100 /\ d_pid dci = 0 /\
    marks (pg_slot0 g) (assigned_local 7 4) /\ marks (pg_slot1 g) (assigned_local 7 4) /\ pg_nof_prb g = 7 /\
    pg_nof_tb g = 1 /\ rt_mcs_idx (pg_tb0 g) = 9 /\ tbs_of false 9 7 = Some (rt_tbs (pg_tb0 g)).
Proof.
  apply (ngscope_reports_1A cell_15 (subframe_0 2) zero_dci_cfg SRSRAN_TM2 false (user_1a 9) 7 4 empty_msg zero_grant);
    [by vm_compute | done | by right; left | done | done | by intros [? _] | done | apply user_1a_assigns].
Defined.

Lemma ul_message_grants : grants_0 cell_25 zero_dci_cfg (ul_message 25 (-1) 12) 4 5.
Proof. split; vm_compute; (done || by split). Qed.

Lemma ngscope_reports_0_witness :
  exists msg' msg'' dci g,
    srsran_dci_msg_pack_pusch cell_25 (subframe_0 2) (Some zero_dci_cfg) (ul_message 25 (-1) 12) empty_msg = Some (SRSRAN_SUCCESS, msg') /\
    srsran_ngscope_unpack_ul_dci_2grant cell_25 (subframe_0 2) zero_dci_cfg msg' zero_pusch_grant = Some (SRSRAN_SUCCESS, msg'', dci, g) /\
    u_rnti dci = 0 /\ ug_L_prb g = 4 /\ ug_tilde0 g = 5 /\ ug_tilde1 g = 5 /\
    ul_tb_ok (set_u_tb (DciTbInfo 12 0 true 0) (ul_message 25 (-1) 12)) 4 (ug_tb g) /\
    ug_nof_re g = 2 * (7 - 1) * 4 * 12.
Proof.
  apply (ngscope_reports_0 cell_25 (subframe_0 2) zero_dci_cfg (ul_message 25 (-1) 12) 4 5 empty_msg zero_pusch_grant);
    [by vm_compute | done | done | apply ul_message_grants].
Defined.
