(* ===== verification/Receive.v ===== *)
(** * From the assignment to its report

    The chain of the program in one piece: a base station packs an assignment ([DciPack]) and
    codes it ([Pdcch]); NG-Scope decodes the soft bits of the location ([Pdcch], [Viterbi]),
    unpacks the message ([DciPack]) and reports the grant ([DciDecode]). *)

From S2P Require Export Pdcch DciDecode.

(** ** Packed bits *)

Definition cell_bit (c : option Z) : Prop := match c with Some v => is_bit v | None => True end.

Lemma field_bits n v : Forall cell_bit (field n v).
Proof. unfold field. apply Forall_fmap, Forall_forall. intros i _. cbn. unfold is_bit. destruct (Z.testbit v _); cbn; lia. Qed.

Lemma flag_bits b : Forall cell_bit (flag b).
Proof. apply Forall_singleton. unfold cell_bit, is_bit. destruct b; cbn; lia. Qed.

Lemma small_bits v : 0 <= v < 2 -> Forall cell_bit (DciRoundtrip.byte v).
Proof. intros Hv. apply Forall_singleton. unfold cell_bit, is_bit. lia. Qed.

Lemma zeros_bits n : Forall cell_bit (zeros n).
Proof. apply Forall_replicate. by left. Qed.

Lemma skipped_bits : Forall cell_bit [None].
Proof. by apply Forall_singleton. Qed.

Create HintDb packed_bits discriminated.
#[export] Hint Resolve field_bits flag_bits zeros_bits skipped_bits : packed_bits.

Lemma format1A_bits cell d : dl1A_in_range cell d -> Forall cell_bit (format1A_shape cell d).
Proof.
  intros [_ _ Hm Hg Hp _ _ _]. unfold format1A_shape, ocells. cbv zeta.
  repeat (apply Forall_app; split); repeat match goal with |- Forall _ (if ?b then _ else _) => destruct b end;
    repeat (apply Forall_app; split); auto using small_bits, Forall_nil_2 with packed_bits.
Qed.

(** A payload of bits stays one. *)
Lemma written_bits f pay : Forall cell_bit f -> Forall is_bit pay -> zlen f <= zlen pay -> Forall is_bit (written f pay).
Proof.
  intros Hf Hp Hl. unfold written. apply Forall_app. split; [| by apply Forall_drop]. unfold fill. apply Forall_forall. intros x Hx.
  apply list_elem_of_lookup in Hx as [i Hi]. apply lookup_zip_with_Some in Hi as (c & o & -> & Hc & Ho).
  pose proof (Forall_lookup_1 _ _ _ _ Hf Hc) as Hcb. destruct c as [v |]; [done |].
  apply lookup_take_Some in Ho as [Ho _]. by apply (Forall_lookup_1 _ _ _ _ Hp Ho).
Qed.

(** Packing a message again into an array that begins with it changes nothing. *)
Lemma written_again f pay r : zlen f <= zlen pay -> zlen f <= zlen r -> take (length f) r = take (length f) (written f pay) -> written f r = r.
Proof.
  intros Hp Hr E. unfold written at 1. rewrite <- (take_drop (length f) r) at 3. f_equal. rewrite E. unfold zlen in *.
  assert (take (length f) (written f pay) = fill f (take (length f) pay)) as ->.
  { unfold written. apply take_app_length'. rewrite length_fill by (rewrite length_take; lia). done. }
  unfold fill. apply list_eq. intros i. rewrite !lookup_zip_with. destruct (f !! i) as [c |] eqn:Ec; [| done].
  apply lookup_lt_Some in Ec as Hi. destruct (lookup_lt_is_Some_2 (take (length f) pay) i) as [o ->]; [rewrite length_take; lia |].
  cbn. by destruct c.
Qed.

Lemma bits_of_payload l : Forall is_bit l -> exists b, l = bytes_of_bits b.
Proof.
  induction 1 as [| x l Hx Hl [b ->]]; [by exists [] |]. exists ((x =? 1) :: b). unfold bytes_of_bits. cbn. f_equal. by destruct Hx as [-> | ->].
Qed.

(** ** The chain *)

(** What packing an assignment in format 1A makes of a message. *)
Definition filled_1A (cell : srsran_cell_t) (d : srsran_dci_dl_t) (n : Z) : cells :=
  format1A_shape cell d ++ zeros (n - zlen (format1A_shape cell d)).

Lemma packed_1A cell sf cfg d msg : 6 <= nof_prb cell <= SRSRAN_MAX_PRB -> frame_type cell = SRSRAN_FDD -> dl_in_range cfg d -> dl1A_in_range cell d ->
  d_format d = SRSRAN_DCI_FORMAT1A -> zlen (m_payload msg) = SRSRAN_DCI_MAX_BITS ->
  exists n, srsran_dci_format_sizeof cell (Some sf) (Some cfg) SRSRAN_DCI_FORMAT1A = Some n /\ 20 <= n <= 60 /\ zlen (filled_1A cell d n) = n /\
    srsran_dci_msg_pack_pdsch cell sf (Some cfg) d msg
      = Some (SRSRAN_SUCCESS, DciMessage (written (filled_1A cell d n) (m_payload msg)) n (d_location d) SRSRAN_DCI_FORMAT1A (d_rnti d) (m_decode_prob msg) (m_corr msg)).
Proof.
  intros HN Hfdd Hr Ha Ef Hl. assert (1 <= nof_prb cell <= SRSRAN_MAX_PRB) as Hprb by lia.
  destruct (format1A_size cell sf cfg Hprb) as (n & E & Hn & _). pose proof (format1A_fields cell sf cfg Hprb n E) as Hsz.
  pose proof (zlen_format1A cell cfg d Hr Ha) as Hz. pose proof (riv_nbits_bound _ Hprb). pose proof (zlen_nonneg (format1A_shape cell d)).
  assert (5 <= riv_nbits (nof_prb cell)) as H5.
  { unfold SRSRAN_MAX_PRB in *. assert (forallb (fun p => (p <? 6) || (5 <=? riv_nbits p)) (seqZ 0 111) = true) as Hall by (by vm_compute).
    pose proof (forallb_below 111 _ Hall (nof_prb cell) ltac:(lia)) as Hp. cbv beta in Hp. lia. }
  assert (0 <= bif (cif_enabled cfg) 3 0) by (destruct (cif_enabled cfg); cbn; lia).
  unfold SRSRAN_DCI_MAX_BITS in Hl. exists n. split; [done |]. split; [lia |].
  assert (zlen (filled_1A cell d n) = n) as Hf by (unfold filled_1A; rewrite zlen_app, zlen_zeros; lia). split; [done |].
  unfold srsran_dci_msg_pack_pdsch, start_msg. cbn [m_format default from_option id]. rewrite Ef. unfold run_pack. cbn [m_payload].
  rewrite (ends_written _ _ n (m_payload msg) (format1A_ends cell sf cfg Hprb Hfdd d n Ha E)) by lia. done.
Qed.

(** The flag of format 1A comes after the carrier indicator. *)
Lemma flag_1A cell cfg d n : dl_in_range cfg d -> filled_1A cell d n !! Z.to_nat (if cif_enabled cfg then 3 else 0) = Some (Some 1).
Proof.
  intros Hr. unfold filled_1A, format1A_shape, ocells. cbv zeta. rewrite (dr_cif_present _ _ Hr). by destruct (cif_enabled cfg).
Qed.

(** What is received in place of the payload that was packed begins with the same bits, and is
    the payload of the message that is decoded. *)
Lemma received_1A cell sf cfg d n b rx pay : 6 <= nof_prb cell <= SRSRAN_MAX_PRB -> frame_type cell = SRSRAN_FDD -> dl_fits cell cfg d ->
  d_format d = SRSRAN_DCI_FORMAT1A -> srsran_dci_format_sizeof cell (Some sf) (Some cfg) SRSRAN_DCI_FORMAT1A = Some n -> zlen b = n ->
  zlen pay = SRSRAN_DCI_MAX_BITS -> zlen (m_payload rx) = SRSRAN_DCI_MAX_BITS -> m_location rx = d_location d ->
  bytes_of_bits b = take (Z.to_nat n) (written (filled_1A cell d n) pay) ->
  let payload := bytes_of_bits (frame b (d_rnti d)) ++ drop (length (frame b (d_rnti d))) (m_payload rx) in
  let rx' := with_decoded payload n (d_rnti d) SRSRAN_DCI_FORMAT1A rx in
  differentiate cfg payload SRSRAN_DCI_FORMAT1A = Some SRSRAN_DCI_FORMAT1A /\
  srsran_dci_msg_unpack_pdsch cell sf (Some cfg) rx' = Some (SRSRAN_SUCCESS, rx', carried_1A cell cfg d).
Proof.
  intros HN Hfdd Hfits Ef En Hb Hpay Hrx Hloc Ebits payload rx'.
  assert (dl_in_range cfg d /\ dl1A_in_range cell d) as [Hr Ha] by (unfold dl_fits in Hfits; by rewrite Ef in Hfits).
  pose proof (zlen_frame b (d_rnti d)) as Hfr.
  destruct (packed_1A cell sf cfg d rx' HN Hfdd Hr Ha Ef) as (n' & En' & Hn & HF & Epack).
  { unfold SRSRAN_DCI_MAX_BITS in *. change (m_payload rx') with payload. unfold payload. rewrite zlen_app, zlen_bytes_of_bits. unfold zlen in *. rewrite length_drop.
    assert (0 <= n <= 60); [| lia]. destruct (packed_1A cell sf cfg d (DciMessage pay 0 (m_location rx) SRSRAN_DCI_FORMAT1A 0 f32_0 f32_0) HN Hfdd Hr Ha Ef) as (n' & En' & Hn & _);
      [done |]. rewrite En in En'. injection En' as <-. lia. }
  rewrite En in En'. injection En' as <-. unfold SRSRAN_DCI_MAX_BITS in *.
  assert (zlen payload = 128) as Hpl by (unfold payload; rewrite zlen_app, zlen_bytes_of_bits; unfold zlen in *; rewrite length_drop; lia).
  assert (written (filled_1A cell d n) payload = payload) as Ew.
  { apply (written_again _ pay); [lia | lia |]. assert (length (filled_1A cell d n) = Z.to_nat n) as -> by (unfold zlen in HF; lia). rewrite <- Ebits.
    unfold payload, frame, bytes_of_bits. rewrite fmap_app, <- app_assoc. apply take_app_length'. rewrite length_fmap. unfold zlen in Hb. lia. }
  split.
  - cbn [differentiate]. pose proof (zget_written (filled_1A cell d n) payload (if cif_enabled cfg then 3 else 0) 1 ltac:(lia) (flag_1A cell cfg d n Hr) ltac:(destruct (cif_enabled cfg); lia)) as E.
    rewrite Ew in E. by rewrite E.
  - destruct (dl_roundtrip cell sf (Some cfg) ltac:(lia) Hfdd d rx' Hpl Hfits) as (msg' & Ep & _ & Eu). rewrite Epack in Ep. injection Ep as <-.
    change (m_payload rx') with payload in Eu. rewrite Ew, <- Hloc in Eu. unfold carried_dl in Eu. rewrite Ef in Eu. exact Eu.
Qed.


(** ** Witness *)

(** The assignment of blocks 4 to 10 of a cell of 15, sent at the first four CCEs. *)
Definition sent_1A : srsran_dci_dl_t := set_d_location (DciLoc 2 0 false f32_0) (user_1a 9).

Lemma sent_1A_assigns : assigns_1A cell_15 zero_dci_cfg sent_1A 7 4.
Proof. destruct user_1a_assigns as [[H1 H2 H3 H4 H5 H6] E1 E2 E3 E4 E5 E6]. by repeat split. Qed.

Definition awaited_1A : srsran_dci_msg_t := DciMessage (replicate 128 5) 0 (DciLoc 2 0 false f32_0) SRSRAN_DCI_FORMAT1A 0 f32_0 f32_0.

(** The object once the soft bits of a subframe are in. *)
Definition heard (q : pdcch_coder_t) (llr : list float32) : pdcch_coder_t :=
  PdcchCoder cell_15 [72; 72; 72] [8; 8; 8] (pc_max_bits q) llr (pc_rm_f q) (pc_seq q) (pc_crc q) (pc_tab q) (pc_decoder q).

