(* ===== verification/AsnArrays.v ===== *)
(** * Containers of the ASN.1 library ([lib/include/srsran/asn1/asn1_utils.h])

    [dyn_array] grows on the heap, [bounded_array] has a fixed capacity and
    [ext_array] starts in a small buffer inside the object. Each is specified by the
    list of its elements. *)

From S2P Require Import Prelude.

Section Arrays.
Context {T : Type} (dflt : T).

(** [new T[n]] *)
Definition new_array (n : Z) : list T := repeat dflt (Z.to_nat n).

(** [std::copy(&src[0], &src[n], dst)] *)
Definition copy_prefix (n : Z) (src dst : list T) : list T := take (Z.to_nat n) src ++ drop (Z.to_nat n) dst.

(** ** [dyn_array] *)

Record dyn_array := DynArray { da_data : option (list T); da_size : Z; da_cap : Z }.

Definition dyn_empty : dyn_array := DynArray None 0 0.
Definition dyn_array_of_size (new_size : Z) : dyn_array := DynArray (Some (new_array new_size)) new_size new_size.
Definition dyn_array_of_ptr (ptr : option (list T)) (nof_items : Z) : dyn_array :=
  match ptr with
  | Some src => DynArray (Some (copy_prefix nof_items src (new_array nof_items))) nof_items nof_items
  | None => DynArray None nof_items nof_items
  end.

Definition dyn_resize (a : dyn_array) (new_size new_cap : Z) : dyn_array :=
  if new_size =? da_size a then a
  else if new_size <=? da_cap a then DynArray (da_data a) new_size (da_cap a)
  else
    let cap := if new_cap <? new_size then new_size else new_cap in
    if 0 <? cap then
      let data := new_array cap in
      DynArray (Some (match da_data a with Some old => copy_prefix (da_size a) old data | None => data end)) new_size cap
    else DynArray None new_size cap.

(** [a[idx]] and [a[idx] = x]; the code does not test the index. *)
Definition dyn_get (a : dyn_array) (idx : Z) : option T := d ← da_data a; zget d idx.
Definition dyn_set (a : dyn_array) (idx : Z) (x : T) : option dyn_array :=
  d ← da_data a; d' ← zset d idx x; Some (DynArray (Some d') (da_size a) (da_cap a)).

Definition dyn_push_back (a : dyn_array) (elem : T) : option dyn_array :=
  let a := dyn_resize a (u32 (da_size a + 1)) (u32 (da_size a * 2)) in
  dyn_set a (u32 (da_size a - 1)) elem.

(** [erase(it)], with the position of the iterator; [None] is [end()]. *)
Definition dyn_erase (a : dyn_array) (it : Z) : option Z * dyn_array :=
  if (it <? 0) || (da_size a <=? it) then (None, a)
  else
    match da_data a with
    | Some d =>
        let n := Z.to_nat it in
        (Some it, DynArray (Some (take n d ++ take (Z.to_nat (da_size a) - n - 1) (drop (S n) d)
          ++ drop (Z.to_nat (da_size a) - 1) d)) (da_size a - 1) (da_cap a))
    | None => (None, a)
    end.

(** [operator=] from another array. *)
Definition dyn_assign (a other : dyn_array) : dyn_array :=
  let a := dyn_resize a (da_size other) 0 in
  match da_data other, da_data a with
  | Some src, Some dst => DynArray (Some (copy_prefix (da_size a) src dst)) (da_size a) (da_cap a)
  | _, _ => a
  end.

(** The elements. *)
Definition dyn_elements (a : dyn_array) : list T :=
  match da_data a with Some d => take (Z.to_nat (da_size a)) d | None => [] end.

Definition dyn_wf (a : dyn_array) : Prop :=
  0 <= da_size a <= da_cap a /\
  match da_data a with Some d => zlen d = da_cap a | None => da_cap a = 0 end.

Lemma zlen_new_array n : 0 <= n -> zlen (new_array n) = n.
Proof. intros Hn. unfold zlen, new_array. rewrite repeat_length. lia. Qed.

Lemma zlen_copy_prefix n src dst : 0 <= n <= zlen src -> n <= zlen dst -> zlen (copy_prefix n src dst) = zlen dst.
Proof. intros Hs Hd. unfold copy_prefix, zlen in *. rewrite length_app, length_take, length_drop. lia. Qed.

Lemma dyn_elements_len a : dyn_wf a -> zlen (dyn_elements a) = da_size a.
Proof.
  intros [Hs Hd]. unfold dyn_elements. destruct (da_data a); unfold zlen in *; [rewrite length_take | simpl]; lia.
Qed.

(** Resizing keeps the elements up to the new size; what it adds is unspecified
    (default elements or old ones). *)
Lemma dyn_resize_elements a n c :
  dyn_wf a -> 0 <= n -> 
  dyn_wf (dyn_resize a n c) /\ da_size (dyn_resize a n c) = n /\
  (n <= da_size a -> dyn_elements (dyn_resize a n c) = take (Z.to_nat n) (dyn_elements a)) /\
  (da_size a <= n -> exists tl, dyn_elements (dyn_resize a n c) = dyn_elements a ++ tl).
Proof.
  intros [Hs Hd] Hn. unfold dyn_resize. destruct (Z.eqb_spec n (da_size a)) as [-> | Hne].
  { split_and!; [done | done | |].
    - intros _. unfold dyn_elements. destruct (da_data a); [by rewrite take_take, Nat.min_id | by rewrite take_nil].
    - intros _. exists []. by rewrite app_nil_r. }
  destruct (Z.leb_spec n (da_cap a)) as [Hcap | Hgrow].
  { split_and!; [split; [simpl; lia | done] | done | |].
    - intros Hle. unfold dyn_elements. simpl. destruct (da_data a); [rewrite take_take; f_equal; lia | by rewrite take_nil].
    - intros Hle. unfold dyn_elements. simpl. destruct (da_data a) as [d |]; [| by exists []].
      exists (take (Z.to_nat n - Z.to_nat (da_size a)) (drop (Z.to_nat (da_size a)) d)).
      rewrite <- (take_drop (Z.to_nat (da_size a)) (take (Z.to_nat n) d)). rewrite take_take. f_equal; [f_equal; lia |].
      by rewrite skipn_firstn_comm. }
  cbv zeta. set (cap := if c <? n then n else c). assert (n <= cap) by (unfold cap; destruct (Z.ltb_spec c n); lia).
  destruct (Z.ltb_spec 0 cap); [| lia].
  assert (zlen (new_array cap) = cap) as Hnew by (apply zlen_new_array; lia).
  split_and!.
  - split; [simpl; lia |]. simpl. destruct (da_data a); [rewrite zlen_copy_prefix; lia | done].
  - done.
  - intros Hle. lia.
  - intros _. unfold dyn_elements. simpl. destruct (da_data a) as [d |]; [| simpl; by eexists].
    unfold copy_prefix. exists (take (Z.to_nat n - Z.to_nat (da_size a)) (drop (Z.to_nat (da_size a)) (new_array cap))).
    rewrite take_app, take_take, length_take. unfold zlen in *. do 2 f_equal; lia.
Qed.

Lemma dyn_push_back_elements a x :
  dyn_wf a -> da_size a + 1 < 2 ^ 32 ->
  exists a', dyn_push_back a x = Some a' /\ dyn_wf a' /\ dyn_elements a' = dyn_elements a ++ [x].
Proof.
  intros Hwf Hs. pose proof Hwf as [Hsz _]. unfold dyn_push_back. cbv zeta. rewrite (uwrap_small 32 (da_size a + 1)) by (unfold is_uint; lia).
  set (b := dyn_resize a _ _). destruct (dyn_resize_elements a (da_size a + 1) (u32 (da_size a * 2)) Hwf ltac:(lia)) as (Hb & Hbs & _ & Htl).
  fold b in Hb, Hbs, Htl. destruct (Htl ltac:(lia)) as [tl Etl]. clear Htl. rewrite Hbs.
  rewrite uwrap_small by (unfold is_uint; lia). replace (da_size a + 1 - 1) with (da_size a) by lia.
  pose proof (dyn_elements_len b Hb) as Hlen. rewrite Etl, zlen_app, dyn_elements_len, Hbs in Hlen by done.
  destruct Hb as [Hb1 Hb2]. unfold dyn_set, dyn_elements in *. destruct (da_data b) as [d |] eqn:Ed.
  2:{ lia. }
  cbn [mbind option_bind]. rewrite zset_in by (unfold in_range; lia). cbn [mbind option_bind].
  eexists. split; [done |]. split; [split; [simpl; lia | simpl; by rewrite zlen_insert] |]. simpl.
  rewrite Hbs in *. set (k := Z.to_nat (da_size a)) in *. replace (Z.to_nat (da_size a + 1)) with (S k) in * by lia.
  assert (k < length d)%nat as Hk by (unfold zlen in *; lia).
  rewrite (take_S_r _ k x) by (rewrite list_lookup_insert_eq by lia; done). rewrite take_insert by lia. f_equal.
  destruct tl as [| y [| z tl]]; [rewrite zlen_nil in Hlen; lia | | rewrite !zlen_cons in Hlen; pose proof (zlen_nonneg tl); lia].
  destruct (lookup_lt_is_Some_2 d k Hk) as [w Hw]. rewrite (take_S_r _ k w) in Etl by done.
  apply app_inj_tail in Etl as [Etl _]. rewrite decide_False by lia. done.
Qed.

(** [erase] removes one element and keeps the order of the others. *)
Lemma dyn_erase_elements a it :
  dyn_wf a ->
  (0 <= it < da_size a ->
    exists a', dyn_erase a it = (Some it, a') /\ dyn_wf a' /\ dyn_elements a' = delete (Z.to_nat it) (dyn_elements a)) /\
  (~ 0 <= it < da_size a -> dyn_erase a it = (None, a)).
Proof.
  intros [Hs Hd]. unfold dyn_erase. split; intros Hit.
  - assert ((it <? 0) || (da_size a <=? it) = false) as -> by lia. destruct (da_data a) as [d |] eqn:Ed; [| lia].
    set (n := Z.to_nat it). set (k := Z.to_nat (da_size a)). assert (n < k <= length d)%nat as Hk by (unfold zlen in *; lia).
    cbv zeta. eexists. split; [done |]. split.
    + split; [simpl; lia |]. simpl. rewrite <- Hd. unfold zlen.
      rewrite !length_app, !length_take, !length_drop. lia.
    + unfold dyn_elements. simpl. rewrite Ed. fold k. rewrite app_assoc.
      rewrite take_app_le by (rewrite length_app, !length_take, !length_drop; lia).
      rewrite take_ge by (rewrite length_app, !length_take, !length_drop; lia).
      rewrite delete_take_drop, take_take. f_equal; [f_equal; lia |].
      rewrite skipn_firstn_comm. f_equal. lia.
  - by assert ((it <? 0) || (da_size a <=? it) = true) as -> by lia.
Qed.

(** ** [bounded_array] *)

Record bounded_array := BoundedArray { ba_data : list T; ba_size : Z }.

Definition bounded_push_back (MAX_N : Z) (a : bounded_array) (elem : T) : option bounded_array :=
  if MAX_N <=? ba_size a then Some a
  else d ← zset (ba_data a) (ba_size a) elem; Some (BoundedArray d (u32 (ba_size a + 1))).

(** ** [ext_array] *)

(** The union of the small buffer and the capacity of the heap block. *)
Inductive small_buffer := SmallData (data : list T) | SmallCap (cap : Z).

(** [head] is the small buffer ([None]) or a heap block. *)
Record ext_array := ExtArray { ea_small : small_buffer; ea_size : Z; ea_head : option (list T) }.

Definition ext_empty (Nthres : Z) : ext_array := ExtArray (SmallData (new_array Nthres)) 0 None.

(** [None]: the capacity or the data are read from a union that holds the other. *)
Definition ext_capacity (Nthres : Z) (a : ext_array) : option Z :=
  match ea_head a with
  | None => Some Nthres
  | Some _ => match ea_small a with SmallCap c => Some c | SmallData _ => None end
  end.

Definition ext_resize (Nthres : Z) (a : ext_array) (new_size : Z) : option ext_array :=
  if new_size =? ea_size a then Some a
  else
    cap ← ext_capacity Nthres a;
    if new_size <=? cap then Some (ExtArray (ea_small a) new_size (ea_head a))
    else
      let newcap := u32 (new_size + 5) in
      match ea_small a with
      | SmallData d => Some (ExtArray (SmallCap newcap) new_size (Some (copy_prefix (ea_size a) d (new_array newcap))))
      | SmallCap _ => None
      end.

Definition ext_elements (a : ext_array) : list T :=
  match ea_head a, ea_small a with
  | Some d, _ => take (Z.to_nat (ea_size a)) d
  | None, SmallData d => take (Z.to_nat (ea_size a)) d
  | None, SmallCap _ => []
  end.

(** Rewriting the storage that [head] points to. *)
Definition ext_update (f : list T -> list T) (a : ext_array) : ext_array :=
  match ea_head a, ea_small a with
  | Some d, _ => ExtArray (ea_small a) (ea_size a) (Some (f d))
  | None, SmallData d => ExtArray (SmallData (f d)) (ea_size a) None
  | None, SmallCap _ => a
  end.

Definition ext_set (a : ext_array) (idx : Z) (x : T) : option ext_array :=
  match ea_head a, ea_small a with
  | Some d, _ => d' ← zset d idx x; Some (ExtArray (ea_small a) (ea_size a) (Some d'))
  | None, SmallData d => d' ← zset d idx x; Some (ExtArray (SmallData d') (ea_size a) None)
  | None, SmallCap _ => None
  end.

Definition ext_push_back (Nthres : Z) (a : ext_array) (elem : T) : option ext_array :=
  a ← ext_resize Nthres a (u32 (ea_size a + 1)); ext_set a (u32 (ea_size a - 1)) elem.

Definition ext_wf (Nthres : Z) (a : ext_array) : Prop :=
  0 <= ea_size a /\
  match ea_head a, ea_small a with
  | None, SmallData d => zlen d = Nthres /\ ea_size a <= Nthres
  | Some d, SmallCap c => zlen d = c /\ Nthres < c /\ ea_size a <= c
  | _, _ => False
  end.

(** From the small buffer the array grows once, keeping its elements; on the heap it
    grows within its capacity, and never beyond it. *)
Lemma ext_push_back_elements Nthres a x :
  0 <= Nthres -> ext_wf Nthres a -> ea_size a + 6 < 2 ^ 32 ->
  (ea_head a = None \/ (exists c, ext_capacity Nthres a = Some c /\ ea_size a < c) ->
    exists a', ext_push_back Nthres a x = Some a' /\ ext_wf Nthres a' /\ ext_elements a' = ext_elements a ++ [x]) /\
  (ea_head a <> None -> ext_capacity Nthres a = Some (ea_size a) -> ext_push_back Nthres a x = None).
Proof.
  intros HN [Hs Hwf] Hmax. unfold ext_push_back, ext_resize. rewrite (uwrap_small 32 (ea_size a + 1)) by (unfold is_uint; lia).
  destruct (Z.eqb_spec (ea_size a + 1) (ea_size a)); [lia |].
  assert (forall (d : list T) n, n < zlen d -> 0 <= n -> take (Z.to_nat (n + 1)) (<[Z.to_nat n := x]> d) = take (Z.to_nat n) d ++ [x]) as Htake.
  { intros d k Hk Hk0. replace (Z.to_nat (k + 1)) with (S (Z.to_nat k)) by lia.
    rewrite (take_S_r _ _ x) by (rewrite list_lookup_insert_eq by (unfold zlen in *; lia); done).
    by rewrite take_insert, decide_False by lia. }
  unfold ext_capacity, ext_elements. split.
  - intros Hroom. destruct (ea_head a) as [h |] eqn:Eh, (ea_small a) as [d | c] eqn:Es; try done; cbn [mbind option_bind].
    + destruct Hroom as [| (c' & [= <-] & Hc')]; [done |]. destruct Hwf as (Hh & HNc & Hsc).
      destruct (Z.leb_spec (ea_size a + 1) c); [| lia]. cbn [mbind option_bind ea_size]. unfold ext_set. simpl ea_head.
      rewrite uwrap_small by (unfold is_uint; simpl; lia). simpl ea_size.
      replace (ea_size a + 1 - 1) with (ea_size a) by lia. rewrite zset_in by (unfold in_range; lia). eexists. split; [done |].
      split; [split; [simpl; lia |]; simpl; rewrite zlen_insert; lia |]. simpl. apply Htake; lia.
    + destruct Hwf as (Hd & HsN). destruct (Z.leb_spec (ea_size a + 1) Nthres) as [Hin | Hout]; cbn [mbind option_bind ea_size].
      * rewrite uwrap_small by (unfold is_uint; simpl; lia). unfold ext_set. simpl ea_head. simpl ea_small. simpl ea_size.
        replace (ea_size a + 1 - 1) with (ea_size a) by lia. rewrite zset_in by (unfold in_range; lia). eexists. split; [done |].
        split; [split; [simpl; lia |]; simpl; rewrite zlen_insert; lia |]. simpl. apply Htake; lia.
      * rewrite (uwrap_small 32 (_ + 5)), uwrap_small by (unfold is_uint; simpl; lia). unfold ext_set. simpl ea_head. simpl ea_size.
        replace (ea_size a + 1 - 1) with (ea_size a) by lia.
        assert (zlen (copy_prefix (ea_size a) d (new_array (ea_size a + 1 + 5))) = ea_size a + 1 + 5) as Hl.
        { rewrite zlen_copy_prefix; rewrite ?zlen_new_array; lia. }
        rewrite zset_in by (unfold in_range; lia). eexists. split; [done |].
        split; [split; [simpl; lia |]; simpl; rewrite zlen_insert; lia |]. simpl. rewrite Htake by lia. f_equal.
        unfold copy_prefix. rewrite take_app_le by (rewrite length_take; unfold zlen in *; lia).
        by rewrite take_take, Nat.min_id.
  - destruct (ea_head a) as [h |]; [| done]. destruct (ea_small a) as [d | c]; [done |]. intros _ [= ->]. cbn [mbind option_bind].
    destruct (Z.leb_spec (ea_size a + 1) (ea_size a)); [lia | done].
Qed.
End Arrays.
Arguments dyn_array : clear implicits.
Arguments bounded_array : clear implicits.
Arguments ext_array : clear implicits.

(** ** Properties *)

(** appending to a [dyn_array] adds one element at its end, whether or not the
    array has to grow, and the array stays well formed. *)
Theorem dyn_push_back_spec {T} (dflt : T) (a : dyn_array T) (x : T) :
  dyn_wf a -> da_size a + 1 < 2 ^ 32 ->
  exists a', dyn_push_back dflt a x = Some a' /\ dyn_wf a' /\ dyn_elements a' = dyn_elements a ++ [x].
Proof. apply dyn_push_back_elements. Qed.

Lemma dyn_push_back_spec_witness :
  exists a', dyn_push_back 0 (DynArray (Some [4; 5; 6]) 3 3) 7 = Some a' /\ dyn_wf a' /\ dyn_elements a' = [4; 5; 6] ++ [7].
Proof. apply (dyn_push_back_spec 0 (DynArray (Some [4; 5; 6]) 3 3) 7); [split; simpl; [lia | done] | simpl; lia]. Defined.

(** appending to an [ext_array] adds one element at its end as long as the
    array is in its small buffer or its heap block has room; an array that is on the
    heap and full reads the small buffer, which holds the capacity by then. *)
Theorem ext_push_back_spec {T} (dflt : T) Nthres (a : ext_array T) (x : T) :
  0 <= Nthres -> ext_wf Nthres a -> ea_size a + 6 < 2 ^ 32 ->
  (ea_head a = None \/ (exists c, ext_capacity Nthres a = Some c /\ ea_size a < c) ->
    exists a', ext_push_back dflt Nthres a x = Some a' /\ ext_wf Nthres a' /\ ext_elements a' = ext_elements a ++ [x]) /\
  (ea_head a <> None -> ext_capacity Nthres a = Some (ea_size a) -> ext_push_back dflt Nthres a x = None).
Proof. apply ext_push_back_elements. Qed.

Lemma ext_push_back_spec_witness :
  let a := ExtArray (SmallCap 3) 3 (Some [1; 2; 3]) in
  (ea_head a = None \/ (exists c, ext_capacity 2 a = Some c /\ ea_size a < c) ->
    exists a', ext_push_back 0 2 a 9 = Some a' /\ ext_wf 2 a' /\ ext_elements a' = ext_elements a ++ [9]) /\
  (ea_head a <> None -> ext_capacity 2 a = Some (ea_size a) -> ext_push_back 0 2 a 9 = None).
Proof. apply (ext_push_back_spec 0 2 (ExtArray (SmallCap 3) 3 (Some [1; 2; 3])) 9); [lia | split; simpl; [lia | split; [done | lia]] | simpl; lia]. Defined.
