(* ===== verification/BitRef.v ===== *)
(** * Bit streams ([lib/src/asn1/asn1_utils.cc], class [bit_ref])

    A [bit_ref] is a position in a byte buffer, counted in bits from the most
    significant one. The reading and writing loops work byte by byte with masks;
    the lemmas below describe them as operations on lists of bits: [history] is
    what has been written, [pending] what is left to read. *)

From S2P Require Import Prelude.

Inductive SRSASN_CODE := SRSASN_SUCCESS | SRSASN_ERROR_ENCODE_FAIL | SRSASN_ERROR_DECODE_FAIL.

#[export] Instance SRSASN_CODE_eq_dec : EqDecision SRSASN_CODE.
Proof. solve_decision. Defined.

(** Pointers are indices into the buffer [buf]. *)
Record bit_ref := BitRef { buf : list Z; ptr : Z; offset : Z; start_ptr : Z; max_ptr : Z }.

(** [bit_ref(start_ptr, max_size)], on a buffer of its own. *)
Definition mk_bit_ref (b : list Z) (max_size : Z) : bit_ref := BitRef b 0 0 0 max_size.

Definition bit_ref_set (r : bit_ref) (start_ptr_ max_size_ : Z) : bit_ref :=
  BitRef (buf r) start_ptr_ 0 start_ptr_ (max_size_ + start_ptr_).

Definition at_pos (r : bit_ref) (p o : Z) : bit_ref := BitRef (buf r) p o (start_ptr r) (max_ptr r).

(** [*ptr] of the current byte and of another one; the loops read it only after
    the test against [max_ptr]. *)
Definition byte_at (b : list Z) (i : Z) : Z := default 0 (zget b i).
Definition set_byte (r : bit_ref) (x : Z) : bit_ref :=
  BitRef (<[Z.to_nat (ptr r) := x]> (buf r)) (ptr r) (offset r) (start_ptr r) (max_ptr r).

(** ** Distances *)

Definition distance (r : bit_ref) : Z := s32 (offset r + 8 * (ptr r - start_ptr r)).
Definition distance_to (r other : bit_ref) : Z := s32 ((offset r - offset other) + 8 * (ptr r - ptr other)).
Definition distance_bytes (r : bit_ref) : Z := s32 (ptr r - start_ptr r) + (if offset r =? 0 then 0 else 1).
Definition distance_bytes_end (r : bit_ref) : Z := s32 (max_ptr r - ptr r) - (if offset r =? 0 then 0 else 1).

(** ** Writing *)

(** The loop of [bit_ref::pack]; every iteration consumes at least one bit. *)
Fixpoint pack_loop (fuel : nat) (val n_bits : Z) (r : bit_ref) : SRSASN_CODE * bit_ref :=
  match fuel with
  | O => (SRSASN_ERROR_ENCODE_FAIL, r)
  | S fuel =>
      if n_bits =? 0 then (SRSASN_SUCCESS, r)
      else if max_ptr r <=? ptr r then (SRSASN_ERROR_ENCODE_FAIL, r)
      else
        let val := Z.land val (Z.shiftl 1 n_bits - 1) in
        let keepmask := 255 - u8 (Z.shiftl 1 (8 - offset r) - 1) in
        let kept := Z.land (byte_at (buf r) (ptr r)) keepmask in
        if n_bits <? 8 - offset r then
          let bit := u8 (Z.shiftl val (8 - offset r - n_bits)) in
          let r := set_byte r (u8 (kept + bit)) in
          pack_loop fuel val 0 (at_pos r (ptr r) (offset r + n_bits))
        else
          let bit := u8 (Z.shiftr val (n_bits - 8 + offset r)) in
          let r := set_byte r (u8 (kept + bit)) in
          pack_loop fuel val (n_bits - (8 - offset r)) (at_pos r (ptr r + 1) 0)
  end.

Definition pack (val n_bits : Z) (r : bit_ref) : SRSASN_CODE * bit_ref :=
  if 64 <=? n_bits then (SRSASN_ERROR_ENCODE_FAIL, r) else pack_loop 64 val n_bits r.

(** [HANDLE_CODE(f); g] for operations that only move the stream. *)
Definition handle {A} (f : SRSASN_CODE * bit_ref) (fail : SRSASN_CODE -> bit_ref -> A) (g : bit_ref -> A) : A :=
  match f with (SRSASN_SUCCESS, r) => g r | (c, r) => fail c r end.

(** The same, for packers. *)
Definition then_pack (f : SRSASN_CODE * bit_ref) (g : bit_ref -> SRSASN_CODE * bit_ref) : SRSASN_CODE * bit_ref :=
  handle f pair g.
Notation "r ≪- f ; g" := (then_pack f (fun r => g)) (at level 60, f at next level, g at level 200, right associativity,
  format "'[v' r  ≪-  f ; '/' g ']'").

(** The byte-wise copy of an unaligned [pack_bytes] does not test its result. *)
Definition pack_each (bytes : list Z) (r : bit_ref) : bit_ref := foldl (fun r b => snd (pack b 8 r)) r bytes.

(** [memcpy(ptr, buf, n); ptr += n;] *)
Fixpoint copy_bytes (bytes : list Z) (r : bit_ref) : bit_ref :=
  match bytes with
  | [] => r
  | b :: bytes => let r := set_byte r b in copy_bytes bytes (at_pos r (ptr r + 1) (offset r))
  end.

Definition pack_bytes (bytes : list Z) (r : bit_ref) : SRSASN_CODE * bit_ref :=
  let n_bytes := zlen bytes in
  if n_bytes =? 0 then (SRSASN_SUCCESS, r)
  else if max_ptr r <=? ptr r + n_bytes then (SRSASN_ERROR_ENCODE_FAIL, r)
  else (SRSASN_SUCCESS, if offset r =? 0 then copy_bytes bytes r else pack_each bytes r).

Definition align_bytes_zero (r : bit_ref) : SRSASN_CODE * bit_ref :=
  if offset r =? 0 then (SRSASN_SUCCESS, r)
  else if max_ptr r <=? ptr r then (SRSASN_ERROR_ENCODE_FAIL, r)
  else
    let mask := u8 (256 - Z.shiftl 1 (8 - offset r)) in
    let r := set_byte r (Z.land (byte_at (buf r) (ptr r)) mask) in
    (SRSASN_SUCCESS, at_pos r (ptr r + 1) 0).

(** ** Reading *)

(** An integer type of the target: its width and signedness. *)
Record int_type := IntType { it_bits : Z; it_signed : bool }.
Definition cast (t : int_type) (z : Z) : Z := if it_signed t then swrap (it_bits t) z else uwrap (it_bits t) z.

Definition uint8_t : int_type := IntType 8 false.
Definition uint16_t : int_type := IntType 16 false.
Definition uint32_t : int_type := IntType 32 false.
Definition uint64_t : int_type := IntType 64 false.
Definition int8_t : int_type := IntType 8 true.
Definition int16_t : int_type := IntType 16 true.
Definition int32_t : int_type := IntType 32 true.
Definition int64_t : int_type := IntType 64 true.

(** The loop of [unpack_bits]: the value read so far is returned on error too. *)
Fixpoint unpack_loop (t : int_type) (fuel : nat) (val n_bits : Z) (r : bit_ref) : SRSASN_CODE * Z * bit_ref :=
  match fuel with
  | O => (SRSASN_ERROR_DECODE_FAIL, val, r)
  | S fuel =>
      if n_bits =? 0 then (SRSASN_SUCCESS, val, r)
      else if max_ptr r <=? ptr r then (SRSASN_ERROR_DECODE_FAIL, val, r)
      else
        let b := byte_at (buf r) (ptr r) in
        if n_bits <? 8 - offset r then
          let mask := u8 (u8 (Z.shiftl 1 (8 - offset r)) - u8 (Z.shiftl 1 (8 - offset r - n_bits))) in
          let val := cast t (val + Z.shiftr (Z.land b mask) (8 - offset r - n_bits)) in
          unpack_loop t fuel val 0 (at_pos r (ptr r) (offset r + n_bits))
        else
          let mask := u8 (Z.shiftl 1 (8 - offset r) - 1) in
          let val := cast t (val + Z.shiftl (cast t (Z.land b mask)) (n_bits - 8 + offset r)) in
          unpack_loop t fuel val (n_bits - (8 - offset r)) (at_pos r (ptr r + 1) 0)
  end.

(** [unpack(T& val, n_bits)]; on a refused width [val] is not assigned, and
    [before] is what it held. *)
Definition unpack (t : int_type) (before n_bits : Z) (r : bit_ref) : SRSASN_CODE * Z * bit_ref :=
  if it_bits t <? n_bits then (SRSASN_ERROR_DECODE_FAIL, before, r) else unpack_loop t 65 0 n_bits r.

(** [HANDLE_CODE] after a read: the continuation gets the value. *)
Definition then_unpack {A B} (f : SRSASN_CODE * A * bit_ref) (before : B)
    (g : A -> bit_ref -> SRSASN_CODE * B * bit_ref) : SRSASN_CODE * B * bit_ref :=
  match f with (SRSASN_SUCCESS, x, r) => g x r | (c, _, r) => (c, before, r) end.

Definition then_move {B} (f : SRSASN_CODE * bit_ref) (before : B) (g : bit_ref -> SRSASN_CODE * B * bit_ref)
  : SRSASN_CODE * B * bit_ref :=
  handle f (fun c r => (c, before, r)) g.

Definition align_bytes (r : bit_ref) : SRSASN_CODE * bit_ref :=
  if offset r =? 0 then (SRSASN_SUCCESS, r)
  else if max_ptr r <=? ptr r then (SRSASN_ERROR_DECODE_FAIL, r)
  else (SRSASN_SUCCESS, at_pos r (ptr r + 1) 0).

(** The bytes read by the loop of the unaligned case, up to an error. *)
Fixpoint unpack_each (n : nat) (r : bit_ref) : SRSASN_CODE * list Z * bit_ref :=
  match n with
  | O => (SRSASN_SUCCESS, [], r)
  | S n =>
      match unpack uint8_t 0 8 r with
      | (SRSASN_SUCCESS, x, r) => let '(c, xs, r) := unpack_each n r in (c, x :: xs, r)
      | (c, _, r) => (c, [], r)
      end
  end.

Definition unpack_bytes (n_bytes : Z) (r : bit_ref) : SRSASN_CODE * list Z * bit_ref :=
  if n_bytes =? 0 then (SRSASN_SUCCESS, [], r)
  else if offset r =? 0 then
    if max_ptr r <? ptr r + n_bytes then (SRSASN_ERROR_DECODE_FAIL, [], r)
    else (SRSASN_SUCCESS, take (Z.to_nat n_bytes) (drop (Z.to_nat (ptr r)) (buf r)), at_pos r (ptr r + n_bytes) (offset r))
  else
    if max_ptr r <=? ptr r + n_bytes then (SRSASN_ERROR_DECODE_FAIL, [], r)
    else unpack_each (Z.to_nat n_bytes) r.

(** [ceilf] and [floorf] of the quotient by [8.0f] are exact below 2^24 bits. *)
Definition advance_bits (n_bits : Z) (r : bit_ref) : SRSASN_CODE * bit_ref :=
  let extra_bits := (offset r + n_bits) mod 8 in
  let bytes_required := (offset r + n_bits + 7) / 8 in
  let bytes_offset := (offset r + n_bits) / 8 in
  if max_ptr r <? ptr r + bytes_required then (SRSASN_ERROR_DECODE_FAIL, r)
  else (SRSASN_SUCCESS, at_pos r (ptr r + bytes_offset) extra_bits).

(** ** Bits of a buffer *)

(** Bit [k] of a buffer, most significant bit of a byte first. *)
Definition bit (b : list Z) (k : Z) : bool := Z.testbit (byte_at b (k / 8)) (7 - k mod 8).

(** The bits from [p] to [p + n], and the [n] low bits of a number. *)
Definition bits (b : list Z) (p n : Z) : list bool := bit b <$> seqZ p n.
Definition zbits (n v : Z) : list bool := (fun i => Z.testbit v (n - 1 - i)) <$> seqZ 0 n.

(** The number written by a list of bits. *)
Definition bits_val (l : list bool) : Z := foldl (fun v b => 2 * v + Z.b2z b) 0 l.

Definition pos (r : bit_ref) : Z := 8 * ptr r + offset r.

(** What has been written, and what can be read. *)
Definition history (r : bit_ref) : list bool := bits (buf r) 0 (pos r).
Definition pending (r : bit_ref) : list bool := bits (buf r) (pos r) (8 * max_ptr r - pos r).

Record bit_ref_wf (r : bit_ref) : Prop := BitRefWf {
  bw_bytes : Forall (is_uint 8) (buf r);
  bw_offset : 0 <= offset r < 8;
  bw_ptr : 0 <= ptr r;
  bw_pos : pos r <= 8 * max_ptr r;
  bw_max : max_ptr r <= zlen (buf r)
}.

Lemma zlen_bits b p n : 0 <= n -> zlen (bits b p n) = n.
Proof. intros Hn. unfold bits, zlen. rewrite length_fmap, length_seqZ. lia. Qed.

Lemma zlen_zbits n v : 0 <= n -> zlen (zbits n v) = n.
Proof. intros Hn. unfold zbits, zlen. rewrite length_fmap, length_seqZ. lia. Qed.

Lemma bits_split b p n m : 0 <= n -> 0 <= m -> bits b p (n + m) = bits b p n ++ bits b (p + n) m.
Proof. intros Hn Hm. unfold bits. rewrite seqZ_app by lia. apply fmap_app. Qed.

Lemma bits_ext b b' p n : (forall k, p <= k < p + n -> bit b k = bit b' k) -> bits b p n = bits b' p n.
Proof.
  intros H. unfold bits. apply list_fmap_ext. intros i k Hk. apply lookup_seqZ in Hk. apply H. lia.
Qed.

Lemma zbits_fmap b p n v :
  (forall i, 0 <= i < n -> bit b (p + i) = Z.testbit v (n - 1 - i)) -> bits b p n = zbits n v.
Proof.
  intros H. unfold bits, zbits. apply list_eq. intros i. rewrite !list_lookup_fmap.
  destruct (decide (Z.of_nat i < n)) as [Hi | Hi].
  - rewrite !lookup_seqZ_lt by lia. simpl. f_equal. by rewrite H by lia.
  - by rewrite !lookup_seqZ_ge by lia.
Qed.

(** Reading a number back from its bits. *)
Lemma bits_val_snoc l b : bits_val (l ++ [b]) = 2 * bits_val l + Z.b2z b.
Proof. unfold bits_val. by rewrite foldl_app. Qed.

Lemma bits_val_app l1 l2 : bits_val (l1 ++ l2) = bits_val l1 * 2 ^ zlen l2 + bits_val l2.
Proof.
  induction l2 as [| b l2 IH] using rev_ind.
  - rewrite app_nil_r, zlen_nil. unfold bits_val at 3. simpl. lia.
  - rewrite app_assoc, !bits_val_snoc, IH, zlen_app. change (zlen [b]) with 1.
    rewrite Z.pow_add_r by (pose proof (zlen_nonneg l2); lia). lia.
Qed.

Lemma bits_val_range l : 0 <= bits_val l < 2 ^ zlen l.
Proof.
  induction l as [| b l IH] using rev_ind; [done |].
  rewrite bits_val_snoc, zlen_app. change (zlen [b]) with 1.
  rewrite Z.pow_add_r by (pose proof (zlen_nonneg l); lia). destruct b; simpl; lia.
Qed.

(** The bits [hi-1 .. hi-n] of a number. *)
Lemma bits_val_testbits v hi n : 0 <= n <= hi ->
  bits_val ((fun i => Z.testbit v (hi - 1 - i)) <$> seqZ 0 n) = (v / 2 ^ (hi - n)) mod 2 ^ n.
Proof.
  intros Hn. assert (exists k, n = Z.of_nat k) as [k ->] by (exists (Z.to_nat n); lia).
  induction k as [| k IH]; [simpl; by rewrite Z.mod_1_r |].
  rewrite seqZ_S, fmap_app. cbn [fmap list_fmap]. rewrite bits_val_snoc, IH by lia.
  rewrite Z.add_0_l. replace (hi - 1 - Z.of_nat k) with (hi - Z.of_nat (S k)) by lia.
  rewrite Z.testbit_spec' by lia.
  replace (hi - Z.of_nat k) with (hi - Z.of_nat (S k) + 1) by lia.
  rewrite Z.pow_add_r by lia. rewrite <- Z.div_div by (pose proof (Z.pow_pos_nonneg 2 (hi - Z.of_nat (S k))); lia).
  set (x := v / 2 ^ (hi - Z.of_nat (S k))). change (2 ^ 1) with 2.
  replace (Z.of_nat (S k)) with (1 + Z.of_nat k) by lia. rewrite Z.pow_add_r by lia. change (2 ^ 1) with 2.
  pose proof (Z.pow_pos_nonneg 2 (Z.of_nat k)).
  rewrite Z.rem_mul_r by lia. lia.
Qed.

Lemma bits_val_zbits n v : 0 <= n -> bits_val (zbits n v) = v mod 2 ^ n.
Proof. intros Hn. unfold zbits. rewrite bits_val_testbits by lia. by rewrite Z.sub_diag, Z.div_1_r. Qed.

(** Bits of [hi * 2^m + lo]. *)
Lemma testbit_concat hi lo m i : 0 <= m -> 0 <= lo < 2 ^ m -> 0 <= i ->
  Z.testbit (hi * 2 ^ m + lo) i = if i <? m then Z.testbit lo i else Z.testbit hi (i - m).
Proof.
  intros Hm Hlo Hi. pose proof (Z.pow_pos_nonneg 2 m).
  destruct (Z.ltb_spec i m).
  - rewrite <- (Z.mod_pow2_bits_low _ m i) by lia. f_equal.
    rewrite Z.add_comm, Z_mod_plus_full. apply Z.mod_small. lia.
  - replace i with (i - m + m) at 1 by lia. rewrite <- Z.div_pow2_bits by lia. f_equal.
    rewrite Z.div_add_l by lia. rewrite Z.div_small by lia. lia.
Qed.

(** [*ptr & keepmask] keeps the bits before [offset]. *)
Lemma keepmask_spec b o : is_uint 8 b -> 0 <= o < 8 ->
  Z.land b (255 - u8 (Z.shiftl 1 (8 - o) - 1)) = b / 2 ^ (8 - o) * 2 ^ (8 - o).
Proof.
  intros Hb Ho. unfold is_uint in Hb.
  assert (forallb (fun b => forallb (fun o => Z.land b (255 - u8 (Z.shiftl 1 (8 - o) - 1)) =? b / 2 ^ (8 - o) * 2 ^ (8 - o))
    (seqZ 0 8)) (seqZ 0 256) = true) as HB by (vm_compute; reflexivity).
  rewrite forallb_forall in HB. specialize (HB b). rewrite <- list_elem_of_In, elem_of_seqZ in HB.
  specialize (HB ltac:(lia)). rewrite forallb_forall in HB. specialize (HB o).
  rewrite <- list_elem_of_In, elem_of_seqZ in HB. specialize (HB ltac:(lia)). by apply Z.eqb_eq.
Qed.

Lemma byte_at_uint b i : Forall (is_uint 8) b -> is_uint 8 (byte_at b i).
Proof.
  intros Hb. unfold byte_at, zget. destruct (Z.leb_spec 0 i); [| unfold is_uint; simpl; lia].
  destruct (b !! Z.to_nat i) as [x |] eqn:E; [by eapply Forall_lookup_1 | unfold is_uint; simpl; lia].
Qed.

Lemma bit_set_byte r x k :
  0 <= ptr r < zlen (buf r) ->
  bit (buf (set_byte r x)) k = if k / 8 =? ptr r then Z.testbit x (7 - k mod 8) else bit (buf r) k.
Proof.
  intros Hp. unfold bit, set_byte, byte_at. cbn [buf]. destruct (Z.eqb_spec (k / 8) (ptr r)) as [-> | Hne].
  - by rewrite zget_insert_eq.
  - by rewrite zget_insert_ne by lia.
Qed.

(** One iteration: the byte keeps the [o] bits before the position, then come the
    [c] bits of [v]. *)
Lemma write_byte_bits b o c v x :
  is_uint 8 b -> 0 <= o -> 0 <= c -> o + c <= 8 -> 0 <= v < 2 ^ c ->
  x = b / 2 ^ (8 - o) * 2 ^ (8 - o) + v * 2 ^ (8 - o - c) ->
  is_uint 8 x /\ forall j, 0 <= j < 8 ->
    (j < o -> Z.testbit x (7 - j) = Z.testbit b (7 - j)) /\
    (o <= j < o + c -> Z.testbit x (7 - j) = Z.testbit v (c - 1 - (j - o))) /\
    (o + c <= j -> Z.testbit x (7 - j) = false).
Proof.
  intros Hb Ho Hc Hoc Hv ->. unfold is_uint in *.
  assert (0 < 2 ^ (8 - o - c)) by (apply Z.pow_pos_nonneg; lia).
  assert (2 ^ (8 - o) = 2 ^ c * 2 ^ (8 - o - c)) as Epow by (rewrite <- Z.pow_add_r by lia; f_equal; lia).
  assert (2 ^ 8 = 2 ^ o * 2 ^ (8 - o)) as E8 by (rewrite <- Z.pow_add_r by lia; f_equal; lia).
  assert (0 < 2 ^ (8 - o)) by (apply Z.pow_pos_nonneg; lia).
  assert (0 <= v * 2 ^ (8 - o - c) < 2 ^ (8 - o)) as Hlo by nia.
  assert (0 <= b / 2 ^ (8 - o) < 2 ^ o) as Hhi.
  { split; [apply Z.div_pos; lia | apply Z.div_lt_upper_bound; lia]. }
  split; [nia |]. intros j Hj. split_and!; intros Hjo; rewrite testbit_concat by (done || lia).
  - destruct (Z.ltb_spec (7 - j) (8 - o)); [lia |]. rewrite Z.div_pow2_bits by lia. f_equal. lia.
  - destruct (Z.ltb_spec (7 - j) (8 - o)); [| lia]. rewrite Z.mul_pow2_bits by lia. f_equal. lia.
  - destruct (Z.ltb_spec (7 - j) (8 - o)); [| lia]. apply Z.mul_pow2_bits_low. lia.
Qed.

(** A writer leaves the rest of its current byte clear. *)
Definition tail_clear (r : bit_ref) : Prop :=
  offset r <> 0 -> forall k, pos r <= k < 8 * ptr r + 8 -> bit (buf r) k = false.

Definition writer (r : bit_ref) : Prop := bit_ref_wf r /\ tail_clear r.

Lemma history_step r r' n :
  0 <= pos r -> 0 <= n -> pos r' = pos r + n ->
  (forall k, 0 <= k < pos r -> bit (buf r') k = bit (buf r) k) ->
  history r' = history r ++ bits (buf r') (pos r) n.
Proof.
  intros Hp Hn Hpos Hk. unfold history. rewrite Hpos, bits_split by lia. rewrite Z.add_0_l. f_equal.
  apply bits_ext. intros k Hk'. apply Hk. lia.
Qed.

Lemma zbits_mod n v : 0 <= n -> zbits n (v mod 2 ^ n) = zbits n v.
Proof.
  intros Hn. unfold zbits. apply list_fmap_ext. intros i k Hk. apply lookup_seqZ in Hk.
  apply Z.mod_pow2_bits_low. lia.
Qed.

(** The first [c] of [n] bits, and the rest. *)
Lemma zbits_split c n v : 0 <= c -> 0 <= n -> zbits (c + n) v = zbits c (v / 2 ^ n) ++ zbits n v.
Proof.
  intros Hc Hn. unfold zbits. rewrite seqZ_app by lia. rewrite fmap_app. f_equal.
  - apply list_fmap_ext. intros i k Hk. apply lookup_seqZ in Hk. rewrite Z.div_pow2_bits by lia. f_equal. lia.
  - apply list_eq. intros i. rewrite !list_lookup_fmap.
    destruct (decide (Z.of_nat i < n)) as [Hi | Hi].
    + rewrite !lookup_seqZ_lt by lia. simpl. do 2 f_equal. lia.
    + by rewrite !lookup_seqZ_ge by lia.
Qed.

(** Writing [c] bits that fit the current byte. *)
Lemma write_step r v c r' :
  bit_ref_wf r -> 0 < c -> offset r + c <= 8 -> 0 <= v < 2 ^ c -> ptr r < max_ptr r ->
  buf r' = <[Z.to_nat (ptr r) := byte_at (buf r) (ptr r) / 2 ^ (8 - offset r) * 2 ^ (8 - offset r) + v * 2 ^ (8 - offset r - c)]> (buf r) ->
  pos r' = pos r + c -> 0 <= offset r' < 8 -> 0 <= ptr r' -> max_ptr r' = max_ptr r ->
  writer r' /\ history r' = history r ++ zbits c v.
Proof.
  intros [Hb Ho Hp Hpos Hmax] Hc Hoc Hv Hlt Hbuf Hpos' Ho' Hp' Hmax'. unfold pos in *.
  destruct (write_byte_bits (byte_at (buf r) (ptr r)) (offset r) c v _ (byte_at_uint _ (ptr r) Hb)
    ltac:(lia) ltac:(lia) Hoc Hv eq_refl) as [Hx Hbits].
  set (x := _ + v * _) in *.
  assert (forall k, bit (buf r') k = if k / 8 =? ptr r then Z.testbit x (7 - k mod 8) else bit (buf r) k) as HB.
  { intros k. rewrite Hbuf. apply (bit_set_byte r x k). lia. }
  split; [split |].
  - split; [| done | done | unfold pos; lia |].
    + rewrite Hbuf. apply Forall_insert; done.
    + rewrite Hbuf, zlen_insert. lia.
  - intros Hne k Hk. rewrite HB. unfold pos in Hk.
    destruct (Hbits (k mod 8) ltac:(lia)) as (_ & _ & H).
    destruct (Z.eqb_spec (k / 8) (ptr r)); [apply H; lia | lia].
  - rewrite (history_step r r' c); [| unfold pos; lia.. |].
    + f_equal. apply zbits_fmap. intros i Hi. rewrite HB. unfold pos.
      replace ((8 * ptr r + offset r + i) / 8) with (ptr r) by lia. rewrite Z.eqb_refl.
      destruct (Hbits (offset r + i) ltac:(lia)) as (_ & H & _).
      replace ((8 * ptr r + offset r + i) mod 8) with (offset r + i) by lia. rewrite H by lia. f_equal. lia.
    + intros k Hk. rewrite HB. unfold pos in Hk. destruct (Z.eqb_spec (k / 8) (ptr r)) as [E | E]; [| done].
      destruct (Hbits (k mod 8) ltac:(lia)) as [H _]. rewrite H by lia. unfold bit. by rewrite E.
Qed.

Lemma mask_mod v n : 0 <= n -> Z.land v (Z.shiftl 1 n - 1) = v mod 2 ^ n.
Proof. intros Hn. rewrite Z.shiftl_1_l. rewrite <- Z.land_ones by done. by rewrite Z.ones_equiv. Qed.

(** Same buffer length, limits and start. *)
Definition same_room (r r' : bit_ref) : Prop :=
  max_ptr r' = max_ptr r /\ start_ptr r' = start_ptr r /\ zlen (buf r') = zlen (buf r).

Lemma same_room_refl r : same_room r r.
Proof. done. Qed.

Lemma same_room_trans r1 r2 r3 : same_room r1 r2 -> same_room r2 r3 -> same_room r1 r3.
Proof. unfold same_room. intuition congruence. Qed.

Lemma pack_loop_spec fuel val n r :
  writer r -> 0 <= n < Z.of_nat fuel -> pos r + n <= 8 * max_ptr r ->
  exists r', pack_loop fuel val n r = (SRSASN_SUCCESS, r') /\ writer r' /\ same_room r r'
    /\ pos r' = pos r + n /\ history r' = history r ++ zbits n val.
Proof.
  revert val n r. induction fuel as [| fuel IH]; intros val n r Hwf Hn Hroom; [lia |]. cbn [pack_loop].
  destruct (Z.eqb_spec n 0) as [-> | Hn0].
  { exists r. split_and!; [done | done | done | lia |]. by rewrite app_nil_r. }
  pose proof Hwf as [Hbw _]. pose proof Hbw as [Hb Ho Hp Hpos Hmax]. unfold pos in Hroom.
  destruct (Z.leb_spec (max_ptr r) (ptr r)) as [Hfull | Hlt]; [lia |]. cbv zeta.
  rewrite mask_mod, keepmask_spec by (done || lia || by apply byte_at_uint).
  pose proof (byte_at_uint _ (ptr r) Hb) as Hbyte. unfold is_uint in Hbyte.
  set (b := byte_at (buf r) (ptr r)) in *.
  destruct (Z.ltb_spec n (8 - offset r)) as [Hlast | Hmore].
  - set (x := u8 _).
    pose proof (Z.mod_pos_bound val (2 ^ n) ltac:(apply Z.pow_pos_nonneg; lia)) as Hv.
    assert (x = b / 2 ^ (8 - offset r) * 2 ^ (8 - offset r) + (val mod 2 ^ n) * 2 ^ (8 - offset r - n)) as Ex.
    { unfold x. rewrite Z.shiftl_mul_pow2 by lia.
      destruct (write_byte_bits b (offset r) n (val mod 2 ^ n) _ Hbyte ltac:(lia) ltac:(lia) ltac:(lia) Hv eq_refl) as [Hx _].
      rewrite (uwrap_small 8 (_ * _)); [by apply uwrap_small |]. unfold is_uint in *.
      assert (0 < 2 ^ (8 - offset r - n)) by (apply Z.pow_pos_nonneg; lia). 
      assert (0 <= b / 2 ^ (8 - offset r)) by (apply Z.div_pos; [lia | apply Z.pow_pos_nonneg; lia]).
      assert (0 < 2 ^ (8 - offset r)) by (apply Z.pow_pos_nonneg; lia). nia. }
    set (r1 := at_pos (set_byte r x) _ _).
    destruct (write_step r (val mod 2 ^ n) n r1) as [Hwf1 Hh1]; [done | lia | lia | done | done | | | | | |].
    + unfold r1, set_byte, at_pos. cbn [buf]. by rewrite Ex.
    + unfold pos, r1, set_byte, at_pos. cbn. lia.
    + unfold r1, set_byte, at_pos. cbn. lia.
    + unfold r1, set_byte, at_pos. cbn. lia.
    + done.
    + destruct (IH (val mod 2 ^ n) 0 r1) as (r2 & -> & Hwf2 & Hs2 & Hp2 & Hh2); [done | lia | |].
      { pose proof (bw_pos _ (proj1 Hwf1)). lia. }
      exists r2. split_and!; [done | done | | |].
      * eapply same_room_trans; [| exact Hs2]. unfold same_room, r1, set_byte, at_pos. cbn. by rewrite zlen_insert.
      * rewrite Hp2. unfold pos, r1, set_byte, at_pos. cbn. lia.
      * rewrite Hh2, Hh1. change (zbits 0 _) with (@nil bool). by rewrite app_nil_r, zbits_mod by lia.
  - set (c := 8 - offset r) in *. set (x := u8 _).
    assert (0 <= val mod 2 ^ n / 2 ^ (n - c) < 2 ^ c) as Hv.
    { pose proof (Z.mod_pos_bound val (2 ^ n) ltac:(apply Z.pow_pos_nonneg; lia)).
      assert (0 < 2 ^ (n - c)) by (apply Z.pow_pos_nonneg; lia).
      split; [apply Z.div_pos; lia |]. apply Z.div_lt_upper_bound; [done |]. rewrite <- Z.pow_add_r by lia.
      replace (n - c + c) with n by lia. lia. }
    assert (x = b / 2 ^ c * 2 ^ c + (val mod 2 ^ n / 2 ^ (n - c)) * 2 ^ (8 - offset r - c)) as Ex.
    { unfold x. replace (n - 8 + offset r) with (n - c) by (unfold c; lia). rewrite Z.shiftr_div_pow2 by lia.
      destruct (write_byte_bits b (offset r) c (val mod 2 ^ n / 2 ^ (n - c)) _ Hbyte ltac:(lia) ltac:(lia) ltac:(lia) Hv eq_refl) as [Hx _].
      replace (8 - offset r - c) with 0 in * by lia. fold c in Hx. rewrite Z.pow_0_r, Z.mul_1_r in *.
      assert (2 ^ c <= 2 ^ 8) by (apply Z.pow_le_mono_r; lia).
      rewrite (uwrap_small 8 (_ / _)) by (unfold is_uint; lia). by apply uwrap_small. }
    change (offset (set_byte r x)) with (offset r). fold c.
    set (r1 := at_pos (set_byte r x) _ _).
    destruct (write_step r (val mod 2 ^ n / 2 ^ (n - c)) c r1) as [Hwf1 Hh1]; [done | lia | lia | done | done | | | | | |].
    + unfold r1, set_byte, at_pos. cbn [buf]. by rewrite Ex.
    + unfold pos, r1, set_byte, at_pos. cbn. lia.
    + done.
    + unfold r1, set_byte, at_pos. cbn. lia.
    + done.
    + destruct (IH (val mod 2 ^ n) (n - c) r1) as (r2 & -> & Hwf2 & Hs2 & Hp2 & Hh2); [done | lia | |].
      { unfold pos, r1, set_byte, at_pos. cbn. lia. }
      exists r2. split_and!; [done | done | | |].
      * eapply same_room_trans; [| exact Hs2]. unfold same_room, r1, set_byte, at_pos. cbn. by rewrite zlen_insert.
      * rewrite Hp2. unfold pos, r1, set_byte, at_pos. cbn. lia.
      * rewrite Hh2, Hh1, <- app_assoc. f_equal.
        rewrite <- (zbits_mod n val) by lia. rewrite <- zbits_split by lia. f_equal. lia.
Qed.

Lemma pack_spec val n r :
  writer r -> 0 <= n < 64 -> pos r + n <= 8 * max_ptr r ->
  exists r', pack val n r = (SRSASN_SUCCESS, r') /\ writer r' /\ same_room r r'
    /\ pos r' = pos r + n /\ history r' = history r ++ zbits n val.
Proof.
  intros Hwf Hn Hroom. unfold pack. destruct (Z.leb_spec 64 n); [lia |]. apply pack_loop_spec; done || lia.
Qed.

Lemma pack_loop_full fuel val n r :
  0 <= offset r < 8 -> 0 <= n < Z.of_nat fuel -> 8 * max_ptr r < pos r + n -> pos r <= 8 * max_ptr r ->
  fst (pack_loop fuel val n r) = SRSASN_ERROR_ENCODE_FAIL.
Proof.
  revert val n r. induction fuel as [| fuel IH]; intros val n r Ho Hn Hfull Hpos; [lia |]. cbn [pack_loop]. unfold pos in *.
  destruct (Z.eqb_spec n 0); [lia |]. destruct (Z.leb_spec (max_ptr r) (ptr r)); [done |]. cbv zeta.
  destruct (Z.ltb_spec n (8 - offset r)); [lia |].
  apply IH; unfold at_pos, set_byte, pos; cbn [offset max_ptr ptr]; lia.
Qed.

(** Without room, the write fails. *)
Lemma pack_full val n r :
  bit_ref_wf r -> 0 <= n -> 8 * max_ptr r < pos r + n -> fst (pack val n r) = SRSASN_ERROR_ENCODE_FAIL.
Proof.
  intros [Hb Ho Hp Hpos Hmax] Hn Hfull. unfold pack. destruct (Z.leb_spec 64 n); [done |]. apply pack_loop_full; done || lia.
Qed.

(** ** Casts *)

Lemma cast_eq t z : 0 <= it_bits t -> exists q, cast t z = z + q * 2 ^ it_bits t.
Proof.
  intros Hw. unfold cast, swrap, uwrap. pose proof (Z.pow_pos_nonneg 2 (it_bits t)). destruct (it_signed t).
  - exists (- ((z + 2 ^ (it_bits t - 1)) / 2 ^ it_bits t)). rewrite Z.mod_eq by lia. ring.
  - exists (- (z / 2 ^ it_bits t)). rewrite Z.mod_eq by lia. ring.
Qed.

Lemma cast_period t z q : cast t (z + q * 2 ^ it_bits t) = cast t z.
Proof.
  unfold cast, swrap, uwrap. destruct (it_signed t).
  - f_equal. replace (z + q * 2 ^ it_bits t + 2 ^ (it_bits t - 1)) with (z + 2 ^ (it_bits t - 1) + q * 2 ^ it_bits t) by ring.
    apply Z_mod_plus_full.
  - apply Z_mod_plus_full.
Qed.

Lemma cast_idemp t z : 0 <= it_bits t -> cast t (cast t z) = cast t z.
Proof. intros Hw. destruct (cast_eq t z Hw) as [q E]. rewrite E at 1. apply cast_period. Qed.

Lemma cast_add_l t a b : 0 <= it_bits t -> cast t (cast t a + b) = cast t (a + b).
Proof.
  intros Hw. destruct (cast_eq t a Hw) as [q ->].
  replace (a + q * 2 ^ it_bits t + b) with (a + b + q * 2 ^ it_bits t) by ring. apply cast_period.
Qed.

Lemma cast_add_mul t a b m : 0 <= it_bits t -> cast t (a + cast t b * m) = cast t (a + b * m).
Proof.
  intros Hw. destruct (cast_eq t b Hw) as [q ->].
  replace (a + (b + q * 2 ^ it_bits t) * m) with (a + b * m + q * m * 2 ^ it_bits t) by ring. apply cast_period.
Qed.

(** Values of the type. *)
Definition in_type (t : int_type) (z : Z) : Prop :=
  if it_signed t then - 2 ^ (it_bits t - 1) <= z < 2 ^ (it_bits t - 1) else 0 <= z < 2 ^ it_bits t.

Lemma cast_in_type t z : 0 < it_bits t -> in_type t z -> cast t z = z.
Proof.
  intros Hw. unfold in_type, cast. destruct (it_signed t); intros Hz; [by apply swrap_small | by apply uwrap_small].
Qed.

(** ** The reading loop *)

(** Bits within one byte. *)
Lemma bits_byte b p o c : 0 <= p -> 0 <= o -> 0 <= c -> o + c <= 8 ->
  bits_val (bits b (8 * p + o) c) = (byte_at b p / 2 ^ (8 - o - c)) mod 2 ^ c.
Proof.
  intros Hp Ho Hc Hoc. rewrite <- bits_val_testbits by lia. f_equal. unfold bits.
  apply list_eq. intros i. rewrite !list_lookup_fmap.
  destruct (decide (Z.of_nat i < c)) as [Hi | Hi].
  - rewrite !lookup_seqZ_lt by lia. simpl. f_equal. unfold bit.
    replace ((8 * p + o + Z.of_nat i) / 8) with p by lia.
    replace ((8 * p + o + Z.of_nat i) mod 8) with (o + Z.of_nat i) by lia. f_equal. lia.
  - by rewrite !lookup_seqZ_ge by lia.
Qed.

Lemma read_last_mask b o n : is_uint 8 b -> 0 <= o -> 0 < n -> n < 8 - o ->
  Z.shiftr (Z.land b (u8 (u8 (Z.shiftl 1 (8 - o)) - u8 (Z.shiftl 1 (8 - o - n))))) (8 - o - n) = (b / 2 ^ (8 - o - n)) mod 2 ^ n.
Proof.
  intros Hb Ho Hn Hlt. unfold is_uint in Hb.
  assert (forallb (fun b => forallb (fun o => forallb (fun n => implb (n <? 8 - o)
    (Z.shiftr (Z.land b (u8 (u8 (Z.shiftl 1 (8 - o)) - u8 (Z.shiftl 1 (8 - o - n))))) (8 - o - n) =? (b / 2 ^ (8 - o - n)) mod 2 ^ n))
    (seqZ 1 7)) (seqZ 0 8)) (seqZ 0 256) = true) as HB by (vm_compute; reflexivity).
  rewrite forallb_forall in HB. specialize (HB b). rewrite <- list_elem_of_In, elem_of_seqZ in HB. specialize (HB ltac:(lia)).
  rewrite forallb_forall in HB. specialize (HB o). rewrite <- list_elem_of_In, elem_of_seqZ in HB. specialize (HB ltac:(lia)).
  rewrite forallb_forall in HB. specialize (HB n). rewrite <- list_elem_of_In, elem_of_seqZ in HB. specialize (HB ltac:(lia)).
  rewrite (proj2 (Z.ltb_lt _ _) Hlt) in HB. by apply Z.eqb_eq.
Qed.

Lemma read_full_mask b o : is_uint 8 b -> 0 <= o < 8 ->
  Z.land b (u8 (Z.shiftl 1 (8 - o) - 1)) = b mod 2 ^ (8 - o).
Proof.
  intros Hb Ho. assert (2 ^ (8 - o) <= 2 ^ 8) by (apply Z.pow_le_mono_r; lia).
  assert (0 < 2 ^ (8 - o)) by (apply Z.pow_pos_nonneg; lia).
  rewrite uwrap_small by (rewrite Z.shiftl_1_l; unfold is_uint; lia). apply mask_mod. lia.
Qed.

Lemma unpack_loop_spec t fuel val n r :
  bit_ref_wf r -> 0 <= it_bits t -> 0 <= n < Z.of_nat fuel -> pos r + n <= 8 * max_ptr r -> cast t val = val ->
  exists p o, unpack_loop t fuel val n r = (SRSASN_SUCCESS, cast t (val + bits_val (bits (buf r) (pos r) n)), at_pos r p o)
    /\ 0 <= o < 8 /\ 0 <= p /\ 8 * p + o = pos r + n.
Proof.
  revert val n r. induction fuel as [| fuel IH]; intros val n r Hwf Hw Hn Hroom Hval; [lia |]. cbn [unpack_loop].
  pose proof Hwf as [Hb Ho Hp Hpos Hmax].
  destruct (Z.eqb_spec n 0) as [-> | Hn0].
  { exists (ptr r), (offset r). split_and!; [| lia | lia | lia | unfold pos; lia].
    unfold bits. simpl. rewrite Z.add_0_r, Hval. destruct r. done. }
  unfold pos in Hroom, Hpos. destruct (Z.leb_spec (max_ptr r) (ptr r)) as [Hfull | Hlt]; [lia |]. cbv zeta.
  pose proof (byte_at_uint _ (ptr r) Hb) as Hbyte.
  destruct (Z.ltb_spec n (8 - offset r)) as [Hlast | Hmore].
  - rewrite read_last_mask by (done || lia).
    rewrite <- (bits_byte (buf r) (ptr r) (offset r) n) by lia. fold (pos r).
    set (v := cast t _). set (r1 := at_pos r (ptr r) (offset r + n)).
    destruct (IH v 0 r1) as (p & o & E & Ho' & Hp' & Hpo).
    + split; unfold pos, r1, at_pos; cbn; done || lia.
    + done.
    + lia.
    + unfold pos, r1, at_pos; cbn. lia.
    + by apply cast_idemp.
    + exists p, o. split_and!; [| lia | lia | lia | unfold pos, r1, at_pos in *; cbn in *; lia].
      rewrite E. unfold bits at 1. simpl. rewrite Z.add_0_r. unfold v. by rewrite cast_idemp.
  - rewrite read_full_mask by done. set (c := 8 - offset r).
    replace (byte_at (buf r) (ptr r) mod 2 ^ c) with (bits_val (bits (buf r) (pos r) c)).
    2:{ unfold pos. rewrite bits_byte by (unfold c; lia). replace (8 - offset r - c) with 0 by (unfold c; lia). by rewrite Z.div_1_r. }
    replace (n - 8 + offset r) with (n - c) by (unfold c; lia). rewrite Z.shiftl_mul_pow2 by (unfold c; lia).
    rewrite cast_add_mul by done. set (v := cast t _). set (r1 := at_pos r (ptr r + 1) 0).
    destruct (IH v (n - c) r1) as (p & o & E & Ho' & Hp' & Hpo).
    + split; unfold pos, r1, at_pos; cbn; done || lia.
    + done.
    + unfold c. lia.
    + unfold pos, r1, at_pos, c; cbn. lia.
    + by apply cast_idemp.
    + exists p, o. split_and!; [| lia | lia | lia | unfold pos, r1, at_pos, c in *; cbn in *; lia].
      rewrite E. unfold v. rewrite cast_add_l by done.
      replace n with (c + (n - c)) at 3 by lia. rewrite bits_split by (unfold c; lia). rewrite bits_val_app, zlen_bits by (unfold c; lia).
      replace (pos r1) with (pos r + c) by (unfold pos, r1, at_pos, c; cbn; lia).
      rewrite Z.add_assoc. done.
Qed.

(** Reading [n] bits of a stream whose pending bits are known. *)
Lemma unpack_spec t before n r l tl :
  bit_ref_wf r -> 0 <= n <= it_bits t -> it_bits t <= 64 -> pending r = l ++ tl -> zlen l = n ->
  exists r', unpack t before n r = (SRSASN_SUCCESS, cast t (bits_val l), r')
    /\ bit_ref_wf r' /\ same_room r r' /\ buf r' = buf r /\ pos r' = pos r + n /\ pending r' = tl.
Proof.
  intros Hwf Hn Hw Hl Hlen. unfold unpack. destruct (Z.ltb_spec (it_bits t) n); [lia |].
  pose proof Hwf as [Hb Ho Hp Hpos Hmax].
  assert (pos r + n <= 8 * max_ptr r) as Hroom.
  { assert (zlen (pending r) = zlen (l ++ tl)) as E by by rewrite Hl. unfold pending in E.
    rewrite zlen_bits, zlen_app in E by lia. pose proof (zlen_nonneg tl). lia. }
  destruct (unpack_loop_spec t 65 0 n r) as (p & o & E & Ho' & Hp' & Hpo); [done | lia | lia | done | |].
  { unfold cast, swrap, uwrap. destruct (it_signed t); [| done]. destruct (Z.eq_dec (it_bits t) 0) as [-> | Hne]; [done |].
    rewrite Z.add_0_l, Z.mod_small; [lia |]. split; [apply Z.pow_nonneg; lia | apply Z.pow_lt_mono_r; lia]. }
  assert (pending r = bits (buf r) (pos r) n ++ bits (buf r) (pos r + n) (8 * max_ptr r - (pos r + n))) as Hsplit.
  { unfold pending. rewrite <- bits_split by lia. f_equal. lia. }
  rewrite Hl in Hsplit. apply app_inj_1 in Hsplit as [El Etl].
  2:{ pose proof (zlen_bits (buf r) (pos r) n ltac:(lia)). unfold zlen in *. lia. }
  rewrite Z.add_0_l, <- El in E. eexists. split; [exact E |]. split.
  { split; unfold pos, at_pos; cbn; done || lia. }
  split; [done |]. split; [done |]. split; [done |]. unfold pending. unfold pos at 1 2, at_pos. cbn. by rewrite Hpo, Etl.
Qed.

(** ** Alignment *)

(** Bits up to the next byte boundary. *)
Definition pad (p : Z) : Z := (- p) mod 8.

Lemma pad_range p : 0 <= pad p < 8.
Proof. unfold pad. lia. Qed.

Lemma zbits_0 n : zbits n 0 = replicate (Z.to_nat n) false.
Proof.
  unfold zbits. apply list_eq. intros i. rewrite list_lookup_fmap.
  destruct (decide (Z.of_nat i < n)) as [Hi | Hi].
  - rewrite lookup_seqZ_lt by lia. simpl. rewrite lookup_replicate_2 by lia. by rewrite Z.testbit_0_l.
  - rewrite lookup_seqZ_ge by lia. symmetry. apply lookup_replicate_None. lia.
Qed.

(** Skipping to the next byte. *)
Lemma align_move r :
  bit_ref_wf r -> offset r <> 0 ->
  let r' := at_pos r (ptr r + 1) 0 in
  bit_ref_wf r' /\ same_room r r' /\ pos r' = pos r + pad (pos r)
  /\ history r' = history r ++ bits (buf r) (pos r) (pad (pos r)).
Proof.
  intros [Hb Ho Hp Hpos Hmax] Hne r'. unfold pos in *.
  assert (pad (8 * ptr r + offset r) = 8 - offset r) as Epad by (unfold pad; lia).
  assert (pos r' = pos r + pad (pos r)) as Epos by (unfold pos, r', at_pos; cbn; lia).
  split; [split; unfold pos, r', at_pos; cbn; done || lia |]. split; [done |]. split; [done |].
  apply (history_step r r' (pad (pos r))); unfold pos in *; [lia | lia | done | done].
Qed.

(** In a writer both alignments append zero bits. *)
Lemma align_bytes_zero_spec r :
  writer r -> exists r', align_bytes_zero r = (SRSASN_SUCCESS, r') /\ writer r' /\ same_room r r'
    /\ pos r' = pos r + pad (pos r) /\ history r' = history r ++ replicate (Z.to_nat (pad (pos r))) false.
Proof.
  intros [Hwf Hclear]. unfold align_bytes_zero. pose proof Hwf as [Hb Ho Hp Hpos Hmax].
  destruct (Z.eqb_spec (offset r) 0) as [E | E].
  { exists r. assert (pad (pos r) = 0) as -> by (unfold pad, pos; lia). split_and!; [done | done | done | lia |]. by rewrite app_nil_r. }
  destruct (Z.leb_spec (max_ptr r) (ptr r)) as [Hf | Hlt]; [unfold pos in *; lia |].
  assert (Z.land (byte_at (buf r) (ptr r)) (u8 (256 - Z.shiftl 1 (8 - offset r))) = byte_at (buf r) (ptr r)) as Eb.
  { pose proof (byte_at_uint _ (ptr r) Hb) as Hbyte. rewrite Z.shiftl_1_l.
    assert (byte_at (buf r) (ptr r) mod 2 ^ (8 - offset r) = 0) as Hm.
    { pose proof (bits_byte (buf r) (ptr r) (offset r) (8 - offset r) Hp ltac:(lia) ltac:(lia) ltac:(lia)) as HV.
      rewrite Z.sub_diag, Z.pow_0_r, Z.div_1_r in HV. rewrite <- HV.
      replace (bits _ _ _) with (zbits (8 - offset r) 0).
      - by rewrite bits_val_zbits by lia.
      - symmetry. apply zbits_fmap. intros i Hi. rewrite Z.testbit_0_l. apply Hclear; [done | unfold pos; lia]. }
    unfold is_uint in Hbyte. 
    assert (forallb (fun b => forallb (fun o => implb (b mod 2 ^ (8 - o) =? 0) (Z.land b (u8 (256 - 2 ^ (8 - o))) =? b))
      (seqZ 1 7)) (seqZ 0 256) = true) as HB by (vm_compute; reflexivity).
    rewrite forallb_forall in HB. specialize (HB (byte_at (buf r) (ptr r))).
    rewrite <- list_elem_of_In, elem_of_seqZ in HB. specialize (HB ltac:(lia)).
    rewrite forallb_forall in HB. specialize (HB (offset r)). rewrite <- list_elem_of_In, elem_of_seqZ in HB.
    specialize (HB ltac:(lia)). rewrite Hm in HB. by apply Z.eqb_eq in HB. }
  assert (set_byte r (byte_at (buf r) (ptr r)) = r) as Es.
  { unfold set_byte, byte_at. destruct r as [b p o st mx]; cbn [buf ptr offset start_ptr max_ptr] in *. f_equal.
    apply list_insert_id. destruct (zget_some b p) as [x Ex]; [unfold in_range; lia |]. rewrite Ex. simpl.
    rewrite zget_lookup in Ex by done. done. }
  cbv zeta. rewrite Eb, Es. destruct (align_move r Hwf E) as (Hwf' & Hs & Hpos' & Hh). eexists. split; [done |].
  split; [split; [done | by intros []] |]. split; [done |]. split; [done |]. rewrite Hh. f_equal. rewrite <- zbits_0.
  apply zbits_fmap. intros i Hi. rewrite Z.testbit_0_l. apply Hclear; [done |]. unfold pad, pos in *. lia.
Qed.

Lemma align_bytes_writer r :
  writer r -> exists r', align_bytes r = (SRSASN_SUCCESS, r') /\ writer r' /\ same_room r r'
    /\ pos r' = pos r + pad (pos r) /\ history r' = history r ++ replicate (Z.to_nat (pad (pos r))) false.
Proof.
  intros [Hwf Hclear]. unfold align_bytes. pose proof Hwf as [Hb Ho Hp Hpos Hmax].
  destruct (Z.eqb_spec (offset r) 0) as [E | E].
  { exists r. assert (pad (pos r) = 0) as -> by (unfold pad, pos; lia). split_and!; [done | done | done | lia |]. by rewrite app_nil_r. }
  destruct (Z.leb_spec (max_ptr r) (ptr r)) as [Hf | Hlt]; [unfold pos in *; lia |].
  destruct (align_move r Hwf E) as (Hwf' & Hs & Hpos' & Hh). eexists. split; [done |].
  split; [split; [done | by intros []] |]. split; [done |]. split; [done |]. rewrite Hh. f_equal. rewrite <- zbits_0.
  apply zbits_fmap. intros i Hi. rewrite Z.testbit_0_l. apply Hclear; [done |]. unfold pad, pos in *. lia.
Qed.

(** In a reader the alignment drops the padding. *)
Lemma align_bytes_spec r l tl :
  bit_ref_wf r -> pending r = l ++ tl -> zlen l = pad (pos r) ->
  exists r', align_bytes r = (SRSASN_SUCCESS, r') /\ bit_ref_wf r' /\ same_room r r' /\ buf r' = buf r
    /\ pos r' = pos r + pad (pos r) /\ pending r' = tl.
Proof.
  intros Hwf Hl Hlen. unfold align_bytes. pose proof Hwf as [Hb Ho Hp Hpos Hmax].
  destruct (Z.eqb_spec (offset r) 0) as [E | E].
  { exists r. assert (pad (pos r) = 0) as Ez by (unfold pad, pos; lia). rewrite Ez in *. split_and!; [done | done | done | done | lia |].
    destruct l; [done |]. rewrite zlen_cons in Hlen. pose proof (zlen_nonneg l). lia. }
  destruct (Z.leb_spec (max_ptr r) (ptr r)) as [Hf | Hlt]; [unfold pos in *; lia |].
  destruct (align_move r Hwf E) as (Hwf' & Hs & Hpos' & _). eexists. split; [done |].
  split; [done |]. split; [done |]. split; [done |]. split; [done |].
  pose proof (pad_range (pos r)). pose proof (bw_pos _ Hwf') as Hp'. destruct Hs as (Hm & _). rewrite Hm, Hpos' in Hp'.
  assert (pending r = bits (buf r) (pos r) (pad (pos r)) ++ bits (buf r) (pos r + pad (pos r)) (8 * max_ptr r - (pos r + pad (pos r)))) as Hsplit.
  { unfold pending. rewrite <- bits_split by lia. f_equal. lia. }
  rewrite Hl in Hsplit. apply app_inj_1 in Hsplit as [_ Etl].
  2:{ pose proof (zlen_bits (buf r) (pos r) (pad (pos r)) ltac:(lia)). unfold zlen in *. lia. }
  unfold pending. rewrite Hpos'. by rewrite Etl.
Qed.

(** A writer on a fresh buffer, and the reader of what has been written. *)
Lemma fresh_writer b n : Forall (is_uint 8) b -> 0 <= n <= zlen b -> writer (mk_bit_ref b n) /\ history (mk_bit_ref b n) = [].
Proof.
  intros Hb Hn. split; [split |].
  - split; unfold pos, mk_bit_ref; cbn; done || lia.
  - by intros [].
  - done.
Qed.

Lemma reader_of_writer r :
  bit_ref_wf r -> let c := mk_bit_ref (buf r) (max_ptr r) in
  bit_ref_wf c /\ pos c = 0 /\ pending c = history r ++ pending r.
Proof.
  intros [Hb Ho Hp Hpos Hmax] c. unfold pos in *. split; [split; unfold pos, c, mk_bit_ref; cbn; done || lia |].
  split; [done |]. unfold pending, history, c, mk_bit_ref. unfold pos at 1 2. cbn [buf ptr offset max_ptr].
  rewrite <- (Z.add_0_l (pos r)) at 2. rewrite <- bits_split by (unfold pos; lia). f_equal. lia.
Qed.
