(* ===== verification/PerCodec.v ===== *)
(** * PER encoding: whole numbers, lengths, integers and enumerations
    ([lib/src/asn1/asn1_utils.cc])

    Encoders append bits to a stream and decoders consume them. The encoding of a
    value is a [code]: the bits it takes as a function of the position they start
    at, because the aligned variant pads to byte boundaries. [emits] and [takes]
    say that an encoder writes a code and that a decoder reads it back; both
    compose over [HANDLE_CODE] sequences. *)

From S2P Require Import Prelude BitRef.
From S2P Require Export Log2f.

(** ** Codes *)

Definition code := Z -> list bool.
Definition cnil : code := fun _ => [].
Definition cbits (n v : Z) : code := fun _ => zbits n v.
Definition cpad : code := fun p => replicate (Z.to_nat (pad p)) false.
Definition cseq (c d : code) : code := fun p => c p ++ d (p + zlen (c p)).
Infix "+++" := cseq (at level 60, right associativity).

(** The code of a list, item after item. *)
Definition citems {A} (c : A -> code) (l : list A) : code := foldr (fun x d => c x +++ d) cnil l.

(** [f] appends the code, if there is room for it. *)
Definition emits (f : bit_ref -> SRSASN_CODE * bit_ref) (c : code) : Prop :=
  forall r, writer r -> pos r + zlen (c (pos r)) <= 8 * max_ptr r ->
  exists r', f r = (SRSASN_SUCCESS, r') /\ writer r' /\ same_room r r'
    /\ pos r' = pos r + zlen (c (pos r)) /\ history r' = history r ++ c (pos r).

(** [f] reads [x] off a stream that starts with the code. *)
Definition takes {A} (f : bit_ref -> SRSASN_CODE * A * bit_ref) (x : A) (c : code) : Prop :=
  forall r tl, bit_ref_wf r -> pending r = c (pos r) ++ tl ->
  exists r', f r = (SRSASN_SUCCESS, x, r') /\ bit_ref_wf r' /\ same_room r r' /\ buf r' = buf r
    /\ pos r' = pos r + zlen (c (pos r)) /\ pending r' = tl.

Lemma wf_pos r : bit_ref_wf r -> 0 <= pos r.
Proof. intros [? ? ? ? ?]. unfold pos. lia. Qed.

Lemma emits_ext f g c d : (forall r, f r = g r) -> (forall p, 0 <= p -> c p = d p) -> emits f c -> emits g d.
Proof.
  intros Hf Hc He r Hr Hroom. pose proof (wf_pos r (proj1 Hr)). rewrite <- Hc in * by done. rewrite <- Hf. by apply He.
Qed.

Lemma takes_ext {A} f g (x : A) c d : (forall r, f r = g r) -> (forall p, 0 <= p -> c p = d p) -> takes f x c -> takes g x d.
Proof.
  intros Hf Hc He r tl Hr Hp. pose proof (wf_pos r Hr). rewrite <- Hc in * by done. rewrite <- Hf. by apply He.
Qed.

Lemma emits_done : emits (fun r => (SRSASN_SUCCESS, r)) cnil.
Proof. intros r Hr Hroom. exists r. split_and!; [done | done | done | unfold cnil; rewrite zlen_nil; lia | by rewrite app_nil_r]. Qed.

Lemma takes_done {A} (x : A) : takes (fun r => (SRSASN_SUCCESS, x, r)) x cnil.
Proof. intros r tl Hr Hp. exists r. split_and!; [done | done | done | done | unfold cnil; rewrite zlen_nil; lia | done]. Qed.

Lemma emits_pack n v : 0 <= n < 64 -> emits (pack v n) (cbits n v).
Proof.
  intros Hn r Hr Hroom. unfold cbits in *. rewrite zlen_zbits in * by lia.
  destruct (pack_spec v n r Hr Hn Hroom) as (r' & E & H1 & H2 & H3 & H4). by exists r'.
Qed.

Lemma emits_align_zero : emits align_bytes_zero cpad.
Proof.
  intros r Hr _. destruct (align_bytes_zero_spec r Hr) as (r' & E & H1 & H2 & H3 & H4). exists r'.
  split_and!; try done. rewrite H3. unfold cpad, zlen. rewrite length_replicate. pose proof (pad_range (pos r)). lia.
Qed.

Lemma emits_align : emits align_bytes cpad.
Proof.
  intros r Hr _. destruct (align_bytes_writer r Hr) as (r' & E & H1 & H2 & H3 & H4). exists r'.
  split_and!; try done. rewrite H3. unfold cpad, zlen. rewrite length_replicate. pose proof (pad_range (pos r)). lia.
Qed.

Lemma emits_then f g c d : emits f c -> emits g d -> emits (fun r => then_pack (f r) g) (c +++ d).
Proof.
  intros Hf Hg r Hr Hroom. unfold cseq in *. rewrite zlen_app in Hroom.
  pose proof (zlen_nonneg (c (pos r))). pose proof (zlen_nonneg (d (pos r + zlen (c (pos r))))).
  destruct (Hf r Hr ltac:(lia)) as (r1 & E1 & Hw1 & Hs1 & Hp1 & Hh1).
  rewrite <- Hp1 in *.
  destruct (Hg r1 Hw1) as (r2 & E2 & Hw2 & Hs2 & Hp2 & Hh2); [destruct Hs1 as (-> & _); lia |].
  exists r2. unfold then_pack, handle. rewrite E1, E2. split; [done |]. split; [done |].
  split; [by eapply same_room_trans |]. split; [rewrite zlen_app; lia |]. by rewrite Hh2, Hh1, app_assoc.
Qed.

Lemma takes_then {A B} f (g : A -> bit_ref -> SRSASN_CODE * B * bit_ref) x y b c d :
  takes f x c -> takes (g x) y d -> takes (fun r => then_unpack (f r) b g) y (c +++ d).
Proof.
  intros Hf Hg r tl Hr Hp. unfold cseq in *. rewrite <- app_assoc in Hp.
  destruct (Hf r _ Hr Hp) as (r1 & E1 & Hw1 & Hs1 & Hb1 & Hp1 & Hh1). rewrite <- Hp1 in *.
  destruct (Hg r1 tl Hw1 Hh1) as (r2 & E2 & Hw2 & Hs2 & Hb2 & Hp2 & Hh2).
  exists r2. unfold then_unpack. rewrite E1, E2. split_and!; [done | done | by eapply same_room_trans | congruence | | done].
  rewrite zlen_app. lia.
Qed.

(** [HANDLE_CODE] after a read into the result itself: a failure returns what was read. *)
Definition then_read {A} (f : SRSASN_CODE * A * bit_ref) (g : A -> bit_ref -> SRSASN_CODE * A * bit_ref)
  : SRSASN_CODE * A * bit_ref :=
  match f with (SRSASN_SUCCESS, x, r) => g x r | (c, x, r) => (c, x, r) end.

Lemma takes_read {A} f (g : A -> bit_ref -> SRSASN_CODE * A * bit_ref) x y c d :
  takes f x c -> takes (g x) y d -> takes (fun r => then_read (f r) g) y (c +++ d).
Proof.
  intros Hf Hg r tl Hr Hp. destruct (takes_then f g x y y c d Hf Hg r tl Hr Hp) as (r' & E & H).
  exists r'. split; [| done]. revert E. unfold then_unpack, then_read. destruct (f r) as [[[] ?] ?]; congruence.
Qed.

(** A result that is not tested. *)
Lemma emits_ignore f c : emits f c -> emits (fun r => (SRSASN_SUCCESS, snd (f r))) c.
Proof. intros Hf r Hr Hroom. destruct (Hf r Hr Hroom) as (r' & E & H). exists r'. rewrite E. by split. Qed.

(** Both alignments of a reader; [bit_ref::align_bytes] is [const]-agnostic. *)
Lemma takes_move {B} (g : bit_ref -> SRSASN_CODE * B * bit_ref) y b d :
  takes g y d -> takes (fun r => then_move (align_bytes r) b g) y (cpad +++ d).
Proof.
  intros Hg r tl Hr Hp. unfold cseq in *. rewrite <- app_assoc in Hp.
  assert (zlen (cpad (pos r)) = pad (pos r)) as El.
  { unfold cpad, zlen. rewrite length_replicate. pose proof (pad_range (pos r)). lia. }
  destruct (align_bytes_spec r (cpad (pos r)) _ Hr Hp El) as (r1 & E1 & Hw1 & Hs1 & Hb1 & Hp1 & Hh1).
  rewrite El in *. rewrite <- Hp1 in *.
  destruct (Hg r1 tl Hw1 Hh1) as (r2 & E2 & Hw2 & Hs2 & Hb2 & Hp2 & Hh2).
  exists r2. unfold then_move, handle. rewrite E1, E2. split_and!; [done | done | by eapply same_room_trans | congruence | | done].
  rewrite zlen_app, El. lia.
Qed.

Lemma takes_unpack t b n v :
  0 <= n <= it_bits t -> it_bits t <= 64 -> takes (unpack t b n) (cast t (v mod 2 ^ n)) (cbits n v).
Proof.
  intros Hn Ht r tl Hr Hp. unfold cbits in *.
  destruct (unpack_spec t b n r (zbits n v) tl Hr Hn Ht Hp) as (r' & E & H1 & H2 & H3 & H4 & H5); [apply zlen_zbits; lia |].
  exists r'. rewrite bits_val_zbits in E by lia. rewrite zlen_zbits by lia. done.
Qed.

(** What was written on a fresh buffer is read back from its start. *)
Lemma fresh_roundtrip {A} f (g : bit_ref -> SRSASN_CODE * A * bit_ref) x c b n :
  emits f c -> takes g x c -> Forall (is_uint 8) b -> 0 <= n <= zlen b -> zlen (c 0) <= 8 * n ->
  exists r', f (mk_bit_ref b n) = (SRSASN_SUCCESS, r') /\ pos r' = zlen (c 0) /\
  exists r'', g (mk_bit_ref (buf r') n) = (SRSASN_SUCCESS, x, r'') /\ pos r'' = pos r'.
Proof.
  intros He Ht Hb Hn Hroom. destruct (fresh_writer b n Hb Hn) as [Hw Hh].
  destruct (He (mk_bit_ref b n) Hw) as (r' & E & Hw' & (Hm & _ & _) & Hp' & Hh'); [done |].
  exists r'. split; [done |]. change (pos (mk_bit_ref b n)) with 0 in *. split; [lia |].
  destruct (reader_of_writer r' (proj1 Hw')) as (Hwc & Hpc & Hpend). rewrite Hm in *. change (max_ptr (mk_bit_ref b n)) with n in *.
  rewrite Hh', Hh in Hpend. destruct (Ht _ (pending r') Hwc) as (r'' & E'' & _ & _ & _ & Hp'' & _); [by rewrite Hpc |].
  exists r''. split; [done |]. rewrite Hp'', Hpc. lia.
Qed.

(** ** Fragment sizes and quotients *)

Definition ASN_16K : Z := 16384.
Definition ASN_64K : Z := 65536.

Definition ceil_frac (n d : Z) : Z := u32 (n + (d - 1)) / d.

Lemma ceil_frac_spec n d : 0 <= n -> 0 < d -> n + d <= 2 ^ 32 -> n <= d * ceil_frac n d < n + d.
Proof. intros Hn Hd Hr. unfold ceil_frac. rewrite uwrap_small by (unfold is_uint; lia). nia. Qed.

(** ** Flags and enumerations *)

Definition unpack_bool (r : bit_ref) : SRSASN_CODE * bool * bit_ref :=
  let '(c, x, r) := unpack uint8_t 0 1 r in (c, x =? 1, r).

Definition pack_unsupported_ext_flag (ext : bool) (r : bit_ref) : SRSASN_CODE * bit_ref :=
  r ≪- pack (Z.b2z ext) 1 r ; if ext then (SRSASN_ERROR_ENCODE_FAIL, r) else (SRSASN_SUCCESS, r).

Definition unpack_unsupported_ext_flag (r : bit_ref) : SRSASN_CODE * bool * bit_ref :=
  let '(ret, ext, r) := unpack_bool r in
  if ext then (SRSASN_ERROR_DECODE_FAIL, ext, r) else (ret, ext, r).

(** [pack_norm_small_non_neg_whole_number] and its inverse, X.691 10.6. *)
Definition pack_norm_small_non_neg_whole_number (n : Z) (r : bit_ref) : SRSASN_CODE * bit_ref :=
  if n <=? 63 then r ≪- pack n 7 r ; (SRSASN_SUCCESS, r)
  else r ≪- pack 1 1 r ; (SRSASN_ERROR_ENCODE_FAIL, r).

Definition unpack_norm_small_non_neg_whole_number (t : int_type) (before : Z) (r : bit_ref) : SRSASN_CODE * Z * bit_ref :=
  then_unpack (unpack_bool r) before (fun ext r =>
    if negb ext then unpack t before 6 r else (SRSASN_ERROR_DECODE_FAIL, before, r)).

(** The three overloads of [pack_enum]. *)
Definition pack_enum (enum_val nbits : Z) (r : bit_ref) : SRSASN_CODE * bit_ref := pack enum_val nbits r.

Definition pack_enum_ext (enum_val nbits nof_noext : Z) (r : bit_ref) : SRSASN_CODE * bit_ref :=
  let ext := nof_noext <=? enum_val in
  r ≪- pack (Z.b2z ext) 1 r ;
  if negb ext then pack enum_val nbits r
  else pack_norm_small_non_neg_whole_number (u32 (enum_val - nof_noext)) r.

Definition pack_enum_of (e nof_types nof_exts : Z) (has_ext : bool) (r : bit_ref) : SRSASN_CODE * bit_ref :=
  if nof_types <=? e then (SRSASN_ERROR_ENCODE_FAIL, r)
  else if has_ext then
    let nof_noext := u32 (nof_types - nof_exts) in
    pack_enum_ext e (ceilf_log2f nof_noext) nof_noext r
  else pack_enum e (ceilf_log2f nof_types) r.

(** [ret.val] is 0 before anything is read ([ValOrError]'s default). *)
Definition unpack_enum (nof_types nof_exts : Z) (has_ext : bool) (r : bit_ref) : SRSASN_CODE * Z * bit_ref :=
  let range_check '(c, v, r) := if nof_types <=? v then (SRSASN_ERROR_DECODE_FAIL, v, r) else (c, v, r) in
  if has_ext then
    match unpack_bool r with
    | (SRSASN_SUCCESS, ext, r) =>
        range_check
          (if negb ext then unpack uint32_t 0 (ceilf_log2f (u32 (nof_types - nof_exts))) r
           else let '(c, v, r) := unpack_norm_small_non_neg_whole_number uint32_t 0 r in
                (c, u32 (v + u32 (nof_types - nof_exts)), r))
    | (c, _, r) => (c, 0, r)
    end
  else range_check (unpack uint32_t 0 (ceilf_log2f nof_types) r).

(** ** Constrained whole numbers, X.691 10.5 *)

(** The type in which [ub - lb] is computed. *)
Definition promoted (t : int_type) : int_type := if it_bits t <? 32 then int32_t else t.

(** [(uint64_t)(ub - lb) + 1] *)
Definition range_of (t : int_type) (lb ub : Z) : Z := u64 (u64 (cast (promoted t) (ub - lb)) + 1).

Definition pack_constrained_whole_number (t : int_type) (n lb ub : Z) (aligned : bool) (r : bit_ref)
  : SRSASN_CODE * bit_ref :=
  if (ub <? lb) || (n <? lb) || (ub <? n) then (SRSASN_ERROR_ENCODE_FAIL, r)
  else
    let ra := range_of t lb ub in
    if ra =? 1 then (SRSASN_SUCCESS, r)
    else
      let n_bits := ceilf_log2f ra in
      let toencode := cast t (n - lb) in
      if negb aligned then (SRSASN_SUCCESS, snd (pack toencode n_bits r))
      else if ra <? 256 then pack toencode n_bits r
      else if ra <=? ASN_64K then
        let n_octets := ceil_frac n_bits 8 in
        r ≪- align_bytes_zero r ;
        r ≪- pack 0 (n_octets * 8 - n_bits) r ;
        r ≪- pack toencode n_bits r ;
        align_bytes_zero r
      else
        let n_bits_len := ceilf_log2f (ceil_frac n_bits 8) in
        let n_bits := floorf_log2f_1 (Z.max toencode 1) in
        let n_octets := ceil_frac n_bits 8 in
        r ≪- pack (n_octets - 1) n_bits_len r ;
        r ≪- align_bytes_zero r ;
        pack toencode (n_octets * 8) r.

Definition unpack_constrained_whole_number (t : int_type) (before lb ub : Z) (aligned : bool) (r : bit_ref)
  : SRSASN_CODE * Z * bit_ref :=
  if ub <? lb then (SRSASN_ERROR_DECODE_FAIL, before, r)
  else
    let ra := range_of t lb ub in
    if ra =? 1 then (SRSASN_SUCCESS, lb, r)
    else
      let n_bits := ceilf_log2f ra in
      if negb aligned then
        then_read (unpack t before n_bits r) (fun n r =>
          let n := cast t (n + lb) in
          if ub <? n then (SRSASN_ERROR_DECODE_FAIL, n, r) else (SRSASN_SUCCESS, n, r))
      else if ra <? 256 then
        then_read (unpack t before n_bits r) (fun n r => (SRSASN_SUCCESS, cast t (n + lb), r))
      else if ra <=? ASN_64K then
        let n_octets := ceil_frac n_bits 8 in
        then_move (align_bytes r) before (fun r =>
          then_read (unpack t before (n_octets * 8) r) (fun n r =>
            then_move (align_bytes r) n (fun r => (SRSASN_SUCCESS, cast t (n + lb), r))))
      else
        let n_bits_len := ceilf_log2f (ceil_frac n_bits 8) in
        then_unpack (unpack uint32_t 0 n_bits_len r) before (fun n_octets r =>
          let n_octets := u32 (n_octets + 1) in
          then_move (align_bytes r) before (fun r =>
            then_read (unpack t before (u32 (n_octets * 8)) r) (fun n r => (SRSASN_SUCCESS, cast t (n + lb), r)))).

(** ** Unconstrained whole numbers, X.691 10.8 *)

Definition round_down_plus_1 (k : Z) : Z := if k =? 31 then 16 else if k =? 63 then 33 else round_down_to k.

(** [ceilf((log2f(n) + 1) / 8.0f)]; the sum rounds down at 32 and 64 a little more
    often than [log2f] alone. [log2f] has no integer value for [n <= 0], and the
    conversion of its result is undefined. *)
Definition unconstrained_whole_number_length (t : int_type) (n : Z) : option Z :=
  if n <=? 0 then None
  else
    Some (cast t ((ceilf_log2f_to round_down_plus_1 n + 1 + 7) / 8)).

(** [None] where the length is undefined. *)
Definition pack_unconstrained_whole_number (t : int_type) (n : Z) (aligned : bool) (r : bit_ref)
  : option (SRSASN_CODE * bit_ref) :=
  len ← unconstrained_whole_number_length t n;
  Some (r ≪- (if aligned then align_bytes_zero r else (SRSASN_SUCCESS, r)) ;
        r ≪- pack n (u32 (u32 len * 8)) r ;
        (SRSASN_SUCCESS, r)).

Definition unpack_unconstrained_whole_number (t : int_type) (before len : Z) (aligned : bool) (r : bit_ref)
  : SRSASN_CODE * Z * bit_ref :=
  then_move (if aligned then align_bytes r else (SRSASN_SUCCESS, r)) before (fun r =>
    then_read (unpack t before (u32 (len * 8)) r) (fun n r => (SRSASN_SUCCESS, n, r))).

(** ** Length determinants, X.691 10.9 *)

Definition pack_length_unb (val : Z) (aligned : bool) (r : bit_ref) : SRSASN_CODE * bit_ref :=
  if negb aligned then
    if val <? 128 then r ≪- pack val 8 r ; (SRSASN_SUCCESS, r)
    else if val <? ASN_16K then
      r ≪- pack 2 2 r ;
      r ≪- pack val 14 r ;
      (SRSASN_SUCCESS, r)
    else (SRSASN_ERROR_ENCODE_FAIL, r)
  else if ASN_64K <? val then (SRSASN_ERROR_ENCODE_FAIL, r)
  else
    r ≪- align_bytes r ;
    if val <? 128 then pack val 8 r
    else if val <? ASN_16K then
      r ≪- pack 2 2 r ;
      pack val 14 r
    else
      r ≪- pack 3 2 r ;
      let m := val / ASN_16K in
      r ≪- pack m 6 r ;
      pack (val - m * ASN_16K) 16 r.

Definition unpack_length_unb (before : Z) (aligned : bool) (r : bit_ref) : SRSASN_CODE * Z * bit_ref :=
  if negb aligned then
    then_unpack (unpack_bool r) before (fun ext r =>
      if negb ext then unpack uint32_t before 7 r
      else then_unpack (unpack_bool r) before (fun ext r =>
        if negb ext then unpack uint32_t before 14 r else (SRSASN_ERROR_DECODE_FAIL, 0, r)))
  else
    then_move (align_bytes r) before (fun r =>
      then_read (unpack uint32_t before 8 r) (fun val r =>
        if val <? 128 then (SRSASN_SUCCESS, val, r)
        else
          let val := u32 (val - 128) in
          if val <? 64 then
            then_unpack (unpack uint32_t 0 8 r) val (fun val_octet_2 r =>
              (SRSASN_SUCCESS, u32 (u32 (Z.shiftl val 8) + val_octet_2), r))
          else (SRSASN_ERROR_DECODE_FAIL, val, r))).

(** The bounded determinant: constrained unless the bound is 64K or more. *)
Definition pack_length (t : int_type) (n lb ub : Z) (aligned : bool) (r : bit_ref) : SRSASN_CODE * bit_ref :=
  if ASN_64K <=? ub then pack_length_unb (u32 n) aligned r else pack_constrained_whole_number t n lb ub aligned r.

Definition unpack_length (t : int_type) (before lb ub : Z) (aligned : bool) (r : bit_ref) : SRSASN_CODE * Z * bit_ref :=
  if ASN_64K <=? ub then
    let '(ret, len, r) := unpack_length_unb 0 aligned r in (ret, cast t len, r)
  else unpack_constrained_whole_number t before lb ub aligned r.

(** ** Integers, X.691 12 *)

Definition type_min (t : int_type) : Z := if it_signed t then - 2 ^ (it_bits t - 1) else 0.
Definition type_max (t : int_type) : Z := if it_signed t then 2 ^ (it_bits t - 1) - 1 else 2 ^ it_bits t - 1.

Definition lower_bounded (t : int_type) (lb : Z) : bool := negb (lb =? type_min t) || negb (it_signed t).
Definition upper_bounded (t : int_type) (ub : Z) : bool := negb (ub =? type_max t).

(** [HANDLE_CODE] before an operation that may be undefined. *)
Definition then_pack_opt (f : SRSASN_CODE * bit_ref) (g : bit_ref -> option (SRSASN_CODE * bit_ref))
  : option (SRSASN_CODE * bit_ref) := handle f (fun c r => Some (c, r)) g.

Definition pack_integer (t : int_type) (n lb ub : Z) (has_ext aligned : bool) (r : bit_ref)
  : option (SRSASN_CODE * bit_ref) :=
  let within_bounds := (lb <=? n) && (n <=? ub) in
  let body r :=
    if within_bounds && lower_bounded t lb && upper_bounded t ub then
      if lb =? ub then Some (SRSASN_SUCCESS, r)
      else Some (r ≪- pack_constrained_whole_number t n lb ub aligned r ; (SRSASN_SUCCESS, r))
    else if negb within_bounds || (negb (lower_bounded t lb) && negb (upper_bounded t ub)) then
      len ← unconstrained_whole_number_length t n;
      then_pack_opt (pack_length_unb (u32 len) aligned r) (fun r =>
        cr ← pack_unconstrained_whole_number t n aligned r;
        Some (r ≪- cr ; (SRSASN_SUCCESS, r)))
    else Some (SRSASN_SUCCESS, r)
  in
  if has_ext then
    then_pack_opt (pack (Z.b2z (negb within_bounds)) 1 r) body
  else if negb within_bounds then Some (SRSASN_ERROR_ENCODE_FAIL, r)
  else body r.

Definition pack_unconstrained_integer (t : int_type) (n : Z) (has_ext aligned : bool) (r : bit_ref) :=
  pack_integer t n (type_min t) (type_max t) has_ext aligned r.

(** Lines 881 to 902, once the extension bit is read. *)
Definition unpack_integer_body (t : int_type) (before lb ub : Z) (aligned within_bounds : bool) (r : bit_ref)
  : SRSASN_CODE * Z * bit_ref :=
  if within_bounds && lower_bounded t lb && upper_bounded t ub then
    if lb =? ub then (SRSASN_SUCCESS, before, r)
    else then_read (unpack_constrained_whole_number t before lb ub aligned r) (fun n r => (SRSASN_SUCCESS, n, r))
  else if negb within_bounds || (negb (lower_bounded t lb) && negb (upper_bounded t ub)) then
    then_unpack (unpack_length_unb 0 aligned r) before (fun len r =>
      then_read (unpack_unconstrained_whole_number t before len aligned r) (fun n r => (SRSASN_SUCCESS, n, r)))
  else (SRSASN_SUCCESS, before, r).

Definition unpack_integer (t : int_type) (before lb ub : Z) (has_ext aligned : bool) (r : bit_ref)
  : SRSASN_CODE * Z * bit_ref :=
  if has_ext then
    then_unpack (unpack_bool r) before (fun ext r => unpack_integer_body t before lb ub aligned (negb ext) r)
  else unpack_integer_body t before lb ub aligned true r.

Definition unpack_unconstrained_integer (t : int_type) (before : Z) (has_ext aligned : bool) (r : bit_ref) :=
  unpack_integer t before (type_min t) (type_max t) has_ext aligned r.

(** [integer_packer] *)
Record integer_packer := IntegerPacker { ip_lb : Z; ip_ub : Z; ip_has_ext : bool; ip_aligned : bool }.
Definition integer_packer_pack (t : int_type) (p : integer_packer) (n : Z) (r : bit_ref) :=
  pack_integer t n (ip_lb p) (ip_ub p) (ip_has_ext p) (ip_aligned p) r.
Definition integer_packer_unpack (t : int_type) (p : integer_packer) (before : Z) (r : bit_ref) :=
  unpack_integer t before (ip_lb p) (ip_ub p) (ip_has_ext p) (ip_aligned p) r.

(** ** Flags, small numbers and enumerations are read back *)

(** [f] and [g] are inverse on [x]: they share a code. *)
Definition inverse_on {A} (f : bit_ref -> SRSASN_CODE * bit_ref) (g : bit_ref -> SRSASN_CODE * A * bit_ref) (x : A) (c : code) : Prop :=
  emits f c /\ takes g x c.

Lemma takes_bool b : takes unpack_bool b (cbits 1 (Z.b2z b)).
Proof.
  intros r tl Hr Hp. destruct (takes_unpack uint8_t 0 1 (Z.b2z b) ltac:(simpl; lia) ltac:(simpl; lia) r tl Hr Hp) as (r' & E & H).
  exists r'. unfold unpack_bool. rewrite E. split; [| done]. by destruct b.
Qed.

Lemma emits_flag b : emits (pack (Z.b2z b) 1) (cbits 1 (Z.b2z b)).
Proof. apply emits_pack. lia. Qed.

Lemma takes_value t b n v w : 0 <= n <= it_bits t -> it_bits t <= 64 -> cast t (v mod 2 ^ n) = w -> takes (unpack t b n) w (cbits n v).
Proof. intros Hn Ht <-. by apply takes_unpack. Qed.

(** An unsigned number that fits its field. *)
Lemma takes_unsigned w b n v :
  0 <= n <= w -> w <= 64 -> 0 <= v < 2 ^ n -> takes (unpack (IntType w false) b n) v (cbits n v).
Proof.
  intros Hn Hw Hv. apply takes_value; [done | done |]. rewrite Z.mod_small by done. apply uwrap_small. unfold is_uint. simpl.
  assert (2 ^ n <= 2 ^ w) by (apply Z.pow_le_mono_r; lia). lia.
Qed.

Lemma takes_u32 b n v : 0 <= n <= 32 -> 0 <= v < 2 ^ n -> takes (unpack uint32_t b n) v (cbits n v).
Proof. intros. by apply takes_unsigned. Qed.

Lemma emits_branch (b : bool) f g c d : (b = true -> emits f c) -> (b = false -> emits g d) ->
  emits (fun r => if b then f r else g r) (if b then c else d).
Proof. destruct b; auto. Qed.

(** Leading zero bits of a field. *)
Lemma zbits_lead m n v : 0 <= m -> 0 <= n -> 0 <= v < 2 ^ n -> zbits (m + n) v = zbits m 0 ++ zbits n v.
Proof. intros Hm Hn Hv. rewrite zbits_split by lia. by rewrite Z.div_small. Qed.

Lemma norm_small_inverse t b n :
  0 <= n <= 63 -> 8 <= it_bits t <= 64 ->
  inverse_on (pack_norm_small_non_neg_whole_number n) (unpack_norm_small_non_neg_whole_number t b) n (cbits 7 n).
Proof.
  intros Hn Ht. split.
  - eapply emits_ext; [| | exact (emits_then _ _ _ _ (emits_pack 7 n ltac:(lia)) emits_done)].
    + intros r. unfold pack_norm_small_non_neg_whole_number. by destruct (Z.leb_spec n 63); [| lia].
    + intros p Hp. unfold cseq, cnil. apply app_nil_r.
  - eapply (takes_ext _ _ _ (cbits 1 (Z.b2z false) +++ cbits 6 n)); [reflexivity | |].
    + intros p Hp. unfold cseq, cbits. symmetry. apply (zbits_lead 1 6); lia.
    + apply (takes_then unpack_bool _ false); [apply takes_bool |]. simpl. apply takes_value; [lia | lia |].
      rewrite Z.mod_small by lia. apply cast_in_type; [lia |]. unfold in_type.
      assert (2 ^ 7 <= 2 ^ (it_bits t - 1)) by (apply Z.pow_le_mono_r; lia).
      assert (2 ^ 7 <= 2 ^ it_bits t) by (apply Z.pow_le_mono_r; lia). destruct (it_signed t); lia.
Qed.

Lemma width_range x : 1 <= x <= 2 ^ 21 -> 0 <= ceilf_log2f x <= 21 /\ x <= 2 ^ ceilf_log2f x.
Proof.
  intros Hx. rewrite ceilf_log2f_exact by done. split.
  - split; [apply Z.log2_up_nonneg |]. change 21 with (Z.log2_up (2 ^ 21)). apply Z.log2_up_le_mono. lia.
  - destruct (Z.eq_dec x 1) as [-> | Hne]; [done |]. apply Z.log2_up_spec. lia.
Qed.

(** The code of an enumeration item. *)
Definition enum_code (nof_types nof_exts : Z) (has_ext : bool) (e : Z) : code :=
  if has_ext then
    let noext := nof_types - nof_exts in
    if e <? noext then cbits 1 0 +++ cbits (ceilf_log2f noext) e else cbits 1 1 +++ cbits 7 (e - noext)
  else cbits (ceilf_log2f nof_types) e.

Lemma enum_inverse nof_types nof_exts has_ext e :
  0 <= e < nof_types -> nof_types <= 2 ^ 21 ->
  (has_ext = true -> 0 <= nof_exts < nof_types /\ e - (nof_types - nof_exts) <= 63) ->
  inverse_on (pack_enum_of e nof_types nof_exts has_ext) (unpack_enum nof_types nof_exts has_ext) e
    (enum_code nof_types nof_exts has_ext e).
Proof.
  intros He Hn Hx. unfold enum_code. destruct has_ext.
  - destruct (Hx eq_refl) as [Hne Hsmall]. clear Hx. set (noext := nof_types - nof_exts) in *.
    assert (u32 noext = noext) as Eu by (apply uwrap_small; unfold is_uint, noext; lia).
    destruct (width_range noext ltac:(unfold noext; lia)) as [Hw Hwv]. cbv zeta. split.
    + eapply emits_ext; [| intros p Hp; reflexivity |].
      { intros r. unfold pack_enum_of, pack_enum_ext. fold noext. rewrite Eu.
        destruct (Z.leb_spec nof_types e); [lia |]. cbv zeta. rewrite Z.leb_antisym, negb_involutive. reflexivity. }
      destruct (Z.ltb_spec e noext).
      * apply (emits_then (pack (Z.b2z false) 1)); [apply emits_flag |]. apply emits_pack. lia.
      * apply (emits_then (pack (Z.b2z true) 1)); [apply emits_flag |].
        rewrite uwrap_small by (unfold is_uint; lia). apply (norm_small_inverse uint32_t 0); simpl; lia.
    + intros r tl Hr Hp. unfold unpack_enum. fold noext. rewrite Eu.
      destruct (Z.ltb_spec e noext) as [Hlt | Hge].
      * unfold cseq in Hp. rewrite <- app_assoc in Hp.
        destruct (takes_bool false r _ Hr Hp) as (r1 & E1 & Hw1 & Hs1 & Hb1 & Hp1 & Hh1). rewrite E1. simpl negb. cbv iota.
        assert (takes (unpack uint32_t 0 (ceilf_log2f noext)) e (cbits (ceilf_log2f noext) e)) as Ht.
        { apply takes_u32; lia. }
        destruct (Ht r1 tl Hw1 Hh1) as (r2 & E2 & Hw2 & Hs2 & Hb2 & Hp2 & Hh2). exists r2.
        rewrite E2. destruct (Z.leb_spec nof_types e); [lia |].
        split_and!; [done | done | by eapply same_room_trans | congruence | | done].
        unfold cseq. rewrite zlen_app. unfold cbits in *. simpl Z.b2z in *. lia.
      * unfold cseq in Hp. rewrite <- app_assoc in Hp.
        destruct (takes_bool true r _ Hr Hp) as (r1 & E1 & Hw1 & Hs1 & Hb1 & Hp1 & Hh1). rewrite E1. simpl negb. cbv iota.
        destruct (norm_small_inverse uint32_t 0 (e - noext)) as [_ Ht]; [lia | simpl; lia |].
        destruct (Ht r1 tl Hw1 Hh1) as (r2 & E2 & Hw2 & Hs2 & Hb2 & Hp2 & Hh2). exists r2.
        rewrite E2. replace (u32 (e - noext + noext)) with e by (rewrite uwrap_small; unfold is_uint; lia).
        destruct (Z.leb_spec nof_types e); [lia |].
        split_and!; [done | done | by eapply same_room_trans | congruence | | done].
        unfold cseq. rewrite zlen_app. unfold cbits in *. simpl Z.b2z in *. lia.
  - destruct (width_range nof_types ltac:(lia)) as [Hw Hwv]. split.
    + eapply emits_ext; [| intros p Hp; reflexivity | apply emits_pack; lia].
      intros r. unfold pack_enum_of, pack_enum. by destruct (Z.leb_spec nof_types e); [lia |].
    + assert (takes (unpack uint32_t 0 (ceilf_log2f nof_types)) e (cbits (ceilf_log2f nof_types) e)) as Ht.
      { apply takes_u32; lia. }
      intros r tl Hr Hp. destruct (Ht r tl Hr Hp) as (r1 & E1 & H1). exists r1. unfold unpack_enum. rewrite E1.
      by destruct (Z.leb_spec nof_types e); [lia |].
Qed.

(** ** Constrained whole numbers are read back *)

Definition std_type (t : int_type) : Prop := it_bits t ∈ [8; 16; 32; 64].

Lemma std_type_bits t : std_type t -> (it_bits t = 8 \/ it_bits t = 16 \/ it_bits t = 32 \/ it_bits t = 64).
Proof. unfold std_type. rewrite !elem_of_cons, elem_of_nil. intuition. Qed.

(** The bounds of a field: of the type, and [ub - lb] does not overflow. *)
Record bounds_ok (t : int_type) (lb ub : Z) : Prop := BoundsOk {
  bo_type : std_type t;
  bo_lb : in_type t lb;
  bo_ub : in_type t ub;
  bo_le : lb <= ub;
  bo_diff : in_type (promoted t) (ub - lb);
  bo_range : ub - lb + 1 < 2 ^ 64
}.

Lemma range_of_eq t lb ub : bounds_ok t lb ub -> range_of t lb ub = ub - lb + 1.
Proof.
  intros [Ht Hl Hu Hle Hd Hr]. unfold range_of. rewrite cast_in_type; [| | done].
  - rewrite (uwrap_small 64 (ub - lb)) by (unfold is_uint; lia). apply uwrap_small. unfold is_uint. lia.
  - unfold promoted. apply std_type_bits in Ht. destruct (it_bits t <? 32); simpl; lia.
Qed.

Lemma in_type_between t lb ub n : in_type t lb -> in_type t ub -> lb <= n <= ub -> in_type t n.
Proof. unfold in_type. destruct (it_signed t); lia. Qed.

Lemma in_type_diff t lb ub : in_type t lb -> in_type t ub -> 0 < it_bits t -> ub - lb < 2 ^ it_bits t.
Proof.
  unfold in_type. intros Hl Hu Hb. replace (it_bits t) with (1 + (it_bits t - 1)) in * by lia.
  rewrite Z.pow_add_r in * by lia. replace (1 + (it_bits t - 1) - 1) with (it_bits t - 1) in * by lia.
  destruct (it_signed t); lia.
Qed.

Lemma zbits_cast t n v : 0 <= n <= it_bits t -> zbits n (cast t v) = zbits n v.
Proof.
  intros Hn. destruct (cast_eq t v) as [q ->]; [lia |]. rewrite <- (zbits_mod n (v + _)), <- (zbits_mod n v) by lia.
  f_equal. replace (q * 2 ^ it_bits t) with (q * 2 ^ (it_bits t - n) * 2 ^ n); [apply Z_mod_plus_full |].
  rewrite <- Z.mul_assoc, <- Z.pow_add_r by lia. do 2 f_equal. lia.
Qed.

(** The code of a constrained number, for [ra] values. *)
Definition constrained_code (ra v : Z) (aligned : bool) : code :=
  if ra =? 1 then cnil
  else
    let w := ceilf_log2f ra in
    if negb aligned || (ra <? 256) then cbits w v
    else if ra <=? ASN_64K then cpad +++ cbits (8 * ceil_frac w 8) v
    else
      let octets := ceil_frac (floorf_log2f_1 (Z.max v 1)) 8 in
      cbits (ceilf_log2f (ceil_frac w 8)) (octets - 1) +++ cpad +++ cbits (8 * octets) v.

(** The values whose width is right: all of them for ranges of up to 2^21 values;
    for longer ranges, the ones that fit the computed width (unaligned), or the
    lower half (aligned), below 2^54 as [pack] refuses 64 bits. *)
Definition width_ok (ra v : Z) (aligned : bool) : Prop :=
  ra <= ASN_64K \/
  (if aligned then 2 * v < 2 ^ Z.log2 ra /\ v < 2 ^ 54 else v < 2 ^ ceilf_log2f ra /\ ceilf_log2f ra < 64).

Section Constrained.
Context (t : int_type) (lb ub n : Z) (Hb : bounds_ok t lb ub) (Hn : lb <= n <= ub).
Notation ra := (ub - lb + 1).
Notation v := (n - lb).

Lemma bits_le_64 : 0 < it_bits t <= 64.
Proof using Hb. pose proof (std_type_bits t (bo_type _ _ _ Hb)). lia. Qed.

Lemma ra_le_type : ra <= 2 ^ it_bits t.
Proof using Hb.
  destruct Hb as [Ht Hl Hu Hle Hd Hr]. pose proof bits_le_64. pose proof (in_type_diff t lb ub Hl Hu). lia.
Qed.

(** Reading [v] on [k] bits and adding the lower bound gives [n]. *)
Lemma add_lb k : 0 <= k <= it_bits t -> v < 2 ^ k -> cast t (cast t (v mod 2 ^ k) + lb) = n.
Proof using Hb Hn.
  intros Hk Hv. pose proof bits_le_64. rewrite Z.mod_small by lia. rewrite cast_add_l by lia.
  replace (v + lb) with n by lia. apply cast_in_type; [lia |].
  eapply in_type_between; [apply (bo_lb _ _ _ Hb) | apply (bo_ub _ _ _ Hb) | done].
Qed.

(** The unaligned field, and the aligned one for less than 256 values. *)
Lemma short_emits w : 0 <= w < 64 -> w <= it_bits t -> emits (pack (cast t v) w) (cbits w v).
Proof using Type.
  intros Hw Hwt. eapply emits_ext; [reflexivity | | apply emits_pack; lia].
  intros p Hp. unfold cbits. apply zbits_cast. lia.
Qed.

Lemma short_takes b w (f : Z -> bit_ref -> SRSASN_CODE * Z * bit_ref) :
  0 <= w <= it_bits t -> v < 2 ^ w ->
  (forall x r, cast t (x + lb) = n -> f x r = (SRSASN_SUCCESS, n, r)) ->
  takes (fun r => then_read (unpack t b w r) f) n (cbits w v).
Proof using Hb Hn.
  intros Hw Hv Hf. pose proof bits_le_64. eapply takes_ext; [reflexivity | |].
  2:{ apply (takes_read (unpack t b w) f (cast t (v mod 2 ^ w)) n (cbits w v) cnil); [apply takes_unpack; lia |].
    eapply takes_ext; [| reflexivity | apply takes_done]. intros r. symmetry. apply Hf. by apply add_lb. }
  intros p Hp. unfold cseq, cnil. apply app_nil_r.
Qed.

(** One or two octets. *)
Lemma octets_width : ra <= ASN_64K -> 1 < ra ->
  let w := ceilf_log2f ra in let o := ceil_frac w 8 in
  0 <= w <= 16 /\ v < 2 ^ w /\ 0 <= 8 * o - w < 8 /\ 8 * o <= it_bits t.
Proof using Hb Hn.
  intros Hra H1. cbv zeta. pose proof (width_range ra ltac:(unfold ASN_64K in *; lia)) as [Hw Hwv].
  assert (ceilf_log2f ra <= 16) as Hw16.
  { rewrite ceilf_log2f_exact by (unfold ASN_64K in *; lia). change 16 with (Z.log2_up ASN_64K). apply Z.log2_up_le_mono. lia. }
  assert (ceilf_log2f ra <= it_bits t) as Hwt.
  { pose proof ra_le_type. rewrite ceilf_log2f_exact by (unfold ASN_64K in *; lia).
    rewrite <- (Z.log2_up_pow2 (it_bits t)) by (pose proof bits_le_64; lia). apply Z.log2_up_le_mono. lia. }
  pose proof (ceil_frac_spec (ceilf_log2f ra) 8 ltac:(lia) ltac:(lia) ltac:(lia)).
  split_and!; [lia | lia | lia | lia | lia |]. pose proof (std_type_bits t (bo_type _ _ _ Hb)). lia.
Qed.

Lemma octets_emits : ra <= ASN_64K -> 1 < ra ->
  let w := ceilf_log2f ra in let o := ceil_frac w 8 in
  emits (fun r => r ≪- align_bytes_zero r ; r ≪- pack 0 (o * 8 - w) r ; r ≪- pack (cast t v) w r ; align_bytes_zero r)
    (cpad +++ cbits (8 * o) v).
Proof using Hb Hn.
  intros Hra H1 w o. destruct (octets_width Hra H1) as (Hw & Hv & Ho & Hot). fold w in Hw, Hv, Ho, Hot. fold o in Ho, Hot.
  eapply emits_ext; [reflexivity | | apply emits_then; [apply emits_align_zero |]; apply (emits_then (pack 0 (o * 8 - w)));
    [apply emits_pack; lia |]; apply emits_then; [apply (short_emits w); lia | apply emits_align_zero]].
  intros p Hp. unfold cseq, cbits. f_equal.
  set (q := p + zlen (cpad p)). assert (q mod 8 = 0) as Hq.
  { unfold q, cpad, zlen. rewrite length_replicate. pose proof (pad_range p). unfold pad in *. lia. }
  rewrite !zlen_zbits by lia. replace (8 * o) with ((o * 8 - w) + w) by lia.
  rewrite (zbits_lead (o * 8 - w) w) by lia. f_equal. rewrite <- (app_nil_r (zbits w v)) at 2. f_equal.
  unfold cpad, pad. replace (- (q + (o * 8 - w) + w)) with (- q - o * 8) by lia.
  replace ((- q - o * 8) mod 8) with 0 by lia. done.
Qed.

Lemma octets_takes b : ra <= ASN_64K -> 1 < ra ->
  let o := ceil_frac (ceilf_log2f ra) 8 in
  takes (fun r => then_move (align_bytes r) b (fun r => then_read (unpack t b (o * 8) r) (fun n r =>
    then_move (align_bytes r) n (fun r => (SRSASN_SUCCESS, cast t (n + lb), r))))) n (cpad +++ cbits (8 * o) v).
Proof using Hb Hn.
  intros Hra H1 o. destruct (octets_width Hra H1) as (Hw & Hv & Ho & Hot). fold o in Ho, Hot. pose proof bits_le_64.
  assert (v < 2 ^ (8 * o)) as Hvo by (pose proof (Z.pow_le_mono_r 2 (ceilf_log2f ra) (8 * o)); lia).
  intros r tl Hr Hp.
  assert (takes (fun r => then_move (align_bytes r) b (unpack t b (o * 8))) (cast t (v mod 2 ^ (8 * o))) (cpad +++ cbits (8 * o) v)) as Ht.
  { apply takes_move. rewrite (Z.mul_comm o). apply takes_unpack; lia. }
  destruct (Ht r tl Hr Hp) as (r' & E & Hw' & Hs & Hbuf & Hpos & Hpend). exists r'.
  split; [| done]. revert E. unfold then_move, handle. destruct (align_bytes r) as [c1 r1]. destruct c1; [| discriminate | discriminate].
  intros E. rewrite E. simpl. unfold align_bytes.
  assert (offset r' = 0) as ->.
  { pose proof (bw_offset _ Hw'). rewrite <- (Z.mod_small (offset r') 8) by lia.
    replace (offset r' mod 8) with (pos r' mod 8) by (unfold pos; lia). rewrite Hpos. unfold cseq, cbits.
    rewrite zlen_app, zlen_zbits by lia. unfold cpad, zlen. rewrite length_replicate. pose proof (pad_range (pos r)). unfold pad in *. lia. }
  simpl. by rewrite add_lb by lia.
Qed.

(** The aligned field with its own length. *)
Lemma long_width : ASN_64K < ra -> 2 * v < 2 ^ Z.log2 ra -> v < 2 ^ 54 ->
  let k := ceil_frac (ceilf_log2f ra) 8 in let o := ceil_frac (floorf_log2f_1 (Z.max v 1)) 8 in
  1 <= o <= 7 /\ o <= k <= 9 /\ v < 2 ^ (8 * o) /\ 8 * o <= it_bits t /\ cast t v = v /\ 0 <= ceilf_log2f k <= 21 /\ k <= 2 ^ ceilf_log2f k.
Proof using Hb Hn.
  intros Hra Hhalf H54. cbv zeta. pose proof (ceilf_log2f_lb ra ltac:(unfold ASN_64K in *; lia)) as Hlb.
  assert (Z.log2 ra <= 64) as Hl64.
  { assert (Z.log2 ra < 65); [| lia]. apply Z.log2_lt_pow2; unfold ASN_64K in *; [lia |]. pose proof (bo_range _ _ _ Hb). lia. }
  assert (ceilf_log2f ra <= 66) as Hub.
  { apply ceilf_log2f_ub; [| lia]. pose proof (bo_range _ _ _ Hb). assert (2 ^ 64 <= 2 ^ 66) by (apply Z.pow_le_mono_r; lia).
    unfold ASN_64K in *. lia. }
  assert (16 <= Z.log2 ra) as H16 by (change 16 with (Z.log2 ASN_64K); apply Z.log2_le_mono; lia).
  set (m := Z.max v 1). pose proof (floorf_log2f_1_bounds m ltac:(unfold m; lia)) as Hm.
  assert (Z.log2 m <= Z.log2 ra - 2) as Hmra.
  { assert (Z.log2 m < Z.log2 ra - 1); [| lia]. apply Z.log2_lt_pow2; [unfold m; lia |].
    assert (2 ^ Z.log2 ra = 2 * 2 ^ (Z.log2 ra - 1)) by (rewrite <- Z.pow_succ_r by lia; f_equal; lia).
    assert (2 ^ 15 <= 2 ^ (Z.log2 ra - 1)) by (apply Z.pow_le_mono_r; lia). unfold m. lia. }
  assert (Z.log2 m <= 53) as H53.
  { assert (Z.log2 m < 54); [| lia]. apply Z.log2_lt_pow2; unfold m; lia. }
  pose proof (Z.log2_nonneg m). pose proof (ceil_frac_spec (floorf_log2f_1 m) 8 ltac:(lia) ltac:(lia) ltac:(lia)) as Ho.
  pose proof (ceil_frac_spec (ceilf_log2f ra) 8 ltac:(lia) ltac:(lia) ltac:(lia)) as Hk.
  set (o := ceil_frac (floorf_log2f_1 m) 8) in *. set (k := ceil_frac (ceilf_log2f ra) 8) in *.
  assert (v < 2 ^ (8 * o)) as Hv.
  { pose proof (Z.log2_spec m ltac:(unfold m; lia)) as Hs.
    assert (2 ^ Z.succ (Z.log2 m) <= 2 ^ (8 * o)) by (apply Z.pow_le_mono_r; lia). unfold m in *. lia. }
  assert (Z.log2 ra <= it_bits t) as Hrat.
  { rewrite <- (Z.log2_pow2 (it_bits t)) by (pose proof bits_le_64; lia). apply Z.log2_le_mono. apply ra_le_type. }
  assert (8 * o <= it_bits t) as Hot.
  { pose proof (std_type_bits t (bo_type _ _ _ Hb)). lia. }
  destruct (width_range k ltac:(lia)) as [Hkw Hkv].
  split_and!; [lia | lia | lia | lia | done | done | | lia | lia | done].
  apply cast_in_type; [pose proof bits_le_64; lia |].
  assert (2 ^ Z.log2 ra <= 2 ^ it_bits t) by (apply Z.pow_le_mono_r; lia).
  assert (2 ^ it_bits t = 2 * 2 ^ (it_bits t - 1)) by (rewrite <- Z.pow_succ_r by (pose proof bits_le_64; lia); f_equal; lia).
  unfold in_type. destruct (it_signed t); lia.
Qed.
End Constrained.

Lemma constrained_emits t lb ub n aligned :
  bounds_ok t lb ub -> lb <= n <= ub -> width_ok (ub - lb + 1) (n - lb) aligned ->
  emits (pack_constrained_whole_number t n lb ub aligned) (constrained_code (ub - lb + 1) (n - lb) aligned).
Proof.
  intros Hb Hn Hw. unfold pack_constrained_whole_number, constrained_code. rewrite (range_of_eq t lb ub Hb).
  pose proof (bits_le_64 t lb ub Hb) as Hbits. pose proof (ra_le_type t lb ub Hb) as Hrat.
  set (ra := ub - lb + 1) in *. assert ((ub <? lb) || (n <? lb) || (ub <? n) = false) as -> by lia. cbv zeta.
  apply emits_branch; [intros _; apply emits_done | intros H1].
  assert (1 < ra) by (pose proof (bo_le _ _ _ Hb); unfold ra in *; lia).
  pose proof (ceilf_log2f_ub ra (it_bits t) ltac:(lia) ltac:(lia)) as Hwt.
  pose proof (ceilf_log2f_lb ra ltac:(lia)) as Hlb. pose proof (Z.log2_nonneg ra).
  assert (ra <= ASN_64K -> ceilf_log2f ra <= 16) as Hshort by (intros H64; apply ceilf_log2f_ub; [split; [lia | done] | lia]).
  destruct aligned; simpl negb; simpl orb; cbv iota.
  - apply emits_branch; [intros H256 | intros H256].
    { apply (short_emits t lb n); unfold ASN_64K in Hshort; lia. }
    apply emits_branch; intros H64; [apply (octets_emits t lb ub n Hb Hn); unfold ra in *; lia |].
    destruct Hw as [Hw | [Hhalf H54]]; [lia |].
    destruct (long_width t lb ub n Hb Hn) as (Ho & Hk & Hv & Hot & Hc & Hkw & Hkv); [unfold ra in *; lia | done | done |].
    rewrite Hc. fold ra in Ho, Hk, Hv, Hot, Hkw, Hkv |- *.
    eapply emits_then; [apply emits_pack; lia |]. apply emits_then; [apply emits_align_zero |].
    rewrite (Z.mul_comm 8). apply emits_pack. lia.
  - apply emits_ignore. apply (short_emits t lb n); [| lia]. destruct Hw as [Hw | [_ Hw]]; [specialize (Hshort Hw) |]; lia.
Qed.

Lemma constrained_takes t b lb ub n aligned :
  bounds_ok t lb ub -> lb <= n <= ub -> width_ok (ub - lb + 1) (n - lb) aligned ->
  takes (unpack_constrained_whole_number t b lb ub aligned) n (constrained_code (ub - lb + 1) (n - lb) aligned).
Proof.
  intros Hb Hn Hw. unfold unpack_constrained_whole_number, constrained_code. rewrite (range_of_eq t lb ub Hb).
  pose proof (bits_le_64 t lb ub Hb) as Hbits. pose proof (ra_le_type t lb ub Hb) as Hrat.
  set (ra := ub - lb + 1) in *. assert ((ub <? lb) = false) as -> by lia. cbv zeta.
  destruct (Z.eqb_spec ra 1) as [E1 | H1].
  { replace lb with n by (unfold ra in *; lia). apply takes_done. }
  assert (1 < ra) by (pose proof (bo_le _ _ _ Hb); unfold ra in *; lia).
  pose proof (ceilf_log2f_ub ra (it_bits t) ltac:(lia) ltac:(lia)) as Hwt.
  pose proof (ceilf_log2f_lb ra ltac:(lia)) as Hlb. pose proof (Z.log2_nonneg ra).
  assert (ra <= ASN_64K -> n - lb < 2 ^ ceilf_log2f ra) as Hshort.
  { intros H64. destruct (width_range ra); unfold ASN_64K, ra in *; lia. }
  destruct aligned; simpl negb; simpl orb; cbv iota.
  - destruct (Z.ltb_spec ra 256) as [H256 | H256].
    { apply (short_takes t lb ub n Hb Hn); [lia | unfold ASN_64K in Hshort; lia |]. intros x r ->. done. }
    destruct (Z.leb_spec ra ASN_64K) as [H64 | H64]; [apply (octets_takes t lb ub n Hb Hn); unfold ra in *; lia |].
    destruct Hw as [Hw | [Hhalf H54]]; [lia |].
    destruct (long_width t lb ub n Hb Hn) as (Ho & Hk & Hv & Hot & Hc & Hkw & Hkv); [unfold ra in *; lia | done | done |].
    fold ra in Ho, Hk, Hv, Hot, Hkw, Hkv |- *. set (o := ceil_frac (floorf_log2f_1 (Z.max (n - lb) 1)) 8) in *.
    eapply takes_then; [apply (takes_u32 0 _ (o - 1)); lia |].
    replace (u32 (o - 1 + 1)) with o by (rewrite uwrap_small; unfold is_uint; lia). apply takes_move.
    replace (u32 (o * 8)) with (8 * o) by (rewrite uwrap_small; unfold is_uint; lia).
    apply (short_takes t lb ub n Hb Hn); [lia | done |]. intros x r ->. done.
  - apply (short_takes t lb ub n Hb Hn); [lia | |].
    + destruct Hw as [Hw | [Hw _]]; [by apply Hshort | done].
    + intros x r ->. destruct (Z.ltb_spec ub n); [lia | done].
Qed.

(** ** Lengths are read back *)

Definition length_code (val : Z) (aligned : bool) : code :=
  (if aligned then cpad else cnil) +++ (if val <? 128 then cbits 8 val else cbits 2 2 +++ cbits 14 val).

Lemma cseq_nil_l c p : (cnil +++ c) p = c p.
Proof. unfold cseq, cnil. rewrite zlen_nil. simpl. f_equal. lia. Qed.

Lemma cseq_nil_r c p : (c +++ cnil) p = c p.
Proof. unfold cseq, cnil. apply app_nil_r. Qed.

Lemma emits_nil_r f c : emits f (c +++ cnil) -> emits f c.
Proof. apply emits_ext; [done |]. intros p _. apply cseq_nil_r. Qed.

Lemma emits_nil_l f c : emits f c -> emits f (cnil +++ c).
Proof. apply emits_ext; [done |]. intros p _. by rewrite cseq_nil_l. Qed.

Lemma length_emits val aligned : 0 <= val < ASN_16K -> emits (pack_length_unb val aligned) (length_code val aligned).
Proof.
  intros Hv. unfold pack_length_unb, length_code. destruct aligned; simpl negb; cbv iota.
  - unfold ASN_64K, ASN_16K in *. assert ((65536 <? val) = false) as -> by lia.
    apply emits_then; [apply emits_align |]. apply emits_branch; intros H128; [apply emits_pack; lia |].
    assert ((val <? 16384) = true) as -> by lia. apply emits_then; apply emits_pack; lia.
  - apply emits_nil_l. apply emits_branch; intros H128.
    + apply emits_nil_r. apply emits_then; [apply emits_pack; lia | apply emits_done].
    + assert ((val <? ASN_16K) = true) as -> by lia. apply emits_then; [apply emits_pack; lia |].
      apply emits_nil_r. apply emits_then; [apply emits_pack; lia | apply emits_done].
Qed.

Lemma length_takes b val aligned : 0 <= val < ASN_16K -> takes (unpack_length_unb b aligned) val (length_code val aligned).
Proof.
  intros Hv. unfold ASN_16K in *. unfold unpack_length_unb, length_code. destruct aligned; simpl negb; cbv iota.
  - apply takes_move. destruct (Z.ltb_spec val 128) as [H128 | H128].
    + eapply takes_ext; [done | intros p _; apply cseq_nil_r |].
      apply (takes_read _ _ val); [apply takes_u32; lia |]. assert ((val <? 128) = true) as -> by lia. apply takes_done.
    + eapply (takes_ext _ _ _ (cbits 8 (128 + val / 256) +++ cbits 8 val +++ cnil)); [done | |].
      { intros p _. unfold cseq, cbits, cnil. rewrite app_nil_r. change 14 with (6 + 8). change 8 with (2 + 6) at 1.
        rewrite (zbits_split 6 8), (zbits_split 2 6) by lia. rewrite <- app_assoc. f_equal; [| f_equal].
        - f_equal. lia.
        - rewrite <- (zbits_mod 6 (128 + val / 256)), <- (zbits_mod 6 (val / 2 ^ 8)) by lia. f_equal. lia. }
      apply (takes_read _ _ (128 + val / 256)); [apply takes_u32; lia |].
      assert ((128 + val / 256 <? 128) = false) as -> by lia. cbv zeta.
      assert (u32 (128 + val / 256 - 128) = val / 256) as -> by (rewrite uwrap_small; unfold is_uint; lia).
      assert ((val / 256 <? 64) = true) as -> by lia.
      eapply (takes_ext _ _ _ (cbits 8 (val mod 256) +++ cnil)); [reflexivity | |].
      { intros p _. unfold cseq, cbits, cnil. f_equal. apply (zbits_mod 8). lia. }
      eapply takes_then; [apply takes_u32; lia |]. eapply takes_ext; [| reflexivity | apply takes_done].
      intros r. cbv beta. do 2 f_equal. rewrite Z.shiftl_mul_pow2, !uwrap_small by (unfold is_uint; try rewrite uwrap_small; unfold is_uint; lia). lia.
  - eapply takes_ext; [done | intros p _; symmetry; apply cseq_nil_l |]. destruct (Z.ltb_spec val 128) as [H128 | H128].
    + eapply (takes_ext _ _ _ (cbits 1 0 +++ cbits 7 val)); [done | |].
      { intros p _. unfold cseq, cbits. symmetry. apply (zbits_lead 1 7); lia. }
      apply (takes_then unpack_bool _ false); [apply (takes_bool false) |]. apply takes_u32; lia.
    + eapply (takes_ext _ _ _ (cbits 1 1 +++ cbits 1 0 +++ cbits 14 val)); [done | done |].
      apply (takes_then unpack_bool _ true); [apply (takes_bool true) |].
      apply (takes_then unpack_bool _ false); [apply (takes_bool false) |]. apply takes_u32; lia.
Qed.

(** The bounded length. *)
Definition bounded_length_code (n lb ub : Z) (aligned : bool) : code :=
  if ASN_64K <=? ub then length_code n aligned else constrained_code (ub - lb + 1) (n - lb) aligned.

Lemma bounded_length_inverse b n lb ub aligned :
  0 <= lb <= n -> n <= ub < 2 ^ 32 -> (ASN_64K <= ub -> n < ASN_16K) ->
  inverse_on (pack_length uint32_t n lb ub aligned) (unpack_length uint32_t b lb ub aligned) n (bounded_length_code n lb ub aligned).
Proof.
  intros Hl Hu H16. unfold pack_length, unpack_length, bounded_length_code. destruct (Z.leb_spec ASN_64K ub) as [Hub | Hub].
  - specialize (H16 Hub). unfold ASN_16K in *. rewrite uwrap_small by (unfold is_uint; lia).
    split; [apply length_emits; unfold ASN_16K; lia |].
    intros r tl Hr Hp. destruct (length_takes 0 n aligned ltac:(unfold ASN_16K; lia) r tl Hr Hp) as (r' & E & H).
    exists r'. rewrite E. split; [| done]. do 2 f_equal. apply uwrap_small. unfold is_uint; simpl; lia.
  - assert (bounds_ok uint32_t lb ub) as Hb.
    { unfold ASN_64K in *. split; unfold in_type, promoted; simpl; try lia. unfold std_type. simpl. set_solver. }
    split; [apply constrained_emits | apply constrained_takes]; try done; try lia; left; unfold ASN_64K in *; lia.
Qed.

(** A length of 16K or more is refused by the unaligned encoder; the aligned one
    writes a fragment count that the decoder refuses. *)
Lemma long_length_unaligned val r : ASN_16K <= val -> pack_length_unb val false r = (SRSASN_ERROR_ENCODE_FAIL, r).
Proof.
  intros Hv. unfold pack_length_unb. simpl negb. cbv iota. unfold ASN_16K in *.
  destruct (Z.ltb_spec val 128); [lia |]. by destruct (Z.ltb_spec val 16384); [lia |].
Qed.

(** ** Integers are read back *)

(** The octets written for an unconstrained positive number. *)
Lemma unconstrained_length_spec t n :
  std_type t -> 1 <= n -> n < 2 ^ (it_bits t - 1) -> n < 2 ^ 54 ->
  exists len, unconstrained_whole_number_length t n = Some len /\ 1 <= len <= 7 /\ n < 2 ^ (8 * len) /\ 8 * len <= it_bits t.
Proof.
  intros Ht H1 Hn H54. apply std_type_bits in Ht. unfold unconstrained_whole_number_length.
  destruct (Z.leb_spec n 0); [lia |]. set (down := round_down_plus_1).
  assert (forall k, 0 <= down k) as Hd.
  { intros k. unfold down, round_down_plus_1. destruct (k =? 31), (k =? 63); try lia. apply round_down_nonneg. }
  pose proof (ceilf_log2f_to_lb down n H1) as Hlb. pose proof (Z.log2_nonneg n).
  pose proof (ceilf_log2f_to_ub down n (it_bits t - 1) Hd ltac:(lia) ltac:(lia)) as Hub.
  pose proof (ceilf_log2f_to_ub down n 54 Hd ltac:(lia) ltac:(lia)) as Hub54. set (c := ceilf_log2f_to down n) in *.
  exists ((c + 1 + 7) / 8). assert (1 <= (c + 1 + 7) / 8 <= 7) as Hlen by lia.
  split; [f_equal; apply cast_in_type; [lia |] | split; [done | split; [| lia]]].
  - assert (2 ^ 7 <= 2 ^ (it_bits t - 1)) by (apply Z.pow_le_mono_r; lia).
    assert (2 ^ 7 <= 2 ^ it_bits t) by (apply Z.pow_le_mono_r; lia). unfold in_type. destruct (it_signed t); lia.
  - pose proof (Z.log2_spec n ltac:(lia)) as Hs.
    assert (2 ^ Z.succ (Z.log2 n) <= 2 ^ (8 * ((c + 1 + 7) / 8))) by (apply Z.pow_le_mono_r; lia). lia.
Qed.

Definition within (n lb ub : Z) : bool := (lb <=? n) && (n <=? ub).
Definition constrained_case (t : int_type) (n lb ub : Z) : bool := within n lb ub && lower_bounded t lb && upper_bounded t ub.

(** What [pack_integer] handles: a constrained value of a field with two values or
    more, or a positive value outside of the bounds (with the extension marker) or
    of an unbounded type, below 2^54. The semi-constrained case writes nothing, and
    a field with a single value is not assigned by the decoder. *)
Definition integer_ok (t : int_type) (n lb ub : Z) (has_ext aligned : bool) : Prop :=
  if constrained_case t n lb ub then lb < ub /\ bounds_ok t lb ub /\ width_ok (ub - lb + 1) (n - lb) aligned
  else (if within n lb ub then lower_bounded t lb = false /\ upper_bounded t ub = false else has_ext = true)
    /\ 1 <= n < 2 ^ (it_bits t - 1) /\ n < 2 ^ 54.

Definition integer_code (t : int_type) (n lb ub : Z) (has_ext aligned : bool) : code :=
  (if has_ext then cbits 1 (Z.b2z (negb (within n lb ub))) else cnil) +++
  (if constrained_case t n lb ub then constrained_code (ub - lb + 1) (n - lb) aligned
   else let len := default 0 (unconstrained_whole_number_length t n) in
     length_code len aligned +++ (if aligned then cpad else cnil) +++ cbits (8 * len) n).

Lemma unconstrained_emits t n aligned len :
  unconstrained_whole_number_length t n = Some len -> 1 <= len <= 7 ->
  exists f, (forall r, pack_unconstrained_whole_number t n aligned r = Some (f r)) /\
    emits f ((if aligned then cpad else cnil) +++ cbits (8 * len) n).
Proof.
  intros Hl Hlen. eexists. split; [intros r; unfold pack_unconstrained_whole_number; by rewrite Hl |].
  apply (emits_then (fun r => if aligned then align_bytes_zero r else (SRSASN_SUCCESS, r))).
  - destruct aligned; [apply emits_align_zero | apply emits_done].
  - apply emits_nil_r. apply emits_then; [| apply emits_done].
    rewrite (uwrap_small 32 len), uwrap_small, Z.mul_comm by (unfold is_uint; lia). apply emits_pack. lia.
Qed.

Lemma unconstrained_takes t b n aligned len :
  std_type t -> 1 <= n < 2 ^ (it_bits t - 1) -> 1 <= len <= 7 -> n < 2 ^ (8 * len) -> 8 * len <= it_bits t ->
  takes (unpack_unconstrained_whole_number t b len aligned) n ((if aligned then cpad else cnil) +++ cbits (8 * len) n).
Proof.
  intros Ht Hn Hlen Hv Hbits. apply std_type_bits in Ht. unfold unpack_unconstrained_whole_number.
  rewrite uwrap_small, (Z.mul_comm len) by (unfold is_uint; lia).
  assert (takes (fun r => then_read (unpack t b (8 * len) r) (fun n r => (SRSASN_SUCCESS, n, r))) n (cbits (8 * len) n)) as Hread.
  { eapply takes_ext; [done | intros p _; apply cseq_nil_r |]. apply (takes_read _ _ n); [| apply takes_done].
    apply takes_value; [lia | lia |]. rewrite Z.mod_small by lia. apply cast_in_type; [lia |]. unfold in_type.
    assert (2 ^ it_bits t = 2 * 2 ^ (it_bits t - 1)) by (rewrite <- Z.pow_succ_r by lia; f_equal; lia). destruct (it_signed t); lia. }
  destruct aligned; [by apply takes_move |]. eapply takes_ext; [| intros p _; symmetry; apply cseq_nil_l | exact Hread].
  intros r. unfold then_move, handle. done.
Qed.

(** A first bit whose value selects the rest. *)
Lemma emits_marker f g (has_ext b : bool) c :
  emits f c -> (forall r, g r = if has_ext then then_pack (pack (Z.b2z b) 1 r) f else f r) ->
  emits g ((if has_ext then cbits 1 (Z.b2z b) else cnil) +++ c).
Proof.
  intros Hf Hg. eapply emits_ext; [intros r; symmetry; apply Hg | reflexivity |]. destruct has_ext.
  - apply emits_then; [apply emits_flag | done].
  - by apply emits_nil_l.
Qed.

Lemma then_pack_some m f (g : bit_ref -> option (SRSASN_CODE * bit_ref)) :
  (forall r, g r = Some (f r)) ->
  then_pack_opt m g = Some (then_pack m f).
Proof. intros Hg. unfold then_pack_opt, then_pack, handle. destruct m as [[] r]; [apply Hg | done | done]. Qed.

Lemma integer_emits t n lb ub has_ext aligned :
  std_type t -> integer_ok t n lb ub has_ext aligned ->
  exists f, (forall r, pack_integer t n lb ub has_ext aligned r = Some (f r)) /\ emits f (integer_code t n lb ub has_ext aligned).
Proof.
  intros Ht. unfold integer_ok, integer_code, pack_integer. cbv zeta. fold (within n lb ub). fold (constrained_case t n lb ub).
  destruct (constrained_case t n lb ub) eqn:Hc.
  - intros (Hlt & Hb & Hw). assert (within n lb ub = true) as Hin.
    { unfold constrained_case in Hc. destruct (within n lb ub); done. }
    rewrite Hin. assert ((lb =? ub) = false) as -> by lia. unfold within in Hin.
    exists (fun r => if has_ext then then_pack (pack (Z.b2z false) 1 r) (fun r => r ≪- pack_constrained_whole_number t n lb ub aligned r ; (SRSASN_SUCCESS, r))
      else r ≪- pack_constrained_whole_number t n lb ub aligned r ; (SRSASN_SUCCESS, r)).
    split. { intros r. destruct has_ext; [| done]. by apply then_pack_some. }
    eapply emits_marker; [| reflexivity]. apply emits_nil_r. apply emits_then; [| apply emits_done].
    apply constrained_emits; [done | lia | done].
  - intros (Hcase & Hn & H54). destruct (unconstrained_length_spec t n Ht ltac:(lia) ltac:(lia) H54) as (len & El & Hlen & Hv & Hbits).
    destruct (unconstrained_emits t n aligned len El Hlen) as (f & Ef & Hf). rewrite El. simpl default.
    assert (u32 len = len) as Eu by (apply uwrap_small; unfold is_uint; lia).
    exists (fun r => if has_ext then then_pack (pack (Z.b2z (negb (within n lb ub))) 1 r)
      (fun r => r ≪- pack_length_unb len aligned r ; r ≪- f r ; (SRSASN_SUCCESS, r))
      else r ≪- pack_length_unb len aligned r ; r ≪- f r ; (SRSASN_SUCCESS, r)).
    split.
    + intros r.
      assert (forall r, (len ← Some len; then_pack_opt (pack_length_unb (u32 len) aligned r) (fun r =>
        cr ← pack_unconstrained_whole_number t n aligned r; Some (r ≪- cr ; (SRSASN_SUCCESS, r)))) = Some (r ≪- pack_length_unb len aligned r ; r ≪- f r ; (SRSASN_SUCCESS, r))) as Hbody.
      { intros r1. cbn [mbind option_bind]. rewrite Eu. apply then_pack_some. intros r2. by rewrite Ef. }
      destruct has_ext.
      * apply then_pack_some. intros r1. destruct (within n lb ub); [| by apply Hbody]. destruct Hcase as [-> ->]. by apply Hbody.
      * destruct (within n lb ub); [| done]. destruct Hcase as [-> ->]. by apply Hbody.
    + eapply emits_marker; [| reflexivity]. apply emits_then; [apply length_emits; unfold ASN_16K; lia |].
      apply emits_nil_r. apply emits_then; [exact Hf | apply emits_done].
Qed.

Lemma takes_marker {A} (f : bool -> bit_ref -> SRSASN_CODE * A * bit_ref) g (has_ext b : bool) (before x : A) c :
  takes (f (negb b)) x c -> (has_ext = false -> b = false) ->
  (forall r, g r = if has_ext then then_unpack (unpack_bool r) before (fun ext r => f (negb ext) r) else f true r) ->
  takes g x ((if has_ext then cbits 1 (Z.b2z b) else cnil) +++ c).
Proof.
  intros Hf Hb Hg. eapply takes_ext; [intros r; symmetry; apply Hg | reflexivity |]. destruct has_ext.
  - apply (takes_then unpack_bool _ b); [apply takes_bool | done].
  - rewrite (Hb eq_refl) in Hf. eapply takes_ext; [reflexivity | | exact Hf]. intros p _. symmetry. apply cseq_nil_l.
Qed.

Lemma integer_takes t b n lb ub has_ext aligned :
  std_type t -> integer_ok t n lb ub has_ext aligned ->
  takes (unpack_integer t b lb ub has_ext aligned) n (integer_code t n lb ub has_ext aligned).
Proof.
  intros Ht. unfold integer_ok, integer_code, unpack_integer. cbv zeta.
  intros Hok. apply (takes_marker (unpack_integer_body t b lb ub aligned) _ _ _ b).
  3:{ intros r. reflexivity. }
  2:{ intros ->. destruct (constrained_case t n lb ub) eqn:Hc.
    - unfold constrained_case in Hc. destruct (within n lb ub); done.
    - destruct Hok as [Hcase _]. by destruct (within n lb ub). }
  rewrite negb_involutive. unfold unpack_integer_body. destruct (constrained_case t n lb ub) eqn:Hc.
  - destruct Hok as (Hlt & Hb & Hw). fold (constrained_case t n lb ub). rewrite Hc.
    assert (within n lb ub = true) as Hin by (unfold constrained_case in Hc; destruct (within n lb ub); done).
    assert ((lb =? ub) = false) as -> by lia. unfold within in Hin.
    eapply takes_ext; [reflexivity | intros p _; apply cseq_nil_r |]. apply (takes_read _ _ n); [| apply takes_done].
    apply constrained_takes; [done | lia | done].
  - destruct Hok as (Hcase & Hn & H54).
    destruct (unconstrained_length_spec t n Ht ltac:(lia) ltac:(lia) H54) as (len & El & Hlen & Hv & Hbits).
    fold (constrained_case t n lb ub). rewrite Hc, El. simpl default.
    assert (negb (within n lb ub) || (negb (lower_bounded t lb) && negb (upper_bounded t ub)) = true) as ->.
    { destruct (within n lb ub); [| done]. by destruct Hcase as [-> ->]. }
    eapply takes_then; [apply length_takes; unfold ASN_16K; lia |].
    eapply takes_ext; [reflexivity | intros p _; apply cseq_nil_r |]. apply (takes_read _ _ n); [| apply takes_done].
    by apply unconstrained_takes.
Qed.

(** ** Properties *)

(** C32: a field of up to 63 bits written anywhere in a stream with room is
    appended to it most significant bit first; read back into a type at least as
    wide, at the same place, it gives the low [n] bits of the number, and the reader
    stands right after it. *)
Theorem field_roundtrip t before n v :
  0 <= n < 64 -> n <= it_bits t <= 64 ->
  inverse_on (pack v n) (unpack t before n) (cast t (v mod 2 ^ n)) (cbits n v).
Proof. intros Hn Ht. split; [by apply emits_pack | apply takes_unpack; lia]. Qed.

Lemma field_roundtrip_witness : inverse_on (pack 1023 7) (unpack int8_t 0 7) 127 (cbits 7 1023).
Proof. apply (field_roundtrip int8_t 0 7 1023); [lia | simpl; lia]. Defined.



(** A length determinant is decoded to the length that was encoded, when
    the upper bound is below 64K or the length below 16K. *)
Theorem length_roundtrip before n lb ub aligned :
  0 <= lb <= n -> n <= ub < 2 ^ 32 -> (ASN_64K <= ub -> n < ASN_16K) ->
  inverse_on (pack_length uint32_t n lb ub aligned) (unpack_length uint32_t before lb ub aligned) n
    (bounded_length_code n lb ub aligned).
Proof. apply bounded_length_inverse. Qed.

Lemma length_roundtrip_witness :
  inverse_on (pack_length uint32_t 300 0 4294967295 true) (unpack_length uint32_t 7 0 4294967295 true) 300
    (bounded_length_code 300 0 4294967295 true).
Proof. apply (length_roundtrip 7 300 0 4294967295 true); [lia | lia | unfold ASN_16K; lia]. Defined.

(** An integer is decoded to the value that was encoded, with and without
    extension marker, in the constrained case and, for positive values, outside of the
    bounds and for unbounded types ([integer_ok]). *)
Theorem integer_roundtrip t before n lb ub has_ext aligned :
  std_type t -> integer_ok t n lb ub has_ext aligned ->
  exists f, (forall r, pack_integer t n lb ub has_ext aligned r = Some (f r)) /\
    inverse_on f (unpack_integer t before lb ub has_ext aligned) n (integer_code t n lb ub has_ext aligned).
Proof.
  intros Ht Hok. destruct (integer_emits t n lb ub has_ext aligned Ht Hok) as (f & Ef & Hf). exists f.
  split; [done |]. split; [done | by apply integer_takes].
Qed.

Lemma integer_roundtrip_witness :
  exists f, (forall r, pack_integer int16_t 500 (-3) 8 true false r = Some (f r)) /\
    inverse_on f (unpack_integer int16_t 0 (-3) 8 true false) 500 (integer_code int16_t 500 (-3) 8 true false).
Proof.
  apply (integer_roundtrip int16_t 0 500 (-3) 8 true false).
  - unfold std_type. simpl. set_solver.
  - unfold integer_ok. split; [reflexivity | split; simpl; lia].
Defined.

(** an enumeration item is decoded to itself; extension items need an index
    of at most 63 among the extensions. *)
Theorem enum_roundtrip nof_types nof_exts has_ext e :
  0 <= e < nof_types -> nof_types <= 2 ^ 21 ->
  (has_ext = true -> 0 <= nof_exts < nof_types /\ e - (nof_types - nof_exts) <= 63) ->
  inverse_on (pack_enum_of e nof_types nof_exts has_ext) (unpack_enum nof_types nof_exts has_ext) e
    (enum_code nof_types nof_exts has_ext e).
Proof. apply enum_inverse. Qed.

Lemma enum_roundtrip_witness :
  inverse_on (pack_enum_of 9 11 4 true) (unpack_enum 11 4 true) 9 (enum_code 11 4 true 9).
Proof. apply (enum_roundtrip 11 4 true 9); lia. Defined.

(** ** What the codecs do not preserve *)

(** The unaligned encoder does not test the result of [pack] (line 472): it reports
    success on a full stream. *)
Example constrained_full : fst (pack_constrained_whole_number uint8_t 3 0 7 false (mk_bit_ref [] 0)) = SRSASN_SUCCESS.
Proof. reflexivity. Qed.

(** [float] has too few digits for a range of 2^21 + 1 values: 21 bits are computed. *)
Example width_too_small : ceilf_log2f (2 ^ 21 + 1) = 21.
Proof. reflexivity. Qed.

(** The largest 32-bit value, aligned: five octets, whose count does not fit its
    field; the decoder reads one octet, which is 0. *)
Example largest_aligned :
  let r := snd (pack_constrained_whole_number uint32_t (2 ^ 32 - 1) 0 (2 ^ 32 - 1) true (mk_bit_ref (repeat 0 8) 8)) in
  fst (unpack_constrained_whole_number uint32_t 0 0 (2 ^ 32 - 1) true (mk_bit_ref (buf r) 8)) = (SRSASN_SUCCESS, 0).
Proof. vm_compute. reflexivity. Qed.

(** A field with a single value is not assigned by the decoder (line 886). *)
Example single_value r : unpack_integer int32_t 99 5 5 false false r = (SRSASN_SUCCESS, 99, r).
Proof. reflexivity. Qed.

(** A semi-constrained integer is not written at all (line 838). *)
Example semi_constrained r : pack_integer uint32_t 1234 0 (2 ^ 32 - 1) false false r = Some (SRSASN_SUCCESS, r).
Proof. reflexivity. Qed.

(** An aligned length of 16K is written but refused by the decoder. *)
Example long_length_aligned :
  let r := snd (pack_length_unb ASN_16K true (mk_bit_ref (repeat 0 4) 4)) in
  fst (fst (unpack_length_unb 0 true (mk_bit_ref (buf r) 4))) = SRSASN_ERROR_DECODE_FAIL.
Proof. vm_compute. reflexivity. Qed.
