(* ===== verification/PerTypes.v ===== *)
(** * PER encoding: sequences, octet strings, bit strings and character strings
    ([lib/src/asn1/asn1_utils.cc], [lib/include/srsran/asn1/asn1_utils.h])

    A type with an encoder and a decoder that are inverse is a [PerCodec]; sequences
    are proved against that interface, and the instances below discharge it. *)

From S2P Require Import Prelude AsnArrays BitRef PerCodec.

(** ** The interface *)

(** Encoder, decoder (given what the target held before), the values the pair
    handles, and their code. *)
Class PerCodec (A : Type) := {
  c_pack : A -> bit_ref -> SRSASN_CODE * bit_ref;
  c_unpack : A -> bit_ref -> SRSASN_CODE * A * bit_ref;
  c_valid : A -> Prop;
  c_code : A -> code;
  c_emits : forall x, c_valid x -> emits (c_pack x) (c_code x);
  c_takes : forall before x, c_valid x -> takes (c_unpack before) x (c_code x)
}.

(** ** Fixed sequences *)

Section Items.
Context {A : Type} (pk : A -> bit_ref -> SRSASN_CODE * bit_ref).

(** [pack_fixed_seq_of] and [unpack_fixed_seq_of]; the array is a list of the
    [nof_items] first items, and the decoder stops at the first error. *)
Fixpoint pack_fixed_seq_of (item_array : list A) (r : bit_ref) : SRSASN_CODE * bit_ref :=
  match item_array with
  | [] => (SRSASN_SUCCESS, r)
  | x :: rest => r ≪- pk x r ; pack_fixed_seq_of rest r
  end.

Lemma items_emits (c : A -> code) l :
  (forall x, x ∈ l -> emits (pk x) (c x)) -> emits (pack_fixed_seq_of l) (citems c l).
Proof.
  induction l as [| x l IH]; intros Hx; [apply emits_done |]. cbn [pack_fixed_seq_of citems foldr].
  apply emits_then; [apply Hx; left | apply IH; intros y Hy; apply Hx; by right].
Qed.

End Items.

Section ItemsRead.
Context {A : Type} (upk : A -> bit_ref -> SRSASN_CODE * A * bit_ref).

Fixpoint unpack_fixed_seq_of (item_array : list A) (r : bit_ref) : SRSASN_CODE * list A * bit_ref :=
  match item_array with
  | [] => (SRSASN_SUCCESS, [], r)
  | x :: rest =>
      match upk x r with
      | (SRSASN_SUCCESS, x, r) => let '(c, xs, r) := unpack_fixed_seq_of rest r in (c, x :: xs, r)
      | (c, x, r) => (c, x :: rest, r)
      end
  end.

Lemma items_takes (c : A -> code) l befores :
  length befores = length l -> (forall b x, x ∈ l -> takes (upk b) x (c x)) ->
  takes (unpack_fixed_seq_of befores) l (citems c l).
Proof.
  revert befores. induction l as [| x l IH]; intros [| b befores] Hlen Hx; try done; [apply takes_done |].
  change (citems c (x :: l)) with (c x +++ citems c l). injection Hlen as Hlen.
  intros r tl Hr Hp. unfold cseq in *. rewrite <- app_assoc in Hp.
  destruct (Hx b x (list_elem_of_here _ _) r _ Hr Hp) as (r1 & E1 & Hw1 & Hs1 & Hb1 & Hp1 & Hh1). rewrite <- Hp1 in *.
  destruct (IH befores Hlen (fun b' y Hy => Hx b' y (list_elem_of_further _ _ _ Hy)) r1 tl Hw1 Hh1) as (r2 & E2 & Hw2 & Hs2 & Hb2 & Hp2 & Hh2).
  exists r2. cbn [unpack_fixed_seq_of]. rewrite E1, E2.
  split_and!; [done | done | by eapply same_room_trans | congruence | | done].
  rewrite zlen_app, Hp2. lia.
Qed.
End ItemsRead.

(** ** Sequences of variable length *)

(** Overwriting the first elements of an array. *)
Definition dyn_overwrite {A} (a : dyn_array A) (xs : list A) : dyn_array A :=
  DynArray (d ← da_data a; Some (copy_prefix (zlen xs) xs d)) (da_size a) (da_cap a).

Definition pack_dyn_seq_of {A} (pk : A -> bit_ref -> SRSASN_CODE * bit_ref) (seqof : dyn_array A) (lb ub : Z) (aligned : bool)
    (r : bit_ref) : SRSASN_CODE * bit_ref :=
  r ≪- pack_length uint32_t (da_size seqof) lb ub aligned r ; pack_fixed_seq_of pk (dyn_elements seqof) r.

Definition unpack_dyn_seq_of {A} (dflt : A) (upk : A -> bit_ref -> SRSASN_CODE * A * bit_ref) (seqof : dyn_array A)
    (lb ub : Z) (aligned : bool) (r : bit_ref) : SRSASN_CODE * dyn_array A * bit_ref :=
  then_unpack (unpack_length uint32_t 0 lb ub aligned r) seqof (fun nof_items r =>
    let seqof := dyn_resize dflt seqof nof_items 0 in
    let '(c, xs, r) := unpack_fixed_seq_of upk (dyn_elements seqof) r in (c, dyn_overwrite seqof xs, r)).

Definition seq_code {A} (c : A -> code) (xs : list A) (lb ub : Z) (aligned : bool) : code :=
  bounded_length_code (zlen xs) lb ub aligned +++ citems c xs.

Lemma dyn_overwrite_elements {A} (a : dyn_array A) xs :
  dyn_wf a -> zlen xs = da_size a -> (da_size a = 0 \/ da_data a <> None) -> dyn_elements (dyn_overwrite a xs) = xs.
Proof.
  intros [Hs Hd] Hl Hne. unfold dyn_elements, dyn_overwrite. simpl. destruct (da_data a) as [d |]; simpl.
  - unfold copy_prefix. rewrite Hl. rewrite take_app_le by (rewrite length_take; unfold zlen in *; lia).
    rewrite take_take, Nat.min_id. apply take_ge. unfold zlen in *. lia.
  - destruct Hne as [H0 |]; [| done]. destruct xs; [done |]. rewrite zlen_cons in Hl. pose proof (zlen_nonneg xs). lia.
Qed.

Lemma dyn_seq_emits {A} pk (c : A -> code) (a : dyn_array A) lb ub aligned :
  dyn_wf a -> 0 <= lb <= da_size a -> da_size a <= ub < 2 ^ 32 -> (ASN_64K <= ub -> da_size a < ASN_16K) ->
  (forall x, x ∈ dyn_elements a -> emits (pk x) (c x)) ->
  emits (pack_dyn_seq_of pk a lb ub aligned) (seq_code c (dyn_elements a) lb ub aligned).
Proof.
  intros Hwf Hl Hu H16 Hx. unfold pack_dyn_seq_of, seq_code. rewrite dyn_elements_len by done.
  apply emits_then; [by apply (bounded_length_inverse 0) | by apply items_emits].
Qed.

Lemma dyn_seq_takes {A} dflt upk (c : A -> code) (a : dyn_array A) xs lb ub aligned :
  dyn_wf a -> 0 <= lb <= zlen xs -> zlen xs <= ub < 2 ^ 32 -> (ASN_64K <= ub -> zlen xs < ASN_16K) ->
  (forall b x, x ∈ xs -> takes (upk b) x (c x)) ->
  exists a', dyn_wf a' /\ dyn_elements a' = xs /\
    takes (unpack_dyn_seq_of dflt upk a lb ub aligned) a' (seq_code c xs lb ub aligned).
Proof.
  intros Hwf Hl Hu H16 Hx. set (b := dyn_resize dflt a (zlen xs) 0).
  destruct (dyn_resize_elements dflt a (zlen xs) 0 Hwf (zlen_nonneg xs)) as (Hb & Hbs & _). fold b in Hb, Hbs.
  pose proof (dyn_elements_len b Hb) as Hlen. rewrite Hbs in Hlen.
  exists (dyn_overwrite b xs). split_and!.
  - destruct Hb as [Hb1 Hb2]. split; [done |]. simpl. destruct (da_data b); simpl; [| done]. rewrite zlen_copy_prefix; lia.
  - apply dyn_overwrite_elements; [done | done |]. destruct Hb as [Hb1 Hb2]. destruct (da_data b) eqn:Ed; [by right | left; lia].
  - unfold unpack_dyn_seq_of, seq_code. eapply takes_then; [by apply bounded_length_inverse |]. cbv beta. fold b.
    intros r tl Hr Hp. assert (length (dyn_elements b) = length xs) as Hn by (unfold zlen in *; lia).
    destruct (items_takes upk c xs _ Hn Hx r tl Hr Hp) as (r' & E & H). exists r'. rewrite E. done.
Qed.

(** ** Octet strings *)

Definition pack_octets (octets : list Z) (r : bit_ref) : SRSASN_CODE * bit_ref := pack_fixed_seq_of (fun b => pack b 8) octets r.
Definition unpack_octets (octets : list Z) (r : bit_ref) : SRSASN_CODE * list Z * bit_ref :=
  unpack_fixed_seq_of (fun b => unpack uint8_t b 8) octets r.

(** [fixed_octstring<N, aligned>]: the alignment is not tested. *)
Definition fixed_octstring_pack (N : Z) (aligned : bool) (octets : list Z) (r : bit_ref) : SRSASN_CODE * bit_ref :=
  pack_octets octets (if aligned && (2 <? N) then snd (align_bytes_zero r) else r).
Definition fixed_octstring_unpack (N : Z) (aligned : bool) (octets : list Z) (r : bit_ref) : SRSASN_CODE * list Z * bit_ref :=
  unpack_octets octets (if aligned && (2 <? N) then snd (align_bytes r) else r).

(** [bounded_octstring<LB, UB, aligned>], whose buffer holds [max(UB, 64)] octets. *)
Definition bounded_octstring_pack (LB UB : Z) (aligned : bool) (octets : ext_array Z) (r : bit_ref) : SRSASN_CODE * bit_ref :=
  r ≪- pack_length uint32_t (ea_size octets) LB UB aligned r ;
  pack_octets (ext_elements octets) (if aligned then snd (align_bytes_zero r) else r).

Definition ext_overwrite (a : ext_array Z) (xs : list Z) : ext_array Z := ext_update (copy_prefix (zlen xs) xs) a.

Definition bounded_octstring_unpack (LB UB : Z) (aligned : bool) (octets : ext_array Z) (r : bit_ref)
  : option (SRSASN_CODE * ext_array Z * bit_ref) :=
  match unpack_length uint32_t 0 LB UB aligned r with
  | (SRSASN_SUCCESS, len, r) =>
      octets ← ext_resize 0 (Z.max UB 64) octets len;
      let r := if aligned then snd (align_bytes r) else r in
      let '(c, xs, r) := unpack_octets (ext_elements octets) r in
      Some (c, ext_overwrite octets xs, r)
  | (c, _, r) => Some (c, octets, r)
  end.

(** [unbounded_octstring<Al>] *)
Definition unbounded_octstring_pack (aligned : bool) (octets : dyn_array Z) (r : bit_ref) : SRSASN_CODE * bit_ref :=
  r ≪- pack_length_unb (da_size octets) aligned r ; pack_octets (dyn_elements octets) r.

Definition unbounded_octstring_unpack (aligned : bool) (octets : dyn_array Z) (r : bit_ref) : SRSASN_CODE * dyn_array Z * bit_ref :=
  then_unpack (unpack_length_unb 0 aligned r) octets (fun len r =>
    let octets := dyn_resize 0 octets len 0 in
    let '(c, xs, r) := unpack_octets (dyn_elements octets) r in (c, dyn_overwrite octets xs, r)).

Definition octets_code (l : list Z) : code := citems (cbits 8) l.

Lemma octet_list_emits l : emits (pack_octets l) (octets_code l).
Proof. apply items_emits. intros x _. apply emits_pack. lia. Qed.

Lemma octet_list_takes l befores : Forall (is_uint 8) l -> length befores = length l -> takes (unpack_octets befores) l (octets_code l).
Proof.
  intros Hl Hlen. apply items_takes; [done |]. intros b x Hx. rewrite Forall_forall in Hl. specialize (Hl x Hx).
  unfold is_uint in Hl. apply takes_unsigned; lia.
Qed.

(** ** Octet strings, numbers and hexadecimal text *)

(** [octstring_to_number]: most significant octet first. *)
Definition octstring_to_number (ptr : list Z) (nbytes : Z) : option Z :=
  if 8 <? nbytes then Some 0
  else for_range 0 nbytes (fun val i => b ← zget ptr (nbytes - 1 - i); Some (u64 (val + u64 (Z.shiftl b (i * 8))))) 0.

Definition number_to_octstring (ptr : list Z) (number nbytes : Z) : option (list Z) :=
  if 8 <? nbytes then Some ptr
  else for_range 0 nbytes (fun ptr i => zset ptr (nbytes - 1 - i) (Z.land (Z.shiftr number (i * 8)) 255)) ptr.

(** Characters are their codes. [to_hex] prints with [%02x]. *)
Definition hex_digit (d : Z) : Z := if d <? 10 then 48 + d else 87 + d.
Definition to_hex (val : Z) : list Z := [hex_digit (val / 16); hex_digit (val mod 16)].
Definition octstring_to_string (ptr : list Z) : list Z := mjoin (to_hex <$> ptr).

Definition hex_value (c : Z) : option Z :=
  if (48 <=? c) && (c <=? 57) then Some (c - 48)
  else if (97 <=? c) && (c <=? 102) then Some (c - 87)
  else if (65 <=? c) && (c <=? 70) then Some (c - 55)
  else None.

Definition isspace (c : Z) : bool := (c =? 32) || ((9 <=? c) && (c <=? 13)).

(** [strtoul(cstr, nullptr, 16)] on two characters, stored in an octet: white space
    and a sign may precede the digits, and the first other character ends them. *)
Definition strtoul16 (c1 c2 : Z) : Z :=
  match hex_value c1 with
  | Some a => match hex_value c2 with Some b => 16 * a + b | None => a end
  | None =>
      if isspace c1 || (c1 =? 43) then default 0 (hex_value c2)
      else if c1 =? 45 then u8 (- default 0 (hex_value c2))
      else 0
  end.

(** [string_to_octstring] writes [(str.size() + 1) / 2] octets: an odd size only logs
    a warning, and the second character of the last pair is the terminating NUL. *)
Fixpoint string_to_octstring (ptr : list Z) (i : Z) (str : list Z) : option (list Z) :=
  match str with
  | [] => Some ptr
  | [c1] => zset ptr i (strtoul16 c1 0)
  | c1 :: c2 :: str => ptr ← zset ptr i (strtoul16 c1 c2); string_to_octstring ptr (i + 1) str
  end.

(** [from_string] of the three classes. *)
Definition fixed_octstring_from_string (N : Z) (octets hexstr : list Z) : option (list Z) :=
  if negb (zlen hexstr =? 2 * N) then Some octets else string_to_octstring octets 0 hexstr.

Definition unbounded_octstring_from_string (octets : dyn_array Z) (hexstr : list Z) : option (dyn_array Z) :=
  let octets := dyn_resize 0 octets (zlen hexstr / 2) 0 in
  match da_data octets with
  | Some d => d ← string_to_octstring d 0 hexstr; Some (DynArray (Some d) (da_size octets) (da_cap octets))
  | None => if zlen hexstr =? 0 then Some octets else None
  end.

Lemma strtoul16_to_hex b : is_uint 8 b -> strtoul16 (hex_digit (b / 16)) (hex_digit (b mod 16)) = b.
Proof.
  intros Hb. unfold is_uint in Hb.
  assert (forallb (fun b => strtoul16 (hex_digit (b / 16)) (hex_digit (b mod 16)) =? b) (seqZ 0 256) = true) as HB
    by (vm_compute; reflexivity).
  rewrite forallb_forall in HB. specialize (HB b). rewrite <- list_elem_of_In, elem_of_seqZ in HB.
  apply Z.eqb_eq, HB. lia.
Qed.

Lemma hex_write bytes l1 l2 :
  Forall (is_uint 8) bytes -> length l2 = length bytes ->
  string_to_octstring (l1 ++ l2) (zlen l1) (octstring_to_string bytes) = Some (l1 ++ bytes).
Proof.
  intros Hb. revert l1 l2. induction Hb as [| b bytes Hb1 _ IH]; intros l1 [| x l2] Hlen; try done.
  unfold octstring_to_string in *. cbn [fmap list_fmap mjoin list_join to_hex app string_to_octstring].
  rewrite strtoul16_to_hex, zset_app_mid by done. cbn [mbind option_bind].
  replace (zlen l1 + 1) with (zlen (l1 ++ [b])) by (rewrite zlen_app; done).
  specialize (IH (l1 ++ [b]) l2 ltac:(simpl in Hlen; lia)). rewrite <- !app_assoc in IH. exact IH.
Qed.

Lemma zlen_octstring_to_string bytes : zlen (octstring_to_string bytes) = 2 * zlen bytes.
Proof.
  induction bytes as [| b bytes IH]; [done |].
  change (octstring_to_string (b :: bytes)) with (to_hex b ++ octstring_to_string bytes).
  rewrite zlen_app, IH, zlen_cons. change (zlen (to_hex b)) with 2. lia.
Qed.

(** ** Bit strings *)

(** [bitstring_utils::get] and [set]: bit [idx] is bit [idx % 8] of octet [idx / 8]. *)
Definition bitstring_get (ptr : list Z) (idx : Z) : option bool :=
  b ← zget ptr (idx / 8); Some (0 <? Z.land b (Z.shiftl 1 (idx mod 8))).

Definition bitstring_set (ptr : list Z) (idx : Z) (value : bool) : option (list Z) :=
  b ← zget ptr (idx / 8);
  zset ptr (idx / 8)
    (if value then u8 (Z.lor b (Z.shiftl 1 (idx mod 8)))
     else u8 (Z.land b (255 - Z.shiftl 1 (idx mod 8)))).

Definition UINT32_MAX : Z := 2 ^ 32 - 1.

Definition pack_length_prefix (len lb ub : Z) (has_ext is_aligned : bool) (r : bit_ref) : SRSASN_CODE * bit_ref :=
  if has_ext && (ub =? UINT32_MAX) then (SRSASN_ERROR_ENCODE_FAIL, r)
  else
    let within_bounds := (lb <=? len) && (len <=? ub) in
    if negb within_bounds && negb has_ext then (SRSASN_ERROR_ENCODE_FAIL, r)
    else
      r ≪- (if has_ext then pack (Z.b2z (negb within_bounds)) 1 r else (SRSASN_SUCCESS, r)) ;
      if (lb =? ub) && within_bounds then (SRSASN_SUCCESS, r)
      else if (ub =? UINT32_MAX) || negb within_bounds then pack_length_unb len false r
      else
        r ≪- pack (u32 (len - lb)) (ceilf_log2 (u32 (ub - lb))) r ;
        r ≪- (if is_aligned then align_bytes_zero r else (SRSASN_SUCCESS, r)) ;
        (SRSASN_SUCCESS, r).

Definition unpack_length_prefix (before lb ub : Z) (has_ext is_aligned : bool) (r : bit_ref) : SRSASN_CODE * Z * bit_ref :=
  let body ext r :=
    if (ub =? UINT32_MAX) || ext then unpack_length_unb before is_aligned r
    else if lb =? ub then (SRSASN_SUCCESS, lb, r)
    else then_read (unpack_length uint32_t before lb ub is_aligned r) (fun len r => (SRSASN_SUCCESS, len, r))
  in
  if has_ext then then_unpack (unpack_bool r) before body else body false r.

(** The octets of a bit string, the last one first, with the bits it has. *)
Definition bits_of_last (nbits : Z) : Z := (nbits - 1) mod 8 + 1.

Definition realign (lb ub : Z) (is_aligned : bool) (r : bit_ref) : bit_ref :=
  if is_aligned && (negb (lb =? ub) || (16 <? ub)) then snd (align_bytes r) else r.

Definition pack_bitfield (buf : list Z) (nbits lb ub : Z) (is_aligned : bool) (r : bit_ref) : SRSASN_CODE * bit_ref :=
  if nbits =? 0 then (SRSASN_ERROR_ENCODE_FAIL, r)
  else
    let r := realign lb ub is_aligned r in
    let octets := rev (take (Z.to_nat (ceil_frac nbits 8)) buf) in
    match octets with
    | last :: rest => r ≪- pack last (bits_of_last nbits) r ; pack_octets rest r
    | [] => (SRSASN_SUCCESS, r)
    end.

(** Exactly [n] bits (lines 1186 to 1192): the octets read, in the order of the buffer. *)
Definition unpack_bits_of (buf : list Z) (n : Z) (r : bit_ref) : SRSASN_CODE * list Z * bit_ref :=
  let n_octs := Z.to_nat (ceil_frac n 8) in
  match rev (take n_octs buf) with
  | last :: rest =>
      match unpack uint8_t last (bits_of_last n) r with
      | (SRSASN_SUCCESS, last, r) =>
          let '(c, rest, r) := unpack_octets rest r in (c, rev (last :: rest) ++ drop n_octs buf, r)
      | (c, last, r) => (c, rev (last :: rest) ++ drop n_octs buf, r)
      end
  | [] => (SRSASN_SUCCESS, buf, r)
  end.

Definition unpack_bitfield (buf : list Z) (n lb ub : Z) (is_aligned : bool) (r : bit_ref) : SRSASN_CODE * list Z * bit_ref :=
  if ASN_64K <? n then (SRSASN_ERROR_DECODE_FAIL, buf, r)
  else if n =? 0 then (SRSASN_SUCCESS, buf, r)
  else unpack_bits_of buf n (realign lb ub is_aligned r).

(** A [bitstring]: its octets and its length. [resize] clears the content, so that
    what the container kept does not matter. *)
Record bitstring := Bitstring { bs_octets : list Z; nof_bits : Z }.
Definition bitstring_resize (new_size : Z) : bitstring :=
  Bitstring (repeat 0 (Z.to_nat (ceil_frac new_size 8))) new_size.

Definition bitstring_pack (lb ub : Z) (has_ext is_aligned : bool) (b : bitstring) (r : bit_ref) : SRSASN_CODE * bit_ref :=
  r ≪- pack_length_prefix (nof_bits b) lb ub has_ext is_aligned r ;
  pack_bitfield (bs_octets b) (nof_bits b) lb ub is_aligned r.

Definition bitstring_unpack (lb ub : Z) (has_ext is_aligned : bool) (b : bitstring) (r : bit_ref)
  : SRSASN_CODE * bitstring * bit_ref :=
  then_unpack (unpack_length_prefix 0 lb ub has_ext is_aligned r) b (fun nbits r =>
    let '(c, o, r) := unpack_bitfield (bs_octets (bitstring_resize nbits)) nbits lb ub is_aligned r in
    (c, Bitstring o nbits, r)).

(** [bitstring_utils::from_number] and [to_number]. The latter shifts an [int]: a
    shift by 32 or more is undefined, and one by 24 can reach the sign bit. *)
Definition bitstring_from_number (ptr : list Z) (number nbits : Z) : option (list Z) :=
  if 64 <? nbits then Some ptr
  else
    let nof_bytes := ceil_frac nbits 8 in
    ptr ← for_range 0 nof_bytes (fun ptr i => zset ptr i (Z.land (Z.shiftr number (i * 8)) 255)) ptr;
    let offset := nbits mod 8 in
    if 0 <? offset then
      b ← zget ptr (nof_bytes - 1); zset ptr (nof_bytes - 1) (Z.land b (u8 (Z.shiftl 1 offset - 1)))
    else Some ptr.

Definition bitstring_to_number (ptr : list Z) (nbits : Z) : option Z :=
  if 64 <? nbits then Some 0
  else for_range 0 (ceil_frac nbits 8) (fun val i =>
    b ← zget ptr i; if 32 <=? i * 8 then None else Some (u64 (val + u64 (s32 (Z.shiftl b (i * 8)))))) 0.

(** [bitstring_utils::to_string] and [bitstring::from_string]. *)
Definition bitstring_to_string (ptr : list Z) (nbits : Z) : option (list Z) :=
  mapM (fun i => v ← bitstring_get ptr (nbits - 1 - i); Some (if v : bool then 49 else 48)) (seqZ 0 nbits).

Definition bitstring_from_string (lb ub : Z) (b : bitstring) (s : list Z) : option bitstring :=
  let n := zlen s in
  if (n <? lb) || (ub <? n) then Some b
  else
    o ← for_range 0 n (fun o i => c ← zget s i; bitstring_set o (n - i - 1) (c =? 49)) (bs_octets (bitstring_resize n));
    Some (Bitstring o n).

(** ** Bit strings are read back *)

Lemma zlen_cpad p : zlen (cpad p) = pad p.
Proof. unfold cpad, zlen. rewrite length_replicate. pose proof (pad_range p). lia. Qed.

Lemma cpad_idem d p : (cpad +++ cpad +++ d) p = (cpad +++ d) p.
Proof.
  unfold cseq. rewrite !zlen_cpad. assert (pad (p + pad p) = 0) as E by (unfold pad; lia).
  unfold cpad at 2. rewrite E. simpl. by rewrite Z.add_0_r.
Qed.

Lemma cseq_assoc a b c p : ((a +++ b) +++ c) p = (a +++ b +++ c) p.
Proof. unfold cseq. by rewrite <- app_assoc, zlen_app, Z.add_assoc. Qed.

Lemma cseq_congr a b c p : (forall q, b q = c q) -> (a +++ b) p = (a +++ c) p.
Proof. intros H. unfold cseq. by rewrite H. Qed.

Lemma emits_app_nil f c : emits f c -> emits f (c +++ cnil).
Proof. apply emits_ext; [done |]. intros p _. by rewrite cseq_nil_r. Qed.

Lemma emits_snd f g c d : emits f c -> emits g d -> emits (fun r => g (snd (f r))) (c +++ d).
Proof.
  intros Hf Hg. eapply emits_ext; [| reflexivity | exact (emits_then _ _ _ _ (emits_ignore _ _ Hf) Hg)].
  intros r. unfold then_pack, handle. done.
Qed.

Lemma takes_align_snd {A} (g : bit_ref -> SRSASN_CODE * A * bit_ref) x d :
  takes g x d -> takes (fun r => g (snd (align_bytes r))) x (cpad +++ d).
Proof.
  intros Hg r tl Hr Hp. destruct (takes_move g x x d Hg r tl Hr Hp) as (r' & E & H). exists r'. split; [| done].
  revert E. unfold then_move, handle. by destruct (align_bytes r) as [[] r1].
Qed.

Definition realign_code (lb ub : Z) (is_aligned : bool) : code :=
  if is_aligned && (negb (lb =? ub) || (16 <? ub)) then cpad else cnil.

Lemma emits_realign lb ub al g d : emits g d -> emits (fun r => g (realign lb ub al r)) (realign_code lb ub al +++ d).
Proof.
  intros Hg. unfold realign, realign_code. destruct (_ && _); [apply emits_snd; [apply emits_align | done] | by apply emits_nil_l].
Qed.

Lemma takes_realign {A} lb ub al (g : bit_ref -> SRSASN_CODE * A * bit_ref) x d :
  takes g x d -> takes (fun r => g (realign lb ub al r)) x (realign_code lb ub al +++ d).
Proof.
  intros Hg. unfold realign, realign_code. destruct (_ && _); [by apply takes_align_snd |].
  eapply takes_ext; [reflexivity | | exact Hg]. intros p _. symmetry. apply cseq_nil_l.
Qed.

(** A bit string of [n] bits: as many octets as needed, the spare bits clear. *)
Record bits_wf (octets : list Z) (n : Z) : Prop := BitsWf {
  bf_octets : Forall (is_uint 8) octets;
  bf_len : zlen octets = ceil_frac n 8;
  bf_n : 0 < n <= ASN_64K;
  bf_top : forall last rest, rev octets = last :: rest -> last < 2 ^ bits_of_last n
}.

Lemma bits_wf_one x n : 0 < n <= 8 -> 0 <= x < 2 ^ n -> bits_wf [x] n.
Proof.
  intros Hn Hx. assert (2 ^ n <= 2 ^ 8) by (apply Z.pow_le_mono_r; lia).
  split; [repeat constructor; unfold is_uint; lia | | unfold ASN_64K; lia |].
  - unfold ceil_frac. rewrite uwrap_small by (unfold is_uint; lia). change (zlen [x]) with 1. lia.
  - intros last rest [= <- <-]. unfold bits_of_last. rewrite Z.mod_small by lia. replace (n - 1 + 1) with n by lia. lia.
Qed.

Definition field_code (octets : list Z) (n : Z) : code :=
  match rev octets with last :: rest => cbits (bits_of_last n) last +++ octets_code rest | [] => cnil end.

Lemma bits_of_last_range n : 1 <= bits_of_last n <= 8.
Proof. unfold bits_of_last. lia. Qed.

Lemma take_all_octets o n : bits_wf o n -> take (Z.to_nat (ceil_frac n 8)) o = o.
Proof. intros [_ Hl _ _]. apply take_ge. unfold zlen in *. lia. Qed.

Lemma bitfield_emits o n lb ub al :
  bits_wf o n -> emits (pack_bitfield o n lb ub al) (realign_code lb ub al +++ field_code o n).
Proof.
  intros Hwf. pose proof (bf_n _ _ Hwf). pose proof (bits_of_last_range n). unfold pack_bitfield. destruct (Z.eqb_spec n 0); [lia |].
  cbv zeta. rewrite take_all_octets by done.
  apply (emits_realign lb ub al (fun r => match rev o with last :: rest => r ≪- pack last (bits_of_last n) r ; pack_octets rest r
    | [] => (SRSASN_SUCCESS, r) end)).
  unfold field_code. destruct (rev o) as [| last rest]; [apply emits_done |].
  apply emits_then; [apply emits_pack; lia | apply octet_list_emits].
Qed.

Lemma bitfield_takes o before n lb ub al :
  bits_wf o n -> zlen before = zlen o -> takes (unpack_bitfield before n lb ub al) o (realign_code lb ub al +++ field_code o n).
Proof.
  intros Hwf Hlen. pose proof Hwf as [Hb Hl Hn Htop]. pose proof (bits_of_last_range n). unfold unpack_bitfield.
  destruct (Z.ltb_spec ASN_64K n); [lia |]. destruct (Z.eqb_spec n 0); [lia |].
  apply (takes_realign lb ub al (unpack_bits_of before n)). unfold unpack_bits_of, field_code. cbv zeta.
  assert (take (Z.to_nat (ceil_frac n 8)) before = before /\ drop (Z.to_nat (ceil_frac n 8)) before = []) as [-> ->].
  { split; [apply take_ge | apply drop_ge]; unfold zlen in *; lia. }
  assert (length (rev before) = length (rev o)) as Hrl by (rewrite !length_rev; unfold zlen in *; lia).
  destruct (rev o) as [| last rest] eqn:Eo, (rev before) as [| blast brest]; try done.
  { assert (o = []) as -> by (rewrite <- (rev_involutive o), Eo; done). unfold zlen in Hlen. destruct before; [apply takes_done | done]. }
  assert (Forall (is_uint 8) (last :: rest)) as Hr by (rewrite <- Eo; by apply Forall_rev).
  apply Forall_cons in Hr as [Hlast Hrest]. specialize (Htop last rest eq_refl). unfold is_uint in Hlast. injection Hrl as Hrl.
  intros r tl Hr Hp. unfold cseq in *. rewrite <- app_assoc in Hp.
  destruct (takes_unsigned 8 blast (bits_of_last n) last ltac:(lia) ltac:(lia) ltac:(lia) r _ Hr Hp) as (r1 & E1 & Hw1 & Hs1 & Hb1 & Hp1 & Hh1).
  change (IntType 8 false) with uint8_t in E1. rewrite E1. rewrite <- Hp1 in *.
  destruct (octet_list_takes rest brest Hrest Hrl r1 tl Hw1 Hh1) as (r2 & E2 & Hw2 & Hs2 & Hb2 & Hp2 & Hh2). rewrite E2.
  exists r2. rewrite <- Eo, rev_involutive, app_nil_r.
  split_and!; [done | done | by eapply same_room_trans | congruence | rewrite zlen_app; lia | done].
Qed.

(** The length prefix, without the alignment that follows a bounded one. *)
Definition prefix_code (len lb ub : Z) (has_ext : bool) : code :=
  (if has_ext then cbits 1 (Z.b2z (negb (within len lb ub))) else cnil) +++
  (if (lb =? ub) && within len lb ub then cnil
   else if (ub =? UINT32_MAX) || negb (within len lb ub) then length_code len false
   else cbits (ceilf_log2 (ub - lb)) (len - lb)).

(** Where encoder and decoder agree on the prefix: a fixed length; an unaligned
    unbounded or extended length under 16K; a bounded length whose two widths are
    equal (the encoder computes it from [ub - lb], the decoder from the number of
    lengths), with less than 256 lengths in the aligned variant. *)
Record prefix_ok (len lb ub : Z) (has_ext is_aligned : bool) : Prop := PrefixOk {
  po_range : 0 <= lb <= ub /\ ub <= UINT32_MAX /\ 0 <= len;
  po_ext : has_ext = true -> ub <> UINT32_MAX;
  po_within : has_ext = false -> within len lb ub = true;
  po_unbounded : (ub =? UINT32_MAX) || negb (within len lb ub) = true -> is_aligned = false /\ len < ASN_16K;
  po_bounded : within len lb ub = true -> lb < ub < UINT32_MAX ->
    ceilf_log2 (ub - lb) = ceilf_log2f (ub - lb + 1) /\ ub < ASN_64K /\ (is_aligned = true -> ub - lb + 1 < 256)
}.

Lemma within_true n lb ub : within n lb ub = true <-> lb <= n <= ub.
Proof. unfold within. lia. Qed.

Lemma prefix_emits len lb ub has_ext al :
  prefix_ok len lb ub has_ext al ->
  emits (pack_length_prefix len lb ub has_ext al)
    (prefix_code len lb ub has_ext +++ (if al && within len lb ub && negb (lb =? ub) then cpad else cnil)).
Proof.
  intros [(Hlb & Hub & Hlen) Hext Hin Hunb Hbnd]. unfold pack_length_prefix. fold (within len lb ub). unfold UINT32_MAX in *.
  assert ((has_ext && (ub =? 2 ^ 32 - 1)) = false) as -> by (destruct has_ext; [specialize (Hext eq_refl) |]; lia). cbv zeta.
  assert ((negb (within len lb ub) && negb has_ext) = false) as ->.
  { destruct has_ext; [by rewrite andb_false_r | by rewrite Hin]. }
  set (w := within len lb ub) in *.
  set (body := fun r => if (lb =? ub) && w then _ else _).
  assert (emits body ((if (lb =? ub) && w then cnil else if (ub =? 2 ^ 32 - 1) || negb w then length_code len false
     else cbits (ceilf_log2 (ub - lb)) (len - lb)) +++ (if al && w && negb (lb =? ub) then cpad else cnil))) as Hbody.
  { unfold body. clear body. destruct (Z.eqb_spec lb ub) as [E | Hne], w eqn:Hw; simpl andb; cbv iota.
    - rewrite andb_false_r. apply emits_nil_l, emits_done.
    - rewrite orb_true_r in *. destruct (Hunb eq_refl) as [-> H16]. apply emits_app_nil. apply length_emits. lia.
    - apply within_true in Hw. destruct (Z.eqb_spec ub (2 ^ 32 - 1)) as [Em | Em]; simpl orb; cbv iota.
      + destruct (Hunb eq_refl) as [-> H16]. apply emits_app_nil. apply length_emits. lia.
      + destruct (Hbnd eq_refl ltac:(lia)) as (Ew & H64 & _). rewrite !uwrap_small by (unfold is_uint; lia). rewrite andb_true_r.
        pose proof (width_range (ub - lb + 1) ltac:(unfold ASN_64K in *; lia)).
        apply emits_then; [apply emits_pack; lia |]. destruct al; simpl.
        * apply emits_nil_r. apply emits_then; [apply emits_align_zero | apply emits_done].
        * exact emits_done.
    - rewrite orb_true_r in *. destruct (Hunb eq_refl) as [-> H16]. apply emits_app_nil. apply length_emits. lia. }
  unfold prefix_code. fold w. eapply emits_ext; [reflexivity | intros p _; symmetry; apply cseq_assoc |].
  apply (emits_then (fun r => if has_ext then pack (Z.b2z (negb w)) 1 r else (SRSASN_SUCCESS, r)) body); [| exact Hbody].
  destruct has_ext; [apply emits_flag | apply emits_done].
Qed.

Lemma prefix_takes b len lb ub has_ext al :
  prefix_ok len lb ub has_ext al -> takes (unpack_length_prefix b lb ub has_ext al) len (prefix_code len lb ub has_ext).
Proof.
  intros [(Hlb & Hub & Hlen) Hext Hin Hunb Hbnd]. unfold UINT32_MAX in *. unfold prefix_code, unpack_length_prefix. cbv zeta.
  set (w := within len lb ub) in *.
  set (body := fun ext r => if (ub =? UINT32_MAX) || ext then _ else _).
  assert (takes (body (negb w)) len (if (lb =? ub) && w then cnil else if (ub =? 2 ^ 32 - 1) || negb w then length_code len false
     else cbits (ceilf_log2 (ub - lb)) (len - lb))) as Hbody.
  { unfold body, UINT32_MAX. clear body. destruct w eqn:Hw.
    - apply within_true in Hw. rewrite andb_true_r. simpl negb in *. rewrite !orb_false_r in *.
      destruct (Z.eqb_spec ub (2 ^ 32 - 1)) as [Em | Em].
      + destruct (Hunb eq_refl) as [-> H16]. destruct (Z.eqb_spec lb ub); [unfold ASN_16K in *; lia |]. apply length_takes. lia.
      + destruct (Z.eqb_spec lb ub) as [E | Hne]; [replace lb with len by lia; apply takes_done |].
        destruct (Hbnd eq_refl ltac:(lia)) as (Ew & H64 & Hal).
        eapply takes_ext; [reflexivity | intros p _; apply cseq_nil_r |]. apply (takes_read _ _ len); [| apply takes_done].
        destruct (bounded_length_inverse b len lb ub al) as [_ Ht]; [lia | lia | lia |].
        eapply takes_ext; [reflexivity | | exact Ht]. intros p _. unfold bounded_length_code, constrained_code.
        assert ((ASN_64K <=? ub) = false) as -> by lia. assert ((ub - lb + 1 =? 1) = false) as -> by lia. rewrite Ew. cbv zeta.
        destruct al; simpl negb; simpl orb; [| done]. by assert ((ub - lb + 1 <? 256) = true) as -> by (specialize (Hal eq_refl); lia).
    - rewrite andb_false_r. simpl negb in *. rewrite !orb_true_r in *. destruct (Hunb eq_refl) as [-> H16]. apply length_takes. lia. }
  destruct has_ext.
  - apply (takes_then unpack_bool _ (negb w)); [apply takes_bool | exact Hbody].
  - rewrite Hin in Hbody |- * by done. eapply takes_ext; [reflexivity | | exact Hbody]. intros p _. symmetry. apply cseq_nil_l.
Qed.

Lemma bitstring_inverse lb ub has_ext al b0 b :
  bits_wf (bs_octets b) (nof_bits b) -> prefix_ok (nof_bits b) lb ub has_ext al ->
  inverse_on (bitstring_pack lb ub has_ext al b) (bitstring_unpack lb ub has_ext al b0) b
    (prefix_code (nof_bits b) lb ub has_ext +++ realign_code lb ub al +++ field_code (bs_octets b) (nof_bits b)).
Proof.
  intros Hwf Hpre. pose proof (bf_n _ _ Hwf) as Hn. split.
  - eapply emits_ext; [reflexivity | |
      exact (emits_then _ _ _ _ (prefix_emits _ lb ub has_ext al Hpre) (bitfield_emits _ _ lb ub al Hwf))].
    intros p _. rewrite cseq_assoc. apply cseq_congr. intros q. unfold realign_code.
    destruct (al && within (nof_bits b) lb ub && negb (lb =? ub)) eqn:E.
    + assert ((al && (negb (lb =? ub) || (16 <? ub))) = true) as -> by (destruct al; [destruct (lb =? ub); [by rewrite andb_false_r in E | done] | done]).
      apply cpad_idem.
    + apply cseq_nil_l.
  - unfold bitstring_unpack. eapply takes_then; [by apply prefix_takes |]. cbv beta.
    set (before := bs_octets (bitstring_resize (nof_bits b))).
    assert (zlen before = zlen (bs_octets b)) as Hlen.
    { unfold before, bitstring_resize. simpl. rewrite (bf_len _ _ Hwf). unfold zlen. rewrite repeat_length.
      pose proof (ceil_frac_spec (nof_bits b) 8 ltac:(lia) ltac:(lia) ltac:(unfold ASN_64K in *; lia)). lia. }
    intros r tl Hr Hp. destruct (bitfield_takes _ before _ lb ub al Hwf Hlen r tl Hr Hp) as (r' & E & H). exists r'. rewrite E.
    split; [| done]. by destruct b.
Qed.

(** ** Character strings *)

(** [ceilf(log2(N))] bits, rounded up to a power of two in the aligned variant. *)
Definition get_nof_bits_per_char (lb ub : Z) (aligned : bool) : Z :=
  let b := ceilf_log2 (ub - lb + 1) in
  if aligned then 2 ^ ceilf_log2 b else b.

Definition is_octet_aligned (bits_per_char alb aub : Z) (aligned : bool) : bool :=
  let max_nof_bits := bits_per_char * aub in
  aligned && ((16 <? max_nof_bits) || (negb (alb =? aub) && (max_nof_bits =? 16))).

Definition is_length_encoded (alb aub : Z) : bool := negb (alb =? aub) || (ASN_64K <=? aub).

(** [asn_string_utils::pack]: the results of the length and of the alignment are not tested. *)
Definition asn_string_pack (s : list Z) (lb ub alb aub : Z) (ext aligned : bool) (r : bit_ref) : SRSASN_CODE * bit_ref :=
  if negb (within (zlen s) alb aub) then (SRSASN_ERROR_ENCODE_FAIL, r)
  else
    let b := get_nof_bits_per_char lb ub aligned in
    let octet_aligned := is_octet_aligned b alb aub aligned in
    r ≪- (if ext then pack 0 1 r else (SRSASN_SUCCESS, r)) ;
    let r := if is_length_encoded alb aub then snd (pack_length uint64_t (zlen s) alb aub octet_aligned r) else r in
    let r := if octet_aligned then snd (align_bytes_zero r) else r in
    pack_fixed_seq_of (fun c => pack c b) s r.

(** [asn_string_utils::unpack]: the string is resized only when the length is encoded,
    and a length that could not be read leaves [n], uninitialised, at [garbage]. *)
Definition asn_string_unpack (garbage : Z) (s : list Z) (lb ub alb aub : Z) (ext aligned : bool) (r : bit_ref)
  : SRSASN_CODE * list Z * bit_ref :=
  let b := get_nof_bits_per_char lb ub aligned in
  let octet_aligned := is_octet_aligned b alb aub aligned in
  let body r :=
    let '(s, r) :=
      if is_length_encoded alb aub then
        let '(_, n, r) := unpack_length uint64_t garbage alb aub octet_aligned r in (resize (Z.to_nat n) 0 s, r)
      else (s, r) in
    let r := if octet_aligned then snd (align_bytes r) else r in
    unpack_fixed_seq_of (fun c => unpack int8_t c b) s r
  in
  if ext then
    then_unpack (unpack_bool r) s (fun is_ext r => if is_ext then (SRSASN_ERROR_DECODE_FAIL, s, r) else body r)
  else body r.

(** [printable_string]: characters 32 to 122. *)
Definition printable_pack (s : list Z) := asn_string_pack s 32 122.
Definition printable_unpack (s : list Z) := asn_string_unpack 0 s 32 122.

(** ** Instances of the interface *)

(** A constrained integer of a fixed type, and an enumeration. *)
Program Definition integer_codec (t : int_type) (lb ub : Z) (aligned : bool) (Hb : bounds_ok t lb ub) : PerCodec Z := {|
  c_pack n := pack_constrained_whole_number t n lb ub aligned;
  c_unpack before := unpack_constrained_whole_number t before lb ub aligned;
  c_valid n := lb <= n <= ub /\ width_ok (ub - lb + 1) (n - lb) aligned;
  c_code n := constrained_code (ub - lb + 1) (n - lb) aligned
|}.
Next Obligation. intros t lb ub al Hb n [Hn Hw]. by apply constrained_emits. Qed.
Next Obligation. intros t lb ub al Hb b n [Hn Hw]. by apply constrained_takes. Qed.

Program Definition bit_codec (n : Z) (Hn : 0 <= n <= 8) : PerCodec Z := {|
  c_pack v := pack v n; c_unpack before := unpack uint8_t before n; c_valid v := 0 <= v < 2 ^ n; c_code v := cbits n v
|}.
Next Obligation. intros n Hn v _. apply emits_pack. lia. Qed.
Next Obligation. intros n Hn b v Hv. apply takes_unsigned; [lia | lia | done]. Qed.

#[export] Program Instance bitstring_codec (lb ub : Z) (has_ext al : bool) : PerCodec bitstring := {|
  c_pack := bitstring_pack lb ub has_ext al;
  c_unpack := bitstring_unpack lb ub has_ext al;
  c_valid b := bits_wf (bs_octets b) (nof_bits b) /\ prefix_ok (nof_bits b) lb ub has_ext al;
  c_code b := prefix_code (nof_bits b) lb ub has_ext +++ realign_code lb ub al +++ field_code (bs_octets b) (nof_bits b)
|}.
Next Obligation. intros lb ub he al b [H1 H2]. by apply (bitstring_inverse lb ub he al b). Qed.
Next Obligation. intros lb ub he al b0 b [H1 H2]. by apply bitstring_inverse. Qed.

(** A sequence of a [PerCodec] type, for arrays whose elements are valid. *)
Definition seq_valid {A} (C : PerCodec A) (xs : list A) (lb ub : Z) : Prop :=
  Forall c_valid xs /\ 0 <= lb <= zlen xs /\ zlen xs <= ub < 2 ^ 32 /\ (ASN_64K <= ub -> zlen xs < ASN_16K).

Lemma seq_inverse {A} (C : PerCodec A) dflt (a0 a : dyn_array A) lb ub aligned :
  dyn_wf a0 -> dyn_wf a -> seq_valid C (dyn_elements a) lb ub ->
  exists a', dyn_elements a' = dyn_elements a /\
    inverse_on (pack_dyn_seq_of c_pack a lb ub aligned) (unpack_dyn_seq_of dflt c_unpack a0 lb ub aligned) a'
      (seq_code c_code (dyn_elements a) lb ub aligned).
Proof.
  intros H0 Ha (Hv & Hl & Hu & H16). rewrite Forall_forall in Hv. pose proof (dyn_elements_len a Ha) as Hlen.
  destruct (dyn_seq_takes dflt c_unpack c_code a0 (dyn_elements a) lb ub aligned H0 Hl Hu H16) as (a' & _ & Ea & Ht).
  { intros b x Hx. apply c_takes. by apply Hv. }
  exists a'. split; [done |]. split; [| done]. apply dyn_seq_emits; [done | lia | lia | lia |].
  intros x Hx. apply c_emits. by apply Hv.
Qed.

Lemma unbounded_octets_inverse aligned (a0 a : dyn_array Z) :
  dyn_wf a0 -> dyn_wf a -> Forall (is_uint 8) (dyn_elements a) -> da_size a < ASN_16K ->
  exists a', dyn_elements a' = dyn_elements a /\
    inverse_on (unbounded_octstring_pack aligned a) (unbounded_octstring_unpack aligned a0) a'
      (length_code (da_size a) aligned +++ octets_code (dyn_elements a)).
Proof.
  intros H0 Ha Hb H16. pose proof (dyn_elements_len a Ha) as Hlen. pose proof Ha as [Hsz _].
  set (b := dyn_resize 0 a0 (da_size a) 0).
  destruct (dyn_resize_elements 0 a0 (da_size a) 0 H0 ltac:(lia)) as (Hbw & Hbs & _). fold b in Hbw, Hbs.
  pose proof (dyn_elements_len b Hbw) as Hlb. exists (dyn_overwrite b (dyn_elements a)).
  split. { apply dyn_overwrite_elements; [done | lia |]. destruct Hbw as [_ Hd]. destruct (da_data b) eqn:Ed; [by right | left].
    destruct (dyn_resize_elements 0 a0 (da_size a) 0 H0 ltac:(lia)) as ([Hc _] & _). fold b in Hc. lia. }
  split.
  - apply emits_then; [apply length_emits; lia | apply octet_list_emits].
  - unfold unbounded_octstring_unpack. eapply takes_then; [apply length_takes; lia |]. cbv beta. fold b.
    intros r tl Hr Hp. assert (length (dyn_elements b) = length (dyn_elements a)) as Hn by (unfold zlen in *; lia).
    destruct (octet_list_takes _ _ Hb Hn r tl Hr Hp) as (r' & E & H). exists r'. by rewrite E.
Qed.

(** ** Properties *)

(** Whatever the element type, if its encoder and decoder are inverse on its
    valid values then so are those of the sequence: decoding into any array gives the
    elements that were encoded, in order, and consumes exactly the bits written. *)
Theorem seq_of_roundtrip {A} (C : PerCodec A) dflt (a0 a : dyn_array A) lb ub aligned :
  dyn_wf a0 -> dyn_wf a -> seq_valid C (dyn_elements a) lb ub ->
  exists a', dyn_elements a' = dyn_elements a /\
    inverse_on (pack_dyn_seq_of c_pack a lb ub aligned) (unpack_dyn_seq_of dflt c_unpack a0 lb ub aligned) a'
      (seq_code c_code (dyn_elements a) lb ub aligned).
Proof. apply seq_inverse. Qed.

(** A sequence of bit strings of four bits. *)
Lemma seq_of_roundtrip_witness :
  let C := bitstring_codec 4 4 false true in
  let a := DynArray (Some [Bitstring [5] 4; Bitstring [9] 4]) 2 2 in
  exists a', dyn_elements a' = dyn_elements a /\
    inverse_on (pack_dyn_seq_of (@c_pack _ C) a 1 4 true)
      (unpack_dyn_seq_of (Bitstring [] 0) (@c_unpack _ C) dyn_empty 1 4 true) a'
      (seq_code (@c_code _ C) (dyn_elements a) 1 4 true).
Proof.
  apply (seq_of_roundtrip (bitstring_codec 4 4 false true) (Bitstring [] 0) dyn_empty
    (DynArray (Some [Bitstring [5] 4; Bitstring [9] 4]) 2 2) 1 4 true).
  - split; [simpl; lia | done].
  - split; [simpl; lia | done].
  - assert (prefix_ok 4 4 4 false true) as Hp.
    { split; try done; unfold UINT32_MAX; lia. }
    split.
    + change (Forall (@c_valid _ (bitstring_codec 4 4 false true)) [Bitstring [5] 4; Bitstring [9] 4]).
      constructor; [| constructor; [| constructor]]; (split; [apply bits_wf_one; simpl; lia | exact Hp]).
    + change (zlen (dyn_elements _)) with 2. unfold ASN_64K, ASN_16K. lia.
Defined.

(** A bit string is decoded to the bits and the length that were encoded,
    with fixed, bounded, extended and unbounded lengths ([prefix_ok]). *)
Theorem bitstring_roundtrip lb ub has_ext aligned before b :
  bits_wf (bs_octets b) (nof_bits b) -> prefix_ok (nof_bits b) lb ub has_ext aligned ->
  inverse_on (bitstring_pack lb ub has_ext aligned b) (bitstring_unpack lb ub has_ext aligned before) b
    (prefix_code (nof_bits b) lb ub has_ext +++ realign_code lb ub aligned +++ field_code (bs_octets b) (nof_bits b)).
Proof. apply bitstring_inverse. Qed.

(** A transport layer address: 1 to 160 bits, extensible, aligned. *)
Lemma bitstring_roundtrip_witness :
  let b := Bitstring [1; 2; 3; 127] 32 in
  inverse_on (bitstring_pack 1 160 true true b) (bitstring_unpack 1 160 true true (Bitstring [] 0)) b
    (prefix_code 32 1 160 true +++ realign_code 1 160 true +++ field_code [1; 2; 3; 127] 32).
Proof.
  apply (bitstring_roundtrip 1 160 true true (Bitstring [] 0) (Bitstring [1; 2; 3; 127] 32)).
  - split; simpl.
    + repeat constructor; unfold is_uint; lia.
    + reflexivity.
    + unfold ASN_64K. lia.
    + intros last rest [= <- <-]. vm_compute. done.
  - split; simpl; unfold UINT32_MAX, ASN_64K; try (vm_compute; intuition congruence).
Defined.

(** an octet string of less than 16K octets is decoded to its octets. *)
Theorem unbounded_octstring_roundtrip aligned (a0 a : dyn_array Z) :
  dyn_wf a0 -> dyn_wf a -> Forall (is_uint 8) (dyn_elements a) -> da_size a < ASN_16K ->
  exists a', dyn_elements a' = dyn_elements a /\
    inverse_on (unbounded_octstring_pack aligned a) (unbounded_octstring_unpack aligned a0) a'
      (length_code (da_size a) aligned +++ octets_code (dyn_elements a)).
Proof. apply unbounded_octets_inverse. Qed.

Lemma unbounded_octstring_roundtrip_witness :
  let a := DynArray (Some [17; 0; 255; 9]) 3 4 in
  exists a', dyn_elements a' = dyn_elements a /\
    inverse_on (unbounded_octstring_pack true a) (unbounded_octstring_unpack true dyn_empty) a'
      (length_code (da_size a) true +++ octets_code (dyn_elements a)).
Proof.
  apply (unbounded_octstring_roundtrip true dyn_empty (DynArray (Some [17; 0; 255; 9]) 3 4)).
  - split; [simpl; lia | done].
  - split; [simpl; lia | done].
  - simpl. repeat constructor; unfold is_uint; lia.
  - unfold ASN_16K. simpl. lia.
Defined.

(** Reading the hexadecimal text of an octet string gives its octets back, in
    any buffer of its size. *)
Theorem hex_roundtrip bytes buf :
  Forall (is_uint 8) bytes -> length buf = length bytes ->
  string_to_octstring buf 0 (octstring_to_string bytes) = Some bytes.
Proof. intros Hb Hl. apply (hex_write bytes [] buf Hb Hl). Qed.

Lemma hex_roundtrip_witness : string_to_octstring [7; 7; 7] 0 (octstring_to_string [0; 171; 255]) = Some [0; 171; 255].
Proof. apply (hex_roundtrip [0; 171; 255] [7; 7; 7]); [repeat constructor; unfold is_uint; lia | done]. Defined.

(** ** What the codecs do not preserve *)

(** The prefix of a bounded bit string is packed on [log2(ub - lb)] bits (line 1101):
    with nine lengths, three bits, and the decoder reads four. *)
Example prefix_widths :
  let r := snd (bitstring_pack 0 8 false false (Bitstring [255] 8) (mk_bit_ref (repeat 0 4) 4)) in
  snd (fst (bitstring_unpack 0 8 false false (Bitstring [] 0) (mk_bit_ref (buf r) 4))) = Bitstring [1] 1.
Proof. vm_compute. reflexivity. Qed.

(** The prefix of an unbounded aligned bit string is packed unaligned (line 1097). *)
Example prefix_alignment :
  let '(_, r) := bitstring_pack 0 UINT32_MAX false true (Bitstring [1] 1) (BitRef (repeat 0 4) 0 1 0 4) in
  fst (fst (unpack_length_prefix 0 0 UINT32_MAX false true (BitRef (buf r) 0 1 0 4))) = SRSASN_SUCCESS /\
  snd (fst (unpack_length_prefix 0 0 UINT32_MAX false true (BitRef (buf r) 0 1 0 4))) <> 1.
Proof. vm_compute. done. Qed.

(** A character string of fixed size is decoded as empty (line 1319). *)
Example fixed_string :
  let r := snd (printable_pack [65; 66] 2 2 false false (mk_bit_ref (repeat 0 4) 4)) in
  fst (printable_unpack [] 2 2 false false (mk_bit_ref (buf r) 4)) = (SRSASN_SUCCESS, []).
Proof. vm_compute. reflexivity. Qed.

(** [to_number] of a bit string of four octets takes the sign of an [int], and of five
    octets it is undefined (line 1229). *)
Example to_number_sign : bitstring_to_number [0; 0; 0; 128] 32 = Some (2 ^ 64 - 2 ^ 31).
Proof. vm_compute. reflexivity. Qed.

Example to_number_undefined : bitstring_to_number [1; 0; 0; 0; 0] 36 = None.
Proof. vm_compute. reflexivity. Qed.

(** A hexadecimal text of odd size writes past the octets reserved for it. *)
Example odd_hex : unbounded_octstring_from_string dyn_empty [49; 50; 51] = None.
Proof. vm_compute. reflexivity. Qed.
