(* ===== verification/PerExt.v ===== *)
(** * PER encoding: extension groups and open types ([lib/src/asn1/asn1_utils.cc])

    An open type is written to a buffer of its own, padded to octets and copied after
    its length; the guard objects of the code do this in their constructors and
    destructors, which are run here around the enclosed encoder or decoder. *)

From S2P Require Import Prelude AsnArrays BitRef PerCodec PerTypes.

(** ** Open types *)

(** [varlength_field_pack_guard]: [block] is the pooled buffer, whose content is
    arbitrary. No result of the copy is tested. *)
Definition varlength_pack (block : list Z) (align_ : bool) (inner : bit_ref -> SRSASN_CODE * bit_ref) (brefstart : bit_ref)
  : SRSASN_CODE * bit_ref :=
  let '(c, bref) := inner (mk_bit_ref block (zlen block)) in
  let leftover := u32 (7 - u32 (u32 (distance bref) - 1) mod 8) in
  let bref := snd (pack 0 leftover bref) in
  let nof_bytes := u32 (distance bref) / 8 in
  let brefstart := snd (pack_length_unb nof_bytes align_ brefstart) in
  (c, pack_each (take (Z.to_nat nof_bytes) (buf bref)) brefstart).

(** [varlength_field_unpack_guard]: the constructor gives the length and the stream
    at the start of the content; the destructor skips what the content left. *)
Definition varlength_open (align : bool) (bref : bit_ref) : Z * bit_ref :=
  let '(_, len, bref) := unpack_length_unb 0 align bref in (len, bref).

Definition varlength_close (len : Z) (bref0 bref : bit_ref) : bit_ref :=
  let '(_, _, bref) := unpack uint32_t 0 (u32 (len * 8 - distance_to bref bref0)) bref in bref.

Definition varlength_unpack {A} (align : bool) (inner : bit_ref -> SRSASN_CODE * A * bit_ref) (bref : bit_ref)
  : SRSASN_CODE * A * bit_ref :=
  let '(len, bref0) := varlength_open align bref in
  let '(c, x, bref) := inner bref0 in
  (c, x, varlength_close len bref0 bref).

(** ** Extension groups *)

Definition NTHRES : Z := 16.

(** [std::fill(&groups[prev], &groups[size], false)] *)
Definition fill_false (prev : Z) (a : ext_array bool) : ext_array bool :=
  ext_update (fun d => take (Z.to_nat prev) d ++ repeat false (Z.to_nat (ea_size a - prev)) ++ drop (Z.to_nat (Z.max prev (ea_size a))) d) a.

(** [ext_groups_packer_guard::operator[]], used to assign a flag. *)
Definition packer_set_group (groups : ext_array bool) (idx : Z) (present : bool) : option (ext_array bool) :=
  groups ← (if ea_size groups <=? idx then
    g ← ext_resize false NTHRES groups (idx + 1); Some (fill_false (ea_size groups) g)
  else Some groups);
  ext_set groups idx present.

(** The number of groups up to the last present one; the groups are taken from the end. *)
Fixpoint nof_groups_rev (rev_groups : list bool) : Z :=
  match rev_groups with
  | [] => 0
  | present :: rest => if present then zlen rev_groups else nof_groups_rev rest
  end.

Definition ext_groups_pack (groups : list bool) (bref : bit_ref) : SRSASN_CODE * bit_ref :=
  let nof_groups := nof_groups_rev (rev groups) in
  bref ≪- pack_norm_small_non_neg_whole_number (u32 (nof_groups - 1)) bref ;
  pack_fixed_seq_of (fun b => pack (Z.b2z b) 1) (take (Z.to_nat nof_groups) groups) bref.

Record ext_groups_unpacker := ExtGroupsUnpacker { ug_groups : ext_array bool; nof_supported_groups : Z; nof_unpacked_groups : Z }.

Definition unpacker_resize (u : ext_groups_unpacker) (new_size : Z) : option ext_groups_unpacker :=
  let prev_size := ea_size (ug_groups u) in
  g ← ext_resize false NTHRES (ug_groups u) (Z.max new_size (nof_supported_groups u));
  Some (ExtGroupsUnpacker (fill_false prev_size g) (nof_supported_groups u) (nof_unpacked_groups u)).

Definition ext_groups_unpacker_init (nof_supported : Z) : option ext_groups_unpacker :=
  unpacker_resize (ExtGroupsUnpacker (ext_empty false NTHRES) nof_supported 0) nof_supported.

(** [unpack(groups[i], 1)], in place. *)
Definition unpack_flag (before : bool) (r : bit_ref) : SRSASN_CODE * bool * bit_ref := unpack_bool r.

Definition ext_groups_unpack (u : ext_groups_unpacker) (bref : bit_ref) : option (SRSASN_CODE * ext_groups_unpacker * bit_ref) :=
  match unpack_norm_small_non_neg_whole_number uint32_t (nof_unpacked_groups u) bref with
  | (SRSASN_SUCCESS, n, bref) =>
      let n := u32 (n + 1) in
      u ← unpacker_resize (ExtGroupsUnpacker (ug_groups u) (nof_supported_groups u) n) n;
      let '(c, flags, bref) := unpack_fixed_seq_of unpack_flag (take (Z.to_nat n) (ext_elements (ug_groups u))) bref in
      Some (c, ExtGroupsUnpacker (ext_update (copy_prefix (zlen flags) flags) (ug_groups u)) (nof_supported_groups u) n, bref)
  | (c, n, bref) => Some (c, ExtGroupsUnpacker (ug_groups u) (nof_supported_groups u) n, bref)
  end.

(** The destructor skips every present group beyond the supported ones. *)
Definition ext_groups_skip (u : ext_groups_unpacker) (bref : bit_ref) : bit_ref :=
  foldl (fun bref (present : bool) =>
    if present then let '(len, bref0) := varlength_open false bref in varlength_close len bref0 bref0 else bref) bref
    (drop (Z.to_nat (nof_supported_groups u)) (take (Z.to_nat (nof_unpacked_groups u)) (ext_elements (ug_groups u)))).

(** ** Open types are read back *)

(** The octets of a buffer, as bits. *)
Lemma octets_code_bits b n p :
  Forall (is_uint 8) b -> 0 <= n <= zlen b -> octets_code (take (Z.to_nat n) b) p = bits b 0 (8 * n).
Proof.
  intros Hb Hn. assert (exists k, n = Z.of_nat k) as [k ->] by (exists (Z.to_nat n); lia). rewrite Nat2Z.id.
  assert (forall off m q, (off + m <= length b)%nat ->
    octets_code (take m (drop off b)) q = bits b (8 * Z.of_nat off) (8 * Z.of_nat m)) as H.
  { intros off m. revert off. induction m as [| m IH]; intros off q Hm.
    - by rewrite take_0.
    - destruct (lookup_lt_is_Some_2 b off ltac:(lia)) as [x Hx]. rewrite (drop_S _ x _ Hx).
      change (take (S m) (x :: drop (S off) b)) with (x :: take m (drop (S off) b)).
      change (octets_code (x :: ?l)) with (cbits 8 x +++ octets_code l). unfold cseq. rewrite IH by lia.
      replace (8 * Z.of_nat (S m)) with (8 + 8 * Z.of_nat m) by lia. rewrite bits_split by lia. f_equal.
      + symmetry. unfold cbits. apply zbits_fmap. intros i Hi. unfold bit, byte_at.
        replace ((8 * Z.of_nat off + i) / 8) with (Z.of_nat off) by lia. replace ((8 * Z.of_nat off + i) mod 8) with i by lia.
        rewrite zget_lookup, Nat2Z.id, Hx by lia. simpl default. by replace (8 - 1 - i) with (7 - i) by lia.
      + f_equal. lia. }
  specialize (H 0%nat k p). rewrite drop_0 in H. apply H. unfold zlen in Hn. lia.
Qed.

(** Operations one after the other, whose results are not tested. *)
Lemma emits_foldl {A} (f : A -> bit_ref -> SRSASN_CODE * bit_ref) (c : A -> code) l :
  (forall x, emits (f x) (c x)) -> emits (fun r => (SRSASN_SUCCESS, foldl (fun r x => snd (f x r)) r l)) (citems c l).
Proof.
  intros Hf. induction l as [| x l IH]; [apply emits_done |].
  exact (emits_snd (f x) (fun r => (SRSASN_SUCCESS, foldl (fun r x => snd (f x r)) r l)) _ _ (Hf x) IH).
Qed.

Lemma emits_each l : emits (fun r => (SRSASN_SUCCESS, pack_each l r)) (octets_code l).
Proof. apply (emits_foldl (fun b => pack b 8)). intros x. apply emits_pack. lia. Qed.

(** The code of an open type: its length in octets, its bits and their padding. *)
Definition open_code (c : code) (align : bool) : code :=
  let n := (zlen (c 0) + 7) / 8 in
  length_code n align +++ (fun _ => c 0) +++ cbits (8 * n - zlen (c 0)) 0.

Lemma distance_pos r : start_ptr r = 0 -> pos r < 2 ^ 31 -> 0 <= pos r -> distance r = pos r.
Proof. intros Hs Hp H0. unfold distance, pos in *. rewrite Hs. rewrite swrap_small by lia. lia. Qed.

Lemma varlength_emits block align inner c :
  emits inner c -> Forall (is_uint 8) block -> zlen (c 0) <= 8 * zlen block -> zlen (c 0) < 8 * ASN_16K - 8 ->
  emits (varlength_pack block align inner) (open_code c align).
Proof.
  intros Hi Hb Hroom H16. unfold ASN_16K in H16. pose proof (zlen_nonneg (c 0)) as H0.
  destruct (fresh_writer block (zlen block) Hb) as [Hw Hh]; [pose proof (zlen_nonneg block); lia |].
  destruct (Hi (mk_bit_ref block (zlen block)) Hw) as (b1 & E1 & Hw1 & (Hm1 & Hst1 & _) & Hp1 & Hh1); [done |].
  change (pos (mk_bit_ref block (zlen block))) with 0 in *. rewrite Hh in Hh1. simpl in Hm1, Hst1, Hp1, Hh1.
  set (m := zlen (c 0)) in *. set (n := (m + 7) / 8). unfold open_code, varlength_pack. fold m. fold n. rewrite E1.
  rewrite (distance_pos b1) by (done || lia). rewrite Hp1. rewrite Z.add_0_l in Hp1 |- *.
  assert (u32 (7 - u32 (u32 m - 1) mod 8) = 8 * n - m) as ->.
  { rewrite (uwrap_small 32 m) by (unfold is_uint; lia). unfold uwrap. unfold n. lia. }
  assert (8 * n <= 8 * zlen block) as Hn by (unfold n; lia).
  destruct (emits_pack (8 * n - m) 0 ltac:(unfold n; lia) b1 Hw1) as (b2 & E2 & Hw2 & (Hm2 & Hst2 & Hl2) & Hp2 & Hh2).
  { unfold cbits. rewrite zlen_zbits by (unfold n; lia). rewrite Hm1. lia. }
  rewrite E2. simpl snd. unfold cbits in Hp2, Hh2. rewrite zlen_zbits in Hp2 by (unfold n; lia). rewrite Hp1 in Hp2.
  replace (m + (8 * n - m)) with (8 * n) in Hp2 by lia.
  rewrite (distance_pos b2) by (try congruence; unfold n in *; lia). rewrite Hp2, uwrap_small by (unfold is_uint, n; lia).
  replace (8 * n / 8) with n by lia.
  eapply emits_ext; [reflexivity | |
    exact (emits_snd _ _ _ _ (length_emits n align ltac:(unfold ASN_16K, n; lia)) (emits_each (take (Z.to_nat n) (buf b2))))].
  intros p _. apply cseq_congr. intros q. destruct Hw2 as [[Hb2 Ho2 Hpt2 Hps2 Hmx2] _].
  rewrite octets_code_bits by (try done; unfold n in *; lia). unfold history in Hh2. rewrite Hp2 in Hh2. rewrite Hh2.
  unfold history in Hh1. rewrite Hh1. done.
Qed.

(** The content may not depend on where it starts, beyond the byte boundary that an
    aligned length ends at. *)
Lemma varlength_takes {A} align (inner : bit_ref -> SRSASN_CODE * A * bit_ref) x c :
  takes inner x c -> (forall p, (align = true -> p mod 8 = 0) -> c p = c 0) -> zlen (c 0) < 8 * ASN_16K - 8 ->
  takes (varlength_unpack align inner) x (open_code c align).
Proof.
  intros Hi Hc H16 r tl Hr Hp. unfold ASN_16K in H16. pose proof (zlen_nonneg (c 0)) as H0. unfold open_code in *.
  set (m := zlen (c 0)) in *. set (n := (m + 7) / 8) in *. unfold cseq at 1 in Hp. rewrite <- app_assoc in Hp.
  destruct (length_takes 0 n align ltac:(unfold ASN_16K, n; lia) r _ Hr Hp) as (r1 & E1 & Hw1 & Hs1 & Hb1 & Hp1 & Hh1).
  rewrite <- Hp1 in Hh1. unfold cseq in Hh1. rewrite <- app_assoc in Hh1.
  assert (c (pos r1) = c 0) as Hc1.
  { apply Hc. intros ->. rewrite Hp1. unfold length_code. unfold cseq. rewrite zlen_app, zlen_cpad.
    assert (forall q, zlen ((if n <? 128 then cbits 8 n else fun p => cbits 2 2 p ++ cbits 14 n (p + zlen (cbits 2 2 p))) q) mod 8 = 0) as Hq.
    { intros q. destruct (n <? 128); unfold cbits; [by rewrite zlen_zbits | by rewrite zlen_app, !zlen_zbits]. }
    specialize (Hq (pos r + pad (pos r))). unfold pad in *. lia. }
  rewrite <- Hc1 in Hh1 at 1. destruct (Hi r1 _ Hw1 Hh1) as (r2 & E2 & Hw2 & Hs2 & Hb2 & Hp2 & Hh2).
  rewrite Hc1 in Hp2. fold m in Hp2.
  unfold varlength_unpack, varlength_open. rewrite E1, E2. unfold varlength_close.
  assert (distance_to r2 r1 = m) as ->.
  { unfold distance_to. unfold pos in Hp2. rewrite swrap_small by (unfold n in *; lia). lia. }
  rewrite uwrap_small by (unfold is_uint, n; lia). replace (n * 8 - m) with (8 * n - m) by lia.
  destruct (takes_u32 0 (8 * n - m) 0 ltac:(unfold n; lia) ltac:(pose proof (Z.pow_pos_nonneg 2 (8 * n - m)); unfold n in *; lia)
    r2 tl Hw2 Hh2) as (r3 & E3 & Hw3 & Hs3 & Hb3 & Hp3 & Hh3).
  exists r3. rewrite E3. split_and!; try done.
  - eapply same_room_trans; [eassumption |]. by eapply same_room_trans.
  - congruence.
  - unfold cseq. rewrite !zlen_app. rewrite Hp3, Hp2, Hp1. unfold cbits. lia.
Qed.

(** ** Extension groups are read back *)

Definition flag_code (b : bool) : code := cbits 1 (Z.b2z b).

Lemma nof_groups_le l : 0 <= nof_groups_rev l <= zlen l.
Proof. induction l as [| b l IH]; cbn [nof_groups_rev]; [done |]. rewrite zlen_cons in *. pose proof (zlen_nonneg l). destruct b; lia. Qed.

(** Everything after the last present group is absent. *)
Lemma nof_groups_spec l : drop (Z.to_nat (nof_groups_rev (rev l))) l = repeat false (length l - Z.to_nat (nof_groups_rev (rev l))).
Proof.
  induction l as [| b l IH] using rev_ind; [done |]. rewrite rev_app_distr. cbn [rev app nof_groups_rev]. rewrite length_app.
  pose proof (nof_groups_le (rev l)) as Hle. assert (zlen (rev l) = zlen l) as El by (unfold zlen; by rewrite length_rev). rewrite El in Hle.
  destruct b.
  - rewrite zlen_cons, El. rewrite drop_ge by (rewrite length_app; unfold zlen; simpl; lia).
    replace (length l + length [true] - Z.to_nat (1 + zlen l))%nat with 0%nat by (unfold zlen; simpl; lia). done.
  - rewrite drop_app_le by (unfold zlen in *; lia). rewrite IH.
    replace (length l + length [false] - Z.to_nat (nof_groups_rev (rev l)))%nat with (length l - Z.to_nat (nof_groups_rev (rev l)) + 1)%nat
      by (unfold zlen in *; simpl; lia). by rewrite repeat_app.
Qed.

(** An array in its small buffer. *)
Definition in_small (d : list bool) (n : Z) : ext_array bool := ExtArray (SmallData d) n None.

(** Growing within the small buffer appends absent groups. *)
Lemma unpacker_resize_small d n s k m :
  zlen d = NTHRES -> 0 <= n <= Z.max m s -> Z.max m s <= NTHRES ->
  exists d', unpacker_resize (ExtGroupsUnpacker (in_small d n) s k) m = Some (ExtGroupsUnpacker (in_small d' (Z.max m s)) s k) /\
    zlen d' = NTHRES /\ take (Z.to_nat (Z.max m s)) d' = take (Z.to_nat n) d ++ repeat false (Z.to_nat (Z.max m s - n)).
Proof.
  intros Hd Hn Hm. unfold unpacker_resize, in_small. cbn [ug_groups nof_supported_groups nof_unpacked_groups ea_size].
  set (new := Z.max m s) in *. set (a := ExtArray (SmallData d) n None).
  assert (ext_resize false NTHRES a new = Some (in_small d new)) as ->.
  { unfold ext_resize, a, in_small. cbn [ea_size ea_head ea_small ext_capacity]. destruct (Z.eqb_spec new n) as [-> |]; [done |].
    cbn [mbind option_bind]. by destruct (Z.leb_spec new NTHRES); [| lia]. }
  cbn [mbind option_bind]. unfold fill_false, in_small, ext_update. cbn [ea_head ea_small ea_size].
  eexists. split; [reflexivity |]. rewrite Z.max_r by lia. unfold zlen in *. split.
  - rewrite !length_app, length_take, repeat_length, length_drop. lia.
  - rewrite app_assoc. rewrite take_app_le by (rewrite length_app, length_take, repeat_length; lia).
    apply take_ge. rewrite length_app, length_take, repeat_length. lia.
Qed.

Lemma drop_repeat_false m k j : (j = m - k)%nat -> drop k (repeat false m) = repeat false j.
Proof. intros ->. revert k. induction m as [| m IH]; intros [| k]; try done. apply IH. Qed.

Definition total_unpack (u : ext_groups_unpacker) (r : bit_ref) : SRSASN_CODE * ext_groups_unpacker * bit_ref :=
  default (SRSASN_ERROR_DECODE_FAIL, u, r) (ext_groups_unpack u r).

Lemma ext_groups_inverse s g :
  0 <= s <= NTHRES -> let n := nof_groups_rev (rev g) in 1 <= n <= NTHRES ->
  exists u u', ext_groups_unpacker_init s = Some u /\
    inverse_on (ext_groups_pack g) (total_unpack u) u' (cbits 7 (n - 1) +++ citems flag_code (take (Z.to_nat n) g)) /\
    ext_elements (ug_groups u') = take (Z.to_nat n) g ++ repeat false (Z.to_nat (Z.max n s - n)) /\ nof_unpacked_groups u' = n.
Proof.
  intros Hs n Hn. unfold NTHRES in *. assert (zlen (new_array false 16) = 16) as Hz by done.
  destruct (unpacker_resize_small (new_array false 16) 0 s 0 s Hz ltac:(lia) ltac:(unfold NTHRES; lia)) as (d & Eu & Hd & Hd0).
  exists (ExtGroupsUnpacker (in_small d (Z.max s s)) s 0).
  destruct (unpacker_resize_small d (Z.max s s) s n n Hd ltac:(lia) ltac:(unfold NTHRES; lia)) as (d' & Eu' & Hd' & Hd1).
  set (flags := take (Z.to_nat n) g). pose proof (nof_groups_le (rev g)) as Hle. fold n in Hle.
  assert (length flags = Z.to_nat n) as Hfl.
  { unfold flags. rewrite length_take. unfold zlen in Hle. rewrite length_rev in Hle. lia. }
  set (u1 := ExtGroupsUnpacker (in_small d' (Z.max n s)) s n).
  exists (ExtGroupsUnpacker (ext_update (copy_prefix (zlen flags) flags) (ug_groups u1)) s n). split; [exact Eu |]. split; [split |].
  - unfold ext_groups_pack. fold n. rewrite uwrap_small by (unfold is_uint; lia). fold flags.
    apply emits_then; [apply (norm_small_inverse uint32_t 0); simpl; lia |]. apply items_emits. intros b _. apply emits_flag.
  - intros r tl Hr Hp. unfold cseq in Hp |- *. rewrite <- app_assoc in Hp.
    destruct (norm_small_inverse uint32_t 0 (n - 1) ltac:(lia) ltac:(simpl; lia)) as [_ Ht].
    destruct (Ht r _ Hr Hp) as (r1 & E1 & Hw1 & Hs1 & Hb1 & Hp1 & Hh1). rewrite <- Hp1 in *.
    assert (length (take (Z.to_nat n) (ext_elements (ug_groups u1))) = length flags) as Hlen.
    { unfold u1, in_small, ext_elements. cbn [ug_groups ea_head ea_small ea_size]. rewrite !length_take. unfold zlen, NTHRES in *. lia. }
    destruct (items_takes unpack_flag flag_code flags _ Hlen (fun b x _ => takes_bool x) r1 tl Hw1 Hh1) as (r2 & E2 & Hw2 & Hs2 & Hb2 & Hp2 & Hh2).
    exists r2. unfold total_unpack, ext_groups_unpack. cbn [nof_unpacked_groups ug_groups nof_supported_groups]. rewrite E1.
    replace (u32 (n - 1 + 1)) with n by (rewrite uwrap_small; unfold is_uint; lia). rewrite Eu'. cbn [mbind option_bind].
    fold u1. rewrite E2. cbn [default].
    split_and!; [done | done | by eapply same_room_trans | congruence | rewrite zlen_app; lia | done].
  - cbn [ug_groups nof_unpacked_groups]. split; [| done]. unfold u1, in_small, ext_update, ext_elements. cbn [ug_groups ea_head ea_small ea_size].
    unfold copy_prefix, NTHRES in *. assert (zlen flags = n) as -> by (unfold zlen; lia).
    rewrite take_app, take_take. rewrite length_take, Hfl, Nat.min_id. rewrite (take_ge flags) by lia. f_equal.
    assert (take (Z.to_nat (Z.max n s)) d' = repeat false (Z.to_nat (Z.max n s))) as Hall.
    { rewrite Hd1. rewrite Z.max_id in *. replace (take (Z.to_nat s) d) with (repeat false (Z.to_nat s)).
      - rewrite <- repeat_app. f_equal. lia.
      - rewrite Hd0, take_0. simpl. f_equal. lia. }
    rewrite <- skipn_firstn_comm, Hall. apply drop_repeat_false. lia.
Qed.

(** ** Properties *)

(** What is written inside an open type is read back inside of it, whatever
    the pooled buffer held before; the decoder ends after the padding. The content may
    not depend on its position, beyond the byte boundary after an aligned length. *)
Theorem open_type_roundtrip {A} block align f (g : bit_ref -> SRSASN_CODE * A * bit_ref) x c :
  inverse_on f g x c -> (forall p, (align = true -> p mod 8 = 0) -> c p = c 0) ->
  Forall (is_uint 8) block -> zlen (c 0) <= 8 * zlen block -> zlen (c 0) < 8 * ASN_16K - 8 ->
  inverse_on (varlength_pack block align f) (varlength_unpack align g) x (open_code c align).
Proof. intros [He Ht] Hc Hb Hroom H16. split; [by apply varlength_emits | by apply varlength_takes]. Qed.

Lemma open_type_roundtrip_witness :
  inverse_on (varlength_pack [1; 2; 3] false (pack 300 9)) (varlength_unpack false (unpack uint16_t 0 9)) 300 (open_code (cbits 9 300) false).
Proof.
  apply (open_type_roundtrip [1; 2; 3] false (pack 300 9) (unpack uint16_t 0 9) 300 (cbits 9 300)).
  - apply (conj (emits_pack 9 300 ltac:(lia)) (takes_unsigned 16 0 9 300 ltac:(lia) ltac:(lia) ltac:(lia))).
  - reflexivity.
  - repeat constructor; unfold is_uint; lia.
  - vm_compute. discriminate.
  - vm_compute. reflexivity.
Defined.

(** The presence flags of the extension groups are decoded as they were set,
    up to the last present group; the supported groups beyond it are absent. *)
Theorem ext_groups_roundtrip nof_supported g :
  0 <= nof_supported <= NTHRES -> 1 <= nof_groups_rev (rev g) <= NTHRES ->
  exists u u', ext_groups_unpacker_init nof_supported = Some u /\
    inverse_on (ext_groups_pack g) (total_unpack u) u'
      (cbits 7 (nof_groups_rev (rev g) - 1) +++ citems flag_code (take (Z.to_nat (nof_groups_rev (rev g))) g)) /\
    ext_elements (ug_groups u') = take (Z.to_nat (nof_groups_rev (rev g))) g ++
      repeat false (Z.to_nat (Z.max (nof_groups_rev (rev g)) nof_supported - nof_groups_rev (rev g))) /\
    nof_unpacked_groups u' = nof_groups_rev (rev g).
Proof. apply ext_groups_inverse. Qed.

Lemma ext_groups_roundtrip_witness :
  exists u u', ext_groups_unpacker_init 4 = Some u /\
    inverse_on (ext_groups_pack [false; true; false]) (total_unpack u) u' (cbits 7 1 +++ citems flag_code [false; true]) /\
    ext_elements (ug_groups u') = [false; true; false; false] /\ nof_unpacked_groups u' = 2.
Proof.
  apply (ext_groups_roundtrip 4 [false; true; false]).
  - unfold NTHRES. lia.
  - vm_compute. split; discriminate.
Defined.

(** An open type of more than four octets is not skipped: the destructor reads the
    remainder into 32 bits (line 1467), which refuses more. *)
Example skip_too_long :
  let r := BitRef [5; 1; 2; 3; 4; 5; 77] 0 0 0 7 in
  let '(len, r0) := varlength_open false r in pos (varlength_close len r0 r0) = 8.
Proof. vm_compute. reflexivity. Qed.

(** No group present: the count minus one wraps, and the encoder fails after one bit. *)
Example no_group : fst (ext_groups_pack [false; false] (mk_bit_ref [0; 0] 2)) = SRSASN_ERROR_ENCODE_FAIL.
Proof. vm_compute. reflexivity. Qed.
